(* ===== verification/_CoqProject ===== *)
-Q . S2P
Prelude.v
Helper.v
Float.v
TimeIndex.v
Types.v
Upgrade.v
QuotaParams.v
QuotaTable.v
VmDb.v
Iterator.v
DexNumber.v
DexOrder.v
DexMatcher.v
DexFund.v
DexSettle.v
DexPlace.v
DexContracts.v
AccountQuota.v
Builtin.v
Opcodes.v
AccountBlock.v
CreateData.v
Abi.v
ContractUtil.v
Regexp.v
QuotaContract.v
AssetContract.v
SbpStats.v
GovernanceContract.v
Destination.v
Machine.v
Instructions.v
GasTable.v
JumpTable.v
Interpreter.v
Vm.v
World.v
DexWorld.v
ContractWorld.v
RewardSpec.v
AbiSpec.v
IteratorSpec.v
WithdrawNames.v
ContractSpec.v
QuotaContractSpec.v
QuotaCallSpec.v
DexExchange.v
DexNumberSpec.v
DexExchangeWorld.v
DexBookSpec.v
DexMatcherSpec.v
DexSpec.v
DexFundSpec.v
DexPlaceSpec.v
DexTradeSpec.v
DexExchangeSpec.v
DexLedgerSpec.v
AccountQuotaSpec.v
InstructionSafety.v
InstructionSpec.v
GasSafety.v
GasSpec.v
Safety.v
Termination.v
VmSpec.v
BuiltinSpec.v
ContractVmSpec.v
GovernanceSpec.v
GovernanceCallSpec.v
GovernanceQueries.v
AssetSpec.v
GovernanceRefinement.v
ContractWorldSpec.v
QuotaVmSpec.v
QuotaWitness.v
AssetVmSpec.v
GovernanceVmSpec.v
GovernanceWitness.v
AssetWitness.v
VmTermination.v
