(* ===== verification/Prelude.v ===== *)
(** * The Vite virtual machine and its built-in contracts

    A model of the part of go-vite that executes account blocks, of the contracts
    for quota, tokens and block producers and of the decentralized exchange built
    into it, and what they guarantee.

    ** The program

    A Vite node keeps one chain of account blocks per account and one chain of
    snapshot blocks over all of them.  To make or to check an account block it
    calls [RunV2] (src/vm/vm.go) with a database handle (src/vm_db), the block,
    and for a receive block the send block it answers.  [RunV2] reads the height
    of the latest snapshot block, which selects the prices (src/vm/util/quota.go),
    the instruction set (src/vm/jump_table.go) and the generation of the built-in
    contracts (src/vm/contracts/contracts.go) by the upgrade points
    (src/common/upgrade).  It computes the quota of the account (src/vm/quota)
    and calls a handler: send or receive a creation, a call, a reward or a
    refund.  A contract call adds the amount, runs the code in the interpreter
    (src/vm/interpreter.go), sends the blocks the code asked for, and on an error
    resets the database and refunds the caller.

    Built-in contracts are methods found by the selector of the call data: a
    [DoSend] checks the call and puts its data into canonical form when the call
    is sent, a [DoReceive] carries it out.  The data are in the binary interface
    of src/vm/abi.  The quota contract (src/vm/contracts/contracts_quota.go) locks
    VITE in favour of accounts, the asset contract (contracts_asset.go) issues and
    burns tokens, and the governance contract (contracts_governance.go) registers
    block producers against a stake, takes votes for them and pays their rewards:
    it computes them from the daily statistics of the consensus and sends the asset
    contract a request to issue VITE.

    The exchange is two built-in contracts that send each other calls.  The fund
    contract (src/vm/contracts/contracts_dex_fund.go) holds the accounts of the
    users; placing an order locks funds there and sends the order to the trade
    contract (contracts_dex_trade.go), which keeps the order books in its storage,
    matches the order (src/vm/contracts/dex/matcher.go) and sends the settlement
    back.  A book is read with a storage iterator, which merges the writes of the
    block in progress with the chain (src/common/db/merged_iterator.go).

    ** The files

    - [Prelude]: Go results as [outcome] (a value, an error or a panic), integers
      at their width ([u64], [i64], [u8]), big-endian bytes, shared lemmas.
    - [Helper]: src/common/helper, overflow-checked arithmetic, 256-bit words.
    - [Types]: addresses, hashes, token and group ids (src/common/types), account
      blocks (src/interfaces/core), error values and request blocks (src/vm/util).
    - [Upgrade]: src/common/upgrade.
    - [QuotaParams], [AccountQuota]: src/vm/quota, with the complete tables.
    - [QuotaTable]: src/vm/util/quota.go.
    - [VmDb]: src/vm_db, the write buffer over the chain, and the storage and
      balance helpers of src/vm/util/db_helper.go.
    - [Float]: binary floating point rounded to the nearest even, for the
      [big.Float], float64 and float32 of the code.
    - [TimeIndex]: cycles of time (src/ledger/consensus/core/time_index.go) and
      the consensus reader of src/vm/util.
    - [Iterator]: the merging iterator and the storage iterator of src/vm_db.
    - [DexNumber], [DexOrder], [DexMatcher], [DexFund], [DexSettle], [DexPlace]:
      src/vm/contracts/dex, in turn amounts and prices (calculator.go, utils.go),
      orders and books (order.go, leveldb_book.go, trade_helper.go), the matcher,
      accounts (fund_storage.go), settlement (fund_settle.go) and the placing of
      orders (fund_helper.go).
    - [DexContracts]: what the methods of the two contracts do on receipt.
    - [DexExchange]: both contracts with their storages and the messages between
      them, as a step relation.
    - [Builtin]: the interface of the built-in contracts, as a record;
      [ContractUtil]: what their methods share.
    - [Abi]: src/vm/abi, with values as an inductive type.
    - [QuotaContract], [AssetContract], [GovernanceContract]: contracts_quota.go,
      contracts_asset.go, contracts_governance.go and their definitions in
      src/vm/contracts/abi; [SbpStats]: the statistics of producers that rewards
      are computed from; [Regexp]: the regular expressions of names, by
      derivatives.
    - [Opcodes], [Destination], [Machine], [Instructions], [GasTable],
      [JumpTable], [Interpreter]: the files of src/vm of the same name; [Machine]
      has stack.go, memory.go, contract.go and their tables.
    - [AccountBlock]: hashing, copying and the protobuf form of account blocks.
    - [CreateData]: contract-creation data (src/vm/util/common.go).
    - [Vm]: src/vm/vm.go, one definition per handler in a state and error monad
      over the database and the list of blocks to send.
    - [World], [DexWorld], [DexExchangeWorld], [ContractWorld]: a concrete chain,
      node, contracts, market and exchange to run the model on;
      [example_cycle_runs] places, matches and settles an order.
    - [AbiSpec], [ContractSpec], [QuotaContractSpec], [QuotaCallSpec],
      [AssetSpec]: the binary interface and two of the contracts; [RewardSpec],
      [WithdrawNames], [GovernanceSpec], [GovernanceCallSpec],
      [GovernanceQueries], [GovernanceRefinement]: the governance contract, in
      turn rewards, lists of withdraw addresses, stored and accepted values, the
      invariant, the queries and the methods; [BuiltinSpec], [ContractVmSpec],
      [QuotaVmSpec], [AssetVmSpec], [GovernanceVmSpec]: blocks of the contracts in
      the virtual machine, with the class [MethodTable] for what a contract
      promises about its methods; [ContractWorldSpec], [QuotaWitness],
      [AssetWitness], [GovernanceWitness]: the theorems on the concrete chain.
    - [IteratorSpec], [DexNumberSpec], [DexBookSpec], [DexMatcherSpec], [DexSpec],
      [DexFundSpec], [DexPlaceSpec], [DexTradeSpec], [DexExchangeSpec],
      [DexLedgerSpec], [AccountQuotaSpec], [InstructionSafety], [InstructionSpec],
      [GasSafety], [GasSpec], [Safety], [Termination], [VmSpec], [VmTermination]:
      proofs.  The theorems about one file alone are at the end of that file.

    ** What is shown

    - Tokens: a contract call that succeeds moves exactly what it receives and
      sends ([contract_call_conserves]); one that fails is undone and refunded,
      unless it is beyond the depth limit, where the amount stays with the
      contract ([failed_call_refunded]); transfers and creations charge exactly
      ([transfer_exact], [creation_charges]).
    - Termination: a run takes at most 1025 rounds per unit of quota and of
      refunds pending ([run_terminates]), storage refunds never exceed what was
      charged ([run_never_gains_quota]), and so processing any block ends
      ([block_terminates]).
    - Safety of the interpreter: [inv] of [InstructionSafety] holds in every
      state ([run_keeps_invariant]), and the only panics left are listed
      ([run_panics_outside]).  Each table entry is proved safe once ([op_spec]),
      for all six instruction sets.
    - The quota contract refines a ledger of stakes ([staking_refines]); through
      every history of its account it owns what it owes ([quota_solvent]), and a
      stake that is due can be taken back ([due_stake_returned]).
    - The asset contract refines a registry of tokens ([asset_refines]); through
      every history the recorded supply is what exists of a token, and for VITE,
      which the fees consume, no less ([supply_is_circulation]), and its queries are exact
      ([token_queries_exact]).
    - The governance contract refines a register of producers and votes: it
      grants exactly the requests that the specification grants, and refuses the
      others ([governance_refines]); through every history it owns all stakes, and a
      producing address belongs to one registration of a group
      ([stakes_covered]); after the lock-up the stake is always repaid
      ([expired_stake_repaid]).  The candidates and votes that the consensus reads
      are those of the register ([election_reads_exact]).  From the upgrade Earth on
      every call keeps the lists of producers by withdraw address in step with
      the register ([withdraw_lists_exact]).
    - Rewards: a producer is paid exactly the complete cycles that are due
      ([rewards_exact]), in parts or at once ([withdrawals_add_up]), and all
      together at most the reward per block for each block
      ([cycle_rewards_bounded]).
    - The binary interface: call data reads back ([abi_roundtrip]), and decoding
      is safe on any data ([abi_decoding_safe]), for types of at most 32 fixed
      bytes.
    - The exchange as a whole: in every interleaving of the two contracts the
      locked funds cover all open orders and all messages in flight
      ([exchange_stays_covered]), so that no settlement falls short and each is
      carried out exactly ([settlements_exact]), and an owner can always cancel
      and get back what is locked ([owner_can_cancel]).  The fund contract
      refines a ledger of entries ([fund_refines_ledger]); its operations on
      accounts are exact ([account_operations_exact]).
    - The matcher: a match conserves tokens, stays within what its orders locked
      and within their limits ([match_conserves_tokens],
      [match_keeps_funds_covered], [match_trades_within_limits]), for all order
      types and both fee regimes.  Reading the book through iterators does what
      matching a sorted list does ([matching_reads_sorted_book]); order ids sort
      in order of priority and prices, of bounded length, keep their order as bytes
      ([order_ids_in_priority], [price_bytes_ordered], [price_roundtrip]).
    - Iterators: a merged scan lists the layered map
      ([merged_scan_lists_layers]), and in the middle of a block it lists what
      single reads find ([storage_iteration_agrees]).
    - Time: indices are cycles on whole seconds, and rewards leave no cycle out
      ([time_index_partition], [reward_cycles]).
    - Code analysis: the bitmap of push data, the jump test and the scan for
      state-reading opcodes are exact.
    - Instructions and prices against arithmetic on words and memory fees.
    - Quota of accounts: the searches are counts, the quota of a block is a
      bucket, the recommended stake and difficulty are least.
    - Blocks: wire format and creation data read back, the previous hash of a
      first block apart, and the hash source is injective.
    - Upgrade points and write buffer: order of forks, coherence, reset.
    - Divergences the model exposed are stated as theorems:
      [call_data_read_before_resize], [memory_square_wraps], [sar_zero_by_256],
      [copy_doubles_sends], [testnet_recommendation_short],
      [expired_order_released_twice], [prev_after_next_skips],
      [last_nanosecond_rounds_up], [first_day_is_complete],
      [string_list_not_decoded], [negative_int256_wraps],
      [old_stake_shortens_lock], [early_withdrawal_moves_back].

    ** How the model relates to the code

    - A [*big.Int] is its value, an option where the code may meet nil.  The pool
      that recycles the integers (src/vm/util/intpool.go) has no counterpart: an
      instruction that keeps a popped integer and one that recycles it are the
      same here.
    - Indexing, slicing and division of package big panic as in Go ([go_index],
      [go_slice], [big_Div]), and the proofs show where they cannot.
    - A panic is a value and is never caught, except where the code recovers: in
      [OffChainReader] and in the computation of rewards.
    - Code outside the sources or behind an interface is an argument: the chain
      ([Chain]), the hash functions, the consensus status ([GlobalStatus]), how
      far Go's append grows a slice ([grow], at least what is asked), when the
      run is canceled ([abort]), and, for the theorems about the machine itself,
      the methods of the built-in contracts ([BuiltinContractMethod]).  What is assumed of them is in [env_ok],
      [db_ok], [receive_ok] and the class [BuiltinLaws]: hashes have 32 bytes,
      balances are words, a built-in [DoSend] moves no tokens and changes only
      the data of its block.  The iterators below the merging one are the class
      [StorageIterator] with the laws [ForwardLaws], and what the chain iterates
      over is [chain_iterates].
    - The theorems about the quota, asset and governance contracts ask that the
      selectors of their methods differ ([abi_selectors]), which holds of the hash function in
      use and is computed for the concrete one of [ContractWorld].  A history
      ([quota_history], [asset_history], [gov_history]) is a list of receive blocks,
      each of a request that was sent through the machine; that what a request
      brings was in circulation is an assumption on the other accounts
      ([ar_brings]).
    - The governance contract reads the statistics of producers from the consensus
      through [ConsensusReader], a parameter.  [reads_work] says that its database
      and the chain answer, [day_ok] that a producer has at most as many blocks as
      expected and that the totals are sums.  The hash in the key of a registration
      may collide: two names with one key are one registration, and the lists of
      withdraw addresses are shown for requests without a collision
      ([undisputed]).  The list of
      producing addresses grows by at most one in a block; below 2^50 blocks the
      stored registration reads back.
    - In the exchange the protobuf library is a pair of functions per message;
      [exchange_codecs] says that a message reads back.  A method takes the
      arguments that the ABI has unpacked.  Pointers to accounts and orders are
      replaced by returning the changed value; the code never changes one through
      two pointers.
    - The exchange is considered above the fee upgrade.  The release of expired
      orders, which [expired_order_released_twice] shows to be unsound and which
      version 11 has switched off, is modelled but is not a step of the exchange,
      and neither is the opening of markets.  An order id has room for times below
      2^40 and serial numbers below 2^24 ([clock_ok]).
    - Fuel: [runLoop], the binary search of the quota tables and the loop of
      [calcStakeTargetParam] take fuel.  [run_terminates] and [block_terminates]
      give the amount that is enough for the first; the search has the length of
      its interval, which every round shortens; for the loop two tests are
      enough ([difficulty_recommendation_least]).  Scans of the storage take
      [scan_fuel] rounds; more than the number of entries is enough
      ([merged_scan_lists_layers], [matching_reads_sorted_book]).

    ** What is not modelled

    Of the fund contract: opening markets, staking, unlocking VX, mining,
    dividends, invitations and administration, and what a method checks when it is
    sent.  How the consensus elects producers from candidates and votes and how it
    collects their statistics; [delegateCall] and the instructions no instruction
    set contains; the text formats of addresses; the reflection that
    copies decoded values into Go structs; logging, monitoring and debug output;
    and the parts of the node around the virtual machine, which are goroutines,
    disk and network access: chain storage, pool, consensus, network, wallet,
    RPC. *)
From Stdlib Require Export ZArith Lia.
From Stdlib Require Export Strings.Byte.
From stdpp Require Export prelude gmap list numbers.

#[global] Open Scope Z_scope.

(** ** Go results *)

(** The run-time panics the modelled code can raise. *)
Inductive go_panic :=
| PIndex      (* index out of range *)
| PSlice      (* slice bounds out of range *)
| PStoreEmpty (* "invalid memory: store empty" *)
| PDb         (* util.DealWithErr on a database error *)
| PNil        (* nil pointer dereference *)
| PCanceled   (* util.ErrExecutionCanceled *)
| PUpgrade    (* "upgrade is nil", malformed upgrade box *)
| PDivZero    (* division by zero *)
| PDex        (* panic(err) in package dex *)
| PReflect    (* a method of package reflect on a value of another kind *)
| PStarved.   (* not Go's: the model's bound on a scan was too small *)

(** A Go call that returns a value, returns an error, or panics. *)
Inductive outcome (E A : Type) :=
| Ok (a : A)
| Err (e : E)
| Panic (p : go_panic).
Arguments Ok {E A} a.
Arguments Err {E A} e.
Arguments Panic {E A} p.

#[export] Instance outcome_ret E : MRet (outcome E) := fun _ a => Ok a.
#[export] Instance outcome_bind E : MBind (outcome E) := fun _ _ f m =>
  match m with
  | Ok a => f a
  | Err e => Err e
  | Panic p => Panic p
  end.
#[export] Instance outcome_fmap E : FMap (outcome E) := fun _ _ f m =>
  match m with
  | Ok a => Ok (f a)
  | Err e => Err e
  | Panic p => Panic p
  end.

(** Binding a finished computation runs the continuation on its value. *)
Lemma bind_Ok {E A B} (a : A) (f : A -> outcome E B) : Ok a ≫= f = f a.
Proof. done. Qed.

Lemma Ok_inj {E A} (a b : A) : (Ok a : outcome E A) = Ok b -> a = b.
Proof. congruence. Qed.

Lemma outcome_bind_ok {E A B} (m : outcome E A) (f : A -> outcome E B) b :
  m ≫= f = Ok b <-> exists a, m = Ok a /\ f a = Ok b.
Proof. destruct m; naive_solver. Qed.

Lemma outcome_bind_panic {E A B} (m : outcome E A) (f : A -> outcome E B) p :
  m ≫= f = Panic p <-> m = Panic p \/ exists a, m = Ok a /\ f a = Panic p.
Proof. destruct m; naive_solver. Qed.

Lemma outcome_bind_err {E A B} (m : outcome E A) (f : A -> outcome E B) e :
  m ≫= f = Err e <-> m = Err e \/ exists a, m = Ok a /\ f a = Err e.
Proof. destruct m; naive_solver. Qed.

(** Lifting an optional read: [None] is the given panic. *)
Definition or_panic {E A} (p : go_panic) (o : option A) : outcome E A :=
  match o with Some a => Ok a | None => Panic p end.

(** Split a hypothesis about a bind into one about each step. *)
Ltac inv_bind :=
  repeat match goal with
  | H : _ ≫= _ = Ok _ |- _ =>
      apply outcome_bind_ok in H; let a := fresh "a" in destruct H as (a & ? & H)
  | H : (if ?b then _ else _) = Ok _ |- _ =>
      let E := fresh "E" in destruct b eqn:E; try discriminate H
  end; simplify_eq/=.

(** ** Fixed-width integers *)

(** [uint64] and [int64] values are [Z]; these are the conversions that Go
    applies after every operation on them. *)
Definition MaxUint64 : Z := 2 ^ 64 - 1.
Definition u64 (z : Z) : Z := z mod 2 ^ 64.
Definition i64 (z : Z) : Z := (z + 2 ^ 63) mod 2 ^ 64 - 2 ^ 63.
Definition u8 (z : Z) : Z := z mod 2 ^ 8.
Definition is_u64 (z : Z) : Prop := 0 <= z < 2 ^ 64.
Definition is_u256 (z : Z) : Prop := 0 <= z < 2 ^ 256.

Lemma u64_range z : 0 <= u64 z < 2 ^ 64.
Proof. apply Z.mod_pos_bound; lia. Qed.

Lemma u64_small z : is_u64 z -> u64 z = z.
Proof. intros H; apply Z.mod_small, H. Qed.

Lemma i64_small z : - 2 ^ 63 <= z < 2 ^ 63 -> i64 z = z.
Proof. intros H; unfold i64; rewrite Z.mod_small; lia. Qed.

Lemma i64_u64 z : - 2 ^ 63 <= z < 2 ^ 63 -> i64 (z mod 2 ^ 64) = z.
Proof. intros H; unfold i64; rewrite Zplus_mod_idemp_l, Z.mod_small; lia. Qed.

Lemma u64_le z : 0 <= z -> u64 z <= z.
Proof. intros H; apply Z.mod_le; lia. Qed.

(** ** Bytes *)

#[export] Instance byte_eq_decision : EqDecision byte := Byte.byte_eq_dec.
#[export] Program Instance byte_countable : Countable byte :=
  {| encode b := encode (Byte.to_N b); decode p := decode p ≫= Byte.of_N |}.
Next Obligation. intros b; simpl; rewrite decode_encode; apply Byte.of_to_N. Qed.

Definition byte_Z (b : byte) : Z := Z.of_N (Byte.to_N b).

(** Go's conversion [byte(z)]. *)
Definition Z_byte (z : Z) : byte :=
  match Byte.of_N (Z.to_N (u8 z)) with Some b => b | None => x00 end.

Lemma byte_Z_range b : 0 <= byte_Z b < 256.
Proof.
  unfold byte_Z; pose proof (Byte.to_N_bounded b); lia.
Qed.

Lemma byte_Z_byte z : byte_Z (Z_byte z) = z mod 256.
Proof.
  unfold byte_Z, Z_byte, u8; change (2 ^ 8) with 256.
  pose proof (Z.mod_pos_bound z 256 ltac:(lia)).
  destruct (Byte.of_N _) as [b|] eqn:E.
  - apply Byte.to_of_N in E; rewrite E; lia.
  - apply Byte.of_N_None_iff in E; lia.
Qed.

Lemma Z_byte_Z b : Z_byte (byte_Z b) = b.
Proof.
  unfold Z_byte, u8, byte_Z; pose proof (Byte.to_N_bounded b).
  change (2 ^ 8) with 256.
  rewrite Z.mod_small, N2Z.id, Byte.of_to_N by lia; reflexivity.
Qed.

Lemma byte_Z_inj b1 b2 : byte_Z b1 = byte_Z b2 -> b1 = b2.
Proof. intros H; rewrite <- (Z_byte_Z b1), H; apply Z_byte_Z. Qed.

Abbreviation bytes := (list byte).

Definition zero_bytes (n : nat) : bytes := replicate n x00.

(** Big-endian value of a byte string ([big.Int.SetBytes]). *)
Definition SetBytes (bs : bytes) : Z :=
  fold_left (fun acc b => acc * 256 + byte_Z b) bs 0.

(** The [n] low-order bytes of [x], most significant first. *)
Fixpoint be_bytes (n : nat) (x : Z) : bytes :=
  match n with
  | O => []
  | S n' => be_bytes n' (x / 256) ++ [Z_byte x]
  end.

(** [big.Int.BitLen] and [big.Int.Bytes] (of the absolute value). *)
Definition BitLen (x : Z) : Z := if x =? 0 then 0 else Z.log2 (Z.abs x) + 1.
Definition Bytes (x : Z) : bytes :=
  be_bytes (Z.to_nat ((BitLen x + 7) / 8)) (Z.abs x).

(** [big.Int.Uint64], [big.Int.Int64]: the low 64 bits of the magnitude. *)
Definition Uint64 (x : Z) : Z := u64 (Z.abs x).
Definition Int64 (x : Z) : Z :=
  let v := i64 (Z.abs x) in if x <? 0 then i64 (- v) else v.

(** [big.Int.Div] and [big.Int.Mod] are Euclidean, [big.Int.Quo] truncates; all
    panic when the divisor is zero. *)
Definition big_Div {E} (x y : Z) : outcome E Z :=
  if y =? 0 then Panic PDivZero else Ok (if y <? 0 then - (x / - y) else x / y).
Definition big_Mod {E} (x y : Z) : outcome E Z :=
  if y =? 0 then Panic PDivZero else Ok (x mod Z.abs y).
Definition big_Quo {E} (x y : Z) : outcome E Z :=
  if y =? 0 then Panic PDivZero else Ok (Z.quot x y).

Lemma big_Div_pos {E} x y : 0 < y -> @big_Div E x y = Ok (x / y).
Proof. intros; unfold big_Div; destruct (Z.eqb_spec y 0), (Z.ltb_spec y 0); done || lia. Qed.
Lemma big_Mod_pos {E} x y : 0 < y -> @big_Mod E x y = Ok (x mod y).
Proof. intros; unfold big_Mod; destruct (Z.eqb_spec y 0); [lia|]; by rewrite Z.abs_eq by lia. Qed.
Lemma big_Quo_pos {E} x y : 0 <= x -> 0 < y -> @big_Quo E x y = Ok (x / y).
Proof. intros; unfold big_Quo; destruct (Z.eqb_spec y 0); [lia|]; by rewrite Z.quot_div_nonneg. Qed.

Lemma length_be_bytes n x : length (be_bytes n x) = n.
Proof.
  revert x; induction n as [|n IH]; intros x; simpl; [done|].
  rewrite length_app, IH; simpl; lia.
Qed.

Lemma SetBytes_app bs1 bs2 :
  SetBytes (bs1 ++ bs2) = SetBytes bs1 * 256 ^ Z.of_nat (length bs2) + SetBytes bs2.
Proof.
  unfold SetBytes; induction bs2 as [|b bs2 IH] using rev_ind; simpl.
  - rewrite app_nil_r; lia.
  - rewrite app_assoc, (fold_left_app _ (bs1 ++ bs2)), (fold_left_app _ bs2).
    simpl; rewrite IH, length_app; simpl.
    replace (Z.of_nat (length bs2 + 1)) with (Z.succ (Z.of_nat (length bs2))) by lia.
    rewrite Z.pow_succ_r by lia; lia.
Qed.

Lemma SetBytes_snoc bs b : SetBytes (bs ++ [b]) = SetBytes bs * 256 + byte_Z b.
Proof. rewrite SetBytes_app; simpl; unfold SetBytes at 2; simpl; lia. Qed.

Lemma SetBytes_range bs : 0 <= SetBytes bs < 256 ^ Z.of_nat (length bs).
Proof.
  induction bs as [|b bs IH] using rev_ind; [done|].
  rewrite SetBytes_snoc, length_app; simpl.
  replace (Z.of_nat (length bs + 1)) with (Z.succ (Z.of_nat (length bs))) by lia.
  rewrite Z.pow_succ_r by lia; pose proof (byte_Z_range b); lia.
Qed.

Lemma SetBytes_be_bytes n x : SetBytes (be_bytes n x) = x mod 256 ^ Z.of_nat n.
Proof.
  revert x; induction n as [|n IH]; intros x; simpl be_bytes.
  - rewrite Z.mod_1_r; done.
  - rewrite SetBytes_snoc, IH, byte_Z_byte, Nat2Z.inj_succ, Z.pow_succ_r by lia.
    rewrite Z.rem_mul_r by lia; lia.
Qed.

Lemma be_bytes_SetBytes bs : be_bytes (length bs) (SetBytes bs) = bs.
Proof.
  induction bs as [|b bs IH] using rev_ind; [done|].
  rewrite length_app, Nat.add_1_r; simpl.
  pose proof (byte_Z_range b).
  rewrite SetBytes_snoc, Z.div_add_l, (Z.div_small (byte_Z b)), Z.add_0_r, IH by lia.
  do 2 f_equal; apply byte_Z_inj; rewrite byte_Z_byte.
  rewrite Z.add_comm, Z.mod_add, Z.mod_small by lia; done.
Qed.

Lemma SetBytes_zeros n : SetBytes (zero_bytes n) = 0.
Proof.
  unfold zero_bytes; induction n as [|n IH]; [done|].
  replace (replicate (S n) x00) with (replicate n x00 ++ [x00])
    by (rewrite <- replicate_S_end; done).
  rewrite SetBytes_snoc, IH; done.
Qed.

Lemma BitLen_bounds x : 0 <= BitLen x /\ Z.abs x < 2 ^ BitLen x.
Proof.
  unfold BitLen; destruct (Z.eqb_spec x 0) as [->|Hx]; [done|].
  pose proof (Z.log2_spec (Z.abs x) ltac:(lia)) as [_ H].
  pose proof (Z.log2_nonneg (Z.abs x)).
  rewrite Z.add_1_r; lia.
Qed.

Lemma BitLen_le x n : 0 <= n -> Z.abs x < 2 ^ n -> BitLen x <= n.
Proof.
  intros Hn Hx; unfold BitLen; destruct (Z.eqb_spec x 0) as [->|Hx0]; [done|].
  destruct (Z.eq_dec n 0) as [->|]; [simpl in Hx; lia|].
  assert (Z.log2 (Z.abs x) < n) by (apply Z.log2_lt_pow2; lia); lia.
Qed.

Lemma BitLen_gt x n : 0 <= n -> n < BitLen x <-> 2 ^ n <= Z.abs x.
Proof.
  intros Hn; split; intros H.
  - destruct (Z.lt_ge_cases (Z.abs x) (2 ^ n)); [|done].
    pose proof (BitLen_le x n Hn ltac:(done)); lia.
  - pose proof (BitLen_bounds x) as [? ?].
    destruct (Z.lt_ge_cases n (BitLen x)); [done|].
    assert (2 ^ BitLen x <= 2 ^ n) by (apply Z.pow_le_mono_r; lia); lia.
Qed.

(** [SetBytes] undoes [Bytes]: a byte string written to storage reads back as
    the word it was. *)
Lemma SetBytes_Bytes x : 0 <= x -> SetBytes (Bytes x) = x.
Proof.
  intros Hx; unfold Bytes; rewrite SetBytes_be_bytes, Z.abs_eq by done.
  pose proof (BitLen_bounds x) as [? Hb]; rewrite Z.abs_eq in Hb by done.
  apply Z.mod_small; split; [done|].
  apply Z.lt_le_trans with (2 ^ BitLen x); [done|].
  change 256 with (2 ^ 8); rewrite <- Z.pow_mul_r by lia.
  apply Z.pow_le_mono_r; [lia|]; Z.to_euclidean_division_equations; lia.
Qed.

Lemma Bytes_inj x y : 0 <= x -> 0 <= y -> Bytes x = Bytes y -> x = y.
Proof.
  intros Hx Hy H; rewrite <- (SetBytes_Bytes x), <- (SetBytes_Bytes y) by done.
  by rewrite H.
Qed.

Lemma Bytes_nil x : 0 <= x -> Bytes x = [] <-> x = 0.
Proof.
  intros Hx; split; [|by intros ->].
  intros H; rewrite <- (SetBytes_Bytes x), H by done; done.
Qed.

Lemma length_Bytes_u256 x : is_u256 x -> (length (Bytes x) <= 32)%nat.
Proof.
  intros [? ?]; unfold Bytes; rewrite length_be_bytes.
  pose proof (BitLen_le x 256 ltac:(lia) ltac:(lia)).
  pose proof (BitLen_bounds x) as [? _].
  Z.to_euclidean_division_equations; lia.
Qed.

Lemma SetBytes_u256 bs : (length bs <= 32)%nat -> is_u256 (SetBytes bs).
Proof.
  intros H; pose proof (SetBytes_range bs) as [? ?]; split; [done|].
  apply Z.lt_le_trans with (256 ^ Z.of_nat (length bs)); [done|].
  change (2 ^ 256) with (256 ^ 32); apply Z.pow_le_mono_r; lia.
Qed.

(** ** Filtering *)

Lemma filter_all {A} (P : A -> Prop) `{forall x, Decision (P x)} l :
  Forall P l -> filter P l = l.
Proof. induction 1 as [|x l Hx _ IH]; [done|]; rewrite filter_cons_True by done; by rewrite IH. Qed.

Lemma filter_none {A} (P : A -> Prop) `{forall x, Decision (P x)} l :
  Forall (fun x => ~ P x) l -> filter P l = [].
Proof. induction 1 as [|x l Hx _ IH]; [done|]; by rewrite filter_cons_False. Qed.

(** ** Sums *)

Definition zsum {A} (f : A -> Z) (l : list A) : Z := foldr (fun x s => f x + s) 0 l.

Lemma zsum_cons {A} (f : A -> Z) x l : zsum f (x :: l) = f x + zsum f l.
Proof. done. Qed.

Lemma zsum_app {A} (f : A -> Z) l1 l2 : zsum f (l1 ++ l2) = zsum f l1 + zsum f l2.
Proof. induction l1 as [|x l1 IH]; simpl; [done|]; rewrite IH; lia. Qed.

Lemma zsum_nonneg {A} (f : A -> Z) l : (forall x, x ∈ l -> 0 <= f x) -> 0 <= zsum f l.
Proof.
  induction l as [|x l IH]; simpl; [done|]; intros H; assert (0 <= f x) by (apply H, elem_of_cons; by left).
  enough (0 <= zsum f l) by lia; apply IH; intros y Hy; apply H, elem_of_cons; by right.
Qed.

#[export] Instance zsum_permutation {A} (f : A -> Z) : Proper ((≡ₚ) ==> eq) (zsum f).
Proof. intros l1 l2 H; induction H; simpl; lia. Qed.

Lemma zsum_le_split {A} `{EqDecision A} (f : A -> Z) (ids B : list A) :
  NoDup ids -> (forall x, x ∈ B -> 0 <= f x) ->
  zsum f ids <= zsum f B + zsum f (filter (fun x => x ∉ B) ids).
Proof.
  intros Hnd Hpos; rewrite <- (filter_app_complement (fun x => x ∈ B) ids) at 1; rewrite zsum_app.
  enough (zsum f (filter (fun x => x ∈ B) ids) <= zsum f B) by lia.
  assert (Hsub : filter (fun x => x ∈ B) ids ⊆+ B).
  { apply NoDup_submseteq; [by apply list.NoDup_filter|]; intros x [Hx _]%list_elem_of_filter; done. }
  apply submseteq_Permutation in Hsub as [r Hr]; rewrite Hr, zsum_app.
  enough (0 <= zsum f r) by lia; apply zsum_nonneg; intros x Hx; apply Hpos; rewrite Hr; apply elem_of_app; by right.
Qed.

Lemma zsum_ext {A} (f g : A -> Z) l : (forall x, x ∈ l -> f x = g x) -> zsum f l = zsum g l.
Proof.
  induction l as [|x l IH]; intros H; simpl; [done|]; rewrite (H x) by (apply elem_of_cons; by left).
  rewrite IH; [done|]; intros y Hy; apply H, elem_of_cons; by right.
Qed.

Lemma zsum_fmap {A B} (f : B -> Z) (g : A -> B) l : zsum f (g <$> l) = zsum (fun x => f (g x)) l.
Proof. induction l as [|x l IH]; simpl; [done|]; by rewrite <- IH. Qed.

Lemma zsum_zero {A} (f : A -> Z) l : (forall x, x ∈ l -> f x = 0) -> zsum f l = 0.
Proof. intros H; rewrite (zsum_ext f (fun _ => 0) l H); clear H; induction l; simpl; lia. Qed.

Lemma zsum_one {A} `{EqDecision A} (f : A -> Z) (k : A) (w : Z) ids : (forall x, f x = if decide (x = k) then w else 0) ->
  0 <= w -> NoDup ids -> zsum f ids <= w.
Proof.
  intros Hf Hw Hnd; etransitivity; [apply (zsum_le_split _ _ [k]); [done|]|].
  - intros x ->%list_elem_of_singleton; by rewrite Hf, decide_True.
  - rewrite zsum_cons, Hf, decide_True by done; rewrite (zsum_zero _ (filter _ _)); [change (zsum _ []) with 0; lia|].
    intros x [Hx _]%list_elem_of_filter; rewrite list_elem_of_singleton in Hx; by rewrite Hf, decide_False.
Qed.

Lemma zsum_add {A} (f g : A -> Z) l : zsum (fun x => f x + g x) l = zsum f l + zsum g l.
Proof. induction l as [|x l IH]; simpl; lia. Qed.

Lemma zsum_swap {A B} (f : A -> B -> Z) l1 l2 :
  zsum (fun x => zsum (f x) l2) l1 = zsum (fun y => zsum (fun x => f x y) l1) l2.
Proof.
  induction l1 as [|x l1 IH]; simpl; [by rewrite (zsum_zero (fun _ => 0))|].
  by rewrite IH, <- zsum_add.
Qed.

Lemma zsum_at_key {V} (f : V -> Z) (m : gmap bytes V) a :
  zsum (fun kv => if bool_decide (a = kv.1) then f kv.2 else 0) (map_to_list m) = from_option f 0 (m !! a).
Proof.
  induction m as [|k v m Hk IH] using map_ind; [by rewrite map_to_list_empty, lookup_empty|].
  rewrite map_to_list_insert by done; rewrite zsum_cons, IH, lookup_insert; cbn [fst snd].
  case_decide as E; [subst k; rewrite bool_decide_eq_true_2, Hk by done; simpl; lia|].
  by rewrite bool_decide_eq_false_2 by congruence.
Qed.

(** The sum over a finite map. *)
Definition msum {V} (f : bytes -> V -> Z) (m : gmap bytes V) : Z :=
  zsum (fun kv => f kv.1 kv.2) (map_to_list m).

Lemma msum_insert {V} (f : bytes -> V -> Z) m k v : m !! k = None -> msum f (<[k := v]> m) = f k v + msum f m.
Proof. intros H; unfold msum; by rewrite map_to_list_insert. Qed.

Lemma msum_delete {V} (f : bytes -> V -> Z) m k v : m !! k = Some v -> msum f m = f k v + msum f (delete k m).
Proof.
  intros H; rewrite <- (insert_id m k v H) at 1; rewrite <- insert_delete_eq.
  apply msum_insert, lookup_delete_eq.
Qed.

Lemma msum_update {V} (f : bytes -> V -> Z) m k v :
  msum f (<[k := v]> m) = f k v + msum f m - from_option (f k) 0 (m !! k).
Proof.
  destruct (m !! k) as [w|] eqn:E; simpl; [|rewrite msum_insert by done; lia].
  rewrite <- insert_delete_eq, msum_insert by apply lookup_delete_eq; rewrite (msum_delete f m k w E); lia.
Qed.

Lemma msum_nonneg {V} (f : bytes -> V -> Z) m : (forall k v, m !! k = Some v -> 0 <= f k v) -> 0 <= msum f m.
Proof. intros H; apply zsum_nonneg; intros [k v] Hin%elem_of_map_to_list; by apply H. Qed.

Lemma msum_le {V} (f : bytes -> V -> Z) m k v : (forall k v, m !! k = Some v -> 0 <= f k v) -> m !! k = Some v ->
  f k v <= msum f m.
Proof.
  intros H E; rewrite (msum_delete f m k v E).
  enough (0 <= msum f (delete k m)) by lia.
  apply msum_nonneg; intros k' v' [_ E']%lookup_delete_Some; by apply H.
Qed.

Lemma msum_empty {V} (f : bytes -> V -> Z) : msum f ∅ = 0.
Proof. unfold msum; by rewrite map_to_list_empty. Qed.

Lemma msum_le_sum {V} (f g : bytes -> V -> Z) m : (forall k v, m !! k = Some v -> f k v <= g k v) -> msum f m <= msum g m.
Proof.
  intros H; unfold msum; assert (Hin : forall kv, kv ∈ map_to_list m -> f kv.1 kv.2 <= g kv.1 kv.2).
  { intros [k v] Hkv%elem_of_map_to_list; by apply H. }
  induction (map_to_list m) as [|kv l IH]; [done|]; rewrite !zsum_cons; apply Z.add_le_mono; [apply Hin; left|apply IH; intros; apply Hin; by right].
Qed.

Lemma msum_scale {V} (c : Z) (f : bytes -> V -> Z) m : msum (fun k v => c * f k v) m = c * msum f m.
Proof. unfold msum; induction (map_to_list m) as [|kv l IH]; [simpl; lia|]; rewrite !zsum_cons, IH; lia. Qed.

Lemma msum_plus {V} (f g : bytes -> V -> Z) m : msum (fun k v => f k v + g k v) m = msum f m + msum g m.
Proof. unfold msum; apply zsum_add. Qed.

Lemma msum_const {V} (c : Z) (m : gmap bytes V) : msum (fun _ _ => c) m = Z.of_nat (size m) * c.
Proof.
  unfold msum; rewrite <- length_map_to_list; induction (map_to_list m) as [|kv l IH]; [done|]; rewrite zsum_cons, IH; simpl length; lia.
Qed.

(** ** Filters *)

Lemma filter_absent (t : bytes) (ids : list bytes) : t ∉ ids -> filter (fun x => x <> t) ids = ids.
Proof.
  induction ids as [|y l IH]; [done|]; rewrite not_elem_of_cons; intros [? ?]; rewrite filter_cons_True by congruence; f_equal; auto.
Qed.
