(* ===== verification/Helper.v ===== *)
(** Package common/helper: checked 64-bit arithmetic, 256-bit words, byte
    padding.  The word-at-a-time loops over [big.Int.Bits] are modelled as
    loops and proved equal to their arithmetic meaning. *)
From S2P Require Import Prelude.

(** ** Constants (common.go) *)

Definition WordBits : Z := 64.
Definition WordBytes : Z := 8.
Definition WordSize : Z := 32.
Definition Tt255 : Z := 2 ^ 255.
Definition Tt256 : Z := 2 ^ 256.
Definition Tt256m1 : Z := Tt256 - 1.

(** ** Checked arithmetic (math_integer.go) *)

Definition SafeMul (x y : Z) : Z * bool :=
  if (x =? 0) || (y =? 0) then (0, false)
  else (u64 (x * y), MaxUint64 / x <? y).

Definition SafeAdd (x y : Z) : Z * bool :=
  (u64 (x + y), u64 (MaxUint64 - x) <? y).

Definition Min (x y : Z) : Z := if x <? y then x else y.
Definition Max (x y : Z) : Z := if y <? x then x else y.

(** ** Sizes (common.go) *)

Definition ToWordSize (size : Z) : Z :=
  if MaxUint64 - WordSize + 1 <? size then MaxUint64 / WordSize + 1
  else u64 (size + WordSize - 1) / WordSize.

Definition BigUint64 (v : Z) : Z * bool := (Uint64 v, 64 <? BitLen v).

(** ** Padding (common.go) *)

Definition len (bs : bytes) : Z := Z.of_nat (length bs).

Definition RightPadBytes (slice : bytes) (l : Z) : bytes :=
  if l <=? len slice then slice
  else slice ++ zero_bytes (Z.to_nat (l - len slice)).

Definition LeftPadBytes (slice : bytes) (l : Z) : bytes :=
  if l <=? len slice then slice
  else zero_bytes (Z.to_nat (l - len slice)) ++ slice.

Definition BigMin (x y : Z) : Z := if y <? x then y else x.
Definition BigMax (x y : Z) : Z := if x <? y then y else x.

(** The bytes of [bs] from [lo] to [hi]. *)
Definition subslice (bs : bytes) (lo hi : Z) : bytes :=
  take (Z.to_nat (hi - lo)) (drop (Z.to_nat lo) bs).

(** [bs[lo:hi]], which panics out of range.  Go allows a bound up to the
    capacity of the slice; here nothing behind its length can be read. *)
Definition go_slice {E} (bs : bytes) (lo hi : Z) : outcome E bytes :=
  if (lo <? 0) || (hi <? lo) || (len bs <? hi) then Panic PSlice else Ok (subslice bs lo hi).

(** [bs[i]], which panics out of range. *)
Definition go_index {E} (bs : bytes) (i : Z) : outcome E byte :=
  if i <? 0 then Panic PIndex
  else match bs !! Z.to_nat i with Some b => Ok b | None => Panic PIndex end.

Definition GetDataBig {E} (data : bytes) (start size : Z) : outcome E bytes :=
  let dlen := len data in
  let s := BigMin start dlen in
  let e := BigMin (s + size) dlen in
  d ← go_slice data (Uint64 s) (Uint64 e);
  Ok (RightPadBytes d (i64 (Uint64 size))).

Definition AllZero (b : bytes) : bool := forallb (fun x => byte_Z x =? 0) b.

(** ** 256-bit words (math_big.go) *)

Definition U256 (x : Z) : Z := Z.land x Tt256m1.

Definition S256 (x : Z) : Z := if x <? Tt255 then x else x - Tt256.

(** [big.Int.Bits]: the 64-bit limbs of the magnitude, least significant
    first, without leading zero limbs. *)
Fixpoint limbs (n : nat) (x : Z) : list Z :=
  match n with
  | O => []
  | S n' => (x mod 2 ^ 64) :: limbs n' (x / 2 ^ 64)
  end.
Definition Bits (x : Z) : list Z :=
  limbs (Z.to_nat ((BitLen x + 63) / 64)) (Z.abs x).

(** The inner loop of [ReadBits]: write up to [j] bytes of the limb [d] in
    front of index [i]. *)
Fixpoint ReadBits_limb (j : nat) (d : Z) (i : nat) (buf : bytes) : nat * bytes :=
  match j, i with
  | S j', S i' => ReadBits_limb j' (Z.shiftr d 8) i' (<[i' := Z_byte d]> buf)
  | _, _ => (i, buf)
  end.

Definition ReadBits (bigint : Z) (buf : bytes) : bytes :=
  (fold_left (fun s d => ReadBits_limb 8 d s.1 s.2) (Bits bigint)
             (length buf, buf)).2.

(** The inner loop of [Exp]: square and multiply over the bits of a limb. *)
Fixpoint Exp_limb (n : nat) (word : Z) (rb : Z * Z) : Z * Z :=
  match n with
  | O => rb
  | S n' =>
      let '(result, base) := rb in
      let result := if Z.land word 1 =? 1 then U256 (result * base) else result in
      Exp_limb n' (Z.shiftr word 1) (result, U256 (base * base))
  end.

Definition Exp (base exponent : Z) : Z :=
  (fold_left (fun rb word => Exp_limb 64 word rb) (Bits exponent) (1, base)).1.

Definition bigEndianByteAt (bigint : Z) (n : Z) : Z :=
  match Bits bigint !! Z.to_nat (n / WordBytes) with
  | None => 0
  | Some word => u8 (Z.shiftr word (8 * (n mod WordBytes)))
  end.

Definition Byte (bigint padlength n : Z) : Z :=
  if padlength <=? n then 0 else bigEndianByteAt bigint (padlength - 1 - n).

Definition PaddedBigBytes (bigint : Z) (n : Z) : bytes :=
  if n <=? BitLen bigint / 8 then Bytes bigint
  else ReadBits bigint (zero_bytes (Z.to_nat n)).

(** ** Checked arithmetic is exact or flags overflow *)

Lemma SafeAdd_spec x y :
  is_u64 x -> is_u64 y ->
  SafeAdd x y = (if x + y <=? MaxUint64 then (x + y, false)
                 else (x + y - 2 ^ 64, true)).
Proof.
  unfold is_u64, SafeAdd, MaxUint64, u64; intros Hx Hy.
  rewrite (Z.mod_small (2 ^ 64 - 1 - x)) by lia.
  destruct (Z.leb_spec (x + y) (2 ^ 64 - 1)).
  - rewrite Z.mod_small by lia; f_equal; lia.
  - f_equal; [|lia].
    rewrite <- (Z.mod_add _ (-1)), Z.mod_small by lia; lia.
Qed.

Lemma SafeMul_spec x y :
  is_u64 x -> is_u64 y ->
  (SafeMul x y).2 = (2 ^ 64 <=? x * y) /\
  ((SafeMul x y).2 = false -> (SafeMul x y).1 = x * y).
Proof.
  unfold is_u64, SafeMul, MaxUint64, u64; intros Hx Hy.
  destruct (Z.eqb_spec x 0) as [->|Hx0]; cbn [orb fst snd]; [lia|].
  destruct (Z.eqb_spec y 0) as [->|Hy0]; cbn [orb fst snd]; [lia|].
  pose proof (Z.div_mod (2 ^ 64 - 1) x ltac:(lia)) as Hdm.
  pose proof (Z.mod_pos_bound (2 ^ 64 - 1) x ltac:(lia)) as Hm.
  destruct (Z.ltb_spec ((2 ^ 64 - 1) / x) y) as [H|H].
  - split; [|done]; symmetry; apply Z.leb_le; nia.
  - assert (x * y < 2 ^ 64) by nia.
    split; [lia|]; intros _; apply Z.mod_small; nia.
Qed.

Lemma ToWordSize_spec size :
  is_u64 size -> ToWordSize size = (size + 31) / 32 /\ 0 <= ToWordSize size <= 2 ^ 59.
Proof.
  unfold is_u64, ToWordSize, MaxUint64, WordSize, u64; intros H.
  destruct (Z.ltb_spec (2 ^ 64 - 1 - 32 + 1) size).
  - Z.to_euclidean_division_equations; lia.
  - rewrite Z.mod_small by lia; Z.to_euclidean_division_equations; lia.
Qed.

Lemma BigUint64_spec v :
  0 <= v -> (BigUint64 v).2 = false -> (BigUint64 v).1 = v /\ v < 2 ^ 64.
Proof.
  unfold BigUint64, Uint64, u64; simpl; intros Hv H; apply Z.ltb_ge in H.
  assert (~ 64 < BitLen v) as Hn by lia.
  rewrite BitLen_gt, Z.abs_eq in Hn by lia.
  rewrite Z.abs_eq, Z.mod_small by lia; lia.
Qed.

Lemma BigUint64_range v : is_u64 (BigUint64 v).1.
Proof. apply u64_range. Qed.

(** ** 256-bit words *)

Lemma U256_mod x : U256 x = x mod 2 ^ 256.
Proof.
  unfold U256, Tt256m1, Tt256.
  replace (2 ^ 256 - 1) with (Z.ones 256) by (rewrite Z.ones_equiv; lia).
  apply Z.land_ones; lia.
Qed.

Lemma U256_range x : is_u256 (U256 x).
Proof. rewrite U256_mod; apply Z.mod_pos_bound; lia. Qed.

Lemma U256_small x : is_u256 x -> U256 x = x.
Proof. intros H; rewrite U256_mod; apply Z.mod_small, H. Qed.

(** [S256] is the two's-complement reading and [U256] its inverse. *)
Lemma S256_range x : is_u256 x -> - 2 ^ 255 <= S256 x < 2 ^ 255.
Proof. unfold is_u256, S256, Tt255, Tt256; destruct (Z.ltb_spec x (2 ^ 255)); lia. Qed.

Lemma U256_S256 x : is_u256 x -> U256 (S256 x) = x.
Proof.
  intros H; rewrite U256_mod; unfold is_u256, S256, Tt255, Tt256 in *.
  destruct (Z.ltb_spec x (2 ^ 255)); [apply Z.mod_small; lia|].
  rewrite <- (Z.mod_add _ 1), Z.mod_small by lia; lia.
Qed.

Lemma S256_U256 z : - 2 ^ 255 <= z < 2 ^ 255 -> S256 (U256 z) = z.
Proof.
  intros H; rewrite U256_mod; unfold S256, Tt255, Tt256.
  destruct (Z.lt_ge_cases z 0).
  - rewrite <- (Z.mod_add _ 1), Z.mod_small by lia.
    destruct (Z.ltb_spec (z + 1 * 2 ^ 256) (2 ^ 255)); lia.
  - rewrite Z.mod_small by lia; destruct (Z.ltb_spec z (2 ^ 255)); lia.
Qed.

(** ** The limb loops compute what they mean *)

Lemma be_bytes_add m k x :
  be_bytes (m + k) x = be_bytes m (x / 256 ^ Z.of_nat k) ++ be_bytes k x.
Proof.
  revert m x; induction k as [|k IH]; intros m x.
  - rewrite Nat.add_0_r, Z.div_1_r, app_nil_r; done.
  - rewrite Nat.add_succ_r; simpl be_bytes; rewrite IH, <- app_assoc.
    rewrite Nat2Z.inj_succ, Z.pow_succ_r, Z.div_div by lia; done.
Qed.

Lemma be_bytes_zero n : be_bytes n 0 = zero_bytes n.
Proof.
  unfold zero_bytes; induction n as [|n IH]; simpl be_bytes; [done|].
  rewrite Z.div_0_l, IH, replicate_S_end by lia; done.
Qed.

Lemma Z_byte_mod d n : 0 <= n -> Z_byte (d mod 2 ^ (8 + n)) = Z_byte d.
Proof.
  intros Hn; apply byte_Z_inj; rewrite !byte_Z_byte.
  rewrite Z.pow_add_r by lia; change (2 ^ 8) with 256.
  rewrite Z.rem_mul_r, Z.mul_comm, Z.mod_add, Z.mod_mod by lia; done.
Qed.

Lemma be_bytes_mod k d n :
  8 * Z.of_nat k <= n -> be_bytes k (d mod 2 ^ n) = be_bytes k d.
Proof.
  revert d n; induction k as [|k IH]; intros d n Hn; simpl; [done|].
  f_equal; [|replace n with (8 + (n - 8)) by lia; rewrite Z_byte_mod by lia; done].
  replace (d mod 2 ^ n / 256) with ((d / 256) mod 2 ^ (n - 8)).
  - apply IH; lia.
  - replace n with (8 + (n - 8)) at 2 by lia.
    rewrite Z.pow_add_r by lia; change (2 ^ 8) with 256.
    rewrite Z.rem_mul_r, Z.mul_comm, Z.div_add by lia.
    rewrite (Z.div_small (d mod 256)) by (apply Z.mod_pos_bound; lia); done.
Qed.

Lemma ReadBits_limb_spec j d i buf :
  (i <= length buf)%nat ->
  ReadBits_limb j d i buf =
    ((i - Nat.min j i)%nat,
     take (i - Nat.min j i) buf ++ be_bytes (Nat.min j i) d ++ drop i buf).
Proof.
  revert d i buf; induction j as [|j IH]; intros d i buf Hi.
  { simpl; rewrite Nat.sub_0_r, take_drop; done. }
  destruct i as [|i]; simpl ReadBits_limb; [simpl; done|].
  rewrite IH by (rewrite length_insert; lia).
  change (Nat.min (S j) (S i)) with (S (Nat.min j i)).
  change (S i - S (Nat.min j i))%nat with (i - Nat.min j i)%nat.
  f_equal; simpl be_bytes.
  rewrite take_insert_ge by lia.
  rewrite drop_insert_ge, Nat.sub_diag by lia.
  destruct (drop i buf) as [|b rest] eqn:E.
  { apply (f_equal length) in E; rewrite length_drop in E; simpl in E; lia. }
  simpl; rewrite Z.shiftr_div_pow2 by lia; change (2 ^ 8) with 256.
  rewrite <- app_assoc; simpl; do 3 f_equal.
  change (S i) with (1 + i)%nat; rewrite Nat.add_comm, <- drop_drop, E; done.
Qed.

Lemma ReadBits_limbs_spec n x i buf :
  (i <= length buf)%nat ->
  (fold_left (fun s d => ReadBits_limb 8 d s.1 s.2) (limbs n x) (i, buf)).2 =
    take (i - Nat.min (8 * n) i) buf ++ be_bytes (Nat.min (8 * n) i) x ++ drop i buf.
Proof.
  revert x i buf; induction n as [|n IH]; intros x i buf Hi.
  { simpl; rewrite Nat.sub_0_r, take_drop; done. }
  cbn [limbs fold_left fst snd].
  rewrite ReadBits_limb_spec by done; set (k := Nat.min 8 i).
  rewrite be_bytes_mod by lia.
  assert (Hl : length (take (i - k) buf) = (i - k)%nat) by (rewrite length_take; lia).
  rewrite IH by (rewrite length_app, Hl; lia).
  set (m := Nat.min (8 * n) (i - k)).
  replace (Nat.min (8 * S n) i) with (m + k)%nat by lia.
  rewrite drop_app_length' by lia; rewrite take_app_le, take_take by lia.
  replace (Nat.min (i - k - m) (i - k)) with (i - (m + k))%nat by lia.
  rewrite be_bytes_add, <- !app_assoc; do 2 f_equal.
  destruct (decide (8 <= i)%nat) as [H8|].
  - replace k with 8%nat by lia; done.
  - replace m with 0%nat by lia; done.
Qed.

(** [Bits] has as many limbs as the magnitude needs. *)
Lemma Bits_enough x :
  0 <= x -> x < 2 ^ (64 * Z.of_nat (Z.to_nat ((BitLen x + 63) / 64))).
Proof.
  intros Hx; pose proof (BitLen_bounds x) as [? Hb]; rewrite Z.abs_eq in Hb by done.
  eapply Z.lt_le_trans; [exact Hb|]; apply Z.pow_le_mono_r; [lia|].
  Z.to_euclidean_division_equations; lia.
Qed.

(** [ReadBits] into a zeroed buffer writes the big-endian encoding, keeping the
    low-order bytes when the buffer is too short. *)
Lemma ReadBits_spec x n :
  0 <= x -> ReadBits x (zero_bytes n) = be_bytes n x.
Proof.
  intros Hx; unfold ReadBits, Bits; rewrite Z.abs_eq by done.
  pose proof (Bits_enough x Hx) as Hb; revert Hb.
  set (nl := Z.to_nat ((BitLen x + 63) / 64)); intros Hb.
  assert (Hlen : length (zero_bytes n) = n) by apply length_replicate.
  rewrite ReadBits_limbs_spec, Hlen by done.
  rewrite drop_ge, app_nil_r by lia.
  set (k := Nat.min (8 * nl) n).
  replace n with ((n - k) + k)%nat at 3 by lia.
  rewrite be_bytes_add; f_equal.
  unfold zero_bytes; rewrite take_replicate; fold (zero_bytes (Nat.min (n - k) n)).
  rewrite <- be_bytes_zero; replace (Nat.min (n - k) n) with (n - k)%nat by lia.
  destruct (decide (8 * nl <= n)%nat).
  - rewrite Z.div_small; [done|]; split; [done|].
    eapply Z.lt_le_trans; [exact Hb|].
    change 256 with (2 ^ 8); rewrite <- Z.pow_mul_r by lia.
    apply Z.pow_le_mono_r; lia.
  - replace (n - k)%nat with 0%nat by lia; done.
Qed.

Lemma Exp_limb_spec n w r b :
  0 <= w ->
  Exp_limb n w (r mod 2 ^ 256, b mod 2 ^ 256) =
    ((r * b ^ (w mod 2 ^ Z.of_nat n)) mod 2 ^ 256, (b ^ (2 ^ Z.of_nat n)) mod 2 ^ 256).
Proof.
  revert w r b; induction n as [|n IH]; intros w r b Hw.
  { simpl; rewrite Z.mod_1_r, Z.pow_0_r, Z.pow_1_r, Z.mul_1_r; done. }
  assert (Hsq : U256 (b mod 2 ^ 256 * (b mod 2 ^ 256)) = (b * b) mod 2 ^ 256).
  { rewrite U256_mod, <- Z.mul_mod by lia; done. }
  assert (Hmul : U256 (r mod 2 ^ 256 * (b mod 2 ^ 256)) = (r * b) mod 2 ^ 256).
  { rewrite U256_mod, <- Z.mul_mod by lia; done. }
  cbn [Exp_limb]; rewrite Hsq, Hmul.
  replace (Z.land w 1) with (w mod 2) by (change 1 with (Z.ones 1); rewrite Z.land_ones; done).
  rewrite Z.shiftr_div_pow2 by lia; change (2 ^ 1) with 2.
  rewrite Nat2Z.inj_succ, Z.pow_succ_r by lia.
  set (P := 2 ^ Z.of_nat n); assert (0 < P) by (apply Z.pow_pos_nonneg; lia).
  assert (Hw2 : 0 <= w / 2) by (apply Z.div_pos; lia).
  assert (Hq : 0 <= (w / 2) mod P) by (apply Z.mod_pos_bound; lia).
  pose proof (Z.mod_pos_bound w 2 ltac:(lia)).
  rewrite Z.rem_mul_r, Z.pow_add_r by lia.
  assert (Hbb : forall e, 0 <= e -> (b * b) ^ e = b ^ (2 * e)).
  { intros e He; rewrite Z.pow_mul_r by lia; f_equal; lia. }
  destruct (Z.eqb_spec (w mod 2) 1) as [E|E]; rewrite IH by done; fold P; rewrite !Hbb by lia.
  - rewrite E, Z.pow_1_r, Z.mul_assoc; done.
  - replace (w mod 2) with 0 by lia; rewrite Z.pow_0_r, Z.mul_1_l; done.
Qed.

Lemma limbs_S n x : limbs (S n) x = (x mod 2 ^ 64) :: limbs n (x / 2 ^ 64).
Proof. done. Qed.

Lemma fold_left_cons {A B} (f : A -> B -> A) x l a :
  fold_left f (x :: l) a = fold_left f l (f a x).
Proof. done. Qed.

Lemma Exp_limbs_spec n e r b :
  0 <= e -> e < 2 ^ (64 * Z.of_nat n) ->
  (fold_left (fun rb word => Exp_limb 64 word rb) (limbs n e)
             (r mod 2 ^ 256, b mod 2 ^ 256)).1 = (r * b ^ e) mod 2 ^ 256.
Proof.
  revert e r b; induction n as [|n IH]; intros e r b He Hlt.
  { simpl in *; replace e with 0 by lia; rewrite Z.pow_0_r, Z.mul_1_r; done. }
  rewrite limbs_S, fold_left_cons.
  pose proof (Z.mod_pos_bound e (2 ^ 64) ltac:(lia)).
  assert (H64 : Z.of_nat 64 = 64) by done.
  rewrite Exp_limb_spec, H64, Z.mod_mod by lia.
  remember (2 ^ 64) as P eqn:HP; assert (0 < P) by lia.
  assert (0 <= e / P) by (apply Z.div_pos; lia).
  rewrite IH; [|done|].
  - rewrite <- Z.mul_assoc, <- Z.pow_mul_r, <- Z.pow_add_r by lia.
    rewrite (Z.add_comm (e mod P)), <- Z.div_mod by lia; done.
  - apply Z.div_lt_upper_bound; [lia|]; rewrite HP.
    rewrite <- Z.pow_add_r by lia; replace (64 + 64 * Z.of_nat n) with (64 * Z.of_nat (S n)) by lia; done.
Qed.

(** Square-and-multiply over the limbs computes the power modulo [2^256]. *)
Lemma Exp_spec base e :
  is_u256 base -> 0 <= e -> Exp base e = (base ^ e) mod 2 ^ 256.
Proof.
  intros Hb He; unfold Exp, Bits; rewrite Z.abs_eq by done.
  replace (1, base) with (1 mod 2 ^ 256, base mod 2 ^ 256)
    by (rewrite !Z.mod_small by (exact Hb || lia); done).
  rewrite Exp_limbs_spec, Z.mul_1_l by (done || apply Bits_enough; done); done.
Qed.

Lemma limbs_lookup n x i :
  (i < n)%nat -> limbs n x !! i = Some ((x / 2 ^ (64 * Z.of_nat i)) mod 2 ^ 64).
Proof.
  revert x i; induction n as [|n IH]; intros x i Hi; [lia|].
  destruct i as [|i]; simpl; [rewrite Z.div_1_r; done|].
  rewrite IH by lia; do 2 f_equal.
  rewrite Z.div_div by (apply Z.pow_nonzero || apply Z.pow_pos_nonneg; lia).
  rewrite <- Z.pow_add_r by lia; do 2 f_equal; lia.
Qed.

Lemma limbs_lookup_None n x i : (n <= i)%nat -> limbs n x !! i = None.
Proof.
  intros H; apply lookup_ge_None; replace (length (limbs n x)) with n; [done|].
  clear; revert x; induction n as [|n IH]; intros x; simpl; [done|]; by rewrite <- IH.
Qed.

(** [Byte x 32 n] is the [n]-th most significant byte of a 32-byte word. *)
Lemma Byte_spec x n :
  0 <= x -> 0 <= n < 32 -> Byte x WordSize n = (x / 256 ^ (31 - n)) mod 256.
Proof.
  intros Hx Hn; unfold Byte, bigEndianByteAt, Bits, WordSize, WordBytes, u8.
  destruct (Z.leb_spec 32 n); [lia|]; rewrite Z.abs_eq by done.
  pose proof (Bits_enough x Hx) as Hb; revert Hb.
  set (nl := Z.to_nat ((BitLen x + 63) / 64)); intros Hb.
  set (m := 32 - 1 - n); replace (31 - n) with m by lia.
  set (q := m / 8); assert (Hq : m = 8 * q + m mod 8) by (apply Z.div_mod; lia).
  pose proof (Z.mod_pos_bound m 8 ltac:(lia)).
  assert (0 <= q) by (apply Z.div_pos; lia).
  assert (Hp : 256 ^ m = 2 ^ (64 * q) * 2 ^ (8 * (m mod 8))).
  { change 256 with (2 ^ 8); rewrite <- Z.pow_mul_r, <- Z.pow_add_r by lia; f_equal; lia. }
  destruct (decide (Z.to_nat q < nl)%nat).
  - rewrite limbs_lookup, Z2Nat.id by lia.
    rewrite Z.shiftr_div_pow2, Hp, <- Z.div_div by lia.
    set (y := x / 2 ^ (64 * q)); set (s := 8 * (m mod 8)).
    replace 64 with (s + (8 + (56 - s))) by lia.
    rewrite (Z.pow_add_r 2 s), Z.rem_mul_r, (Z.mul_comm (2 ^ s)), Z.div_add by lia.
    rewrite (Z.div_small (y mod 2 ^ s)), Z.add_0_l by (apply Z.mod_pos_bound; lia).
    rewrite Z.pow_add_r by lia; change (2 ^ 8) with 256.
    rewrite Z.rem_mul_r, (Z.mul_comm 256), Z.mod_add, Z.mod_mod by lia; done.
  - rewrite limbs_lookup_None by lia; rewrite Z.div_small; [done|].
    split; [done|]; eapply Z.lt_le_trans; [exact Hb|]; rewrite Hp, <- Z.pow_add_r by lia.
    apply Z.pow_le_mono_r; lia.
Qed.

(** ** Slices of call data *)

Lemma Uint64_small z : 0 <= z < 2 ^ 64 -> Uint64 z = z.
Proof. intros H; unfold Uint64; rewrite Z.abs_eq, u64_small by (unfold is_u64; lia); done. Qed.

Lemma go_slice_ok {E} bs lo hi :
  0 <= lo <= hi -> hi <= len bs -> @go_slice E bs lo hi = Ok (subslice bs lo hi).
Proof.
  intros; unfold go_slice.
  destruct (Z.ltb_spec lo 0), (Z.ltb_spec hi lo), (Z.ltb_spec (len bs) hi); done || lia.
Qed.

Lemma go_slice_inv {E} bs lo hi w :
  @go_slice E bs lo hi = Ok w -> 0 <= lo <= hi /\ hi <= len bs /\ w = subslice bs lo hi.
Proof.
  unfold go_slice; destruct (Z.ltb_spec lo 0), (Z.ltb_spec hi lo), (Z.ltb_spec (len bs) hi); simpl;
    intros [= <-]; split_and!; done || lia.
Qed.

Lemma go_index_ok {E} bs i : 0 <= i < len bs -> exists b, bs !! Z.to_nat i = Some b /\ @go_index E bs i = Ok b.
Proof.
  unfold len; intros; destruct (lookup_lt_is_Some_2 bs (Z.to_nat i)) as [b Hb]; [lia|]; exists b; split; [done|].
  unfold go_index; rewrite Hb; destruct (Z.ltb_spec i 0); [lia|done].
Qed.

(** [GetDataBig] is the slice, cut at the end of the data and padded with zeros
    to the size asked for, however large the offset. *)
Lemma GetDataBig_spec {E} data start size :
  0 <= start -> 0 <= size < 2 ^ 63 -> len data < 2 ^ 62 ->
  @GetDataBig E data start size =
    Ok (take (Z.to_nat size) (drop (Z.to_nat start) data)
        ++ zero_bytes (Z.to_nat size - (length data - Z.to_nat start))).
Proof.
  intros H0 H1 H2; unfold GetDataBig, BigMin, RightPadBytes, len in *.
  assert (Hu : forall z, 0 <= z < 2 ^ 64 -> Uint64 z = z).
  { intros z Hz; unfold Uint64; rewrite Z.abs_eq, u64_small by (unfold is_u64; lia); done. }
  set (n := length data) in *.
  set (s := if Z.of_nat n <? start then Z.of_nat n else start).
  set (e := if Z.of_nat n <? s + size then Z.of_nat n else s + size).
  assert (Hs : 0 <= s <= Z.of_nat n) by (unfold s; destruct (Z.ltb_spec (Z.of_nat n) start); lia).
  assert (He : s <= e <= Z.of_nat n /\ e - s <= size)
    by (unfold e; destruct (Z.ltb_spec (Z.of_nat n) (s + size)); lia).
  rewrite !Hu, i64_small, go_slice_ok by (unfold len; fold n; lia); rewrite bind_Ok; unfold subslice.
  assert (Ed : take (Z.to_nat (e - s)) (drop (Z.to_nat s) data) =
              take (Z.to_nat size) (drop (Z.to_nat start) data)).
  { unfold s, e; destruct (Z.ltb_spec (Z.of_nat n) start).
    - rewrite (drop_ge data (Z.to_nat (Z.of_nat n))), (drop_ge data (Z.to_nat start)) by (fold n; lia).
      by rewrite !take_nil.
    - fold s; destruct (Z.ltb_spec (Z.of_nat n) (s + size)).
      + unfold s in *; destruct (Z.ltb_spec (Z.of_nat n) start); [lia|].
        rewrite (take_ge (drop (Z.to_nat start) data) (Z.to_nat size)) by (rewrite length_drop; fold n; lia).
        apply take_ge; rewrite length_drop; fold n; lia.
      + f_equal; lia. }
  rewrite Ed, length_take, length_drop; fold n; f_equal.
  destruct (Z.leb_spec size (Z.of_nat (Z.to_nat size `min` (n - Z.to_nat start)))).
  - replace (Z.to_nat size - (n - Z.to_nat start))%nat with 0%nat by lia; by rewrite app_nil_r.
  - do 2 f_equal; lia.
Qed.

Lemma GetDataBig_ok {E} data start size :
  0 <= start -> 0 <= size < 2 ^ 63 -> len data < 2 ^ 62 ->
  exists d, @GetDataBig E data start size = Ok d /\ length d = Z.to_nat size.
Proof.
  intros; rewrite GetDataBig_spec by done; eexists; split; [done|]; unfold zero_bytes.
  rewrite length_app, length_take, length_drop, length_replicate; lia.
Qed.

(** ** Slices and padding *)

Lemma len_zero (v : bytes) : (len v =? 0) = bool_decide (v = []).
Proof. destruct v; done. Qed.

Lemma len_pos (v : bytes) : (0 <? len v) = negb (bool_decide (v = [])).
Proof. destruct v; done. Qed.

Lemma length_subslice bs lo hi :
  0 <= lo <= hi -> hi <= len bs -> len (subslice bs lo hi) = hi - lo.
Proof. unfold subslice, len; intros; rewrite length_take, length_drop; lia. Qed.

Lemma RightPad_id bs l : l <= len bs -> RightPadBytes bs l = bs.
Proof. unfold RightPadBytes; intros; destruct (Z.leb_spec l (len bs)); [done|lia]. Qed.

Lemma subslice_app a w b n : n = len w -> subslice (a ++ w ++ b) (len a) (len a + n) = w.
Proof.
  unfold subslice, len; intros ->.
  rewrite drop_app_length' by lia; rewrite take_app_length' by lia; done.
Qed.

Lemma length_be32 x : len (be_bytes 32 x) = 32.
Proof. unfold len; rewrite length_be_bytes; done. Qed.

Lemma drop_be_bytes n m x : (m <= n)%nat -> drop (n - m) (be_bytes n x) = be_bytes m x.
Proof.
  intros H; replace n with ((n - m) + m)%nat at 2 by lia; rewrite be_bytes_add.
  apply drop_app_length'; by rewrite length_be_bytes.
Qed.

(** A number padded to its width is its big-endian encoding. *)
Lemma LeftPad_Bytes n x : 0 <= x < 256 ^ Z.of_nat n -> LeftPadBytes (Bytes x) (Z.of_nat n) = be_bytes n x.
Proof.
  intros Hx.
  assert (Hl : (length (Bytes x) <= n)%nat).
  { unfold Bytes; rewrite length_be_bytes.
    pose proof (BitLen_le x (8 * Z.of_nat n) ltac:(lia)) as Hb; rewrite Z.abs_eq in Hb by lia.
    rewrite Z.pow_mul_r in Hb by lia; change (2 ^ 8) with 256 in Hb.
    pose proof (Hb (proj2 Hx)); pose proof (BitLen_bounds x) as [? _].
    Z.to_euclidean_division_equations; lia. }
  assert (HB : be_bytes n x = zero_bytes (n - length (Bytes x)) ++ Bytes x).
  { replace n with ((n - length (Bytes x)) + length (Bytes x))%nat at 1 by lia.
    pose proof (SetBytes_range (Bytes x)) as Hr; rewrite SetBytes_Bytes in Hr by lia.
    rewrite be_bytes_add, (Z.div_small x), be_bytes_zero by done; f_equal.
    rewrite <- (SetBytes_Bytes x) at 2 by lia; apply be_bytes_SetBytes. }
  unfold LeftPadBytes, len; rewrite HB.
  destruct (Z.leb_spec (Z.of_nat n) (Z.of_nat (length (Bytes x)))).
  - by replace (n - length (Bytes x))%nat with 0%nat by lia.
  - do 2 f_equal; lia.
Qed.
