(* ===== verification/Float.v ===== *)
(** Binary floating point as Go's math/big.Float and float64 compute it, for
    values of any magnitude: a number is [mant * 2 ^ exp], and every operation
    rounds its exact result to the nearest number with [prec] bits, ties to
    even.  float64 is the case [prec = 53]; its exponent range is never left by
    the durations it is used for. *)
From S2P Require Import Prelude.

Record float := mkFloat { f_mant : Z; f_exp : Z }.

(** A float as a fraction with a positive denominator. *)
Definition f_num (f : float) : Z := f_mant f * 2 ^ Z.max 0 (f_exp f).
Definition f_den (f : float) : Z := 2 ^ Z.max 0 (- f_exp f).

(** [num / den], rounded to an integer, ties to even. *)
Definition round_even (num den : Z) : Z :=
  let q := num / den in
  let r := num mod den in
  if 2 * r <? den then q
  else if den <? 2 * r then q + 1
  else if Z.even q then q else q + 1.

(** [num / den / 2 ^ e], rounded to an integer. *)
Definition round_at (num den e : Z) : Z :=
  round_even (num * 2 ^ Z.max 0 (- e)) (den * 2 ^ Z.max 0 e).

(** The exponent that leaves [prec] or [prec + 1] bits before the point. *)
Definition round_exp (prec num den : Z) : Z := Z.log2 num - Z.log2 den - prec.

(** The float of [prec] bits nearest to [num / den], for [0 <= num], [0 < den]. *)
Definition round_pos (prec num den : Z) : float :=
  if num =? 0 then mkFloat 0 0
  else
    let e := round_exp prec num den in
    let e := if num * 2 ^ Z.max 0 (- e) <? 2 ^ prec * (den * 2 ^ Z.max 0 e) then e else e + 1 in
    mkFloat (round_at num den e) e.

Definition f_round (prec num den : Z) : float :=
  let f := round_pos prec (Z.abs num) den in
  if num <? 0 then mkFloat (- f_mant f) (f_exp f) else f.

(** [SetInt], [Mul], [Quo], [Add], [Cmp] and [Int] (towards zero). *)
Definition f_SetInt (prec x : Z) : float := f_round prec x 1.

Definition f_Mul (prec : Z) (f g : float) : float :=
  f_round prec (f_num f * f_num g) (f_den f * f_den g).

(** A positive number divided by zero is infinite and a zero by a zero panics;
    [None] stands for both. *)
Definition f_Quo (prec : Z) (f g : float) : option float :=
  if f_mant g =? 0 then None
  else Some (f_round prec (f_num f * f_den g * Z.sgn (f_mant g)) (f_den f * Z.abs (f_num g))).

Definition f_Add (prec : Z) (f g : float) : float :=
  f_round prec (f_num f * f_den g + f_num g * f_den f) (f_den f * f_den g).

Definition f_ltb (f g : float) : bool := f_num f * f_den g <? f_num g * f_den f.

Definition f_Int (f : float) : Z := Z.quot (f_num f) (f_den f).

(** ** Rounding *)

Lemma f_den_pos f : 0 < f_den f.
Proof. apply Z.pow_pos_nonneg; lia. Qed.

Lemma round_even_exact q den : 0 < den -> round_even (q * den) den = q.
Proof.
  intros H; unfold round_even; rewrite Z.mod_mul, Z.div_mul by lia.
  by replace (2 * 0 <? den) with true by lia.
Qed.

Lemma round_even_bounds num den :
  0 < den -> 2 * num - den <= 2 * (round_even num den * den) <= 2 * num + den.
Proof.
  intros H; unfold round_even; pose proof (Z.div_mod num den ltac:(lia)) as E.
  pose proof (Z.mod_pos_bound num den H).
  destruct (Z.ltb_spec (2 * (num mod den)) den), (Z.ltb_spec den (2 * (num mod den))); try lia;
    destruct (Z.even _); lia.
Qed.

Lemma round_even_nonneg num den : 0 <= num -> 0 < den -> 0 <= round_even num den.
Proof.
  intros Hn Hd; unfold round_even; pose proof (Z.div_pos num den Hn Hd).
  destruct (2 * (num mod den) <? den), (den <? 2 * (num mod den)), (Z.even (num / den)); lia.
Qed.

(** Scaling by [2 ^ e] as it is written in [round_at]. *)
Lemma scale_succ num den e k :
  0 <= num -> 0 < den -> 0 <= k ->
  2 ^ (k + 1) * (den * 2 ^ Z.max 0 e) <= num * 2 ^ Z.max 0 (- e) ->
  2 ^ k * (den * 2 ^ Z.max 0 (e + 1)) <= num * 2 ^ Z.max 0 (- (e + 1)).
Proof.
  intros Hn Hd Hk H; destruct (Z.le_gt_cases 0 e).
  - rewrite (Z.max_r 0 e), (Z.max_l 0 (- e)) in H by lia.
    rewrite (Z.max_r 0 (e + 1)), (Z.max_l 0 (- (e + 1))) by lia.
    rewrite Z.pow_add_r in H |- * by lia; lia.
  - rewrite (Z.max_l 0 e), (Z.max_r 0 (- e)) in H by lia.
    rewrite (Z.max_l 0 (e + 1)), (Z.max_r 0 (- (e + 1))) by lia.
    replace (- e) with (- (e + 1) + 1) in H by lia.
    rewrite !Z.pow_add_r in H by lia; lia.
Qed.

(** The exponent leaves at least [prec] bits. *)
Lemma round_exp_bits prec num den :
  0 < num -> 0 < den -> 1 <= prec ->
  let e := round_exp prec num den in
  2 ^ (prec - 1) * (den * 2 ^ Z.max 0 e) <= num * 2 ^ Z.max 0 (- e).
Proof.
  intros Hn Hd Hp e; destruct (Z.log2_spec num Hn) as [H1 _], (Z.log2_spec den Hd) as [_ H2].
  pose proof (Z.log2_nonneg num); pose proof (Z.log2_nonneg den).
  assert (E : Z.max 0 (- e) + Z.log2 num = prec - 1 + Z.max 0 e + (Z.log2 den + 1)) by (unfold e, round_exp; lia).
  apply Z.le_trans with (2 ^ (prec - 1) * (2 ^ (Z.log2 den + 1) * 2 ^ Z.max 0 e)).
  - rewrite <- Z.add_1_r in H2; apply Z.mul_le_mono_nonneg_l; [lia|]; nia.
  - rewrite <- !Z.pow_add_r by lia.
    replace (prec - 1 + (Z.log2 den + 1 + Z.max 0 e)) with (Z.log2 num + Z.max 0 (- e)) by lia.
    rewrite Z.pow_add_r by lia; nia.
Qed.

(** Rounding to nearest adds at most one part in [2 ^ prec]. *)
Lemma round_pos_le prec num den :
  0 <= num -> 0 < den -> 1 <= prec ->
  0 <= f_mant (round_pos prec num den) /\
  2 ^ prec * (f_num (round_pos prec num den) * den) <= (2 ^ prec + 1) * (num * f_den (round_pos prec num den)).
Proof.
  intros Hn Hd Hp; unfold round_pos; destruct (Z.eqb_spec num 0) as [->|Hn0]; [unfold f_num; simpl; lia|].
  pose proof (round_exp_bits prec num den ltac:(lia) Hd Hp) as Hbits; cbv zeta in Hbits.
  set (e := round_exp prec num den) in *.
  set (e' := if _ <? _ then e else e + 1).
  assert (Hle : 2 ^ (prec - 1) * (den * 2 ^ Z.max 0 e') <= num * 2 ^ Z.max 0 (- e')).
  { unfold e'; destruct (Z.ltb_spec (num * 2 ^ Z.max 0 (- e)) (2 ^ prec * (den * 2 ^ Z.max 0 e))) as [|Hbig]; [done|].
    apply scale_succ; [lia..|]; by rewrite Z.sub_add. }
  cbn [f_mant f_exp]; unfold f_num, f_den, round_at; cbn [f_mant f_exp].
  set (n' := num * 2 ^ Z.max 0 (- e')) in *; set (d' := den * 2 ^ Z.max 0 e') in *.
  assert (0 < d') by (apply Z.mul_pos_pos; [lia|apply Z.pow_pos_nonneg; lia]).
  assert (0 <= n') by (apply Z.mul_nonneg_nonneg; lia).
  split; [by apply round_even_nonneg|].
  pose proof (round_even_bounds n' d' ltac:(done)) as [_ Hub].
  replace (2 ^ prec) with (2 * 2 ^ (prec - 1)) in * by (rewrite <- Z.pow_succ_r by lia; f_equal; lia).
  replace (round_even n' d' * 2 ^ Z.max 0 e' * den) with (round_even n' d' * d') by (unfold d'; ring).
  fold n'; assert (0 < 2 ^ (prec - 1)) by (apply Z.pow_pos_nonneg; lia); nia.
Qed.

Lemma f_round_pos prec num den : 0 <= num -> f_round prec num den = round_pos prec num den.
Proof. intros H; unfold f_round; rewrite Z.abs_eq by done; by replace (num <? 0) with false by lia. Qed.

Lemma round_at_exact x den e :
  0 < den -> e <= 0 -> round_at (x * den) den e = x * 2 ^ (- e).
Proof.
  intros Hd He; unfold round_at; rewrite Z.max_r, (Z.max_l 0 e), Z.mul_1_r by lia.
  rewrite <- Z.mul_assoc, (Z.mul_comm den), Z.mul_assoc; by apply round_even_exact.
Qed.

(** Integers of at most [prec] bits are represented exactly. *)
Lemma round_pos_exact prec x den :
  0 <= x < 2 ^ prec -> 0 < den ->
  f_num (round_pos prec (x * den) den) = x * f_den (round_pos prec (x * den) den).
Proof.
  intros [Hx Hxp] Hd; unfold round_pos; destruct (Z.eqb_spec (x * den) 0) as [E|Hn0].
  { assert (x = 0) as -> by nia; by unfold f_num. }
  assert (0 < x) by nia; set (e := round_exp prec (x * den) den).
  assert (He : e <= 0).
  { unfold e, round_exp; pose proof (Z.log2_mul_above x den ltac:(lia) ltac:(lia)).
    assert (Z.log2 x < prec) by (apply Z.log2_lt_pow2; lia); lia. }
  set (e' := if _ <? _ then e else e + 1); assert (He' : e' <= 0).
  { unfold e'; case_match eqn:E; [done|]; apply Z.ltb_ge in E.
    destruct (decide (e = 0)) as [H0|]; [|lia]; rewrite H0 in E; change (Z.max 0 (- 0)) with 0 in E.
    change (Z.max 0 0) with 0 in E; nia. }
  unfold f_num, f_den; cbn [f_mant f_exp]; rewrite round_at_exact by done.
  rewrite (Z.max_l 0 e'), (Z.max_r 0 (- e')) by lia; lia.
Qed.
