(* ===== verification/TimeIndex.v ===== *)
(** Cycles of time: src/ledger/consensus/core/time_index.go, and the consensus
    reader of src/vm/util/consensus_reader.go on top of it.

    A time is a number of nanoseconds since the Unix epoch. *)
From S2P Require Import Prelude Helper Float.
#[local] Open Scope Z_scope.

(** ** Package time *)

Definition Second : Z := 10 ^ 9.

(** [t.Sub(u)] saturates. *)
Definition time_Sub (t u : Z) : Z := Z.max (- 2 ^ 63) (Z.min (2 ^ 63 - 1) (t - u)).

Definition time_Unix (sec : Z) : Z := sec * Second.
Definition Unix (t : Z) : Z := t / Second.

(** [d.Seconds()], a float64: the whole seconds plus the quotient of the rest. *)
Definition Seconds (d : Z) : float :=
  let nsec := f_Quo 53 (f_SetInt 53 (Z.rem d Second)) (f_SetInt 53 Second) in
  f_Add 53 (f_SetInt 53 (Z.quot d Second)) (default (mkFloat 0 0) nsec).

(** ** time_index.go *)

Record timeIndex := mkTimeIndex { GenesisTime : Z; Interval : Z }.

Definition Index2Time (self : timeIndex) (index : Z) : Z * Z :=
  (GenesisTime self + i64 (Interval self * i64 index),
   GenesisTime self + i64 (Interval self * i64 (u64 (index + 1)))).

Definition Time2Index (self : timeIndex) (t : Z) : outcome unit Z :=
  let subSec := i64 (f_Int (Seconds (time_Sub t (GenesisTime self)))) in
  let interval := u64 (f_Int (Seconds (Interval self))) in
  if interval =? 0 then Panic PDivZero else Ok (u64 subSec / interval).

(** ** consensus_reader.go: a reader over the cycles of a day *)

Definition getIndexByTime (day : timeIndex) (t : Z) : outcome unit Z := Time2Index day (time_Unix t).
Definition getStartTimeByIndex (day : timeIndex) (index : Z) : Z := Unix (Index2Time day index).1.
Definition getEndTimeByIndex (day : timeIndex) (index : Z) : Z := Unix (Index2Time day index).2.

(** The index, the start of its cycle, and whether the reward is drained. *)
Definition GetIndexByStartTime (day : timeIndex) (t genesisTime : Z) : outcome unit (Z * Z * bool) :=
  if t <? 0 then Ok (0, 0, true)
  else if t <=? genesisTime then Ok (0, genesisTime, false)
  else
    index ← getIndexByTime day (t - 1);
    let index := u64 (index + 1) in
    Ok (index, getStartTimeByIndex day index, false).

(** The index, the end of its cycle, and whether [t] is within the first day. *)
Definition GetIndexByEndTime (day : timeIndex) (t genesisTime : Z) : outcome unit (Z * Z * bool) :=
  if t <? genesisTime then Ok (0, genesisTime, true)
  else
    index ← getIndexByTime day t;
    if index =? 0 then Ok (0, genesisTime, true)
    else Ok (index - 1, getEndTimeByIndex day (index - 1), false).

Definition GetIndexByTime (day : timeIndex) (t genesisTime : Z) : outcome unit Z :=
  if t <? genesisTime then Ok 0 else getIndexByTime day t.

Definition GetEndTimeByIndex (day : timeIndex) (index : Z) : Z := getEndTimeByIndex day index.

(** ** Whole seconds are exact *)

Lemma Seconds_whole x : 0 <= x < 2 ^ 53 -> f_Int (Seconds (x * Second)) = x.
Proof.
  intros Hx; unfold Seconds; rewrite Z.quot_mul, Z.rem_mul by done.
  replace (default _ _) with (mkFloat 0 0) by (by vm_compute).
  unfold f_SetInt; rewrite f_round_pos by lia.
  set (f := round_pos 53 x 1); pose proof (f_den_pos f) as Hd.
  assert (Hf : f_num f = x * f_den f).
  { unfold f; pose proof (round_pos_exact 53 x 1 Hx ltac:(lia)) as E; by rewrite Z.mul_1_r in E. }
  unfold f_Add; change (f_num (mkFloat 0 0)) with 0; change (f_den (mkFloat 0 0)) with 1.
  rewrite Hf, Z.mul_0_l, Z.add_0_r, !Z.mul_1_r, f_round_pos by nia.
  unfold f_Int; rewrite round_pos_exact by done; apply Z.quot_mul.
  pose proof (f_den_pos (round_pos 53 (x * f_den f) (f_den f))); lia.
Qed.

(** A time index on whole seconds whose cycles up to [last] fit 64 bits. *)
Record whole (ti : timeIndex) (g k last : Z) : Prop := {
  wh_genesis : GenesisTime ti = g * Second;
  wh_interval : Interval ti = k * Second;
  wh_positive : 0 < k < 2 ^ 53;
  wh_bound : k * last * Second < 2 ^ 63;
}.

Lemma Time2Index_whole ti g k last s :
  whole ti g k last -> 0 <= s < k * last -> Time2Index ti ((g + s) * Second) = Ok (s / k).
Proof.
  intros [Hg Hi Hk Hb] Hs; unfold Time2Index, time_Sub, Second in *; rewrite Hg, Hi.
  replace ((g + s) * 10 ^ 9 - g * 10 ^ 9) with (s * Second) by (unfold Second; lia).
  rewrite Z.min_r, Z.max_r by (unfold Second; nia).
  fold Second; rewrite !Seconds_whole by (unfold Second; nia); rewrite i64_small by nia.
  unfold u64; rewrite !Z.mod_small by nia; by replace (k =? 0) with false by lia.
Qed.

Lemma Index2Time_whole ti g k last i :
  whole ti g k last -> 0 <= i < last ->
  Index2Time ti i = ((g + k * i) * Second, (g + k * (i + 1)) * Second).
Proof.
  intros [Hg Hi Hk Hb] Hs; unfold Index2Time; rewrite Hg, Hi; unfold Second in *.
  assert (i + 1 < 2 ^ 63) by nia; unfold u64; rewrite (Z.mod_small (i + 1)) by lia.
  rewrite (i64_small i), (i64_small (i + 1)) by lia; rewrite !i64_small by nia; f_equal; lia.
Qed.

(** On whole seconds the index of a time is exactly the cycle it lies in:
    [Time2Index] gives [i] if and only if the time is at or after the start and
    before the end that [Index2Time] gives for [i].  The conversion through
    float64 loses nothing, and nothing overflows for cycles whose end is
    within 292 years of genesis. *)
Theorem time_index_partition ti g k last t i :
  whole ti g k last -> g <= t < g + k * last -> 0 <= i < last ->
  Time2Index ti (time_Unix t) = Ok i <->
  (Index2Time ti i).1 <= time_Unix t < (Index2Time ti i).2.
Proof.
  intros Hw Ht Hi; rewrite (Index2Time_whole ti g k last) by done; unfold time_Unix; simpl.
  replace t with (g + (t - g)) by lia; rewrite (Time2Index_whole ti g k last) by (done || lia).
  pose proof (wh_positive _ _ _ _ Hw); unfold Second; split.
  - intros E%Ok_inj; subst i; pose proof (Z.div_mod (t - g) k ltac:(lia)); pose proof (Z.mod_pos_bound (t - g) k); nia.
  - intros H'; f_equal; symmetry; apply (Z.div_unique _ _ _ (t - g - k * i)); lia.
Qed.

Lemma time_index_partition_witness :
  let day := mkTimeIndex (1558411200 * Second) (86400 * Second) in
  Time2Index day (time_Unix 1600000000) = Ok 481 <->
  (Index2Time day 481).1 <= time_Unix 1600000000 < (Index2Time day 481).2.
Proof.
  apply (time_index_partition _ 1558411200 86400 100000); [|lia..]; split; [done|done|lia|vm_compute; done].
Defined.

Lemma getStartTime_whole day g k last i :
  whole day g k last -> 0 <= i < last -> getStartTimeByIndex day i = g + k * i.
Proof.
  intros Hw Hi; unfold getStartTimeByIndex; rewrite (Index2Time_whole day g k last) by done.
  by unfold Unix; cbn [fst]; rewrite Z.div_mul.
Qed.

Lemma getEndTime_whole day g k last i :
  whole day g k last -> 0 <= i < last -> getEndTimeByIndex day i = g + k * (i + 1).
Proof.
  intros Hw Hi; unfold getEndTimeByIndex; rewrite (Index2Time_whole day g k last) by done.
  by unfold Unix; cbn [snd]; rewrite Z.div_mul.
Qed.

Lemma getIndex_whole day g k last t :
  whole day g k last -> g <= t < g + k * last -> getIndexByTime day t = Ok ((t - g) / k).
Proof.
  intros Hw Ht; unfold getIndexByTime, time_Unix; replace t with (g + (t - g)) at 1 by lia.
  apply (Time2Index_whole day g k last); [done|lia].
Qed.

Lemma start_index day g last t :
  whole day g 86400 last -> 0 <= g -> g < t <= g + 86400 * (last - 1) ->
  exists i, GetIndexByStartTime day t g = Ok (i, g + 86400 * i, false) /\ g + 86400 * (i - 1) < t <= g + 86400 * i.
Proof.
  intros Hw Hg Ht; pose proof (wh_bound _ _ _ _ Hw) as Hb; unfold Second in Hb.
  pose proof (Z.div_mod (t - 1 - g) 86400 ltac:(lia)); pose proof (Z.mod_pos_bound (t - 1 - g) 86400 ltac:(lia)).
  set (j := (t - 1 - g) / 86400) in *; exists (j + 1); split; [|lia].
  unfold GetIndexByStartTime; replace (t <? 0) with false by lia; replace (t <=? g) with false by lia.
  rewrite (getIndex_whole day g 86400 last) by (done || lia); fold j; cbn [mbind outcome_bind].
  unfold u64; rewrite Z.mod_small by lia; by rewrite (getStartTime_whole day g 86400 last) by (done || lia).
Qed.

(** Rewards are computed over complete cycles.  The start index belongs to
    the first cycle that starts at or after the time, the end index to the last
    cycle that has ended by it, and no cycle is left out: starting at the time
    where one computation ended continues with the next cycle. *)
Theorem reward_cycles day g last t :
  whole day g 86400 last -> 0 <= g -> g + 86400 <= t < g + 86400 * (last - 1) ->
  (exists i, GetIndexByStartTime day t g = Ok (i, g + 86400 * i, false) /\ g + 86400 * (i - 1) < t <= g + 86400 * i) /\
  (exists i e, GetIndexByEndTime day t g = Ok (i, e, false) /\ e = GetEndTimeByIndex day i /\ e <= t < e + 86400 /\
     GetIndexByStartTime day e g = Ok (i + 1, e, false)).
Proof.
  intros Hw Hg Ht; split; [apply (start_index day g last t); [done|done|lia]|].
  pose proof (Z.div_mod (t - g) 86400 ltac:(lia)); pose proof (Z.mod_pos_bound (t - g) 86400 ltac:(lia)).
  set (n := (t - g) / 86400) in *; exists (n - 1), (g + 86400 * n).
  assert (He : getEndTimeByIndex day (n - 1) = g + 86400 * n).
  { rewrite (getEndTime_whole day g 86400 last) by (done || lia); f_equal; lia. }
  split; [|split; [done|split; [lia|]]].
  - unfold GetIndexByEndTime; replace (t <? g) with false by lia.
    rewrite (getIndex_whole day g 86400 last) by (done || lia); fold n; cbn [mbind outcome_bind].
    by replace (n =? 0) with false by lia; rewrite He.
  - destruct (start_index day g last (g + 86400 * n) Hw Hg ltac:(lia)) as (i & -> & Hi).
    by replace i with n by lia; replace (n - 1 + 1) with n by lia.
Qed.

Lemma reward_cycles_witness :
  let day := mkTimeIndex (1558411200 * Second) (86400 * Second) in
  exists i, GetIndexByStartTime day 1600000000 1558411200 = Ok (i, 1558411200 + 86400 * i, false).
Proof.
  destruct (reward_cycles (mkTimeIndex (1558411200 * Second) (86400 * Second)) 1558411200 100000 1600000000)
    as [(i & E & _) _]; [|lia|lia|by exists i].
  split; [done|done|lia|vm_compute; done].
Defined.

(** Between seconds the sum of two float64 may round up: a nanosecond before
    the end of a cycle can already count as the next one. *)
Lemma last_nanosecond_rounds_up :
  let day := mkTimeIndex 0 (86400 * Second) in
  let t := 200 * 86400 * Second - 1 in
  Time2Index day t = Ok 200 /\ t < (Index2Time day 200).1.
Proof. by vm_compute. Qed.

(** At exactly one day after genesis the first cycle counts as complete. *)
Lemma first_day_is_complete :
  GetIndexByEndTime (mkTimeIndex 0 (86400 * Second)) 86400 0 = Ok (0, 86400, false).
Proof. by vm_compute. Qed.
