(* ===== verification/Types.v ===== *)
(** Packages common/types, interfaces/core and vm/util (errors, request
    blocks): addresses, hashes, token ids, account blocks and the error values
    the virtual machine returns. *)
From S2P Require Import Prelude Helper.

(** ** Errors (vm/util/errors.go) *)

Inductive vm_err :=
| ErrInvalidMethodParam
| ErrInvalidQuotaMultiplier
| ErrRewardIsNotDrained
| ErrInsufficientBalance
| ErrCalcPoWTwice
| ErrAbiMethodNotFound
| ErrInvalidResponseLatency
| ErrInvalidRandomDegree
| ErrAddressNotMatch
| ErrTransactionTypeNotSupport
| ErrVersionNotSupport
| ErrBlockTypeNotSupported
| ErrDataNotExist
| ErrContractNotExists
| ErrNoReliableStatus
| ErrSBPNotExists
| ErrAddressCollision
| ErrIDCollision
| ErrRewardNotDue
| ErrExecutionReverted
| ErrDepth
| ErrGasUintOverflow
| ErrStorageModifyLimitReached
| ErrMemSizeOverflow
| ErrReturnDataOutOfBounds
| ErrBlockQuotaLimitReached
| ErrAccountQuotaLimitReached
| ErrOutOfQuota
| ErrInvalidCodeLength
| ErrInvalidUnconfirmedQuota
| ErrStackLimitReached
| ErrStackUnderflow
| ErrInvalidJumpDestination
| ErrInvalidOpCode
| ErrChainForked
| ErrContractCreationFail
| ErrExecutionCanceled
| ErrDb (* an error of the database, passed on *)
| ErrAbi. (* an error of package abi, passed on *)

#[export] Instance vm_err_eq_dec : EqDecision vm_err.
Proof. solve_decision. Defined.

Abbreviation result := (outcome vm_err).

(** ** Fixed-size identifiers (common/types) *)

Definition HashSize : Z := 32.
Definition AddressSize : Z := 21.
Definition AddressCoreSize : Z := 20.
Definition TokenTypeIdSize : Z := 10.
Definition GidSize : Z := 10.

Abbreviation Hash := bytes.
Abbreviation Address := bytes.
Abbreviation TokenTypeId := bytes.
Abbreviation Gid := bytes.

Definition ZERO_HASH : Hash := zero_bytes 32.
Definition ZERO_ADDRESS : Address := zero_bytes 21.
Definition ZERO_TOKENID : TokenTypeId := zero_bytes 10.

(** [SetBytes] of the array types leaves the zero array and reports an error
    when the length does not match. *)
Definition BytesToHash (b : bytes) : Hash * bool :=
  if len b =? HashSize then (b, true) else (ZERO_HASH, false).
Definition BytesToAddress (b : bytes) : Address * bool :=
  if len b =? AddressSize then (b, true) else (ZERO_ADDRESS, false).
Definition BytesToTokenTypeId (b : bytes) : TokenTypeId * bool :=
  if len b =? TokenTypeIdSize then (b, true) else (ZERO_TOKENID, false).
Definition BytesToGid (b : bytes) : Gid * bool :=
  if len b =? GidSize then (b, true) else (zero_bytes 10, false).

Definition BigToHash (b : Z) : Hash * bool :=
  let slice := Bytes b in
  if len slice <? HashSize
  then BytesToHash (zero_bytes (Z.to_nat (HashSize - len slice)) ++ slice)
  else BytesToHash slice.

Definition BigToAddress (b : Z) : Address * bool :=
  BytesToAddress (LeftPadBytes (Bytes b) AddressSize).

Definition BigToTokenTypeId (b : Z) : TokenTypeId * bool :=
  BytesToTokenTypeId (LeftPadBytes (Bytes b) TokenTypeIdSize).

Definition UserAddrByte : byte := x00.
Definition ContractAddrByte : byte := x01.

(** [addr[AddressSize-1] == ContractAddrByte] *)
Definition IsContractAddr (addr : Address) : bool :=
  bool_decide (addr !! 20%nat = Some ContractAddrByte).

Definition builtin_addr (n : byte) : Address := zero_bytes 19 ++ [n; ContractAddrByte].
Definition AddressQuota : Address := builtin_addr x03.
Definition AddressGovernance : Address := builtin_addr x04.
Definition AddressAsset : Address := builtin_addr x05.
Definition AddressDexFund : Address := builtin_addr x06.
Definition AddressDexTrade : Address := builtin_addr x07.

Definition BuiltinContracts : list Address :=
  [AddressQuota; AddressGovernance; AddressAsset; AddressDexFund; AddressDexTrade].

Definition IsBuiltinContractAddrInUse (addr : Address) : bool :=
  existsb (fun cAddr => bool_decide (cAddr = addr)) BuiltinContracts.

Definition PRIVATE_GID : Gid := zero_bytes 10.
Definition SNAPSHOT_GID : Gid := zero_bytes 9 ++ [x01].
Definition DELEGATE_GID : Gid := zero_bytes 9 ++ [x02].

(** ** Account blocks (interfaces/core/account_block.go) *)

Definition BlockTypeSendCreate : Z := 1.
Definition BlockTypeSendCall : Z := 2.
Definition BlockTypeSendReward : Z := 3.
Definition BlockTypeReceive : Z := 4.
Definition BlockTypeReceiveError : Z := 5.
Definition BlockTypeSendRefund : Z := 6.
Definition BlockTypeGenesisReceive : Z := 7.

Definition IsSendBlock (blockType : Z) : bool :=
  (blockType =? BlockTypeSendCreate) || (blockType =? BlockTypeSendCall)
  || (blockType =? BlockTypeSendReward) || (blockType =? BlockTypeSendRefund).

Definition IsReceiveBlock (blockType : Z) : bool :=
  (blockType =? BlockTypeReceive) || (blockType =? BlockTypeReceiveError)
  || (blockType =? BlockTypeGenesisReceive).

(** The cached [producer] is left out; [*big.Int] and pointer fields that may
    be nil are options. *)
Inductive AccountBlock := mkAccountBlock {
  BlockType : Z;
  ab_Hash : Hash;
  PrevHash : Hash;
  Height : Z;
  AccountAddress : Address;
  PublicKey : bytes;
  ToAddress : Address;
  Amount : option Z;
  TokenId : TokenTypeId;
  FromBlockHash : Hash;
  Data : bytes;
  Quota : Z;
  QuotaUsed : Z;
  Fee : option Z;
  LogHash : option Hash;
  Difficulty : option Z;
  Nonce : bytes;
  SendBlockList : list AccountBlock;
  Signature : bytes;
}.

(** The Go zero value of the struct. *)
Definition zero_block : AccountBlock :=
  {| BlockType := 0; ab_Hash := ZERO_HASH; PrevHash := ZERO_HASH; Height := 0;
     AccountAddress := ZERO_ADDRESS; PublicKey := []; ToAddress := ZERO_ADDRESS;
     Amount := None; TokenId := ZERO_TOKENID; FromBlockHash := ZERO_HASH; Data := [];
     Quota := 0; QuotaUsed := 0; Fee := None; LogHash := None; Difficulty := None;
     Nonce := []; SendBlockList := []; Signature := [] |}.

(** 'VITE TOKEN' (interfaces/core/token.go) *)
Definition ViteTokenId : TokenTypeId :=
  [x56; x49; x54; x45; x20; x54; x4f; x4b; x45; x4e].

Definition IsViteToken (tokenID : TokenTypeId) : bool := bool_decide (tokenID = ViteTokenId).

(** Field updates used by the virtual machine. *)
Definition set_AccountAddress (b : AccountBlock) (v : Address) : AccountBlock :=
  {| BlockType := BlockType b; ab_Hash := ab_Hash b; PrevHash := PrevHash b; Height := Height b;
     AccountAddress := v; PublicKey := PublicKey b; ToAddress := ToAddress b;
     Amount := Amount b; TokenId := TokenId b; FromBlockHash := FromBlockHash b; Data := Data b;
     Quota := Quota b; QuotaUsed := QuotaUsed b; Fee := Fee b; LogHash := LogHash b;
     Difficulty := Difficulty b; Nonce := Nonce b; SendBlockList := SendBlockList b;
     Signature := Signature b |}.
Definition set_ToAddress (b : AccountBlock) (v : Address) : AccountBlock :=
  {| BlockType := BlockType b; ab_Hash := ab_Hash b; PrevHash := PrevHash b; Height := Height b;
     AccountAddress := AccountAddress b; PublicKey := PublicKey b; ToAddress := v;
     Amount := Amount b; TokenId := TokenId b; FromBlockHash := FromBlockHash b; Data := Data b;
     Quota := Quota b; QuotaUsed := QuotaUsed b; Fee := Fee b; LogHash := LogHash b;
     Difficulty := Difficulty b; Nonce := Nonce b; SendBlockList := SendBlockList b;
     Signature := Signature b |}.
Definition set_Fee (b : AccountBlock) (v : option Z) : AccountBlock :=
  {| BlockType := BlockType b; ab_Hash := ab_Hash b; PrevHash := PrevHash b; Height := Height b;
     AccountAddress := AccountAddress b; PublicKey := PublicKey b; ToAddress := ToAddress b;
     Amount := Amount b; TokenId := TokenId b; FromBlockHash := FromBlockHash b; Data := Data b;
     Quota := Quota b; QuotaUsed := QuotaUsed b; Fee := v; LogHash := LogHash b;
     Difficulty := Difficulty b; Nonce := Nonce b; SendBlockList := SendBlockList b;
     Signature := Signature b |}.
Definition set_Data (b : AccountBlock) (v : bytes) : AccountBlock :=
  {| BlockType := BlockType b; ab_Hash := ab_Hash b; PrevHash := PrevHash b; Height := Height b;
     AccountAddress := AccountAddress b; PublicKey := PublicKey b; ToAddress := ToAddress b;
     Amount := Amount b; TokenId := TokenId b; FromBlockHash := FromBlockHash b; Data := v;
     Quota := Quota b; QuotaUsed := QuotaUsed b; Fee := Fee b; LogHash := LogHash b;
     Difficulty := Difficulty b; Nonce := Nonce b; SendBlockList := SendBlockList b;
     Signature := Signature b |}.
Definition set_SendBlockList (b : AccountBlock) (v : list AccountBlock) : AccountBlock :=
  {| BlockType := BlockType b; ab_Hash := ab_Hash b; PrevHash := PrevHash b; Height := Height b;
     AccountAddress := AccountAddress b; PublicKey := PublicKey b; ToAddress := ToAddress b;
     Amount := Amount b; TokenId := TokenId b; FromBlockHash := FromBlockHash b; Data := Data b;
     Quota := Quota b; QuotaUsed := QuotaUsed b; Fee := Fee b; LogHash := LogHash b;
     Difficulty := Difficulty b; Nonce := Nonce b; SendBlockList := v;
     Signature := Signature b |}.
Definition set_quotas (b : AccountBlock) (quota quotaUsed : Z) : AccountBlock :=
  {| BlockType := BlockType b; ab_Hash := ab_Hash b; PrevHash := PrevHash b; Height := Height b;
     AccountAddress := AccountAddress b; PublicKey := PublicKey b; ToAddress := ToAddress b;
     Amount := Amount b; TokenId := TokenId b; FromBlockHash := FromBlockHash b; Data := Data b;
     Quota := quota; QuotaUsed := quotaUsed; Fee := Fee b; LogHash := LogHash b;
     Difficulty := Difficulty b; Nonce := Nonce b; SendBlockList := SendBlockList b;
     Signature := Signature b |}.
Definition set_outcome (b : AccountBlock) (blockType : Z) (logHash : option Hash) : AccountBlock :=
  {| BlockType := blockType; ab_Hash := ab_Hash b; PrevHash := PrevHash b; Height := Height b;
     AccountAddress := AccountAddress b; PublicKey := PublicKey b; ToAddress := ToAddress b;
     Amount := Amount b; TokenId := TokenId b; FromBlockHash := FromBlockHash b; Data := Data b;
     Quota := Quota b; QuotaUsed := QuotaUsed b; Fee := Fee b; LogHash := logHash;
     Difficulty := Difficulty b; Nonce := Nonce b; SendBlockList := SendBlockList b;
     Signature := Signature b |}.

(** util.MakeRequestBlock (vm/util/common.go) *)
Definition MakeRequestBlock (fromAddress toAddress : Address) (blockType : Z)
    (amount : Z) (tokenID : TokenTypeId) (data : bytes) : AccountBlock :=
  {| BlockType := blockType; ab_Hash := ZERO_HASH; PrevHash := ZERO_HASH; Height := 0;
     AccountAddress := fromAddress; PublicKey := []; ToAddress := toAddress;
     Amount := Some amount; TokenId := tokenID; FromBlockHash := ZERO_HASH; Data := data;
     Quota := 0; QuotaUsed := 0; Fee := Some 0; LogHash := None; Difficulty := None;
     Nonce := []; SendBlockList := []; Signature := [] |}.

(** ** Contract meta, snapshot blocks *)

Record ContractMeta := mkContractMeta {
  cm_Gid : Gid;
  SendConfirmedTimes : Z;
  CreateBlockHash : Hash;
  QuotaRatio : Z;
  SeedConfirmedTimes : Z;
}.

(** The fields of a snapshot block the virtual machine reads. *)
Record SnapshotBlock := mkSnapshotBlock {
  sb_Hash : Hash;
  sb_Height : Z;
  sb_Timestamp : Z;
}.

(** ** Storage keys *)

Lemma LeftPad_length bs l : len bs <= l -> len (LeftPadBytes bs l) = l.
Proof.
  unfold LeftPadBytes, len, zero_bytes; intros H.
  destruct (Z.leb_spec l (Z.of_nat (length bs))); [lia|].
  rewrite length_app, length_replicate; lia.
Qed.

(** On 256-bit words [BigToHash] is the 32-byte big-endian encoding, so it
    never fails and never identifies two storage locations. *)
Lemma BigToHash_u256 x : is_u256 x -> BigToHash x = (be_bytes 32 x, true).
Proof.
  intros Hx; pose proof (length_Bytes_u256 x Hx) as Hl; destruct Hx as [Hx0 Hx1].
  assert (HB : zero_bytes (32 - length (Bytes x)) ++ Bytes x = be_bytes 32 x).
  { replace 32%nat with ((32 - length (Bytes x)) + length (Bytes x))%nat at 2 by lia.
    pose proof (SetBytes_range (Bytes x)) as Hr; rewrite SetBytes_Bytes in Hr by done.
    rewrite be_bytes_add, (Z.div_small x), be_bytes_zero by done; f_equal.
    rewrite <- (SetBytes_Bytes x Hx0) at 3; rewrite be_bytes_SetBytes; done. }
  unfold BigToHash, BytesToHash, HashSize, len.
  destruct (Z.ltb_spec (Z.of_nat (length (Bytes x))) 32) as [H|H].
  - replace (Z.to_nat (32 - Z.of_nat (length (Bytes x)))) with (32 - length (Bytes x))%nat by lia.
    rewrite HB, length_be_bytes; done.
  - replace (32 - length (Bytes x))%nat with 0%nat in HB by lia; cbn [zero_bytes replicate app] in HB.
    rewrite HB, length_be_bytes; done.
Qed.

Lemma BigToHash_inj x y :
  is_u256 x -> is_u256 y -> (BigToHash x).1 = (BigToHash y).1 -> x = y.
Proof.
  intros Hx Hy; rewrite !BigToHash_u256 by done; cbn [fst]; intros H.
  apply (f_equal SetBytes) in H; rewrite !SetBytes_be_bytes in H.
  change (256 ^ Z.of_nat 32) with (2 ^ 256) in H.
  rewrite !Z.mod_small in H by assumption; done.
Qed.

Lemma BigToHash_length x : length (BigToHash x).1 = 32%nat.
Proof.
  unfold BigToHash, BytesToHash, HashSize, len.
  repeat match goal with |- context [if ?b then _ else _] => destruct b eqn:? end;
    simpl; try done; lia.
Qed.
