(* ===== verification/Upgrade.v ===== *)
(** Package common/upgrade: the table of hard-fork points that selects the
    instruction set and the quota table by snapshot height. *)
From S2P Require Import Prelude.
From stdpp Require Import strings pretty sorting.
#[local] Open Scope Z_scope.

Record UpgradePoint := mkPoint {
  up_Name : string;
  up_Height : Z;
  up_Version : Z;
}.

Record upgradeBox := mkBox {
  pointMap : gmap Z UpgradePoint;
  heightMap : gset Z;
  sortedPoints : list UpgradePoint;
}.

Definition EndlessHeight : Z := 1000000000.

(** sort.Sort(byVersion(...)) over the values of the map. *)
Definition byVersion (a b : UpgradePoint) : Prop := up_Version a <= up_Version b.
#[export] Instance byVersion_dec : RelDecision byVersion.
Proof. intros a b; unfold byVersion; apply _. Defined.

Definition sortPoints (m : gmap Z UpgradePoint) : list UpgradePoint :=
  merge_sort byVersion (snd <$> map_to_list m).

(** The loop of [checkBox]: [index] and [lastHeight] are its variables. *)
Fixpoint checkBox_from (index lastHeight : Z) (l : list UpgradePoint) : bool :=
  match l with
  | [] => true
  | ele :: l' =>
      if negb (index =? up_Version ele - 1) then false
      else if up_Height ele <? lastHeight then false
      else checkBox_from (index + 1) (up_Height ele) l'
  end.
Definition checkBox (box : upgradeBox) : bool := checkBox_from 0 0 (sortedPoints box).

Definition initFromArray (box : upgradeBox) (points : list UpgradePoint) : upgradeBox :=
  let named value :=
    if bool_decide (up_Name value = EmptyString)
    then mkPoint (pretty (up_Version value)) (up_Height value) (up_Version value)
    else value in
  let '(pm, hm) :=
    fold_left (fun '(pm, hm) value =>
                 let value := named value in
                 (<[up_Version value := value]> pm, {[up_Height value]} ∪ hm))
              points (pointMap box, heightMap box) in
  mkBox pm hm (sortPoints pm).

Definition newUpgradeBox (points : list UpgradePoint) : outcome unit upgradeBox :=
  let result := initFromArray (mkBox ∅ ∅ []) points in
  if checkBox result then Ok result else Panic PUpgrade.

Definition AddPoint (box : upgradeBox) (version height : Z) : outcome unit upgradeBox :=
  if (0 <? Z.of_nat (size (pointMap box)))
     && bool_decide (pointMap box !! (version - 1) = None)
  then Panic PUpgrade
  else
    let pm := <[version := mkPoint EmptyString height version]> (pointMap box) in
    Ok (mkBox pm ({[height]} ∪ heightMap box) (sortPoints pm)).

(** The loops that stop at the first point above the bound. *)
Fixpoint last_below (ok : Z -> bool) (result : option UpgradePoint)
    (l : list UpgradePoint) : option UpgradePoint :=
  match l with
  | [] => result
  | v :: l' => if ok (up_Height v) then last_below ok (Some v) l' else result
  end.

Definition latestPoint (box : upgradeBox) : option UpgradePoint :=
  last_below (fun h => h <? EndlessHeight) None (sortedPoints box).

Definition currentPoint (box : upgradeBox) (height : Z) : option UpgradePoint :=
  last_below (fun h => h <=? height) None (sortedPoints box).

Definition activePoints (box : upgradeBox) (height : Z) : list UpgradePoint :=
  filter (fun v => up_Height v <= height) (sortedPoints box).

Definition getUpgradePoint (box : upgradeBox) (version : Z) : option UpgradePoint :=
  pointMap box !! version.

Definition isActive (box : upgradeBox) (version height : Z) : bool :=
  match pointMap box !! version with
  | None => false
  | Some point => up_Height point <=? height
  end.

Definition isPoint (box : upgradeBox) (height : Z) : bool := bool_decide (height ∈ heightMap box).

(** ** Named upgrades (face.go) *)

Definition IsSeedUpgrade (box : upgradeBox) (h : Z) : bool := isActive box 1 h.
Definition IsDexUpgrade (box : upgradeBox) (h : Z) : bool := isActive box 2 h.
Definition IsDexFeeUpgrade (box : upgradeBox) (h : Z) : bool := isActive box 3 h.
Definition IsStemUpgrade (box : upgradeBox) (h : Z) : bool := isActive box 4 h.
Definition IsLeafUpgrade (box : upgradeBox) (h : Z) : bool := isActive box 5 h.
Definition IsEarthUpgrade (box : upgradeBox) (h : Z) : bool := isActive box 6 h.
Definition IsDexMiningUpgrade (box : upgradeBox) (h : Z) : bool := isActive box 7 h.
Definition IsDexRobotUpgrade (box : upgradeBox) (h : Z) : bool := isActive box 8 h.
Definition IsDexStableMarketUpgrade (box : upgradeBox) (h : Z) : bool := isActive box 9 h.
Definition IsVersion10Upgrade (box : upgradeBox) (h : Z) : bool := isActive box 10 h.
Definition IsVersion11Upgrade (box : upgradeBox) (h : Z) : bool := isActive box 11 h.
Definition IsVersion12Upgrade (box : upgradeBox) (h : Z) : bool := isActive box 12 h.
Definition IsVersion13Upgrade (box : upgradeBox) (h : Z) : bool := isActive box 13 h.
Definition IsVersionXUpgrade (box : upgradeBox) (h : Z) : bool := isActive box 14 h.

(** ** The boxes of upgrade_init.go *)

Definition mainnet_points : list UpgradePoint :=
  [ mkPoint "SeedFork" 3488471 1; mkPoint "DexFork" 5442723 2;
    mkPoint "DexFeeFork" 8013367 3; mkPoint "StemFork" 8403110 4;
    mkPoint "LeafFork" 9413600 5; mkPoint "EarthFork" 16634530 6;
    mkPoint "DexMiningFork" 17142720 7; mkPoint "DexRobotFork" 31305900 8;
    mkPoint "DexStableMarketFork" 39694000 9; mkPoint "Version10" 77106666 10;
    mkPoint "Version11" 101320000 11; mkPoint "Version12" 116480000 12;
    mkPoint "Version13" 166869900 13; mkPoint "VersionX" EndlessHeight 14 ].
Definition NewMainnetUpgradeBox : outcome unit upgradeBox := newUpgradeBox mainnet_points.

Definition latest_points : list UpgradePoint :=
  (fun v => mkPoint EmptyString 1 (Z.of_nat v)) <$> seq 1 14.
Definition NewLatestUpgradeBox : outcome unit upgradeBox := newUpgradeBox latest_points.

Definition NewEmptyUpgradeBox : outcome unit upgradeBox := newUpgradeBox [].

(** ** Well-formed boxes *)

(** Every point is stored under its own version and [sortedPoints] lists the
    map. *)
Record box_wf (box : upgradeBox) : Prop := {
  wf_key v p : pointMap box !! v = Some p -> up_Version p = v;
  wf_sorted : sortedPoints box = sortPoints (pointMap box);
}.

Lemma elem_of_sortPoints m p :
  p ∈ sortPoints m <-> exists v, m !! v = Some p.
Proof.
  unfold sortPoints; rewrite (merge_sort_Permutation byVersion).
  rewrite list_elem_of_fmap; split.
  - intros ((v & q) & -> & H); exists v; by apply elem_of_map_to_list.
  - intros (v & H); exists (v, p); split; [done|]; by apply elem_of_map_to_list.
Qed.

Lemma checkBox_from_spec i lh l :
  checkBox_from i lh l = true ->
  forall j p, l !! j = Some p ->
    up_Version p = i + Z.of_nat j + 1 /\ lh <= up_Height p.
Proof.
  revert i lh; induction l as [|e l IH]; intros i lh H j p Hj; [done|].
  cbn [checkBox_from] in H.
  destruct (Z.eqb_spec i (up_Version e - 1)); [|done]; simpl in H.
  destruct (Z.ltb_spec (up_Height e) lh); [done|].
  destruct j as [|j]; simpl in Hj; [simplify_eq; lia|].
  destruct (IH _ _ H j p Hj); lia.
Qed.

Lemma checkBox_from_mono i lh l :
  checkBox_from i lh l = true ->
  forall j k p q, (j <= k)%nat -> l !! j = Some p -> l !! k = Some q ->
    up_Height p <= up_Height q.
Proof.
  revert i lh; induction l as [|e l IH]; intros i lh H j k p q Hjk Hj Hk; [done|].
  cbn [checkBox_from] in H.
  destruct (negb _); [done|]; destruct (up_Height e <? lh); [done|].
  destruct j as [|j], k as [|k]; simpl in Hj, Hk; simplify_eq; [done| |lia|].
  - by apply (checkBox_from_spec _ _ _ H k q).
  - eapply (IH _ _ H j k); eauto with lia.
Qed.

Lemma initFromArray_wf points : box_wf (initFromArray (mkBox ∅ ∅ []) points).
Proof.
  unfold initFromArray; simpl.
  match goal with |- context [fold_left ?f _ _] => set (step := f) end.
  assert (Hstep : forall pts pm hm, map_Forall (fun v p => up_Version p = v) pm ->
    map_Forall (fun v p => up_Version p = v) (fold_left step pts (pm, hm)).1).
  { induction pts as [|e pts IH]; intros pm hm Hpm; [done|]; simpl.
    apply IH, map_Forall_insert_2; [done|exact Hpm]. }
  specialize (Hstep points ∅ ∅ (map_Forall_empty _)).
  destruct (fold_left step points (∅, ∅)) as [pm hm]; simpl in *.
  split; simpl; [|done]; intros v p H; exact (Hstep v p H).
Qed.

Lemma newUpgradeBox_ok points box :
  newUpgradeBox points = Ok box -> box_wf box /\ checkBox box = true.
Proof.
  unfold newUpgradeBox; destruct (checkBox _) eqn:E; intros H; simplify_eq.
  split; [apply initFromArray_wf|done].
Qed.

(** In a checked box the versions are exactly the positions. *)
Lemma checked_lookup box v :
  box_wf box -> checkBox box = true -> 1 <= v ->
  pointMap box !! v = sortedPoints box !! Z.to_nat (v - 1).
Proof.
  intros [Hkey Hsort] Hc Hv.
  destruct (pointMap box !! v) as [p|] eqn:E.
  - assert (Hp : p ∈ sortedPoints box) by (rewrite Hsort; apply elem_of_sortPoints; eauto).
    apply list_elem_of_lookup in Hp as [j Hj].
    destruct (checkBox_from_spec _ _ _ Hc _ _ Hj) as [Hver _].
    apply Hkey in E; replace (Z.to_nat (v - 1)) with j by lia; done.
  - destruct (sortedPoints box !! Z.to_nat (v - 1)) as [q|] eqn:Eq; [|done].
    destruct (checkBox_from_spec _ _ _ Hc _ _ Eq) as [Hver _].
    assert (Hq : q ∈ sortedPoints box) by (apply list_elem_of_lookup; eauto).
    rewrite Hsort in Hq; apply elem_of_sortPoints in Hq as [w Hw].
    pose proof (Hkey _ _ Hw); replace w with v in Hw by lia; congruence.
Qed.

(** Upgrades are cumulative. *)
Lemma isActive_down box v v' h :
  box_wf box -> checkBox box = true ->
  isActive box v h = true -> 1 <= v' <= v -> isActive box v' h = true.
Proof.
  intros Hwf Hc Ha Hv; unfold isActive in *.
  rewrite (checked_lookup box v) in Ha by (done || lia).
  rewrite (checked_lookup box v') by (done || lia).
  destruct (sortedPoints box !! Z.to_nat (v - 1)) as [p|] eqn:Ep; [|done].
  assert (Hlt : (Z.to_nat (v' - 1) < length (sortedPoints box))%nat).
  { apply lookup_lt_Some in Ep; lia. }
  apply lookup_lt_is_Some in Hlt as [q Eq]; rewrite Eq.
  assert (up_Height q <= up_Height p); [|lia].
  eapply (checkBox_from_mono _ _ _ Hc); [|exact Eq|exact Ep]; lia.
Qed.

Lemma last_below_filter l lh i r h :
  checkBox_from i lh l = true ->
  last_below (fun x => x <=? h) r l =
    match last (filter (fun v => up_Height v <= h) l) with Some p => Some p | None => r end.
Proof.
  revert i lh r; induction l as [|e l IH]; intros i lh r H; [done|].
  cbn [checkBox_from] in H; destruct (negb _); [done|].
  destruct (up_Height e <? lh); [done|].
  cbn [last_below]; rewrite filter_cons.
  destruct (Z.leb_spec (up_Height e) h); case_decide; try lia.
  - rewrite (IH _ _ _ H), last_cons.
    by destruct (last (filter _ l)).
  - replace (filter (fun v => up_Height v <= h) l) with (@nil UpgradePoint); [done|].
    symmetry; apply elem_of_nil_inv; intros p [Hp Hin]%list_elem_of_filter.
    apply list_elem_of_lookup in Hin as [j Hj]; destruct (checkBox_from_spec _ _ _ H _ _ Hj); lia.
Qed.

(** Once a node has started with a box that passed [checkBox], fork [v]
    being active at a height means every earlier fork is: the cascade of
    height tests that selects quota tables and instruction sets never sees a
    later fork without the earlier ones. *)
Theorem upgrades_cumulative points box v v' h :
  newUpgradeBox points = Ok box ->
  isActive box v h = true -> 1 <= v' <= v ->
  isActive box v' h = true /\ forall h', h <= h' -> isActive box v' h' = true.
Proof.
  intros Hb Ha Hv; apply newUpgradeBox_ok in Hb as [Hwf Hc].
  assert (H : isActive box v' h = true) by (eapply isActive_down; eauto).
  split; [done|]; intros h' Hh; unfold isActive in *.
  destruct (pointMap box !! v'); [lia|done].
Qed.

Lemma upgrades_cumulative_witness :
  exists box, newUpgradeBox mainnet_points = Ok box /\
    isActive box 2 20000000 = true /\ forall h', 20000000 <= h' -> isActive box 2 h' = true.
Proof.
  eexists; split; [vm_compute; reflexivity|].
  eapply (upgrades_cumulative mainnet_points _ 4 2 20000000); [vm_compute; reflexivity..|lia].
Defined.

(** [currentPoint] (the early-exit scan) is the last of [activePoints] (the
    full scan). *)
Theorem currentPoint_last_active points box h :
  newUpgradeBox points = Ok box ->
  currentPoint box h = last (activePoints box h).
Proof.
  intros Hb; apply newUpgradeBox_ok in Hb as [_ Hc].
  unfold currentPoint, activePoints; rewrite (last_below_filter _ _ _ _ _ Hc).
  by destruct (last _).
Qed.

Lemma currentPoint_last_active_witness :
  exists box, newUpgradeBox mainnet_points = Ok box /\
    currentPoint box 20000000 = last (activePoints box 20000000).
Proof.
  eexists; split; [vm_compute; reflexivity|].
  eapply (currentPoint_last_active mainnet_points); vm_compute; reflexivity.
Defined.
