(* ===== verification/QuotaParams.v ===== *)
(** vm/quota/params.go: the constants and tables of the account quota.

    Entry [i] of a stake or difficulty table is what [i] sections of quota
    cost.  The stake tables hold whole numbers of VITE; they are written here
    without the 18 decimals, which [stakeAmountListMainnet] and
    [stakeAmountListTestnet] put back. *)
From S2P Require Import Prelude.

Definition QuotaForCreateContractResponse : Z := 1000000.
Definition quotaLimitForBlock : Z := 1000000.
Definition quotaForSection : Z := 280.
Definition sectionLen : Z := 3571.
Definition outOfQuotaBlockTime : Z := 75.
Definition qcGap : Z := 21000 * 74.
Definition qcIndexMinMainnet : Z := 51.
Definition qcIndexMaxMainnet : Z := 500.
Definition qcDivision : Z := 10 ^ 18.

(** The congestion ratios of the indices 51 to 500. *)
Definition qcListMainnet : list Z := [
  987080173288357376; 973993424654456192; 960737597495985792; 947310507347708544;
   933709941521474304; 919933658741584512; 905979388775447936; 891844832059461376;
   877527659320058752; 863025511189862144; 848335997818876672; 833456698480659968;
   818385161173402752; 803118902215857536; 787655405838046080; 771992123766676864;
   756126474805210112; 740055844408493440; 723777584251904256; 707289011794925312;
   690587409839079424; 673670026080157312; 656534072654655744; 639176725680357760;
   621595124790977920; 603786372664794240; 585747534547189376; 567475637767025792;
   548967671246769472; 530220585006286912; 511231289660228672; 491996655908923264;
   472513514022689024; 452778653319486400; 432788821635819968; 412540724790805696;
   392031026043313280; 371256345542095424; 350213259768811904; 328898300973859328;
   307307956604910144; 285438668728069440; 263286833441553024; 240848800281789888;
   218120871621852576; 195099302062114336; 171780297813033824; 148160016069967424;
   124234564379900544; 100000000000000096; 99736634886425696; 99473339134034448;
   99210112724558928; 98946955639736656; 98683867861309888; 98420849371025792;
   98157900150636304; 97895020181898000; 97632209446572576; 97369467926426304;
   97106795603230320; 96844192458760640; 96581658474797824; 96319193633127568;
   96056797915540112; 95794471303830672; 95532213779799152; 95270025325250192;
   95007905921993264; 94745855551842784; 94483874196617856; 94221961838142240;
   93960118458244704; 93698344038758656; 93436638561522288; 93175002008378688;
   92913434361175600; 92651935601765648; 92390505712006128; 92129144673759216;
   91867852468891840; 91606629079275744; 91345474486787200; 91084388673307696;
   90823371620723072; 90562423310924128; 90301543725806336; 90040732847270208;
   89779990657220752; 89519317137567776; 89258712270225856; 88998176037114464;
   88737708420157712; 88477309401284400; 88216978962428304; 87956717085527888;
   87696523752526128; 87436398945371136; 87176342646015488; 86916354836416688;
   86656435498536848; 86396584614342960; 86136802165806768; 85877088134904576;
   85617442503617696; 85357865253931856; 85098356367837920; 84838915827331280;
   84579543614412000; 84320239711085152; 84061004099360128; 83801836761251520;
   83542737678778288; 83283706833964352; 83024744208838208; 82765849785433328;
   82507023545787648; 82248265471943968; 81989575545949872; 81730953749857392;
   81472400065723648; 81213914475610320; 80955496961583776; 80697147505715216;
   80438866090080448; 80180652696759888; 79922507307839120; 79664429905408000;
   79406420471561216; 79148478988398384; 78890605438023504; 78632799802545568;
   78375062064077968; 78117392204739232; 77859790206652240; 77602256051944704;
   77344789722749168; 77087391201202560; 76830060469446848; 76572797509628528;
   76315602303898896; 76058474834413744; 75801415083333824; 75544423032824496;
   75287498665055680; 75030641962202208; 74773852906443344; 74517131479963424;
   74260477664951136; 74003891443599984; 73747372798108176; 73490921710678496;
   73234538163518656; 72978222138840752; 72721973618861904; 72465792585803552;
   72209679021892016; 71953632909358408; 71697654230438280; 71441742967372048;
   71185899102404584; 70930122617785752; 70674413495769864; 70418771718615880;
   70163197268587552; 69907690127953392; 69652250278986248; 69396877703963968;
   69141572385168824; 68886334304888112; 68631163445413312; 68376059789040936;
   68121023318072016; 67866054014812160; 67611151861571848; 67356316840666008;
   67101548934414448; 66846848125141520; 66592214395176152; 66337647726851912;
   66083148102507152; 65828715504484992; 65574349915132776; 65320051316803072;
   65065819691852432; 64811655022642632; 64557557291539776; 64303526480914752;
   64049562573142984; 63795665550604672; 63541835395684584; 63288072090772032;
   63034375618261088; 62780745960550392; 62527183100043352; 62273687019147928;
   62020257700276528; 61766895125846544; 61513599278279704; 61260370140002632;
   61007207693446256; 60754111921046296; 60501082805243248; 60248120328482032;
   59995224473212264; 59742395221888064; 59489632556968376; 59236936460916656;
   58984306916201048; 58731743905294008; 58479247410673120; 58226817414820272;
   57974453900221824; 57722156849369208; 57469926244757888; 57217762068888512;
   56965664304265864; 56713632933399704; 56461667938804136; 56209769302998040;
   55957937008504712; 55706171037852136; 55454471373573176; 55202837998204800;
   54951270894288864; 54699770044371872; 54448335431004800; 54196967036743256;
   53945664844147424; 53694428835782016; 53443258994216536; 53192155302024816;
   52941117741785672; 52690146296081928; 52439240947501520; 52188401678636808;
   51937628472084608; 51686921310446384; 51436280176328288; 51185705052340992;
   50935195921099632; 50684752765224104; 50434375567338760; 50184064310072496;
   49933818976059088; 49683639547936312; 49433526008347160; 49183478339938744;
   48933496525362944; 48683580547276064; 48433730388339200; 48183946031217784;
   47934227458581888; 47684574653106384; 47434987597470224; 47185466274357376;
   46936010666456144; 46686620756459352; 46437296527064520; 46188037960973816;
   45938845040893520; 45689717749535008; 45440656069613896; 45191659983850328;
   44942729474969248; 44693864525699904; 44445065118776104; 44196331236936448;
   43947662862923840; 43699059979485752; 43450522569374320; 43202050615346096;
   42953644100162224; 42705303006588592; 42457027317395088; 42208817015356840;
   41960672083252824; 41712592503867160; 41464578259987952; 41216629334408392;
   40968745709925704; 40720927369341960; 40473174295463712; 40225486471101800;
   39977863879071872; 39730306502194000; 39482814323292928; 39235387325197488;
   38988025490741648; 38740728802763360; 38493497244105448; 38246330797614968;
   37999229446143864; 37752193172548080; 37505221959688752; 37258315790430816;
   37011474647644208; 36764698514203272; 36517987372986616; 36271341206877808;
   36024759998764532; 35778243731539148; 35531792388098448; 35285405951343772;
   35039084404181020; 34792827729520524; 34546635910277068; 34300508929370088;
   34054446769723356; 33808449414265308; 33562516845928704; 33316649047650860;
   33070846002373644; 32825107693043364; 32579434102610884; 32333825214031388;
   32088281010264728; 31842801474275208; 31597386589031552; 31352036337507048;
   31106750702679320; 30861529667530752; 30616373215047952; 30371281328222088;
   30126253990048756; 29881291183528336; 29636392891665088; 29391559097468380;
   29146789783951800; 28902084934133156; 28657444531035024; 28412868557684544;
   28168356997112952; 27923909832356376; 27679527046455044; 27435208622453964;
   27190954543402368; 26946764792353916; 26702639352367052; 26458578206504436;
   26214581337833276; 25970648729425004; 25726780364355940; 25482976225706500;
   25239236296561772; 24995560560011176; 24751948999148564; 24508401597072348;
   24264918336885376; 24021499201694828; 23778144174612436; 23534853238754484;
   23291626377241472; 23048463573198452; 22805364809754812; 22562330070044824;
   22319359337206524; 22076452594382956; 21833609824721268; 21590831011373156;
   21348116137494876; 21105465186246784; 20862878140794128; 20620354984306256;
   20377895699956960; 20135500270924700; 19893168680392148; 19650900911546420;
   19408696947579184; 19166556771686328; 18924480367068508; 18682467716930384;
   18440518804481500; 18198633612935276; 17956812125510036; 17715054325428304;
   17473360195917054; 17231729720207700; 16990162881535986; 16748659663142206;
   16507220048270988; 16265844020171282; 16024531562096712; 15783282657304998;
   15542097289058532; 15300975440623920; 15059917095272324; 14818922236279230;
   14577990846924572; 14337122910492606; 14096318410272146; 13855577329556224;
   13614899651642310; 13374285359832428; 13133734437432710; 12893246867754172;
   12652822634111604; 12412461719824686; 12172164108217198; 11931929782617590;
   11691758726358414; 11451650922776668; 11211606355213898; 10971625007015984;
   10731706861533020; 10491851902119764; 10252060112135086; 10012331474942404;
   9772665973909466; 9533063592408464; 9293524313815916; 9054048121512670; 8814634998884019;
   8575284929319471; 8335997896213310; 8096773882963704; 7857612872973596; 7618514849650038;
   7379479796404520; 7140507696652976; 6901598533815556; 6662752291317076; 6423968952586234;
   6185248501056617; 5946590920165806; 5707996193355824; 5469464304073246; 5230995235768754;
   4992588971897582; 4754245495919074; 4515964791297233; 4277746841500174; 4039591630000561;
   3801499140275277; 3563469355805648; 3325502260077106; 3087597836579858; 2849756068808107;
   2611976940260496; 2374260434440112; 2136606534854368; 1899015225014677; 1661486488437447;
   1424020308642859; 1186616669155760; 949275553504991; 711996945224169; 474780827850906;
   237627184927480; 536000000050].

(** The Go map gives nil for a key it does not have. *)
Definition qcMapMainnet (k : Z) : option Z :=
  if 51 <=? k then qcListMainnet !! Z.to_nat (k - 51) else None.

Definition stakeVITEMainnet : list Z := [
  0; 134; 267; 400; 534; 667; 800; 934; 1067; 1200; 1334; 1467; 1600; 1733; 1867; 2000; 2133;
   2267; 2400; 2533; 2667; 2800; 2933; 3066; 3200; 3333; 3466; 3600; 3733; 3866; 4000; 4133;
   4266; 4400; 4533; 4666; 4799; 4933; 5066; 5199; 5333; 5466; 5599; 5733; 5866; 5999; 6133;
   6266; 6399; 6533; 6666; 6799; 6933; 7066; 7199; 7333; 7466; 7599; 7733; 7866; 7999; 8133;
   8266; 8399; 8533; 8666; 8799; 8933; 9066; 9199; 9333; 9466; 9599; 9733; 9866; 10000; 10133;
   10266; 10400; 10533; 10666; 10800; 10933; 11066; 11200; 11333; 11467; 11600; 11733; 11867;
   12000; 12133; 12267; 12400; 12534; 12667; 12800; 12934; 13067; 13201; 13334; 13467; 13601;
   13734; 13868; 14001; 14134; 14268; 14401; 14535; 14668; 14802; 14935; 15068; 15202; 15335;
   15469; 15602; 15736; 15869; 16003; 16136; 16269; 16403; 16536; 16670; 16803; 16937; 17070;
   17204; 17337; 17471; 17604; 17738; 17871; 18005; 18138; 18272; 18405; 18539; 18672; 18806;
   18939; 19073; 19206; 19340; 19473; 19607; 19740; 19874; 20007; 20141; 20274; 20408; 20541;
   20675; 20809; 20942; 21076; 21209; 21343; 21476; 21610; 21744; 21877; 22011; 22144; 22278;
   22412; 22545; 22679; 22812; 22946; 23080; 23213; 23347; 23480; 23614; 23748; 23881; 24015;
   24149; 24282; 24416; 24550; 24683; 24817; 24950; 25084; 25218; 25352; 25485; 25619; 25753;
   25886; 26020; 26154; 26287; 26421; 26555; 26689; 26822; 26956; 27090; 27223; 27357; 27491;
   27625; 27758; 27892; 28026; 28160; 28293; 28427; 28561; 28695; 28829; 28962; 29096; 29230;
   29364; 29498; 29631; 29765; 29899; 30033; 30167; 30301; 30434; 30568; 30702; 30836; 30970;
   31104; 31238; 31371; 31505; 31639; 31773; 31907; 32041; 32175; 32309; 32443; 32577; 32710;
   32844; 32978; 33112; 33246; 33380; 33514; 33648; 33782; 33916; 34050; 34184; 34318; 34452;
   34586; 34720; 34854; 34988; 35122; 35256; 35390; 35524; 35658; 35792; 35926; 36060; 36194;
   36329; 36463; 36597; 36731; 36865; 36999; 37133; 37267; 37401; 37535; 37670; 37804; 37938;
   38072; 38206; 38340; 38475; 38609; 38743; 38877; 39011; 39145; 39280; 39414; 39548; 39682;
   39817; 39951; 40085; 40219; 40354; 40488; 40622; 40756; 40891; 41025; 41159; 41294; 41428;
   41562; 41697; 41831; 41965; 42100; 42234; 42368; 42503; 42637; 42771; 42906; 43040; 43174;
   43309; 43443; 43578; 43712; 43847; 43981; 44115; 44250; 44384; 44519; 44653; 44788; 44922;
   45057; 45191; 45326; 45460; 45595; 45729; 45864; 45998; 46133; 46268; 46402; 46537; 46671;
   46806; 46940; 47075; 47210; 47344; 47479; 47614; 47748; 47883; 48018; 48152; 48287; 48422;
   48556; 48691; 48826; 48960; 49095; 49230; 49365; 49499; 49634; 49769; 49904; 50038; 50173;
   50308; 50443; 50577; 50712; 50847; 50982; 51117; 51252; 51386; 51521; 51656; 51791; 51926;
   52061; 52196; 52331; 52466; 52601; 52735; 52870; 53005; 53140; 53275; 53410; 53545; 53680;
   53815; 53950; 54085; 54220; 54355; 54490; 54626; 54761; 54896; 55031; 55166; 55301; 55436;
   55571; 55706; 55841; 55977; 56112; 56247; 56382; 56517; 56652; 56788; 56923; 57058; 57193;
   57329; 57464; 57599; 57734; 57870; 58005; 58140; 58275; 58411; 58546; 58681; 58817; 58952;
   59088; 59223; 59358; 59494; 59629; 59764; 59900; 60035; 60171; 60306; 60442; 60577; 60713;
   60848; 60984; 61119; 61255; 61390; 61526; 61661; 61797; 61932; 62068; 62203; 62339; 62475;
   62610; 62746; 62882; 63017; 63153; 63288; 63424; 63560; 63696; 63831; 63967; 64103; 64238;
   64374; 64510; 64646; 64781; 64917; 65053; 65189; 65325; 65461; 65596; 65732; 65868; 66004;
   66140; 66276; 66412; 66548; 66683; 66819; 66955; 67091; 67227; 67363; 67499; 67635; 67771;
   67907; 68043; 68179; 68315; 68452; 68588; 68724; 68860; 68996; 69132; 69268; 69404; 69541;
   69677; 69813; 69949; 70085; 70221; 70358; 70494; 70630; 70766; 70903; 71039; 71175; 71312;
   71448; 71584; 71721; 71857; 71993; 72130; 72266; 72402; 72539; 72675; 72812; 72948; 73085;
   73221; 73358; 73494; 73631; 73767; 73904; 74040; 74177; 74313; 74450; 74587; 74723; 74860;
   74996; 75133; 75270; 75406; 75543; 75680; 75816; 75953; 76090; 76227; 76363; 76500; 76637;
   76774; 76911; 77047; 77184; 77321; 77458; 77595; 77732; 77868; 78005; 78142; 78279; 78416;
   78553; 78690; 78827; 78964; 79101; 79238; 79375; 79512; 79649; 79786; 79923; 80061; 80198;
   80335; 80472; 80609; 80746; 80883; 81021; 81158; 81295; 81432; 81569; 81707; 81844; 81981;
   82119; 82256; 82393; 82531; 82668; 82805; 82943; 83080; 83217; 83355; 83492; 83630; 83767;
   83905; 84042; 84180; 84317; 84455; 84592; 84730; 84867; 85005; 85143; 85280; 85418; 85556;
   85693; 85831; 85969; 86106; 86244; 86382; 86519; 86657; 86795; 86933; 87071; 87208; 87346;
   87484; 87622; 87760; 87898; 88036; 88173; 88311; 88449; 88587; 88725; 88863; 89001; 89139;
   89277; 89415; 89553; 89692; 89830; 89968; 90106; 90244; 90382; 90520; 90659; 90797; 90935;
   91073; 91211; 91350; 91488; 91626; 91765; 91903; 92041; 92180; 92318; 92456; 92595; 92733;
   92872; 93010; 93148; 93287; 93425; 93564; 93702; 93841; 93980; 94118; 94257; 94395; 94534;
   94673; 94811; 94950; 95089; 95227; 95366; 95505; 95643; 95782; 95921; 96060; 96199; 96337;
   96476; 96615; 96754; 96893; 97032; 97171; 97310; 97449; 97588; 97727; 97866; 98005; 98144;
   98283; 98422; 98561; 98700; 98839; 98978; 99117; 99257; 99396; 99535; 99674; 99813; 99953;
   100092; 100231; 100371; 100510; 100649; 100789; 100928; 101067; 101207; 101346; 101486;
   101625; 101765; 101904; 102044; 102183; 102323; 102462; 102602; 102741; 102881; 103021;
   103160; 103300; 103440; 103579; 103719; 103859; 103999; 104138; 104278; 104418; 104558;
   104698; 104837; 104977; 105117; 105257; 105397; 105537; 105677; 105817; 105957; 106097;
   106237; 106377; 106517; 106657; 106797; 106937; 107078; 107218; 107358; 107498; 107638;
   107779; 107919; 108059; 108199; 108340; 108480; 108620; 108761; 108901; 109042; 109182;
   109323; 109463; 109603; 109744; 109884; 110025; 110166; 110306; 110447; 110587; 110728;
   110869; 111009; 111150; 111291; 111431; 111572; 111713; 111854; 111995; 112135; 112276;
   112417; 112558; 112699; 112840; 112981; 113122; 113263; 113404; 113545; 113686; 113827;
   113968; 114109; 114250; 114391; 114532; 114674; 114815; 114956; 115097; 115238; 115380;
   115521; 115662; 115804; 115945; 116086; 116228; 116369; 116511; 116652; 116794; 116935;
   117077; 117218; 117360; 117501; 117643; 117784; 117926; 118068; 118209; 118351; 118493;
   118635; 118776; 118918; 119060; 119202; 119344; 119485; 119627; 119769; 119911; 120053;
   120195; 120337; 120479; 120621; 120763; 120905; 121047; 121189; 121332; 121474; 121616;
   121758; 121900; 122043; 122185; 122327; 122469; 122612; 122754; 122896; 123039; 123181;
   123324; 123466; 123609; 123751; 123894; 124036; 124179; 124321; 124464; 124607; 124749;
   124892; 125035; 125177; 125320; 125463; 125606; 125748; 125891; 126034; 126177; 126320;
   126463; 126606; 126749; 126892; 127035; 127178; 127321; 127464; 127607; 127750; 127893;
   128036; 128180; 128323; 128466; 128609; 128753; 128896; 129039; 129183; 129326; 129469;
   129613; 129756; 129900; 130043; 130187; 130330; 130474; 130617; 130761; 130905; 131048;
   131192; 131336; 131479; 131623; 131767; 131911; 132054; 132198; 132342; 132486; 132630;
   132774; 132918; 133062; 133206; 133350; 133494; 133638; 133782; 133926; 134070; 134214;
   134359; 134503; 134647; 134791; 134936; 135080; 135224; 135369; 135513; 135657; 135802;
   135946; 136091; 136235; 136380; 136524; 136669; 136813; 136958; 137103; 137247; 137392;
   137537; 137682; 137826; 137971; 138116; 138261; 138406; 138551; 138696; 138841; 138986;
   139131; 139276; 139421; 139566; 139711; 139856; 140001; 140146; 140291; 140437; 140582;
   140727; 140872; 141018; 141163; 141309; 141454; 141599; 141745; 141890; 142036; 142181;
   142327; 142473; 142618; 142764; 142909; 143055; 143201; 143347; 143492; 143638; 143784;
   143930; 144076; 144222; 144368; 144513; 144659; 144805; 144951; 145098; 145244; 145390;
   145536; 145682; 145828; 145974; 146121; 146267; 146413; 146560; 146706; 146852; 146999;
   147145; 147292; 147438; 147585; 147731; 147878; 148024; 148171; 148318; 148464; 148611;
   148758; 148904; 149051; 149198; 149345; 149492; 149639; 149786; 149933; 150079; 150227;
   150374; 150521; 150668; 150815; 150962; 151109; 151256; 151404; 151551; 151698; 151845;
   151993; 152140; 152288; 152435; 152582; 152730; 152877; 153025; 153173; 153320; 153468;
   153615; 153763; 153911; 154059; 154206; 154354; 154502; 154650; 154798; 154946; 155093;
   155241; 155389; 155537; 155686; 155834; 155982; 156130; 156278; 156426; 156574; 156723;
   156871; 157019; 157168; 157316; 157464; 157613; 157761; 157910; 158058; 158207; 158356;
   158504; 158653; 158802; 158950; 159099; 159248; 159397; 159545; 159694; 159843; 159992;
   160141; 160290; 160439; 160588; 160737; 160886; 161035; 161184; 161334; 161483; 161632;
   161781; 161931; 162080; 162229; 162379; 162528; 162678; 162827; 162977; 163126; 163276;
   163425; 163575; 163725; 163875; 164024; 164174; 164324; 164474; 164624; 164773; 164923;
   165073; 165223; 165373; 165523; 165674; 165824; 165974; 166124; 166274; 166424; 166575;
   166725; 166875; 167026; 167176; 167327; 167477; 167628; 167778; 167929; 168079; 168230;
   168381; 168531; 168682; 168833; 168984; 169134; 169285; 169436; 169587; 169738; 169889;
   170040; 170191; 170342; 170493; 170644; 170796; 170947; 171098; 171249; 171401; 171552;
   171704; 171855; 172006; 172158; 172309; 172461; 172613; 172764; 172916; 173068; 173219;
   173371; 173523; 173675; 173826; 173978; 174130; 174282; 174434; 174586; 174738; 174890;
   175043; 175195; 175347; 175499; 175651; 175804; 175956; 176108; 176261; 176413; 176566;
   176718; 176871; 177023; 177176; 177329; 177481; 177634; 177787; 177940; 178092; 178245;
   178398; 178551; 178704; 178857; 179010; 179163; 179316; 179469; 179623; 179776; 179929;
   180082; 180236; 180389; 180542; 180696; 180849; 181003; 181156; 181310; 181463; 181617;
   181771; 181925; 182078; 182232; 182386; 182540; 182694; 182848; 183002; 183156; 183310;
   183464; 183618; 183772; 183926; 184080; 184235; 184389; 184543; 184698; 184852; 185006;
   185161; 185315; 185470; 185625; 185779; 185934; 186089; 186243; 186398; 186553; 186708;
   186863; 187018; 187173; 187328; 187483; 187638; 187793; 187948; 188103; 188258; 188414;
   188569; 188724; 188880; 189035; 189191; 189346; 189502; 189657; 189813; 189969; 190124;
   190280; 190436; 190592; 190747; 190903; 191059; 191215; 191371; 191527; 191683; 191839;
   191996; 192152; 192308; 192464; 192621; 192777; 192933; 193090; 193246; 193403; 193559;
   193716; 193873; 194029; 194186; 194343; 194500; 194656; 194813; 194970; 195127; 195284;
   195441; 195598; 195755; 195913; 196070; 196227; 196384; 196542; 196699; 196856; 197014;
   197171; 197329; 197486; 197644; 197802; 197959; 198117; 198275; 198433; 198590; 198748;
   198906; 199064; 199222; 199380; 199538; 199697; 199855; 200013; 200171; 200330; 200488;
   200646; 200805; 200963; 201122; 201280; 201439; 201598; 201756; 201915; 202074; 202233;
   202391; 202550; 202709; 202868; 203027; 203186; 203345; 203505; 203664; 203823; 203982;
   204142; 204301; 204460; 204620; 204779; 204939; 205099; 205258; 205418; 205578; 205737;
   205897; 206057; 206217; 206377; 206537; 206697; 206857; 207017; 207177; 207337; 207498;
   207658; 207818; 207979; 208139; 208300; 208460; 208621; 208781; 208942; 209103; 209263;
   209424; 209585; 209746; 209907; 210068; 210229; 210390; 210551; 210712; 210873; 211034;
   211196; 211357; 211518; 211680; 211841; 212003; 212164; 212326; 212487; 212649; 212811;
   212973; 213135; 213296; 213458; 213620; 213782; 213944; 214106; 214269; 214431; 214593;
   214755; 214918; 215080; 215243; 215405; 215568; 215730; 215893; 216055; 216218; 216381;
   216544; 216707; 216869; 217032; 217195; 217358; 217522; 217685; 217848; 218011; 218174;
   218338; 218501; 218665; 218828; 218992; 219155; 219319; 219482; 219646; 219810; 219974;
   220138; 220302; 220465; 220630; 220794; 220958; 221122; 221286; 221450; 221615; 221779;
   221943; 222108; 222272; 222437; 222602; 222766; 222931; 223096; 223260; 223425; 223590;
   223755; 223920; 224085; 224250; 224415; 224581; 224746; 224911; 225077; 225242; 225407;
   225573; 225739; 225904; 226070; 226236; 226401; 226567; 226733; 226899; 227065; 227231;
   227397; 227563; 227729; 227895; 228062; 228228; 228394; 228561; 228727; 228894; 229060;
   229227; 229394; 229561; 229727; 229894; 230061; 230228; 230395; 230562; 230729; 230896;
   231064; 231231; 231398; 231566; 231733; 231901; 232068; 232236; 232403; 232571; 232739;
   232907; 233074; 233242; 233410; 233578; 233746; 233915; 234083; 234251; 234419; 234588;
   234756; 234924; 235093; 235262; 235430; 235599; 235768; 235936; 236105; 236274; 236443;
   236612; 236781; 236950; 237119; 237289; 237458; 237627; 237797; 237966; 238136; 238305;
   238475; 238644; 238814; 238984; 239154; 239324; 239494; 239664; 239834; 240004; 240174;
   240344; 240514; 240685; 240855; 241026; 241196; 241367; 241537; 241708; 241879; 242050;
   242220; 242391; 242562; 242733; 242904; 243076; 243247; 243418; 243589; 243761; 243932;
   244104; 244275; 244447; 244619; 244790; 244962; 245134; 245306; 245478; 245650; 245822;
   245994; 246166; 246339; 246511; 246683; 246856; 247028; 247201; 247373; 247546; 247719;
   247892; 248064; 248237; 248410; 248583; 248756; 248930; 249103; 249276; 249449; 249623;
   249796; 249970; 250143; 250317; 250491; 250665; 250838; 251012; 251186; 251360; 251534;
   251708; 251883; 252057; 252231; 252406; 252580; 252755; 252929; 253104; 253278; 253453;
   253628; 253803; 253978; 254153; 254328; 254503; 254678; 254854; 255029; 255204; 255380;
   255555; 255731; 255906; 256082; 256258; 256434; 256610; 256786; 256962; 257138; 257314;
   257490; 257666; 257843; 258019; 258196; 258372; 258549; 258725; 258902; 259079; 259256;
   259433; 259610; 259787; 259964; 260141; 260318; 260496; 260673; 260851; 261028; 261206;
   261383; 261561; 261739; 261917; 262095; 262273; 262451; 262629; 262807; 262985; 263164;
   263342; 263520; 263699; 263877; 264056; 264235; 264414; 264592; 264771; 264950; 265129;
   265309; 265488; 265667; 265846; 266026; 266205; 266385; 266564; 266744; 266924; 267104;
   267284; 267464; 267644; 267824; 268004; 268184; 268364; 268545; 268725; 268906; 269086;
   269267; 269448; 269628; 269809; 269990; 270171; 270352; 270533; 270715; 270896; 271077;
   271259; 271440; 271622; 271804; 271985; 272167; 272349; 272531; 272713; 272895; 273077;
   273259; 273442; 273624; 273806; 273989; 274171; 274354; 274537; 274720; 274903; 275085;
   275268; 275452; 275635; 275818; 276001; 276185; 276368; 276552; 276735; 276919; 277103;
   277287; 277471; 277654; 277839; 278023; 278207; 278391; 278576; 278760; 278944; 279129;
   279314; 279498; 279683; 279868; 280053; 280238; 280423; 280608; 280794; 280979; 281164;
   281350; 281536; 281721; 281907; 282093; 282279; 282465; 282651; 282837; 283023; 283209;
   283396; 283582; 283768; 283955; 284142; 284328; 284515; 284702; 284889; 285076; 285263;
   285451; 285638; 285825; 286013; 286200; 286388; 286575; 286763; 286951; 287139; 287327;
   287515; 287703; 287891; 288080; 288268; 288457; 288645; 288834; 289023; 289211; 289400;
   289589; 289778; 289968; 290157; 290346; 290535; 290725; 290914; 291104; 291294; 291484;
   291673; 291863; 292053; 292244; 292434; 292624; 292814; 293005; 293195; 293386; 293577;
   293768; 293958; 294149; 294340; 294532; 294723; 294914; 295105; 295297; 295489; 295680;
   295872; 296064; 296256; 296448; 296640; 296832; 297024; 297216; 297409; 297601; 297794;
   297986; 298179; 298372; 298565; 298758; 298951; 299144; 299338; 299531; 299724; 299918;
   300112; 300305; 300499; 300693; 300887; 301081; 301275; 301469; 301664; 301858; 302053;
   302247; 302442; 302637; 302832; 303027; 303222; 303417; 303612; 303807; 304003; 304198;
   304394; 304590; 304785; 304981; 305177; 305373; 305569; 305766; 305962; 306158; 306355;
   306551; 306748; 306945; 307142; 307339; 307536; 307733; 307930; 308128; 308325; 308522;
   308720; 308918; 309116; 309314; 309512; 309710; 309908; 310106; 310304; 310503; 310701;
   310900; 311099; 311298; 311497; 311696; 311895; 312094; 312293; 312493; 312692; 312892;
   313092; 313291; 313491; 313691; 313892; 314092; 314292; 314492; 314693; 314893; 315094;
   315295; 315496; 315697; 315898; 316099; 316300; 316502; 316703; 316905; 317106; 317308;
   317510; 317712; 317914; 318116; 318319; 318521; 318723; 318926; 319129; 319331; 319534;
   319737; 319940; 320144; 320347; 320550; 320754; 320957; 321161; 321365; 321569; 321773;
   321977; 322181; 322385; 322590; 322794; 322999; 323204; 323408; 323613; 323818; 324024;
   324229; 324434; 324640; 324845; 325051; 325257; 325462; 325668; 325875; 326081; 326287;
   326493; 326700; 326907; 327113; 327320; 327527; 327734; 327941; 328149; 328356; 328563;
   328771; 328979; 329186; 329394; 329602; 329811; 330019; 330227; 330436; 330644; 330853;
   331062; 331271; 331480; 331689; 331898; 332107; 332317; 332526; 332736; 332946; 333156;
   333366; 333576; 333786; 333996; 334207; 334417; 334628; 334839; 335050; 335261; 335472;
   335683; 335895; 336106; 336318; 336529; 336741; 336953; 337165; 337377; 337590; 337802;
   338015; 338227; 338440; 338653; 338866; 339079; 339292; 339506; 339719; 339933; 340146;
   340360; 340574; 340788; 341002; 341216; 341431; 341645; 341860; 342075; 342290; 342505;
   342720; 342935; 343150; 343366; 343581; 343797; 344013; 344229; 344445; 344661; 344877;
   345094; 345310; 345527; 345744; 345961; 346178; 346395; 346612; 346830; 347047; 347265;
   347483; 347701; 347919; 348137; 348355; 348574; 348792; 349011; 349230; 349449; 349668;
   349887; 350106; 350326; 350545; 350765; 350985; 351205; 351425; 351645; 351865; 352086;
   352306; 352527; 352748; 352969; 353190; 353411; 353632; 353854; 354075; 354297; 354519;
   354741; 354963; 355185; 355408; 355630; 355853; 356076; 356299; 356522; 356745; 356968;
   357192; 357415; 357639; 357863; 358087; 358311; 358535; 358760; 358984; 359209; 359434;
   359659; 359884; 360109; 360334; 360560; 360785; 361011; 361237; 361463; 361689; 361915;
   362142; 362368; 362595; 362822; 363049; 363276; 363503; 363731; 363958; 364186; 364414;
   364642; 364870; 365098; 365327; 365555; 365784; 366013; 366242; 366471; 366700; 366929;
   367159; 367388; 367618; 367848; 368078; 368309; 368539; 368770; 369000; 369231; 369462;
   369693; 369924; 370156; 370387; 370619; 370851; 371083; 371315; 371547; 371780; 372013;
   372245; 372478; 372711; 372944; 373178; 373411; 373645; 373879; 374113; 374347; 374581;
   374815; 375050; 375285; 375519; 375754; 375990; 376225; 376460; 376696; 376932; 377168;
   377404; 377640; 377876; 378113; 378350; 378587; 378824; 379061; 379298; 379536; 379773;
   380011; 380249; 380487; 380725; 380964; 381202; 381441; 381680; 381919; 382158; 382398;
   382637; 382877; 383117; 383357; 383597; 383837; 384078; 384319; 384559; 384800; 385042;
   385283; 385524; 385766; 386008; 386250; 386492; 386734; 386977; 387219; 387462; 387705;
   387948; 388192; 388435; 388679; 388923; 389167; 389411; 389655; 389900; 390144; 390389;
   390634; 390879; 391125; 391370; 391616; 391862; 392108; 392354; 392600; 392847; 393094;
   393340; 393588; 393835; 394082; 394330; 394578; 394825; 395074; 395322; 395570; 395819;
   396068; 396317; 396566; 396815; 397065; 397315; 397565; 397815; 398065; 398315; 398566;
   398817; 399068; 399319; 399570; 399822; 400073; 400325; 400577; 400830; 401082; 401335;
   401587; 401840; 402094; 402347; 402600; 402854; 403108; 403362; 403617; 403871; 404126;
   404381; 404636; 404891; 405146; 405402; 405658; 405914; 406170; 406426; 406683; 406940;
   407196; 407454; 407711; 407968; 408226; 408484; 408742; 409001; 409259; 409518; 409777;
   410036; 410295; 410554; 410814; 411074; 411334; 411594; 411855; 412116; 412376; 412637;
   412899; 413160; 413422; 413684; 413946; 414208; 414471; 414733; 414996; 415259; 415523;
   415786; 416050; 416314; 416578; 416842; 417107; 417371; 417636; 417902; 418167; 418432;
   418698; 418964; 419230; 419497; 419764; 420030; 420297; 420565; 420832; 421100; 421368;
   421636; 421904; 422173; 422441; 422710; 422980; 423249; 423519; 423789; 424059; 424329;
   424599; 424870; 425141; 425412; 425684; 425955; 426227; 426499; 426771; 427044; 427316;
   427589; 427863; 428136; 428409; 428683; 428957; 429232; 429506; 429781; 430056; 430331;
   430606; 430882; 431158; 431434; 431710; 431987; 432264; 432541; 432818; 433096; 433373;
   433651; 433930; 434208; 434487; 434766; 435045; 435324; 435604; 435884; 436164; 436444;
   436725; 437005; 437286; 437568; 437849; 438131; 438413; 438695; 438978; 439261; 439544;
   439827; 440110; 440394; 440678; 440962; 441247; 441531; 441816; 442102; 442387; 442673;
   442959; 443245; 443531; 443818; 444105; 444392; 444680; 444968; 445256; 445544; 445832;
   446121; 446410; 446699; 446989; 447279; 447569; 447859; 448150; 448441; 448732; 449023;
   449315; 449607; 449899; 450191; 450484; 450777; 451070; 451363; 451657; 451951; 452245;
   452540; 452835; 453130; 453425; 453721; 454017; 454313; 454610; 454906; 455203; 455501;
   455798; 456096; 456394; 456692; 456991; 457290; 457589; 457889; 458189; 458489; 458789;
   459090; 459391; 459692; 459993; 460295; 460597; 460899; 461202; 461505; 461808; 462112;
   462415; 462720; 463024; 463329; 463634; 463939; 464244; 464550; 464856; 465163; 465470;
   465777; 466084; 466391; 466699; 467008; 467316; 467625; 467934; 468244; 468553; 468863;
   469174; 469484; 469795; 470107; 470418; 470730; 471042; 471355; 471668; 471981; 472294;
   472608; 472922; 473236; 473551; 473866; 474181; 474497; 474813; 475129; 475446; 475763;
   476080; 476398; 476715; 477034; 477352; 477671; 477990; 478310; 478630; 478950; 479270;
   479591; 479912; 480234; 480556; 480878; 481200; 481523; 481846; 482170; 482494; 482818;
   483142; 483467; 483792; 484118; 484444; 484770; 485097; 485424; 485751; 486078; 486406;
   486735; 487063; 487392; 487722; 488051; 488382; 488712; 489043; 489374; 489705; 490037;
   490369; 490702; 491035; 491368; 491702; 492036; 492370; 492705; 493040; 493375; 493711;
   494048; 494384; 494721; 495058; 495396; 495734; 496073; 496411; 496750; 497090; 497430;
   497770; 498111; 498452; 498794; 499135; 499478; 499820; 500163; 500507; 500850; 501195;
   501539; 501884; 502229; 502575; 502921; 503268; 503615; 503962; 504310; 504658; 505006;
   505355; 505705; 506054; 506404; 506755; 507106; 507457; 507809; 508161; 508514; 508867;
   509220; 509574; 509928; 510283; 510638; 510993; 511349; 511706; 512062; 512419; 512777;
   513135; 513494; 513852; 514212; 514571; 514932; 515292; 515653; 516015; 516377; 516739;
   517102; 517465; 517829; 518193; 518557; 518922; 519288; 519654; 520020; 520387; 520754;
   521122; 521490; 521859; 522228; 522597; 522967; 523338; 523708; 524080; 524452; 524824;
   525197; 525570; 525944; 526318; 526692; 527068; 527443; 527819; 528196; 528573; 528950;
   529328; 529707; 530086; 530465; 530845; 531226; 531607; 531988; 532370; 532752; 533135;
   533519; 533902; 534287; 534672; 535057; 535443; 535829; 536216; 536604; 536992; 537380;
   537769; 538159; 538549; 538939; 539330; 539722; 540114; 540507; 540900; 541293; 541688;
   542082; 542478; 542873; 543270; 543667; 544064; 544462; 544860; 545259; 545659; 546059;
   546460; 546861; 547263; 547665; 548068; 548472; 548876; 549280; 549685; 550091; 550497;
   550904; 551312; 551720; 552128; 552537; 552947; 553358; 553768; 554180; 554592; 555005;
   555418; 555832; 556246; 556661; 557077; 557493; 557910; 558327; 558745; 559164; 559583;
   560003; 560423; 560845; 561266; 561689; 562111; 562535; 562959; 563384; 563809; 564236;
   564662; 565090; 565518; 565946; 566375; 566805; 567236; 567667; 568099; 568531; 568965;
   569398; 569833; 570268; 570704; 571140; 571577; 572015; 572454; 572893; 573333; 573773;
   574214; 574656; 575099; 575542; 575986; 576431; 576876; 577322; 577769; 578216; 578664;
   579113; 579563; 580013; 580464; 580916; 581368; 581821; 582275; 582730; 583185; 583641;
   584098; 584555; 585014; 585473; 585933; 586393; 586854; 587316; 587779; 588243; 588707;
   589172; 589638; 590105; 590572; 591040; 591509; 591979; 592449; 592921; 593393; 593866;
   594339; 594814; 595289; 595765; 596242; 596720; 597198; 597678; 598158; 598639; 599121;
   599604; 600087; 600571; 601057; 601543; 602029; 602517; 603006; 603495; 603986; 604477;
   604969; 605462; 605955; 606450; 606946; 607442; 607939; 608437; 608936; 609436; 609937;
   610439; 610942; 611445; 611950; 612455; 612962; 613469; 613977; 614486; 614996; 615507;
   616019; 616532; 617046; 617561; 618077; 618594; 619111; 619630; 620150; 620670; 621192;
   621715; 622238; 622763; 623289; 623815; 624343; 624871; 625401; 625932; 626463; 626996;
   627530; 628065; 628601; 629138; 629676; 630215; 630755; 631296; 631838; 632381; 632926;
   633471; 634018; 634565; 635114; 635664; 636215; 636767; 637320; 637874; 638430; 638986;
   639544; 640103; 640663; 641224; 641786; 642350; 642914; 643480; 644047; 644615; 645184;
   645755; 646327; 646900; 647474; 648049; 648626; 649204; 649783; 650363; 650944; 651527;
   652111; 652697; 653283; 653871; 654460; 655051; 655642; 656235; 656830; 657425; 658022;
   658620; 659220; 659821; 660423; 661027; 661632; 662238; 662846; 663455; 664065; 664677;
   665290; 665905; 666521; 667138; 667757; 668378; 668999; 669622; 670247; 670873; 671501;
   672130; 672760; 673392; 674026; 674661; 675297; 675935; 676575; 677216; 677858; 678503;
   679148; 679795; 680444; 681095; 681747; 682400; 683056; 683712; 684371; 685031; 685693;
   686356; 687021; 687688; 688356; 689026; 689698; 690371; 691047; 691724; 692402; 693082;
   693765; 694448; 695134; 695821; 696511; 697202; 697894; 698589; 699285; 699984; 700684;
   701386; 702090; 702795; 703503; 704213; 704924; 705637; 706353; 707070; 707789; 708510;
   709233; 709958; 710686; 711415; 712146; 712879; 713614; 714352; 715091; 715832; 716576;
   717322; 718069; 718819; 719571; 720326; 721082; 721841; 722602; 723365; 724130; 724897;
   725667; 726439; 727213; 727990; 728769; 729550; 730334; 731120; 731908; 732699; 733492;
   734287; 735085; 735886; 736689; 737494; 738302; 739112; 739925; 740741; 741559; 742379;
   743202; 744028; 744857; 745688; 746521; 747358; 748197; 749039; 749883; 750731; 751581;
   752434; 753290; 754148; 755010; 755874; 756741; 757611; 758484; 759360; 760239; 761121;
   762006; 762895; 763786; 764680; 765577; 766478; 767381; 768288; 769198; 770111; 771028;
   771948; 772871; 773797; 774727; 775660; 776596; 777536; 778480; 779427; 780377; 781331;
   782288; 783249; 784214; 785182; 786154; 787130; 788109; 789092; 790079; 791070; 792065;
   793063; 794066; 795072; 796082; 797097; 798115; 799138; 800164; 801195; 802230; 803269;
   804313; 805360; 806412; 807469; 808529; 809595; 810664; 811739; 812817; 813901; 814989;
   816081; 817179; 818281; 819388; 820500; 821616; 822738; 823865; 824996; 826133; 827275;
   828422; 829574; 830732; 831895; 833063; 834237; 835416; 836600; 837791; 838987; 840188;
   841395; 842609; 843827; 845052; 846283; 847520; 848763; 850012; 851268; 852529; 853798;
   855072; 856353; 857641; 858935; 860236; 861543; 862858; 864179; 865507; 866843; 868186;
   869535; 870892; 872257; 873629; 875009; 876396; 877791; 879193; 880604; 882023; 883450;
   884884; 886328; 887779; 889239; 890708; 892185; 893672; 895167; 896671; 898184; 899707;
   901238; 902780; 904331; 905891; 907462; 909042; 910633; 912234; 913845; 915467; 917099;
   918742; 920396; 922061; 923738; 925426; 927125; 928836; 930559; 932295; 934042; 935802;
   937574; 939359; 941157; 942969; 944793; 946632; 948484; 950350; 952230; 954125; 956034;
   957958; 959897; 961852; 963822; 965808; 967811; 969830; 971865; 973917; 975987; 978074;
   980179; 982302; 984444; 986605; 988784; 990984; 993203; 995442; 997702; 999983; 1002285;
   1004610; 1006956; 1009325; 1011718; 1014133; 1016573; 1019038; 1021528; 1024043; 1026584;
   1029152; 1031747; 1034371; 1037022; 1039703; 1042413; 1045154; 1047926; 1050730; 1053567;
   1056437; 1059341; 1062280; 1065255; 1068267; 1071317; 1074405; 1077533; 1080702; 1083912;
   1087166; 1090463; 1093806; 1097196; 1100634; 1104121; 1107659; 1111249; 1114893; 1118593;
   1122350; 1126167; 1130044; 1133985; 1137990; 1142063; 1146206; 1150421; 1154711; 1159078;
   1163526; 1168057; 1172675; 1177382; 1182184; 1187082; 1192082; 1197189; 1202405; 1207737;
   1213189; 1218768; 1224479; 1230329; 1236324; 1242473; 1248782; 1255262; 1261921; 1268770;
   1275820; 1283083; 1290572; 1298303; 1306291; 1314553; 1323111; 1331985; 1341200; 1350783;
   1360766; 1371183; 1382073; 1393482; 1405463; 1418075; 1431388; 1445487; 1460469; 1476454;
   1493584; 1512039; 1532039; 1553868; 1577897; 1604618; 1634714; 1669163; 1709443; 1757940;
   1818895; 1901013; 2027355; 2313978].

Definition stakeAmountListMainnet : list Z := (fun v => v * 10 ^ 18) <$> stakeVITEMainnet.

Definition stakeVITETestnet : list Z := [
  0; 1; 1; 1; 1; 1; 1; 1; 2; 2; 2; 2; 2; 2; 2; 2; 3; 3; 3; 3; 3; 3; 3; 4; 4; 4; 4; 4; 4; 4; 4;
   5; 5; 5; 5; 5; 5; 5; 6; 6; 6; 6; 6; 6; 6; 6; 7; 7; 7; 7; 7; 7; 7; 8; 8; 8; 8; 8; 8; 8; 8; 9;
   9; 9; 9; 9; 9; 9; 10; 10; 10; 10; 10; 10; 10; 11; 11; 11; 11; 11; 11; 11; 11; 12; 12; 12;
   12; 12; 12; 12; 13; 13; 13; 13; 13; 13; 13; 13; 14; 14; 14; 14; 14; 14; 14; 15; 15; 15; 15;
   15; 15; 15; 15; 16; 16; 16; 16; 16; 16; 16; 17; 17; 17; 17; 17; 17; 17; 17; 18; 18; 18; 18;
   18; 18; 18; 19; 19; 19; 19; 19; 19; 19; 19; 20; 20; 20; 20; 20; 20; 20; 21; 21; 21; 21; 21;
   21; 21; 21; 22; 22; 22; 22; 22; 22; 22; 23; 23; 23; 23; 23; 23; 23; 23; 24; 24; 24; 24; 24;
   24; 24; 25; 25; 25; 25; 25; 25; 25; 25; 26; 26; 26; 26; 26; 26; 26; 27; 27; 27; 27; 27; 27;
   27; 27; 28; 28; 28; 28; 28; 28; 28; 29; 29; 29; 29; 29; 29; 29; 29; 30; 30; 30; 30; 30; 30;
   30; 31; 31; 31; 31; 31; 31; 31; 31; 32; 32; 32; 32; 32; 32; 32; 33; 33; 33; 33; 33; 33; 33;
   33; 34; 34; 34; 34; 34; 34; 34; 35; 35; 35; 35; 35; 35; 35; 35; 36; 36; 36; 36; 36; 36; 36;
   37; 37; 37; 37; 37; 37; 37; 38; 38; 38; 38; 38; 38; 38; 38; 39; 39; 39; 39; 39; 39; 39; 40;
   40; 40; 40; 40; 40; 40; 40; 41; 41; 41; 41; 41; 41; 41; 42; 42; 42; 42; 42; 42; 42; 42; 43;
   43; 43; 43; 43; 43; 43; 44; 44; 44; 44; 44; 44; 44; 44; 45; 45; 45; 45; 45; 45; 45; 46; 46;
   46; 46; 46; 46; 46; 47; 47; 47; 47; 47; 47; 47; 47; 48; 48; 48; 48; 48; 48; 48; 49; 49; 49;
   49; 49; 49; 49; 49; 50; 50; 50; 50; 50; 50; 50; 51; 51; 51; 51; 51; 51; 51; 51; 52; 52; 52;
   52; 52; 52; 52; 53; 53; 53; 53; 53; 53; 53; 54; 54; 54; 54; 54; 54; 54; 54; 55; 55; 55; 55;
   55; 55; 55; 56; 56; 56; 56; 56; 56; 56; 56; 57; 57; 57; 57; 57; 57; 57; 58; 58; 58; 58; 58;
   58; 58; 59; 59; 59; 59; 59; 59; 59; 59; 60; 60; 60; 60; 60; 60; 60; 61; 61; 61; 61; 61; 61;
   61; 61; 62; 62; 62; 62; 62; 62; 62; 63; 63; 63; 63; 63; 63; 63; 64; 64; 64; 64; 64; 64; 64;
   64; 65; 65; 65; 65; 65; 65; 65; 66; 66; 66; 66; 66; 66; 66; 67; 67; 67; 67; 67; 67; 67; 67;
   68; 68; 68; 68; 68; 68; 68; 69; 69; 69; 69; 69; 69; 69; 70; 70; 70; 70; 70; 70; 70; 70; 71;
   71; 71; 71; 71; 71; 71; 72; 72; 72; 72; 72; 72; 72; 73; 73; 73; 73; 73; 73; 73; 73; 74; 74;
   74; 74; 74; 74; 74; 75; 75; 75; 75; 75; 75; 75; 76; 76; 76; 76; 76; 76; 76; 76; 77; 77; 77;
   77; 77; 77; 77; 78; 78; 78; 78; 78; 78; 78; 79; 79; 79; 79; 79; 79; 79; 79; 80; 80; 80; 80;
   80; 80; 80; 81; 81; 81; 81; 81; 81; 81; 82; 82; 82; 82; 82; 82; 82; 82; 83; 83; 83; 83; 83;
   83; 83; 84; 84; 84; 84; 84; 84; 84; 85; 85; 85; 85; 85; 85; 85; 86; 86; 86; 86; 86; 86; 86;
   86; 87; 87; 87; 87; 87; 87; 87; 88; 88; 88; 88; 88; 88; 88; 89; 89; 89; 89; 89; 89; 89; 90;
   90; 90; 90; 90; 90; 90; 90; 91; 91; 91; 91; 91; 91; 91; 92; 92; 92; 92; 92; 92; 92; 93; 93;
   93; 93; 93; 93; 93; 94; 94; 94; 94; 94; 94; 94; 94; 95; 95; 95; 95; 95; 95; 95; 96; 96; 96;
   96; 96; 96; 96; 97; 97; 97; 97; 97; 97; 97; 98; 98; 98; 98; 98; 98; 98; 99; 99; 99; 99; 99;
   99; 99; 99; 100; 100; 100; 100; 100; 100; 100; 101; 101; 101; 101; 101; 101; 101; 102; 102;
   102; 102; 102; 102; 102; 103; 103; 103; 103; 103; 103; 103; 104; 104; 104; 104; 104; 104;
   104; 105; 105; 105; 105; 105; 105; 105; 105; 106; 106; 106; 106; 106; 106; 106; 107; 107;
   107; 107; 107; 107; 107; 108; 108; 108; 108; 108; 108; 108; 109; 109; 109; 109; 109; 109;
   109; 110; 110; 110; 110; 110; 110; 110; 111; 111; 111; 111; 111; 111; 111; 112; 112; 112;
   112; 112; 112; 112; 113; 113; 113; 113; 113; 113; 113; 113; 114; 114; 114; 114; 114; 114;
   114; 115; 115; 115; 115; 115; 115; 115; 116; 116; 116; 116; 116; 116; 116; 117; 117; 117;
   117; 117; 117; 117; 118; 118; 118; 118; 118; 118; 118; 119; 119; 119; 119; 119; 119; 119;
   120; 120; 120; 120; 120; 120; 120; 121; 121; 121; 121; 121; 121; 121; 122; 122; 122; 122;
   122; 122; 122; 123; 123; 123; 123; 123; 123; 123; 124; 124; 124; 124; 124; 124; 124; 125;
   125; 125; 125; 125; 125; 125; 126; 126; 126; 126; 126; 126; 126; 127; 127; 127; 127; 127;
   127; 127; 128; 128; 128; 128; 128; 128; 128; 129; 129; 129; 129; 129; 129; 129; 130; 130;
   130; 130; 130; 130; 130; 131; 131; 131; 131; 131; 131; 131; 132; 132; 132; 132; 132; 132;
   132; 133; 133; 133; 133; 133; 133; 133; 134; 134; 134; 134; 134; 134; 134; 135; 135; 135;
   135; 135; 135; 135; 136; 136; 136; 136; 136; 136; 136; 137; 137; 137; 137; 137; 137; 137;
   138; 138; 138; 138; 138; 138; 138; 139; 139; 139; 139; 139; 139; 139; 140; 140; 140; 140;
   140; 140; 141; 141; 141; 141; 141; 141; 141; 142; 142; 142; 142; 142; 142; 142; 143; 143;
   143; 143; 143; 143; 143; 144; 144; 144; 144; 144; 144; 144; 145; 145; 145; 145; 145; 145;
   145; 146; 146; 146; 146; 146; 146; 146; 147; 147; 147; 147; 147; 147; 148; 148; 148; 148;
   148; 148; 148; 149; 149; 149; 149; 149; 149; 149; 150; 150; 150; 150; 150; 150; 150; 151;
   151; 151; 151; 151; 151; 151; 152; 152; 152; 152; 152; 152; 153; 153; 153; 153; 153; 153;
   153; 154; 154; 154; 154; 154; 154; 154; 155; 155; 155; 155; 155; 155; 155; 156; 156; 156;
   156; 156; 156; 156; 157; 157; 157; 157; 157; 157; 158; 158; 158; 158; 158; 158; 158; 159;
   159; 159; 159; 159; 159; 159; 160; 160; 160; 160; 160; 160; 161; 161; 161; 161; 161; 161;
   161; 162; 162; 162; 162; 162; 162; 162; 163; 163; 163; 163; 163; 163; 163; 164; 164; 164;
   164; 164; 164; 165; 165; 165; 165; 165; 165; 165; 166; 166; 166; 166; 166; 166; 166; 167;
   167; 167; 167; 167; 167; 168; 168; 168; 168; 168; 168; 168; 169; 169; 169; 169; 169; 169;
   169; 170; 170; 170; 170; 170; 170; 171; 171; 171; 171; 171; 171; 171; 172; 172; 172; 172;
   172; 172; 173; 173; 173; 173; 173; 173; 173; 174; 174; 174; 174; 174; 174; 174; 175; 175;
   175; 175; 175; 175; 176; 176; 176; 176; 176; 176; 176; 177; 177; 177; 177; 177; 177; 178;
   178; 178; 178; 178; 178; 178; 179; 179; 179; 179; 179; 179; 180; 180; 180; 180; 180; 180;
   180; 181; 181; 181; 181; 181; 181; 182; 182; 182; 182; 182; 182; 182; 183; 183; 183; 183;
   183; 183; 184; 184; 184; 184; 184; 184; 184; 185; 185; 185; 185; 185; 185; 186; 186; 186;
   186; 186; 186; 186; 187; 187; 187; 187; 187; 187; 188; 188; 188; 188; 188; 188; 188; 189;
   189; 189; 189; 189; 189; 190; 190; 190; 190; 190; 190; 190; 191; 191; 191; 191; 191; 191;
   192; 192; 192; 192; 192; 192; 193; 193; 193; 193; 193; 193; 193; 194; 194; 194; 194; 194;
   194; 195; 195; 195; 195; 195; 195; 195; 196; 196; 196; 196; 196; 196; 197; 197; 197; 197;
   197; 197; 198; 198; 198; 198; 198; 198; 198; 199; 199; 199; 199; 199; 199; 200; 200; 200;
   200; 200; 200; 201; 201; 201; 201; 201; 201; 201; 202; 202; 202; 202; 202; 202; 203; 203;
   203; 203; 203; 203; 204; 204; 204; 204; 204; 204; 205; 205; 205; 205; 205; 205; 205; 206;
   206; 206; 206; 206; 206; 207; 207; 207; 207; 207; 207; 208; 208; 208; 208; 208; 208; 208;
   209; 209; 209; 209; 209; 209; 210; 210; 210; 210; 210; 210; 211; 211; 211; 211; 211; 211;
   212; 212; 212; 212; 212; 212; 213; 213; 213; 213; 213; 213; 213; 214; 214; 214; 214; 214;
   214; 215; 215; 215; 215; 215; 215; 216; 216; 216; 216; 216; 216; 217; 217; 217; 217; 217;
   217; 218; 218; 218; 218; 218; 218; 219; 219; 219; 219; 219; 219; 220; 220; 220; 220; 220;
   220; 220; 221; 221; 221; 221; 221; 221; 222; 222; 222; 222; 222; 222; 223; 223; 223; 223;
   223; 223; 224; 224; 224; 224; 224; 224; 225; 225; 225; 225; 225; 225; 226; 226; 226; 226;
   226; 226; 227; 227; 227; 227; 227; 227; 228; 228; 228; 228; 228; 228; 229; 229; 229; 229;
   229; 229; 230; 230; 230; 230; 230; 230; 231; 231; 231; 231; 231; 231; 232; 232; 232; 232;
   232; 232; 233; 233; 233; 233; 233; 233; 234; 234; 234; 234; 234; 234; 235; 235; 235; 235;
   235; 235; 236; 236; 236; 236; 236; 236; 237; 237; 237; 237; 237; 237; 238; 238; 238; 238;
   238; 238; 239; 239; 239; 239; 239; 240; 240; 240; 240; 240; 240; 241; 241; 241; 241; 241;
   241; 242; 242; 242; 242; 242; 242; 243; 243; 243; 243; 243; 243; 244; 244; 244; 244; 244;
   244; 245; 245; 245; 245; 245; 245; 246; 246; 246; 246; 246; 247; 247; 247; 247; 247; 247;
   248; 248; 248; 248; 248; 248; 249; 249; 249; 249; 249; 249; 250; 250; 250; 250; 250; 250;
   251; 251; 251; 251; 251; 252; 252; 252; 252; 252; 252; 253; 253; 253; 253; 253; 253; 254;
   254; 254; 254; 254; 255; 255; 255; 255; 255; 255; 256; 256; 256; 256; 256; 256; 257; 257;
   257; 257; 257; 257; 258; 258; 258; 258; 258; 259; 259; 259; 259; 259; 259; 260; 260; 260;
   260; 260; 260; 261; 261; 261; 261; 261; 262; 262; 262; 262; 262; 262; 263; 263; 263; 263;
   263; 264; 264; 264; 264; 264; 264; 265; 265; 265; 265; 265; 265; 266; 266; 266; 266; 266;
   267; 267; 267; 267; 267; 267; 268; 268; 268; 268; 268; 269; 269; 269; 269; 269; 269; 270;
   270; 270; 270; 270; 271; 271; 271; 271; 271; 271; 272; 272; 272; 272; 272; 273; 273; 273;
   273; 273; 273; 274; 274; 274; 274; 274; 275; 275; 275; 275; 275; 275; 276; 276; 276; 276;
   276; 277; 277; 277; 277; 277; 277; 278; 278; 278; 278; 278; 279; 279; 279; 279; 279; 279;
   280; 280; 280; 280; 280; 281; 281; 281; 281; 281; 282; 282; 282; 282; 282; 282; 283; 283;
   283; 283; 283; 284; 284; 284; 284; 284; 284; 285; 285; 285; 285; 285; 286; 286; 286; 286;
   286; 287; 287; 287; 287; 287; 287; 288; 288; 288; 288; 288; 289; 289; 289; 289; 289; 290;
   290; 290; 290; 290; 290; 291; 291; 291; 291; 291; 292; 292; 292; 292; 292; 293; 293; 293;
   293; 293; 294; 294; 294; 294; 294; 294; 295; 295; 295; 295; 295; 296; 296; 296; 296; 296;
   297; 297; 297; 297; 297; 298; 298; 298; 298; 298; 299; 299; 299; 299; 299; 299; 300; 300;
   300; 300; 300; 301; 301; 301; 301; 301; 302; 302; 302; 302; 302; 303; 303; 303; 303; 303;
   304; 304; 304; 304; 304; 305; 305; 305; 305; 305; 306; 306; 306; 306; 306; 306; 307; 307;
   307; 307; 307; 308; 308; 308; 308; 308; 309; 309; 309; 309; 309; 310; 310; 310; 310; 310;
   311; 311; 311; 311; 311; 312; 312; 312; 312; 312; 313; 313; 313; 313; 313; 314; 314; 314;
   314; 314; 315; 315; 315; 315; 315; 316; 316; 316; 316; 316; 317; 317; 317; 317; 317; 318;
   318; 318; 318; 318; 319; 319; 319; 319; 319; 320; 320; 320; 320; 320; 321; 321; 321; 321;
   321; 322; 322; 322; 322; 323; 323; 323; 323; 323; 324; 324; 324; 324; 324; 325; 325; 325;
   325; 325; 326; 326; 326; 326; 326; 327; 327; 327; 327; 327; 328; 328; 328; 328; 328; 329;
   329; 329; 329; 330; 330; 330; 330; 330; 331; 331; 331; 331; 331; 332; 332; 332; 332; 332;
   333; 333; 333; 333; 333; 334; 334; 334; 334; 335; 335; 335; 335; 335; 336; 336; 336; 336;
   336; 337; 337; 337; 337; 337; 338; 338; 338; 338; 339; 339; 339; 339; 339; 340; 340; 340;
   340; 340; 341; 341; 341; 341; 342; 342; 342; 342; 342; 343; 343; 343; 343; 343; 344; 344;
   344; 344; 345; 345; 345; 345; 345; 346; 346; 346; 346; 346; 347; 347; 347; 347; 348; 348;
   348; 348; 348; 349; 349; 349; 349; 350; 350; 350; 350; 350; 351; 351; 351; 351; 352; 352;
   352; 352; 352; 353; 353; 353; 353; 354; 354; 354; 354; 354; 355; 355; 355; 355; 355; 356;
   356; 356; 356; 357; 357; 357; 357; 358; 358; 358; 358; 358; 359; 359; 359; 359; 360; 360;
   360; 360; 360; 361; 361; 361; 361; 362; 362; 362; 362; 362; 363; 363; 363; 363; 364; 364;
   364; 364; 364; 365; 365; 365; 365; 366; 366; 366; 366; 367; 367; 367; 367; 367; 368; 368;
   368; 368; 369; 369; 369; 369; 370; 370; 370; 370; 370; 371; 371; 371; 371; 372; 372; 372;
   372; 373; 373; 373; 373; 373; 374; 374; 374; 374; 375; 375; 375; 375; 376; 376; 376; 376;
   377; 377; 377; 377; 377; 378; 378; 378; 378; 379; 379; 379; 379; 380; 380; 380; 380; 381;
   381; 381; 381; 382; 382; 382; 382; 382; 383; 383; 383; 383; 384; 384; 384; 384; 385; 385;
   385; 385; 386; 386; 386; 386; 387; 387; 387; 387; 388; 388; 388; 388; 388; 389; 389; 389;
   389; 390; 390; 390; 390; 391; 391; 391; 391; 392; 392; 392; 392; 393; 393; 393; 393; 394;
   394; 394; 394; 395; 395; 395; 395; 396; 396; 396; 396; 397; 397; 397; 397; 398; 398; 398;
   398; 399; 399; 399; 399; 400; 400; 400; 400; 401; 401; 401; 401; 402; 402; 402; 402; 403;
   403; 403; 403; 404; 404; 404; 404; 405; 405; 405; 405; 406; 406; 406; 406; 407; 407; 407;
   407; 408; 408; 408; 409; 409; 409; 409; 410; 410; 410; 410; 411; 411; 411; 411; 412; 412;
   412; 412; 413; 413; 413; 413; 414; 414; 414; 414; 415; 415; 415; 416; 416; 416; 416; 417;
   417; 417; 417; 418; 418; 418; 418; 419; 419; 419; 420; 420; 420; 420; 421; 421; 421; 421;
   422; 422; 422; 422; 423; 423; 423; 424; 424; 424; 424; 425; 425; 425; 425; 426; 426; 426;
   426; 427; 427; 427; 428; 428; 428; 428; 429; 429; 429; 429; 430; 430; 430; 431; 431; 431;
   431; 432; 432; 432; 433; 433; 433; 433; 434; 434; 434; 434; 435; 435; 435; 436; 436; 436;
   436; 437; 437; 437; 438; 438; 438; 438; 439; 439; 439; 440; 440; 440; 440; 441; 441; 441;
   442; 442; 442; 442; 443; 443; 443; 444; 444; 444; 444; 445; 445; 445; 446; 446; 446; 446;
   447; 447; 447; 448; 448; 448; 448; 449; 449; 449; 450; 450; 450; 450; 451; 451; 451; 452;
   452; 452; 452; 453; 453; 453; 454; 454; 454; 455; 455; 455; 455; 456; 456; 456; 457; 457;
   457; 458; 458; 458; 458; 459; 459; 459; 460; 460; 460; 461; 461; 461; 461; 462; 462; 462;
   463; 463; 463; 464; 464; 464; 464; 465; 465; 465; 466; 466; 466; 467; 467; 467; 468; 468;
   468; 468; 469; 469; 469; 470; 470; 470; 471; 471; 471; 472; 472; 472; 473; 473; 473; 473;
   474; 474; 474; 475; 475; 475; 476; 476; 476; 477; 477; 477; 478; 478; 478; 479; 479; 479;
   479; 480; 480; 480; 481; 481; 481; 482; 482; 482; 483; 483; 483; 484; 484; 484; 485; 485;
   485; 486; 486; 486; 487; 487; 487; 488; 488; 488; 489; 489; 489; 490; 490; 490; 491; 491;
   491; 492; 492; 492; 493; 493; 493; 494; 494; 494; 495; 495; 495; 496; 496; 496; 497; 497;
   497; 498; 498; 498; 499; 499; 499; 500; 500; 500; 501; 501; 501; 502; 502; 502; 503; 503;
   503; 504; 504; 505; 505; 505; 506; 506; 506; 507; 507; 507; 508; 508; 508; 509; 509; 509;
   510; 510; 510; 511; 511; 512; 512; 512; 513; 513; 513; 514; 514; 514; 515; 515; 515; 516;
   516; 517; 517; 517; 518; 518; 518; 519; 519; 519; 520; 520; 521; 521; 521; 522; 522; 522;
   523; 523; 524; 524; 524; 525; 525; 525; 526; 526; 526; 527; 527; 528; 528; 528; 529; 529;
   530; 530; 530; 531; 531; 531; 532; 532; 533; 533; 533; 534; 534; 534; 535; 535; 536; 536;
   536; 537; 537; 538; 538; 538; 539; 539; 539; 540; 540; 541; 541; 541; 542; 542; 543; 543;
   543; 544; 544; 545; 545; 545; 546; 546; 547; 547; 547; 548; 548; 549; 549; 549; 550; 550;
   551; 551; 551; 552; 552; 553; 553; 554; 554; 554; 555; 555; 556; 556; 556; 557; 557; 558;
   558; 558; 559; 559; 560; 560; 561; 561; 561; 562; 562; 563; 563; 564; 564; 564; 565; 565;
   566; 566; 567; 567; 567; 568; 568; 569; 569; 570; 570; 570; 571; 571; 572; 572; 573; 573;
   573; 574; 574; 575; 575; 576; 576; 577; 577; 577; 578; 578; 579; 579; 580; 580; 581; 581;
   581; 582; 582; 583; 583; 584; 584; 585; 585; 586; 586; 586; 587; 587; 588; 588; 589; 589;
   590; 590; 591; 591; 592; 592; 593; 593; 593; 594; 594; 595; 595; 596; 596; 597; 597; 598;
   598; 599; 599; 600; 600; 601; 601; 602; 602; 603; 603; 604; 604; 605; 605; 606; 606; 607;
   607; 608; 608; 608; 609; 609; 610; 610; 611; 612; 612; 613; 613; 614; 614; 615; 615; 616;
   616; 617; 617; 618; 618; 619; 619; 620; 620; 621; 621; 622; 622; 623; 623; 624; 624; 625;
   625; 626; 626; 627; 628; 628; 629; 629; 630; 630; 631; 631; 632; 632; 633; 633; 634; 635;
   635; 636; 636; 637; 637; 638; 638; 639; 640; 640; 641; 641; 642; 642; 643; 643; 644; 645;
   645; 646; 646; 647; 647; 648; 649; 649; 650; 650; 651; 652; 652; 653; 653; 654; 654; 655;
   656; 656; 657; 657; 658; 659; 659; 660; 660; 661; 662; 662; 663; 663; 664; 665; 665; 666;
   666; 667; 668; 668; 669; 670; 670; 671; 671; 672; 673; 673; 674; 675; 675; 676; 677; 677;
   678; 678; 679; 680; 680; 681; 682; 682; 683; 684; 684; 685; 686; 686; 687; 688; 688; 689;
   690; 690; 691; 692; 692; 693; 694; 694; 695; 696; 696; 697; 698; 698; 699; 700; 701; 701;
   702; 703; 703; 704; 705; 705; 706; 707; 708; 708; 709; 710; 711; 711; 712; 713; 713; 714;
   715; 716; 716; 717; 718; 719; 719; 720; 721; 722; 722; 723; 724; 725; 725; 726; 727; 728;
   729; 729; 730; 731; 732; 732; 733; 734; 735; 736; 736; 737; 738; 739; 740; 740; 741; 742;
   743; 744; 745; 745; 746; 747; 748; 749; 750; 750; 751; 752; 753; 754; 755; 756; 756; 757;
   758; 759; 760; 761; 762; 763; 763; 764; 765; 766; 767; 768; 769; 770; 771; 772; 773; 773;
   774; 775; 776; 777; 778; 779; 780; 781; 782; 783; 784; 785; 786; 787; 788; 789; 790; 791;
   792; 793; 794; 795; 796; 797; 798; 799; 800; 801; 802; 803; 804; 805; 806; 807; 808; 809;
   810; 811; 812; 813; 814; 816; 817; 818; 819; 820; 821; 822; 823; 824; 826; 827; 828; 829;
   830; 831; 832; 834; 835; 836; 837; 838; 840; 841; 842; 843; 844; 846; 847; 848; 849; 851;
   852; 853; 854; 856; 857; 858; 860; 861; 862; 863; 865; 866; 867; 869; 870; 871; 873; 874;
   876; 877; 878; 880; 881; 883; 884; 885; 887; 888; 890; 891; 893; 894; 896; 897; 899; 900;
   902; 903; 905; 906; 908; 910; 911; 913; 914; 916; 918; 919; 921; 923; 924; 926; 928; 929;
   931; 933; 935; 936; 938; 940; 942; 944; 945; 947; 949; 951; 953; 955; 957; 959; 960; 962;
   964; 966; 968; 970; 972; 975; 977; 979; 981; 983; 985; 987; 989; 992; 994; 996; 998; 1001;
   1003; 1005; 1008; 1010; 1012; 1015; 1017; 1020; 1022; 1025; 1027; 1030; 1032; 1035; 1038;
   1040; 1043; 1046; 1049; 1051; 1054; 1057; 1060; 1063; 1066; 1069; 1072; 1075; 1078; 1081;
   1085; 1088; 1091; 1094; 1098; 1101; 1105; 1108; 1112; 1116; 1119; 1123; 1127; 1131; 1135;
   1139; 1143; 1147; 1151; 1155; 1160; 1164; 1169; 1173; 1178; 1183; 1188; 1193; 1198; 1203;
   1208; 1214; 1219; 1225; 1231; 1237; 1243; 1249; 1256; 1263; 1269; 1276; 1284; 1291; 1299;
   1307; 1315; 1324; 1333; 1342; 1351; 1361; 1372; 1383; 1394; 1406; 1419; 1432; 1446; 1461;
   1477; 1494; 1513; 1533; 1555; 1579; 1605; 1635; 1670; 1710; 1759; 1820; 1902; 2028; 2315].

Definition stakeAmountListTestnet : list Z := (fun v => v * 10 ^ 18) <$> stakeVITETestnet.

Definition difficultyListMainnet : list Z := [
  0; 894654; 1789307; 2683961; 3578615; 4473270; 5367925; 6262581; 7157239; 8051897; 8946557;
   9841218; 10735880; 11630544; 12525211; 13419879; 14314549; 15209221; 16103896; 16998573;
   17893253; 18787936; 19682622; 20577310; 21472002; 22366698; 23261397; 24156099; 25050806;
   25945516; 26840230; 27734949; 28629672; 29524399; 30419131; 31313868; 32208609; 33103356;
   33998108; 34892865; 35787628; 36682396; 37577171; 38471951; 39366737; 40261529; 41156327;
   42051132; 42945944; 43840762; 44735587; 45630419; 46525259; 47420105; 48314960; 49209821;
   50104691; 50999568; 51894453; 52789346; 53684248; 54579158; 55474077; 56369004; 57263940;
   58158886; 59053840; 59948804; 60843776; 61738759; 62633751; 63528753; 64423765; 65318787;
   66213820; 67108863; 68003916; 68898980; 69794055; 70689140; 71584237; 72479345; 73374464;
   74269595; 75164738; 76059892; 76955059; 77850237; 78745428; 79640631; 80535846; 81431074;
   82326315; 83221569; 84116836; 85012116; 85907410; 86802716; 87698037; 88593371; 89488720;
   90384082; 91279458; 92174849; 93070254; 93965674; 94861109; 95756559; 96652023; 97547503;
   98442998; 99338508; 100234035; 101129576; 102025134; 102920708; 103816298; 104711904;
   105607527; 106503166; 107398822; 108294495; 109190185; 110085892; 110981617; 111877358;
   112773118; 113668895; 114564690; 115460503; 116356334; 117252183; 118148051; 119043938;
   119939843; 120835767; 121731710; 122627672; 123523653; 124419654; 125315674; 126211714;
   127107774; 128003854; 128899954; 129796074; 130692215; 131588376; 132484558; 133380761;
   134276984; 135173229; 136069495; 136965783; 137862092; 138758422; 139654775; 140551149;
   141447546; 142343965; 143240406; 144136870; 145033356; 145929866; 146826398; 147722953;
   148619532; 149516134; 150412759; 151309408; 152206081; 153102778; 153999499; 154896245;
   155793014; 156689809; 157586627; 158483471; 159380340; 160277233; 161174152; 162071097;
   162968067; 163865062; 164762084; 165659131; 166556204; 167453304; 168350430; 169247582;
   170144761; 171041967; 171939200; 172836460; 173733748; 174631062; 175528404; 176425774;
   177323172; 178220597; 179118051; 180015533; 180913043; 181810582; 182708149; 183605746;
   184503371; 185401025; 186298709; 187196421; 188094164; 188991936; 189889738; 190787570;
   191685432; 192583324; 193481246; 194379199; 195277183; 196175198; 197073243; 197971320;
   198869428; 199767567; 200665738; 201563940; 202462174; 203360440; 204258739; 205157069;
   206055432; 206953828; 207852256; 208750717; 209649211; 210547738; 211446298; 212344892;
   213243519; 214142180; 215040875; 215939603; 216838366; 217737163; 218635995; 219534861;
   220433762; 221332697; 222231668; 223130674; 224029715; 224928791; 225827903; 226727051;
   227626234; 228525454; 229424709; 230324001; 231223330; 232122694; 233022096; 233921535;
   234821010; 235720523; 236620073; 237519660; 238419285; 239318948; 240218649; 241118387;
   242018164; 242917979; 243817833; 244717725; 245617656; 246517626; 247417634; 248317683;
   249217770; 250117897; 251018063; 251918269; 252818516; 253718802; 254619128; 255519495;
   256419902; 257320350; 258220839; 259121368; 260021939; 260922551; 261823204; 262723899;
   263624635; 264525414; 265426234; 266327096; 267228001; 268128948; 269029937; 269930969;
   270832044; 271733162; 272634324; 273535528; 274436776; 275338067; 276239402; 277140781;
   278042204; 278943671; 279845182; 280746738; 281648339; 282549984; 283451674; 284353409;
   285255189; 286157015; 287058886; 287960802; 288862765; 289764773; 290666828; 291568928;
   292471075; 293373269; 294275509; 295177796; 296080130; 296982511; 297884939; 298787414;
   299689937; 300592508; 301495127; 302397794; 303300508; 304203271; 305106083; 306008943;
   306911852; 307814809; 308717816; 309620872; 310523977; 311427131; 312330335; 313233589;
   314136893; 315040247; 315943651; 316847106; 317750611; 318654166; 319557773; 320461430;
   321365138; 322268898; 323172709; 324076572; 324980486; 325884452; 326788471; 327692541;
   328596663; 329500838; 330405066; 331309346; 332213680; 333118066; 334022505; 334926998;
   335831545; 336736144; 337640798; 338545506; 339450268; 340355083; 341259954; 342164879;
   343069858; 343974893; 344879982; 345785127; 346690326; 347595582; 348500892; 349406259;
   350311681; 351217160; 352122695; 353028286; 353933933; 354839637; 355745398; 356651216;
   357557091; 358463023; 359369013; 360275060; 361181165; 362087328; 362993548; 363899827;
   364806165; 365712560; 366619014; 367525527; 368432099; 369338730; 370245420; 371152170;
   372058979; 372965848; 373872776; 374779765; 375686814; 376593923; 377501092; 378408322;
   379315613; 380222964; 381130377; 382037850; 382945386; 383852982; 384760641; 385668361;
   386576143; 387483987; 388391893; 389299862; 390207894; 391115988; 392024145; 392932365;
   393840648; 394748994; 395657404; 396565878; 397474416; 398383017; 399291683; 400200412;
   401109207; 402018065; 402926989; 403835977; 404745030; 405654149; 406563333; 407472582;
   408381897; 409291278; 410200725; 411110238; 412019817; 412929462; 413839174; 414748953;
   415658799; 416568712; 417478692; 418388739; 419298854; 420209036; 421119286; 422029605;
   422939991; 423850446; 424760969; 425671560; 426582221; 427492950; 428403748; 429314616;
   430225553; 431136559; 432047635; 432958781; 433869997; 434781283; 435692640; 436604066;
   437515564; 438427132; 439338771; 440250482; 441162263; 442074116; 442986040; 443898037;
   444810105; 445722245; 446634457; 447546742; 448459099; 449371529; 450284031; 451196607;
   452109255; 453021977; 453934773; 454847642; 455760585; 456673601; 457586692; 458499857;
   459413096; 460326410; 461239799; 462153263; 463066801; 463980415; 464894104; 465807869;
   466721709; 467635625; 468549617; 469463685; 470377830; 471292051; 472206349; 473120723;
   474035174; 474949703; 475864308; 476778991; 477693752; 478608591; 479523507; 480438501;
   481353574; 482268725; 483183954; 484099262; 485014649; 485930115; 486845661; 487761285;
   488676989; 489592773; 490508637; 491424580; 492340604; 493256708; 494172892; 495089157;
   496005503; 496921930; 497838438; 498755027; 499671698; 500588450; 501505284; 502422200;
   503339198; 504256278; 505173440; 506090686; 507008013; 507925424; 508842918; 509760495;
   510678156; 511595900; 512513727; 513431639; 514349635; 515267714; 516185879; 517104127;
   518022461; 518940879; 519859382; 520777970; 521696644; 522615403; 523534248; 524453179;
   525372196; 526291299; 527210488; 528129764; 529049126; 529968575; 530888111; 531807735;
   532727445; 533647243; 534567129; 535487103; 536407164; 537327314; 538247552; 539167878;
   540088293; 541008797; 541929390; 542850072; 543770843; 544691704; 545612654; 546533694;
   547454824; 548376045; 549297355; 550218756; 551140248; 552061830; 552983503; 553905268;
   554827123; 555749071; 556671109; 557593240; 558515463; 559437777; 560360184; 561282684;
   562205276; 563127961; 564050739; 564973610; 565896574; 566819632; 567742783; 568666028;
   569589368; 570512801; 571436329; 572359951; 573283668; 574207479; 575131386; 576055388;
   576979485; 577903677; 578827966; 579752350; 580676830; 581601406; 582526079; 583450848;
   584375714; 585300676; 586225736; 587150893; 588076147; 589001499; 589926949; 590852496;
   591778141; 592703885; 593629727; 594555668; 595481707; 596407845; 597334083; 598260419;
   599186855; 600113391; 601040026; 601966762; 602893597; 603820533; 604747569; 605674706;
   606601943; 607529282; 608456722; 609384263; 610311905; 611239649; 612167495; 613095443;
   614023493; 614951646; 615879901; 616808259; 617736719; 618665283; 619593950; 620522720;
   621451594; 622380572; 623309653; 624238839; 625168129; 626097523; 627027022; 627956626;
   628886335; 629816149; 630746068; 631676093; 632606223; 633536459; 634466802; 635397250;
   636327805; 637258466; 638189235; 639120110; 640051092; 640982181; 641913378; 642844682;
   643776095; 644707615; 645639243; 646570980; 647502825; 648434779; 649366841; 650299013;
   651231294; 652163684; 653096184; 654028794; 654961513; 655894343; 656827283; 657760333;
   658693494; 659626766; 660560148; 661493642; 662427248; 663360965; 664294793; 665228734;
   666162786; 667096951; 668031228; 668965618; 669900120; 670834736; 671769465; 672704307;
   673639262; 674574331; 675509514; 676444812; 677380223; 678315749; 679251389; 680187144;
   681123015; 682059000; 682995101; 683931317; 684867648; 685804096; 686740660; 687677340;
   688614136; 689551049; 690488079; 691425226; 692362490; 693299871; 694237370; 695174986;
   696112720; 697050573; 697988543; 698926633; 699864840; 700803167; 701741612; 702680177;
   703618861; 704557665; 705496588; 706435631; 707374794; 708314078; 709253482; 710193007;
   711132652; 712072419; 713012307; 713952316; 714892447; 715832699; 716773074; 717713571;
   718654190; 719594931; 720535795; 721476783; 722417893; 723359126; 724300483; 725241964;
   726183568; 727125297; 728067149; 729009126; 729951228; 730893454; 731835806; 732778282;
   733720884; 734663611; 735606464; 736549443; 737492548; 738435780; 739379138; 740322622;
   741266233; 742209972; 743153837; 744097831; 745041951; 745986200; 746930576; 747875081;
   748819714; 749764476; 750709366; 751654385; 752599534; 753544812; 754490219; 755435756;
   756381423; 757327220; 758273148; 759219206; 760165394; 761111714; 762058164; 763004746;
   763951459; 764898304; 765845281; 766792390; 767739631; 768687005; 769634511; 770582150;
   771529922; 772477827; 773425865; 774374037; 775322343; 776270783; 777219357; 778168066;
   779116909; 780065887; 781015000; 781964248; 782913631; 783863150; 784812805; 785762595;
   786712522; 787662585; 788612785; 789563121; 790513594; 791464205; 792414953; 793365838;
   794316861; 795268022; 796219321; 797170759; 798122335; 799074049; 800025903; 800977896;
   801930028; 802882299; 803834711; 804787262; 805739953; 806692785; 807645757; 808598870;
   809552124; 810505519; 811459055; 812412733; 813366552; 814320514; 815274618; 816228863;
   817183252; 818137783; 819092457; 820047275; 821002235; 821957340; 822912588; 823867979;
   824823516; 825779196; 826735021; 827690991; 828647106; 829603366; 830559771; 831516322;
   832473018; 833429861; 834386850; 835343985; 836301267; 837258696; 838216272; 839173995;
   840131865; 841089883; 842048049; 843006363; 843964826; 844923436; 845882196; 846841104;
   847800161; 848759368; 849718724; 850678230; 851637886; 852597692; 853557648; 854517755;
   855478013; 856438421; 857398981; 858359692; 859320555; 860281570; 861242736; 862204055;
   863165526; 864127150; 865088927; 866050856; 867012939; 867975176; 868937566; 869900110;
   870862809; 871825661; 872788668; 873751830; 874715147; 875678619; 876642247; 877606030;
   878569969; 879534064; 880498315; 881462723; 882427287; 883392008; 884356887; 885321922;
   886287115; 887252466; 888217975; 889183642; 890149468; 891115452; 892081595; 893047897;
   894014358; 894980979; 895947759; 896914699; 897881800; 898849061; 899816482; 900784064;
   901751807; 902719711; 903687777; 904656004; 905624394; 906592945; 907561659; 908530535;
   909499574; 910468775; 911438140; 912407669; 913377361; 914347217; 915317237; 916287421;
   917257770; 918228283; 919198962; 920169805; 921140814; 922111989; 923083329; 924054835;
   925026508; 925998347; 926970353; 927942526; 928914866; 929887374; 930860049; 931832891;
   932805902; 933779081; 934752429; 935725946; 936699631; 937673486; 938647510; 939621703;
   940596067; 941570600; 942545304; 943520178; 944495224; 945470440; 946445827; 947421386;
   948397116; 949373019; 950349093; 951325340; 952301759; 953278352; 954255117; 955232055;
   956209167; 957186453; 958163913; 959141547; 960119355; 961097338; 962075496; 963053829;
   964032337; 965011021; 965989880; 966968916; 967948128; 968927516; 969907081; 970886823;
   971866742; 972846839; 973827113; 974807565; 975788196; 976769004; 977749991; 978731157;
   979712502; 980694027; 981675730; 982657614; 983639678; 984621921; 985604346; 986586951;
   987569737; 988552704; 989535852; 990519182; 991502694; 992486388; 993470265; 994454324;
   995438565; 996422990; 997407598; 998392390; 999377366; 1000362525; 1001347869; 1002333397;
   1003319110; 1004305008; 1005291091; 1006277360; 1007263814; 1008250454; 1009237281;
   1010224294; 1011211493; 1012198880; 1013186453; 1014174214; 1015162162; 1016150299;
   1017138623; 1018127136; 1019115838; 1020104728; 1021093807; 1022083076; 1023072534;
   1024062182; 1025052020; 1026042049; 1027032268; 1028022677; 1029013278; 1030004070;
   1030995054; 1031986229; 1032977597; 1033969156; 1034960908; 1035952853; 1036944991;
   1037937323; 1038929847; 1039922566; 1040915478; 1041908585; 1042901886; 1043895382;
   1044889073; 1045882959; 1046877041; 1047871319; 1048865792; 1049860462; 1050855328;
   1051850391; 1052845651; 1053841108; 1054836763; 1055832615; 1056828666; 1057824915;
   1058821362; 1059818008; 1060814853; 1061811898; 1062809142; 1063806585; 1064804229;
   1065802073; 1066800118; 1067798363; 1068796809; 1069795457; 1070794306; 1071793358;
   1072792611; 1073792066; 1074791725; 1075791586; 1076791650; 1077791917; 1078792389;
   1079793064; 1080793943; 1081795026; 1082796315; 1083797808; 1084799506; 1085801410;
   1086803520; 1087805835; 1088808357; 1089811085; 1090814020; 1091817162; 1092820511;
   1093824068; 1094827833; 1095831806; 1096835987; 1097840376; 1098844975; 1099849782;
   1100854799; 1101860026; 1102865462; 1103871109; 1104876966; 1105883033; 1106889312;
   1107895802; 1108902504; 1109909417; 1110916542; 1111923880; 1112931430; 1113939193;
   1114947169; 1115955359; 1116963762; 1117972379; 1118981210; 1119990256; 1120999516;
   1122008991; 1123018682; 1124028588; 1125038710; 1126049048; 1127059602; 1128070373;
   1129081361; 1130092566; 1131103989; 1132115629; 1133127487; 1134139563; 1135151858;
   1136164372; 1137177105; 1138190057; 1139203229; 1140216621; 1141230232; 1142244065;
   1143258118; 1144272392; 1145286887; 1146301604; 1147316543; 1148331703; 1149347087;
   1150362692; 1151378521; 1152394573; 1153410849; 1154427348; 1155444071; 1156461019;
   1157478192; 1158495589; 1159513211; 1160531059; 1161549133; 1162567433; 1163585959;
   1164604711; 1165623691; 1166642897; 1167662331; 1168681993; 1169701883; 1170722001;
   1171742348; 1172762923; 1173783728; 1174804762; 1175826026; 1176847520; 1177869244;
   1178891199; 1179913385; 1180935801; 1181958450; 1182981330; 1184004442; 1185027786;
   1186051363; 1187075173; 1188099215; 1189123492; 1190148002; 1191172746; 1192197725;
   1193222938; 1194248386; 1195274070; 1196299989; 1197326143; 1198352534; 1199379161;
   1200406025; 1201433126; 1202460464; 1203488040; 1204515853; 1205543905; 1206572195;
   1207600724; 1208629492; 1209658499; 1210687746; 1211717233; 1212746960; 1213776927;
   1214807136; 1215837585; 1216868276; 1217899209; 1218930384; 1219961801; 1220993461;
   1222025363; 1223057509; 1224089899; 1225122532; 1226155409; 1227188531; 1228221897;
   1229255509; 1230289366; 1231323468; 1232357817; 1233392412; 1234427253; 1235462341;
   1236497677; 1237533260; 1238569090; 1239605169; 1240641496; 1241678072; 1242714897;
   1243751971; 1244789295; 1245826869; 1246864693; 1247902767; 1248941093; 1249979670;
   1251018498; 1252057578; 1253096910; 1254136494; 1255176331; 1256216422; 1257256765;
   1258297363; 1259338214; 1260379320; 1261420680; 1262462295; 1263504165; 1264546291;
   1265588673; 1266631311; 1267674206; 1268717357; 1269760766; 1270804432; 1271848356;
   1272892538; 1273936978; 1274981677; 1276026635; 1277071853; 1278117330; 1279163067;
   1280209065; 1281255323; 1282301842; 1283348623; 1284395665; 1285442969; 1286490535;
   1287538364; 1288586456; 1289634811; 1290683430; 1291732313; 1292781460; 1293830871;
   1294880547; 1295930489; 1296980696; 1298031169; 1299081908; 1300132914; 1301184186;
   1302235726; 1303287533; 1304339608; 1305391951; 1306444562; 1307497443; 1308550593;
   1309604012; 1310657701; 1311711660; 1312765889; 1313820390; 1314875161; 1315930204;
   1316985519; 1318041106; 1319096966; 1320153098; 1321209504; 1322266183; 1323323136;
   1324380363; 1325437864; 1326495641; 1327553693; 1328612020; 1329670623; 1330729502;
   1331788658; 1332848091; 1333907801; 1334967788; 1336028054; 1337088598; 1338149420;
   1339210522; 1340271902; 1341333563; 1342395503; 1343457724; 1344520225; 1345583007;
   1346646071; 1347709417; 1348773044; 1349836954; 1350901147; 1351965623; 1353030382;
   1354095425; 1355160753; 1356226365; 1357292261; 1358358443; 1359424911; 1360491664;
   1361558704; 1362626030; 1363693643; 1364761544; 1365829732; 1366898209; 1367966974;
   1369036027; 1370105370; 1371175002; 1372244924; 1373315136; 1374385639; 1375456433;
   1376527518; 1377598894; 1378670563; 1379742523; 1380814777; 1381887324; 1382960164;
   1384033298; 1385106726; 1386180448; 1387254466; 1388328778; 1389403386; 1390478291;
   1391553491; 1392628989; 1393704783; 1394780875; 1395857264; 1396933952; 1398010939;
   1399088224; 1400165809; 1401243693; 1402321877; 1403400362; 1404479147; 1405558234;
   1406637622; 1407717312; 1408797304; 1409877599; 1410958196; 1412039098; 1413120303;
   1414201812; 1415283625; 1416365744; 1417448168; 1418530897; 1419613933; 1420697274;
   1421780923; 1422864879; 1423949142; 1425033713; 1426118593; 1427203781; 1428289278;
   1429375085; 1430461202; 1431547628; 1432634366; 1433721414; 1434808774; 1435896445;
   1436984429; 1438072725; 1439161334; 1440250256; 1441339492; 1442429042; 1443518907;
   1444609086; 1445699581; 1446790391; 1447881518; 1448972960; 1450064720; 1451156797;
   1452249191; 1453341904; 1454434934; 1455528284; 1456621953; 1457715941; 1458810249;
   1459904878; 1460999827; 1462095098; 1463190690; 1464286604; 1465382841; 1466479400;
   1467576282; 1468673488; 1469771018; 1470868873; 1471967052; 1473065556; 1474164386;
   1475263542; 1476363024; 1477462833; 1478562969; 1479663433; 1480764225; 1481865345;
   1482966794; 1484068573; 1485170681; 1486273119; 1487375888; 1488478987; 1489582418;
   1490686180; 1491790275; 1492894702; 1493999462; 1495104556; 1496209983; 1497315744;
   1498421841; 1499528272; 1500635038; 1501742141; 1502849579; 1503957355; 1505065467;
   1506173918; 1507282706; 1508391832; 1509501297; 1510611102; 1511721246; 1512831730;
   1513942555; 1515053721; 1516165228; 1517277077; 1518389268; 1519501802; 1520614679;
   1521727899; 1522841463; 1523955372; 1525069625; 1526184224; 1527299168; 1528414458;
   1529530095; 1530646079; 1531762410; 1532879089; 1533996117; 1535113492; 1536231218;
   1537349292; 1538467717; 1539586492; 1540705618; 1541825095; 1542944924; 1544065106;
   1545185640; 1546306527; 1547427767; 1548549362; 1549671311; 1550793614; 1551916274;
   1553039288; 1554162659; 1555286387; 1556410472; 1557534914; 1558659715; 1559784874;
   1560910391; 1562036268; 1563162505; 1564289102; 1565416060; 1566543379; 1567671059;
   1568799102; 1569927507; 1571056275; 1572185407; 1573314902; 1574444762; 1575574987;
   1576705577; 1577836532; 1578967854; 1580099543; 1581231598; 1582364021; 1583496813;
   1584629972; 1585763501; 1586897399; 1588031667; 1589166306; 1590301315; 1591436695;
   1592572448; 1593708572; 1594845070; 1595981940; 1597119184; 1598256802; 1599394795;
   1600533163; 1601671907; 1602811026; 1603950522; 1605090395; 1606230646; 1607371274;
   1608512281; 1609653667; 1610795432; 1611937577; 1613080102; 1614223008; 1615366296;
   1616509965; 1617654017; 1618798451; 1619943268; 1621088470; 1622234055; 1623380025;
   1624526381; 1625673122; 1626820249; 1627967763; 1629115664; 1630263952; 1631412629;
   1632561695; 1633711149; 1634860993; 1636011228; 1637161853; 1638312869; 1639464276;
   1640616076; 1641768269; 1642920854; 1644073833; 1645227207; 1646380974; 1647535137;
   1648689696; 1649844651; 1651000002; 1652155751; 1653311897; 1654468441; 1655625384;
   1656782727; 1657940469; 1659098611; 1660257154; 1661416098; 1662575443; 1663735191;
   1664895342; 1666055896; 1667216854; 1668378217; 1669539984; 1670702156; 1671864734;
   1673027719; 1674191111; 1675354910; 1676519117; 1677683732; 1678848757; 1680014191;
   1681180035; 1682346290; 1683512956; 1684680033; 1685847523; 1687015425; 1688183741;
   1689352470; 1690521614; 1691691172; 1692861146; 1694031536; 1695202342; 1696373566;
   1697545206; 1698717265; 1699889743; 1701062639; 1702235955; 1703409692; 1704583849;
   1705758427; 1706933428; 1708108851; 1709284696; 1710460965; 1711637659; 1712814776;
   1713992319; 1715170288; 1716348683; 1717527505; 1718706754; 1719886430; 1721066536;
   1722247070; 1723428034; 1724609428; 1725791253; 1726973509; 1728156196; 1729339316;
   1730522869; 1731706856; 1732891276; 1734076132; 1735261422; 1736447148; 1737633310;
   1738819910; 1740006946; 1741194421; 1742382334; 1743570687; 1744759479; 1745948711;
   1747138385; 1748328499; 1749519056; 1750710056; 1751901498; 1753093385; 1754285715;
   1755478491; 1756671712; 1757865379; 1759059493; 1760254054; 1761449063; 1762644521;
   1763840427; 1765036783; 1766233590; 1767430847; 1768628555; 1769826715; 1771025328;
   1772224394; 1773423914; 1774623888; 1775824318; 1777025202; 1778226543; 1779428340;
   1780630595; 1781833308; 1783036479; 1784240110; 1785444200; 1786648751; 1787853762;
   1789059235; 1790265171; 1791471569; 1792678430; 1793885756; 1795093546; 1796301801;
   1797510523; 1798719710; 1799929365; 1801139487; 1802350078; 1803561138; 1804772667;
   1805984667; 1807197137; 1808410079; 1809623492; 1810837379; 1812051739; 1813266572;
   1814481881; 1815697664; 1816913923; 1818130659; 1819347872; 1820565562; 1821783731;
   1823002379; 1824221507; 1825441114; 1826661203; 1827881773; 1829102826; 1830324361;
   1831546380; 1832768883; 1833991870; 1835215343; 1836439302; 1837663748; 1838888681;
   1840114103; 1841340013; 1842566412; 1843793301; 1845020681; 1846248552; 1847476915;
   1848705770; 1849935119; 1851164962; 1852395300; 1853626132; 1854857461; 1856089286;
   1857321608; 1858554429; 1859787748; 1861021566; 1862255884; 1863490703; 1864726023;
   1865961845; 1867198169; 1868434997; 1869672329; 1870910165; 1872148507; 1873387355;
   1874626710; 1875866572; 1877106942; 1878347821; 1879589209; 1880831107; 1882073516;
   1883316437; 1884559870; 1885803816; 1887048275; 1888293249; 1889538738; 1890784742;
   1892031263; 1893278301; 1894525857; 1895773931; 1897022524; 1898271637; 1899521271;
   1900771427; 1902022104; 1903273304; 1904525027; 1905777275; 1907030047; 1908283345;
   1909537170; 1910791521; 1912046400; 1913301808; 1914557745; 1915814212; 1917071209;
   1918328738; 1919586799; 1920845392; 1922104520; 1923364181; 1924624378; 1925885110;
   1927146378; 1928408184; 1929670528; 1930933411; 1932196833; 1933460795; 1934725298;
   1935990343; 1937255930; 1938522060; 1939788735; 1941055953; 1942323718; 1943592028;
   1944860885; 1946130290; 1947400244; 1948670746; 1949941799; 1951213402; 1952485556;
   1953758263; 1955031523; 1956305336; 1957579704; 1958854628; 1960130107; 1961406143;
   1962682737; 1963959889; 1965237600; 1966515871; 1967794703; 1969074096; 1970354051;
   1971634570; 1972915652; 1974197299; 1975479511; 1976762290; 1978045635; 1979329548;
   1980614030; 1981899081; 1983184702; 1984470894; 1985757658; 1987044994; 1988332904;
   1989621388; 1990910446; 1992200081; 1993490292; 1994781080; 1996072446; 1997364392;
   1998656917; 1999950023; 2001243710; 2002537979; 2003832832; 2005128268; 2006424289;
   2007720895; 2009018088; 2010315868; 2011614236; 2012913193; 2014212739; 2015512876;
   2016813604; 2018114924; 2019416837; 2020719344; 2022022446; 2023326143; 2024630437;
   2025935328; 2027240816; 2028546904; 2029853591; 2031160879; 2032468768; 2033777260;
   2035086355; 2036396053; 2037706357; 2039017266; 2040328782; 2041640905; 2042953637;
   2044266978; 2045580928; 2046895490; 2048210664; 2049526450; 2050842849; 2052159863;
   2053477493; 2054795738; 2056114601; 2057434081; 2058754180; 2060074899; 2061396239;
   2062718200; 2064040783; 2065363990; 2066687820; 2068012276; 2069337358; 2070663066;
   2071989403; 2073316368; 2074643962; 2075972187; 2077301043; 2078630532; 2079960654;
   2081291410; 2082622801; 2083954828; 2085287491; 2086620793; 2087954733; 2089289313;
   2090624534; 2091960395; 2093296900; 2094634047; 2095971839; 2097310276; 2098649360;
   2099989090; 2101329468; 2102670496; 2104012173; 2105354501; 2106697481; 2108041114;
   2109385400; 2110730341; 2112075938; 2113422191; 2114769102; 2116116671; 2117464900;
   2118813789; 2120163340; 2121513552; 2122864429; 2124215969; 2125568175; 2126921047;
   2128274586; 2129628794; 2130983670; 2132339217; 2133695435; 2135052325; 2136409889;
   2137768126; 2139127039; 2140486627; 2141846893; 2143207837; 2144569460; 2145931763;
   2147294747; 2148658413; 2150022763; 2151387797; 2152753515; 2154119920; 2155487012;
   2156854793; 2158223262; 2159592422; 2160962274; 2162332817; 2163704054; 2165075985;
   2166448612; 2167821935; 2169195955; 2170570674; 2171946093; 2173322212; 2174699033;
   2176076557; 2177454784; 2178833716; 2180213354; 2181593699; 2182974752; 2184356514;
   2185738986; 2187122169; 2188506065; 2189890674; 2191275997; 2192662035; 2194048791;
   2195436263; 2196824455; 2198213366; 2199602998; 2200993352; 2202384429; 2203776230;
   2205168757; 2206562009; 2207955989; 2209350698; 2210746136; 2212142305; 2213539206;
   2214936840; 2216335208; 2217734311; 2219134150; 2220534727; 2221936042; 2223338097;
   2224740892; 2226144430; 2227548710; 2228953735; 2230359505; 2231766022; 2233173286;
   2234581299; 2235990061; 2237399575; 2238809841; 2240220860; 2241632634; 2243045163;
   2244458449; 2245872493; 2247287296; 2248702859; 2250119184; 2251536272; 2252954123;
   2254372739; 2255792122; 2257212271; 2258633190; 2260054878; 2261477337; 2262900567;
   2264324572; 2265749350; 2267174905; 2268601236; 2270028345; 2271456234; 2272884903;
   2274314354; 2275744588; 2277175606; 2278607409; 2280039999; 2281473376; 2282907543;
   2284342500; 2285778248; 2287214789; 2288652125; 2290090255; 2291529182; 2292968906;
   2294409430; 2295850753; 2297292878; 2298735806; 2300179538; 2301624075; 2303069418;
   2304515570; 2305962530; 2307410301; 2308858883; 2310308278; 2311758487; 2313209512;
   2314661353; 2316114012; 2317567491; 2319021790; 2320476911; 2321932856; 2323389625;
   2324847219; 2326305641; 2327764891; 2329224971; 2330685882; 2332147625; 2333610202;
   2335073614; 2336537863; 2338002949; 2339468874; 2340935640; 2342403247; 2343871697;
   2345340992; 2346811132; 2348282120; 2349753956; 2351226641; 2352700178; 2354174568;
   2355649811; 2357125910; 2358602866; 2360080679; 2361559352; 2363038886; 2364519281;
   2366000541; 2367482665; 2368965656; 2370449515; 2371934242; 2373419841; 2374906311;
   2376393655; 2377881873; 2379370968; 2380860940; 2382351792; 2383843524; 2385336138;
   2386829635; 2388324017; 2389819285; 2391315441; 2392812487; 2394310422; 2395809250;
   2397308972; 2398809588; 2400311101; 2401813511; 2403316821; 2404821032; 2406326145;
   2407832162; 2409339084; 2410846913; 2412355651; 2413865298; 2415375856; 2416887327;
   2418399712; 2419913013; 2421427232; 2422942369; 2424458426; 2425975405; 2427493308;
   2429012136; 2430531890; 2432052571; 2433574183; 2435096725; 2436620200; 2438144609;
   2439669954; 2441196236; 2442723457; 2444251619; 2445780722; 2447310769; 2448841760;
   2450373699; 2451906586; 2453440422; 2454975210; 2456510951; 2458047647; 2459585299;
   2461123909; 2462663478; 2464204008; 2465745501; 2467287958; 2468831382; 2470375772;
   2471921132; 2473467463; 2475014766; 2476563043; 2478112296; 2479662527; 2481213736;
   2482765926; 2484319099; 2485873255; 2487428398; 2488984527; 2490541646; 2492099755;
   2493658857; 2495218954; 2496780045; 2498342135; 2499905224; 2501469313; 2503034406;
   2504600502; 2506167605; 2507735716; 2509304836; 2510874967; 2512446112; 2514018271;
   2515591446; 2517165640; 2518740854; 2520317090; 2521894349; 2523472634; 2525051945;
   2526632286; 2528213657; 2529796060; 2531379498; 2532963971; 2534549483; 2536136034;
   2537723626; 2539312262; 2540901942; 2542492669; 2544084446; 2545677272; 2547271151;
   2548866084; 2550462073; 2552059120; 2553657226; 2555256394; 2556856626; 2558457923;
   2560060286; 2561663719; 2563268223; 2564873800; 2566480451; 2568088179; 2569696985;
   2571306872; 2572917841; 2574529894; 2576143033; 2577757260; 2579372577; 2580988986;
   2582606489; 2584225087; 2585844784; 2587465579; 2589087477; 2590710478; 2592334584;
   2593959798; 2595586122; 2597213557; 2598842105; 2600471769; 2602102550; 2603734451;
   2605367473; 2607001618; 2608636889; 2610273288; 2611910816; 2613549475; 2615189268;
   2616830197; 2618472263; 2620115469; 2621759817; 2623405308; 2625051945; 2626699731;
   2628348666; 2629998754; 2631649995; 2633302394; 2634955950; 2636610667; 2638266546;
   2639923591; 2641581802; 2643241182; 2644901733; 2646563458; 2648226358; 2649890435;
   2651555693; 2653222132; 2654889755; 2656558564; 2658228562; 2659899750; 2661572131;
   2663245707; 2664920480; 2666596453; 2668273627; 2669952004; 2671631588; 2673312380;
   2674994383; 2676677598; 2678362028; 2680047676; 2681734543; 2683422631; 2685111944;
   2686802483; 2688494250; 2690187249; 2691881480; 2693576947; 2695273652; 2696971597;
   2698670784; 2700371216; 2702072895; 2703775824; 2705480004; 2707185438; 2708892129;
   2710600078; 2712309289; 2714019763; 2715731503; 2717444512; 2719158791; 2720874344;
   2722591172; 2724309278; 2726028664; 2727749333; 2729471287; 2731194529; 2732919061;
   2734644886; 2736372006; 2738100423; 2739830141; 2741561161; 2743293485; 2745027117;
   2746762060; 2748498314; 2750235884; 2751974771; 2753714978; 2755456508; 2757199363;
   2758943546; 2760689059; 2762435904; 2764184085; 2765933604; 2767684464; 2769436666;
   2771190215; 2772945111; 2774701359; 2776458960; 2778217918; 2779978234; 2781739912;
   2783502954; 2785267363; 2787033141; 2788800291; 2790568817; 2792338719; 2794110002;
   2795882668; 2797656720; 2799432160; 2801208991; 2802987216; 2804766837; 2806547858;
   2808330280; 2810114108; 2811899343; 2813685989; 2815474048; 2817263522; 2819054416;
   2820846731; 2822640471; 2824435638; 2826232235; 2828030265; 2829829731; 2831630635;
   2833432981; 2835236771; 2837042009; 2838848697; 2840656838; 2842466435; 2844277491;
   2846090009; 2847903992; 2849719442; 2851536363; 2853354758; 2855174630; 2856995981;
   2858818815; 2860643134; 2862468942; 2864296242; 2866125036; 2867955328; 2869787121;
   2871620417; 2873455221; 2875291534; 2877129361; 2878968703; 2880809565; 2882651949;
   2884495858; 2886341296; 2888188266; 2890036771; 2891886813; 2893738397; 2895591525;
   2897446200; 2899302426; 2901160206; 2903019543; 2904880441; 2906742902; 2908606929;
   2910472527; 2912339698; 2914208446; 2916078773; 2917950684; 2919824181; 2921699267;
   2923575947; 2925454223; 2927334099; 2929215578; 2931098663; 2932983358; 2934869666;
   2936757591; 2938647136; 2940538304; 2942431099; 2944325524; 2946221583; 2948119278;
   2950018615; 2951919595; 2953822223; 2955726502; 2957632435; 2959540027; 2961449280;
   2963360198; 2965272784; 2967187043; 2969102978; 2971020592; 2972939889; 2974860873;
   2976783546; 2978707914; 2980633979; 2982561745; 2984491215; 2986422394; 2988355286;
   2990289893; 2992226219; 2994164269; 2996104045; 2998045552; 2999988794; 3001933774;
   3003880496; 3005828963; 3007779180; 3009731151; 3011684879; 3013640367; 3015597621;
   3017556643; 3019517438; 3021480010; 3023444361; 3025410498; 3027378422; 3029348139;
   3031319651; 3033292964; 3035268081; 3037245006; 3039223742; 3041204295; 3043186668;
   3045170865; 3047156891; 3049144748; 3051134442; 3053125976; 3055119355; 3057114582;
   3059111662; 3061110599; 3063111397; 3065114060; 3067118593; 3069124999; 3071133283;
   3073143449; 3075155502; 3077169444; 3079185282; 3081203019; 3083222659; 3085244207;
   3087267667; 3089293043; 3091320340; 3093349562; 3095380714; 3097413799; 3099448823;
   3101485789; 3103524703; 3105565568; 3107608389; 3109653171; 3111699918; 3113748634;
   3115799325; 3117851994; 3119906646; 3121963286; 3124021919; 3126082548; 3128145179;
   3130209817; 3132276465; 3134345129; 3136415813; 3138488522; 3140563261; 3142640034;
   3144718847; 3146799703; 3148882608; 3150967567; 3153054584; 3155143664; 3157234812;
   3159328033; 3161423332; 3163520713; 3165620182; 3167721744; 3169825403; 3171931164;
   3174039033; 3176149015; 3178261114; 3180375335; 3182491684; 3184610165; 3186730785;
   3188853547; 3190978457; 3193105520; 3195234741; 3197366126; 3199499679; 3201635406;
   3203773312; 3205913403; 3208055683; 3210200158; 3212346834; 3214495715; 3216646806;
   3218800114; 3220955644; 3223113401; 3225273390; 3227435617; 3229600087; 3231766807;
   3233935780; 3236107014; 3238280513; 3240456283; 3242634329; 3244814658; 3246997274;
   3249182184; 3251369393; 3253558907; 3255750731; 3257944872; 3260141334; 3262340124;
   3264541248; 3266744711; 3268950519; 3271158678; 3273369195; 3275582073; 3277797321;
   3280014943; 3282234946; 3284457335; 3286682117; 3288909297; 3291138882; 3293370878;
   3295605291; 3297842126; 3300081391; 3302323091; 3304567232; 3306813821; 3309062864;
   3311314367; 3313568336; 3315824778; 3318083699; 3320345105; 3322609003; 3324875400;
   3327144300; 3329415712; 3331689642; 3333966095; 3336245079; 3338526599; 3340810664;
   3343097278; 3345386450; 3347678184; 3349972489; 3352269371; 3354568837; 3356870892;
   3359175545; 3361482802; 3363792669; 3366105154; 3368420263; 3370738003; 3373058382;
   3375381406; 3377707083; 3380035418; 3382366420; 3384700095; 3387036450; 3389375494;
   3391717231; 3394061671; 3396408820; 3398758685; 3401111273; 3403466593; 3405824651;
   3408185454; 3410549010; 3412915326; 3415284411; 3417656270; 3420030913; 3422408345;
   3424788576; 3427171612; 3429557460; 3431946130; 3434337628; 3436731962; 3439129140;
   3441529169; 3443932058; 3446337814; 3448746445; 3451157959; 3453572364; 3455989668;
   3458409879; 3460833005; 3463259054; 3465688034; 3468119953; 3470554819; 3472992641;
   3475433427; 3477877185; 3480323923; 3482773650; 3485226374; 3487682103; 3490140846;
   3492602612; 3495067408; 3497535244; 3500006128; 3502480068; 3504957074; 3507437153;
   3509920315; 3512406568; 3514895922; 3517388385; 3519883965; 3522382672; 3524884515;
   3527389503; 3529897644; 3532408948; 3534923424; 3537441081; 3539961929; 3542485975;
   3545013230; 3547543703; 3550077404; 3552614341; 3555154524; 3557697962; 3560244666;
   3562794644; 3565347906; 3567904461; 3570464320; 3573027493; 3575593988; 3578163815;
   3580736985; 3583313507; 3585893392; 3588476648; 3591063287; 3593653318; 3596246751;
   3598843596; 3601443864; 3604047565; 3606654709; 3609265307; 3611879368; 3614496903;
   3617117923; 3619742438; 3622370459; 3625001995; 3627637059; 3630275660; 3632917810;
   3635563518; 3638212797; 3640865656; 3643522107; 3646182161; 3648845829; 3651513121;
   3654184049; 3656858624; 3659536858; 3662218761; 3664904345; 3667593622; 3670286602;
   3672983298; 3675683720; 3678387881; 3681095792; 3683807465; 3686522911; 3689242142;
   3691965171; 3694692009; 3697422668; 3700157160; 3702895497; 3705637692; 3708383756;
   3711133703; 3713887543; 3716645290; 3719406956; 3722172553; 3724942094; 3727715592;
   3730493060; 3733274509; 3736059953; 3738849405; 3741642877; 3744440384; 3747241936;
   3750047549; 3752857234; 3755671006; 3758488877; 3761310860; 3764136970; 3766967220;
   3769801623; 3772640193; 3775482943; 3778329887; 3781181040; 3784036415; 3786896026;
   3789759886; 3792628011; 3795500414; 3798377110; 3801258112; 3804143436; 3807033095;
   3809927104; 3812825478; 3815728232; 3818635379; 3821546935; 3824462916; 3827383335;
   3830308207; 3833237549; 3836171375; 3839109700; 3842052540; 3844999910; 3847951825;
   3850908302; 3853869355; 3856835002; 3859805256; 3862780135; 3865759654; 3868743829;
   3871732677; 3874726214; 3877724455; 3880727418; 3883735119; 3886747574; 3889764800;
   3892786814; 3895813633; 3898845273; 3901881752; 3904923086; 3907969294; 3911020391;
   3914076396; 3917137326; 3920203198; 3923274030; 3926349841; 3929430646; 3932516466;
   3935607317; 3938703218; 3941804186; 3944910241; 3948021401; 3951137684; 3954259108;
   3957385693; 3960517457; 3963654420; 3966796599; 3969944015; 3973096687; 3976254634;
   3979417874; 3982586429; 3985760317; 3988939559; 3992124173; 3995314181; 3998509602;
   4001710456; 4004916764; 4008128546; 4011345823; 4014568615; 4017796943; 4021030828;
   4024270291; 4027515354; 4030766036; 4034022360; 4037284348; 4040552020; 4043825399;
   4047104506; 4050389363; 4053679993; 4056976418; 4060278660; 4063586741; 4066900684;
   4070220512; 4073546248; 4076877914; 4080215535; 4083559132; 4086908731; 4090264353;
   4093626023; 4096993765; 4100367603; 4103747560; 4107133661; 4110525931; 4113924393;
   4117329073; 4120739996; 4124157185; 4127580668; 4131010468; 4134446612; 4137889124;
   4141338031; 4144793358; 4148255132; 4151723378; 4155198124; 4158679395; 4162167219;
   4165661621; 4169162630; 4172670272; 4176184575; 4179705566; 4183233273; 4186767724;
   4190308947; 4193856969; 4197411820; 4200973528; 4204542121; 4208117630; 4211700081;
   4215289506; 4218885933; 4222489392; 4226099913; 4229717526; 4233342262; 4236974149;
   4240613220; 4244259505; 4247913035; 4251573841; 4255241955; 4258917407; 4262600231;
   4266290458; 4269988120; 4273693249; 4277405879; 4281126042; 4284853771; 4288589100;
   4292332061; 4296082690; 4299841018; 4303607082; 4307380915; 4311162552; 4314952027;
   4318749377; 4322554635; 4326367838; 4330189022; 4334018222; 4337855475; 4341700817;
   4345554285; 4349415917; 4353285749; 4357163819; 4361050164; 4364944824; 4368847836;
   4372759238; 4376679070; 4380607371; 4384544180; 4388489536; 4392443481; 4396406053;
   4400377294; 4404357243; 4408345943; 4412343435; 4416349760; 4420364960; 4424389078;
   4428422156; 4432464236; 4436515363; 4440575579; 4444644928; 4448723455; 4452811204;
   4456908219; 4461014546; 4465130229; 4469255316; 4473389851; 4477533882; 4481687454;
   4485850615; 4490023413; 4494205895; 4498398109; 4502600105; 4506811929; 4511033633;
   4515265265; 4519506876; 4523758516; 4528020235; 4532292084; 4536574116; 4540866382;
   4545168934; 4549481825; 4553805108; 4558138836; 4562483064; 4566837846; 4571203236;
   4575579290; 4579966063; 4584363612; 4588771992; 4593191261; 4597621476; 4602062695;
   4606514976; 4610978378; 4615452960; 4619938782; 4624435903; 4628944386; 4633464289;
   4637995677; 4642538609; 4647093150; 4651659361; 4656237308; 4660827053; 4665428662;
   4670042200; 4674667733; 4679305326; 4683955048; 4688616964; 4693291144; 4697977655;
   4702676567; 4707387950; 4712111873; 4716848408; 4721597626; 4726359599; 4731134400;
   4735922102; 4740722780; 4745536507; 4750363359; 4755203412; 4760056742; 4764923427;
   4769803544; 4774697172; 4779604391; 4784525279; 4789459918; 4794408390; 4799370775;
   4804347158; 4809337621; 4814342250; 4819361128; 4824394342; 4829441978; 4834504124;
   4839580867; 4844672298; 4849778506; 4854899580; 4860035614; 4865186698; 4870352927;
   4875534394; 4880731194; 4885943423; 4891171177; 4896414555; 4901673654; 4906948574;
   4912239416; 4917546281; 4922869271; 4928208489; 4933564040; 4938936029; 4944324562;
   4949729747; 4955151691; 4960590506; 4966046300; 4971519186; 4977009276; 4982516684;
   4988041525; 4993583916; 4999143973; 5004721814; 5010317561; 5015931332; 5021563251;
   5027213441; 5032882026; 5038569132; 5044274886; 5049999417; 5055742854; 5061505329;
   5067286974; 5073087923; 5078908311; 5084748275; 5090607953; 5096487484; 5102387011;
   5108306674; 5114246620; 5120206992; 5126187938; 5132189608; 5138212152; 5144255721;
   5150320470; 5156406554; 5162514130; 5168643357; 5174794397; 5180967410; 5187162562;
   5193380018; 5199619948; 5205882520; 5212167906; 5218476281; 5224807820; 5231162701;
   5237541103; 5243943210; 5250369204; 5256819272; 5263293603; 5269792387; 5276315816;
   5282864087; 5289437396; 5296035944; 5302659933; 5309309567; 5315985053; 5322686601;
   5329414424; 5336168737; 5342949756; 5349757702; 5356592797; 5363455268; 5370345344;
   5377263254; 5384209234; 5391183521; 5398186354; 5405217979; 5412278640; 5419368587;
   5426488074; 5433637356; 5440816693; 5448026348; 5455266587; 5462537680; 5469839901;
   5477173525; 5484538836; 5491936115; 5499365654; 5506827743; 5514322678; 5521850761;
   5529412296; 5537007592; 5544636961; 5552300721; 5559999194; 5567732706; 5575501588;
   5583306177; 5591146811; 5599023838; 5606937606; 5614888472; 5622876797; 5630902945;
   5638967289; 5647070206; 5655212077; 5663393290; 5671614240; 5679875327; 5688176956;
   5696519539; 5704903496; 5713329250; 5721797233; 5730307883; 5738861646; 5747458973;
   5756100323; 5764786163; 5773516966; 5782293214; 5791115397; 5799984011; 5808899561;
   5817862562; 5826873534; 5835933010; 5845041528; 5854199636; 5863407894; 5872666867;
   5881977133; 5891339279; 5900753902; 5910221609; 5919743017; 5929318757; 5938949466;
   5948635798; 5958378414; 5968177989; 5978035211; 5987950779; 5997925404; 6007959813;
   6018054745; 6028210951; 6038429198; 6048710268; 6059054957; 6069464076; 6079938452;
   6090478927; 6101086362; 6111761631; 6122505629; 6133319266; 6144203473; 6155159197;
   6166187405; 6177289085; 6188465245; 6199716912; 6211045136; 6222450989; 6233935565;
   6245499982; 6257145382; 6268872931; 6280683821; 6292579269; 6304560520; 6316628847;
   6328785550; 6341031959; 6353369435; 6365799370; 6378323188; 6390942344; 6403658331;
   6416472674; 6429386936; 6442402718; 6455521658; 6468745435; 6482075769; 6495514424;
   6509063206; 6522723968; 6536498610; 6550389079; 6564397376; 6578525550; 6592775707;
   6607150008; 6621650672; 6636279978; 6651040267; 6665933944; 6680963482; 6696131423;
   6711440380; 6726893043; 6742492177; 6758240628; 6774141329; 6790197295; 6806411636;
   6822787555; 6839328351; 6856037427; 6872918293; 6889974569; 6907209991; 6924628415;
   6942233823; 6960030329; 6978022184; 6996213781; 7014609666; 7033214539; 7052033265;
   7071070882; 7090332606; 7109823843; 7129550197; 7149517479; 7169731720; 7190199178;
   7210926352; 7231919996; 7253187130; 7274735056; 7296571371; 7318703984; 7341141136;
   7363891416; 7386963780; 7410367575; 7434112561; 7458208936; 7482667360; 7507498987;
   7532715495; 7558329117; 7584352681; 7610799645; 7637684141; 7665021021; 7692825906;
   7721115239; 7749906348; 7779217505; 7809068000; 7839478215; 7870469710; 7902065317;
   7934289238; 7967167160; 8000726378; 8034995932; 8070006759; 8105791863; 8142386500;
   8179828393; 8218157964; 8257418596; 8297656936; 8338923223; 8381271673; 8424760906;
   8469454440; 8515421247; 8562736402; 8611481819; 8661747114; 8713630597; 8767240436;
   8822696020; 8880129569; 8939688038; 9001535395; 9065855349; 9132854653; 9202767132;
   9275858615; 9352433067; 9432840248; 9517485397; 9606841628; 9701465989; 9802020566;
   9909300683; 10024273228; 10148129854; 10282362543; 10428873852; 10590142924; 10769484918;
   10971475071; 11202681220; 11473020592; 11798513111; 12207614812; 12758754052; 13606706890;
   15530391682].

Definition difficultyListTestnet : list Z := [
  0; 874; 1748; 2621; 3495; 4369; 5242; 6116; 6990; 7863; 8737; 9611; 10484; 11358; 12232;
   13105; 13979; 14853; 15726; 16600; 17474; 18348; 19221; 20095; 20969; 21842; 22716; 23590;
   24463; 25337; 26211; 27085; 27958; 28832; 29706; 30580; 31453; 32327; 33201; 34075; 34948;
   35822; 36696; 37570; 38443; 39317; 40191; 41065; 41939; 42812; 43686; 44560; 45434; 46308;
   47182; 48056; 48929; 49803; 50677; 51551; 52425; 53299; 54173; 55047; 55921; 56795; 57669;
   58542; 59416; 60290; 61164; 62038; 62912; 63786; 64660; 65534; 66409; 67283; 68157; 69031;
   69905; 70779; 71653; 72527; 73401; 74275; 75150; 76024; 76898; 77772; 78646; 79521; 80395;
   81269; 82143; 83018; 83892; 84766; 85641; 86515; 87389; 88264; 89138; 90012; 90887; 91761;
   92635; 93510; 94384; 95259; 96133; 97008; 97882; 98757; 99631; 100506; 101381; 102255;
   103130; 104004; 104879; 105754; 106628; 107503; 108378; 109252; 110127; 111002; 111877;
   112751; 113626; 114501; 115376; 116251; 117126; 118001; 118875; 119750; 120625; 121500;
   122375; 123250; 124125; 125000; 125876; 126751; 127626; 128501; 129376; 130251; 131126;
   132002; 132877; 133752; 134627; 135503; 136378; 137253; 138129; 139004; 139879; 140755;
   141630; 142506; 143381; 144257; 145132; 146008; 146883; 147759; 148635; 149510; 150386;
   151262; 152137; 153013; 153889; 154765; 155641; 156516; 157392; 158268; 159144; 160020;
   160896; 161772; 162648; 163524; 164400; 165276; 166152; 167029; 167905; 168781; 169657;
   170533; 171410; 172286; 173162; 174039; 174915; 175792; 176668; 177544; 178421; 179298;
   180174; 181051; 181927; 182804; 183681; 184557; 185434; 186311; 187188; 188064; 188941;
   189818; 190695; 191572; 192449; 193326; 194203; 195080; 195957; 196834; 197711; 198589;
   199466; 200343; 201220; 202098; 202975; 203852; 204730; 205607; 206485; 207362; 208240;
   209117; 209995; 210873; 211750; 212628; 213506; 214383; 215261; 216139; 217017; 217895;
   218773; 219651; 220529; 221407; 222285; 223163; 224041; 224919; 225798; 226676; 227554;
   228433; 229311; 230189; 231068; 231946; 232825; 233703; 234582; 235460; 236339; 237218;
   238097; 238975; 239854; 240733; 241612; 242491; 243370; 244249; 245128; 246007; 246886;
   247765; 248644; 249524; 250403; 251282; 252162; 253041; 253920; 254800; 255679; 256559;
   257439; 258318; 259198; 260078; 260957; 261837; 262717; 263597; 264477; 265357; 266237;
   267117; 267997; 268877; 269757; 270638; 271518; 272398; 273278; 274159; 275039; 275920;
   276800; 277681; 278562; 279442; 280323; 281204; 282084; 282965; 283846; 284727; 285608;
   286489; 287370; 288251; 289132; 290014; 290895; 291776; 292658; 293539; 294420; 295302;
   296183; 297065; 297947; 298828; 299710; 300592; 301474; 302355; 303237; 304119; 305001;
   305883; 306765; 307648; 308530; 309412; 310294; 311177; 312059; 312942; 313824; 314707;
   315589; 316472; 317355; 318237; 319120; 320003; 320886; 321769; 322652; 323535; 324418;
   325301; 326184; 327068; 327951; 328834; 329718; 330601; 331485; 332368; 333252; 334136;
   335019; 335903; 336787; 337671; 338555; 339439; 340323; 341207; 342091; 342976; 343860;
   344744; 345629; 346513; 347398; 348282; 349167; 350051; 350936; 351821; 352706; 353591;
   354476; 355361; 356246; 357131; 358016; 358901; 359787; 360672; 361557; 362443; 363328;
   364214; 365100; 365985; 366871; 367757; 368643; 369529; 370415; 371301; 372187; 373073;
   373959; 374845; 375732; 376618; 377505; 378391; 379278; 380165; 381051; 381938; 382825;
   383712; 384599; 385486; 386373; 387260; 388147; 389035; 389922; 390809; 391697; 392584;
   393472; 394360; 395247; 396135; 397023; 397911; 398799; 399687; 400575; 401463; 402351;
   403240; 404128; 405016; 405905; 406793; 407682; 408571; 409460; 410348; 411237; 412126;
   413015; 413904; 414793; 415683; 416572; 417461; 418351; 419240; 420130; 421019; 421909;
   422799; 423689; 424579; 425469; 426359; 427249; 428139; 429029; 429920; 430810; 431700;
   432591; 433481; 434372; 435263; 436154; 437045; 437935; 438827; 439718; 440609; 441500;
   442391; 443283; 444174; 445066; 445957; 446849; 447741; 448632; 449524; 450416; 451308;
   452200; 453093; 453985; 454877; 455770; 456662; 457555; 458447; 459340; 460233; 461125;
   462018; 462911; 463804; 464698; 465591; 466484; 467377; 468271; 469164; 470058; 470952;
   471845; 472739; 473633; 474527; 475421; 476315; 477210; 478104; 478998; 479893; 480787;
   481682; 482577; 483471; 484366; 485261; 486156; 487051; 487946; 488842; 489737; 490632;
   491528; 492423; 493319; 494215; 495110; 496006; 496902; 497798; 498694; 499591; 500487;
   501383; 502280; 503176; 504073; 504970; 505866; 506763; 507660; 508557; 509454; 510352;
   511249; 512146; 513044; 513941; 514839; 515736; 516634; 517532; 518430; 519328; 520226;
   521124; 522023; 522921; 523820; 524718; 525617; 526516; 527414; 528313; 529212; 530111;
   531011; 531910; 532809; 533709; 534608; 535508; 536407; 537307; 538207; 539107; 540007;
   540907; 541807; 542708; 543608; 544509; 545409; 546310; 547211; 548111; 549012; 549913;
   550815; 551716; 552617; 553518; 554420; 555321; 556223; 557125; 558027; 558929; 559831;
   560733; 561635; 562537; 563440; 564342; 565245; 566148; 567050; 567953; 568856; 569759;
   570663; 571566; 572469; 573373; 574276; 575180; 576083; 576987; 577891; 578795; 579699;
   580604; 581508; 582412; 583317; 584221; 585126; 586031; 586936; 587841; 588746; 589651;
   590556; 591462; 592367; 593273; 594178; 595084; 595990; 596896; 597802; 598708; 599615;
   600521; 601427; 602334; 603241; 604147; 605054; 605961; 606868; 607775; 608683; 609590;
   610498; 611405; 612313; 613221; 614129; 615037; 615945; 616853; 617761; 618670; 619578;
   620487; 621395; 622304; 623213; 624122; 625031; 625941; 626850; 627759; 628669; 629579;
   630488; 631398; 632308; 633218; 634128; 635039; 635949; 636860; 637770; 638681; 639592;
   640503; 641414; 642325; 643236; 644148; 645059; 645971; 646882; 647794; 648706; 649618;
   650530; 651443; 652355; 653267; 654180; 655093; 656005; 656918; 657831; 658744; 659658;
   660571; 661484; 662398; 663312; 664226; 665139; 666053; 666968; 667882; 668796; 669711;
   670625; 671540; 672455; 673370; 674285; 675200; 676115; 677031; 677946; 678862; 679777;
   680693; 681609; 682525; 683441; 684358; 685274; 686191; 687107; 688024; 688941; 689858;
   690775; 691692; 692610; 693527; 694445; 695363; 696280; 697198; 698116; 699035; 699953;
   700871; 701790; 702708; 703627; 704546; 705465; 706384; 707304; 708223; 709143; 710062;
   710982; 711902; 712822; 713742; 714662; 715582; 716503; 717424; 718344; 719265; 720186;
   721107; 722028; 722950; 723871; 724793; 725715; 726636; 727558; 728480; 729403; 730325;
   731247; 732170; 733093; 734016; 734939; 735862; 736785; 737708; 738632; 739555; 740479;
   741403; 742327; 743251; 744175; 745100; 746024; 746949; 747873; 748798; 749723; 750649;
   751574; 752499; 753425; 754350; 755276; 756202; 757128; 758054; 758981; 759907; 760834;
   761760; 762687; 763614; 764541; 765469; 766396; 767323; 768251; 769179; 770107; 771035;
   771963; 772891; 773820; 774748; 775677; 776606; 777535; 778464; 779393; 780322; 781252;
   782182; 783111; 784041; 784971; 785902; 786832; 787762; 788693; 789624; 790555; 791486;
   792417; 793348; 794280; 795211; 796143; 797075; 798007; 798939; 799871; 800804; 801736;
   802669; 803602; 804535; 805468; 806401; 807334; 808268; 809202; 810135; 811069; 812003;
   812938; 813872; 814807; 815741; 816676; 817611; 818546; 819481; 820417; 821352; 822288;
   823224; 824160; 825096; 826032; 826969; 827905; 828842; 829779; 830716; 831653; 832590;
   833527; 834465; 835403; 836341; 837279; 838217; 839155; 840094; 841032; 841971; 842910;
   843849; 844788; 845728; 846667; 847607; 848546; 849486; 850427; 851367; 852307; 853248;
   854188; 855129; 856070; 857012; 857953; 858894; 859836; 860778; 861720; 862662; 863604;
   864546; 865489; 866432; 867374; 868317; 869261; 870204; 871147; 872091; 873035; 873979;
   874923; 875867; 876811; 877756; 878701; 879646; 880591; 881536; 882481; 883427; 884372;
   885318; 886264; 887210; 888157; 889103; 890050; 890996; 891943; 892890; 893838; 894785;
   895733; 896680; 897628; 898576; 899525; 900473; 901422; 902370; 903319; 904268; 905217;
   906167; 907116; 908066; 909016; 909966; 910916; 911866; 912817; 913768; 914718; 915669;
   916621; 917572; 918523; 919475; 920427; 921379; 922331; 923283; 924236; 925188; 926141;
   927094; 928047; 929001; 929954; 930908; 931862; 932816; 933770; 934724; 935679; 936634;
   937588; 938544; 939499; 940454; 941410; 942365; 943321; 944277; 945234; 946190; 947147;
   948103; 949060; 950017; 950975; 951932; 952890; 953847; 954805; 955764; 956722; 957680;
   958639; 959598; 960557; 961516; 962475; 963435; 964395; 965355; 966315; 967275; 968235;
   969196; 970157; 971118; 972079; 973040; 974002; 974963; 975925; 976887; 977849; 978812;
   979774; 980737; 981700; 982663; 983627; 984590; 985554; 986518; 987482; 988446; 989410;
   990375; 991340; 992305; 993270; 994235; 995200; 996166; 997132; 998098; 999064; 1000031;
   1000997; 1001964; 1002931; 1003898; 1004866; 1005833; 1006801; 1007769; 1008737; 1009705;
   1010674; 1011642; 1012611; 1013580; 1014549; 1015519; 1016489; 1017458; 1018428; 1019399;
   1020369; 1021339; 1022310; 1023281; 1024252; 1025224; 1026195; 1027167; 1028139; 1029111;
   1030083; 1031056; 1032028; 1033001; 1033974; 1034947; 1035921; 1036895; 1037868; 1038842;
   1039817; 1040791; 1041766; 1042741; 1043716; 1044691; 1045666; 1046642; 1047618; 1048594;
   1049570; 1050546; 1051523; 1052500; 1053477; 1054454; 1055431; 1056409; 1057387; 1058365;
   1059343; 1060321; 1061300; 1062278; 1063257; 1064237; 1065216; 1066196; 1067175; 1068155;
   1069136; 1070116; 1071097; 1072078; 1073059; 1074040; 1075021; 1076003; 1076985; 1077967;
   1078949; 1079931; 1080914; 1081897; 1082880; 1083863; 1084847; 1085831; 1086814; 1087799;
   1088783; 1089767; 1090752; 1091737; 1092722; 1093708; 1094693; 1095679; 1096665; 1097651;
   1098638; 1099624; 1100611; 1101598; 1102585; 1103573; 1104561; 1105548; 1106537; 1107525;
   1108513; 1109502; 1110491; 1111480; 1112470; 1113459; 1114449; 1115439; 1116429; 1117420;
   1118411; 1119402; 1120393; 1121384; 1122376; 1123367; 1124359; 1125352; 1126344; 1127337;
   1128329; 1129323; 1130316; 1131309; 1132303; 1133297; 1134291; 1135286; 1136280; 1137275;
   1138270; 1139265; 1140261; 1141257; 1142253; 1143249; 1144245; 1145242; 1146239; 1147236;
   1148233; 1149231; 1150228; 1151226; 1152225; 1153223; 1154222; 1155220; 1156220; 1157219;
   1158218; 1159218; 1160218; 1161219; 1162219; 1163220; 1164221; 1165222; 1166223; 1167225;
   1168227; 1169229; 1170231; 1171234; 1172236; 1173239; 1174242; 1175246; 1176250; 1177254;
   1178258; 1179262; 1180267; 1181272; 1182277; 1183282; 1184288; 1185293; 1186299; 1187306;
   1188312; 1189319; 1190326; 1191333; 1192341; 1193348; 1194356; 1195364; 1196373; 1197381;
   1198390; 1199399; 1200409; 1201418; 1202428; 1203438; 1204449; 1205459; 1206470; 1207481;
   1208492; 1209504; 1210516; 1211528; 1212540; 1213552; 1214565; 1215578; 1216591; 1217605;
   1218618; 1219632; 1220647; 1221661; 1222676; 1223691; 1224706; 1225721; 1226737; 1227753;
   1228769; 1229785; 1230802; 1231819; 1232836; 1233854; 1234871; 1235889; 1236907; 1237926;
   1238945; 1239963; 1240983; 1242002; 1243022; 1244042; 1245062; 1246082; 1247103; 1248124;
   1249145; 1250167; 1251188; 1252210; 1253232; 1254255; 1255278; 1256301; 1257324; 1258347;
   1259371; 1260395; 1261419; 1262444; 1263469; 1264494; 1265519; 1266545; 1267570; 1268596;
   1269623; 1270649; 1271676; 1272703; 1273731; 1274758; 1275786; 1276815; 1277843; 1278872;
   1279901; 1280930; 1281959; 1282989; 1284019; 1285049; 1286080; 1287111; 1288142; 1289173;
   1290205; 1291237; 1292269; 1293301; 1294334; 1295367; 1296400; 1297434; 1298467; 1299501;
   1300536; 1301570; 1302605; 1303640; 1304676; 1305711; 1306747; 1307783; 1308820; 1309857;
   1310894; 1311931; 1312969; 1314006; 1315044; 1316083; 1317122; 1318160; 1319200; 1320239;
   1321279; 1322319; 1323359; 1324400; 1325441; 1326482; 1327523; 1328565; 1329607; 1330649;
   1331692; 1332735; 1333778; 1334821; 1335865; 1336909; 1337953; 1338998; 1340043; 1341088;
   1342133; 1343179; 1344225; 1345271; 1346317; 1347364; 1348411; 1349459; 1350506; 1351554;
   1352603; 1353651; 1354700; 1355749; 1356798; 1357848; 1358898; 1359948; 1360999; 1362050;
   1363101; 1364152; 1365204; 1366256; 1367308; 1368361; 1369414; 1370467; 1371520; 1372574;
   1373628; 1374683; 1375737; 1376792; 1377847; 1378903; 1379959; 1381015; 1382071; 1383128;
   1384185; 1385242; 1386300; 1387358; 1388416; 1389475; 1390533; 1391593; 1392652; 1393712;
   1394772; 1395832; 1396893; 1397954; 1399015; 1400076; 1401138; 1402200; 1403263; 1404326;
   1405389; 1406452; 1407516; 1408580; 1409644; 1410709; 1411773; 1412839; 1413904; 1414970;
   1416036; 1417103; 1418169; 1419236; 1420304; 1421372; 1422440; 1423508; 1424576; 1425645;
   1426715; 1427784; 1428854; 1429924; 1430995; 1432066; 1433137; 1434208; 1435280; 1436352;
   1437424; 1438497; 1439570; 1440644; 1441717; 1442791; 1443866; 1444940; 1446015; 1447091;
   1448166; 1449242; 1450318; 1451395; 1452472; 1453549; 1454626; 1455704; 1456783; 1457861;
   1458940; 1460019; 1461099; 1462178; 1463258; 1464339; 1465420; 1466501; 1467582; 1468664;
   1469746; 1470829; 1471911; 1472994; 1474078; 1475162; 1476246; 1477330; 1478415; 1479500;
   1480585; 1481671; 1482757; 1483844; 1484930; 1486018; 1487105; 1488193; 1489281; 1490369;
   1491458; 1492547; 1493637; 1494726; 1495817; 1496907; 1497998; 1499089; 1500181; 1501272;
   1502365; 1503457; 1504550; 1505643; 1506737; 1507831; 1508925; 1510019; 1511114; 1512210;
   1513305; 1514401; 1515498; 1516594; 1517691; 1518789; 1519886; 1520984; 1522083; 1523181;
   1524281; 1525380; 1526480; 1527580; 1528681; 1529781; 1530883; 1531984; 1533086; 1534188;
   1535291; 1536394; 1537497; 1538601; 1539705; 1540810; 1541914; 1543019; 1544125; 1545231;
   1546337; 1547444; 1548550; 1549658; 1550765; 1551873; 1552982; 1554091; 1555200; 1556309;
   1557419; 1558529; 1559640; 1560751; 1561862; 1562974; 1564086; 1565198; 1566311; 1567424;
   1568537; 1569651; 1570765; 1571880; 1572995; 1574110; 1575226; 1576342; 1577459; 1578575;
   1579693; 1580810; 1581928; 1583046; 1584165; 1585284; 1586404; 1587524; 1588644; 1589764;
   1590885; 1592007; 1593128; 1594250; 1595373; 1596496; 1597619; 1598743; 1599867; 1600991;
   1602116; 1603241; 1604366; 1605492; 1606619; 1607745; 1608872; 1610000; 1611128; 1612256;
   1613385; 1614514; 1615643; 1616773; 1617903; 1619034; 1620165; 1621296; 1622428; 1623560;
   1624692; 1625825; 1626959; 1628092; 1629226; 1630361; 1631496; 1632631; 1633767; 1634903;
   1636039; 1637176; 1638314; 1639451; 1640589; 1641728; 1642867; 1644006; 1645146; 1646286;
   1647426; 1648567; 1649708; 1650850; 1651992; 1653135; 1654278; 1655421; 1656565; 1657709;
   1658854; 1659998; 1661144; 1662290; 1663436; 1664582; 1665729; 1666877; 1668025; 1669173;
   1670322; 1671471; 1672620; 1673770; 1674920; 1676071; 1677222; 1678374; 1679526; 1680678;
   1681831; 1682984; 1684138; 1685292; 1686447; 1687602; 1688757; 1689913; 1691069; 1692226;
   1693383; 1694540; 1695698; 1696856; 1698015; 1699174; 1700334; 1701494; 1702654; 1703815;
   1704977; 1706138; 1707300; 1708463; 1709626; 1710790; 1711954; 1713118; 1714283; 1715448;
   1716614; 1717780; 1718946; 1720113; 1721281; 1722448; 1723617; 1724785; 1725955; 1727124;
   1728294; 1729465; 1730636; 1731807; 1732979; 1734151; 1735324; 1736497; 1737671; 1738845;
   1740019; 1741194; 1742369; 1743545; 1744721; 1745898; 1747075; 1748253; 1749431; 1750610;
   1751789; 1752968; 1754148; 1755328; 1756509; 1757690; 1758872; 1760054; 1761237; 1762420;
   1763604; 1764788; 1765972; 1767157; 1768342; 1769528; 1770715; 1771901; 1773089; 1774276;
   1775465; 1776653; 1777842; 1779032; 1780222; 1781413; 1782603; 1783795; 1784987; 1786179;
   1787372; 1788565; 1789759; 1790954; 1792148; 1793344; 1794539; 1795735; 1796932; 1798129;
   1799327; 1800525; 1801724; 1802923; 1804122; 1805322; 1806523; 1807724; 1808925; 1810127;
   1811330; 1812532; 1813736; 1814940; 1816144; 1817349; 1818554; 1819760; 1820966; 1822173;
   1823381; 1824588; 1825797; 1827006; 1828215; 1829425; 1830635; 1831846; 1833057; 1834269;
   1835481; 1836694; 1837907; 1839121; 1840335; 1841550; 1842765; 1843981; 1845197; 1846414;
   1847631; 1848849; 1850067; 1851286; 1852505; 1853725; 1854945; 1856166; 1857387; 1858609;
   1859832; 1861054; 1862278; 1863502; 1864726; 1865951; 1867176; 1868402; 1869629; 1870856;
   1872083; 1873311; 1874540; 1875769; 1876998; 1878229; 1879459; 1880690; 1881922; 1883154;
   1884387; 1885620; 1886854; 1888088; 1889323; 1890558; 1891794; 1893031; 1894268; 1895505;
   1896743; 1897982; 1899221; 1900460; 1901701; 1902941; 1904182; 1905424; 1906667; 1907909;
   1909153; 1910397; 1911641; 1912886; 1914132; 1915378; 1916624; 1917872; 1919119; 1920368;
   1921616; 1922866; 1924116; 1925366; 1926617; 1927869; 1929121; 1930374; 1931627; 1932881;
   1934135; 1935390; 1936645; 1937901; 1939158; 1940415; 1941673; 1942931; 1944190; 1945449;
   1946709; 1947970; 1949231; 1950492; 1951754; 1953017; 1954280; 1955544; 1956809; 1958074;
   1959339; 1960606; 1961872; 1963140; 1964408; 1965676; 1966945; 1968215; 1969485; 1970756;
   1972027; 1973299; 1974572; 1975845; 1977118; 1978393; 1979668; 1980943; 1982219; 1983496;
   1984773; 1986051; 1987329; 1988608; 1989887; 1991168; 1992448; 1993730; 1995012; 1996294;
   1997577; 1998861; 2000145; 2001430; 2002716; 2004002; 2005288; 2006576; 2007864; 2009152;
   2010441; 2011731; 2013021; 2014312; 2015604; 2016896; 2018189; 2019482; 2020776; 2022071;
   2023366; 2024662; 2025958; 2027255; 2028553; 2029851; 2031150; 2032450; 2033750; 2035051;
   2036352; 2037654; 2038957; 2040260; 2041564; 2042868; 2044173; 2045479; 2046786; 2048093;
   2049400; 2050709; 2052017; 2053327; 2054637; 2055948; 2057260; 2058572; 2059884; 2061198;
   2062512; 2063826; 2065142; 2066458; 2067774; 2069092; 2070409; 2071728; 2073047; 2074367;
   2075687; 2077009; 2078330; 2079653; 2080976; 2082300; 2083624; 2084949; 2086275; 2087601;
   2088928; 2090256; 2091584; 2092913; 2094243; 2095573; 2096904; 2098236; 2099568; 2100901;
   2102235; 2103569; 2104904; 2106240; 2107576; 2108913; 2110251; 2111589; 2112928; 2114268;
   2115608; 2116950; 2118291; 2119634; 2120977; 2122321; 2123665; 2125010; 2126356; 2127703;
   2129050; 2130398; 2131747; 2133096; 2134446; 2135797; 2137148; 2138500; 2139853; 2141207;
   2142561; 2143916; 2145271; 2146628; 2147985; 2149343; 2150701; 2152060; 2153420; 2154781;
   2156142; 2157504; 2158866; 2160230; 2161594; 2162959; 2164324; 2165691; 2167058; 2168425;
   2169794; 2171163; 2172533; 2173903; 2175275; 2176647; 2178020; 2179393; 2180767; 2182142;
   2183518; 2184894; 2186272; 2187649; 2189028; 2190408; 2191788; 2193168; 2194550; 2195932;
   2197316; 2198699; 2200084; 2201469; 2202855; 2204242; 2205630; 2207018; 2208407; 2209797;
   2211188; 2212579; 2213971; 2215364; 2216757; 2218152; 2219547; 2220943; 2222340; 2223737;
   2225135; 2226534; 2227934; 2229334; 2230736; 2232138; 2233541; 2234944; 2236349; 2237754;
   2239160; 2240566; 2241974; 2243382; 2244791; 2246201; 2247612; 2249023; 2250435; 2251848;
   2253262; 2254677; 2256092; 2257508; 2258925; 2260343; 2261762; 2263181; 2264601; 2266022;
   2267444; 2268867; 2270290; 2271714; 2273139; 2274565; 2275992; 2277419; 2278847; 2280276;
   2281706; 2283137; 2284568; 2286001; 2287434; 2288868; 2290303; 2291738; 2293175; 2294612;
   2296050; 2297489; 2298929; 2300370; 2301811; 2303253; 2304697; 2306140; 2307585; 2309031;
   2310477; 2311925; 2313373; 2314822; 2316272; 2317723; 2319174; 2320627; 2322080; 2323534;
   2324989; 2326445; 2327902; 2329359; 2330818; 2332277; 2333737; 2335198; 2336660; 2338123;
   2339587; 2341051; 2342517; 2343983; 2345450; 2346918; 2348387; 2349857; 2351327; 2352799;
   2354271; 2355745; 2357219; 2358694; 2360170; 2361647; 2363125; 2364603; 2366083; 2367563;
   2369045; 2370527; 2372010; 2373494; 2374979; 2376465; 2377952; 2379440; 2380929; 2382418;
   2383909; 2385400; 2386892; 2388385; 2389880; 2391375; 2392871; 2394368; 2395865; 2397364;
   2398864; 2400364; 2401866; 2403369; 2404872; 2406376; 2407882; 2409388; 2410895; 2412403;
   2413912; 2415422; 2416933; 2418445; 2419958; 2421472; 2422987; 2424503; 2426019; 2427537;
   2429056; 2430575; 2432096; 2433617; 2435140; 2436663; 2438188; 2439713; 2441240; 2442767;
   2444296; 2445825; 2447355; 2448886; 2450419; 2451952; 2453486; 2455022; 2456558; 2458095;
   2459633; 2461173; 2462713; 2464254; 2465796; 2467340; 2468884; 2470429; 2471975; 2473523;
   2475071; 2476620; 2478171; 2479722; 2481274; 2482828; 2484382; 2485938; 2487494; 2489052;
   2490610; 2492170; 2493730; 2495292; 2496855; 2498418; 2499983; 2501549; 2503116; 2504684;
   2506253; 2507823; 2509394; 2510966; 2512539; 2514113; 2515688; 2517265; 2518842; 2520421;
   2522000; 2523581; 2525163; 2526745; 2528329; 2529914; 2531500; 2533087; 2534675; 2536265;
   2537855; 2539446; 2541039; 2542632; 2544227; 2545823; 2547420; 2549018; 2550617; 2552217;
   2553818; 2555421; 2557024; 2558629; 2560235; 2561842; 2563450; 2565059; 2566669; 2568280;
   2569893; 2571506; 2573121; 2574737; 2576354; 2577972; 2579592; 2581212; 2582834; 2584456;
   2586080; 2587705; 2589331; 2590959; 2592587; 2594217; 2595848; 2597480; 2599113; 2600747;
   2602383; 2604019; 2605657; 2607296; 2608936; 2610578; 2612220; 2613864; 2615509; 2617155;
   2618802; 2620451; 2622100; 2623751; 2625403; 2627056; 2628711; 2630367; 2632023; 2633682;
   2635341; 2637001; 2638663; 2640326; 2641990; 2643656; 2645322; 2646990; 2648659; 2650330;
   2652001; 2653674; 2655348; 2657023; 2658700; 2660378; 2662057; 2663737; 2665419; 2667101;
   2668785; 2670471; 2672157; 2673845; 2675534; 2677225; 2678916; 2680609; 2682304; 2683999;
   2685696; 2687394; 2689093; 2690794; 2692496; 2694199; 2695904; 2697610; 2699317; 2701025;
   2702735; 2704446; 2706158; 2707872; 2709587; 2711304; 2713021; 2714740; 2716461; 2718182;
   2719905; 2721630; 2723355; 2725082; 2726811; 2728540; 2730271; 2732004; 2733738; 2735473;
   2737209; 2738947; 2740686; 2742427; 2744169; 2745912; 2747657; 2749403; 2751151; 2752899;
   2754650; 2756401; 2758154; 2759909; 2761665; 2763422; 2765180; 2766941; 2768702; 2770465;
   2772229; 2773995; 2775762; 2777531; 2779301; 2781072; 2782845; 2784619; 2786395; 2788172;
   2789951; 2791731; 2793512; 2795295; 2797080; 2798865; 2800653; 2802442; 2804232; 2806024;
   2807817; 2809611; 2811408; 2813205; 2815004; 2816805; 2818607; 2820411; 2822216; 2824023;
   2825831; 2827640; 2829452; 2831264; 2833078; 2834894; 2836711; 2838530; 2840350; 2842172;
   2843996; 2845820; 2847647; 2849475; 2851304; 2853135; 2854968; 2856802; 2858638; 2860475;
   2862314; 2864155; 2865997; 2867840; 2869686; 2871532; 2873381; 2875231; 2877082; 2878935;
   2880790; 2882647; 2884505; 2886364; 2888225; 2890088; 2891953; 2893819; 2895686; 2897556;
   2899427; 2901299; 2903174; 2905049; 2906927; 2908806; 2910687; 2912570; 2914454; 2916340;
   2918227; 2920116; 2922007; 2923900; 2925794; 2927690; 2929588; 2931487; 2933388; 2935291;
   2937195; 2939101; 2941009; 2942919; 2944830; 2946743; 2948658; 2950575; 2952493; 2954413;
   2956335; 2958258; 2960183; 2962110; 2964039; 2965970; 2967902; 2969836; 2971772; 2973710;
   2975649; 2977590; 2979533; 2981478; 2983425; 2985373; 2987323; 2989275; 2991229; 2993185;
   2995142; 2997102; 2999063; 3001026; 3002990; 3004957; 3006926; 3008896; 3010868; 3012842;
   3014818; 3016796; 3018776; 3020758; 3022741; 3024726; 3026714; 3028703; 3030694; 3032687;
   3034682; 3036679; 3038677; 3040678; 3042681; 3044685; 3046691; 3048700; 3050710; 3052722;
   3054737; 3056753; 3058771; 3060791; 3062813; 3064837; 3066863; 3068891; 3070921; 3072953;
   3074987; 3077023; 3079061; 3081102; 3083144; 3085188; 3087234; 3089282; 3091332; 3093384;
   3095439; 3097495; 3099553; 3101614; 3103676; 3105741; 3107808; 3109877; 3111947; 3114020;
   3116095; 3118173; 3120252; 3122333; 3124417; 3126502; 3128590; 3130680; 3132772; 3134866;
   3136962; 3139061; 3141161; 3143264; 3145369; 3147476; 3149586; 3151697; 3153811; 3155927;
   3158045; 3160165; 3162287; 3164412; 3166539; 3168668; 3170800; 3172933; 3175069; 3177207;
   3179348; 3181490; 3183635; 3185782; 3187932; 3190084; 3192238; 3194394; 3196553; 3198714;
   3200877; 3203042; 3205210; 3207381; 3209553; 3211728; 3213905; 3216085; 3218267; 3220451;
   3222638; 3224827; 3227019; 3229212; 3231409; 3233607; 3235808; 3238012; 3240218; 3242426;
   3244637; 3246850; 3249066; 3251284; 3253504; 3255728; 3257953; 3260181; 3262411; 3264644;
   3266880; 3269118; 3271358; 3273601; 3275847; 3278095; 3280345; 3282598; 3284854; 3287112;
   3289373; 3291636; 3293902; 3296171; 3298442; 3300716; 3302992; 3305271; 3307552; 3309837;
   3312123; 3314413; 3316705; 3319000; 3321297; 3323597; 3325900; 3328205; 3330513; 3332824;
   3335137; 3337454; 3339773; 3342094; 3344419; 3346746; 3349076; 3351408; 3353744; 3356082;
   3358423; 3360766; 3363113; 3365462; 3367814; 3370169; 3372527; 3374888; 3377251; 3379617;
   3381986; 3384358; 3386733; 3389111; 3391491; 3393875; 3396261; 3398651; 3401043; 3403438;
   3405836; 3408237; 3410641; 3413048; 3415458; 3417871; 3420287; 3422706; 3425128; 3427553;
   3429980; 3432411; 3434845; 3437282; 3439722; 3442166; 3444612; 3447061; 3449513; 3451969;
   3454427; 3456889; 3459354; 3461822; 3464293; 3466767; 3469245; 3471725; 3474209; 3476696;
   3479186; 3481679; 3484176; 3486676; 3489179; 3491685; 3494195; 3496707; 3499223; 3501743;
   3504265; 3506791; 3509321; 3511853; 3514389; 3516928; 3519471; 3522017; 3524566; 3527119;
   3529675; 3532235; 3534797; 3537364; 3539934; 3542507; 3545083; 3547664; 3550247; 3552834;
   3555425; 3558019; 3560617; 3563218; 3565823; 3568431; 3571043; 3573658; 3576277; 3578900;
   3581526; 3584155; 3586789; 3589426; 3592067; 3594711; 3597359; 3600011; 3602666; 3605325;
   3607988; 3610655; 3613325; 3615999; 3618677; 3621359; 3624044; 3626733; 3629426; 3632123;
   3634824; 3637528; 3640237; 3642949; 3645665; 3648385; 3651109; 3653837; 3656569; 3659305;
   3662045; 3664788; 3667536; 3670288; 3673044; 3675803; 3678567; 3681335; 3684107; 3686883;
   3689663; 3692448; 3695236; 3698028; 3700825; 3703626; 3706431; 3709240; 3712053; 3714871;
   3717693; 3720519; 3723349; 3726184; 3729023; 3731866; 3734714; 3737566; 3740422; 3743282;
   3746147; 3749017; 3751891; 3754769; 3757651; 3760538; 3763430; 3766326; 3769227; 3772132;
   3775041; 3777955; 3780874; 3783797; 3786725; 3789658; 3792595; 3795537; 3798483; 3801434;
   3804390; 3807351; 3810316; 3813286; 3816260; 3819240; 3822224; 3825213; 3828207; 3831206;
   3834210; 3837218; 3840232; 3843250; 3846273; 3849301; 3852334; 3855373; 3858416; 3861464;
   3864517; 3867575; 3870639; 3873707; 3876781; 3879859; 3882943; 3886032; 3889126; 3892226;
   3895331; 3898440; 3901556; 3904676; 3907802; 3910933; 3914069; 3917211; 3920358; 3923511;
   3926669; 3929832; 3933001; 3936175; 3939355; 3942541; 3945732; 3948928; 3952130; 3955338;
   3958552; 3961771; 3964995; 3968226; 3971462; 3974704; 3977952; 3981205; 3984465; 3987730;
   3991001; 3994278; 3997560; 4000849; 4004144; 4007444; 4010751; 4014064; 4017382; 4020707;
   4024038; 4027375; 4030718; 4034067; 4037423; 4040785; 4044153; 4047527; 4050907; 4054294;
   4057687; 4061087; 4064493; 4067905; 4071324; 4074750; 4078181; 4081620; 4085065; 4088516;
   4091974; 4095439; 4098911; 4102389; 4105873; 4109365; 4112863; 4116369; 4119881; 4123400;
   4126925; 4130458; 4133998; 4137544; 4141098; 4144659; 4148227; 4151801; 4155384; 4158973;
   4162569; 4166173; 4169784; 4173402; 4177027; 4180660; 4184300; 4187948; 4191603; 4195266;
   4198936; 4202614; 4206299; 4209992; 4213692; 4217401; 4221117; 4224840; 4228572; 4232311;
   4236058; 4239813; 4243576; 4247347; 4251127; 4254914; 4258709; 4262512; 4266323; 4270143;
   4273971; 4277807; 4281651; 4285504; 4289365; 4293235; 4297113; 4300999; 4304895; 4308798;
   4312711; 4316632; 4320561; 4324500; 4328447; 4332403; 4336368; 4340342; 4344325; 4348316;
   4352317; 4356327; 4360346; 4364375; 4368412; 4372459; 4376515; 4380580; 4384655; 4388740;
   4392833; 4396937; 4401050; 4405172; 4409305; 4413447; 4417599; 4421760; 4425932; 4430114;
   4434305; 4438507; 4442718; 4446940; 4451172; 4455415; 4459667; 4463930; 4468203; 4472487;
   4476782; 4481087; 4485402; 4489728; 4494065; 4498413; 4502772; 4507141; 4511522; 4515914;
   4520316; 4524730; 4529155; 4533591; 4538039; 4542498; 4546969; 4551451; 4555944; 4560450;
   4564967; 4569495; 4574036; 4578588; 4583153; 4587729; 4592318; 4596919; 4601532; 4606157;
   4610795; 4615445; 4620108; 4624783; 4629471; 4634172; 4638886; 4643612; 4648352; 4653104;
   4657870; 4662649; 4667441; 4672246; 4677065; 4681897; 4686743; 4691603; 4696476; 4701363;
   4706264; 4711179; 4716109; 4721052; 4726010; 4730982; 4735968; 4740969; 4745984; 4751015;
   4756060; 4761119; 4766194; 4771284; 4776389; 4781510; 4786645; 4791796; 4796963; 4802145;
   4807343; 4812557; 4817787; 4823033; 4828295; 4833574; 4838868; 4844179; 4849507; 4854852;
   4860213; 4865591; 4870986; 4876399; 4881828; 4887275; 4892740; 4898222; 4903721; 4909239;
   4914775; 4920328; 4925900; 4931490; 4937099; 4942726; 4948372; 4954037; 4959721; 4965424;
   4971146; 4976887; 4982648; 4988429; 4994230; 5000050; 5005891; 5011752; 5017633; 5023535;
   5029457; 5035400; 5041364; 5047350; 5053357; 5059385; 5065434; 5071506; 5077600; 5083715;
   5089853; 5096013; 5102196; 5108402; 5114631; 5120883; 5127158; 5133457; 5139779; 5146125;
   5152496; 5158890; 5165309; 5171753; 5178221; 5184715; 5191234; 5197778; 5204348; 5210944;
   5217566; 5224214; 5230889; 5237590; 5244318; 5251074; 5257857; 5264668; 5271506; 5278373;
   5285268; 5292191; 5299144; 5306125; 5313136; 5320177; 5327247; 5334347; 5341478; 5348640;
   5355832; 5363056; 5370311; 5377598; 5384917; 5392268; 5399653; 5407070; 5414520; 5422004;
   5429522; 5437074; 5444660; 5452282; 5459938; 5467631; 5475359; 5483123; 5490924; 5498762;
   5506637; 5514549; 5522500; 5530489; 5538517; 5546585; 5554691; 5562838; 5571025; 5579253;
   5587523; 5595834; 5604187; 5612582; 5621021; 5629503; 5638029; 5646599; 5655214; 5663875;
   5672581; 5681334; 5690133; 5698980; 5707875; 5716818; 5725810; 5734852; 5743944; 5753086;
   5762280; 5771525; 5780823; 5790174; 5799579; 5809038; 5818552; 5828122; 5837748; 5847430;
   5857171; 5866970; 5876828; 5886746; 5896724; 5906764; 5916866; 5927031; 5937259; 5947552;
   5957911; 5968336; 5978828; 5989387; 6000016; 6010715; 6021484; 6032325; 6043239; 6054227;
   6065289; 6076428; 6087643; 6098936; 6110308; 6121760; 6133294; 6144910; 6156610; 6168395;
   6180267; 6192226; 6204274; 6216412; 6228642; 6240965; 6253382; 6265896; 6278507; 6291218;
   6304029; 6316942; 6329960; 6343083; 6356314; 6369654; 6383105; 6396670; 6410349; 6424146;
   6438062; 6452099; 6466259; 6480545; 6494959; 6509503; 6524180; 6538992; 6553942; 6569032;
   6584265; 6599644; 6615171; 6630850; 6646684; 6662676; 6678828; 6695145; 6711630; 6728286;
   6745117; 6762127; 6779319; 6796698; 6814268; 6832032; 6849996; 6868165; 6886542; 6905133;
   6923942; 6942976; 6962240; 6981738; 7001478; 7021465; 7041706; 7062207; 7082975; 7104017;
   7125341; 7146954; 7168865; 7191081; 7213612; 7236467; 7259655; 7283186; 7307070; 7331319;
   7355944; 7380956; 7406369; 7432195; 7458449; 7485144; 7512297; 7539922; 7568038; 7596661;
   7625811; 7655508; 7685772; 7716626; 7748094; 7780200; 7812972; 7846437; 7880626; 7915572;
   7951307; 7987871; 8025301; 8063640; 8102934; 8143232; 8184587; 8227055; 8270700; 8315588;
   8361793; 8409394; 8458480; 8509146; 8561498; 8615652; 8671738; 8729898; 8790294; 8853105;
   8918532; 8986804; 9058180; 9132957; 9211478; 9294136; 9381396; 9473800; 9571994; 9676757;
   9789031; 9909981; 10041064; 10184137; 10341622; 10516755; 10714005; 10939785; 11203781;
   11521635; 11921136; 12459341; 13287395; 15165936].
