(* ===== verification/QuotaTable.v ===== *)
(** Package vm/util, quota.go: the price of every instruction and transaction
    by hard-fork version, and the checked quota arithmetic.

    The Go struct [QuotaTable] has only [uint64] fields; a table is modelled as
    the function from its field names to their values, so that a composite
    literal is a [match] whose last case is the Go zero value. *)
From S2P Require Import Prelude Helper Types Upgrade.

(** ** The table *)

Inductive quota_field :=
  | AddQuota | MulQuota | SubQuota | DivQuota | SDivQuota | ModQuota | SModQuota
  | AddModQuota | MulModQuota | ExpQuota | ExpByteQuota | SignExtendQuota | LtQuota
  | GtQuota | SltQuota | SgtQuota | EqQuota | IsZeroQuota | AndQuota | OrQuota | XorQuota
  | NotQuota | ByteQuota | ShlQuota | ShrQuota | SarQuota | Blake2bQuota | Blake2bWordQuota
  | AddressQuota | BalanceQuota | CallerQuota | CallValueQuota | CallDataLoadQuota
  | CallDataSizeQuota | CallDataCopyQuota | MemCopyWordQuota | CodeSizeQuota
  | CodeCopyQuota | ReturnDataSizeQuota | ReturnDataCopyQuota | TimestampQuota
  | HeightQuota | TokenIDQuota | AccountHeightQuota | PreviousHashQuota
  | FromBlockHashQuota | SeedQuota | RandomQuota | PopQuota | MloadQuota | MstoreQuota
  | Mstore8Quota | SloadQuota | SstoreResetQuota | SstoreInitQuota | SstoreCleanQuota
  | SstoreNoopQuota | SstoreMemQuota | JumpQuota | JumpiQuota | PcQuota | MsizeQuota
  | JumpdestQuota | PushQuota | DupQuota | SwapQuota | LogQuota | LogTopicQuota
  | LogDataQuota | CallMinusQuota | MemQuotaDivision | SnapshotQuota | CodeQuota | MemQuota
  | TxQuota | TxDataQuota | CreateTxRequestQuota | CreateTxResponseQuota | RegisterQuota
  | UpdateBlockProducingAddressQuota | UpdateRewardWithdrawAddressQuota | RevokeQuota
  | WithdrawRewardQuota | VoteQuota | CancelVoteQuota | StakeQuota | CancelStakeQuota
  | DelegateStakeQuota | CancelDelegateStakeQuota | IssueQuota | ReIssueQuota | BurnQuota
  | TransferOwnershipQuota | DisableReIssueQuota | GetTokenInfoQuota | DexFundDepositQuota
  | DexFundWithdrawQuota | DexFundOpenNewMarketQuota | DexFundPlaceOrderQuota
  | DexFundSettleOrdersQuota | DexFundTriggerPeriodJobQuota | DexFundStakeForMiningQuota
  | DexFundStakeForVipQuota | DexFundStakeForSuperVIPQuota
  | DexFundDelegateStakeCallbackQuota | DexFundCancelDelegateStakeCallbackQuota
  | DexFundGetTokenInfoCallbackQuota | DexFundAdminConfigQuota
  | DexFundTradeAdminConfigQuota | DexFundMarketAdminConfigQuota
  | DexFundTransferTokenOwnershipQuota | DexFundNotifyTimeQuota
  | DexFundCreateNewInviterQuota | DexFundBindInviteCodeQuota | DexFundEndorseVxQuota
  | DexFundSettleMakerMinedVxQuota | DexFundConfigMarketAgentsQuota
  | DexFundPlaceAgentOrderQuota | DexFundLockVxForDividendQuota | DexFundSwitchConfigQuota
  | DexFundStakeForPrincipalSuperVIPQuota | DexFundCancelStakeByIdQuota
  | DexFundDelegateStakeCallbackV2Quota | DexFundDelegateCancelStakeCallbackV2Quota
  | DexFundCancelOrderBySendHashQuota | DexFundCommonAdminConfigQuota
  | DexFundTransferQuota | DexFundAgentDepositQuota | DexFundAssignedWithdrawQuota.

(** Position of a field in the struct. *)
Definition field_index (f : quota_field) : nat :=
  match f with
  | AddQuota => 0 | MulQuota => 1 | SubQuota => 2 | DivQuota => 3 | SDivQuota => 4
  | ModQuota => 5 | SModQuota => 6 | AddModQuota => 7 | MulModQuota => 8 | ExpQuota => 9
  | ExpByteQuota => 10 | SignExtendQuota => 11 | LtQuota => 12 | GtQuota => 13
  | SltQuota => 14 | SgtQuota => 15 | EqQuota => 16 | IsZeroQuota => 17 | AndQuota => 18
  | OrQuota => 19 | XorQuota => 20 | NotQuota => 21 | ByteQuota => 22 | ShlQuota => 23
  | ShrQuota => 24 | SarQuota => 25 | Blake2bQuota => 26 | Blake2bWordQuota => 27
  | AddressQuota => 28 | BalanceQuota => 29 | CallerQuota => 30 | CallValueQuota => 31
  | CallDataLoadQuota => 32 | CallDataSizeQuota => 33 | CallDataCopyQuota => 34
  | MemCopyWordQuota => 35 | CodeSizeQuota => 36 | CodeCopyQuota => 37
  | ReturnDataSizeQuota => 38 | ReturnDataCopyQuota => 39 | TimestampQuota => 40
  | HeightQuota => 41 | TokenIDQuota => 42 | AccountHeightQuota => 43
  | PreviousHashQuota => 44 | FromBlockHashQuota => 45 | SeedQuota => 46
  | RandomQuota => 47 | PopQuota => 48 | MloadQuota => 49 | MstoreQuota => 50
  | Mstore8Quota => 51 | SloadQuota => 52 | SstoreResetQuota => 53 | SstoreInitQuota => 54
  | SstoreCleanQuota => 55 | SstoreNoopQuota => 56 | SstoreMemQuota => 57 | JumpQuota => 58
  | JumpiQuota => 59 | PcQuota => 60 | MsizeQuota => 61 | JumpdestQuota => 62
  | PushQuota => 63 | DupQuota => 64 | SwapQuota => 65 | LogQuota => 66
  | LogTopicQuota => 67 | LogDataQuota => 68 | CallMinusQuota => 69
  | MemQuotaDivision => 70 | SnapshotQuota => 71 | CodeQuota => 72 | MemQuota => 73
  | TxQuota => 74 | TxDataQuota => 75 | CreateTxRequestQuota => 76
  | CreateTxResponseQuota => 77 | RegisterQuota => 78
  | UpdateBlockProducingAddressQuota => 79 | UpdateRewardWithdrawAddressQuota => 80
  | RevokeQuota => 81 | WithdrawRewardQuota => 82 | VoteQuota => 83 | CancelVoteQuota => 84
  | StakeQuota => 85 | CancelStakeQuota => 86 | DelegateStakeQuota => 87
  | CancelDelegateStakeQuota => 88 | IssueQuota => 89 | ReIssueQuota => 90
  | BurnQuota => 91 | TransferOwnershipQuota => 92 | DisableReIssueQuota => 93
  | GetTokenInfoQuota => 94 | DexFundDepositQuota => 95 | DexFundWithdrawQuota => 96
  | DexFundOpenNewMarketQuota => 97 | DexFundPlaceOrderQuota => 98
  | DexFundSettleOrdersQuota => 99 | DexFundTriggerPeriodJobQuota => 100
  | DexFundStakeForMiningQuota => 101 | DexFundStakeForVipQuota => 102
  | DexFundStakeForSuperVIPQuota => 103 | DexFundDelegateStakeCallbackQuota => 104
  | DexFundCancelDelegateStakeCallbackQuota => 105
  | DexFundGetTokenInfoCallbackQuota => 106 | DexFundAdminConfigQuota => 107
  | DexFundTradeAdminConfigQuota => 108 | DexFundMarketAdminConfigQuota => 109
  | DexFundTransferTokenOwnershipQuota => 110 | DexFundNotifyTimeQuota => 111
  | DexFundCreateNewInviterQuota => 112 | DexFundBindInviteCodeQuota => 113
  | DexFundEndorseVxQuota => 114 | DexFundSettleMakerMinedVxQuota => 115
  | DexFundConfigMarketAgentsQuota => 116 | DexFundPlaceAgentOrderQuota => 117
  | DexFundLockVxForDividendQuota => 118 | DexFundSwitchConfigQuota => 119
  | DexFundStakeForPrincipalSuperVIPQuota => 120 | DexFundCancelStakeByIdQuota => 121
  | DexFundDelegateStakeCallbackV2Quota => 122
  | DexFundDelegateCancelStakeCallbackV2Quota => 123
  | DexFundCancelOrderBySendHashQuota => 124 | DexFundCommonAdminConfigQuota => 125
  | DexFundTransferQuota => 126 | DexFundAgentDepositQuota => 127
  | DexFundAssignedWithdrawQuota => 128
  end.

Definition QuotaTable := quota_field -> Z.

(** [gt.f = v] *)
Definition set_field (gt : QuotaTable) (f : quota_field) (v : Z) : QuotaTable :=
  fun f' => if (field_index f' =? field_index f)%nat then v else gt f'.

Definition initQuotaTable : QuotaTable := fun f =>
  match f with
  | AddQuota => 3 | MulQuota => 5 | SubQuota => 3 | DivQuota => 5 | SDivQuota => 5
  | ModQuota => 5 | SModQuota => 5 | AddModQuota => 8 | MulModQuota => 8 | ExpQuota => 10
  | ExpByteQuota => 50 | SignExtendQuota => 5 | LtQuota => 3 | GtQuota => 3 | SltQuota => 3
  | SgtQuota => 3 | EqQuota => 3 | IsZeroQuota => 3 | AndQuota => 3 | OrQuota => 3
  | XorQuota => 3 | NotQuota => 3 | ByteQuota => 3 | ShlQuota => 3 | ShrQuota => 3
  | SarQuota => 3 | Blake2bQuota => 30 | Blake2bWordQuota => 6 | AddressQuota => 2
  | BalanceQuota => 400 | CallerQuota => 2 | CallValueQuota => 2 | CallDataLoadQuota => 3
  | CallDataSizeQuota => 2 | CallDataCopyQuota => 3 | MemCopyWordQuota => 3
  | CodeSizeQuota => 2 | CodeCopyQuota => 3 | ReturnDataSizeQuota => 2
  | ReturnDataCopyQuota => 3 | TimestampQuota => 2 | HeightQuota => 2 | TokenIDQuota => 2
  | AccountHeightQuota => 2 | PreviousHashQuota => 2 | FromBlockHashQuota => 2
  | SeedQuota => 2 | RandomQuota => 2 | PopQuota => 2 | MloadQuota => 3 | MstoreQuota => 3
  | Mstore8Quota => 3 | SloadQuota => 200 | SstoreResetQuota => 5000
  | SstoreInitQuota => 20000 | SstoreCleanQuota => 100 | SstoreNoopQuota => 200
  | SstoreMemQuota => 200 | JumpQuota => 8 | JumpiQuota => 10 | PcQuota => 2
  | MsizeQuota => 2 | JumpdestQuota => 1 | PushQuota => 3 | DupQuota => 3 | SwapQuota => 3
  | LogQuota => 375 | LogTopicQuota => 375 | LogDataQuota => 8 | CallMinusQuota => 10000
  | MemQuotaDivision => 512 | SnapshotQuota => 200 | CodeQuota => 200 | MemQuota => 3
  | TxQuota => 21000 | TxDataQuota => 68 | CreateTxRequestQuota => 21000
  | CreateTxResponseQuota => 53000 | RegisterQuota => 62200
  | UpdateBlockProducingAddressQuota => 62200 | RevokeQuota => 83200
  | WithdrawRewardQuota => 68200 | VoteQuota => 62000 | CancelVoteQuota => 62000
  | StakeQuota => 82000 | CancelStakeQuota => 73000 | DelegateStakeQuota => 82000
  | CancelDelegateStakeQuota => 73000 | IssueQuota => 104525 | ReIssueQuota => 69325
  | BurnQuota => 48837 | TransferOwnershipQuota => 58981 | DisableReIssueQuota => 63125
  | GetTokenInfoQuota => 63200
  | _ => 0
  end.

Definition newViteQuotaTable : QuotaTable := fun f =>
  match f with
  | AddQuota => 2 | MulQuota => 2 | SubQuota => 2 | DivQuota => 3 | SDivQuota => 5
  | ModQuota => 3 | SModQuota => 4 | AddModQuota => 4 | MulModQuota => 5 | ExpQuota => 10
  | ExpByteQuota => 50 | SignExtendQuota => 2 | LtQuota => 2 | GtQuota => 2 | SltQuota => 2
  | SgtQuota => 2 | EqQuota => 2 | IsZeroQuota => 1 | AndQuota => 2 | OrQuota => 2
  | XorQuota => 2 | NotQuota => 2 | ByteQuota => 2 | ShlQuota => 2 | ShrQuota => 2
  | SarQuota => 3 | Blake2bQuota => 20 | Blake2bWordQuota => 1 | AddressQuota => 1
  | BalanceQuota => 150 | CallerQuota => 1 | CallValueQuota => 1 | CallDataLoadQuota => 2
  | CallDataSizeQuota => 1 | CallDataCopyQuota => 3 | MemCopyWordQuota => 3
  | CodeSizeQuota => 1 | CodeCopyQuota => 3 | ReturnDataSizeQuota => 1
  | ReturnDataCopyQuota => 3 | TimestampQuota => 1 | HeightQuota => 1 | TokenIDQuota => 1
  | AccountHeightQuota => 1 | PreviousHashQuota => 1 | FromBlockHashQuota => 1
  | SeedQuota => 200 | RandomQuota => 250 | PopQuota => 1 | MloadQuota => 2
  | MstoreQuota => 1 | Mstore8Quota => 1 | SloadQuota => 150 | SstoreResetQuota => 15000
  | SstoreInitQuota => 15000 | SstoreCleanQuota => 0 | SstoreNoopQuota => 200
  | SstoreMemQuota => 200 | JumpQuota => 4 | JumpiQuota => 4 | PcQuota => 1
  | MsizeQuota => 1 | JumpdestQuota => 1 | PushQuota => 1 | DupQuota => 1 | SwapQuota => 2
  | LogQuota => 375 | LogTopicQuota => 375 | LogDataQuota => 12 | CallMinusQuota => 13500
  | MemQuotaDivision => 1024 | SnapshotQuota => 40 | CodeQuota => 160 | MemQuota => 1
  | TxQuota => 21000 | TxDataQuota => 68 | CreateTxRequestQuota => 31000
  | CreateTxResponseQuota => 31000 | RegisterQuota => 168000
  | UpdateBlockProducingAddressQuota => 168000 | RevokeQuota => 126000
  | WithdrawRewardQuota => 147000 | VoteQuota => 84000 | CancelVoteQuota => 52500
  | StakeQuota => 105000 | CancelStakeQuota => 105000 | DelegateStakeQuota => 115500
  | CancelDelegateStakeQuota => 115500 | IssueQuota => 189000 | ReIssueQuota => 126000
  | BurnQuota => 115500 | TransferOwnershipQuota => 136500 | DisableReIssueQuota => 115500
  | GetTokenInfoQuota => 31500 | DexFundDepositQuota => 10500
  | DexFundWithdrawQuota => 10500 | DexFundOpenNewMarketQuota => 31500
  | DexFundPlaceOrderQuota => 25200 | DexFundSettleOrdersQuota => 21000
  | DexFundTriggerPeriodJobQuota => 8400 | DexFundStakeForMiningQuota => 31500
  | DexFundStakeForVipQuota => 31500 | DexFundDelegateStakeCallbackQuota => 12600
  | DexFundCancelDelegateStakeCallbackQuota => 16800
  | DexFundGetTokenInfoCallbackQuota => 10500 | DexFundAdminConfigQuota => 16800
  | DexFundTradeAdminConfigQuota => 10500 | DexFundMarketAdminConfigQuota => 10500
  | DexFundTransferTokenOwnershipQuota => 8400 | DexFundNotifyTimeQuota => 10500
  | DexFundCreateNewInviterQuota => 18900 | DexFundBindInviteCodeQuota => 8400
  | DexFundEndorseVxQuota => 6300 | DexFundSettleMakerMinedVxQuota => 25200
  | _ => 0
  end.

Definition newDexAgentQuotaTable : QuotaTable :=
  let gt := newViteQuotaTable in
  let gt := set_field gt DexFundStakeForSuperVIPQuota 33600 in
  let gt := set_field gt DexFundConfigMarketAgentsQuota 8400 in
  let gt := set_field gt DexFundPlaceAgentOrderQuota 25200 in
  gt.

Definition newEarthQuotaTable : QuotaTable :=
  let gt := newDexAgentQuotaTable in
  let gt := set_field gt UpdateRewardWithdrawAddressQuota 168000 in
  let gt := set_field gt DexFundLockVxForDividendQuota 31500 in
  let gt := set_field gt DexFundSwitchConfigQuota 31500 in
  let gt := set_field gt DexFundStakeForPrincipalSuperVIPQuota 10500 in
  let gt := set_field gt DexFundCancelStakeByIdQuota 10500 in
  let gt := set_field gt DexFundDelegateStakeCallbackV2Quota 31500 in
  let gt := set_field gt DexFundDelegateCancelStakeCallbackV2Quota 33000 in
  gt.

Definition newDexRobotQuotaTable : QuotaTable :=
  let gt := newEarthQuotaTable in
  let gt := set_field gt DexFundCancelOrderBySendHashQuota 15200 in
  gt.

Definition newDexStableMarketQuotaTable : QuotaTable :=
  let gt := newDexRobotQuotaTable in
  let gt := set_field gt DexFundCommonAdminConfigQuota 10500 in
  gt.

Definition newVersion10QuotaTable : QuotaTable :=
  let gt := newDexStableMarketQuotaTable in
  let gt := set_field gt CodeQuota 16 in
  let gt := set_field gt TxDataQuota 28 in
  gt.

Definition newVersion11QuotaTable : QuotaTable :=
  let gt := newVersion10QuotaTable in
  let gt := set_field gt DexFundTransferQuota 10500 in
  gt.

Definition newVersionXQuotaTable : QuotaTable :=
  let gt := newVersion11QuotaTable in
  let gt := set_field gt DexFundAgentDepositQuota 10500 in
  let gt := set_field gt DexFundAssignedWithdrawQuota 10500 in
  gt.

Definition QuotaTableByHeight (box : upgradeBox) (sbHeight : Z) : QuotaTable :=
  if IsVersionXUpgrade box sbHeight then newVersionXQuotaTable
  else if IsVersion11Upgrade box sbHeight then newVersion11QuotaTable
  else if IsVersion10Upgrade box sbHeight then newVersion10QuotaTable
  else if IsDexStableMarketUpgrade box sbHeight then newDexStableMarketQuotaTable
  else if IsDexRobotUpgrade box sbHeight then newDexRobotQuotaTable
  else if IsEarthUpgrade box sbHeight then newEarthQuotaTable
  else if IsStemUpgrade box sbHeight then newDexAgentQuotaTable
  else if IsDexUpgrade box sbHeight then newViteQuotaTable
  else initQuotaTable.

(** ** Quota arithmetic *)

Definition CommonQuotaMultiplier : Z := 10.
Definition quotaMultiplierDivision : Z := 10.

Definition MultipleCost (cost quotaMultiplier : Z) : result Z :=
  if quotaMultiplier <? CommonQuotaMultiplier then Err ErrInvalidQuotaMultiplier
  else if quotaMultiplier =? CommonQuotaMultiplier then Ok cost
  else
    let ratioUint64 := quotaMultiplier in
    if MaxUint64 / ratioUint64 <? cost then Err ErrGasUintOverflow
    else Ok (u64 (cost * ratioUint64) / quotaMultiplierDivision).

Definition UseQuota (quotaLeft cost : Z) : result Z :=
  if quotaLeft <? cost then Err ErrOutOfQuota else Ok (u64 (quotaLeft - cost)).

Definition UseQuotaWithFlag (quotaLeft cost : Z) (flag : bool) : result Z :=
  if flag then UseQuota quotaLeft cost else Ok (u64 (quotaLeft + cost)).

Definition DataQuotaCost (data : bytes) (quotaTable : QuotaTable) : result Z :=
  let l := len data in
  if 0 <? l then
    if quotaTable TxDataQuota =? 0 then Panic PDivZero
    else if MaxUint64 / quotaTable TxDataQuota <? l then Err ErrGasUintOverflow
    else Ok (u64 (l * quotaTable TxDataQuota))
  else Ok 0.

Definition BlockGasCost (data : bytes) (baseGas snapshotCount : Z)
    (quotaTable : QuotaTable) : result Z :=
  match DataQuotaCost data quotaTable with
  | Panic p => Panic p
  | Err _ => Err ErrGasUintOverflow
  | Ok gasData =>
      if u64 (MaxUint64 - baseGas) <? gasData then Err ErrGasUintOverflow
      else
        let gas := u64 (baseGas + gasData) in
        if snapshotCount =? 0 then Ok gas
        else
          let confirmGas := u64 (snapshotCount * quotaTable SnapshotQuota) in
          if u64 (MaxUint64 - gas) <? confirmGas then Err ErrGasUintOverflow
          else Ok (u64 (gas + confirmGas))
  end.

(** When the sum overflows the Go code returns [err], which is nil there: the
    caller sees cost 0 and no error. *)
Definition RequestQuotaCost (data : bytes) (quotaTable : QuotaTable) : result Z :=
  dataCost ← DataQuotaCost data quotaTable;
  let '(totalCost, overflow) := SafeAdd (quotaTable TxQuota) dataCost in
  if overflow then Ok 0 else Ok totalCost.

Definition CalcQuotaUsed (useQuota : bool) (quotaTotal quotaAddition quotaLeft : Z)
    (err : option vm_err) : Z * Z :=
  if negb useQuota then (0, 0)
  else if bool_decide (err = Some ErrOutOfQuota) then (0, 0)
  else
    let qUsed := u64 (quotaTotal - quotaLeft) in
    if qUsed <? quotaAddition then (0, qUsed)
    else (u64 (qUsed - quotaAddition), qUsed).

Definition IsPoW (block : AccountBlock) : bool := 0 <? len (Nonce block).

(** ** What every table guarantees *)

(** The fields the interpreter charges for an instruction that does not halt. *)
Definition op_fields : list quota_field :=
  [AddQuota; MulQuota; SubQuota; DivQuota; SDivQuota; ModQuota; SModQuota; AddModQuota;
   MulModQuota; ExpQuota; SignExtendQuota; LtQuota; GtQuota; SltQuota; SgtQuota; EqQuota;
   IsZeroQuota; AndQuota; OrQuota; XorQuota; NotQuota; ByteQuota; ShlQuota; ShrQuota;
   SarQuota; Blake2bQuota; AddressQuota; BalanceQuota; CallerQuota; CallValueQuota;
   CallDataLoadQuota; CallDataSizeQuota; CallDataCopyQuota; CodeSizeQuota; CodeCopyQuota;
   ReturnDataSizeQuota; ReturnDataCopyQuota; TimestampQuota; HeightQuota; TokenIDQuota;
   AccountHeightQuota; PreviousHashQuota; FromBlockHashQuota; SeedQuota; RandomQuota;
   PopQuota; MloadQuota; MstoreQuota; Mstore8Quota; SloadQuota; SstoreNoopQuota;
   SstoreMemQuota; JumpQuota; JumpiQuota; PcQuota; MsizeQuota; JumpdestQuota; PushQuota;
   DupQuota; SwapQuota; LogQuota; MemQuota; MemQuotaDivision; TxDataQuota].

Record table_ok (gt : QuotaTable) : Prop := {
  tok_range f : 0 <= gt f < 2 ^ 20;
  tok_pos f : f ∈ op_fields -> 1 <= gt f;
  tok_clean : gt SstoreCleanQuota <= gt SstoreNoopQuota;
  tok_reset : gt SstoreMemQuota + gt SstoreNoopQuota <= gt SstoreResetQuota;
  tok_init : gt SstoreMemQuota + gt SstoreNoopQuota <= gt SstoreInitQuota;
}.

(** A table is built from a literal by changing fields that keep it in range
    and that are no storage prices. *)
Lemma set_field_ok gt f v :
  table_ok gt -> 1 <= v < 2 ^ 20 ->
  ~ (field_index SstoreResetQuota <= field_index f <= field_index SstoreMemQuota)%nat ->
  table_ok (set_field gt f v).
Proof.
  intros [Hr Hp Hc Hre Hi] Hv Hf; simpl in Hf; unfold set_field.
  split; [intros f'|intros f' Hin|..];
    repeat match goal with |- context [(?a =? ?b)%nat] => destruct (Nat.eqb_spec a b) end;
    try (simpl in *; lia); auto.
Qed.

Lemma op_fields_pos gt :
  forallb (fun f => 1 <=? gt f) op_fields = true -> forall f, f ∈ op_fields -> 1 <= gt f.
Proof.
  rewrite forallb_forall; intros H f Hf; apply list_elem_of_In, H in Hf; lia.
Qed.

Lemma QuotaTable_literals_ok : table_ok initQuotaTable /\ table_ok newViteQuotaTable.
Proof.
  split; (split;
    [ intros f; destruct f; simpl; lia
    | apply op_fields_pos; vm_compute; reflexivity
    | simpl; lia .. ]).
Qed.

Lemma derived_tables_ok :
  table_ok newDexAgentQuotaTable /\ table_ok newEarthQuotaTable /\
  table_ok newDexRobotQuotaTable /\ table_ok newDexStableMarketQuotaTable /\
  table_ok newVersion10QuotaTable /\ table_ok newVersion11QuotaTable /\
  table_ok newVersionXQuotaTable.
Proof.
  destruct QuotaTable_literals_ok as [_ Hv].
  assert (H1 : table_ok newDexAgentQuotaTable)
    by (repeat (apply set_field_ok; [|lia|simpl; lia]); done).
  assert (H2 : table_ok newEarthQuotaTable)
    by (repeat (apply set_field_ok; [|lia|simpl; lia]); done).
  assert (H3 : table_ok newDexRobotQuotaTable)
    by (repeat (apply set_field_ok; [|lia|simpl; lia]); done).
  assert (H4 : table_ok newDexStableMarketQuotaTable)
    by (repeat (apply set_field_ok; [|lia|simpl; lia]); done).
  assert (H5 : table_ok newVersion10QuotaTable)
    by (repeat (apply set_field_ok; [|lia|simpl; lia]); done).
  assert (H6 : table_ok newVersion11QuotaTable)
    by (repeat (apply set_field_ok; [|lia|simpl; lia]); done).
  assert (H7 : table_ok newVersionXQuotaTable)
    by (repeat (apply set_field_ok; [|lia|simpl; lia]); done).
  done.
Qed.

Lemma QuotaTableByHeight_ok box h : table_ok (QuotaTableByHeight box h).
Proof.
  destruct QuotaTable_literals_ok as [? ?], derived_tables_ok as (? & ? & ? & ? & ? & ? & ?).
  unfold QuotaTableByHeight.
  repeat match goal with |- context [if ?b then _ else _] => destruct b end; done.
Qed.
