(* ===== verification/VmDb.v ===== *)
(** Package vm_db: the write buffer [Unsaved] in front of the chain state that
    one block execution reads and writes. *)
From S2P Require Import Prelude Helper Types Upgrade.
From stdpp Require Import sorting.
#[local] Open Scope Z_scope.

(** ** The chain below the buffer (vm_db/interface.go)

    The methods of the interface [Chain] this package calls.  A database error
    is [Err tt]; absent objects are [None]. *)
Record QuotaInfo := mkQuotaInfo { BlockCount : Z; QuotaTotal : Z; QuotaUsedTotal : Z }.

Record Chain := mkChain {
  ch_GetBalance : Address -> TokenTypeId -> outcome unit Z;
  ch_GetContractCode : Address -> outcome unit bytes;
  ch_GetContractMeta : Address -> outcome unit (option ContractMeta);
  ch_GetConfirmSnapshotHeaderByAbHash : Hash -> outcome unit (option SnapshotBlock);
  ch_GetContractMetaInSnapshot : Address -> Z -> outcome unit (option ContractMeta);
  ch_GetSnapshotHeaderByHash : Hash -> outcome unit (option SnapshotBlock);
  ch_GetAccountBlockByHash : Hash -> outcome unit (option AccountBlock);
  ch_GetUnconfirmedBlocks : Address -> list AccountBlock;
  ch_GetStakeBeneficialAmount : Address -> outcome unit Z;
  ch_GetValue : Address -> bytes -> outcome unit bytes;
  ch_GetCallDepth : Hash -> outcome unit Z;
  ch_GetQuotaUsedList : Address -> list QuotaInfo;
  ch_GetGlobalQuota : QuotaInfo;
  ch_GetConfirmedTimes : Hash -> outcome unit Z;
  ch_GetLatestAccountBlock : Address -> outcome unit (option AccountBlock);
  (* the entries the iterator ranges over *)
  ch_GetStorageIterator : Address -> bytes -> outcome unit (list (bytes * bytes));
  ch_GetGenesisSnapshotBlock : SnapshotBlock;
  ch_GetSnapshotBlockByHeight : Z -> outcome unit (option SnapshotBlock);
}.

(** util.DealWithErr: panic on a database error.  A panic of the chain itself
    counts as one. *)
Definition DealWithErr {A} (r : outcome unit A) : result A :=
  match r with Ok a => Ok a | _ => Panic PDb end.

(** ** The buffer (vm_db/unsaved.go) *)

Record VmLog := mkVmLog { Topics : list Hash; log_Data : bytes }.

(** [storage] is a memdb ordered by key; the order shows only in
    [GetStorage]. *)
Record Unsaved := mkUnsaved {
  contractMetaMap : gmap Address ContractMeta;
  uns_code : bytes;
  logList : list VmLog;
  storage : gmap bytes bytes;
  deletedKeys : gset bytes;
  uns_keys : gset bytes;
  storageDirty : bool;
  storageCache : list (bytes * bytes);
  balanceMap : gmap TokenTypeId Z;
}.

Definition NewUnsaved : Unsaved := mkUnsaved ∅ [] [] ∅ ∅ ∅ false [] ∅.

Definition Unsaved_Reset (u : Unsaved) : Unsaved :=
  mkUnsaved ∅ [] [] ∅ ∅ (uns_keys u) false [] ∅.

(** bytes.Compare order on keys, the order of the memdb iterator. *)
Fixpoint bytes_leb (a b : bytes) : bool :=
  match a, b with
  | [], _ => true
  | _ :: _, [] => false
  | x :: a', y :: b' =>
      if byte_Z x =? byte_Z y then bytes_leb a' b' else byte_Z x <? byte_Z y
  end.
Definition kv_le (a b : bytes * bytes) : Prop := Is_true (bytes_leb a.1 b.1).
#[export] Instance kv_le_dec : RelDecision kv_le.
Proof. intros a b; unfold kv_le; apply _. Defined.

Definition storage_list (m : gmap bytes bytes) : list (bytes * bytes) :=
  merge_sort kv_le (map_to_list m).

Definition Unsaved_GetStorage (u : Unsaved) : Unsaved * list (bytes * bytes) :=
  if storageDirty u then
    let cache := storage_list (storage u) in
    (mkUnsaved (contractMetaMap u) (uns_code u) (logList u) (storage u) (deletedKeys u)
               (uns_keys u) false cache (balanceMap u), cache)
  else (u, storageCache u).

Definition Unsaved_SetValue (u : Unsaved) (key value : bytes) : Unsaved :=
  let deleted :=
    if len value <=? 0 then {[key]} ∪ deletedKeys u else deletedKeys u ∖ {[key]} in
  mkUnsaved (contractMetaMap u) (uns_code u) (logList u) (<[key := value]> (storage u))
            deleted ({[key]} ∪ uns_keys u) true (storageCache u) (balanceMap u).

(** The boolean is Go's second result: the buffer has an opinion on the key. *)
Definition Unsaved_GetValue (u : Unsaved) (key : bytes) : bytes * bool :=
  match storage u !! key with
  | Some value => (value, true)
  | None => if bool_decide (key ∈ deletedKeys u) then ([], true) else ([], false)
  end.

Definition IsDelete (u : Unsaved) (key : bytes) : bool := bool_decide (key ∈ deletedKeys u).

Definition Unsaved_SetBalance (u : Unsaved) (t : TokenTypeId) (amount : Z) : Unsaved :=
  mkUnsaved (contractMetaMap u) (uns_code u) (logList u) (storage u) (deletedKeys u)
            (uns_keys u) (storageDirty u) (storageCache u) (<[t := amount]> (balanceMap u)).

Definition Unsaved_AddLog (u : Unsaved) (log : VmLog) : Unsaved :=
  mkUnsaved (contractMetaMap u) (uns_code u) (logList u ++ [log]) (storage u) (deletedKeys u)
            (uns_keys u) (storageDirty u) (storageCache u) (balanceMap u).

Definition Unsaved_SetContractMeta (u : Unsaved) (a : Address) (m : ContractMeta) : Unsaved :=
  mkUnsaved (<[a := m]> (contractMetaMap u)) (uns_code u) (logList u) (storage u)
            (deletedKeys u) (uns_keys u) (storageDirty u) (storageCache u) (balanceMap u).

Definition Unsaved_SetCode (u : Unsaved) (code : bytes) : Unsaved :=
  mkUnsaved (contractMetaMap u) code (logList u) (storage u) (deletedKeys u)
            (uns_keys u) (storageDirty u) (storageCache u) (balanceMap u).

(** ** The database handle (vm_db/vm_db.go, storage.go, balance.go, ...)

    A nil [uns] pointer behaves as a fresh buffer; the caches of the latest
    snapshot block, the previous block and the call depth are transparent. *)
Record vmDb := mkVmDb {
  uns : Unsaved;
  chain : Chain;
  db_address : Address;
  latestSnapshotBlockHash : Hash;
  prevAccountBlockHash : Hash;
}.

Definition with_uns (db : vmDb) (u : Unsaved) : vmDb :=
  mkVmDb u (chain db) (db_address db) (latestSnapshotBlockHash db) (prevAccountBlockHash db).

Definition NewVmDb (c : Chain) (address latestSnapshotHash prevHash : bytes) : vmDb :=
  mkVmDb NewUnsaved c address latestSnapshotHash prevHash.

Definition db_GetOriginalValue (db : vmDb) (key : bytes) : outcome unit bytes :=
  ch_GetValue (chain db) (db_address db) key.

Definition db_GetValue (db : vmDb) (key : bytes) : outcome unit bytes :=
  let '(value, ok) := Unsaved_GetValue (uns db) key in
  if ok then Ok value else db_GetOriginalValue db key.

Definition db_SetValue (db : vmDb) (key value : bytes) : outcome unit vmDb :=
  if 32 <? len key then Err tt else Ok (with_uns db (Unsaved_SetValue (uns db) key value)).

(** What is stored under a key. *)
Definition view_of (db : vmDb) (k : bytes) : bytes := match db_GetValue db k with Ok v => v | _ => [] end.

Definition db_GetBalance (db : vmDb) (t : TokenTypeId) : outcome unit Z :=
  match balanceMap (uns db) !! t with
  | Some balance => Ok balance
  | None => ch_GetBalance (chain db) (db_address db) t
  end.

Definition db_SetBalance (db : vmDb) (t : TokenTypeId) (amount : Z) : vmDb :=
  with_uns db (Unsaved_SetBalance (uns db) t amount).

Definition db_AddLog (db : vmDb) (log : VmLog) : vmDb :=
  with_uns db (Unsaved_AddLog (uns db) log).

Definition db_SetContractMeta (db : vmDb) (a : Address) (m : ContractMeta) : vmDb :=
  with_uns db (Unsaved_SetContractMeta (uns db) a m).

Definition db_GetContractMeta (db : vmDb) : outcome unit (option ContractMeta) :=
  match contractMetaMap (uns db) !! db_address db with
  | Some meta => Ok (Some meta)
  | None => ch_GetContractMeta (chain db) (db_address db)
  end.

Definition db_GetContractMetaInSnapshot (db : vmDb) (a : Address) (sb : SnapshotBlock) :
    outcome unit (option ContractMeta) :=
  ch_GetContractMetaInSnapshot (chain db) a (sb_Height sb).

Definition db_SetContractCode (db : vmDb) (code : bytes) : vmDb :=
  with_uns db (Unsaved_SetCode (uns db) code).

Definition db_GetContractCode (db : vmDb) : outcome unit bytes :=
  let code := uns_code (uns db) in
  if 0 <? len code then Ok code else ch_GetContractCode (chain db) (db_address db).

Definition db_GetContractCodeBySnapshotBlock (db : vmDb) (a : Address)
    (sb : option SnapshotBlock) : outcome unit bytes := Ok [].

Definition db_LatestSnapshotBlock (db : vmDb) : outcome unit SnapshotBlock :=
  r ← ch_GetSnapshotHeaderByHash (chain db) (latestSnapshotBlockHash db);
  match r with Some sb => Ok sb | None => Err tt end.

Definition db_PrevAccountBlock (db : vmDb) : outcome unit (option AccountBlock) :=
  if bool_decide (prevAccountBlockHash db = ZERO_HASH) then Ok None
  else
    r ← ch_GetAccountBlockByHash (chain db) (prevAccountBlockHash db);
    match r with Some ab => Ok (Some ab) | None => Err tt end.

Definition db_GetConfirmSnapshotHeader (db : vmDb) (blockHash : Hash) :
    outcome unit (option SnapshotBlock) :=
  ch_GetConfirmSnapshotHeaderByAbHash (chain db) blockHash.

Definition db_GetUnconfirmedBlocks (db : vmDb) (a : Address) : list AccountBlock :=
  ch_GetUnconfirmedBlocks (chain db) a.

Definition db_GetStakeBeneficialAmount (db : vmDb) (a : Address) : outcome unit Z :=
  ch_GetStakeBeneficialAmount (chain db) a.

Definition db_GetCallDepth (db : vmDb) (sendBlockHash : Hash) : outcome unit Z :=
  ch_GetCallDepth (chain db) sendBlockHash.

Definition db_GetQuotaUsedList (db : vmDb) (a : Address) : list QuotaInfo :=
  ch_GetQuotaUsedList (chain db) a.

Definition db_GetGlobalQuota (db : vmDb) : QuotaInfo := ch_GetGlobalQuota (chain db).

Definition db_GetGenesisSnapshotBlock (db : vmDb) : SnapshotBlock := ch_GetGenesisSnapshotBlock (chain db).

Definition db_GetSnapshotBlockByHeight (db : vmDb) (height : Z) : outcome unit (option SnapshotBlock) :=
  ch_GetSnapshotBlockByHeight (chain db) height.

Definition db_GetConfirmedTimes (db : vmDb) (blockHash : Hash) : outcome unit Z :=
  ch_GetConfirmedTimes (chain db) blockHash.

Definition db_GetLatestAccountBlock (db : vmDb) (a : Address) : outcome unit (option AccountBlock) :=
  ch_GetLatestAccountBlock (chain db) a.

(** VmLogList.Hash (interfaces/core/vm_log_list.go) *)
Definition VmLogList_Hash (Hash256 : bytes -> bytes) (box : upgradeBox) (vll : list VmLog)
    (snapshotHeight : Z) (address : Address) (prevHash : Hash) : option Hash :=
  match vll with
  | [] => None
  | _ =>
      let source := concat ((fun l => concat (Topics l) ++ log_Data l) <$> vll) in
      let source := if IsSeedUpgrade box snapshotHeight
                    then source ++ address ++ prevHash else source in
      Some (BytesToHash (Hash256 source)).1
  end.

(** The handle of a genesis block, which skips the snapshot height, is not
    modelled. *)
Definition db_GetLogListHash (Hash256 : bytes -> bytes) (box : upgradeBox) (db : vmDb) :
    outcome unit (option Hash) :=
  match db_LatestSnapshotBlock db with
  | Ok latestSb =>
      Ok (VmLogList_Hash Hash256 box (logList (uns db)) (sb_Height latestSb)
                         (db_address db) (prevAccountBlockHash db))
  | _ => Panic PDb
  end.

Definition db_Reset (db : vmDb) : vmDb := with_uns db (Unsaved_Reset (uns db)).

(** [Finish] keeps the sorted contents and drops the memdb. *)
Definition Unsaved_ReleaseRuntime (u : Unsaved) : Unsaved :=
  let u := (Unsaved_GetStorage u).1 in
  mkUnsaved (contractMetaMap u) (uns_code u) (logList u) ∅ (deletedKeys u)
            (uns_keys u) (storageDirty u) (storageCache u) (balanceMap u).

Definition db_Finish (db : vmDb) : vmDb := with_uns db (Unsaved_ReleaseRuntime (uns db)).

(** GetReceiptHash, with the hash function of package crypto as a parameter. *)
Definition db_GetReceiptHash (Hash256 : bytes -> bytes) (db : vmDb) : vmDb * Hash :=
  let '(u, kvList) := Unsaved_GetStorage (uns db) in
  let db' := with_uns db u in
  match kvList with
  | [] => (db', ZERO_HASH)
  | _ => (db', (BytesToHash (Hash256 (concat ((fun kv => kv.1 ++ kv.2) <$> kvList)))).1)
  end.

(** ** Helpers over the database (vm/util/db_helper.go) *)

Definition AddBalance (db : vmDb) (id : TokenTypeId) (amount : Z) : result vmDb :=
  b ← DealWithErr (db_GetBalance db id);
  Ok (db_SetBalance db id (b + amount)).

(** The boolean reports whether the balance sufficed. *)
Definition SubBalance (db : vmDb) (id : TokenTypeId) (amount : Z) : result (vmDb * bool) :=
  b ← DealWithErr (db_GetBalance db id);
  if amount <=? b then Ok (db_SetBalance db id (b - amount), true) else Ok (db, false).

Definition GetValue (db : vmDb) (key : bytes) : result bytes := DealWithErr (db_GetValue db key).

Definition SetValue (db : vmDb) (key value : bytes) : result vmDb :=
  DealWithErr (db_SetValue db key value).

(** ** The buffer invariant *)

(** A key is marked deleted exactly when its buffered value is empty, and a
    clean cache lists the buffered storage. *)
Record uns_wf (u : Unsaved) : Prop := {
  wf_deleted k : k ∈ deletedKeys u <-> storage u !! k = Some [];
  wf_cache : storageDirty u = false -> storageCache u = storage_list (storage u);
}.

(** The operations that change a buffer. *)
Inductive uns_step : Unsaved -> Unsaved -> Prop :=
| step_SetValue u k v : uns_step u (Unsaved_SetValue u k v)
| step_SetBalance u t a : uns_step u (Unsaved_SetBalance u t a)
| step_AddLog u l : uns_step u (Unsaved_AddLog u l)
| step_SetContractMeta u a m : uns_step u (Unsaved_SetContractMeta u a m)
| step_SetCode u c : uns_step u (Unsaved_SetCode u c)
| step_GetStorage u : uns_step u (Unsaved_GetStorage u).1
| step_Reset u : uns_step u (Unsaved_Reset u).

Lemma storage_list_empty : storage_list ∅ = [].
Proof. unfold storage_list; rewrite map_to_list_empty; done. Qed.

Lemma NewUnsaved_wf : uns_wf NewUnsaved.
Proof.
  split; simpl; [intros k; rewrite lookup_empty; set_solver|].
  rewrite storage_list_empty; done.
Qed.

Lemma uns_step_wf u u' : uns_step u u' -> uns_wf u -> uns_wf u'.
Proof.
  intros [] [Hd Hc]; try (split; simpl; [exact Hd|exact Hc]).
  - split; simpl; [|done]; intros k'.
    destruct (decide (k' = k)) as [->|Hne].
    + rewrite lookup_insert_eq; destruct v as [|b v]; [set_solver|].
      replace (len (b :: v) <=? 0) with false; [set_solver|].
      symmetry; apply Z.leb_gt; unfold len; cbn [length]; lia.
    + rewrite lookup_insert_ne by done; rewrite <- Hd.
      destruct (len v <=? 0); set_solver.
  - unfold Unsaved_GetStorage; destruct (storageDirty u0) eqn:E; [|split; auto].
    split; simpl; auto.
  - split; simpl; [intros k; rewrite lookup_empty; set_solver|].
    rewrite storage_list_empty; done.
Qed.

Lemma reachable_wf u : rtc uns_step NewUnsaved u -> uns_wf u.
Proof.
  remember NewUnsaved as u0 eqn:E; intros H.
  assert (Hw : uns_wf u0) by (subst; apply NewUnsaved_wf); clear E.
  induction H as [|u1 u2 u3 Hs _ IH]; [done|]; apply IH; eapply uns_step_wf; eauto.
Qed.

(** Whatever sequence of writes, resets and reads a block execution performs
    on a fresh buffer, a key counts as deleted exactly when an empty value was
    stored for it, the lookup answers with the stored value or not at all, and
    [GetStorage], cached or not, returns the sorted contents: the receipt hash
    depends only on the buffered storage. *)
Theorem unsaved_coherent u k :
  rtc uns_step NewUnsaved u ->
  IsDelete u k = bool_decide (storage u !! k = Some []) /\
  Unsaved_GetValue u k = (default [] (storage u !! k), bool_decide (is_Some (storage u !! k))) /\
  (Unsaved_GetStorage u).2 = storage_list (storage u) /\
  Sorted kv_le (Unsaved_GetStorage u).2.
Proof.
  intros [Hd Hc]%reachable_wf.
  assert (Hs : (Unsaved_GetStorage u).2 = storage_list (storage u)).
  { unfold Unsaved_GetStorage; destruct (storageDirty u); auto. }
  split; [|split; [|split; [done|]]].
  - unfold IsDelete; apply bool_decide_ext, Hd.
  - unfold Unsaved_GetValue; destruct (storage u !! k) as [v|] eqn:E; [done|].
    rewrite (bool_decide_eq_false_2 (k ∈ _)), bool_decide_eq_false_2; [done| |].
    + intros [? ?]; done.
    + rewrite Hd, E; done.
  - rewrite Hs; apply Sorted_merge_sort.
    intros [a va] [b vb]; unfold kv_le; simpl; revert b; clear.
    induction a as [|x a IH]; intros [|y b]; simpl; auto.
    destruct (Z.eqb_spec (byte_Z x) (byte_Z y)) as [E|E].
    + rewrite E, Z.eqb_refl; apply IH.
    + destruct (Z.eqb_spec (byte_Z y) (byte_Z x)); [lia|].
      destruct (Z.ltb_spec (byte_Z x) (byte_Z y)), (Z.ltb_spec (byte_Z y) (byte_Z x));
        simpl; auto; lia.
Qed.

Lemma unsaved_coherent_witness :
  IsDelete (Unsaved_SetValue NewUnsaved [x01] []) [x01] = true.
Proof.
  destruct (unsaved_coherent (Unsaved_SetValue NewUnsaved [x01] []) [x01]) as [-> _];
    [apply rtc_once; constructor|reflexivity].
Defined.

(** ** Reads after writes *)

Lemma db_GetValue_SetValue db db' k v k' :
  db_SetValue db k v = Ok db' ->
  db_GetValue db' k' = if decide (k' = k) then Ok v else db_GetValue db k'.
Proof.
  unfold db_SetValue, db_GetValue.
  destruct (32 <? len k); intros H; simplify_eq/=; unfold Unsaved_GetValue; simpl.
  case_decide; [subst; rewrite lookup_insert_eq; done|].
  rewrite lookup_insert_ne by done.
  destruct (storage (uns db) !! k'); [done|].
  replace (bool_decide (k' ∈ (if len v <=? 0 then {[k]} ∪ deletedKeys (uns db)
                              else deletedKeys (uns db) ∖ {[k]})))
    with (bool_decide (k' ∈ deletedKeys (uns db))); [done|].
  apply bool_decide_ext; destruct (len v <=? 0); set_solver.
Qed.

Lemma GetValue_SetValue db db' k v k' :
  SetValue db k v = Ok db' ->
  GetValue db' k' = if decide (k' = k) then Ok v else GetValue db k'.
Proof.
  unfold SetValue, GetValue; destruct (db_SetValue db k v) as [d| |] eqn:E; simpl; intros H; simplify_eq.
  rewrite (db_GetValue_SetValue _ _ _ _ k' E); by case_decide.
Qed.

Lemma GetBalance_SetBalance db t a t' :
  db_GetBalance (db_SetBalance db t a) t' = if decide (t' = t) then Ok a else db_GetBalance db t'.
Proof.
  unfold db_GetBalance; simpl; case_decide; [subst; rewrite lookup_insert_eq; done|].
  rewrite lookup_insert_ne by done; done.
Qed.

(** A reverted execution leaves no trace: after [Reset] every read of the
    database goes to the chain. *)
Theorem reset_restores db k t :
  db_GetValue (db_Reset db) k = db_GetOriginalValue db k /\
  db_GetBalance (db_Reset db) t = ch_GetBalance (chain db) (db_address db) t /\
  db_GetContractCode (db_Reset db) = ch_GetContractCode (chain db) (db_address db) /\
  db_GetContractMeta (db_Reset db) = ch_GetContractMeta (chain db) (db_address db) /\
  logList (uns (db_Reset db)) = [].
Proof.
  unfold db_GetValue, db_GetBalance, db_GetContractCode, db_GetContractMeta, Unsaved_GetValue.
  simpl; rewrite !lookup_empty, bool_decide_eq_false_2 by set_solver; done.
Qed.

Lemma view_Ok db k v : db_GetValue db k = Ok v -> view_of db k = v.
Proof. unfold view_of; by intros ->. Qed.
