(* ===== verification/DexNumber.v ===== *)
(** Amounts, prices and rates of the exchange: src/vm/contracts/dex/calculator.go
    and the price and rate formats of utils.go.

    Amounts are big-endian byte strings, as the protobuf messages hold them; a
    nil slice is the empty string.  Prices are ten bytes, five for the integer
    part and five for the decimals scaled by 10^12, and are read as decimal
    text by [big.Float.SetString].  Text is a byte string of ASCII codes. *)
From S2P Require Import Prelude Helper Float.
#[local] Open Scope Z_scope.

(** ** Decimal text (package strconv) *)

Definition char_0 : byte := x30.
Definition char_dot : byte := x2e.
Definition char_minus : byte := x2d.

Definition digit (d : Z) : byte := Z_byte (48 + d).
Definition is_digit (c : byte) : bool := (48 <=? byte_Z c) && (byte_Z c <=? 57).
Definition digit_val (c : byte) : Z := byte_Z c - 48.

Fixpoint format_digits (fuel : nat) (n : Z) (acc : bytes) : bytes :=
  match fuel with
  | O => acc
  | S fuel => if n <? 10 then digit n :: acc else format_digits fuel (n / 10) (digit (n mod 10) :: acc)
  end.

(** A uint64 has at most 20 digits. *)
Definition FormatUint (n : Z) : bytes := format_digits 20 n [].
Definition Itoa (n : Z) : bytes := if n <? 0 then char_minus :: FormatUint (- n) else FormatUint n.

(** [ParseUint(s, 10, 64)] without its error: 0 for a syntax error, the largest
    uint64 when the number does not fit, whichever is met first. *)
Fixpoint parse_digits (n : Z) (s : bytes) : Z :=
  match s with
  | [] => n
  | c :: s =>
      if negb (is_digit c) then 0
      else if MaxUint64 / 10 + 1 <=? n then MaxUint64
      else
        let n1 := n * 10 + digit_val c in
        if MaxUint64 <? n1 then MaxUint64 else parse_digits n1 s
  end.
Definition ParseUint (s : bytes) : Z := match s with [] => 0 | _ => parse_digits 0 s end.

(** The value of a string of digits. *)
Definition dec_val (s : bytes) : Z := fold_left (fun n c => n * 10 + digit_val c) s 0.

(** [strings.Split(s, ".")] *)
Fixpoint split_dot (s : bytes) : list bytes :=
  match s with
  | [] => [[]]
  | c :: s =>
      if bool_decide (c = char_dot) then [] :: split_dot s
      else match split_dot s with p :: ps => (c :: p) :: ps | [] => [[c]] end
  end.

(** ** Byte amounts (calculator.go) *)

Definition AddBigInt (a b : bytes) : bytes := Bytes (SetBytes a + SetBytes b).

(** [Bytes] drops the sign. *)
Definition SubBigIntAbs (a b : bytes) : bytes := Bytes (SetBytes a - SetBytes b).

Definition MinBigInt (a b : bytes) : bytes := if SetBytes b <? SetBytes a then b else a.

Definition CmpToBigZero (a : bytes) : Z := Z.sgn (SetBytes a).

Definition big_Cmp (x y : Z) : Z := if x <? y then -1 else if x =? y then 0 else 1.

Definition CmpForBigInt (a b : bytes) : Z :=
  if (len a =? 0) && (len b =? 0) then 0
  else if len a =? 0 then -1
  else if len b =? 0 then 1
  else big_Cmp (SetBytes a) (SetBytes b).

(** The new amount, what was subtracted, and whether it exceeded. *)
Definition SafeSubBigInt (amt sub : bytes) : bytes * bytes * bool :=
  if 0 <? CmpForBigInt sub amt then ([], amt, true) else (SubBigIntAbs amt sub, sub, false).

Definition GetAbs (v : Z) : Z * Z := if v <? 0 then (- v, -1) else (v, 1).

(** ** Floating point (calculator.go)

    A quotient by zero is infinite: [None]. *)
Definition bigFloatPrec : Z := 120.

Definition f_half : float := mkFloat 1 (-1).

Definition AdjustForDecimalsDiff (f : float) (decimalsDiff : Z) : float :=
  if decimalsDiff =? 0 then f
  else
    let '(dcDiffAbs, dcDiffSign) := GetAbs decimalsDiff in
    let d := f_SetInt bigFloatPrec (10 ^ dcDiffAbs) in
    if 0 <? dcDiffSign then default f (f_Quo bigFloatPrec f d) else f_Mul bigFloatPrec f d.

Definition RoundAmount (f : float) : Z := f_Int (f_Add bigFloatPrec f f_half).

Definition FloorQuantity (f : float) : Z := f_Int f.

Definition AdjustAmountForDecimalsDiff (amount : bytes) (decimalsDiff : Z) : Z :=
  RoundAmount (AdjustForDecimalsDiff (f_SetInt bigFloatPrec (SetBytes amount)) decimalsDiff).

(** [SetString] on digits with at most one point, the texts this package gives
    it: the nearest float.  The number of digits is small enough for the power
    of ten to be exact. *)
Definition f_SetString (prec : Z) (s : bytes) : option float :=
  match split_dot s with
  | [i] => if forallb is_digit i && (0 <? len i) then Some (f_round prec (dec_val i) 1) else None
  | [i; d] =>
      if forallb is_digit (i ++ d) && (0 <? len (i ++ d))
      then Some (f_round prec (dec_val (i ++ d)) (10 ^ len d)) else None
  | _ => None
  end.

(** ** Prices (utils.go, fund_helper.go) *)

Definition priceIntMaxLen : Z := 12.
Definition priceDecimalMaxLen : Z := 12.
Definition PriceBytesLength : Z := 10.

Definition right_pad (n : Z) (s : bytes) : bytes := s ++ replicate (Z.to_nat (n - len s)) char_0.
Definition left_pad (n : Z) (s : bytes) : bytes := replicate (Z.to_nat (n - len s)) char_0 ++ s.

(** The low five bytes of the number. *)
Definition PriceToBytes (price : bytes) : bytes :=
  let '(intPart, decimalPart) :=
    match split_dot price with
    | [i; d] => (i, d)
    | i :: _ => (i, [])
    | [] => ([], [])
    end in
  let five v := drop 3 (be_bytes 8 v) in
  let intBytes := if 0 <? len intPart then five (ParseUint intPart) else zero_bytes 5 in
  let decimalBytes :=
    if 0 <? len decimalPart then
      five (ParseUint (if len decimalPart <? priceDecimalMaxLen
                       then right_pad priceDecimalMaxLen decimalPart else decimalPart))
    else zero_bytes 5 in
  intBytes ++ decimalBytes.

Fixpoint trim_zeros (rs : bytes) : bytes :=
  match rs with
  | [] => []
  | c :: r => if bool_decide (c = char_0) then trim_zeros r else rs
  end.

(** Decimals of more than twelve digits give a negative slice index. *)
Definition BytesToPrice (priceBytes : bytes) : outcome unit bytes :=
  let intValue := SetBytes (take 5 priceBytes) in
  let decimalValue := SetBytes (drop 5 priceBytes) in
  let intStr := if intValue =? 0 then [char_0] else FormatUint intValue in
  if decimalValue =? 0 then Ok intStr
  else
    let decimalStr := FormatUint decimalValue in
    if priceDecimalMaxLen <? len decimalStr then Panic PSlice
    else
      let arr := left_pad priceDecimalMaxLen decimalStr in
      Ok (intStr ++ [char_dot] ++ rev (trim_zeros (rev arr))).

Definition checkPriceChar (price : bytes) : bool :=
  forallb (fun c => bool_decide (c = char_dot) || is_digit c) price.

(** [strconv.ParseFloat(price, 64)] on digits and points: [None] is an error, of
    syntax or range; the boolean tells whether the number is positive.  A
    number too small for a float64 has more decimals than a price may have. *)
Definition ParseFloat_positive (s : bytes) : option bool :=
  let within v := if 2 ^ 1024 - 2 ^ 970 <=? v then None else Some (0 <? v) in
  match split_dot s with
  | [i] => if 0 <? len i then within (dec_val i) else None
  | [i; d] =>
      if 0 <? len (i ++ d) then
        match within (dec_val i) with Some b => Some (b || (0 <? dec_val d)) | None => None end
      else None
  | _ => None
  end.

(** [strings.Index(s, ".")] *)
Fixpoint index_dot (s : bytes) : option Z :=
  match s with
  | [] => None
  | c :: s => if bool_decide (c = char_dot) then Some 0 else Z.succ <$> index_dot s
  end.

(** Text with other characters is refused by [checkPriceChar] or before. *)
Definition ValidPrice (price : bytes) (isFork : bool) : bool :=
  if len price =? 0 then false
  else if negb (checkPriceChar price) then false
  else match ParseFloat_positive price with
       | Some true =>
           match index_dot price with
           | Some idx =>
               if priceIntMaxLen <? idx then false
               else if priceDecimalMaxLen <? len price - (idx + 1) then false else true
           | None => if isFork && (priceIntMaxLen <? len price) then false else true
           end
       | _ => false
       end.

(** ** Rates (utils.go) *)

Definition RateCardinalNum : Z := 100000.

(** [s[a:b]], in the middle of which [b] may be left of [a]. *)
Definition str_slice (s : bytes) (a b : Z) : outcome unit bytes :=
  if (a <? 0) || (b <? a) || (len s <? b) then Panic PSlice
  else Ok (take (Z.to_nat (b - a)) (drop (Z.to_nat a) s)).

Definition CardinalRateToString (rawRate : Z) : outcome unit bytes :=
  let rateStr := Itoa rawRate in
  let cardinalStr := Itoa RateCardinalNum in
  let rateLen := len rateStr in
  let cardinalLen := len cardinalStr in
  if cardinalLen <=? rateLen then
    i ← str_slice rateStr 0 (rateLen - cardinalLen + 1);
    d ← str_slice rateStr (rateLen - cardinalLen + 1) cardinalLen;
    Ok (i ++ [char_dot] ++ d)
  else Ok ([char_0; char_dot] ++ left_pad (cardinalLen - 1) rateStr).

(** ** Amounts from prices and rates (matcher.go) *)

Definition price_float (price : bytes) : outcome unit float :=
  s ← BytesToPrice price;
  or_panic PNil (f_SetString bigFloatPrec s).

Definition CalculateRawAmountF (quantity price : bytes) (decimalsDiff : Z) : outcome unit float :=
  prF ← price_float price;
  let qtF := f_SetInt bigFloatPrec (SetBytes quantity) in
  Ok (AdjustForDecimalsDiff (f_Mul bigFloatPrec prF qtF) decimalsDiff).

Definition CalculateRawAmount (quantity price : bytes) (decimalsDiff : Z) : outcome unit bytes :=
  f ← CalculateRawAmountF quantity price decimalsDiff;
  Ok (Bytes (RoundAmount f)).

(** Zero divided by zero panics. *)
Definition CalculateRawQuantityF (amount price : bytes) (decimalsDiff : Z) : outcome unit (option float) :=
  prF ← price_float price;
  let amountF := f_SetInt bigFloatPrec (SetBytes amount) in
  match f_Quo bigFloatPrec amountF prF with
  | Some f => Ok (Some (AdjustForDecimalsDiff f decimalsDiff))
  | None => if f_mant amountF =? 0 then Panic PDivZero else Ok None
  end.

(** An infinite float has no integer value: [Int] returns nil. *)
Definition CalculateRawQuantity (amount price : bytes) (decimalsDiff : Z) : outcome unit bytes :=
  f ← CalculateRawQuantityF amount price decimalsDiff;
  f ← or_panic PNil f;
  Ok (Bytes (FloorQuantity f)).

Definition CalculateAmountForRate (amount : bytes) (rate : Z) : outcome unit bytes :=
  if 0 <? rate then
    let amtF := f_SetInt bigFloatPrec (SetBytes amount) in
    s ← CardinalRateToString rate;
    rateF ← or_panic PNil (f_SetString bigFloatPrec s);
    Ok (Bytes (RoundAmount (f_Mul bigFloatPrec amtF rateF)))
  else Ok [].
