(* ===== verification/DexOrder.v ===== *)
(** Orders of the exchange and where they are kept: src/vm/contracts/dex/order.go,
    the order ids of utils.go, leveldb_book.go, and the storage helpers of
    trade_helper.go. *)
From S2P Require Import Prelude Helper Float Types Upgrade VmDb Iterator DexNumber.
#[local] Open Scope Z_scope.

(** ** Errors (errors.go) *)

Inductive dex_err :=
| DeComposeOrderIdFailErr
| OrderNotExistsErr
| TradeMarketNotExistsErr
| NotSetTimestampErr
| MultiMarketsInOneActionErr
| InvalidOrderIdErr
| InvalidOrderHashErr
| InvalidInputParamErr
| InvalidOperationErr
| CancelOrderOwnerInvalidErr
| CancelOrderInvalidStatusErr
| ExceedFundAvailableErr
| OrderAmountTooSmallErr
| InvalidOrderTypeErr
| InvalidOrderPriceErr
| InvalidOrderQuantityErr
| DexStoppedErr
| TradeMarketStoppedErr
| TradeMarketNotGrantedErr
| InvalidSourceAddressErr
| InvalidTokenErr
| LockedVxAmountLeavedNotValidErr
| VxFundSumNegativeErr
| SettleActionsErr
| InvalidTimestampFromTimeOracleErr
| OracleTimestampExceedPeriodGapErr
| UnmarshalErr      (* an error of the protobuf library *)
| DexOutOfFuel.     (* the model's bound on a scan was too small *)

Abbreviation dexM := (outcome dex_err).

(** A panic of a helper stays a panic. *)
Definition no_err {A} (r : outcome unit A) : dexM A :=
  match r with Ok a => Ok a | Err _ => Panic PDex | Panic p => Panic p end.

Definition fueled {A} (r : outcome starved A) : dexM A :=
  match r with Ok a => Ok a | Err _ => Err DexOutOfFuel | Panic p => Panic p end.

Definition i32 (z : Z) : Z := (z + 2 ^ 31) mod 2 ^ 32 - 2 ^ 31.
Definition u32 (z : Z) : Z := z mod 2 ^ 32.

(** ** Orders (order.go, proto/dex_order.proto) *)

Definition Pending : Z := 0.
Definition PartialExecuted : Z := 1.
Definition FullyExecuted : Z := 2.
Definition Cancelled : Z := 3.

Definition cancelledByUser : Z := 0.
Definition cancelledByMarket : Z := 1.
Definition cancelledOnTimeout : Z := 2.
Definition partialExecutedUserCancelled : Z := 3.
Definition partialExecutedCancelledByMarket : Z := 4.
Definition partialExecutedCancelledOnTimeout : Z := 5.
Definition unknownCancelledOnTimeout : Z := 6.
Definition cancelledByPostOnlyMatched : Z := 7.
Definition cancelledByFillOrKillNotFilled : Z := 8.
Definition cancelledByExceedMarketOrderAmtThreshold : Z := 9.

Definition Limited : Z := 0.
Definition Market : Z := 1.
Definition PostOnly : Z := 2.
Definition FillOrKill : Z := 3.
Definition ImmediateOrCancel : Z := 4.

Definition OrderIdBytesLength : Z := 22.

(** [Side] is false for a buy order, true for a sell order. *)
Record Order := mkOrder {
  od_Id : bytes;
  od_Address : bytes;
  od_MarketId : Z;
  od_Side : bool;
  od_Type : Z;
  od_Price : bytes;
  od_TakerFeeRate : Z;
  od_MakerFeeRate : Z;
  od_TakerOperatorFeeRate : Z;
  od_MakerOperatorFeeRate : Z;
  od_Quantity : bytes;
  od_Amount : bytes;
  od_LockedBuyFee : bytes;
  od_Status : Z;
  od_CancelReason : Z;
  od_ExecutedQuantity : bytes;
  od_ExecutedAmount : bytes;
  od_ExecutedBaseFee : bytes;
  od_ExecutedOperatorFee : bytes;
  od_RefundToken : bytes;
  od_RefundQuantity : bytes;
  od_Timestamp : Z;
  od_Agent : bytes;
  od_SendHash : bytes;
  od_MarketOrderAmtThreshold : bytes;
}.

(** The assignments to fields that the code makes together. *)
Definition set_key (o : Order) (id : bytes) (marketId : Z) (side : bool) (price : bytes)
    (timestamp : Z) : Order :=
  mkOrder id (od_Address o) marketId side (od_Type o) price (od_TakerFeeRate o) (od_MakerFeeRate o)
    (od_TakerOperatorFeeRate o) (od_MakerOperatorFeeRate o) (od_Quantity o) (od_Amount o)
    (od_LockedBuyFee o) (od_Status o) (od_CancelReason o) (od_ExecutedQuantity o)
    (od_ExecutedAmount o) (od_ExecutedBaseFee o) (od_ExecutedOperatorFee o) (od_RefundToken o)
    (od_RefundQuantity o) timestamp (od_Agent o) (od_SendHash o) (od_MarketOrderAmtThreshold o).

Definition set_status (o : Order) (status reason : Z) : Order :=
  mkOrder (od_Id o) (od_Address o) (od_MarketId o) (od_Side o) (od_Type o) (od_Price o)
    (od_TakerFeeRate o) (od_MakerFeeRate o) (od_TakerOperatorFeeRate o) (od_MakerOperatorFeeRate o)
    (od_Quantity o) (od_Amount o) (od_LockedBuyFee o) status reason (od_ExecutedQuantity o)
    (od_ExecutedAmount o) (od_ExecutedBaseFee o) (od_ExecutedOperatorFee o) (od_RefundToken o)
    (od_RefundQuantity o) (od_Timestamp o) (od_Agent o) (od_SendHash o) (od_MarketOrderAmtThreshold o).

Definition set_executed (o : Order) (quantity amount baseFee operatorFee : bytes) : Order :=
  mkOrder (od_Id o) (od_Address o) (od_MarketId o) (od_Side o) (od_Type o) (od_Price o)
    (od_TakerFeeRate o) (od_MakerFeeRate o) (od_TakerOperatorFeeRate o) (od_MakerOperatorFeeRate o)
    (od_Quantity o) (od_Amount o) (od_LockedBuyFee o) (od_Status o) (od_CancelReason o) quantity
    amount baseFee operatorFee (od_RefundToken o)
    (od_RefundQuantity o) (od_Timestamp o) (od_Agent o) (od_SendHash o) (od_MarketOrderAmtThreshold o).

Definition set_refund (o : Order) (token quantity : bytes) : Order :=
  mkOrder (od_Id o) (od_Address o) (od_MarketId o) (od_Side o) (od_Type o) (od_Price o)
    (od_TakerFeeRate o) (od_MakerFeeRate o) (od_TakerOperatorFeeRate o) (od_MakerOperatorFeeRate o)
    (od_Quantity o) (od_Amount o) (od_LockedBuyFee o) (od_Status o) (od_CancelReason o)
    (od_ExecutedQuantity o) (od_ExecutedAmount o) (od_ExecutedBaseFee o) (od_ExecutedOperatorFee o)
    token quantity (od_Timestamp o) (od_Agent o) (od_SendHash o) (od_MarketOrderAmtThreshold o).

(** proto/dex_order.proto *)
Record MarketInfo := mkMarketInfo {
  mk_MarketId : Z;
  mk_MarketSymbol : bytes;
  mk_TradeToken : bytes;
  mk_QuoteToken : bytes;
  mk_QuoteTokenType : Z;
  mk_TradeTokenDecimals : Z;
  mk_QuoteTokenDecimals : Z;
  mk_TakerOperatorFeeRate : Z;
  mk_MakerOperatorFeeRate : Z;
  mk_AllowMining : bool;
  mk_Valid : bool;
  mk_Owner : bytes;
  mk_Creator : bytes;
  mk_Stopped : bool;
  mk_Timestamp : Z;
  mk_StableMarket : bool;
}.

Record Transaction := mkTransaction {
  tx_Id : bytes;
  tx_TakerSide : bool;
  tx_TakerId : bytes;
  tx_MakerId : bytes;
  tx_Price : bytes;
  tx_Quantity : bytes;
  tx_Amount : bytes;
  tx_TakerFee : bytes;
  tx_MakerFee : bytes;
  tx_TakerOperatorFee : bytes;
  tx_MakerOperatorFee : bytes;
  tx_Timestamp : Z;
}.

Record SerialNo := mkSerialNo { sn_No : Z; sn_Timestamp : Z }.

(** The events of events.go that the matcher logs. *)
Inductive DexEvent :=
| NewOrderEvent (order : Order) (tradeToken quoteToken : bytes)
| OrderUpdateEvent (order : Order) (tradeToken quoteToken : bytes)
| TransactionEvent (tx : Transaction).

(** ** The surroundings

    The protobuf library, the hash function, the log of an event (its topic and
    its protobuf form), the upgrade points, and the bound the model puts on
    scans of the storage. *)
Record dexEnv := mkDexEnv {
  marshal_Order : Order -> bytes;
  unmarshal_Order : bytes -> option Order;
  marshal_MarketInfo : MarketInfo -> bytes;
  unmarshal_MarketInfo : bytes -> option MarketInfo;
  marshal_SerialNo : SerialNo -> bytes;
  unmarshal_SerialNo : bytes -> option SerialNo;
  crypto_Hash : Z -> list bytes -> bytes;
  newLog : DexEvent -> VmLog;
  dex_box : upgradeBox;
  scan_fuel : nat;
}.

(** ** Storage helpers (utils.go, trade_helper.go, fund_storage.go) *)

Definition getValueFromDb (db : vmDb) (key : bytes) : dexM bytes :=
  match db_GetValue db key with Ok v => Ok v | Err _ => Panic PDb | Panic p => Panic p end.

Definition setValueToDb (db : vmDb) (key value : bytes) : dexM vmDb :=
  match db_SetValue db key value with Ok db => Ok db | Err _ => Panic PDb | Panic p => Panic p end.

(** deserializeFromDb: [None] when the key holds nothing. *)
Definition deserializeFromDb {A} (unmarshal : bytes -> option A) (db : vmDb) (key : bytes) :
    dexM (option A) :=
  data ← getValueFromDb db key;
  if 0 <? len data then a ← or_panic PDex (unmarshal data); Ok (Some a) else Ok None.

Definition serializeToDb {A} (marshal : A -> bytes) (db : vmDb) (key : bytes) (a : A) : dexM vmDb :=
  setValueToDb db key (marshal a).

(** GenerateHeightPoint and the fork tests of fund_helper.go *)
Definition latestHeight (db : vmDb) : dexM Z :=
  match db_LatestSnapshotBlock db with
  | Ok sb => Ok (sb_Height sb)
  | Err _ => Panic PDb
  | Panic p => Panic p
  end.

Definition Uint64ToBytes (v : Z) : bytes := be_bytes 8 v.
Definition Uint32ToBytes (v : Z) : bytes := be_bytes 4 v.

(** binary.BigEndian.Uint32 and Uint64 panic on short slices. *)
Definition BytesToUint32 (bs : bytes) : dexM Z :=
  if len bs <? 4 then Panic PIndex else Ok (SetBytes (take 4 bs)).
Definition BytesToUint64 (bs : bytes) : dexM Z :=
  if len bs <? 8 then Panic PIndex else Ok (SetBytes (take 8 bs)).

Definition BitwiseNotBytes (bs : bytes) : bytes := (fun b => Z_byte (255 - byte_Z b)) <$> bs.

(** In ASCII mkIf: ttmsp: hmId: orIdSl: tts: *)
Definition marketByMarketIdPrefix : bytes := [x6d; x6b; x49; x66; x3a].
Definition tradeTimestampKey : bytes := [x74; x74; x6d; x73; x70; x3a].
Definition sendHashMapOrderIdPrefixKey : bytes := [x68; x6d; x49; x64; x3a].
Definition orderIdSerialNoKey : bytes := [x6f; x72; x49; x64; x53; x6c; x3a].
Definition dexTimestampKey : bytes := [x74; x74; x73; x3a].

Definition GetMarketInfoKeyById (marketId : Z) : bytes :=
  marketByMarketIdPrefix ++ Uint32ToBytes (u32 marketId).

Definition GetMarketInfoById (e : dexEnv) (db : vmDb) (marketId : Z) : dexM (option MarketInfo) :=
  deserializeFromDb (unmarshal_MarketInfo e) db (GetMarketInfoKeyById marketId).

Definition SaveMarketInfoById (e : dexEnv) (db : vmDb) (m : MarketInfo) : dexM vmDb :=
  serializeToDb (marshal_MarketInfo e) db (GetMarketInfoKeyById (mk_MarketId m)) m.

Definition SetTradeTimestamp (db : vmDb) (timestamp : Z) : dexM vmDb :=
  setValueToDb db tradeTimestampKey (Uint64ToBytes (u64 timestamp)).

Definition GetTradeTimestamp (db : vmDb) : dexM Z :=
  bs ← getValueFromDb db tradeTimestampKey;
  if len bs =? 8 then t ← BytesToUint64 bs; Ok (i64 t) else Ok 0.

(** [sendHash[len(prefix):]] panics on a shorter hash. *)
Definition GetHashMapOrderIdKey (sendHash : bytes) : dexM bytes :=
  if len sendHash <? len sendHashMapOrderIdPrefixKey then Panic PSlice
  else Ok (sendHashMapOrderIdPrefixKey ++ drop 5 sendHash).

Definition SaveHashMapOrderId (db : vmDb) (sendHash orderId : bytes) : dexM vmDb :=
  key ← GetHashMapOrderIdKey sendHash; setValueToDb db key orderId.

Definition GetOrderIdByHash (db : vmDb) (sendHash : bytes) : dexM (option bytes) :=
  key ← GetHashMapOrderIdKey sendHash;
  orderId ← getValueFromDb db key;
  if len orderId =? OrderIdBytesLength then Ok (Some orderId) else Ok None.

Definition DeleteHashMapOrderId (db : vmDb) (sendHash : bytes) : dexM vmDb :=
  key ← GetHashMapOrderIdKey sendHash; setValueToDb db key [].

Definition TryUpdateTimestamp (db : vmDb) (timestamp : Z) (preHash : Hash) : dexM vmDb :=
  header ← or_panic PIndex (head preHash);
  if byte_Z header <? 32 then SetTradeTimestamp db timestamp else Ok db.

Definition GetDexTimestamp (db : vmDb) : dexM Z :=
  bs ← getValueFromDb db dexTimestampKey;
  if len bs =? 8 then t ← BytesToUint64 bs; Ok (i64 t) else Ok 0.

Definition GetTimestampInt64 (db : vmDb) : dexM Z :=
  timestamp ← GetDexTimestamp db;
  if timestamp =? 0 then Panic PDex else Ok timestamp.

Definition NewAndSaveOrderSerialNo (e : dexEnv) (db : vmDb) (timestamp : Z) : dexM (vmDb * Z) :=
  serialNo ← deserializeFromDb (unmarshal_SerialNo e) db orderIdSerialNoKey;
  let newSerialNo :=
    match serialNo with
    | None => 0
    | Some sn => if timestamp =? sn_Timestamp sn then i32 (sn_No sn + 1) else 0
    end in
  db ← serializeToDb (marshal_SerialNo e) db orderIdSerialNoKey (mkSerialNo newSerialNo timestamp);
  Ok (db, newSerialNo).

(** ** Order ids (utils.go) *)

(** MarketId[0..2] Side[3] Price[4..13] timestamp[14..18] serialNo[19..21] *)
Definition order_id (marketId : Z) (side : bool) (priceBytes : bytes) (timestamp serialNo : Z) : bytes :=
  drop 1 (Uint32ToBytes (u32 marketId)) ++ [if side then x01 else x00] ++
  (if side then priceBytes else BitwiseNotBytes priceBytes) ++
  drop 3 (Uint64ToBytes (u64 timestamp)) ++ drop 1 (Uint32ToBytes (u32 serialNo)).

Definition ComposeOrderId (e : dexEnv) (db : vmDb) (marketId : Z) (side : bool) (price : bytes) :
    dexM (vmDb * bytes) :=
  timestamp ← GetTimestampInt64 db;
  '(db, serialNo) ← NewAndSaveOrderSerialNo e db timestamp;
  Ok (db, order_id marketId side (PriceToBytes price) timestamp serialNo).

Definition DeComposeOrderId (id : bytes) : dexM (Z * bool * bytes * Z) :=
  if negb (len id =? OrderIdBytesLength) then Err DeComposeOrderIdFailErr
  else
    marketId ← BytesToUint32 (x00 :: take 3 id);
    side ← or_panic PIndex (id !! 3%nat);
    let side := bool_decide (side = x01) in
    let price := take 10 (drop 4 id) in
    timestamp ← BytesToUint64 ([x00; x00; x00] ++ take 5 (drop 14 id));
    Ok (i32 marketId, side, if side then price else BitwiseNotBytes price, i64 timestamp).

(** ** Serialization (order.go) *)

Definition RenderOrderById (o : Order) (orderId : bytes) : dexM Order :=
  '(marketId, side, price, timestamp) ← DeComposeOrderId orderId;
  Ok (set_key o (od_Id o) marketId side price timestamp).

Definition Serialize (e : dexEnv) (o : Order) : bytes :=
  marshal_Order e (set_key o (od_Id o) 0 false [] 0).

Definition DeSerialize (e : dexEnv) (orderData : bytes) : dexM Order :=
  match unmarshal_Order e orderData with
  | None => Err UnmarshalErr
  | Some o => RenderOrderById o (od_Id o)
  end.

Definition SerializeCompact (e : dexEnv) (o : Order) : bytes :=
  Serialize e (set_key o [] (od_MarketId o) (od_Side o) (od_Price o) (od_Timestamp o)).

Definition DeSerializeCompact (e : dexEnv) (orderData orderId : bytes) : dexM Order :=
  match unmarshal_Order e orderData with
  | None => Err UnmarshalErr
  | Some o =>
      RenderOrderById (set_key o orderId (od_MarketId o) (od_Side o) (od_Price o) (od_Timestamp o)) orderId
  end.

(** ** The book (leveldb_book.go) *)

Record levelDbBook := mkBook { bk_marketId : Z; bk_side : bool; bk_iterator : MergedIterator cursor }.

Definition getBookPrefix (marketId : Z) (side : bool) : bytes :=
  drop 1 (Uint32ToBytes (u32 marketId)) ++ [if side then x01 else x00].

Definition getMakerBook (db : vmDb) (marketId : Z) (side : bool) : dexM levelDbBook :=
  match db_NewStorageIterator db (getBookPrefix marketId side) with
  | Ok it => Ok (mkBook marketId side it)
  | Err _ => Panic PDb
  | Panic p => Panic p
  end.

Definition nextOrder (e : dexEnv) (book : levelDbBook) : dexM (levelDbBook * option Order) :=
  moved ← fueled (mi_Next (scan_fuel e) (bk_iterator book));
  let '(it, ok) := (moved : MergedIterator cursor * bool) in
  let book := mkBook (bk_marketId book) (bk_side book) it in
  if negb ok then
    match mi_err it with Some _ => Panic PDb | None => Ok (book, None) end
  else
    orderId ← fueled (mi_Key it);
    orderData ← fueled (mi_Value it);
    if negb (len orderId =? OrderIdBytesLength) || (len orderData =? 0) then Panic PDex
    else
      match DeSerializeCompact e orderData orderId with
      | Ok order => Ok (book, Some order)
      | Err _ => Panic PDex
      | Panic p => Panic p
      end.
