(* ===== verification/DexMatcher.v ===== *)
(** The order matcher of the exchange: src/vm/contracts/dex/matcher.go, and
    CleanExpireOrders of trade_helper.go.

    A [Matcher] is passed and returned; the orders a call changes are returned
    in their new state.  Each maker comes from the book once, so no two of the
    code's pointers name the same order. *)
From S2P Require Import Prelude Helper Float Types Upgrade VmDb Iterator DexNumber DexOrder.
#[local] Open Scope Z_scope.

Definition maxTxsCountPerTaker : Z := 100.
Definition timeoutSecond : Z := 30 * 24 * 3600.
Definition txIdLength : Z := 20.

(** proto/dex_fund.proto *)
Record AccountSettle := mkAccountSettle {
  as_IsTradeToken : bool;
  as_IncAvailable : bytes;
  as_ReduceLocked : bytes;
  as_ReleaseLocked : bytes;
}.

Record FeeSettle := mkFeeSettle { fe_Address : bytes; fe_BaseFee : bytes; fe_OperatorFee : bytes }.

Record Matcher := mkMatcher {
  mt_db : vmDb;
  mt_MarketInfo : MarketInfo;
  mt_fundSettles : gmap Address (gmap bool AccountSettle);
  mt_feeSettles : gmap Address FeeSettle;
}.

Record OrderTx := mkOrderTx {
  ot_tx : Transaction;
  ot_takerAddress : bytes;
  ot_makerAddress : bytes;
  ot_tradeToken : bytes;
  ot_quoteToken : bytes;
}.

Definition with_db (mc : Matcher) (db : vmDb) : Matcher :=
  mkMatcher db (mt_MarketInfo mc) (mt_fundSettles mc) (mt_feeSettles mc).

Definition NewMatcherWithMarketInfo (db : vmDb) (m : MarketInfo) : Matcher := mkMatcher db m ∅ ∅.

Definition NewMatcher (e : dexEnv) (db : vmDb) (marketId : Z) : dexM Matcher :=
  m ← GetMarketInfoById e db marketId;
  match m with Some m => Ok (NewMatcherWithMarketInfo db m) | None => Err TradeMarketNotExistsErr end.

Definition GetOrderById (e : dexEnv) (mc : Matcher) (orderId : bytes) : dexM Order :=
  data ← getValueFromDb (mt_db mc) orderId;
  if 0 <? len data then DeSerializeCompact e data orderId else Err OrderNotExistsErr.

(** ** Settlements *)

(** [address.SetBytes] leaves the zero address when the length is wrong. *)
Definition address_of (bs : bytes) : Address := (BytesToAddress bs).1.

Definition updateFundSettle (mc : Matcher) (addressBytes : bytes) (settle : AccountSettle) : Matcher :=
  let address := address_of addressBytes in
  let settleMap := default ∅ (mt_fundSettles mc !! address) in
  let ac := default (mkAccountSettle (as_IsTradeToken settle) [] [] []) (settleMap !! as_IsTradeToken settle) in
  let ac := mkAccountSettle (as_IsTradeToken ac)
              (AddBigInt (as_IncAvailable ac) (as_IncAvailable settle))
              (AddBigInt (as_ReduceLocked ac) (as_ReduceLocked settle))
              (AddBigInt (as_ReleaseLocked ac) (as_ReleaseLocked settle)) in
  mkMatcher (mt_db mc) (mt_MarketInfo mc)
    (<[address := <[as_IsTradeToken settle := ac]> settleMap]> (mt_fundSettles mc)) (mt_feeSettles mc).

Definition updateFee (mc : Matcher) (address feeAmt operatorFee : bytes) : Matcher :=
  let addr := address_of address in
  let feeSettle :=
    match mt_feeSettles mc !! addr with
    | None => mkFeeSettle address feeAmt operatorFee
    | Some f => mkFeeSettle (fe_Address f) (AddBigInt (fe_BaseFee f) feeAmt) (AddBigInt (fe_OperatorFee f) operatorFee)
    end in
  mkMatcher (mt_db mc) (mt_MarketInfo mc) (mt_fundSettles mc) (<[addr := feeSettle]> (mt_feeSettles mc)).

Definition handleTxFundSettle (mc : Matcher) (ot : OrderTx) : Matcher :=
  let tx := ot_tx ot in
  let takerFees := AddBigInt (tx_TakerFee tx) (tx_TakerOperatorFee tx) in
  let makerFees := AddBigInt (tx_MakerFee tx) (tx_MakerOperatorFee tx) in
  let '(takerIn, takerOut, makerIn, makerOut) :=
    if tx_TakerSide tx then
      (mkAccountSettle false (SubBigIntAbs (tx_Amount tx) takerFees) [] [],
       mkAccountSettle true [] (tx_Quantity tx) [],
       mkAccountSettle true (tx_Quantity tx) [] [],
       mkAccountSettle false [] (AddBigInt (tx_Amount tx) makerFees) [])
    else
      (mkAccountSettle true (tx_Quantity tx) [] [],
       mkAccountSettle false [] (AddBigInt (tx_Amount tx) takerFees) [],
       mkAccountSettle false (SubBigIntAbs (tx_Amount tx) makerFees) [] [],
       mkAccountSettle true [] (tx_Quantity tx) []) in
  let mc := updateFundSettle mc (ot_takerAddress ot) takerIn in
  let mc := updateFundSettle mc (ot_takerAddress ot) takerOut in
  let mc := updateFundSettle mc (ot_makerAddress ot) makerIn in
  let mc := updateFundSettle mc (ot_makerAddress ot) makerOut in
  let mc := updateFee mc (ot_takerAddress ot) (tx_TakerFee tx) (tx_TakerOperatorFee tx) in
  updateFee mc (ot_makerAddress ot) (tx_MakerFee tx) (tx_MakerOperatorFee tx).

Definition addLog (e : dexEnv) (mc : Matcher) (ev : DexEvent) : Matcher :=
  with_db mc (db_AddLog (mt_db mc) (newLog e ev)).

Definition emitNewOrder (e : dexEnv) (mc : Matcher) (taker : Order) : Matcher :=
  addLog e mc (NewOrderEvent taker (mk_TradeToken (mt_MarketInfo mc)) (mk_QuoteToken (mt_MarketInfo mc))).

(** The update event carries the status, the executed amounts and the refund of
    the order. *)
Definition emitOrderUpdate (e : dexEnv) (mc : Matcher) (o : Order) : Matcher :=
  addLog e mc (OrderUpdateEvent o (mk_TradeToken (mt_MarketInfo mc)) (mk_QuoteToken (mt_MarketInfo mc))).

Fixpoint handleTxs (e : dexEnv) (mc : Matcher) (txs : list OrderTx) : Matcher :=
  match txs with
  | [] => mc
  | tx :: txs => handleTxs e (addLog e (handleTxFundSettle mc tx) (TransactionEvent (ot_tx tx))) txs
  end.

Definition handleRefund (mc : Matcher) (o : Order) : Matcher * Order :=
  if (od_Status o =? FullyExecuted) || (od_Status o =? Cancelled) then
    let '(token, quantity) :=
      if od_Side o then
        (mk_TradeToken (mt_MarketInfo mc), SubBigIntAbs (od_Quantity o) (od_ExecutedQuantity o))
      else
        let refundAmount := SubBigIntAbs (od_Amount o) (od_ExecutedAmount o) in
        let refundFee := SubBigIntAbs (SubBigIntAbs (od_LockedBuyFee o) (od_ExecutedBaseFee o))
                                      (od_ExecutedOperatorFee o) in
        (mk_QuoteToken (mt_MarketInfo mc), AddBigInt refundAmount refundFee) in
    if 0 <? CmpToBigZero quantity then
      (updateFundSettle mc (od_Address o) (mkAccountSettle (od_Side o) [] [] quantity), set_refund o token quantity)
    else (mc, set_refund o [] [])
  else (mc, o).

(** ** Storing orders *)

Definition saveOrder (e : dexEnv) (mc : Matcher) (o : Order) (isTaker : bool) : dexM Matcher :=
  db ← setValueToDb (mt_db mc) (od_Id o) (SerializeCompact e o);
  if isTaker && (0 <? len (od_SendHash o)) then
    db ← SaveHashMapOrderId db (od_SendHash o) (od_Id o); Ok (with_db mc db)
  else Ok (with_db mc db).

Definition deleteOrder (mc : Matcher) (o : Order) : dexM Matcher :=
  db ← setValueToDb (mt_db mc) (od_Id o) [];
  if 0 <? len (od_SendHash o) then
    db ← DeleteHashMapOrderId db (od_SendHash o); Ok (with_db mc db)
  else Ok (with_db mc db).

Fixpoint handleModifiedMakers (e : dexEnv) (mc : Matcher) (makers : list Order) : dexM Matcher :=
  match makers with
  | [] => Ok mc
  | maker :: makers =>
      '(mc, maker) ←
        (if (od_Status maker =? FullyExecuted) || (od_Status maker =? Cancelled) then
           let '(mc, maker) := handleRefund mc maker in
           mc ← deleteOrder mc maker; Ok (mc, maker)
         else mc ← saveOrder e mc maker false; Ok (mc, maker));
      handleModifiedMakers e (emitOrderUpdate e mc maker) makers
  end.

Definition CancelOrderById (e : dexEnv) (mc : Matcher) (o : Order) : dexM Matcher :=
  let reason := if od_Status o =? Pending then cancelledByUser
                else if od_Status o =? PartialExecuted then partialExecutedUserCancelled
                else od_CancelReason o in
  let '(mc, o) := handleRefund mc (set_status o Cancelled reason) in
  deleteOrder (emitOrderUpdate e mc o) o.

(** ** Execution of a match *)

Definition decimalsDiff (m : MarketInfo) : Z := i32 (mk_TradeTokenDecimals m - mk_QuoteTokenDecimals m).

Definition calculateOrderAmount (o : Order) (quantity price : bytes) (diff : Z) : dexM bytes :=
  amount ← no_err (CalculateRawAmount quantity price diff);
  if negb (od_Side o) && (SetBytes (od_Amount o) <? SetBytes (AddBigInt (od_ExecutedAmount o) amount))
  then Ok (SubBigIntAbs (od_Amount o) (od_ExecutedAmount o)) else Ok amount.

Definition calculateOrderQuantity (amount price : bytes) (diff : Z) : dexM bytes :=
  no_err (CalculateRawQuantity amount price diff).

(** The increment of a fee, the fee executed so far, and whether any of the
    locked fee is left. *)
Definition calculateExecutedFee (amount : bytes) (feeRate : Z) (side : bool)
    (originExecutedFee totalLockedAmount : bytes) (usedAmounts : list bytes) :
    dexM (bytes * bytes * bool) :=
  if feeRate =? 0 then Ok ([], originExecutedFee, true)
  else
    incFee ← no_err (CalculateAmountForRate amount feeRate);
    if side then Ok (incFee, AddBigInt originExecutedFee incFee, true)
    else
      let totalUsedAmount := fold_left AddBigInt usedAmounts [] in
      if CmpForBigInt totalLockedAmount totalUsedAmount <=? 0 then Ok ([], originExecutedFee, false)
      else
        let totalUsedAmountNew := AddBigInt totalUsedAmount incFee in
        let '(incFee, leaved) :=
          if CmpForBigInt totalLockedAmount totalUsedAmountNew <=? 0
          then (SubBigIntAbs totalLockedAmount totalUsedAmount, false) else (incFee, true) in
        Ok (incFee, AddBigInt originExecutedFee incFee, leaved).

Definition CalculateFeeAndExecutedFee (box : upgradeBox) (o : Order) (amount : bytes)
    (feeRate operatorFeeRate height : Z) : dexM (bytes * bytes * bytes * bytes) :=
  '(incBaseFee, executedBaseFee, leaved) ←
    calculateExecutedFee amount feeRate (od_Side o) (od_ExecutedBaseFee o) (od_LockedBuyFee o)
      [od_ExecutedBaseFee o; od_ExecutedOperatorFee o];
  if (leaved : bool) then
    '(incOperatorFee, executedOperatorFee, _) ←
      calculateExecutedFee amount operatorFeeRate (od_Side o) (od_ExecutedOperatorFee o) (od_LockedBuyFee o)
        [executedBaseFee; od_ExecutedOperatorFee o];
    Ok (incBaseFee, executedBaseFee, incOperatorFee, executedOperatorFee)
  else if IsDexFeeUpgrade box height then Ok (incBaseFee, executedBaseFee, [], od_ExecutedOperatorFee o)
  else Ok (incBaseFee, executedBaseFee, [], []).

(** *** Dust: what is left is worth less than one unit *)

Definition f_one : float := mkFloat 1 0.

Definition IsOrderDustForPrice (o : Order) (quantity : bytes) (diff : Z) (price : bytes) : dexM bool :=
  f ← no_err (CalculateRawAmountF (SubBigIntAbs (SubBigIntAbs (od_Quantity o) (od_ExecutedQuantity o)) quantity) price diff);
  Ok (f_ltb f f_one).

Definition IsOrderDustForAmount (o : Order) (amount : bytes) (diff : Z) (price : bytes) : dexM bool :=
  f ← no_err (CalculateRawQuantityF (SubBigIntAbs (SubBigIntAbs (od_Amount o) (od_ExecutedAmount o)) amount) price diff);
  Ok (match f with Some f => f_ltb f f_one | None => false end).

Definition IsDustOrder (o : Order) (quantity : bytes) (diff : Z) (executedPrice : bytes) : dexM bool :=
  IsOrderDustForPrice o quantity diff (if od_Type o =? Market then executedPrice else od_Price o).

Definition IsDustMarketBuyOrder (o : Order) (amount : bytes) (diff : Z) (executedPrice : bytes) : dexM bool :=
  if od_Side o then Ok false else IsOrderDustForAmount o amount diff executedPrice.

Definition IsDustOrderAfterUpgrade12 (o : Order) (quantity amount : bytes) (diff : Z) (executedPrice : bytes) :
    dexM bool :=
  if od_Type o =? Market then IsDustMarketBuyOrder o amount (i32 (- diff)) executedPrice
  else IsOrderDustForPrice o quantity diff (od_Price o).

Definition remaining_is (o : Order) (quantity amount : bytes) : bool :=
  bool_decide (SubBigIntAbs (od_Quantity o) (od_ExecutedQuantity o) = quantity) ||
  ((od_Type o =? Market) && negb (od_Side o) &&
   bool_decide (SubBigIntAbs (od_Amount o) (od_ExecutedAmount o) = amount)).

Definition updateOrderAfterUpgrade12 (o : Order) (quantity amount executedBaseFee executedOperatorFee : bytes)
    (diff : Z) (executedPrice : bytes) : dexM Order :=
  full ← (if remaining_is o quantity amount then Ok true
          else IsDustOrderAfterUpgrade12 o quantity amount diff executedPrice);
  let o := set_status o (if (full : bool) then FullyExecuted else PartialExecuted) (od_CancelReason o) in
  Ok (set_executed o (AddBigInt (od_ExecutedQuantity o) quantity) (AddBigInt (od_ExecutedAmount o) amount)
                   executedBaseFee executedOperatorFee).

(** Before the upgrade the executed amount was updated before it was compared. *)
Definition updateOrderBeforeUpgrade12 (o : Order) (quantity amount executedBaseFee executedOperatorFee : bytes)
    (diff : Z) (executedPrice : bytes) : dexM Order :=
  let o := set_executed o (od_ExecutedQuantity o) (AddBigInt (od_ExecutedAmount o) amount)
             (od_ExecutedBaseFee o) (od_ExecutedOperatorFee o) in
  full ← (if remaining_is o quantity amount then Ok true else IsDustOrder o quantity diff executedPrice);
  let o := set_status o (if (full : bool) then FullyExecuted else PartialExecuted) (od_CancelReason o) in
  Ok (set_executed o (AddBigInt (od_ExecutedQuantity o) quantity) (od_ExecutedAmount o)
                   executedBaseFee executedOperatorFee).

Definition updateOrder (v12 : bool) := if v12 then updateOrderAfterUpgrade12 else updateOrderBeforeUpgrade12.

Definition generateTxId (e : dexEnv) (takerId makerId : bytes) : bytes := crypto_Hash e txIdLength [takerId; makerId].

(** What the taker can take: since upgrade 12 a market buy order is limited by
    the amount it has left. *)
Definition takerQuantity (v12 : bool) (taker maker : Order) (m : MarketInfo) : dexM bytes :=
  let q := SubBigIntAbs (od_Quantity taker) (od_ExecutedQuantity taker) in
  if v12 && (od_Type taker =? Market) && negb (od_Side taker) then
    let maxTakerAmount := SubBigIntAbs (od_Amount taker) (od_ExecutedAmount taker) in
    maxTakerQuantity ← calculateOrderQuantity maxTakerAmount (od_Price maker)
                         (i32 (mk_QuoteTokenDecimals m - mk_TradeTokenDecimals m));
    Ok (MinBigInt q maxTakerQuantity)
  else Ok q.

(** calculateOrderAndTxAfterUpgrade12 and calculateOrderAndTxBeforeUpgrade12:
    the taker, the maker and the trade. *)
Definition calculateOrderAndTx (e : dexEnv) (taker maker : Order) (m : MarketInfo) (height : Z) :
    dexM (Order * Order * OrderTx) :=
  let v12 := IsVersion12Upgrade (dex_box e) height in
  let diff := decimalsDiff m in
  takerQuantity ← takerQuantity v12 taker maker m;
  let executeQuantity := MinBigInt takerQuantity (SubBigIntAbs (od_Quantity maker) (od_ExecutedQuantity maker)) in
  takerAmount ← calculateOrderAmount taker executeQuantity (od_Price maker) diff;
  makerAmount ← calculateOrderAmount maker executeQuantity (od_Price maker) diff;
  let executeAmount := MinBigInt takerAmount makerAmount in
  '(takerFee, takerExecutedFee, takerOperatorFee, takerExecutedOperatorFee) ←
    CalculateFeeAndExecutedFee (dex_box e) taker executeAmount (od_TakerFeeRate taker)
      (od_TakerOperatorFeeRate taker) height;
  '(makerFee, makerExecutedFee, makerOperatorFee, makerExecutedOperatorFee) ←
    CalculateFeeAndExecutedFee (dex_box e) maker executeAmount (od_MakerFeeRate maker)
      (od_MakerOperatorFeeRate maker) height;
  taker' ← updateOrder v12 taker executeQuantity executeAmount takerExecutedFee takerExecutedOperatorFee
             diff (od_Price maker);
  maker' ← updateOrder v12 maker executeQuantity executeAmount makerExecutedFee makerExecutedOperatorFee
             diff (od_Price maker);
  Ok (taker', maker',
      mkOrderTx (mkTransaction (generateTxId e (od_Id taker) (od_Id maker)) (od_Side taker) (od_Id taker)
                   (od_Id maker) (od_Price maker) executeQuantity executeAmount takerFee makerFee
                   takerOperatorFee makerOperatorFee (od_Timestamp taker))
        (od_Address taker) (od_Address maker) (mk_TradeToken m) (mk_QuoteToken m)).

(** ** Matching *)

Definition priceCompare (a b : bytes) : Z := bytes_Compare a b.

Definition matchPrice (taker maker : Order) : bool :=
  let cmp := priceCompare (od_Price taker) (od_Price maker) in
  if (od_Type taker =? Market) || (cmp =? 0) then true
  else if od_Side taker then cmp <=? 0 else 0 <=? cmp.

(** [Some] of the cancelled order when the maker is out of date. *)
Definition filterTimeout (e : dexEnv) (db : vmDb) (maker : Order) : dexM (option Order) :=
  currentTime ← GetTradeTimestamp db;
  if currentTime =? 0 then Ok None
  else if i64 (od_Timestamp maker + timeoutSecond) <? currentTime then
    height ← latestHeight db;
    if IsVersion11Upgrade (dex_box e) height then Ok None
    else
      let reason := if od_Status maker =? Pending then cancelledOnTimeout
                    else if od_Status maker =? PartialExecuted then partialExecutedCancelledOnTimeout
                    else unknownCancelledOnTimeout in
      Ok (Some (set_status maker Cancelled reason))
  else Ok None.

(** The taker, the modified makers and the trades so far. *)
Record taking := mkTaking { tk_taker : Order; tk_makers : list Order; tk_txs : list OrderTx }.

(** One round of recursiveTakeOrder: the new state, and whether to go on with
    the next maker. *)
Definition take_maker (e : dexEnv) (db : vmDb) (m : MarketInfo) (height : Z) (st : taking) (maker : Order) :
    dexM (taking * bool) :=
  let taker := tk_taker st in
  let next st := (st, negb ((od_Status (tk_taker st) =? FullyExecuted) || (od_Status (tk_taker st) =? Cancelled))) in
  expired ← filterTimeout e db maker;
  match expired with
  | Some maker => Ok (next (mkTaking taker (tk_makers st ++ [maker]) (tk_txs st)))
  | None =>
      if matchPrice taker maker then
        if od_Type taker =? PostOnly then
          Ok (mkTaking (set_status taker Cancelled cancelledByPostOnlyMatched) (tk_makers st) (tk_txs st), false)
        else
          '(taker, maker, tx) ← calculateOrderAndTx e taker maker m height;
          let txs := tk_txs st ++ [tx] in
          let taker :=
            if (od_Status taker =? PartialExecuted) && (maxTxsCountPerTaker <=? Z.of_nat (length txs))
            then set_status taker Cancelled partialExecutedCancelledByMarket else taker in
          Ok (next (mkTaking taker (tk_makers st ++ [maker]) txs))
      else Ok (st, false)
  end.

(** [n] bounds the number of makers visited. *)
Fixpoint recursiveTakeOrder (n : nat) (e : dexEnv) (db : vmDb) (m : MarketInfo) (height : Z) (st : taking)
    (maker : Order) (book : levelDbBook) : dexM taking :=
  match n with
  | O => Err DexOutOfFuel
  | S n =>
      '(st, more) ← take_maker e db m height st maker;
      if (more : bool) then
        '(book, newMaker) ← nextOrder e book;
        match newMaker with
        | Some newMaker => recursiveTakeOrder n e db m height st newMaker book
        | None => Ok st
        end
      else Ok st
  end.

Definition checkMarketOrderAmtThreshold (taker : Order) : Order * bool :=
  if (od_Type taker =? Market) &&
     (SetBytes (od_MarketOrderAmtThreshold taker) <?
      SetBytes (od_ExecutedAmount taker) + SetBytes (od_ExecutedBaseFee taker) +
      SetBytes (od_ExecutedOperatorFee taker))
  then (set_executed (set_status taker Cancelled cancelledByExceedMarketOrderAmtThreshold) [] [] [] [], true)
  else (taker, false).

Definition handleTakerRes (e : dexEnv) (mc : Matcher) (taker : Order) : dexM (Matcher * Order) :=
  let '(taker, exceeded) := checkMarketOrderAmtThreshold taker in
  '(mc, taker) ←
    (if (exceeded : bool) then Ok (handleRefund mc taker)
     else if (od_Status taker =? PartialExecuted) || (od_Status taker =? Pending) then
       let taker :=
         if (od_Type taker =? Market) || (od_Type taker =? ImmediateOrCancel)
         then set_status taker Cancelled cancelledByMarket
         else if od_Type taker =? FillOrKill
         then set_executed (set_status taker Cancelled cancelledByFillOrKillNotFilled) [] [] [] []
         else taker in
       if od_Status taker =? Cancelled then Ok (handleRefund mc taker)
       else mc ← saveOrder e mc taker true; Ok (mc, taker)
     else Ok (handleRefund mc taker));
  Ok (emitNewOrder e mc taker, taker).

(** The trades are dropped again when the taker had to be filled and was not,
    or cost more than its threshold. *)
Definition undone (taker : Order) : bool :=
  (od_CancelReason taker =? cancelledByFillOrKillNotFilled) ||
  (od_CancelReason taker =? cancelledByExceedMarketOrderAmtThreshold).

Definition doMatchTaker (e : dexEnv) (mc : Matcher) (taker : Order) (book : levelDbBook) (preHash : Hash) :
    dexM (Matcher * Order) :=
  '(book, maker) ← nextOrder e book;
  '(mc, taker) ←
    match (maker : option Order) with
    | None => handleTakerRes e mc taker
    | Some maker =>
        height ← latestHeight (mt_db mc);
        st ← recursiveTakeOrder (scan_fuel e) e (mt_db mc) (mt_MarketInfo mc) height
               (mkTaking taker [] []) maker book;
        '(mc, taker) ← handleTakerRes e mc (tk_taker st);
        if undone taker then Ok (mc, taker)
        else
          mc ← handleModifiedMakers e mc (tk_makers st);
          Ok (handleTxs e mc (tk_txs st), taker)
    end;
  db ← TryUpdateTimestamp (mt_db mc) (od_Timestamp taker) preHash;
  Ok (with_db mc db, taker).

Definition MatchOrder (e : dexEnv) (mc : Matcher) (taker : Order) (preHash : Hash) : dexM (Matcher * Order) :=
  book ← getMakerBook (mt_db mc) (mk_MarketId (mt_MarketInfo mc)) (negb (od_Side taker));
  doMatchTaker e mc taker book preHash.

(** ** Expired orders (trade_helper.go) *)

Fixpoint order_ids (n : nat) (orderIds : bytes) : list bytes :=
  match n with
  | O => []
  | S n => take 22 orderIds :: order_ids n (drop 22 orderIds)
  end.

(** The loop of CleanExpireOrders; the first order decides the market. *)
Fixpoint expired_makers (e : dexEnv) (db : vmDb) (marketId : Z) (mc : option Matcher) (ids : list bytes)
    (makers : list Order) : dexM (option Matcher * list Order) :=
  match ids with
  | [] => Ok (mc, makers)
  | orderId :: ids =>
      '(mkId, _, _, _) ← DeComposeOrderId orderId;
      if negb (marketId =? 0) && negb (mkId =? marketId) then Err MultiMarketsInOneActionErr
      else
        let marketId := if marketId =? 0 then mkId else marketId in
        mc ← (match mc with Some mc => Ok mc | None => NewMatcher e db marketId end);
        match GetOrderById e mc orderId with
        | Err OrderNotExistsErr => expired_makers e db marketId (Some mc) ids makers
        | Err err => Err err
        | Panic p => Panic p
        | Ok order =>
            expired ← filterTimeout e db order;
            expired_makers e db marketId (Some mc) ids (makers ++ option_list expired)
        end
  end.

Definition CleanExpireOrders (e : dexEnv) (db : vmDb) (orderIds : bytes) : dexM (option Matcher) :=
  currentTime ← GetTradeTimestamp db;
  if currentTime =? 0 then Err NotSetTimestampErr
  else
    '(mc, makers) ← expired_makers e db 0 None (order_ids (length orderIds / 22) orderIds) [];
    match (mc : option Matcher), makers with
    | Some mc, _ :: _ => mc ← handleModifiedMakers e mc makers; Ok (Some mc)
    | _, _ => Ok None
    end.
