(* ===== verification/DexFund.v ===== *)
(** The funds of the exchange: accounts and what is stored of them
    (src/vm/contracts/dex/fund_storage.go), the forks of fund_helper.go and the
    thresholds of quote tokens.

    A [Fund] holds one account per token.  The code changes accounts through
    pointers into the list of a fund it has read, and then saves the fund; here
    the first account of the token is replaced. *)
From S2P Require Import Prelude Helper Float TimeIndex Types Upgrade VmDb Iterator DexNumber DexOrder DexMatcher.
From stdpp Require Import sorting.
#[local] Open Scope Z_scope.

(** ** Stored messages (proto/dex_fund.proto) *)

Record Account := mkAccount {
  ac_Token : bytes;
  ac_Available : bytes;
  ac_Locked : bytes;
  ac_VxLocked : bytes;
  ac_VxUnlocking : bytes;
  ac_CancellingStake : bytes;
}.

Record Fund := mkFund { fu_Address : bytes; fu_Accounts : list Account }.

Record TokenInfo := mkTokenInfo {
  tk_TokenId : bytes;
  tk_Decimals : Z;
  tk_Symbol : bytes;
  tk_Index : Z;
  tk_Owner : bytes;
  tk_QuoteTokenType : Z;
}.

Record VxFundByPeriod := mkVxFundByPeriod { vf_Period : Z; vf_Amount : bytes }.

Record VIPStaking := mkVIPStaking { vs_Timestamp : Z; vs_StakedTimes : Z; vs_StakingHashes : list bytes }.

Record FeeAccount := mkFeeAccount { fa_QuoteTokenType : Z; fa_BaseAmount : bytes; fa_InviteBonusAmount : bytes }.
Record FeesByPeriod := mkFeesByPeriod { fp_Fees : list FeeAccount; fp_Period : Z }.

Record FeeForDividend := mkFeeForDividend { fd_Token : bytes; fd_DividendPoolAmount : bytes; fd_NotRoll : bool }.

Record DexFeesByPeriod := mkDexFees {
  df_FeesForDividend : list FeeForDividend;
  df_FeesForMine : list FeeAccount;
  df_LastValidPeriod : Z;
  df_FinishDividend : bool;
  df_FinishMine : bool;
}.

Record OperatorMarketFee := mkOperatorMarketFee {
  of_MarketId : Z;
  of_TakerOperatorFeeRate : Z;
  of_MakerOperatorFeeRate : Z;
  of_Amount : bytes;
}.

Record OperatorFeeAccount := mkOperatorFeeAccount { oa_Token : bytes; oa_MarketFees : list OperatorMarketFee }.

Record FundSettle := mkFundSettle { fs_Address : bytes; fs_AccountSettles : list AccountSettle }.

Record SettleActions := mkSettleActions {
  sa_TradeToken : bytes;
  sa_QuoteToken : bytes;
  sa_FundActions : list FundSettle;
  sa_FeeActions : list FeeSettle;
}.

(** ** The surroundings

    How the protobuf library writes and reads a message. *)
Record codec (A : Type) := mkCodec { marshal : A -> bytes; unmarshal : bytes -> option A }.
Arguments mkCodec {A} _ _.
Arguments marshal {A} _ _.
Arguments unmarshal {A} _ _.

Record TransferAssetEvent := mkTransferAssetEvent {
  ta_BizType : Z;
  ta_From : bytes;
  ta_To : bytes;
  ta_Token : bytes;
  ta_Amount : bytes;
  ta_Extra : bytes;
}.

(** The messages that are stored or sent, the log of a transfer, and the cycles of the
    consensus reader. *)
Record fundEnv := mkFundEnv {
  fe_dex : dexEnv;
  fund_codec : codec Fund;
  token_codec : codec TokenInfo;
  vxFunds_codec : codec (list VxFundByPeriod);
  vip_codec : codec VIPStaking;
  userFees_codec : codec (list FeesByPeriod);
  dexFees_codec : codec DexFeesByPeriod;
  operatorFees_codec : codec (list OperatorFeeAccount);
  settle_codec : codec SettleActions;
  transferLog : TransferAssetEvent -> VmLog;
  fe_day : timeIndex;
}.

(** IsDexFeeFork, IsStemFork, ... of fund_helper.go, and util.CheckFork *)
Definition CheckFork (e : fundEnv) (db : vmDb) (f : upgradeBox -> Z -> bool) : dexM bool :=
  h ← latestHeight db; Ok (f (dex_box (fe_dex e)) h).

Definition IsDexFeeFork e db := CheckFork e db IsDexFeeUpgrade.
Definition IsStemFork e db := CheckFork e db IsStemUpgrade.
Definition IsLeafFork e db := CheckFork e db IsLeafUpgrade.
Definition IsEarthFork e db := CheckFork e db IsEarthUpgrade.
Definition IsDexRobotFork e db := CheckFork e db IsDexRobotUpgrade.
Definition IsDexStableMarketFork e db := CheckFork e db IsDexStableMarketUpgrade.
Definition IsVersion11Fork e db := CheckFork e db IsVersion11Upgrade.

(** ** Keys

    In ASCII fd: tk: mk: uF: fS: lFSPId: bf: vxF: vxFS: vxlF: vxlFS: pldVip:
    pldSpVip: ite2itr: gtMkAt: dexStp: mTrAt: mTh: moaTh: *)
Definition fundKeyPrefix : bytes := [x66; x64; x3a].
Definition tokenInfoKeyPrefix : bytes := [x74; x6b; x3a].
Definition marketInfoKeyPrefix : bytes := [x6d; x6b; x3a].
Definition userFeeKeyPrefix : bytes := [x75; x46; x3a].
Definition dexFeesKeyPrefix : bytes := [x66; x53; x3a].
Definition lastDexFeesPeriodIdKey : bytes := [x6c; x46; x53; x50; x49; x64; x3a].
Definition operatorFeesKeyPrefix : bytes := [x62; x66; x3a].
Definition vxFundKeyPrefix : bytes := [x76; x78; x46; x3a].
Definition vxSumFundsKey : bytes := [x76; x78; x46; x53; x3a].
Definition vxLockedFundsKeyPrefix : bytes := [x76; x78; x6c; x46; x3a].
Definition vxLockedSumFundsKey : bytes := [x76; x78; x6c; x46; x53; x3a].
Definition vipStakingKeyPrefix : bytes := [x70; x6c; x64; x56; x69; x70; x3a].
Definition superVIPStakingKeyPrefix : bytes := [x70; x6c; x64; x53; x70; x56; x69; x70; x3a].
Definition inviterByInviteeKeyPrefix : bytes := [x69; x74; x65; x32; x69; x74; x72; x3a].
Definition grantedMarketToAgentKeyPrefix : bytes := [x67; x74; x4d; x6b; x41; x74; x3a].
Definition dexStoppedKey : bytes := [x64; x65; x78; x53; x74; x70; x3a].
Definition minTradeAmountKeyPrefix : bytes := [x6d; x54; x72; x41; x74; x3a].
Definition mineThresholdKeyPrefix : bytes := [x6d; x54; x68; x3a].
Definition marketOrderAmtThresholdKeyPrefix : bytes := [x6d; x6f; x61; x54; x68; x3a].

(** VITEX COIN *)
Definition VxTokenId : TokenTypeId := [x56; x49; x54; x45; x58; x20; x43; x4f; x49; x4e].

Definition commonTokenPow : Z := 10 ^ 18.
Definition VxDividendThreshold : Z := commonTokenPow * 10.

Definition GetFundKey (address : Address) : bytes := fundKeyPrefix ++ address.
Definition GetTokenInfoKey (token : TokenTypeId) : bytes := tokenInfoKeyPrefix ++ token.
Definition GetMarketInfoKey (tradeToken quoteToken : TokenTypeId) : bytes :=
  marketInfoKeyPrefix ++ tradeToken ++ quoteToken.

(** ** Reading and writing *)

Definition deserialize {A} (c : codec A) := deserializeFromDb (unmarshal c).
Definition serialize {A} (c : codec A) := serializeToDb (marshal c).

Definition GetTokenInfo (e : fundEnv) (db : vmDb) (token : TokenTypeId) : dexM (option TokenInfo) :=
  deserialize (token_codec e) db (GetTokenInfoKey token).

Definition GetMarketInfo (e : fundEnv) (db : vmDb) (tradeToken quoteToken : TokenTypeId) :
    dexM (option MarketInfo) :=
  deserializeFromDb (unmarshal_MarketInfo (fe_dex e)) db (GetMarketInfoKey tradeToken quoteToken).

Definition GetMarketInfoByTokens (e : fundEnv) (db : vmDb) (tradeTokenData quoteTokenData : bytes) :
    dexM (option MarketInfo) :=
  let '(tradeToken, ok1) := BytesToTokenTypeId tradeTokenData in
  let '(quoteToken, ok2) := BytesToTokenTypeId quoteTokenData in
  if negb ok1 || negb ok2 then Panic PDex else GetMarketInfo e db tradeToken quoteToken.

Definition IsDexStopped (db : vmDb) : dexM bool := v ← getValueFromDb db dexStoppedKey; Ok (0 <? len v).

(** GetInviterByInvitee: [None] is NotBindInviterErr. *)
Definition GetInviterByInvitee (db : vmDb) (invitee : Address) : dexM (option Address) :=
  bs ← getValueFromDb db (inviterByInviteeKeyPrefix ++ invitee);
  Ok (if len bs =? AddressSize then Some (BytesToAddress bs).1 else None).

(** [data] cut into addresses *)
Fixpoint addresses (n : nat) (data : bytes) : list bytes :=
  match n with O => [] | S n => take 21 data :: addresses n (drop 21 data) end.

Definition GetGrantedMarketToAgentKey (principal : Address) (marketId : Z) : bytes :=
  grantedMarketToAgentKeyPrefix ++ principal ++ drop 1 (Uint32ToBytes (u32 marketId)).

Definition IsMarketGrantedToAgent (db : vmDb) (principal agent : Address) (marketId : Z) : dexM bool :=
  data ← getValueFromDb db (GetGrantedMarketToAgentKey principal marketId);
  if AddressSize <=? len data then
    if len data mod AddressSize =? 0
    then Ok (bool_decide (agent ∈ addresses (Z.to_nat (len data / AddressSize)) data)) else Panic PDex
  else Ok false.

Definition GetCurrentPeriodId (e : fundEnv) (db : vmDb) : dexM Z :=
  timestamp ← GetTimestampInt64 db; no_err (GetIndexByTime (fe_day e) timestamp 0).

(** ** Quote tokens *)

Record QuoteTokenTypeInfo := mkQuoteTokenTypeInfo {
  qi_Decimals : Z;
  qi_DefaultTradeThreshold : Z;
  qi_DefaultMineThreshold : Z;
  qi_DefaultMarketOrderAmtThreshold : Z;
}.

(** Vite, Eth, Btc, Usd; a type that is not in the map gives a nil pointer. *)
Definition QuoteTokenTypeInfos (quoteTokenType : Z) : option QuoteTokenTypeInfo :=
  if quoteTokenType =? 1 then
    Some (mkQuoteTokenTypeInfo 18 (commonTokenPow * 100) (commonTokenPow * 2) (commonTokenPow * 8000000))
  else if quoteTokenType =? 2 then
    Some (mkQuoteTokenTypeInfo 18 (commonTokenPow / 100) (commonTokenPow / 5000) (commonTokenPow * 200))
  else if quoteTokenType =? 3 then Some (mkQuoteTokenTypeInfo 8 50000 1000 1000000000)
  else if quoteTokenType =? 4 then Some (mkQuoteTokenTypeInfo 6 1000000 20000 100000000000)
  else None.

(** GetTradeThreshold, GetMineThreshold and GetMarketOrderAmtThreshold: the
    stored threshold, or the default of the type. *)
Definition GetThreshold (prefix : bytes) (default_of : QuoteTokenTypeInfo -> Z) (db : vmDb) (quoteTokenType : Z) :
    dexM Z :=
  v ← getValueFromDb db (prefix ++ [Z_byte quoteTokenType]);
  if 0 <? len v then Ok (SetBytes v)
  else info ← or_panic PNil (QuoteTokenTypeInfos quoteTokenType); Ok (default_of info).

Definition GetTradeThreshold := GetThreshold minTradeAmountKeyPrefix qi_DefaultTradeThreshold.
Definition GetMineThreshold := GetThreshold mineThresholdKeyPrefix qi_DefaultMineThreshold.
Definition GetMarketOrderAmtThreshold :=
  GetThreshold marketOrderAmtThresholdKeyPrefix qi_DefaultMarketOrderAmtThreshold.

(** ** Accounts *)

Definition set_Available (a : Account) (v : bytes) : Account :=
  mkAccount (ac_Token a) v (ac_Locked a) (ac_VxLocked a) (ac_VxUnlocking a) (ac_CancellingStake a).
Definition set_Locked (a : Account) (v : bytes) : Account :=
  mkAccount (ac_Token a) (ac_Available a) v (ac_VxLocked a) (ac_VxUnlocking a) (ac_CancellingStake a).
Definition set_VxLocked (a : Account) (v : bytes) : Account :=
  mkAccount (ac_Token a) (ac_Available a) (ac_Locked a) v (ac_VxUnlocking a) (ac_CancellingStake a).
Definition set_VxUnlocking (a : Account) (v : bytes) : Account :=
  mkAccount (ac_Token a) (ac_Available a) (ac_Locked a) (ac_VxLocked a) v (ac_CancellingStake a).
Definition set_CancellingStake (a : Account) (v : bytes) : Account :=
  mkAccount (ac_Token a) (ac_Available a) (ac_Locked a) (ac_VxLocked a) (ac_VxUnlocking a) v.

Definition empty_account (token : bytes) : Account := mkAccount token [] [] [] [] [].
Definition empty_fund : Fund := mkFund [] [].

(** The first account of the token. *)
Fixpoint find_account (token : bytes) (accounts : list Account) : option Account :=
  match accounts with
  | [] => None
  | a :: accounts => if bool_decide (ac_Token a = token) then Some a else find_account token accounts
  end.

(** Writing through the pointer to the first account of the token, or appending
    an account. *)
Fixpoint put_account (token : bytes) (account : Account) (accounts : list Account) : list Account :=
  match accounts with
  | [] => [account]
  | a :: accounts =>
      if bool_decide (ac_Token a = token) then account :: accounts else a :: put_account token account accounts
  end.

Definition with_account (fund : Fund) (token : bytes) (account : Account) : Fund :=
  mkFund (fu_Address fund) (put_account token account (fu_Accounts fund)).

Definition GetAccountByToken (fund : Fund) (token : TokenTypeId) : Account * bool :=
  match find_account token (fu_Accounts fund) with
  | Some a => (a, true)
  | None => (empty_account token, false)
  end.

Definition GetFund (e : fundEnv) (db : vmDb) (address : Address) : dexM (Fund * bool) :=
  fund ← deserialize (fund_codec e) db (GetFundKey address);
  Ok (match fund with Some fund => (fund, true) | None => (empty_fund, false) end).

Definition SaveFund (e : fundEnv) (db : vmDb) (address : Address) (fund : Fund) : dexM vmDb :=
  serialize (fund_codec e) db (GetFundKey address) fund.

Definition updateFund (e : fundEnv) (db : vmDb) (address : Address) (tokenId : bytes) (amount : Z)
    (updateAccFunc : Account -> Z -> dexM Account) : dexM (vmDb * Account) :=
  '(fund, ok) ← GetFund e db address;
  if (ok : bool) then
    match find_account tokenId (fu_Accounts fund) with
    | None => Err ExceedFundAvailableErr
    | Some acc =>
        updatedAcc ← updateAccFunc acc amount;
        db ← SaveFund e db address (with_account fund tokenId updatedAcc);
        Ok (db, updatedAcc)
    end
  else Err ExceedFundAvailableErr.

(** [amt] out of [v], if there is as much. *)
Definition checked_sub (v : bytes) (amt : Z) : dexM bytes :=
  if SetBytes v <? amt then Err ExceedFundAvailableErr else Ok (Bytes (SetBytes v - amt)).

Definition ReduceAccount (e : fundEnv) (db : vmDb) (address : Address) (tokenId : bytes) (amount : Z) :
    dexM (vmDb * Account) :=
  updateFund e db address tokenId amount (fun acc amt =>
    available ← checked_sub (ac_Available acc) amt; Ok (set_Available acc available)).

Definition LockVxForDividend (e : fundEnv) (db : vmDb) (address : Address) (amount : Z) : dexM (vmDb * Account) :=
  updateFund e db address VxTokenId amount (fun acc amt =>
    available ← checked_sub (ac_Available acc) amt;
    Ok (set_VxLocked (set_Available acc available) (AddBigInt (ac_VxLocked acc) (Bytes amt)))).

Definition ScheduleVxUnlockForDividend (e : fundEnv) (db : vmDb) (address : Address) (amount : Z) :
    dexM (vmDb * Account) :=
  updateFund e db address VxTokenId amount (fun acc amt =>
    vxLocked ← checked_sub (ac_VxLocked acc) amt;
    if negb (SetBytes vxLocked =? 0) && (SetBytes vxLocked <? VxDividendThreshold)
    then Err LockedVxAmountLeavedNotValidErr
    else Ok (set_VxUnlocking (set_VxLocked acc vxLocked) (AddBigInt (ac_VxUnlocking acc) (Bytes amt)))).

Definition FinishVxUnlockForDividend (e : fundEnv) (db : vmDb) (address : Address) (amount : Z) :
    dexM (vmDb * Account) :=
  updateFund e db address VxTokenId amount (fun acc amt =>
    vxUnlocking ← checked_sub (ac_VxUnlocking acc) amt;
    Ok (set_Available (set_VxUnlocking acc vxUnlocking) (AddBigInt (ac_Available acc) (Bytes amt)))).

Definition ScheduleCancelStake (e : fundEnv) (db : vmDb) (address : Address) (amount : Z) : dexM (vmDb * Account) :=
  updateFund e db address ViteTokenId amount (fun acc amt =>
    Ok (set_CancellingStake acc (AddBigInt (ac_CancellingStake acc) (Bytes amount)))).

Definition FinishCancelStake (e : fundEnv) (db : vmDb) (address : Address) (amount : Z) : dexM (vmDb * Account) :=
  updateFund e db address ViteTokenId amount (fun acc amt =>
    cancelling ← checked_sub (ac_CancellingStake acc) amt;
    Ok (set_Available (set_CancellingStake acc cancelling) (AddBigInt (ac_Available acc) (Bytes amt)))).

(** The updated account and the fund that has it. *)
Definition add_to_account (fund : Fund) (token : bytes) (add : Account -> Account) : Fund * Account :=
  let account := add (default (empty_account token) (find_account token (fu_Accounts fund))) in
  (with_account fund token account, account).

Definition DepositAccount (e : fundEnv) (db : vmDb) (address : Address) (token : TokenTypeId) (amount : Z) :
    dexM (vmDb * Account) :=
  '(userFund, _) ← GetFund e db address;
  let '(userFund, updatedAcc) := add_to_account userFund token (fun acc =>
    set_Available acc (AddBigInt (ac_Available acc) (Bytes amount))) in
  db ← SaveFund e db address userFund;
  Ok (db, updatedAcc).

Definition LockMinedVx (e : fundEnv) (db : vmDb) (address : Address) (amount : Z) : dexM (vmDb * Account) :=
  '(userFund, _) ← GetFund e db address;
  let '(userFund, updatedAcc) := add_to_account userFund VxTokenId (fun acc =>
    set_VxLocked acc (AddBigInt (ac_VxLocked acc) (Bytes amount))) in
  db ← SaveFund e db address userFund;
  Ok (db, updatedAcc).

(** Every account of the fund that is in the map gets its amount; what is left of
    the map is appended in descending order of the token (MapToAmountWithTokens). *)
Fixpoint add_amounts (amounts : gmap TokenTypeId Z) (accounts : list Account) :
    dexM (gmap TokenTypeId Z * list Account) :=
  match accounts with
  | [] => Ok (amounts, [])
  | acc :: accounts =>
      let '(tk, ok) := BytesToTokenTypeId (ac_Token acc) in
      if negb ok then Err InvalidTokenErr
      else
        let '(amounts, acc) :=
          match amounts !! tk with
          | Some amt => (delete tk amounts, set_Available acc (AddBigInt (ac_Available acc) (Bytes amt)))
          | None => (amounts, acc)
          end in
        '(amounts, accounts) ← add_amounts amounts accounts;
        Ok (amounts, acc :: accounts)
  end.

Definition token_ge (x y : TokenTypeId * Z) : Prop := Is_true (bytes_leb y.1 x.1).
#[export] Instance token_ge_dec : RelDecision token_ge.
Proof. intros x y; unfold token_ge; apply _. Defined.

Definition MapToAmountWithTokens (mp : gmap TokenTypeId Z) : list (TokenTypeId * Z) :=
  merge_sort token_ge (map_to_list mp).

Definition BatchUpdateFund (e : fundEnv) (db : vmDb) (address : Address) (amounts : gmap TokenTypeId Z) :
    dexM vmDb :=
  '(userFund, _) ← GetFund e db address;
  '(amounts, accounts) ← add_amounts amounts (fu_Accounts userFund);
  SaveFund e db address (mkFund (fu_Address userFund)
    (accounts ++ ((fun ta => set_Available (empty_account ta.1) (Bytes ta.2)) <$> MapToAmountWithTokens amounts))).
