(* ===== verification/DexSettle.v ===== *)
(** Settlement: src/vm/contracts/dex/fund_settle.go.  Locked funds are reduced or
    released, received tokens become available, the VX held by an account is
    tracked per period, and the fees of trades are collected for dividends, for
    mining and for the operators of markets. *)
From S2P Require Import Prelude Helper Float TimeIndex Types Upgrade VmDb Iterator DexNumber DexOrder DexMatcher DexFund.
From stdpp Require Import list.
#[local] Open Scope Z_scope.

Definition PerPeriodDividendRate : Z := 1000.
Definition InviterBonusRate : Z := 5000.
Definition InviteeBonusRate : Z := 2500.

(** All but the last. *)
Definition init {A} (l : list A) : list A := take (length l - 1) l.

(** ** VX held per period *)

Definition IsValidVxAmountForDividend (amount : Z) : bool := VxDividendThreshold <=? amount.
Definition IsValidVxAmountBytesForDividend (amount : bytes) : bool := IsValidVxAmountForDividend (SetBytes amount).

Definition GetVxFundsKey (e : fundEnv) (db : vmDb) (address : bytes) : dexM bytes :=
  earth ← IsEarthFork e db; Ok ((if (earth : bool) then vxLockedFundsKeyPrefix else vxFundKeyPrefix) ++ address).

Definition GetVxSumFundsKey (e : fundEnv) (db : vmDb) : dexM bytes :=
  earth ← IsEarthFork e db; Ok (if (earth : bool) then vxLockedSumFundsKey else vxSumFundsKey).

Definition getUserNewVxAmtWithForkCheck (e : fundEnv) (db : vmDb) (acc : Account) : dexM Z :=
  earth ← IsEarthFork e db;
  Ok (if (earth : bool) then SetBytes (ac_VxLocked acc) else SetBytes (AddBigInt (ac_Available acc) (ac_Locked acc))).

(** The new list of periods, the change of the sum, and whether to save. *)
Definition update_vx_periods (funds : list VxFundByPeriod) (periodId userNewAmt amtChange : Z) :
    list VxFundByPeriod * option Z * bool :=
  let now := mkVxFundByPeriod periodId (Bytes userNewAmt) in
  match last funds with
  | None =>
      if IsValidVxAmountForDividend userNewAmt then ([now], Some userNewAmt, true) else ([], None, false)
  | Some f =>
      let wasValid := IsValidVxAmountBytesForDividend (vf_Amount f) in
      let dropped := if wasValid then Some (- SetBytes (vf_Amount f)) else None in
      if vf_Period f =? periodId then
        if IsValidVxAmountForDividend userNewAmt
        then (init funds ++ [now], Some (if wasValid then amtChange else userNewAmt), true)
        else (if (1 <? length funds)%nat then init funds ++ [now] else [], dropped, true)
      else if IsValidVxAmountForDividend userNewAmt
      then (funds ++ [now], Some (if wasValid then amtChange else userNewAmt), true)
      else if wasValid then (funds ++ [now], dropped, true) else (funds, None, false)
  end.

Definition update_vx_sum (funds : list VxFundByPeriod) (periodId sumChange : Z) : dexM (list VxFundByPeriod) :=
  match last funds with
  | None => if 0 <? sumChange then Ok [mkVxFundByPeriod periodId (Bytes sumChange)] else Err VxFundSumNegativeErr
  | Some f =>
      let sumRes := SetBytes (vf_Amount f) + sumChange in
      if sumRes <? 0 then Err VxFundSumNegativeErr
      else if vf_Period f =? periodId then Ok (init funds ++ [mkVxFundByPeriod periodId (Bytes sumRes)])
      else Ok (funds ++ [mkVxFundByPeriod periodId (Bytes sumRes)])
  end.

Definition DoSettleVxFunds (e : fundEnv) (db : vmDb) (addressBytes : bytes) (amtChange : Z) (acc : Account) :
    dexM vmDb :=
  key ← GetVxFundsKey e db addressBytes;
  vxFunds ← deserialize (vxFunds_codec e) db key;
  let origin := default [] vxFunds in
  periodId ← GetCurrentPeriodId e db;
  userNewAmt ← getUserNewVxAmtWithForkCheck e db acc;
  let '(funds, sumChange, needUpdate) := update_vx_periods origin periodId userNewAmt amtChange in
  db ← (if (0 <? length funds)%nat && needUpdate then serialize (vxFunds_codec e) db key funds
        else if (length funds =? 0)%nat && (0 <? length origin)%nat then setValueToDb db key []
        else Ok db);
  match sumChange with
  | None => Ok db
  | Some c =>
      if c =? 0 then Ok db
      else
        sumKey ← GetVxSumFundsKey e db;
        vxSumFunds ← deserialize (vxFunds_codec e) db sumKey;
        sumFunds ← update_vx_sum (default [] vxSumFunds) periodId c;
        serialize (vxFunds_codec e) db sumKey sumFunds
  end.

(** OnDepositVx and OnWithdrawVx (with the amount negated) *)
Definition OnChangeVx (e : fundEnv) (db : vmDb) (address : bytes) (amtChange : Z) (acc : Account) : dexM vmDb :=
  earth ← IsEarthFork e db;
  if (earth : bool) then Ok db else DoSettleVxFunds e db address amtChange acc.

Definition OnSettleVx (e : fundEnv) (db : vmDb) (address : bytes) (settle : AccountSettle) (acc : Account) :
    dexM vmDb :=
  earth ← IsEarthFork e db;
  if (earth : bool) then Ok db
  else DoSettleVxFunds e db address (SetBytes (as_IncAvailable settle) - SetBytes (as_ReduceLocked settle)) acc.

(** ** Funds *)

(** [account.Locked] less [sub], or nothing; and what was really taken. *)
Definition take_locked (e : fundEnv) (db : vmDb) (account : Account) (sub : bytes) : dexM (Account * bytes) :=
  let '(locked, actualSub, exceed) := SafeSubBigInt (ac_Locked account) sub in
  if exceed then
    fee ← IsDexFeeFork e db;
    if (fee : bool) then Ok (set_Locked account locked, actualSub) else Panic PDex
  else Ok (set_Locked account locked, actualSub).

Definition settle_account (e : fundEnv) (db : vmDb) (account : Account) (settle : AccountSettle) : dexM Account :=
  account ← (if negb (CmpToBigZero (as_ReduceLocked settle) =? 0) then
               '(account, _) ← take_locked e db account (as_ReduceLocked settle); Ok account
             else Ok account);
  account ← (if negb (CmpToBigZero (as_ReleaseLocked settle) =? 0) then
               '(account, actualSub) ← take_locked e db account (as_ReleaseLocked settle);
               Ok (set_Available account (AddBigInt (ac_Available account) actualSub))
             else Ok account);
  Ok (if negb (CmpToBigZero (as_IncAvailable settle) =? 0)
      then set_Available account (AddBigInt (ac_Available account) (as_IncAvailable settle)) else account).

Fixpoint settle_accounts (e : fundEnv) (db : vmDb) (address : bytes) (m : MarketInfo) (fund : Fund)
    (settles : list AccountSettle) : dexM (vmDb * Fund) :=
  match settles with
  | [] => Ok (db, fund)
  | settle :: settles =>
      let token := if as_IsTradeToken settle then mk_TradeToken m else mk_QuoteToken m in
      let '(tokenId, ok) := BytesToTokenTypeId token in
      if negb ok then Err InvalidTokenErr
      else
        info ← GetTokenInfo e db tokenId;
        match info with
        | None => Panic PDex
        | Some _ =>
            account ← settle_account e db (GetAccountByToken fund tokenId).1 settle;
            db ← (if bool_decide (token = VxTokenId) then OnSettleVx e db address settle account else Ok db);
            settle_accounts e db address m (with_account fund tokenId account) settles
        end
  end.

Definition DoSettleFund (e : fundEnv) (db : vmDb) (action : FundSettle) (m : MarketInfo) : dexM vmDb :=
  let address := address_of (fs_Address action) in
  '(dexFund, _) ← GetFund e db address;
  '(db, dexFund) ← settle_accounts e db (fs_Address action) m dexFund (fs_AccountSettles action);
  SaveFund e db address dexFund.

(** ** Lists that are searched for one entry *)

Fixpoint update_first {A} (p : A -> bool) (f : A -> A) (l : list A) : list A :=
  match l with
  | [] => []
  | x :: l => if p x then f x :: l else x :: update_first p f l
  end.

Definition update_or_append {A} (p : A -> bool) (f : A -> A) (new : A) (l : list A) : list A :=
  if existsb p l then update_first p f l else l ++ [new].

(** ** Fees of users, for mining *)

(** Nil when there is nothing to normalize. *)
Definition NormalizeToQuoteTokenTypeAmount (amount : bytes) (tokenDecimals quoteTokenType : Z) : dexM (option bytes) :=
  if (len amount =? 0) || (CmpToBigZero amount =? 0) then Ok None
  else
    info ← or_panic PDex (QuoteTokenTypeInfos quoteTokenType);
    Ok (Some (Bytes (AdjustAmountForDecimalsDiff amount (i32 (tokenDecimals - qi_Decimals info))))).

Definition IsValidFeeForMine (userFee : FeeAccount) (mineThreshold : Z) : bool :=
  mineThreshold <=? SetBytes (fa_BaseAmount userFee) + SetBytes (fa_InviteBonusAmount userFee).

Definition add_fee (fee : FeeAccount) (base bonus : option bytes) : FeeAccount :=
  let add amount inc := match inc with Some inc => AddBigInt amount inc | None => amount end in
  mkFeeAccount (fa_QuoteTokenType fee) (add (fa_BaseAmount fee) base) (add (fa_InviteBonusAmount fee) bonus).

Definition is_type (quoteTokenType : Z) (fee : FeeAccount) : bool := fa_QuoteTokenType fee =? quoteTokenType.

(** The user's fees, and what to add to the sums when the user mines. *)
Definition add_user_fee (fees : list FeesByPeriod) (periodId mineThreshold quoteTokenType : Z)
    (base bonus : option bytes) : list FeesByPeriod * option (bytes * bytes) :=
  let uf := mkFeeAccount quoteTokenType (default [] base) (default [] bonus) in
  let inc := if IsValidFeeForMine uf mineThreshold then Some (default [] base, default [] bonus) else None in
  match last fees with
  | Some current =>
      if periodId =? fp_Period current then
        match find (is_type quoteTokenType) (fp_Fees current) with
        | Some userFee =>
            let userFee' := add_fee userFee base bonus in
            (init fees ++ [mkFeesByPeriod (update_first (is_type quoteTokenType) (fun _ => userFee') (fp_Fees current)) periodId],
             if IsValidFeeForMine userFee' mineThreshold then
               if IsValidFeeForMine userFee mineThreshold then Some (default [] base, default [] bonus)
               else Some (fa_BaseAmount userFee', fa_InviteBonusAmount userFee')
             else None)
        | None => (init fees ++ [mkFeesByPeriod (fp_Fees current ++ [uf]) periodId], inc)
        end
      else (fees ++ [mkFeesByPeriod [uf] periodId], inc)
  | None => ([mkFeesByPeriod [uf] periodId], inc)
  end.

Definition innerSettleUserFee (e : fundEnv) (db : vmDb) (periodId mineThreshold : Z) (address : bytes)
    (tokenDecimals quoteTokenType : Z) (baseTokenFee inviteBonusTokenFee : bytes) :
    dexM (vmDb * option (bytes * bytes)) :=
  userFees ← deserialize (userFees_codec e) db (userFeeKeyPrefix ++ address);
  base ← NormalizeToQuoteTokenTypeAmount baseTokenFee tokenDecimals quoteTokenType;
  bonus ← NormalizeToQuoteTokenTypeAmount inviteBonusTokenFee tokenDecimals quoteTokenType;
  let '(userFees, sums) := add_user_fee (default [] userFees) periodId mineThreshold quoteTokenType base bonus in
  db ← serialize (userFees_codec e) db (userFeeKeyPrefix ++ address) userFees;
  Ok (db, sums).

(** Who invited an account, as far as it was looked up before. *)
Abbreviation invitations := (gmap Address (option Address)).

(** The inviter with the bonuses of inviter and invitee. *)
Definition getInviteBonusInfo (db : vmDb) (addr : bytes) (inviteRelations : invitations) (fee : bytes) :
    dexM (invitations * option (Address * bytes * bytes)) :=
  let '(address, ok) := BytesToAddress addr in
  if negb ok then Panic PDex
  else
    '(inviteRelations, inviter) ←
      match inviteRelations !! address with
      | Some inviter => Ok (inviteRelations, inviter)
      | None => inviter ← GetInviterByInvitee db address; Ok (<[address := inviter]> inviteRelations, inviter)
      end;
    match (inviter : option Address) with
    | None => Ok (inviteRelations, None)
    | Some inviter =>
        inviterBonus ← no_err (CalculateAmountForRate fee InviterBonusRate);
        inviteeBonus ← no_err (CalculateAmountForRate fee InviteeBonusRate);
        Ok (inviteRelations, Some (inviter, inviterBonus, inviteeBonus))
    end.

Definition add_sums (s1 s2 : bytes * bytes) : bytes * bytes := (AddBigInt s1.1 s2.1, AddBigInt s1.2 s2.2).

Definition settleUserFees (e : fundEnv) (db : vmDb) (periodId tokenDecimals quoteTokenType mineThreshold : Z)
    (feeAction : FeeSettle) (inviteRelations : invitations) :
    dexM (vmDb * invitations * option (bytes * bytes)) :=
  '(inviteRelations, invited) ← getInviteBonusInfo db (fe_Address feeAction) inviteRelations (fe_BaseFee feeAction);
  match (invited : option (Address * bytes * bytes)) with
  | None =>
      '(db, sums) ← innerSettleUserFee e db periodId mineThreshold (fe_Address feeAction) tokenDecimals
                      quoteTokenType (fe_BaseFee feeAction) [];
      Ok (db, inviteRelations, sums)
  | Some (inviter, inviterBonus, inviteeBonus) =>
      earth ← IsEarthFork e db;
      let inviteeBonus := if (earth : bool) then inviteeBonus else [] in
      '(db, sums) ← innerSettleUserFee e db periodId mineThreshold (fe_Address feeAction) tokenDecimals
                      quoteTokenType (fe_BaseFee feeAction) inviteeBonus;
      '(db, sums1) ← innerSettleUserFee e db periodId mineThreshold inviter tokenDecimals quoteTokenType [] inviterBonus;
      Ok (db, inviteRelations,
          match sums1 with Some s1 => Some (add_sums (default ([], []) sums) s1) | None => sums end)
  end.

(** ** Fees of the exchange, per period *)

Definition GetDexFeesKeyByPeriodId (periodId : Z) : bytes := dexFeesKeyPrefix ++ Uint64ToBytes periodId.

Definition GetDexFeesByPeriodId (e : fundEnv) (db : vmDb) (periodId : Z) : dexM (option DexFeesByPeriod) :=
  deserialize (dexFees_codec e) db (GetDexFeesKeyByPeriodId periodId).

(** What is paid out of a pool and what is rolled over to the next period. *)
Definition splitDividendPool (dividend : FeeForDividend) : dexM (Z * Z) :=
  if fd_NotRoll dividend then Ok (SetBytes (fd_DividendPoolAmount dividend), 0)
  else
    toDividend ← no_err (CalculateAmountForRate (fd_DividendPoolAmount dividend) PerPeriodDividendRate);
    Ok (SetBytes toDividend, SetBytes (fd_DividendPoolAmount dividend) - SetBytes toDividend).

Fixpoint roll_pools (earth : bool) (pools : list FeeForDividend) : dexM (list FeeForDividend) :=
  match pools with
  | [] => Ok []
  | pool :: pools =>
      '(_, rolledAmount) ← splitDividendPool pool;
      pools ← roll_pools earth pools;
      Ok (mkFeeForDividend (fd_Token pool) (Bytes rolledAmount)
            (bool_decide (fd_Token pool = ViteTokenId) && earth) :: pools)
  end.

Definition GetDexFeesLastPeriodIdForRoll (db : vmDb) : dexM Z :=
  bs ← getValueFromDb db lastDexFeesPeriodIdKey;
  if len bs =? 8 then BytesToUint64 bs else Ok 0.

Definition RollAndGentNewDexFeesByPeriod (e : fundEnv) (db : vmDb) (periodId : Z) : dexM (vmDb * DexFeesByPeriod) :=
  formerId ← GetDexFeesLastPeriodIdForRoll db;
  rolled ←
    (if 0 <? formerId then
       former ← GetDexFeesByPeriodId e db formerId;
       match former with
       | None => Panic PDex
       | Some former =>
           earth ← IsEarthFork e db;
           pools ← roll_pools earth (df_FeesForDividend former);
           Ok (mkDexFees pools [] formerId false false)
       end
     else Ok (mkDexFees [mkFeeForDividend ViteTokenId [] false] [] 0 false false));
  db ← setValueToDb db lastDexFeesPeriodIdKey (Uint64ToBytes periodId);
  Ok (db, rolled).

(** The base fees of all actions, and the sums for mining. *)
Fixpoint settle_user_fees (e : fundEnv) (db : vmDb) (allowMining : bool)
    (periodId tokenDecimals quoteTokenType mineThreshold : Z) (feeActions : list FeeSettle)
    (inviteRelations : invitations) (dividend : bytes) (mine : option (bytes * bytes)) :
    dexM (vmDb * bytes * option (bytes * bytes)) :=
  match feeActions with
  | [] => Ok (db, dividend, mine)
  | feeAction :: feeActions =>
      let dividend := AddBigInt dividend (fe_BaseFee feeAction) in
      '(db, inviteRelations, sums) ←
        (if allowMining
         then settleUserFees e db periodId tokenDecimals quoteTokenType mineThreshold feeAction inviteRelations
         else Ok (db, inviteRelations, None));
      let mine := match (sums : option (bytes * bytes)) with
                  | Some s => Some (add_sums (default ([], []) mine) s) | None => mine end in
      settle_user_fees e db allowMining periodId tokenDecimals quoteTokenType mineThreshold feeActions
        inviteRelations dividend mine
  end.

Definition add_dividend (dexFees : DexFeesByPeriod) (token dividend : bytes) (extra : option Z) : DexFeesByPeriod :=
  let inc amount := match extra with Some x => AddBigInt amount (Bytes x) | None => amount end in
  mkDexFees
    (update_or_append (fun d => bool_decide (token = fd_Token d))
       (fun d => mkFeeForDividend (fd_Token d) (inc (AddBigInt (fd_DividendPoolAmount d) dividend)) (fd_NotRoll d))
       (mkFeeForDividend token (inc dividend) false) (df_FeesForDividend dexFees))
    (df_FeesForMine dexFees) (df_LastValidPeriod dexFees) (df_FinishDividend dexFees) (df_FinishMine dexFees).

Definition add_mine (dexFees : DexFeesByPeriod) (quoteTokenType : Z) (sums : bytes * bytes) : DexFeesByPeriod :=
  mkDexFees (df_FeesForDividend dexFees)
    (update_or_append (is_type quoteTokenType)
       (fun m => mkFeeAccount (fa_QuoteTokenType m) (AddBigInt (fa_BaseAmount m) sums.1)
                   (if 0 <? len sums.2 then AddBigInt (fa_InviteBonusAmount m) sums.2 else fa_InviteBonusAmount m))
       (mkFeeAccount quoteTokenType sums.1 sums.2) (df_FeesForMine dexFees))
    (df_LastValidPeriod dexFees) (df_FinishDividend dexFees) (df_FinishMine dexFees).

Definition SettleFeesWithTokenId (e : fundEnv) (db : vmDb) (allowMining : bool) (tokenId : TokenTypeId)
    (feeTokenDecimals quoteTokenType : Z) (feeActions : list FeeSettle) (feeForDividend : option Z)
    (inviteRelations : invitations) : dexM vmDb :=
  if (length feeActions =? 0)%nat && match feeForDividend with None => true | Some _ => false end then Ok db
  else
    currentPeriodId ← GetCurrentPeriodId e db;
    saved ← GetDexFeesByPeriodId e db currentPeriodId;
    '(db, dexFees) ← match saved with
                     | Some dexFees => Ok (db, dexFees)
                     | None => RollAndGentNewDexFeesByPeriod e db currentPeriodId
                     end;
    mineThreshold ← (if allowMining then GetMineThreshold db quoteTokenType else Ok 0);
    '(db, dividend, mine) ← settle_user_fees e db allowMining currentPeriodId feeTokenDecimals quoteTokenType
                              mineThreshold feeActions inviteRelations [] None;
    let dexFees := add_dividend dexFees tokenId dividend feeForDividend in
    let dexFees := match (mine : option (bytes * bytes)) with
                   | Some sums => add_mine dexFees quoteTokenType sums | None => dexFees end in
    serialize (dexFees_codec e) db (GetDexFeesKeyByPeriodId currentPeriodId) dexFees.

Definition SettleFees (e : fundEnv) (db : vmDb) (allowMining : bool) (feeToken : bytes)
    (feeTokenDecimals quoteTokenType : Z) (feeActions : list FeeSettle) (feeForDividend : option Z)
    (inviteRelations : invitations) : dexM vmDb :=
  SettleFeesWithTokenId e db allowMining (BytesToTokenTypeId feeToken).1 feeTokenDecimals quoteTokenType feeActions
    feeForDividend inviteRelations.

(** ** Fees of the operators of markets *)

Definition GetCurrentOperatorFeesKey (e : fundEnv) (db : vmDb) (operator : bytes) : dexM bytes :=
  periodId ← GetCurrentPeriodId e db; Ok (operatorFeesKeyPrefix ++ Uint64ToBytes periodId ++ operator).

Definition newOperatorMarketFee (m : MarketInfo) (amount : bytes) : OperatorMarketFee :=
  mkOperatorMarketFee (mk_MarketId m) (mk_TakerOperatorFeeRate m) (mk_MakerOperatorFeeRate m) amount.

Definition incOperatorMarketFee (m : MarketInfo) (incAmt : bytes) (marketFee : OperatorMarketFee) : OperatorMarketFee :=
  mkOperatorMarketFee (of_MarketId marketFee) (mk_TakerOperatorFeeRate m) (mk_MakerOperatorFeeRate m)
    (AddBigInt (of_Amount marketFee) incAmt).

Definition operator_fees (feeActions : list FeeSettle) : option bytes :=
  fold_left (fun acc feeAction =>
    if (0 <? len (fe_OperatorFee feeAction)) && (0 <? CmpToBigZero (fe_OperatorFee feeAction))
    then Some (AddBigInt (default [] acc) (fe_OperatorFee feeAction)) else acc) feeActions None.

Definition add_operator_fee (m : MarketInfo) (incAmt : bytes) (fees : list OperatorFeeAccount) :
    list OperatorFeeAccount :=
  let new := newOperatorMarketFee m incAmt in
  update_or_append (fun a => bool_decide (mk_QuoteToken m = oa_Token a))
    (fun a => mkOperatorFeeAccount (oa_Token a)
                (update_or_append (fun f => of_MarketId f =? mk_MarketId m) (incOperatorMarketFee m incAmt) new
                   (oa_MarketFees a)))
    (mkOperatorFeeAccount (mk_QuoteToken m) [new]) fees.

Definition SettleOperatorFees (e : fundEnv) (db : vmDb) (feeActions : list FeeSettle) (m : MarketInfo) : dexM vmDb :=
  match operator_fees feeActions with
  | None => Ok db
  | Some incAmt =>
      key ← GetCurrentOperatorFeesKey e db (mk_Owner m);
      fees ← deserialize (operatorFees_codec e) db key;
      serialize (operatorFees_codec e) db key (add_operator_fee m incAmt (default [] fees))
  end.
