(* ===== verification/DexPlace.v ===== *)
(** Placing orders: the order checks and the locking of funds of
    src/vm/contracts/dex/fund_helper.go. *)
From S2P Require Import Prelude Helper Float TimeIndex Types Upgrade VmDb Iterator.
From S2P Require Import DexNumber DexOrder DexMatcher DexFund.
#[local] Open Scope Z_scope.

Record ParamPlaceOrder := mkParamPlaceOrder {
  po_TradeToken : TokenTypeId;
  po_QuoteToken : TokenTypeId;
  po_Side : bool;
  po_OrderType : Z;
  po_Price : bytes;
  po_Quantity : Z;
}.

(** The calls the two contracts of the exchange send: a method with its
    arguments, or a plain transfer out of the exchange. *)
Inductive dexCall :=
| CallTradePlaceOrder (leaf : bool) (data : bytes)
| CallTradeInnerCancel (sendHash : Hash) (owner : Address)
| CallFundSettleOrders (leaf : bool) (data : bytes)
| CallTransfer (to : Address) (token : TokenTypeId) (amount : Z) (data : bytes).

Definition BaseFeeRate : Z := 200.
Definition VipReduceFeeRate : Z := 100.
Definition MaxOperatorFeeRate : Z := 200.

Definition ValidOperatorFeeRate (feeRate : Z) : bool := (0 <=? feeRate) && (feeRate <=? MaxOperatorFeeRate).

Definition PreCheckOrderParam (param : ParamPlaceOrder) (isStemFork : bool) : dexM unit :=
  if po_Quantity param <=? 0 then Err InvalidOrderQuantityErr
  else if (po_OrderType param <? Limited) || (ImmediateOrCancel <? po_OrderType param) then Err InvalidOrderTypeErr
  else if negb (po_OrderType param =? Market) && negb (ValidPrice (po_Price param) isStemFork)
  then Err InvalidOrderPriceErr
  else Ok tt.

Definition IsAdvancedLimitOrder (type : Z) (enrichOrderFork : bool) : bool :=
  enrichOrderFork && ((type =? PostOnly) || (type =? FillOrKill) || (type =? ImmediateOrCancel)).

Definition IsMarketOrder (type : Z) (enrichOrderFork : bool) : bool := enrichOrderFork && (type =? Market).

(** ** Rates *)

(** The rates of an order: taker, maker, and the operator's for both. *)
Record rates := mkRates { r_taker : Z; r_maker : Z; r_takerOperator : Z; r_makerOperator : Z }.

Definition MaxTotalFeeRate (r : rates) : Z :=
  let takerRate := i32 (r_taker r + r_takerOperator r) in
  let makerRate := i32 (r_maker r + r_makerOperator r) in
  if makerRate <? takerRate then takerRate else makerRate.

Definition RenderFeeRate (e : fundEnv) (db : vmDb) (address : Address) (m : MarketInfo) : dexM rates :=
  stable ← IsDexStableMarketFork e db;
  if stable && mk_StableMarket m then Ok (mkRates 0 0 0 0)
  else
    superVip ← deserialize (vip_codec e) db (superVIPStakingKeyPrefix ++ address);
    vipReduceFeeRate ←
      match superVip with
      | Some _ => Ok BaseFeeRate
      | None =>
          vip ← deserialize (vip_codec e) db (vipStakingKeyPrefix ++ address);
          Ok (match vip with Some _ => VipReduceFeeRate | None => 0 end)
      end;
    let rate := i32 (BaseFeeRate - vipReduceFeeRate) in
    inviter ← GetInviterByInvitee db address;
    let cut r := match (inviter : option Address) with Some _ => Z.quot (i32 (r * 9)) 10 | None => r end in
    Ok (mkRates (cut rate) (cut rate) (cut (mk_TakerOperatorFeeRate m)) (cut (mk_MakerOperatorFeeRate m))).

(** ** The order *)

Definition isAmountTooSmall (db : vmDb) (amount : bytes) (m : MarketInfo) : dexM bool :=
  typeInfo ← or_panic PNil (QuoteTokenTypeInfos (mk_QuoteTokenType m));
  tradeThreshold ← GetTradeThreshold db (mk_QuoteTokenType m);
  let adjusted :=
    if qi_Decimals typeInfo =? mk_QuoteTokenDecimals m then SetBytes amount
    else AdjustAmountForDecimalsDiff amount (i32 (mk_QuoteTokenDecimals m - qi_Decimals typeInfo)) in
  Ok (adjusted <? tradeThreshold).

Definition findMarket (e : fundEnv) (db : vmDb) (param : ParamPlaceOrder) (accountAddress : Address)
    (agent : option Address) : dexM MarketInfo :=
  stopped ← IsDexStopped db;
  if (stopped : bool) then Err DexStoppedErr
  else
    found ← GetMarketInfo e db (po_TradeToken param) (po_QuoteToken param);
    match found with
    | None => Err TradeMarketNotExistsErr
    | Some m =>
        if negb (mk_Valid m) then Err TradeMarketNotExistsErr
        else if mk_Stopped m then Err TradeMarketStoppedErr
        else
          match agent with
          | None => Ok m
          | Some agent =>
              granted ← IsMarketGrantedToAgent db accountAddress agent (mk_MarketId m);
              if (granted : bool) then Ok m else Err TradeMarketNotGrantedErr
          end
    end.

Definition RenderOrder (e : fundEnv) (db : vmDb) (param : ParamPlaceOrder) (accountAddress : Address)
    (agent : option Address) (sendHash : Hash) (enrichOrderFork : bool) : dexM (vmDb * Order * MarketInfo) :=
  m ← findMarket e db param accountAddress agent;
  '(db, id) ← ComposeOrderId (fe_dex e) db (mk_MarketId m) (po_Side param) (po_Price param);
  let price := PriceToBytes (po_Price param) in
  let quantity := Bytes (po_Quantity param) in
  r ← RenderFeeRate e db accountAddress m;
  let limited := (po_OrderType param =? Limited) || IsAdvancedLimitOrder (po_OrderType param) enrichOrderFork in
  amount ← (if limited
            then no_err (CalculateRawAmount quantity price (i32 (mk_TradeTokenDecimals m - mk_QuoteTokenDecimals m)))
            else Ok []);
  lockedBuyFee ← (if limited && negb (po_Side param)
                  then no_err (CalculateAmountForRate amount (MaxTotalFeeRate r)) else Ok []);
  tooSmall ← (if limited then isAmountTooSmall db (AddBigInt amount lockedBuyFee) m else Ok false);
  if (tooSmall : bool) then Err OrderAmountTooSmallErr
  else
    timestamp ← GetTimestampInt64 db;
    stem ← IsStemFork e db;
    robot ← IsDexRobotFork e db;
    let orderAgent := match agent with Some a => if stem && negb robot then a else [] | None => [] end in
    Ok (db, mkOrder id accountAddress (mk_MarketId m) (po_Side param) (po_OrderType param) price
              (r_taker r) (r_maker r) (r_takerOperator r) (r_makerOperator r) quantity amount lockedBuyFee
              Pending 0 [] [] [] [] [] [] timestamp orderAgent (if stem then sendHash else []) [],
        m).

(** ** Locking *)

Definition set_amount (o : Order) (amount lockedBuyFee threshold : bytes) : Order :=
  mkOrder (od_Id o) (od_Address o) (od_MarketId o) (od_Side o) (od_Type o) (od_Price o)
    (od_TakerFeeRate o) (od_MakerFeeRate o) (od_TakerOperatorFeeRate o) (od_MakerOperatorFeeRate o)
    (od_Quantity o) amount lockedBuyFee (od_Status o) (od_CancelReason o) (od_ExecutedQuantity o)
    (od_ExecutedAmount o) (od_ExecutedBaseFee o) (od_ExecutedOperatorFee o) (od_RefundToken o)
    (od_RefundQuantity o) (od_Timestamp o) (od_Agent o) (od_SendHash o) threshold.

(** The amount to lock, and the order's amount. *)
Definition lockAmount (db : vmDb) (available : bytes) (o : Order) (m : MarketInfo) (enrichOrderFork : bool) :
    dexM (Z * bytes) :=
  if od_Side o then Ok (SetBytes (od_Quantity o), od_Amount o)
  else if (od_Type o =? Limited) || IsAdvancedLimitOrder (od_Type o) enrichOrderFork
  then Ok (SetBytes (AddBigInt (od_Amount o) (od_LockedBuyFee o)), od_Amount o)
  else
    tooSmall ← isAmountTooSmall db (Bytes (SetBytes available)) m;
    if (tooSmall : bool) then Err OrderAmountTooSmallErr else Ok (SetBytes available, Bytes (SetBytes available)).

Definition CheckAndLockFundForNewOrder (e : fundEnv) (db : vmDb) (dexFund : Fund) (o : Order) (m : MarketInfo)
    (enrichOrderFork : bool) : dexM (Fund * Order) :=
  let '(lockTokenId, ok) := BytesToTokenTypeId (if od_Side o then mk_TradeToken m else mk_QuoteToken m) in
  if negb ok then Panic PDex
  else
    match find_account lockTokenId (fu_Accounts dexFund) with
    | None => Err ExceedFundAvailableErr
    | Some account =>
        '(lockAmountToInc, amount) ← lockAmount db (ac_Available account) o m enrichOrderFork;
        let available := SetBytes (ac_Available account) - lockAmountToInc in
        if available <? 0 then Err ExceedFundAvailableErr
        else
          threshold ←
            (if od_Type o =? Market then
               t ← GetMarketOrderAmtThreshold db (mk_QuoteTokenType m);
               info ← or_panic PNil (QuoteTokenTypeInfos (mk_QuoteTokenType m));
               Ok (Bytes (AdjustAmountForDecimalsDiff (Bytes t) (i32 (qi_Decimals info - mk_QuoteTokenDecimals m))))
             else Ok (od_MarketOrderAmtThreshold o));
          Ok (with_account dexFund lockTokenId
                (set_Locked (set_Available account (Bytes available))
                   (AddBigInt (ac_Locked account) (Bytes lockAmountToInc))),
              set_amount o amount (od_LockedBuyFee o) threshold)
    end.

(** In float32: the rate of a fee that is contained in the amount, plus one. *)
Definition adjustedFeeRate (feeRate : Z) : Z :=
  let f := f_SetInt 24 feeRate in
  let c := f_SetInt 24 RateCardinalNum in
  match f_Quo 24 f (f_Add 24 c f) with
  | Some q => i32 (f_Int (f_Mul 24 q c) + 1)
  | None => 1
  end.

Definition RenderMarketBuyOrderAmountAndFee (o : Order) : dexM Order :=
  let feeRate := MaxTotalFeeRate (mkRates (od_TakerFeeRate o) (od_MakerFeeRate o)
                                          (od_TakerOperatorFeeRate o) (od_MakerOperatorFeeRate o)) in
  if 0 <? feeRate then
    lockedBuyFee ← no_err (CalculateAmountForRate (od_Amount o) (adjustedFeeRate feeRate));
    Ok (set_amount o (SubBigIntAbs (od_Amount o) lockedBuyFee) lockedBuyFee (od_MarketOrderAmtThreshold o))
  else Ok o.

(** The test for a market order before RenderOrder sees the type of an empty
    order, so that the price of a market order is kept. *)
Definition DoPlaceOrder (e : fundEnv) (db : vmDb) (param : ParamPlaceOrder) (accountAddress : Address)
    (agent : option Address) (sendHash : Hash) : dexM (vmDb * list dexCall) :=
  enrichOrderFork ← (if po_OrderType param =? Limited then Ok false else IsVersion11Fork e db);
  if negb (po_OrderType param =? Limited) && negb enrichOrderFork then Err InvalidOrderTypeErr
  else
    '(db, order, m) ← RenderOrder e db param accountAddress agent sendHash enrichOrderFork;
    '(dexFund, ok) ← GetFund e db accountAddress;
    if negb ok then Err ExceedFundAvailableErr
    else
      '(dexFund, order) ← CheckAndLockFundForNewOrder e db dexFund order m enrichOrderFork;
      db ← SaveFund e db accountAddress dexFund;
      order ← (if negb (od_Side order) && IsMarketOrder (od_Type order) enrichOrderFork
               then RenderMarketBuyOrderAmountAndFee order else Ok order);
      leaf ← IsLeafFork e db;
      Ok (db, [CallTradePlaceOrder leaf (Serialize (fe_dex e) order)]).
