(* ===== verification/DexContracts.v ===== *)
(** The two contracts of the exchange: src/vm/contracts/contracts_dex_trade.go,
    and from contracts_dex_fund.go the methods that move funds or place and
    settle orders.

    A method is what its DoReceive does with the arguments it has unpacked.  It
    gives the new storage and the calls it sends; on an error the virtual
    machine drops the storage. *)
From S2P Require Import Prelude Helper Float TimeIndex Types Upgrade VmDb Iterator.
From S2P Require Import DexNumber DexOrder DexMatcher DexFund DexSettle DexPlace.
From stdpp Require Import sorting.
#[local] Open Scope Z_scope.

Abbreviation received := (dexM (vmDb * list dexCall)).

(** ** Sending settlements *)

(** AccountSettleSorter: the trade token first. *)
Definition account_settles (settleMap : gmap bool AccountSettle) : list AccountSettle :=
  option_list (settleMap !! true) ++ option_list (settleMap !! false).

Definition fund_settle_le (x y : FundSettle) : Prop := Is_true (bytes_leb (fs_Address x) (fs_Address y)).
#[export] Instance fund_settle_le_dec : RelDecision fund_settle_le.
Proof. intros x y; unfold fund_settle_le; apply _. Defined.

Definition fee_settle_le (x y : FeeSettle) : Prop := Is_true (bytes_leb (fe_Address x) (fe_Address y)).
#[export] Instance fee_settle_le_dec : RelDecision fee_settle_le.
Proof. intros x y; unfold fee_settle_le; apply _. Defined.

Definition fund_actions (fundSettles : gmap Address (gmap bool AccountSettle)) : list FundSettle :=
  merge_sort fund_settle_le ((fun kv => mkFundSettle kv.1 (account_settles kv.2)) <$> map_to_list fundSettles).

Definition fee_actions (feeSettles : gmap Address FeeSettle) : list FeeSettle :=
  merge_sort fee_settle_le (map_to_list feeSettles).*2.

Definition send_settle (e : fundEnv) (db : vmDb) (actions : SettleActions) : dexM (list dexCall) :=
  leaf ← IsLeafFork e db; Ok [CallFundSettleOrders leaf (marshal (settle_codec e) actions)].

Definition handleSettleActions (e : fundEnv) (db : vmDb) (fundSettles : gmap Address (gmap bool AccountSettle))
    (feeSettles : gmap Address FeeSettle) (m : MarketInfo) : dexM (list dexCall) :=
  if (size fundSettles =? 0)%nat && (size feeSettles =? 0)%nat then Ok []
  else send_settle e db (mkSettleActions (mk_TradeToken m) (mk_QuoteToken m)
                           (fund_actions fundSettles) (fee_actions feeSettles)).

Definition OnPlaceOrderFailed (e : fundEnv) (db : vmDb) (o : Order) (m : MarketInfo) : dexM (list dexCall) :=
  let release := if od_Side o then od_Quantity o else AddBigInt (od_Amount o) (od_LockedBuyFee o) in
  send_settle e db (mkSettleActions (mk_TradeToken m) (mk_QuoteToken m)
    [mkFundSettle (od_Address o) [mkAccountSettle (od_Side o) [] [] release]] []).

(** ** The trade contract *)

Definition TradePlaceOrder (e : fundEnv) (db : vmDb) (data : bytes) (prevHash : Hash) : received :=
  order ← match DeSerialize (fe_dex e) data with Ok o => Ok o | Err _ => Panic PDex | Panic p => Panic p end;
  matcher ← NewMatcher (fe_dex e) db (od_MarketId order);
  match MatchOrder (fe_dex e) matcher order prevHash with
  | Ok (matcher, order) =>
      calls ← handleSettleActions e (mt_db matcher) (mt_fundSettles matcher) (mt_feeSettles matcher)
                (mt_MarketInfo matcher);
      Ok (mt_db matcher, calls)
  | Err DexOutOfFuel => Err DexOutOfFuel
  | Err _ => calls ← OnPlaceOrderFailed e db order (mt_MarketInfo matcher); Ok (db, calls)
  | Panic p => Panic p
  end.

Definition handleCancelOrderById (e : fundEnv) (db : vmDb) (orderId : bytes) (operator : Address) : received :=
  marketId ← match DeComposeOrderId orderId with
             | Ok (marketId, _, _, _) => Ok marketId
             | Err _ => Err InvalidOrderIdErr
             | Panic p => Panic p
             end;
  matcher ← NewMatcher (fe_dex e) db marketId;
  order ← GetOrderById (fe_dex e) matcher orderId;
  if negb (bool_decide (operator = od_Address order)) && negb (bool_decide (operator = od_Agent order))
  then Err CancelOrderOwnerInvalidErr
  else if negb (od_Status order =? Pending) && negb (od_Status order =? PartialExecuted)
  then Err CancelOrderInvalidStatusErr
  else
    matcher ← CancelOrderById (fe_dex e) matcher order;
    calls ← handleSettleActions e (mt_db matcher) (mt_fundSettles matcher) ∅ (mt_MarketInfo matcher);
    Ok (mt_db matcher, calls).

Definition TradeCancelOrder (e : fundEnv) (db : vmDb) (orderId : bytes) (sender : Address) : received :=
  handleCancelOrderById e db orderId sender.

Definition cancel_by_hash (e : fundEnv) (db : vmDb) (sendHash : Hash) (operator : Address) : received :=
  orderId ← GetOrderIdByHash db sendHash;
  match orderId with
  | None => Err InvalidOrderHashErr
  | Some orderId => handleCancelOrderById e db orderId operator
  end.

Definition TradeCancelOrderByTransactionHash (e : fundEnv) (db : vmDb) (sendHash : Hash) (sender : Address) : received :=
  cancel_by_hash e db sendHash sender.

Definition TradeInnerCancelOrderBySendHash (e : fundEnv) (db : vmDb) (sendHash : Hash) (owner : Address) : received :=
  cancel_by_hash e db sendHash owner.

Definition TradeSyncNewMarket (e : fundEnv) (db : vmDb) (data : bytes) : received :=
  match unmarshal_MarketInfo (fe_dex e) data with
  | None => Err UnmarshalErr
  | Some m => db ← SaveMarketInfoById (fe_dex e) db m; Ok (db, [])
  end.

Definition CleanExpireOrdersMaxCount : Z := 200.

Definition TradeClearExpiredOrders (e : fundEnv) (db : vmDb) (data : bytes) : received :=
  v11 ← IsVersion11Fork e db;
  if (v11 : bool) then Err InvalidOperationErr
  else if (len data =? 0) || negb (len data mod OrderIdBytesLength =? 0) ||
          (CleanExpireOrdersMaxCount <? len data / OrderIdBytesLength)
  then Err InvalidInputParamErr
  else
    cleaned ← CleanExpireOrders (fe_dex e) db data;
    match cleaned with
    | Some matcher =>
        if (0 <? size (mt_fundSettles matcher))%nat then
          calls ← handleSettleActions e (mt_db matcher) (mt_fundSettles matcher) ∅ (mt_MarketInfo matcher);
          Ok (mt_db matcher, calls)
        else Ok (mt_db matcher, [])
    | None => Ok (db, [])
    end.

(** ** The fund contract *)

Definition TransferAssetDeposit : Z := 1.
Definition TransferAssetAgentDeposit : Z := 2.
Definition TransferAssetWithdraw : Z := 3.
Definition TransferAssetAssignedWithdraw : Z := 4.
Definition TransferAssetTransfer : Z := 5.

Definition AddTransferAssetEvent (e : fundEnv) (db : vmDb) (bizType : Z) (from to : Address) (token : TokenTypeId)
    (amount : Z) (extra : bytes) : vmDb :=
  db_AddLog db (transferLog e (mkTransferAssetEvent bizType from to token (Bytes amount) extra)).

Definition FundDeposit (e : fundEnv) (db : vmDb) (sender : Address) (token : TokenTypeId) (amount : Z) : received :=
  '(db, account) ← DepositAccount e db sender token amount;
  db ← (if bool_decide (token = VxTokenId) then OnChangeVx e db sender amount account else Ok db);
  v11 ← IsVersion11Fork e db;
  Ok (if (v11 : bool)
      then AddTransferAssetEvent e db TransferAssetDeposit sender AddressDexFund token amount [] else db, []).

Definition FundWithdraw (e : fundEnv) (db : vmDb) (sender : Address) (token : TokenTypeId) (amount : Z) : received :=
  '(db, account) ← ReduceAccount e db sender token amount;
  db ← (if bool_decide (token = VxTokenId) then OnChangeVx e db sender (- amount) account else Ok db);
  v11 ← IsVersion11Fork e db;
  Ok (if (v11 : bool)
      then AddTransferAssetEvent e db TransferAssetWithdraw AddressDexFund sender token amount [] else db,
      [CallTransfer sender token amount []]).

Definition FundPlaceOrder (e : fundEnv) (db : vmDb) (sender : Address) (param : ParamPlaceOrder) (sendHash : Hash) :
    received := DoPlaceOrder e db param sender None sendHash.

Definition FundPlaceAgentOrder (e : fundEnv) (db : vmDb) (sender principal : Address) (param : ParamPlaceOrder)
    (sendHash : Hash) : received := DoPlaceOrder e db param principal (Some sender) sendHash.

Fixpoint settle_funds (e : fundEnv) (db : vmDb) (m : MarketInfo) (actions : list FundSettle) : dexM vmDb :=
  match actions with
  | [] => Ok db
  | action :: actions => db ← DoSettleFund e db action m; settle_funds e db m actions
  end.

Definition FundSettleOrders (e : fundEnv) (db : vmDb) (data : bytes) : received :=
  match unmarshal (settle_codec e) data with
  | None => Err UnmarshalErr
  | Some actions =>
      found ← GetMarketInfoByTokens e db (sa_TradeToken actions) (sa_QuoteToken actions);
      match found with
      | None => Err TradeMarketNotExistsErr
      | Some m =>
          db ← settle_funds e db m (sa_FundActions actions);
          if (0 <? length (sa_FeeActions actions))%nat then
            db ← SettleFees e db (mk_AllowMining m) (mk_QuoteToken m) (mk_QuoteTokenDecimals m) (mk_QuoteTokenType m)
                   (sa_FeeActions actions) None ∅;
            db ← SettleOperatorFees e db (sa_FeeActions actions) m;
            Ok (db, [])
          else Ok (db, [])
      end
  end.

Definition FundTransfer (e : fundEnv) (db : vmDb) (sender target : Address) (token : TokenTypeId) (amount : Z) :
    received :=
  '(db, _) ← ReduceAccount e db sender token amount;
  '(db, _) ← DepositAccount e db target token amount;
  Ok (AddTransferAssetEvent e db TransferAssetTransfer sender target token amount [], []).

Definition FundAgentDeposit (e : fundEnv) (db : vmDb) (sender beneficiary : Address) (token : TokenTypeId)
    (amount : Z) : received :=
  '(db, _) ← DepositAccount e db beneficiary token amount;
  Ok (AddTransferAssetEvent e db TransferAssetAgentDeposit sender beneficiary token amount [], []).

Definition FundAssignedWithdraw (e : fundEnv) (db : vmDb) (sender target : Address) (token : TokenTypeId)
    (amount : Z) (label : bytes) : received :=
  '(db, _) ← ReduceAccount e db sender token amount;
  Ok (AddTransferAssetEvent e db TransferAssetAssignedWithdraw sender target token amount label,
      [CallTransfer target token amount label]).

(** The owner of the order to cancel; an agent needs a grant. *)
Definition CheckCancelAgentOrder (e : fundEnv) (db : vmDb) (sender principal : Address)
    (tradeToken quoteToken : TokenTypeId) : dexM Address :=
  if negb (bool_decide (principal = ZERO_ADDRESS)) && negb (bool_decide (principal = sender)) then
    found ← GetMarketInfo e db tradeToken quoteToken;
    match found with
    | None => Err TradeMarketNotExistsErr
    | Some m =>
        granted ← IsMarketGrantedToAgent db principal sender (mk_MarketId m);
        if (granted : bool) then Ok principal else Err TradeMarketNotGrantedErr
    end
  else Ok sender.

Definition FundCancelOrderBySendHash (e : fundEnv) (db : vmDb) (sender : Address) (sendHash : Hash)
    (principal : Address) (tradeToken quoteToken : TokenTypeId) : received :=
  owner ← CheckCancelAgentOrder e db sender principal tradeToken quoteToken;
  Ok (db, [CallTradeInnerCancel sendHash owner]).

(** ** Time *)

(** In ASCII tmA: *)
Definition timeOracleKey : bytes := [x74; x6d; x41; x3a].

Definition ValidTimeOracle (db : vmDb) (address : Address) : dexM bool :=
  oracle ← getValueFromDb db timeOracleKey;
  Ok ((len oracle =? AddressSize) && bool_decide (oracle = address)).

Definition doRollPeriod (e : fundEnv) (db : vmDb) (newPeriodId : Z) : dexM vmDb :=
  '(db, dexFees) ← RollAndGentNewDexFeesByPeriod e db newPeriodId;
  serialize (dexFees_codec e) db (GetDexFeesKeyByPeriodId newPeriodId) dexFees.

Definition SetDexTimestamp (e : fundEnv) (db : vmDb) (timestamp : Z) : dexM vmDb :=
  oldTime ← GetDexTimestamp db;
  if oldTime <? timestamp then
    oldPeriod ← no_err (GetIndexByTime (fe_day e) oldTime 0);
    newPeriod ← no_err (GetIndexByTime (fe_day e) timestamp 0);
    robot ← IsDexRobotFork e db;
    if negb (newPeriod =? oldPeriod) && (1 <? u64 (newPeriod - oldPeriod)) && robot && (0 <? oldTime)
    then Err OracleTimestampExceedPeriodGapErr
    else
      db ← (if newPeriod =? oldPeriod then Ok db else doRollPeriod e db newPeriod);
      setValueToDb db dexTimestampKey (Uint64ToBytes (u64 timestamp))
  else Err InvalidTimestampFromTimeOracleErr.

Definition FundNotifyTime (e : fundEnv) (db : vmDb) (sender : Address) (timestamp : Z) : received :=
  valid ← ValidTimeOracle db sender;
  if negb valid then Err InvalidSourceAddressErr
  else db ← SetDexTimestamp e db timestamp; Ok (db, []).
