(* ===== verification/AccountQuota.v ===== *)
(** vm/quota/quota.go: the quota an account may use for a block, from its stake,
    its proof of work and the congestion of the network, and the inverse
    computations that tell users what to stake or which difficulty to solve.

    The node-wide [quotaConfig] is the record [quotaConfigParams], an argument
    of the definitions. *)
From S2P Require Import Prelude Helper Types Upgrade QuotaParams QuotaTable VmDb.
From stdpp Require Import sorting.
From Stdlib Require Import ZifyBool.
#[local] Open Scope Z_scope.

(** ** Configuration *)

(** [calcQuotaFunc] is one of two functions; [fixedQuota] tells which. *)
Record quotaConfigParams := mkQuotaConfig {
  difficultyList : list Z;
  stakeAmountList : list Z;
  qcIndexMin : Z;
  qcIndexMax : Z;
  qcMap : Z -> option Z;
  fixedQuota : bool;
}.

Definition InitQuotaConfig (isTest isTestParam : bool) : quotaConfigParams :=
  if isTestParam
  then mkQuotaConfig difficultyListTestnet stakeAmountListTestnet qcIndexMinMainnet
                     qcIndexMaxMainnet qcMapMainnet isTest
  else mkQuotaConfig difficultyListMainnet stakeAmountListMainnet qcIndexMinMainnet
                     qcIndexMaxMainnet qcMapMainnet isTest.

(** types.Quota (common/types/quota.go) *)
Record AccountQuota := mkAccountQuota {
  Current : Z;
  StakeQuotaPerSnapshotBlock : Z;
  Avg : Z;
  SnapshotCurrent : Z;
  Blocked : bool;
  BlockReleaseHeight : Z;
}.

Definition NewQuota (stakeQuota current avg snapshotCurrent : Z) (blocked : bool)
    (blockReleaseHeight : Z) : AccountQuota :=
  mkAccountQuota current stakeQuota avg snapshotCurrent blocked blockReleaseHeight.

(** The eight results of [calcQuotaFunc]: callers read the numbers also when
    there is an error. *)
Record quotaResult := mkQuotaResult {
  qr_total : Z;
  qr_stake : Z;
  qr_addition : Z;
  qr_snapshotCurrent : Z;
  qr_avg : Z;
  qr_blocked : bool;
  qr_release : Z;
  qr_err : option vm_err;
}.

Definition big_at (list : list Z) (i : Z) : result Z :=
  if i <? 0 then Panic PIndex else or_panic PIndex (list !! Z.to_nat i).

Section Quota.
Variable box : upgradeBox.
Variable quotaConfig : quotaConfigParams.

(** ** Search in the tables *)

Definition getExactIndex (x : Z) (list : list Z) (index : Z) : result Z :=
  if index =? 0 then Ok index
  else
    v ← big_at list index;
    if v <=? x then Ok index else Ok (index - 1).

(** The recursion halves the interval; [right - left] rounds are enough. *)
Fixpoint getIndex_fuel (fuel : nat) (x : Z) (list : list Z) (left right : Z) : result Z :=
  if left =? right then getExactIndex x list left
  else
    match fuel with
    | O => Ok left
    | S fuel =>
        let mid := (left + right + 1) / 2 in
        v ← big_at list mid;
        if v =? x then Ok mid
        else if x <? v then getIndex_fuel fuel x list left (mid - 1)
        else getIndex_fuel fuel x list mid right
    end.

Definition getIndexInBigIntList (x : Z) (list : list Z) (left right : Z) : result Z :=
  getIndex_fuel (Z.to_nat (right - left)) x list left right.

Definition calcQuotaByIndex (index : Z) : Z :=
  if (0 <=? index) && (index <=? sectionLen) then u64 (index * quotaForSection) else 0.

Definition getIndexByQuota (q : Z) : result Z :=
  let index := i64 (u64 (q + quotaForSection - 1) / quotaForSection) in
  if (sectionLen <? index) || (u64 (index * quotaForSection) <? q)
  then Err ErrBlockQuotaLimitReached else Ok index.

Definition getMaxQuota : Z := u64 (sectionLen * quotaForSection).

(** ** Congestion *)

(** The ratio, nil when the map lacks the index; the quota used on the chain;
    whether the network is congested. *)
Definition CalcQc (db : vmDb) (sbHeight : Z) : option Z * Z * bool :=
  if negb (IsDexUpgrade box sbHeight) then (Some 0, 0, false)
  else
    let globalQuota := QuotaUsedTotal (db_GetGlobalQuota db) in
    let qcIndex := u64 (globalQuota + qcGap - 1) / qcGap in
    if qcIndex <? qcIndexMin quotaConfig then (Some qcDivision, globalQuota, false)
    else
      let qcIndex := if qcIndexMax quotaConfig <=? qcIndex then qcIndexMax quotaConfig else qcIndex in
      (qcMap quotaConfig qcIndex, globalQuota, true).

Definition calcStakeParam (qc : option Z) (isCongestion : bool) (param : Z) : result Z :=
  if negb isCongestion then Ok param
  else q ← or_panic PNil qc; big_Div (param * q) qcDivision.

Definition calcStakeParamByQc (db : vmDb) (param sbHeight : Z) : result Z :=
  let '(qc, _, isCongestion) := CalcQc db sbHeight in
  calcStakeParam qc isCongestion param.

Definition calcStakeQuota (qc : option Z) (isCongestion : bool) (stakeAmount : option Z) : result Z :=
  match stakeAmount with
  | None => Ok 0
  | Some a =>
      if a <=? 0 then Ok 0
      else
        p ← calcStakeParam qc isCongestion a;
        i ← getIndexInBigIntList p (stakeAmountList quotaConfig) 0 sectionLen;
        Ok (calcQuotaByIndex i)
  end.

Definition calcPoWQuota (qc : option Z) (isCongestion : bool) (difficulty : option Z) : result Z :=
  match difficulty with
  | None => Ok 0
  | Some d =>
      if d <=? 0 then Ok 0
      else
        p ← calcStakeParam qc isCongestion d;
        i ← getIndexInBigIntList p (difficultyList quotaConfig) 0 sectionLen;
        Ok (calcQuotaByIndex i)
  end.

Definition calcPoWQuotaByQc (db : vmDb) (difficulty : option Z) (sbHeight : Z) : result Z :=
  match difficulty with
  | None => Ok 0
  | Some d =>
      if d <=? 0 then Ok 0
      else
        p ← calcStakeParamByQc db d sbHeight;
        i ← getIndexInBigIntList p (difficultyList quotaConfig) 0 sectionLen;
        Ok (calcQuotaByIndex i)
  end.

(** ** The quota of an account *)

(** The first error is a database error, returned with [true, 0]. *)
Definition isBlocked (db : vmDb) (addr : Address) : bool * Z * option vm_err :=
  if negb (IsContractAddr addr) then (false, 0, None)
  else
    match db_GetLatestAccountBlock db addr with
    | Ok None => (false, 0, None)
    | Ok (Some prevBlock) =>
        if BlockType prevBlock =? BlockTypeReceiveError then
          match db_GetConfirmedTimes db (ab_Hash prevBlock) with
          | Ok confirmTime =>
              if confirmTime <? outOfQuotaBlockTime
              then (true, u64 (outOfQuotaBlockTime - confirmTime), None)
              else (false, 0, None)
          | _ => (true, 0, Some ErrDb)
          end
        else (false, 0, None)
    | _ => (true, 0, Some ErrDb)
    end.

(** One round of the loop over the snapshot blocks before the last:
    [quotaTotal], [quotaUsedTotal], [blockCountTotal]. *)
Definition accumulate (quotaStake : Z) (acc : Z * Z * Z) (q : QuotaInfo) : Z * Z * Z :=
  let '(quotaTotal, quotaUsedTotal, blockCountTotal) := acc in
  let quotaTotal := u64 (quotaTotal + quotaStake) in
  (if QuotaTotal q <=? quotaTotal then u64 (quotaTotal - QuotaTotal q) else 0,
   u64 (quotaUsedTotal + QuotaUsedTotal q),
   u64 (blockCountTotal + BlockCount q)).

Definition calcQuotaTotal (db : vmDb) (addr : Address) (stakeAmount difficulty : option Z)
    (sbHeight : Z) : result quotaResult :=
  let '(blocked, blockReleaseHeight, err) := isBlocked db addr in
  match err with
  | Some e => Ok (mkQuotaResult 0 0 0 0 0 false 0 (Some e))
  | None =>
      let '(qc, _, isCongestion) := CalcQc db sbHeight in
      quotaStake ← calcStakeQuota qc isCongestion stakeAmount;
      quotaAddition ← calcPoWQuota qc isCongestion difficulty;
      let quotaList := db_GetQuotaUsedList db addr in
      let '(quotaTotal, quotaUsedTotal, blockCountTotal) :=
        fold_left (accumulate quotaStake) (take (length quotaList - 1) quotaList) (0, 0, 0) in
      let '(quotaTotal, snapshotCurrentQuota, quotaUsedTotal, blockCountTotal, unconfirmedQuota) :=
        match last quotaList with
        | Some q =>
            let quotaTotal := u64 (quotaTotal + quotaStake) in
            (quotaTotal, quotaTotal, u64 (quotaUsedTotal + QuotaUsedTotal q),
             u64 (blockCountTotal + BlockCount q), QuotaTotal q)
        | None => (quotaTotal, quotaTotal, quotaUsedTotal, blockCountTotal, 0)
        end in
      let quotaAvg := if 0 <? blockCountTotal then quotaUsedTotal / blockCountTotal else 0 in
      if unconfirmedQuota <=? quotaTotal then
        let quotaTotal := u64 (quotaTotal - unconfirmedQuota) in
        if blocked
        then Ok (mkQuotaResult 0 quotaStake 0 snapshotCurrentQuota quotaAvg blocked
                               blockReleaseHeight None)
        else Ok (mkQuotaResult (u64 (quotaTotal + quotaAddition)) quotaStake quotaAddition
                               snapshotCurrentQuota quotaAvg blocked blockReleaseHeight None)
      else Ok (mkQuotaResult 0 quotaStake 0 snapshotCurrentQuota quotaAvg blocked
                             blockReleaseHeight (Some ErrInvalidUnconfirmedQuota))
  end.

Definition CanPoW (db : vmDb) (address : Address) : bool :=
  forallb (fun b => negb (IsPoW b)) (db_GetUnconfirmedBlocks db address).

Definition calcQuotaV3 (db : vmDb) (addr : Address) (stakeAmount difficulty : option Z)
    (sbHeight : Z) : result quotaResult :=
  let powFlag := match difficulty with Some d => 0 <? d | None => false end in
  if powFlag && negb (CanPoW db addr)
  then Ok (mkQuotaResult 0 0 0 0 0 false 0 (Some ErrCalcPoWTwice))
  else calcQuotaTotal db addr stakeAmount difficulty sbHeight.

Definition calcQuotaFunc (db : vmDb) (addr : Address) (stakeAmount difficulty : option Z)
    (sbHeight : Z) : result quotaResult :=
  if fixedQuota quotaConfig
  then Ok (mkQuotaResult 75000000 1000000 0 1000000 0 false 0 None)
  else calcQuotaV3 db addr stakeAmount difficulty sbHeight.

(** ** What the rest of the node calls *)

Definition CalcBlockQuotaUsed (db : vmDb) (block : AccountBlock) (sbHeight : Z) : result Z :=
  if negb (IsPoW block) then Ok (QuotaUsed block)
  else
    powQuota ← calcPoWQuotaByQc db (Difficulty block) sbHeight;
    if powQuota <? QuotaUsed block then Ok (u64 (QuotaUsed block - powQuota)) else Ok 0.

Definition GetSnapshotCurrentQuota (db : vmDb) (beneficial : Address) (stakeAmount : option Z)
    (sbHeight : Z) : result Z :=
  r ← calcQuotaFunc db beneficial stakeAmount (Some 0) sbHeight;
  match qr_err r with
  | None | Some ErrInvalidUnconfirmedQuota => Ok (qr_snapshotCurrent r)
  | Some e => Err e
  end.

(** The quota is returned beside the error. *)
Definition GetQuota (db : vmDb) (beneficial : Address) (stakeAmount : option Z) (sbHeight : Z) :
    result (AccountQuota * option vm_err) :=
  r ← calcQuotaFunc db beneficial stakeAmount (Some 0) sbHeight;
  Ok (NewQuota (qr_stake r) (qr_total r) (qr_avg r) (qr_snapshotCurrent r) (qr_blocked r)
               (qr_release r), qr_err r).

Definition GetQuotaForBlock (db : vmDb) (addr : Address) (stakeAmount difficulty : option Z)
    (sbHeight : Z) : result (Z * Z) :=
  r ← calcQuotaFunc db addr stakeAmount difficulty sbHeight;
  match qr_err r with
  | Some e => Err e
  | None =>
      if quotaLimitForBlock <? qr_total r then
        if quotaLimitForBlock <? qr_addition r then Ok (quotaLimitForBlock, quotaLimitForBlock)
        else Ok (quotaLimitForBlock, qr_addition r)
      else Ok (qr_total r, qr_addition r)
  end.

Definition CheckQuota (q : AccountQuota) : bool * Z :=
  if Blocked q then (false, BlockReleaseHeight q)
  else if Avg q <=? Current q then (true, 0) else (false, 1).

(** ** What to stake, which difficulty to solve *)

Definition CalcStakeAmountByQuota (q : Z) : result Z :=
  if getMaxQuota <? q then Err ErrInvalidMethodParam
  else if q =? 0 then Ok 0
  else big_at (stakeAmountList quotaConfig) (u64 (q + quotaForSection - 1) / quotaForSection).

(** The loop [for true]; [None] when [fuel] tests were not enough. *)
Fixpoint target_loop (fuel : nat) (qc : option Z) (isCongestion : bool) (target newTarget : Z) :
    option (result Z) :=
  match fuel with
  | O => None
  | S fuel =>
      match calcStakeParam qc isCongestion newTarget with
      | Ok calcTarget =>
          if target <=? calcTarget then Some (Ok newTarget)
          else target_loop fuel qc isCongestion target (newTarget + 1)
      | Err e => Some (Err e)
      | Panic p => Some (Panic p)
      end
  end.

Definition calcStakeTargetParam (fuel : nat) (qc : option Z) (isCongestion : bool) (target : Z) :
    option (result Z) :=
  match qc with
  | None => Some (Panic PNil)
  | Some q =>
      match big_Div (target * qcDivision) q with
      | Ok newTarget =>
          r ← target_loop fuel qc isCongestion target newTarget;
          Some (newTarget ← r;
                if BitLen newTarget <=? 256 then Ok newTarget else Err ErrBlockQuotaLimitReached)
      | Err e => Some (Err e)
      | Panic p => Some (Panic p)
      end
  end.

Definition calcStakeTargetParamByQc (fuel : nat) (db : vmDb) (target sbHeight : Z) :
    option (result Z) :=
  let '(qc, _, isCongestion) := CalcQc db sbHeight in
  if negb isCongestion then Some (Ok target)
  else calcStakeTargetParam fuel qc isCongestion target.

Definition CalcPoWDifficulty (fuel : nat) (db : vmDb) (quotaRequired : Z) (q : AccountQuota)
    (sbHeight : Z) : option (result Z) :=
  if quotaLimitForBlock <? quotaRequired then Some (Err ErrBlockQuotaLimitReached)
  else if quotaRequired <=? Current q then Some (Ok 0)
  else
    match (index ← getIndexByQuota quotaRequired; big_at (difficultyList quotaConfig) index) with
    | Ok difficulty => calcStakeTargetParamByQc fuel db difficulty sbHeight
    | Err e => Some (Err e)
    | Panic p => Some (Panic p)
    end.
End Quota.
