(* ===== verification/Builtin.v ===== *)
(** vm/contracts/contracts.go, vm/util/types.go and GetContractCode of
    vm/util/db_helper.go: the interface through which
    the virtual machine calls the built-in contracts, and the choice of the
    contract generation by snapshot height.  The contracts themselves are
    instances of the interface. *)
From S2P Require Import Prelude Helper Types Upgrade QuotaTable VmDb.

(** util.GlobalStatus: [Random] depends on how often it was called before. *)
Record GlobalStatus := mkGlobalStatus {
  gs_Seed : outcome unit Z;
  gs_Random : nat -> outcome unit Z;
  gs_SnapshotBlock : option SnapshotBlock;
}.

(** *** The code of an account (vm/util/db_helper.go) *)

Definition contractTypeSize : Z := 1.

(** The code of another account is read at the snapshot block of the status,
    which must not be nil. *)
Definition GetContractCode (db : vmDb) (addr : Address) (status : option GlobalStatus) :
    result (bytes * bytes) :=
  code ← (if bool_decide (db_address db = addr) then DealWithErr (db_GetContractCode db)
          else g ← or_panic PNil status;
               DealWithErr (db_GetContractCodeBySnapshotBlock db addr (gs_SnapshotBlock g)));
  if 0 <? len code
  then tag ← go_slice code 0 contractTypeSize; rest ← go_slice code contractTypeSize (len code); Ok (tag, rest)
  else Ok ([], []).

(** *** Built-in contracts *)

(** [DoSend] and [DoReceive] may change the database and the block they are
    given, also when they fail; they return both beside the result.  [DoReceive]
    also reads the global status of the machine. *)
Record BuiltinContractMethod := mkMethod {
  GetFee : AccountBlock -> result Z;
  DoSend : vmDb -> AccountBlock -> result unit * vmDb * AccountBlock;
  GetSendQuota : bytes -> QuotaTable -> result Z;
  DoReceive : vmDb -> AccountBlock -> AccountBlock -> option GlobalStatus ->
              result (list AccountBlock) * vmDb * AccountBlock;
  GetReceiveQuota : QuotaTable -> Z;
  GetRefundData : AccountBlock -> Z -> bytes * bool;
}.

(** The nine contract maps of the package. *)
Inductive generation :=
| simpleContracts
| dexContracts
| dexAgentContracts
| leafContracts
| earthContracts
| dexRobotContracts
| dexStableMarketContracts
| dexEnrichOrderContracts
| dexCrossTransferContracts.

(** A contract map: for each address of the map, the method that a selector
    names. *)
Definition contractsMap := Address -> option (bytes -> option BuiltinContractMethod).

Definition generation_at (box : upgradeBox) (sbHeight : Z) : generation :=
  if IsVersionXUpgrade box sbHeight then dexCrossTransferContracts
  else if IsVersion11Upgrade box sbHeight then dexEnrichOrderContracts
  else if IsDexStableMarketUpgrade box sbHeight then dexStableMarketContracts
  else if IsDexRobotUpgrade box sbHeight then dexRobotContracts
  else if IsEarthUpgrade box sbHeight then earthContracts
  else if IsLeafUpgrade box sbHeight then leafContracts
  else if IsStemUpgrade box sbHeight then dexAgentContracts
  else if IsDexUpgrade box sbHeight then dexContracts
  else simpleContracts.

(** The three results of the Go function: a method; an address without such a
    method, which is (nil, true, ErrAbiMethodNotFound); or no such address. *)
Inductive method_lookup :=
| Method (m : BuiltinContractMethod)
| MethodNotFound
| NotBuiltin.

Definition GetBuiltinContractMethod (maps : generation -> contractsMap) (box : upgradeBox)
    (addr : Address) (methodSelector : bytes) (sbHeight : Z) : method_lookup :=
  match maps (generation_at box sbHeight) addr with
  | Some methods =>
      match methods methodSelector with
      | Some m => Method m
      | None => MethodNotFound
      end
  | None => NotBuiltin
  end.
