(* ===== verification/Opcodes.v ===== *)
(** vm/opcodes.go: the byte value of every opcode. *)
From S2P Require Import Prelude.


(** 0x0 range *)
Definition STOP : Z := 0x00.
Definition ADD : Z := 0x01.
Definition MUL : Z := 0x02.
Definition SUB : Z := 0x03.
Definition DIV : Z := 0x04.
Definition SDIV : Z := 0x05.
Definition MOD : Z := 0x06.
Definition SMOD : Z := 0x07.
Definition ADDMOD : Z := 0x08.
Definition MULMOD : Z := 0x09.
Definition EXP : Z := 0x0a.
Definition SIGNEXTEND : Z := 0x0b.

(** 0x10 range *)
Definition LT : Z := 0x10.
Definition GT : Z := 0x11.
Definition SLT : Z := 0x12.
Definition SGT : Z := 0x13.
Definition EQ : Z := 0x14.
Definition ISZERO : Z := 0x15.
Definition AND : Z := 0x16.
Definition OR : Z := 0x17.
Definition XOR : Z := 0x18.
Definition NOT : Z := 0x19.
Definition BYTE : Z := 0x1a.
Definition SHL : Z := 0x1b.
Definition SHR : Z := 0x1c.
Definition SAR : Z := 0x1d.

(** 0x20 range *)
Definition SHA3 : Z := 0x20.
Definition BLAKE2B : Z := 0x21.

(** 0x30 range *)
Definition ADDRESS : Z := 0x30.
Definition BALANCE : Z := 0x31.
Definition ORIGIN : Z := 0x32.
Definition CALLER : Z := 0x33.
Definition CALLVALUE : Z := 0x34.
Definition CALLDATALOAD : Z := 0x35.
Definition CALLDATASIZE : Z := 0x36.
Definition CALLDATACOPY : Z := 0x37.
Definition CODESIZE : Z := 0x38.
Definition CODECOPY : Z := 0x39.
Definition GASPRICE : Z := 0x3a.
Definition EXTCODESIZE : Z := 0x3b.
Definition EXTCODECOPY : Z := 0x3c.
Definition RETURNDATASIZE : Z := 0x3d.
Definition RETURNDATACOPY : Z := 0x3e.
Definition EXTCODEHASH : Z := 0x3f.

(** 0x40 range *)
Definition BLOCKHASH : Z := 0x40.
Definition COINBASE : Z := 0x41.
Definition TIMESTAMP : Z := 0x42.
Definition HEIGHT : Z := 0x43.
Definition DIFFICULTY : Z := 0x44.
Definition GASLIMIT : Z := 0x45.
Definition TOKENID : Z := 0x46.
Definition ACCOUNTHEIGHT : Z := 0x47.
Definition PREVHASH : Z := 0x48.
Definition FROMHASH : Z := 0x49.
Definition SEED : Z := 0x4a.
Definition RANDOM : Z := 0x4b.

(** 0x50 range *)
Definition POP : Z := 0x50.
Definition MLOAD : Z := 0x51.
Definition MSTORE : Z := 0x52.
Definition MSTORE8 : Z := 0x53.
Definition SLOAD : Z := 0x54.
Definition SSTORE : Z := 0x55.
Definition JUMP : Z := 0x56.
Definition JUMPI : Z := 0x57.
Definition PC : Z := 0x58.
Definition MSIZE : Z := 0x59.
Definition GAS : Z := 0x5a.
Definition JUMPDEST : Z := 0x5b.

(** 0x60 range *)
Definition PUSH1 : Z := 0x60.
Definition PUSH2 : Z := 0x61.
Definition PUSH3 : Z := 0x62.
Definition PUSH4 : Z := 0x63.
Definition PUSH5 : Z := 0x64.
Definition PUSH6 : Z := 0x65.
Definition PUSH7 : Z := 0x66.
Definition PUSH8 : Z := 0x67.
Definition PUSH9 : Z := 0x68.
Definition PUSH10 : Z := 0x69.
Definition PUSH11 : Z := 0x6a.
Definition PUSH12 : Z := 0x6b.
Definition PUSH13 : Z := 0x6c.
Definition PUSH14 : Z := 0x6d.
Definition PUSH15 : Z := 0x6e.
Definition PUSH16 : Z := 0x6f.
Definition PUSH17 : Z := 0x70.
Definition PUSH18 : Z := 0x71.
Definition PUSH19 : Z := 0x72.
Definition PUSH20 : Z := 0x73.
Definition PUSH21 : Z := 0x74.
Definition PUSH22 : Z := 0x75.
Definition PUSH23 : Z := 0x76.
Definition PUSH24 : Z := 0x77.
Definition PUSH25 : Z := 0x78.
Definition PUSH26 : Z := 0x79.
Definition PUSH27 : Z := 0x7a.
Definition PUSH28 : Z := 0x7b.
Definition PUSH29 : Z := 0x7c.
Definition PUSH30 : Z := 0x7d.
Definition PUSH31 : Z := 0x7e.
Definition PUSH32 : Z := 0x7f.
Definition DUP1 : Z := 0x80.
Definition DUP2 : Z := 0x81.
Definition DUP3 : Z := 0x82.
Definition DUP4 : Z := 0x83.
Definition DUP5 : Z := 0x84.
Definition DUP6 : Z := 0x85.
Definition DUP7 : Z := 0x86.
Definition DUP8 : Z := 0x87.
Definition DUP9 : Z := 0x88.
Definition DUP10 : Z := 0x89.
Definition DUP11 : Z := 0x8a.
Definition DUP12 : Z := 0x8b.
Definition DUP13 : Z := 0x8c.
Definition DUP14 : Z := 0x8d.
Definition DUP15 : Z := 0x8e.
Definition DUP16 : Z := 0x8f.
Definition SWAP1 : Z := 0x90.
Definition SWAP2 : Z := 0x91.
Definition SWAP3 : Z := 0x92.
Definition SWAP4 : Z := 0x93.
Definition SWAP5 : Z := 0x94.
Definition SWAP6 : Z := 0x95.
Definition SWAP7 : Z := 0x96.
Definition SWAP8 : Z := 0x97.
Definition SWAP9 : Z := 0x98.
Definition SWAP10 : Z := 0x99.
Definition SWAP11 : Z := 0x9a.
Definition SWAP12 : Z := 0x9b.
Definition SWAP13 : Z := 0x9c.
Definition SWAP14 : Z := 0x9d.
Definition SWAP15 : Z := 0x9e.
Definition SWAP16 : Z := 0x9f.

(** 0xa0 range *)
Definition LOG0 : Z := 0xa0.
Definition LOG1 : Z := 0xa1.
Definition LOG2 : Z := 0xa2.
Definition LOG3 : Z := 0xa3.
Definition LOG4 : Z := 0xa4.

(** 0xf0 range *)
Definition CREATE : Z := 0xf0.
Definition CALL : Z := 0xf1.
Definition CALL2 : Z := 0xf2.
Definition RETURN : Z := 0xf3.
Definition DELEGATECALL : Z := 0xf4.
Definition STATICCALL : Z := 0xfa.
Definition REVERT : Z := 0xfd.
Definition SELFDESTRUCT : Z := 0xff.

(** All opcodes, in the order of the constant declarations. *)
Definition opCodesBelow0x60 : list Z :=
  [STOP; ADD; MUL; SUB; DIV; SDIV; MOD; SMOD; ADDMOD; MULMOD; EXP; SIGNEXTEND; LT; GT; SLT;
   SGT; EQ; ISZERO; AND; OR; XOR; NOT; BYTE; SHL; SHR; SAR; SHA3; BLAKE2B; ADDRESS; BALANCE;
   ORIGIN; CALLER; CALLVALUE; CALLDATALOAD; CALLDATASIZE; CALLDATACOPY; CODESIZE; CODECOPY;
   GASPRICE; EXTCODESIZE; EXTCODECOPY; RETURNDATASIZE; RETURNDATACOPY; EXTCODEHASH; BLOCKHASH;
   COINBASE; TIMESTAMP; HEIGHT; DIFFICULTY; GASLIMIT; TOKENID; ACCOUNTHEIGHT; PREVHASH;
   FROMHASH; SEED; RANDOM; POP; MLOAD; MSTORE; MSTORE8; SLOAD; SSTORE; JUMP; JUMPI; PC; MSIZE;
   GAS; JUMPDEST].

Definition opCodesFrom0x60 : list Z :=
  [PUSH1; PUSH2; PUSH3; PUSH4; PUSH5; PUSH6; PUSH7; PUSH8; PUSH9; PUSH10; PUSH11; PUSH12;
   PUSH13; PUSH14; PUSH15; PUSH16; PUSH17; PUSH18; PUSH19; PUSH20; PUSH21; PUSH22; PUSH23;
   PUSH24; PUSH25; PUSH26; PUSH27; PUSH28; PUSH29; PUSH30; PUSH31; PUSH32; DUP1; DUP2; DUP3;
   DUP4; DUP5; DUP6; DUP7; DUP8; DUP9; DUP10; DUP11; DUP12; DUP13; DUP14; DUP15; DUP16; SWAP1;
   SWAP2; SWAP3; SWAP4; SWAP5; SWAP6; SWAP7; SWAP8; SWAP9; SWAP10; SWAP11; SWAP12; SWAP13;
   SWAP14; SWAP15; SWAP16; LOG0; LOG1; LOG2; LOG3; LOG4; CREATE; CALL; CALL2; RETURN;
   DELEGATECALL; STATICCALL; REVERT; SELFDESTRUCT].

Lemma opCodes_distinct :
  NoDup (opCodesBelow0x60 ++ opCodesFrom0x60) /\
  Forall (fun op => 0 <= op < 256) (opCodesBelow0x60 ++ opCodesFrom0x60).
Proof. split; [apply (bool_decide_unpack _); vm_compute; exact I|]. repeat constructor; done. Qed.

(** [opCode.isPush] *)
Definition isPush (op : Z) : bool := (PUSH1 <=? op) && (op <=? PUSH32).

Definition isStaticJump (op : Z) : bool := op =? JUMP.
