(* ===== verification/AccountBlock.v ===== *)
(** interfaces/core/account_block.go: the bytes a block hash covers, and the
    protobuf form of a block.

    [Hash256] (crypto/hash.go, a wrapper of golang.org/x/crypto/blake2b) is a
    parameter: a function of the concatenated input. *)
From S2P Require Import Prelude Helper Types.

(** ** Copying *)

(** The copy of the struct shares the send list, and copies of its blocks are
    then appended to it: a copied block lists every block it sends twice. *)
Fixpoint Copy (ab : AccountBlock) : AccountBlock :=
  set_SendBlockList ab (SendBlockList ab ++
    match ab with
    | mkAccountBlock _ _ _ _ _ _ _ _ _ _ _ _ _ _ _ _ _ sends _ => map Copy sends
    end).

(** ** Hashing *)

(** binary.BigEndian.PutUint64 *)
Definition PutUint64 (v : Z) : bytes := be_bytes 8 v.

(** A nil [*big.Int] panics when its bytes are taken. *)
Definition big_bytes {E} (o : option Z) : outcome E bytes := Bytes <$> or_panic PNil o.

Definition hashSourceLength (ab : AccountBlock) : outcome unit Z :=
  let size := 1 + HashSize + 8 + AddressSize in
  size ← (if IsSendBlock (BlockType ab)
          then a ← big_bytes (Amount ab); Ok (size + (AddressSize + len a + TokenTypeIdSize))
          else Ok (size + HashSize));
  let size := if 0 <? len (Data ab) then size + HashSize else size in
  let size := size + HashSize in
  let size := match LogHash ab with Some _ => size + HashSize | None => size end in
  Ok (size + (8 + HashSize * Z.of_nat (length (SendBlockList ab)))).

Definition hashSource {E} (Hash256 : bytes -> bytes) (ab : AccountBlock) (extraByte : bytes) :
    outcome E bytes :=
  let source := [Z_byte (BlockType ab)] in
  let source := source ++ PrevHash ab in
  let source := source ++ PutUint64 (Height ab) in
  let source := source ++ AccountAddress ab in
  source ← (if IsSendBlock (BlockType ab)
            then a ← big_bytes (Amount ab);
                 Ok (source ++ ToAddress ab ++ LeftPadBytes a 32 ++ TokenId ab)
            else Ok (source ++ FromBlockHash ab));
  let source := if 0 <? len (Data ab) then source ++ Hash256 (Data ab) else source in
  let feeBytes := match Fee ab with Some f => Bytes f | None => [] end in
  let source := source ++ LeftPadBytes feeBytes 32 in
  let source := match LogHash ab with Some h => source ++ h | None => source end in
  let source := source ++ LeftPadBytes (Nonce ab) 8 in
  let source := source ++ concat (ab_Hash <$> SendBlockList ab) in
  Ok (source ++ extraByte).

Definition ComputeHash {E} (Hash256 : bytes -> bytes) (ab : AccountBlock) : outcome E Hash :=
  source ← hashSource Hash256 ab [];
  Ok (BytesToHash (Hash256 source)).1.

Definition ComputeSendHash {E} (Hash256 : bytes -> bytes) (ab hostBlock : AccountBlock)
    (index : Z) : outcome E Hash :=
  let extraBytes := PrevHash hostBlock ++ PutUint64 (Height hostBlock) ++ [Z_byte index] in
  source ← hashSource Hash256 ab extraBytes;
  Ok (BytesToHash (Hash256 source)).1.

(** ** The protobuf message (fields of vitepb.AccountBlock)

    Absent byte fields are empty. *)
Inductive PbAccountBlock := mkPb {
  pb_BlockType : Z;
  pb_Hash : bytes;
  pb_Height : Z;
  pb_PrevHash : bytes;
  pb_AccountAddress : bytes;
  pb_PublicKey : bytes;
  pb_ToAddress : bytes;
  pb_FromBlockHash : bytes;
  pb_Amount : bytes;
  pb_TokenId : bytes;
  pb_Data : bytes;
  pb_Quota : Z;
  pb_QuotaUsed : Z;
  pb_Fee : bytes;
  pb_LogHash : bytes;
  pb_Difficulty : bytes;
  pb_Nonce : bytes;
  pb_SendBlockList : list PbAccountBlock;
  pb_Signature : bytes;
}.

(** The loop over the send blocks of [Proto] and [DeProto]. *)
Definition mapM_outcome {E A B} (f : A -> outcome E B) : list A -> outcome E (list B) :=
  fix go l :=
    match l with
    | [] => Ok []
    | x :: l' => y ← f x; ys ← go l'; Ok (y :: ys)
    end.

Definition carries_amount (blockType : Z) : bool :=
  IsSendBlock blockType || (blockType =? BlockTypeGenesisReceive).

Definition opt_bytes (o : option Z) : bytes :=
  match o with Some v => Bytes v | None => [] end.

Fixpoint Proto {E} (ab : AccountBlock) : outcome E PbAccountBlock :=
  let send := IsSendBlock (BlockType ab) in
  amount ← (if carries_amount (BlockType ab) then big_bytes (Amount ab) else Ok []);
  sendBlocks ← mapM_outcome Proto (SendBlockList ab);
  Ok {| pb_BlockType := BlockType ab;
        pb_Hash := ab_Hash ab;
        pb_Height := Height ab;
        pb_PrevHash := if 1 <? Height ab then PrevHash ab else [];
        pb_AccountAddress := AccountAddress ab;
        pb_PublicKey := PublicKey ab;
        pb_ToAddress := if send then ToAddress ab else [];
        pb_FromBlockHash := if send then [] else FromBlockHash ab;
        pb_Amount := amount;
        pb_TokenId := if carries_amount (BlockType ab) then TokenId ab else [];
        pb_Data := Data ab;
        pb_Quota := Quota ab;
        pb_QuotaUsed := QuotaUsed ab;
        pb_Fee := opt_bytes (Fee ab);
        pb_LogHash := match LogHash ab with Some h => h | None => [] end;
        pb_Difficulty := opt_bytes (Difficulty ab);
        pb_Nonce := Nonce ab;
        pb_SendBlockList := sendBlocks;
        pb_Signature := Signature ab |}.

(** A conversion whose error is returned. *)
Definition checked {A} (r : A * bool) : outcome unit A := if r.2 then Ok r.1 else Err tt.

Fixpoint DeProto (pb : PbAccountBlock) : outcome unit AccountBlock :=
  let blockType := u8 (pb_BlockType pb) in
  accountAddress ← checked (BytesToAddress (pb_AccountAddress pb));
  toAddress ← (if IsSendBlock blockType then checked (BytesToAddress (pb_ToAddress pb))
               else Ok ZERO_ADDRESS);
  fromBlockHash ← (if IsSendBlock blockType then Ok ZERO_HASH
                   else checked (BytesToHash (pb_FromBlockHash pb)));
  tokenId ← (if carries_amount blockType then checked (BytesToTokenTypeId (pb_TokenId pb))
             else Ok ZERO_TOKENID);
  logHash ← (if 0 <? len (pb_LogHash pb)
             then Some <$> checked (BytesToHash (pb_LogHash pb)) else Ok None);
  sendBlocks ← mapM_outcome DeProto (pb_SendBlockList pb);
  Ok {| BlockType := blockType;
        ab_Hash := (BytesToHash (pb_Hash pb)).1;
        Height := pb_Height pb;
        PrevHash := if 1 <? pb_Height pb then (BytesToHash (pb_PrevHash pb)).1 else ZERO_HASH;
        AccountAddress := accountAddress;
        PublicKey := pb_PublicKey pb;
        ToAddress := toAddress;
        Amount := if carries_amount blockType then Some (SetBytes (pb_Amount pb)) else None;
        TokenId := tokenId;
        FromBlockHash := fromBlockHash;
        Data := pb_Data pb;
        Quota := pb_Quota pb;
        QuotaUsed := pb_QuotaUsed pb;
        Fee := Some (SetBytes (pb_Fee pb));
        LogHash := logHash;
        Difficulty := if 0 <? len (pb_Difficulty pb) then Some (SetBytes (pb_Difficulty pb)) else None;
        Nonce := pb_Nonce pb;
        SendBlockList := sendBlocks;
        Signature := pb_Signature pb |}.

(** ** What a block looks like after the wire *)

(** The sizes the Go array types guarantee, and unsigned amounts. *)
Record field_ok (b : AccountBlock) : Prop := {
  fo_type : 0 <= BlockType b < 256;
  fo_hash : len (ab_Hash b) = HashSize;
  fo_prev : len (PrevHash b) = HashSize;
  fo_account : len (AccountAddress b) = AddressSize;
  fo_to : len (ToAddress b) = AddressSize;
  fo_from : len (FromBlockHash b) = HashSize;
  fo_token : len (TokenId b) = TokenTypeIdSize;
  fo_amount : carries_amount (BlockType b) = true -> exists a, Amount b = Some a /\ 0 <= a;
  fo_fee : forall f, Fee b = Some f -> 0 <= f;
  fo_difficulty : forall d, Difficulty b = Some d -> 0 <= d;
  fo_log : forall h, LogHash b = Some h -> len h = HashSize;
}.

Inductive block_ok : AccountBlock -> Prop :=
| block_ok_intro b : field_ok b -> Forall block_ok (SendBlockList b) -> block_ok b.

(** The fields of a block that its type does not use are dropped, a missing fee
    becomes 0 and a zero difficulty becomes missing. *)
Fixpoint normalize (b : AccountBlock) : AccountBlock :=
  let send := IsSendBlock (BlockType b) in
  {| BlockType := BlockType b; ab_Hash := ab_Hash b;
     PrevHash := if 1 <? Height b then PrevHash b else ZERO_HASH;
     Height := Height b; AccountAddress := AccountAddress b; PublicKey := PublicKey b;
     ToAddress := if send then ToAddress b else ZERO_ADDRESS;
     Amount := if carries_amount (BlockType b) then Amount b else None;
     TokenId := if carries_amount (BlockType b) then TokenId b else ZERO_TOKENID;
     FromBlockHash := if send then ZERO_HASH else FromBlockHash b;
     Data := Data b; Quota := Quota b; QuotaUsed := QuotaUsed b;
     Fee := Some (default 0 (Fee b)); LogHash := LogHash b;
     Difficulty := if default 0 (Difficulty b) =? 0 then None else Difficulty b;
     Nonce := Nonce b; SendBlockList := normalize <$> SendBlockList b;
     Signature := Signature b |}.

Lemma block_ok_ind' (P : AccountBlock -> Prop) :
  (forall b, field_ok b -> Forall P (SendBlockList b) -> P b) -> forall b, block_ok b -> P b.
Proof.
  intros H; fix go 2; intros b [b' Hf Hs]; apply H; [exact Hf|].
  induction Hs as [|x l Hx _ IH]; constructor; [exact (go x Hx)|exact IH].
Qed.

Lemma mapM_outcome_ok {E A B C} (f : A -> outcome E B) (g : B -> outcome unit C) h l :
  Forall (fun x => exists y, f x = Ok y /\ g y = Ok (h x)) l ->
  exists ys, mapM_outcome f l = Ok ys /\ mapM_outcome g ys = Ok (h <$> l).
Proof.
  induction 1 as [|x l (y & Hf & Hg) _ (ys & IHf & IHg)]; [by exists []|].
  exists (y :: ys); simpl; rewrite Hf, Hg; simpl; rewrite IHf, IHg; done.
Qed.

Lemma checked_Hash h : len h = HashSize -> BytesToHash h = (h, true).
Proof. intros H; unfold BytesToHash; rewrite H; done. Qed.
Lemma checked_Address a : len a = AddressSize -> BytesToAddress a = (a, true).
Proof. intros H; unfold BytesToAddress; rewrite H; done. Qed.
Lemma checked_TokenTypeId t : len t = TokenTypeIdSize -> BytesToTokenTypeId t = (t, true).
Proof. intros H; unfold BytesToTokenTypeId; rewrite H; done. Qed.

Lemma opt_bytes_SetBytes o : (forall v, o = Some v -> 0 <= v) -> SetBytes (opt_bytes o) = default 0 o.
Proof. intros H; destruct o as [v|]; simpl; [apply SetBytes_Bytes; auto|done]. Qed.

Lemma opt_bytes_empty o :
  (forall v, o = Some v -> 0 <= v) ->
  (if 0 <? len (opt_bytes o) then Some (SetBytes (opt_bytes o)) else None) =
  (if default 0 o =? 0 then None else o).
Proof.
  intros H; rewrite opt_bytes_SetBytes by done; destruct o as [v|]; [|done]; simpl.
  pose proof (Bytes_nil v) as Hn; specialize (H v eq_refl).
  destruct (Bytes v) eqn:E; simpl; destruct (Z.eqb_spec v 0); naive_solver.
Qed.

Lemma Proto_DeProto b :
  block_ok b -> exists pb, (Proto b : outcome unit _) = Ok pb /\ DeProto pb = Ok (normalize b).
Proof.
  induction 1 as [b [Ht Hh Hp Ha Hto Hfr Htk Ham Hfee Hd Hl] Hs] using block_ok_ind'.
  apply mapM_outcome_ok in Hs as (pbs & Hs1 & Hs2).
  assert (exists a, (if carries_amount (BlockType b) then big_bytes (Amount b) else Ok [])
                    = (Ok a : outcome unit _) /\
          (if carries_amount (BlockType b) then Some (SetBytes a) else None) =
          (if carries_amount (BlockType b) then Amount b else None)) as (a & Ea & Ha').
  { destruct (carries_amount (BlockType b)); [|by eexists].
    destruct (Ham eq_refl) as (a & E & H0); rewrite E; eexists; split; [done|].
    by rewrite SetBytes_Bytes. }
  destruct b as [bt bh bp bht ba bpk bto bam btk bfr bdt bq bqu bfee bl bd bn bs bsig]; simpl in *.
  rewrite Ea; simpl; rewrite Hs1; simpl; eexists; split; [reflexivity|]; simpl.
  unfold u8; rewrite (Z.mod_small bt) by (change (2 ^ 8) with 256; lia).
  rewrite Ha', opt_bytes_SetBytes, opt_bytes_empty by done.
  rewrite (checked_Hash bh), (checked_Address ba) by done; simpl.
  assert (Elog : (if 0 <? len (match bl with Some h => h | None => [] end)
                  then Some <$> checked (BytesToHash match bl with Some h => h | None => [] end)
                  else Ok None) = (Ok bl : outcome unit _)).
  { destruct bl as [h|]; [|done]; rewrite checked_Hash by auto; rewrite (Hl h) by done; done. }
  rewrite Elog, Hs2; clear Elog Hs2.
  assert (Ep : (BytesToHash (if 1 <? bht then bp else [])).1 =
               if 1 <? bht then bp else ZERO_HASH)
    by (destruct (1 <? bht); [by rewrite checked_Hash|done]).
  destruct (IsSendBlock bt), (carries_amount bt), (1 <? bht); simpl in *;
    rewrite ?Ep, ?(checked_Hash bfr Hfr), ?(checked_Address bto Hto),
      ?(checked_TokenTypeId btk Htk); done.
Qed.

Lemma send_carries t : IsSendBlock t = true -> carries_amount t = true.
Proof. unfold carries_amount; intros ->; done. Qed.

Lemma hashSource_normalize {E} H b x :
  1 < Height b \/ PrevHash b = ZERO_HASH ->
  (hashSource H (normalize b) x : outcome E _) = hashSource H b x.
Proof.
  intros Hp; pose proof (send_carries (BlockType b)) as Hc.
  assert (Eh : ab_Hash <$> (normalize <$> SendBlockList b) = ab_Hash <$> SendBlockList b).
  { rewrite <- list_fmap_compose; apply list_fmap_ext; intros i c _; by destruct c. }
  assert (Ep : (if 1 <? Height b then PrevHash b else ZERO_HASH) = PrevHash b).
  { destruct (Z.ltb_spec 1 (Height b)); [done|]; destruct Hp; [lia|done]. }
  unfold hashSource; destruct b as [bt bh bp bht ba bpk bto bam btk bfr bdt bq bqu bfee bl bd bn bs bsig].
  cbn -[IsSendBlock] in *; rewrite Ep, Eh; destruct (IsSendBlock bt); [rewrite Hc by done|];
    by destruct bfee as [f|].
Qed.

Lemma normalize_idem b : block_ok b -> normalize (normalize b) = normalize b.
Proof.
  induction 1 as [b _ Hs] using block_ok_ind'.
  destruct b as [bt bh bp bht ba bpk bto bam btk bfr bdt bq bqu bfee bl bd bn bs bsig]; simpl in *.
  assert (Es : normalize <$> (normalize <$> bs) = normalize <$> bs).
  { rewrite <- list_fmap_compose; apply list_fmap_ext.
    intros i c Hc; exact (Forall_lookup_1 _ _ _ _ Hs Hc). }
  rewrite Es; clear Es Hs.
  destruct (1 <? bht), (IsSendBlock bt), (carries_amount bt); f_equal;
    destruct bd as [d|]; simpl; try done; destruct (d =? 0) eqn:Ed; simpl; rewrite ?Ed; done.
Qed.

(** ** What the hash determines *)

Lemma length_LeftPad bs l : len bs <= l -> length (LeftPadBytes bs l) = Z.to_nat l.
Proof. intros H; pose proof (LeftPad_length bs l H); unfold len in *; lia. Qed.

Lemma LeftPad_inj_bytes x y l :
  0 <= x -> 0 <= y -> LeftPadBytes (Bytes x) l = LeftPadBytes (Bytes y) l -> x = y.
Proof.
  intros Hx Hy H; apply (f_equal SetBytes) in H; unfold LeftPadBytes in H.
  destruct (l <=? len (Bytes x)), (l <=? len (Bytes y)); rewrite ?SetBytes_app, ?SetBytes_zeros in H;
    rewrite !SetBytes_Bytes in H by done; lia.
Qed.

Lemma app_inv_len {A} (a b c d : list A) :
  length a = length c -> a ++ b = c ++ d -> a = c /\ b = d.
Proof. intros Hl H; by apply app_inj_1 in H. Qed.

Lemma PutUint64_inj x y : is_u64 x -> is_u64 y -> PutUint64 x = PutUint64 y -> x = y.
Proof.
  intros Hx Hy H; apply (f_equal SetBytes) in H; unfold PutUint64 in H.
  rewrite !SetBytes_be_bytes in H; change (256 ^ Z.of_nat 8) with (2 ^ 64) in H.
  rewrite !Z.mod_small in H by assumption; done.
Qed.

(** The part of the source a send block and a receive block write differently. *)
Definition body (b : AccountBlock) : bytes :=
  if IsSendBlock (BlockType b)
  then ToAddress b ++ LeftPadBytes (opt_bytes (Amount b)) 32 ++ TokenId b
  else FromBlockHash b.

Lemma hashSource_eq {E} H b x :
  field_ok b ->
  (hashSource H b x : outcome E _) =
  Ok ([Z_byte (BlockType b)] ++ PrevHash b ++ PutUint64 (Height b) ++ AccountAddress b ++ body b ++
      (if 0 <? len (Data b) then H (Data b) else []) ++ LeftPadBytes (opt_bytes (Fee b)) 32 ++
      default [] (LogHash b) ++ LeftPadBytes (Nonce b) 8 ++
      concat (ab_Hash <$> SendBlockList b) ++ x).
Proof.
  intros Hf; unfold hashSource, body.
  destruct (IsSendBlock (BlockType b)) eqn:Es.
  - destruct (fo_amount b Hf (send_carries _ Es)) as (a & -> & _); simpl.
    destruct (0 <? len (Data b)), (LogHash b); simpl; rewrite <- !app_assoc; done.
  - simpl; destruct (0 <? len (Data b)), (LogHash b); simpl; rewrite <- !app_assoc; done.
Qed.

Lemma normalize_field_ok b : field_ok b -> field_ok (normalize b).
Proof.
  intros [Ht Hh Hp Ha Hto Hfr Htk Ham Hfee Hd Hl].
  destruct b as [bt bh bp bht ba bpk bto bam btk bfr bdt bq bqu bfee bl bd bn bs bsig]; simpl in *; split; simpl; try done.
  - by destruct (1 <? bht).
  - by destruct (IsSendBlock bt).
  - by destruct (IsSendBlock bt).
  - by destruct (carries_amount bt).
  - intros Hc; rewrite Hc; auto.
  - intros f [= <-]; destruct bfee; simpl; [auto|done].
  - intros d; destruct bd as [d'|]; simpl; [destruct (d' =? 0); naive_solver|done].
Qed.

(** The bytes under the hash survive the wire exactly when the hash of the
    previous block does: it is not sent at height 1 and below. *)
Lemma hashSource_wire {E} H b x : field_ok b ->
  (hashSource H (normalize b) x : outcome E _) = hashSource H b x <-> 1 < Height b \/ PrevHash b = ZERO_HASH.
Proof.
  intros Hf; split; [|apply hashSource_normalize]; pose proof (normalize_field_ok b Hf) as Hn.
  rewrite !hashSource_eq by done; intros Eq%Ok_inj.
  apply app_inv_len in Eq as [_ Eq]; [|done]; destruct Hf, Hn; unfold len in *.
  apply app_inv_len in Eq as [Ep _]; [|lia].
  destruct (Z.ltb_spec 1 (Height b)) as [|Hh]; [by left|right].
  rewrite <- Ep; destruct b; simpl in *; by destruct (Z.ltb_spec 1 Height); [lia|].
Qed.

(** A block whose hashed fields fit their slots. *)
Record hashable (b : AccountBlock) : Prop := {
  hb_fields : field_ok b;
  hb_height : is_u64 (Height b);
  hb_amount : default 0 (Amount b) < 2 ^ 256;
  hb_fee : default 0 (Fee b) < 2 ^ 256;
  hb_nonce : len (Nonce b) <= 8;
  hb_sends : Forall (fun c => length (ab_Hash c) = 32%nat) (SendBlockList b);
}.

(** Two blocks that carry the same optional parts. *)
Definition same_shape (b c : AccountBlock) : Prop :=
  (Data b = [] <-> Data c = []) /\ (LogHash b = None <-> LogHash c = None).

Lemma length_padded_opt o :
  (forall v, o = Some v -> 0 <= v) -> default 0 o < 2 ^ 256 ->
  length (LeftPadBytes (opt_bytes o) 32) = 32%nat.
Proof.
  intros H0 H; rewrite length_LeftPad; [done|]; destruct o as [v|]; simpl in *; [|done].
  pose proof (length_Bytes_u256 v (conj (H0 v eq_refl) H)); unfold len; lia.
Qed.

Lemma padded_opt_inj o p :
  (forall v, o = Some v -> 0 <= v) -> (forall v, p = Some v -> 0 <= v) ->
  LeftPadBytes (opt_bytes o) 32 = LeftPadBytes (opt_bytes p) 32 -> default 0 o = default 0 p.
Proof.
  assert (Hb : forall q, opt_bytes q = Bytes (default 0 q)) by (intros [v|]; done).
  intros Ho Hp; rewrite !Hb; apply LeftPad_inj_bytes; [destruct o|destruct p]; simpl; auto; done.
Qed.

Lemma concat_inj (l l' : list bytes) :
  Forall (fun c => length c = 32%nat) l -> Forall (fun c => length c = 32%nat) l' ->
  concat l = concat l' -> l = l'.
Proof.
  intros H; revert l'; induction H as [|x l Hx _ IH]; intros [|y l'] H'; inversion_clear H' as [|? ? Hy ?];
    simpl; intros E; try (apply (f_equal length) in E; rewrite ?length_app in E; simpl in E; lia).
  - done.
  - apply app_inv_len in E as [-> E]; [|lia]; f_equal; auto.
Qed.

Lemma amount_nonneg b :
  field_ok b -> IsSendBlock (BlockType b) = true -> forall v, Amount b = Some v -> 0 <= v.
Proof.
  intros Hf Hs v Hv; destruct (fo_amount b Hf (send_carries _ Hs)) as (a & Ha & H0); congruence.
Qed.

Lemma body_length b :
  hashable b -> length (body b) = if IsSendBlock (BlockType b) then 63%nat else 32%nat.
Proof.
  intros [Hf _ Ha _ _ _]; pose proof (amount_nonneg b Hf) as H0; destruct Hf; unfold body, len in *.
  destruct (IsSendBlock (BlockType b)); [|unfold HashSize in *; lia].
  rewrite !length_app, length_padded_opt by auto; unfold AddressSize, TokenTypeIdSize in *; lia.
Qed.

Lemma body_inj b c :
  hashable b -> hashable c -> BlockType b = BlockType c -> body b = body c ->
  if IsSendBlock (BlockType b)
  then ToAddress b = ToAddress c /\ default 0 (Amount b) = default 0 (Amount c) /\
       TokenId b = TokenId c
  else FromBlockHash b = FromBlockHash c.
Proof.
  intros [Hb _ Hab _ _ _] [Hc _ Hac _ _ _] Et; unfold body; rewrite <- Et.
  pose proof (amount_nonneg b Hb) as Pb; pose proof (amount_nonneg c Hc) as Pc; rewrite <- Et in Pc.
  destruct (IsSendBlock (BlockType b)); [|done]; destruct Hb, Hc; unfold len in *; intros E.
  apply app_inv_len in E as [ET E]; [|lia].
  apply app_inv_len in E as [EA EK]; [|rewrite !length_padded_opt by auto; done].
  split_and!; [done|apply padded_opt_inj; auto|done].
Qed.

(** ** Properties *)

(** Copying a block doubles its list of sent blocks, and otherwise keeps the
    block; only a block that sends nothing is copied faithfully. *)
Theorem copy_doubles_sends b :
  Copy b = set_SendBlockList b (SendBlockList b ++ (Copy <$> SendBlockList b)) /\
  (Copy b = b <-> SendBlockList b = []).
Proof.
  assert (E : Copy b = set_SendBlockList b (SendBlockList b ++ (Copy <$> SendBlockList b)))
    by (by destruct b).
  split; [done|]; rewrite E; split; [intros H|by intros Hn; destruct b; simpl in *; subst].
  apply (f_equal (fun x => length (SendBlockList x))) in H; simpl in H.
  rewrite length_app, length_fmap in H; apply nil_length_inv; lia.
Qed.

(** C35 Sending a block over the wire and reading it back never fails, drops only
    the fields its type does not use and the previous hash of a first block, and
    gives a block that survives further trips unchanged.  The bytes the hash is
    computed from are kept exactly when the height is above 1 or the previous
    hash is zero, as it is for a valid first block; then the hash is kept. *)
Theorem wire_roundtrip H b :
  block_ok b ->
  exists pb, (Proto b : outcome unit _) = Ok pb /\ DeProto pb = Ok (normalize b) /\
    normalize (normalize b) = normalize b /\
    ((hashSource H (normalize b) [] : outcome unit _) = hashSource H b [] <->
     1 < Height b \/ PrevHash b = ZERO_HASH) /\
    (1 < Height b \/ PrevHash b = ZERO_HASH ->
     (ComputeHash H (normalize b) : outcome unit _) = ComputeHash H b).
Proof.
  intros Hb; destruct (Proto_DeProto b Hb) as (pb & E1 & E2); exists pb.
  split_and!; [done..|by apply normalize_idem| |].
  - apply hashSource_wire; by destruct Hb.
  - intros Hp; unfold ComputeHash; by rewrite hashSource_normalize.
Qed.

Definition example_send : AccountBlock :=
  MakeRequestBlock (builtin_addr x03) (builtin_addr x04) BlockTypeSendCall 5 ViteTokenId [x01].
Definition example_receive : AccountBlock :=
  {| BlockType := BlockTypeReceive; ab_Hash := ZERO_HASH; PrevHash := ZERO_HASH; Height := 7;
     AccountAddress := builtin_addr x03; PublicKey := []; ToAddress := ZERO_ADDRESS;
     Amount := None; TokenId := ZERO_TOKENID; FromBlockHash := ZERO_HASH; Data := [];
     Quota := 0; QuotaUsed := 0; Fee := None; LogHash := None; Difficulty := Some 0;
     Nonce := []; SendBlockList := [example_send]; Signature := [] |}.

Lemma example_blocks_ok : field_ok example_send /\ field_ok example_receive.
Proof.
  split; (split; try reflexivity; try (vm_compute; split; congruence);
    simpl; intros; simplify_eq; first [lia|by eexists]).
Qed.

Lemma wire_roundtrip_witness :
  exists pb, (Proto example_receive : outcome unit _) = Ok pb /\
    DeProto pb = Ok (normalize example_receive) /\ normalize example_receive <> example_receive /\
    (ComputeHash (fun _ => ZERO_HASH) (normalize example_receive) : outcome unit _) =
      ComputeHash (fun _ => ZERO_HASH) example_receive.
Proof.
  destruct (wire_roundtrip (fun _ => ZERO_HASH) example_receive) as (pb & E1 & E2 & _ & _ & E3).
  - constructor; [apply example_blocks_ok|]; constructor; [|constructor].
    constructor; [apply example_blocks_ok|constructor].
  - exists pb; split; [exact E1|]; split; [exact E2|]; split; [discriminate|apply E3; left; reflexivity].
Defined.

(** C36 The bytes a block hash is computed from determine every hashed field of
    the block, among blocks that carry the same optional parts: the source
    concatenates fields without separators, and they can be told apart.  The
    fields must fit the slots they are padded to: amount and fee below 2^256, a
    nonce of at most eight bytes. *)
Theorem hashSource_injective (H : bytes -> bytes) b c x :
  (forall d, length (H d) = 32%nat) -> hashable b -> hashable c -> same_shape b c ->
  (hashSource H b x : outcome unit _) = hashSource H c x ->
  BlockType b = BlockType c /\ PrevHash b = PrevHash c /\ Height b = Height c /\
  AccountAddress b = AccountAddress c /\
  (if IsSendBlock (BlockType b)
   then ToAddress b = ToAddress c /\ default 0 (Amount b) = default 0 (Amount c) /\
        TokenId b = TokenId c
   else FromBlockHash b = FromBlockHash c) /\
  (Data b <> [] -> H (Data b) = H (Data c)) /\ default 0 (Fee b) = default 0 (Fee c) /\
  LogHash b = LogHash c /\ LeftPadBytes (Nonce b) 8 = LeftPadBytes (Nonce c) 8 /\
  (ab_Hash <$> SendBlockList b) = (ab_Hash <$> SendBlockList c).
Proof.
  intros HH Hb Hc [Sd Sl]; pose proof (body_inj b c Hb Hc) as Hbody.
  pose proof (body_length b Hb) as Lb; pose proof (body_length c Hc) as Lc.
  destruct Hb as [Fb Ub _ Feb Nb Kb], Hc as [Fc Uc _ Fec Nc Kc].
  rewrite !hashSource_eq by done; intros E%Ok_inj.
  apply app_inv_len in E as [E0 E]; [|done].
  assert (Et : BlockType b = BlockType c).
  { injection E0 as E0; apply (f_equal byte_Z) in E0; rewrite !byte_Z_byte in E0.
    destruct Fb, Fc; rewrite !Z.mod_small in E0 by lia; done. }
  specialize (Hbody Et); rewrite <- Et in Lc.
  destruct Fb as [_ _ Pb Ab _ _ _ _ Feb0 _ Gb], Fc as [_ _ Pc Ac _ _ _ _ Fec0 _ Gc].
  unfold len in *.
  apply app_inv_len in E as [Ep E]; [|lia].
  apply app_inv_len in E as [Eh E]; [|unfold PutUint64; by rewrite !length_be_bytes].
  apply app_inv_len in E as [Ea E]; [|lia].
  apply app_inv_len in E as [Ebody E]; [|by rewrite Lb, Lc].
  assert (Hd : forall z, (0 <? Z.of_nat (length (Data z))) = negb (bool_decide (Data z = []))).
  { intros z; destruct (Data z); done. }
  rewrite !Hd, (bool_decide_ext _ _ Sd) in E.
  apply app_inv_len in E as [Ed E]; [|destruct (bool_decide _); simpl; by rewrite ?HH].
  apply app_inv_len in E as [Ef E]; [|by rewrite !length_padded_opt].
  apply app_inv_len in E as [El E];
    [|destruct (LogHash b) as [g|], (LogHash c) as [g'|]; simpl;
      [pose proof (Gb g eq_refl); pose proof (Gc g' eq_refl); lia
      |discriminate (proj2 Sl eq_refl)|discriminate (proj1 Sl eq_refl)|done]].
  apply app_inv_len in E as [En E]; [|by rewrite !length_LeftPad].
  apply app_inv_tail, concat_inj in E; [|by apply Forall_fmap..].
  split_and!; try done.
  - by apply PutUint64_inj.
  - by apply Hbody.
  - intros Hne; rewrite bool_decide_eq_false_2 in Ed by (rewrite <- Sd; done); done.
  - by apply padded_opt_inj.
  - destruct (LogHash b), (LogHash c); simpl in El;
      [by subst|discriminate (proj2 Sl eq_refl)|discriminate (proj1 Sl eq_refl)|done].
Qed.

(** The receive block with a fee of 0 and a nonce of one zero byte. *)
Definition example_padded : AccountBlock :=
  {| BlockType := BlockTypeReceive; ab_Hash := ZERO_HASH; PrevHash := ZERO_HASH; Height := 7;
     AccountAddress := builtin_addr x03; PublicKey := []; ToAddress := ZERO_ADDRESS;
     Amount := None; TokenId := ZERO_TOKENID; FromBlockHash := ZERO_HASH; Data := [];
     Quota := 1; QuotaUsed := 0; Fee := Some 0; LogHash := None; Difficulty := Some 0;
     Nonce := [x00]; SendBlockList := [example_send]; Signature := [] |}.

Lemma example_hashable a :
  0 <= a < 2 ^ 256 ->
  hashable (MakeRequestBlock (builtin_addr x03) (builtin_addr x04) BlockTypeSendCall a ViteTokenId [x01]) /\
  hashable example_receive /\ hashable example_padded.
Proof.
  intros Ha; split_and!; (split; [split; try reflexivity; try (vm_compute; split; congruence);
    simpl; intros; simplify_eq; first [lia|eexists; split; [done|lia]|done]
    |vm_compute; split; congruence|cbn -[Z.pow]; lia|cbn -[Z.pow]; lia|vm_compute; congruence|repeat constructor]).
Qed.

(** Two different blocks with the same bytes agree in the hashed fields, and
    two calls that differ in the amount have different bytes. *)
Lemma hashSource_injective_witness :
  (example_receive <> example_padded /\ default 0 (Fee example_receive) = default 0 (Fee example_padded) /\
   LeftPadBytes (Nonce example_receive) 8 = LeftPadBytes (Nonce example_padded) 8) /\
  (hashSource (fun _ => ZERO_HASH) example_send [] : outcome unit _) <>
  hashSource (fun _ => ZERO_HASH)
    (MakeRequestBlock (builtin_addr x03) (builtin_addr x04) BlockTypeSendCall 6 ViteTokenId [x01]) [].
Proof.
  destruct (example_hashable 5) as (H5 & Hr & Hp); [vm_compute; split; congruence|].
  destruct (example_hashable 6) as (H6 & _ & _); [vm_compute; split; congruence|]; split.
  - destruct (hashSource_injective (fun _ => ZERO_HASH) example_receive example_padded []) as
      (_ & _ & _ & _ & _ & _ & Hf & _ & Hn & _); [reflexivity|exact Hr|exact Hp|split; done|reflexivity|].
    split; [discriminate|]; split; assumption.
  - intros E; destruct (hashSource_injective (fun _ => ZERO_HASH) example_send
      (MakeRequestBlock (builtin_addr x03) (builtin_addr x04) BlockTypeSendCall 6 ViteTokenId [x01]) []) as
      (_ & _ & _ & _ & (_ & Ha & _) & _); [reflexivity|exact H5|exact H6|split; done|exact E|discriminate Ha].
Defined.
