(* ===== verification/CreateData.v ===== *)
(** vm/util/common.go: the data of a contract creation request, which is a
    delegate group id, the contract type, the numbers of snapshot blocks the
    response waits for, the quota multiplier, and the code. *)
From S2P Require Import Prelude Helper Types Upgrade.

Definition CreateContractDataLengthMin : Z := 13.
Definition CreateContractDataLengthMinRand : Z := 14.
Definition SolidityPPContractType : Z := 1.

(** [uint8(data[i])] *)
Definition data_byte (data : bytes) (i : nat) : result Z := byte_Z <$> or_panic PIndex (data !! i).

(** [data[i:]] *)
Definition data_from (data : bytes) (i : nat) : result bytes :=
  if (length data <? i)%nat then Panic PSlice else Ok (drop i data).

Definition GetCreateContractData (bytecode : bytes)
    (contractType snapshotCount snapshotWithSeedCount quotaMultiplier : byte) (gid : Gid) : bytes :=
  gid ++ [contractType] ++ [snapshotCount] ++ [snapshotWithSeedCount] ++ [quotaMultiplier] ++ bytecode.

Definition GetGidFromCreateContractData (data : bytes) : result Gid :=
  if (length data <? 10)%nat then Panic PSlice else Ok (BytesToGid (take 10 data)).1.

Definition GetContractTypeFromCreateContractData (data : bytes) : result Z := data_byte data 10.

Definition IsExistContractType (contractType : Z) : bool := contractType =? SolidityPPContractType.

Definition GetSnapshotCountFromCreateContractData (data : bytes) : result Z := data_byte data 11.

Definition GetSnapshotWithSeedCountCountFromCreateContractData (data : bytes) : result Z :=
  data_byte data 12.

Definition GetQuotaMultiplierFromCreateContractData (box : upgradeBox) (data : bytes)
    (snapshotHeight : Z) : result Z :=
  if negb (IsSeedUpgrade box snapshotHeight) then data_byte data 12 else data_byte data 13.

Definition GetCodeFromCreateContractData (box : upgradeBox) (data : bytes) (snapshotHeight : Z) :
    result bytes :=
  if negb (IsSeedUpgrade box snapshotHeight) then data_from data 13 else data_from data 14.

Definition PackContractCode (contractType : byte) (code : bytes) : bytes := [contractType] ++ code.

(** [vcrypto.Hash(AddressCoreSize, data...)] is the parameter [Hash20]. *)
Definition CreateContractAddress (Hash20 : bytes -> bytes) (data : list bytes) : Address :=
  (BytesToAddress (Hash20 (concat data) ++ [ContractAddrByte])).1.

Definition NewContractAddress (Hash20 : bytes -> bytes) (accountAddress : Address)
    (accountBlockHeight : Z) (prevBlockHash : Hash) : Address :=
  CreateContractAddress Hash20 [accountAddress; LeftPadBytes (Bytes accountBlockHeight) 8; prevBlockHash].

(** The data of a creation request reads back as what it was made from, once
    the seed fork is active. *)
Theorem create_data_roundtrip box h code ct sc ssc qm gid :
  IsSeedUpgrade box h = true -> length gid = 10%nat ->
  let data := GetCreateContractData code ct sc ssc qm gid in
  GetGidFromCreateContractData data = Ok gid /\
  GetContractTypeFromCreateContractData data = Ok (byte_Z ct) /\
  GetSnapshotCountFromCreateContractData data = Ok (byte_Z sc) /\
  GetSnapshotWithSeedCountCountFromCreateContractData data = Ok (byte_Z ssc) /\
  GetQuotaMultiplierFromCreateContractData box data h = Ok (byte_Z qm) /\
  GetCodeFromCreateContractData box data h = Ok code.
Proof.
  intros Hs Hg; do 10 (destruct gid as [|? gid]; [done|]); destruct gid; [|done].
  unfold GetQuotaMultiplierFromCreateContractData, GetCodeFromCreateContractData; rewrite Hs.
  unfold GetCreateContractData; split_and!; try reflexivity.
Qed.

Lemma create_data_roundtrip_witness :
  exists box, NewLatestUpgradeBox = Ok box /\
    GetCodeFromCreateContractData box
      (GetCreateContractData [x60; x00] x01 x02 x01 x0a DELEGATE_GID) 100 = Ok [x60; x00].
Proof.
  eexists; split; [vm_compute; reflexivity|].
  eapply (create_data_roundtrip _ 100 [x60; x00] x01 x02 x01 x0a DELEGATE_GID); vm_compute; reflexivity.
Defined.
