(* ===== verification/Abi.v ===== *)
(** Package vm/abi: the binary interface of contract calls, storage variables
    and events.

    Values are Go values as the reflection code sees them; a type is what
    [NewType] builds, which allows one pair of brackets, so the element of a
    slice or array is elementary.  Method and event identifiers are prefixes of a
    hash of the signature; the hash function is a parameter.  The copy of decoded
    values into Go structs by field name ([mapAbiToStructFields]) is left to the
    callers, which take the values by position.  Lengths and offsets are [int]s
    bounded by the length of a byte string and do not wrap. *)
From S2P Require Import Prelude Helper Types.
From Stdlib Require Import Ascii String.
From stdpp Require Import strings.
#[local] Open Scope Z_scope.

(** ** Types (type.go) *)

Inductive elemType :=
| IntTy (size : Z)
| UintTy (size : Z)
| BoolTy
| StringTy
| AddressTy
| GidTy
| TokenIdTy
| FixedBytesTy (size : Z)
| BytesTy.

Inductive abiType :=
| ElemTy (e : elemType)
| SliceTy (e : elemType)
| ArrayTy (e : elemType) (size : Z).

#[export] Instance elemType_eq_dec : EqDecision elemType.
Proof. solve_decision. Defined.
#[export] Instance abiType_eq_dec : EqDecision abiType.
Proof. solve_decision. Defined.

(** error.go: the errors the calls distinguish. *)
Inductive abi_err :=
| errBadBool
| errEmptyInput
| errCouldNotLocateNamedMethod
| errCouldNotLocateNamedVariable
| errMethodNotFound
| errCallbackNotFound
| errVariableNotFound
| errEventNotFound
| errNoMethodId
| errType
| errParsingVariableSize
| errUnsupportedArgType
| errInvalidZeroVariableSize
| errInvalidArrayTypeFormatting
| errInvalidEmptyVariableInput
| errArgLengthMismatch
| errPackFailed
| errNegativeInputSize
| errWrongPackedLength
| errArrayOffsetOverflow
| errInsufficientLength
| errBigSliceOffsetOverflow
| errBigOffsetOverflow
| errBigLengthOverflow
| errInsufficientBigLength.

Abbreviation abiM := (outcome abi_err).

(** *** Parsing a type *)

Definition isDigit (c : ascii) : bool := let n := nat_of_ascii c in (48 <=? n)%nat && (n <=? 57)%nat.
Definition isLetter (c : ascii) : bool :=
  let n := nat_of_ascii c in (65 <=? n)%nat && (n <=? 90)%nat || (97 <=? n)%nat && (n <=? 122)%nat.

(** The longest prefix of characters that satisfy the test, and the rest. *)
Fixpoint span (p : ascii -> bool) (s : string) : string * string :=
  match s with
  | EmptyString => (EmptyString, EmptyString)
  | String c s' => if p c then let '(a, b) := span p s' in (String c a, b) else (EmptyString, s)
  end.

(** The first match of [([a-zA-Z]+)([0-9]+)?]: its two groups. *)
Fixpoint typeRegex (s : string) : option (string * string) :=
  match s with
  | EmptyString => None
  | String c s' =>
      if isLetter c
      then let '(word, rest) := span isLetter s in Some (word, (span isDigit rest).1)
      else typeRegex s'
  end.

(** The matches of [[0-9]+]. *)
Fixpoint digitRuns (inRun : bool) (s : string) : list string :=
  match s with
  | EmptyString => []
  | String c s' =>
      if isDigit c
      then if inRun then digitRuns true s' else (span isDigit s).1 :: digitRuns true s'
      else digitRuns false s'
  end.

(** strconv.Atoi of a run of digits: an error when the value leaves [int]. *)
Fixpoint decimal (acc : Z) (s : string) : Z :=
  match s with
  | EmptyString => acc
  | String c s' => decimal (acc * 10 + (Z.of_nat (nat_of_ascii c) - 48)) s'
  end.
Definition Atoi (s : string) : abiM Z :=
  let v := decimal 0 s in if v <? 2 ^ 63 then Ok v else Err errParsingVariableSize.

Fixpoint count (c : ascii) (s : string) : nat :=
  match s with
  | EmptyString => 0
  | String d s' => if bool_decide (c = d) then S (count c s') else count c s'
  end.

(** The part of [NewType] after the brackets: no match is an index panic. *)
Definition NewElemType (t : string) : abiM elemType :=
  if bool_decide (t = "uint"%string) || bool_decide (t = "int"%string) then Err errUnsupportedArgType
  else if negb (count "["%char t =? count "]"%char t)%nat then Err errUnsupportedArgType
  else
    '(varType, digits) ← or_panic PIndex (typeRegex t);
    varSize ← (if bool_decide (digits = EmptyString) then Ok 0
               else size ← Atoi digits; if size =? 0 then Err errInvalidZeroVariableSize else Ok size);
    if bool_decide (varType = "int"%string) then Ok (IntTy varSize)
    else if bool_decide (varType = "uint"%string) then Ok (UintTy varSize)
    else if bool_decide (varType = "bool"%string) then Ok BoolTy
    else if bool_decide (varType = "address"%string) then Ok AddressTy
    else if bool_decide (varType = "gid"%string) then Ok GidTy
    else if bool_decide (varType = "tokenId"%string) then Ok TokenIdTy
    else if bool_decide (varType = "string"%string) then Ok StringTy
    else if bool_decide (varType = "bytes"%string)
    then Ok (if varSize =? 0 then BytesTy else FixedBytesTy varSize)
    else Err errUnsupportedArgType.

Definition NewType (t : string) : abiM abiType :=
  if bool_decide (t = "uint"%string) || bool_decide (t = "int"%string) then Err errUnsupportedArgType
  else if negb (count "["%char t =? count "]"%char t)%nat || (1 <? count "["%char t)%nat
  then Err errUnsupportedArgType
  else if (count "["%char t =? 0)%nat then ElemTy <$> NewElemType t
  else
    let '(embedded, sliced) := span (fun c => negb (bool_decide (c = "["%char))) t in
    embeddedType ← NewElemType embedded;
    match digitRuns false sliced with
    | [] => Ok (SliceTy embeddedType)
    | [digits] =>
        size ← Atoi digits;
        if size =? 0 then Err errInvalidZeroVariableSize else Ok (ArrayTy embeddedType size)
    | _ => Err errInvalidArrayTypeFormatting
    end.

Definition requiresLengthPrefix (t : abiType) : bool :=
  match t with ElemTy StringTy | ElemTy BytesTy | SliceTy _ => true | _ => false end.

(** ** Values

    Numbers carry the Go type: a machine integer or a [*big.Int].  A Go list of
    elements is [VList]; byte slices and byte arrays, addresses and identifiers
    among them, are [VBytes] and [VArray].  The elements of a [VList] have one Go
    type; that of an empty one is not recorded. *)
Inductive numKind := Machine (unsigned : bool) (bits : Z) | Big.

Inductive abiValue :=
| VNum (k : numKind) (z : Z)
| VBool (b : bool)
| VString (s : bytes)
| VBytes (bs : bytes)
| VArray (bs : bytes)
| VList (vs : list abiValue).

#[export] Instance numKind_eq_dec : EqDecision numKind.
Proof. solve_decision. Defined.

(** reflectIntKindAndType (reflect.go) *)
Definition reflectIntKind (unsigned : bool) (size : Z) : numKind :=
  if (size =? 8) || (size =? 16) || (size =? 32) || (size =? 64) then Machine unsigned size else Big.

(** reflect.Kind, of a type and of a value. *)
Inductive Kind := KNum (k : numKind) | KBool | KString | KSlice | KArray.

#[export] Instance Kind_eq_dec : EqDecision Kind.
Proof. solve_decision. Defined.

Definition elemKind (e : elemType) : Kind :=
  match e with
  | IntTy size => KNum (reflectIntKind false size)
  | UintTy size => KNum (reflectIntKind true size)
  | BoolTy => KBool
  | StringTy => KString
  | AddressTy | GidTy | TokenIdTy | FixedBytesTy _ => KArray
  | BytesTy => KSlice
  end.

Definition valueKind (v : abiValue) : Kind :=
  match v with
  | VNum k _ => KNum k
  | VBool _ => KBool
  | VString _ => KString
  | VBytes _ | VList _ => KSlice
  | VArray _ => KArray
  end.

(** The elements of a Go slice or array. *)
Definition elements (v : abiValue) : option (list abiValue) :=
  match v with
  | VList vs => Some vs
  | VBytes bs | VArray bs => Some ((fun b => VNum (Machine true 8) (byte_Z b)) <$> bs)
  | _ => None
  end.

(** ** Packing (pack.go, error.go, numbers.go) *)

Definition packNum (z : Z) : bytes := PaddedBigBytes (U256 z) WordSize.

Definition packBytesSlice (bs : bytes) (l : Z) : bytes :=
  packNum l ++ RightPadBytes bs ((l + WordSize - 1) / WordSize * WordSize).

(** A call of [reflect] on a value of another kind panics. *)
Definition byteSlice (v : abiValue) : abiM bytes :=
  match v with VBytes bs | VArray bs => Ok bs | _ => Panic PReflect end.

Definition packElement (e : elemType) (v : abiValue) : abiM bytes :=
  match e, v with
  | IntTy _, VNum _ z | UintTy _, VNum _ z => Ok (packNum z)
  | IntTy _, _ | UintTy _, _ => Err errPackFailed
  | StringTy, VString s => Ok (packBytesSlice s (len s))
  | AddressTy, _ | GidTy, _ | TokenIdTy, _ => bs ← byteSlice v; Ok (LeftPadBytes bs WordSize)
  | BoolTy, VBool b => Ok (PaddedBigBytes (if b then 1 else 0) WordSize)
  | BytesTy, _ => bs ← byteSlice v; Ok (packBytesSlice bs (len bs))
  | FixedBytesTy _, _ => bs ← byteSlice v; Ok (RightPadBytes bs WordSize)
  | _, _ => Panic PReflect
  end.

(** typeCheck of an elementary type; [Len] of a number panics. *)
Definition elemTypeCheck (e : elemType) (v : abiValue) : abiM unit :=
  if negb (bool_decide (elemKind e = KArray)) && negb (bool_decide (elemKind e = valueKind v))
  then Err errType
  else match e with
       | FixedBytesTy size =>
           match v with
           | VNum _ _ | VBool _ => Panic PReflect
           | VString s | VBytes s | VArray s => if size =? len s then Ok tt else Err errType
           | VList vs => if size =? Z.of_nat (length vs) then Ok tt else Err errType
           end
       | _ => Ok tt
       end.

(** The test of sliceTypeCheck on the kind of the elements. *)
Definition elemKindOk (want got : Kind) : bool :=
  negb (negb (bool_decide (got = KSlice)) && negb (bool_decide (got = want))
        || bool_decide (got = KSlice) && negb (bool_decide (want = KSlice)) && negb (bool_decide (want = KArray))
        || negb (bool_decide (got = KSlice)) && negb (bool_decide (got = KArray)) && bool_decide (want = KArray)).

(** sliceTypeCheck: the elements on success. *)
Definition sliceTypeCheck (e : elemType) (size : option Z) (v : abiValue) : abiM (list abiValue) :=
  match elements v with
  | None => Err errType
  | Some vs =>
      if match size with Some n => negb (Z.of_nat (length vs) =? n) | None => false end then Err errType
      else if forallb (fun x => elemKindOk (elemKind e) (valueKind x)) vs then Ok vs else Err errType
  end.

Definition packElem (e : elemType) (v : abiValue) : abiM bytes :=
  elemTypeCheck e v ;; packElement e v.

Fixpoint packElems (e : elemType) (vs : list abiValue) : abiM bytes :=
  match vs with
  | [] => Ok []
  | v :: vs => val ← packElem e v; packed ← packElems e vs; Ok (val ++ packed)
  end.

(** Type.pack *)
Definition pack (t : abiType) (v : abiValue) : abiM bytes :=
  match t with
  | ElemTy e => packElem e v
  | SliceTy e =>
      vs ← sliceTypeCheck e None v;
      packed ← packElems e vs;
      Ok (packBytesSlice packed (Z.of_nat (length vs)))
  | ArrayTy e size => vs ← sliceTypeCheck e (Some size) v; packElems e vs
  end.

(** ** Arguments (argument.go) *)

(** [ArgType] is the type and [TypeString] the text it was parsed from. *)
Record Argument := mkArgument { ArgName : string; ArgType : abiType; TypeString : string; Indexed : bool }.

Definition headWords (t : abiType) : Z := match t with ArrayTy _ size => size | _ => 1 end.

Definition inputOffset (ts : list abiType) : Z :=
  fold_left (fun off t => off + WordSize * headWords t) ts 0.

(** The loop of [Pack]: the heads and the variable input so far. *)
Fixpoint packArgs (offset : Z) (ts : list abiType) (vs : list abiValue) (ret variableInput : bytes) :
    abiM (bytes * bytes) :=
  match ts, vs with
  | t :: ts, v :: vs =>
      packed ← pack t v;
      if requiresLengthPrefix t
      then packArgs offset ts vs (ret ++ packNum (offset + len variableInput)) (variableInput ++ packed)
      else packArgs offset ts vs (ret ++ packed) variableInput
  | _, _ => Ok (ret, variableInput)
  end.

Definition Pack (args : list Argument) (vs : list abiValue) : abiM bytes :=
  if negb (length vs =? length args)%nat then Err errArgLengthMismatch
  else
    let ts := ArgType <$> args in
    '(ret, variableInput) ← packArgs (inputOffset ts) ts vs [] [];
    Ok (ret ++ variableInput).

(** ** Unpacking (unpack.go) *)

(** Two's complement at a machine width. *)
Definition toSigned (bits z : Z) : Z := (z + 2 ^ (bits - 1)) mod 2 ^ bits - 2 ^ (bits - 1).

(** [b[len(b)-n:]] for a number of [n] bytes; a [*big.Int] takes all of [b] and
    is never negative. *)
Definition readInteger (k : numKind) (b : bytes) : abiM abiValue :=
  match k with
  | Machine unsigned bits =>
      low ← go_slice b (len b - bits / 8) (len b);
      let z := SetBytes low in
      Ok (VNum k (if unsigned then z else toSigned bits z))
  | Big => Ok (VNum Big (SetBytes b))
  end.

Definition readBool (word : bytes) : abiM abiValue :=
  high ← go_slice word 0 31;
  if negb (AllZero high) then Err errBadBool
  else
    b ← go_index word 31;
    if byte_Z b =? 0 then Ok (VBool false)
    else if byte_Z b =? 1 then Ok (VBool true)
    else Err errBadBool.

(** The capacity of the word is taken to be its length. *)
Definition readFixedBytes (size : Z) (word : bytes) : abiM abiValue :=
  bs ← go_slice word 0 size; Ok (VArray bs).

(** The last [n] bytes of a word. *)
Definition suffix (n : Z) (word : bytes) : abiM bytes := go_slice word (WordSize - n) WordSize.

Definition lengthPrefixPointsTo (index : Z) (output : bytes) : abiM (Z * Z) :=
  offset ← go_slice output index (index + WordSize);
  let bigOffsetEnd := SetBytes offset + WordSize in
  if len output <? bigOffsetEnd then Err errBigSliceOffsetOverflow
  else if 63 <? BitLen bigOffsetEnd then Err errBigOffsetOverflow
  else
    let offsetEnd := Uint64 bigOffsetEnd in
    length ← go_slice output (offsetEnd - WordSize) offsetEnd;
    let lengthBig := SetBytes length in
    let totalSize := bigOffsetEnd + lengthBig in
    if 63 <? BitLen totalSize then Err errBigLengthOverflow
    else if len output <? totalSize then Err errInsufficientBigLength
    else Ok (Uint64 bigOffsetEnd, Uint64 lengthBig).

(** toGoType of an elementary type: the word at [index] is cut out for a type
    without length prefix. *)
Definition toGoElem (index : Z) (e : elemType) (output : bytes) : abiM abiValue :=
  if len output <? index + WordSize then Err errInsufficientLength
  else
    let located f := '(begin, end_) ← lengthPrefixPointsTo index output;
                     bs ← go_slice output begin (begin + end_); Ok (f bs) in
    let word f := returnOutput ← go_slice output index (index + WordSize); f returnOutput in
    match e with
    | StringTy => located VString
    | BytesTy => located VBytes
    | IntTy size => word (readInteger (reflectIntKind false size))
    | UintTy size => word (readInteger (reflectIntKind true size))
    | BoolTy => word readBool
    | AddressTy => word (fun w => bs ← suffix AddressSize w; Ok (VArray (BytesToAddress bs).1))
    | GidTy => word (fun w => bs ← suffix GidSize w; Ok (VArray (BytesToGid bs).1))
    | TokenIdTy => word (fun w => bs ← suffix TokenTypeIdSize w; Ok (VArray (BytesToTokenTypeId bs).1))
    | FixedBytesTy size => word (readFixedBytes size)
    end.

(** The loop of forEachUnpack: every element takes one word. *)
Fixpoint unpackElems (n : nat) (e : elemType) (output : bytes) (i : Z) : abiM (list abiValue) :=
  match n with
  | O => Ok []
  | S n => v ← toGoElem i e output; vs ← unpackElems n e output (i + WordSize); Ok (v :: vs)
  end.

Definition forEachUnpack (e : elemType) (output : bytes) (start size : Z) : abiM abiValue :=
  if size <? 0 then Err errNegativeInputSize
  else if len output <? start + WordSize * size then Err errArrayOffsetOverflow
  else VList <$> unpackElems (Z.to_nat size) e output start.

Definition toGoType (index : Z) (t : abiType) (output : bytes) : abiM abiValue :=
  match t with
  | ElemTy e => toGoElem index e output
  | SliceTy e =>
      if len output <? index + WordSize then Err errInsufficientLength
      else '(start, length) ← lengthPrefixPointsTo index output; forEachUnpack e output start length
  | ArrayTy e size =>
      if len output <? index + WordSize then Err errInsufficientLength
      else go_slice output index (index + WordSize) ;; forEachUnpack e output index size
  end.

(** UnpackValues; [index] counts the arguments and the virtual ones together. *)
Fixpoint unpackArgs (index : Z) (ts : list abiType) (data : bytes) : abiM (list abiValue) :=
  match ts with
  | [] => Ok []
  | t :: ts =>
      v ← toGoType (index * WordSize) t data;
      vs ← unpackArgs (index + headWords t) ts data;
      Ok (v :: vs)
  end.

Definition UnpackValues (args : list Argument) (data : bytes) : abiM (list abiValue) :=
  unpackArgs 0 (ArgType <$> args) data.

(** Arguments.Unpack: the values that go to the fields of the destination.
    unpackAtomic takes one value, so a call of a method without inputs never
    decodes. *)
Definition Unpack (args : list Argument) (data : bytes) : abiM (list abiValue) :=
  marshalledValues ← UnpackValues args data;
  if (1 <? length args)%nat then Ok marshalledValues
  else if negb (length marshalledValues =? 1)%nat then Err errWrongPackedLength
  else Ok marshalledValues.

(** ** Contract definitions (abi.go, method.go, event.go, Variable.go) *)

(** One entry of the JSON description: its type, name and inputs (name, type,
    indexed), as the decoder of encoding/json delivers it. *)
Record Field := mkField { fd_Type : string; fd_Name : string; fd_Inputs : list (string * string * bool) }.

Record Method := mkAbiMethod { md_Name : string; md_id : bytes; md_Inputs : list Argument }.
Record Event := mkEvent { ev_Name : string; ev_Inputs : list Argument }.

(** The Go maps, in the order of definition, a later entry in place of an earlier
    one of the same name; a variable is its inputs. *)
Record ABIContract := mkABI {
  Constructor : list Argument;
  Methods : list (string * Method);
  Callbacks : list (string * Method);
  Events : list (string * Event);
  Variables : list (string * list Argument);
}.

Fixpoint assoc {A} (name : string) (l : list (string * A)) : option A :=
  match l with
  | [] => None
  | (n, a) :: l => if bool_decide (n = name) then Some a else assoc name l
  end.

Fixpoint assoc_set {A} (name : string) (a : A) (l : list (string * A)) : list (string * A) :=
  match l with
  | [] => [(name, a)]
  | (n, b) :: l => if bool_decide (n = name) then (n, a) :: l else (n, b) :: assoc_set name a l
  end.

Fixpoint join (ts : list string) : string :=
  match ts with
  | [] => ""
  | [t] => t
  | t :: ts => (t ++ "," ++ join ts)%string
  end.

Definition Sig (name : string) (inputs : list Argument) : bytes :=
  list_byte_of_string (name ++ "(" ++ join (TypeString <$> inputs) ++ ")").

(** Argument.UnmarshalJSON, for a list of inputs. *)
Fixpoint newArguments (inputs : list (string * string * bool)) : abiM (list Argument) :=
  match inputs with
  | [] => Ok []
  | (name, t, indexed) :: inputs =>
      ty ← NewType t; rest ← newArguments inputs; Ok (mkArgument name ty t indexed :: rest)
  end.

Definition getCallBackName (name : string) : string := name ++ "Callback".

Section Contract.
Variable Hash256 : bytes -> bytes.

Definition DataHash (data : bytes) : Hash := (BytesToHash (Hash256 data)).1.

Definition newMethod (name : string) (inputs : list Argument) : Method :=
  mkAbiMethod name (take 4 (DataHash (Sig name inputs))) inputs.

(** ABIContract.UnmarshalJSON: one entry, and the loop over the entries. *)
Definition addField (abi : ABIContract) (f : Field) : abiM ABIContract :=
  inputs ← newArguments (fd_Inputs f);
  let name := fd_Name f in
  let '(mkABI c ms cs es vs) := abi in
  if bool_decide (fd_Type f = "constructor"%string) then Ok (mkABI inputs ms cs es vs)
  else if bool_decide (fd_Type f = "function"%string) || bool_decide (fd_Type f = ""%string)
  then Ok (mkABI c (assoc_set name (newMethod name inputs) ms) cs es vs)
  else if bool_decide (fd_Type f = "callback"%string)
  then let name := getCallBackName name in
       Ok (mkABI c ms (assoc_set name (newMethod name inputs) cs) es vs)
  else if bool_decide (fd_Type f = "event"%string)
  then Ok (mkABI c ms cs (assoc_set name (mkEvent name inputs) es) vs)
  else if bool_decide (fd_Type f = "variable"%string)
  then match inputs with
       | [] => Err errInvalidEmptyVariableInput
       | _ => Ok (mkABI c ms cs es (assoc_set name inputs vs))
       end
  else Ok abi.

Fixpoint addFields (abi : ABIContract) (fields : list Field) : abiM ABIContract :=
  match fields with
  | [] => Ok abi
  | f :: fields => abi ← addField abi f; addFields abi fields
  end.

Definition emptyABI : ABIContract := mkABI [] [] [] [] [].

(** The error is dropped, as the package variables do, which leaves the zero
    contract. *)
Definition JSONToABIContract (fields : list Field) : ABIContract :=
  match addFields emptyABI fields with Ok abi => abi | _ => emptyABI end.

Definition packMethod (m : Method) (vs : list abiValue) : abiM bytes :=
  arguments ← Pack (md_Inputs m) vs; Ok (md_id m ++ arguments).

Definition PackMethod (abi : ABIContract) (name : string) (vs : list abiValue) : abiM bytes :=
  if bool_decide (name = ""%string) then Pack (Constructor abi) vs
  else match assoc name (Methods abi) with
       | None => Err errMethodNotFound
       | Some m => packMethod m vs
       end.

Definition PackCallback (abi : ABIContract) (name : string) (vs : list abiValue) : abiM bytes :=
  match assoc (getCallBackName name) (Callbacks abi) with
  | None => Err errCallbackNotFound
  | Some m => packMethod m vs
  end.

Definition PackVariable (abi : ABIContract) (name : string) (vs : list abiValue) : abiM bytes :=
  match assoc name (Variables abi) with
  | None => Err errVariableNotFound
  | Some inputs => Pack inputs vs
  end.

(** MethodById on a selector of four bytes. *)
Fixpoint findMethod (id : bytes) (ms : list (string * Method)) : option Method :=
  match ms with
  | [] => None
  | (_, m) :: ms => if bool_decide (md_id m = id) then Some m else findMethod id ms
  end.

Definition MethodById (abi : ABIContract) (sigdata : bytes) : abiM Method :=
  if len sigdata <? 4 then Err errNoMethodId
  else match findMethod (take 4 sigdata) (Methods abi) with
       | Some m => Ok m
       | None => Err errNoMethodId
       end.

Definition UnpackMethod (abi : ABIContract) (name : string) (input : bytes) : abiM (list abiValue) :=
  if len input <=? 4 then Err errEmptyInput
  else match MethodById abi (take 4 input) with
       | Ok m => if bool_decide (md_Name m = name) then Unpack (md_Inputs m) (drop 4 input)
                 else Err errCouldNotLocateNamedMethod
       | _ => Err errCouldNotLocateNamedMethod
       end.

Definition UnpackVariable (abi : ABIContract) (name : string) (input : bytes) : abiM (list abiValue) :=
  if len input =? 0 then Err errEmptyInput
  else match assoc name (Variables abi) with
       | Some inputs => Unpack inputs input
       | None => Err errCouldNotLocateNamedVariable
       end.

(** *** Events *)

Definition NonIndexedInputs (e : Event) : list Argument :=
  List.filter (fun a => negb (Indexed a)) (ev_Inputs e).

Definition EventId (e : Event) : Hash := DataHash (Sig (ev_Name e) (ev_Inputs e)).

(** The loop of Event.Pack: the topics of the indexed inputs and the values of
    the others. *)
Fixpoint packTopics (args : list Argument) (vs : list abiValue) : abiM (list Hash * list abiValue) :=
  match args, vs with
  | a :: args, v :: vs =>
      if Indexed a then
        topic ← pack (ArgType a) v;
        '(topics, rest) ← packTopics args vs;
        Ok ((if len topic <=? HashSize then (BytesToHash (LeftPadBytes topic HashSize)).1
             else DataHash topic) :: topics, rest)
      else '(topics, rest) ← packTopics args vs; Ok (topics, v :: rest)
  | _, _ => Ok ([], [])
  end.

Definition packEvent (e : Event) (vs : list abiValue) : abiM (list Hash * bytes) :=
  if negb (length vs =? length (ev_Inputs e))%nat then Err errArgLengthMismatch
  else
    '(topics, rest) ← packTopics (ev_Inputs e) vs;
    match rest with
    | [] => Ok (EventId e :: topics, [])
    | _ => d ← Pack (NonIndexedInputs e) rest; Ok (EventId e :: topics, d)
    end.

Definition PackEvent (abi : ABIContract) (name : string) (vs : list abiValue) : abiM (list Hash * bytes) :=
  match assoc name (Events abi) with
  | None => Err errEventNotFound
  | Some e => packEvent e vs
  end.

End Contract.
