(* ===== verification/ContractUtil.v ===== *)
(** What the built-in contracts share: vm/contracts/contracts.go and
    vm/util/common.go, and how their methods deal with errors of the binary
    interface. *)
From Stdlib Require Import Ascii String.
From stdpp Require Import strings.
From S2P Require Import Prelude Helper Types Upgrade VmDb Iterator Builtin Abi.
#[local] Open Scope Z_scope.

Definition AttovPerVite : Z := 10 ^ 18.

(** [block.Data, _ = abi.Pack...]: an error leaves nil data. *)
Definition ignore_err {A} (d : A) (r : abiM A) : result A :=
  match r with Ok a => Ok a | Err _ => Ok d | Panic p => Panic p end.

(** [if err := abi.Unpack...; err != nil { return util.ErrInvalidMethodParam }] *)
Definition or_invalid {A} (r : abiM A) : result A :=
  match r with Ok a => Ok a | Err _ => Err ErrInvalidMethodParam | Panic p => Panic p end.

(** [if err := abi.Unpack...; err != nil { return err }] *)
Definition or_abi_err {A} (r : abiM A) : result A :=
  match r with Ok a => Ok a | Err _ => Err ErrAbi | Panic p => Panic p end.

(** A [DoSend] that replaces the data of the block or returns an error. *)
Definition send_data (db : vmDb) (block : AccountBlock) (r : result bytes) :
    result unit * vmDb * AccountBlock :=
  match r with
  | Ok data => (Ok tt, db, set_Data block data)
  | Err e => (Err e, db, block)
  | Panic p => (Panic p, db, block)
  end.

(** A [DoReceive] that returns its errors before it writes. *)
Definition receive_with (db : vmDb) (block : AccountBlock) (r : result (vmDb * list AccountBlock)) :
    result (list AccountBlock) * vmDb * AccountBlock :=
  match r with
  | Ok (db', l) => (Ok l, db', block)
  | Err e => (Err e, db, block)
  | Panic p => (Panic p, db, block)
  end.

(** The literal [ledger.AccountBlock] of a block that the contract sends. *)
Definition sendLiteral (block : AccountBlock) (to : Address) (blockType : Z) (amount : option Z) (token : TokenTypeId)
    (data : bytes) : AccountBlock :=
  {| BlockType := blockType; ab_Hash := ZERO_HASH; PrevHash := ZERO_HASH; Height := 0;
     AccountAddress := AccountAddress block; PublicKey := []; ToAddress := to;
     Amount := amount; TokenId := token; FromBlockHash := ZERO_HASH; Data := data;
     Quota := 0; QuotaUsed := 0; Fee := None; LogHash := None; Difficulty := None;
     Nonce := []; SendBlockList := []; Signature := [] |}.

Definition requestTo (block sendBlock : AccountBlock) (amount : option Z) (data : bytes) : AccountBlock :=
  sendLiteral block (AccountAddress sendBlock) BlockTypeSendCall amount ViteTokenId data.

(** [vm.GlobalStatus().SnapshotBlock().Height] *)
Definition snapshotHeight (status : option GlobalStatus) : result Z :=
  gs ← or_panic PNil status;
  sb ← or_panic PNil (gs_SnapshotBlock gs);
  Ok (sb_Height sb).

Definition vBig (z : Z) : abiValue := VNum Big z.
Definition vUint64 (z : Z) : abiValue := VNum (Machine true 64) z.
Definition vUint16 (z : Z) : abiValue := VNum (Machine true 16) z.
Definition vUint8 (z : Z) : abiValue := VNum (Machine true 8) z.

(** [*big.Int.Cmp] and the like on a pointer that may be nil. *)
Definition big {A} (o : option Z) (k : Z -> result A) : result A := v ← or_panic PNil o; k v.

Definition no_refund (sendBlock : AccountBlock) (sbHeight : Z) : bytes * bool := ([], false).

(** [NewLog], where the error is ignored. *)
Definition NewLog (Hash256 : bytes -> bytes) (c : ABIContract) (name : string) (params : list abiValue) : result VmLog :=
  '(topics, data) ← ignore_err ([], []) (PackEvent Hash256 c name params);
  Ok (mkVmLog topics data).

(** The first byte is lowered as a rune; the names are ASCII. *)
Definition FirstToLower (str : string) : string :=
  match str with
  | EmptyString => EmptyString
  | String c s =>
      let n := nat_of_ascii c in
      String (if (65 <=? n)%nat && (n <=? 90)%nat then ascii_of_nat (n + 32) else c) s
  end.

(** [CheckFork(db, f)] *)
Definition CheckFork (db : vmDb) (f : Z -> bool) : result bool :=
  sb ← DealWithErr (db_LatestSnapshotBlock db);
  Ok (f (sb_Height sb)).

(** ** Queries *)

(** [filterKeyValue] *)
Definition filterKeyValue (key value : bytes) (f : bytes -> bool) : bool := (0 <? len value) && f key.

(** A loop over the keys with a prefix that returns the error of the iterator. *)
Definition queryStorage {A} (db : vmDb) (prefix : bytes) (body : bytes -> bytes -> A -> A) (a : A) : result A :=
  match db_NewStorageIterator db prefix with
  | Err _ => Err ErrDb
  | _ =>
      r ← scanStorage (B := Empty_set) db prefix (fun key value acc => inl (body key value acc)) a;
      match r with inl acc => Ok acc | inr e => Empty_set_rect (fun _ => result A) e end
  end.
