(* ===== verification/Regexp.v ===== *)
(** Package regexp of the Go library, as far as the contracts use it: whether a
    whole string matches a pattern [^r$], decided by derivatives. *)
From S2P Require Import Prelude.

Inductive regex :=
| RNone
| REmpty
| RClass (p : byte -> bool)
| RSeq (r1 r2 : regex)
| ROr (r1 r2 : regex)
| RStar (r : regex).

(** [r+] and [r?] *)
Definition RPlus (r : regex) : regex := RSeq r (RStar r).
Definition ROpt (r : regex) : regex := ROr REmpty r.

(** The strings of a pattern. *)
Inductive language : regex -> bytes -> Prop :=
| in_empty : language REmpty []
| in_class p b : p b = true -> language (RClass p) [b]
| in_seq r1 r2 s1 s2 : language r1 s1 -> language r2 s2 -> language (RSeq r1 r2) (s1 ++ s2)
| in_or_l r1 r2 s : language r1 s -> language (ROr r1 r2) s
| in_or_r r1 r2 s : language r2 s -> language (ROr r1 r2) s
| in_star_nil r : language (RStar r) []
| in_star r s1 s2 : language r s1 -> language (RStar r) s2 -> language (RStar r) (s1 ++ s2).

Fixpoint nullable (r : regex) : bool :=
  match r with
  | RNone | RClass _ => false
  | REmpty | RStar _ => true
  | RSeq r1 r2 => nullable r1 && nullable r2
  | ROr r1 r2 => nullable r1 || nullable r2
  end.

Fixpoint derivative (b : byte) (r : regex) : regex :=
  match r with
  | RNone | REmpty => RNone
  | RClass p => if p b then REmpty else RNone
  | RSeq r1 r2 =>
      if nullable r1 then ROr (RSeq (derivative b r1) r2) (derivative b r2) else RSeq (derivative b r1) r2
  | ROr r1 r2 => ROr (derivative b r1) (derivative b r2)
  | RStar r1 => RSeq (derivative b r1) (RStar r1)
  end.

Fixpoint MatchString (r : regex) (s : bytes) : bool :=
  match s with
  | [] => nullable r
  | b :: s => MatchString (derivative b r) s
  end.

Lemma nullable_spec r : nullable r = true <-> language r [].
Proof.
  split.
  - induction r as [| |p|r1 IH1 r2 IH2|r1 IH1 r2 IH2|r IH]; simpl; [done|constructor|done| | |constructor].
    + intros [H1 H2]%andb_true_iff; apply (in_seq r1 r2 [] []); auto.
    + intros [H|H]%orb_true_iff; [apply in_or_l|apply in_or_r]; auto.
  - remember [] as s eqn:E; induction 1; simpl; try done; subst; try (by rewrite IHlanguage by done).
    + apply app_eq_nil in E as [-> ->]; by rewrite IHlanguage1, IHlanguage2.
    + rewrite IHlanguage by done; apply orb_true_r.
Qed.

Lemma derivative_spec b r s : language (derivative b r) s <-> language r (b :: s).
Proof.
  split.
  - revert s; induction r as [| |p|r1 IH1 r2 IH2|r1 IH1 r2 IH2|r IH]; simpl; intros s.
    1,2: by inversion 1.
    + destruct (p b) eqn:E; inversion 1; by constructor.
    + assert (Hseq : forall s, language (RSeq (derivative b r1) r2) s -> language (RSeq r1 r2) (b :: s)).
      { intros t Ht; inversion Ht; subst; apply (in_seq r1 r2 (b :: _)); auto. }
      destruct (nullable r1) eqn:E; [|apply Hseq]; inversion 1; subst; [by apply Hseq|].
      apply (in_seq r1 r2 []); [by apply nullable_spec|auto].
    + inversion 1; subst; [apply in_or_l|apply in_or_r]; auto.
    + inversion 1; subst; apply (in_star r (b :: _)); auto.
  - intros H; remember (b :: s) as t eqn:E; revert s E; induction H; intros u E; simpl; try done.
    + injection E as -> <-; rewrite H; constructor.
    + destruct s1 as [|x s1]; simpl in E.
      * assert (nullable r1 = true) as -> by (by apply nullable_spec); apply in_or_r; auto.
      * injection E as -> <-; destruct (nullable r1); [apply in_or_l|]; constructor; auto.
    + apply in_or_l; auto.
    + apply in_or_r; auto.
    + destruct s1 as [|x s1]; simpl in E; [auto|]; injection E as -> <-; constructor; auto.
Qed.

Lemma MatchString_spec r s : MatchString r s = true <-> language r s.
Proof.
  revert r; induction s as [|b s IH]; intros r; simpl; [apply nullable_spec|]; rewrite IH; apply derivative_spec.
Qed.
