(* ===== verification/QuotaContract.v ===== *)
(** The quota contract: vm/contracts/contracts_quota.go and
    vm/contracts/abi/abi_quota.go.

    Users stake VITE for a beneficiary and take it back when the stake is due.
    The methods are instances of [BuiltinContractMethod]; the storage is the one
    of the account database, read and written through the binary interface, and
    the loops over it are loops over the merged storage iterator. *)
From Stdlib Require Import Ascii String.
From stdpp Require Import strings.
From S2P Require Import Prelude Helper Types Upgrade QuotaTable VmDb Iterator Builtin Abi ContractUtil.
#[local] Open Scope Z_scope.

(** ** Parameters (vm/contracts/params.go) *)

Definition stakeHeightMax : Z := 3600 * 24 * 365.
Definition stakeAmountMin : Z := 134 * AttovPerVite.

(** The field of [contractsParams] this contract reads. *)
Definition StakeHeightTest : Z := 600.
Definition StakeHeightMainNet : Z := 3600 * 24 * 3.

(** ** Contract definition (abi_quota.go) *)

#[local] Open Scope string_scope.

Definition jsonQuota : list Field :=
  let fn ty name inputs := mkField ty name ((fun nt => (nt.1, nt.2, false)) <$> inputs) in
  [fn "function" "Pledge" [("beneficiary", "address")];
   fn "function" "Stake" [("beneficiary", "address")];
   fn "function" "StakeForQuota" [("beneficiary", "address")];
   fn "function" "CancelPledge" [("beneficiary", "address"); ("amount", "uint256")];
   fn "function" "CancelStake" [("beneficiary", "address"); ("amount", "uint256")];
   fn "function" "CancelQuotaStaking" [("id", "bytes32")];
   fn "function" "AgentPledge"
     [("stakeAddress", "address"); ("beneficiary", "address"); ("bid", "uint8"); ("stakeHeight", "uint64")];
   fn "function" "DelegateStake"
     [("stakeAddress", "address"); ("beneficiary", "address"); ("bid", "uint8"); ("stakeHeight", "uint64")];
   fn "function" "StakeForQuotaWithCallback" [("beneficiary", "address"); ("stakeHeight", "uint64")];
   fn "function" "AgentCancelPledge"
     [("stakeAddress", "address"); ("beneficiary", "address"); ("amount", "uint256"); ("bid", "uint8")];
   fn "function" "CancelDelegateStake"
     [("stakeAddress", "address"); ("beneficiary", "address"); ("amount", "uint256"); ("bid", "uint8")];
   fn "function" "CancelQuotaStakingWithCallback" [("id", "bytes32")];
   fn "callback" "AgentPledge"
     [("stakeAddress", "address"); ("beneficiary", "address"); ("amount", "uint256"); ("bid", "uint8"); ("success", "bool")];
   fn "callback" "DelegateStake"
     [("stakeAddress", "address"); ("beneficiary", "address"); ("amount", "uint256"); ("bid", "uint8"); ("success", "bool")];
   fn "callback" "StakeForQuotaWithCallback" [("id", "bytes32"); ("success", "bool")];
   fn "callback" "AgentCancelPledge"
     [("stakeAddress", "address"); ("beneficiary", "address"); ("amount", "uint256"); ("bid", "uint8"); ("success", "bool")];
   fn "callback" "CancelDelegateStake"
     [("stakeAddress", "address"); ("beneficiary", "address"); ("amount", "uint256"); ("bid", "uint8"); ("success", "bool")];
   fn "callback" "CancelQuotaStakingWithCallback" [("id", "bytes32"); ("success", "bool")];
   fn "variable" "stakeInfo"
     [("amount", "uint256"); ("expirationHeight", "uint64"); ("beneficiary", "address"); ("isDelegated", "bool");
      ("delegateAddress", "address"); ("bid", "uint8")];
   fn "variable" "stakeInfoV2"
     [("amount", "uint256"); ("expirationHeight", "uint64"); ("beneficiary", "address"); ("id", "bytes32")];
   fn "variable" "stakeBeneficial" [("amount", "uint256")]].

Definition MethodNameStake := "Pledge".
Definition MethodNameStakeV2 := "Stake".
Definition MethodNameStakeV3 := "StakeForQuota".
Definition MethodNameCancelStake := "CancelPledge".
Definition MethodNameCancelStakeV2 := "CancelStake".
Definition MethodNameCancelStakeV3 := "CancelQuotaStaking".
Definition MethodNameDelegateStake := "AgentPledge".
Definition MethodNameDelegateStakeV2 := "DelegateStake".
Definition MethodNameCancelDelegateStake := "AgentCancelPledge".
Definition MethodNameCancelDelegateStakeV2 := "CancelDelegateStake".
Definition MethodNameStakeWithCallback := "StakeForQuotaWithCallback".
Definition MethodNameCancelStakeWithCallback := "CancelQuotaStakingWithCallback".
Definition VariableNameStakeInfo := "stakeInfo".
Definition VariableNameStakeInfoV2 := "stakeInfoV2".
Definition VariableNameStakeBeneficial := "stakeBeneficial".

#[local] Close Scope string_scope.

(** types.StakeInfo; a nil amount or id is [None]. *)
Record StakeInfo := mkStakeInfo {
  si_Amount : option Z;
  si_ExpirationHeight : Z;
  si_Beneficiary : Address;
  si_IsDelegated : bool;
  si_DelegateAddress : Address;
  si_Bid : Z;
  si_StakeAddress : Address;
  si_Id : option Hash;
}.

Definition zero_stake : StakeInfo := mkStakeInfo None 0 ZERO_ADDRESS false ZERO_ADDRESS 0 ZERO_ADDRESS None.

(** *** Keys *)

Definition stakeInfoKeySize : Z := AddressSize + 8.
Definition stakeInfoValueSize : Z := 192.

Definition GetStakeBeneficialKey (beneficial : Address) : bytes := beneficial.
Definition GetStakeInfoKey (addr : Address) (index : Z) : bytes := addr ++ LeftPadBytes (Bytes index) 8.
Definition GetStakeInfoKeyPrefix (addr : Address) : bytes := addr.
Definition IsStakeInfoKey (key : bytes) : bool := len key =? stakeInfoKeySize.

(** [key[:types.AddressSize]] of a shorter key panics. *)
Definition GetStakeAddrFromStakeInfoKey (key : bytes) : result Address :=
  if len key <? AddressSize then Panic PSlice
  else Ok (BytesToAddress (take (Z.to_nat AddressSize) key)).1.
Definition GetIndexFromStakeInfoKey (key : bytes) : Z :=
  Uint64 (SetBytes (drop (Z.to_nat AddressSize) key)).

(** *** Parameters of the methods: the fields of the Go structs by position *)

Record ParamCancelStake := mkCancelStake { cs_Beneficiary : Address; cs_Amount : option Z }.
Record ParamDelegateStake := mkDelegateStake {
  ds_StakeAddress : Address; ds_Beneficiary : Address; ds_Bid : Z; ds_StakeHeight : Z }.
Record ParamCancelDelegateStake := mkCancelDelegateStake {
  cd_StakeAddress : Address; cd_Beneficiary : Address; cd_Amount : option Z; cd_Bid : Z }.

(** Without decoded values the struct keeps its zero value. *)
Definition toBeneficiary (vs : list abiValue) : Address :=
  match vs with [VArray b] => b | _ => ZERO_ADDRESS end.
Definition toCancelStake (vs : list abiValue) : ParamCancelStake :=
  match vs with [VArray b; VNum _ a] => mkCancelStake b (Some a) | _ => mkCancelStake ZERO_ADDRESS None end.
Definition toDelegateStake (vs : list abiValue) : ParamDelegateStake :=
  match vs with
  | [VArray s; VArray b; VNum _ bid; VNum _ h] => mkDelegateStake s b bid h
  | _ => mkDelegateStake ZERO_ADDRESS ZERO_ADDRESS 0 0
  end.
Definition toCancelDelegateStake (vs : list abiValue) : ParamCancelDelegateStake :=
  match vs with
  | [VArray s; VArray b; VNum _ a; VNum _ bid] => mkCancelDelegateStake s b (Some a) bid
  | _ => mkCancelDelegateStake ZERO_ADDRESS ZERO_ADDRESS None 0
  end.

(** [ParamStakeV3] and, in [DoReceive], [ParamDelegateStake] of a method with or
    without a stake height: the beneficiary and the height. *)
Definition toStakeV3 (vs : list abiValue) : Address * Z :=
  match vs with
  | [VArray b] => (b, 0)
  | [VArray b; VNum _ h] => (b, h)
  | _ => (ZERO_ADDRESS, 0)
  end.
Definition toHash (vs : list abiValue) : Hash := match vs with [VArray h] => h | _ => ZERO_HASH end.

Section QuotaContract.
Variable Hash256 : bytes -> bytes.
Variable StakeHeight : Z. (* nodeConfig.params.StakeHeight *)

Definition ABIQuota : ABIContract := JSONToABIContract Hash256 jsonQuota.

(** *** Stored values *)

Definition UnpackStakeInfo (value : bytes) : abiM StakeInfo * StakeInfo :=
  if len value =? stakeInfoValueSize then
    match UnpackVariable ABIQuota VariableNameStakeInfo value with
    | Ok [VNum _ amount; VNum _ height; VArray b; VBool isDelegated; VArray d; VNum _ bid] =>
        let s := mkStakeInfo (Some amount) height b isDelegated d bid ZERO_ADDRESS None in (Ok s, s)
    | Ok _ => (Ok zero_stake, zero_stake)
    | Err e => (Err e, zero_stake)
    | Panic p => (Panic p, zero_stake)
    end
  else
    let zero := mkStakeInfo None 0 ZERO_ADDRESS false ZERO_ADDRESS 0 ZERO_ADDRESS (Some ZERO_HASH) in
    match UnpackVariable ABIQuota VariableNameStakeInfoV2 value with
    | Ok [VNum _ amount; VNum _ height; VArray b; VArray id] =>
        let s := mkStakeInfo (Some amount) height b false ZERO_ADDRESS 0 ZERO_ADDRESS (Some id) in (Ok s, s)
    | Ok _ => (Ok zero, zero)
    | Err e => (Err e, zero)
    | Panic p => (Panic p, zero)
    end.

Definition packStakeInfo (amount expirationHeight : Z) (beneficiary : Address) (isDelegated : bool)
    (delegateAddress : Address) (bid : Z) : result bytes :=
  ignore_err [] (PackVariable ABIQuota VariableNameStakeInfo
    [vBig amount; vUint64 expirationHeight; VArray beneficiary; VBool isDelegated; VArray delegateAddress; vUint8 bid]).

Definition packStakeInfoV2 (amount expirationHeight : Z) (beneficiary : Address) (id : Hash) : result bytes :=
  ignore_err [] (PackVariable ABIQuota VariableNameStakeInfoV2
    [vBig amount; vUint64 expirationHeight; VArray beneficiary; VArray id]).

(** [VariableStakeBeneficial.Amount]; the error apart. *)
Definition UnpackStakeBeneficial (v : bytes) : abiM (option Z) :=
  vs ← UnpackVariable ABIQuota VariableNameStakeBeneficial v;
  Ok (match vs with [VNum _ amount] => Some amount | _ => None end).

Definition packStakeBeneficial (amount : Z) : result bytes :=
  ignore_err [] (PackVariable ABIQuota VariableNameStakeBeneficial [vBig amount]).

(** *** Searching *)

Definition stakeMatches (beneficiary : Address) (isDelegated : bool) (delegateAddr : Address) (bid : Z)
    (s : StakeInfo) : bool :=
  bool_decide (si_Beneficiary s = beneficiary) && Bool.eqb (si_IsDelegated s) isDelegated
  && bool_decide (si_DelegateAddress s = delegateAddr) && (si_Bid s =? bid).

(** The body of the loop: the first match ends it, otherwise the largest index
    goes on. *)
Definition stakeInfoBody (want : StakeInfo -> bool) (key value : bytes) (maxIndex : Z) :
    Z + (bytes * StakeInfo) :=
  if negb (IsStakeInfoKey key) then inl maxIndex
  else
    let stakeInfo := (UnpackStakeInfo value).2 in
    if want stakeInfo then inr (key, stakeInfo)
    else inl (Max maxIndex (GetIndexFromStakeInfoKey key)).

Definition nextStakeInfoKey (stakeAddr : Address) (maxIndex currentIndex : Z) : bytes :=
  if maxIndex <? currentIndex then GetStakeInfoKey stakeAddr currentIndex
  else GetStakeInfoKey stakeAddr (u64 (maxIndex + 1)).

Definition getStakeInfo (db : vmDb) (stakeAddr beneficiary : Address) (isDelegated : bool)
    (delegateAddr : Address) (bid currentIndex : Z) : result (bytes * option StakeInfo) :=
  r ← scanStorage db (GetStakeInfoKeyPrefix stakeAddr)
        (stakeInfoBody (stakeMatches beneficiary isDelegated delegateAddr bid)) 0;
  match r with
  | inr (key, stakeInfo) => Ok (key, Some stakeInfo)
  | inl maxIndex => Ok (nextStakeInfoKey stakeAddr maxIndex currentIndex, None)
  end.

Definition getNextStakeInfoKey (db : vmDb) (stakeAddr : Address) (currentIndex : Z) : result bytes :=
  r ← scanStorage db (GetStakeInfoKeyPrefix stakeAddr) (stakeInfoBody (fun _ => false)) 0;
  match r with
  | inl maxIndex => Ok (nextStakeInfoKey stakeAddr maxIndex currentIndex)
  | inr (key, _) => Ok key
  end.

Definition getStakeExpirationHeight (status : option GlobalStatus) (height : Z) : result Z :=
  h ← snapshotHeight status; Ok (u64 (h + height)).

Definition stakeNotDue (s : StakeInfo) (status : option GlobalStatus) : result bool :=
  h ← snapshotHeight status; Ok (h <? si_ExpirationHeight s).

Definition GetStakeInfoByKey (db : vmDb) (stakeInfoKey : bytes) : result (option StakeInfo) :=
  value ← DealWithErr (db_GetValue db stakeInfoKey);
  if len value =? 0 then Ok None
  else match (UnpackStakeInfo value).1 with Ok s => Ok (Some s) | _ => Panic PDb end.

(** *** The beneficial amount *)

(** What the staking methods do with it: add to the old amount. *)
Definition addBeneficial (db : vmDb) (beneficiary : Address) (sent : option Z) : result vmDb :=
  let beneficialKey := GetStakeBeneficialKey beneficiary in
  oldBeneficialData ← GetValue db beneficialKey;
  beneficialAmount ←
    (if 0 <? len oldBeneficialData
     then ignore_err None (UnpackStakeBeneficial oldBeneficialData) else Ok (Some 0));
  big beneficialAmount (fun old => big sent (fun amount =>
  beneficialData ← packStakeBeneficial (old + amount);
  SetValue db beneficialKey beneficialData)).

(** What the cancelling methods do: check it and return what is left of it. *)
Definition leftBeneficial (db : vmDb) (beneficiary : Address) (amount : Z) : result Z :=
  v ← GetValue db (GetStakeBeneficialKey beneficiary);
  oldBeneficial ← or_invalid (UnpackStakeBeneficial v);
  big oldBeneficial (fun old => if old <? amount then Err ErrInvalidMethodParam else Ok (old - amount)).

Definition setBeneficial (db : vmDb) (beneficiary : Address) (rest : Z) : result vmDb :=
  if rest =? 0 then SetValue db (GetStakeBeneficialKey beneficiary) []
  else
    stakeBeneficialAmount ← packStakeBeneficial rest;
    SetValue db (GetStakeBeneficialKey beneficiary) stakeBeneficialAmount.

(** ** Methods (contracts_quota.go) *)

(** The checks shared by the staking methods. *)
Definition stakeCheck (block : AccountBlock) : result unit :=
  if negb (IsViteToken (TokenId block)) then Err ErrInvalidMethodParam
  else big (Amount block) (fun a => if a <? stakeAmountMin then Err ErrInvalidMethodParam else Ok tt).

Definition noAmountCheck (block : AccountBlock) : result unit :=
  big (Amount block) (fun a => if 0 <? a then Err ErrInvalidMethodParam else Ok tt).

Definition heightCheck (h : Z) : result unit :=
  if (h <? StakeHeight) || (stakeHeightMax <? h) then Err ErrInvalidMethodParam else Ok tt.

Definition minCheck (amount : option Z) : result unit :=
  big amount (fun a => if a <? stakeAmountMin then Err ErrInvalidMethodParam else Ok tt).

(** *** MethodStake *)

Definition Stake_send (name : string) (block : AccountBlock) : result bytes :=
  stakeCheck block ;;
  vs ← or_invalid (UnpackMethod ABIQuota name (Data block));
  ignore_err [] (PackMethod ABIQuota name [VArray (toBeneficiary vs)]).

Definition Stake_receive (name : string) (db : vmDb) (block sendBlock : AccountBlock)
    (status : option GlobalStatus) : result (vmDb * list AccountBlock) :=
  vs ← ignore_err [] (UnpackMethod ABIQuota name (Data sendBlock));
  let beneficiary := toBeneficiary vs in
  '(stakeInfoKey, oldStakeInfo) ←
    getStakeInfo db (AccountAddress sendBlock) beneficiary false ZERO_ADDRESS 0 (Height block);
  big (match oldStakeInfo with Some s => si_Amount s | None => Some 0 end) (fun old =>
  big (Amount sendBlock) (fun sent =>
  expirationHeight ← getStakeExpirationHeight status StakeHeight;
  stakeInfo ← packStakeInfo (old + sent) expirationHeight beneficiary false ZERO_ADDRESS 0;
  db ← SetValue db stakeInfoKey stakeInfo;
  db ← addBeneficial db beneficiary (Amount sendBlock);
  Ok (db, []))).

Definition MethodStake (name : string) : BuiltinContractMethod :=
  {| GetFee _ := Ok 0;
     DoSend db block := send_data db block (Stake_send name block);
     GetSendQuota _ gasTable := Ok (gasTable StakeQuota);
     DoReceive db block sendBlock status := receive_with db block (Stake_receive name db block sendBlock status);
     GetReceiveQuota _ := 0;
     GetRefundData := no_refund |}.

(** *** MethodCancelStake *)

(** The part of the two old cancelling methods that checks the stake: what is
    left of it. *)
Definition cancelCheck (oldStakeInfo : option StakeInfo) (amount : option Z) (status : option GlobalStatus) :
    result (StakeInfo * Z * Z) :=
  match oldStakeInfo with
  | None => Err ErrInvalidMethodParam
  | Some s =>
      notDue ← stakeNotDue s status;
      if (notDue : bool) then Err ErrInvalidMethodParam
      else big (si_Amount s) (fun old => big amount (fun amount =>
        if (old <? amount) || bool_decide (is_Some (si_Id s)) then Err ErrInvalidMethodParam
        else
          let rest := old - amount in
          if negb (rest =? 0) && (rest <? stakeAmountMin) then Err ErrInvalidMethodParam
          else Ok (s, amount, rest)))
  end.

Definition CancelStake_send (name : string) (block : AccountBlock) : result bytes :=
  noAmountCheck block ;;
  vs ← or_invalid (UnpackMethod ABIQuota name (Data block));
  let param := toCancelStake vs in
  minCheck (cs_Amount param) ;;
  big (cs_Amount param) (fun amount =>
  ignore_err [] (PackMethod ABIQuota name [VArray (cs_Beneficiary param); vBig amount])).

Definition CancelStake_receive (name : string) (db : vmDb) (block sendBlock : AccountBlock)
    (status : option GlobalStatus) : result (vmDb * list AccountBlock) :=
  vs ← ignore_err [] (UnpackMethod ABIQuota name (Data sendBlock));
  let param := toCancelStake vs in
  '(stakeInfoKey, oldStakeInfo) ←
    getStakeInfo db (AccountAddress sendBlock) (cs_Beneficiary param) false ZERO_ADDRESS 0 (Height block);
  '(old, amount, rest) ← cancelCheck oldStakeInfo (cs_Amount param) status;
  beneficialLeft ← leftBeneficial db (cs_Beneficiary param) amount;
  db ← (if rest =? 0 then SetValue db stakeInfoKey []
        else
          stakeInfo ← packStakeInfo rest (si_ExpirationHeight old) (si_Beneficiary old) false ZERO_ADDRESS 0;
          SetValue db stakeInfoKey stakeInfo);
  db ← setBeneficial db (cs_Beneficiary param) beneficialLeft;
  Ok (db, [requestTo block sendBlock (Some amount) []]).

Definition MethodCancelStake (name : string) : BuiltinContractMethod :=
  {| GetFee _ := Ok 0;
     DoSend db block := send_data db block (CancelStake_send name block);
     GetSendQuota _ gasTable := Ok (gasTable CancelStakeQuota);
     DoReceive db block sendBlock status := receive_with db block (CancelStake_receive name db block sendBlock status);
     GetReceiveQuota _ := 0;
     GetRefundData := no_refund |}.

(** *** MethodDelegateStake *)

Definition packDelegateCallback (name : string) (stakeAddress beneficiary : Address) (amount : option Z)
    (bid : Z) (success : bool) : result bytes :=
  big amount (fun a =>
  ignore_err [] (PackCallback ABIQuota name
    [VArray stakeAddress; VArray beneficiary; vBig a; vUint8 bid; VBool success])).

(** A nil amount or a panic in the data of a refund does not occur on blocks that
    [DoSend] accepted; the model returns no data there. *)
Definition refund_data (r : result bytes) : bytes * bool :=
  (match r with Ok data => data | _ => [] end, true).

Definition DelegateStake_send (name : string) (block : AccountBlock) : result bytes :=
  stakeCheck block ;;
  vs ← or_invalid (UnpackMethod ABIQuota name (Data block));
  let param := toDelegateStake vs in
  heightCheck (ds_StakeHeight param) ;;
  ignore_err [] (PackMethod ABIQuota name
    [VArray (ds_StakeAddress param); VArray (ds_Beneficiary param); vUint8 (ds_Bid param); vUint64 (ds_StakeHeight param)]).

Definition DelegateStake_receive (name : string) (db : vmDb) (block sendBlock : AccountBlock)
    (status : option GlobalStatus) : result (vmDb * list AccountBlock) :=
  vs ← ignore_err [] (UnpackMethod ABIQuota name (Data sendBlock));
  let param := toDelegateStake vs in
  '(stakeInfoKey, oldStakeInfo) ←
    getStakeInfo db (ds_StakeAddress param) (ds_Beneficiary param) true (AccountAddress sendBlock) (ds_Bid param)
      (Height block);
  let oldExpirationHeight := match oldStakeInfo with Some s => si_ExpirationHeight s | None => 0 end in
  big (match oldStakeInfo with Some s => si_Amount s | None => Some 0 end) (fun old =>
  big (Amount sendBlock) (fun sent =>
  expirationHeight ← getStakeExpirationHeight status (ds_StakeHeight param);
  stakeInfo ← packStakeInfo (old + sent) (Max oldExpirationHeight expirationHeight) (ds_Beneficiary param) true
                (AccountAddress sendBlock) (ds_Bid param);
  db ← SetValue db stakeInfoKey stakeInfo;
  db ← addBeneficial db (ds_Beneficiary param) (Amount sendBlock);
  callbackData ← packDelegateCallback name (ds_StakeAddress param) (ds_Beneficiary param) (Amount sendBlock)
                   (ds_Bid param) true;
  Ok (db, [requestTo block sendBlock (Some 0) callbackData]))).

Definition MethodDelegateStake (name : string) : BuiltinContractMethod :=
  {| GetFee _ := Ok 0;
     DoSend db block := send_data db block (DelegateStake_send name block);
     GetSendQuota _ gasTable := Ok (gasTable DelegateStakeQuota);
     DoReceive db block sendBlock status := receive_with db block (DelegateStake_receive name db block sendBlock status);
     GetReceiveQuota _ := 0;
     GetRefundData sendBlock _ := refund_data
       (vs ← ignore_err [] (UnpackMethod ABIQuota name (Data sendBlock));
        let param := toDelegateStake vs in
        packDelegateCallback name (ds_StakeAddress param) (ds_Beneficiary param) (Amount sendBlock) (ds_Bid param) false) |}.

(** *** MethodCancelDelegateStake *)

Definition CancelDelegateStake_send (name : string) (block : AccountBlock) : result bytes :=
  noAmountCheck block ;;
  vs ← or_invalid (UnpackMethod ABIQuota name (Data block));
  let param := toCancelDelegateStake vs in
  minCheck (cd_Amount param) ;;
  big (cd_Amount param) (fun amount =>
  ignore_err [] (PackMethod ABIQuota name
    [VArray (cd_StakeAddress param); VArray (cd_Beneficiary param); vBig amount; vUint8 (cd_Bid param)])).

Definition CancelDelegateStake_receive (name : string) (db : vmDb) (block sendBlock : AccountBlock)
    (status : option GlobalStatus) : result (vmDb * list AccountBlock) :=
  vs ← ignore_err [] (UnpackMethod ABIQuota name (Data sendBlock));
  let param := toCancelDelegateStake vs in
  '(stakeInfoKey, oldStakeInfo) ←
    getStakeInfo db (cd_StakeAddress param) (cd_Beneficiary param) true (AccountAddress sendBlock) (cd_Bid param)
      (Height block);
  '(old, amount, rest) ← cancelCheck oldStakeInfo (cd_Amount param) status;
  beneficialLeft ← leftBeneficial db (cd_Beneficiary param) amount;
  db ← (if rest =? 0 then SetValue db stakeInfoKey []
        else
          stakeInfo ← packStakeInfo rest (si_ExpirationHeight old) (si_Beneficiary old) true (si_DelegateAddress old)
                        (cd_Bid param);
          SetValue db stakeInfoKey stakeInfo);
  db ← setBeneficial db (cd_Beneficiary param) beneficialLeft;
  callbackData ← packDelegateCallback name (cd_StakeAddress param) (cd_Beneficiary param) (Some amount) (cd_Bid param) true;
  Ok (db, [requestTo block sendBlock (Some amount) callbackData]).

Definition MethodCancelDelegateStake (name : string) : BuiltinContractMethod :=
  {| GetFee _ := Ok 0;
     DoSend db block := send_data db block (CancelDelegateStake_send name block);
     GetSendQuota _ gasTable := Ok (gasTable CancelDelegateStakeQuota);
     DoReceive db block sendBlock status :=
       receive_with db block (CancelDelegateStake_receive name db block sendBlock status);
     GetReceiveQuota _ := 0;
     GetRefundData sendBlock _ := refund_data
       (vs ← ignore_err [] (UnpackMethod ABIQuota name (Data sendBlock));
        let param := toCancelDelegateStake vs in
        packDelegateCallback name (cd_StakeAddress param) (cd_Beneficiary param) (cd_Amount param) (cd_Bid param) false) |}.

(** *** MethodStakeV3: a stake with an id of its own *)

Definition withCallback (name : string) : bool := bool_decide (name = MethodNameStakeWithCallback).
Definition cancelWithCallback (name : string) : bool := bool_decide (name = MethodNameCancelStakeWithCallback).

Definition packIdCallback (name : string) (id : Hash) (success : bool) : result bytes :=
  ignore_err [] (PackCallback ABIQuota name [VArray id; VBool success]).

Definition StakeV3_send (name : string) (block : AccountBlock) : result bytes :=
  stakeCheck block ;;
  vs ← or_invalid (UnpackMethod ABIQuota name (Data block));
  let '(beneficiary, stakeHeight) := toStakeV3 vs in
  if withCallback name then
    heightCheck stakeHeight ;;
    ignore_err [] (PackMethod ABIQuota name [VArray beneficiary; vUint64 stakeHeight])
  else ignore_err [] (PackMethod ABIQuota name [VArray beneficiary]).

Definition StakeV3_receive (name : string) (db : vmDb) (block sendBlock : AccountBlock)
    (status : option GlobalStatus) : result (vmDb * list AccountBlock) :=
  vs ← ignore_err [] (UnpackMethod ABIQuota name (Data sendBlock));
  let '(beneficiary, paramHeight) := toStakeV3 vs in
  stakeInfoKey ← getNextStakeInfoKey db (AccountAddress sendBlock) (Height block);
  let stakeHeight := if withCallback name then paramHeight else StakeHeight in
  expirationHeight ← getStakeExpirationHeight status stakeHeight;
  big (Amount sendBlock) (fun amount =>
  stakeInfo ← packStakeInfoV2 amount expirationHeight beneficiary (ab_Hash sendBlock);
  db ← SetValue db stakeInfoKey stakeInfo;
  db ← SetValue db (ab_Hash sendBlock) stakeInfoKey;
  db ← addBeneficial db beneficiary (Amount sendBlock);
  if withCallback name then
    callbackData ← packIdCallback name (ab_Hash sendBlock) true;
    Ok (db, [requestTo block sendBlock (Some 0) callbackData])
  else Ok (db, [])).

Definition MethodStakeV3 (name : string) : BuiltinContractMethod :=
  {| GetFee _ := Ok 0;
     DoSend db block := send_data db block (StakeV3_send name block);
     GetSendQuota _ gasTable := Ok (gasTable (if withCallback name then DelegateStakeQuota else StakeQuota));
     DoReceive db block sendBlock status := receive_with db block (StakeV3_receive name db block sendBlock status);
     GetReceiveQuota _ := 0;
     GetRefundData sendBlock _ :=
       if withCallback name then refund_data (packIdCallback name (ab_Hash sendBlock) false) else ([], false) |}.

(** *** MethodCancelStakeV3 *)

Definition CancelStakeV3_send (name : string) (block : AccountBlock) : result bytes :=
  noAmountCheck block ;;
  vs ← or_invalid (UnpackMethod ABIQuota name (Data block));
  ignore_err [] (PackMethod ABIQuota name [VArray (toHash vs)]).

Definition CancelStakeV3_receive (name : string) (db : vmDb) (block sendBlock : AccountBlock)
    (status : option GlobalStatus) : result (vmDb * list AccountBlock) :=
  vs ← ignore_err [] (UnpackMethod ABIQuota name (Data sendBlock));
  let id := toHash vs in
  stakeInfoKey ← GetValue db id;
  if len stakeInfoKey =? 0 then Err ErrInvalidMethodParam
  else
    stakeInfo ← GetStakeInfoByKey db stakeInfoKey;
    stakeAddress ← GetStakeAddrFromStakeInfoKey stakeInfoKey;
    match stakeInfo with
    | None => Err ErrInvalidMethodParam
    | Some stakeInfo =>
        if negb (bool_decide (stakeAddress = AccountAddress sendBlock)) then Err ErrInvalidMethodParam
        else
          notDue ← stakeNotDue stakeInfo status;
          if (notDue : bool) then Err ErrInvalidMethodParam
          else big (si_Amount stakeInfo) (fun amount =>
            beneficialLeft ← leftBeneficial db (si_Beneficiary stakeInfo) amount;
            db ← SetValue db stakeInfoKey [];
            db ← SetValue db id [];
            db ← setBeneficial db (si_Beneficiary stakeInfo) beneficialLeft;
            callbackData ← (if cancelWithCallback name then packIdCallback name id true else Ok []);
            Ok (db, [requestTo block sendBlock (Some amount) callbackData]))
    end.

Definition MethodCancelStakeV3 (name : string) : BuiltinContractMethod :=
  {| GetFee _ := Ok 0;
     DoSend db block := send_data db block (CancelStakeV3_send name block);
     GetSendQuota _ gasTable :=
       Ok (gasTable (if cancelWithCallback name then CancelDelegateStakeQuota else CancelStakeQuota));
     DoReceive db block sendBlock status := receive_with db block (CancelStakeV3_receive name db block sendBlock status);
     GetReceiveQuota _ := 0;
     GetRefundData sendBlock _ :=
       if cancelWithCallback name
       then refund_data (vs ← ignore_err [] (UnpackMethod ABIQuota name (Data sendBlock)); packIdCallback name (toHash vs) false)
       else ([], false) |}.

(** ** The contract in each generation (contracts.go) *)

Definition simpleQuota : list (string * BuiltinContractMethod) :=
  [(MethodNameStake, MethodStake MethodNameStake); (MethodNameCancelStake, MethodCancelStake MethodNameCancelStake)].
Definition dexQuota : list (string * BuiltinContractMethod) :=
  simpleQuota ++
  [(MethodNameDelegateStake, MethodDelegateStake MethodNameDelegateStake);
   (MethodNameCancelDelegateStake, MethodCancelDelegateStake MethodNameCancelDelegateStake)].
Definition leafQuota : list (string * BuiltinContractMethod) :=
  dexQuota ++
  [(MethodNameStakeV2, MethodStake MethodNameStakeV2);
   (MethodNameCancelStakeV2, MethodCancelStake MethodNameCancelStakeV2);
   (MethodNameDelegateStakeV2, MethodDelegateStake MethodNameDelegateStakeV2);
   (MethodNameCancelDelegateStakeV2, MethodCancelDelegateStake MethodNameCancelDelegateStakeV2)].
Definition earthQuota : list (string * BuiltinContractMethod) :=
  leafQuota ++
  [(MethodNameStakeV3, MethodStakeV3 MethodNameStakeV3);
   (MethodNameCancelStakeV3, MethodCancelStakeV3 MethodNameCancelStakeV3);
   (MethodNameStakeWithCallback, MethodStakeV3 MethodNameStakeWithCallback);
   (MethodNameCancelStakeWithCallback, MethodCancelStakeV3 MethodNameCancelStakeWithCallback)].

Definition quotaMethods (g : generation) : list (string * BuiltinContractMethod) :=
  match g with
  | simpleContracts => simpleQuota
  | dexContracts | dexAgentContracts => dexQuota
  | leafContracts => leafQuota
  | _ => earthQuota
  end.

(** The selector names a method of the definition, and the generation may have
    it. *)
Definition quotaContract (g : generation) (methodSelector : bytes) : option BuiltinContractMethod :=
  match MethodById ABIQuota methodSelector with
  | Ok m => assoc (md_Name m) (quotaMethods g)
  | _ => None
  end.

(** ** Queries (abi_quota.go) *)

Definition GetStakeBeneficialAmount (db : vmDb) (beneficiary : Address) : result (option Z) :=
  if negb (bool_decide (db_address db = Types.AddressQuota)) then Err ErrAddressNotMatch
  else match db_GetValue db (GetStakeBeneficialKey beneficiary) with
       | Ok v => if len v =? 0 then Ok (Some 0) else ignore_err None (UnpackStakeBeneficial v)
       | Err _ => Err ErrDb
       | Panic p => Panic p
       end.

(** The stakes of an address, those of delegates apart, and their sum. *)
Definition GetStakeInfoList (db : vmDb) (stakeAddr : Address) : result (list StakeInfo * Z) :=
  if negb (bool_decide (db_address db = Types.AddressQuota)) then Err ErrAddressNotMatch
  else
    queryStorage db (GetStakeInfoKeyPrefix stakeAddr)
      (fun key value acc =>
         if negb (filterKeyValue key value IsStakeInfoKey) then acc
         else match UnpackStakeInfo value with
              | (Ok s, _) =>
                  match si_Amount s with
                  | Some a => if (0 <? a) && negb (si_IsDelegated s) then (acc.1 ++ [s], acc.2 + a) else acc
                  | None => acc
                  end
              | _ => acc
              end) ([], 0).

Definition GetStakeInfoById (db : vmDb) (id : bytes) : result StakeInfo :=
  if negb (len id =? HashSize) then Err ErrInvalidMethodParam
  else match db_GetValue db id with
       | Ok storeKey =>
           match db_GetValue db storeKey with
           | Ok value => if 0 <? len value
                         then or_abi_err (UnpackStakeInfo value).1
                         else Err ErrDataNotExist
           | Err _ => Err ErrDb
           | Panic p => Panic p
           end
       | Err _ => Err ErrDb
       | Panic p => Panic p
       end.

End QuotaContract.
