(* ===== verification/AssetContract.v ===== *)
(** The asset contract: vm/contracts/contracts_asset.go and
    vm/contracts/abi/abi_asset.go.

    It issues tokens, keeps their supply, owners and indices, and burns them.
    The tokens themselves are rewards that the contract sends, and amounts that
    it receives and subtracts from its balance. *)
From Stdlib Require Import Ascii String.
From stdpp Require Import strings.
From S2P Require Import Prelude Helper Types Upgrade QuotaTable VmDb Iterator Builtin Abi ContractUtil Regexp.
#[local] Open Scope Z_scope.

(** ** Parameters (vm/contracts/params.go) *)

Definition tokenNameLengthMax : Z := 40.
Definition tokenSymbolLengthMax : Z := 10.
Definition tokenNameIndexMax : Z := 1000.
Definition issueFee : Z := 1000 * AttovPerVite.

(** ** Contract definition (abi_asset.go) *)

#[local] Open Scope string_scope.

Definition jsonAsset : list Field :=
  let fn ty name inputs := mkField ty name ((fun nt => (nt.1, nt.2, false)) <$> inputs) in
  let issue := [("isReIssuable", "bool"); ("tokenName", "string"); ("tokenSymbol", "string"); ("totalSupply", "uint256");
                ("decimals", "uint8"); ("maxSupply", "uint256"); ("isOwnerBurnOnly", "bool")] in
  let reissue := [("tokenId", "tokenId"); ("amount", "uint256"); ("receiveAddress", "address")] in
  let event name rest := mkField "event" name (("tokenId", "tokenId", true) :: ((fun nt => (nt.1, nt.2, false)) <$> rest)) in
  [fn "function" "Mint" issue;
   fn "function" "IssueToken" issue;
   fn "function" "Issue" reissue;
   fn "function" "ReIssue" reissue;
   fn "function" "Burn" [];
   fn "function" "Burn2" [("target", "uint256"); ("to", "bytes")];
   fn "function" "TransferOwner" [("tokenId", "tokenId"); ("newOwner", "address")];
   fn "function" "TransferOwnership" [("tokenId", "tokenId"); ("newOwner", "address")];
   fn "function" "ChangeTokenType" [("tokenId", "tokenId")];
   fn "function" "DisableReIssue" [("tokenId", "tokenId")];
   fn "function" "GetTokenInfo" [("tokenId", "tokenId"); ("bid", "uint8")];
   fn "function" "GetTokenInformation" [("tokenId", "tokenId")];
   fn "callback" "GetTokenInfo"
     [("tokenId", "tokenId"); ("bid", "uint8"); ("exist", "bool"); ("decimals", "uint8"); ("tokenSymbol", "string");
      ("index", "uint16"); ("ownerAddress", "address")];
   fn "callback" "GetTokenInformation"
     [("id", "bytes32"); ("tokenId", "tokenId"); ("exist", "bool"); ("isReIssuable", "bool"); ("tokenName", "string");
      ("tokenSymbol", "string"); ("totalSupply", "uint256"); ("decimals", "uint8"); ("maxSupply", "uint256");
      ("isOwnerBurnOnly", "bool"); ("index", "uint16"); ("ownerAddress", "address")];
   fn "variable" "tokenInfo"
     [("tokenName", "string"); ("tokenSymbol", "string"); ("totalSupply", "uint256"); ("decimals", "uint8");
      ("owner", "address"); ("isReIssuable", "bool"); ("maxSupply", "uint256"); ("ownerBurnOnly", "bool"); ("index", "uint16")];
   fn "variable" "tokenIndex" [("nextIndex", "uint16")];
   event "mint" [];
   event "issueToken" [];
   event "issue" [];
   event "reIssue" [];
   event "burn" [("address", "address"); ("amount", "uint256")];
   event "burn2" [("address", "address"); ("amount", "uint256"); ("target", "uint256"); ("to", "bytes")];
   event "transferOwner" [("owner", "address")];
   event "transferOwnership" [("owner", "address")];
   event "changeTokenType" [];
   event "disableReIssue" []].

Definition MethodNameIssue := "Mint".
Definition MethodNameIssueV2 := "IssueToken".
Definition MethodNameReIssue := "Issue".
Definition MethodNameReIssueV2 := "ReIssue".
Definition MethodNameBurn := "Burn".
Definition MethodNameBurnV2 := "Burn2".
Definition MethodNameTransferOwnership := "TransferOwner".
Definition MethodNameTransferOwnershipV2 := "TransferOwnership".
Definition MethodNameDisableReIssue := "ChangeTokenType".
Definition MethodNameDisableReIssueV2 := "DisableReIssue".
Definition MethodNameGetTokenInfo := "GetTokenInfo".
Definition MethodNameGetTokenInfoV3 := "GetTokenInformation".
Definition VariableNameTokenInfo := "tokenInfo".
Definition VariableNameTokenIndex := "tokenIndex".

#[local] Close Scope string_scope.

(** types.TokenInfo; a nil amount is [None]. *)
Record TokenInfo := mkTokenInfo {
  ti_TokenName : bytes;
  ti_TokenSymbol : bytes;
  ti_TotalSupply : option Z;
  ti_Decimals : Z;
  ti_Owner : Address;
  ti_MaxSupply : option Z;
  ti_OwnerBurnOnly : bool;
  ti_IsReIssuable : bool;
  ti_Index : Z;
}.

Definition zero_token : TokenInfo := mkTokenInfo [] [] None 0 ZERO_ADDRESS None false false 0.

Definition set_TotalSupply (t : TokenInfo) (s : Z) : TokenInfo :=
  mkTokenInfo (ti_TokenName t) (ti_TokenSymbol t) (Some s) (ti_Decimals t) (ti_Owner t) (ti_MaxSupply t)
    (ti_OwnerBurnOnly t) (ti_IsReIssuable t) (ti_Index t).
Definition set_Owner (t : TokenInfo) (o : Address) : TokenInfo :=
  mkTokenInfo (ti_TokenName t) (ti_TokenSymbol t) (ti_TotalSupply t) (ti_Decimals t) o (ti_MaxSupply t)
    (ti_OwnerBurnOnly t) (ti_IsReIssuable t) (ti_Index t).
Definition set_fixed (t : TokenInfo) : TokenInfo :=
  mkTokenInfo (ti_TokenName t) (ti_TokenSymbol t) (ti_TotalSupply t) (ti_Decimals t) (ti_Owner t) (Some 0)
    false false (ti_Index t).

(** *** Parameters of the methods *)

Record ParamIssue := mkParamIssue {
  pi_TokenName : bytes; pi_TokenSymbol : bytes; pi_TotalSupply : option Z; pi_Decimals : Z;
  pi_MaxSupply : option Z; pi_IsOwnerBurnOnly : bool; pi_IsReIssuable : bool }.
Record ParamReIssue := mkParamReIssue { pr_TokenId : TokenTypeId; pr_Amount : option Z; pr_ReceiveAddress : Address }.
Record ParamTransferOwnership := mkParamTransferOwnership { pt_TokenId : TokenTypeId; pt_NewOwner : Address }.
Record ParamGetTokenInfo := mkParamGetTokenInfo { pg_TokenId : TokenTypeId; pg_Bid : Z }.

(** The fields by position in the definition of the method; without decoded
    values the struct keeps its zero value. *)
Definition toIssue (vs : list abiValue) : ParamIssue :=
  match vs with
  | [VBool re; VString name; VString symbol; VNum _ total; VNum _ decimals; VNum _ max; VBool burnOnly] =>
      mkParamIssue name symbol (Some total) decimals (Some max) burnOnly re
  | _ => mkParamIssue [] [] None 0 None false false
  end.
Definition toReIssue (vs : list abiValue) : ParamReIssue :=
  match vs with
  | [VArray id; VNum _ amount; VArray to] => mkParamReIssue id (Some amount) to
  | _ => mkParamReIssue ZERO_TOKENID None ZERO_ADDRESS
  end.
Definition toTransferOwnership (vs : list abiValue) : ParamTransferOwnership :=
  match vs with [VArray id; VArray owner] => mkParamTransferOwnership id owner
              | _ => mkParamTransferOwnership ZERO_TOKENID ZERO_ADDRESS end.
Definition toTokenId (vs : list abiValue) : TokenTypeId := match vs with [VArray id] => id | _ => ZERO_TOKENID end.
Definition toGetTokenInfo (vs : list abiValue) : ParamGetTokenInfo :=
  match vs with
  | [VArray id; VNum _ bid] => mkParamGetTokenInfo id bid
  | [VArray id] => mkParamGetTokenInfo id 0
  | _ => mkParamGetTokenInfo ZERO_TOKENID 0
  end.

(** *** Keys and lists of token ids *)

Definition GetTokenInfoKey (tokenID : TokenTypeId) : bytes := tokenID.
Definition GetTokenIdFromTokenInfoKey (key : bytes) : TokenTypeId := (BytesToTokenTypeId key).1.
Definition isTokenInfoKey (key : bytes) : bool := len key =? TokenTypeIdSize.
Definition GetTokenIDListKey (owner : Address) : bytes := owner.

Definition AppendTokenID (oldIDList : bytes) (tokenID : TokenTypeId) : bytes := oldIDList ++ tokenID.

(** The entry at position [i] of a list. *)
Definition tokenIDAt (l : bytes) (i : nat) : bytes := take 10 (drop (10 * i) l).

(** The loop from position [i] on, with [n] positions to go. *)
Fixpoint deleteTokenID (oldIDList : bytes) (tokenID : TokenTypeId) (n i : nat) : bytes :=
  match n with
  | O => oldIDList
  | S n =>
      if bool_decide (tokenIDAt oldIDList i = tokenID)
      then take (10 * i) oldIDList ++ drop (10 * (i + 1)) oldIDList
      else deleteTokenID oldIDList tokenID n (i + 1)
  end.
Definition DeleteTokenID (oldIDList : bytes) (tokenID : TokenTypeId) : bytes :=
  deleteTokenID oldIDList tokenID (length oldIDList / 10) 0.

(** *** Names *)

Definition in_range (lo hi b : byte) : bool := (byte_Z lo <=? byte_Z b) && (byte_Z b <=? byte_Z hi).
(** [[a-zA-Z_]] *)
Definition nameChar (b : byte) : bool := in_range x61 x7a b || in_range x41 x5a b || bool_decide (b = x5f).
(** [([a-zA-Z_]+[ ]?)*[a-zA-Z_]] *)
Definition tokenNameRegex : regex :=
  RSeq (RStar (RSeq (RPlus (RClass nameChar)) (ROpt (RClass (fun b => bool_decide (b = x20)))))) (RClass nameChar).
(** [[A-Z0-9]+] *)
Definition tokenSymbolRegex : regex := RPlus (RClass (fun b => in_range x41 x5a b || in_range x30 x39 b)).
(** VITE, VCP and VX *)
Definition reservedSymbols : list bytes := [[x56; x49; x54; x45]; [x56; x43; x50]; [x56; x58]].

Section AssetContract.
Variable Hash256 : bytes -> bytes.
Variable Hash10 : bytes -> bytes. (* vcrypto.Hash(TokenTypeIdSize, ...) *)
Variable box : upgradeBox.

Definition ABIAsset : ABIContract := JSONToABIContract Hash256 jsonAsset.

Definition GetNextTokenIndexKey (tokenSymbol : bytes) : bytes := DataHash Hash256 tokenSymbol.

(** The error and the pointer; the struct keeps its zero value when decoding fails. *)
Definition parseTokenInfo (data : bytes) : result unit * option TokenInfo :=
  if len data =? 0 then (Err ErrDataNotExist, None)
  else
    match UnpackVariable ABIAsset VariableNameTokenInfo data with
    | Ok [VString name; VString symbol; VNum _ total; VNum _ decimals; VArray owner; VBool re; VNum _ max; VBool burnOnly; VNum _ index] =>
        (Ok tt, Some (mkTokenInfo name symbol (Some total) decimals owner (Some max) burnOnly re index))
    | Ok _ => (Ok tt, Some zero_token)
    | Err e => (Err ErrAbi, Some zero_token)
    | Panic p => (Panic p, Some zero_token)
    end.

Definition packTokenInfo (t : TokenInfo) : result bytes :=
  big (ti_TotalSupply t) (fun total => big (ti_MaxSupply t) (fun max =>
  ignore_err [] (PackVariable ABIAsset VariableNameTokenInfo
    [VString (ti_TokenName t); VString (ti_TokenSymbol t); vBig total; vUint8 (ti_Decimals t); VArray (ti_Owner t);
     VBool (ti_IsReIssuable t); vBig max; VBool (ti_OwnerBurnOnly t); vUint16 (ti_Index t)]))).

Definition GetTokenByID (db : vmDb) (tokenID : TokenTypeId) : result (option TokenInfo) :=
  if negb (bool_decide (db_address db = AddressAsset)) then Err ErrAddressNotMatch
  else
    match db_GetValue db (GetTokenInfoKey tokenID) with
    | Ok data => if 0 <? len data then Ok (parseTokenInfo data).2 else Ok None
    | Err _ => Err ErrDb
    | Panic p => Panic p
    end.

(** [GetTokenByID] and [util.DealWithErr(err)], as in the methods. *)
Definition tokenByID (db : vmDb) (tokenID : TokenTypeId) : result (option TokenInfo) :=
  match GetTokenByID db tokenID with Err _ => Panic PDb | r => r end.

Definition addLog (db : vmDb) (name : string) (params : list abiValue) : result vmDb :=
  log ← NewLog Hash256 ABIAsset (FirstToLower name) params;
  Ok (db_AddLog db log).

(** ** Methods (contracts_asset.go) *)

(** [block.Amount.Sign() > 0] is an error. *)
Definition noAmount (block : AccountBlock) : result unit :=
  big (Amount block) (fun a => if 0 <? a then Err ErrInvalidMethodParam else Ok tt).

(** *** MethodIssue *)

Definition checkToken (param : ParamIssue) (sbHeight : Z) : result unit :=
  big (pi_TotalSupply param) (fun total => big (pi_MaxSupply param) (fun max =>
  if (Tt256m1 <? total)
     || (len (pi_TokenName param) =? 0) || (tokenNameLengthMax <? len (pi_TokenName param))
     || (len (pi_TokenSymbol param) =? 0) || (tokenSymbolLengthMax <? len (pi_TokenSymbol param))
  then Err ErrInvalidMethodParam
  else if negb (IsEarthUpgrade box sbHeight) && ((total <=? 0) || (total <? 10 ^ pi_Decimals param))
  then Err ErrInvalidMethodParam
  else if IsEarthUpgrade box sbHeight && negb (pi_IsReIssuable param) && (total <=? 0)
  then Err ErrInvalidMethodParam
  else if negb (MatchString tokenNameRegex (pi_TokenName param)) then Err ErrInvalidMethodParam
  else if negb (MatchString tokenSymbolRegex (pi_TokenSymbol param)) then Err ErrInvalidMethodParam
  else if bool_decide (pi_TokenSymbol param ∈ reservedSymbols) then Err ErrInvalidMethodParam
  else if pi_IsReIssuable param then
    if (max <? total) || (Tt256m1 <? max) then Err ErrInvalidMethodParam else Ok tt
  else if (0 <? max) || pi_IsOwnerBurnOnly param then Err ErrInvalidMethodParam
  else Ok tt)).

Definition Issue_send (name : string) (db : vmDb) (block : AccountBlock) : result bytes :=
  vs ← or_abi_err (UnpackMethod ABIAsset name (Data block));
  let param := toIssue vs in
  sb ← DealWithErr (db_LatestSnapshotBlock db);
  checkToken param (sb_Height sb) ;;
  big (pi_TotalSupply param) (fun total => big (pi_MaxSupply param) (fun max =>
  ignore_err [] (PackMethod ABIAsset name
    [VBool (pi_IsReIssuable param); VString (pi_TokenName param); VString (pi_TokenSymbol param); vBig total;
     vUint8 (pi_Decimals param); vBig max; VBool (pi_IsOwnerBurnOnly param)]))).

Definition newTokenID (accountAddress : Address) (accountBlockHeight : Z) (prevBlockHash : Hash) : TokenTypeId :=
  (BytesToTokenTypeId (Hash10 (accountAddress ++ LeftPadBytes (Bytes accountBlockHeight) 8 ++ prevBlockHash))).1.

(** The index that the next token of a symbol gets. *)
Definition nextTokenIndex (nextV : bytes) : result Z :=
  if 0 <? len nextV
  then vs ← ignore_err [] (UnpackVariable ABIAsset VariableNameTokenIndex nextV);
       Ok (match vs with [VNum _ i] => i | _ => 0 end)
  else Ok 0.

Definition Issue_receive (name : string) (db : vmDb) (block sendBlock : AccountBlock) :
    result (vmDb * list AccountBlock) :=
  vs ← ignore_err [] (UnpackMethod ABIAsset name (Data sendBlock));
  let param := toIssue vs in
  let tokenID := newTokenID (AccountAddress sendBlock) (Height block) (ab_Hash sendBlock) in
  v ← GetValue db (GetTokenInfoKey tokenID);
  if 0 <? len v then Err ErrIDCollision
  else
    let nextIndexKey := GetNextTokenIndexKey (pi_TokenSymbol param) in
    nextV ← GetValue db nextIndexKey;
    nextIndex ← nextTokenIndex nextV;
    if nextIndex =? tokenNameIndexMax then Err ErrInvalidMethodParam
    else
      oldIDList ← GetValue db (GetTokenIDListKey (AccountAddress sendBlock));
      tokenInfo ← packTokenInfo (mkTokenInfo (pi_TokenName param) (pi_TokenSymbol param) (pi_TotalSupply param)
        (pi_Decimals param) (AccountAddress sendBlock) (pi_MaxSupply param) (pi_IsOwnerBurnOnly param)
        (pi_IsReIssuable param) nextIndex);
      db ← SetValue db (GetTokenInfoKey tokenID) tokenInfo;
      db ← SetValue db (GetTokenIDListKey (AccountAddress sendBlock)) (AppendTokenID oldIDList tokenID);
      nextV ← ignore_err [] (PackVariable ABIAsset VariableNameTokenIndex [vUint16 ((nextIndex + 1) mod 2 ^ 16)]);
      db ← SetValue db nextIndexKey nextV;
      db ← addLog db name [VArray tokenID];
      Ok (db, [sendLiteral block (AccountAddress sendBlock) BlockTypeSendReward (pi_TotalSupply param) tokenID []]).

Definition MethodIssue (name : string) : BuiltinContractMethod :=
  {| GetFee block := noAmount block ;; Ok issueFee;
     DoSend db block := send_data db block (Issue_send name db block);
     GetSendQuota _ gasTable := Ok (gasTable IssueQuota);
     DoReceive db block sendBlock _ := receive_with db block (Issue_receive name db block sendBlock);
     GetReceiveQuota _ := 0;
     GetRefundData := no_refund |}.

(** *** MethodReIssue *)

Definition ReIssue_send (name : string) (block : AccountBlock) : result bytes :=
  vs ← or_abi_err (UnpackMethod ABIAsset name (Data block));
  let param := toReIssue vs in
  big (pr_Amount param) (fun amount =>
  if amount <=? 0 then Err ErrInvalidMethodParam
  else
    noAmount block ;;
    ignore_err [] (PackMethod ABIAsset name [VArray (pr_TokenId param); vBig amount; VArray (pr_ReceiveAddress param)])).

(** The token, when it may be issued again and the sender owns it. *)
Definition ownedToken (info : option TokenInfo) (sender : Address) : result TokenInfo :=
  match info with
  | None => Err ErrInvalidMethodParam
  | Some t => if negb (ti_IsReIssuable t) || negb (bool_decide (ti_Owner t = sender)) then Err ErrInvalidMethodParam
              else Ok t
  end.

Definition ReIssue_receive (name : string) (db : vmDb) (block sendBlock : AccountBlock) :
    result (vmDb * list AccountBlock) :=
  vs ← ignore_err [] (UnpackMethod ABIAsset name (Data sendBlock));
  let param := toReIssue vs in
  oldTokenInfo ← tokenByID db (pr_TokenId param);
  old ← ownedToken oldTokenInfo (AccountAddress sendBlock);
  big (ti_MaxSupply old) (fun max => big (ti_TotalSupply old) (fun total => big (pr_Amount param) (fun amount =>
  if max - total <? amount then Err ErrInvalidMethodParam
  else
    newTokenInfo ← packTokenInfo (set_TotalSupply old (total + amount));
    db ← SetValue db (GetTokenInfoKey (pr_TokenId param)) newTokenInfo;
    db ← addLog db name [VArray (pr_TokenId param)];
    Ok (db, [sendLiteral block (pr_ReceiveAddress param) BlockTypeSendReward (Some amount) (pr_TokenId param) []])))).

Definition MethodReIssue (name : string) : BuiltinContractMethod :=
  {| GetFee _ := Ok 0;
     DoSend db block := send_data db block (ReIssue_send name block);
     GetSendQuota _ gasTable := Ok (gasTable ReIssueQuota);
     DoReceive db block sendBlock _ := receive_with db block (ReIssue_receive name db block sendBlock);
     GetReceiveQuota _ := 0;
     GetRefundData := no_refund |}.

(** *** MethodBurn *)

Definition Burn_send (name : string) (block : AccountBlock) : result bytes :=
  big (Amount block) (fun a => if a <=? 0 then Err ErrInvalidMethodParam
                               else ignore_err [] (PackMethod ABIAsset name [])).

Definition Burn_receive (name : string) (db : vmDb) (sendBlock : AccountBlock) : result (vmDb * list AccountBlock) :=
  oldTokenInfo ← tokenByID db (TokenId sendBlock);
  match oldTokenInfo with
  | None => Err ErrInvalidMethodParam
  | Some old =>
      earth ← CheckFork db (IsEarthUpgrade box);
      if (negb earth && negb (ti_IsReIssuable old))
         || (ti_OwnerBurnOnly old && negb (bool_decide (ti_Owner old = AccountAddress sendBlock)))
      then Err ErrInvalidMethodParam
      else
        big (ti_TotalSupply old) (fun total => big (Amount sendBlock) (fun amount =>
        newTokenInfo ← packTokenInfo (set_TotalSupply old (total - amount));
        '(db, ok) ← SubBalance db (TokenId sendBlock) amount;
        if negb ok then Err ErrInsufficientBalance
        else
          db ← SetValue db (GetTokenInfoKey (TokenId sendBlock)) newTokenInfo;
          db ← addLog db name [VArray (TokenId sendBlock); VArray (AccountAddress sendBlock); vBig amount];
          Ok (db, [])))
  end.

Definition MethodBurn (name : string) : BuiltinContractMethod :=
  {| GetFee _ := Ok 0;
     DoSend db block := send_data db block (Burn_send name block);
     GetSendQuota _ gasTable := Ok (gasTable BurnQuota);
     DoReceive db block sendBlock _ := receive_with db block (Burn_receive name db sendBlock);
     GetReceiveQuota _ := 0;
     GetRefundData := no_refund |}.

(** *** MethodBurn2, which no longer accepts calls *)

Definition MethodBurn2 : BuiltinContractMethod :=
  {| GetFee _ := Ok 0;
     DoSend db block := send_data db block (big (Amount block) (fun _ => Err ErrInvalidMethodParam));
     GetSendQuota _ gasTable := Ok (gasTable BurnQuota);
     DoReceive db block _ _ := (Ok [], db, block);
     GetReceiveQuota _ := 0;
     GetRefundData := no_refund |}.

(** *** MethodTransferOwnership *)

Definition TransferOwnership_send (name : string) (block : AccountBlock) : result bytes :=
  noAmount block ;;
  vs ← or_abi_err (UnpackMethod ABIAsset name (Data block));
  let param := toTransferOwnership vs in
  if bool_decide (pt_NewOwner param = AccountAddress block) then Err ErrInvalidMethodParam
  else ignore_err [] (PackMethod ABIAsset name [VArray (pt_TokenId param); VArray (pt_NewOwner param)]).

Definition TransferOwnership_receive (name : string) (db : vmDb) (sendBlock : AccountBlock) :
    result (vmDb * list AccountBlock) :=
  vs ← ignore_err [] (UnpackMethod ABIAsset name (Data sendBlock));
  let param := toTransferOwnership vs in
  oldTokenInfo ← tokenByID db (pt_TokenId param);
  old ← ownedToken oldTokenInfo (AccountAddress sendBlock);
  newTokenInfo ← packTokenInfo (set_Owner old (pt_NewOwner param));
  db ← SetValue db (GetTokenInfoKey (pt_TokenId param)) newTokenInfo;
  oldIDList ← GetValue db (GetTokenIDListKey (AccountAddress sendBlock));
  db ← SetValue db (GetTokenIDListKey (AccountAddress sendBlock)) (DeleteTokenID oldIDList (pt_TokenId param));
  newIDList ← GetValue db (GetTokenIDListKey (pt_NewOwner param));
  db ← SetValue db (GetTokenIDListKey (pt_NewOwner param)) (AppendTokenID newIDList (pt_TokenId param));
  db ← addLog db name [VArray (pt_TokenId param); VArray (pt_NewOwner param)];
  Ok (db, []).

Definition MethodTransferOwnership (name : string) : BuiltinContractMethod :=
  {| GetFee _ := Ok 0;
     DoSend db block := send_data db block (TransferOwnership_send name block);
     GetSendQuota _ gasTable := Ok (gasTable TransferOwnershipQuota);
     DoReceive db block sendBlock _ := receive_with db block (TransferOwnership_receive name db sendBlock);
     GetReceiveQuota _ := 0;
     GetRefundData := no_refund |}.

(** *** MethodDisableReIssue *)

Definition DisableReIssue_send (name : string) (block : AccountBlock) : result bytes :=
  vs ← or_abi_err (UnpackMethod ABIAsset name (Data block));
  noAmount block ;;
  ignore_err [] (PackMethod ABIAsset name [VArray (toTokenId vs)]).

Definition DisableReIssue_receive (name : string) (db : vmDb) (sendBlock : AccountBlock) :
    result (vmDb * list AccountBlock) :=
  vs ← ignore_err [] (UnpackMethod ABIAsset name (Data sendBlock));
  let tokenID := toTokenId vs in
  oldTokenInfo ← tokenByID db tokenID;
  old ← ownedToken oldTokenInfo (AccountAddress sendBlock);
  newTokenInfo ← packTokenInfo (set_fixed old);
  db ← SetValue db (GetTokenInfoKey tokenID) newTokenInfo;
  db ← addLog db name [VArray tokenID];
  Ok (db, []).

Definition MethodDisableReIssue (name : string) : BuiltinContractMethod :=
  {| GetFee _ := Ok 0;
     DoSend db block := send_data db block (DisableReIssue_send name block);
     GetSendQuota _ gasTable := Ok (gasTable DisableReIssueQuota);
     DoReceive db block sendBlock _ := receive_with db block (DisableReIssue_receive name db sendBlock);
     GetReceiveQuota _ := 0;
     GetRefundData := no_refund |}.

(** *** MethodGetTokenInfo *)

Definition isV3 (name : string) : bool := bool_decide (name = MethodNameGetTokenInfoV3).

Definition GetTokenInfo_send (name : string) (block : AccountBlock) : result bytes :=
  vs ← or_abi_err (UnpackMethod ABIAsset name (Data block));
  let param := toGetTokenInfo vs in
  noAmount block ;;
  ignore_err [] (PackMethod ABIAsset name
    (if isV3 name then [VArray (pg_TokenId param)] else [VArray (pg_TokenId param); vUint8 (pg_Bid param)])).

(** The callback for a token that exists and for one that does not. *)
Definition packTokenCallback (name : string) (sendBlock : AccountBlock) (param : ParamGetTokenInfo) (info : option TokenInfo) :
    result bytes :=
  match info with
  | Some t =>
      if isV3 name then
        big (ti_TotalSupply t) (fun total => big (ti_MaxSupply t) (fun max =>
        ignore_err [] (PackCallback ABIAsset name
          [VArray (ab_Hash sendBlock); VArray (pg_TokenId param); VBool true; VBool (ti_IsReIssuable t);
           VString (ti_TokenName t); VString (ti_TokenSymbol t); vBig total; vUint8 (ti_Decimals t); vBig max;
           VBool (ti_OwnerBurnOnly t); vUint16 (ti_Index t); VArray (ti_Owner t)])))
      else
        ignore_err [] (PackCallback ABIAsset name
          [VArray (pg_TokenId param); vUint8 (pg_Bid param); VBool true; vUint8 (ti_Decimals t);
           VString (ti_TokenSymbol t); vUint16 (ti_Index t); VArray (ti_Owner t)])
  | None =>
      ignore_err [] (PackCallback ABIAsset name
        (if isV3 name then
           [VArray (ab_Hash sendBlock); VArray (pg_TokenId param); VBool false; VBool false;
            VString []; VString []; vBig 0; vUint8 0; vBig 0; VBool false; vUint16 0; VArray ZERO_ADDRESS]
         else
           [VArray (pg_TokenId param); vUint8 (pg_Bid param); VBool false; vUint8 0; VString []; vUint16 0; VArray ZERO_ADDRESS]))
  end.

Definition GetTokenInfo_receive (name : string) (db : vmDb) (block sendBlock : AccountBlock) :
    result (vmDb * list AccountBlock) :=
  vs ← ignore_err [] (UnpackMethod ABIAsset name (Data sendBlock));
  let param := toGetTokenInfo vs in
  tokenInfo ← tokenByID db (pg_TokenId param);
  callbackData ← packTokenCallback name sendBlock param tokenInfo;
  Ok (db, [requestTo block sendBlock (Some 0) callbackData]).

(** A panic in the data of a refund does not occur on blocks that [DoSend]
    accepted; the model returns no data there. *)
Definition MethodGetTokenInfo (name : string) : BuiltinContractMethod :=
  {| GetFee _ := Ok 0;
     DoSend db block := send_data db block (GetTokenInfo_send name block);
     GetSendQuota _ gasTable := Ok (gasTable GetTokenInfoQuota);
     DoReceive db block sendBlock _ := receive_with db block (GetTokenInfo_receive name db block sendBlock);
     GetReceiveQuota _ := 0;
     GetRefundData sendBlock _ :=
       (match (vs ← ignore_err [] (UnpackMethod ABIAsset name (Data sendBlock));
               packTokenCallback name sendBlock (toGetTokenInfo vs) None) with Ok data => data | _ => [] end, true) |}.

(** ** The contract in the generations of contracts.go *)

Definition simpleAsset : list (string * BuiltinContractMethod) :=
  [(MethodNameIssue, MethodIssue MethodNameIssue);
   (MethodNameReIssue, MethodReIssue MethodNameReIssue);
   (MethodNameBurn, MethodBurn MethodNameBurn);
   (MethodNameBurnV2, MethodBurn2);
   (MethodNameTransferOwnership, MethodTransferOwnership MethodNameTransferOwnership);
   (MethodNameDisableReIssue, MethodDisableReIssue MethodNameDisableReIssue)].
Definition dexAsset : list (string * BuiltinContractMethod) :=
  simpleAsset ++ [(MethodNameGetTokenInfo, MethodGetTokenInfo MethodNameGetTokenInfo)].
Definition leafAsset : list (string * BuiltinContractMethod) :=
  dexAsset ++
  [(MethodNameIssueV2, MethodIssue MethodNameIssueV2);
   (MethodNameReIssueV2, MethodReIssue MethodNameReIssueV2);
   (MethodNameDisableReIssueV2, MethodDisableReIssue MethodNameDisableReIssueV2);
   (MethodNameTransferOwnershipV2, MethodTransferOwnership MethodNameTransferOwnershipV2)].
Definition earthAsset : list (string * BuiltinContractMethod) :=
  leafAsset ++ [(MethodNameGetTokenInfoV3, MethodGetTokenInfo MethodNameGetTokenInfoV3)].

Definition assetMethods (g : generation) : list (string * BuiltinContractMethod) :=
  match g with
  | simpleContracts => simpleAsset
  | dexContracts | dexAgentContracts => dexAsset
  | leafContracts => leafAsset
  | _ => earthAsset
  end.

Definition assetContract (g : generation) (methodSelector : bytes) : option BuiltinContractMethod :=
  match MethodById ABIAsset methodSelector with
  | Ok m => assoc (md_Name m) (assetMethods g)
  | _ => None
  end.

(** ** Queries (abi_asset.go) *)

Definition GetTokenMap (db : vmDb) : result (gmap TokenTypeId TokenInfo) :=
  if negb (bool_decide (db_address db = AddressAsset)) then Err ErrAddressNotMatch
  else
    queryStorage db []
      (fun key value acc =>
         if negb (filterKeyValue key value isTokenInfoKey) then acc
         else match parseTokenInfo value with
              | (Ok tt, Some t) => <[GetTokenIdFromTokenInfoKey key := t]> acc
              | _ => acc
              end) ∅.

(** A token that the list names but that does not exist is a nil entry. *)
Fixpoint tokensOf (db : vmDb) (l : bytes) (n i : nat) (acc : gmap TokenTypeId (option TokenInfo)) :
    result (gmap TokenTypeId (option TokenInfo)) :=
  match n with
  | O => Ok acc
  | S n =>
      let tokenID := (BytesToTokenTypeId (tokenIDAt l i)).1 in
      info ← GetTokenByID db tokenID;
      tokensOf db l n (i + 1) (<[tokenID := info]> acc)
  end.

Definition GetTokenMapByOwner (db : vmDb) (owner : Address) : result (gmap TokenTypeId (option TokenInfo)) :=
  if negb (bool_decide (db_address db = AddressAsset)) then Err ErrAddressNotMatch
  else
    match db_GetValue db (GetTokenIDListKey owner) with
    | Ok l => tokensOf db l (length l / 10) 0 ∅
    | Err _ => Err ErrDb
    | Panic p => Panic p
    end.

End AssetContract.
