(* ===== verification/SbpStats.v ===== *)
(** Block production statistics: src/ledger/consensus/core/sbp_reader.go. *)
From S2P Require Import Prelude Helper Types TimeIndex.
#[local] Open Scope Z_scope.

(** ** core/sbp_reader.go *)

(** A number that may be nil is [None]. *)
Record SbpStats := mkSbpStats {
  ss_Index : Z;
  ss_BlockNum : Z;
  ss_ExceptedBlockNum : Z;
  ss_VoteCnt : option Z;
  ss_Name : bytes;
}.

Record DayStats := mkDayStats {
  ds_Index : Z;
  ds_Stats : gmap bytes SbpStats;
  ds_VoteSum : option Z;
  ds_BlockTotal : Z;
}.

(** [VMConsensusReader] of vm/util/consensus_reader.go: the cycles of a day, and
    [GetConsensusDetailByDay]. *)
Record ConsensusReader := mkReader {
  cr_day : timeIndex;
  cr_GetConsensusDetailByDay : Z -> Z -> outcome unit (list DayStats);
}.

