(* ===== verification/GovernanceContract.v ===== *)
(** The governance contract: vm/contracts/contracts_governance.go and
    vm/contracts/abi/abi_gonvernance.go.

    It registers snapshot block producers (SBPs) against a stake, pays their
    rewards, which it has the asset contract issue, and records the votes for them. *)
From Stdlib Require Import Ascii String.
From stdpp Require Import strings.
From S2P Require Import Prelude Helper Types Upgrade QuotaTable VmDb Iterator Builtin TimeIndex SbpStats Abi ContractUtil Regexp AssetContract.
#[local] Open Scope Z_scope.

(** ** Parameters (vm/contracts/params.go) *)

Definition registrationNameLengthMax : Z := 40.
Definition rewardTimeLimit : Z := 3600.
Definition SbpStakeAmountPreMainnet : Z := 500000 * AttovPerVite.
Definition SbpStakeAmountMainnet : Z := 1000000 * AttovPerVite.
Definition rewardPerBlock : Z := 951293759512937595.

(** ** Contract definition (abi_gonvernance.go) *)

#[local] Open Scope string_scope.

Definition jsonGovernance : list Field :=
  let fn ty name inputs := mkField ty name ((fun nt => (nt.1, nt.2, false)) <$> inputs) in
  let named := [("gid", "gid"); ("sbpName", "string")] in
  let producing := (named ++ [("blockProducingAddress", "address")])%list in
  let reward := (named ++ [("receiveAddress", "address")])%list in
  [fn "variable" "consensusGroupInfo"
     [("nodeCount", "uint8"); ("interval", "int64"); ("perCount", "int64"); ("randCount", "uint8"); ("randRank", "uint8");
      ("repeat", "uint16"); ("checkLevel", "uint8"); ("countingTokenId", "tokenId"); ("registerConditionId", "uint8");
      ("registerConditionParam", "bytes"); ("voteConditionId", "uint8"); ("voteConditionParam", "bytes");
      ("owner", "address"); ("stakeAmount", "uint256"); ("expirationHeight", "uint64")];
   fn "variable" "registerStakeParam" [("stakeAmount", "uint256"); ("stakeToken", "tokenId"); ("stakeHeight", "uint64")];
   fn "function" "Register" producing;
   fn "function" "RegisterSBP" [("sbpName", "string"); ("blockProducingAddress", "address"); ("rewardWithdrawAddress", "address")];
   fn "function" "UpdateRegistration" producing;
   fn "function" "UpdateBlockProducingAddress" producing;
   fn "function" "UpdateSBPBlockProducingAddress" [("sbpName", "string"); ("blockProducingAddress", "address")];
   fn "function" "UpdateSBPRewardWithdrawAddress" [("sbpName", "string"); ("rewardWithdrawAddress", "address")];
   fn "function" "CancelRegister" named;
   fn "function" "Revoke" named;
   fn "function" "RevokeSBP" [("sbpName", "string")];
   fn "function" "Reward" reward;
   fn "function" "WithdrawReward" reward;
   fn "function" "WithdrawSBPReward" [("sbpName", "string"); ("receiveAddress", "address")];
   fn "variable" "registrationInfo"
     [("name", "string"); ("blockProducingAddress", "address"); ("stakeAddress", "address"); ("amount", "uint256");
      ("expirationHeight", "uint64"); ("rewardTime", "int64"); ("revokeTime", "int64"); ("hisAddrList", "address[]")];
   fn "variable" "registrationInfoV2"
     [("name", "string"); ("blockProducingAddress", "address"); ("rewardWithdrawAddress", "address"); ("stakeAddress", "address");
      ("amount", "uint256"); ("expirationHeight", "uint64"); ("rewardTime", "int64"); ("revokeTime", "int64"); ("hisAddrList", "address[]")];
   fn "variable" "registeredHisName" [("name", "string")];
   fn "function" "Vote" named;
   fn "function" "VoteForSBP" [("sbpName", "string")];
   fn "function" "CancelVote" [("gid", "gid")];
   fn "function" "CancelSBPVoting" [];
   fn "variable" "voteInfo" [("sbpName", "string")]].

Definition VariableNameConsensusGroupInfo := "consensusGroupInfo".
Definition VariableNameRegisterStakeParam := "registerStakeParam".
Definition MethodNameRegister := "Register".
Definition MethodNameRegisterV3 := "RegisterSBP".
Definition MethodNameRevoke := "CancelRegister".
Definition MethodNameRevokeV2 := "Revoke".
Definition MethodNameRevokeV3 := "RevokeSBP".
Definition MethodNameWithdrawReward := "Reward".
Definition MethodNameWithdrawRewardV2 := "WithdrawReward".
Definition MethodNameWithdrawRewardV3 := "WithdrawSBPReward".
Definition MethodNameUpdateBlockProducingAddress := "UpdateRegistration".
Definition MethodNameUpdateBlockProducintAddressV2 := "UpdateBlockProducingAddress".
Definition MethodNameUpdateBlockProducintAddressV3 := "UpdateSBPBlockProducingAddress".
Definition MethodNameUpdateSBPRewardWithdrawAddress := "UpdateSBPRewardWithdrawAddress".
Definition VariableNameRegistrationInfo := "registrationInfo".
Definition VariableNameRegistrationInfoV2 := "registrationInfoV2".
Definition VariableNameRegisteredHisName := "registeredHisName".
Definition MethodNameVote := "Vote".
Definition MethodNameVoteV3 := "VoteForSBP".
Definition MethodNameCancelVote := "CancelVote".
Definition MethodNameCancelVoteV3 := "CancelSBPVoting".
Definition VariableNameVoteInfo := "voteInfo".

#[local] Close Scope string_scope.

(** ** Data (common/types/contracts.go) *)

Record ConsensusGroupInfo := mkConsensusGroupInfo {
  cg_Gid : Gid;
  cg_NodeCount : Z;
  cg_Interval : Z;
  cg_PerCount : Z;
  cg_RandCount : Z;
  cg_RandRank : Z;
  cg_Repeat : Z;
  cg_CheckLevel : Z;
  cg_CountingTokenId : TokenTypeId;
  cg_RegisterConditionId : Z;
  cg_RegisterConditionParam : bytes;
  cg_VoteConditionId : Z;
  cg_VoteConditionParam : bytes;
  cg_Owner : Address;
  cg_StakeAmount : option Z;
  cg_ExpirationHeight : Z;
}.
Definition group_IsActive (g : ConsensusGroupInfo) : bool := 0 <? cg_ExpirationHeight g.

Record VoteInfo := mkVoteInfo { vi_VoteAddr : Address; vi_SbpName : bytes }.

Record Registration := mkRegistration {
  rg_Name : bytes;
  rg_BlockProducingAddress : Address;
  rg_RewardWithdrawAddress : Address;
  rg_StakeAddress : Address;
  rg_Amount : option Z;
  rg_ExpirationHeight : Z;
  rg_RewardTime : Z;
  rg_RevokeTime : Z;
  rg_HisAddrList : list Address;
}.
Definition IsActive (r : Registration) : bool := rg_RevokeTime r =? 0.

(** *** Parameters of the methods: the fields by position in the definition of
    the method, and zero values without decoded ones. *)

Record ParamRegister := mkParamRegister {
  pr_Gid : Gid; pr_SbpName : bytes; pr_BlockProducingAddress : Address; pr_RewardWithdrawAddress : Address }.
Record ParamNamed := mkParamNamed { pn_Gid : Gid; pn_SbpName : bytes }.
Record ParamReward := mkParamReward { pw_Gid : Gid; pw_SbpName : bytes; pw_ReceiveAddress : Address }.

Definition ZERO_GID : Gid := zero_bytes 10.

Definition toRegister (vs : list abiValue) : ParamRegister :=
  match vs with
  | [VArray gid; VString name; VArray bp] => mkParamRegister gid name bp ZERO_ADDRESS
  | [VString name; VArray bp; VArray withdraw] => mkParamRegister ZERO_GID name bp withdraw
  | [VString name; VArray bp] => mkParamRegister ZERO_GID name bp ZERO_ADDRESS
  | _ => mkParamRegister ZERO_GID [] ZERO_ADDRESS ZERO_ADDRESS
  end.
(** UpdateSBPRewardWithdrawAddress *)
Definition toWithdrawAddress (vs : list abiValue) : ParamRegister :=
  match vs with
  | [VString name; VArray withdraw] => mkParamRegister ZERO_GID name ZERO_ADDRESS withdraw
  | _ => mkParamRegister ZERO_GID [] ZERO_ADDRESS ZERO_ADDRESS
  end.
(** ParamCancelRegister and ParamVote *)
Definition toNamed (vs : list abiValue) : ParamNamed :=
  match vs with
  | [VArray gid; VString name] => mkParamNamed gid name
  | [VString name] => mkParamNamed ZERO_GID name
  | _ => mkParamNamed ZERO_GID []
  end.
Definition toReward (vs : list abiValue) : ParamReward :=
  match vs with
  | [VArray gid; VString name; VArray receive] => mkParamReward gid name receive
  | [VString name; VArray receive] => mkParamReward ZERO_GID name receive
  | _ => mkParamReward ZERO_GID [] ZERO_ADDRESS
  end.
Definition toGid (vs : list abiValue) : Gid := match vs with [VArray gid] => gid | _ => ZERO_GID end.

(** *** Keys *)

Definition consensusGroupInfoKeySize : Z := 1 + GidSize.
Definition registrationInfoKeySize : Z := 30.
Definition voteInfoKeySize : Z := 1 + GidSize + AddressSize.

Definition groupInfoKeyPrefix : bytes := [x01].
Definition voteInfoKeyPrefix : bytes := [x00].

Definition GetConsensusGroupInfoKey (gid : Gid) : bytes := groupInfoKeyPrefix ++ gid.
Definition getGidFromConsensusGroupInfoKey (key : bytes) : Gid := (BytesToGid (drop 1 key)).1.
Definition isConsensusGroupInfoKey (key : bytes) : bool := len key =? consensusGroupInfoKeySize.
Definition isRegistrationInfoKey (key : bytes) : bool := len key =? registrationInfoKeySize.
Definition GetHisNameKey (addr : Address) (gid : Gid) : bytes := addr ++ gid.
Definition GetVoteInfoKey (addr : Address) (gid : Gid) : bytes := voteInfoKeyPrefix ++ gid ++ addr.
Definition getVoteInfoKeyPerfixByGid (gid : Gid) : bytes := voteInfoKeyPrefix ++ gid.
Definition isVoteInfoKey (key : bytes) : bool := len key =? voteInfoKeySize.
Definition getAddrFromVoteInfoKey (key : bytes) : Address := (BytesToAddress (drop 11 key)).1.

(** *** Names *)

Definition IsSnapshotGid (gid : Gid) : bool := bool_decide (gid = SNAPSHOT_GID).
Definition IsDelegateGid (gid : Gid) : bool := bool_decide (gid = DELEGATE_GID).

(** [[0-9a-zA-Z_.]] *)
Definition sbpChar (b : byte) : bool :=
  in_range x30 x39 b || in_range x61 x7a b || in_range x41 x5a b || bool_decide (b = x5f) || bool_decide (b = x2e).
(** [([0-9a-zA-Z_.]+[ ]?)*[0-9a-zA-Z_.]] *)
Definition sbpNameRegex : regex :=
  RSeq (RStar (RSeq (RPlus (RClass sbpChar)) (ROpt (RClass (fun b => bool_decide (b = x20)))))) (RClass sbpChar).

Definition checkRegisterAndVoteParam (gid : Gid) (name : bytes) : bool :=
  if IsDelegateGid gid || (len name =? 0) || (registrationNameLengthMax <? len name) then false
  else MatchString sbpNameRegex name.

(** *** Package strings *)

(** [strings.Index] *)
Fixpoint Index (s sub : bytes) : Z :=
  if bool_decide (take (length sub) s = sub) then 0
  else match s with
       | [] => -1
       | _ :: s => let i := Index s sub in if i <? 0 then -1 else i + 1
       end.
Definition HasPrefix (s prefix : bytes) : bool := bool_decide (take (length prefix) s = prefix).
Definition HasSuffix (s suffix : bytes) : bool :=
  (len suffix <=? len s) && bool_decide (drop (length s - length suffix) s = suffix).

(** [strings.Split] at a separator of one byte. *)
Fixpoint Split (s : bytes) (sep : byte) : list bytes :=
  match s with
  | [] => [[]]
  | b :: s =>
      if bool_decide (b = sep) then [] :: Split s sep
      else match Split s sep with
           | w :: ws => (b :: w) :: ws
           | [] => [[b]]
           end
  end.

Definition comma : byte := x2c.
Definition WithdrawRewardAddressSeparation : bytes := [comma].

Definition vInt64 (z : Z) : abiValue := VNum (Machine false 64) z.

Section GovernanceContract.
Variable Hash256 : bytes -> bytes.
Variable box : upgradeBox.
Variable reader : ConsensusReader. (* vm.ConsensusReader() *)

Definition ABIGovernance : ABIContract := JSONToABIContract Hash256 jsonGovernance.

Definition GetRegistrationInfoKey (name : bytes) (gid : Gid) : bytes := gid ++ take 20 (DataHash Hash256 name).

(** *** Consensus groups *)

Definition parseConsensusGroup (data : bytes) (gid : Gid) : result ConsensusGroupInfo :=
  vs ← or_abi_err (UnpackVariable ABIGovernance VariableNameConsensusGroupInfo data);
  match vs with
  | [VNum _ nodeCount; VNum _ interval; VNum _ perCount; VNum _ randCount; VNum _ randRank; VNum _ repeat; VNum _ checkLevel;
     VArray countingTokenId; VNum _ registerConditionId; VBytes registerConditionParam; VNum _ voteConditionId;
     VBytes voteConditionParam; VArray owner; VNum _ stakeAmount; VNum _ expirationHeight] =>
      Ok (mkConsensusGroupInfo gid nodeCount interval perCount randCount randRank repeat checkLevel countingTokenId
            registerConditionId registerConditionParam voteConditionId voteConditionParam owner (Some stakeAmount) expirationHeight)
  | _ => Ok (mkConsensusGroupInfo gid 0 0 0 0 0 0 0 ZERO_TOKENID 0 [] 0 [] ZERO_ADDRESS None 0)
  end.

Definition GetConsensusGroup (db : vmDb) (gid : Gid) : result (option ConsensusGroupInfo) :=
  if negb (bool_decide (db_address db = AddressGovernance)) then Err ErrAddressNotMatch
  else
    match db_GetValue db (GetConsensusGroupInfoKey gid) with
    | Ok data => if 0 <? len data then Some <$> parseConsensusGroup data gid else Ok None
    | Err _ => Err ErrDb
    | Panic p => Panic p
    end.

(** The [StakeHeight] of [GetRegisterStakeParamOfConsensusGroup], whose error is
    ignored where it is called. *)
Definition GetRegisterStakeParamOfConsensusGroup (data : bytes) : result Z :=
  vs ← ignore_err [] (UnpackVariable ABIGovernance VariableNameRegisterStakeParam data);
  Ok (match vs with [VNum _ _; VArray _; VNum _ stakeHeight] => stakeHeight | _ => 0 end).

(** *** Registrations *)

Definition registerInfoValuePrefix : bytes := zero_bytes 30 ++ [x01; x00].

(** Neither error is returned: the result is nil.  A value of less than a word
    cannot be sliced. *)
Definition UnpackRegistration (value : bytes) : result (option Registration) :=
  if (length value <? 32)%nat then Panic PSlice
  else if bool_decide (take 32 value = registerInfoValuePrefix)
  then match UnpackVariable ABIGovernance VariableNameRegistrationInfo value with
       | Ok [VString name; VArray bp; VArray stake; VNum _ amount; VNum _ expiration; VNum _ rewardTime; VNum _ revokeTime; VList his] =>
           Ok (Some (mkRegistration name bp stake stake (Some amount) expiration rewardTime revokeTime
                       (omap (fun v => match v with VArray a => Some a | _ => None end) his)))
       | Panic p => Panic p
       | _ => Ok None
       end
  else match UnpackVariable ABIGovernance VariableNameRegistrationInfoV2 value with
       | Ok [VString name; VArray bp; VArray withdraw; VArray stake; VNum _ amount; VNum _ expiration; VNum _ rewardTime; VNum _ revokeTime; VList his] =>
           Ok (Some (mkRegistration name bp withdraw stake (Some amount) expiration rewardTime revokeTime
                       (omap (fun v => match v with VArray a => Some a | _ => None end) his)))
       | Panic p => Panic p
       | _ => Ok None
       end.

(** The two forms in which the methods store a registration. *)
Definition packRegistration (r : Registration) : result bytes :=
  big (rg_Amount r) (fun amount =>
  ignore_err [] (PackVariable ABIGovernance VariableNameRegistrationInfo
    [VString (rg_Name r); VArray (rg_BlockProducingAddress r); VArray (rg_StakeAddress r); vBig amount;
     vUint64 (rg_ExpirationHeight r); vInt64 (rg_RewardTime r); vInt64 (rg_RevokeTime r); VList (VArray <$> rg_HisAddrList r)])).
Definition packRegistrationV2 (r : Registration) : result bytes :=
  big (rg_Amount r) (fun amount =>
  ignore_err [] (PackVariable ABIGovernance VariableNameRegistrationInfoV2
    [VString (rg_Name r); VArray (rg_BlockProducingAddress r); VArray (rg_RewardWithdrawAddress r); VArray (rg_StakeAddress r); vBig amount;
     vUint64 (rg_ExpirationHeight r); vInt64 (rg_RewardTime r); vInt64 (rg_RevokeTime r); VList (VArray <$> rg_HisAddrList r)])).

Definition registerInfo (earth : bool) (r : Registration) : result bytes :=
  if earth then packRegistrationV2 r else packRegistration r.

Definition GetRegistration (db : vmDb) (gid : Gid) (name : bytes) : result (option Registration) :=
  if negb (bool_decide (db_address db = AddressGovernance)) then Err ErrAddressNotMatch
  else
    match db_GetValue db (GetRegistrationInfoKey name gid) with
    | Ok value => if len value =? 0 then Ok None else UnpackRegistration value
    | Err _ => Err ErrDb
    | Panic p => Panic p
    end.

Definition IsActiveRegistration (db : vmDb) (name : bytes) (gid : Gid) : result bool :=
  if negb (bool_decide (db_address db = AddressGovernance)) then Err ErrAddressNotMatch
  else
    match db_GetValue db (GetRegistrationInfoKey name gid) with
    | Ok value =>
        if 0 <? len value
        then registration ← UnpackRegistration value; r ← or_panic PNil registration; Ok (IsActive r)
        else Ok false
    | Err _ => Err ErrDb
    | Panic p => Panic p
    end.

(** [util.DealWithErr(err)] after a query. *)
Definition dealt {A} (r : result A) : result A := match r with Err _ => Panic PDb | r => r end.

(** *** Rewards *)

Record Reward := mkReward {
  rw_VoteReward : Z;
  rw_BlockReward : Z;
  rw_TotalReward : Z;
  rw_BlockNum : Z;
  rw_ExpectedBlockNum : Z;
}.
Definition newZeroReward : Reward := mkReward 0 0 0 0 0.
Definition Reward_add (r a : Reward) : Reward :=
  mkReward (rw_VoteReward r + rw_VoteReward a) (rw_BlockReward r + rw_BlockReward a) (rw_TotalReward r + rw_TotalReward a)
    (rw_BlockNum r) (rw_ExpectedBlockNum r).

Definition RewardDrained (reward : option Reward) (drained : bool) : bool :=
  drained && match reward with None => true | Some r => rw_TotalReward r =? 0 end.

(** An error of the database, passed on. *)
Definition or_db_err {A} (r : outcome unit A) : result A :=
  match r with Ok a => Ok a | Err _ => Err ErrDb | Panic p => Panic p end.

Definition calcRewardByDayDetail (detail : DayStats) (name : bytes) (stakeAmount : Z) : result Reward :=
  match ds_Stats detail !! name with
  | None => Ok newZeroReward
  | Some selfDetail =>
      if ss_ExceptedBlockNum selfDetail =? 0 then Ok newZeroReward
      else
        big (ss_VoteCnt selfDetail) (fun voteCnt => big (ds_VoteSum detail) (fun voteSum =>
        let tmp1 := (voteCnt + stakeAmount) * ds_BlockTotal detail * 50 * rewardPerBlock * ss_BlockNum selfDetail in
        let tmp2 := Z.of_nat (size (ds_Stats detail)) * stakeAmount + voteSum in
        tmp1 ← big_Quo tmp1 tmp2;
        tmp1 ← big_Quo tmp1 (ss_ExceptedBlockNum selfDetail);
        voteReward ← big_Quo tmp1 100;
        blockReward ← big_Quo (ss_BlockNum selfDetail * 50 * rewardPerBlock) 100;
        Ok (mkReward voteReward blockReward (voteReward + blockReward) (ss_BlockNum selfDetail) (ss_ExceptedBlockNum selfDetail))))
  end.

Definition getRewardTimeLimit (current : SnapshotBlock) : Z := i64 (sb_Timestamp current - rewardTimeLimit).

(** The amount of the stake that counts in a cycle, and the cycle of the upgrade
    once it is known. *)
Definition getSnapshotGroupStakeAmount (db : vmDb) (genesisTime index forkIndex : Z) : result (Z * Z) :=
  sb ← or_db_err (db_LatestSnapshotBlock db);
  if negb (IsLeafUpgrade box (sb_Height sb)) then Ok (SbpStakeAmountPreMainnet, 0)
  else
    forkIndex ← (if forkIndex =? 0
                 then point ← or_panic PNil (getUpgradePoint box 5);
                      forkSb ← or_db_err (db_GetSnapshotBlockByHeight db (up_Height point));
                      forkSb ← or_panic PNil forkSb;
                      or_db_err (GetIndexByTime (cr_day reader) (sb_Timestamp forkSb) genesisTime)
                 else Ok forkIndex);
    Ok (if index <=? forkIndex then SbpStakeAmountPreMainnet else SbpStakeAmountMainnet, forkIndex).

(** The loop of [calcReward] over the days. *)
Fixpoint addRewards (db : vmDb) (genesisTime : Z) (name : bytes) (details : list DayStats) (forkIndex : Z) (reward : Reward) :
    result Reward :=
  match details with
  | [] => Ok reward
  | detail :: details =>
      '(stakeAmount, forkIndex) ← getSnapshotGroupStakeAmount db genesisTime (ds_Index detail) forkIndex;
      dayDetail ← calcRewardByDayDetail detail name stakeAmount;
      addRewards db genesisTime name details forkIndex (Reward_add reward dayDetail)
  end.

(** The cycle up to which rewards are due, the end of it, whether there is none, and whether nothing is left then. *)
Definition rewardEnd (old : Registration) (genesisTime timeLimit : Z) : result (Z * Z * bool * bool) :=
  let due := '(endIndex, endTime, withinOneDay) ← or_db_err (GetIndexByEndTime (cr_day reader) timeLimit genesisTime);
             Ok (endIndex, endTime, withinOneDay, false) in
  if negb (IsActive old)
  then '(endIndex, endTime, withinOneDay) ← or_db_err (GetIndexByEndTime (cr_day reader) (rg_RevokeTime old) genesisTime);
       if endTime <=? timeLimit then Ok (endIndex, endTime, withinOneDay, true) else due
  else due.

Definition calcReward (old : Registration) (genesisTime : Z) (db : vmDb) (current : option SnapshotBlock) :
    result (Z * Z * option Reward * bool) :=
  '(startIndex, startTime, drained) ← or_db_err (GetIndexByStartTime (cr_day reader) (rg_RewardTime old) genesisTime);
  if drained : bool then Ok (0, 0, None, true)
  else
    current ← or_panic PNil current;
    '(endIndex, endTime, withinOneDay, drained) ← rewardEnd old genesisTime (getRewardTimeLimit current);
    if withinOneDay || (endIndex <? startIndex) then Ok (startTime, endTime, Some newZeroReward, drained)
    else
      details ← or_db_err (cr_GetConsensusDetailByDay reader startIndex endIndex);
      reward ← addRewards db genesisTime (rg_Name old) details 0 newZeroReward;
      Ok (startTime, endTime, Some reward, drained).

(** The deferred function recovers from a panic, but what it assigns is its own
    [err]: the named results keep their zero values. *)
Definition CalcReward (db : vmDb) (old : Registration) (current : option SnapshotBlock) : result (Z * Z * option Reward * bool) :=
  match calcReward old (sb_Timestamp (db_GetGenesisSnapshotBlock db)) db current with
  | Panic _ => Ok (0, 0, None, false)
  | r => r
  end.

Definition checkRewardDrained (db : vmDb) (old : Registration) (current : option SnapshotBlock) : result bool :=
  '(_, _, reward, drained) ← CalcReward db old current;
  Ok (RewardDrained reward drained).

(** The rewards of all SBPs in one cycle; [None] is a nil map. *)
Definition calcRewardByDay (index stakeAmount : Z) : result (option (gmap bytes Reward)) :=
  detailList ← or_db_err (cr_GetConsensusDetailByDay reader index index);
  match detailList with
  | [] => Ok None
  | detail :: _ =>
      rewards ← map_fold (fun name _ acc =>
                  m ← acc; r ← calcRewardByDayDetail detail name stakeAmount; Ok (<[name := r]> m))
                (Ok ∅ : result (gmap bytes Reward)) (ds_Stats detail);
      Ok (Some rewards)
  end.

(** [recover] with an error for the caller. *)
Definition recovered {A} (r : result A) : result A := match r with Panic _ => Err ErrChainForked | r => r end.

Definition CalcRewardByIndex (db : vmDb) (index : Z) : result (option (gmap bytes Reward)) :=
  recovered (
    let endTime := GetEndTimeByIndex (cr_day reader) index in
    current ← or_db_err (db_LatestSnapshotBlock db);
    if getRewardTimeLimit current <? endTime then Err ErrRewardNotDue
    else
      let genesisTime := sb_Timestamp (db_GetGenesisSnapshotBlock db) in
      '(stakeAmount, _) ← getSnapshotGroupStakeAmount db genesisTime index 0;
      calcRewardByDay index stakeAmount).

Definition CalcRewardByCycle (db : vmDb) (timestamp : Z) : result (option (gmap bytes Reward) * Z) :=
  recovered (
    let genesisTime := sb_Timestamp (db_GetGenesisSnapshotBlock db) in
    if timestamp <? genesisTime then Err ErrInvalidMethodParam
    else
      index ← or_db_err (GetIndexByTime (cr_day reader) timestamp genesisTime);
      let endTime := GetEndTimeByIndex (cr_day reader) index in
      current ← or_db_err (db_LatestSnapshotBlock db);
      if getRewardTimeLimit current <? endTime then Err ErrRewardNotDue
      else
        '(stakeAmount, _) ← getSnapshotGroupStakeAmount db genesisTime index 0;
        m ← calcRewardByDay index stakeAmount;
        Ok (m, index)).

(** ** Methods (contracts_governance.go) *)

(** [block.Amount.Sign() != 0] is an error. *)
Definition zeroAmount (block : AccountBlock) : result unit :=
  big (Amount block) (fun a => if a =? 0 then Ok tt else Err ErrInvalidMethodParam).

(** [vm.GlobalStatus().SnapshotBlock()] *)
Definition statusBlock (status : option GlobalStatus) : result (option SnapshotBlock) :=
  gs ← or_panic PNil status;
  Ok (gs_SnapshotBlock gs).

(** A [DoReceive] that may return an error after it has written. *)
Definition receive_in (block : AccountBlock) (r : result (list AccountBlock) * vmDb) :
    result (list AccountBlock) * vmDb * AccountBlock := (r, block).

(** *** Withdraw addresses: the names of the SBPs whose rewards an address other
    than the staking one may withdraw, separated by commas. *)

Definition addName (value sbpName : bytes) : bytes :=
  if len value =? 0 then sbpName else value ++ WithdrawRewardAddressSeparation ++ sbpName.

Definition addWithdrawRewardAddress (db : vmDb) (addr : Address) (sbpName : bytes) : result vmDb :=
  value ← GetValue db addr;
  SetValue db addr (addName value sbpName).

(** The value without the name: equal, prefix, suffix, middle.  [None] leaves it. *)
Definition deleteName (value sbpName : bytes) : option bytes :=
  if bool_decide (value = sbpName) then Some []
  else if HasPrefix value (sbpName ++ WithdrawRewardAddressSeparation) then Some (drop (length sbpName + 1) value)
  else if HasSuffix value (WithdrawRewardAddressSeparation ++ sbpName) then Some (take (length value - length sbpName - 1) value)
  else
    let startIndex := Index value (WithdrawRewardAddressSeparation ++ sbpName ++ WithdrawRewardAddressSeparation) in
    if 0 <? startIndex
    then Some (take (Z.to_nat startIndex) value ++ drop (Z.to_nat startIndex + length sbpName + 1) value)
    else None.

Definition deleteWithdrawRewardAddress (db : vmDb) (addr : Address) (sbpName : bytes) : result vmDb :=
  value ← GetValue db addr;
  match deleteName value sbpName with
  | Some value => SetValue db addr value
  | None => Ok db
  end.

Definition saveWithdrawRewardAddress (db : vmDb) (oldAddr : option Address) (newAddr owner : Address) (sbpName : bytes) :
    result vmDb :=
  match oldAddr with
  | None => if bool_decide (newAddr = owner) then Ok db else addWithdrawRewardAddress db newAddr sbpName
  | Some oldAddr =>
      if bool_decide (oldAddr = newAddr) then Ok db
      else if bool_decide (oldAddr = owner) then addWithdrawRewardAddress db newAddr sbpName
      else if bool_decide (newAddr = owner) then deleteWithdrawRewardAddress db oldAddr sbpName
      else
        db ← deleteWithdrawRewardAddress db oldAddr sbpName;
        addWithdrawRewardAddress db newAddr sbpName
  end.

(** The check that a block producing address belongs to one name in a consensus
    group, which Register and UpdateBlockProducingAddress share: the list of
    addresses with a new one, or an error. *)
Definition checkHisName (db : vmDb) (addr : Address) (gid : Gid) (sbpName : bytes) (hisAddrList : list Address) :
    result (vmDb * list Address) :=
  let hisNameKey := GetHisNameKey addr gid in
  v ← GetValue db hisNameKey;
  if len v =? 0
  then
    hisNameData ← ignore_err [] (PackVariable ABIGovernance VariableNameRegisteredHisName [VString sbpName]);
    db ← SetValue db hisNameKey hisNameData;
    Ok (db, hisAddrList ++ [addr])
  else
    match UnpackVariable ABIGovernance VariableNameRegisteredHisName v with
    | Ok vs =>
        let hisName := match vs with [VString n] => n | _ => [] end in
        if bool_decide (hisName = sbpName) then Ok (db, hisAddrList) else Err ErrInvalidMethodParam
    | Err _ => Err ErrInvalidMethodParam
    | Panic p => Panic p
    end.

(** *** MethodRegister *)

Definition Register_send (name : string) (block : AccountBlock) : result bytes :=
  vs ← or_invalid (UnpackMethod ABIGovernance name (Data block));
  let param := toRegister vs in
  let v3 := bool_decide (name = MethodNameRegisterV3) in
  let gid := if v3 then SNAPSHOT_GID else pr_Gid param in
  if negb (checkRegisterAndVoteParam gid (pr_SbpName param)) then Err ErrInvalidMethodParam
  else ignore_err [] (PackMethod ABIGovernance name
    (if v3 then [VString (pr_SbpName param); VArray (pr_BlockProducingAddress param); VArray (pr_RewardWithdrawAddress param)]
     else [VArray gid; VString (pr_SbpName param); VArray (pr_BlockProducingAddress param)])).

(** The parameters as the contract reads them. *)
Definition Register_param (name : string) (sendBlock : AccountBlock) : result ParamRegister :=
  vs ← ignore_err [] (UnpackMethod ABIGovernance name (Data sendBlock));
  let param := toRegister vs in
  Ok (if bool_decide (name = MethodNameRegisterV3)
      then mkParamRegister SNAPSHOT_GID (pr_SbpName param) (pr_BlockProducingAddress param) (pr_RewardWithdrawAddress param)
      else mkParamRegister (pr_Gid param) (pr_SbpName param) (pr_BlockProducingAddress param) (AccountAddress sendBlock)).

(** Up to the check of the name: the registration that the name had. *)
Definition Register_check (db : vmDb) (sendBlock : AccountBlock) (param : ParamRegister) (sb : SnapshotBlock)
    (snapshotBlock : option SnapshotBlock) : result (Z * option Registration) :=
  big (Amount sendBlock) (fun amount =>
  let isLeafFork := IsLeafUpgrade box (sb_Height sb) in
  if (negb isLeafFork && negb (amount =? SbpStakeAmountPreMainnet)) || (isLeafFork && negb (amount =? SbpStakeAmountMainnet))
     || negb (bool_decide (TokenId sendBlock = ViteTokenId))
  then Err ErrInvalidMethodParam
  else
    rewardTime ← (if IsSnapshotGid (pr_Gid param) then b ← or_panic PNil snapshotBlock; Ok (sb_Timestamp b) else Ok 0);
    old ← dealt (GetRegistration db (pr_Gid param) (pr_SbpName param));
    match old with
    | None => Ok (rewardTime, None)
    | Some r =>
        if IsActive r || negb (bool_decide (rg_StakeAddress r = AccountAddress sendBlock)) then Err ErrInvalidMethodParam
        else
          drained ← dealt (checkRewardDrained db r snapshotBlock);
          if negb drained then Err ErrRewardIsNotDrained else Ok (rewardTime, Some r)
    end).

(** From the check of the consensus group on. *)
Definition Register_store (db : vmDb) (sendBlock : AccountBlock) (param : ParamRegister) (sb : SnapshotBlock)
    (snapshotBlock : option SnapshotBlock) (rewardTime : Z) (old : option Registration) (hisAddrList : list Address) : result vmDb :=
  groupInfo ← dealt (GetConsensusGroup db (pr_Gid param));
  match groupInfo with
  | None => Err ErrInvalidMethodParam
  | Some group =>
      stakeHeight ← GetRegisterStakeParamOfConsensusGroup (cg_RegisterConditionParam group);
      let earth := IsEarthUpgrade box (sb_Height sb) in
      db ← (if earth
            then saveWithdrawRewardAddress db (rg_RewardWithdrawAddress <$> old) (pr_RewardWithdrawAddress param)
                   (AccountAddress sendBlock) (pr_SbpName param)
            else Ok db);
      snapshotBlock ← or_panic PNil snapshotBlock;
      info ← registerInfo earth (mkRegistration (pr_SbpName param) (pr_BlockProducingAddress param) (pr_RewardWithdrawAddress param)
        (AccountAddress sendBlock) (Amount sendBlock) (u64 (sb_Height snapshotBlock + stakeHeight)) rewardTime 0 hisAddrList);
      SetValue db (GetRegistrationInfoKey (pr_SbpName param) (pr_Gid param)) info
  end.

(** The name of the block producing address stays written when the group does not exist. *)
Definition Register_receive (name : string) (db : vmDb) (sendBlock : AccountBlock) (status : option GlobalStatus) :
    result (list AccountBlock) * vmDb :=
  match (param ← Register_param name sendBlock;
         snapshotBlock ← statusBlock status;
         sb ← (match db_LatestSnapshotBlock db with Ok sb => Ok sb | _ => Panic PNil end);
         '(rewardTime, old) ← Register_check db sendBlock param sb snapshotBlock;
         '(db, hisAddrList) ← checkHisName db (pr_BlockProducingAddress param) (pr_Gid param) (pr_SbpName param)
                                (match old with Some r => rg_HisAddrList r | None => [] end);
         Ok (param, snapshotBlock, sb, rewardTime, old, db, hisAddrList)) with
  | Ok (param, snapshotBlock, sb, rewardTime, old, db, hisAddrList) =>
      match Register_store db sendBlock param sb snapshotBlock rewardTime old hisAddrList with
      | Ok db => (Ok [], db)
      | Err e => (Err e, db)
      | Panic p => (Panic p, db)
      end
  | Err e => (Err e, db)
  | Panic p => (Panic p, db)
  end.

Definition MethodRegister (name : string) : BuiltinContractMethod :=
  {| GetFee _ := Ok 0;
     DoSend db block := send_data db block (Register_send name block);
     GetSendQuota _ gasTable := Ok (gasTable RegisterQuota);
     DoReceive db block sendBlock status := receive_in block (Register_receive name db sendBlock status);
     GetReceiveQuota _ := 0;
     GetRefundData := no_refund |}.

(** *** MethodRevoke *)

Definition Revoke_send (name : string) (block : AccountBlock) : result bytes :=
  zeroAmount block ;;
  vs ← or_invalid (UnpackMethod ABIGovernance name (Data block));
  let param := toNamed vs in
  let v3 := bool_decide (name = MethodNameRevokeV3) in
  let gid := if v3 then SNAPSHOT_GID else pn_Gid param in
  if negb (checkRegisterAndVoteParam gid (pn_SbpName param)) then Err ErrInvalidMethodParam
  else ignore_err [] (PackMethod ABIGovernance name
    (if v3 then [VString (pn_SbpName param)] else [VArray gid; VString (pn_SbpName param)])).

Definition revoked (old : Registration) (rewardTime revokeTime : Z) : Registration :=
  mkRegistration (rg_Name old) (rg_BlockProducingAddress old) (rg_RewardWithdrawAddress old) (rg_StakeAddress old)
    (Some 0) 0 rewardTime revokeTime (rg_HisAddrList old).

Definition Revoke_receive (name : string) (db : vmDb) (block sendBlock : AccountBlock) (status : option GlobalStatus) :
    result (vmDb * list AccountBlock) :=
  vs ← ignore_err [] (UnpackMethod ABIGovernance name (Data sendBlock));
  let param := toNamed vs in
  let gid := if bool_decide (name = MethodNameRevokeV3) then SNAPSHOT_GID else pn_Gid param in
  snapshotBlock ← statusBlock status;
  old ← dealt (GetRegistration db gid (pn_SbpName param));
  match old with
  | None => Err ErrInvalidMethodParam
  | Some old =>
      if negb (IsActive old) || negb (bool_decide (rg_StakeAddress old = AccountAddress sendBlock)) then Err ErrInvalidMethodParam
      else
        current ← or_panic PNil snapshotBlock;
        if sb_Height current <? rg_ExpirationHeight old then Err ErrInvalidMethodParam
        else
          drained ← dealt (checkRewardDrained db old snapshotBlock);
          info ← registerInfo (IsEarthUpgrade box (sb_Height current))
                   (revoked old (if drained : bool then -1 else rg_RewardTime old) (sb_Timestamp current));
          db ← SetValue db (GetRegistrationInfoKey (pn_SbpName param) gid) info;
          big (rg_Amount old) (fun amount =>
          Ok (db, if 0 <? amount
                  then [sendLiteral block (AccountAddress sendBlock) BlockTypeSendCall (rg_Amount old) ViteTokenId []]
                  else []))
  end.

Definition MethodRevoke (name : string) : BuiltinContractMethod :=
  {| GetFee _ := Ok 0;
     DoSend db block := send_data db block (Revoke_send name block);
     GetSendQuota _ gasTable := Ok (gasTable RevokeQuota);
     DoReceive db block sendBlock status := receive_with db block (Revoke_receive name db block sendBlock status);
     GetReceiveQuota _ := 0;
     GetRefundData := no_refund |}.

(** *** MethodWithdrawReward *)

Definition WithdrawReward_send (name : string) (block : AccountBlock) : result bytes :=
  zeroAmount block ;;
  vs ← or_invalid (UnpackMethod ABIGovernance name (Data block));
  let param := toReward vs in
  let v3 := bool_decide (name = MethodNameWithdrawRewardV3) in
  let gid := if v3 then SNAPSHOT_GID else pw_Gid param in
  if negb (IsSnapshotGid gid) then Err ErrInvalidMethodParam
  else ignore_err [] (PackMethod ABIGovernance name
    (if v3 then [VString (pw_SbpName param); VArray (pw_ReceiveAddress param)]
     else [VArray gid; VString (pw_SbpName param); VArray (pw_ReceiveAddress param)])).

Definition set_RewardTime (r : Registration) (t : Z) : Registration :=
  mkRegistration (rg_Name r) (rg_BlockProducingAddress r) (rg_RewardWithdrawAddress r) (rg_StakeAddress r)
    (rg_Amount r) (rg_ExpirationHeight r) t (rg_RevokeTime r) (rg_HisAddrList r).

Definition WithdrawReward_receive (name : string) (db : vmDb) (block sendBlock : AccountBlock) (status : option GlobalStatus) :
    result (vmDb * list AccountBlock) :=
  vs ← ignore_err [] (UnpackMethod ABIGovernance name (Data sendBlock));
  let param := toReward vs in
  let gid := if bool_decide (name = MethodNameWithdrawRewardV3) then SNAPSHOT_GID else pw_Gid param in
  old ← dealt (GetRegistration db gid (pw_SbpName param));
  sb ← DealWithErr (db_LatestSnapshotBlock db);
  match old with
  | None => Err ErrInvalidMethodParam
  | Some old =>
      if (rg_RewardTime old =? -1)
         || (negb (bool_decide (AccountAddress sendBlock = rg_StakeAddress old))
             && negb (bool_decide (AccountAddress sendBlock = rg_RewardWithdrawAddress old)))
      then Err ErrInvalidMethodParam
      else
        snapshotBlock ← statusBlock status;
        '(_, endTime, reward, drained) ← dealt (CalcReward db old snapshotBlock);
        let endTime := if drained : bool then -1 else endTime in
        if endTime =? rg_RewardTime old then Ok (db, [])
        else
          info ← registerInfo (IsEarthUpgrade box (sb_Height sb)) (set_RewardTime old endTime);
          db ← SetValue db (GetRegistrationInfoKey (pw_SbpName param) gid) info;
          match reward with
          | Some reward =>
              if 0 <? rw_TotalReward reward
              then
                leaf ← CheckFork db (IsLeafUpgrade box);
                reIssueData ← ignore_err [] (PackMethod (ABIAsset Hash256) (if negb leaf then MethodNameReIssue else MethodNameReIssueV2)
                  [VArray ViteTokenId; vBig (rw_TotalReward reward); VArray (pw_ReceiveAddress param)]);
                Ok (db, [sendLiteral block AddressAsset BlockTypeSendCall (Some 0) ViteTokenId reIssueData])
              else Ok (db, [])
          | None => Ok (db, [])
          end
  end.

Definition MethodWithdrawReward (name : string) : BuiltinContractMethod :=
  {| GetFee _ := Ok 0;
     DoSend db block := send_data db block (WithdrawReward_send name block);
     GetSendQuota _ gasTable := Ok (gasTable WithdrawRewardQuota);
     DoReceive db block sendBlock status := receive_with db block (WithdrawReward_receive name db block sendBlock status);
     GetReceiveQuota _ := 0;
     GetRefundData := no_refund |}.

(** *** MethodUpdateBlockProducingAddress *)

Definition UpdateProducing_send (name : string) (block : AccountBlock) : result bytes :=
  zeroAmount block ;;
  vs ← or_invalid (UnpackMethod ABIGovernance name (Data block));
  let param := toRegister vs in
  let v3 := bool_decide (name = MethodNameUpdateBlockProducintAddressV3) in
  let gid := if v3 then SNAPSHOT_GID else pr_Gid param in
  if negb (checkRegisterAndVoteParam gid (pr_SbpName param)) then Err ErrInvalidMethodParam
  else ignore_err [] (PackMethod ABIGovernance name
    (if v3 then [VString (pr_SbpName param); VArray (pr_BlockProducingAddress param)]
     else [VArray gid; VString (pr_SbpName param); VArray (pr_BlockProducingAddress param)])).

Definition set_Producing (r : Registration) (bp : Address) (his : list Address) : Registration :=
  mkRegistration (rg_Name r) bp (rg_RewardWithdrawAddress r) (rg_StakeAddress r)
    (rg_Amount r) (rg_ExpirationHeight r) (rg_RewardTime r) (rg_RevokeTime r) his.

Definition UpdateProducing_receive (name : string) (db : vmDb) (sendBlock : AccountBlock) : result (vmDb * list AccountBlock) :=
  vs ← ignore_err [] (UnpackMethod ABIGovernance name (Data sendBlock));
  let param := toRegister vs in
  let gid := if bool_decide (name = MethodNameUpdateBlockProducintAddressV3) then SNAPSHOT_GID else pr_Gid param in
  old ← dealt (GetRegistration db gid (pr_SbpName param));
  match old with
  | None => Err ErrInvalidMethodParam
  | Some old =>
      if negb (IsActive old) || negb (bool_decide (rg_StakeAddress old = AccountAddress sendBlock))
         || bool_decide (rg_BlockProducingAddress old = pr_BlockProducingAddress param)
      then Err ErrInvalidMethodParam
      else
        '(db, hisAddrList) ← checkHisName db (pr_BlockProducingAddress param) gid (pr_SbpName param) (rg_HisAddrList old);
        earth ← CheckFork db (IsEarthUpgrade box);
        info ← registerInfo earth (set_Producing old (pr_BlockProducingAddress param) hisAddrList);
        db ← SetValue db (GetRegistrationInfoKey (pr_SbpName param) gid) info;
        Ok (db, [])
  end.

Definition MethodUpdateBlockProducingAddress (name : string) : BuiltinContractMethod :=
  {| GetFee _ := Ok 0;
     DoSend db block := send_data db block (UpdateProducing_send name block);
     GetSendQuota _ gasTable := Ok (gasTable UpdateBlockProducingAddressQuota);
     DoReceive db block sendBlock _ := receive_with db block (UpdateProducing_receive name db sendBlock);
     GetReceiveQuota _ := 0;
     GetRefundData := no_refund |}.

(** *** MethodUpdateRewardWithdrawAddress *)

Definition UpdateWithdraw_send (name : string) (block : AccountBlock) : result bytes :=
  zeroAmount block ;;
  vs ← or_invalid (UnpackMethod ABIGovernance name (Data block));
  let param := toWithdrawAddress vs in
  if negb (checkRegisterAndVoteParam SNAPSHOT_GID (pr_SbpName param)) then Err ErrInvalidMethodParam
  else ignore_err [] (PackMethod ABIGovernance name [VString (pr_SbpName param); VArray (pr_RewardWithdrawAddress param)]).

Definition set_Withdraw (r : Registration) (withdraw : Address) : Registration :=
  mkRegistration (rg_Name r) (rg_BlockProducingAddress r) withdraw (rg_StakeAddress r)
    (rg_Amount r) (rg_ExpirationHeight r) (rg_RewardTime r) (rg_RevokeTime r) (rg_HisAddrList r).

Definition UpdateWithdraw_receive (name : string) (db : vmDb) (sendBlock : AccountBlock) : result (vmDb * list AccountBlock) :=
  vs ← ignore_err [] (UnpackMethod ABIGovernance name (Data sendBlock));
  let param := toWithdrawAddress vs in
  old ← dealt (GetRegistration db SNAPSHOT_GID (pr_SbpName param));
  match old with
  | None => Err ErrInvalidMethodParam
  | Some old =>
      if negb (IsActive old) || negb (bool_decide (rg_StakeAddress old = AccountAddress sendBlock))
         || bool_decide (rg_RewardWithdrawAddress old = pr_RewardWithdrawAddress param)
      then Err ErrInvalidMethodParam
      else
        db ← saveWithdrawRewardAddress db (Some (rg_RewardWithdrawAddress old)) (pr_RewardWithdrawAddress param)
               (rg_StakeAddress old) (rg_Name old);
        info ← packRegistrationV2 (set_Withdraw old (pr_RewardWithdrawAddress param));
        db ← SetValue db (GetRegistrationInfoKey (pr_SbpName param) SNAPSHOT_GID) info;
        Ok (db, [])
  end.

Definition MethodUpdateRewardWithdrawAddress (name : string) : BuiltinContractMethod :=
  {| GetFee _ := Ok 0;
     DoSend db block := send_data db block (UpdateWithdraw_send name block);
     GetSendQuota _ gasTable := Ok (gasTable UpdateRewardWithdrawAddressQuota);
     DoReceive db block sendBlock _ := receive_with db block (UpdateWithdraw_receive name db sendBlock);
     GetReceiveQuota _ := 0;
     GetRefundData := no_refund |}.

(** *** MethodVote *)

(** Contracts may vote since the upgrade Stem. *)
Definition mayVote (db : vmDb) (block : AccountBlock) : result unit :=
  latestSb ← DealWithErr (db_LatestSnapshotBlock db);
  big (Amount block) (fun a =>
  if negb (a =? 0) || (IsContractAddr (AccountAddress block) && negb (IsStemUpgrade box (sb_Height latestSb)))
  then Err ErrInvalidMethodParam else Ok tt).

Definition Vote_send (name : string) (db : vmDb) (block : AccountBlock) : result bytes :=
  mayVote db block ;;
  vs ← or_invalid (UnpackMethod ABIGovernance name (Data block));
  let param := toNamed vs in
  let v3 := bool_decide (name = MethodNameVoteV3) in
  let gid := if v3 then SNAPSHOT_GID else pn_Gid param in
  if negb (checkRegisterAndVoteParam gid (pn_SbpName param)) then Err ErrInvalidMethodParam
  else ignore_err [] (PackMethod ABIGovernance name
    (if v3 then [VString (pn_SbpName param)] else [VArray gid; VString (pn_SbpName param)])).

Definition Vote_receive (name : string) (db : vmDb) (sendBlock : AccountBlock) : result (vmDb * list AccountBlock) :=
  vs ← ignore_err [] (UnpackMethod ABIGovernance name (Data sendBlock));
  let param := toNamed vs in
  let gid := if bool_decide (name = MethodNameVoteV3) then SNAPSHOT_GID else pn_Gid param in
  consensusGroupInfo ← dealt (GetConsensusGroup db gid);
  match consensusGroupInfo with
  | None => Err ErrInvalidMethodParam
  | Some _ =>
      active ← dealt (IsActiveRegistration db (pn_SbpName param) gid);
      if negb active then Err ErrInvalidMethodParam
      else
        voteStatus ← ignore_err [] (PackVariable ABIGovernance VariableNameVoteInfo [VString (pn_SbpName param)]);
        db ← SetValue db (GetVoteInfoKey (AccountAddress sendBlock) gid) voteStatus;
        Ok (db, [])
  end.

Definition MethodVote (name : string) : BuiltinContractMethod :=
  {| GetFee _ := Ok 0;
     DoSend db block := send_data db block (Vote_send name db block);
     GetSendQuota _ gasTable := Ok (gasTable VoteQuota);
     DoReceive db block sendBlock _ := receive_with db block (Vote_receive name db sendBlock);
     GetReceiveQuota _ := 0;
     GetRefundData := no_refund |}.

(** *** MethodCancelVote *)

Definition CancelVote_send (name : string) (db : vmDb) (block : AccountBlock) : result bytes :=
  mayVote db block ;;
  if bool_decide (name = MethodNameCancelVoteV3) then ignore_err [] (PackMethod ABIGovernance name [])
  else
    vs ← or_invalid (UnpackMethod ABIGovernance name (Data block));
    if IsDelegateGid (toGid vs) then Err ErrInvalidMethodParam
    else ignore_err [] (PackMethod ABIGovernance name [VArray (toGid vs)]).

Definition CancelVote_receive (name : string) (db : vmDb) (sendBlock : AccountBlock) : result (vmDb * list AccountBlock) :=
  vs ← ignore_err [] (UnpackMethod ABIGovernance name (Data sendBlock));
  let gid := if bool_decide (name = MethodNameCancelVoteV3) then SNAPSHOT_GID else toGid vs in
  db ← SetValue db (GetVoteInfoKey (AccountAddress sendBlock) gid) [];
  Ok (db, []).

Definition MethodCancelVote (name : string) : BuiltinContractMethod :=
  {| GetFee _ := Ok 0;
     DoSend db block := send_data db block (CancelVote_send name db block);
     GetSendQuota _ gasTable := Ok (gasTable CancelVoteQuota);
     DoReceive db block sendBlock _ := receive_with db block (CancelVote_receive name db sendBlock);
     GetReceiveQuota _ := 0;
     GetRefundData := no_refund |}.

(** ** The contract in the generations of contracts.go *)

Definition simpleGovernance : list (string * BuiltinContractMethod) :=
  [(MethodNameRegister, MethodRegister MethodNameRegister);
   (MethodNameRevoke, MethodRevoke MethodNameRevoke);
   (MethodNameWithdrawReward, MethodWithdrawReward MethodNameWithdrawReward);
   (MethodNameUpdateBlockProducingAddress, MethodUpdateBlockProducingAddress MethodNameUpdateBlockProducingAddress);
   (MethodNameVote, MethodVote MethodNameVote);
   (MethodNameCancelVote, MethodCancelVote MethodNameCancelVote)].
Definition leafGovernance : list (string * BuiltinContractMethod) :=
  simpleGovernance ++
  [(MethodNameUpdateBlockProducintAddressV2, MethodUpdateBlockProducingAddress MethodNameUpdateBlockProducintAddressV2);
   (MethodNameRevokeV2, MethodRevoke MethodNameRevokeV2);
   (MethodNameWithdrawRewardV2, MethodWithdrawReward MethodNameWithdrawRewardV2)].
Definition earthGovernance : list (string * BuiltinContractMethod) :=
  leafGovernance ++
  [(MethodNameRegisterV3, MethodRegister MethodNameRegisterV3);
   (MethodNameUpdateBlockProducintAddressV3, MethodUpdateBlockProducingAddress MethodNameUpdateBlockProducintAddressV3);
   (MethodNameUpdateSBPRewardWithdrawAddress, MethodUpdateRewardWithdrawAddress MethodNameUpdateSBPRewardWithdrawAddress);
   (MethodNameRevokeV3, MethodRevoke MethodNameRevokeV3);
   (MethodNameWithdrawRewardV3, MethodWithdrawReward MethodNameWithdrawRewardV3);
   (MethodNameVoteV3, MethodVote MethodNameVoteV3);
   (MethodNameCancelVoteV3, MethodCancelVote MethodNameCancelVoteV3)].

Definition governanceMethods (g : generation) : list (string * BuiltinContractMethod) :=
  match g with
  | simpleContracts | dexContracts | dexAgentContracts => simpleGovernance
  | leafContracts => leafGovernance
  | _ => earthGovernance
  end.

Definition governanceContract (g : generation) (methodSelector : bytes) : option BuiltinContractMethod :=
  match MethodById ABIGovernance methodSelector with
  | Ok m => assoc (md_Name m) (governanceMethods g)
  | _ => None
  end.

(** ** Queries (abi_gonvernance.go) *)

(** A loop over the keys with a prefix whose body continues or returns. *)
Definition queryWith {A} (db : vmDb) (prefix : bytes) (body : bytes -> bytes -> A -> A + result A) (a : A) : result A :=
  match db_NewStorageIterator db prefix with
  | Err _ => Err ErrDb
  | _ => r ← scanStorage db prefix body a; match r with inl a => Ok a | inr r => r end
  end.

(** A round that returns only with an error or a panic. *)
Definition continues {A} (r : result A) : A + result A := match r with Ok a => inl a | _ => inr r end.

(** A group that cannot be decoded ends the query with an error, one that is not active with a nil list. *)
Definition GetConsensusGroupList (db : vmDb) : result (option (list ConsensusGroupInfo)) :=
  if negb (bool_decide (db_address db = AddressGovernance)) then Err ErrAddressNotMatch
  else
    queryWith db groupInfoKeyPrefix (fun key value acc =>
      if negb (filterKeyValue key value isConsensusGroupInfoKey) then inl acc
      else
        match parseConsensusGroup value (getGidFromConsensusGroupInfoKey key) with
        | Ok info => if group_IsActive info then inl ((fun l => l ++ [info]) <$> acc) else inr (Ok None)
        | Err e => inr (Err e)
        | Panic p => inr (Panic p)
        end) (Some []).

(** The consensus group whose registrations count for a group. *)
Definition registrationGid (gid : Gid) : Gid := if bool_decide (gid = DELEGATE_GID) then SNAPSHOT_GID else gid.

(** The loop over registrations: a value that cannot be decoded is a nil pointer, which [keep] dereferences. *)
Definition queryRegistrations (db : vmDb) (gid : Gid) (keep : option Registration -> result bool) : result (list (option Registration)) :=
  if negb (bool_decide (db_address db = AddressGovernance)) then Err ErrAddressNotMatch
  else
    queryWith db (registrationGid gid) (fun key value l =>
      if negb (filterKeyValue key value isRegistrationInfoKey) then inl l
      else continues (
        registration ← UnpackRegistration value;
        k ← keep registration;
        Ok (if k : bool then l ++ [registration] else l))) [].

Definition getRegistrationList (db : vmDb) (gid : Gid) (filter : bool) : result (list (option Registration)) :=
  queryRegistrations db gid (fun registration =>
    if filter then r ← or_panic PNil registration; Ok (IsActive r) else Ok true).
Definition GetAllRegistrationList (db : vmDb) (gid : Gid) : result (list (option Registration)) := getRegistrationList db gid false.
Definition GetCandidateList (db : vmDb) (gid : Gid) : result (list (option Registration)) := getRegistrationList db gid true.

Definition GetRegistrationList (db : vmDb) (gid : Gid) (stakeAddr : Address) : result (list (option Registration)) :=
  queryRegistrations db gid (fun registration =>
    r ← or_panic PNil registration; Ok (bool_decide (rg_StakeAddress r = stakeAddr))).

(** The loop over the names of a withdraw address. *)
Fixpoint registrationsNamed (db : vmDb) (gid : Gid) (nameList : list bytes) : result (list Registration) :=
  match nameList with
  | [] => Ok []
  | sbpName :: nameList =>
      r ← GetRegistration db gid sbpName;
      l ← registrationsNamed db gid nameList;
      Ok (match r with Some r => r :: l | None => l end)
  end.

Definition GetRegistrationListByRewardWithdrawAddr (db : vmDb) (gid : Gid) (rewardWithdrawAddr : Address) : result (list Registration) :=
  if negb (bool_decide (db_address db = AddressGovernance)) then Err ErrAddressNotMatch
  else
    match db_GetValue db rewardWithdrawAddr with
    | Ok names => if 0 <? len names then registrationsNamed db (registrationGid gid) (Split names comma) else Ok []
    | Err _ => Err ErrDb
    | Panic p => Panic p
    end.

(** The error of decoding is ignored. *)
Definition GetVote (db : vmDb) (gid : Gid) (addr : Address) : result (option VoteInfo) :=
  if negb (bool_decide (db_address db = AddressGovernance)) then Err ErrAddressNotMatch
  else
    match db_GetValue db (GetVoteInfoKey addr gid) with
    | Ok data =>
        if 0 <? len data
        then vs ← ignore_err [] (UnpackVariable ABIGovernance VariableNameVoteInfo data);
             Ok (Some (mkVoteInfo addr (match vs with [VString n] => n | _ => [] end)))
        else Ok None
    | Err _ => Err ErrDb
    | Panic p => Panic p
    end.

Definition GetVoteList (db : vmDb) (gid : Gid) : result (list VoteInfo) :=
  if negb (bool_decide (db_address db = AddressGovernance)) then Err ErrAddressNotMatch
  else
    queryWith db (getVoteInfoKeyPerfixByGid (registrationGid gid)) (fun key value l =>
      if negb (filterKeyValue key value isVoteInfoKey) then inl l
      else match UnpackVariable ABIGovernance VariableNameVoteInfo value with
           | Ok vs => inl (l ++ [mkVoteInfo (getAddrFromVoteInfoKey key) (match vs with [VString n] => n | _ => [] end)])
           | Err _ => inl l
           | Panic p => inr (Panic p)
           end) [].

End GovernanceContract.
