(* ===== verification/Destination.v ===== *)
(** vm/destination.go: the bitmap of push data, the jump-destination test and
    the static scan for opcodes that read other chains.

    Code positions are [nat]: a code slice is shorter than 2^63, so the
    [uint64] counters of the source do not wrap. *)
From Stdlib Require Import ZifyBool.
From S2P Require Import Prelude Helper Types Opcodes.

(** ** Bit vectors *)

Abbreviation bitvec := bytes.

(** [bits[i] |= m], panicking when [i] is out of range. *)
Definition or_at (bits : bitvec) (i : nat) (m : Z) : result bitvec :=
  match bits !! i with
  | Some b => Ok (<[i := Z_byte (Z.lor (byte_Z b) m)]> bits)
  | None => Panic PIndex
  end.

Definition bitvec_set (bits : bitvec) (pos : nat) : result bitvec :=
  or_at bits (pos / 8) (Z.shiftr 0x80 (Z.of_nat (pos mod 8))).

Definition bitvec_set8 (bits : bitvec) (pos : nat) : result bitvec :=
  bits ← or_at bits (pos / 8) (Z.shiftr 0xff (Z.of_nat (pos mod 8)));
  or_at bits (pos / 8 + 1) (0xff - Z.shiftr 0xff (Z.of_nat (pos mod 8))).

Definition codeSegment (bits : bitvec) (pos : nat) : result bool :=
  match bits !! (pos / 8)%nat with
  | Some b => Ok (Z.land (byte_Z b) (Z.shiftr 0x80 (Z.of_nat (pos mod 8))) =? 0)
  | None => Panic PIndex
  end.

(** ** The bitmap *)

(** The loop [for ; numbits > 0; numbits--]. *)
Fixpoint set_each (numbits : nat) (bits : bitvec) (pc : nat) : result (bitvec * nat) :=
  match numbits with
  | O => Ok (bits, pc)
  | S n => bits ← bitvec_set bits pc; set_each n bits (S pc)
  end.

(** The loop [for ; numbits >= 8; numbits -= 8], then the one above. *)
Fixpoint set_push_fuel (fuel numbits : nat) (bits : bitvec) (pc : nat) : result (bitvec * nat) :=
  match fuel with
  | S f =>
      if (8 <=? numbits)%nat
      then bits ← bitvec_set8 bits pc; set_push_fuel f (numbits - 8) bits (pc + 8)
      else set_each numbits bits pc
  | O => set_each numbits bits pc
  end.
Definition set_push (numbits : nat) := set_push_fuel numbits numbits.

(** [opCode(code[pc])], which panics behind the end of the code. *)
Definition op_at (code : bytes) (pc : nat) : result Z :=
  match code !! pc with Some b => Ok (byte_Z b) | None => Panic PIndex end.

Fixpoint codeBitmap_loop (fuel : nat) (code : bytes) (bits : bitvec) (pc : nat) : result bitvec :=
  match fuel with
  | O => Ok bits
  | S f =>
      if (pc <? length code)%nat then
        op ← op_at code pc;
        if (PUSH1 <=? op) && (op <=? PUSH32) then
          '(bits, pc) ← set_push (Z.to_nat (op - PUSH1 + 1)) bits (S pc);
          codeBitmap_loop f code bits pc
        else codeBitmap_loop f code bits (S pc)
      else Ok bits
  end.

(** Every iteration advances [pc], so [length code] iterations suffice. *)
Definition codeBitmap (code : bytes) : result bitvec :=
  codeBitmap_loop (length code) code (zero_bytes (length code / 8 + 1 + 4)) 0.

(** ** Jump destinations *)

Abbreviation destinations := (gmap Address bitvec).

(** [destinations.has]: the answer and the memoised map. *)
Definition has (d : destinations) (addr : Address) (code : bytes) (dest : Z) :
    result (bool * destinations) :=
  let udest := Uint64 dest in
  if (63 <=? BitLen dest) || (len code <=? udest) then Ok (false, d)
  else
    '(m, d) ← match d !! addr with
              | Some m => Ok (m, d)
              | None => m ← codeBitmap code; Ok (m, <[addr := m]> d)
              end;
    op ← op_at code (Z.to_nat udest);
    if op =? JUMPDEST
    then b ← codeSegment m (Z.to_nat udest); Ok (b, d)
    else Ok (false, d).

(** ** Status-reading opcodes *)

Definition auxCodePrefix : bytes := [xa1; x65; x62; x7a; x7a; x72; x30; x58; x20].
Definition auxCodeSuffix : bytes := [x00; x29].
Definition statusCodeList : list Z :=
  [HEIGHT; TIMESTAMP; SEED; DELEGATECALL; EXTCODESIZE; EXTCODECOPY].

Definition containsAuxCode (code : bytes) : bool :=
  let l := length code in
  (43 <? l)%nat
  && bool_decide (take 9 (drop (l - 43) code) = auxCodePrefix)
  && bool_decide (drop (l - 2) code = auxCodeSuffix).

(** The scan [for i ... if m.codeSegment(i) ...] for any opcode of [ops]. *)
Fixpoint scan_ops (ops : list Z) (m : bitvec) (i : nat) (rest : bytes) : result bool :=
  match rest with
  | [] => Ok false
  | b :: rest' =>
      seg ← codeSegment m i;
      if seg && existsb (fun c => byte_Z b =? c) ops then Ok true
      else scan_ops ops m (S i) rest'
  end.

Definition ContainsStatusCode (code : bytes) : result bool :=
  let code := if containsAuxCode code then take (length code - 43) code else code in
  m ← codeBitmap code;
  scan_ops statusCodeList m 0 code.

Definition auxCodePrefixWithFE : bytes := xfe :: auxCodePrefix.
Definition pushCheckCount : nat := 3.
Definition statusCodeListRequireSnapshot : list Z :=
  [HEIGHT; TIMESTAMP; DELEGATECALL; EXTCODESIZE; EXTCODECOPY].
Definition statusCodeListRequireSnapshotWithSeed : list Z := [SEED; RANDOM].

(** bytes.Index *)
Fixpoint bytes_Index (s sep : bytes) : option nat :=
  if bool_decide (take (length sep) s = sep) then Some 0%nat
  else match s with
       | [] => None
       | _ :: s' => S <$> bytes_Index s' sep
       end.

(** The inner [for i < pushCheckCount]: is one of the positions push data? *)
Fixpoint any_data (m : bitvec) (pos n : nat) : result bool :=
  match n with
  | O => Ok false
  | S n' => seg ← codeSegment m pos; if negb seg then Ok true else any_data m (S pos) n'
  end.

Fixpoint stripAux_loop (fuel : nat) (originM : bitvec) (code : bytes) (prevIndex : nat)
    (resultCode : bytes) : result bytes :=
  match fuel with
  | O => Ok resultCode
  | S f =>
      match bytes_Index code auxCodePrefixWithFE with
      | None => Ok (resultCode ++ code)
      | Some index =>
          if Z.of_nat (length code) - 44 <? Z.of_nat index then Ok (resultCode ++ code)
          else
            flag ← any_data originM (prevIndex + index) pushCheckCount;
            if flag : bool then
              let newIndex := (index + length auxCodePrefixWithFE)%nat in
              stripAux_loop f originM (drop newIndex code) (prevIndex + newIndex)
                            (resultCode ++ take newIndex code)
            else Ok (resultCode ++ take (index + 1) code)
      end
  end.

(** Each round drops at least ten bytes, so [length code + 1] rounds suffice. *)
Definition getCodeWithoutAuxCodeAndParams (code : bytes) : result bytes :=
  originM ← codeBitmap code;
  stripAux_loop (length code + 1) originM code 0 [].

(** The scan of [ContainsCertainStatusCode] with its early returns. *)
Fixpoint scan_status (m : bitvec) (rs rss : bool) (i : nat) (rest : bytes) : result (bool * bool) :=
  match rest with
  | [] => Ok (rs, rss)
  | b :: rest' =>
      seg ← codeSegment m i;
      if seg : bool then
        let rs := rs || existsb (fun c => byte_Z b =? c) statusCodeListRequireSnapshot in
        let hit1 := existsb (fun c => byte_Z b =? c) statusCodeListRequireSnapshot in
        if hit1 && rss then Ok (rs, rss)
        else
          let hit2 := existsb (fun c => byte_Z b =? c) statusCodeListRequireSnapshotWithSeed in
          let rss := rss || hit2 in
          if hit2 && rs then Ok (rs, rss) else scan_status m rs rss (S i) rest'
      else scan_status m rs rss (S i) rest'
  end.

Definition ContainsCertainStatusCode (code : bytes) : result (bool * bool) :=
  match code with
  | [] => Ok (false, false)
  | _ =>
      resultCode ← getCodeWithoutAuxCodeAndParams code;
      m ← codeBitmap resultCode;
      scan_status m false false 0 resultCode
  end.

(** ** Bits of a bitmap *)

Definition bit (bits : bitvec) (pos : nat) : bool :=
  match bits !! (pos / 8)%nat with
  | Some b => Z.testbit (byte_Z b) (7 - Z.of_nat (pos mod 8))
  | None => false
  end.

Lemma land_pow2_eqb x n : 0 <= n -> (Z.land x (2 ^ n) =? 0) = negb (Z.testbit x n).
Proof.
  intros Hn; destruct (Z.testbit x n) eqn:E; simpl.
  - apply Z.eqb_neq; intros H; apply (f_equal (fun z => Z.testbit z n)) in H.
    rewrite Z.land_spec, E, Z.pow2_bits_true, Z.bits_0 in H by done; done.
  - apply Z.eqb_eq, Z.bits_inj'; intros m Hm.
    rewrite Z.land_spec, Z.pow2_bits_eqb, Z.bits_0 by done.
    destruct (Z.eqb_spec n m) as [<-|]; [rewrite E; done|apply andb_false_r].
Qed.

Lemma mod8_lt n : (n mod 8 < 8)%nat.
Proof. apply Nat.mod_upper_bound; lia. Qed.

Lemma shiftr_128 k : (k < 8)%nat -> Z.shiftr 0x80 (Z.of_nat k) = 2 ^ (7 - Z.of_nat k).
Proof. intros H; do 8 (destruct k as [|k]; [done|]); lia. Qed.

Lemma codeSegment_bit bits pos :
  (pos / 8 < length bits)%nat -> codeSegment bits pos = Ok (negb (bit bits pos)).
Proof.
  intros [b Hb]%lookup_lt_is_Some; unfold codeSegment, bit; rewrite Hb.
  pose proof (mod8_lt pos); rewrite shiftr_128, land_pow2_eqb by lia; done.
Qed.

Lemma or_at_spec bits i m :
  (i < length bits)%nat ->
  exists bits', or_at bits i m = Ok bits' /\ length bits' = length bits /\
    forall q, bit bits' q =
      bit bits q || ((q / 8 =? i)%nat && Z.testbit m (7 - Z.of_nat (q mod 8))).
Proof.
  intros Hi; destruct (lookup_lt_is_Some_2 _ _ Hi) as [b Hb].
  unfold or_at; rewrite Hb; eexists; split; [done|].
  split; [apply length_insert|]; intros q; unfold bit.
  destruct (Nat.eqb_spec (q / 8) i) as [<-|Hne]; cbn [andb].
  - rewrite list_lookup_insert_eq, Hb, byte_Z_byte by done.
    change 256 with (2 ^ 8); pose proof (mod8_lt q).
    rewrite Z.mod_pow2_bits_low, Z.lor_spec by lia; done.
  - rewrite list_lookup_insert_ne, orb_false_r by done; done.
Qed.

Lemma bitvec_set_spec bits pos :
  (pos / 8 < length bits)%nat ->
  exists bits', bitvec_set bits pos = Ok bits' /\ length bits' = length bits /\
    forall q, bit bits' q = bit bits q || (q =? pos)%nat.
Proof.
  intros H; unfold bitvec_set.
  destruct (or_at_spec bits (pos / 8) (Z.shiftr 0x80 (Z.of_nat (pos mod 8))) H)
    as (bits' & -> & Hl & Hb).
  exists bits'; split; [done|]; split; [done|]; intros q; rewrite Hb; f_equal.
  pose proof (mod8_lt pos); pose proof (mod8_lt q).
  rewrite shiftr_128, Z.pow2_bits_eqb by lia.
  pose proof (Nat.div_mod_eq pos 8); pose proof (Nat.div_mod_eq q 8).
  destruct (Nat.eqb_spec (q / 8) (pos / 8)), (Nat.eqb_spec q pos); cbn [andb]; subst; lia.
Qed.

Lemma mask8 k j :
  (k < 8)%nat -> (j < 8)%nat ->
  Z.testbit (Z.shiftr 0xff (Z.of_nat k)) (7 - Z.of_nat j) = (k <=? j)%nat /\
  Z.testbit (0xff - Z.shiftr 0xff (Z.of_nat k)) (7 - Z.of_nat j) = (j <? k)%nat.
Proof.
  intros Hk Hj; do 8 (destruct k as [|k]; [do 8 (destruct j as [|j]; [split; reflexivity|]); lia|]); lia.
Qed.

Lemma bitvec_set8_spec bits pos :
  (pos / 8 + 1 < length bits)%nat ->
  exists bits', bitvec_set8 bits pos = Ok bits' /\ length bits' = length bits /\
    forall q, bit bits' q = bit bits q || ((pos <=? q)%nat && (q <? pos + 8)%nat).
Proof.
  intros H; unfold bitvec_set8; set (k := (pos mod 8)%nat).
  destruct (or_at_spec bits (pos / 8) (Z.shiftr 0xff (Z.of_nat k)) ltac:(lia))
    as (b1 & -> & Hl1 & Hb1); rewrite bind_Ok.
  destruct (or_at_spec b1 (pos / 8 + 1) (0xff - Z.shiftr 0xff (Z.of_nat k)) ltac:(lia))
    as (b2 & -> & Hl2 & Hb2).
  exists b2; split; [done|]; split; [lia|]; intros q; rewrite Hb2, Hb1, <- orb_assoc; f_equal.
  pose proof (mod8_lt pos); pose proof (mod8_lt q).
  destruct (mask8 k (q mod 8)) as [-> ->]; [done..|].
  pose proof (Nat.div_mod_eq pos 8); pose proof (Nat.div_mod_eq q 8); subst k.
  destruct (Nat.eqb_spec (q / 8) (pos / 8)), (Nat.eqb_spec (q / 8) (pos / 8 + 1));
    cbn [andb orb]; rewrite ?orb_false_r;
    destruct (Nat.leb_spec pos q), (Nat.ltb_spec q (pos + 8)); cbn [andb]; lia.
Qed.

Lemma set_each_spec n bits pc :
  ((pc + n) / 8 < length bits)%nat ->
  exists bits', set_each n bits pc = Ok (bits', (pc + n)%nat) /\ length bits' = length bits /\
    forall q, bit bits' q = bit bits q || ((pc <=? q)%nat && (q <? pc + n)%nat).
Proof.
  revert bits pc; induction n as [|n IH]; intros bits pc H; simpl.
  - exists bits; rewrite Nat.add_0_r; split; [done|]; split; [done|]; intros q.
    destruct (Nat.leb_spec pc q), (Nat.ltb_spec q pc), (bit bits q); done || lia.
  - assert (pc / 8 <= (pc + S n) / 8)%nat by (apply Nat.Div0.div_le_mono; lia).
    destruct (bitvec_set_spec bits pc) as (b1 & -> & Hl1 & Hb1); [lia|]; rewrite bind_Ok.
    destruct (IH b1 (S pc)) as (b2 & -> & Hl2 & Hb2).
    { rewrite Hl1; replace (S pc + n)%nat with (pc + S n)%nat by lia; done. }
    exists b2; split; [do 2 f_equal; lia|]; split; [lia|]; intros q.
    rewrite Hb2, Hb1, <- orb_assoc; f_equal; lia.
Qed.

Lemma set_push_fuel_spec fuel n bits pc :
  ((pc + n) / 8 < length bits)%nat ->
  exists bits', set_push_fuel fuel n bits pc = Ok (bits', (pc + n)%nat) /\
    length bits' = length bits /\
    forall q, bit bits' q = bit bits q || ((pc <=? q)%nat && (q <? pc + n)%nat).
Proof.
  revert n bits pc; induction fuel as [|fuel IH]; intros n bits pc H;
    cbn [set_push_fuel]; [by apply set_each_spec|].
  destruct (Nat.leb_spec 8 n) as [H8|]; [|by apply set_each_spec].
  assert (pc / 8 + 1 <= (pc + n) / 8)%nat.
  { rewrite <- Nat.div_add by lia; apply Nat.Div0.div_le_mono; lia. }
  destruct (bitvec_set8_spec bits pc) as (b1 & -> & Hl1 & Hb1); [lia|]; rewrite bind_Ok.
  destruct (IH (n - 8)%nat b1 (pc + 8)%nat) as (b2 & -> & Hl2 & Hb2).
  { rewrite Hl1; replace (pc + 8 + (n - 8))%nat with (pc + n)%nat by lia; done. }
  exists b2; split; [do 2 f_equal; lia|]; split; [lia|]; intros q.
  rewrite Hb2, Hb1, <- orb_assoc; f_equal; lia.
Qed.

(** ** Instruction boundaries *)

(** The opcode at a position; 0 behind the end of the code. *)
Definition code_op (code : bytes) (pc : nat) : Z :=
  match code !! pc with Some b => byte_Z b | None => 0 end.

Lemma op_at_in code pc : (pc < length code)%nat -> op_at code pc = Ok (code_op code pc).
Proof. intros H; unfold op_at, code_op; by destruct (lookup_lt_is_Some_2 code pc H) as [b ->]. Qed.

(** The number of immediate bytes of an opcode. *)
Definition push_size (op : Z) : nat :=
  if (PUSH1 <=? op) && (op <=? PUSH32) then Z.to_nat (op - PUSH1 + 1) else 0%nat.

(** The positions at which an instruction starts, when the code is read from
    position 0 and push data is skipped. *)
Inductive code_start (code : bytes) : nat -> Prop :=
| start_first : code_start code 0
| start_next pc :
    code_start code pc -> (pc < length code)%nat ->
    code_start code (S pc + push_size (code_op code pc)).

Lemma push_size_le code pc : (push_size (code_op code pc) <= 32)%nat.
Proof.
  unfold push_size; destruct ((PUSH1 <=? code_op code pc) && _) eqn:E; [|lia].
  unfold PUSH1, PUSH32 in *; lia.
Qed.

(** Instructions do not overlap: no instruction starts inside another. *)
Lemma code_start_gap code p q :
  code_start code p -> code_start code q -> (p < q)%nat -> (p < length code)%nat ->
  (S p + push_size (code_op code p) <= q)%nat.
Proof.
  remember (p + q)%nat as n eqn:En; revert p q En.
  induction (lt_wf n) as [n _ IH]; intros p q -> Hp Hq Hlt Hpl.
  destruct Hq as [|q Hq Hlen]; [lia|].
  destruct (Nat.lt_trichotomy p q) as [H|[->|H]]; [|lia|].
  - specialize (IH (p + q)%nat ltac:(lia) p q eq_refl Hp Hq H Hpl); lia.
  - specialize (IH (q + p)%nat ltac:(lia) q p eq_refl Hq Hp H Hlen); lia.
Qed.

Lemma bit_zero_bytes n q : bit (zero_bytes n) q = false.
Proof.
  unfold bit, zero_bytes; destruct (replicate n x00 !! (q / 8)%nat) as [b|] eqn:E; [|done].
  apply lookup_replicate in E as [-> _]; apply Z.bits_0.
Qed.

(** The bitmap while the loop of [codeBitmap] is at [pc]: exact before [pc],
    clear from [pc] on. *)
Record bitmap_inv (code : bytes) (bits : bitvec) (pc : nat) : Prop := {
  bi_start : code_start code pc;
  bi_length : length bits = (length code / 8 + 1 + 4)%nat;
  bi_before : forall q, (q < pc)%nat -> bit bits q = false <-> code_start code q;
  bi_after : forall q, (pc <= q)%nat -> bit bits q = false;
}.

Lemma bitmap_inv_skip code bits pc n bits' :
  bitmap_inv code bits pc -> (pc < length code)%nat -> push_size (code_op code pc) = n ->
  length bits' = length bits ->
  (forall q, bit bits' q = bit bits q || ((S pc <=? q)%nat && (q <? S pc + n)%nat)) ->
  bitmap_inv code bits' (S pc + n).
Proof.
  intros [Hs Hl Hb Ha] Hpc <- Hl' Hbit; split; [by apply start_next|lia| |].
  - intros q Hq; rewrite Hbit; destruct (Nat.lt_trichotomy q pc) as [H|[->|H]].
    + replace ((S pc <=? q)%nat) with false by lia; cbn [andb]; rewrite orb_false_r; auto.
    + replace ((S pc <=? pc)%nat) with false by lia; cbn [andb]; rewrite orb_false_r.
      split; intros; [done|by apply Ha].
    + replace ((S pc <=? q)%nat && _) with true by lia; rewrite orb_true_r.
      split; [done|]; intros Hq'; pose proof (code_start_gap code pc q); lia || naive_solver lia.
  - intros q Hq; rewrite Hbit, Ha by lia.
    replace (q <? _)%nat with false by lia; apply andb_false_r.
Qed.

Lemma codeBitmap_loop_spec fuel code bits pc :
  bitmap_inv code bits pc -> (length code <= pc + fuel)%nat ->
  exists bits' pc', codeBitmap_loop fuel code bits pc = Ok bits' /\
    bitmap_inv code bits' pc' /\ (length code <= pc')%nat.
Proof.
  revert bits pc; induction fuel as [|fuel IH]; intros bits pc Hinv Hf; cbn [codeBitmap_loop].
  { exists bits, pc; split_and!; [done..|lia]. }
  destruct (Nat.ltb_spec pc (length code)) as [Hpc|]; [|by exists bits, pc].
  rewrite op_at_in, bind_Ok by done.
  pose proof (push_size_le code pc) as Hle.
  pose proof (bitmap_inv_skip code bits pc) as Hskip; unfold push_size in Hskip, Hle.
  destruct ((PUSH1 <=? code_op code pc) && _).
  - set (n := Z.to_nat (code_op code pc - PUSH1 + 1)) in *.
    destruct (set_push_fuel_spec n n bits (S pc)) as (b1 & E & Hl1 & Hb1).
    { pose proof (Nat.Div0.div_le_mono (S pc + n) (length code + 4 * 8) 8 ltac:(lia)) as H.
      rewrite Nat.div_add in H by lia; destruct Hinv; lia. }
    unfold set_push; rewrite E, bind_Ok; apply IH; [by apply (Hskip n)|lia].
  - specialize (Hskip 0%nat bits Hinv Hpc eq_refl eq_refl).
    rewrite Nat.add_0_r in Hskip; apply IH; [apply Hskip|lia].
    intros q; destruct (bit bits q); [done|]; cbn [orb]; lia.
Qed.

Lemma codeBitmap_spec code :
  exists bits, codeBitmap code = Ok bits /\ length bits = (length code / 8 + 1 + 4)%nat /\
    forall q, (q < length code)%nat -> bit bits q = false <-> code_start code q.
Proof.
  destruct (codeBitmap_loop_spec (length code) code (zero_bytes (length code / 8 + 1 + 4)) 0)
    as (bits & pc & E & [_ Hl Hb _] & ?).
  - split; [constructor|apply length_replicate|lia|intros; apply bit_zero_bytes].
  - lia.
  - exists bits; split_and!; [done..|]; intros q Hq; exact (Hb q ltac:(lia)).
Qed.

Lemma codeBitmap_segment code bits pos :
  codeBitmap code = Ok bits -> (pos < length code)%nat ->
  exists b, codeSegment bits pos = Ok b /\ (b = true <-> code_start code pos).
Proof.
  intros E Hp; destruct (codeBitmap_spec code) as (bits' & E' & Hl & Hb).
  rewrite E in E'; injection E' as <-.
  exists (negb (bit bits pos)); split; [|rewrite negb_true_iff; exact (Hb pos Hp)].
  apply codeSegment_bit; rewrite Hl.
  pose proof (Nat.Div0.div_le_mono pos (length code) 8); lia.
Qed.

(** The memoised bitmap of an address is the bitmap of its code. *)
Definition cache_ok (d : destinations) (addr : Address) (code : bytes) : Prop :=
  forall m, d !! addr = Some m -> codeBitmap code = Ok m.

Lemma has_spec d addr code dest :
  cache_ok d addr code -> 0 <= dest -> len code < 2 ^ 62 ->
  exists b d', has d addr code dest = Ok (b, d') /\ cache_ok d' addr code /\
    (b = true <-> dest < len code /\ code_op code (Z.to_nat dest) = JUMPDEST /\
                  code_start code (Z.to_nat dest)).
Proof.
  intros Hc H0 Hlen; unfold has, len in *.
  destruct (Z.leb_spec 63 (BitLen dest)) as [Hb|Hb].
  { pose proof (BitLen_gt dest 62 ltac:(lia)); exists false, d; split_and!; [done..|]; split; [done|lia]. }
  assert (Hd : dest < 2 ^ 64).
  { pose proof (BitLen_bounds dest); destruct (decide (dest < 2 ^ 64)); [done|].
    pose proof (BitLen_gt dest 64 ltac:(lia)); lia. }
  unfold Uint64; rewrite Z.abs_eq, u64_small by (unfold is_u64; lia).
  destruct (Z.leb_spec (Z.of_nat (length code)) dest) as [Hl|Hl]; cbn [orb].
  { exists false, d; split_and!; [done..|]; split; [done|lia]. }
  assert (exists m d', match d !! addr with
                       | Some m => Ok (m, d)
                       | None => m ← codeBitmap code; Ok (m, <[addr := m]> d)
                       end = (Ok (m, d') : result _) /\
          codeBitmap code = Ok m /\ cache_ok d' addr code) as (m & d' & -> & Hm & Hc').
  { destruct (d !! addr) as [m|] eqn:E; [exists m, d; auto|].
    destruct (codeBitmap_spec code) as (m & Em & _); exists m, (<[addr := m]> d).
    rewrite Em, bind_Ok; split_and!; [done..|]; intros m'; rewrite lookup_insert_eq; naive_solver. }
  rewrite bind_Ok; cbv beta iota.
  rewrite op_at_in, bind_Ok by lia.
  destruct (Z.eqb_spec (code_op code (Z.to_nat dest)) JUMPDEST); [|exists false, d'; naive_solver].
  destruct (codeBitmap_segment code m (Z.to_nat dest) Hm) as (b & -> & Hb'); [lia|].
  exists b, d'; split; [done|]; naive_solver.
Qed.

(** ** The static scans *)

(** An instruction at or after [i] whose opcode is one of [ops]. *)
Definition reads_from (i : nat) (code : bytes) (ops : list Z) : Prop :=
  exists p, (i <= p < length code)%nat /\ code_start code p /\ code_op code p ∈ ops.

Lemma existsb_op b ops : existsb (fun c => byte_Z b =? c) ops = true <-> byte_Z b ∈ ops.
Proof.
  rewrite existsb_exists; split.
  - intros (c & Hc & ->%Z.eqb_eq); by apply list_elem_of_In.
  - intros H; exists (byte_Z b); split; [by apply list_elem_of_In|lia].
Qed.

Lemma reads_from_cons i code ops b rest :
  drop i code = b :: rest ->
  reads_from i code ops <->
  (code_start code i /\ byte_Z b ∈ ops) \/ reads_from (S i) code ops.
Proof.
  intros E; assert (Hb : code !! i = Some b).
  { rewrite <- (Nat.add_0_r i), <- lookup_drop, E; done. }
  pose proof (lookup_lt_Some _ _ _ Hb).
  assert (Hop : code_op code i = byte_Z b) by (unfold code_op; rewrite Hb; done).
  split.
  - intros (p & Hp & Hs & Ho); destruct (decide (p = i)) as [->|]; [left|right].
    + rewrite Hop in Ho; done.
    + exists p; split; [lia|done].
  - intros [[Hs Ho]|(p & Hp & Hs & Ho)]; [exists i|exists p]; (split; [lia|]);
      rewrite ?Hop; done.
Qed.

Lemma reads_from_nil i code ops : drop i code = [] -> ~ reads_from i code ops.
Proof.
  intros E (p & Hp & _); apply (f_equal length) in E; rewrite length_drop in E; simpl in E; lia.
Qed.

Lemma drop_cons_inv i (code : bytes) b rest :
  drop i code = b :: rest -> drop (S i) code = rest /\ (i < length code)%nat.
Proof.
  intros E; split; [by rewrite <- Nat.add_1_r, <- drop_drop, E|].
  apply (f_equal length) in E; rewrite length_drop in E; simpl in E; lia.
Qed.

Lemma scan_ops_spec ops code m rest i :
  codeBitmap code = Ok m -> drop i code = rest ->
  exists b, scan_ops ops m i rest = Ok b /\ (b = true <-> reads_from i code ops).
Proof.
  intros Hm; revert i; induction rest as [|b rest IH]; intros i E; cbn [scan_ops].
  { exists false; split; [done|]; pose proof (reads_from_nil i code ops E); naive_solver. }
  destruct (drop_cons_inv _ _ _ _ E) as [E' Hi].
  destruct (codeBitmap_segment code m i Hm Hi) as (seg & -> & Hseg); rewrite bind_Ok.
  destruct (IH (S i) E') as (r & Hr & Hiff).
  pose proof (reads_from_cons i code ops b rest E); pose proof (existsb_op b ops).
  destruct seg, (existsb (fun c => byte_Z b =? c) ops); cbn [andb];
    [exists true|exists r..]; naive_solver.
Qed.

Lemma scan_status_spec code m rest i rs rss :
  codeBitmap code = Ok m -> drop i code = rest ->
  exists a b, scan_status m rs rss i rest = Ok (a, b) /\
    (a = true <-> rs = true \/ reads_from i code statusCodeListRequireSnapshot) /\
    (b = true <-> rss = true \/ reads_from i code statusCodeListRequireSnapshotWithSeed).
Proof.
  intros Hm; revert i rs rss; induction rest as [|b rest IH]; intros i rs rss E; cbn [scan_status].
  { exists rs, rss; pose proof (fun ops => reads_from_nil i code ops E); naive_solver. }
  destruct (drop_cons_inv _ _ _ _ E) as [E' Hi].
  destruct (codeBitmap_segment code m i Hm Hi) as (seg & -> & Hseg); rewrite bind_Ok.
  pose proof (reads_from_cons i code statusCodeListRequireSnapshot b rest E) as R1.
  pose proof (reads_from_cons i code statusCodeListRequireSnapshotWithSeed b rest E) as R2.
  rewrite <- existsb_op in R1, R2.
  destruct seg; [|destruct (IH (S i) rs rss E') as (x & y & -> & ? & ?);
                  exists x, y; naive_solver].
  destruct (existsb _ statusCodeListRequireSnapshot), rss,
    (existsb _ statusCodeListRequireSnapshotWithSeed), rs; cbn [andb orb];
    first [ eexists _, _; split; [reflexivity|naive_solver]
          | edestruct IH as (x & y & -> & ? & ?); [exact E'|]; exists x, y; naive_solver ].
Qed.

Lemma bytes_Index_Some s sep i :
  bytes_Index s sep = Some i -> take (length sep) (drop i s) = sep.
Proof.
  revert i; induction s as [|b s IH]; intros i; cbn [bytes_Index];
    (case_bool_decide as E; [intros [= <-]; by rewrite drop_0|]); [done|].
  destruct (bytes_Index s sep) as [k|]; [|done]; intros [= <-]; cbn [drop]; by apply IH.
Qed.

Lemma any_data_spec code m pos n :
  codeBitmap code = Ok m -> (pos + n <= length code)%nat ->
  exists b, any_data m pos n = Ok b /\
    (b = false -> forall k, (pos <= k < pos + n)%nat -> code_start code k).
Proof.
  intros Hm; revert pos; induction n as [|n IH]; intros pos Hl; cbn [any_data].
  { exists false; split; [done|lia]. }
  destruct (codeBitmap_segment code m pos Hm) as (seg & -> & Hs); [lia|]; rewrite bind_Ok.
  destruct seg; cbn [negb]; [|exists true; split; [done|intros [=]]].
  destruct (IH (S pos)) as (b & -> & Hb); [lia|]; exists b; split; [done|].
  intros -> k Hk; destruct (decide (k = pos)) as [->|]; [by apply Hs|apply Hb; [done|lia]].
Qed.

(** Compiler metadata at [k]: the tag, not inside push data, with room for the
    rest of the metadata after it. *)
Definition metadata_at (code : bytes) (k : nat) : Prop :=
  (k + 44 <= length code)%nat /\ take 10 (drop k code) = auxCodePrefixWithFE /\
  forall j, (k <= j < k + 3)%nat -> code_start code j.

Lemma stripAux_loop_spec orig m fuel code prev res :
  codeBitmap orig = Ok m -> orig = res ++ code -> prev = length res -> (length code < fuel)%nat ->
  exists n, stripAux_loop fuel m code prev res = Ok (take n orig) /\
    (n = length orig \/ exists k, n = S k /\ metadata_at orig k).
Proof.
  intros Hm; revert code prev res; induction fuel as [|fuel IH]; intros code prev res -> -> Hf;
    [lia|cbn [stripAux_loop]].
  assert (Hall : exists n, Ok (res ++ code) = (Ok (take n (res ++ code)) : result bytes) /\
    (n = length (res ++ code) \/ exists k, n = S k /\ metadata_at (res ++ code) k)).
  { exists (length (res ++ code)); rewrite firstn_all; auto. }
  destruct (bytes_Index code auxCodePrefixWithFE) as [index|] eqn:Ei; [|done].
  apply bytes_Index_Some in Ei.
  destruct (Z.ltb_spec (Z.of_nat (length code) - 44) (Z.of_nat index)) as [|Hroom]; [done|].
  destruct (any_data_spec (res ++ code) m (length res + index) pushCheckCount Hm)
    as (flag & -> & Hflag); [rewrite length_app; unfold pushCheckCount; lia|].
  rewrite bind_Ok; cbv zeta; destruct flag.
  - apply IH.
    + by rewrite <- app_assoc, take_drop.
    + rewrite length_app, length_take; cbn [length auxCodePrefixWithFE auxCodePrefix]; lia.
    + rewrite length_drop; cbn [length auxCodePrefixWithFE auxCodePrefix]; lia.
  - exists (length res + (index + 1))%nat; split; [by rewrite take_app_add|].
    right; exists (length res + index)%nat; split; [lia|]; split; [rewrite length_app; lia|].
    split; [rewrite drop_app_add; exact Ei|]; by apply Hflag.
Qed.

Lemma getCodeWithoutAuxCodeAndParams_spec code :
  exists n, getCodeWithoutAuxCodeAndParams code = Ok (take n code) /\
    (n = length code \/ exists k, n = S k /\ metadata_at code k).
Proof.
  unfold getCodeWithoutAuxCodeAndParams; destruct (codeBitmap_spec code) as (m & Hm & _).
  rewrite Hm, bind_Ok; apply stripAux_loop_spec; done || lia.
Qed.

(** [codeBitmap] never panics, and a position of the code is a code segment
    of the bitmap exactly when an instruction starts there: the byte-wise
    marking of push data agrees with reading the code one instruction at a
    time. *)
Theorem codeBitmap_exact code :
  exists bits, codeBitmap code = Ok bits /\
    forall pos, (pos < length code)%nat ->
      exists b, codeSegment bits pos = Ok b /\ (b = true <-> code_start code pos).
Proof.
  destruct (codeBitmap_spec code) as (bits & E & _); exists bits; split; [done|].
  intros pos; by apply codeBitmap_segment.
Qed.

(** C33 The jump test never panics, keeps the memoised bitmaps right, and
    accepts exactly the in-range destinations that hold a JUMPDEST at an
    instruction boundary. *)
Theorem has_exact d addr code dest :
  cache_ok d addr code -> 0 <= dest -> len code < 2 ^ 62 ->
  exists b d', has d addr code dest = Ok (b, d') /\ cache_ok d' addr code /\
    (b = true <-> dest < len code /\ code_op code (Z.to_nat dest) = JUMPDEST /\
                  code_start code (Z.to_nat dest)).
Proof. apply has_spec. Qed.

Lemma has_exact_witness :
  exists b d', has ∅ [] [x60; x5b; x5b] 2 = Ok (b, d') /\ cache_ok d' [] [x60; x5b; x5b] /\
    (b = true <-> 2 < len [x60; x5b; x5b] /\ code_op [x60; x5b; x5b] (Z.to_nat 2) = JUMPDEST /\
                  code_start [x60; x5b; x5b] (Z.to_nat 2)).
Proof.
  apply (has_exact ∅ [] [x60; x5b; x5b] 2); [|lia|vm_compute; done].
  intros m Hm; rewrite lookup_empty in Hm; discriminate Hm.
Defined.

(** The scan for snapshot-dependent opcodes never panics. It looks at the
    whole code, or at the code up to the first compiler metadata that is not
    push data, and its two flags say exactly whether an instruction there reads
    the snapshot chain, respectively the random seed. *)
Theorem ContainsCertainStatusCode_exact code :
  exists n a b, ContainsCertainStatusCode code = Ok (a, b) /\
    (n = length code \/ exists k, n = S k /\ metadata_at code k) /\
    (a = true <-> reads_from 0 (take n code) statusCodeListRequireSnapshot) /\
    (b = true <-> reads_from 0 (take n code) statusCodeListRequireSnapshotWithSeed).
Proof.
  destruct (getCodeWithoutAuxCodeAndParams_spec code) as (n & E & Hn); exists n.
  destruct (codeBitmap_spec (take n code)) as (m & Hm & _).
  destruct (scan_status_spec (take n code) m (take n code) 0 false false Hm eq_refl)
    as (a & b & Es & Ha & Hb).
  assert (code = [] \/ ContainsCertainStatusCode code = Ok (a, b)) as [->|Ec].
  { destruct code; [by left|right]; unfold ContainsCertainStatusCode.
    rewrite E, bind_Ok, Hm, bind_Ok; exact Es. }
  - exists false, false; unfold reads_from; rewrite take_nil; split_and!; [done..| |];
      split; [done|intros (p & Hp & _); simpl in Hp; lia|done|intros (p & Hp & _); simpl in Hp; lia].
  - exists a, b; naive_solver.
Qed.
