(* ===== verification/Machine.v ===== *)
(** vm/stack.go, vm/stack_table.go, vm/memory.go, vm/memory_table.go,
    vm/contract.go: the state one contract run works on.

    A [*big.Int] on the stack is its value: the integer pool that recycles
    them is not part of the state. *)
From S2P Require Import Prelude Helper Types Upgrade QuotaTable VmDb Builtin Destination.

(** ** Stack (stack.go), the top first *)

Definition stackLimit : Z := 1024.

Abbreviation stack := (list Z).

Definition stack_len (st : stack) : Z := Z.of_nat (length st).

Definition push (st : stack) (d : Z) : stack := d :: st.

Definition pop (st : stack) : result (Z * stack) :=
  match st with x :: st' => Ok (x, st') | [] => Panic PIndex end.

Definition back (st : stack) (n : nat) : result Z := or_panic PIndex (st !! n).

Definition peek (st : stack) : result Z := back st 0.

(** [data[len-n]]: out of range for [n = 0] as well. *)
Definition dup (st : stack) (n : nat) : result stack :=
  match n with
  | O => Panic PIndex
  | S m => x ← back st m; Ok (push st x)
  end.

Definition swap (st : stack) (n : nat) : result stack :=
  match n with
  | O => Panic PIndex
  | S m => x ← back st 0; y ← back st m; Ok (<[0%nat := y]> (<[m := x]> st))
  end.

Definition require (st : stack) (n : Z) : result unit :=
  if stack_len st <? n then Err ErrStackUnderflow else Ok tt.

(** ** Stack validation (stack_table.go) *)

Definition makeStackFunc (pop push : Z) (st : stack) : result unit :=
  _ ← require st pop;
  if stackLimit <? stack_len st + push - pop then Err ErrStackLimitReached else Ok tt.

Definition makeDupStackFunc (n : Z) : stack -> result unit := makeStackFunc n (n + 1).
Definition makeSwapStackFunc (n : Z) : stack -> result unit := makeStackFunc n n.

(** ** Memory (memory.go) *)

(** [mem_cap] is the capacity of the backing slice: Go slices may reach beyond
    the length up to the capacity, where the bytes are still zero. *)
Record memory := mkMemory {
  store : bytes;
  mem_cap : Z;
  lastGasCost : Z;
}.

Definition newMemory : memory := mkMemory [] 0 0.

Definition mem_len (m : memory) : Z := len (store m).

Definition with_store (m : memory) (s : bytes) : memory := mkMemory s (mem_cap m) (lastGasCost m).
Definition with_lastGasCost (m : memory) (c : Z) : memory := mkMemory (store m) (mem_cap m) c.

(** [grow] is the runtime's choice of a new capacity, from the old capacity
    and the length needed; it is consulted when the old one is exceeded. *)
Definition resize (grow : Z -> Z -> Z) (m : memory) (size : Z) : memory :=
  if mem_len m <? size then
    mkMemory (store m ++ zero_bytes (Z.to_nat (size - mem_len m)))
             (if size <=? mem_cap m then mem_cap m else grow (mem_cap m) size)
             (lastGasCost m)
  else m.

(** [m.store[lo:hi]] for signed bounds. *)
Definition mem_slice (m : memory) (lo hi : Z) : result bytes :=
  if (lo <? 0) || (hi <? lo) || (mem_cap m <? hi) then Panic PSlice
  else Ok (RightPadBytes (subslice (store m) lo hi) (hi - lo)).

Definition mem_get (m : memory) (offset size : Z) : result bytes :=
  if size =? 0 then Ok []
  else if offset <? mem_len m then mem_slice m offset (i64 (offset + size))
  else Ok [].

Definition mem_getPtr (m : memory) (offset size : Z) : result bytes :=
  if size =? 0 then Ok []
  else if offset <? mem_len m then mem_slice m offset (i64 (offset + size))
  else Ok [].

(** [copy(m.store[lo:hi], value)], for a range inside the store. *)
Definition write_at (s : bytes) (lo : Z) (value : bytes) : bytes :=
  take (Z.to_nat lo) s ++ value ++ drop (Z.to_nat lo + length value) s.

Definition mem_set (m : memory) (offset size : Z) (value : bytes) : result memory :=
  if 0 <? size then
    if mem_len m <? u64 (offset + size) then Panic PStoreEmpty
    else if u64 (offset + size) <? offset then Panic PSlice
    else Ok (with_store m (write_at (store m) offset (take (Z.to_nat size) value)))
  else Ok m.

Definition mem_set32 (m : memory) (offset val : Z) : result memory :=
  if mem_len m <? u64 (offset + 32) then Panic PStoreEmpty
  else if u64 (offset + 32) <? offset then Panic PSlice
  else Ok (with_store m (write_at (store m) offset (ReadBits val (zero_bytes 32)))).

(** [mem.store[off] = b] with a signed index. *)
Definition mem_set_byte (m : memory) (off : Z) (b : byte) : result memory :=
  if (off <? 0) || (mem_len m <=? off) then Panic PIndex
  else Ok (with_store m (<[Z.to_nat off := b]> (store m))).

(** ** Memory sizes (memory_table.go) *)

Definition calcMemSize (off l : Z) : Z := if l =? 0 then 0 else off + l.

Definition mem_size_at (i j : nat) (st : stack) : result Z :=
  off ← back st i; l ← back st j; Ok (calcMemSize off l).

Definition memorySha3 := mem_size_at 0 1.
Definition memoryBlake2b := mem_size_at 0 1.
Definition memoryCallDataCopy := mem_size_at 0 2.
Definition memoryCodeCopy := mem_size_at 0 2.
Definition memoryExtCodeCopy := mem_size_at 1 3.
Definition memoryReturnDataCopy := mem_size_at 0 2.
Definition memoryMLoad (st : stack) : result Z := off ← back st 0; Ok (calcMemSize off 32).
Definition memoryMStore (st : stack) : result Z := off ← back st 0; Ok (calcMemSize off 32).
Definition memoryMStore8 (st : stack) : result Z := off ← back st 0; Ok (calcMemSize off 1).
Definition memoryLog (st : stack) : result Z :=
  mSize ← back st 1; mStart ← back st 0; Ok (calcMemSize mStart mSize).
Definition memoryDelegateCall (st : stack) : result Z :=
  x ← mem_size_at 3 4 st; y ← mem_size_at 1 2 st; Ok (BigMax x y).
Definition memoryCall := mem_size_at 3 4.
Definition memoryReturn := mem_size_at 0 1.
Definition memoryRevert := mem_size_at 0 1.

(** ** The world a run sees *)

(** What stays fixed during one run: the fields of [VM] and [contract] that
    the interpreter only reads, and the code it calls outside this package.
    [abort k] is the value of the cancel flag at the [k]-th test of it. *)
Record env := mkEnv {
  upgrades : upgradeBox;
  gasTable : QuotaTable;
  latestSnapshotHeight : Z;
  globalStatus : option GlobalStatus;
  c_data : bytes;
  c_code : bytes;
  c_codeAddr : Address;
  c_block : AccountBlock;
  c_sendBlock : AccountBlock;
  abort : nat -> bool;
  (* golang.org/x/crypto, the Go runtime *)
  Keccak256 : bytes -> bytes;
  Hash256 : bytes -> bytes;
  grow : Z -> Z -> Z;
  (* the built-in contracts *)
  contracts : generation -> contractsMap;
}.

(** What a run changes: the local variables of [runLoop], the mutable fields of
    [contract] and the send list of [vmContext]. *)
Record mstate := mkState {
  pc : Z;
  st : stack;
  mem : memory;
  quotaLeft : Z;
  returnData : bytes;
  storageModified : gset Z;
  jumpdests : destinations;
  db : vmDb;
  sendBlockList : list AccountBlock;
  draws : nat;
}.

Definition with_pc (s : mstate) (v : Z) : mstate :=
  mkState v (st s) (mem s) (quotaLeft s) (returnData s) (storageModified s) (jumpdests s)
          (db s) (sendBlockList s) (draws s).
Definition with_st (s : mstate) (v : stack) : mstate :=
  mkState (pc s) v (mem s) (quotaLeft s) (returnData s) (storageModified s) (jumpdests s)
          (db s) (sendBlockList s) (draws s).
Definition with_mem (s : mstate) (v : memory) : mstate :=
  mkState (pc s) (st s) v (quotaLeft s) (returnData s) (storageModified s) (jumpdests s)
          (db s) (sendBlockList s) (draws s).
Definition with_quotaLeft (s : mstate) (v : Z) : mstate :=
  mkState (pc s) (st s) (mem s) v (returnData s) (storageModified s) (jumpdests s)
          (db s) (sendBlockList s) (draws s).
Definition with_returnData (s : mstate) (v : bytes) : mstate :=
  mkState (pc s) (st s) (mem s) (quotaLeft s) v (storageModified s) (jumpdests s)
          (db s) (sendBlockList s) (draws s).
Definition with_storageModified (s : mstate) (v : gset Z) : mstate :=
  mkState (pc s) (st s) (mem s) (quotaLeft s) (returnData s) v (jumpdests s)
          (db s) (sendBlockList s) (draws s).
Definition with_jumpdests (s : mstate) (v : destinations) : mstate :=
  mkState (pc s) (st s) (mem s) (quotaLeft s) (returnData s) (storageModified s) v
          (db s) (sendBlockList s) (draws s).
Definition with_db (s : mstate) (v : vmDb) : mstate :=
  mkState (pc s) (st s) (mem s) (quotaLeft s) (returnData s) (storageModified s) (jumpdests s)
          v (sendBlockList s) (draws s).
Definition with_sendBlockList (s : mstate) (v : list AccountBlock) : mstate :=
  mkState (pc s) (st s) (mem s) (quotaLeft s) (returnData s) (storageModified s) (jumpdests s)
          (db s) v (draws s).
Definition with_draws (s : mstate) (v : nat) : mstate :=
  mkState (pc s) (st s) (mem s) (quotaLeft s) (returnData s) (storageModified s) (jumpdests s)
          (db s) (sendBlockList s) v.

(** newContract followed by the initialisation in [runLoop]. *)
Definition newContract (quotaLeft : Z) (db : vmDb) (sends : list AccountBlock) : mstate :=
  mkState 0 [] newMemory quotaLeft [] ∅ ∅ db sends 0.

Definition getByte (e : env) (n : Z) : byte :=
  if n <? len (c_code e) then default x00 (c_code e !! Z.to_nat n) else x00.

Definition getOp (e : env) (n : Z) : Z := byte_Z (getByte e n).

Definition AppendBlock (s : mstate) (block : AccountBlock) : mstate :=
  with_sendBlockList s (sendBlockList s ++ [block]).
