(* ===== verification/Instructions.v ===== *)
(** vm/instructions.go: what each instruction does to the machine.

    An execution function returns the result slice and the new state; the
    logging of the debug mode is left out.  An instruction that fails leaves a
    state nobody reads again, so only the error is kept. *)
From S2P Require Import Prelude Helper Types Upgrade QuotaTable VmDb Builtin AccountBlock.
From S2P Require Import Destination Machine.

Definition executionFunc := env -> mstate -> result (bytes * mstate).

(** Return no data and the given stack. *)
Definition ret_st (s : mstate) (v : stack) : result (bytes * mstate) := Ok ([], with_st s v).

(** ** Arithmetic *)

(** [x, y := stack.pop(), stack.peek()], then [y] is set to [f x y], where the
    computation of [f] may panic. *)
Definition binopM (f : Z -> Z -> result Z) : executionFunc := fun _ s =>
  '(x, st1) ← pop (st s);
  '(y, st2) ← pop st1;
  v ← f x y;
  ret_st s (push st2 v).
Definition binop (f : Z -> Z -> Z) : executionFunc := binopM (fun x y => Ok (f x y)).

Definition ternopM (f : Z -> Z -> Z -> result Z) : executionFunc := fun _ s =>
  '(x, st1) ← pop (st s);
  '(y, st2) ← pop st1;
  '(z, st3) ← pop st2;
  v ← f x y z;
  ret_st s (push st3 v).

Definition unop (f : Z -> Z) : executionFunc := fun _ s =>
  '(x, st1) ← pop (st s);
  ret_st s (push st1 (f x)).

Definition bool_word (b : bool) : Z := if b then 1 else 0.

Definition opStop : executionFunc := fun _ s => Ok ([], s).

Definition opAdd := binop (fun x y => U256 (x + y)).
Definition opMul := binop (fun x y => U256 (x * y)).
Definition opSub := binop (fun x y => U256 (x - y)).
Definition opDiv := binopM (fun x y =>
  if negb (y =? 0) then v ← big_Div x y; Ok (U256 v) else Ok 0).

Definition opSdiv := binopM (fun x y =>
  let x := S256 x in
  let y := S256 y in
  if (y =? 0) || (x =? 0) then Ok 0
  else
    res ← big_Div (Z.abs x) (Z.abs y);
    Ok (if negb (Z.sgn x =? Z.sgn y) then U256 (- res) else U256 res)).

Definition opMod := binopM (fun x y =>
  if y =? 0 then Ok 0 else v ← big_Mod x y; Ok (U256 v)).

Definition opSmod := binopM (fun x y =>
  let x := S256 x in
  let y := S256 y in
  if y =? 0 then Ok 0
  else
    res ← big_Mod (Z.abs x) (Z.abs y);
    Ok (if x <? 0 then U256 (- res) else U256 res)).

Definition opAddmod := ternopM (fun x y z =>
  if 0 <? z then v ← big_Mod (x + y) z; Ok (U256 v) else Ok 0).
Definition opMulmod := ternopM (fun x y z =>
  if 0 <? z then v ← big_Mod (x * y) z; Ok (U256 v) else Ok 0).

Definition opExp := binop Exp.

Definition opSignExtend := binop (fun back num =>
  if back <? 31 then
    let bit := Uint64 back * 8 + 7 in
    let mask := Z.shiftl 1 bit - 1 in
    if Z.testbit num bit then U256 (Z.lor num (Z.lnot mask)) else U256 (Z.land num mask)
  else num).

(** ** Comparison and bits *)

Definition opLt := binop (fun x y => bool_word (x <? y)).
Definition opGt := binop (fun x y => bool_word (y <? x)).

Definition opSlt := binop (fun x y =>
  if (Tt255 <=? x) && (y <? Tt255) then 1
  else if (x <? Tt255) && (Tt255 <=? y) then 0
  else bool_word (x <? y)).

Definition opSgt := binop (fun x y =>
  if (Tt255 <=? x) && (y <? Tt255) then 0
  else if (x <? Tt255) && (Tt255 <=? y) then 1
  else bool_word (y <? x)).

Definition opEq := binop (fun x y => bool_word (x =? y)).
Definition opIszero := unop (fun x => if 0 <? x then 0 else 1).
Definition opAnd := binop Z.land.
Definition opOr := binop Z.lor.
Definition opXor := binop Z.lxor.
Definition opNot := unop (fun x => U256 (Z.lnot x)).

Definition opByte := binop (fun th val =>
  if th <? 32 then Byte val WordSize (Int64 th) else 0).

Definition opSHL := binop (fun shift value =>
  let shift := U256 shift in
  let value := U256 value in
  if 256 <=? shift then 0 else U256 (Z.shiftl value (Uint64 shift))).

Definition opSHR := binop (fun shift value =>
  let shift := U256 shift in
  let value := U256 value in
  if 256 <=? shift then 0 else U256 (Z.shiftr value (Uint64 shift))).

Definition opSAR := binop (fun shift value =>
  let shift := U256 shift in
  let value := S256 value in
  if 256 <=? shift then (if 0 <? value then U256 0 else U256 (-1))
  else U256 (Z.shiftr value (Uint64 shift))).

(** ** Hashes *)

Definition opSha3 : executionFunc := fun e s =>
  '(offset, st1) ← pop (st s);
  '(size, st2) ← pop st1;
  data ← mem_get (mem s) (Int64 offset) (Int64 size);
  ret_st s (push st2 (SetBytes (Keccak256 e data))).

Definition opBlake2b : executionFunc := fun e s =>
  '(offset, st1) ← pop (st s);
  '(size, st2) ← pop st1;
  data ← mem_get (mem s) (Int64 offset) (Int64 size);
  ret_st s (push st2 (SetBytes (Hash256 e data))).

(** ** The environment *)

(** Push a value computed from the environment and the state. *)
Definition pushop (f : env -> mstate -> result Z) : executionFunc := fun e s =>
  v ← f e s; ret_st s (push (st s) v).

Definition opZero : executionFunc := pushop (fun _ _ => Ok 0).

Definition opAddress := pushop (fun e _ => Ok (SetBytes (AccountAddress (c_block e)))).

Definition opBalance : executionFunc := fun e s =>
  '(tokenTypeIDBig, st1) ← pop (st s);
  b ← DealWithErr (db_GetBalance (db s) (BigToTokenTypeId tokenTypeIDBig).1);
  ret_st s (push st1 b).

Definition opCaller := pushop (fun e _ => Ok (SetBytes (AccountAddress (c_sendBlock e)))).
Definition opOffchainCaller := opZero.
Definition opCallValue := pushop (fun e _ => or_panic PNil (Amount (c_sendBlock e))).
Definition opOffchainCallValue := opZero.

Definition opCallDataLoad : executionFunc := fun e s =>
  '(offset, st1) ← pop (st s);
  d ← GetDataBig (c_data e) offset 32;
  ret_st s (push st1 (SetBytes d)).

Definition opCallDataSize := pushop (fun e _ => Ok (i64 (len (c_data e)))).

(** Copy [length] bytes of [source] at [dataOffset] to [memOffset]. *)
Definition copyop (source : env -> bytes) : executionFunc := fun e s =>
  '(memOffset, st1) ← pop (st s);
  '(dataOffset, st2) ← pop st1;
  '(length, st3) ← pop st2;
  d ← GetDataBig (source e) dataOffset length;
  m ← mem_set (mem s) (Uint64 memOffset) (Uint64 length) d;
  ret_st (with_mem s m) st3.

Definition opCallDataCopy := copyop c_data.
Definition opCodeSize := pushop (fun e _ => Ok (i64 (len (c_code e)))).
Definition opCodeCopy := copyop c_code.

Definition opReturnDataSize := pushop (fun _ s => Ok (len (returnData s))).

Definition opReturnDataCopy : executionFunc := fun e s =>
  '(memOffset, st1) ← pop (st s);
  '(dataOffset, st2) ← pop st1;
  '(length, st3) ← pop st2;
  let end_ := dataOffset + length in
  if (64 <? BitLen end_) || (len (returnData s) <? Uint64 end_) then Err ErrReturnDataOutOfBounds
  else
    d ← go_slice (returnData s) (Uint64 dataOffset) (Uint64 end_);
    m ← mem_set (mem s) (Uint64 memOffset) (Uint64 length) d;
    ret_st (with_mem s m) st3.

(** The snapshot block of the global status; Go dereferences nil otherwise. *)
Definition status_block (e : env) : result SnapshotBlock :=
  g ← or_panic PNil (globalStatus e); or_panic PNil (gs_SnapshotBlock g).

Definition opTimestamp := pushop (fun e _ => sb ← status_block e; Ok (U256 (sb_Timestamp sb))).
Definition opOffchainTimestamp := opZero.
Definition opHeight := pushop (fun e _ => sb ← status_block e; Ok (U256 (sb_Height sb))).
Definition opOffchainHeight := opZero.
Definition opTokenID := pushop (fun e _ => Ok (SetBytes (TokenId (c_sendBlock e)))).
Definition opOffchainTokenID := opZero.

Definition opAccountHeight := pushop (fun _ s =>
  ab ← DealWithErr (db_PrevAccountBlock (db s));
  match ab with Some b => Ok (U256 (Height b)) | None => Ok 0 end).

Definition opAccountHash := pushop (fun _ s =>
  ab ← DealWithErr (db_PrevAccountBlock (db s));
  match ab with Some b => Ok (SetBytes (ab_Hash b)) | None => Ok 0 end).

Definition opFromHash := pushop (fun e _ => Ok (SetBytes (FromBlockHash (c_block e)))).
Definition opOffchainFromHash := opZero.

Definition opSeed := pushop (fun e _ =>
  g ← or_panic PNil (globalStatus e); DealWithErr (gs_Seed g)).
Definition opOffchainSeed := opZero.

Definition opRandom : executionFunc := fun e s =>
  g ← or_panic PNil (globalStatus e);
  seed ← DealWithErr (gs_Random g (draws s));
  ret_st (with_draws s (S (draws s))) (push (st s) seed).
Definition opOffchainRandom := opZero.

(** ** Stack, memory, storage *)

Definition opPop : executionFunc := fun _ s =>
  '(_, st1) ← pop (st s); ret_st s st1.

Definition opMload : executionFunc := fun _ s =>
  '(offset, st1) ← pop (st s);
  val ← mem_get (mem s) (Int64 offset) WordSize;
  ret_st s (push st1 (SetBytes val)).

Definition opMstore : executionFunc := fun _ s =>
  '(mStart, st1) ← pop (st s);
  '(val, st2) ← pop st1;
  m ← mem_set32 (mem s) (Uint64 mStart) val;
  ret_st (with_mem s m) st2.

Definition opMstore8 : executionFunc := fun _ s =>
  '(off, st1) ← pop (st s);
  '(val, st2) ← pop st1;
  m ← mem_set_byte (mem s) (Int64 off) (Z_byte (Z.land (Int64 val) 0xff));
  ret_st (with_mem s m) st2.

Definition opSLoad : executionFunc := fun _ s =>
  '(loc, st1) ← pop (st s);
  val ← GetValue (db s) (BigToHash loc).1;
  ret_st s (push st1 (SetBytes val)).

Definition opSStore : executionFunc := fun _ s =>
  '(loc, st1) ← pop (st s);
  '(val, st2) ← pop st1;
  db' ← SetValue (db s) (BigToHash loc).1 (Bytes val);
  ret_st (with_db s db') st2.

Definition opOffchainSStore : executionFunc := fun _ s =>
  '(_, st1) ← pop (st s);
  '(_, st2) ← pop st1;
  ret_st s st2.

(** ** Control flow *)

(** [if !has {return err}; *pc = pos.Uint64()] *)
Definition jump_to (e : env) (s : mstate) (pos : Z) : result (bytes * mstate) :=
  '(ok, d) ← has (jumpdests s) (c_codeAddr e) (c_code e) pos;
  if ok : bool then Ok ([], with_pc (with_jumpdests s d) (Uint64 pos))
  else Err ErrInvalidJumpDestination.

Definition opJump : executionFunc := fun e s =>
  '(pos, st1) ← pop (st s);
  jump_to e (with_st s st1) pos.

Definition opJumpi : executionFunc := fun e s =>
  '(pos, st1) ← pop (st s);
  '(cond, st2) ← pop st1;
  if negb (cond =? 0) then jump_to e (with_st s st2) pos
  else Ok ([], with_pc (with_st s st2) (u64 (pc s + 1))).

Definition opPc := pushop (fun _ s => Ok (pc s)).
Definition opMsize := pushop (fun _ s => Ok (i64 (mem_len (mem s)))).
Definition opJumpdest : executionFunc := fun _ s => Ok ([], s).

Definition makePush (size pushByteSize : Z) : executionFunc := fun e s =>
  let codeLen := len (c_code e) in
  let startMin := i64 (u64 (pc s + 1)) in
  let startMin := if codeLen <? startMin then codeLen else startMin in
  let endMin := startMin + pushByteSize in
  let endMin := if codeLen <? endMin then codeLen else endMin in
  d ← go_slice (c_code e) startMin endMin;
  let integer := SetBytes (RightPadBytes d pushByteSize) in
  Ok ([], with_pc (with_st s (push (st s) integer)) (u64 (pc s + size))).

Definition makeDup (size : nat) : executionFunc := fun _ s =>
  st' ← dup (st s) size; ret_st s st'.

Definition makeSwap (size : nat) : executionFunc := fun _ s =>
  st' ← swap (st s) (size + 1); ret_st s st'.

(** ** Logs *)

Fixpoint pop_n (n : nat) (st : stack) : result (list Z * stack) :=
  match n with
  | O => Ok ([], st)
  | S n' =>
      '(x, st1) ← pop st;
      '(xs, st2) ← pop_n n' st1;
      Ok (x :: xs, st2)
  end.

Definition makeLog (size : nat) : executionFunc := fun _ s =>
  '(mStart, st1) ← pop (st s);
  '(mSize, st2) ← pop st1;
  '(topics, st3) ← pop_n size st2;
  d ← mem_get (mem s) (Int64 mStart) (Int64 mSize);
  ret_st (with_db s (db_AddLog (db s) (mkVmLog ((fun t => (BigToHash t).1) <$> topics) d))) st3.

Definition makeOffchainLog (size : nat) : executionFunc := fun _ s =>
  '(_, st1) ← pop (st s);
  '(_, st2) ← pop st1;
  '(_, st3) ← pop_n size st2;
  ret_st s st3.

(** ** Calls and halting *)

Definition opCall : executionFunc := fun e s =>
  '(toAddrBig, st1) ← pop (st s);
  '(tokenIDBig, st2) ← pop st1;
  '(amount, st3) ← pop st2;
  '(inOffset, st4) ← pop st3;
  '(inSize, st5) ← pop st4;
  data ← mem_get (mem s) (Int64 inOffset) (Int64 inSize);
  Ok ([], AppendBlock (with_st s st5)
            (MakeRequestBlock (AccountAddress (c_block e)) (BigToAddress toAddrBig).1
               BlockTypeSendCall amount (BigToTokenTypeId tokenIDBig).1 data)).

Definition opOffchainCall : executionFunc := fun _ s =>
  '(_, st1) ← pop_n 5 (st s); ret_st s st1.

Definition opCall2 : executionFunc := fun e s =>
  '(ret, s1) ← opCall e s;
  block ← or_panic PIndex (sendBlockList s1 !! (length (sendBlockList s1) - 1)%nat);
  h ← ComputeSendHash (Hash256 e) block (c_block e)
        (u8 (Z.of_nat (length (sendBlockList s1)) - 1));
  Ok (ret, with_st s1 (push (st s1) (SetBytes h))).

Definition opOffchainCall2 : executionFunc := fun e s =>
  '(_, s1) ← opOffchainCall e s; ret_st s1 (push (st s1) 0).

Definition opReturn : executionFunc := fun _ s =>
  '(offset, st1) ← pop (st s);
  '(size, st2) ← pop st1;
  ret ← mem_getPtr (mem s) (Int64 offset) (Int64 size);
  Ok (ret, with_st s st2).

Definition opRevert : executionFunc := fun _ s =>
  '(offset, st1) ← pop (st s);
  '(size, st2) ← pop st1;
  ret ← mem_getPtr (mem s) (Int64 offset) (Int64 size);
  Ok (ret, with_st s st2).

Definition opOffchainRevert : executionFunc := fun _ s =>
  '(_, st1) ← pop (st s);
  '(_, st2) ← pop st1;
  ret_st s st2.
