(* ===== verification/GasTable.v ===== *)
(** vm/gas_table.go: what each instruction costs, and the cost of a whole
    block.

    A gas function returns the amount, Go's flag (charge, or refund when
    false) and the state, of which it may change the memory's last cost and the
    set of modified storage locations. *)
From S2P Require Import Prelude Helper Types Upgrade QuotaTable VmDb Builtin.
From S2P Require Import Destination Machine.

Definition gasFunc := env -> mstate -> Z -> result (Z * bool * mstate).

(** ** Memory *)

Definition memoryGasCost (e : env) (m : memory) (newMemSize : Z) : result (Z * bool * memory) :=
  if newMemSize =? 0 then Ok (0, true, m)
  else if 0xffffffffe0 <? newMemSize then Err ErrGasUintOverflow
  else
    let newMemSizeWords := ToWordSize newMemSize in
    let newMemSize := u64 (newMemSizeWords * WordSize) in
    if mem_len m <? newMemSize then
      let square := u64 (newMemSizeWords * newMemSizeWords) in
      let linCoef := u64 (newMemSizeWords * gasTable e MemQuota) in
      if gasTable e MemQuotaDivision =? 0 then Panic PDivZero
      else
        let quadCoef := square / gasTable e MemQuotaDivision in
        let newTotalFee := u64 (linCoef + quadCoef) in
        let fee := u64 (newTotalFee - lastGasCost m) in
        Ok (fee, true, with_lastGasCost m newTotalFee)
    else Ok (0, true, m).

(** The memory part of a gas function. *)
Definition mem_gas (e : env) (s : mstate) (memorySize : Z) : result (Z * mstate) :=
  '(gas, _, m) ← memoryGasCost e (mem s) memorySize;
  Ok (gas, with_mem s m).

(** [if r, overflow = helper.SafeX(...); overflow { return err }] *)
Definition no_overflow (r : Z * bool) : result Z :=
  if r.2 then Err ErrGasUintOverflow else Ok r.1.

(** ** Constant costs *)

Definition constGasFunc (gas : Z) : gasFunc := fun _ s _ => Ok (gas, true, s).
Definition tableGas (f : quota_field) : gasFunc := fun e s _ => Ok (gasTable e f, true, s).

Definition gasAdd := tableGas AddQuota.
Definition gasMul := tableGas MulQuota.
Definition gasSub := tableGas SubQuota.
Definition gasDiv := tableGas DivQuota.
Definition gasSdiv := tableGas SDivQuota.
Definition gasMod := tableGas ModQuota.
Definition gasSmod := tableGas SModQuota.
Definition gasAddmod := tableGas AddModQuota.
Definition gasMulmod := tableGas MulModQuota.
Definition gasSignextend := tableGas SignExtendQuota.
Definition gasLt := tableGas LtQuota.
Definition gasGt := tableGas GtQuota.
Definition gasSlt := tableGas SltQuota.
Definition gasSgt := tableGas SgtQuota.
Definition gasEq := tableGas EqQuota.
Definition gasIszero := tableGas IsZeroQuota.
Definition gasAnd := tableGas AndQuota.
Definition gasOr := tableGas OrQuota.
Definition gasXor := tableGas XorQuota.
Definition gasNot := tableGas NotQuota.
Definition gasByte := tableGas ByteQuota.
Definition gasShl := tableGas ShlQuota.
Definition gasShr := tableGas ShrQuota.
Definition gasSar := tableGas SarQuota.
Definition gasAddress := tableGas AddressQuota.
Definition gasBalance := tableGas BalanceQuota.
Definition gasCaller := tableGas CallerQuota.
Definition gasCallvalue := tableGas CallValueQuota.
Definition gasCalldataload := tableGas CallDataLoadQuota.
Definition gasCalldatasize := tableGas CallDataSizeQuota.
Definition gasCodesize := tableGas CodeSizeQuota.
Definition gasReturndatasize := tableGas ReturnDataSizeQuota.
Definition gasTimestamp := tableGas TimestampQuota.
Definition gasHeight := tableGas HeightQuota.
Definition gasTokenid := tableGas TokenIDQuota.
Definition gasAccountheight := tableGas AccountHeightQuota.
Definition gasPrevhash := tableGas PreviousHashQuota.
Definition gasFromhash := tableGas FromBlockHashQuota.
Definition gasSeed := tableGas SeedQuota.
Definition gasRandom := tableGas RandomQuota.
Definition gasPop := tableGas PopQuota.
Definition gasSload := tableGas SloadQuota.
Definition gasJump := tableGas JumpQuota.
Definition gasJumpi := tableGas JumpiQuota.
Definition gasPc := tableGas PcQuota.
Definition gasMsize := tableGas MsizeQuota.
Definition gasJumpdest := tableGas JumpdestQuota.
Definition gasPush := tableGas PushQuota.
Definition gasDup := tableGas DupQuota.
Definition gasSwap := tableGas SwapQuota.

(** ** Costs that depend on the operands *)

Definition gasExp : gasFunc := fun e s _ =>
  exponent ← back (st s) 1;
  let expByteLen := (BitLen exponent + 7) / 8 in
  let gas := u64 (expByteLen * gasTable e ExpByteQuota) in
  gas ← no_overflow (SafeAdd gas (gasTable e ExpQuota));
  Ok (gas, true, s).

(** The memory cost, a base cost, and [word] for each word of the size found
    at stack position [i]. *)
Definition copyGas (base word : quota_field) (i : nat) : gasFunc := fun e s memorySize =>
  '(gas, s) ← mem_gas e s memorySize;
  gas ← no_overflow (SafeAdd gas (gasTable e base));
  size ← back (st s) i;
  words ← no_overflow (BigUint64 size);
  words ← no_overflow (SafeMul (ToWordSize words) (gasTable e word));
  gas ← no_overflow (SafeAdd gas words);
  Ok (gas, true, s).

Definition gasBlake2b := copyGas Blake2bQuota Blake2bWordQuota 1.
Definition gasCallDataCopy := copyGas CallDataCopyQuota MemCopyWordQuota 2.
Definition gasCodeCopy := copyGas CodeCopyQuota MemCopyWordQuota 2.
Definition gasReturnDataCopy := copyGas ReturnDataCopyQuota MemCopyWordQuota 2.

(** The memory cost and a base cost; every error becomes an overflow error. *)
Definition memGas (base : quota_field) : gasFunc := fun e s memorySize =>
  match mem_gas e s memorySize with
  | Panic p => Panic p
  | Err _ => Err ErrGasUintOverflow
  | Ok (gas, s) =>
      gas ← no_overflow (SafeAdd gas (gasTable e base));
      Ok (gas, true, s)
  end.

Definition gasMLoad := memGas MloadQuota.
Definition gasMStore := memGas MstoreQuota.
Definition gasMStore8 := memGas Mstore8Quota.

Definition contractModifyStorageMax : Z := 100.

(** [bytes.Equal] *)
Definition bytes_Equal (a b : bytes) : bool := bool_decide (a = b).

(** The price of storing [newValue] over [currentValue], where the chain holds
    [originalValue]. *)
Definition sstore_price (gt : QuotaTable) (originalValue currentValue : bytes) (newValue : Z) :
    Z * bool :=
  if bytes_Equal currentValue (Bytes newValue) then (gt SstoreNoopQuota, true)
  else if bytes_Equal originalValue currentValue then
    if len originalValue =? 0 then (gt SstoreInitQuota, true)
    else if newValue =? 0 then (gt SstoreCleanQuota, true)
    else (gt SstoreResetQuota, true)
  else if bytes_Equal originalValue (Bytes newValue) then
    if len originalValue =? 0 then
      (u64 (gt SstoreInitQuota - gt SstoreMemQuota - gt SstoreNoopQuota), false)
    else if len currentValue =? 0 then
      (u64 (gt SstoreNoopQuota + gt SstoreMemQuota - gt SstoreCleanQuota), true)
    else (u64 (gt SstoreResetQuota - gt SstoreMemQuota - gt SstoreNoopQuota), false)
  else if (0 <? len originalValue) && (len currentValue =? 0) && (0 <? newValue) then
    (u64 (gt SstoreResetQuota + gt SstoreMemQuota - gt SstoreCleanQuota), true)
  else if (0 <? len originalValue) && (0 <? len currentValue) && (newValue =? 0) then
    (u64 (gt SstoreResetQuota - gt SstoreMemQuota - gt SstoreCleanQuota), false)
  else (gt SstoreMemQuota, true).

Definition gasSStore : gasFunc := fun e s _ =>
  newValue ← back (st s) 1;
  loc ← back (st s) 0;
  let locHash := (BigToHash loc).1 in
  s ← (if IsEarthUpgrade (upgrades e) (latestSnapshotHeight e) then
         let s := with_storageModified s ({[loc]} ∪ storageModified s) in
         if contractModifyStorageMax <? Z.of_nat (size (storageModified s))
         then Err ErrStorageModifyLimitReached else Ok s
       else Ok s);
  currentValue ← GetValue (db s) locHash;
  if bytes_Equal currentValue (Bytes newValue) then
    Ok (gasTable e SstoreNoopQuota, true, s)
  else
    originalValue ← DealWithErr (db_GetOriginalValue (db s) locHash);
    let '(cost, flag) := sstore_price (gasTable e) originalValue currentValue newValue in
    Ok (cost, flag, s).

Definition makeGasLog (n : Z) : gasFunc := fun e s memorySize =>
  size ← back (st s) 1;
  requestedSize ← no_overflow (BigUint64 size);
  '(gas, s) ← mem_gas e s memorySize;
  gas ← no_overflow (SafeAdd gas (gasTable e LogQuota));
  gas ← no_overflow (SafeAdd gas (u64 (n * gasTable e LogTopicQuota)));
  memorySizeGas ← no_overflow (SafeMul requestedSize (gasTable e LogDataQuota));
  gas ← no_overflow (SafeAdd gas memorySizeGas);
  Ok (gas, true, s).

Definition gasReturn : gasFunc := fun e s memorySize =>
  '(gas, s) ← mem_gas e s memorySize; Ok (gas, true, s).
Definition gasRevert : gasFunc := fun e s memorySize =>
  '(gas, s) ← mem_gas e s memorySize; Ok (gas, true, s).

(** ** The cost of blocks *)

Section BlockGas.
Variable maps : generation -> contractsMap.
Variable box : upgradeBox.

Definition gasSendCreate (block : AccountBlock) (gt : QuotaTable) : result Z :=
  BlockGasCost (Data block) (gt CreateTxRequestQuota) 0 gt.

Definition snapshot_count (meta : option ContractMeta) : Z :=
  match meta with Some m => SendConfirmedTimes m | None => 0 end.

Definition gasReceiveCreate (meta : option ContractMeta) (gt : QuotaTable) : result Z :=
  BlockGasCost [] (gt CreateTxResponseQuota) (snapshot_count meta) gt.

Definition gasSendCall (block : AccountBlock) (gt : QuotaTable) : result Z :=
  BlockGasCost (Data block) (gt TxQuota) 0 gt.

Definition gasUserSendCall (block : AccountBlock) (gt : QuotaTable) (sbHeight : Z) : result Z :=
  if IsBuiltinContractAddrInUse (ToAddress block) then
    match GetBuiltinContractMethod maps box (ToAddress block) (Data block) sbHeight with
    | Method m => GetSendQuota m (Data block) gt
    | _ => Err ErrAbiMethodNotFound
    end
  else gasSendCall block gt.

Definition gasReceive (meta : option ContractMeta) (gt : QuotaTable) : result Z :=
  BlockGasCost [] (gt TxQuota) (snapshot_count meta) gt.

Definition gasRequiredForSendBlock (block : AccountBlock) (gt : QuotaTable) (sbHeight : Z) :
    result Z :=
  if BlockType block =? BlockTypeSendCreate then gasSendCreate block gt
  else if BlockType block =? BlockTypeSendCall then gasUserSendCall block gt sbHeight
  else Err ErrBlockTypeNotSupported.

Definition getQuotaMultiplierBySnapshotBlock (d : vmDb) (toAddr : Address)
    (snapshotBlock : SnapshotBlock) : result Z :=
  meta ← DealWithErr (db_GetContractMetaInSnapshot d toAddr snapshotBlock);
  match meta with
  | Some m => Ok (QuotaRatio m)
  | None => Err ErrContractNotExists
  end.

Definition getQuotaMultiplierForS (d : vmDb) (toAddr : Address) : result Z :=
  if negb (IsContractAddr toAddr) then Ok CommonQuotaMultiplier
  else
    sb ← DealWithErr (db_LatestSnapshotBlock d);
    getQuotaMultiplierBySnapshotBlock d toAddr sb.

Definition getQuotaMultiplierForRS (d : vmDb) (toAddr : Address) (sendBlock : AccountBlock)
    (status : option GlobalStatus) : result Z :=
  if negb (IsContractAddr toAddr) then Ok CommonQuotaMultiplier
  else
    match g ← status; gs_SnapshotBlock g with
    | Some sb => getQuotaMultiplierBySnapshotBlock d toAddr sb
    | None =>
        confirmSb ← DealWithErr (db_GetConfirmSnapshotHeader d (ab_Hash sendBlock));
        match confirmSb with
        | Some sb => getQuotaMultiplierBySnapshotBlock d toAddr sb
        | None =>
            sb ← DealWithErr (db_LatestSnapshotBlock d);
            meta ← DealWithErr (db_GetContractMetaInSnapshot d toAddr sb);
            match meta with
            | Some m => Ok (QuotaRatio m)
            | None => Err ErrNoReliableStatus
            end
        end
    end.

Definition GasRequiredForBlock (d : vmDb) (block : AccountBlock) (gt : QuotaTable)
    (sbHeight : Z) : result Z :=
  if BlockType block =? BlockTypeReceive then gasReceive None gt
  else
    cost ← gasRequiredForSendBlock block gt sbHeight;
    if negb (BlockType block =? BlockTypeSendCall) then Ok cost
    else
      quotaMultiplier ← getQuotaMultiplierForS d (ToAddress block);
      MultipleCost cost quotaMultiplier.
End BlockGas.

(** ** Calls

    [gasCall] reads the call data from the memory before the interpreter has
    resized it. *)
Definition gasCall : gasFunc := fun e s memorySize =>
  '(gas, s) ← mem_gas e s memorySize;
  toAddrBig ← back (st s) 0;
  tokenIDBig ← back (st s) 1;
  amount ← back (st s) 2;
  inOffset ← back (st s) 3;
  inSize ← back (st s) 4;
  let toAddress := (BigToAddress toAddrBig).1 in
  let tokenID := (BigToTokenTypeId tokenIDBig).1 in
  data ← mem_get (mem s) (Int64 inOffset) (Int64 inSize);
  cost ← gasRequiredForSendBlock (contracts e) (upgrades e)
           (MakeRequestBlock (AccountAddress (c_block e)) toAddress BlockTypeSendCall
                             amount tokenID data)
           (gasTable e) (latestSnapshotHeight e);
  quotaMultiplier ← getQuotaMultiplierForRS (db s) toAddress (c_sendBlock e) (globalStatus e);
  cost ← MultipleCost cost quotaMultiplier;
  if gasTable e CallMinusQuota <? cost then
    gas ← no_overflow (SafeAdd gas (u64 (cost - gasTable e CallMinusQuota)));
    Ok (gas, true, s)
  else Ok (gas, true, s).

Definition gasCall2 : gasFunc := gasCall.
