(* ===== verification/JumpTable.v ===== *)
(** vm/jump_table.go: the instruction sets.

    An instruction set is the list of its entries; the Go array has an invalid
    entry everywhere else.  A set derived from another one puts its entries in
    front, so the first entry of an opcode is the one that counts. *)
From S2P Require Import Prelude Helper Types Upgrade QuotaTable VmDb Builtin Opcodes.
From S2P Require Import Destination Machine Instructions GasTable.

Record operation := mkOperation {
  execute : executionFunc;
  gasCost : gasFunc;
  validateStack : stack -> result unit;
  memorySize : option (stack -> result Z);
  halts : bool;
  jumps : bool;
  writes : bool;
  reverts : bool;
  returns : bool;
}.

(** The combinations of flags that occur. *)
Definition plain ex g v m := mkOperation ex g v m false false false false false.
Definition halting ex g v m := mkOperation ex g v m true false false false false.
Definition jumping ex g v m := mkOperation ex g v m false true false false false.
Definition writing ex g v m := mkOperation ex g v m false false true false false.
Definition reverting ex g v m := mkOperation ex g v m false false false true true.

Abbreviation instruction_set := (list (Z * operation)).

(** [instructionSet[op]], [None] when the entry is not valid. *)
Fixpoint lookup_op (set : instruction_set) (op : Z) : option operation :=
  match set with
  | [] => None
  | (k, o) :: set' => if k =? op then Some o else lookup_op set' op
  end.

(** ** The instructions common to all sets *)

Definition base_arithmetic : instruction_set :=
  [(STOP, halting opStop (constGasFunc 0) (makeStackFunc 0 0) None);
   (ADD, plain opAdd gasAdd (makeStackFunc 2 1) None);
   (MUL, plain opMul gasMul (makeStackFunc 2 1) None);
   (SUB, plain opSub gasSub (makeStackFunc 2 1) None);
   (DIV, plain opDiv gasDiv (makeStackFunc 2 1) None);
   (SDIV, plain opSdiv gasSdiv (makeStackFunc 2 1) None);
   (MOD, plain opMod gasMod (makeStackFunc 2 1) None);
   (SMOD, plain opSmod gasSmod (makeStackFunc 2 1) None);
   (ADDMOD, plain opAddmod gasAddmod (makeStackFunc 3 1) None);
   (MULMOD, plain opMulmod gasMulmod (makeStackFunc 3 1) None);
   (EXP, plain opExp gasExp (makeStackFunc 2 1) None);
   (SIGNEXTEND, plain opSignExtend gasSignextend (makeStackFunc 2 1) None)].

Definition base_comparison : instruction_set :=
  [(LT, plain opLt gasLt (makeStackFunc 2 1) None);
   (GT, plain opGt gasGt (makeStackFunc 2 1) None);
   (SLT, plain opSlt gasSlt (makeStackFunc 2 1) None);
   (SGT, plain opSgt gasSgt (makeStackFunc 2 1) None);
   (EQ, plain opEq gasEq (makeStackFunc 2 1) None);
   (ISZERO, plain opIszero gasIszero (makeStackFunc 1 1) None);
   (AND, plain opAnd gasAnd (makeStackFunc 2 1) None);
   (OR, plain opOr gasOr (makeStackFunc 2 1) None);
   (XOR, plain opXor gasXor (makeStackFunc 2 1) None);
   (NOT, plain opNot gasNot (makeStackFunc 1 1) None);
   (BYTE, plain opByte gasByte (makeStackFunc 2 1) None);
   (SHL, plain opSHL gasShl (makeStackFunc 2 1) None);
   (SHR, plain opSHR gasShr (makeStackFunc 2 1) None);
   (SAR, plain opSAR gasSar (makeStackFunc 2 1) None)].

Definition base_data : instruction_set :=
  [(SHA3, plain opSha3 gasBlake2b (makeStackFunc 2 1) (Some memorySha3));
   (BLAKE2B, plain opBlake2b gasBlake2b (makeStackFunc 2 1) (Some memoryBlake2b));
   (ADDRESS, plain opAddress gasAddress (makeStackFunc 0 1) None);
   (CALLDATALOAD, plain opCallDataLoad gasCalldataload (makeStackFunc 1 1) None);
   (CALLDATASIZE, plain opCallDataSize gasCalldatasize (makeStackFunc 0 1) None);
   (CALLDATACOPY, plain opCallDataCopy gasCallDataCopy (makeStackFunc 3 0) (Some memoryCallDataCopy));
   (CODESIZE, plain opCodeSize gasCodesize (makeStackFunc 0 1) None);
   (CODECOPY, plain opCodeCopy gasCodeCopy (makeStackFunc 3 0) (Some memoryCodeCopy));
   (RETURNDATASIZE, plain opReturnDataSize gasReturndatasize (makeStackFunc 0 1) None);
   (RETURNDATACOPY, plain opReturnDataCopy gasReturnDataCopy (makeStackFunc 3 0) (Some memoryReturnDataCopy))].

Definition base_flow : instruction_set :=
  [(POP, plain opPop gasPop (makeStackFunc 1 0) None);
   (MLOAD, plain opMload gasMLoad (makeStackFunc 1 1) (Some memoryMLoad));
   (MSTORE, plain opMstore gasMStore (makeStackFunc 2 0) (Some memoryMStore));
   (MSTORE8, plain opMstore8 gasMStore8 (makeStackFunc 2 0) (Some memoryMStore8));
   (SLOAD, plain opSLoad gasSload (makeStackFunc 1 1) None);
   (JUMP, jumping opJump gasJump (makeStackFunc 1 0) None);
   (JUMPI, jumping opJumpi gasJumpi (makeStackFunc 2 0) None);
   (PC, plain opPc gasPc (makeStackFunc 0 1) None);
   (MSIZE, plain opMsize gasMsize (makeStackFunc 0 1) None);
   (JUMPDEST, plain opJumpdest gasJumpdest (makeStackFunc 0 0) None)].

Definition base_push_low : instruction_set :=
  [(PUSH1, plain (makePush 1 1) gasPush (makeStackFunc 0 1) None);
   (PUSH2, plain (makePush 2 2) gasPush (makeStackFunc 0 1) None);
   (PUSH3, plain (makePush 3 3) gasPush (makeStackFunc 0 1) None);
   (PUSH4, plain (makePush 4 4) gasPush (makeStackFunc 0 1) None);
   (PUSH5, plain (makePush 5 5) gasPush (makeStackFunc 0 1) None);
   (PUSH6, plain (makePush 6 6) gasPush (makeStackFunc 0 1) None);
   (PUSH7, plain (makePush 7 7) gasPush (makeStackFunc 0 1) None);
   (PUSH8, plain (makePush 8 8) gasPush (makeStackFunc 0 1) None);
   (PUSH9, plain (makePush 9 9) gasPush (makeStackFunc 0 1) None);
   (PUSH10, plain (makePush 10 10) gasPush (makeStackFunc 0 1) None);
   (PUSH11, plain (makePush 11 11) gasPush (makeStackFunc 0 1) None);
   (PUSH12, plain (makePush 12 12) gasPush (makeStackFunc 0 1) None);
   (PUSH13, plain (makePush 13 13) gasPush (makeStackFunc 0 1) None);
   (PUSH14, plain (makePush 14 14) gasPush (makeStackFunc 0 1) None);
   (PUSH15, plain (makePush 15 15) gasPush (makeStackFunc 0 1) None);
   (PUSH16, plain (makePush 16 16) gasPush (makeStackFunc 0 1) None)].

Definition base_push_high : instruction_set :=
  [(PUSH17, plain (makePush 17 17) gasPush (makeStackFunc 0 1) None);
   (PUSH18, plain (makePush 18 18) gasPush (makeStackFunc 0 1) None);
   (PUSH19, plain (makePush 19 19) gasPush (makeStackFunc 0 1) None);
   (PUSH20, plain (makePush 20 20) gasPush (makeStackFunc 0 1) None);
   (PUSH21, plain (makePush 21 21) gasPush (makeStackFunc 0 1) None);
   (PUSH22, plain (makePush 22 22) gasPush (makeStackFunc 0 1) None);
   (PUSH23, plain (makePush 23 23) gasPush (makeStackFunc 0 1) None);
   (PUSH24, plain (makePush 24 24) gasPush (makeStackFunc 0 1) None);
   (PUSH25, plain (makePush 25 25) gasPush (makeStackFunc 0 1) None);
   (PUSH26, plain (makePush 26 26) gasPush (makeStackFunc 0 1) None);
   (PUSH27, plain (makePush 27 27) gasPush (makeStackFunc 0 1) None);
   (PUSH28, plain (makePush 28 28) gasPush (makeStackFunc 0 1) None);
   (PUSH29, plain (makePush 29 29) gasPush (makeStackFunc 0 1) None);
   (PUSH30, plain (makePush 30 30) gasPush (makeStackFunc 0 1) None);
   (PUSH31, plain (makePush 31 31) gasPush (makeStackFunc 0 1) None);
   (PUSH32, plain (makePush 32 32) gasPush (makeStackFunc 0 1) None)].

Definition base_dup : instruction_set :=
  [(DUP1, plain (makeDup 1%nat) gasDup (makeDupStackFunc 1) None);
   (DUP2, plain (makeDup 2%nat) gasDup (makeDupStackFunc 2) None);
   (DUP3, plain (makeDup 3%nat) gasDup (makeDupStackFunc 3) None);
   (DUP4, plain (makeDup 4%nat) gasDup (makeDupStackFunc 4) None);
   (DUP5, plain (makeDup 5%nat) gasDup (makeDupStackFunc 5) None);
   (DUP6, plain (makeDup 6%nat) gasDup (makeDupStackFunc 6) None);
   (DUP7, plain (makeDup 7%nat) gasDup (makeDupStackFunc 7) None);
   (DUP8, plain (makeDup 8%nat) gasDup (makeDupStackFunc 8) None);
   (DUP9, plain (makeDup 9%nat) gasDup (makeDupStackFunc 9) None);
   (DUP10, plain (makeDup 10%nat) gasDup (makeDupStackFunc 10) None);
   (DUP11, plain (makeDup 11%nat) gasDup (makeDupStackFunc 11) None);
   (DUP12, plain (makeDup 12%nat) gasDup (makeDupStackFunc 12) None);
   (DUP13, plain (makeDup 13%nat) gasDup (makeDupStackFunc 13) None);
   (DUP14, plain (makeDup 14%nat) gasDup (makeDupStackFunc 14) None);
   (DUP15, plain (makeDup 15%nat) gasDup (makeDupStackFunc 15) None);
   (DUP16, plain (makeDup 16%nat) gasDup (makeDupStackFunc 16) None)].

Definition base_swap : instruction_set :=
  [(SWAP1, plain (makeSwap 1%nat) gasSwap (makeSwapStackFunc 2) None);
   (SWAP2, plain (makeSwap 2%nat) gasSwap (makeSwapStackFunc 3) None);
   (SWAP3, plain (makeSwap 3%nat) gasSwap (makeSwapStackFunc 4) None);
   (SWAP4, plain (makeSwap 4%nat) gasSwap (makeSwapStackFunc 5) None);
   (SWAP5, plain (makeSwap 5%nat) gasSwap (makeSwapStackFunc 6) None);
   (SWAP6, plain (makeSwap 6%nat) gasSwap (makeSwapStackFunc 7) None);
   (SWAP7, plain (makeSwap 7%nat) gasSwap (makeSwapStackFunc 8) None);
   (SWAP8, plain (makeSwap 8%nat) gasSwap (makeSwapStackFunc 9) None);
   (SWAP9, plain (makeSwap 9%nat) gasSwap (makeSwapStackFunc 10) None);
   (SWAP10, plain (makeSwap 10%nat) gasSwap (makeSwapStackFunc 11) None);
   (SWAP11, plain (makeSwap 11%nat) gasSwap (makeSwapStackFunc 12) None);
   (SWAP12, plain (makeSwap 12%nat) gasSwap (makeSwapStackFunc 13) None);
   (SWAP13, plain (makeSwap 13%nat) gasSwap (makeSwapStackFunc 14) None);
   (SWAP14, plain (makeSwap 14%nat) gasSwap (makeSwapStackFunc 15) None);
   (SWAP15, plain (makeSwap 15%nat) gasSwap (makeSwapStackFunc 16) None);
   (SWAP16, plain (makeSwap 16%nat) gasSwap (makeSwapStackFunc 17) None)].

Definition base_chain : instruction_set :=
  [(RETURN, halting opReturn gasReturn (makeStackFunc 2 0) (Some memoryReturn));
   (BALANCE, plain opBalance gasBalance (makeStackFunc 1 1) None);
   (ACCOUNTHEIGHT, plain opAccountHeight gasAccountheight (makeStackFunc 0 1) None);
   (PREVHASH, plain opAccountHash gasPrevhash (makeStackFunc 0 1) None)].

Definition newBaseInstructionSet : instruction_set :=
  base_arithmetic ++ base_comparison ++ base_data ++ base_flow ++ base_push_low
  ++ base_push_high ++ base_dup ++ base_swap ++ base_chain.

(** ** On-chain sets *)

Definition newSimpleInstructionSet : instruction_set :=
  [(FROMHASH, plain opFromHash gasFromhash (makeStackFunc 0 1) None);
   (SEED, plain opSeed gasSeed (makeStackFunc 0 1) None);
   (CALLER, plain opCaller gasCaller (makeStackFunc 0 1) None);
   (CALLVALUE, plain opCallValue gasCallvalue (makeStackFunc 0 1) None);
   (TIMESTAMP, plain opTimestamp gasTimestamp (makeStackFunc 0 1) None);
   (HEIGHT, plain opHeight gasHeight (makeStackFunc 0 1) None);
   (TOKENID, plain opTokenID gasTokenid (makeStackFunc 0 1) None);
   (SSTORE, writing opSStore gasSStore (makeStackFunc 2 0) None);
   (LOG0, writing (makeLog 0%nat) (makeGasLog 0) (makeStackFunc 2 0) (Some memoryLog));
   (LOG1, writing (makeLog 1%nat) (makeGasLog 1) (makeStackFunc 3 0) (Some memoryLog));
   (LOG2, writing (makeLog 2%nat) (makeGasLog 2) (makeStackFunc 4 0) (Some memoryLog));
   (LOG3, writing (makeLog 3%nat) (makeGasLog 3) (makeStackFunc 5 0) (Some memoryLog));
   (LOG4, writing (makeLog 4%nat) (makeGasLog 4) (makeStackFunc 6 0) (Some memoryLog));
   (CALL, plain opCall gasCall (makeStackFunc 5 0) (Some memoryCall));
   (REVERT, reverting opRevert gasRevert (makeStackFunc 2 0) (Some memoryRevert))]
  ++ newBaseInstructionSet.

Definition newRandInstructionSet : instruction_set :=
  [(RANDOM, plain opRandom gasRandom (makeStackFunc 0 1) None)]
  ++ newSimpleInstructionSet.

Definition newEarthInstructionSet : instruction_set :=
  [(CALL2, plain opCall2 gasCall2 (makeStackFunc 5 1) None)]
  ++ newRandInstructionSet.

(** ** Off-chain sets *)

Definition newOffchainSimpleInstructionSet : instruction_set :=
  [(FROMHASH, plain opOffchainFromHash gasFromhash (makeStackFunc 0 1) None);
   (SEED, plain opOffchainSeed gasSeed (makeStackFunc 0 1) None);
   (CALLER, plain opOffchainCaller gasCaller (makeStackFunc 0 1) None);
   (CALLVALUE, plain opOffchainCallValue gasCallvalue (makeStackFunc 0 1) None);
   (TIMESTAMP, plain opOffchainTimestamp gasTimestamp (makeStackFunc 0 1) None);
   (HEIGHT, plain opOffchainHeight gasHeight (makeStackFunc 0 1) None);
   (TOKENID, plain opOffchainTokenID gasTokenid (makeStackFunc 0 1) None);
   (SSTORE, writing opOffchainSStore gasSStore (makeStackFunc 2 0) None);
   (LOG0, writing (makeOffchainLog 0%nat) (makeGasLog 0) (makeStackFunc 2 0) (Some memoryLog));
   (LOG1, writing (makeOffchainLog 1%nat) (makeGasLog 1) (makeStackFunc 3 0) (Some memoryLog));
   (LOG2, writing (makeOffchainLog 2%nat) (makeGasLog 2) (makeStackFunc 4 0) (Some memoryLog));
   (LOG3, writing (makeOffchainLog 3%nat) (makeGasLog 3) (makeStackFunc 5 0) (Some memoryLog));
   (LOG4, writing (makeOffchainLog 4%nat) (makeGasLog 4) (makeStackFunc 6 0) (Some memoryLog));
   (CALL, plain opOffchainCall gasCall (makeStackFunc 5 0) (Some memoryCall));
   (REVERT, halting opOffchainRevert gasRevert (makeStackFunc 2 0) (Some memoryRevert))]
  ++ newBaseInstructionSet.

Definition newRandOffchainInstructionSet : instruction_set :=
  [(RANDOM, plain opOffchainRandom gasRandom (makeStackFunc 0 1) None)]
  ++ newOffchainSimpleInstructionSet.

Definition newEarthOffchainInstructionSet : instruction_set :=
  [(CALL2, plain opOffchainCall2 gasCall2 (makeStackFunc 5 1) None)]
  ++ newRandOffchainInstructionSet.
