(* ===== verification/Interpreter.v ===== *)
(** vm/interpreter.go: the choice of an instruction set and the main loop.

    [step] is one round of the loop.  [runLoop] iterates it with fuel; the
    module on termination shows how much fuel is enough. *)
From S2P Require Import Prelude Helper Types Upgrade QuotaTable VmDb Builtin Opcodes.
From S2P Require Import Destination Machine Instructions GasTable JumpTable.

Definition newInterpreter (box : upgradeBox) (blockHeight : Z) (offChain : bool) : instruction_set :=
  if IsEarthUpgrade box blockHeight then
    if offChain then newEarthOffchainInstructionSet else newEarthInstructionSet
  else if IsSeedUpgrade box blockHeight then
    if offChain then newRandOffchainInstructionSet else newRandInstructionSet
  else if offChain then newOffchainSimpleInstructionSet
  else newSimpleInstructionSet.

(** One round: go on, return from the loop with data, an error or none, and
    the final state, or panic. *)
Inductive step_result :=
| Next (s : mstate)
| Halt (ret : bytes) (err : option vm_err) (s : mstate)
| Crash (p : go_panic).

(** Run a computation of the round; an error returns from the loop with the
    state [s]. *)
Definition guard {A} (s : mstate) (r : result A) (k : A -> step_result) : step_result :=
  match r with
  | Ok a => k a
  | Err e => Halt [] (Some e) s
  | Panic p => Crash p
  end.

(** The memory size a round asks for, rounded up to words. *)
Definition requested_size (op : operation) (st : stack) : result Z :=
  match memorySize op with
  | None => Ok 0
  | Some f =>
      size ← f st;
      let '(memSize, overflow) := BigUint64 size in
      if overflow then Err ErrMemSizeOverflow
      else
        let '(memorySize, overflow) := SafeMul (ToWordSize memSize) WordSize in
        if overflow then Err ErrMemSizeOverflow else Ok memorySize
  end.

(** What the loop does with the result of [execute]. *)
Definition finish (op : operation) (res : bytes) (s : mstate) : step_result :=
  let s := if returns op then with_returnData s res else s in
  if halts op then Halt res None s
  else if reverts op then Halt res (Some ErrExecutionReverted) s
  else if jumps op then Next s
  else Next (with_pc s (u64 (pc s + 1))).

(** Charge, resize and execute. *)
Definition run_op (e : env) (op : operation) (s : mstate) : step_result :=
  guard s (validateStack op (st s)) (fun _ =>
  guard s (requested_size op (st s)) (fun memorySize =>
  guard s (gasCost op e s memorySize) (fun '(cost, flag, s) =>
  guard (with_quotaLeft s 0) (UseQuotaWithFlag (quotaLeft s) cost flag) (fun quota =>
  let s := with_quotaLeft s quota in
  let s := if 0 <? memorySize then with_mem s (resize (grow e) (mem s) memorySize) else s in
  guard s (execute op e s) (fun '(res, s) =>
  finish op res s))))).

Definition step (e : env) (i : instruction_set) (s : mstate) : step_result :=
  match lookup_op i (getOp e (pc s)) with
  | None => Halt [] (Some ErrInvalidOpCode) s
  | Some op => run_op e op s
  end.

Inductive verdict :=
| Returned (ret : bytes) (err : option vm_err) (s : mstate)
| Panicked (p : go_panic)
| OutOfFuel.

(** [k] counts the rounds, for the test of the cancel flag. *)
Fixpoint run_from (fuel : nat) (e : env) (i : instruction_set) (k : nat) (s : mstate) : verdict :=
  match fuel with
  | O => OutOfFuel
  | S fuel' =>
      if abort e k then Panicked PCanceled
      else
        match step e i s with
        | Next s' => run_from fuel' e i (S k) s'
        | Halt ret err s' => Returned ret err s'
        | Crash p => Panicked p
        end
  end.

(** contract.run: the loop on a fresh stack and memory. *)
Definition runLoop (fuel : nat) (e : env) (i : instruction_set) (quota : Z) (d : vmDb)
    (sends : list AccountBlock) : verdict :=
  run_from fuel e i 0 (newContract quota d sends).
