(* ===== verification/Vm.v ===== *)
(** vm/vm.go: the execution of account blocks.

    Handlers run in the monad [M]: a state with the database and the list of
    blocks to send, errors as values that keep the state, and panics.  A Go
    function that returns an error after it has changed the database leaves the
    change in the state, as in the source. *)
From S2P Require Import Prelude Helper Types Upgrade QuotaParams QuotaTable VmDb AccountQuota.
From S2P Require Import Builtin Opcodes AccountBlock CreateData Destination Machine.
From S2P Require Import Instructions GasTable JumpTable Interpreter.

(** ** The node and the machine *)

(** What is fixed for a node: the upgrade box, the configuration set by
    [InitVMConfig], the built-in contracts, the hash functions and the Go
    runtime.  [n_fuel] bounds the rounds of one contract run. *)
Record node := mkNode {
  n_box : upgradeBox;
  n_isTest : bool;
  n_quota : quotaConfigParams;
  n_contracts : generation -> contractsMap;
  n_Keccak256 : bytes -> bytes;
  n_Hash256 : bytes -> bytes;
  n_Hash20 : bytes -> bytes;
  n_grow : Z -> Z -> Z;
  n_abort : nat -> bool;
  n_fuel : nat;
}.

(** The fields of [VM] that [RunV2] sets before it calls a handler. *)
Record VM := mkVM {
  vm_node : node;
  vm_latestSnapshotHeight : Z;
  vm_gasTable : QuotaTable;
  vm_globalStatus : option GlobalStatus;
  vm_i : instruction_set;
}.

(** The database, which the Go code passes by reference, and the send list. *)
Record vmContext := mkContext {
  vc_db : vmDb;
  vc_sends : list AccountBlock;
}.

(** [Starved]: a contract run was not over after [n_fuel] rounds. *)
Inductive exec (A : Type) :=
| Done (a : A) (c : vmContext)
| Fail (e : vm_err) (c : vmContext)
| Abort (p : go_panic)
| Starved.
Arguments Done {A} a c.
Arguments Fail {A} e c.
Arguments Abort {A} p.
Arguments Starved {A}.

Definition M (A : Type) := vmContext -> exec A.

#[export] Instance M_ret : MRet M := fun _ a c => Done a c.
#[export] Instance M_bind : MBind M := fun A B k m c =>
  match m c with
  | Done a c' => k a c'
  | Fail e c' => Fail e c'
  | Abort p => Abort p
  | Starved => Starved
  end.

Definition fail {A} (e : vm_err) : M A := fun c => Fail e c.
Definition crash {A} (p : go_panic) : M A := fun _ => Abort p.

(** A computation that reads the database. *)
Definition reads {A} (f : vmDb -> result A) : M A := fun c =>
  match f (vc_db c) with
  | Ok a => Done a c
  | Err e => Fail e c
  | Panic p => Abort p
  end.

Definition lift {A} (r : result A) : M A := reads (fun _ => r).

Definition set_db (d : vmDb) : M unit := fun c => Done tt (mkContext d (vc_sends c)).
Definition get_sends : M (list AccountBlock) := fun c => Done (vc_sends c) c.
Definition set_sends (l : list AccountBlock) : M unit := fun c => Done tt (mkContext (vc_db c) l).

(** The error of a call as a value. *)
Definition try {A} (m : M A) : M (A + vm_err) := fun c =>
  match m c with
  | Done a c' => Done (inl a) c'
  | Fail e c' => Done (inr e) c'
  | Abort p => Abort p
  | Starved => Starved
  end.

(** [interfaces.VmAccountBlock, isRetry, err]; the database of the block is the
    one of the state. *)
Record vm_result := mkResult {
  vr_block : option AccountBlock;
  vr_retry : bool;
  vr_err : option vm_err;
}.

(** [if err != nil { return nil, isRetry, err }] *)
Definition or_return {A} (isRetry : bool) (m : M A) (k : A -> M vm_result) : M vm_result := fun c =>
  match m c with
  | Done a c' => k a c'
  | Fail e c' => Done (mkResult None isRetry (Some e)) c'
  | Abort p => Abort p
  | Starved => Starved
  end.

Definition retry : bool := true.
Definition noRetry : bool := false.
Definition callDepth : Z := 512.
Definition maxCodeSize : Z := 24575.
Definition offChainReaderGas : Z := 1000000.
Definition snapshotCountMin : Z := 0.
Definition snapshotCountMax : Z := 75.
Definition snapshotWithSeedCountMin : Z := 0.
Definition snapshotWithSeedCountMax : Z := 75.
Definition createContractFee : Z := 10 * 10 ^ 18.

(** ** Balances *)

(** [canTransfer] of [InitVMConfig]. *)
Definition canTransfer (isTest : bool) (tokenTypeId : TokenTypeId) (tokenAmount feeAmount : option Z)
    (db : vmDb) : result bool :=
  if isTest then Ok true
  else
    fee ← or_panic PNil feeAmount;
    if fee =? 0 then
      b ← DealWithErr (db_GetBalance db tokenTypeId);
      amount ← or_panic PNil tokenAmount;
      Ok (amount <=? b)
    else if IsViteToken tokenTypeId then
      amount ← or_panic PNil tokenAmount;
      b ← DealWithErr (db_GetBalance db tokenTypeId);
      Ok (amount + fee <=? b)
    else
      amountB ← DealWithErr (db_GetBalance db tokenTypeId);
      feeB ← DealWithErr (db_GetBalance db ViteTokenId);
      amount ← or_panic PNil tokenAmount;
      Ok ((amount <=? amountB) && (fee <=? feeB)).

(** [util.AddBalance] with an amount that may be nil. *)
Definition addBalance (id : TokenTypeId) (amount : option Z) : M unit :=
  d ← reads (fun db => _ ← DealWithErr (db_GetBalance db id);
                       a ← or_panic PNil amount; AddBalance db id a);
  set_db d.

(** [if !util.SubBalance(...) { return nil, util.ErrInsufficientBalance }] *)
Definition subBalance (id : TokenTypeId) (amount : option Z) : M unit :=
  '(d, enough) ← reads (fun db => _ ← DealWithErr (db_GetBalance db id);
                                  a ← or_panic PNil amount; SubBalance db id a);
  if (enough : bool) then set_db d else fail ErrInsufficientBalance.

(** ** Block fields *)

Definition updateBlock (vm : VM) (block : AccountBlock) (err : option vm_err)
    (qStakeUsed qUsed : Z) : M AccountBlock :=
  let block := set_quotas block qStakeUsed qUsed in
  if IsReceiveBlock (BlockType block) then
    logHash ← reads (fun db =>
      DealWithErr (db_GetLogListHash (n_Hash256 (vm_node vm)) (n_box (vm_node vm)) db));
    mret (set_outcome block
            (if bool_decide (err = Some ErrOutOfQuota) then BlockTypeReceiveError
             else BlockTypeReceive) logHash)
  else mret block.

Definition resultSuccess : byte := x00.
Definition resultFail : byte := x01.
Definition resultDepthErr : byte := x02.

Definition getReceiveCallData (vm : VM) (err : option vm_err) : M bytes := fun c =>
  let '(d, hash) := db_GetReceiptHash (n_Hash256 (vm_node vm)) (vc_db c) in
  Done (hash ++ [match err with
                 | None => resultSuccess
                 | Some ErrDepth => resultDepthErr
                 | Some _ => resultFail
                 end]) (mkContext d (vc_sends c)).

Definition mergeReceiveBlock (receiveBlock : AccountBlock) (sendBlockList : list AccountBlock) :
    AccountBlock := set_SendBlockList receiveBlock sendBlockList.

Definition revert : M unit := fun c => Done tt (mkContext (db_Reset (vc_db c)) []).

(** [vmContext.AppendBlock], which the interpreter has on its own state. *)
Definition appendBlock (block : AccountBlock) : M unit := fun c =>
  Done tt (mkContext (vc_db c) (vc_sends c ++ [block])).

Definition calcContractFee (data : bytes) : result Z := Ok createContractFee.

Definition checkDepth (sendBlock : AccountBlock) (db : vmDb) : result bool :=
  depth ← DealWithErr (db_GetCallDepth db (ab_Hash sendBlock));
  Ok (callDepth <=? depth).

Definition getStakeBeneficialAmount (db : vmDb) : result Z :=
  DealWithErr (db_GetStakeBeneficialAmount db (db_address db)).

Definition useQuotaForSend (block : AccountBlock) (quotaLeft : Z) (gasTable : QuotaTable) (db : vmDb) :
    result Z :=
  cost ← gasSendCall block gasTable;
  quotaMultiplier ← getQuotaMultiplierForS db (ToAddress block);
  cost ← MultipleCost cost quotaMultiplier;
  UseQuota quotaLeft cost.

Definition getContractMeta (db : vmDb) : result (option ContractMeta) :=
  if negb (IsContractAddr (db_address db)) then Ok None
  else
    meta ← DealWithErr (db_GetContractMeta db);
    match meta with Some m => Ok (Some m) | None => Panic PDb end.

(** [quota.GetQuotaForBlock] for the account of the database. *)
Definition blockQuota (vm : VM) (block : AccountBlock) (db : vmDb) : result (Z * Z) :=
  stake ← getStakeBeneficialAmount db;
  GetQuotaForBlock (n_box (vm_node vm)) (n_quota (vm_node vm)) db (AccountAddress block)
    (Some stake) (Difficulty block) (vm_latestSnapshotHeight vm).

(** [quota.GetQuotaForBlock] followed by [util.DealWithErr]. *)
Definition orPanic {A} (r : result A) : result A :=
  match r with Err _ => Panic PDb | r => r end.

(** ** Sending *)

(** The checks on the data of a creation request: group, counts, multiplier, and
    that code which reads the state of the chain waits for snapshot blocks. *)
Definition checkCreateData (box : upgradeBox) (data : bytes) (height : Z) : result ContractMeta :=
  let isSeedFork := IsSeedUpgrade box height in
  if len data <? (if negb isSeedFork then CreateContractDataLengthMin else CreateContractDataLengthMinRand)
  then Err ErrInvalidMethodParam
  else
    gid ← GetGidFromCreateContractData data;
    if bool_decide (gid = SNAPSHOT_GID) then Err ErrInvalidMethodParam
    else
      contractType ← GetContractTypeFromCreateContractData data;
      if negb (IsExistContractType contractType) then Err ErrInvalidMethodParam
      else
        snapshotCount ← GetSnapshotCountFromCreateContractData data;
        if (snapshotCount <? snapshotCountMin) || (snapshotCountMax <? snapshotCount)
        then Err ErrInvalidResponseLatency
        else
          quotaMultiplier ← GetQuotaMultiplierFromCreateContractData box data height;
          if (quotaMultiplier <? 10) || (100 <? quotaMultiplier) then Err ErrInvalidQuotaMultiplier
          else if negb isSeedFork then
            code ← GetCodeFromCreateContractData box data height;
            contains ← ContainsStatusCode code;
            if contains && (snapshotCount <=? 0) then Err ErrInvalidResponseLatency
            else Ok (mkContractMeta gid snapshotCount ZERO_HASH quotaMultiplier snapshotCount)
          else
            snapshotWithSeedCount ← GetSnapshotWithSeedCountCountFromCreateContractData data;
            if (snapshotWithSeedCount <? snapshotWithSeedCountMin)
               || (snapshotWithSeedCountMax <? snapshotWithSeedCount)
               || (snapshotCount <? snapshotWithSeedCount) then Err ErrInvalidRandomDegree
            else
              code ← GetCodeFromCreateContractData box data height;
              '(requireSnapshot, requireSnapshotWithSeed) ← ContainsCertainStatusCode code;
              if requireSnapshot && (snapshotCount <=? 0) then Err ErrInvalidResponseLatency
              else if requireSnapshotWithSeed && (snapshotWithSeedCount <=? 0)
              then Err ErrInvalidRandomDegree
              else Ok (mkContractMeta gid snapshotCount ZERO_HASH quotaMultiplier snapshotWithSeedCount).

Definition sendCreate (vm : VM) (block : AccountBlock) (useQuota : bool)
    (quotaTotal quotaAddition : Z) : M AccountBlock :=
  let n := vm_node vm in
  quotaLeft ← (if useQuota
               then lift (cost ← gasSendCreate block (vm_gasTable vm); UseQuota quotaTotal cost)
               else mret quotaTotal);
  meta ← lift (checkCreateData (n_box n) (Data block) (vm_latestSnapshotHeight vm));
  fee ← lift (calcContractFee (Data block));
  let block := set_Fee block (Some fee) in
  ok ← reads (canTransfer (n_isTest n) (TokenId block) (Amount block) (Fee block));
  if negb ok then fail ErrInsufficientBalance
  else
    let contractAddr :=
      NewContractAddress (n_Hash20 n) (AccountAddress block) (Height block) (PrevHash block) in
    let block := set_ToAddress block contractAddr in
    _ ← subBalance (TokenId block) (Amount block);
    _ ← subBalance ViteTokenId (Fee block);
    let '(qStakeUsed, qUsed) := CalcQuotaUsed useQuota quotaTotal quotaAddition quotaLeft None in
    block ← updateBlock vm block None qStakeUsed qUsed;
    d ← reads (fun db => Ok (db_SetContractMeta db contractAddr meta));
    _ ← set_db d;
    mret block.

(** [p.DoSend(db, block)]: the database and the block change also on an error. *)
Definition doSend (p : BuiltinContractMethod) (block : AccountBlock) : M AccountBlock := fun c =>
  let '(r, d, b) := DoSend p (vc_db c) block in
  match r with
  | Ok _ => Done b (mkContext d (vc_sends c))
  | Err e => Fail e (mkContext d (vc_sends c))
  | Panic q => Abort q
  end.

Definition sendCall (vm : VM) (block : AccountBlock) (useQuota : bool)
    (quotaTotal quotaAddition : Z) : M AccountBlock :=
  let n := vm_node vm in
  '(block, quotaLeft) ←
    match GetBuiltinContractMethod (n_contracts n) (n_box n) (ToAddress block) (Data block)
            (vm_latestSnapshotHeight vm) with
    | MethodNotFound => fail ErrAbiMethodNotFound
    | Method p =>
        fee ← lift (GetFee p block);
        let block := set_Fee block (Some fee) in
        ok ← reads (canTransfer (n_isTest n) (TokenId block) (Amount block) (Fee block));
        if negb ok then fail ErrInsufficientBalance
        else
          quotaLeft ← (if useQuota
                       then lift (cost ← GetSendQuota p (Data block) (vm_gasTable vm);
                                  UseQuota quotaTotal cost)
                       else mret quotaTotal);
          block ← doSend p block;
          _ ← subBalance (TokenId block) (Amount block);
          _ ← subBalance ViteTokenId (Fee block);
          mret (block, quotaLeft)
    | NotBuiltin =>
        let block := set_Fee block (Some 0) in
        quotaLeft ← (if useQuota then reads (useQuotaForSend block quotaTotal (vm_gasTable vm))
                     else mret quotaTotal);
        ok ← reads (canTransfer (n_isTest n) (TokenId block) (Amount block) (Fee block));
        if negb ok then fail ErrInsufficientBalance
        else
          _ ← subBalance (TokenId block) (Amount block);
          mret (block, quotaLeft)
    end;
  let '(qStakeUsed, qUsed) := CalcQuotaUsed useQuota quotaTotal quotaAddition quotaLeft None in
  updateBlock vm block None qStakeUsed qUsed.

Definition sendReward (vm : VM) (block : AccountBlock) (useQuota : bool)
    (quotaTotal quotaAddition : Z) : M AccountBlock :=
  quotaLeft ← (if useQuota then reads (useQuotaForSend block quotaTotal (vm_gasTable vm))
               else mret quotaTotal);
  if negb (bool_decide (AccountAddress block = AddressGovernance))
     && negb (bool_decide (AccountAddress block = AddressAsset)) then fail ErrInvalidMethodParam
  else
    let '(qStakeUsed, qUsed) := CalcQuotaUsed useQuota quotaTotal quotaAddition quotaLeft None in
    updateBlock vm block None qStakeUsed qUsed.

Definition sendRefund (vm : VM) (block : AccountBlock) (useQuota : bool)
    (quotaTotal quotaAddition : Z) : M AccountBlock :=
  let block := set_Fee block (Some 0) in
  quotaLeft ← (if useQuota then reads (useQuotaForSend block quotaTotal (vm_gasTable vm))
               else mret quotaTotal);
  ok ← reads (canTransfer (n_isTest (vm_node vm)) (TokenId block) (Amount block) (Fee block));
  if negb ok then fail ErrInsufficientBalance
  else
    _ ← subBalance (TokenId block) (Amount block);
    let '(qStakeUsed, qUsed) := CalcQuotaUsed useQuota quotaTotal quotaAddition quotaLeft None in
    updateBlock vm block None qStakeUsed qUsed.

(** A block of another type leaves [sendBlock] nil, which is dereferenced. *)
Definition sendOne (vm : VM) (block : AccountBlock) : M AccountBlock :=
  if BlockType block =? BlockTypeSendCall then sendCall vm block false 0 0
  else if BlockType block =? BlockTypeSendReward then sendReward vm block false 0 0
  else if BlockType block =? BlockTypeSendRefund then sendRefund vm block false 0 0
  else crash PNil.

Fixpoint sendAll (vm : VM) (l : list AccountBlock) : M (list AccountBlock) :=
  match l with
  | [] => mret []
  | block :: l =>
      block ← sendOne vm block;
      l ← sendAll vm l;
      mret (block :: l)
  end.

Definition doSendBlockList (vm : VM) : M unit :=
  l ← get_sends;
  l ← sendAll vm l;
  set_sends l.

(** ** Receiving *)

(** What [newContract] and [setCallCode] set up for a run. *)
Definition contractEnv (vm : VM) (block sendBlock : AccountBlock) (data code : bytes) : env :=
  let n := vm_node vm in
  mkEnv (n_box n) (vm_gasTable vm) (vm_latestSnapshotHeight vm) (vm_globalStatus vm) data code
    (AccountAddress block) block sendBlock (n_abort n) (n_Keccak256 n) (n_Hash256 n)
    (n_grow n) (n_contracts n).

(** [contract.run]: the returned data and error, and the quota left. *)
Definition runCode (vm : VM) (block sendBlock : AccountBlock) (data code : bytes) (quotaLeft : Z) :
    M (bytes * option vm_err * Z) := fun c =>
  match runLoop (n_fuel (vm_node vm)) (contractEnv vm block sendBlock data code) (vm_i vm) quotaLeft
          (vc_db c) (vc_sends c) with
  | Returned ret err s => Done (ret, err, Machine.quotaLeft s) (mkContext (db s) (sendBlockList s))
  | Panicked p => Abort p
  | OutOfFuel => Starved
  end.

(** The block of a receive that ends here, with its receipt. *)
Definition withReceipt (vm : VM) (block : AccountBlock) (err : option vm_err) : M vm_result :=
  data ← getReceiveCallData vm err;
  mret (mkResult (Some (set_Data block data)) noRetry err).

Definition withReceiptAndSends (vm : VM) (block : AccountBlock) (err : option vm_err) : M vm_result :=
  data ← getReceiveCallData vm err;
  l ← get_sends;
  mret (mkResult (Some (mergeReceiveBlock (set_Data block data) l)) noRetry err).

(** Send the refunds that were appended; a failure there is logged as
    impossible. *)
Definition sendRefunds (vm : VM) (block : AccountBlock) (err : option vm_err) : M vm_result :=
  r ← try (doSendBlockList vm);
  match r with
  | inl _ => withReceiptAndSends vm block err
  | inr _ => mret (mkResult None retry err)
  end.

(** The creation of the account after the constructor has run: the block is
    done, or the error to report and the block as updated so far. *)
Definition installCode (vm : VM) (block sendBlock : AccountBlock) (code : bytes) (err : option vm_err)
    (quotaLeft : Z) : M (vm_result + option vm_err * AccountBlock) :=
  match err with
  | Some e => mret (inr (Some e, block))
  | None =>
      if maxCodeSize <? len code then mret (inr (None, block))
      else
        contractType ← lift (GetContractTypeFromCreateContractData (Data sendBlock));
        let code := PackContractCode (Z_byte contractType) code in
        let codeCost := u64 (len code * vm_gasTable vm CodeQuota) in
        match UseQuota quotaLeft codeCost with
        | Ok _ =>
            d ← reads (fun db => Ok (db_SetContractCode db code));
            _ ← set_db d;
            block ← updateBlock vm block None 0 0;
            r ← try (doSendBlockList vm);
            match r with
            | inl _ => res ← withReceiptAndSends vm block None; mret (inl res)
            | inr e => mret (inr (Some e, block))
            end
        | Err e => mret (inr (Some e, block))
        | Panic p => crash p
        end
  end.

Definition receiveCreate (vm : VM) (block sendBlock : AccountBlock) (meta : option ContractMeta) :
    M vm_result :=
  let n := vm_node vm in
  prev ← reads (fun db => DealWithErr (db_PrevAccountBlock db));
  match prev with
  | Some _ => mret (mkResult None noRetry (Some ErrAddressCollision))
  | None =>
      or_return noRetry (lift (cost ← gasReceiveCreate meta (vm_gasTable vm);
                               UseQuota QuotaForCreateContractResponse cost)) (fun quotaLeft =>
      _ ← addBalance (TokenId sendBlock) (Amount sendBlock);
      initCode ← lift (GetCodeFromCreateContractData (n_box n) (Data sendBlock)
                         (vm_latestSnapshotHeight vm));
      '(code, err, quotaLeft) ← runCode vm block sendBlock initCode initCode quotaLeft;
      r ← installCode vm block sendBlock code err quotaLeft;
      match r with
      | inl res => mret res
      | inr (err, block) =>
          let err := if bool_decide (err = None) && (maxCodeSize <? len code)
                        && IsEarthUpgrade (n_box n) (vm_latestSnapshotHeight vm)
                     then Some ErrInvalidCodeLength else err in
          _ ← revert;
          block ← updateBlock vm block err 0 0;
          amount ← lift (or_panic PNil (Amount sendBlock));
          if 0 <? amount then
            _ ← appendBlock (MakeRequestBlock (AccountAddress block) (AccountAddress sendBlock)
                               BlockTypeSendRefund amount (TokenId sendBlock) []);
            _ ← addBalance (TokenId sendBlock) (Amount sendBlock);
            sendRefunds vm block err
          else withReceipt vm block err
      end)
  end.

Definition doRefund (block sendBlock : AccountBlock) (refundData : bytes) (needRefund : bool)
    (refundBlockType : Z) : M bool :=
  let refund amount token type :=
    appendBlock (MakeRequestBlock (AccountAddress block) (AccountAddress sendBlock) type
                                  amount token refundData) in
  amount ← lift (or_panic PNil (Amount sendBlock));
  fee ← (if 0 <? amount then lift (or_panic PNil (Fee sendBlock)) else mret 0);
  refundFlag ←
    (if (0 <? amount) && (0 <? fee) && bool_decide (TokenId sendBlock = ViteTokenId) then
       _ ← refund (amount + fee) ViteTokenId refundBlockType;
       _ ← addBalance ViteTokenId (Some (amount + fee));
       mret true
     else
       flag ← (if 0 <? amount then
                 _ ← refund amount (TokenId sendBlock) refundBlockType;
                 _ ← addBalance (TokenId sendBlock) (Some amount);
                 mret true
               else mret false);
       fee ← lift (or_panic PNil (Fee sendBlock));
       if 0 <? fee then
         _ ← refund fee ViteTokenId refundBlockType;
         _ ← addBalance ViteTokenId (Some fee);
         mret true
       else mret flag);
  if negb refundFlag && needRefund then
    _ ← refund 0 ViteTokenId BlockTypeSendCall;
    mret true
  else mret refundFlag.

(** What a failed receive does once the database is reset. *)
Definition refundAndFinish (vm : VM) (block sendBlock : AccountBlock) (refundData : bytes)
    (needRefund : bool) (refundBlockType : Z) (err : option vm_err) (qStakeUsed qUsed : Z) :
    M vm_result :=
  refundFlag ← doRefund block sendBlock refundData needRefund refundBlockType;
  block ← updateBlock vm block err qStakeUsed qUsed;
  if (refundFlag : bool) then sendRefunds vm block err else withReceipt vm block err.

(** [p.DoReceive(db, block, sendBlock, vm)]; an error is a value. *)
Definition doReceive (vm : VM) (p : BuiltinContractMethod) (block sendBlock : AccountBlock) :
    M ((list AccountBlock + vm_err) * AccountBlock) := fun c =>
  let '(r, d, b) := DoReceive p (vc_db c) block sendBlock (vm_globalStatus vm) in
  match r with
  | Ok l => Done (inl l, b) (mkContext d (vc_sends c))
  | Err e => Done (inr e, b) (mkContext d (vc_sends c))
  | Panic q => Abort q
  end.

(** A call of a built-in contract. *)
Definition receiveBuiltin (vm : VM) (p : BuiltinContractMethod) (block sendBlock : AccountBlock) :
    M vm_result :=
  let quotaUsed := GetReceiveQuota p (vm_gasTable vm) in
  or_return noRetry (if 0 <? quotaUsed then reads (blockQuota vm block) else mret (0, 0))
    (fun '(quotaTotal, _) =>
  or_return retry (if 0 <? quotaUsed then lift (UseQuota quotaTotal quotaUsed) else mret 0) (fun _ =>
  _ ← addBalance (TokenId sendBlock) (Amount sendBlock);
  '(r, block) ← doReceive vm p block sendBlock;
  r ← match r with
      | inr e => mret (inr (e, block))
      | inl blockListToSend =>
          block ← updateBlock vm block None quotaUsed quotaUsed;
          _ ← set_sends blockListToSend;
          r ← try (doSendBlockList vm);
          match r with
          | inl _ => res ← withReceiptAndSends vm block None; mret (inl res)
          | inr e => mret (inr (e, block))
          end
      end : M (vm_result + vm_err * AccountBlock);
  match r with
  | inl res => mret res
  | inr (err, block) =>
      _ ← revert;
      let '(refundData, needRefund) := GetRefundData p sendBlock (vm_latestSnapshotHeight vm) in
      refundAndFinish vm block sendBlock refundData needRefund BlockTypeSendCall (Some err)
        quotaUsed quotaUsed
  end)).

(** What follows the run of the code: the blocks it asked for are sent, or the
    database is reset and the sender is refunded. *)
Definition finishContract (vm : VM) (block sendBlock : AccountBlock) (err : option vm_err)
    (quotaTotal quotaAddition quotaLeft : Z) : M vm_result :=
  r ← match err with
      | Some e => mret (inr (e, block))
      | None =>
          let '(qStakeUsed, qUsed) := CalcQuotaUsed true quotaTotal quotaAddition quotaLeft None in
          block ← updateBlock vm block None qStakeUsed qUsed;
          r ← try (doSendBlockList vm);
          match r with
          | inl _ => res ← withReceiptAndSends vm block None; mret (inl res)
          | inr e => mret (inr (e, block))
          end
      end : M (vm_result + vm_err * AccountBlock);
  match r with
  | inl res => mret res
  | inr (err, block) =>
      if bool_decide (err = ErrNoReliableStatus) then mret (mkResult None retry (Some err))
      else
        _ ← revert;
        unConfirmedList ← reads (fun db => Ok (db_GetUnconfirmedBlocks db (db_address db)));
        if bool_decide (err = ErrOutOfQuota) && (0 <? Z.of_nat (length unConfirmedList))
        then mret (mkResult None retry (Some err))
        else
          let '(qStakeUsed, qUsed) :=
            CalcQuotaUsed true quotaTotal quotaAddition quotaLeft (Some err) in
          refundAndFinish vm block sendBlock [] false BlockTypeSendRefund (Some err) qStakeUsed qUsed
  end.

(** A call of a contract or a transfer to a user: [meta] is nil for a user. *)
Definition receiveContract (vm : VM) (block sendBlock : AccountBlock) (meta : option ContractMeta) :
    M vm_result :=
  '(quotaTotal, quotaAddition) ← reads (fun db =>
    orPanic (blockQuota vm block db));
  or_return noRetry (lift (gasReceive meta (vm_gasTable vm))) (fun cost =>
  or_return retry (lift (UseQuota quotaTotal cost)) (fun quotaLeft =>
  _ ← addBalance (TokenId sendBlock) (Amount sendBlock);
  match meta with
  | None =>
      let '(qStakeUsed, qUsed) := CalcQuotaUsed true quotaTotal quotaAddition quotaLeft None in
      block ← updateBlock vm block None qStakeUsed qUsed;
      mret (mkResult (Some block) noRetry None)
  | Some _ =>
      '(_, code) ← reads (fun db => GetContractCode db (AccountAddress block) None);
      '(_, err, quotaLeft) ← runCode vm block sendBlock (Data sendBlock) code quotaLeft;
      finishContract vm block sendBlock err quotaTotal quotaAddition quotaLeft
  end)).

Definition receiveCall (vm : VM) (block sendBlock : AccountBlock) (meta : option ContractMeta) :
    M vm_result :=
  deep ← reads (checkDepth sendBlock);
  if (deep : bool) then
    _ ← addBalance (TokenId sendBlock) (Amount sendBlock);
    data ← getReceiveCallData vm (Some ErrDepth);
    block ← updateBlock vm (set_Data block data) (Some ErrDepth) 0 0;
    mret (mkResult (Some block) noRetry (Some ErrDepth))
  else
    match GetBuiltinContractMethod (n_contracts (vm_node vm)) (n_box (vm_node vm))
            (AccountAddress block) (Data sendBlock) (vm_latestSnapshotHeight vm) with
    | Method p => receiveBuiltin vm p block sendBlock
    | MethodNotFound => crash PNil (* the error is ignored and the method is nil *)
    | NotBuiltin => receiveContract vm block sendBlock meta
    end.

(** [receiveReward] and [receiveRefund] differ only for built-in contracts,
    which receive rewards without quota. *)
Definition receivePlain (vm : VM) (block sendBlock : AccountBlock) (meta : option ContractMeta)
    (charged : bool) : M vm_result :=
  '(quotaTotal, quotaAddition) ←
    (if charged then reads (fun db => orPanic (blockQuota vm block db))
     else mret (0, 0));
  or_return noRetry (if charged then lift (gasReceive meta (vm_gasTable vm)) else mret 0) (fun cost =>
  or_return retry (if charged then lift (UseQuota quotaTotal cost) else mret 0) (fun quotaLeft =>
  _ ← addBalance (TokenId sendBlock) (Amount sendBlock);
  let '(qStakeUsed, qUsed) := CalcQuotaUsed true quotaTotal quotaAddition quotaLeft None in
  block ← updateBlock vm block None qStakeUsed qUsed;
  mret (mkResult (Some block) noRetry None))).

Definition receiveReward (vm : VM) (block sendBlock : AccountBlock) (meta : option ContractMeta) :
    M vm_result :=
  receivePlain vm block sendBlock meta (negb (IsBuiltinContractAddrInUse (AccountAddress block))).

Definition receiveRefund (vm : VM) (block sendBlock : AccountBlock) (meta : option ContractMeta) :
    M vm_result := receivePlain vm block sendBlock meta true.

(** ** Entry points *)

Definition finished (r : exec vm_result) : exec vm_result :=
  match r with
  | Done a c => Done a (mkContext (db_Finish (vc_db c)) (vc_sends c))
  | r => r
  end.

Definition sendV2 (vm : VM) (block : AccountBlock) : M vm_result :=
  if (BlockType block =? BlockTypeSendCreate) || (BlockType block =? BlockTypeSendCall) then
    or_return noRetry (reads (blockQuota vm block)) (fun '(quotaTotal, quotaAddition) =>
    or_return noRetry
      (if BlockType block =? BlockTypeSendCreate then sendCreate vm block true quotaTotal quotaAddition
       else sendCall vm block true quotaTotal quotaAddition) (fun block =>
    mret (mkResult (Some block) noRetry None)))
  else mret (mkResult None noRetry (Some ErrTransactionTypeNotSupport)).

Definition receiveV2 (vm : VM) (block : AccountBlock) (sendBlock : option AccountBlock) : M vm_result :=
  let block := set_Data block [] in
  contractMeta ← reads getContractMeta;
  sendBlock ← lift (or_panic PNil sendBlock);
  if BlockType sendBlock =? BlockTypeSendCreate then receiveCreate vm block sendBlock contractMeta
  else if BlockType sendBlock =? BlockTypeSendCall then receiveCall vm block sendBlock contractMeta
  else if BlockType sendBlock =? BlockTypeSendReward then
    if negb (IsSeedUpgrade (n_box (vm_node vm)) (vm_latestSnapshotHeight vm))
    then receiveCall vm block sendBlock contractMeta
    else receiveReward vm block sendBlock contractMeta
  else if BlockType sendBlock =? BlockTypeSendRefund then receiveRefund vm block sendBlock contractMeta
  else mret (mkResult None noRetry (Some ErrTransactionTypeNotSupport)).

Definition machineAt (n : node) (height : Z) (status : option GlobalStatus) : VM :=
  mkVM n height (QuotaTableByHeight (n_box n) height) status (newInterpreter (n_box n) height false).

Definition RunV2 (n : node) (d : vmDb) (block : AccountBlock) (sendBlock : option AccountBlock)
    (status : option GlobalStatus) : exec vm_result :=
  match DealWithErr (db_LatestSnapshotBlock d) with
  | Ok sb =>
      let blockCopy := Copy block in
      let c := mkContext d [] in
      finished
        (if IsSendBlock (BlockType blockCopy) then sendV2 (machineAt n (sb_Height sb) None) blockCopy c
         else receiveV2 (machineAt n (sb_Height sb) status) blockCopy sendBlock c)
  | Err e => Fail e (mkContext d [])
  | Panic p => Abort p
  end.

(** The three outcomes of [OffChainReader]: data with an error or none; a panic
    of the run, which the deferred function turns into nil data without an
    error; or a run that was not over. *)
Definition OffChainReader (n : node) (d : vmDb) (code data : bytes) : option (bytes * option vm_err) :=
  match db_LatestSnapshotBlock d with
  | Ok sb =>
      let e := mkEnv (n_box n) (QuotaTableByHeight (n_box n) (sb_Height sb)) 0 None data code
                 (db_address d) (set_AccountAddress zero_block (db_address d))
                 (set_ToAddress zero_block (db_address d)) (n_abort n) (n_Keccak256 n) (n_Hash256 n)
                 (n_grow n) (n_contracts n) in
      match runLoop (n_fuel n) e (newInterpreter (n_box n) (sb_Height sb) true) offChainReaderGas d [] with
      | Returned ret err _ => Some (ret, err)
      | Panicked _ => Some ([], None)
      | OutOfFuel => None
      end
  | Err _ => Some ([], Some ErrDb)
  | Panic _ => Some ([], None)
  end.
