(* ===== verification/World.v ===== *)
(** A small concrete world: a chain, the code at its latest version, a node and a
    program, on which definitions can be run.  The hash functions are constants. *)
From S2P Require Import Prelude Helper Types Upgrade QuotaTable VmDb AccountQuota Builtin Opcodes.
From S2P Require Import CreateData Destination Machine Instructions GasTable JumpTable Interpreter Vm.

(** A chain at height 100 on which [used] quota was used lately.  Every account
    has 10^20 of every token and a stake, and no blocks. *)
Definition example_chain (used : Z) : Chain :=
  mkChain (fun _ _ => Ok (10 ^ 20)) (fun _ => Ok []) (fun _ => Ok None) (fun _ => Ok None)
    (fun _ _ => Ok None) (fun _ => Ok (Some (mkSnapshotBlock ZERO_HASH 100 0))) (fun _ => Ok None)
    (fun _ => []) (fun _ => Ok (10 ^ 24))
    (fun _ _ => Ok []) (fun _ => Ok 0)
    (fun _ => [mkQuotaInfo 0 0 0]) (mkQuotaInfo 0 0 used) (fun _ => Ok 0) (fun _ => Ok None)
    (fun _ _ => Ok []) (mkSnapshotBlock ZERO_HASH 1 0)
    (fun height => Ok (if (1 <=? height) && (height <=? 100) then Some (mkSnapshotBlock ZERO_HASH height 0) else None)).

Definition example_db : vmDb := NewVmDb (example_chain 0) ZERO_ADDRESS ZERO_HASH ZERO_HASH.

(** The same on a congested chain. *)
Definition busy_db : vmDb := NewVmDb (example_chain (10 ^ 8)) ZERO_ADDRESS ZERO_HASH ZERO_HASH.

Definition example_box : upgradeBox :=
  match NewLatestUpgradeBox with Ok box => box | _ => mkBox ∅ ∅ [] end.

Definition example_env (code : bytes) : env :=
  mkEnv example_box (QuotaTableByHeight example_box 100) 100 None [] code ZERO_ADDRESS
    zero_block zero_block (fun _ => false) (fun _ => ZERO_HASH) (fun _ => ZERO_HASH)
    (fun _ n => n) (fun _ _ => None).

(** The state after [n] rounds. *)
Fixpoint state_after (n : nat) (e : env) (i : instruction_set) (s : mstate) : mstate :=
  match n with
  | O => s
  | S n' => match step e i s with Next s' => state_after n' e i s' | _ => s end
  end.

(** Store a byte, then call the zero address with 64 bytes of call data:
    PUSH1 1 PUSH1 0 MSTORE8 PUSH1 64 PUSH1 0 PUSH1 0 PUSH1 0 PUSH1 0 CALL *)
Definition call_code : bytes :=
  [x60; x01; x60; x00; x53; x60; x40; x60; x00; x60; x00; x60; x00; x60; x00; xf1].

Definition example_run (n : nat) (code : bytes) : mstate :=
  state_after n (example_env code) (newInterpreter example_box 100 false)
              (newContract 1000000 example_db []).

(** A built-in contract at the governance address, whose only method packs its
    parameters again and charges for them. *)
Definition example_method : BuiltinContractMethod :=
  mkMethod (fun _ => Ok 0) (fun d b => (Ok tt, d, set_Data b (take 4 (Data b))))
    (fun data _ => if len data <? 4 then Err ErrInvalidMethodParam else Ok 21000)
    (fun d b _ _ => (Ok [], d, b)) (fun _ => 0) (fun _ _ => ([], false)).

Definition example_contracts (g : generation) : contractsMap := fun a =>
  if bool_decide (a = AddressGovernance)
  then Some (fun sel => if len sel <? 4 then None else Some example_method) else None.

Definition example_node : node :=
  mkNode example_box false (InitQuotaConfig false false) example_contracts (fun _ => ZERO_HASH)
    (fun _ => ZERO_HASH) (fun _ => zero_bytes 20) (fun _ n => n) (fun _ => false) 1000.

(** The same chain as seen from a contract with the given code. *)
Definition contract_addr : Address := zero_bytes 20 ++ [x01].

Definition contract_db (code : bytes) : vmDb :=
  let ch := example_chain 0 in
  NewVmDb (mkChain (ch_GetBalance ch) (fun _ => Ok (x01 :: code))
             (fun _ => Ok (Some (mkContractMeta DELEGATE_GID 0 ZERO_HASH 10 0)))
             (ch_GetConfirmSnapshotHeaderByAbHash ch) (ch_GetContractMetaInSnapshot ch)
             (ch_GetSnapshotHeaderByHash ch) (ch_GetAccountBlockByHash ch) (ch_GetUnconfirmedBlocks ch)
             (ch_GetStakeBeneficialAmount ch) (ch_GetValue ch) (ch_GetCallDepth ch)
             (ch_GetQuotaUsedList ch) (ch_GetGlobalQuota ch) (ch_GetConfirmedTimes ch)
             (ch_GetLatestAccountBlock ch) (ch_GetStorageIterator ch)
             (ch_GetGenesisSnapshotBlock ch) (ch_GetSnapshotBlockByHeight ch))
    contract_addr ZERO_HASH ZERO_HASH.

(** Send 3 units to the zero address:
    PUSH1 0 PUSH1 0 PUSH1 3 PUSH10 ViteTokenId PUSH1 0 CALL *)
Definition pay_code : bytes :=
  [x60; x00; x60; x00; x60; x03; x69] ++ ViteTokenId ++ [x60; x00; xf1].

(** PUSH1 0 PUSH1 0 REVERT *)
Definition revert_code : bytes := [x60; x00; x60; x00; xfd].

(** A call of the contract with 5 units, and the block that receives it. *)
Definition example_call : AccountBlock :=
  set_Fee (MakeRequestBlock ZERO_ADDRESS contract_addr BlockTypeSendCall 5 ViteTokenId []) (Some 0).

Definition example_receive : AccountBlock :=
  MakeRequestBlock contract_addr ZERO_ADDRESS BlockTypeReceive 0 ViteTokenId [].
