(* ===== verification/DexWorld.v ===== *)
(** A small concrete exchange on which the matcher can be run: a serialization
    of orders, markets and serial numbers as one big number, a market and a
    chain that holds one resting sell order. *)
From S2P Require Import Prelude Helper Float Types Upgrade VmDb Iterator World DexNumber DexOrder DexMatcher.
#[local] Open Scope Z_scope.

(** ** Serialization *)

Definition nums (bs : bytes) : list Z := byte_Z <$> bs.
Definition unnums (l : list Z) : bytes := Z_byte <$> l.
Definition flag (b : bool) : list Z := if b then [1] else [].
Definition unflag (l : list Z) : bool := bool_decide (l = [1]).

Definition pack (fields : list (list Z)) : bytes := Bytes (Z.pos (encode fields)).
Definition unpack (bs : bytes) : option (list (list Z)) := decode (Z.to_pos (SetBytes bs)).

Definition order_fields (o : Order) : list (list Z) :=
  [nums (od_Id o); nums (od_Address o); [od_MarketId o]; flag (od_Side o); [od_Type o]; nums (od_Price o);
   [od_TakerFeeRate o]; [od_MakerFeeRate o]; [od_TakerOperatorFeeRate o]; [od_MakerOperatorFeeRate o];
   nums (od_Quantity o); nums (od_Amount o); nums (od_LockedBuyFee o); [od_Status o]; [od_CancelReason o];
   nums (od_ExecutedQuantity o); nums (od_ExecutedAmount o); nums (od_ExecutedBaseFee o);
   nums (od_ExecutedOperatorFee o); nums (od_RefundToken o); nums (od_RefundQuantity o); [od_Timestamp o];
   nums (od_Agent o); nums (od_SendHash o); nums (od_MarketOrderAmtThreshold o)].

Definition fields_order (l : list (list Z)) : option Order :=
  match l with
  | [id; address; [marketId]; side; [type]; price; [tr]; [mr]; [tor]; [mor]; quantity; amount; fee; [status];
     [reason]; eq; ea; eb; eo; rt; rq; [timestamp]; agent; hash; threshold] =>
      Some (mkOrder (unnums id) (unnums address) marketId (unflag side) type (unnums price) tr mr tor mor
              (unnums quantity) (unnums amount) (unnums fee) status reason (unnums eq) (unnums ea) (unnums eb)
              (unnums eo) (unnums rt) (unnums rq) timestamp (unnums agent) (unnums hash) (unnums threshold))
  | _ => None
  end.

Definition market_fields (m : MarketInfo) : list (list Z) :=
  [[mk_MarketId m]; nums (mk_MarketSymbol m); nums (mk_TradeToken m); nums (mk_QuoteToken m);
   [mk_QuoteTokenType m]; [mk_TradeTokenDecimals m]; [mk_QuoteTokenDecimals m]; [mk_TakerOperatorFeeRate m];
   [mk_MakerOperatorFeeRate m]; flag (mk_AllowMining m); flag (mk_Valid m); nums (mk_Owner m);
   nums (mk_Creator m); flag (mk_Stopped m); [mk_Timestamp m]; flag (mk_StableMarket m)].

Definition fields_market (l : list (list Z)) : option MarketInfo :=
  match l with
  | [[id]; symbol; trade; quote; [qt]; [td]; [qd]; [tor]; [mor]; mining; valid; owner; creator; stopped; [ts]; stable] =>
      Some (mkMarketInfo id (unnums symbol) (unnums trade) (unnums quote) qt td qd tor mor (unflag mining)
              (unflag valid) (unnums owner) (unnums creator) (unflag stopped) ts (unflag stable))
  | _ => None
  end.

Definition fields_serial (l : list (list Z)) : option SerialNo :=
  match l with [[no; ts]] => Some (mkSerialNo no ts) | _ => None end.

Definition example_dex : dexEnv :=
  mkDexEnv (fun o => pack (order_fields o)) (fun bs => unpack bs ≫= fields_order)
    (fun m => pack (market_fields m)) (fun bs => unpack bs ≫= fields_market)
    (fun s => pack [[sn_No s; sn_Timestamp s]]) (fun bs => unpack bs ≫= fields_serial)
    (fun n _ => zero_bytes (Z.to_nat n)) (fun _ => mkVmLog [] []) example_box 50.

(** ** A market with one resting order *)

Definition example_token (trade : bool) : TokenTypeId := zero_bytes 9 ++ [if trade then x01 else x02].

(** Quoted in a dollar token; all decimals are 6. *)
Definition example_market : MarketInfo :=
  mkMarketInfo 1 [] (example_token true) (example_token false) 4 6 6 0 0 false true [] [] false 0 false.

Definition seller : Address := zero_bytes 20 ++ [x05].
Definition buyer : Address := zero_bytes 20 ++ [x06].

(** The price 0.5 *)
Definition half_price : bytes := PriceToBytes [x30; x2e; x35].

Definition example_order (address : bytes) (side : bool) (quantity amount fee : Z) (serialNo : Z) : Order :=
  mkOrder (order_id 1 side half_price 1600000000 serialNo) address 1 side Limited half_price
    200 200 0 0 (Bytes quantity) (Bytes amount) (Bytes fee) Pending cancelledByUser [] [] [] [] [] []
    1600000000 [] [] [].

(** 1000000 units for sale, 400000 to buy. *)
Definition example_maker : Order := example_order seller true 1000000 500000 0 3.
Definition example_taker : Order := example_order buyer false 400000 200000 400 4.

Definition maker_data : bytes := SerializeCompact example_dex example_maker.

Definition dex_chain : Chain :=
  let ch := example_chain 0 in
  mkChain (ch_GetBalance ch) (ch_GetContractCode ch) (ch_GetContractMeta ch)
    (ch_GetConfirmSnapshotHeaderByAbHash ch) (ch_GetContractMetaInSnapshot ch)
    (ch_GetSnapshotHeaderByHash ch) (ch_GetAccountBlockByHash ch) (ch_GetUnconfirmedBlocks ch)
    (ch_GetStakeBeneficialAmount ch)
    (fun _ key => Ok (if decide (key = od_Id example_maker) then maker_data else []))
    (ch_GetCallDepth ch)
    (ch_GetQuotaUsedList ch) (ch_GetGlobalQuota ch) (ch_GetConfirmedTimes ch) (ch_GetLatestAccountBlock ch)
    (fun _ prefix => Ok (if decide (prefix `prefix_of` od_Id example_maker)
                         then [(od_Id example_maker, maker_data)] else []))
    (ch_GetGenesisSnapshotBlock ch) (ch_GetSnapshotBlockByHeight ch).

Definition dex_db : vmDb := NewVmDb dex_chain ZERO_ADDRESS ZERO_HASH ZERO_HASH.

Definition example_matcher : Matcher := NewMatcherWithMarketInfo dex_db example_market.

(** ** What the proofs need of it *)

Lemma unnums_nums bs : unnums (nums bs) = bs.
Proof. unfold unnums, nums; induction bs as [|b bs IH]; [done|]; rewrite !fmap_cons, IH; by rewrite Z_byte_Z. Qed.

Lemma unflag_flag b : unflag (flag b) = b.
Proof. by destruct b. Qed.

Lemma unpack_pack l : unpack (pack l) = Some l.
Proof. unfold unpack, pack; rewrite SetBytes_Bytes by done; apply decode_encode. Qed.

Lemma order_roundtrip o : unmarshal_Order example_dex (marshal_Order example_dex o) = Some o.
Proof.
  simpl; rewrite unpack_pack; simpl; rewrite !unnums_nums, unflag_flag; by destruct o.
Qed.

Lemma pack_not_empty l : pack l <> [].
Proof. intros H; apply (f_equal SetBytes) in H; unfold pack in H; by rewrite SetBytes_Bytes in H. Qed.

Lemma dex_db_value k : db_GetOriginalValue dex_db k = Ok (if decide (k = od_Id example_maker) then maker_data else []).
Proof. done. Qed.

Lemma maker_prefix : getBookPrefix 1 true `prefix_of` od_Id example_maker.
Proof. exists (drop 4 (od_Id example_maker)); by vm_compute. Qed.

Lemma taker_prefix : getBookPrefix 1 false `prefix_of` od_Id example_taker.
Proof. exists (drop 4 (od_Id example_taker)); by vm_compute. Qed.

Lemma maker_data_not_empty : maker_data <> [].
Proof. apply pack_not_empty. Qed.
