(* ===== verification/ContractWorld.v ===== *)
(** Built-in contracts on a small concrete chain: a hash function under which their
    selectors differ, an account whose storage is a given map, a node with the
    contracts, and calls of them. *)
From Stdlib Require Import Ascii String.
From stdpp Require Import strings sorting.
From S2P Require Import Prelude Helper Types Upgrade QuotaTable VmDb AccountQuota Builtin Opcodes.
From S2P Require Import CreateData Machine Vm World Abi ContractUtil QuotaContract AssetContract.
#[local] Open Scope Z_scope.

(** Four bytes of a polynomial in the input, and zeros. *)
Definition toyHash (x : bytes) : bytes :=
  be_bytes 4 (fold_left (fun a b => (a * 31 + byte_Z b) mod 2 ^ 32) x 7) ++ zero_bytes 28.

Definition toyHash10 (x : bytes) : bytes := take 10 (toyHash x).

(** The example chain with the balances and the storage of one account. *)
Definition storage_chain (bal : TokenTypeId -> Z) (m : gmap bytes bytes) : Chain :=
  let ch := example_chain 0 in
  mkChain (fun _ t => Ok (bal t)) (ch_GetContractCode ch) (fun _ => Ok (Some (mkContractMeta DELEGATE_GID 0 ZERO_HASH 10 0)))
    (ch_GetConfirmSnapshotHeaderByAbHash ch) (ch_GetContractMetaInSnapshot ch)
    (ch_GetSnapshotHeaderByHash ch) (ch_GetAccountBlockByHash ch) (ch_GetUnconfirmedBlocks ch)
    (ch_GetStakeBeneficialAmount ch) (fun _ k => Ok (default [] (m !! k))) (ch_GetCallDepth ch)
    (ch_GetQuotaUsedList ch) (ch_GetGlobalQuota ch) (ch_GetConfirmedTimes ch)
    (ch_GetLatestAccountBlock ch)
    (fun _ prefix => Ok (filter (fun kv => prefix `prefix_of` kv.1 /\ kv.2 <> []) (storage_list m)))
    (ch_GetGenesisSnapshotBlock ch) (ch_GetSnapshotBlockByHeight ch).

Definition contract_storage (a : Address) (bal : TokenTypeId -> Z) (m : gmap bytes bytes) : vmDb :=
  NewVmDb (storage_chain bal m) a ZERO_HASH ZERO_HASH.

Definition quota_db (bal : Z) (m : gmap bytes bytes) : vmDb := contract_storage Types.AddressQuota (fun _ => bal) m.

Definition contract_node : node :=
  mkNode example_box false (InitQuotaConfig false false)
    (fun g a => if bool_decide (a = Types.AddressQuota) then Some (quotaContract toyHash 3 g)
                else if bool_decide (a = AddressAsset) then Some (assetContract toyHash toyHash10 example_box g) else None)
    (fun _ => ZERO_HASH) (fun _ => ZERO_HASH) (fun _ => zero_bytes 20) (fun _ n => n) (fun _ => false) 1000.

Definition at_height (height : Z) : option GlobalStatus :=
  Some (mkGlobalStatus (Ok 0) (fun _ => Ok 0) (Some (mkSnapshotBlock ZERO_HASH height 0))).

Definition someone : Address := zero_bytes 20 ++ [x00].
Definition request_hash (i : byte) : Hash := zero_bytes 31 ++ [i].

(** A call of contract [to] with some amount and fee, and the block that receives it at height [h]. *)
Definition contract_call (to : Address) (abi : ABIContract) (hash : Hash) (amount : Z) (token : TokenTypeId) (fee : Z)
    (name : string) (vs : list abiValue) : AccountBlock :=
  let b := MakeRequestBlock someone to BlockTypeSendCall amount token
             match PackMethod abi name vs with Ok data => data | _ => [] end in
  {| BlockType := BlockType b; ab_Hash := hash; PrevHash := PrevHash b; Height := Height b;
     AccountAddress := AccountAddress b; PublicKey := []; ToAddress := ToAddress b;
     Amount := Amount b; TokenId := TokenId b; FromBlockHash := FromBlockHash b; Data := Data b;
     Quota := 0; QuotaUsed := 0; Fee := Some fee; LogHash := None; Difficulty := None;
     Nonce := []; SendBlockList := []; Signature := [] |}.

Definition contract_receive (to : Address) (h : Z) : AccountBlock :=
  let b := MakeRequestBlock to someone BlockTypeReceive 0 ViteTokenId [] in
  {| BlockType := BlockType b; ab_Hash := ZERO_HASH; PrevHash := PrevHash b; Height := h;
     AccountAddress := AccountAddress b; PublicKey := []; ToAddress := ToAddress b;
     Amount := Amount b; TokenId := TokenId b; FromBlockHash := FromBlockHash b; Data := Data b;
     Quota := 0; QuotaUsed := 0; Fee := Some 0; LogHash := None; Difficulty := None;
     Nonce := []; SendBlockList := []; Signature := [] |}.

Definition quota_call (hash : Hash) (amount : Z) (name : string) (vs : list abiValue) : AccountBlock :=
  contract_call Types.AddressQuota (ABIQuota toyHash) hash amount ViteTokenId 0 name vs.
Definition quota_receive (h : Z) : AccountBlock := contract_receive Types.AddressQuota h.

(** The storage after the contract received [s] in a block at height [h], with the snapshot at [height]. *)
Definition after (h height : Z) (m : gmap bytes bytes) (s : AccountBlock) : gmap bytes bytes :=
  match quotaContract toyHash 3 earthContracts (Data s) with
  | Some p => match DoReceive p (quota_db 0 m) (quota_receive h) s (at_height height) with
              | (Ok _, d, _) => storage (uns d) ∪ m
              | _ => m
              end
  | None => m
  end.
