(* ===== verification/RewardSpec.v ===== *)
(** The rewards of snapshot block producers: what is paid for a day, and for which days. *)
From Stdlib Require Import ZifyBool.
From stdpp Require Import list_numbers.
From S2P Require Import Prelude Helper Types Upgrade VmDb TimeIndex SbpStats ContractUtil GovernanceContract.
#[local] Open Scope Z_scope.

(** ** One day *)

Definition votes (d : DayStats) : Z := msum (fun _ s => default 0 (ss_VoteCnt s)) (ds_Stats d).

(** The statistics of a day: as many blocks produced as expected at most, and the totals. *)
Record day_ok (d : DayStats) : Prop := {
  do_sbp name s : ds_Stats d !! name = Some s ->
    0 <= ss_BlockNum s <= ss_ExceptedBlockNum s /\ exists v, ss_VoteCnt s = Some v /\ 0 <= v;
  do_votes : ds_VoteSum d = Some (votes d);
  do_blocks : msum (fun _ s => ss_BlockNum s) (ds_Stats d) <= ds_BlockTotal d;
}.

(** The reward of a day by name. *)
Definition reward_of (d : DayStats) (stake : Z) (s : SbpStats) : Reward :=
  if ss_ExceptedBlockNum s =? 0 then newZeroReward
  else
    let voteReward := (default 0 (ss_VoteCnt s) + stake) * ds_BlockTotal d * 50 * rewardPerBlock * ss_BlockNum s
                      / (Z.of_nat (size (ds_Stats d)) * stake + votes d) / ss_ExceptedBlockNum s / 100 in
    let blockReward := ss_BlockNum s * 50 * rewardPerBlock / 100 in
    mkReward voteReward blockReward (voteReward + blockReward) (ss_BlockNum s) (ss_ExceptedBlockNum s).
Definition day_reward (d : DayStats) (name : bytes) (stake : Z) : Reward :=
  from_option (reward_of d stake) newZeroReward (ds_Stats d !! name).

Lemma votes_nonneg d : day_ok d -> 0 <= votes d.
Proof. intros Hd; apply msum_nonneg; intros k s E; destruct (do_sbp _ Hd _ _ E) as (_ & v & -> & ?); done. Qed.

Lemma blocks_nonneg d : day_ok d -> 0 <= ds_BlockTotal d.
Proof.
  intros Hd; etrans; [|apply (do_blocks _ Hd)]; apply msum_nonneg; intros k s E; destruct (do_sbp _ Hd _ _ E) as [? _]; lia.
Qed.

Lemma size_pos d name (s : SbpStats) : ds_Stats d !! name = Some s -> 1 <= Z.of_nat (size (ds_Stats d)).
Proof.
  intros E; assert (size (ds_Stats d) <> 0%nat); [|lia].
  apply (map_size_ne_0_lookup_2 _ name); by exists s.
Qed.

(** On the statistics of a day no division fails. *)
Lemma calcRewardByDayDetail_ok d name stake : day_ok d -> 0 < stake -> calcRewardByDayDetail d name stake = Ok (day_reward d name stake).
Proof.
  intros Hd Hs; unfold calcRewardByDayDetail, day_reward; destruct (ds_Stats d !! name) as [s|] eqn:E; [|done]; simpl.
  destruct (do_sbp _ Hd _ _ E) as (Hb & v & Ev & Hv); unfold reward_of; rewrite Ev, (do_votes _ Hd); unfold big; simpl.
  destruct (Z.eqb_spec (ss_ExceptedBlockNum s) 0); [done|].
  pose proof (votes_nonneg d Hd); pose proof (blocks_nonneg d Hd); pose proof (size_pos d name s E).
  assert (0 < rewardPerBlock) by (vm_compute; done).
  assert (HN : 0 <= (v + stake) * ds_BlockTotal d * 50 * rewardPerBlock * ss_BlockNum s) by (repeat apply Z.mul_nonneg_nonneg; lia).
  assert (HD : 0 < Z.of_nat (size (ds_Stats d)) * stake + votes d) by nia.
  rewrite big_Quo_pos, bind_Ok, big_Quo_pos, bind_Ok, !Z.quot_div_nonneg;
    try done; repeat (apply Z.div_pos; [|lia]); lia.
Qed.

(** Half of the reward of a day is shared by votes, half by blocks. *)
Lemma reward_halves d stake name s : day_ok d -> 0 < stake -> ds_Stats d !! name = Some s ->
  let D := Z.of_nat (size (ds_Stats d)) * stake + votes d in
  let r := reward_of d stake s in
  0 < D /\ 0 <= rw_VoteReward r /\ 0 <= rw_BlockReward r /\ rw_TotalReward r = rw_VoteReward r + rw_BlockReward r /\
  2 * D * rw_VoteReward r <= (default 0 (ss_VoteCnt s) + stake) * (rewardPerBlock * ds_BlockTotal d) /\
  2 * rw_BlockReward r <= rewardPerBlock * ss_BlockNum s.
Proof.
  intros Hd Hs E D r; destruct (do_sbp _ Hd _ _ E) as (Hb & v & Ev & Hv); unfold r, reward_of; rewrite Ev; cbn [default from_option].
  pose proof (votes_nonneg d Hd); pose proof (blocks_nonneg d Hd); pose proof (size_pos d name s E).
  assert (HD : 0 < D) by (unfold D; nia); assert (Hr : 0 < rewardPerBlock) by (vm_compute; done).
  assert (HT : 0 <= rewardPerBlock * ds_BlockTotal d) by nia.
  destruct (Z.eqb_spec (ss_ExceptedBlockNum s) 0) as [|He]; cbn -[Z.mul Z.add]; [split_and!; try lia; try nia|].
  fold D; generalize dependent (ss_ExceptedBlockNum s); intros X HX He; generalize dependent (ss_BlockNum s); intros B HX.
  set (R := rewardPerBlock) in *; set (T := ds_BlockTotal d) in *; clearbody R T D; set (N := (v + stake) * T * 50 * R * B).
  assert (HN : 0 <= N) by (unfold N; repeat apply Z.mul_nonneg_nonneg; lia).
  assert (HNX : N <= (v + stake) * (R * T) * 50 * X) by (unfold N; nia).
  pose proof (Z.div_pos N D HN HD); set (q1 := N / D) in *; assert (D * q1 <= N) by (apply Z.mul_div_le; lia).
  assert (0 <= q1 / X) by (apply Z.div_pos; lia); set (q2 := q1 / X) in *; assert (X * q2 <= q1) by (apply Z.mul_div_le; lia).
  assert (0 <= q2 / 100) by (apply Z.div_pos; lia); set (q3 := q2 / 100) in *; assert (100 * q3 <= q2) by (apply Z.mul_div_le; lia).
  assert (0 <= B * 50 * R / 100) by (apply Z.div_pos; nia); assert (100 * (B * 50 * R / 100) <= B * 50 * R) by (apply Z.mul_div_le; lia).
  split_and!; try lia; try done.
  assert (Hq : X * (100 * q3) <= q1) by nia; pose proof (Z.mul_le_mono_nonneg_l _ _ D ltac:(lia) Hq).
  apply (Z.mul_le_mono_pos_r _ _ (50 * X)); lia.
Qed.

(** The rewards of a day together. *)
Lemma rewards_of_day d stake : day_ok d -> 0 < stake ->
  msum (fun _ s => rw_TotalReward (reward_of d stake s)) (ds_Stats d) <= rewardPerBlock * ds_BlockTotal d.
Proof.
  intros Hd Hs; destruct (decide (ds_Stats d = ∅)) as [->|Hne].
  { rewrite msum_empty; pose proof (blocks_nonneg d Hd); assert (0 < rewardPerBlock) by (vm_compute; done); nia. }
  set (D := Z.of_nat (size (ds_Stats d)) * stake + votes d); set (R := rewardPerBlock * ds_BlockTotal d).
  assert (HD : 0 < D).
  { apply map_choose in Hne as (name & s & E); by destruct (reward_halves d stake name s Hd Hs E). }
  assert (Hv : 2 * D * msum (fun _ s => rw_VoteReward (reward_of d stake s)) (ds_Stats d) <= D * R).
  { rewrite <- msum_scale; etrans; [apply (msum_le_sum _ (fun _ s => R * default 0 (ss_VoteCnt s) + R * stake))|].
    - intros name s E; destruct (reward_halves d stake name s Hd Hs E) as (_ & _ & _ & _ & H & _); fold D R in H; lia.
    - rewrite msum_plus, msum_scale, msum_const; unfold D, votes; lia. }
  assert (Hb : 2 * msum (fun _ s => rw_BlockReward (reward_of d stake s)) (ds_Stats d) <= R).
  { rewrite <- msum_scale; etrans; [apply (msum_le_sum _ (fun _ s => rewardPerBlock * ss_BlockNum s))|].
    - intros name s E; by destruct (reward_halves d stake name s Hd Hs E) as (_ & _ & _ & _ & _ & H).
    - rewrite msum_scale; apply Z.mul_le_mono_nonneg_l; [vm_compute; done|apply Hd]. }
  assert (He : msum (fun _ s => rw_TotalReward (reward_of d stake s)) (ds_Stats d) <=
    msum (fun _ s => rw_VoteReward (reward_of d stake s) + rw_BlockReward (reward_of d stake s)) (ds_Stats d)).
  { apply msum_le_sum; intros name s E; destruct (reward_halves d stake name s Hd Hs E) as (_ & _ & _ & -> & _); lia. }
  rewrite msum_plus in He; nia.
Qed.

(** ** The query of a cycle *)

Lemma stake_amounts : 0 < SbpStakeAmountPreMainnet /\ 0 < SbpStakeAmountMainnet.
Proof. by vm_compute. Qed.

Lemma stake_positive box reader db g i f r : getSnapshotGroupStakeAmount box reader db g i f = Ok r -> 0 < r.1.
Proof.
  pose proof stake_amounts as Hst; unfold getSnapshotGroupStakeAmount; intros (sb & _ & H)%outcome_bind_ok.
  destruct (negb _); [simplify_eq; simpl; lia|]; apply outcome_bind_ok in H as (fi & _ & H); simplify_eq; simpl; destruct (_ <=? _); lia.
Qed.

Lemma fold_rewards d stake : day_ok d -> 0 < stake ->
  map_fold (fun name _ acc => m ← acc; r ← calcRewardByDayDetail d name stake; Ok (<[name := r]> m)) (Ok ∅ : result (gmap bytes Reward)) (ds_Stats d)
  = Ok (reward_of d stake <$> ds_Stats d).
Proof.
  intros Hd Hs; enough (H : forall m, m ⊆ ds_Stats d ->
    map_fold (fun name _ acc => m ← acc; r ← calcRewardByDayDetail d name stake; Ok (<[name := r]> m)) (Ok ∅ : result (gmap bytes Reward)) m
    = Ok (reward_of d stake <$> m)) by by apply H.
  intros m; apply (map_fold_weak_ind (fun acc m => m ⊆ ds_Stats d -> acc = Ok (reward_of d stake <$> m))); [intros _; by rewrite fmap_empty|].
  intros name s m' acc Hn IH Hsub; assert (E : ds_Stats d !! name = Some s) by (eapply lookup_weaken; [apply lookup_insert_eq|exact Hsub]).
  rewrite IH, bind_Ok, calcRewardByDayDetail_ok, bind_Ok by (done || (etrans; [by apply insert_subseteq|exact Hsub])).
  unfold day_reward; rewrite E; simpl; by rewrite fmap_insert.
Qed.

(** C25 No more than the reward per block is paid for a block.  The rewards that
    the contract computes for the SBPs in one cycle, by their votes and by the
    blocks they produced, are what each of them can withdraw for the cycle, none is
    negative, and together they are at most the number of snapshot blocks of the
    cycle times the reward per block, however the votes are distributed. *)
Theorem cycle_rewards_bounded box reader db index d l m : cr_GetConsensusDetailByDay reader index index = Ok (d :: l) -> day_ok d ->
  CalcRewardByIndex box reader db index = Ok (Some m) ->
  (exists stake f, getSnapshotGroupStakeAmount box reader db (sb_Timestamp (db_GetGenesisSnapshotBlock db)) index 0 = Ok (stake, f) /\
     forall name, m !! name = reward_of d stake <$> ds_Stats d !! name) /\
  (forall name r, m !! name = Some r -> 0 <= rw_TotalReward r) /\
  msum (fun _ r => rw_TotalReward r) m <= rewardPerBlock * ds_BlockTotal d.
Proof.
  intros Hr Hd H; assert (Hm : exists stake f, getSnapshotGroupStakeAmount box reader db (sb_Timestamp (db_GetGenesisSnapshotBlock db)) index 0 = Ok (stake, f) /\
    0 < stake /\ m = reward_of d stake <$> ds_Stats d).
  { unfold CalcRewardByIndex in H; destruct (db_LatestSnapshotBlock db) as [sb| |]; [|done..]; cbn [or_db_err] in H; rewrite bind_Ok in H.
    destruct (_ <? _); [done|]; destruct (getSnapshotGroupStakeAmount _ _ _ _ _ _) as [[stake f]| |] eqn:Es; [|done..].
    pose proof (stake_positive _ _ _ _ _ _ _ Es) as Hs; cbn [fst] in Hs; rewrite bind_Ok in H; unfold calcRewardByDay in H; rewrite Hr in H; cbn [or_db_err] in H.
    rewrite bind_Ok, fold_rewards in H by done; exists stake, f; split_and!; [done..|]; by injection H as <-. }
  destruct Hm as (stake & f & Ef & Hs & ->); split_and!.
  - exists stake, f; split; [done|]; intros name; apply lookup_fmap.
  - intros name r; rewrite lookup_fmap; intros (s & E & ->)%fmap_Some.
    destruct (reward_halves d stake name s Hd Hs E) as (_ & ? & ? & -> & _); lia.
  - unfold msum at 1; rewrite map_to_list_fmap, zsum_fmap; exact (rewards_of_day d stake Hd Hs).
Qed.

(** ** The cycles that are paid *)

(** The cycles that are over at a time, and the first cycle that starts at or after one. *)
Definition cycles_before (g t : Z) : Z := Z.max 0 ((t - g) / 86400).
Definition first_cycle (g t : Z) : Z := if t <=? g then 0 else (t - 1 - g) / 86400 + 1.

(** A reader over cycles of whole days since [g], up to [last]: the days with
    statistics, in order.  The first one with none is no error. *)
Record reads_days (reader : ConsensusReader) (g last : Z) (stats : Z -> option DayStats) : Prop := {
  rd_day : whole (cr_day reader) g 86400 last;
  rd_genesis : 0 <= g < 2 ^ 62 /\ 0 < last;
  rd_details a b : 0 <= a <= b -> b < last -> cr_GetConsensusDetailByDay reader a b = Ok (omap stats (seqZ a (b - a + 1)));
  rd_stats i d : stats i = Some d -> ds_Index d = i /\ day_ok d;
}.

Section Cycles.
Context (box : upgradeBox) (reader : ConsensusReader) (g last : Z) (stats : Z -> option DayStats) (Hr : reads_days reader g last stats).

Lemma start_cycle t : 0 <= t <= g + 86400 * (last - 1) ->
  GetIndexByStartTime (cr_day reader) t g = Ok (first_cycle g t, g + 86400 * first_cycle g t, false).
Proof.
  intros Ht; pose proof (rd_genesis _ _ _ _ Hr) as Hg; unfold first_cycle; destruct (Z.leb_spec t g) as [Hle|Hlt].
  - unfold GetIndexByStartTime; replace (t <? 0) with false by lia; replace (t <=? g) with true by lia; f_equal; f_equal; f_equal; lia.
  - destruct (start_index (cr_day reader) g last t (rd_day _ _ _ _ Hr)) as (i & -> & Hi); [lia|lia|].
    replace i with ((t - 1 - g) / 86400 + 1); [done|]; pose proof (Z.div_mod (t - 1 - g) 86400); pose proof (Z.mod_pos_bound (t - 1 - g) 86400); lia.
Qed.

Lemma end_cycle t : t < g + 86400 * last -> GetIndexByEndTime (cr_day reader) t g =
  Ok (Z.max 0 (cycles_before g t - 1), g + 86400 * cycles_before g t, cycles_before g t =? 0).
Proof.
  intros Ht; pose proof (rd_genesis _ _ _ _ Hr) as Hg; unfold GetIndexByEndTime, cycles_before; destruct (Z.ltb_spec t g) as [Hlt|Hge].
  - assert ((t - g) / 86400 < 0) by (apply Z.div_lt_upper_bound; lia); rewrite (Z.max_l 0 ((t - g) / 86400)) by lia.
    do 2 f_equal; f_equal; lia.
  - rewrite (getIndex_whole _ g 86400 last) by (apply (rd_day _ _ _ _ Hr) || lia); cbn [mbind outcome_bind].
    pose proof (Z.div_pos (t - g) 86400 ltac:(lia) ltac:(lia)); set (n := (t - g) / 86400) in *; rewrite (Z.max_r 0 n) by lia.
    pose proof (Z.div_mod (t - g) 86400 ltac:(lia)); pose proof (Z.mod_pos_bound (t - g) 86400 ltac:(lia)); fold n in H0.
    destruct (Z.eqb_spec n 0) as [->|]; [do 2 f_equal; f_equal; lia|].
    rewrite (getEndTime_whole _ g 86400 last) by (apply (rd_day _ _ _ _ Hr) || lia); do 2 f_equal; f_equal; lia.
Qed.
(** What the chain says about the upgrade that changed the amount of the stake, which happened at [tf]. *)
Record upgrade_known (db : vmDb) (leaf : bool) (tf : Z) : Prop := {
  uk_genesis : sb_Timestamp (db_GetGenesisSnapshotBlock db) = g;
  uk_latest : exists sb, db_LatestSnapshotBlock db = Ok sb /\ IsLeafUpgrade box (sb_Height sb) = leaf;
  uk_fork : leaf = true -> g <= tf < g + 86400 * last /\ exists p sb, getUpgradePoint box 5 = Some p /\
    db_GetSnapshotBlockByHeight db (up_Height p) = Ok (Some sb) /\ sb_Timestamp sb = tf;
}.

(** The stake that counts in a cycle. *)
Definition stake_in (leaf : bool) (tf i : Z) : Z :=
  if leaf && ((tf - g) / 86400 <? i) then SbpStakeAmountMainnet else SbpStakeAmountPreMainnet.

(** The reward of a name in a cycle. *)
Definition cycle_reward (leaf : bool) (tf : Z) (name : bytes) (i : Z) : Z :=
  from_option (fun d => rw_TotalReward (day_reward d name (stake_in leaf tf i))) 0 (stats i).

Lemma stake_in_pos leaf tf i : 0 < stake_in leaf tf i.
Proof. unfold stake_in; destruct stake_amounts, (leaf && _); lia. Qed.

Lemma stake_amount_known db leaf tf i f : upgrade_known db leaf tf -> f = 0 \/ f = (tf - g) / 86400 ->
  exists f', getSnapshotGroupStakeAmount box reader db g i f = Ok (stake_in leaf tf i, f') /\ (f' = 0 \/ f' = (tf - g) / 86400).
Proof.
  intros [Hg (sb & Hsb & Hl) Hf] Hf0; unfold getSnapshotGroupStakeAmount, stake_in; rewrite Hsb; cbn [or_db_err]; rewrite bind_Ok, Hl.
  destruct leaf; cbn [negb andb]; [|eauto]; destruct (Hf eq_refl) as (Htf & p & fb & -> & Hb & Et).
  assert (Hi : (if f =? 0 then point ← or_panic PNil (Some p); forkSb ← or_db_err (db_GetSnapshotBlockByHeight db (up_Height point));
    forkSb ← or_panic PNil forkSb; or_db_err (GetIndexByTime (cr_day reader) (sb_Timestamp forkSb) g) else Ok f) = Ok ((tf - g) / 86400)).
  { destruct (Z.eqb_spec f 0) as [->|]; [|destruct Hf0; [done|by subst f]]; cbn [or_panic]; rewrite bind_Ok, Hb; cbn [or_db_err]; rewrite bind_Ok.
    cbn [or_panic]; rewrite bind_Ok, Et; unfold GetIndexByTime; replace (tf <? g) with false by lia.
    by rewrite (getIndex_whole _ g 86400 last) by (apply (rd_day _ _ _ _ Hr) || lia). }
  rewrite Hi, bind_Ok; exists ((tf - g) / 86400); split; [|by right]; do 2 f_equal.
  destruct (Z.leb_spec i ((tf - g) / 86400)), (Z.ltb_spec ((tf - g) / 86400) i); done || lia.
Qed.

Lemma addRewards_sum db leaf tf name days f r : upgrade_known db leaf tf -> f = 0 \/ f = (tf - g) / 86400 ->
  exists r', addRewards box reader db g name (omap stats days) f r = Ok r' /\
    rw_TotalReward r' = rw_TotalReward r + zsum (cycle_reward leaf tf name) days.
Proof.
  intros Hu; revert f r; induction days as [|i days IH]; intros f r Hf; [exists r; split; [done|simpl; lia]|].
  rewrite zsum_cons; unfold cycle_reward at 1; simpl omap; destruct (stats i) as [d|] eqn:E; cbn [from_option].
  - destruct (rd_stats _ _ _ _ Hr i d E) as [Hi Hd]; cbn [addRewards]; rewrite Hi.
    destruct (stake_amount_known db leaf tf i f Hu Hf) as (f' & -> & Hf'); rewrite bind_Ok, calcRewardByDayDetail_ok, bind_Ok by (done || apply stake_in_pos).
    destruct (IH f' (Reward_add r (day_reward d name (stake_in leaf tf i))) Hf') as (r' & E' & Ht); exists r'; split; [exact E'|].
    rewrite Ht; simpl; lia.
  - destruct (IH f r Hf) as (r' & E' & Ht); exists r'; split; [exact E'|lia].
Qed.

(** The number of cycles that are paid at [limit]: those that are over then, and at the time of the revocation. *)
Definition cycles_due (r : Registration) (limit : Z) : Z :=
  if IsActive r then cycles_before g limit else Z.min (cycles_before g (rg_RevokeTime r)) (cycles_before g limit).

Lemma rewardEnd_due r limit : limit < g + 86400 * last -> rg_RevokeTime r < g + 86400 * last ->
  exists drained, rewardEnd reader r g limit =
    Ok (Z.max 0 (cycles_due r limit - 1), g + 86400 * cycles_due r limit, cycles_due r limit =? 0, drained) /\
    (drained = true <-> IsActive r = false /\ g + 86400 * cycles_before g (rg_RevokeTime r) <= limit).
Proof.
  intros Hl Hv; unfold rewardEnd, cycles_due; rewrite !end_cycle by done; cbn [or_db_err]; rewrite !bind_Ok.
  destruct (IsActive r); cbn [negb]; [exists false; naive_solver|].
  unfold cycles_before; pose proof (Z.div_mod (limit - g) 86400 ltac:(lia)); pose proof (Z.mod_pos_bound (limit - g) 86400 ltac:(lia)).
  set (nR := Z.max 0 ((rg_RevokeTime r - g) / 86400)); assert (0 <= nR) by lia; clearbody nR; set (nL := (limit - g) / 86400) in *.
  destruct (Z.leb_spec (g + 86400 * nR) limit).
  - exists true; rewrite Z.min_l by lia; split; [done|]; split; [done|naive_solver].
  - exists false; rewrite Z.min_r by lia; split; [done|]; split; [done|lia].
Qed.
(** The times of a registration with which its rewards are computed at [cur]. *)
Record due_at (r : Registration) (cur : SnapshotBlock) : Prop := {
  da_reward : 0 <= rg_RewardTime r <= g + 86400 * (last - 1);
  da_revoke : rg_RevokeTime r < g + 86400 * last;
  da_now : 0 <= sb_Timestamp cur < g + 86400 * last;
}.

Lemma first_cycle_bound t : 0 <= first_cycle g t.
Proof. unfold first_cycle; destruct (Z.leb_spec t g); [lia|]; assert (0 <= (t - 1 - g) / 86400) by (apply Z.div_pos; lia); lia. Qed.

Lemma cycles_due_bound r limit : limit < g + 86400 * last -> 0 <= cycles_due r limit <= Z.max 0 last.
Proof.
  intros Hl; assert (0 <= cycles_before g limit <= Z.max 0 last).
  { unfold cycles_before; assert ((limit - g) / 86400 < last) by (apply Z.div_lt_upper_bound; lia); lia. }
  unfold cycles_due; destruct (IsActive r); [done|]; unfold cycles_before in *; lia.
Qed.

Lemma limit_at cur r : due_at r cur -> getRewardTimeLimit cur = sb_Timestamp cur - 3600 /\ sb_Timestamp cur - 3600 < g + 86400 * last.
Proof.
  intros [_ _ Hn]; pose proof (rd_genesis _ _ _ _ Hr) as Hg; pose proof (wh_bound _ _ _ _ (rd_day _ _ _ _ Hr)) as Hb; unfold Second in Hb.
  unfold getRewardTimeLimit, rewardTimeLimit; rewrite i64_small; lia.
Qed.

Lemma CalcReward_due db leaf tf r cur : upgrade_known db leaf tf -> due_at r cur ->
  let first := first_cycle g (rg_RewardTime r) in
  let due := cycles_due r (sb_Timestamp cur - 3600) in
  exists rew drained, CalcReward box reader db r (Some cur) = Ok (g + 86400 * first, g + 86400 * due, Some rew, drained) /\
    rw_TotalReward rew = zsum (cycle_reward leaf tf (rg_Name r)) (seqZ first (due - first)) /\
    (drained = true <-> IsActive r = false /\ g + 86400 * cycles_before g (rg_RevokeTime r) <= sb_Timestamp cur - 3600).
Proof.
  intros Hu Hd first due; destruct (limit_at cur r Hd) as [El Hl]; pose proof Hd as [Hrw Hrv _]; pose proof (first_cycle_bound (rg_RewardTime r)).
  destruct (rewardEnd_due r (sb_Timestamp cur - 3600) Hl Hrv) as (drained & He & Hdr); pose proof (cycles_due_bound r _ Hl).
  unfold CalcReward, calcReward; rewrite (uk_genesis _ _ _ Hu), start_cycle by exact Hrw; cbn [or_db_err or_panic]; rewrite !bind_Ok, El, He, bind_Ok.
  fold first due; fold first in H; fold due in H0.
  destruct ((due =? 0) || (Z.max 0 (due - 1) <? first)) eqn:Ez.
  - exists newZeroReward, drained; split_and!; [done| |exact Hdr]; rewrite seqZ_nil by lia; done.
  - rewrite (rd_details _ _ _ _ Hr) by lia; cbn [or_db_err]; rewrite bind_Ok, Z.max_r by lia.
    destruct (addRewards_sum db leaf tf (rg_Name r) (seqZ first (due - 1 - first + 1)) 0 newZeroReward Hu (or_introl eq_refl)) as (rew & -> & Ht).
    rewrite bind_Ok; exists rew, drained; split_and!; [done| |exact Hdr].
    rewrite Ht; cbn [rw_TotalReward newZeroReward]; rewrite Z.add_0_l; f_equal; f_equal; lia.
Qed.
(** C24 The reward of a registration is the sum of its rewards in the complete
    cycles between two times: from the first cycle that starts at or after its
    reward time, up to the last one that is over an hour before the snapshot block
    and, for a revoked registration, at its revocation.  It returns the end of the last of them as the next reward time. *)
Theorem rewards_exact db leaf tf r cur : upgrade_known db leaf tf -> due_at r cur ->
  let first := first_cycle g (rg_RewardTime r) in
  let due := cycles_due r (sb_Timestamp cur - 3600) in
  exists rew drained, CalcReward box reader db r (Some cur) = Ok (g + 86400 * first, g + 86400 * due, Some rew, drained) /\
    rw_TotalReward rew = zsum (cycle_reward leaf tf (rg_Name r)) (seqZ first (due - first)) /\
    (drained = true <-> IsActive r = false /\ g + 86400 * cycles_before g (rg_RevokeTime r) <= sb_Timestamp cur - 3600).
Proof. apply CalcReward_due. Qed.

(** *** Withdrawing in parts *)

Lemma first_cycle_end n : 0 <= n -> first_cycle g (g + 86400 * n) = n.
Proof.
  intros Hn; unfold first_cycle; destruct (Z.leb_spec (g + 86400 * n) g); [lia|].
  replace (g + 86400 * n - 1 - g) with (86399 + (n - 1) * 86400) by lia; rewrite Z.div_add by done; change (86399 / 86400) with 0; lia.
Qed.

Lemma first_cycle_mono t t' : t <= t' -> first_cycle g t <= first_cycle g t'.
Proof.
  intros H; unfold first_cycle; destruct (Z.leb_spec t g), (Z.leb_spec t' g); try lia.
  - assert (0 <= (t' - 1 - g) / 86400) by (apply Z.div_pos; lia); lia.
  - assert ((t - 1 - g) / 86400 <= (t' - 1 - g) / 86400) by (apply Z.div_le_mono; lia); lia.
Qed.

Lemma cycles_before_mono t t' : t <= t' -> cycles_before g t <= cycles_before g t'.
Proof. intros H; unfold cycles_before; assert ((t - g) / 86400 <= (t' - g) / 86400) by (apply Z.div_le_mono; lia); lia. Qed.

(** The upgrade does not change the stake of a cycle that was over before it. *)
Lemma stake_settled leaf1 leaf2 tf limit i : leaf1 = leaf2 \/ leaf1 = false /\ limit < tf -> i < cycles_before g limit -> 0 <= i ->
  stake_in leaf1 tf i = stake_in leaf2 tf i.
Proof.
  intros [->|[-> Hl]] Hi H0; [done|]; unfold stake_in; destruct leaf2; [|done]; cbn [andb].
  unfold cycles_before in Hi; assert ((limit - g) / 86400 <= (tf - g) / 86400) by (apply Z.div_le_mono; lia).
  destruct (Z.ltb_spec ((tf - g) / 86400) i); [lia|done].
Qed.

(** A registration with other times. *)
Definition timed (r : Registration) (reward revoke : Z) : Registration :=
  mkRegistration (rg_Name r) (rg_BlockProducingAddress r) (rg_RewardWithdrawAddress r) (rg_StakeAddress r)
    (rg_Amount r) (rg_ExpirationHeight r) reward revoke (rg_HisAddrList r).

(** Withdrawing in parts pays what withdrawing at once pays: the reward at one
    time and the reward at a later time, counted from where the first ended, add up
    to the reward at the later time alone, whether or not the registration is
    revoked or the stake amount is changed by the upgrade in between.  The first of them must not be before the
    end of the cycle in which the reward time lies. *)
Theorem withdrawals_add_up db1 db2 leaf1 leaf2 tf r cur1 cur2 revoke : upgrade_known db1 leaf1 tf -> upgrade_known db2 leaf2 tf ->
  leaf1 = leaf2 \/ leaf1 = false /\ sb_Timestamp cur1 - 3600 < tf ->
  IsActive r = true -> due_at r cur1 -> due_at (timed r (rg_RewardTime r) revoke) cur2 ->
  sb_Timestamp cur1 <= sb_Timestamp cur2 -> revoke = 0 \/ sb_Timestamp cur1 <= revoke ->
  let middle := g + 86400 * cycles_before g (sb_Timestamp cur1 - 3600) in
  rg_RewardTime r <= middle ->
  exists s1 r1 s2 r2 s r12 e drained,
    CalcReward box reader db1 r (Some cur1) = Ok (s1, middle, Some r1, false) /\
    CalcReward box reader db2 (timed r middle revoke) (Some cur2) = Ok (s2, e, Some r2, drained) /\
    CalcReward box reader db2 (timed r (rg_RewardTime r) revoke) (Some cur2) = Ok (s, e, Some r12, drained) /\
    rw_TotalReward r1 + rw_TotalReward r2 = rw_TotalReward r12.
Proof.
  intros Hu1 Hu2 Hlf Ha Hd1 Hd2 Hle Hrv middle Hm; destruct (limit_at cur1 r Hd1) as [_ Hl1]; pose proof (cycles_due_bound r _ Hl1) as Hb1.
  unfold cycles_due in Hb1; rewrite Ha in Hb1; set (n1 := cycles_before g (sb_Timestamp cur1 - 3600)) in *.
  assert (Hn1 : n1 <= last - 1 \/ n1 = 0).
  { unfold n1, cycles_before; assert ((sb_Timestamp cur1 - 3600 - g) / 86400 < last) by (apply Z.div_lt_upper_bound; lia); lia. }
  assert (Hd3 : due_at (timed r middle revoke) cur2).
  { pose proof (rd_genesis _ _ _ _ Hr) as [_ ?]; destruct Hd1 as [Hw1 _ _], Hd2 as [? ? ?]; split; [|assumption..]; unfold timed, middle; simpl; lia. }
  destruct (CalcReward_due db1 leaf1 tf r cur1 Hu1 Hd1) as (r1 & d1 & E1 & T1 & D1).
  destruct (CalcReward_due db2 leaf2 tf _ cur2 Hu2 Hd3) as (r2 & d2 & E2 & T2 & D2).
  destruct (CalcReward_due db2 leaf2 tf _ cur2 Hu2 Hd2) as (r12 & d12 & E12 & T12 & D12).
  assert (d1 = false) as -> by (destruct d1; [|done]; destruct D1 as [D1 _]; destruct (D1 eq_refl); congruence).
  assert (d12 = d2) as -> by (apply Bool.eq_iff_eq_true; rewrite D2, D12; reflexivity).
  unfold cycles_due in E1, T1; rewrite Ha in E1, T1; fold n1 in E1, T1.
  eexists _, r1, _, r2, _, r12, _, d2; split_and!; [exact E1|exact E2|exact E12|].
  set (due2 := cycles_due (timed r middle revoke) (sb_Timestamp cur2 - 3600)) in *.
  change (cycles_due (timed r (rg_RewardTime r) revoke) (sb_Timestamp cur2 - 3600)) with due2 in T12.
  cbn [timed rg_RewardTime rg_Name] in T2, T12; unfold middle in T2; rewrite first_cycle_end in T2 by lia.
  pose proof (first_cycle_mono _ _ Hm) as Hf; unfold middle in Hf; rewrite first_cycle_end in Hf by lia; pose proof (first_cycle_bound (rg_RewardTime r)).
  assert (Hdue : n1 <= due2).
  { unfold due2, cycles_due, IsActive; cbn [timed rg_RevokeTime].
    assert (n1 <= cycles_before g (sb_Timestamp cur2 - 3600)) by (apply cycles_before_mono; lia).
    destruct (Z.eqb_spec revoke 0); [done|]; assert (n1 <= cycles_before g revoke) by (apply cycles_before_mono; lia); lia. }
  rewrite T1, T2, T12; set (f := first_cycle g (rg_RewardTime r)) in *; replace (due2 - f) with ((n1 - f) + (due2 - n1)) by lia.
  rewrite seqZ_app, zsum_app by lia; replace (f + (n1 - f)) with n1 by lia; f_equal.
  apply zsum_ext; intros i Hi%elem_of_seqZ; unfold cycle_reward; by rewrite (stake_settled leaf1 leaf2 tf _ i Hlf) by (fold n1; lia).
Qed.

(** Before the first cycle is over nothing is due, but the end time is before the reward time: a
    registration with this time is paid for more cycles. *)
Lemma early_reward db1 db2 leaf1 leaf2 tf r r' cur1 cur2 : upgrade_known db1 leaf1 tf -> upgrade_known db2 leaf2 tf ->
  IsActive r = true -> due_at r cur1 -> due_at r cur2 ->
  let middle := g + 86400 * cycles_before g (sb_Timestamp cur1 - 3600) in
  let from := first_cycle g middle in
  let first := first_cycle g (rg_RewardTime r) in
  middle < rg_RewardTime r -> first <= cycles_before g (sb_Timestamp cur2 - 3600) ->
  rg_Name r' = rg_Name r -> rg_RewardTime r' = middle -> rg_RevokeTime r' = rg_RevokeTime r ->
  from < first /\
  exists s1 r1 s2 r2 s r12 e,
    CalcReward box reader db1 r (Some cur1) = Ok (s1, middle, Some r1, false) /\ rw_TotalReward r1 = 0 /\
    CalcReward box reader db2 r' (Some cur2) = Ok (s2, e, Some r2, false) /\
    CalcReward box reader db2 r (Some cur2) = Ok (s, e, Some r12, false) /\
    rw_TotalReward r2 = rw_TotalReward r12 + zsum (cycle_reward leaf2 tf (rg_Name r)) (seqZ from (first - from)).
Proof.
  intros Hu1 Hu2 Ha Hd1 Hd2 middle from first Hm Hdue En Ew Er; pose proof (rd_genesis _ _ _ _ Hr) as [Hg Hlast].
  assert (Hn0 : 0 <= cycles_before g (sb_Timestamp cur1 - 3600)) by (unfold cycles_before; lia).
  assert (Hfrom : from = cycles_before g (sb_Timestamp cur1 - 3600)) by (unfold from, middle; by rewrite first_cycle_end).
  assert (Hlt : from < first).
  { rewrite Hfrom; unfold first, first_cycle; destruct (Z.leb_spec (rg_RewardTime r) g); [unfold middle in Hm; lia|].
    assert (cycles_before g (sb_Timestamp cur1 - 3600) <= (rg_RewardTime r - 1 - g) / 86400) by (apply Z.div_le_lower_bound; unfold middle in Hm; lia); lia. }
  split; [exact Hlt|]; assert (Ha' : IsActive r' = true) by (unfold IsActive in *; by rewrite Er); assert (Hd3 : due_at r' cur2).
  { destruct Hd2 as [Hw ? ?]; split; [rewrite Ew; unfold middle in *; lia|lia|assumption]. }
  destruct (CalcReward_due db1 leaf1 tf r cur1 Hu1 Hd1) as (r1 & d1 & E1 & T1 & D1).
  destruct (CalcReward_due db2 leaf2 tf _ cur2 Hu2 Hd3) as (r2 & d2 & E2 & T2 & D2).
  destruct (CalcReward_due db2 leaf2 tf r cur2 Hu2 Hd2) as (r12 & d12 & E12 & T12 & D12).
  assert (Hact : forall d (P : Prop), (d = true <-> IsActive r = false /\ P) -> d = false) by (intros [] P HP; [destruct HP as [HP _]; destruct (HP eq_refl); congruence|done]).
  rewrite (Hact _ _ D1) in E1; rewrite (Hact _ _ D12) in E12; assert (d2 = false) as -> by (destruct d2; [|done]; destruct D2 as [D2 _]; destruct (D2 eq_refl); congruence).
  unfold cycles_due in E1, E2, T1, E12, T12; rewrite Ha in E1, T1, E12, T12; rewrite Ha' in E2; fold first in T1, T12, E1, E12; rewrite <- Hfrom in T1.
  eexists _, r1, _, r2, _, r12, _; split_and!; [exact E1| |exact E2|exact E12|].
  - rewrite T1, seqZ_nil by lia; done.
  - rewrite T2, T12; unfold cycles_due; rewrite Ha', Ew, En; fold from.
    set (n2 := cycles_before g (sb_Timestamp cur2 - 3600)) in *; replace (n2 - from) with ((first - from) + (n2 - first)) by lia.
    rewrite seqZ_app, zsum_app by lia; replace (from + (first - from)) with first by lia; lia.
Qed.
End Cycles.
