(* ===== verification/AbiSpec.v ===== *)
(** What the binary interface guarantees: packed values of the supported types
    unpack to themselves, and unpacking arbitrary bytes returns a value or an
    error. *)
From Stdlib Require Import ZifyBool Ascii String.
From stdpp Require Import strings.
From S2P Require Import Prelude Helper Types Abi.
#[local] Open Scope Z_scope.

(** ** Values of a type *)

(** Types whose packed form is one word. *)
Definition static (e : elemType) : bool :=
  match e with StringTy | BytesTy => false | _ => true end.

(** A [*big.Int] is a word; machine integers are in the range of their type. *)
Definition num_in (k : numKind) (z : Z) : Prop :=
  match k with
  | Machine true bits => 0 <= z < 2 ^ bits
  | Machine false bits => - 2 ^ (bits - 1) <= z < 2 ^ (bits - 1)
  | Big => is_u256 z
  end.

Definition has_elem (e : elemType) (v : abiValue) : Prop :=
  match e, v with
  | IntTy size, VNum k z => k = reflectIntKind false size /\ num_in k z
  | UintTy size, VNum k z => k = reflectIntKind true size /\ num_in k z
  | BoolTy, VBool _ | StringTy, VString _ | BytesTy, VBytes _ => True
  | AddressTy, VArray bs => len bs = AddressSize
  | GidTy, VArray bs => len bs = GidSize
  | TokenIdTy, VArray bs => len bs = TokenTypeIdSize
  | FixedBytesTy size, VArray bs => len bs = size /\ size <= 32
  | _, _ => False
  end.

Definition has_type (t : abiType) (v : abiValue) : Prop :=
  match t, v with
  | ElemTy e, v => has_elem e v
  | SliceTy e, VList vs => static e = true /\ Forall (has_elem e) vs
  | ArrayTy e size, VList vs => static e = true /\ Forall (has_elem e) vs /\ 1 <= size /\ size = Z.of_nat (length vs)
  | _, _ => False
  end.

(** ** Words *)

Lemma PaddedBigBytes_32 x : is_u256 x -> PaddedBigBytes x WordSize = be_bytes 32 x.
Proof.
  intros Hx; pose proof (BitLen_le x 256 ltac:(lia)) as Hb; unfold is_u256 in Hx.
  unfold PaddedBigBytes, WordSize; destruct (Z.leb_spec 32 (BitLen x / 8)) as [H|H].
  - assert (BitLen x = 256) as E by (pose proof (Hb ltac:(lia)); Z.to_euclidean_division_equations; lia).
    unfold Bytes; rewrite E, Z.abs_eq by lia; done.
  - apply ReadBits_spec; lia.
Qed.

Lemma packNum_spec z : packNum z = be_bytes 32 z.
Proof.
  unfold packNum; rewrite PaddedBigBytes_32 by apply U256_range.
  rewrite U256_mod; by apply be_bytes_mod.
Qed.

Lemma LeftPad_suffix bs n : len bs = n -> 0 <= n <= 32 ->
  len (LeftPadBytes bs WordSize) = 32 /\ suffix n (LeftPadBytes bs WordSize) = Ok bs.
Proof.
  intros E H; assert (Hl : len (LeftPadBytes bs WordSize) = 32) by (apply LeftPad_length; unfold WordSize; lia).
  split; [done|]; unfold suffix, WordSize in *; rewrite go_slice_ok by lia; f_equal.
  unfold subslice, LeftPadBytes, len in *.
  destruct (Z.leb_spec 32 (Z.of_nat (length bs))).
  - replace (Z.to_nat (32 - n)) with 0%nat by lia; apply take_ge; simpl; lia.
  - rewrite drop_app_length' by (unfold zero_bytes; rewrite length_replicate; lia); apply take_ge; lia.
Qed.

Lemma RightPad_prefix bs n : len bs = n -> n <= 32 ->
  len (RightPadBytes bs WordSize) = 32 /\ take (Z.to_nat n) (RightPadBytes bs WordSize) = bs.
Proof.
  intros E H; unfold RightPadBytes, WordSize, len in *.
  destruct (Z.leb_spec 32 (Z.of_nat (length bs))).
  - rewrite take_ge by lia; split; [lia|done].
  - unfold zero_bytes; rewrite length_app, length_replicate, take_app_length' by lia; split; [lia|done].
Qed.

Lemma length_RightPad bs l : len bs <= l -> len (RightPadBytes bs l) = l.
Proof.
  unfold RightPadBytes, len, zero_bytes; intros H.
  destruct (Z.leb_spec l (Z.of_nat (length bs))); [lia|].
  rewrite length_app, length_replicate; lia.
Qed.

Lemma reflectIntKind_cases u size :
  reflectIntKind u size = Big \/ reflectIntKind u size = Machine u size /\ size ∈ [8; 16; 32; 64].
Proof.
  unfold reflectIntKind; destruct ((size =? 8) || (size =? 16) || (size =? 32) || (size =? 64)) eqn:E;
    [right|by left]; split; [done|]; rewrite !elem_of_cons; lia.
Qed.

(** The low-order bytes of a word. *)
Lemma word_low_bytes size (w : bytes) : size ∈ [8; 16; 32; 64] -> length w = 32%nat ->
  go_slice w (len w - size / 8) (len w) = (Ok (drop (32 - Z.to_nat (size / 8)) w) : abiM bytes) /\
  length (drop (32 - Z.to_nat (size / 8)) w) = Z.to_nat (size / 8).
Proof.
  intros Hs Hw; set_unfold in Hs; unfold len; rewrite length_drop, Hw.
  assert (H8 : 0 < size / 8 <= 8) by (destruct Hs as [->|[->|[->|[->|[]]]]]; vm_compute; split; congruence).
  split; [|lia]; rewrite go_slice_ok by (unfold len; rewrite ?Hw; lia); unfold subslice.
  replace (Z.to_nat (Z.of_nat 32 - size / 8)) with (32 - Z.to_nat (size / 8))%nat by lia.
  by rewrite take_ge by (rewrite length_drop; lia).
Qed.

(** A number reads back from its word. *)
Lemma readInteger_be k u size z : k = reflectIntKind u size -> num_in k z ->
  readInteger k (be_bytes 32 z) = Ok (VNum k z).
Proof.
  intros -> Hz; destruct (reflectIntKind_cases u size) as [E|[E Hs]]; rewrite E in *; cbn [readInteger].
  - rewrite SetBytes_be_bytes, Z.mod_small; done.
  - destruct (word_low_bytes size (be_bytes 32 z) Hs (length_be_bytes 32 z)) as [-> _]; rewrite bind_Ok; cbv zeta.
    assert (Hm : SetBytes (drop (32 - Z.to_nat (size / 8)) (be_bytes 32 z)) = z mod 2 ^ size).
    { set_unfold in Hs.
      destruct Hs as [->|[->|[->|[->|[]]]]]; rewrite drop_be_bytes, SetBytes_be_bytes by (vm_compute; lia); done. }
    rewrite Hm; destruct u; simpl in Hz; do 2 f_equal; [by apply Z.mod_small|].
    unfold toSigned; rewrite Zplus_mod_idemp_l.
    assert (2 ^ size = 2 * 2 ^ (size - 1)) as -> by (set_unfold in Hs; destruct Hs as [->|[->|[->|[->|[]]]]]; done).
    rewrite Z.mod_small; lia.
Qed.

(** ** Elements *)

(** Decoding a static element reads only its word. *)
Lemma toGoElem_word index e output : static e = true -> 0 <= index -> index + 32 <= len output ->
  toGoElem index e output = toGoElem 0 e (subslice output index (index + 32)).
Proof.
  intros Hs H0 H1; pose proof (length_subslice output index (index + 32) ltac:(lia) H1) as Hl.
  assert (Hw : subslice (subslice output index (index + 32)) 0 (0 + 32) = subslice output index (index + 32)).
  { unfold subslice at 1; rewrite drop_0, take_ge; [done|]; unfold len in Hl; lia. }
  unfold toGoElem, WordSize.
  destruct (Z.ltb_spec (len output) (index + 32)); [lia|].
  rewrite Hl; destruct (Z.ltb_spec (index + 32 - index) (0 + 32)); [lia|].
  rewrite (go_slice_ok (subslice _ _ _)), Hw by lia; rewrite go_slice_ok by lia; by destruct e.
Qed.

Lemma packElem_static e v : static e = true -> has_elem e v ->
  exists w, packElem e v = Ok w /\ len w = 32 /\ toGoElem 0 e w = Ok v.
Proof.
  assert (Hself : forall w : bytes, len w = 32 -> subslice w 0 (0 + 32) = w).
  { intros w Hw; unfold subslice, len in *; rewrite drop_0, take_ge by lia; done. }
  assert (Hdec : forall e w, len w = 32 -> static e = true -> toGoElem 0 e w = match e with
    | IntTy size => readInteger (reflectIntKind false size) w
    | UintTy size => readInteger (reflectIntKind true size) w
    | BoolTy => readBool w
    | AddressTy => bs ← suffix AddressSize w; Ok (VArray (BytesToAddress bs).1)
    | GidTy => bs ← suffix GidSize w; Ok (VArray (BytesToGid bs).1)
    | TokenIdTy => bs ← suffix TokenTypeIdSize w; Ok (VArray (BytesToTokenTypeId bs).1)
    | FixedBytesTy size => readFixedBytes size w
    | _ => Err errPackFailed end).
  { intros e' w Hw Hs; unfold toGoElem, WordSize; rewrite go_slice_ok, Hw, (Hself w Hw) by lia; by destruct e'. }
  intros Hs Hv; destruct e, v; simpl in Hs, Hv; try done; unfold packElem, elemTypeCheck; simpl.
  - destruct Hv as [-> Hz]; rewrite bool_decide_true by done; simpl.
    eexists; split; [done|]; rewrite packNum_spec; split; [apply length_be32|].
    rewrite Hdec by (done || apply length_be32); by erewrite readInteger_be.
  - destruct Hv as [-> Hz]; rewrite bool_decide_true by done; simpl.
    eexists; split; [done|]; rewrite packNum_spec; split; [apply length_be32|].
    rewrite Hdec by (done || apply length_be32); by erewrite readInteger_be.
  - eexists; split; [done|]; by destruct b.
  - pose proof (LeftPad_suffix bs _ Hv ltac:(done)) as [? E].
    eexists; split; [done|]; split; [done|]; rewrite Hdec, E by done.
    rewrite bind_Ok; unfold BytesToAddress; by rewrite Hv.
  - pose proof (LeftPad_suffix bs _ Hv ltac:(done)) as [? E].
    eexists; split; [done|]; split; [done|]; rewrite Hdec, E by done.
    rewrite bind_Ok; unfold BytesToGid; by rewrite Hv.
  - pose proof (LeftPad_suffix bs _ Hv ltac:(done)) as [? E].
    eexists; split; [done|]; split; [done|]; rewrite Hdec, E by done.
    rewrite bind_Ok; unfold BytesToTokenTypeId; by rewrite Hv.
  - destruct Hv as [E ?]; rewrite (proj2 (Z.eqb_eq size (len bs))) by done; simpl.
    pose proof (RightPad_prefix bs _ E ltac:(done)) as [Hl Et].
    eexists; split; [done|]; split; [done|]; rewrite Hdec by done.
    unfold readFixedBytes; rewrite go_slice_ok, bind_Ok by (unfold len in *; lia).
    unfold subslice; by rewrite Z.sub_0_r, drop_0, Et.
Qed.

(** ** Lists of elements *)

Lemma elemKind_self e v : has_elem e v -> elemKindOk (elemKind e) (valueKind v) = true.
Proof.
  intros Hv; replace (valueKind v) with (elemKind e)
    by (destruct e, v; simpl in *; try done; by destruct Hv as [-> _]).
  unfold elemKindOk; rewrite (bool_decide_true (elemKind e = elemKind e)) by done.
  by destruct (bool_decide (elemKind e = KSlice)), (bool_decide (elemKind e = KArray)).
Qed.

Lemma packElems_static e vs : static e = true -> Forall (has_elem e) vs ->
  exists p, packElems e vs = Ok p /\ len p = 32 * Z.of_nat (length vs) /\
  forall a b, unpackElems (length vs) e (a ++ p ++ b) (len a) = Ok vs.
Proof.
  intros Hs; induction 1 as [|v vs Hv _ (p & Hp & Hl & IH)]; [by exists []|].
  destruct (packElem_static e v Hs Hv) as (w & Hw & Hlw & Hr).
  exists (w ++ p); simpl; rewrite Hw; simpl; rewrite Hp; split; [done|].
  unfold len in *; rewrite length_app; split; [lia|]; intros a b.
  rewrite toGoElem_word by (done || unfold len; rewrite ?length_app; lia).
  rewrite <- app_assoc, subslice_app by done; rewrite Hr; simpl.
  specialize (IH (a ++ w) b); rewrite <- app_assoc in IH.
  replace (Z.of_nat (length a) + WordSize) with (Z.of_nat (length (a ++ w))) by (rewrite length_app; unfold WordSize; lia).
  by rewrite IH.
Qed.

Lemma sliceTypeCheck_ok e size vs : Forall (has_elem e) vs ->
  match size with Some n => n = Z.of_nat (length vs) | None => True end ->
  sliceTypeCheck e size (VList vs) = Ok vs.
Proof.
  intros Hv Hs; unfold sliceTypeCheck; simpl.
  replace (match size with Some n => _ | None => _ end) with false by (destruct size; [lia|done]).
  rewrite (proj2 (forallb_forall _ vs)); [done|].
  intros x Hx; apply elemKind_self; by apply (proj1 (List.Forall_forall _ _) Hv).
Qed.

(** ** Length prefixes *)

(** The word at [index] points to a length, followed by that many bytes at least. *)
Lemma lengthPrefix_spec index output a l body b :
  output = a ++ be_bytes 32 l ++ body ++ b ->
  0 <= index -> index + 32 <= len output -> subslice output index (index + 32) = be_bytes 32 (len a) ->
  0 <= l <= len body -> len output < 2 ^ 63 ->
  lengthPrefixPointsTo index output = Ok (len a + 32, l).
Proof.
  intros Ho Hi Hi' Hw Hl Hb.
  assert (Hlen : len output = len a + 32 + len body + len b).
  { subst output; unfold len; rewrite !length_app, length_be_bytes; lia. }
  assert (Hsmall : forall z, 0 <= z < 2 ^ 63 -> (63 <? BitLen z) = false /\ Uint64 z = z).
  { intros z Hz; split; [pose proof (BitLen_le z 63 ltac:(lia)); lia|].
    unfold Uint64; rewrite Z.abs_eq by lia; apply u64_small; unfold is_u64; lia. }
  assert (0 <= len a /\ 0 <= len b) by (unfold len; lia).
  unfold lengthPrefixPointsTo, WordSize; rewrite go_slice_ok, bind_Ok, Hw, SetBytes_be_bytes, (Z.mod_small (len a)) by (simpl; lia).
  destruct (Hsmall (len a + 32) ltac:(lia)) as [-> ->].
  replace (len a + 32 - 32) with (len a) by lia; rewrite go_slice_ok, bind_Ok by lia.
  assert (subslice output (len a) (len a + 32) = be_bytes 32 l) as ->
    by (rewrite Ho; apply subslice_app; by rewrite length_be32).
  rewrite SetBytes_be_bytes, (Z.mod_small l) by (simpl; lia).
  destruct (Hsmall (len a + 32 + l) ltac:(lia)) as [-> _]; destruct (Hsmall l ltac:(lia)) as [_ ->].
  destruct (Z.ltb_spec (len output) (len a + 32)); [lia|].
  by destruct (Z.ltb_spec (len output) (len a + 32 + l)); [lia|].
Qed.

(** ** One argument *)

(** A bound on what a value with a length prefix adds to the packed bytes. *)
Definition tail_size (v : abiValue) : Z :=
  match v with
  | VString s | VBytes s => 64 + len s
  | VList vs => 32 + 32 * Z.of_nat (length vs)
  | _ => 0
  end.

Lemma tail_size_nonneg v : 0 <= tail_size v.
Proof. destruct v; unfold tail_size, len; lia. Qed.

(** What packing leaves of an argument: a static one is found at its head, one
    with a length prefix where its head points. *)
Definition packed_as (t : abiType) (v : abiValue) (p : bytes) : Prop :=
  if requiresLengthPrefix t then
    len p <= tail_size v /\ forall index a b, 0 <= index -> index + 32 <= len (a ++ p ++ b) -> len (a ++ p ++ b) < 2 ^ 63 ->
    subslice (a ++ p ++ b) index (index + 32) = be_bytes 32 (len a) ->
    toGoType index t (a ++ p ++ b) = Ok v
  else
    len p = 32 * headWords t /\ forall a b, toGoType (len a) t (a ++ p ++ b) = Ok v.

Lemma packed_bytes e (f : bytes -> abiValue) s :
  (forall index output, toGoElem index e output =
     if len output <? index + WordSize then Err errInsufficientLength
     else '(start, length) ← lengthPrefixPointsTo index output;
          bs ← go_slice output start (start + length); Ok (f bs)) ->
  requiresLengthPrefix (ElemTy e) = true -> tail_size (f s) = 64 + len s ->
  packed_as (ElemTy e) (f s) (packBytesSlice s (len s)).
Proof.
  intros Hd Hr Ht; unfold packed_as; rewrite Hr, Ht; split.
  { unfold packBytesSlice; rewrite packNum_spec; unfold WordSize.
    pose proof (length_RightPad s ((len s + 32 - 1) / 32 * 32)) as Hp; unfold len in *; rewrite length_app, length_be_bytes.
    Z.to_euclidean_division_equations; lia. }
  intros index a b H0 H1 H2 Hw; cbn [toGoType]; rewrite Hd; unfold packBytesSlice in *; rewrite packNum_spec in *.
  unfold WordSize; destruct (Z.ltb_spec (len (a ++ (be_bytes 32 (len s) ++ RightPadBytes s ((len s + 32 - 1) / 32 * 32)) ++ b)) (index + 32)); [unfold WordSize in *; lia|].
  assert (Hpad : len s <= (len s + 32 - 1) / 32 * 32) by (Z.to_euclidean_division_equations; lia).
  set (body := RightPadBytes s _) in *; assert (Hb : len body = (len s + 32 - 1) / 32 * 32) by by apply length_RightPad.
  assert (Hs : exists z, body = s ++ z).
  { unfold body, RightPadBytes; destruct (_ <=? _); [exists []; by rewrite app_nil_r|by eexists]. }
  rewrite (lengthPrefix_spec index _ a (len s) body b);
    [|by rewrite <- app_assoc|done|done|done|rewrite Hb; unfold len in *; lia|done]; rewrite bind_Ok; cbv beta iota.
  rewrite go_slice_ok, bind_Ok by (unfold len in *; rewrite ?length_app, ?length_be_bytes in *; lia); do 2 f_equal.
  destruct Hs as [z ->].
  replace (len a + 32) with (len (a ++ be_bytes 32 (len s))) by (unfold len; rewrite length_app, length_be_bytes; lia).
  rewrite <- !app_assoc, (app_assoc a); by apply subslice_app.
Qed.

Lemma pack_typed t v : has_type t v -> exists p, pack t v = Ok p /\ packed_as t v p.
Proof.
  destruct t as [e|e|e size]; simpl.
  - intros Hv; destruct (static e) eqn:Hs.
    + destruct (packElem_static e v Hs Hv) as (w & Hw & Hl & Hr); exists w; split; [done|].
      unfold packed_as; replace (requiresLengthPrefix (ElemTy e)) with false by (by destruct e).
      split; [simpl; lia|]; intros a b; cbn [toGoType].
      rewrite toGoElem_word by (done || unfold len in *; rewrite ?length_app; lia).
      by rewrite subslice_app.
    + destruct e, v; try done; eexists; (split; [done|]); by apply packed_bytes.
  - destruct v as [| | | | |vs]; try done; intros [Hs Hv].
    destruct (packElems_static e vs Hs Hv) as (p & Hp & Hl & Hr).
    rewrite sliceTypeCheck_ok by done; simpl; rewrite Hp; eexists; split; [done|]; split.
    { unfold packBytesSlice; rewrite packNum_spec, RightPad_id by (unfold WordSize; Z.to_euclidean_division_equations; lia).
      unfold tail_size, len in *; rewrite length_app, length_be_bytes; lia. }
    intros index a b H0 H1 H2 Hw; cbn [toGoType].
    unfold packBytesSlice in *; rewrite packNum_spec in *.
    rewrite RightPad_id in * by (unfold WordSize; Z.to_euclidean_division_equations; lia).
    unfold WordSize; destruct (Z.ltb_spec (len (a ++ (be_bytes 32 (Z.of_nat (length vs)) ++ p) ++ b)) (index + 32)); [lia|].
    rewrite (lengthPrefix_spec index _ a (Z.of_nat (length vs)) p b); [|by rewrite <- app_assoc|done|done|done|lia|done].
    rewrite bind_Ok; unfold forEachUnpack, WordSize.
    destruct (Z.ltb_spec (Z.of_nat (length vs)) 0); [lia|].
    rewrite <- !app_assoc; unfold len in Hl |- * at 1; rewrite !length_app, length_be_bytes.
    destruct (Z.ltb_spec (Z.of_nat (length a + (32 + (length p + length b)))) (len a + 32 + 32 * Z.of_nat (length vs)));
      [unfold len in *; lia|].
    replace (len a + 32) with (len (a ++ be_bytes 32 (Z.of_nat (length vs)))) by (unfold len; rewrite length_app, length_be_bytes; lia).
    by rewrite (app_assoc a), Nat2Z.id, Hr.
  - destruct v as [| | | | |vs]; try done; intros (Hs & Hv & H1 & Hn).
    destruct (packElems_static e vs Hs Hv) as (p & Hp & Hl & Hr).
    rewrite sliceTypeCheck_ok by done; simpl; rewrite Hp; eexists; split; [done|]; split; [simpl; lia|].
    intros a b; cbn [toGoType]; unfold forEachUnpack, WordSize.
    assert (len (a ++ p ++ b) = len a + len p + len b) as -> by (unfold len; rewrite !length_app; lia).
    assert (0 <= len b) by (unfold len; lia).
    destruct (Z.ltb_spec (len a + len p + len b) (len a + 32)); [lia|].
    rewrite go_slice_ok by (unfold len in *; rewrite ?length_app; lia); rewrite bind_Ok.
    destruct (Z.ltb_spec size 0); [lia|].
    destruct (Z.ltb_spec (len a + len p + len b) (len a + 32 * size)); [lia|].
    by rewrite Hn, Nat2Z.id, Hr.
Qed.

(** ** All arguments *)

Definition words (ts : list abiType) : Z := foldr (fun t n => headWords t + n) 0 ts.

Lemma inputOffset_words ts : inputOffset ts = 32 * words ts.
Proof.
  unfold inputOffset.
  assert (forall acc, fold_left (fun off t => off + WordSize * headWords t) ts acc = acc + 32 * words ts) as ->; [|lia].
  induction ts as [|t ts IH]; intros acc; simpl; [lia|]; rewrite IH; unfold WordSize; lia.
Qed.

(** The heads and tails that packing adds, the bound on the tails, and that they decode in any context
    which keeps the heads in place and the tails where the heads point. *)
Lemma packArgs_typed ts vs : Forall2 has_type ts vs -> forall offset ret var, exists H V,
  packArgs offset ts vs ret var = Ok (ret ++ H, var ++ V) /\ len H = 32 * words ts /\
  (existsb requiresLengthPrefix ts = false -> V = []) /\ len V <= zsum tail_size vs /\
  forall index a m b, 0 <= index -> len a = index * 32 -> len (a ++ H ++ m) = offset + len var ->
    len (a ++ H ++ m ++ V ++ b) < 2 ^ 63 -> unpackArgs index ts (a ++ H ++ m ++ V ++ b) = Ok vs.
Proof.
  induction 1 as [|t v ts vs Hv _ IH]; intros offset ret var.
  { exists [], []; simpl; rewrite !app_nil_r; by repeat split. }
  destruct (pack_typed t v Hv) as (p & Hp & Hdec); cbn [packArgs]; rewrite Hp, bind_Ok.
  unfold packed_as in Hdec; destruct (requiresLengthPrefix t) eqn:Hr.
  - assert (Ht : headWords t = 1) by (by destruct t).
    rewrite packNum_spec; set (h := be_bytes 32 _).
    assert (Hh : len h = 32) by apply length_be32.
    destruct Hdec as [Hps Hdec]; destruct (IH offset (ret ++ h) (var ++ p)) as (H & V & -> & Hl & _ & HVl & Hun).
    exists (h ++ H), (p ++ V); rewrite !app_assoc; split; [done|].
    assert (Hl2 : len (h ++ H) = 32 + len H) by (unfold len in *; rewrite length_app; lia).
    change (words (t :: ts)) with (headWords t + words ts).
    split; [lia|]; split; [simpl; by rewrite Hr|].
    split; [rewrite zsum_cons; unfold len in *; rewrite length_app; lia|].
    intros index a m b H0 Ha Hm Hb; cbn [unpackArgs]; rewrite Ht.
    rewrite <- !app_assoc in *.
    assert (E : a ++ h ++ H ++ m ++ p ++ V ++ b = (a ++ h ++ H ++ m) ++ p ++ (V ++ b)) by by rewrite <- !app_assoc.
    rewrite E in Hb |- *; unfold WordSize; rewrite Hdec; [|lia| | done |]; cycle 1.
    { rewrite <- E; unfold len in *; rewrite !length_app in *; lia. }
    { rewrite <- E, <- Ha, subslice_app by done; by rewrite Hm. }
    rewrite bind_Ok, <- E; specialize (Hun (index + 1) (a ++ h) (m ++ p) b).
    rewrite <- !app_assoc in Hun; rewrite Hun; [done|lia|..].
    + unfold len in *; rewrite length_app; lia.
    + unfold len in *; rewrite !length_app in *; lia.
    + by rewrite E.
  - destruct Hdec as [Hlp Hdec].
    destruct (IH offset (ret ++ p) var) as (H & V & -> & Hl & HV & HVl & Hun).
    exists (p ++ H), V; rewrite !app_assoc; split; [done|].
    assert (Hl2 : len (p ++ H) = len p + len H) by (unfold len; rewrite length_app; lia).
    change (words (t :: ts)) with (headWords t + words ts).
    split; [lia|]; split; [simpl; by rewrite Hr|].
    split; [rewrite zsum_cons; pose proof (tail_size_nonneg v); lia|].
    intros index a m b H0 Ha Hm Hb; cbn [unpackArgs]; unfold WordSize.
    rewrite <- !app_assoc in *; rewrite <- Ha, Hdec, bind_Ok.
    specialize (Hun (index + headWords t) (a ++ p) m b); rewrite <- !app_assoc in Hun.
    rewrite Hun; [done|unfold len in *; lia| |done..].
    unfold len in *; rewrite length_app; lia.
Qed.

Lemma Pack_typed args vs : Forall2 has_type (ArgType <$> args) vs ->
  exists data, Pack args vs = Ok data /\ 32 * words (ArgType <$> args) <= len data /\
    (existsb requiresLengthPrefix (ArgType <$> args) = false -> len data = 32 * words (ArgType <$> args)) /\
    len data <= 32 * words (ArgType <$> args) + zsum tail_size vs /\
    (len data < 2 ^ 63 -> UnpackValues args data = Ok vs).
Proof.
  intros Hv; unfold Pack.
  replace (length vs =? length args)%nat with true
    by (symmetry; apply Nat.eqb_eq; apply Forall2_length in Hv; by rewrite length_fmap in Hv).
  destruct (packArgs_typed _ _ Hv (inputOffset (ArgType <$> args)) [] []) as (H & V & -> & Hl & HV & HVl & Hun).
  eexists; split; [done|]; simpl; split; [unfold len in *; rewrite length_app; lia|].
  split; [intros Hs; by rewrite (HV Hs), app_nil_r|]; split; [unfold len in *; rewrite length_app; lia|]; intros Hb.
  specialize (Hun 0 [] [] []); simpl in Hun; rewrite !app_nil_r in Hun.
  unfold UnpackValues; apply Hun; [done..| |done]; rewrite inputOffset_words; unfold len in *; simpl; lia.
Qed.

Definition example_args : list Argument :=
  match newArguments [("amount", "uint256", false); ("name", "string", false); ("ids", "tokenId[]", false);
                      ("pair", "int8[2]", false); ("flag", "bool", false)]%string with
  | Ok args => args
  | _ => []
  end.
Definition example_values : list abiValue :=
  [VNum Big (10 ^ 18); VString [x56; x58]; VList [VArray ViteTokenId; VArray (zero_bytes 10)];
   VList [VNum (Machine false 8) (-3); VNum (Machine false 8) 127]; VBool true].

(** ** Decoding arbitrary bytes *)

(** The types for which a word holds an element: at most 32 fixed bytes. *)
Definition elem_fits (e : elemType) : Prop :=
  match e with FixedBytesTy size => 0 <= size <= 32 | _ => True end.

(** The types that decode without a panic: the elements fit a word, and an
    array does not have a negative size. *)
Definition type_reads (t : abiType) : Prop :=
  match t with
  | ElemTy e | SliceTy e => elem_fits e
  | ArrayTy e size => elem_fits e /\ 0 <= size
  end.

(** Among them the types that also pack: lists of strings or byte strings are
    left out, see [string_list_not_decoded]. *)
Definition type_fits (t : abiType) : Prop :=
  match t with
  | ElemTy e => elem_fits e
  | SliceTy e => elem_fits e /\ static e = true
  | ArrayTy e size => elem_fits e /\ static e = true /\ 1 <= size
  end.

(** What a decoder returns for a type. *)
Definition decoded_as (t : abiType) (v : abiValue) : Prop :=
  match t, v with
  | ElemTy e, v => has_elem e v
  | SliceTy e, VList vs => Forall (has_elem e) vs
  | ArrayTy e size, VList vs => Forall (has_elem e) vs /\ size = Z.of_nat (length vs)
  | _, _ => False
  end.

Lemma decoded_fits t v : type_fits t -> decoded_as t v -> has_type t v.
Proof. destruct t, v; simpl; naive_solver. Qed.

Lemma fits_reads t : type_fits t -> type_reads t.
Proof. destruct t; simpl; naive_solver lia. Qed.

(** A value with the property, or an error, but no panic. *)
Definition ok_or_err {E A} (P : A -> Prop) (o : outcome E A) : Prop :=
  match o with Ok a => P a | Err _ => True | Panic _ => False end.

Lemma ok_or_err_bind {E A B} (P : A -> Prop) (Q : B -> Prop) (m : outcome E A) (f : A -> outcome E B) :
  ok_or_err P m -> (forall a, P a -> ok_or_err Q (f a)) -> ok_or_err Q (m ≫= f).
Proof. destruct m; simpl; [auto|done..]. Qed.

Lemma SetBytes_bound (b : bytes) n : length b = n -> 0 <= SetBytes b < 256 ^ Z.of_nat n.
Proof. intros <-; apply SetBytes_range. Qed.

Lemma readInteger_typed u size w : length w = 32%nat ->
  exists z, readInteger (reflectIntKind u size) w = Ok (VNum (reflectIntKind u size) z) /\ num_in (reflectIntKind u size) z.
Proof.
  intros Hw; destruct (reflectIntKind_cases u size) as [->|[-> Hs]]; cbn [readInteger]; [eexists; split; [done|]|].
  - apply (SetBytes_bound w 32 Hw).
  - destruct (word_low_bytes size w Hs Hw) as [-> Hl]; set (low := drop _ w) in *; rewrite bind_Ok; eexists; (split; [done|]).
    assert (Hr : 0 <= SetBytes low < 2 ^ size).
    { set_unfold in Hs; pose proof (SetBytes_bound low _ Hl) as Hb.
      destruct Hs as [->|[->|[->|[->|[]]]]]; apply Hb. }
    destruct u; simpl; [done|]; unfold toSigned.
    assert (2 ^ size = 2 * 2 ^ (size - 1)) as -> by (set_unfold in Hs; destruct Hs as [->|[->|[->|[->|[]]]]]; done).
    pose proof (Z.mod_pos_bound (SetBytes low + 2 ^ (size - 1)) (2 * 2 ^ (size - 1))).
    set_unfold in Hs; destruct Hs as [->|[->|[->|[->|[]]]]]; lia.
Qed.

Lemma located_typed {B} (Q : B -> Prop) index output (f : Z * Z -> abiM B) :
  0 <= index -> index + WordSize <= len output ->
  (forall s l, 0 <= s -> 0 <= l -> s + l <= len output -> ok_or_err Q (f (s, l))) ->
  ok_or_err Q (lengthPrefixPointsTo index output ≫= f).
Proof.
  intros H0 H1 Hf; apply (ok_or_err_bind (fun sl => 0 <= sl.1 /\ 0 <= sl.2 /\ sl.1 + sl.2 <= len output));
    [|intros [s l] (? & ? & ?); by apply Hf].
  unfold lengthPrefixPointsTo; rewrite go_slice_ok, bind_Ok by (unfold WordSize in *; lia); cbv zeta.
  set (o := SetBytes _); assert (0 <= o) by apply SetBytes_range; clearbody o.
  assert (Hu : forall z, 0 <= z -> BitLen z <= 63 -> 0 <= z < 2 ^ 63).
  { intros z Hz Hl; split; [done|]; apply Z.nle_gt; intros Hge; pose proof (BitLen_gt z 63 ltac:(lia)); lia. }
  destruct (Z.ltb_spec (len output) (o + WordSize)); [done|]; destruct (Z.ltb_spec 63 (BitLen (o + WordSize))); [done|].
  pose proof (Hu (o + WordSize) ltac:(unfold WordSize; lia) ltac:(lia)).
  unfold WordSize in *; rewrite Uint64_small by lia; rewrite go_slice_ok, bind_Ok by lia.
  set (l := SetBytes _); assert (0 <= l) by apply SetBytes_range; clearbody l.
  destruct (Z.ltb_spec 63 (BitLen (o + 32 + l))); [done|]; destruct (Z.ltb_spec (len output) (o + 32 + l)); [done|].
  pose proof (Hu (o + 32 + l) ltac:(lia) ltac:(lia)); rewrite Uint64_small by lia; simpl; lia.
Qed.

Lemma toGoElem_typed index e output : elem_fits e -> 0 <= index ->
  ok_or_err (has_elem e) (toGoElem index e output).
Proof.
  intros He H0; unfold toGoElem; destruct (Z.ltb_spec (len output) (index + WordSize)); [done|].
  pose proof (length_subslice output index (index + WordSize) ltac:(unfold WordSize; lia) ltac:(lia)) as Hl.
  rewrite go_slice_ok by (unfold WordSize in *; lia).
  set (w := subslice output index _) in *; assert (Hw : length w = 32%nat) by (unfold len, WordSize in Hl; lia).
  assert (Hsuf : forall n, 0 <= n <= 32 -> exists bs, suffix n w = Ok bs /\ len bs = n).
  { intros n Hn; unfold suffix, WordSize; rewrite go_slice_ok by (unfold len; lia); eexists; split; [done|].
    rewrite length_subslice; unfold len; lia. }
  assert (Hloc : forall (f : bytes -> abiValue), (forall bs, has_elem e (f bs)) -> ok_or_err (has_elem e)
    ('(begin, end_) ← lengthPrefixPointsTo index output; bs ← go_slice output begin (begin + end_); Ok (f bs))).
  { intros f Hf; apply located_typed; [done..|]; intros s l Hs Hl' Hsl; rewrite go_slice_ok, bind_Ok by lia; apply Hf. }
  destruct e; cbv zeta; rewrite ?bind_Ok.
  - destruct (readInteger_typed false size w Hw) as (z & -> & Hz); done.
  - destruct (readInteger_typed true size w Hw) as (z & -> & Hz); done.
  - unfold readBool; rewrite go_slice_ok, bind_Ok by (unfold len; lia); destruct (negb _); [done|].
    destruct (@go_index_ok abi_err w 31) as (b & _ & ->); [unfold len; lia|]; rewrite bind_Ok.
    destruct (byte_Z b =? 0); [done|]; by destruct (byte_Z b =? 1).
  - by apply Hloc.
  - destruct (Hsuf AddressSize) as (bs & -> & E); [done|]; simpl; unfold BytesToAddress; by rewrite E.
  - destruct (Hsuf GidSize) as (bs & -> & E); [done|]; simpl; unfold BytesToGid; by rewrite E.
  - destruct (Hsuf TokenTypeIdSize) as (bs & -> & E); [done|]; simpl; unfold BytesToTokenTypeId; by rewrite E.
  - simpl in He; unfold readFixedBytes; rewrite go_slice_ok, bind_Ok by (unfold len; lia).
    simpl; rewrite length_subslice by (unfold len; lia); lia.
  - by apply Hloc.
Qed.

Lemma unpackElems_typed n e output i : elem_fits e -> 0 <= i ->
  ok_or_err (fun vs => length vs = n /\ Forall (has_elem e) vs) (unpackElems n e output i).
Proof.
  intros He Hi; revert i Hi; induction n as [|n IH]; intros i Hi; simpl; [done|].
  apply (ok_or_err_bind (has_elem e)); [by apply toGoElem_typed|]; intros v Hv.
  eapply ok_or_err_bind; [apply IH; unfold WordSize; lia|]; intros vs [Hn Hvs]; simpl; by rewrite Hn; auto.
Qed.

Lemma ok_or_err_weaken {E A} (P Q : A -> Prop) (m : outcome E A) :
  ok_or_err P m -> (forall a, P a -> Q a) -> ok_or_err Q m.
Proof. destruct m; simpl; auto. Qed.

Lemma toGoType_typed index t output : type_reads t -> 0 <= index ->
  ok_or_err (decoded_as t) (toGoType index t output).
Proof.
  intros Ht H0.
  assert (Hfe : forall e s size, elem_fits e -> 0 <= s ->
    ok_or_err (fun v => exists vs, v = VList vs /\ Forall (has_elem e) vs /\ size = Z.of_nat (length vs))
              (forEachUnpack e output s size)).
  { intros e s size He Hs; unfold forEachUnpack; destruct (Z.ltb_spec size 0); [done|]; destruct (_ <? _); [done|].
    pose proof (unpackElems_typed (Z.to_nat size) e output s He Hs) as Hu.
    destruct (unpackElems _ _ _ _); simpl in *; [|done..]; eexists; split; [done|]; split; [apply Hu|].
    destruct Hu as [-> _]; lia. }
  destruct t as [e|e|e size]; simpl in Ht |- *.
  - by apply toGoElem_typed.
  - destruct (Z.ltb_spec (len output) (index + WordSize)); [done|]; apply located_typed; [done..|]; intros s l Hs Hl _.
    eapply ok_or_err_weaken; [by apply Hfe|]; intros v (vs & -> & Hv & _); done.
  - destruct (Z.ltb_spec (len output) (index + WordSize)); [done|].
    rewrite go_slice_ok by (unfold WordSize in *; lia); rewrite bind_Ok.
    eapply ok_or_err_weaken; [apply Hfe; [apply Ht|done]|]; intros v (vs & -> & Hv & ->); done.
Qed.

Lemma unpackArgs_typed ts data : Forall type_reads ts -> forall index, 0 <= index ->
  ok_or_err (Forall2 decoded_as ts) (unpackArgs index ts data).
Proof.
  intros Ht; induction Ht as [|t ts Ht _ IH]; intros index H0; simpl; [constructor|].
  apply (ok_or_err_bind (decoded_as t)); [apply toGoType_typed; [done|unfold WordSize; lia]|]; intros v Hv.
  eapply ok_or_err_bind; [apply IH; destruct t; simpl in *; lia|]; intros vs Hvs; by constructor.
Qed.

(** C31 Decoding is safe on every input: whatever bytes a caller sends,
    [UnpackValues] returns an error or values of the argument types, and never
    panics on an index, a slice bound or a reflected kind.  The argument types
    are those with at most 32 fixed bytes per element: the parser accepts
    longer ones, whose decoding slices beyond the word. *)
Theorem abi_decoding_safe args data : Forall type_reads (ArgType <$> args) ->
  ok_or_err (Forall2 decoded_as (ArgType <$> args)) (UnpackValues args data).
Proof. intros H; by apply unpackArgs_typed. Qed.

Lemma abi_decoding_safe_witness : Forall type_reads (ArgType <$> example_args) /\
  ok_or_err (Forall2 decoded_as (ArgType <$> example_args)) (UnpackValues example_args (replicate 200 xff)).
Proof.
  assert (H : Forall type_reads (ArgType <$> example_args))
    by (repeat constructor; vm_compute; repeat split; discriminate).
  split; [exact H|exact (abi_decoding_safe example_args (replicate 200 xff) H)].
Defined.

(** ** Methods and variables *)

(** The method identifiers of a contract tell its methods apart. *)
Record abi_ok (abi : ABIContract) : Prop := {
  ao_distinct : NoDup ((fun nm => md_id nm.2) <$> Methods abi);
  ao_names : NoDup ((Methods abi).*1);
  ao_named name m : (name, m) ∈ Methods abi -> md_Name m = name /\ length (md_id m) = 4%nat;
}.

Lemma length_DataHash Hash256 d : length (DataHash Hash256 d) = 32%nat.
Proof.
  unfold DataHash, BytesToHash, HashSize, len; destruct (Z.eqb_spec (Z.of_nat (length (Hash256 d))) 32); simpl; lia.
Qed.

Lemma assoc_elem {A} name (l : list (string * A)) a : assoc name l = Some a -> (name, a) ∈ l.
Proof.
  induction l as [|[n b] l IH]; simpl; [done|]; case_bool_decide; intros E; simplify_eq; set_solver.
Qed.

Lemma findMethod_assoc ms name m : NoDup ((fun nm => md_id nm.2) <$> ms) -> assoc name ms = Some m ->
  findMethod (md_id m) ms = Some m.
Proof.
  induction ms as [|[n m'] ms IH]; simpl; [done|]; intros Hnd; inversion Hnd as [|? ? Hn Hd]; subst.
  case_bool_decide as En; intros E.
  - simplify_eq; by rewrite bool_decide_true.
  - rewrite bool_decide_false; [auto|]; intros Ei; apply Hn; rewrite Ei.
    apply assoc_elem in E; by apply (list_elem_of_fmap_2 (fun nm => md_id nm.2) ms (name, m)).
Qed.

Lemma unpackArgs_length ts data : forall index vs, unpackArgs index ts data = Ok vs -> length vs = length ts.
Proof.
  induction ts as [|t ts IH]; intros index vs; simpl; [by intros [= <-]|].
  intros (v & _ & (vs' & E & [= <-])%outcome_bind_ok)%outcome_bind_ok; simpl; f_equal; by eapply IH.
Qed.

(** [Unpack] gives the values that [UnpackValues] reads, and an error when there
    are no arguments. *)
Lemma Unpack_values args data vs : Unpack args data = Ok vs <-> args <> [] /\ UnpackValues args data = Ok vs.
Proof.
  unfold Unpack; destruct (UnpackValues args data) as [vs'| |] eqn:E; simpl; [|naive_solver..].
  apply unpackArgs_length in E; rewrite length_fmap in E.
  destruct args as [|a [|b args]]; simpl in *; [destruct vs'; naive_solver| |naive_solver].
  rewrite E; naive_solver.
Qed.

Lemma words_no_args (args : list Argument) : 1 <= words (ArgType <$> args) -> args <> [].
Proof. intros H ->; done. Qed.

(** A call that was packed is recognised and decoded; a method without inputs is
    not, because a bare selector counts as empty input. *)
Lemma method_decodes abi name m vs : abi_ok abi -> name <> ""%string -> assoc name (Methods abi) = Some m ->
  1 <= words (ArgType <$> md_Inputs m) -> Forall2 has_type (ArgType <$> md_Inputs m) vs ->
  exists data, PackMethod abi name vs = Ok data /\ 36 <= len data /\
    (existsb requiresLengthPrefix (ArgType <$> md_Inputs m) = false -> len data = 4 + 32 * words (ArgType <$> md_Inputs m)) /\
    len data <= 4 + 32 * words (ArgType <$> md_Inputs m) + zsum tail_size vs /\
    (len data < 2 ^ 63 -> MethodById abi (take 4 data) = Ok m /\ UnpackMethod abi name data = Ok vs).
Proof.
  intros [Hd _ Hn] Hne Hm H1 Hv; destruct (Hn name m (assoc_elem _ _ _ Hm)) as [Hname Hid].
  destruct (Pack_typed _ _ Hv) as (body & Hp & Hl & Hst & Hle & Hun).
  unfold PackMethod; rewrite bool_decide_false, Hm by done; unfold packMethod; rewrite Hp.
  eexists; split; [done|].
  assert (Hlen : len (md_id m ++ body) = 4 + len body) by (unfold len; rewrite length_app, Hid; lia).
  rewrite Hlen; split; [lia|]; split; [intros Hs; rewrite Hst; done|]; split; [lia|]; intros Hb.
  assert (Ht : take 4 (md_id m ++ body) = md_id m) by (by apply take_app_length').
  assert (Hmi : MethodById abi (md_id m) = Ok m).
  { unfold MethodById, len; rewrite Hid; simpl; rewrite take_ge by (by rewrite Hid).
    by rewrite (findMethod_assoc _ name m). }
  rewrite Ht; split; [done|]; unfold UnpackMethod; rewrite Hlen, Ht, Hmi.
  destruct (Z.leb_spec (4 + len body) 4); [lia|].
  rewrite bool_decide_true, drop_app_length' by done; apply Unpack_values; split; [by apply words_no_args|apply Hun; lia].
Qed.

(** Packed data carry the selector of the method. *)
Lemma PackMethod_selects abi name m vs data : abi_ok abi -> name <> ""%string -> assoc name (Methods abi) = Some m ->
  PackMethod abi name vs = Ok data -> MethodById abi data = Ok m.
Proof.
  intros [Hd _ Hn] Hne Hm; destruct (Hn name m (assoc_elem _ _ _ Hm)) as [_ Hid]; unfold PackMethod; rewrite bool_decide_false, Hm by done.
  unfold packMethod; intros (body & _ & [= <-])%outcome_bind_ok; unfold MethodById, len; rewrite length_app, Hid, take_app_length' by done.
  rewrite (findMethod_assoc _ name m) by done; destruct (Z.ltb_spec (Z.of_nat (4 + length body)) 4); [lia|done].
Qed.

(** The data of a method without inputs are its selector, which does not decode. *)
Lemma PackMethod_no_inputs abi name m : abi_ok abi -> name <> ""%string -> assoc name (Methods abi) = Some m -> md_Inputs m = [] ->
  exists data, PackMethod abi name [] = Ok data /\ MethodById abi data = Ok m /\ UnpackMethod abi name data = Err errEmptyInput.
Proof.
  intros Ha Hne Hm Hin; destruct (ao_named _ Ha name m (assoc_elem _ _ _ Hm)) as [_ Hid].
  assert (Hp : PackMethod abi name [] = Ok (md_id m)).
  { unfold PackMethod; rewrite bool_decide_false, Hm by done; unfold packMethod; rewrite Hin; simpl; by rewrite app_nil_r. }
  exists (md_id m); split_and!; [done|by eapply PackMethod_selects|]; unfold UnpackMethod, len; by rewrite Hid.
Qed.

Lemma variable_decodes abi name inputs vs : assoc name (Variables abi) = Some inputs ->
  1 <= words (ArgType <$> inputs) -> Forall2 has_type (ArgType <$> inputs) vs ->
  exists data, PackVariable abi name vs = Ok data /\ 32 <= len data /\
    (existsb requiresLengthPrefix (ArgType <$> inputs) = false -> len data = 32 * words (ArgType <$> inputs)) /\
    len data <= 32 * words (ArgType <$> inputs) + zsum tail_size vs /\
    (len data < 2 ^ 63 -> UnpackVariable abi name data = Ok vs).
Proof.
  intros Hi H1 Hv; destruct (Pack_typed _ _ Hv) as (body & Hp & Hl & Hst & Hle & Hun).
  unfold PackVariable, UnpackVariable; rewrite Hi; exists body; split_and!; [done|lia|done|done|]; intros Hb.
  destruct (Z.eqb_spec (len body) 0); [lia|]; apply Unpack_values; split; [by apply words_no_args|by apply Hun].
Qed.

(** Inputs that are all static: the size is known, and small definitions have no
    limit to respect. *)
Lemma static_variable abi name inputs vs : assoc name (Variables abi) = Some inputs ->
  existsb requiresLengthPrefix (ArgType <$> inputs) = false -> 1 <= words (ArgType <$> inputs) <= 1000 ->
  Forall2 has_type (ArgType <$> inputs) vs ->
  exists data, PackVariable abi name vs = Ok data /\ len data = 32 * words (ArgType <$> inputs) /\
    UnpackVariable abi name data = Ok vs.
Proof.
  intros Hi Hs Hw Hv; destruct (variable_decodes abi name inputs vs Hi ltac:(lia) Hv) as (data & Hp & _ & Hl & _ & Hu).
  exists data; rewrite (Hl Hs); split_and!; [done|done|apply Hu; rewrite (Hl Hs); lia].
Qed.

Lemma static_method abi name m vs : abi_ok abi -> name <> ""%string -> assoc name (Methods abi) = Some m ->
  existsb requiresLengthPrefix (ArgType <$> md_Inputs m) = false -> 1 <= words (ArgType <$> md_Inputs m) <= 1000 ->
  Forall2 has_type (ArgType <$> md_Inputs m) vs ->
  exists data, PackMethod abi name vs = Ok data /\ 
    MethodById abi (take 4 data) = Ok m /\ UnpackMethod abi name data = Ok vs.
Proof.
  intros Ha Hn Hm Hs Hw Hv.
  destruct (method_decodes abi name m vs Ha Hn Hm ltac:(lia) Hv) as (data & Hp & _ & Hl & _ & Hu).
  exists data; split; [done|]; apply Hu; rewrite (Hl Hs); lia.
Qed.

Lemma elem_assoc {A} name (l : list (string * A)) a : NoDup (l.*1) -> (name, a) ∈ l -> assoc name l = Some a.
Proof.
  induction l as [|[n b] l IH]; simpl; [by intros _ ?%not_elem_of_nil|]; intros Hnd; inversion Hnd as [|? ? Hn Hd]; subst.
  intros [E|Hin]%elem_of_cons; [simplify_eq; by rewrite bool_decide_eq_true_2|].
  rewrite bool_decide_eq_false_2; [auto|]; intros ->; apply Hn; by apply (list_elem_of_fmap_2 fst l (name, a)).
Qed.

Lemma findMethod_elem id ms m : findMethod id ms = Some m -> exists n, (n, m) ∈ ms.
Proof.
  induction ms as [|[n m'] ms IH]; simpl; [done|]; case_bool_decide.
  - intros [= ->]; exists n; apply elem_of_cons; by left.
  - intros (n' & Hin)%IH; exists n'; apply elem_of_cons; by right.
Qed.

(** Inputs of which the sizes are known. *)
Lemma sized_variable abi name inputs vs : assoc name (Variables abi) = Some inputs ->
  1 <= words (ArgType <$> inputs) -> 32 * words (ArgType <$> inputs) + zsum tail_size vs < 2 ^ 63 ->
  Forall2 has_type (ArgType <$> inputs) vs ->
  exists data, PackVariable abi name vs = Ok data /\ 32 <= len data /\ UnpackVariable abi name data = Ok vs.
Proof.
  intros Hi Hw Hb Hv; destruct (variable_decodes abi name inputs vs Hi Hw Hv) as (data & Hp & Hl & _ & Hle & Hu).
  exists data; split_and!; [done|done|apply Hu; lia].
Qed.

Lemma sized_method abi name m vs : abi_ok abi -> name <> ""%string -> assoc name (Methods abi) = Some m ->
  1 <= words (ArgType <$> md_Inputs m) -> 4 + 32 * words (ArgType <$> md_Inputs m) + zsum tail_size vs < 2 ^ 63 ->
  Forall2 has_type (ArgType <$> md_Inputs m) vs ->
  exists data, PackMethod abi name vs = Ok data /\ MethodById abi (take 4 data) = Ok m /\ UnpackMethod abi name data = Ok vs.
Proof.
  intros Ha Hn Hm Hw Hb Hv; destruct (method_decodes abi name m vs Ha Hn Hm Hw Hv) as (data & Hp & _ & _ & Hle & Hu).
  exists data; split; [done|apply Hu; lia].
Qed.

Lemma words_pos ts vs : Forall2 has_type ts vs -> ts <> [] -> 1 <= words ts.
Proof.
  assert (Hh : forall t v, has_type t v -> 1 <= headWords t) by (intros [] []; simpl; naive_solver lia).
  destruct 1 as [|t v ts vs Hv Hvs]; [done|]; intros _.
  assert (0 <= words ts) by (clear Hv; induction Hvs as [|t' v' ts vs Hv']; simpl; [lia|]; pose proof (Hh _ _ Hv'); lia).
  pose proof (Hh _ _ Hv); simpl; lia.
Qed.


(** A contract of two methods; its selectors are lengths of signatures. *)
Definition example_abi : ABIContract :=
  JSONToABIContract (fun d => be_bytes 4 (len d) ++ zero_bytes 28)
    [mkField "function" "Order" [("amount", "uint256", false); ("name", "string", false); ("ids", "tokenId[]", false);
                                 ("pair", "int8[2]", false); ("flag", "bool", false)];
     mkField "function" "Cancel" [("id", "bytes32", false)]]%string.


(** A decoded call has the types of its method, so it can be packed again, and
    then decodes to the same values: contracts store calls in this form. *)
Lemma decoded_typed abi name m input vs : abi_ok abi -> assoc name (Methods abi) = Some m ->
  Forall type_fits (ArgType <$> md_Inputs m) -> UnpackMethod abi name input = Ok vs ->
  Forall2 has_type (ArgType <$> md_Inputs m) vs.
Proof.
  intros Ha Hm Hf Hu.
  unfold UnpackMethod, MethodById in Hu; destruct (len input <=? 4); [done|]; destruct (len (take 4 input) <? 4); [done|].
  destruct (findMethod _ _) as [m'|] eqn:Em; [|done]; case_bool_decide as En; [|done].
  apply findMethod_elem in Em as (n & Hin); destruct (ao_named _ Ha _ _ Hin) as [E _]; rewrite E in En; subst n.
  rewrite (elem_assoc _ _ _ (ao_names _ Ha) Hin) in Hm; injection Hm as ->.
  apply Unpack_values in Hu as [_ Hu].
  pose proof (unpackArgs_typed _ (drop 4 input) (List.Forall_impl _ fits_reads Hf) 0 ltac:(lia)) as Ht.
  unfold UnpackValues in Hu; rewrite Hu in Ht; simpl in Ht; clear -Hf Ht.
  induction Ht; inversion Hf; subst; constructor; auto using decoded_fits.
Qed.

Lemma recode abi name m input vs : abi_ok abi -> name <> ""%string -> assoc name (Methods abi) = Some m ->
  existsb requiresLengthPrefix (ArgType <$> md_Inputs m) = false -> 1 <= words (ArgType <$> md_Inputs m) <= 1000 ->
  Forall type_fits (ArgType <$> md_Inputs m) -> UnpackMethod abi name input = Ok vs ->
  Forall2 has_type (ArgType <$> md_Inputs m) vs /\
  exists data, PackMethod abi name vs = Ok data /\
    MethodById abi (take 4 data) = Ok m /\ UnpackMethod abi name data = Ok vs.
Proof.
  intros Ha Hne Hm Hs Hw Hf Hu; pose proof (decoded_typed abi name m input vs Ha Hm Hf Hu) as Hv.
  split; [done|by apply static_method].
Qed.

(** Events of typed values are packed. *)
Lemma packTopics_typed Hash256 args vs : Forall2 has_type (ArgType <$> args) vs ->
  exists topics rest, packTopics Hash256 args vs = Ok (topics, rest) /\
    Forall2 has_type (ArgType <$> List.filter (fun a => negb (Indexed a)) args) rest.
Proof.
  revert vs; induction args as [|a args IH]; intros vs; simpl; [intros _; exists [], []; by split|].
  intros (v & vs' & Hv & Hvs & ->)%Forall2_cons_inv_l; destruct (IH vs' Hvs) as (topics & rest & E & Hr).
  destruct (Indexed a); simpl.
  - destruct (pack_typed _ _ Hv) as (p & -> & _); rewrite bind_Ok, E, bind_Ok; eexists _, _; by split.
  - rewrite E, bind_Ok; eexists _, _; split; [done|by constructor].
Qed.

Lemma PackEvent_typed Hash256 abi name e vs : assoc name (Events abi) = Some e ->
  Forall2 has_type (ArgType <$> ev_Inputs e) vs -> exists r, PackEvent Hash256 abi name vs = Ok r.
Proof.
  intros He Hv; unfold PackEvent, packEvent; rewrite He; pose proof Hv as Hl; apply Forall2_length in Hl; rewrite length_fmap in Hl.
  rewrite Hl, Nat.eqb_refl; destruct (packTopics_typed Hash256 _ _ Hv) as (topics & rest & -> & Hr); rewrite bind_Ok.
  destruct rest; [by eexists|]; destruct (Pack_typed (NonIndexedInputs e) _ Hr) as (d & -> & _); rewrite bind_Ok; by eexists.
Qed.

(** Arguments written as in a contract definition. *)
Definition args_of (inputs : list (string * string)) : list Argument :=
  match newArguments ((fun nt => (nt.1, nt.2, false)) <$> inputs) with Ok l => l | _ => [] end.

(** The selectors of a contract differ; this is a property of the hash function. *)
Definition abi_selectors (abi : ABIContract) : Prop := NoDup ((fun nm => md_id nm.2) <$> Methods abi).

Lemma abi_ok_intro Hash256 abi : abi_selectors abi -> NoDup ((Methods abi).*1) ->
  Forall (fun nm => nm.2 = newMethod Hash256 nm.1 (md_Inputs nm.2)) (Methods abi) -> abi_ok abi.
Proof.
  intros Hd Hn Hall; split; [done|done|]; intros name m Hin%list_elem_of_In; rewrite Forall_forall in Hall.
  pose proof (Hall _ Hin) as E; simpl in E; rewrite E.
  split; [reflexivity|]; cbn [md_id newMethod]; rewrite length_take, length_DataHash; reflexivity.
Qed.

(** Values of a computed list of types. *)
Ltac has_types :=
  match goal with |- Forall2 has_type ?ts _ => let ts' := eval vm_compute in ts in change ts with ts' end;
  once (repeat constructor); simpl; try done.

(** Take a typed list of values apart. *)
Ltac inv_types H :=
  match type of H with
  | Forall2 has_type ?ts ?vs => let ts' := eval vm_compute in ts in change (Forall2 has_type ts' vs) in H
  end;
  repeat match goal with
  | H : Forall2 has_type (_ :: _) ?vs |- _ =>
      let v := fresh "v" in let l := fresh "l" in let E := fresh "E" in let Hv := fresh "Hv" in
      apply Forall2_cons_inv_l in H as (v & l & Hv & H & E); subst vs
  | H : Forall2 has_type [] ?vs |- _ => apply Forall2_nil_inv_l in H; subst vs
  end;
  repeat match goal with H : has_type (ElemTy _) ?v |- _ => destruct v; simpl in H; try done end.

(** [NewType] accepts lists of strings, but [Pack] writes their elements one
    after the other and the decoder looks for offsets: such a list does not decode. *)
Lemma string_list_not_decoded : let args := [mkArgument "names" (SliceTy StringTy) "string[]" false] in
  NewType "string[]" = Ok (SliceTy StringTy) /\
  (data ← Pack args [VList [VString [x61]; VString [x62]]]; UnpackValues args data) = Err errInsufficientBigLength.
Proof. vm_compute; split; reflexivity. Qed.

(** A negative [int256] is decoded as the word it was packed to. *)
Lemma negative_int256_wraps :
  (data ← Pack [mkArgument "x" (ElemTy (IntTy 256)) "int256" false] [VNum Big (-1)];
   UnpackValues [mkArgument "x" (ElemTy (IntTy 256)) "int256" false] data) = Ok [VNum Big (2 ^ 256 - 1)].
Proof. vm_compute; reflexivity. Qed.
