(* ===== verification/IteratorSpec.v ===== *)
(** What iterating over merged storage lists: the layered map in key order, and
    for the storage of an account exactly what [GetValue] reads. *)
From S2P Require Import Prelude Helper Types VmDb Iterator World.
From stdpp Require Import sorting.
From Stdlib Require Import ZifyBool.
#[local] Open Scope Z_scope.

(** ** The order of keys *)

Lemma bytes_leb_refl a : bytes_leb a a = true.
Proof. induction a as [|x a IH]; simpl; [done|]; by rewrite Z.eqb_refl. Qed.

Lemma bytes_leb_antisym a b : bytes_leb a b = true -> bytes_leb b a = true -> a = b.
Proof.
  revert b; induction a as [|x a IH]; intros [|y b]; simpl; try done.
  destruct (Z.eqb_spec (byte_Z x) (byte_Z y)) as [E|E].
  - rewrite E, Z.eqb_refl; intros; f_equal; [by apply byte_Z_inj|auto].
  - destruct (Z.eqb_spec (byte_Z y) (byte_Z x)); lia.
Qed.

Lemma bytes_leb_trans a b c : bytes_leb a b = true -> bytes_leb b c = true -> bytes_leb a c = true.
Proof.
  revert b c; induction a as [|x a IH]; intros [|y b] [|z c]; simpl; try done.
  destruct (Z.eqb_spec (byte_Z x) (byte_Z y)) as [E1|E1], (Z.eqb_spec (byte_Z y) (byte_Z z)) as [E2|E2],
    (Z.eqb_spec (byte_Z x) (byte_Z z)) as [E3|E3]; try lia; eauto.
Qed.

Lemma bytes_leb_total a b : bytes_leb a b = true \/ bytes_leb b a = true.
Proof.
  revert b; induction a as [|x a IH]; intros [|y b]; simpl; auto.
  destruct (Z.eqb_spec (byte_Z x) (byte_Z y)) as [E|E], (Z.eqb_spec (byte_Z y) (byte_Z x)); auto; lia.
Qed.

Lemma bytes_leb_app p a b : bytes_leb (p ++ a) (p ++ b) = bytes_leb a b.
Proof. induction p as [|x p IH]; simpl; [done|]; by rewrite Z.eqb_refl. Qed.

(** Strict order, on keys and on entries. *)
Lemma SetBytes_cons x a : SetBytes (x :: a) = byte_Z x * 256 ^ Z.of_nat (length a) + SetBytes a.
Proof. change (x :: a) with ([x] ++ a); rewrite SetBytes_app; by unfold SetBytes at 1; simpl; rewrite Z.add_0_l. Qed.

(** Byte strings of one length are ordered by their values. *)
Lemma bytes_leb_SetBytes a b : length a = length b -> bytes_leb a b = (SetBytes a <=? SetBytes b).
Proof.
  revert b; induction a as [|x a IH]; intros [|y b] Hl; simplify_eq/=; [done|].
  rewrite !SetBytes_cons, Hl; pose proof (SetBytes_range a) as Ra; pose proof (SetBytes_range b) as Rb.
  rewrite Hl in Ra; set (K := 256 ^ Z.of_nat (length b)) in *.
  destruct (Z.eqb_spec (byte_Z x) (byte_Z y)) as [->|Hne]; [rewrite IH by done; lia|].
  destruct (Z.ltb_spec (byte_Z x) (byte_Z y)); symmetry; [apply Z.leb_le|apply Z.leb_gt]; nia.
Qed.

Definition blt (a b : bytes) : Prop := bytes_leb a b = true /\ a <> b.
Definition klt (a b : bytes * bytes) : Prop := blt a.1 b.1.

Lemma blt_not_leb a b : blt a b <-> bytes_leb b a = false.
Proof.
  unfold blt; split.
  - intros [H1 H2]; destruct (bytes_leb b a) eqn:E; [|done].
    by destruct H2; apply bytes_leb_antisym.
  - intros E; split; [destruct (bytes_leb_total a b); congruence|].
    intros ->; by rewrite bytes_leb_refl in E.
Qed.

Lemma blt_leb_trans a b c : blt a b -> bytes_leb b c = true -> blt a c.
Proof.
  intros [H1 H2] H; split; [by eapply bytes_leb_trans|].
  intros ->; by destruct H2; apply bytes_leb_antisym.
Qed.

Lemma leb_blt_trans a b c : bytes_leb a b = true -> blt b c -> blt a c.
Proof.
  intros H [H1 H2]; split; [by eapply bytes_leb_trans|].
  intros ->; by destruct H2; apply bytes_leb_antisym.
Qed.

#[export] Instance klt_antisym : AntiSymm (=) klt.
Proof. intros a b [H1 H2] [H3 _]; by destruct H2; apply bytes_leb_antisym. Qed.

#[export] Instance kv_le_trans : Transitive kv_le.
Proof.
  intros a b c; unfold kv_le; intros H1%Is_true_true H2%Is_true_true.
  apply Is_true_true; by eapply bytes_leb_trans.
Qed.

#[export] Instance kv_le_total : Total kv_le.
Proof.
  intros a b; unfold kv_le; destruct (bytes_leb_total a.1 b.1) as [E|E]; rewrite E; [by left|by right].
Qed.

(** bytes.Compare is the order. *)
Lemma Compare_neg a b : (bytes_Compare a b <? 0) = true <-> blt a b.
Proof.
  rewrite blt_not_leb; unfold bytes_Compare.
  destruct (bytes_leb_total a b) as [E|E]; rewrite E; [by destruct (bytes_leb b a)|].
  by destruct (bytes_leb a b).
Qed.

(** A strictly sorted list with the entries of a map is its [storage_list]. *)
Lemma storage_list_sorted m : StronglySorted klt (storage_list m).
Proof.
  assert (Hn : NoDup (storage_list m).*1).
  { unfold storage_list; rewrite merge_sort_Permutation; apply NoDup_fst_map_to_list. }
  assert (Hs : StronglySorted kv_le (storage_list m)) by (apply StronglySorted_merge_sort; apply _).
  induction Hs as [|x l Hl IH Hx]; constructor; inversion Hn; subst; [auto|].
  rewrite Forall_forall in Hx |- *; intros y Hy; split; [by apply Is_true_true, Hx|].
  intros E; match goal with H : _ ∉ _ |- _ => apply H end; rewrite E; by apply list_elem_of_fmap_2.
Qed.

Lemma sorted_NoDup (l : list (bytes * bytes)) : StronglySorted klt l -> NoDup l.*1.
Proof.
  induction 1 as [|x l Hl IH Hx]; constructor; [|done].
  intros (y & E & Hy)%list_elem_of_fmap; rewrite Forall_forall in Hx; destruct (Hx y Hy); congruence.
Qed.

Lemma sorted_lookup (l : list (bytes * bytes)) k v :
  StronglySorted klt l -> (list_to_map l : gmap bytes bytes) !! k = Some v <-> (k, v) ∈ l.
Proof. intros Hs; symmetry; apply elem_of_list_to_map, sorted_NoDup, Hs. Qed.

Lemma storage_list_unique m l :
  StronglySorted klt l -> (forall k v, (k, v) ∈ l <-> m !! k = Some v) -> l = storage_list m.
Proof.
  intros Hs Hm; apply (StronglySorted_unique klt); [done|apply storage_list_sorted|].
  unfold storage_list; rewrite merge_sort_Permutation; apply NoDup_Permutation.
  - by apply (NoDup_fmap_1 fst), sorted_NoDup.
  - apply NoDup_map_to_list.
  - intros [k v]; rewrite Hm; symmetry; apply elem_of_map_to_list.
Qed.

Lemma elem_of_storage_list m k v : (k, v) ∈ storage_list m <-> m !! k = Some v.
Proof. unfold storage_list; rewrite merge_sort_Permutation; apply elem_of_map_to_list. Qed.

(** The least entry of a map comes first. *)
Lemma storage_list_cons m k v :
  m !! k = Some v -> (forall k' v', m !! k' = Some v' -> bytes_leb k k' = true) ->
  storage_list m = (k, v) :: storage_list (delete k m).
Proof.
  intros Hk Hmin; symmetry; apply storage_list_unique.
  - constructor; [apply storage_list_sorted|]; apply Forall_forall; intros [k' v'] H.
    apply elem_of_storage_list, lookup_delete_Some in H as [Hne H]; split; simpl; [by eapply Hmin|done].
  - intros k' v'; rewrite elem_of_cons, elem_of_storage_list, lookup_delete_Some.
    destruct (decide (k = k')) as [->|]; naive_solver.
Qed.

(** ** Moving forward *)

(** What leveldb documents of [Next]: it visits the entries that are left, in
    order, and ends without an error. *)
Class ForwardLaws (S : Type) `{StorageIterator S} := {
  it_rest : S -> list (bytes * bytes);
  next_some s k v r : it_rest s = (k, v) :: r ->
    exists s', it_Next s = (s', true) /\ it_Key s' = k /\ it_Value s' = v /\ it_rest s' = r;
  next_none s : it_rest s = [] ->
    exists s', it_Next s = (s', false) /\ it_rest s' = [] /\ it_Error s' <> Some ErrIo;
}.

Fixpoint drop_while {A} (f : A -> bool) (l : list A) : list A :=
  match l with [] => [] | x :: r => if f x then drop_while f r else l end.

Lemma drop_while_length {A} (f : A -> bool) l : (length (drop_while f l) <= length l)%nat.
Proof. induction l as [|x l IH]; simpl; [done|]; destruct (f x); simpl; lia. Qed.

Lemma drop_while_head {A} (f : A -> bool) l x r : drop_while f l = x :: r -> f x = false.
Proof. induction l as [|y l IH]; simpl; [done|]; destruct (f y) eqn:E; naive_solver. Qed.

Lemma drop_while_sorted {A} (R : relation A) (f : A -> bool) l :
  StronglySorted R l -> StronglySorted R (drop_while f l).
Proof. induction 1; simpl; [constructor|]; destruct (f a); [done|by constructor]. Qed.

Lemma drop_while_elem {A} (f : A -> bool) l x : x ∈ drop_while f l -> x ∈ l.
Proof. induction l as [|y l IH]; simpl; [done|]; destruct (f y); [|done]; rewrite elem_of_cons; auto. Qed.

Section Forward.
Context {S : Type} `{ForwardLaws S}.
Implicit Types (l : lane S) (ls : list (lane S)) (p k : bytes) (mi : MergedIterator S) (del : option (bytes -> bool)).

(** The entries a lane has still to deliver, the one it holds included. *)
Definition pend l : list (bytes * bytes) :=
  match ln_key l with
  | Some k => (k, it_Value (ln_iter l)) :: it_rest (ln_iter l)
  | None => it_rest (ln_iter l)
  end.

(** The map the lanes stand for: a key is looked up in the lanes in order. *)
Definition layered (qs : list (list (bytes * bytes))) : gmap bytes bytes :=
  ⋃ ((fun q => list_to_map q : gmap bytes bytes) <$> qs).

Definition bad (del : option (bytes -> bool)) p (kv : bytes * bytes) : bool :=
  deleted del kv.1 || bool_decide (kv.1 = p).

(** Between two steps: sorted entries, none below the key delivered last. *)
Record lane_inv p l : Prop := {
  li_tail : ln_status l = iterPointTail -> pend l = [];
  li_sorted : StronglySorted klt (pend l);
  li_above kv : kv ∈ pend l -> bytes_leb p kv.1 = true;
}.

Lemma advance_spec del p l fuel :
  (length (pend l) < fuel)%nat -> ln_status l <> iterPointTail ->
  exists l', advance fuel del p true l = Ok (l', None) /\
    pend l' = drop_while (bad del p) (pend l) /\ ln_key l' = fst <$> head (pend l') /\
    (ln_status l' = iterPointTail -> pend l' = []).
Proof.
  revert l; induction fuel as [|fuel IH]; intros l Hf Hst; [lia|].
  assert (Hskip : forall it k, ln_key l = Some k /\ it = ln_iter l \/
      (ln_key l = None /\ it_rest (ln_iter l) = (k, it_Value it) :: it_rest it) ->
    exists l', (if deleted del k || bool_decide (k = p)
                then advance fuel del p true (mkLane it (ln_status l) None)
                else Ok (mkLane it (ln_status l) (Some k), None)) = Ok (l', None) /\
    pend l' = drop_while (bad del p) (pend l) /\ ln_key l' = fst <$> head (pend l') /\
    (ln_status l' = iterPointTail -> pend l' = [])).
  { intros it k Hk.
    assert (Hp : pend l = (k, it_Value it) :: it_rest it).
    { unfold pend; destruct Hk as [[-> ->]|[-> ->]]; done. }
    rewrite Hp in Hf |- *; simpl in Hf; cbn [drop_while]; unfold bad at 1; cbn [fst].
    destruct (deleted del k || bool_decide (k = p)).
    - destruct (IH (mkLane it (ln_status l) None)) as (l' & ? & E & ?); [unfold pend; simpl; lia|done|].
      exists l'; done.
    - eexists; split; [done|]; done. }
  cbn [advance]; destruct (ln_key l) as [k|] eqn:Ek.
  - destruct (Hskip (ln_iter l) k) as (l' & E & ?); [by left|]; exists l'; split; [|done].
    rewrite <- E; destruct l; simpl in *; by subst.
  - destruct (it_rest (ln_iter l)) as [|[k v] r] eqn:Er.
    + destruct (next_none _ Er) as (it & -> & Er' & Herr).
      assert (pend l = []) as -> by (unfold pend; by rewrite Ek).
      exists (mkLane it iterPointTail None).
      assert (pend (mkLane it iterPointTail None) = []) as -> by exact Er'.
      by destruct (it_Error it) as [[]|].
    + destruct (next_some _ _ _ _ Er) as (it & -> & Ekey & Ev & Er'); rewrite Ekey.
      apply Hskip; right; by rewrite Ev, Er'.
Qed.

Lemma layered_lookup_cons q qs k :
  layered (q :: qs) !! k = (list_to_map q : gmap bytes bytes) !! k ∪ layered qs !! k.
Proof. unfold layered; simpl; apply lookup_union. Qed.

Lemma lookup_drop_while del p (q : list (bytes * bytes)) k :
  bad del p (k, []) = false ->
  (list_to_map (drop_while (bad del p) q) : gmap bytes bytes) !! k = (list_to_map q : gmap bytes bytes) !! k.
Proof.
  intros Hk; induction q as [|[k' v] q IH]; [done|]; cbn [drop_while].
  destruct (bad del p (k', v)) eqn:E; [|done]; rewrite IH; simpl.
  rewrite lookup_insert_ne; [done|]; intros ->; unfold bad in *; simpl in *; congruence.
Qed.

(** Dropping the entries that a step skips does not change what is left. *)
Lemma layered_drop_while del p qs k :
  bad del p (k, []) = false ->
  layered (drop_while (bad del p) <$> qs) !! k = layered qs !! k.
Proof.
  intros Hk; induction qs as [|q qs IH]; [done|].
  rewrite fmap_cons, !layered_lookup_cons, IH, lookup_drop_while; done.
Qed.

Lemma lookup_below (q : list (bytes * bytes)) k :
  Forall (fun kv => blt k kv.1) q -> (list_to_map q : gmap bytes bytes) !! k = None.
Proof.
  intros Hq; apply not_elem_of_list_to_map; intros (kv & -> & Hkv)%list_elem_of_fmap.
  rewrite Forall_forall in Hq; destruct (Hq kv Hkv); done.
Qed.

(** The lane after the inner loop. *)
Record advanced del p l l' : Prop := {
  ad_pend : pend l' = drop_while (bad del p) (pend l);
  ad_key : ln_key l' = fst <$> head (pend l');
  ad_tail : ln_status l' = iterPointTail -> pend l' = [];
}.

(** The choice of the scan: the first lane with the least key, unless the
    candidate it started with is no greater. *)
Definition choice (i fit : Z) (fitKey : bytes) ls (f : Z) (fk : bytes) : Prop :=
  (f = fit /\ fk = fitKey /\
   forall l k, l ∈ ls -> ln_key l = Some k -> fitKey <> [] /\ bytes_leb fitKey k = true) \/
  exists j l, f = i + Z.of_nat j /\ ls !! j = Some l /\ ln_key l = Some fk /\
    (fitKey <> [] -> blt fk fitKey) /\
    forall j' l' k, ls !! j' = Some l' -> ln_key l' = Some k ->
      bytes_leb fk k = true /\ ((j' < j)%nat -> blt fk k).

Definition better (i fit : Z) (fitKey : bytes) l : Z * bytes :=
  match ln_key l with
  | Some k => if (bytes_Compare k fitKey <? 0) || (len fitKey <=? 0) then (i, k) else (fit, fitKey)
  | None => (fit, fitKey)
  end.

Lemma choice_cons i fit fitKey l ls f fk :
  (forall k, ln_key l = Some k -> k <> []) ->
  let '(fit', fitKey') := better i fit fitKey l in
  choice (i + 1) fit' fitKey' ls f fk -> choice i fit fitKey (l :: ls) f fk.
Proof.
  intros Hne; unfold better; destruct (ln_key l) as [k|] eqn:Ek.
  - specialize (Hne k eq_refl).
    destruct ((bytes_Compare k fitKey <? 0) || (len fitKey <=? 0)) eqn:Eb.
    + assert (Hlt : fitKey <> [] -> blt k fitKey).
      { intros Hf; apply orb_true_iff in Eb as [?%Compare_neg|E%Z.leb_le]; [done|].
        by destruct fitKey. }
      intros [(-> & -> & Hall)|(j & l' & -> & Hj & Hk & Hfk & Hall)]; right.
      * exists 0%nat, l; split_and!; [lia|done|done|done|]; intros [|j'] l' k' Hl' Hk'; simplify_eq/=.
        { split; [apply bytes_leb_refl|lia]. }
        split; [|lia]; eapply Hall; [by eapply list_elem_of_lookup_2|done].
      * exists (Datatypes.S j), l'; split_and!; [lia|done|done| |].
        { intros; eapply blt_leb_trans; [by apply Hfk|by apply Hlt]. }
        intros [|j'] l'' k' Hl' Hk'; simplify_eq/=; [split; [|intros _]; by apply Hfk|].
        destruct (Hall _ _ _ Hl' Hk'); split; [done|intros; auto with lia].
    + apply orb_false_iff in Eb as [Ec El]; apply Z.leb_gt in El.
      assert (Hf : fitKey <> []) by (intros ->; by unfold len in El).
      assert (Hle : bytes_leb fitKey k = true).
      { destruct (bytes_leb fitKey k) eqn:E; [done|]; apply blt_not_leb, Compare_neg in E; congruence. }
      intros [(-> & -> & Hall)|(j & l' & -> & Hj & Hk & Hfk & Hall)]; [left|right].
      * split; [done|]; split; [done|]; intros l' k' [->|Hl]%elem_of_cons Hk'; [by simplify_eq|eauto].
      * exists (Datatypes.S j), l'; split_and!; [lia|done|done|done|].
        pose proof (blt_leb_trans _ _ _ (Hfk Hf) Hle) as Hlt.
        intros [|j'] l'' k' Hl' Hk'; simplify_eq/=; [split; [|intros _]; apply Hlt|].
        destruct (Hall _ _ _ Hl' Hk'); split; [done|intros; auto with lia].
  - intros [(-> & -> & Hall)|(j & l' & -> & Hj & Hk & Hfk & Hall)]; [left|right].
    + split; [done|]; split; [done|]; intros l' k' [->|Hl]%elem_of_cons Hk'; [congruence|eauto].
    + exists (Datatypes.S j), l'; split_and!; [lia|done|done|done|].
      intros [|j'] l'' k' Hl' Hk'; simplify_eq/=.
      destruct (Hall _ _ _ Hl' Hk'); split; [done|intros; auto with lia].
Qed.

(** A key that survives the inner loop is not empty. *)
Lemma advanced_key del p l l' k :
  lane_inv p l -> advanced del p l l' -> ln_key l' = Some k ->
  k <> [] /\ bad del p (k, []) = false /\ bytes_leb p k = true.
Proof.
  intros [_ _ Ha] [Hp Hk _] Ek; rewrite Hk in Ek; destruct (pend l') as [|[k' v] r] eqn:E; simplify_eq/=.
  symmetry in Hp; pose proof (drop_while_head _ _ _ _ Hp) as Hb.
  assert (Hle : bytes_leb p k = true).
  { apply (Ha (k, v)), (drop_while_elem (bad del p)); rewrite Hp; apply elem_of_cons; by left. }
  split; [|done]; intros ->; destruct p; [|done]; unfold bad in Hb; cbn [fst] in Hb.
  by rewrite bool_decide_eq_true_2, orb_true_r in Hb.
Qed.

Lemma scan_spec del p fuel ls i fit fitKey :
  Forall (fun l => length (pend l) < fuel)%nat ls -> Forall (lane_inv p) ls ->
  exists ls' f fk, scan fuel del p true i fit fitKey ls = Ok (ls', (f, fk), None) /\
    Forall2 (advanced del p) ls ls' /\ choice i fit fitKey ls' f fk.
Proof.
  intros Hf Hi; revert i fit fitKey; induction ls as [|l ls IH]; intros i fit fitKey; simpl.
  { eexists [], fit, fitKey; split; [done|]; split; [done|]; left; set_solver. }
  apply Forall_cons in Hf as [Hl Hf], Hi as [Hli Hi]; specialize (IH Hf Hi).
  assert (Hgo : forall l', advanced del p l l' -> exists ls' f fk,
    (let '(fit, fitKey) := better i fit fitKey l' in
     '(ls', r, e) ← scan fuel del p true (i + 1) fit fitKey ls; Ok (l' :: ls', r, e))
    = Ok (ls', (f, fk), None) /\ Forall2 (advanced del p) (l :: ls) ls' /\
    choice i fit fitKey ls' f fk).
  { intros l' Had; pose proof (choice_cons i fit fitKey l') as Hc.
    destruct (better i fit fitKey l') as [fit' fitKey'].
    destruct (IH (i + 1) fit' fitKey') as (ls' & f & fk & -> & H2 & Hch).
    exists (l' :: ls'), f, fk; split; [done|]; split; [by constructor|].
    apply Hc; [|done]; intros k Hk; by eapply advanced_key. }
  rewrite orb_false_r; destruct (Z.eqb_spec (ln_status l) iterPointTail) as [Et|Et]; simpl.
  - pose proof (li_tail _ _ Hli Et) as Hp.
    assert (Hn : ln_key l = None) by (unfold pend in Hp; by destruct (ln_key l)).
    destruct (Hgo l) as (ls' & f & fk & E & ?).
    { by split; rewrite ?Hn, Hp. }
    exists ls', f, fk; split; [|done]; unfold better in E; by rewrite Hn in E.
  - destruct (advance_spec del p l fuel Hl Et) as (l' & -> & ? & ? & ?).
    destruct (Hgo l') as (ls' & f & fk & E & ?); [by split|].
    exists ls', f, fk; split; [|done]; rewrite <- E; unfold better; simpl.
    destruct (ln_key l') as [k|]; [|done]; rewrite orb_false_r.
    by destruct ((bytes_Compare k fitKey <? 0) || (len fitKey <=? 0)).
Qed.

(** ** The layered map *)

Lemma layered_elem qs k v : layered qs !! k = Some v -> exists q, q ∈ qs /\ (k, v) ∈ q.
Proof.
  induction qs as [|q qs IH]; [done|]; rewrite layered_lookup_cons.
  intros [E|[_ E]]%union_Some.
  - exists q; split; [apply elem_of_cons; by left|by apply elem_of_list_to_map_2].
  - destruct (IH E) as (q' & ? & ?); exists q'; split; [apply elem_of_cons; by right|done].
Qed.

Lemma layered_size qs : (size (layered qs) <= length (concat qs))%nat.
Proof.
  rewrite <- length_map_to_list, <- (length_fmap fst), <- (length_fmap fst (concat qs)).
  apply submseteq_length, NoDup_submseteq; [apply NoDup_fst_map_to_list|].
  intros k ([k' v] & -> & Hk)%list_elem_of_fmap; apply elem_of_map_to_list, layered_elem in Hk as (q & Hq & Hin).
  apply list_elem_of_fmap; exists (k', v); split; [done|].
  apply list_elem_of_In, in_concat; exists q; by rewrite <- !list_elem_of_In.
Qed.

Lemma layered_first qs j k v r :
  qs !! j = Some ((k, v) :: r) ->
  (forall j' q, (j' < j)%nat -> qs !! j' = Some q -> Forall (fun kv => blt k kv.1) q) ->
  layered qs !! k = Some v.
Proof.
  revert j; induction qs as [|q qs IH]; intros [|j] Hj Hlt; simplify_eq/=; rewrite layered_lookup_cons.
  - simpl; by rewrite lookup_insert_eq, union_Some_l.
  - rewrite lookup_below by (apply (Hlt 0%nat); [lia|done]); rewrite (left_id_L None (∪)).
    eapply IH; [done|]; intros j' q' Hj'; apply (Hlt (Datatypes.S j')); lia.
Qed.

Lemma layered_tail qs j k v r k' :
  qs !! j = Some ((k, v) :: r) -> k' <> k -> layered (<[j := r]> qs) !! k' = layered qs !! k'.
Proof.
  intros Hj Hne; revert j Hj; induction qs as [|q qs IH]; intros [|j] Hj; simplify_eq/=;
    rewrite !layered_lookup_cons; [|by rewrite IH].
  simpl; by rewrite lookup_insert_ne.
Qed.

(** What is still to be delivered. *)
Definition left_over del p (qs : list (list (bytes * bytes))) : gmap bytes bytes :=
  filter (fun kv : bytes * bytes => bad del p (kv.1, []) = false) (layered qs).

Lemma left_over_Some del p qs k v :
  left_over del p qs !! k = Some v <-> layered qs !! k = Some v /\ bad del p (k, []) = false.
Proof. apply map_lookup_filter_Some. Qed.

Lemma advanced_left_over del p ls ls' :
  Forall2 (advanced del p) ls ls' -> left_over del p (pend <$> ls') = left_over del p (pend <$> ls).
Proof.
  intros H2; replace (pend <$> ls') with (drop_while (bad del p) <$> (pend <$> ls)).
  - apply map_eq; intros k; apply option_eq; intros v; rewrite !left_over_Some.
    by split; intros [E Hb]; rewrite layered_drop_while in * by done.
  - induction H2 as [|l l' ls ls' [E _ _] _ IH]; [done|]; by rewrite !fmap_cons, IH, E.
Qed.

(** Every entry of a sorted lane is above the key it holds. *)
Lemma pend_above l k kv :
  StronglySorted klt (pend l) -> ln_key l = fst <$> head (pend l) -> kv ∈ pend l ->
  (forall k', ln_key l = Some k' -> bytes_leb k k' = true) -> bytes_leb k kv.1 = true.
Proof.
  intros Hs Hk Hin Hle; destruct (pend l) as [|[k' v] r]; [by apply not_elem_of_nil in Hin|].
  simpl in Hk; specialize (Hle _ Hk); apply elem_of_cons in Hin as [->|Hin]; [done|].
  apply StronglySorted_inv in Hs as [_ Hall]; rewrite Forall_forall in Hall.
  eapply bytes_leb_trans; [exact Hle|apply (Hall _ Hin)].
Qed.

(** What the scan delivers, in terms of the map. *)
Lemma chosen_spec del p ls ls' f fk :
  Forall (lane_inv p) ls -> Forall2 (advanced del p) ls ls' -> choice 0 (-1) [] ls' f fk ->
  let M := left_over del p (pend <$> ls) in
  (f = -1 /\ M = ∅) \/
  exists j l v r, f = Z.of_nat j /\ ls' !! j = Some l /\ ln_key l = Some fk /\ pend l = (fk, v) :: r /\
    M !! fk = Some v /\ fk <> [] /\ bytes_leb p fk = true /\ fk <> p /\
    forall l' kv, l' ∈ ls' -> kv ∈ pend l' -> bytes_leb fk kv.1 = true.
Proof.
  intros Hi H2 Hc M.
  assert (Hs : forall j l', ls' !! j = Some l' -> exists l, lane_inv p l /\ advanced del p l l' /\
             StronglySorted klt (pend l')).
  { intros j l' Hj; destruct (Forall2_lookup_r _ _ _ _ _ H2 Hj) as (l & Hl & Ha); exists l.
    rewrite Forall_lookup in Hi; specialize (Hi _ _ Hl); split; [done|]; split; [done|].
    rewrite (ad_pend _ _ _ _ Ha); by apply drop_while_sorted, Hi. }
  unfold M; rewrite <- (advanced_left_over _ _ _ _ H2).
  destruct Hc as [(-> & -> & Hno)|(j & l & -> & Hj & Hk & _ & Hall)]; [left|right].
  - split; [done|]; apply map_empty; intros k; apply eq_None_not_Some; intros [v Hv].
    apply left_over_Some in Hv as [(q & Hq & Hin)%layered_elem _].
    apply list_elem_of_fmap in Hq as (l & -> & Hl); apply list_elem_of_lookup in Hl as [j Hj].
    destruct (Hs _ _ Hj) as (? & _ & Ha & _), (ln_key l) as [k'|] eqn:Ek.
    { by destruct (Hno l k') as [? _]; [by eapply list_elem_of_lookup_2|done|]. }
    destruct Ha as [_ Ha _]; rewrite Ek in Ha; destruct (pend l); [by apply not_elem_of_nil in Hin|done].
  - destruct (Hs _ _ Hj) as (l0 & Hi0 & Ha & Hsl).
    destruct (advanced_key _ _ _ _ _ Hi0 Ha Hk) as (Hne & Hb & Hle).
    pose proof (ad_key _ _ _ _ Ha) as Hh; rewrite Hk in Hh.
    destruct (pend l) as [|[k v] r] eqn:Ep; simplify_eq/=; exists j, l, v, r.
    split_and!; try done.
    + apply left_over_Some; split; [|done].
      eapply layered_first; [by rewrite list_lookup_fmap, Hj; simpl; rewrite Ep|].
      intros j' q Hj' (l' & -> & Hl')%list_lookup_fmap_Some.
      destruct (Hs _ _ Hl') as (? & _ & Ha' & Hs'); apply Forall_forall; intros kv Hin.
      pose proof (ad_key _ _ _ _ Ha') as Hh'; destruct (pend l') as [|[k' v'] r'] eqn:Ep'.
      { by apply not_elem_of_nil in Hin. }
      destruct (Hall _ _ _ Hl' Hh') as [_ Hlt]; eapply blt_leb_trans; [by apply Hlt|].
      apply elem_of_cons in Hin as [->|Hin]; [apply bytes_leb_refl|].
      apply StronglySorted_inv in Hs' as [_ Hf]; rewrite Forall_forall in Hf; apply (Hf _ Hin).
    + intros ->; unfold bad in Hb; cbn [fst] in Hb.
      by rewrite bool_decide_eq_true_2, orb_true_r in Hb.
    + intros l' kv (j' & Hl')%list_elem_of_lookup Hin; destruct (Hs _ _ Hl') as (? & _ & Ha' & Hs').
      eapply pend_above; [done|apply Ha'|done|]; intros k' Hk'; by destruct (Hall _ _ _ Hl' Hk').
Qed.

(** ** One step *)

Record ahead del (fuel : nat) (M : gmap bytes bytes) mi : Prop := {
  ah_err : mi_err mi = None;
  ah_dir : mi_directionToNext mi = true;
  ah_del : mi_isDelete mi = del;
  ah_lanes : exists ls, drop_current mi = Ok (with_index (with_lanes mi ls) (-1) (mi_prevKey mi)) /\
    Forall (lane_inv (mi_prevKey mi)) ls /\ Forall (fun l => length (pend l) < fuel)%nat ls /\
    M = left_over del (mi_prevKey mi) (pend <$> ls);
}.

Lemma left_over_delete del p fk ls j l v r :
  ls !! j = Some l -> pend l = (fk, v) :: r -> bytes_leb p fk = true -> fk <> p ->
  (forall l' kv, l' ∈ ls -> kv ∈ pend l' -> bytes_leb fk kv.1 = true) ->
  delete fk (left_over del p (pend <$> ls)) = left_over del fk (<[j := r]> (pend <$> ls)).
Proof.
  intros Hj Hp Hle Hne Hmin; apply map_eq; intros k; apply option_eq; intros w.
  assert (Hq : (pend <$> ls) !! j = Some ((fk, v) :: r)) by (by rewrite list_lookup_fmap, Hj; simpl; rewrite Hp).
  rewrite lookup_delete_Some, !left_over_Some; unfold bad; cbn [fst]; rewrite !orb_false_iff, !bool_decide_eq_false.
  split.
  - intros (Hk & Hl & Hd & _); rewrite (layered_tail _ _ _ _ _ _ Hq) by done; done.
  - intros (Hl & Hd & Hk); rewrite (layered_tail _ _ _ _ _ _ Hq) in Hl by done; split_and!; try done.
    intros ->; destruct (layered_elem _ _ _ Hl) as (q & (l' & -> & Hin')%list_elem_of_fmap & Hin).
    by destruct Hne; apply bytes_leb_antisym; [apply (Hmin l' (p, w))|].
Qed.

Lemma scan_inv del p fk ls ls' :
  Forall (lane_inv p) ls -> Forall2 (advanced del p) ls ls' ->
  (forall l kv, l ∈ ls' -> kv ∈ pend l -> bytes_leb fk kv.1 = true) -> Forall (lane_inv fk) ls'.
Proof.
  intros Hi H2 Hmin; apply Forall_lookup; intros j l' Hj.
  destruct (Forall2_lookup_r _ _ _ _ _ H2 Hj) as (l & Hl & Ha); rewrite Forall_lookup in Hi.
  split; [apply Ha|rewrite (ad_pend _ _ _ _ Ha); apply drop_while_sorted, (Hi _ _ Hl)|].
  intros kv; apply Hmin; by eapply list_elem_of_lookup_2.
Qed.

Lemma advanced_fuel del p (fuel : nat) ls ls' :
  Forall (fun l => length (pend l) < fuel)%nat ls -> Forall2 (advanced del p) ls ls' ->
  Forall (fun l => length (pend l) < fuel)%nat ls'.
Proof.
  intros Hf H2; induction H2 as [|l l' ls ls' Ha _ IH]; [done|]; apply Forall_cons in Hf as [? ?].
  constructor; [|auto]; rewrite (ad_pend _ _ _ _ Ha).
  pose proof (drop_while_length (bad del p) (pend l)); lia.
Qed.

Lemma next_spec del fuel M mi :
  ahead del fuel M mi ->
  (M = ∅ /\ exists mi', mi_Next fuel mi = Ok (mi', false) /\ mi_err mi' = None) \/
  exists k v mi', M !! k = Some v /\ (forall k' v', M !! k' = Some v' -> bytes_leb k k' = true) /\
    mi_Next fuel mi = Ok (mi', true) /\ mi_Key mi' = Ok k /\ mi_Value mi' = Ok v /\
    ahead del fuel (delete k M) mi'.
Proof.
  intros [He Hd Hdel (ls & Hdrop & Hi & Hf & ->)]; unfold mi_Next, mi_step; rewrite He, Hd; simpl.
  rewrite Hdrop; simpl; rewrite Hdel.
  destruct (scan_spec del (mi_prevKey mi) fuel ls 0 (-1) [] Hf Hi) as (ls' & f & fk & -> & H2 & Hc); simpl.
  destruct (chosen_spec _ _ _ _ _ _ Hi H2 Hc) as [[-> HM]|(j & l & v & r & -> & Hj & Hk & Hp & HM & Hne & Hle & Hnp & Hmin)].
  { left; eauto. }
  right; replace (Z.of_nat j <? 0) with false by lia; eexists fk, v, _; split; [exact HM|].
  rewrite <- (advanced_left_over _ _ _ _ H2).
  split.
  { intros k' v' [(q & (l' & -> & Hin')%list_elem_of_fmap & Hin)%layered_elem _]%left_over_Some.
    by apply (Hmin l' (k', v')). }
  split; [done|].
  unfold mi_Key, mi_Value, drop_current; cbn [mi_err mi_index mi_lanes with_index with_lanes].
  replace (Z.of_nat j <? 0) with false by lia; rewrite Nat2Z.id, Hj, He; simpl; rewrite Hk; simpl.
  split; [done|]; split.
  { replace (len fk <=? 0) with false by (destruct fk; [done|]; unfold len; simpl; lia); simpl.
    unfold pend in Hp; rewrite Hk in Hp; by simplify_eq. }
  split; [done..|]; set (l' := mkLane (ln_iter l) (ln_status l) None).
  assert (Hr : pend l' = r) by (unfold pend in Hp |- *; rewrite Hk in Hp; by simplify_eq/=).
  exists (<[j := l']> ls'); split_and!.
  - unfold drop_current; cbn [mi_err mi_index mi_lanes with_index with_lanes].
    by rewrite Nat2Z.id, Hj; replace (0 <=? Z.of_nat j) with true by lia.
  - cbn [mi_prevKey with_index]; pose proof (scan_inv _ _ _ _ _ Hi H2 Hmin) as Hi'.
    apply Forall_insert; [done|]; rewrite Forall_lookup in Hi'.
    destruct (Hi' _ _ Hj) as [Ht Hs Ha]; rewrite Hp in Ht, Hs, Ha.
    split; rewrite ?Hr; [intros E; by specialize (Ht E)|by apply StronglySorted_inv in Hs as [? _]|].
    intros kv Hin; apply Ha, elem_of_cons; by right.
  - pose proof (advanced_fuel _ _ _ _ _ Hf H2) as Hf'; apply Forall_insert; [done|].
    rewrite Forall_lookup in Hf'; specialize (Hf' _ _ Hj); rewrite Hp in Hf'; simpl in Hf'.
    rewrite Hr; lia.
  - cbn [mi_prevKey with_index]; rewrite list_fmap_insert, Hr; by eapply left_over_delete.
Qed.

Lemma drain_spec del fuel n M mi :
  ahead del fuel M mi -> (size M < n)%nat -> exists mi', drain n fuel mi = Ok (mi', storage_list M).
Proof.
  revert M mi; induction n as [|n IH]; intros M mi Ha Hn; [lia|]; cbn [drain].
  destruct (next_spec _ _ _ _ Ha) as [(-> & mi' & -> & _)|(k & v & mi' & HM & Hmin & -> & Hk & Hv & Ha')]; simpl.
  { exists mi'; by rewrite storage_list_empty. }
  rewrite Hk, Hv; simpl.
  destruct (IH _ _ Ha') as (mi'' & ->); [rewrite map_size_delete, HM; pose proof (map_size_ne_0_lookup_2 M k)|].
  { assert (size M <> 0%nat) by eauto; simpl; lia. }
  simpl; exists mi''; by rewrite (storage_list_cons _ _ _ HM Hmin).
Qed.

(** A loop over a list that may stop early. *)
Fixpoint fold_until {A B} (body : bytes -> bytes -> A -> A + B) (a : A) (kvs : list (bytes * bytes)) : A + B :=
  match kvs with
  | [] => inl a
  | (k, v) :: kvs => match body k v a with inl a => fold_until body a kvs | inr b => inr b end
  end.

Lemma iterate_spec {A B} del fuel n M mi (body : bytes -> bytes -> A -> A + B) a :
  ahead del fuel M mi -> (size M < n)%nat -> iterate n fuel body a mi = Ok (fold_until body a (storage_list M)).
Proof.
  revert M mi a; induction n as [|n IH]; intros M mi a Ha Hn; [lia|]; cbn [iterate].
  destruct (next_spec _ _ _ _ Ha) as [(-> & mi' & -> & He)|(k & v & mi' & HM & Hmin & -> & Hk & Hv & Ha')]; simpl.
  { rewrite He, bool_decide_eq_false_2 by (intros [? ?]; done); by rewrite storage_list_empty. }
  rewrite Hk, Hv, (storage_list_cons _ _ _ HM Hmin); simpl; destruct (body k v a) as [a'|b]; [|done].
  apply IH; [done|]; rewrite map_size_delete, HM; simpl.
  assert (size M <> 0%nat) by (eapply map_size_ne_0_lookup_2; eauto); lia.
Qed.

Lemma new_ahead del (iters : list S) fuel :
  iters <> [] -> Forall (fun it => StronglySorted klt (it_rest it)) iters ->
  Forall (fun it => length (it_rest it) < fuel)%nat iters ->
  ahead del fuel (left_over del [] (it_rest <$> iters)) (NewMergedIterator iters del).
Proof.
  intros Hne Hs Hf; split; try done; exists (mi_lanes (NewMergedIterator iters del)); cbn [mi_prevKey].
  split; [|split_and!].
  - destruct iters as [|it iters]; [done|]; done.
  - apply Forall_fmap; eapply Forall_impl; [exact Hs|]; intros it Hit; split; [done|done|].
    intros kv _; done.
  - apply Forall_fmap; exact Hf.
  - simpl; by rewrite <- list_fmap_compose.
Qed.

(** Iterating to the end over merged iterators gives every key once, in
    order, with the value of the first iterator that has it, and leaves out the
    keys marked deleted and the empty key: it lists the map that the iterators
    stand for when each shadows the ones after it. *)
Theorem merged_scan_lists_layers (iters : list S) (del : option (bytes -> bool)) (fuel n : nat) :
  iters <> [] -> Forall (fun it => StronglySorted klt (it_rest it)) iters ->
  Forall (fun it => length (it_rest it) < fuel)%nat iters ->
  (size (layered (it_rest <$> iters)) < n)%nat ->
  exists mi, drain n fuel (NewMergedIterator iters del) =
    Ok (mi, storage_list (filter (fun kv => deleted del kv.1 = false /\ kv.1 <> [])
                                 (layered (it_rest <$> iters)))).
Proof.
  intros Hne Hs Hf Hn.
  replace (filter _ _) with (left_over del [] (it_rest <$> iters)).
  - eapply drain_spec; [by apply new_ahead|].
    eapply Nat.le_lt_trans; [|exact Hn]; apply map_size_filter.
  - apply map_filter_ext; intros k v _; unfold bad; cbn [fst].
    by rewrite orb_false_iff, bool_decide_eq_false.
Qed.

End Forward.

(** ** Cursors *)

#[export] Instance cursor_forward : ForwardLaws cursor.
Proof.
  refine {| it_rest c := drop (c_pos c) (c_items c) |}.
  - intros c k v r E; eexists; simpl.
    assert (Hl : c_items c !! c_pos c = Some (k, v)).
    { rewrite <- (Nat.add_0_r (c_pos c)), <- lookup_drop, E; done. }
    pose proof (lookup_lt_Some _ _ _ Hl) as Hlt.
    unfold c_move; rewrite Nat.min_l by lia; simpl; unfold c_at; simpl; rewrite Hl; simpl.
    split; [done|]; simpl; unfold c_at; simpl; rewrite Hl; split; [done|]; split; [done|].
    rewrite <- Nat.add_1_r, <- drop_drop, E; done.
  - intros c E; eexists; simpl.
    assert (Hl : (length (c_items c) <= c_pos c)%nat).
    { apply (f_equal length) in E; rewrite length_drop in E; simpl in E; lia. }
    unfold c_move; rewrite Nat.min_r by lia; simpl; unfold c_at; simpl.
    rewrite (lookup_ge_None_2 (c_items c)) by lia; split; [done|]; split; [|done].
    apply drop_ge; simpl; lia.
Defined.

Lemma merged_scan_lists_layers_witness :
  exists mi, drain 4 4 (NewMergedIterator [NewCursor [([x01], [x0a]); ([x03], [x0b])];
                                           NewCursor [([x01], [x0c]); ([x02], [x0d])]] None) =
    Ok (mi, [([x01], [x0a]); ([x02], [x0d]); ([x03], [x0b])]).
Proof.
  destruct (merged_scan_lists_layers [NewCursor [([x01], [x0a]); ([x03], [x0b])];
    NewCursor [([x01], [x0c]); ([x02], [x0d])]] None 4 4) as [mi E].
  - done.
  - repeat constructor; by vm_compute.
  - repeat constructor.
  - vm_compute; lia.
  - exists mi; rewrite E; do 2 f_equal; by vm_compute.
Defined.

(** Moving back after moving forward loses entries: the direction is never
    turned, so every [Prev] starts over from the positions of the iterators.
    Here the key 2 is passed over. *)
Lemma prev_after_next_skips :
  let mi := NewMergedIterator [NewCursor [([x01], [x0a]); ([x03], [x0b])]; NewCursor [([x02], [x0c])]] None in
  exists mi1 mi2 mi3,
    drain 9 9 mi = Ok (mi1, [([x01], [x0a]); ([x02], [x0c]); ([x03], [x0b])]) /\
    mi_Prev 9 mi1 = Ok (mi2, true) /\ mi_Key mi2 = Ok [x03] /\
    mi_Prev 9 mi2 = Ok (mi3, true) /\ mi_Key mi3 = Ok [x01].
Proof. do 3 eexists; split_and!; by vm_compute. Qed.

(** ** Key ranges *)

(** A key without the prefix is on one side of all keys that have it. *)
Lemma no_prefix_leb p a b k :
  ~ p `prefix_of` k -> bytes_leb (p ++ a) k = bytes_leb (p ++ b) k.
Proof.
  revert k; induction p as [|x p IH]; intros k Hk; [by destruct Hk; exists k|].
  destruct k as [|y k]; [done|]; simpl; destruct (Z.eqb_spec (byte_Z x) (byte_Z y)) as [E|]; [|done].
  apply byte_Z_inj in E as ->; apply IH; intros [r ->]; apply Hk; by exists r.
Qed.

(** util.BytesPrefix: the range holds exactly the keys with the prefix. *)
Lemma BytesPrefix_range prefix k : in_range (BytesPrefix prefix) k = true <-> prefix `prefix_of` k.
Proof.
  unfold in_range, BytesPrefix; cbn [fst snd]; revert k.
  induction prefix as [|c p IH] using rev_ind; intros k; simpl.
  { split; [intros _; apply prefix_nil|done]. }
  rewrite rev_unit; cbn [prefix_limit]; destruct (Z.ltb_spec (byte_Z c) 255) as [Hc|Hc].
  - rewrite rev_involutive, andb_true_iff, negb_true_iff.
    destruct (decide (p `prefix_of` k)) as [[k' ->]|Hp].
    + rewrite !bytes_leb_app; destruct k' as [|y k']; simpl.
      { split; [by intros []|]; intros [r E]; apply (f_equal length) in E; rewrite !length_app in E; simpl in E; lia. }
      pose proof (byte_Z_range c); rewrite byte_Z_byte, Z.mod_small by lia.
      transitivity (c = y).
      * destruct (decide (c = y)) as [->|Hne].
        { rewrite Z.eqb_refl; replace (byte_Z y + 1 =? byte_Z y) with false by lia.
          split; [done|]; intros _; lia. }
        assert (byte_Z c <> byte_Z y) by (by intros ?%byte_Z_inj).
        replace (byte_Z c =? byte_Z y) with false by lia.
        split; [intros [H1 H2]; exfalso|done].
        destruct (Z.eqb_spec (byte_Z c + 1) (byte_Z y)); [done|lia].
      * split; [intros ->; exists k'; by rewrite <- app_assoc|].
        intros [r E]; rewrite <- app_assoc in E; apply app_inv_head in E; by simplify_eq/=.
    + rewrite (no_prefix_leb p [Z_byte (byte_Z c + 1)] [c]) by done.
      split; [intros []; congruence|]; intros [r ->]; destruct Hp; exists ([c] ++ r); by rewrite <- app_assoc.
  - rewrite andb_true_iff; specialize (IH k); rewrite andb_true_iff in IH.
    split.
    + intros [Hle Hlim]; destruct (proj1 IH) as [k' ->].
      { split; [|done]; eapply bytes_leb_trans; [|exact Hle].
        rewrite <- (app_nil_r p) at 1; by rewrite bytes_leb_app. }
      rewrite bytes_leb_app in Hle; destruct k' as [|y k']; [done|]; simpl in Hle.
      pose proof (byte_Z_range y); pose proof (byte_Z_range c).
      assert (c = y) as -> by (apply byte_Z_inj; destruct (Z.eqb_spec (byte_Z c) (byte_Z y)); lia).
      exists k'; by rewrite <- app_assoc.
    + intros [r ->]; split.
      * rewrite <- (app_nil_r (p ++ [c])) at 1; by rewrite bytes_leb_app.
      * apply IH; exists ([c] ++ r); by rewrite <- app_assoc.
Qed.

(** ** The storage of an account *)

Lemma filter_sorted {A} (R : relation A) (P : A -> Prop) `{forall x, Decision (P x)} l :
  StronglySorted R l -> StronglySorted R (filter P l).
Proof.
  induction 1 as [|x l Hl IH Hx]; [constructor|]; rewrite filter_cons; case_decide; [|done].
  constructor; [done|]; rewrite Forall_forall in Hx |- *; intros y [_ Hy]%list_elem_of_filter; auto.
Qed.

(** What the write buffer contributes to an iteration. *)
Lemma unsaved_items u prefix k v :
  (k, v) ∈ c_items (Unsaved_NewStorageIterator u prefix) <->
  prefix `prefix_of` k /\ storage u !! k = Some v.
Proof.
  simpl; rewrite list_elem_of_filter, elem_of_storage_list, Is_true_true; simpl.
  by rewrite BytesPrefix_range.
Qed.

(** What the chain promises about its iterators: they list, in order, the keys
    with the prefix whose value is not empty. *)
Record chain_iterates (db : vmDb) (prefix : bytes) (items : list (bytes * bytes)) : Prop := {
  ci_items : ch_GetStorageIterator (chain db) (db_address db) prefix = Ok items;
  ci_sorted : StronglySorted klt items;
  ci_values k v : (k, v) ∈ items <->
    prefix `prefix_of` k /\ db_GetOriginalValue db k = Ok v /\ v <> [];
}.

(** What is iterated over is what [GetValue] reads. *)
Lemma layers_read db prefix items k v :
  uns_wf (uns db) -> chain_iterates db prefix items ->
  left_over (Some (IsDelete (uns db))) []
    [c_items (Unsaved_NewStorageIterator (uns db) prefix); items] !! k = Some v <->
  k <> [] /\ prefix `prefix_of` k /\ db_GetValue db k = Ok v /\ v <> [].
Proof.
  intros [Hdel _] [_ Hs Hv].
  rewrite left_over_Some, !layered_lookup_cons; unfold layered, bad; simpl; rewrite lookup_empty, (right_id_L None (∪)).
  rewrite orb_false_iff, bool_decide_eq_false, union_Some, eq_None_not_Some.
  assert (Hu : forall w, (list_to_map (c_items (Unsaved_NewStorageIterator (uns db) prefix)) : gmap bytes bytes)
                 !! k = Some w <-> prefix `prefix_of` k /\ storage (uns db) !! k = Some w).
  { intros w; rewrite sorted_lookup; [apply unsaved_items|]; apply filter_sorted, storage_list_sorted. }
  rewrite Hu, (sorted_lookup items), Hv by done; unfold is_Some; setoid_rewrite Hu.
  unfold IsDelete; rewrite bool_decide_eq_false, Hdel; unfold db_GetValue, Unsaved_GetValue.
  destruct (storage (uns db) !! k) as [w|] eqn:E.
  - naive_solver.
  - rewrite bool_decide_eq_false_2 by (rewrite Hdel, E; done); naive_solver.
Qed.

(** A new iterator over the storage of an account: it needs as many rounds as
    its cursors have entries. *)
Lemma storage_ahead_total db prefix items :
  uns_wf (uns db) -> chain_iterates db prefix items ->
  exists it M, db_NewStorageIterator db prefix = Ok it /\
    (forall fuel, (cursor_total it < fuel)%nat -> ahead (Some (IsDelete (uns db))) fuel M it) /\
    (size M <= cursor_total it <= size (storage (uns db)) + length items)%nat /\
    forall k v, M !! k = Some v <-> k <> [] /\ prefix `prefix_of` k /\ db_GetValue db k = Ok v /\ v <> [].
Proof.
  intros Hw Hc; unfold db_NewStorageIterator; rewrite (ci_items _ _ _ Hc); simpl.
  set (qu := c_items (Unsaved_NewStorageIterator (uns db) prefix)).
  assert (Hl : (length qu <= size (storage (uns db)))%nat).
  { unfold qu; simpl; etransitivity; [apply length_filter|].
    unfold storage_list; rewrite merge_sort_Permutation, length_map_to_list; done. }
  set (its := [Unsaved_NewStorageIterator (uns db) prefix; NewCursor items]).
  assert (Ht : cursor_total (NewMergedIterator its (Some (IsDelete (uns db)))) = (length qu + length items)%nat)
    by (transitivity (length qu + (length items + 0))%nat; [reflexivity|lia]).
  exists (NewMergedIterator its (Some (IsDelete (uns db)))), (left_over (Some (IsDelete (uns db))) [] (it_rest <$> its)).
  rewrite Ht; split; [done|]; split; [|split].
  - intros fuel Hf; apply new_ahead; [done| |].
    + repeat constructor; [apply filter_sorted, storage_list_sorted|apply Hc].
    + repeat constructor; change (length qu < fuel)%nat || change (length items < fuel)%nat; lia.
  - split; [|lia]; etransitivity; [apply map_size_filter|]; etransitivity; [apply layered_size|].
    simpl; rewrite app_nil_r, length_app; done.
  - intros k v; by apply layers_read.
Qed.

Lemma storage_ahead db prefix items (fuel : nat) :
  uns_wf (uns db) -> chain_iterates db prefix items ->
  (size (storage (uns db)) + length items < fuel)%nat ->
  exists it M, db_NewStorageIterator db prefix = Ok it /\ ahead (Some (IsDelete (uns db))) fuel M it /\
    (size M <= size (storage (uns db)) + length items)%nat /\
    forall k v, M !! k = Some v <-> k <> [] /\ prefix `prefix_of` k /\ db_GetValue db k = Ok v /\ v <> [].
Proof.
  intros Hw Hc Hf; destruct (storage_ahead_total _ _ _ Hw Hc) as (it & M & Hit & Ha & Hs & HM).
  exists it, M; split_and!; [done|apply Ha; lia|lia|done].
Qed.

(** A contract's loop over a prefix is a loop over what [GetValue] finds there. *)
Lemma scanStorage_spec {A B} db prefix items (body : bytes -> bytes -> A -> A + B) a :
  uns_wf (uns db) -> chain_iterates db prefix items ->
  exists kvs, scanStorage db prefix body a = Ok (fold_until body a kvs) /\ StronglySorted klt kvs /\
    forall k v, (k, v) ∈ kvs <-> k <> [] /\ prefix `prefix_of` k /\ db_GetValue db k = Ok v /\ v <> [].
Proof.
  intros Hw Hc; destruct (storage_ahead_total _ _ _ Hw Hc) as (it & M & Hit & Ha & Hs & HM).
  exists (storage_list M); split; [|split; [apply storage_list_sorted|intros k v; rewrite elem_of_storage_list; apply HM]].
  unfold scanStorage; rewrite Hit; cbn [DealWithErr]; rewrite bind_Ok; cbv zeta.
  by rewrite (iterate_spec _ _ _ _ _ body a (Ha _ (Nat.lt_succ_diag_r _))) by lia.
Qed.

(** C22 Iterating over the storage of an account in the middle of a block, with
    writes and deletions of the block pending, lists in key order exactly the
    keys with the prefix that [GetValue] finds, with the values it finds. *)
Theorem storage_iteration_agrees db prefix items (fuel n : nat) :
  rtc uns_step NewUnsaved (uns db) -> chain_iterates db prefix items ->
  (size (storage (uns db)) + length items < fuel)%nat -> (size (storage (uns db)) + length items < n)%nat ->
  exists it mi kvs, db_NewStorageIterator db prefix = Ok it /\ drain n fuel it = Ok (mi, kvs) /\
    StronglySorted klt kvs /\
    forall k v, (k, v) ∈ kvs <-> k <> [] /\ prefix `prefix_of` k /\ db_GetValue db k = Ok v /\ v <> [].
Proof.
  intros Hw%reachable_wf Hc Hf Hn; destruct (storage_ahead _ _ _ _ Hw Hc Hf) as (it & M & Hit & Ha & Hs & HM).
  destruct (drain_spec _ _ n _ _ Ha ltac:(lia)) as (mi & Hd).
  exists it, mi, (storage_list M); split; [done|]; split; [done|]; split; [apply storage_list_sorted|].
  intros k v; rewrite elem_of_storage_list; apply HM.
Qed.

Lemma storage_iteration_agrees_witness :
  let db := with_uns example_db (Unsaved_SetValue NewUnsaved [x01; x02] [x05]) in
  exists it mi kvs, db_NewStorageIterator db [x01] = Ok it /\ drain 9 9 it = Ok (mi, kvs) /\
    ([x01; x02], [x05]) ∈ kvs.
Proof.
  intros db; destruct (storage_iteration_agrees db [x01] [] 9 9) as (it & mi & kvs & E1 & E2 & _ & Hin).
  - apply rtc_once; constructor.
  - split; [done|constructor|].
    intros k v; split; [by intros ?%not_elem_of_nil|intros (_ & E & Hv)]; destruct Hv; vm_compute in E; congruence.
  - vm_compute; lia.
  - vm_compute; lia.
  - exists it, mi, kvs; split; [done|]; split; [done|]; apply Hin; split; [done|].
    split; [by exists [x02]|]; split; [by vm_compute|done].
Defined.

(** ** Storage of a contract during one of its calls *)

(** Every key can be read, and the iterators keep their promise. *)
Record db_ready (db : vmDb) : Prop := {
  dr_wf : uns_wf (uns db);
  dr_reads k : db_GetValue db k = Ok (view_of db k);
  dr_iterates prefix : exists items, chain_iterates db prefix items;
}.

(** Neither the balances nor the handle differ. *)
Record storage_only (db db' : vmDb) : Prop := {
  so_chain : chain db' = chain db;
  so_address : db_address db' = db_address db;
  so_latest : latestSnapshotBlockHash db' = latestSnapshotBlockHash db;
  so_prev : prevAccountBlockHash db' = prevAccountBlockHash db;
  so_balance : balanceMap (uns db') = balanceMap (uns db);
}.

#[export] Instance storage_only_preorder : PreOrder storage_only.
Proof. split; [by intros db|]; intros d1 d2 d3 [] []; split; congruence. Qed.

Lemma view_SetValue db k v db' k' : SetValue db k v = Ok db' ->
  view_of db' k' = if decide (k' = k) then v else view_of db k'.
Proof.
  unfold SetValue; destruct (db_SetValue db k v) eqn:E; simpl; intros H; simplify_eq.
  unfold view_of; rewrite (db_GetValue_SetValue _ _ _ _ k' E); by case_decide.
Qed.

Lemma SetValue_ready db k v : db_ready db -> len k <= 32 ->
  exists db', SetValue db k v = Ok db' /\ db_ready db' /\ storage_only db db' /\
    forall k', view_of db' k' = if decide (k' = k) then v else view_of db k'.
Proof.
  intros [Hw Hr Hi] Hk; unfold SetValue, db_SetValue; destruct (Z.ltb_spec 32 (len k)); [lia|]; simpl.
  set (db' := with_uns db _); assert (E : SetValue db k v = Ok db').
  { unfold SetValue, db_SetValue; destruct (Z.ltb_spec 32 (len k)); [lia|done]. }
  pose proof (fun k' => view_SetValue db k v db' k' E) as Hv.
  exists db'; split; [done|]; split; [|by split; [split|]].
  split; [apply (uns_step_wf _ _ (step_SetValue (uns db) k v) Hw)| |intros prefix].
  - intros k'; specialize (Hv k'); pose proof (GetValue_SetValue db db' k v k' E) as Hg; unfold GetValue in Hg.
    rewrite Hr in Hg; revert Hg; destruct (db_GetValue db' k') eqn:E'; simpl; case_decide; try done;
      intros Hg; by rewrite (view_Ok _ _ _ E').
  - destruct (Hi prefix) as (items & []); exists items; by split.
Qed.

Lemma GetValue_ready db k : db_ready db -> GetValue db k = Ok (view_of db k).
Proof. intros [_ Hr _]; unfold GetValue; by rewrite Hr. Qed.
