(* ===== verification/WithdrawNames.v ===== *)
(** The lists of names that the governance contract keeps by withdraw address:
    joined by commas, they are searched, extended and shortened as text. *)
From Stdlib Require Import ZifyBool.
From S2P Require Import Prelude Helper Types VmDb Iterator IteratorSpec ContractUtil Regexp GovernanceContract.
#[local] Open Scope Z_scope.

(** ** Joining and splitting *)

Fixpoint joined (names : list bytes) : bytes :=
  match names with
  | [] => []
  | [n] => n
  | n :: names => n ++ comma :: joined names
  end.

(** A name as [checkRegisterAndVoteParam] accepts it is not empty and has no comma. *)
Definition is_name (n : bytes) : Prop := n <> [] /\ comma ∉ n.

Lemma joined_cons n names : names <> [] -> joined (n :: names) = n ++ comma :: joined names.
Proof. by destruct names. Qed.

Lemma Split_nonempty s sep : Split s sep <> [].
Proof. destruct s as [|b s]; simpl; [done|]; case_bool_decide; [done|]; by destruct (Split s sep). Qed.

Lemma Split_name n : comma ∉ n -> Split n comma = [n].
Proof.
  induction n as [|b n IH]; [done|]; rewrite not_elem_of_cons; intros [Hb Hn]; simpl.
  rewrite bool_decide_eq_false_2 by congruence; by rewrite IH.
Qed.

Lemma Split_app a b : Split (a ++ comma :: b) comma = Split a comma ++ Split b comma.
Proof.
  induction a as [|x a IH]; simpl; [done|]; case_bool_decide; rewrite IH; [done|].
  by pose proof (Split_nonempty a comma); destruct (Split a comma).
Qed.

Lemma joined_Split s : joined (Split s comma) = s.
Proof.
  induction s as [|b s IH]; simpl; [done|]; pose proof (Split_nonempty s comma) as Hn; case_bool_decide as E.
  - rewrite joined_cons by done; simpl; by rewrite IH, E.
  - destruct (Split s comma) as [|w ws]; [done|]; rewrite <- IH; by destruct ws.
Qed.

Lemma Split_joined names : names <> [] -> Forall is_name names -> Split (joined names) comma = names.
Proof.
  induction names as [|n names IH]; [done|]; intros _ [[_ Hn] Hns]%list.Forall_cons; destruct names as [|n' names].
  - by apply Split_name.
  - rewrite joined_cons by done; rewrite Split_app, Split_name, IH by done; done.
Qed.

Lemma joined_app l1 l2 : l1 <> [] -> l2 <> [] -> joined (l1 ++ l2) = joined l1 ++ comma :: joined l2.
Proof.
  intros H1 H2; induction l1 as [|n l1 IH]; [done|]; destruct l1 as [|n' l1]; [simpl; by destruct l2|].
  change ((n :: n' :: l1) ++ l2) with (n :: (n' :: l1) ++ l2); rewrite !joined_cons by done; rewrite IH by done; by rewrite <- app_assoc.
Qed.

Lemma joined_empty names : Forall is_name names -> joined names = [] -> names = [].
Proof.
  destruct names as [|n [|n' names]]; [done|..]; intros [[Hn _] _]%list.Forall_cons; [done|].
  rewrite joined_cons by done; intros [-> _]%app_eq_nil; done.
Qed.

(** ** Package strings *)

Lemma take_prefix {A} (a s : list A) : take (length a) s = a <-> exists b, s = a ++ b.
Proof.
  split; [intros E; exists (drop (length a) s); rewrite <- E at 1; by rewrite take_drop|].
  intros (b & ->); by rewrite take_app_length.
Qed.

Lemma HasPrefix_spec s p : HasPrefix s p = true <-> exists b, s = p ++ b.
Proof. unfold HasPrefix; rewrite bool_decide_eq_true; apply take_prefix. Qed.

Lemma HasSuffix_spec s p : HasSuffix s p = true <-> exists a, s = a ++ p.
Proof.
  unfold HasSuffix; rewrite andb_true_iff, bool_decide_eq_true; split.
  - intros [_ E]; exists (take (length s - length p) s); rewrite <- E at 2; by rewrite take_drop.
  - intros (a & ->); rewrite length_app; split; [unfold len; rewrite length_app; lia|].
    replace (length a + length p - length p)%nat with (length a) by lia; apply drop_app_length.
Qed.

(** The first occurrence, or none. *)
Lemma Index_spec s sub : (Index s sub = -1 /\ forall a b, s <> a ++ sub ++ b) \/
  (0 <= Index s sub /\ exists a b, s = a ++ sub ++ b /\ len a = Index s sub).
Proof.
  induction s as [|x s IH]; simpl; case_bool_decide as E.
  - right; split; [done|]; apply take_prefix in E as (b & E); exists [], b; by split.
  - left; split; [done|]; intros a b E'; symmetry in E'; apply app_eq_nil in E' as [_ [-> _]%app_eq_nil]; by destruct E.
  - right; split; [done|]; apply take_prefix in E as (b & E); exists [], b; by split.
  - destruct IH as [[-> IH]|[H0 (a & b & Es & El)]].
    + left; split; [done|]; intros [|y a] b E'; [apply E; rewrite E'; apply (take_app_length sub b)|].
      injection E' as -> E'; by apply (IH a b).
    + destruct (Z.ltb_spec (Index s sub) 0); [lia|]; right; split; [lia|]; exists (x :: a), b; split; [by rewrite Es|].
      unfold len in *; simpl; lia.
Qed.

(** ** The operations *)

Lemma addName_joined names n : Forall is_name names -> addName (joined names) n = joined (names ++ [n]).
Proof.
  intros Hn; unfold addName; destruct (Z.eqb_spec (len (joined names)) 0) as [E|E].
  - unfold len in E; rewrite (joined_empty names Hn) by (by apply length_zero_iff_nil; lia); done.
  - destruct names as [|m names]; [done|]; by rewrite joined_app.
Qed.

Lemma filter_out (l1 : list bytes) n l2 : NoDup (l1 ++ n :: l2) -> filter (fun x => x <> n) (l1 ++ n :: l2) = l1 ++ l2.
Proof.
  intros (_ & Hd & H2)%list.NoDup_app; inversion H2 as [|? ? Hn _]; subst.
  rewrite list.filter_app, filter_cons_False by (intros H; by apply H).
  rewrite !filter_absent; [done|done|]; intros Hin; by apply (Hd n Hin), list_elem_of_here.
Qed.

Lemma name_split names a b : names <> [] -> Forall is_name names -> joined names = a ++ comma :: b ->
  names = Split a comma ++ Split b comma.
Proof. intros H0 Hn E; rewrite <- (Split_joined names H0 Hn), E; apply Split_app. Qed.

(** Removing a name from the text removes it from the list. *)
Lemma deleteName_joined names n : Forall is_name names -> NoDup names -> is_name n ->
  deleteName (joined names) n = if decide (n ∈ names) then Some (joined (filter (fun x => x <> n) names)) else None.
Proof.
  intros Hn Hd [Hn0 Hnc]; unfold deleteName, WithdrawRewardAddressSeparation; destruct (decide (names = [])) as [->|Hne].
  { rewrite bool_decide_eq_false_2 by (simpl; congruence); rewrite decide_False by apply not_elem_of_nil.
    assert (HasPrefix (joined []) (n ++ [comma]) = false) as ->.
    { apply not_true_is_false; intros (b & E)%HasPrefix_spec; simpl in E; symmetry in E; apply app_eq_nil in E as [[E _]%app_eq_nil _]; done. }
    reflexivity. }
  assert (Hself : Split n comma = [n]) by by apply Split_name.
  case_bool_decide as E0.
  { assert (names = [n]) as -> by (by rewrite <- (Split_joined names Hne Hn), E0).
    by rewrite decide_True, filter_cons_False by (apply list_elem_of_here || (intros H; by apply H)). }
  destruct (HasPrefix (joined names) (n ++ [comma])) eqn:E1.
  { apply HasPrefix_spec in E1 as (b & E); rewrite <- app_assoc in E; simpl in E; pose proof (name_split _ _ _ Hne Hn E) as Hs.
    rewrite Hself in Hs; cbn [app] in Hs; rewrite E; subst names; rewrite decide_True by apply list_elem_of_here; f_equal.
    pose proof (filter_out [] n (Split b comma) Hd) as Hf; cbn [app] in Hf; rewrite Hf, joined_Split.
    replace (n ++ comma :: b) with ((n ++ [comma]) ++ b) by by rewrite <- app_assoc.
    apply drop_app_length'; rewrite length_app; done. }
  destruct (HasSuffix (joined names) ([comma] ++ n)) eqn:E2.
  { apply HasSuffix_spec in E2 as (a & E); simpl in E; pose proof (name_split _ _ _ Hne Hn E) as Hs; rewrite Hself in Hs; rewrite E.
    subst names; rewrite decide_True by (apply elem_of_app; right; by left); f_equal; rewrite filter_out, app_nil_r, joined_Split by done.
    apply take_app_length'; rewrite length_app; simpl; lia. }
  destruct (Index_spec (joined names) ([comma] ++ n ++ [comma])) as [[Ei Hno]|[H0 (a & b & E & El)]].
  - rewrite Ei; cbn [Z.ltb Z.compare]; rewrite decide_False; [done|]; intros (l1 & l2 & ->)%list_elem_of_split.
    destruct l1 as [|m l1], l2 as [|m' l2].
    + by apply E0.
    + cbn [app] in E1; rewrite joined_cons in E1 by done; assert (HasPrefix (n ++ comma :: joined (m' :: l2)) (n ++ [comma]) = true); [|congruence].
      apply HasPrefix_spec; eexists; by rewrite <- app_assoc.
    + rewrite joined_app in E2 by done; assert (HasSuffix (joined (m :: l1) ++ comma :: joined [n]) ([comma] ++ n) = true); [|congruence].
      apply HasSuffix_spec; by eexists.
    + apply (Hno (joined (m :: l1)) (joined (m' :: l2))); rewrite joined_app, (joined_cons n) by done.
      by rewrite <- !app_assoc.
  - set (i := Index _ _) in *; clearbody i; rewrite <- app_assoc in E; cbn [app] in E; rewrite <- app_assoc in E; cbn [app] in E.
    pose proof (name_split _ _ _ Hne Hn E) as Hs; rewrite Split_app, Hself in Hs; cbn [app] in Hs.
    destruct (Z.ltb_spec 0 i); [|assert (a = []) as -> by (apply length_zero_iff_nil; unfold len in El; lia); subst names].
    + rewrite E; subst names; rewrite decide_True by (apply elem_of_app; right; by left); f_equal; rewrite filter_out by done.
      rewrite joined_app, !joined_Split by apply Split_nonempty; replace (Z.to_nat i) with (length a) by (unfold len in El; lia).
      rewrite take_app_length; f_equal; replace (a ++ comma :: n ++ comma :: b) with ((a ++ comma :: n) ++ comma :: b) by by rewrite <- app_assoc.
      apply drop_app_length'; rewrite length_app; simpl; lia.
    + simpl in Hn; apply list.Forall_cons in Hn as [[Hn' _] _]; done.
Qed.

(** ** Names that are accepted *)

(** Every byte of a string of a pattern is in one of its classes. *)
Fixpoint classes (P : byte -> Prop) (r : regex) : Prop :=
  match r with
  | RNone | REmpty => True
  | RClass p => forall b, p b = true -> P b
  | RSeq r1 r2 | ROr r1 r2 => classes P r1 /\ classes P r2
  | RStar r => classes P r
  end.

Lemma language_classes P r s : language r s -> classes P r -> Forall P s.
Proof.
  induction 1; simpl; try constructor; auto.
  - intros [? ?]; apply Forall_app; auto.
  - intros [? _]; auto.
  - intros [_ ?]; auto.
  - intros ?; apply Forall_app; auto.
Qed.

Lemma sbp_name n : MatchString sbpNameRegex n = true -> is_name n.
Proof.
  intros H%MatchString_spec; split.
  - unfold sbpNameRegex in H; inversion H as [| |? ? s1 s2 _ H2| | | |]; subst; inversion H2; subst; by intros []%app_eq_nil.
  - assert (Hc : Forall (fun b => b <> comma) n).
    { apply (language_classes _ _ _ H); simpl; repeat split; intros b Hb ->; vm_compute in Hb; discriminate. }
    intros Hin%list_elem_of_In; by apply (proj1 (Forall_forall _ _) Hc comma Hin).
Qed.

Lemma checked_name gid n : checkRegisterAndVoteParam gid n = true -> is_name n /\ 0 < len n <= registrationNameLengthMax /\ gid <> DELEGATE_GID.
Proof.
  unfold checkRegisterAndVoteParam; destruct (_ || _) eqn:E; [done|]; intros H; split; [by apply sbp_name|].
  unfold IsDelegateGid in E; rewrite !orb_false_iff, bool_decide_eq_false in E; destruct E as [[? ?] ?]; unfold len in *; split; [lia|done].
Qed.

(** ** The lists in storage *)

(** The names by address. *)
Definition name_lists (view : bytes -> bytes) (L : Address -> list bytes) : Prop :=
  forall a, length a = 21%nat -> view a = joined (L a) /\ Forall is_name (L a) /\ NoDup (L a).

(** The name moves from the list of the old address to that of the new one; the
    owner, who may withdraw anyway, is not listed. *)
Definition list_moved (L : Address -> list bytes) (old : option Address) (new owner : Address) (n : bytes) (a : Address) : list bytes :=
  if decide (old = Some a /\ a <> owner /\ a <> new) then filter (fun x => x <> n) (L a)
  else if decide (a = new /\ a <> owner /\ old <> Some a) then L a ++ [n] else L a.

Lemma name_lists_ext view L L' : (forall a, L' a = L a) -> name_lists view L -> name_lists view L'.
Proof. intros HL H a Ha; rewrite HL; by apply H. Qed.

Lemma addWithdraw_spec db L new n : db_ready db -> name_lists (view_of db) L -> length new = 21%nat -> is_name n -> n ∉ L new ->
  exists db', addWithdrawRewardAddress db new n = Ok db' /\ db_ready db' /\ storage_only db db' /\
    name_lists (view_of db') (fun a => if decide (a = new) then L a ++ [n] else L a) /\ forall k, length k <> 21%nat -> view_of db' k = view_of db k.
Proof.
  intros Hdb HL Hl Hn Hni; destruct (HL new Hl) as (Hv & Hok & Hnd); unfold addWithdrawRewardAddress.
  rewrite GetValue_ready, bind_Ok, Hv, addName_joined by done.
  destruct (SetValue_ready db new (joined (L new ++ [n])) Hdb) as (db' & -> & Hdb' & Hso & Hv'); [unfold len; lia|].
  exists db'; split_and!; [done..| |intros k Hk; rewrite Hv', decide_False; [done|by intros ->]].
  intros a Ha; rewrite Hv'; destruct (decide (a = new)) as [->|]; [|by apply HL]; split_and!; [done| |].
  - apply Forall_app; split; [done|]; constructor; [done|constructor].
  - apply list.NoDup_app; split_and!; [done| |apply NoDup_singleton]; by intros x Hx ->%list_elem_of_singleton.
Qed.

Lemma deleteWithdraw_spec db L old n : db_ready db -> name_lists (view_of db) L -> length old = 21%nat -> is_name n ->
  exists db', deleteWithdrawRewardAddress db old n = Ok db' /\ db_ready db' /\ storage_only db db' /\
    name_lists (view_of db') (fun a => if decide (a = old) then filter (fun x => x <> n) (L a) else L a) /\
    forall k, length k <> 21%nat -> view_of db' k = view_of db k.
Proof.
  intros Hdb HL Hl Hn; destruct (HL old Hl) as (Hv & Hok & Hnd); unfold deleteWithdrawRewardAddress.
  rewrite GetValue_ready, bind_Ok, Hv, deleteName_joined by done; destruct (decide (n ∈ L old)) as [Hin|Hni].
  - destruct (SetValue_ready db old (joined (filter (fun x => x <> n) (L old))) Hdb) as (db' & -> & Hdb' & Hso & Hv'); [unfold len; lia|].
    exists db'; split_and!; [done..| |intros k Hk; rewrite Hv', decide_False; [done|by intros ->]].
    intros a Ha; rewrite Hv'; destruct (decide (a = old)) as [->|]; [|by apply HL]; split_and!; [done| |by apply list.NoDup_filter].
    apply Forall_forall; intros x Hx%list_elem_of_In; apply list_elem_of_filter in Hx as [_ Hx%list_elem_of_In]; by apply (proj1 (Forall_forall _ _) Hok).
  - exists db; split_and!; [done..| |done]; eapply name_lists_ext; [|exact HL]; intros a; cbv beta.
    destruct (decide (a = old)) as [->|]; [by apply filter_absent|done].
Qed.

Lemma saveWithdraw_spec db L old new owner n : db_ready db -> name_lists (view_of db) L -> is_name n ->
  length new = 21%nat -> (forall a, old = Some a -> length a = 21%nat) -> (new <> owner -> old <> Some new -> n ∉ L new) ->
  exists db', saveWithdrawRewardAddress db old new owner n = Ok db' /\ db_ready db' /\ storage_only db db' /\
    name_lists (view_of db') (list_moved L old new owner n) /\ forall k, length k <> 21%nat -> view_of db' k = view_of db k.
Proof.
  intros Hdb HL Hn Hnew Hold Hni.
  assert (Hsame : (forall a, list_moved L old new owner n a = L a) -> exists db', Ok db = Ok (E := vm_err) db' /\ db_ready db' /\ storage_only db db' /\
    name_lists (view_of db') (list_moved L old new owner n) /\ forall k, length k <> 21%nat -> view_of db' k = view_of db k).
  { intros HL'; exists db; split_and!; [done..| |done]; by eapply name_lists_ext. }
  assert (Hadd : new <> owner -> (old = None \/ old = Some owner) -> exists db', addWithdrawRewardAddress db new n = Ok db' /\ db_ready db' /\
    storage_only db db' /\ name_lists (view_of db') (list_moved L old new owner n) /\ forall k, length k <> 21%nat -> view_of db' k = view_of db k).
  { intros Hne Ho; destruct (addWithdraw_spec db L new n Hdb HL Hnew Hn) as (db' & E & ? & ? & Hl & ?); [apply Hni; [done|destruct Ho; congruence]|].
    exists db'; split_and!; try done; eapply name_lists_ext; [|exact Hl]; intros a; unfold list_moved; cbv beta.
    rewrite decide_False by (destruct Ho; intros (? & ? & ?); congruence); destruct (decide (a = new)) as [->|];
      [rewrite decide_True; [done|split_and!; [done|done|destruct Ho; congruence]]|rewrite decide_False; [done|by intros (? & _)]]. }
  unfold saveWithdrawRewardAddress; destruct old as [o|].
  2: { case_bool_decide as E; [apply Hsame|by apply Hadd; [|left]]; intros a; unfold list_moved; rewrite !decide_False; [done|..]; intros (? & ? & ?); congruence. }
  case_bool_decide as E1; [apply Hsame; intros a; unfold list_moved; rewrite !decide_False; [done|..]; intros (? & ? & ?); congruence|].
  case_bool_decide as E2; [subst o; apply Hadd; [congruence|by right]|].
  destruct (deleteWithdraw_spec db L o n Hdb HL (Hold o eq_refl) Hn) as (d1 & Hd1 & Hdb1 & Hso1 & HL1 & Hk1).
  case_bool_decide as E3.
  - rewrite Hd1; exists d1; split_and!; try done; eapply name_lists_ext; [|exact HL1]; intros a; unfold list_moved; cbv beta.
    destruct (decide (a = o)) as [->|]; [rewrite decide_True by (split_and!; congruence); done|].
    rewrite !decide_False; [done|..]; intros (? & ? & ?); congruence.
  - rewrite Hd1, bind_Ok; destruct (addWithdraw_spec d1 _ new n Hdb1 HL1 Hnew Hn) as (d2 & Hd2 & Hdb2 & Hso2 & HL2 & Hk2).
    { rewrite decide_False by congruence; apply Hni; congruence. }
    rewrite Hd2; exists d2; split_and!; [done..|by etrans| |intros k Hk; by rewrite Hk2, Hk1].
    eapply name_lists_ext; [|exact HL2]; intros a; unfold list_moved; cbv beta; destruct (decide (a = o)) as [->|Hao].
    + rewrite (decide_True (P := Some o = Some o /\ _)) by (split_and!; congruence); rewrite decide_False by congruence; done.
    + rewrite (decide_False (P := Some o = Some a /\ _)) by (intros (? & _); congruence); destruct (decide (a = new)) as [->|].
      * rewrite decide_True by (split_and!; congruence); done.
      * rewrite decide_False by (intros (? & _); congruence); done.
Qed.

(** ** The lists and the register *)

(** The names that the text stored for an address lists. *)
Definition names_at (view : bytes -> bytes) (a : Address) : list bytes :=
  if decide (view a = []) then [] else Split (view a) comma.

Lemma names_at_joined view a : joined (names_at view a) = view a.
Proof. unfold names_at; case_decide as E; [by rewrite E|apply joined_Split]. Qed.

Lemma names_at_lists view L a : name_lists view L -> length a = 21%nat -> names_at view a = L a.
Proof.
  intros HL Ha; destruct (HL a Ha) as (Hv & Hn & _); unfold names_at; case_decide as E; [rewrite Hv in E; symmetry; by apply joined_empty|].
  rewrite Hv in E |- *; apply Split_joined; [|done]; intros E'; by rewrite E' in E.
Qed.

Abbreviation register := (gmap bytes Registration).

(** A registration of the snapshot group has the withdraw address, which is not its owner's. *)
Definition withdraws_for (R : register) (a : Address) (n : bytes) : Prop := exists k r, R !! k = Some r /\ take 10 k = SNAPSHOT_GID /\
  rg_Name r = n /\ rg_RewardWithdrawAddress r = a /\ a <> rg_StakeAddress r.

(** Every address lists, once each, the producers whose registrations name it as
    withdraw address.  Other consensus groups have no withdraw addresses. *)
Record listed (view : bytes -> bytes) (R : register) : Prop := {
  ls_names a : length a = 21%nat -> NoDup (names_at view a) /\ Forall is_name (names_at view a);
  ls_exact a n : length a = 21%nat -> n ∈ names_at view a <-> withdraws_for R a n;
  ls_owner k r : R !! k = Some r -> take 10 k <> SNAPSHOT_GID -> rg_RewardWithdrawAddress r = rg_StakeAddress r;
  ls_register k r : R !! k = Some r -> is_name (rg_Name r);
}.

Lemma listed_lists view R : listed view R -> name_lists view (names_at view).
Proof. intros H a Ha; rewrite names_at_joined; destruct (ls_names _ _ H a Ha); by split_and!. Qed.

(** Before there are withdraw addresses, every registration is withdrawn by its owner. *)
Lemma listed_none view R : (forall a, length a = 21%nat -> view a = []) ->
  (forall k r, R !! k = Some r -> rg_RewardWithdrawAddress r = rg_StakeAddress r /\ is_name (rg_Name r)) -> listed view R.
Proof.
  intros Hv HR; assert (Hn : forall a, length a = 21%nat -> names_at view a = []) by (intros a Ha; unfold names_at; by rewrite decide_True by (by apply Hv)).
  split; [intros a Ha; rewrite Hn by done; split; constructor| |intros k r E _; by apply (HR k)|intros k r E; by apply (HR k)].
  intros a n Ha; rewrite Hn by done; split; [by intros ?%not_elem_of_nil|]; intros (k & r & E & _ & _ & <- & Hne); by destruct (HR k r E).
Qed.

Lemma listed_view view view' R : listed view R -> (forall a, length a = 21%nat -> view' a = view a) -> listed view' R.
Proof.
  intros [H1 H2 H3 H4] Hv; assert (Hn : forall a, length a = 21%nat -> names_at view' a = names_at view a) by (intros a Ha; unfold names_at; by rewrite Hv).
  split; [|intros a n Ha; rewrite Hn by done; by apply H2|exact H3|exact H4]; intros a Ha; rewrite Hn by done; by apply H1.
Qed.

(** A registration that keeps its name, owner and withdraw address is replaced. *)
Lemma listed_kept view R k r new : listed view R -> R !! k = Some r -> rg_Name new = rg_Name r ->
  rg_RewardWithdrawAddress new = rg_RewardWithdrawAddress r -> rg_StakeAddress new = rg_StakeAddress r -> listed view (<[k := new]> R).
Proof.
  intros [H1 H2 H3 H4] E En Ew Es; split; [exact H1| | |].
  - intros a n Ha; rewrite H2 by done; unfold withdraws_for; split; intros (k' & r' & E' & Hg & Hn & Hw & Hne).
    + destruct (decide (k' = k)) as [->|]; [|exists k', r'; by rewrite lookup_insert_ne].
      rewrite E in E'; injection E' as <-; exists k, new; rewrite lookup_insert_eq, En, Ew, Es; by split_and!.
    + rewrite lookup_insert in E'; case_decide as D; [|by exists k', r'].
      injection E' as <-; subst k'; exists k, r; rewrite En in Hn; rewrite Ew in Hw; rewrite Es in Hne; by split_and!.
  - intros k' r'; rewrite lookup_insert; case_decide as D; [|apply H3]; subst k'; intros [= <-] Hg; rewrite Ew, Es; by apply (H3 k).
  - intros k' r'; rewrite lookup_insert; case_decide; [|apply H4]; intros [= <-]; rewrite En; by apply (H4 k).
Qed.

(** A registration of another group is put. *)
Lemma listed_other view R k new : listed view R -> take 10 k <> SNAPSHOT_GID -> rg_RewardWithdrawAddress new = rg_StakeAddress new ->
  is_name (rg_Name new) -> listed view (<[k := new]> R).
Proof.
  intros [H1 H2 H3 H4] Hg Ew Hn; split; [exact H1| | |].
  - intros a n Ha; rewrite H2 by done; unfold withdraws_for; split; intros (k' & r' & E' & Hg' & H').
    + exists k', r'; rewrite lookup_insert_ne by congruence; split_and!; [done..|apply H'|apply H'|apply H'].
    + rewrite lookup_insert_ne in E' by congruence; by exists k', r'.
  - intros k' r'; rewrite lookup_insert; case_decide; [by intros [= <-]|apply H3].
  - intros k' r'; rewrite lookup_insert; case_decide; [by intros [= <-]|apply H4].
Qed.

Section Moved.
(** The name of a registration of the snapshot group moves to another address. *)
Context (view view' : bytes -> bytes) (R : register) (k : bytes) (new : Registration) (owner wd : Address) (n : bytes).
Context (HL : listed view R) (Hg : take 10 k = SNAPSHOT_GID) (Hn : is_name n).
Context (Hold : forall r, R !! k = Some r -> rg_Name r = n /\ rg_StakeAddress r = owner).
Context (Hkey : forall k' r, R !! k' = Some r -> take 10 k' = SNAPSHOT_GID -> rg_Name r = n -> k' = k).
Abbreviation old := (rg_RewardWithdrawAddress <$> R !! k).

Lemma withdraws_old a : withdraws_for R a n <-> old = Some a /\ a <> owner.
Proof.
  split.
  - intros (k' & r & E & Hg' & En & Ew & Hne); rewrite (Hkey _ _ E Hg' En) in E; destruct (Hold r E) as [_ <-]; rewrite E; simpl; by rewrite Ew.
  - intros [E Hne]; apply fmap_Some in E as (r & E & ->); destruct (Hold r E) as [En Es]; exists k, r; rewrite Es; by split_and!.
Qed.

(** The name is not listed yet where it goes. *)
Lemma not_listed : length wd = 21%nat -> wd <> owner -> old <> Some wd -> n ∉ names_at view wd.
Proof. intros Hl _ Ho Hin; apply (ls_exact _ _ HL wd n Hl), withdraws_old in Hin as [? _]; done. Qed.

Lemma listed_moved : name_lists view' (list_moved (names_at view) old wd owner n) ->
  rg_Name new = n -> rg_RewardWithdrawAddress new = wd -> rg_StakeAddress new = owner -> listed view' (<[k := new]> R).
Proof.
  intros HL' En Ew Es; split.
  - intros a Ha; rewrite (names_at_lists _ _ _ HL' Ha); destruct (HL' a Ha) as (_ & ? & ?); by split.
  - intros a m Ha; rewrite (names_at_lists _ _ _ HL' Ha).
    assert (Hw : withdraws_for (<[k := new]> R) a m <-> m = n /\ a = wd /\ a <> owner \/ m <> n /\ withdraws_for R a m).
    { split.
      - intros (k' & r & E & Hg' & Em & Ea & Hne); rewrite lookup_insert in E; case_decide as D; [injection E as <-; left; rewrite Es in Hne; split_and!; congruence|].
        right; split; [|by exists k', r]; intros ->; by apply D; symmetry; apply (Hkey _ r).
      - intros [(-> & -> & Hne)|[Hm (k' & r & E & Hg' & Em & Ea & Hne)]]; [exists k, new; rewrite lookup_insert_eq, Es; by split_and!|].
        exists k', r; rewrite lookup_insert_ne; [by split_and!|]; intros <-; destruct (Hold r E); congruence. }
    rewrite Hw; pose proof (ls_exact _ _ HL a m Ha) as Hm; pose proof (withdraws_old a) as Ho; unfold list_moved.
    destruct (decide (m = n)) as [->|Hne].
    + destruct (decide (_ /\ _ /\ _)) as [(? & ? & ?)|H1]; [rewrite list_elem_of_filter; naive_solver|].
      destruct (decide (_ /\ _ /\ _)) as [(-> & ? & ?)|H2]; [rewrite elem_of_app, list_elem_of_singleton; naive_solver|].
      rewrite Hm, Ho; destruct (decide (a = wd)), (decide (a = owner)), (decide (old = Some a)); naive_solver.
    + destruct (decide (_ /\ _ /\ _)) as [_|_]; [rewrite list_elem_of_filter; naive_solver|].
      destruct (decide (_ /\ _ /\ _)) as [_|_]; [rewrite elem_of_app, list_elem_of_singleton; naive_solver|naive_solver].
  - intros k' r'; rewrite lookup_insert; case_decide as D; [by subst k'|apply (ls_owner _ _ HL)].
  - intros k' r'; rewrite lookup_insert; case_decide; [intros [= <-]; by rewrite En|apply (ls_register _ _ HL)].
Qed.
End Moved.
