(* ===== verification/ContractSpec.v ===== *)
(** Lemmas that the proofs about built-in contracts share: calls that were accepted
    when they were sent, values that may be nil, and logs. *)
From Stdlib Require Import ZifyBool Ascii String Sorted.
From stdpp Require Import strings.
From S2P Require Import Prelude Helper Types VmDb Iterator IteratorSpec Builtin Abi AbiSpec ContractUtil.
#[local] Open Scope Z_scope.

Lemma big_Some {A} v (k : Z -> result A) : big (Some v) k = k v.
Proof. done. Qed.

Lemma or_invalid_ok {A} (r : abiM A) a : or_invalid r = Ok a -> r = Ok a.
Proof. destruct r; simpl; congruence. Qed.

Lemma big_ok {A} o (k : Z -> result A) r : big o k = Ok r -> exists v, o = Some v /\ k v = Ok r.
Proof. destruct o; [eauto|done]. Qed.

Lemma or_abi_err_ok {A} (r : abiM A) a : or_abi_err r = Ok a -> r = Ok a.
Proof. destruct r; simpl; congruence. Qed.

Lemma len_nonempty (v : bytes) n : len v = n -> 0 < n -> v <> [].
Proof. by destruct v; unfold len; simpl; intros; [lia|]. Qed.

(** A call as the contract finds it: [DoSend] has put its data into canonical form. *)
Definition accepted (send : AccountBlock -> result bytes) (s : AccountBlock) : Prop :=
  exists b, send b = Ok (Data s) /\ Amount b = Amount s /\ TokenId b = TokenId s.

(** A request that the method has accepted when it was sent. *)
Definition sent_through (p : BuiltinContractMethod) (s : AccountBlock) : Prop :=
  exists d b d' b', DoSend p d b = (Ok tt, d', b') /\ Data b' = Data s /\ Amount b' = Amount s /\ TokenId b' = TokenId s.

Lemma send_data_accepted_in send s : (exists d b d' b', send_data d b (send d b) = (Ok tt, d', b') /\
    Data b' = Data s /\ Amount b' = Amount s /\ TokenId b' = TokenId s) -> exists d, accepted (send d) s.
Proof.
  intros (d & b & d' & b' & E & Ed & Ea & Et); exists d; unfold send_data in E; destruct (send d b) as [data| |] eqn:Es; simplify_eq.
  exists b; split_and!; [|done..]; rewrite Es; f_equal; exact Ed.
Qed.

Lemma send_data_accepted send s : (exists d b d' b', send_data d b (send b) = (Ok tt, d', b') /\
    Data b' = Data s /\ Amount b' = Amount s /\ TokenId b' = TokenId s) -> accepted send s.
Proof. by intros [_ H]%(send_data_accepted_in (fun _ => send)). Qed.

(** A callback with values of the types of its definition is packed. *)
Lemma callback_packed abi name args vs :
  (exists m, assoc (getCallBackName name) (Callbacks abi) = Some m /\ md_Inputs m = args) ->
  Forall2 has_type (ArgType <$> args) vs -> exists data, ignore_err [] (PackCallback abi name vs) = Ok data.
Proof.
  intros (m & Hm & <-) Hv; destruct (Pack_typed (md_Inputs m) vs Hv) as (d & Hd & _).
  unfold PackCallback, packMethod; rewrite Hm, Hd; by eexists.
Qed.

(** ** Queries *)

Lemma fold_until_inl {A B} (body : bytes -> bytes -> A -> A) a kvs :
  fold_until (B := B) (fun k v acc => inl (body k v acc)) a kvs = inl (fold_left (fun acc kv => body kv.1 kv.2 acc) kvs a).
Proof. revert a; induction kvs as [|[k v] kvs IH]; intros a; [done|]; simpl; apply IH. Qed.

(** A query folds over the keys with the prefix that are stored, in order. *)
Lemma queryStorage_spec {A} db prefix (body : bytes -> bytes -> A -> A) a : db_ready db ->
  exists kvs, queryStorage db prefix body a = Ok (fold_left (fun acc kv => body kv.1 kv.2 acc) kvs a) /\ StronglySorted klt kvs /\
    forall k v, (k, v) ∈ kvs <-> k <> [] /\ prefix `prefix_of` k /\ view_of db k = v /\ v <> [].
Proof.
  intros Hdb; destruct (dr_iterates _ Hdb prefix) as (items & Hci).
  destruct (scanStorage_spec db prefix items (fun k v acc => inl (B := Empty_set) (body k v acc)) a (dr_wf _ Hdb) Hci) as (kvs & Hsc & Hs & Hk).
  exists kvs; split; [|split; [exact Hs|intros k v; rewrite Hk, (dr_reads _ Hdb); naive_solver]].
  unfold queryStorage; rewrite Hsc, fold_until_inl, bind_Ok; unfold scanStorage in Hsc; destruct (db_NewStorageIterator db prefix); done.
Qed.

(** ** Logs *)

Lemma NewLog_ok Hash256 abi name e vs : assoc name (Events abi) = Some e ->
  Forall2 has_type (ArgType <$> ev_Inputs e) vs -> exists log, NewLog Hash256 abi name vs = Ok log.
Proof.
  intros He Hv; destruct (PackEvent_typed Hash256 abi name e vs He Hv) as ([topics data] & E).
  unfold NewLog; rewrite E; by eexists.
Qed.

(** A log is neither stored nor a balance. *)
Lemma AddLog_ready db log : db_ready db ->
  db_ready (db_AddLog db log) /\ storage_only db (db_AddLog db log) /\ forall k, view_of (db_AddLog db log) k = view_of db k.
Proof.
  intros [Hw Hr Hi]; split; [|by split; [split|]]; split; [|exact Hr|].
  - apply (uns_step_wf _ _ (step_AddLog (uns db) log) Hw).
  - intros prefix; destruct (Hi prefix) as (items & []); exists items; by split.
Qed.
