(* ===== verification/QuotaContractSpec.v ===== *)
(** What the quota contract guarantees.

    The storage is read as a ledger: a finite map from storage keys to stakes.
    Every method that succeeds changes the ledger as its specification says and
    keeps the amounts per beneficiary equal to the sums of the stakes; a method
    that fails changes nothing.  A stake goes back to the account that paid it,
    when it is due, and can always be taken back then. *)
From Stdlib Require Import ZifyBool Ascii String.
From stdpp Require Import strings sorting.
From S2P Require Import Prelude Helper Types Upgrade VmDb Iterator IteratorSpec Builtin Abi AbiSpec ContractUtil ContractSpec QuotaContract.
#[local] Open Scope Z_scope.

(** ** Classes of stakes *)

Lemma matches_spec b d da bid s : stakeMatches b d da bid s = true <->
  si_Beneficiary s = b /\ si_IsDelegated s = d /\ si_DelegateAddress s = da /\ si_Bid s = bid.
Proof.
  unfold stakeMatches; rewrite !andb_true_iff, !bool_decide_eq_true, Bool.eqb_true_iff, Z.eqb_eq; tauto.
Qed.

(** Stakes that the old methods do not tell apart. *)
Definition same_class (s1 s2 : StakeInfo) : Prop :=
  stakeMatches (si_Beneficiary s1) (si_IsDelegated s1) (si_DelegateAddress s1) (si_Bid s1) s2 = true.

Lemma same_class_sym s1 s2 : same_class s1 s2 -> same_class s2 s1.
Proof. unfold same_class; rewrite !matches_spec; naive_solver. Qed.

(** The stakes by storage key. *)
Abbreviation ledger := (gmap bytes StakeInfo).

Section Staking.
Context (Hash256 : bytes -> bytes) (StakeHeight : Z).

Abbreviation ABI := (ABIQuota Hash256).

Lemma variable_stakeInfo : assoc VariableNameStakeInfo (Variables ABI) = Some (args_of
  [("amount", "uint256"); ("expirationHeight", "uint64"); ("beneficiary", "address"); ("isDelegated", "bool");
   ("delegateAddress", "address"); ("bid", "uint8")]%string).
Proof. vm_compute; reflexivity. Qed.

Lemma variable_stakeInfoV2 : assoc VariableNameStakeInfoV2 (Variables ABI) = Some (args_of
  [("amount", "uint256"); ("expirationHeight", "uint64"); ("beneficiary", "address"); ("id", "bytes32")]%string).
Proof. vm_compute; reflexivity. Qed.

Lemma variable_stakeBeneficial :
  assoc VariableNameStakeBeneficial (Variables ABI) = Some (args_of [("amount", "uint256")]%string).
Proof. vm_compute; reflexivity. Qed.

(** A stake as the contract stores it. *)
Definition amt (s : StakeInfo) : Z := default 0 (si_Amount s).

Record stake_wf (s : StakeInfo) : Prop := {
  sw_amount : si_Amount s = Some (amt s) /\ stakeAmountMin <= amt s < 2 ^ 256;
  sw_height : is_u64 (si_ExpirationHeight s);
  sw_beneficiary : len (si_Beneficiary s) = AddressSize;
  sw_address : si_StakeAddress s = ZERO_ADDRESS;
  sw_kind : match si_Id s with
            | None => len (si_DelegateAddress s) = AddressSize /\ 0 <= si_Bid s < 2 ^ 8 /\
                      (si_IsDelegated s = false -> si_DelegateAddress s = ZERO_ADDRESS /\ si_Bid s = 0)
            | Some id => len id = 32 /\ si_IsDelegated s = false /\ si_DelegateAddress s = ZERO_ADDRESS /\ si_Bid s = 0
            end;
}.

(** The value stored for it decodes to it. *)
Definition stored (s : StakeInfo) (v : bytes) : Prop := v <> [] /\ UnpackStakeInfo Hash256 v = (Ok s, s).

Lemma packStakeInfo_stored amount height b isDelegated d bid :
  let s := mkStakeInfo (Some amount) height b isDelegated d bid ZERO_ADDRESS None in
  stake_wf s -> exists v, packStakeInfo Hash256 amount height b isDelegated d bid = Ok v /\ stored s v.
Proof.
  intros s [[_ ?] ? ? _ [? ?]]; simpl in *; unfold packStakeInfo, stored, UnpackStakeInfo.
  destruct (static_variable ABI _ _ [vBig amount; vUint64 height; VArray b; VBool isDelegated; VArray d; vUint8 bid]
    variable_stakeInfo) as (v & -> & Hl & Hu); [done|vm_compute; split; discriminate| |].
  { has_types; unfold is_u256, is_u64, stakeAmountMin, AttovPerVite, amt in *; simpl in *; lia. }
  change (32 * words _) with 192 in Hl; exists v; split; [done|].
  split; [by eapply len_nonempty|]; by rewrite Hl, Hu.
Qed.

Lemma packStakeInfoV2_stored amount height b id :
  let s := mkStakeInfo (Some amount) height b false ZERO_ADDRESS 0 ZERO_ADDRESS (Some id) in
  stake_wf s -> exists v, packStakeInfoV2 Hash256 amount height b id = Ok v /\ stored s v.
Proof.
  intros s [[_ ?] ? ? _ [? _]]; simpl in *; unfold packStakeInfoV2, stored, UnpackStakeInfo.
  destruct (static_variable ABI _ _ [vBig amount; vUint64 height; VArray b; VArray id]
    variable_stakeInfoV2) as (v & -> & Hl & Hu); [done|vm_compute; split; discriminate| |].
  { has_types; unfold is_u256, is_u64, stakeAmountMin, AttovPerVite, amt in *; simpl in *; lia. }
  change (32 * words _) with 128 in Hl; exists v; split; [done|].
  split; [by eapply len_nonempty|]; by rewrite Hl, Hu.
Qed.

Definition stored_amount (x : Z) (v : bytes) : Prop := v <> [] /\ UnpackStakeBeneficial Hash256 v = Ok (Some x).

Lemma packStakeBeneficial_stored x : is_u256 x ->
  exists v, packStakeBeneficial Hash256 x = Ok v /\ stored_amount x v.
Proof.
  intros Hx; unfold packStakeBeneficial, stored_amount, UnpackStakeBeneficial.
  destruct (static_variable ABI _ _ [vBig x] variable_stakeBeneficial) as (v & -> & Hl & Hu);
    [done|vm_compute; split; discriminate|has_types; apply Hx|].
  change (32 * words _) with 32 in Hl; exists v; split; [done|].
  split; [by eapply len_nonempty|]; by rewrite Hu.
Qed.

(** ** Calls *)

(** The methods and their inputs; a method may have several names. *)
Inductive quota_method := MStake | MCancelStake | MDelegateStake | MCancelDelegateStake | MStakeV3 | MStakeCallback | MCancelV3.

Definition inputs_of (q : quota_method) : list (string * string) :=
  match q with
  | MStake | MStakeV3 => [("beneficiary", "address")]
  | MCancelStake => [("beneficiary", "address"); ("amount", "uint256")]
  | MDelegateStake => [("stakeAddress", "address"); ("beneficiary", "address"); ("bid", "uint8"); ("stakeHeight", "uint64")]
  | MCancelDelegateStake => [("stakeAddress", "address"); ("beneficiary", "address"); ("amount", "uint256"); ("bid", "uint8")]
  | MStakeCallback => [("beneficiary", "address"); ("stakeHeight", "uint64")]
  | MCancelV3 => [("id", "bytes32")]
  end%string.

Definition names_of (q : quota_method) : list string :=
  match q with
  | MStake => [MethodNameStake; MethodNameStakeV2]
  | MCancelStake => [MethodNameCancelStake; MethodNameCancelStakeV2]
  | MDelegateStake => [MethodNameDelegateStake; MethodNameDelegateStakeV2]
  | MCancelDelegateStake => [MethodNameCancelDelegateStake; MethodNameCancelDelegateStakeV2]
  | MStakeV3 => [MethodNameStakeV3]
  | MStakeCallback => [MethodNameStakeWithCallback]
  | MCancelV3 => [MethodNameCancelStakeV3; MethodNameCancelStakeWithCallback]
  end.

Lemma names_nonempty q name : name ∈ names_of q -> name <> ""%string.
Proof.
  intros H ->; destruct q; cbn [names_of] in H; rewrite ?elem_of_cons, elem_of_nil in H;
    repeat destruct H as [H|H]; try discriminate H; exact H.
Qed.

Lemma quota_methods_defined q name : name ∈ names_of q ->
  assoc name (Methods ABI) = Some (newMethod Hash256 name (args_of (inputs_of q))).
Proof.
  intros H; destruct q; cbn [names_of] in H; rewrite ?elem_of_cons, elem_of_nil in H;
    repeat destruct H as [->|H]; try (exfalso; exact H); vm_compute; reflexivity.
Qed.

Lemma packDelegateCallback_ok q name a b x bid success : q = MDelegateStake \/ q = MCancelDelegateStake -> name ∈ names_of q ->
  len a = AddressSize -> len b = AddressSize -> is_u256 x -> 0 <= bid < 2 ^ 8 ->
  exists data, packDelegateCallback Hash256 name a b (Some x) bid success = Ok data.
Proof.
  intros Hq Hn Ha Hb Hx Hbid; unfold packDelegateCallback; rewrite big_Some; apply (callback_packed ABI name (args_of
    [("stakeAddress", "address"); ("beneficiary", "address"); ("amount", "uint256"); ("bid", "uint8"); ("success", "bool")]%string)).
  - destruct Hq as [->| ->]; cbn [names_of] in Hn; rewrite ?elem_of_cons, elem_of_nil in Hn;
      repeat destruct Hn as [->|Hn]; try (exfalso; exact Hn); eexists; (split; [vm_compute; reflexivity|vm_compute; reflexivity]).
  - has_types; unfold is_u256 in Hx; lia.
Qed.

Lemma packIdCallback_ok name id success : name ∈ [MethodNameStakeWithCallback; MethodNameCancelStakeWithCallback] ->
  len id = 32 -> exists data, packIdCallback Hash256 name id success = Ok data.
Proof.
  intros Hn Hid; unfold packIdCallback; apply (callback_packed ABI name (args_of [("id", "bytes32"); ("success", "bool")]%string)); [|by has_types].
  rewrite ?elem_of_cons, elem_of_nil in Hn; repeat destruct Hn as [->|Hn]; try (exfalso; exact Hn);
    eexists; (split; [vm_compute; reflexivity|vm_compute; reflexivity]).
Qed.

Definition selectors_differ : Prop := abi_selectors ABI.

Lemma quota_abi_ok : selectors_differ -> abi_ok ABI.
Proof.
  intros Hd; apply (abi_ok_intro Hash256); [exact Hd|apply (bool_decide_unpack _); vm_compute; exact I|vm_compute; repeat constructor].
Qed.

#[local] Opaque ABIQuota UnpackStakeInfo UnpackStakeBeneficial packStakeInfo packStakeInfoV2 packStakeBeneficial.

(** ** The ledger *)

(** A key is the staking address and an index. *)
Definition owner (k : bytes) : Address := take 21 k.
Definition index (k : bytes) : Z := GetIndexFromStakeInfoKey k.

(** What a beneficiary has from all stakes together. *)
Definition for_beneficiary (b : Address) (k : bytes) (s : StakeInfo) : Z :=
  if bool_decide (si_Beneficiary s = b) then amt s else 0.
Definition beneficial (S : ledger) (b : Address) : Z := msum (for_beneficiary b) S.
Definition total (S : ledger) : Z := msum (fun _ s => amt s) S.

(** The storage holds the ledger, before the contract's block at height [h]. *)
Record staking (h : Z) (view : bytes -> bytes) (S : ledger) : Prop := {
  st_stake k s : S !! k = Some s -> length k = 29%nat /\ stake_wf s /\ stored s (view k) /\ index k < h;
  st_none k : length k = 29%nat -> S !! k = None -> view k = [];
  st_beneficial b : len b = AddressSize ->
    if beneficial S b =? 0 then view b = [] else stored_amount (beneficial S b) (view b);
  st_id k s id : S !! k = Some s -> si_Id s = Some id -> view id = k;
  st_ref id : length id = 32%nat -> view id = [] \/ length (view id) = 29%nat /\ index (view id) < h /\
    (forall s, S !! view id = Some s -> si_IsDelegated s = false);
  st_first k1 s1 k2 s2 : S !! k1 = Some s1 -> S !! k2 = Some s2 -> owner k1 = owner k2 ->
    si_Id s1 = None -> same_class s1 s2 -> bytes_leb k1 k2 = true;
}.

Lemma key_spec a h : length a = 21%nat -> is_u64 h ->
  GetStakeInfoKey a h = a ++ be_bytes 8 h /\ length (GetStakeInfoKey a h) = 29%nat /\
  owner (GetStakeInfoKey a h) = a /\ index (GetStakeInfoKey a h) = h.
Proof.
  intros Ha Hh; assert (E : GetStakeInfoKey a h = a ++ be_bytes 8 h).
  { unfold GetStakeInfoKey; f_equal; by apply (LeftPad_Bytes 8). }
  rewrite E; split; [done|]; split; [by rewrite length_app, length_be_bytes, Ha|].
  unfold owner, index, GetIndexFromStakeInfoKey; change (Z.to_nat AddressSize) with 21%nat.
  rewrite take_app_length', drop_app_length', SetBytes_be_bytes by done; split; [done|].
  change (256 ^ Z.of_nat 8) with (2 ^ 64); rewrite Z.mod_small by done.
  unfold Uint64; rewrite Z.abs_eq by apply Hh; by apply u64_small.
Qed.

Lemma key_split k : length k = 29%nat -> k = owner k ++ be_bytes 8 (index k) /\ is_u64 (index k).
Proof.
  intros Hk; unfold owner, index, GetIndexFromStakeInfoKey; change (Z.to_nat AddressSize) with 21%nat.
  assert (Hl : length (drop 21 k) = 8%nat) by (rewrite length_drop, Hk; done).
  pose proof (SetBytes_range (drop 21 k)) as Hr; rewrite Hl in Hr; change (256 ^ Z.of_nat 8) with (2 ^ 64) in Hr.
  unfold Uint64; rewrite Z.abs_eq, u64_small by (unfold is_u64; lia); split; [|done].
  rewrite <- (take_drop 21 k) at 1; f_equal; pose proof (be_bytes_SetBytes (drop 21 k)) as E; by rewrite Hl in E.
Qed.

Lemma key_le k1 k2 : length k1 = 29%nat -> length k2 = 29%nat -> owner k1 = owner k2 ->
  bytes_leb k1 k2 = (index k1 <=? index k2).
Proof.
  intros H1 H2 Ho; destruct (key_split k1 H1) as [E1 R1], (key_split k2 H2) as [E2 R2].
  rewrite E1, E2, Ho at 1; rewrite bytes_leb_app, bytes_leb_SetBytes by (by rewrite !length_be_bytes).
  rewrite !SetBytes_be_bytes; change (256 ^ Z.of_nat 8) with (2 ^ 64); by rewrite !Z.mod_small.
Qed.

(** ** Searching *)

(** The loop finds the first stake that is wanted, or the largest index. *)
Lemma search_list want kvs m : StronglySorted klt kvs ->
  match fold_until (stakeInfoBody Hash256 want) m kvs with
  | inr (k, s) => exists v, (k, v) ∈ kvs /\ IsStakeInfoKey k = true /\ s = (UnpackStakeInfo Hash256 v).2 /\ want s = true /\
      forall k' v', (k', v') ∈ kvs -> IsStakeInfoKey k' = true -> want (UnpackStakeInfo Hash256 v').2 = true -> bytes_leb k k' = true
  | inl m' => (forall k v, (k, v) ∈ kvs -> IsStakeInfoKey k = true -> want (UnpackStakeInfo Hash256 v).2 = false) /\
      (m' = m \/ exists k v, (k, v) ∈ kvs /\ IsStakeInfoKey k = true /\ m' = index k)
  end.
Proof.
  revert m; induction kvs as [|[k v] kvs IH]; intros m Hs; simpl.
  { split; [by intros ? ? ?%not_elem_of_nil|by left]. }
  apply StronglySorted_inv in Hs as [Hs Hk]; rewrite List.Forall_forall in Hk.
  unfold stakeInfoBody at 1; destruct (IsStakeInfoKey k) eqn:Ek; simpl; [destruct (want _) eqn:Ew|].
  - exists v; split_and!; [apply elem_of_cons; by left|done..|]; intros k' v' [E|Hin]%elem_of_cons _ _;
      [simplify_eq; apply bytes_leb_refl|]; apply (Hk (k', v')); by apply list_elem_of_In.
  - specialize (IH (Max m (GetIndexFromStakeInfoKey k)) Hs).
    destruct (fold_until _ _ kvs) as [m'|[k' s]].
    + destruct IH as [Hn Hm]; split.
      * intros k' v' [E|Hin]%elem_of_cons Hk2; [simplify_eq; congruence|by eapply Hn].
      * destruct Hm as [->|(k' & v' & Hin & ? & ->)]; [unfold Max; destruct (_ <? _); [by left|right]|right].
        -- exists k, v; split_and!; [apply elem_of_cons; by left|done..].
        -- exists k', v'; split_and!; [apply elem_of_cons; by right|done..].
    + destruct IH as (v' & Hin & ? & ? & ? & Hf); exists v'; split_and!; [apply elem_of_cons; by right|done..|].
      intros k2 v2 [E|Hin2]%elem_of_cons Hk2 Hw2; [simplify_eq; congruence|by eapply Hf].
  - specialize (IH m Hs); destruct (fold_until _ _ kvs) as [m'|[k' s]].
    + destruct IH as [Hn Hm]; split.
      * intros k' v' [E|Hin]%elem_of_cons Hk2; [simplify_eq; congruence|by eapply Hn].
      * destruct Hm as [->|(k' & v' & Hin & ? & ->)]; [by left|right].
        exists k', v'; split_and!; [apply elem_of_cons; by right|done..].
    + destruct IH as (v' & Hin & ? & ? & ? & Hf); exists v'; split_and!; [apply elem_of_cons; by right|done..|].
      intros k2 v2 [E|Hin2]%elem_of_cons Hk2 Hw2; [simplify_eq; congruence|by eapply Hf].
Qed.

(** What the loop sees of the ledger. *)
Lemma scan_ledger h db S a : db_ready db -> staking h (view_of db) S -> length a = 21%nat ->
  forall want, exists r, scanStorage db (GetStakeInfoKeyPrefix a) (stakeInfoBody Hash256 want) 0 = Ok r /\
  match r with
  | inr (k, s) => S !! k = Some s /\ owner k = a /\ want s = true /\
      forall k' s', S !! k' = Some s' -> owner k' = a -> want s' = true -> bytes_leb k k' = true
  | inl m => (forall k s, S !! k = Some s -> owner k = a -> want s = false) /\ (m = 0 \/ 0 <= m < h)
  end.
Proof.
  intros Hdb HS Ha want; destruct (dr_iterates _ Hdb a) as (items & Hci).
  destruct (scanStorage_spec db a items (stakeInfoBody Hash256 want) 0 (dr_wf _ Hdb) Hci) as (kvs & Hsc & Hsorted & Hkvs).
  eexists; split; [exact Hsc|].
  assert (Hto : forall k v, (k, v) ∈ kvs -> IsStakeInfoKey k = true ->
    exists s, S !! k = Some s /\ owner k = a /\ UnpackStakeInfo Hash256 v = (Ok s, s)).
  { intros k v Hin Hk; apply Hkvs in Hin as (_ & Hp & Hv & Hne).
    assert (Hk29 : length k = 29%nat) by (unfold IsStakeInfoKey, stakeInfoKeySize, AddressSize, len in Hk; lia).
    rewrite (dr_reads _ Hdb) in Hv; apply Ok_inj in Hv; destruct (S !! k) as [s|] eqn:E.
    - exists s; split; [done|]; split; [destruct Hp as [r ->]; unfold owner; by rewrite take_app_length'|].
      rewrite <- Hv; by destruct (st_stake _ _ _ HS _ _ E) as (_ & _ & [_ ?] & _).
    - destruct Hne; rewrite <- Hv; by apply (st_none _ _ _ HS). }
  assert (Hof : forall k s, S !! k = Some s -> owner k = a -> exists v, (k, v) ∈ kvs /\ IsStakeInfoKey k = true /\
    UnpackStakeInfo Hash256 v = (Ok s, s)).
  { intros k s E Ho; destruct (st_stake _ _ _ HS _ _ E) as (Hl & _ & [Hne Hu] & _).
    exists (view_of db k); split_and!; [|unfold IsStakeInfoKey, stakeInfoKeySize, AddressSize, len; lia|done].
    apply Hkvs; split_and!; [by destruct k| |apply (dr_reads _ Hdb)|done].
    exists (drop 21 k); rewrite <- Ho; unfold owner; by rewrite take_drop. }
  pose proof (search_list want kvs 0 Hsorted) as Hs; destruct (fold_until _ 0 kvs) as [m|[k s]].
  - destruct Hs as [Hn Hm]; split.
    + intros k s E Ho; destruct (Hof k s E Ho) as (v & Hin & Hk & Hu); specialize (Hn k v Hin Hk); by rewrite Hu in Hn.
    + destruct Hm as [->|(k & v & Hin & Hk & ->)]; [by left|right].
      destruct (Hto k v Hin Hk) as (s & E & _ & _); destruct (st_stake _ _ _ HS _ _ E) as (Hl & _ & _ & Hi).
      destruct (key_split k Hl) as [_ [? _]]; lia.
  - destruct Hs as (v & Hin & Hk & -> & Hw & Hf); destruct (Hto k v Hin Hk) as (s & E & Ho & Hu); rewrite Hu in *.
    split_and!; [done..|]; intros k' s' E' Ho' Hw'; destruct (Hof k' s' E' Ho') as (v' & Hin' & Hk' & Hu').
    apply (Hf k' v'); [done..|by rewrite Hu'].
Qed.

Lemma getStakeInfo_spec h db S a b d da bid : db_ready db -> staking h (view_of db) S -> length a = 21%nat -> 0 < h ->
  exists k o, getStakeInfo Hash256 db a b d da bid h = Ok (k, o) /\
  match o with
  | Some s => S !! k = Some s /\ owner k = a /\ stakeMatches b d da bid s = true /\
      forall k' s', S !! k' = Some s' -> owner k' = a -> stakeMatches b d da bid s' = true -> bytes_leb k k' = true
  | None => k = GetStakeInfoKey a h /\ forall k s, S !! k = Some s -> owner k = a -> stakeMatches b d da bid s = false
  end.
Proof.
  intros Hdb HS Ha Hh; unfold getStakeInfo.
  destruct (scan_ledger h db S a Hdb HS Ha (stakeMatches b d da bid)) as (r & -> & Hr); rewrite bind_Ok.
  destruct r as [m|[k s]]; [|by exists k, (Some s)].
  destruct Hr as [Hn Hm]; eexists _, None; split; [done|]; split; [|done].
  unfold nextStakeInfoKey; destruct (Z.ltb_spec m h); [done|lia].
Qed.

Lemma getNextStakeInfoKey_spec h db S a : db_ready db -> staking h (view_of db) S -> length a = 21%nat -> 0 < h ->
  getNextStakeInfoKey Hash256 db a h = Ok (GetStakeInfoKey a h).
Proof.
  intros Hdb HS Ha Hh; unfold getNextStakeInfoKey.
  destruct (scan_ledger h db S a Hdb HS Ha (fun _ => false)) as (r & -> & Hr); rewrite bind_Ok.
  destruct r as [m|[k s]]; [|by destruct Hr as (_ & _ & ? & _)].
  unfold nextStakeInfoKey; destruct (Z.ltb_spec m h); [done|lia].
Qed.

(** ** Changing the ledger *)

Lemma amt_pos s : stake_wf s -> 0 < amt s.
Proof. intros [[_ ?] _ _ _ _]; unfold stakeAmountMin, AttovPerVite in *; lia. Qed.

Lemma beneficial_put S k s b : (forall s0, S !! k = Some s0 -> si_Beneficiary s0 = si_Beneficiary s) ->
  beneficial (<[k := s]> S) b =
    if bool_decide (si_Beneficiary s = b) then beneficial S b + amt s - from_option amt 0 (S !! k) else beneficial S b.
Proof.
  intros Hs; unfold beneficial; rewrite msum_update; unfold for_beneficiary at 1.
  destruct (S !! k) as [s0|] eqn:E; simpl; unfold for_beneficiary; rewrite ?(Hs s0 eq_refl); case_bool_decide; lia.
Qed.

Lemma beneficial_del S k s b : S !! k = Some s ->
  beneficial (delete k S) b = if bool_decide (si_Beneficiary s = b) then beneficial S b - amt s else beneficial S b.
Proof.
  intros E; assert (H : beneficial S b = (if bool_decide (si_Beneficiary s = b) then amt s else 0) + beneficial (delete k S) b)
    by exact (msum_delete (for_beneficiary b) S k s E).
  rewrite H; case_bool_decide; lia.
Qed.

(** Writing one stake, new or in place of another one for the same beneficiary. *)
Lemma staking_put h h' view view' S k s : staking h view S -> h <= h' -> length k = 29%nat -> index k < h' ->
  stake_wf s -> stored s (view' k) -> (forall k', length k' = 29%nat -> k' <> k -> view' k' = view k') ->
  (forall s0, S !! k = Some s0 -> si_Beneficiary s0 = si_Beneficiary s) ->
  (forall b, len b = AddressSize -> b <> si_Beneficiary s -> view' b = view b) ->
  stored_amount (beneficial S (si_Beneficiary s) + amt s - from_option amt 0 (S !! k)) (view' (si_Beneficiary s)) ->
  (forall id, length id = 32%nat -> view' id = view id \/ si_Id s = Some id /\ view id = []) ->
  (forall id, si_Id s = Some id -> view' id = k) ->
  (forall id, length id = 32%nat -> view id = k -> si_IsDelegated s = false) ->
  (forall k2 s2, S !! k2 = Some s2 -> k2 <> k -> owner k2 = owner k -> same_class s s2 ->
     (si_Id s = None -> bytes_leb k k2 = true) /\ (si_Id s2 = None -> bytes_leb k2 k = true)) ->
  staking h' view' (<[k := s]> S).
Proof.
  intros HS Hh Hk Hi Hw Hst Hf29 Hb0 Hf21 Hbn Hf32 Hid Hundel Hfirst; split.
  - intros k' s'; rewrite lookup_insert; case_decide as E; [by intros [= <-]; subst k'|]; intros E'.
    destruct (st_stake _ _ _ HS _ _ E') as (? & ? & ? & ?); rewrite Hf29 by congruence; split_and!; try assumption; lia.
  - intros k' Hk'; rewrite lookup_insert; case_decide; [done|]; intros ?; rewrite Hf29 by congruence; by apply (st_none _ _ _ HS).
  - intros b Hb; rewrite beneficial_put by done; case_bool_decide as E.
    + subst b; replace (_ =? 0) with false; [done|]; symmetry; apply Z.eqb_neq.
      assert (0 <= beneficial S (si_Beneficiary s) - from_option amt 0 (S !! k)); [|pose proof (amt_pos s Hw); lia].
      assert (Hnn : forall k v, S !! k = Some v -> 0 <= for_beneficiary (si_Beneficiary s) k v).
      { intros k' v E'; destruct (st_stake _ _ _ HS _ _ E') as (_ & Hv & _); pose proof (amt_pos v Hv).
        unfold for_beneficiary; case_bool_decide; lia. }
      destruct (S !! k) as [s0|] eqn:E; simpl; [|pose proof (msum_nonneg _ S Hnn); unfold beneficial; lia].
      pose proof (msum_le _ S k s0 Hnn E) as Hle; unfold for_beneficiary at 1 in Hle.
      rewrite bool_decide_eq_true_2 in Hle by auto; unfold beneficial; lia.
    + rewrite Hf21 by congruence; by apply (st_beneficial _ _ _ HS).
  - intros k' s' id; rewrite lookup_insert; case_decide as E; [intros [= <-]; subst k'; apply Hid|]; intros E' Hid'.
    pose proof (st_id _ _ _ HS _ _ _ E' Hid') as Hv; destruct (st_stake _ _ _ HS _ _ E') as (Hl & Hw' & _).
    pose proof (sw_kind _ Hw') as Hk'; rewrite Hid' in Hk'; destruct Hk' as [Hlid _].
    destruct (Hf32 id) as [->|[_ He]]; [unfold len in Hlid; lia|done|].
    rewrite He in Hv; subst k'; done.
  - intros id Hl; destruct (Hf32 id Hl) as [E|[E _]].
    + pose proof (Hundel id Hl) as Hu; rewrite E in *; destruct (st_ref _ _ _ HS id Hl) as [->|(H1 & H2 & H3)]; [by left|right].
      split_and!; [done|lia|]; intros s1; rewrite lookup_insert; case_decide as D; [intros [= <-]; auto|apply H3].
    + right; rewrite (Hid id E); split_and!; [done|lia|]; intros s1; rewrite lookup_insert_eq; intros [= <-].
      pose proof (sw_kind _ Hw) as Hkd; rewrite E in Hkd; by destruct Hkd as (_ & ? & _).
  - intros k1 s1 k2 s2 E1 E2 Ho Hn Hc.
    destruct (decide (k1 = k)) as [->|D1]; [rewrite lookup_insert_eq in E1; injection E1 as <-|rewrite lookup_insert_ne in E1 by done];
    (destruct (decide (k2 = k)) as [->|D2]; [rewrite lookup_insert_eq in E2; injection E2 as <-|rewrite lookup_insert_ne in E2 by done]).
    + apply bytes_leb_refl.
    + by apply (Hfirst k2 s2 E2 ltac:(congruence) (eq_sym Ho) Hc).
    + by apply (Hfirst k1 s1 E1 ltac:(congruence) Ho (same_class_sym _ _ Hc)).
    + by apply (st_first _ _ _ HS k1 s1 k2 s2).
Qed.

(** Removing one stake. *)
Lemma staking_del h h' view view' S k s : staking h view S -> h <= h' -> S !! k = Some s -> view' k = [] ->
  (forall k', length k' = 29%nat -> k' <> k -> view' k' = view k') ->
  (forall b, len b = AddressSize -> b <> si_Beneficiary s -> view' b = view b) ->
  (let rest := beneficial S (si_Beneficiary s) - amt s in
   if rest =? 0 then view' (si_Beneficiary s) = [] else stored_amount rest (view' (si_Beneficiary s))) ->
  (forall id, length id = 32%nat -> view' id = view id \/ view' id = [] /\ view id = k) ->
  staking h' view' (delete k S).
Proof.
  intros HS Hh Ek Hk Hf29 Hf21 Hbn Hf32; split.
  - intros k' s' [Hne E']%lookup_delete_Some; destruct (st_stake _ _ _ HS _ _ E') as (? & ? & ? & ?).
    rewrite Hf29 by congruence; split_and!; try assumption; lia.
  - intros k' Hk'; destruct (decide (k' = k)) as [->|Hne]; [done|]; rewrite lookup_delete_ne, Hf29 by congruence.
    by apply (st_none _ _ _ HS).
  - intros b Hb; rewrite (beneficial_del _ _ _ _ Ek); case_bool_decide as E; [by subst b|].
    rewrite Hf21 by congruence; by apply (st_beneficial _ _ _ HS).
  - intros k' s' id [Hne E']%lookup_delete_Some Hid'; pose proof (st_id _ _ _ HS _ _ _ E' Hid') as Hv.
    destruct (st_stake _ _ _ HS _ _ E') as (_ & Hw' & _); pose proof (sw_kind _ Hw') as Hk'; rewrite Hid' in Hk'.
    destruct (Hf32 id) as [->|[_ ?]]; [destruct Hk' as [Hl _]; unfold len in Hl; lia|done|congruence].
  - intros id Hl; destruct (Hf32 id Hl) as [->|[-> _]]; [|by left].
    destruct (st_ref _ _ _ HS id Hl) as [->|(H1 & H2 & H3)]; [by left|right; split_and!; [done|lia|]].
    intros s1 [_ E]%lookup_delete_Some; by apply H3.
  - intros k1 s1 k2 s2 [_ E1]%lookup_delete_Some [_ E2]%lookup_delete_Some; by apply (st_first _ _ _ HS k1 s1 k2 s2).
Qed.

(** ** Who is owed what *)

(** A stake goes back to the account that paid for it. *)
Definition payee (k : bytes) (s : StakeInfo) : Address := if si_IsDelegated s then si_DelegateAddress s else owner k.
Definition owed_to (p : Address) (k : bytes) (s : StakeInfo) : Z := if bool_decide (payee k s = p) then amt s else 0.
Definition owed (S : ledger) (p : Address) : Z := msum (owed_to p) S.

Lemma owed_put S k s p : (forall s0, S !! k = Some s0 -> payee k s0 = payee k s) ->
  owed (<[k := s]> S) p = owed S p + (if bool_decide (payee k s = p) then amt s - from_option amt 0 (S !! k) else 0).
Proof.
  intros Hs; unfold owed; rewrite msum_update; unfold owed_to at 1.
  destruct (S !! k) as [s0|] eqn:E; simpl; unfold owed_to; rewrite ?(Hs s0 eq_refl); case_bool_decide; lia.
Qed.

Lemma owed_del S k s p : S !! k = Some s ->
  owed (delete k S) p = owed S p - (if bool_decide (payee k s = p) then amt s else 0).
Proof. intros E; assert (H : owed S p = owed_to p k s + owed (delete k S) p) by exact (msum_delete (owed_to p) S k s E).
  unfold owed_to in H at 1; lia.
Qed.

Lemma total_put S k s : total (<[k := s]> S) = total S + amt s - from_option amt 0 (S !! k).
Proof. unfold total; rewrite msum_update; destruct (S !! k); simpl; lia. Qed.

Lemma total_del S k s : S !! k = Some s -> total (delete k S) = total S - amt s.
Proof. intros E; unfold total; rewrite (msum_delete (fun _ s => amt s) S k s E); lia. Qed.

(** What a call may do: the sender's claim grows by what it paid and shrinks by
    what it gets; it gets at most a stake of its own that is due. *)
Record effect (height : Z) (S S' : ledger) (sender : Address) (paid got : Z) : Prop := {
  ef_owed p : owed S' p = owed S p + (if bool_decide (p = sender) then paid - got else 0);
  ef_total : total S' = total S + paid - got;
  ef_due : 0 <= got /\ (got = 0 \/ exists k s, S !! k = Some s /\ payee k s = sender /\
                          si_ExpirationHeight s <= height /\ got <= amt s);
}.

(** ** The beneficial amounts *)

Definition has_amount (x : Z) (v : bytes) : Prop := if x =? 0 then v = [] else stored_amount x v.

Lemma addBeneficial_spec db b x a : db_ready db -> len b = AddressSize -> has_amount x (view_of db b) ->
  0 <= x -> 0 <= a -> x + a < 2 ^ 256 ->
  exists db', addBeneficial Hash256 db b (Some a) = Ok db' /\ db_ready db' /\ storage_only db db' /\
    stored_amount (x + a) (view_of db' b) /\ forall k, k <> b -> view_of db' k = view_of db k.
Proof.
  intros Hdb Hb Hx H0 H1 H2; unfold addBeneficial, GetStakeBeneficialKey; rewrite GetValue_ready by done; rewrite bind_Ok.
  destruct (packStakeBeneficial_stored (x + a)) as (v & Hv & Hs); [unfold is_u256; lia|].
  destruct (SetValue_ready db b v Hdb ltac:(unfold AddressSize in Hb; lia)) as (db' & Hset & Hdb' & Hso & Hview).
  assert (Hold : (if 0 <? len (view_of db b) then ignore_err None (UnpackStakeBeneficial Hash256 (view_of db b))
                  else Ok (Some 0)) = Ok (Some x)).
  { unfold has_amount in Hx; destruct (Z.eqb_spec x 0) as [->|Hne]; [by rewrite Hx|]; destruct Hx as [Hne' ->].
    destruct (view_of db b); [by destruct Hne'|reflexivity]. }
  rewrite Hold, bind_Ok, !big_Some, Hv, bind_Ok, Hset; exists db'; split_and!; [reflexivity|assumption..|by rewrite Hview, decide_True|].
  intros k Hk; by rewrite Hview, decide_False.
Qed.

Lemma leftBeneficial_spec db b x a : db_ready db -> has_amount x (view_of db b) -> 0 < a <= x ->
  leftBeneficial Hash256 db b a = Ok (x - a).
Proof.
  intros Hdb Hx Ha; unfold leftBeneficial, GetStakeBeneficialKey; rewrite GetValue_ready by done; rewrite bind_Ok.
  unfold has_amount in Hx; destruct (Z.eqb_spec x 0); [lia|]; destruct Hx as [_ ->].
  change (or_invalid _) with (Ok (Some x) : result (option Z)); rewrite bind_Ok, big_Some.
  destruct (Z.ltb_spec x a); [lia|done].
Qed.

Lemma setBeneficial_spec db b r : db_ready db -> len b = AddressSize -> is_u256 r ->
  exists db', setBeneficial Hash256 db b r = Ok db' /\ db_ready db' /\ storage_only db db' /\
    has_amount r (view_of db' b) /\ forall k, k <> b -> view_of db' k = view_of db k.
Proof.
  intros Hdb Hb Hr; unfold setBeneficial, GetStakeBeneficialKey, has_amount.
  destruct (packStakeBeneficial_stored r Hr) as (v & Hv & Hs).
  assert (Hl : len b <= 32) by (unfold AddressSize in Hb; lia).
  destruct (Z.eqb_spec r 0) as [->|Hne]; [|rewrite Hv, bind_Ok].
  - destruct (SetValue_ready db b [] Hdb Hl) as (db' & -> & Hdb' & Hso & Hview); exists db'; split_and!;
      [reflexivity|assumption..|by rewrite Hview, decide_True|]; intros k Hk; by rewrite Hview, decide_False.
  - destruct (SetValue_ready db b v Hdb Hl) as (db' & -> & Hdb' & Hso & Hview); exists db'; split_and!;
      [reflexivity|assumption..|by rewrite Hview, decide_True|]; intros k Hk; by rewrite Hview, decide_False.
Qed.

(** ** Writing a deposit and a withdrawal *)

Lemma beneficial_le_total S b : (forall k s, S !! k = Some s -> stake_wf s) -> 0 <= beneficial S b <= total S.
Proof.
  intros Hw; assert (Hin : forall kv, kv ∈ map_to_list S -> 0 <= amt kv.2)
    by (intros [k' v] Hv%elem_of_map_to_list%Hw%amt_pos; simpl; lia).
  unfold beneficial, total, msum; induction (map_to_list S) as [|[k' v] l IH]; [done|]; rewrite !zsum_cons; cbn [fst snd].
  pose proof (Hin (k', v) ltac:(apply elem_of_cons; by left)); unfold for_beneficiary at 1 3; simpl in *.
  specialize (IH ltac:(intros kv Hkv; apply Hin, elem_of_cons; by right)); case_bool_decide; lia.
Qed.

Lemma total_bounds S k s : (forall k s, S !! k = Some s -> stake_wf s) -> S !! k = Some s ->
  amt s <= beneficial S (si_Beneficiary s) <= total S.
Proof.
  intros Hw E; split; [|by apply beneficial_le_total].
  assert (Hle : for_beneficiary (si_Beneficiary s) k s <= beneficial S (si_Beneficiary s)).
  { apply msum_le; [|done]; intros k' v E'%Hw%amt_pos; unfold for_beneficiary; case_bool_decide; lia. }
  unfold for_beneficiary in Hle at 1; by rewrite bool_decide_eq_true_2 in Hle.
Qed.

(** Keys of different kinds have different lengths. *)
Lemma kinds_differ (k b : bytes) : length k <> length b -> k <> b.
Proof. by intros H ->. Qed.

Lemma ledger_wf h view S : staking h view S -> forall k s, S !! k = Some s -> stake_wf s.
Proof. intros HS k s E; by destruct (st_stake _ _ _ HS _ _ E) as (_ & ? & _). Qed.

(** The stake [s] was written under [k], with a reference from its id if it has
    one; then its amount is added to the beneficiary's. *)
Lemma deposit h db S k s a v db1 : staking h (view_of db) S ->
  length k = 29%nat -> index k <= h -> stake_wf s -> stored s v ->
  (forall s0, S !! k = Some s0 -> si_Beneficiary s0 = si_Beneficiary s /\ payee k s0 = payee k s /\
     si_IsDelegated s0 = si_IsDelegated s) -> (S !! k = None -> index k = h) ->
  amt s = from_option amt 0 (S !! k) + a -> 0 <= a -> total S + a < 2 ^ 256 ->
  (forall k2 s2, S !! k2 = Some s2 -> k2 <> k -> owner k2 = owner k -> same_class s s2 ->
     (si_Id s = None -> bytes_leb k k2 = true) /\ (si_Id s2 = None -> bytes_leb k2 k = true)) ->
  (forall id, si_Id s = Some id -> view_of db id = []) ->
  db_ready db1 -> view_of db1 k = v -> (forall id, si_Id s = Some id -> view_of db1 id = k) ->
  (forall k', k' <> k -> si_Id s <> Some k' -> view_of db1 k' = view_of db k') ->
  exists db2, addBeneficial Hash256 db1 (si_Beneficiary s) (Some a) = Ok db2 /\ db_ready db2 /\ storage_only db1 db2 /\
    staking (h + 1) (view_of db2) (<[k := s]> S) /\
    (forall height, effect height S (<[k := s]> S) (payee k s) a 0).
Proof.
  intros HS Hk Hi Hw Hv Hold Hnew Ha H0 Ht Hclass Hfree Hdb1 Hk1 Hid1 Hf1; set (b := si_Beneficiary s) in *.
  pose proof (sw_beneficiary _ Hw) as Hb; fold b in Hb.
  assert (Hb21 : length b = 21%nat) by (unfold len, AddressSize in Hb; lia).
  assert (Hlid : forall id, si_Id s = Some id -> length id = 32%nat).
  { intros id E; pose proof (sw_kind _ Hw) as Hkind; rewrite E in Hkind; destruct Hkind as [Hl _]; unfold len in Hl; lia. }
  assert (Hvb : view_of db1 b = view_of db b).
  { apply Hf1; [apply kinds_differ; lia|]; intros E%Hlid; lia. }
  pose proof (beneficial_le_total S b (ledger_wf _ _ _ HS)) as Hbt.
  destruct (addBeneficial_spec db1 b (beneficial S b) a Hdb1 Hb) as (db2 & Hadd & Hdb2 & Hso & Hst & Hf2); [|lia..|].
  { rewrite Hvb; by apply (st_beneficial _ _ _ HS). }
  assert (Hx : forall x, length x <> 21%nat -> view_of db2 x = view_of db1 x) by (intros x Hx; apply Hf2; apply kinds_differ; lia).
  exists db2; split_and!; [assumption..| |].
  - apply (staking_put h _ (view_of db)); try assumption; [lia|lia|..].
    + rewrite Hx, Hk1 by lia; exact Hv.
    + intros k' Hl Hne; rewrite Hx, Hf1; [reflexivity|exact Hne| |lia]; intros E%Hlid; lia.
    + intros s0 E; by apply Hold.
    + intros b' Hb' Hne; rewrite Hf2 by exact Hne; apply Hf1; [apply kinds_differ; unfold len, AddressSize in Hb'; lia|].
      intros E%Hlid; unfold len, AddressSize in Hb'; lia.
    + fold b; replace (_ + amt s - _) with (beneficial S b + a) by lia; exact Hst.
    + intros id Hl; rewrite Hx by lia; destruct (decide (si_Id s = Some id)) as [E|Hne]; [right; auto|left].
      apply Hf1; [apply kinds_differ; lia|exact Hne].
    + intros id E; rewrite Hx by (rewrite (Hlid id E); lia); by apply Hid1.
    + intros id Hl E; destruct (st_ref _ _ _ HS id Hl) as [E0|(_ & Hlt & Hu)]; rewrite E in *; [rewrite E0 in Hk; discriminate Hk|].
      destruct (S !! k) as [s0|] eqn:Ek; [|specialize (Hnew eq_refl); lia].
      destruct (Hold s0 eq_refl) as (_ & _ & <-); by apply Hu.
  - intros height; split; [intros p| |split; [lia|by left]].
    + rewrite owed_put by (intros s0 E; by apply Hold); rewrite !bool_decide_decide; do 2 case_decide; congruence || lia.
    + rewrite total_put; lia.
Qed.

(** What is left of a stake. *)
Definition reduce (s : StakeInfo) (a : Z) : StakeInfo :=
  mkStakeInfo (Some (amt s - a)) (si_ExpirationHeight s) (si_Beneficiary s) (si_IsDelegated s) (si_DelegateAddress s)
              (si_Bid s) (si_StakeAddress s) (si_Id s).

Lemma reduce_wf s a : stake_wf s -> 0 < a -> stakeAmountMin <= amt s - a -> stake_wf (reduce s a).
Proof. intros [[? ?] ? ? ? ?] Ha Hm; split; try done; simpl; unfold amt; simpl; split; [done|]; unfold amt in *; lia. Qed.

Lemma amt_reduce s a : amt (reduce s a) = amt s - a.
Proof. done. Qed.

Definition withdrawn (S : ledger) (k : bytes) (s : StakeInfo) (a : Z) : ledger :=
  if a =? amt s then delete k S else <[k := reduce s a]> S.

(** The stake under [k] was reduced or removed, possibly with its reference;
    then the amount is taken from the beneficiary's. *)
Lemma withdraw h db S k s a db1 height : staking h (view_of db) S -> S !! k = Some s -> 0 < a <= amt s ->
  total S < 2 ^ 256 -> si_ExpirationHeight s <= height -> db_ready db1 ->
  (if a =? amt s then view_of db1 k = []
   else stakeAmountMin <= amt s - a /\ stored (reduce s a) (view_of db1 k)) ->
  (forall k', k' <> k -> view_of db1 k' = view_of db k' \/
     length k' = 32%nat /\ view_of db1 k' = [] /\ view_of db k' = k /\ a = amt s) ->
  exists db2, setBeneficial Hash256 db1 (si_Beneficiary s) (beneficial S (si_Beneficiary s) - a) = Ok db2 /\
    db_ready db2 /\ storage_only db1 db2 /\ staking (h + 1) (view_of db2) (withdrawn S k s a) /\
    effect height S (withdrawn S k s a) (payee k s) 0 a.
Proof.
  intros HS Ek Ha Ht Hdue Hdb1 Hk1 Hf1; destruct (st_stake _ _ _ HS _ _ Ek) as (Hk & Hw & _ & Hi).
  set (b := si_Beneficiary s) in *; pose proof (sw_beneficiary _ Hw) as Hb; fold b in Hb.
  assert (Hb21 : length b = 21%nat) by (unfold len, AddressSize in Hb; lia).
  pose proof (total_bounds S k s (ledger_wf _ _ _ HS) Ek) as Hbt; fold b in Hbt.
  destruct (setBeneficial_spec db1 b (beneficial S b - a) Hdb1 Hb) as (db2 & Hset & Hdb2 & Hso & Hst & Hf2); [unfold is_u256; lia|].
  assert (Hx : forall x, length x <> 21%nat -> view_of db2 x = view_of db1 x) by (intros x Hx; apply Hf2; apply kinds_differ; lia).
  assert (Hx29 : forall k', length k' = 29%nat -> k' <> k -> view_of db2 k' = view_of db k').
  { intros k' Hl Hne; rewrite Hx by lia; destruct (Hf1 k' Hne) as [->|[? _]]; [reflexivity|lia]. }
  assert (Hx21 : forall b', len b' = AddressSize -> b' <> b -> view_of db2 b' = view_of db b').
  { intros b' Hl Hne; unfold len, AddressSize in Hl; rewrite Hf2 by exact Hne.
    destruct (Hf1 b') as [->|[? _]]; [apply kinds_differ; lia|reflexivity|lia]. }
  exists db2; split_and!; [assumption..| |].
  - unfold withdrawn; destruct (Z.eqb_spec a (amt s)) as [->|Hne].
    + eapply staking_del; [exact HS|lia|exact Ek|rewrite Hx by lia; exact Hk1|exact Hx29|exact Hx21|exact Hst|].
      intros id Hl; rewrite Hx by lia; destruct (Hf1 id) as [->|(_ & ? & ? & _)]; [apply kinds_differ; lia|by left|by right].
    + destruct Hk1 as [Hmin Hs1].
      assert (Hx32 : forall id, length id = 32%nat -> view_of db2 id = view_of db id).
      { intros id Hl; rewrite Hx by lia; destruct (Hf1 id) as [->|(_ & _ & _ & ?)]; [apply kinds_differ; lia|reflexivity|lia]. }
      pose proof (reduce_wf s a Hw ltac:(lia) Hmin) as Hwr.
      apply (staking_put h _ (view_of db)); try assumption; [lia|lia|..].
      * rewrite Hx by lia; exact Hs1.
      * intros s0 E; rewrite Ek in E; by injection E as <-.
      * rewrite Ek; simpl; fold b; rewrite amt_reduce; replace (_ + _ - _) with (beneficial S b - a) by lia.
        unfold has_amount in Hst; destruct (Z.eqb_spec (beneficial S b - a) 0); [|exact Hst]; unfold stakeAmountMin, AttovPerVite in *; lia.
      * intros id Hl; left; by apply Hx32.
      * intros id E; pose proof (sw_kind _ Hw) as Hkd; simpl in E; rewrite E in Hkd; destruct Hkd as [Hl _].
        rewrite Hx32 by (unfold len in Hl; lia); by apply (st_id _ _ _ HS _ _ _ Ek).
      * intros id Hl E; destruct (st_ref _ _ _ HS id Hl) as [E0|(_ & _ & Hu)]; rewrite E in *; [rewrite E0 in Hk; discriminate Hk|exact (Hu _ Ek)].
      * intros k2 s2 E2 Hne2 Ho Hc; split; intros Hn; [|apply same_class_sym in Hc].
        -- by apply (st_first _ _ _ HS k s k2 s2).
        -- by apply (st_first _ _ _ HS k2 s2 k s).
  - unfold withdrawn; destruct (Z.eqb_spec a (amt s)) as [->|Hne].
    + split; [intros p; rewrite (owed_del _ _ _ _ Ek)|rewrite (total_del _ _ _ Ek); lia|].
      * rewrite !bool_decide_decide; do 2 case_decide; congruence || lia.
      * split; [lia|right; exists k, s; split_and!; done || lia].
    + split; [intros p; rewrite owed_put|rewrite total_put|].
      * rewrite Ek; change (payee k (reduce s a)) with (payee k s); rewrite amt_reduce; simpl.
        rewrite !bool_decide_decide; do 2 case_decide; congruence || lia.
      * intros s0 E; rewrite Ek in E; by injection E as <-.
      * rewrite Ek, amt_reduce; simpl; lia.
      * split; [lia|right; exists k, s; split_and!; done || lia].
Qed.

End Staking.
