(* ===== verification/QuotaCallSpec.v ===== *)
(** Calls of the quota contract: every method against the ledger, and the right
    of the receiver of a stake to get it back when it is due. *)
From Stdlib Require Import ZifyBool Ascii String.
From stdpp Require Import strings sorting.
From S2P Require Import Prelude Helper Types Upgrade VmDb Iterator IteratorSpec Builtin Abi AbiSpec ContractUtil ContractSpec QuotaContract QuotaContractSpec.
#[local] Open Scope Z_scope.
#[local] Opaque ABIQuota UnpackStakeInfo UnpackStakeBeneficial packStakeInfo packStakeInfoV2 packStakeBeneficial
  UnpackMethod PackMethod PackCallback SetValue addBeneficial setBeneficial leftBeneficial getStakeInfo getNextStakeInfoKey.

Section Calls.
Context (Hash256 : bytes -> bytes) (StakeHeight : Z) (Hsel : selectors_differ Hash256).
Abbreviation ABI := (ABIQuota Hash256).

Lemma call_recode q name input vs : name ∈ names_of q -> UnpackMethod ABI name input = Ok vs ->
  Forall2 has_type (ArgType <$> args_of (inputs_of q)) vs /\
  exists data, PackMethod ABI name vs = Ok data /\ UnpackMethod ABI name data = Ok vs.
Proof.
  intros Hn Hu; pose proof (quota_methods_defined Hash256 q name Hn) as Hm.
  destruct (recode ABI name _ input vs (quota_abi_ok _ Hsel) (names_nonempty q name Hn) Hm) as (Ht & data & Hp & _ & Hd);
    [..|exact Hu|].
  - destruct q; vm_compute; reflexivity.
  - destruct q; vm_compute; split; discriminate.
  - destruct q; repeat constructor; vm_compute; discriminate.
  - split; [exact Ht|]; exists data; split; assumption.
Qed.

Lemma stakeCheck_ok b : stakeCheck b = Ok tt ->
  TokenId b = ViteTokenId /\ exists a, Amount b = Some a /\ stakeAmountMin <= a.
Proof.
  unfold stakeCheck, IsViteToken; case_bool_decide; simpl; [|done]; intros (a & Ha & H1)%big_ok.
  split; [done|]; exists a; split; [done|]; destruct (Z.ltb_spec a stakeAmountMin); done.
Qed.

Lemma noAmountCheck_ok b : noAmountCheck b = Ok tt -> exists a, Amount b = Some a /\ a <= 0.
Proof.
  intros (a & Ha & H1)%big_ok; exists a; split; [done|]; destruct (Z.ltb_spec 0 a); done.
Qed.

Lemma minCheck_ok o : minCheck o = Ok tt -> exists a, o = Some a /\ stakeAmountMin <= a.
Proof.
  intros (a & Ha & H1)%big_ok; exists a; split; [done|]; destruct (Z.ltb_spec a stakeAmountMin); done.
Qed.

Lemma Stake_accepted name s : name ∈ names_of MStake -> accepted (Stake_send Hash256 name) s ->
  exists b a, len b = AddressSize /\ UnpackMethod ABI name (Data s) = Ok [VArray b] /\
    TokenId s = ViteTokenId /\ Amount s = Some a /\ stakeAmountMin <= a.
Proof.
  intros Hn (b0 & Hs & Ea & Et); unfold Stake_send in Hs; apply outcome_bind_ok in Hs as ([] & Hc%stakeCheck_ok & Hs).
  apply outcome_bind_ok in Hs as (vs & Hu%or_invalid_ok & Hs).
  destruct (call_recode MStake name _ _ Hn Hu) as (Ht & data & Hp & Hd); inv_types Ht.
  simpl in Hs; rewrite Hp in Hs; injection Hs as <-; rewrite Ea, Et in Hc; destruct Hc as (Htok & a & Ha & Hmin).
  exists bs, a; split_and!; assumption.
Qed.

(** ** The setting of a call *)

(** A receive block of the contract at height [h], with the chain's snapshot at
    [height]: the request has a hash of its own, and all stakes together stay
    below [2^256]. *)
Record calling (h height : Z) (db : vmDb) (S : ledger) (block s : AccountBlock) (status : option GlobalStatus) : Prop := {
  ca_db : db_ready db;
  ca_ledger : staking Hash256 h (view_of db) S;
  ca_height : Height block = h /\ 0 < h /\ is_u64 h;
  ca_sender : length (AccountAddress s) = 21%nat;
  ca_hash : length (ab_Hash s) = 32%nat /\ view_of db (ab_Hash s) = [];
  ca_status : snapshotHeight status = Ok height;
  ca_amount : 0 <= default 0 (Amount s);
  ca_total : total S + default 0 (Amount s) < 2 ^ 256;
}.

Definition payments (l : list AccountBlock) : Z := zsum (fun b => default 0 (Amount b)) l.

(** A request of the contract: VITE, to the account that called. *)
Definition to_sender (block s b : AccountBlock) : Prop :=
  exists a data, 0 <= a /\ b = requestTo block s (Some a) data.

(** What a call that succeeds has done. *)
Definition called (h height : Z) (db : vmDb) (S : ledger) (block s : AccountBlock) (r : vmDb * list AccountBlock) : Prop :=
  exists S', staking Hash256 (h + 1) (view_of r.1) S' /\ db_ready r.1 /\ storage_only db r.1 /\
    effect height S S' (AccountAddress s) (default 0 (Amount s)) (payments r.2) /\
    Forall (to_sender block s) r.2.

Lemma key_fresh h db S a : staking Hash256 h (view_of db) S -> length a = 21%nat -> is_u64 h ->
  S !! GetStakeInfoKey a h = None.
Proof.
  intros HS Ha Hh; destruct (S !! _) as [s|] eqn:E; [|done].
  destruct (key_spec a h Ha Hh) as (_ & _ & _ & Hi); destruct (st_stake _ _ _ _ HS _ _ E) as (_ & _ & _ & Hlt); lia.
Qed.

(** A deposit by one of the old methods: a stake of the same class is found, or
    there is none and the key is new. *)
Lemma old_deposit h height db S block s status a b (isDel : bool) da bid addr sum e k o :
  calling h height db S block s status -> length addr = 21%nat -> Amount s = Some a -> stakeAmountMin <= a ->
  len b = AddressSize -> len da = AddressSize -> 0 <= bid < 2 ^ 8 -> is_u64 e ->
  (if isDel then da = AccountAddress s else addr = AccountAddress s /\ da = ZERO_ADDRESS /\ bid = 0) ->
  getStakeInfo Hash256 db addr b isDel da bid h = Ok (k, o) ->
  match o with Some s0 => si_Amount s0 | None => Some 0 end = Some sum ->
  exists v db1 db2 S', packStakeInfo Hash256 (sum + a) e b isDel da bid = Ok v /\ SetValue db k v = Ok db1 /\
    addBeneficial Hash256 db1 b (Some a) = Ok db2 /\ db_ready db2 /\ storage_only db db2 /\
    staking Hash256 (h + 1) (view_of db2) S' /\ effect height S S' (AccountAddress s) a 0.
Proof.
  intros [Hdb HS (_ & Hh0 & Hh) Hsend _ _ _ Htot] Haddr Ha Hmin Hb Hda Hbid He Hpay Hget Hsum.
  rewrite Ha in Htot; simpl in Htot.
  destruct (getStakeInfo_spec Hash256 h db S addr b isDel da bid Hdb HS Haddr Hh0) as (k' & o' & E & Hfound).
  rewrite Hget in E; injection E as <- <-.
  set (s' := mkStakeInfo (Some (sum + a)) e b isDel da bid ZERO_ADDRESS None).
  assert (Hk : length k = 29%nat /\ owner k = addr /\ index k <= h /\ sum = from_option amt 0 (S !! k) /\
    (forall s0, S !! k = Some s0 -> si_Beneficiary s0 = b /\ payee k s0 = payee k s' /\ si_IsDelegated s0 = isDel) /\ (S !! k = None -> index k = h) /\
    (forall k2 s2, S !! k2 = Some s2 -> k2 <> k -> owner k2 = owner k -> same_class s' s2 -> bytes_leb k k2 = true /\
       (si_Id s2 = None -> bytes_leb k2 k = true))).
  { destruct o as [s0|].
    - destruct Hfound as (Ek & Ho & Hm & Hf); destruct (st_stake _ _ _ _ HS _ _ Ek) as (Hl & Hw & _ & Hi).
      destruct (sw_amount _ Hw) as [Hs0 _]; rewrite Hs0 in Hsum; injection Hsum as <-; rewrite Ek.
      pose proof (proj1 (matches_spec _ _ _ _ _) Hm) as (E1 & E2 & E3 & E4).
      split_and!; [done|done|lia|done| |done|].
      + intros s1 [= <-]; split_and!; [done| |done]; unfold payee; simpl; by rewrite E2, E3.
      + intros k2 s2 Ek2 Hne Ho2 Hc; split; [apply (Hf k2 s2); [done|congruence|exact Hc]|]; intros Hid.
        apply (st_first _ _ _ _ HS k2 s2 k s0); [done..|]; unfold same_class in *; rewrite matches_spec in *; simpl in *; naive_solver.
    - destruct Hfound as [-> Hnone]; destruct (key_spec addr h Haddr Hh) as (_ & Hl & Ho & Hi).
      pose proof (key_fresh h db S addr HS Haddr Hh) as Hfr; rewrite Hfr.
      split_and!; [done|done|lia|by injection Hsum as <-|done|done|].
      intros k2 s2 Ek2 _ Ho2 Hc; pose proof (Hnone k2 s2 Ek2 ltac:(congruence)) as Hn; unfold same_class in Hc; simpl in Hc; congruence. }
  destruct Hk as (Hl & Ho & Hi & Hsumk & Hold & Hnew & Hclass).
  assert (Hw : stake_wf s').
  { assert (0 <= sum <= total S).
    { rewrite Hsumk; destruct (S !! k) as [s0|] eqn:Ek; simpl; [|pose proof (beneficial_le_total S b (ledger_wf _ _ _ _ HS)); lia].
      pose proof (total_bounds S k s0 (ledger_wf _ _ _ _ HS) Ek); pose proof (amt_pos s0 (ledger_wf _ _ _ _ HS _ _ Ek)); lia. }
    split; simpl; try done; [unfold amt; simpl; split; [done|lia]|].
    split_and!; [done|lia..|intros Hnd; rewrite Hnd in Hpay; tauto]. }
  destruct (packStakeInfo_stored Hash256 (sum + a) e b isDel da bid Hw) as (v & Hv & Hst).
  destruct (SetValue_ready db k v Hdb) as (db1 & Hset & Hdb1 & Hso1 & Hv1); [unfold len; lia|].
  destruct (deposit Hash256 h db S k s' a v db1 HS Hl Hi Hw Hst) as (db2 & Hadd & Hdb2 & Hso2 & HS2 & Hef);
    [exact Hold|exact Hnew|unfold amt at 1; simpl; lia|unfold stakeAmountMin, AttovPerVite in *; lia|lia
    |intros k2 s2 E2 Hne Ho2 Hc; destruct (Hclass k2 s2 E2 Hne Ho2 Hc); by split|done|exact Hdb1|by rewrite Hv1, decide_True|done|..].
  { intros k' Hne _; by rewrite Hv1, decide_False. }
  exists v, db1, db2, (<[k := s']> S); split_and!; try assumption; [by etransitivity|].
  replace (AccountAddress s) with (payee k s'); [apply Hef|]; unfold payee; simpl; destruct isDel; [|destruct Hpay]; congruence.
Qed.

(** ** The methods *)

Lemma expiration_spec status height x : snapshotHeight status = Ok height ->
  exists e, getStakeExpirationHeight status x = Ok e /\ is_u64 e.
Proof. intros E; unfold getStakeExpirationHeight; rewrite E; eexists; split; [reflexivity|apply u64_range]. Qed.

Lemma old_amount h db S o k : staking Hash256 h (view_of db) S -> (forall s0, o = Some s0 -> S !! k = Some s0) ->
  exists sum, match o with Some s0 => si_Amount s0 | None => Some 0 end = Some sum.
Proof.
  intros HS Hf; destruct o as [s0|]; [|by eexists]; specialize (Hf s0 eq_refl); exists (amt s0).
  by apply (sw_amount _ (ledger_wf _ _ _ _ HS _ _ Hf)).
Qed.

Lemma Stake_spec h height db S block s status name : calling h height db S block s status ->
  name ∈ names_of MStake -> accepted (Stake_send Hash256 name) s ->
  exists r, Stake_receive Hash256 StakeHeight name db block s status = Ok r /\ called h height db S block s r.
Proof.
  intros Hc Hn Hacc; destruct (Stake_accepted name s Hn Hacc) as (b & a & Hb & Hd & _ & Ha & Hmin).
  pose proof Hc as [Hdb HS (Hh & Hh0 & Hh64) Hsend _ Hst _ _].
  unfold Stake_receive; rewrite Hd; cbn [ignore_err]; rewrite bind_Ok; cbn [toBeneficiary]; rewrite Hh.
  destruct (getStakeInfo_spec Hash256 h db S (AccountAddress s) b false ZERO_ADDRESS 0 Hdb HS Hsend Hh0) as (k & o & Hget & Hfound).
  rewrite Hget, bind_Ok; destruct (expiration_spec status height StakeHeight Hst) as (e & He & He64).
  destruct (old_amount h db S o k HS ltac:(intros s0 ->; apply Hfound)) as [sum Hsum].
  destruct (old_deposit h height db S block s status a b false ZERO_ADDRESS 0 (AccountAddress s) sum e k o)
    as (v & db1 & db2 & S' & Hp & Hset & Hadd & Hdb2 & Hso & HS' & Hef); try assumption; [reflexivity|lia|split_and!; reflexivity|].
  rewrite Hsum, big_Some, Ha, big_Some, He, bind_Ok, Hp, bind_Ok, Hset, bind_Ok, Hadd, bind_Ok.
  eexists; split; [reflexivity|]; exists S'; rewrite Ha; split_and!; try assumption; constructor.
Qed.

Lemma DelegateStake_accepted name s : name ∈ names_of MDelegateStake -> accepted (DelegateStake_send Hash256 StakeHeight name) s ->
  exists addr b bid sh a, len addr = AddressSize /\ len b = AddressSize /\ 0 <= bid < 2 ^ 8 /\
    UnpackMethod ABI name (Data s) = Ok [VArray addr; VArray b; vUint8 bid; vUint64 sh] /\
    TokenId s = ViteTokenId /\ Amount s = Some a /\ stakeAmountMin <= a.
Proof.
  intros Hn (b0 & Hs & Ea & Et); unfold DelegateStake_send in Hs; apply outcome_bind_ok in Hs as ([] & Hc%stakeCheck_ok & Hs).
  apply outcome_bind_ok in Hs as (vs & Hu%or_invalid_ok & Hs).
  destruct (call_recode MDelegateStake name _ _ Hn Hu) as (Ht & data & Hp & Hd); inv_types Ht.
  destruct Hv1 as [-> Hbid], Hv2 as [-> Hsh]; apply outcome_bind_ok in Hs as ([] & _ & Hs).
  cbn [toDelegateStake ds_StakeAddress ds_Beneficiary ds_Bid ds_StakeHeight] in Hs; unfold vUint8, vUint64 in *.
  change (reflectIntKind true 8) with (Machine true 8) in *; change (reflectIntKind true 64) with (Machine true 64) in *.
  rewrite Hp in Hs; injection Hs as <-; rewrite Ea, Et in Hc; destruct Hc as (Htok & a & Ha & Hmin).
  exists bs0, bs, z0, z, a; split_and!; try assumption; apply Hbid.
Qed.

Lemma DelegateStake_spec h height db S block s status name : calling h height db S block s status ->
  name ∈ names_of MDelegateStake -> accepted (DelegateStake_send Hash256 StakeHeight name) s ->
  exists r, DelegateStake_receive Hash256 name db block s status = Ok r /\ called h height db S block s r.
Proof.
  intros Hc Hn Hacc; destruct (DelegateStake_accepted name s Hn Hacc) as (addr & b & bid & sh & a & Haddr & Hb & Hbid & Hd & _ & Ha & Hmin).
  pose proof Hc as [Hdb HS (Hh & Hh0 & Hh64) Hsend _ Hst _ Htot]; assert (Haddr21 : length addr = 21%nat) by (unfold len, AddressSize in Haddr; lia).
  unfold DelegateStake_receive; rewrite Hd; cbn [ignore_err]; rewrite bind_Ok.
  cbn [toDelegateStake vUint8 vUint64 ds_StakeAddress ds_Beneficiary ds_Bid ds_StakeHeight]; rewrite Hh.
  destruct (getStakeInfo_spec Hash256 h db S addr b true (AccountAddress s) bid Hdb HS Haddr21 Hh0) as (k & o & Hget & Hfound).
  rewrite Hget, bind_Ok; destruct (expiration_spec status height sh Hst) as (e & He & He64).
  destruct (old_amount h db S o k HS ltac:(intros s0 ->; apply Hfound)) as [sum Hsum].
  set (e' := Max (match o with Some s0 => si_ExpirationHeight s0 | None => 0 end) e).
  assert (He' : is_u64 e').
  { unfold e', Max; destruct o as [s0|]; destruct (_ <? _); try done.
    by apply (sw_height _ (ledger_wf _ _ _ _ HS _ _ (proj1 Hfound))). }
  assert (Hs21 : len (AccountAddress s) = AddressSize) by (unfold len, AddressSize; lia).
  destruct (old_deposit h height db S block s status a b true (AccountAddress s) bid addr sum e' k o)
    as (v & db1 & db2 & S' & Hp & Hset & Hadd & Hdb2 & Hso & HS' & Hef); try assumption; [reflexivity|].
  destruct (packDelegateCallback_ok Hash256 MDelegateStake name addr b a bid true) as (cb & Hcb); [by left|assumption..| |assumption|].
  { rewrite Ha in Htot; simpl in Htot; pose proof (beneficial_le_total S b (ledger_wf _ _ _ _ HS)).
    unfold is_u256, stakeAmountMin, AttovPerVite in *; lia. }
  rewrite Hsum, big_Some, Ha, big_Some, He, bind_Ok; fold e'; rewrite Hp, bind_Ok, Hset, bind_Ok, Hadd, bind_Ok, Hcb, bind_Ok.
  eexists; split; [reflexivity|]; exists S'; rewrite Ha; split_and!; try assumption.
  repeat constructor; exists 0, cb; split; [lia|reflexivity].
Qed.

Lemma StakeV3_accepted name s : name ∈ names_of MStakeV3 ++ names_of MStakeCallback ->
  accepted (StakeV3_send Hash256 StakeHeight name) s ->
  exists vs b sh a, len b = AddressSize /\ UnpackMethod ABI name (Data s) = Ok vs /\ toStakeV3 vs = (b, sh) /\
    TokenId s = ViteTokenId /\ Amount s = Some a /\ stakeAmountMin <= a.
Proof.
  intros Hn (b0 & Hs & Ea & Et); unfold StakeV3_send in Hs; apply outcome_bind_ok in Hs as ([] & Hc%stakeCheck_ok & Hs).
  apply outcome_bind_ok in Hs as (vs & Hu%or_invalid_ok & Hs); rewrite Ea, Et in Hc; destruct Hc as (Htok & a & Ha & Hmin).
  apply elem_of_app in Hn as [Hn|Hn].
  - destruct (call_recode MStakeV3 name _ _ Hn Hu) as (Ht & data & Hp & Hd); inv_types Ht.
    apply list_elem_of_singleton in Hn; subst name; cbn [toStakeV3] in Hs; change (withCallback _) with false in Hs; cbv match in Hs.
    rewrite Hp in Hs; injection Hs as <-; eexists _, bs, 0, a; split_and!; [assumption|exact Hd|reflexivity|assumption..].
  - destruct (call_recode MStakeCallback name _ _ Hn Hu) as (Ht & data & Hp & Hd); inv_types Ht.
    apply list_elem_of_singleton in Hn; subst name; cbn [toStakeV3] in Hs; change (withCallback _) with true in Hs; cbv match in Hs.
    destruct Hv0 as [-> _]; apply outcome_bind_ok in Hs as ([] & _ & Hs); unfold vUint64 in Hs.
    change (reflectIntKind true 64) with (Machine true 64) in *.
    rewrite Hp in Hs; injection Hs as <-; eexists _, bs, z, a; split_and!; [assumption|exact Hd|reflexivity|assumption..].
Qed.

Lemma StakeV3_spec h height db S block s status name : calling h height db S block s status ->
  name ∈ names_of MStakeV3 ++ names_of MStakeCallback -> accepted (StakeV3_send Hash256 StakeHeight name) s ->
  exists r, StakeV3_receive Hash256 StakeHeight name db block s status = Ok r /\ called h height db S block s r.
Proof.
  intros Hc Hn Hacc; destruct (StakeV3_accepted name s Hn Hacc) as (vs & b & sh & a & Hb & Hd & Hvs & _ & Ha & Hmin).
  pose proof Hc as [Hdb HS (Hh & Hh0 & Hh64) Hsend [Hhash Hfree] Hst _ Htot]; rewrite Ha in Htot; simpl in Htot.
  unfold StakeV3_receive; rewrite Hd; cbn [ignore_err]; rewrite bind_Ok, Hvs, Hh.
  rewrite (getNextStakeInfoKey_spec Hash256 h db S (AccountAddress s) Hdb HS Hsend Hh0), bind_Ok.
  set (k := GetStakeInfoKey (AccountAddress s) h); destruct (key_spec (AccountAddress s) h Hsend Hh64) as (_ & Hl & Ho & Hi); fold k in Hl, Ho, Hi.
  pose proof (key_fresh h db S (AccountAddress s) HS Hsend Hh64) as Hfr; fold k in Hfr.
  destruct (expiration_spec status height (if withCallback name then sh else StakeHeight) Hst) as (e & He & He64).
  set (s' := mkStakeInfo (Some a) e b false ZERO_ADDRESS 0 ZERO_ADDRESS (Some (ab_Hash s))).
  pose proof (beneficial_le_total S b (ledger_wf _ _ _ _ HS)) as Hbt.
  assert (Hw : stake_wf s') by (split; simpl; try done; [unfold amt; simpl; split; [done|lia]|split_and!; [unfold len; lia|done..]]).
  destruct (packStakeInfoV2_stored Hash256 a e b (ab_Hash s) Hw) as (v & Hv & Hstv).
  destruct (SetValue_ready db k v Hdb ltac:(unfold len; lia)) as (db1 & Hset1 & Hdb1 & Hso1 & Hv1).
  destruct (SetValue_ready db1 (ab_Hash s) k Hdb1 ltac:(unfold len; lia)) as (db2 & Hset2 & Hdb2 & Hso2 & Hv2).
  assert (Hne : k <> ab_Hash s) by (apply kinds_differ; lia).
  destruct (deposit Hash256 h db S k s' a v db2 HS Hl ltac:(lia) Hw Hstv) as (db3 & Hadd & Hdb3 & Hso3 & HS3 & Hef).
  - rewrite Hfr; done.
  - intros _; exact Hi.
  - rewrite Hfr; done.
  - unfold stakeAmountMin, AttovPerVite in *; lia.
  - exact Htot.
  - intros k2 s2 E2 _ Ho2 _; split; [done|]; intros _; destruct (st_stake _ _ _ _ HS _ _ E2) as (Hl2 & _ & _ & Hi2).
    rewrite key_le by assumption; lia.
  - intros id [= <-]; exact Hfree.
  - exact Hdb2.
  - by rewrite Hv2, decide_False, Hv1, decide_True.
  - intros id [= <-]; by rewrite Hv2, decide_True.
  - intros k' Hk' Hid; simpl in Hid; rewrite Hv2, decide_False, Hv1, decide_False by congruence; reflexivity.
  - assert (Hcalled : forall l, payments l = 0 -> Forall (to_sender block s) l -> called h height db S block s (db3, l)).
    { intros l Hpay Hto; exists (<[k := s']> S); rewrite Ha; cbn [fst snd]; rewrite Hpay; split_and!; try assumption.
      - by etransitivity; [exact Hso1|]; etransitivity.
      - rewrite <- Ho; apply (Hef height). }
    change (si_Beneficiary s') with b in Hadd.
    rewrite He, bind_Ok, Ha, big_Some, Hv, bind_Ok, Hset1, bind_Ok, Hset2, bind_Ok, Hadd, bind_Ok.
    destruct (withCallback name) eqn:Ewc; [|eexists; split; [reflexivity|]; apply Hcalled; [done|constructor]].
    destruct (packIdCallback_ok Hash256 name (ab_Hash s) true) as (cb & Hcb); [|unfold len; lia|].
    { apply bool_decide_eq_true in Ewc; subst name; apply elem_of_cons; by left. }
    rewrite Hcb, bind_Ok; eexists; split; [reflexivity|]; apply Hcalled; [done|].
    repeat constructor; exists 0, cb; split; [lia|reflexivity].
Qed.

(** *** Cancelling *)

Lemma cancelCheck_ok s x status height : stake_wf s -> snapshotHeight status = Ok height ->
  ok_or_err (fun r => r = (s, x, amt s - x) /\ si_ExpirationHeight s <= height /\ x <= amt s /\ si_Id s = None /\
               (amt s - x = 0 \/ stakeAmountMin <= amt s - x))
            (cancelCheck (Some s) (Some x) status).
Proof.
  intros Hw Hst; unfold cancelCheck, stakeNotDue; rewrite Hst, !bind_Ok; destruct (Z.ltb_spec height (si_ExpirationHeight s)); [done|].
  destruct (sw_amount _ Hw) as [-> _]; rewrite !big_Some; destruct (Z.ltb_spec (amt s) x); [done|].
  case_bool_decide as Hid; [done|]; cbn [orb]; destruct (si_Id s); [by destruct Hid|].
  destruct (Z.eqb_spec (amt s - x) 0); cbn [negb andb]; [simpl; split_and!; auto; lia|].
  destruct (Z.ltb_spec (amt s - x) stakeAmountMin); simpl; [done|]; split_and!; auto; lia.
Qed.

(** A withdrawal by one of the old methods, after the check. *)
Lemma old_withdraw h height db S block s status x (isDel : bool) da bid addr b k s0 :
  calling h height db S block s status -> (default 0 (Amount s) = 0) -> stakeAmountMin <= x ->
  (if isDel then da = AccountAddress s else addr = AccountAddress s) ->
  S !! k = Some s0 -> owner k = addr -> stakeMatches b isDel da bid s0 = true ->
  si_ExpirationHeight s0 <= height -> x <= amt s0 -> si_Id s0 = None -> (amt s0 - x = 0 \/ stakeAmountMin <= amt s0 - x) ->
  leftBeneficial Hash256 db b x = Ok (beneficial S b - x) /\
  exists db1 db2, (if amt s0 - x =? 0 then SetValue db k []
     else stakeInfo ← packStakeInfo Hash256 (amt s0 - x) (si_ExpirationHeight s0) (si_Beneficiary s0) isDel da bid;
          SetValue db k stakeInfo) = Ok db1 /\
    setBeneficial Hash256 db1 b (beneficial S b - x) = Ok db2 /\ db_ready db2 /\ storage_only db db2 /\
    staking Hash256 (h + 1) (view_of db2) (withdrawn S k s0 x) /\
    effect height S (withdrawn S k s0 x) (AccountAddress s) 0 x.
Proof.
  intros [Hdb HS _ Hsend _ _ _ Htot] Hz Hmin Hpay Ek Ho Hm Hdue Hx Hid Hrest; rewrite Hz in Htot.
  apply matches_spec in Hm as (Eb & Ed & Eda & Ebid); destruct (st_stake _ _ _ _ HS _ _ Ek) as (Hl & Hw & _ & Hi).
  pose proof (total_bounds S k s0 (ledger_wf _ _ _ _ HS) Ek) as Hbt; rewrite Eb in Hbt.
  assert (Hx0 : 0 < x) by (unfold stakeAmountMin, AttovPerVite in *; lia).
  pose proof (sw_beneficiary _ Hw) as Hb; rewrite Eb in Hb.
  split; [apply (leftBeneficial_spec Hash256 db b _ x Hdb); [by apply (st_beneficial _ _ _ _ HS)|lia]|].
  assert (Hpayee : payee k s0 = AccountAddress s) by (unfold payee; rewrite Ed; destruct isDel; congruence).
  assert (Hdone : forall db1 w, SetValue db k w = Ok db1 -> db_ready db1 -> storage_only db db1 ->
    (forall k', view_of db1 k' = if decide (k' = k) then w else view_of db k') ->
    (if x =? amt s0 then w = [] else stakeAmountMin <= amt s0 - x /\ stored Hash256 (reduce s0 x) w) ->
    exists db2, setBeneficial Hash256 db1 b (beneficial S b - x) = Ok db2 /\ db_ready db2 /\ storage_only db db2 /\
      staking Hash256 (h + 1) (view_of db2) (withdrawn S k s0 x) /\ effect height S (withdrawn S k s0 x) (AccountAddress s) 0 x).
  { intros db1 w _ Hdb1 Hso1 Hv1 Hw1.
    destruct (withdraw Hash256 h db S k s0 x db1 height HS Ek ltac:(lia) ltac:(lia) Hdue Hdb1) as (db2 & H1 & H2 & H3 & H4 & H5).
    - rewrite Hv1, decide_True by done; exact Hw1.
    - intros k' Hne; left; by rewrite Hv1, decide_False.
    - rewrite Eb in H1; rewrite Hpayee in H5; exists db2; split_and!; try assumption; by etransitivity. }
  destruct (Z.eqb_spec (amt s0 - x) 0) as [Hz0|Hnz].
  - destruct (SetValue_ready db k [] Hdb ltac:(unfold len; lia)) as (db1 & Hset & Hdb1 & Hso1 & Hv1).
    destruct (Hdone db1 [] Hset Hdb1 Hso1 Hv1) as (db2 & H2); [by destruct (Z.eqb_spec x (amt s0)); [|lia]|].
    exists db1, db2; split; assumption.
  - assert (Hmin' : stakeAmountMin <= amt s0 - x) by lia; pose proof (reduce_wf s0 x Hw Hx0 Hmin') as Hwr.
    unfold reduce in Hwr; rewrite Eb, Ed, Eda, Ebid, Hid, (sw_address _ Hw) in Hwr.
    destruct (packStakeInfo_stored Hash256 _ _ _ _ _ _ Hwr) as (v & Hv & Hst).
    destruct (SetValue_ready db k v Hdb ltac:(unfold len; lia)) as (db1 & Hset & Hdb1 & Hso1 & Hv1).
    destruct (Hdone db1 v Hset Hdb1 Hso1 Hv1) as (db2 & H2).
    { destruct (Z.eqb_spec x (amt s0)); [lia|]; split; [exact Hmin'|]; unfold reduce; rewrite Eb, Ed, Eda, Ebid, Hid, (sw_address _ Hw); exact Hst. }
    exists db1, db2; rewrite Eb, Hv, bind_Ok; split; assumption.
Qed.

Lemma zero_amount h height db S block s status : calling h height db S block s status ->
  (exists a, Amount s = Some a /\ a <= 0) -> default 0 (Amount s) = 0.
Proof. intros Hc (a & Ha & H0); pose proof (ca_amount _ _ _ _ _ _ _ Hc) as H1; rewrite Ha in *; simpl in *; lia. Qed.

Lemma CancelStake_accepted name s : name ∈ names_of MCancelStake -> accepted (CancelStake_send Hash256 name) s ->
  exists b x, len b = AddressSize /\ stakeAmountMin <= x < 2 ^ 256 /\ UnpackMethod ABI name (Data s) = Ok [VArray b; vBig x] /\
    exists a, Amount s = Some a /\ a <= 0.
Proof.
  intros Hn (b0 & Hs & Ea & Et); unfold CancelStake_send in Hs; apply outcome_bind_ok in Hs as ([] & Hc%noAmountCheck_ok & Hs).
  apply outcome_bind_ok in Hs as (vs & Hu%or_invalid_ok & Hs).
  destruct (call_recode MCancelStake name _ _ Hn Hu) as (Ht & data & Hp & Hd); inv_types Ht; destruct Hv0 as [-> [_ Hx]].
  cbn [toCancelStake cs_Amount cs_Beneficiary] in Hs; apply outcome_bind_ok in Hs as ([] & (x & [= <-] & Hmin)%minCheck_ok & Hs).
  rewrite big_Some in Hs; unfold vBig in *; change (reflectIntKind true 256) with Big in *; rewrite Hp in Hs; injection Hs as <-.
  rewrite Ea in Hc; exists bs, z; split_and!; assumption.
Qed.

Lemma CancelStake_spec h height db S block s status name : calling h height db S block s status ->
  name ∈ names_of MCancelStake -> accepted (CancelStake_send Hash256 name) s ->
  ok_or_err (called h height db S block s) (CancelStake_receive Hash256 name db block s status).
Proof.
  intros Hc Hn Hacc; destruct (CancelStake_accepted name s Hn Hacc) as (b & x & Hb & Hx & Hd & Ha).
  pose proof (zero_amount _ _ _ _ _ _ _ Hc Ha) as Hz; pose proof Hc as [Hdb HS (Hh & Hh0 & Hh64) Hsend _ Hst _ _].
  unfold CancelStake_receive; rewrite Hd; cbn [ignore_err]; rewrite bind_Ok; cbn [toCancelStake vBig cs_Beneficiary cs_Amount]; rewrite Hh.
  destruct (getStakeInfo_spec Hash256 h db S (AccountAddress s) b false ZERO_ADDRESS 0 Hdb HS Hsend Hh0) as (k & o & -> & Hf).
  rewrite bind_Ok; destruct o as [s0|]; [|exact I]; destruct Hf as (Ek & Ho & Hm & _).
  eapply ok_or_err_bind; [apply cancelCheck_ok; [by apply (ledger_wf _ _ _ _ HS _ _ Ek)|exact Hst]|].
  intros [[s1 x1] r1] (E & Hdue & Hle & Hid & Hrest); injection E as -> -> ->.
  destruct (old_withdraw h height db S block s status x false ZERO_ADDRESS 0 (AccountAddress s) b k s0)
    as (Hleft & db1 & db2 & Hset & Hben & Hdb2 & Hso & HS2 & Hef); try assumption; [lia|reflexivity|].
  rewrite Hleft, bind_Ok, Hset, bind_Ok, Hben, bind_Ok; exists (withdrawn S k s0 x); cbn [fst snd]; rewrite Hz.
  replace (payments _) with x by (unfold payments; simpl; lia).
  split_and!; try assumption; repeat constructor; exists x, []; split; [unfold stakeAmountMin, AttovPerVite in *; lia|reflexivity].
Qed.

Lemma CancelDelegateStake_accepted name s : name ∈ names_of MCancelDelegateStake -> accepted (CancelDelegateStake_send Hash256 name) s ->
  exists addr b x bid, len addr = AddressSize /\ len b = AddressSize /\ stakeAmountMin <= x < 2 ^ 256 /\ 0 <= bid < 2 ^ 8 /\
    UnpackMethod ABI name (Data s) = Ok [VArray addr; VArray b; vBig x; vUint8 bid] /\ exists a, Amount s = Some a /\ a <= 0.
Proof.
  intros Hn (b0 & Hs & Ea & Et); unfold CancelDelegateStake_send in Hs; apply outcome_bind_ok in Hs as ([] & Hc%noAmountCheck_ok & Hs).
  apply outcome_bind_ok in Hs as (vs & Hu%or_invalid_ok & Hs).
  destruct (call_recode MCancelDelegateStake name _ _ Hn Hu) as (Ht & data & Hp & Hd); inv_types Ht.
  destruct Hv1 as [-> [_ Hx]], Hv2 as [-> Hbid].
  cbn [toCancelDelegateStake cd_Amount cd_StakeAddress cd_Beneficiary cd_Bid] in Hs.
  apply outcome_bind_ok in Hs as ([] & (x & [= <-] & Hmin)%minCheck_ok & Hs); rewrite big_Some in Hs; unfold vBig, vUint8 in *.
  change (reflectIntKind true 256) with Big in *; change (reflectIntKind true 8) with (Machine true 8) in *.
  rewrite Hp in Hs; injection Hs as <-; rewrite Ea in Hc; exists bs0, bs, z0, z; split_and!; try assumption; apply Hbid.
Qed.

Lemma CancelDelegateStake_spec h height db S block s status name : calling h height db S block s status ->
  name ∈ names_of MCancelDelegateStake -> accepted (CancelDelegateStake_send Hash256 name) s ->
  ok_or_err (called h height db S block s) (CancelDelegateStake_receive Hash256 name db block s status).
Proof.
  intros Hc Hn Hacc; destruct (CancelDelegateStake_accepted name s Hn Hacc) as (addr & b & x & bid & Haddr & Hb & Hx & Hbid & Hd & Ha).
  pose proof (zero_amount _ _ _ _ _ _ _ Hc Ha) as Hz; pose proof Hc as [Hdb HS (Hh & Hh0 & Hh64) Hsend _ Hst _ _].
  assert (Haddr21 : length addr = 21%nat) by (unfold len, AddressSize in Haddr; lia).
  unfold CancelDelegateStake_receive; rewrite Hd; cbn [ignore_err]; rewrite bind_Ok.
  cbn [toCancelDelegateStake vBig vUint8 cd_StakeAddress cd_Beneficiary cd_Amount cd_Bid]; rewrite Hh.
  destruct (getStakeInfo_spec Hash256 h db S addr b true (AccountAddress s) bid Hdb HS Haddr21 Hh0) as (k & o & -> & Hf).
  rewrite bind_Ok; destruct o as [s0|]; [|exact I]; destruct Hf as (Ek & Ho & Hm & _).
  eapply ok_or_err_bind; [apply cancelCheck_ok; [by apply (ledger_wf _ _ _ _ HS _ _ Ek)|exact Hst]|].
  intros [[s1 x1] r1] (E & Hdue & Hle & Hid & Hrest); injection E as -> -> ->.
  destruct (old_withdraw h height db S block s status x true (AccountAddress s) bid addr b k s0)
    as (Hleft & db1 & db2 & Hset & Hben & Hdb2 & Hso & HS2 & Hef); try assumption; [lia|reflexivity|].
  replace (si_DelegateAddress s0) with (AccountAddress s) by (apply matches_spec in Hm; naive_solver).
  destruct (packDelegateCallback_ok Hash256 MCancelDelegateStake name addr b x bid true) as (cb & Hcb);
    [by right|assumption..|unfold is_u256, stakeAmountMin, AttovPerVite in *; lia|assumption|].
  rewrite Hleft, bind_Ok, Hset, bind_Ok, Hben, bind_Ok, Hcb, bind_Ok; exists (withdrawn S k s0 x); cbn [fst snd]; rewrite Hz.
  replace (payments _) with x by (unfold payments; simpl; lia).
  split_and!; try assumption; repeat constructor; exists x, cb; split; [unfold stakeAmountMin, AttovPerVite in *; lia|reflexivity].
Qed.

Lemma CancelStakeV3_accepted name s : name ∈ names_of MCancelV3 -> accepted (CancelStakeV3_send Hash256 name) s ->
  exists id, len id = 32 /\ UnpackMethod ABI name (Data s) = Ok [VArray id] /\ exists a, Amount s = Some a /\ a <= 0.
Proof.
  intros Hn (b0 & Hs & Ea & Et); unfold CancelStakeV3_send in Hs; apply outcome_bind_ok in Hs as ([] & Hc%noAmountCheck_ok & Hs).
  apply outcome_bind_ok in Hs as (vs & Hu%or_invalid_ok & Hs).
  destruct (call_recode MCancelV3 name _ _ Hn Hu) as (Ht & data & Hp & Hd); inv_types Ht; destruct Hv as [Hl _].
  cbn [toHash] in Hs; rewrite Hp in Hs; injection Hs as <-; rewrite Ea in Hc; exists bs; split_and!; assumption.
Qed.

(** The whole of a stake that is referred to by an id. *)
Lemma id_withdraw h height db S block s status id k s0 :
  calling h height db S block s status -> default 0 (Amount s) = 0 -> len id = 32 -> view_of db id = k ->
  S !! k = Some s0 -> owner k = AccountAddress s -> si_ExpirationHeight s0 <= height ->
  leftBeneficial Hash256 db (si_Beneficiary s0) (amt s0) = Ok (beneficial S (si_Beneficiary s0) - amt s0) /\
  exists db1 db2 db3, SetValue db k [] = Ok db1 /\ SetValue db1 id [] = Ok db2 /\
    setBeneficial Hash256 db2 (si_Beneficiary s0) (beneficial S (si_Beneficiary s0) - amt s0) = Ok db3 /\
    db_ready db3 /\ storage_only db db3 /\ staking Hash256 (h + 1) (view_of db3) (delete k S) /\
    effect height S (delete k S) (AccountAddress s) 0 (amt s0).
Proof.
  intros [Hdb HS _ Hsend _ _ _ Htot] Hz Hid Hk Ek Ho Hdue; rewrite Hz in Htot.
  destruct (st_stake _ _ _ _ HS _ _ Ek) as (Hl & Hw & _ & _); pose proof (amt_pos s0 Hw) as Hpos.
  pose proof (total_bounds S k s0 (ledger_wf _ _ _ _ HS) Ek) as Hbt; unfold len in Hid.
  split; [apply (leftBeneficial_spec Hash256 db _ _ _ Hdb); [apply (st_beneficial _ _ _ _ HS), (sw_beneficiary _ Hw)|lia]|].
  assert (Hpayee : payee k s0 = AccountAddress s).
  { unfold payee; destruct (st_ref _ _ _ _ HS id) as [E|(_ & _ & Hu)]; [lia|rewrite E in Hk; by subst k|].
    rewrite Hk in Hu; by rewrite (Hu _ Ek). }
  destruct (SetValue_ready db k [] Hdb ltac:(unfold len; lia)) as (db1 & Hset1 & Hdb1 & Hso1 & Hv1).
  destruct (SetValue_ready db1 id [] Hdb1 ltac:(unfold len; lia)) as (db2 & Hset2 & Hdb2 & Hso2 & Hv2).
  assert (Hne : k <> id) by (apply kinds_differ; lia).
  destruct (withdraw Hash256 h db S k s0 (amt s0) db2 height HS Ek ltac:(lia) ltac:(lia) Hdue Hdb2) as (db3 & H1 & H2 & H3 & H4 & H5).
  - by rewrite Z.eqb_refl, Hv2, decide_False, Hv1, decide_True.
  - intros k' Hk'; rewrite Hv2; case_decide as D; [right; subst k'; split_and!; [lia|done|exact Hk|done]|left].
    by rewrite Hv1, decide_False.
  - unfold withdrawn in H4, H5; rewrite Z.eqb_refl, ?Hpayee in *.
    exists db1, db2, db3; split_and!; try assumption; etransitivity; [exact Hso1|]; by etransitivity.
Qed.

Lemma GetStakeInfoByKey_spec h db S k : db_ready db -> staking Hash256 h (view_of db) S -> length k = 29%nat ->
  GetStakeInfoByKey Hash256 db k = Ok (S !! k).
Proof.
  intros Hdb HS Hl; unfold GetStakeInfoByKey; rewrite (dr_reads _ Hdb); cbn [DealWithErr]; rewrite bind_Ok.
  destruct (S !! k) as [s|] eqn:E; [|by rewrite (st_none _ _ _ _ HS k Hl E)].
  destruct (st_stake _ _ _ _ HS _ _ E) as (_ & _ & [Hne Hu] & _); rewrite Hu; cbn [fst].
  destruct (Z.eqb_spec (len (view_of db k)) 0); [destruct (view_of db k); [by destruct Hne|unfold len in *; simpl in *; lia]|reflexivity].
Qed.

Lemma stakeAddr_spec k : length k = 29%nat -> GetStakeAddrFromStakeInfoKey k = Ok (owner k).
Proof.
  intros Hl; unfold GetStakeAddrFromStakeInfoKey; destruct (Z.ltb_spec (len k) AddressSize); [unfold len, AddressSize in *; lia|].
  unfold BytesToAddress; change (Z.to_nat AddressSize) with 21%nat; unfold len; rewrite length_take, Hl; reflexivity.
Qed.

Lemma CancelStakeV3_spec h height db S block s status name : calling h height db S block s status ->
  name ∈ names_of MCancelV3 -> accepted (CancelStakeV3_send Hash256 name) s ->
  ok_or_err (called h height db S block s) (CancelStakeV3_receive Hash256 name db block s status).
Proof.
  intros Hc Hn Hacc; destruct (CancelStakeV3_accepted name s Hn Hacc) as (id & Hid & Hd & Ha).
  pose proof (zero_amount _ _ _ _ _ _ _ Hc Ha) as Hz; pose proof Hc as [Hdb HS (Hh & Hh0 & Hh64) Hsend _ Hst _ _].
  unfold CancelStakeV3_receive; rewrite Hd; cbn [ignore_err]; rewrite bind_Ok; cbn [toHash].
  rewrite GetValue_ready by exact Hdb; rewrite bind_Ok; set (k := view_of db id).
  destruct (st_ref _ _ _ _ HS id) as [E|(Hl & _)]; [unfold len in Hid; lia|fold k in E; rewrite E; exact I|fold k in Hl].
  destruct (Z.eqb_spec (len k) 0); [exact I|]; rewrite (GetStakeInfoByKey_spec h db S k Hdb HS Hl), bind_Ok, stakeAddr_spec, bind_Ok by exact Hl.
  destruct (S !! k) as [s0|] eqn:Ek; [|exact I]; case_bool_decide as Ho; cbn [negb]; [|exact I].
  unfold stakeNotDue; rewrite Hst, !bind_Ok; destruct (Z.ltb_spec height (si_ExpirationHeight s0)) as [|Hdue]; [exact I|].
  destruct (sw_amount _ (ledger_wf _ _ _ _ HS _ _ Ek)) as [-> Hbound]; rewrite big_Some.
  destruct (id_withdraw h height db S block s status id k s0 Hc Hz Hid eq_refl Ek Ho Hdue)
    as (Hleft & db1 & db2 & db3 & H1 & H2 & H3 & H4 & H5 & H6 & H7).
  rewrite Hleft, bind_Ok, H1, bind_Ok, H2, bind_Ok, H3, bind_Ok.
  assert (exists cb, (if cancelWithCallback name then packIdCallback Hash256 name id true else Ok []) = Ok cb) as [cb ->].
  { destruct (cancelWithCallback name) eqn:Ecb; [|by eexists]; apply packIdCallback_ok; [|exact Hid].
    apply bool_decide_eq_true in Ecb; subst name; apply elem_of_cons; right; by apply list_elem_of_singleton. }
  rewrite bind_Ok; exists (delete k S); cbn [fst snd]; rewrite Hz; replace (payments _) with (amt s0) by (unfold payments; simpl; lia).
  split_and!; try assumption; repeat constructor; exists (amt s0), cb; split; [unfold stakeAmountMin, AttovPerVite in *; lia|reflexivity].
Qed.

(** ** Every method of every generation *)

Inductive is_method : string -> BuiltinContractMethod -> Prop :=
| is_Stake name : name ∈ names_of MStake -> is_method name (MethodStake Hash256 StakeHeight name)
| is_CancelStake name : name ∈ names_of MCancelStake -> is_method name (MethodCancelStake Hash256 name)
| is_DelegateStake name : name ∈ names_of MDelegateStake -> is_method name (MethodDelegateStake Hash256 StakeHeight name)
| is_CancelDelegateStake name : name ∈ names_of MCancelDelegateStake -> is_method name (MethodCancelDelegateStake Hash256 name)
| is_StakeV3 name : name ∈ names_of MStakeV3 ++ names_of MStakeCallback -> is_method name (MethodStakeV3 Hash256 StakeHeight name)
| is_CancelStakeV3 name : name ∈ names_of MCancelV3 -> is_method name (MethodCancelStakeV3 Hash256 name).

Lemma earth_methods name p : (name, p) ∈ earthQuota Hash256 StakeHeight -> is_method name p.
Proof.
  unfold earthQuota, leafQuota, dexQuota, simpleQuota; rewrite !elem_of_app, !elem_of_cons, !elem_of_nil.
  intros H; repeat match type of H with _ \/ _ => destruct H as [H|H] | False => destruct H end;
    injection H as -> ->; constructor; rewrite ?elem_of_app, ?elem_of_cons, ?elem_of_nil; cbn [names_of]; set_solver.
Qed.

Lemma quota_method_cases g sel p : quotaContract Hash256 StakeHeight g sel = Some p ->
  exists m, MethodById ABI sel = Ok m /\ is_method (md_Name m) p.
Proof.
  unfold quotaContract; destruct (MethodById ABI sel) as [m| |]; [|done..]; intros H%assoc_elem; exists m; split; [reflexivity|].
  apply earth_methods; unfold earthQuota, leafQuota, dexQuota in *; destruct g; cbn [quotaMethods] in H;
    unfold earthQuota, leafQuota, dexQuota in H; rewrite ?elem_of_app in *; tauto.
Qed.

(** The outcome of a call. *)
Lemma call_refines g sel p h height db S block s status :
  quotaContract Hash256 StakeHeight g sel = Some p -> calling h height db S block s status -> sent_through p s ->
  match DoReceive p db block s status with
  | (Ok l, db', block') => called h height db S block s (db', l) /\ block' = block
  | (Err _, db', block') => db' = db /\ block' = block
  | (Panic _, _, _) => False
  end.
Proof.
  intros (m & _ & Hm)%quota_method_cases Hc Hs.
  assert (Hok : forall r, ok_or_err (called h height db S block s) r -> match receive_with db block r with
    | (Ok l, db', block') => called h height db S block s (db', l) /\ block' = block
    | (Err _, db', block') => db' = db /\ block' = block | (Panic _, _, _) => False end).
  { intros [[db' l]|e|q] Hr; [split; [exact Hr|reflexivity]|split; reflexivity|exact Hr]. }
  destruct Hm as [name Hn|name Hn|name Hn|name Hn|name Hn|name Hn]; apply Hok; apply send_data_accepted in Hs.
  - destruct (Stake_spec h height db S block s status name Hc Hn Hs) as (r & -> & Hr); exact Hr.
  - by apply CancelStake_spec.
  - destruct (DelegateStake_spec h height db S block s status name Hc Hn Hs) as (r & -> & Hr); exact Hr.
  - by apply CancelDelegateStake_spec.
  - destruct (StakeV3_spec h height db S block s status name Hc Hn Hs) as (r & -> & Hr); exact Hr.
  - by apply CancelStakeV3_spec.
Qed.

(** C8 The quota contract implements its ledger.  A call that was accepted when
    it was sent either returns an error and changes nothing, or succeeds: then
    the storage holds a ledger again in which the beneficiaries' amounts are the
    sums of the stakes, the claim of the calling account grew by what it paid and
    shrank by what it gets back, all other claims are the same, and what it gets
    back is part of a stake of its own that is due.  It never panics. *)
Theorem staking_refines g sel p h height db S block s status :
  quotaContract Hash256 StakeHeight g sel = Some p -> calling h height db S block s status -> sent_through p s ->
  match DoReceive p db block s status with
  | (Ok l, db', block') => called h height db S block s (db', l) /\ block' = block
  | (Err _, db', block') => db' = db /\ block' = block
  | (Panic _, _, _) => False
  end.
Proof. apply call_refines. Qed.


(** ** Getting a stake back *)

(** The call that takes back a whole stake. *)
Definition withdrawal (k : bytes) (s0 : StakeInfo) : string * list abiValue :=
  match si_Id s0 with
  | Some id => (MethodNameCancelStakeV3, [VArray id])
  | None =>
      if si_IsDelegated s0
      then (MethodNameCancelDelegateStakeV2, [VArray (owner k); VArray (si_Beneficiary s0); vBig (amt s0); vUint8 (si_Bid s0)])
      else (MethodNameCancelStakeV2, [VArray (si_Beneficiary s0); vBig (amt s0)])
  end.

Lemma call_found q name p vs data : name ∈ names_of q -> assoc name (quotaMethods Hash256 StakeHeight earthContracts) = Some p ->
  Forall2 has_type (ArgType <$> args_of (inputs_of q)) vs -> PackMethod ABI name vs = Ok data ->
  quotaContract Hash256 StakeHeight earthContracts data = Some p /\ UnpackMethod ABI name data = Ok vs.
Proof.
  intros Hn Hp Ht Hd; pose proof (quota_methods_defined Hash256 q name Hn) as Hm.
  destruct (static_method ABI name _ vs (quota_abi_ok _ Hsel) (names_nonempty q name Hn) Hm) as (data' & Hp' & Hid & Hu);
    [destruct q; vm_compute; reflexivity|destruct q; vm_compute; split; discriminate|exact Ht|].
  rewrite Hd in Hp'; injection Hp' as <-; split; [|exact Hu].
  unfold quotaContract; unfold MethodById in *; rewrite take_take, Nat.min_id in Hid.
  destruct (Z.ltb_spec (len (take 4 data)) 4) as [|H4]; [done|].
  destruct (Z.ltb_spec (len data) 4); [unfold len in *; rewrite length_take in H4; lia|].
  destruct (findMethod _ _) as [m|]; [|done]; injection Hid as ->; exact Hp.
Qed.

Lemma cancelCheck_whole s0 status height : stake_wf s0 -> snapshotHeight status = Ok height ->
  si_ExpirationHeight s0 <= height -> si_Id s0 = None -> cancelCheck (Some s0) (Some (amt s0)) status = Ok (s0, amt s0, 0).
Proof.
  intros Hw Hst Hdue Hid; unfold cancelCheck, stakeNotDue; rewrite Hst, !bind_Ok.
  destruct (Z.ltb_spec height (si_ExpirationHeight s0)); [lia|]; destruct (sw_amount _ Hw) as [-> _]; rewrite !big_Some, Hid.
  rewrite Z.ltb_irrefl, Z.sub_diag; reflexivity.
Qed.

(** The stake of a class that the old methods find is the one without an id. *)
Lemma first_found h db S k s0 addr b isDel da bid : db_ready db -> staking Hash256 h (view_of db) S -> 0 < h ->
  length addr = 21%nat -> S !! k = Some s0 -> owner k = addr -> stakeMatches b isDel da bid s0 = true -> si_Id s0 = None ->
  getStakeInfo Hash256 db addr b isDel da bid h = Ok (k, Some s0).
Proof.
  intros Hdb HS Hh Ha Ek Ho Hm Hid; destruct (getStakeInfo_spec Hash256 h db S addr b isDel da bid Hdb HS Ha Hh) as (k' & o & -> & Hf).
  destruct o as [s1|]; [|destruct Hf as [_ Hf]; rewrite (Hf k s0 Ek Ho) in Hm; discriminate].
  destruct Hf as (Ek' & Ho' & Hm' & Hf); enough (k' = k) as -> by congruence.
  apply bytes_leb_antisym; [by apply (Hf k s0)|]; apply (st_first _ _ _ _ HS k s0 k' s1); try congruence.
  unfold same_class; apply matches_spec; apply matches_spec in Hm, Hm'; naive_solver.
Qed.

Definition returned h db S block s status k s0 : Prop :=
  exists p db' cb, quotaContract Hash256 StakeHeight earthContracts (Data s) = Some p /\
    (forall d, DoSend p d s = (Ok tt, d, set_Data s (Data s))) /\
    DoReceive p db block s status = (Ok [requestTo block s (Some (amt s0)) cb], db', block) /\
    staking Hash256 (h + 1) (view_of db') (delete k S).

Section Due.
Context (h height : Z) (db : vmDb) (S : ledger) (block s : AccountBlock) (status : option GlobalStatus) (k : bytes) (s0 : StakeInfo).
Context (Hc : calling h height db S block s status) (Ek : S !! k = Some s0) (Hpay : payee k s0 = AccountAddress s).
Context (Hdue : si_ExpirationHeight s0 <= height) (Hz : Amount s = Some 0).

Lemma due_wf : stake_wf s0 /\ length k = 29%nat /\ len (owner k) = AddressSize /\ is_u256 (amt s0) /\ (amt s0 <? stakeAmountMin) = false.
Proof.
  destruct (st_stake _ _ _ _ (ca_ledger _ _ _ _ _ _ _ Hc) _ _ Ek) as (Hl & Hw & _); split_and!; try assumption.
  - unfold owner, len, AddressSize; rewrite length_take, Hl; reflexivity.
  - destruct (sw_amount _ Hw) as [_ ?]; unfold is_u256, stakeAmountMin, AttovPerVite in *; lia.
  - destruct (sw_amount _ Hw) as [_ ?]; lia.
Qed.

Lemma due_with_id id : si_Id s0 = Some id -> PackMethod ABI MethodNameCancelStakeV3 [VArray id] = Ok (Data s) ->
  returned h db S block s status k s0.
Proof.
  intros Hid Hp; destruct due_wf as (Hw & Hl & Hlo & Hamt & Hmin); pose proof Hc as [Hdb HS (Hh & Hh0 & _) Hsend _ Hst _ _].
  pose proof (sw_kind _ Hw) as Hkd; rewrite Hid in Hkd; destruct Hkd as (Hlid & Hnd & _).
  assert (Hn : MethodNameCancelStakeV3 ∈ names_of MCancelV3) by (apply elem_of_cons; by left).
  destruct (call_found MCancelV3 _ (MethodCancelStakeV3 Hash256 MethodNameCancelStakeV3) [VArray id] (Data s) Hn eq_refl) as [Hq Hu];
    [clear Hp; by has_types|exact Hp|].
  unfold payee in Hpay; rewrite Hnd in Hpay.
  destruct (id_withdraw h height db S block s status id k s0 Hc) as (Hleft & db1 & db2 & db3 & H1 & H2 & H3 & _ & _ & H6 & _);
    [by rewrite Hz|exact Hlid|by apply (st_id _ _ _ _ HS _ _ _ Ek)|exact Ek|exact Hpay|exact Hdue|].
  exists (MethodCancelStakeV3 Hash256 MethodNameCancelStakeV3), db3, []; split_and!; [exact Hq| | |exact H6].
  - intros d; cbn [DoSend MethodCancelStakeV3]; unfold CancelStakeV3_send, noAmountCheck.
    rewrite Hz, big_Some; change (0 <? 0) with false; cbv match; rewrite bind_Ok, Hu; cbn [or_invalid]; rewrite bind_Ok; cbn [toHash].
    rewrite Hp; reflexivity.
  - cbn [DoReceive MethodCancelStakeV3]; unfold CancelStakeV3_receive; rewrite Hu; cbn [ignore_err]; rewrite bind_Ok; cbn [toHash].
    rewrite GetValue_ready, bind_Ok, (st_id _ _ _ _ HS _ _ _ Ek Hid) by exact Hdb.
    destruct (Z.eqb_spec (len k) 0); [unfold len in *; lia|].
    rewrite (GetStakeInfoByKey_spec h db S k Hdb HS Hl), bind_Ok, stakeAddr_spec, bind_Ok, Ek, Hpay, bool_decide_eq_true_2 by done.
    cbn [negb]; unfold stakeNotDue; rewrite Hst, !bind_Ok; destruct (Z.ltb_spec height (si_ExpirationHeight s0)); [lia|].
    destruct (sw_amount _ Hw) as [-> _]; rewrite big_Some, Hleft, bind_Ok, H1, bind_Ok, H2, bind_Ok, H3, bind_Ok; reflexivity.
Qed.

Lemma due_plain : si_Id s0 = None -> si_IsDelegated s0 = false ->
  PackMethod ABI MethodNameCancelStakeV2 [VArray (si_Beneficiary s0); vBig (amt s0)] = Ok (Data s) ->
  returned h db S block s status k s0.
Proof.
  intros Hid Hnd Hp; destruct due_wf as (Hw & Hl & Hlo & Hamt & Hmin); pose proof Hc as [Hdb HS (Hh & Hh0 & _) Hsend _ Hst _ _].
  assert (Hn : MethodNameCancelStakeV2 ∈ names_of MCancelStake) by (apply elem_of_cons; right; by apply list_elem_of_singleton).
  destruct (call_found MCancelStake _ (MethodCancelStake Hash256 MethodNameCancelStakeV2)
    [VArray (si_Beneficiary s0); vBig (amt s0)] (Data s) Hn eq_refl) as [Hq Hu];
    [clear Hp; has_types; [apply (sw_beneficiary _ Hw)|apply Hamt..]|exact Hp|].
  pose proof (sw_kind _ Hw) as Hkd; rewrite Hid in Hkd; destruct Hkd as (_ & _ & Hkd); destruct (Hkd Hnd) as [Hda Hbid].
  unfold payee in Hpay; rewrite Hnd in Hpay.
  assert (Hm : stakeMatches (si_Beneficiary s0) false ZERO_ADDRESS 0 s0 = true) by (apply matches_spec; split_and!; try done).
  destruct (old_withdraw h height db S block s status (amt s0) false ZERO_ADDRESS 0 (AccountAddress s) (si_Beneficiary s0) k s0)
    as (Hleft & db1 & db2 & Hset & Hben & _ & _ & HS2 & _); try assumption; [by rewrite Hz|lia|reflexivity|lia|lia|].
  rewrite Z.sub_diag in Hset; unfold withdrawn in HS2; rewrite Z.eqb_refl in HS2.
  exists (MethodCancelStake Hash256 MethodNameCancelStakeV2), db2, []; split_and!; [exact Hq| | |exact HS2].
  - intros d; cbn [DoSend MethodCancelStake]; unfold CancelStake_send, noAmountCheck, minCheck.
    rewrite Hz, big_Some; change (0 <? 0) with false; cbv match; rewrite bind_Ok, Hu; cbn [or_invalid]; rewrite bind_Ok.
    cbn [toCancelStake vBig cs_Beneficiary cs_Amount]; rewrite !big_Some, Hmin, bind_Ok, Hp; reflexivity.
  - cbn [DoReceive MethodCancelStake]; unfold CancelStake_receive; rewrite Hu; cbn [ignore_err]; rewrite bind_Ok.
    cbn [toCancelStake vBig cs_Beneficiary cs_Amount].
    rewrite Hh, (first_found h db S k s0), bind_Ok, (cancelCheck_whole s0 status height), bind_Ok by assumption.
    rewrite Hleft, bind_Ok; change (0 =? 0) with true in *; cbv match in *; rewrite Hset, bind_Ok, Hben, bind_Ok; reflexivity.
Qed.

Lemma due_delegated : si_Id s0 = None -> si_IsDelegated s0 = true ->
  PackMethod ABI MethodNameCancelDelegateStakeV2 [VArray (owner k); VArray (si_Beneficiary s0); vBig (amt s0); vUint8 (si_Bid s0)]
    = Ok (Data s) ->
  returned h db S block s status k s0.
Proof.
  intros Hid Hnd Hp; destruct due_wf as (Hw & Hl & Hlo & Hamt & Hmin); pose proof Hc as [Hdb HS (Hh & Hh0 & _) Hsend _ Hst _ _].
  assert (Hn : MethodNameCancelDelegateStakeV2 ∈ names_of MCancelDelegateStake) by (apply elem_of_cons; right; by apply list_elem_of_singleton).
  pose proof (sw_kind _ Hw) as Hkd; rewrite Hid in Hkd; destruct Hkd as (_ & Hbid & _).
  destruct (call_found MCancelDelegateStake _ (MethodCancelDelegateStake Hash256 MethodNameCancelDelegateStakeV2)
    [VArray (owner k); VArray (si_Beneficiary s0); vBig (amt s0); vUint8 (si_Bid s0)] (Data s) Hn eq_refl) as [Hq Hu].
  { clear Hp; has_types; first [apply (sw_beneficiary _ Hw)|apply Hamt|apply Hbid|exact Hlo]. }
  { exact Hp. }
  unfold payee in Hpay; rewrite Hnd in Hpay.
  assert (Hm : stakeMatches (si_Beneficiary s0) true (AccountAddress s) (si_Bid s0) s0 = true) by (apply matches_spec; split_and!; try done).
  destruct (old_withdraw h height db S block s status (amt s0) true (AccountAddress s) (si_Bid s0) (owner k) (si_Beneficiary s0) k s0)
    as (Hleft & db1 & db2 & Hset & Hben & _ & _ & HS2 & _); try assumption; [by rewrite Hz|lia|reflexivity|reflexivity|lia|lia|].
  destruct (packDelegateCallback_ok Hash256 MCancelDelegateStake MethodNameCancelDelegateStakeV2 (owner k) (si_Beneficiary s0)
    (amt s0) (si_Bid s0) true) as (cb & Hcb); [by right|exact Hn|exact Hlo|apply (sw_beneficiary _ Hw)|exact Hamt|exact Hbid|].
  rewrite Z.sub_diag in Hset; unfold withdrawn in HS2; rewrite Z.eqb_refl in HS2.
  exists (MethodCancelDelegateStake Hash256 MethodNameCancelDelegateStakeV2), db2, cb; split_and!; [exact Hq| | |exact HS2].
  - intros d; cbn [DoSend MethodCancelDelegateStake]; unfold CancelDelegateStake_send, noAmountCheck, minCheck.
    rewrite Hz, big_Some; change (0 <? 0) with false; cbv match; rewrite bind_Ok, Hu; cbn [or_invalid]; rewrite bind_Ok.
    cbn [toCancelDelegateStake vBig vUint8 cd_StakeAddress cd_Beneficiary cd_Amount cd_Bid]; rewrite !big_Some, Hmin, bind_Ok, Hp; reflexivity.
  - cbn [DoReceive MethodCancelDelegateStake]; unfold CancelDelegateStake_receive; rewrite Hu; cbn [ignore_err]; rewrite bind_Ok.
    cbn [toCancelDelegateStake vBig vUint8 cd_StakeAddress cd_Beneficiary cd_Amount cd_Bid].
    rewrite Hh, (first_found h db S k s0), bind_Ok, (cancelCheck_whole s0 status height), bind_Ok
      by (assumption || reflexivity || (unfold len, AddressSize in Hlo; lia)).
    rewrite Hleft, bind_Ok; change (0 =? 0) with true in *; cbv match in *; rewrite Hset, bind_Ok, Hben, bind_Ok, Hcb, bind_Ok; reflexivity.
Qed.

End Due.

(** C23 A stake that is due can be taken back: when the receiver of the money of a stake
    calls the cancelling method for it with the whole amount, once the snapshot height has
    reached the stake's expiration height, the contract accepts the call, whatever other
    stakes it holds; it pays exactly the stake's amount to that account and removes the
    stake and nothing else. *)
Theorem due_stake_returned h height db S block s status k s0 :
  calling h height db S block s status -> S !! k = Some s0 -> payee k s0 = AccountAddress s ->
  si_ExpirationHeight s0 <= height -> Amount s = Some 0 ->
  PackMethod ABI (withdrawal k s0).1 (withdrawal k s0).2 = Ok (Data s) ->
  returned h db S block s status k s0.
Proof.
  unfold withdrawal; intros Hc Ek Hp Hdue Hz; destruct (si_Id s0) eqn:Hid; [|destruct (si_IsDelegated s0) eqn:Hd]; cbn [fst snd];
    [eapply due_with_id|eapply due_delegated|eapply due_plain]; eassumption.
Qed.

End Calls.
