(* ===== verification/DexExchange.v ===== *)
(** The exchange as a whole: the fund contract and the trade contract, each with
    its own storage, and the messages on their way between them.

    Every message is received on a database opened on the storage its contract
    had left.  Orders and settlements in flight are received in any order, so
    the steps cover every interleaving of the two contracts; a message that its
    contract refuses is dropped without a trace. *)
From S2P Require Import Prelude Helper Float TimeIndex Types Upgrade VmDb Iterator IteratorSpec.
From S2P Require Import DexNumber DexOrder DexMatcher DexFund DexSettle DexPlace DexContracts.
#[local] Open Scope Z_scope.

(** What users and the time oracle send to the fund contract. *)
Inductive fundMessage :=
| MsgDeposit (sender : Address) (token : TokenTypeId) (amount : Z)
| MsgWithdraw (sender : Address) (token : TokenTypeId) (amount : Z)
| MsgPlaceOrder (sender : Address) (param : ParamPlaceOrder) (sendHash : Hash)
| MsgPlaceAgentOrder (sender principal : Address) (param : ParamPlaceOrder) (sendHash : Hash)
| MsgTransfer (sender target : Address) (token : TokenTypeId) (amount : Z)
| MsgAgentDeposit (sender beneficiary : Address) (token : TokenTypeId) (amount : Z)
| MsgAssignedWithdraw (sender target : Address) (token : TokenTypeId) (amount : Z) (label : bytes)
| MsgCancelBySendHash (sender : Address) (sendHash : Hash) (principal : Address) (tradeToken quoteToken : TokenTypeId)
| MsgNotifyTime (sender : Address) (timestamp : Z).

Definition receiveFund (e : fundEnv) (db : vmDb) (msg : fundMessage) : received :=
  match msg with
  | MsgDeposit sender token amount => FundDeposit e db sender token amount
  | MsgWithdraw sender token amount => FundWithdraw e db sender token amount
  | MsgPlaceOrder sender param sendHash => FundPlaceOrder e db sender param sendHash
  | MsgPlaceAgentOrder sender principal param sendHash => FundPlaceAgentOrder e db sender principal param sendHash
  | MsgTransfer sender target token amount => FundTransfer e db sender target token amount
  | MsgAgentDeposit sender beneficiary token amount => FundAgentDeposit e db sender beneficiary token amount
  | MsgAssignedWithdraw sender target token amount label => FundAssignedWithdraw e db sender target token amount label
  | MsgCancelBySendHash sender sendHash principal tradeToken quoteToken =>
      FundCancelOrderBySendHash e db sender sendHash principal tradeToken quoteToken
  | MsgNotifyTime sender timestamp => FundNotifyTime e db sender timestamp
  end.

(** The cancellations the trade contract receives: from the owner or agent of the
    order, or from the fund contract on behalf of an owner it has checked. *)
Inductive tradeMessage :=
| MsgCancelOrder (orderId : bytes) (sender : Address)
| MsgCancelByHash (sendHash : Hash) (sender : Address)
| MsgInnerCancel (sendHash : Hash) (owner : Address).

Definition receiveTrade (e : fundEnv) (db : vmDb) (msg : tradeMessage) : received :=
  match msg with
  | MsgCancelOrder orderId sender => TradeCancelOrder e db orderId sender
  | MsgCancelByHash sendHash sender => TradeCancelOrderByTransactionHash e db sendHash sender
  | MsgInnerCancel sendHash owner => TradeInnerCancelOrderBySendHash e db sendHash owner
  end.

(** ** States *)

Definition orders_of (calls : list dexCall) : list bytes :=
  omap (fun c => match c with CallTradePlaceOrder _ data => Some data | _ => None end) calls.

Definition settles_of (calls : list dexCall) : list bytes :=
  omap (fun c => match c with CallFundSettleOrders _ data => Some data | _ => None end) calls.

Record exchange := mkExchange {
  ex_fund : bytes -> bytes;      (* the storage of the fund contract *)
  ex_trade : bytes -> bytes;     (* the storage of the trade contract *)
  ex_orders : list bytes;        (* orders on their way to the trade contract *)
  ex_settles : list bytes;       (* settlements on their way to the fund contract *)
}.

(** A database opened on a storage, at a height after the fee upgrade. *)
Record opened (e : dexEnv) (view : bytes -> bytes) (db : vmDb) : Prop := {
  op_new : uns db = NewUnsaved;
  op_value k : db_GetValue db k = Ok (view k);
  op_iterates prefix : exists items, chain_iterates db prefix items /\ (length items < scan_fuel e)%nat;
  op_upgrade h : latestHeight db = Ok h -> IsDexFeeUpgrade (dex_box e) h = true;
}.

(** ** Steps *)

(** The time of the exchange and the serial number of its last order, as stored. *)
Definition dex_time (view : bytes -> bytes) : Z :=
  let bs := view dexTimestampKey in if len bs =? 8 then i64 (SetBytes (take 8 bs)) else 0.

Definition last_serial (e : dexEnv) (view : bytes -> bytes) : option SerialNo :=
  let bs := view orderIdSerialNoKey in if 0 <? len bs then unmarshal_SerialNo e bs else None.

Definition next_serial (last : option SerialNo) (timestamp : Z) : Z :=
  match last with
  | None => 0
  | Some sn => if timestamp =? sn_Timestamp sn then i32 (sn_No sn + 1) else 0
  end.

(** An order id has five bytes for the time and three for the serial number. *)
Definition clock_ok (e : fundEnv) (db : vmDb) : Prop :=
  let timestamp := dex_time (view_of db) in
  0 <= timestamp < 2 ^ 40 /\ 0 <= next_serial (last_serial (fe_dex e) (view_of db)) timestamp < 2 ^ 24.

Definition placing_ok (e : fundEnv) (db : vmDb) (address : Address) (param : ParamPlaceOrder) (sendHash : Hash) : Prop :=
  length address = 21%nat /\ length sendHash = 32%nat /\
  length (po_TradeToken param) = 10%nat /\ length (po_QuoteToken param) = 10%nat /\ clock_ok e db.

(** The messages that occur: addresses, tokens and hashes of their sizes, no negative
    amounts, 64-bit times. *)
Definition fund_message_ok (e : fundEnv) (db : vmDb) (msg : fundMessage) : Prop :=
  match msg with
  | MsgDeposit _ _ amount | MsgWithdraw _ _ amount | MsgTransfer _ _ _ amount | MsgAgentDeposit _ _ _ amount
  | MsgAssignedWithdraw _ _ _ amount _ => 0 <= amount
  | MsgPlaceOrder sender param sendHash => placing_ok e db sender param sendHash
  | MsgPlaceAgentOrder _ principal param sendHash => placing_ok e db principal param sendHash
  | MsgCancelBySendHash _ _ _ _ _ => True
  | MsgNotifyTime _ timestamp => - 2 ^ 63 <= timestamp < 2 ^ 63
  end.

Inductive exchange_step (e : fundEnv) : exchange -> exchange -> Prop :=
| step_fund s db msg db' calls :
    opened (fe_dex e) (ex_fund s) db -> fund_message_ok e db msg ->
    receiveFund e db msg = Ok (db', calls) ->
    exchange_step e s (mkExchange (view_of db') (ex_trade s) (ex_orders s ++ orders_of calls) (ex_settles s))
| step_cancel s db msg db' calls :
    opened (fe_dex e) (ex_trade s) db -> receiveTrade e db msg = Ok (db', calls) ->
    exchange_step e s (mkExchange (ex_fund s) (view_of db') (ex_orders s) (ex_settles s ++ settles_of calls))
| step_match s db orders1 data orders2 prevHash db' calls :
    opened (fe_dex e) (ex_trade s) db -> ex_orders s = orders1 ++ data :: orders2 ->
    TradePlaceOrder e db data prevHash = Ok (db', calls) ->
    exchange_step e s (mkExchange (ex_fund s) (view_of db') (orders1 ++ orders2) (ex_settles s ++ settles_of calls))
| step_settle s db settles1 data settles2 db' calls :
    opened (fe_dex e) (ex_fund s) db -> ex_settles s = settles1 ++ data :: settles2 ->
    FundSettleOrders e db data = Ok (db', calls) ->
    exchange_step e s (mkExchange (view_of db') (ex_trade s) (ex_orders s) (settles1 ++ settles2))
| step_refuse_order s orders1 data orders2 :
    ex_orders s = orders1 ++ data :: orders2 ->
    exchange_step e s (mkExchange (ex_fund s) (ex_trade s) (orders1 ++ orders2) (ex_settles s))
| step_refuse_settle s settles1 data settles2 :
    ex_settles s = settles1 ++ data :: settles2 ->
    exchange_step e s (mkExchange (ex_fund s) (ex_trade s) (ex_orders s) (settles1 ++ settles2)).
