(* ===== verification/DexNumberSpec.v ===== *)
(** What the number formats of the exchange guarantee: amounts in bytes add and
    subtract exactly, a fee is at most half of the amount it is taken from, and
    prices keep their value and their order as bytes. *)
From S2P Require Import Prelude Helper Float VmDb Iterator IteratorSpec DexNumber.
From Stdlib Require Import ZifyBool.
#[local] Open Scope Z_scope.

(** ** Amounts *)

Lemma SetBytes_nonneg bs : 0 <= SetBytes bs.
Proof. apply SetBytes_range. Qed.

Lemma SetBytes_Bytes_abs x : SetBytes (Bytes x) = Z.abs x.
Proof.
  rewrite <- (SetBytes_Bytes (Z.abs x)) by lia; unfold Bytes, BitLen; rewrite Z.abs_involutive.
  by replace (Z.abs x =? 0) with (x =? 0) by lia.
Qed.

Lemma SetBytes_AddBigInt a b : SetBytes (AddBigInt a b) = SetBytes a + SetBytes b.
Proof.
  unfold AddBigInt; pose proof (SetBytes_nonneg a); pose proof (SetBytes_nonneg b).
  apply SetBytes_Bytes; lia.
Qed.

Lemma SetBytes_SubBigIntAbs a b : SetBytes (SubBigIntAbs a b) = Z.abs (SetBytes a - SetBytes b).
Proof. apply SetBytes_Bytes_abs. Qed.

Lemma SetBytes_MinBigInt a b : SetBytes (MinBigInt a b) = Z.min (SetBytes a) (SetBytes b).
Proof. unfold MinBigInt; destruct (Z.ltb_spec (SetBytes b) (SetBytes a)); lia. Qed.

(** [CmpForBigInt] orders the values, except that an empty string and a string
    of zero bytes may compare either way. *)
Lemma CmpForBigInt_le a b : CmpForBigInt a b <= 0 -> SetBytes a <= SetBytes b.
Proof.
  unfold CmpForBigInt, len, big_Cmp; destruct a, b; cbn [length]; try (simpl; lia).
  - intros _; apply SetBytes_nonneg.
  - repeat case_match; lia.
Qed.

Lemma CmpForBigInt_gt a b : 0 < CmpForBigInt a b -> SetBytes b <= SetBytes a.
Proof.
  unfold CmpForBigInt, len, big_Cmp; destruct a, b; cbn [length]; try (simpl; lia).
  - intros _; apply SetBytes_nonneg.
  - repeat case_match; lia.
Qed.

(** Normalise sums and differences of amounts to arithmetic on their values. *)
Create HintDb amounts.
#[export] Hint Rewrite SetBytes_AddBigInt SetBytes_SubBigIntAbs SetBytes_MinBigInt : amounts.

(** ** Fees *)

Lemma round_slack prec num den : 0 <= num -> 0 < den -> 10 <= prec ->
  0 <= f_num (round_pos prec num den) /\
  1000 * (f_num (round_pos prec num den) * den) <= 1001 * (num * f_den (round_pos prec num den)).
Proof.
  intros Hn Hd Hp; destruct (round_pos_le prec num den Hn Hd ltac:(lia)) as [Hm Hle].
  pose proof (f_den_pos (round_pos prec num den)).
  split; [unfold f_num; apply Z.mul_nonneg_nonneg; lia|].
  assert (2 ^ 10 <= 2 ^ prec) by (apply Z.pow_le_mono_r; lia).
  assert (0 <= num * f_den (round_pos prec num den)) by nia.
  set (X := f_num _ * den) in *; set (Y := num * _) in *; nia.
Qed.

(** Rates up to one percent are written with their five decimals. *)
Lemma rate_text rate : 0 < rate <= 1000 ->
  exists s, CardinalRateToString rate = Ok s /\
    f_SetString bigFloatPrec s = Some (f_round bigFloatPrec rate (10 ^ 5)).
Proof.
  intros Hr; set (good r := match CardinalRateToString r with
    | Ok s => bool_decide (split_dot s = [[char_0]; drop 2 s]) && forallb is_digit (drop 2 s) &&
              (len (drop 2 s) =? 5) && (dec_val (char_0 :: drop 2 s) =? r)
    | _ => false end).
  assert (Hall : forallb good (Z.of_nat <$> seq 1 1000) = true) by (vm_compute; reflexivity).
  rewrite forallb_forall in Hall; assert (Hin : In rate (Z.of_nat <$> seq 1 1000)).
  { apply list_elem_of_In, list_elem_of_fmap; exists (Z.to_nat rate); rewrite elem_of_seq; lia. }
  specialize (Hall rate Hin); unfold good in Hall; destruct (CardinalRateToString rate) as [s| |]; try done; exists s; split; [done|].
  apply andb_true_iff in Hall as [[[H1%bool_decide_eq_true H2]%andb_true_iff H3]%andb_true_iff H4].
  unfold f_SetString; rewrite H1; simpl forallb; rewrite H2; cbn [andb app].
  replace (0 <? len (char_0 :: drop 2 s)) with true by (unfold len; simpl; lia).
  apply Z.eqb_eq in H3, H4; by rewrite H3, H4.
Qed.

Lemma fee_arith a n1 d1 n2 d2 n3 d3 n4 d4 fee :
  0 <= a -> 0 <= n1 -> 0 < d1 -> 0 <= n2 -> 0 < d2 -> 0 <= n3 -> 0 < d3 -> 0 < d4 ->
  1000 * n1 <= 1001 * (a * d1) -> 10 ^ 5 * n2 <= 1001 * d2 ->
  1000 * (n3 * (d1 * d2)) <= 1001 * (n1 * n2 * d3) ->
  1000 * (n4 * (d3 * 2)) <= 1001 * ((n3 * 2 + 1 * d3) * d4) ->
  fee * d4 <= n4 -> 2 * fee <= a.
Proof.
  intros Ha H1 Hd1 H2 Hd2 H3 Hd3 Hd4 L1 L2 L3 L4 Lf.
  assert (L12 : (1000 * n1) * (10 ^ 5 * n2) <= (1001 * (a * d1)) * (1001 * d2)).
  { apply Z.mul_le_mono_nonneg; lia. }
  assert (L3' : 10 ^ 11 * n3 <= 1001 ^ 3 * (a * d3)).
  { apply (Zmult_le_reg_r _ _ (d1 * d2)); [nia|]. nia. }
  assert (L4' : 2 * 10 ^ 14 * n4 <= 1001 * (2 * 1001 ^ 3 * a + 10 ^ 11) * d4).
  { apply (Zmult_le_reg_r _ _ d3); [lia|]. nia. }
  assert (2 * 10 ^ 14 * fee <= 1001 * (2 * 1001 ^ 3 * a + 10 ^ 11)).
  { apply (Zmult_le_reg_r _ _ d4); [lia|]. nia. }
  lia.
Qed.

(** A fee at a rate of at most one percent is at most half of the amount. *)
Lemma CalculateAmountForRate_half amount rate : 0 <= rate <= 1000 ->
  exists fee, CalculateAmountForRate amount rate = Ok fee /\ 2 * SetBytes fee <= SetBytes amount.
Proof.
  intros Hr; unfold CalculateAmountForRate; destruct (Z.ltb_spec 0 rate).
  2:{ exists []; split; [done|]; pose proof (SetBytes_nonneg amount); by simpl. }
  destruct (rate_text rate ltac:(lia)) as (s & -> & Hs); simpl; rewrite Hs; simpl.
  eexists; split; [done|]; rewrite SetBytes_Bytes_abs.
  unfold RoundAmount, f_Add, f_Mul, f_SetInt.
  pose proof (SetBytes_nonneg amount) as Ha; set (a := SetBytes amount) in *.
  rewrite !(f_round_pos _ a), !(f_round_pos _ rate) by lia.
  destruct (round_slack bigFloatPrec a 1 Ha ltac:(lia) ltac:(done)) as [P1 L1].
  destruct (round_slack bigFloatPrec rate (10 ^ 5) ltac:(lia) ltac:(lia) ltac:(done)) as [P2 L2].
  set (f1 := round_pos bigFloatPrec a 1) in *; set (f2 := round_pos bigFloatPrec rate (10 ^ 5)) in *.
  pose proof (f_den_pos f1); pose proof (f_den_pos f2).
  rewrite (f_round_pos _ (f_num f1 * f_num f2)) by nia.
  destruct (round_slack bigFloatPrec (f_num f1 * f_num f2) (f_den f1 * f_den f2)) as [P3 L3]; [nia|nia|done|].
  set (f3 := round_pos bigFloatPrec (f_num f1 * f_num f2) (f_den f1 * f_den f2)) in *.
  pose proof (f_den_pos f3); change (f_den f_half) with 2; change (f_num f_half) with 1.
  rewrite f_round_pos by nia.
  destruct (round_slack bigFloatPrec (f_num f3 * 2 + 1 * f_den f3) (f_den f3 * 2)) as [P4 L4]; [nia|nia|done|].
  set (f4 := round_pos bigFloatPrec _ (f_den f3 * 2)) in *; pose proof (f_den_pos f4).
  unfold f_Int; rewrite Z.quot_div_nonneg, Z.abs_eq by (try apply Z.div_pos; lia).
  eapply (fee_arith a (f_num f1) (f_den f1) (f_num f2) (f_den f2) (f_num f3) (f_den f3) (f_num f4) (f_den f4));
    try done; try lia; [nia|].
  pose proof (Z.mul_div_le (f_num f4) (f_den f4)); lia.
Qed.

(** ** Decimal text *)

Lemma dec_val_app a b : dec_val (a ++ b) = dec_val a * 10 ^ Z.of_nat (length b) + dec_val b.
Proof.
  unfold dec_val; induction b as [|c b IH] using rev_ind; simpl.
  - rewrite app_nil_r; lia.
  - rewrite app_assoc, (fold_left_app _ (a ++ b)), (fold_left_app _ b); simpl; rewrite IH, length_app; simpl.
    replace (Z.of_nat (length b + 1)) with (Z.succ (Z.of_nat (length b))) by lia.
    rewrite Z.pow_succ_r by lia; lia.
Qed.

Lemma digit_spec d : 0 <= d < 10 -> is_digit (digit d) = true /\ digit_val (digit d) = d.
Proof.
  intros Hd; unfold is_digit, digit_val, digit; rewrite byte_Z_byte, Z.mod_small by lia; lia.
Qed.

Lemma digits_range s : forallb is_digit s = true -> 0 <= dec_val s < 10 ^ Z.of_nat (length s).
Proof.
  induction s as [|c s IH] using rev_ind; [done|]; rewrite forallb_app, dec_val_app, length_app; simpl.
  rewrite andb_true_r; intros [Hs Hc]%andb_true_iff; specialize (IH Hs); unfold dec_val at 2 4; simpl.
  unfold is_digit in Hc; replace (Z.of_nat (length s + 1)) with (Z.succ (Z.of_nat (length s))) by lia.
  rewrite Z.pow_succ_r by lia; unfold digit_val; lia.
Qed.

Lemma format_spec fuel n acc : 0 <= n < 10 ^ Z.of_nat fuel -> (0 < fuel)%nat ->
  exists ds, format_digits fuel n acc = ds ++ acc /\ forallb is_digit ds = true /\ dec_val ds = n /\
    ds <> [] /\ forall k, (1 <= k)%nat -> n < 10 ^ Z.of_nat k -> (length ds <= k)%nat.
Proof.
  revert n acc; induction fuel as [|fuel IH]; intros n acc Hn Hf; [lia|]; cbn [format_digits].
  destruct (Z.ltb_spec n 10) as [Hs|Hs].
  - exists [digit n]; destruct (digit_spec n ltac:(lia)) as [H1 H2]; split_and!; try done.
    simpl; by rewrite H1.
  - rewrite Nat2Z.inj_succ, Z.pow_succ_r in Hn by lia.
    destruct (digit_spec (n mod 10)) as [H1 H2]; [apply Z.mod_pos_bound; lia|].
    assert (fuel <> 0%nat) by (intros ->; simpl in Hn; lia).
    destruct (IH (n / 10) (digit (n mod 10) :: acc)) as (ds & -> & Hd & Hv & Hne & Hk); [|lia|].
    { split; [apply Z.div_pos; lia|apply Z.div_lt_upper_bound; lia]. }
    exists (ds ++ [digit (n mod 10)]); rewrite <- app_assoc; split_and!; [done| | |by destruct ds|].
    + rewrite forallb_app, Hd; simpl; by rewrite H1.
    + rewrite dec_val_app, Hv; unfold dec_val; simpl; rewrite H2; pose proof (Z.div_mod n 10); lia.
    + intros [|[|k]] Hk1 Hk2; [lia|simpl in Hk2; lia|]; rewrite length_app; simpl.
      enough (length ds <= S k)%nat by lia; apply Hk; [lia|].
      apply Z.div_lt_upper_bound; [lia|]; rewrite Nat2Z.inj_succ, Z.pow_succ_r in Hk2 by lia; lia.
Qed.

Lemma FormatUint_spec n : 0 <= n <= MaxUint64 ->
  forallb is_digit (FormatUint n) = true /\ dec_val (FormatUint n) = n /\ FormatUint n <> [] /\
  forall k, (1 <= k)%nat -> n < 10 ^ Z.of_nat k -> (length (FormatUint n) <= k)%nat.
Proof.
  intros Hn; destruct (format_spec 20 n []) as (ds & E & H); [unfold MaxUint64 in Hn; lia|lia|].
  unfold FormatUint; by rewrite E, app_nil_r.
Qed.

Lemma parse_digits_spec n s : forallb is_digit s = true -> 0 <= n ->
  n * 10 ^ Z.of_nat (length s) + dec_val s <= MaxUint64 ->
  parse_digits n s = n * 10 ^ Z.of_nat (length s) + dec_val s.
Proof.
  revert n; induction s as [|c s IH]; intros n Hs Hn Hle; [unfold dec_val; simpl; lia|].
  cbn [forallb] in Hs; apply andb_true_iff in Hs as [Hc Hs]; cbn [parse_digits]; rewrite Hc; cbn [negb].
  assert (E : n * 10 ^ Z.of_nat (length (c :: s)) + dec_val (c :: s) =
              (n * 10 + digit_val c) * 10 ^ Z.of_nat (length s) + dec_val s).
  { change (c :: s) with ([c] ++ s); rewrite dec_val_app, length_app; unfold dec_val at 1; simpl.
    rewrite Nat2Z.inj_succ, Z.pow_succ_r by lia; lia. }
  rewrite E in Hle |- *; pose proof (digits_range s Hs).
  assert (0 <= digit_val c) by (unfold is_digit, digit_val in *; lia).
  assert (0 < 10 ^ Z.of_nat (length s)) by (apply Z.pow_pos_nonneg; lia).
  assert (n * 10 + digit_val c <= MaxUint64) by nia.
  replace (MaxUint64 / 10 + 1 <=? n) with false
    by (symmetry; apply Z.leb_gt; change (MaxUint64 / 10 + 1) with 1844674407370955162; unfold MaxUint64 in *; lia).
  replace (MaxUint64 <? n * 10 + digit_val c) with false by lia; apply IH; [done|lia|done].
Qed.

Lemma ParseUint_digits s : forallb is_digit s = true -> dec_val s <= MaxUint64 -> ParseUint s = dec_val s.
Proof.
  intros Hs Hv; destruct s as [|c s]; [done|]; unfold ParseUint; rewrite parse_digits_spec; [lia|done|lia|lia].
Qed.

Lemma split_dot_digits s : forallb is_digit s = true -> split_dot s = [s].
Proof.
  induction s as [|c s IH]; [done|]; cbn [forallb split_dot]; intros [Hc Hs]%andb_true_iff.
  rewrite bool_decide_eq_false_2 by (intros ->; done); by rewrite IH.
Qed.

Lemma split_dot_app i s : forallb is_digit i = true -> split_dot (i ++ char_dot :: s) = i :: split_dot s.
Proof.
  induction i as [|c i IH]; [done|]; cbn [forallb app split_dot]; intros [Hc Hi]%andb_true_iff.
  rewrite bool_decide_eq_false_2 by (intros ->; done); by rewrite IH.
Qed.

Lemma dec_val_zeros n : dec_val (replicate n char_0) = 0.
Proof. induction n as [|n IH]; [done|]; rewrite replicate_S_end, dec_val_app, IH; done. Qed.

Lemma digits_zeros n : forallb is_digit (replicate n char_0) = true.
Proof. by induction n. Qed.

(** Zeros cut off at the right are put back. *)
Lemma pad_trim rs n : Z.of_nat (length rs) = n -> right_pad n (rev (trim_zeros rs)) = rev rs.
Proof.
  unfold right_pad, len; rewrite length_rev; revert n; induction rs as [|c rs IH]; intros n Hn; simpl in *.
  { by subst. }
  case_bool_decide as Hc.
  - rewrite <- (IH (n - 1)), <- app_assoc by lia; f_equal; subst c.
    assert (length (trim_zeros rs) <= length rs)%nat.
    { clear; induction rs as [|c rs IH]; simpl; [done|]; case_bool_decide; simpl; lia. }
    replace (Z.to_nat (n - Z.of_nat (length (trim_zeros rs))))
      with (S (Z.to_nat (n - 1 - Z.of_nat (length (trim_zeros rs))))) by lia.
    by rewrite replicate_S_end.
  - cbn [length]; replace (Z.to_nat (n - Z.of_nat (S (length rs)))) with 0%nat by lia; by rewrite app_nil_r.
Qed.

Lemma trim_digits rs : forallb is_digit rs = true -> forallb is_digit (rev (trim_zeros rs)) = true.
Proof.
  intros H; rewrite forallb_forall in *; intros c Hc; apply H; rewrite <- in_rev in Hc.
  clear H; induction rs as [|c' rs IH]; simpl in *; [done|]; case_bool_decide; simpl in *; auto.
Qed.

(** ** Prices as bytes *)

Lemma low_bytes n m v : drop n (be_bytes (n + m) v) = be_bytes m v.
Proof. rewrite be_bytes_add, drop_app_length'; [done|by rewrite length_be_bytes]. Qed.

Definition price_val (b : bytes) : Z := SetBytes (take 5 b) * 10 ^ 12 + SetBytes (drop 5 b).

(** Ten bytes whose decimals have at most twelve digits. *)
Definition price_ok (b : bytes) : Prop := length b = 10%nat /\ SetBytes (drop 5 b) < 10 ^ 12.

(** The value of a price in text, scaled by 10^12. *)
Definition text_val (s : bytes) : Z :=
  match split_dot s with
  | [i] => dec_val i * 10 ^ 12
  | [i; d] => dec_val i * 10 ^ 12 + dec_val d * 10 ^ (12 - len d)
  | _ => 0
  end.

Lemma price_leb a b : price_ok a -> price_ok b -> bytes_leb a b = (price_val a <=? price_val b).
Proof.
  intros [La Da] [Lb Db]; rewrite bytes_leb_SetBytes by congruence; unfold price_val.
  rewrite <- (take_drop 5 a) at 1; rewrite <- (take_drop 5 b) at 1; rewrite !SetBytes_app, !length_drop, La, Lb.
  pose proof (SetBytes_range (drop 5 a)) as Ra; pose proof (SetBytes_range (drop 5 b)) as Rb.
  rewrite length_drop, La in Ra; rewrite length_drop, Lb in Rb.
  change (256 ^ Z.of_nat (10 - 5)) with 1099511627776 in *; change (10 ^ 12) with 1000000000000 in *; lia.
Qed.

Lemma price_bytes_val i d : 0 <= i < 10 ^ 12 -> 0 <= d < 10 ^ 12 ->
  price_ok (be_bytes 5 i ++ be_bytes 5 d) /\ price_val (be_bytes 5 i ++ be_bytes 5 d) = i * 10 ^ 12 + d.
Proof.
  intros Hi Hd; unfold price_ok, price_val.
  rewrite take_app_length', drop_app_length' by (by rewrite length_be_bytes).
  rewrite length_app, !length_be_bytes, !SetBytes_be_bytes, !Z.mod_small by (simpl; lia).
  split; [split; [done|lia]|done].
Qed.

(** The two parts of a valid price. *)
Lemma ValidPrice_parts s : ValidPrice s true = true ->
  exists i d, forallb is_digit (i ++ d) = true /\ (split_dot s = [i] /\ d = [] \/ split_dot s = [i; d]) /\
    len i <= 12 /\ len d <= 12 /\ 0 < dec_val i + dec_val d.
Proof.
  unfold ValidPrice; destruct (len s =? 0); [done|].
  destruct (checkPriceChar s) eqn:Hc; [|done]; cbn [negb].
  assert (Hparts : forall s, checkPriceChar s = true -> Forall (fun p => forallb is_digit p = true) (split_dot s) /\
    match index_dot s with
    | None => split_dot s = [s]
    | Some idx => exists i d ps, split_dot s = i :: d :: ps /\ len i = idx /\
                    (ps = [] -> len s = idx + 1 + len d)
    end).
  { clear; induction s as [|c s IH]; [intros _; simpl; by repeat constructor|].
    unfold checkPriceChar; cbn [forallb]; intros [Hc Hs]%andb_true_iff; destruct (IH Hs) as [Hf Hi].
    cbn [split_dot index_dot]; case_bool_decide as Hd.
    - split; [by constructor|]; destruct (split_dot s) as [|d ps] eqn:E.
      + by destruct (index_dot s) as [?|]; [destruct Hi as (? & ? & ? & ? & _)|].
      + exists [], d, ps; split_and!; [done..|]; intros ->; unfold len; cbn [length].
        destruct (index_dot s) as [idx|]; [by destruct Hi as (? & ? & ? & ? & _)|simplify_eq; lia].
    - simpl in Hc; destruct (split_dot s) as [|p ps] eqn:E.
      { by destruct (index_dot s) as [?|]; [destruct Hi as (? & ? & ? & ? & _)|]. }
      apply Forall_cons_1 in Hf as [Hp Hf]; split; [constructor; [|done]; simpl; by rewrite Hc|].
      destruct (index_dot s) as [idx|]; simpl.
      + destruct Hi as (i & d & ps' & E' & Hl & Hlen); simplify_eq.
        exists (c :: i), d, ps'; split_and!; [done|unfold len in *; simpl; lia|].
        intros Hps; specialize (Hlen Hps); unfold len in *; simpl; lia.
      + by simplify_eq. }
  destruct (Hparts s Hc) as [Hf Hi]; unfold ParseFloat_positive; destruct (index_dot s) as [idx|].
  - destruct Hi as (i & d & [|? ?] & E & Hl & Hlen); rewrite E in Hf |- *; [|done]; specialize (Hlen eq_refl).
    apply Forall_cons_1 in Hf as [Hdi [Hdd _]%Forall_cons_1].
    pose proof (digits_range i Hdi); pose proof (digits_range d Hdd).
    intros Hv; exists i, d; rewrite forallb_app, Hdi, Hdd; split; [done|]; split; [by right|].
    unfold priceIntMaxLen, priceDecimalMaxLen in Hv; repeat (case_match; simplify_eq); lia.
  - rewrite Hi in Hf |- *; apply Forall_cons_1 in Hf as [Hd _]; pose proof (digits_range s Hd).
    intros Hv; exists s, []; rewrite app_nil_r; split; [done|]; split; [by left|].
    unfold priceIntMaxLen in Hv; unfold dec_val at 2; unfold len at 2; simpl.
    repeat (case_match; simplify_eq); lia.
Qed.

Lemma dec_val_right_pad d : len d <= 12 -> dec_val (right_pad 12 d) = dec_val d * 10 ^ (12 - len d).
Proof.
  intros Hd; unfold right_pad; rewrite dec_val_app, dec_val_zeros, length_replicate, Z2Nat.id by lia; lia.
Qed.

Lemma small_digits s : forallb is_digit s = true -> len s <= 12 -> 0 <= dec_val s < 10 ^ 12.
Proof.
  intros Hs Hl; pose proof (digits_range s Hs) as [? H]; split; [done|].
  eapply Z.lt_le_trans; [exact H|]; apply Z.pow_le_mono_r; unfold len in Hl; lia.
Qed.

Lemma PriceToBytes_parts s i d :
  forallb is_digit (i ++ d) = true -> (split_dot s = [i] /\ d = [] \/ split_dot s = [i; d]) ->
  dec_val i <= MaxUint64 -> len d <= 12 ->
  PriceToBytes s = be_bytes 5 (dec_val i) ++ be_bytes 5 (dec_val d * 10 ^ (12 - len d)).
Proof.
  rewrite forallb_app; intros [Hi Hd]%andb_true_iff Hs Li Ld; unfold PriceToBytes.
  pose proof (small_digits d Hd Ld).
  assert (E : match split_dot s with [i; d] => (i, d) | i :: _ => (i, []) | [] => ([], []) end = (i, d)).
  { by destruct Hs as [[-> ->]| ->]. }
  rewrite E; f_equal.
  - destruct (Z.ltb_spec 0 (len i)) as [|Hl]; [|by destruct i; unfold len in Hl; simpl in Hl; [|lia]].
    by rewrite (low_bytes 3 5), ParseUint_digits.
  - destruct (Z.ltb_spec 0 (len d)) as [|Hl]; [|by destruct d; unfold len in Hl; simpl in Hl; [|lia]].
    replace (if len d <? priceDecimalMaxLen then right_pad priceDecimalMaxLen d else d) with (right_pad 12 d).
    + assert (Hp : forallb is_digit (right_pad 12 d) = true) by (unfold right_pad; by rewrite forallb_app, Hd, digits_zeros).
      assert (Hl : len (right_pad 12 d) <= 12).
      { unfold right_pad, len in *; rewrite length_app, length_replicate; lia. }
      pose proof (small_digits _ Hp Hl).
      rewrite (low_bytes 3 5), ParseUint_digits, dec_val_right_pad by (unfold MaxUint64; lia || done); done.
    + unfold priceDecimalMaxLen; destruct (Z.ltb_spec (len d) 12); [done|].
      unfold right_pad; replace (Z.to_nat (12 - len d)) with 0%nat by lia; by rewrite app_nil_r.
Qed.

Lemma scaled_decimals d : forallb is_digit d = true -> len d <= 12 -> 0 <= dec_val d * 10 ^ (12 - len d) < 10 ^ 12.
Proof.
  intros Hd Hl; rewrite <- dec_val_right_pad by done; apply small_digits.
  - unfold right_pad; by rewrite forallb_app, Hd, digits_zeros.
  - unfold right_pad, len in *; rewrite length_app, length_replicate; lia.
Qed.

Lemma PriceToBytes_val s : ValidPrice s true = true ->
  price_ok (PriceToBytes s) /\ price_val (PriceToBytes s) = text_val s /\ 0 < text_val s.
Proof.
  intros (i & d & Hd & Hs & Li & Ld & Hpos)%ValidPrice_parts.
  pose proof Hd as Hid; rewrite forallb_app in Hid; apply andb_true_iff in Hid as [Hi Hd'].
  pose proof (small_digits i Hi Li); pose proof (scaled_decimals d Hd' Ld).
  rewrite (PriceToBytes_parts s i d) by (unfold MaxUint64; lia || done).
  pose proof (small_digits d Hd' Ld); assert (0 < 10 ^ (12 - len d)) by (apply Z.pow_pos_nonneg; lia).
  destruct (price_bytes_val (dec_val i) (dec_val d * 10 ^ (12 - len d))) as [Hok Hv]; [done..|].
  assert (E : text_val s = dec_val i * 10 ^ 12 + dec_val d * 10 ^ (12 - len d)).
  { unfold text_val; destruct Hs as [[-> ->]| ->]; [|done]; change (dec_val []) with 0; lia. }
  rewrite E; split; [done|]; split; [done|]; nia.
Qed.

(** Before the fork the length of a price without a decimal point is not
    checked. *)
Definition length_checked (s : bytes) (isFork : bool) : Prop :=
  isFork = true \/ index_dot s <> None \/ len s <= priceIntMaxLen.

Lemma ValidPrice_checked s isFork : length_checked s isFork -> ValidPrice s isFork = true -> ValidPrice s true = true.
Proof.
  unfold length_checked, ValidPrice; destruct isFork; [done|]; intros Hl.
  destruct (len s =? 0), (checkPriceChar s); try done; destruct (ParseFloat_positive s) as [[]|]; try done.
  destruct (index_dot s); [done|]; destruct (Z.ltb_spec priceIntMaxLen (len s)); [|done].
  destruct Hl as [?|[?|?]]; [done..|lia].
Qed.

(** C38 A price accepted for an order is stored without loss, and comparing the
    stored bytes compares the numbers: no two different prices share their
    bytes and the byte order is the numeric order.  This holds for every
    accepted price from the fork on, and before it for prices with a decimal
    point or of at most twelve digits; other prices of that time are accepted
    and may lose their value: 1099511627776 is stored as 0. *)
Theorem price_bytes_ordered s1 s2 f1 f2 :
  ValidPrice s1 f1 = true -> ValidPrice s2 f2 = true -> length_checked s1 f1 -> length_checked s2 f2 ->
  price_val (PriceToBytes s1) = text_val s1 /\
  bytes_leb (PriceToBytes s1) (PriceToBytes s2) = (text_val s1 <=? text_val s2) /\
  (PriceToBytes s1 = PriceToBytes s2 <-> text_val s1 = text_val s2) /\
  (let s := [x31; x30; x39; x39; x35; x31; x31; x36; x32; x37; x37; x37; x36] in
   ValidPrice s false = true /\ 0 < text_val s /\ price_val (PriceToBytes s) = 0).
Proof.
  intros A1 A2 L1 L2.
  apply ValidPrice_checked, PriceToBytes_val in A1 as (H1 & V1 & _); [|done].
  apply ValidPrice_checked, PriceToBytes_val in A2 as (H2 & V2 & _); [|done]; split; [done|].
  rewrite price_leb by done; rewrite V1, V2; split; [done|]; split; [|vm_compute; done]; split; [congruence|].
  intros E; apply bytes_leb_antisym; rewrite price_leb by done; rewrite V1, V2; lia.
Qed.

(** 1.5 and 10.25 *)
Lemma price_bytes_ordered_witness :
  bytes_leb (PriceToBytes [x31; x2e; x35]) (PriceToBytes [x31; x30; x2e; x32; x35]) = true.
Proof.
  destruct (price_bytes_ordered [x31; x2e; x35] [x31; x30; x2e; x32; x35] true false) as (_ & -> & _);
    [vm_compute; reflexivity..|left; reflexivity|right; left; discriminate|vm_compute; reflexivity].
Defined.

Lemma BytesToPrice_text b : price_ok b -> exists s i d, BytesToPrice b = Ok s /\
  forallb is_digit (i ++ d) = true /\ (split_dot s = [i] /\ d = [] \/ split_dot s = [i; d]) /\
  i <> [] /\ dec_val i = SetBytes (take 5 b) /\ len d <= 12 /\ dec_val d * 10 ^ (12 - len d) = SetBytes (drop 5 b).
Proof.
  intros [Hl Hd]; unfold BytesToPrice.
  pose proof (SetBytes_range (take 5 b)) as Ri; rewrite length_take, Hl in Ri; change (256 ^ _) with (2 ^ 40) in Ri.
  pose proof (SetBytes_nonneg (drop 5 b)) as Rd.
  set (iv := SetBytes (take 5 b)) in *; set (dv := SetBytes (drop 5 b)) in *.
  set (istr := if iv =? 0 then [char_0] else FormatUint iv).
  assert (Hi : forallb is_digit istr = true /\ dec_val istr = iv /\ istr <> []).
  { unfold istr; destruct (Z.eqb_spec iv 0) as [->|]; [done|].
    destruct (FormatUint_spec iv) as (? & ? & ? & _); [unfold MaxUint64; lia|done]. }
  destruct Hi as (Hi1 & Hi2 & Hi3); destruct (Z.eqb_spec dv 0) as [E0|E0].
  { exists istr, istr, []; rewrite app_nil_r, (split_dot_digits istr), E0 by done; split_and!; try done; by left. }
  destruct (FormatUint_spec dv) as (D1 & D2 & D3 & D4); [unfold MaxUint64; lia|].
  specialize (D4 12%nat ltac:(lia) Hd); replace (priceDecimalMaxLen <? len (FormatUint dv)) with false
    by (unfold priceDecimalMaxLen, len; lia).
  set (arr := left_pad priceDecimalMaxLen (FormatUint dv)).
  assert (Harr : forallb is_digit arr = true) by (unfold arr, left_pad; by rewrite forallb_app, D1, digits_zeros).
  assert (Hlen : length (rev arr) = 12%nat).
  { rewrite length_rev; unfold arr, left_pad; rewrite length_app, length_replicate; unfold len, priceDecimalMaxLen; lia. }
  assert (Hrev : forallb is_digit (rev arr) = true).
  { rewrite forallb_forall in Harr |- *; intros c Hc; apply Harr; by rewrite in_rev. }
  set (d := rev (trim_zeros (rev arr))).
  assert (Hpad : right_pad 12 d = arr) by (unfold d; rewrite pad_trim by lia; apply rev_involutive).
  assert (Ld : len d <= 12).
  { rewrite length_rev in Hlen; rewrite <- Hpad in Hlen; unfold right_pad in Hlen.
    rewrite length_app in Hlen; unfold len; lia. }
  exists (istr ++ [char_dot] ++ d), istr, d; rewrite forallb_app, Hi1; simpl app; rewrite split_dot_app by done.
  assert (Hdd : forallb is_digit d = true) by (by apply trim_digits).
  split_and!; try done; [right; by rewrite split_dot_digits|].
  rewrite <- dec_val_right_pad, Hpad by done; unfold arr, left_pad; by rewrite dec_val_app, dec_val_zeros, D2.
Qed.

(** The text of a stored price reads back as the same bytes. *)
Theorem price_roundtrip b :
  price_ok b -> exists s, BytesToPrice b = Ok s /\ PriceToBytes s = b.
Proof.
  intros Hok; destruct (BytesToPrice_text b Hok) as (s & i & d & Hs & Hdig & Hsp & Hne & Vi & Ld & Vd).
  exists s; split; [done|]; destruct Hok as [Hl _].
  pose proof (SetBytes_range (take 5 b)) as Ri; rewrite length_take, Hl in Ri; change (256 ^ _) with (2 ^ 40) in Ri.
  rewrite (PriceToBytes_parts s i d), Vi, Vd by (rewrite ?Vi; unfold MaxUint64; lia || done).
  rewrite <- (take_drop 5 b) at 3; f_equal.
  - pose proof (be_bytes_SetBytes (take 5 b)) as E; by rewrite length_take, Hl in E.
  - pose proof (be_bytes_SetBytes (drop 5 b)) as E; by rewrite length_drop, Hl in E.
Qed.

Lemma price_roundtrip_witness :
  exists s, BytesToPrice (be_bytes 5 7 ++ be_bytes 5 250000000000) = Ok s /\
    PriceToBytes s = be_bytes 5 7 ++ be_bytes 5 250000000000.
Proof. apply price_roundtrip; split; vm_compute; reflexivity. Defined.
