(* ===== verification/DexExchangeWorld.v ===== *)
(** A small concrete exchange: a serialization of every message, a market, two
    users with deposits, and storages that databases can be opened on. *)
From S2P Require Import Prelude Helper Float TimeIndex Types Upgrade VmDb Iterator World IteratorSpec.
From S2P Require Import DexNumber DexNumberSpec DexOrder DexMatcher DexFund DexSettle DexPlace DexContracts DexExchange DexWorld.
From stdpp Require Import sorting.
From Stdlib Require Import ZifyBool.
#[local] Open Scope Z_scope.

(** ** Serialization *)

(** Bytes as one number, with a leading one. *)
Definition num (bs : bytes) : Z := SetBytes (x01 :: bs).
Definition unnum (z : Z) : bytes := be_bytes (Z.to_nat (Z.log2 z / 8)) z.

Lemma unnum_num bs : unnum (num bs) = bs.
Proof.
  unfold unnum, num; pose proof (be_bytes_SetBytes (x01 :: bs)) as H.
  change (x01 :: bs) with ([x01] ++ bs) at 1; rewrite SetBytes_app; change (SetBytes [x01]) with 1.
  pose proof (SetBytes_range bs) as Hr; rewrite Z.mul_1_l; change 256 with (2 ^ 8) in *; rewrite <- Z.pow_mul_r in * by lia.
  assert (El : Z.log2 (2 ^ (8 * Z.of_nat (length bs)) + SetBytes bs) = 8 * Z.of_nat (length bs)).
  { apply Z.log2_unique; [lia|]; rewrite Z.pow_succ_r by lia; lia. }
  rewrite El, Z.mul_comm, Z.div_mul, Nat2Z.id by lia.
  apply (f_equal (drop 1)) in H; cbn [length] in H; by rewrite (low_bytes 1 (length bs)) in H.
Qed.

Definition codec_of {A B} `{Countable B} (to : A -> B) (from : B -> A) : codec A :=
  mkCodec (fun a => Bytes (Z.pos (encode (to a)))) (fun bs => from <$> decode (Z.to_pos (SetBytes bs))).

Lemma codec_of_roundtrip {A B} `{Countable B} (to : A -> B) (from : B -> A) a :
  (forall a, from (to a) = a) -> unmarshal (codec_of to from) (marshal (codec_of to from) a) = Some a.
Proof. intros Hr; simpl; rewrite SetBytes_Bytes by done; simpl; rewrite decode_encode; simpl; by rewrite Hr. Qed.

Lemma codec_of_not_empty {A B} `{Countable B} (to : A -> B) (from : B -> A) a : marshal (codec_of to from) a <> [].
Proof. simpl; intros E; by apply Bytes_nil in E. Qed.

Definition account_nums (a : Account) : list Z :=
  num <$> [ac_Token a; ac_Available a; ac_Locked a; ac_VxLocked a; ac_VxUnlocking a; ac_CancellingStake a].
Definition nums_account (l : list Z) : Account :=
  match unnum <$> l with [t; a; lo; vl; vu; c] => mkAccount t a lo vl vu c | _ => mkAccount [] [] [] [] [] [] end.

Definition fund_nums (f : Fund) : list (list Z) := [num (fu_Address f)] :: (account_nums <$> fu_Accounts f).
Definition nums_fund (l : list (list Z)) : Fund :=
  match l with [a] :: accounts => mkFund (unnum a) (nums_account <$> accounts) | _ => mkFund [] [] end.

Definition token_nums (t : TokenInfo) : list Z :=
  [num (tk_TokenId t); tk_Decimals t; num (tk_Symbol t); tk_Index t; num (tk_Owner t); tk_QuoteTokenType t].
Definition nums_token (l : list Z) : TokenInfo :=
  match l with
  | [id; d; sy; i; o; q] => mkTokenInfo (unnum id) d (unnum sy) i (unnum o) q
  | _ => mkTokenInfo [] 0 [] 0 [] 0
  end.

Definition vx_nums (v : VxFundByPeriod) : Z * Z := (vf_Period v, num (vf_Amount v)).
Definition nums_vx (p : Z * Z) : VxFundByPeriod := mkVxFundByPeriod p.1 (unnum p.2).

Definition vip_nums (v : VIPStaking) : list Z := vs_Timestamp v :: vs_StakedTimes v :: (num <$> vs_StakingHashes v).
Definition nums_vip (l : list Z) : VIPStaking :=
  match l with t :: n :: hs => mkVIPStaking t n (unnum <$> hs) | _ => mkVIPStaking 0 0 [] end.

Definition fee_nums (f : FeeAccount) : list Z := [fa_QuoteTokenType f; num (fa_BaseAmount f); num (fa_InviteBonusAmount f)].
Definition nums_fee (l : list Z) : FeeAccount :=
  match l with [t; b; i] => mkFeeAccount t (unnum b) (unnum i) | _ => mkFeeAccount 0 [] [] end.

Definition userFees_nums (f : FeesByPeriod) : Z * list (list Z) := (fp_Period f, fee_nums <$> fp_Fees f).
Definition nums_userFees (p : Z * list (list Z)) : FeesByPeriod := mkFeesByPeriod (nums_fee <$> p.2) p.1.

Definition dividend_nums (f : FeeForDividend) : list Z :=
  [num (fd_Token f); num (fd_DividendPoolAmount f); if fd_NotRoll f then 1 else 0].
Definition nums_dividend (l : list Z) : FeeForDividend :=
  match l with [t; a; n] => mkFeeForDividend (unnum t) (unnum a) (n =? 1) | _ => mkFeeForDividend [] [] false end.

Definition dexFees_nums (f : DexFeesByPeriod) : list (list (list Z)) :=
  [dividend_nums <$> df_FeesForDividend f; fee_nums <$> df_FeesForMine f;
   [[df_LastValidPeriod f; if df_FinishDividend f then 1 else 0; if df_FinishMine f then 1 else 0]]].
Definition nums_dexFees (l : list (list (list Z))) : DexFeesByPeriod :=
  match l with
  | [d; m; [[p; fd; fm]]] => mkDexFees (nums_dividend <$> d) (nums_fee <$> m) p (fd =? 1) (fm =? 1)
  | _ => mkDexFees [] [] 0 false false
  end.

Definition marketFee_nums (f : OperatorMarketFee) : list Z :=
  [of_MarketId f; of_TakerOperatorFeeRate f; of_MakerOperatorFeeRate f; num (of_Amount f)].
Definition nums_marketFee (l : list Z) : OperatorMarketFee :=
  match l with [m; t; k; a] => mkOperatorMarketFee m t k (unnum a) | _ => mkOperatorMarketFee 0 0 0 [] end.

Definition operatorFees_nums (f : OperatorFeeAccount) : Z * list (list Z) := (num (oa_Token f), marketFee_nums <$> oa_MarketFees f).
Definition nums_operatorFees (p : Z * list (list Z)) : OperatorFeeAccount :=
  mkOperatorFeeAccount (unnum p.1) (nums_marketFee <$> p.2).

Definition settle_nums (s : AccountSettle) : list Z :=
  [if as_IsTradeToken s then 1 else 0; num (as_IncAvailable s); num (as_ReduceLocked s); num (as_ReleaseLocked s)].
Definition nums_settle (l : list Z) : AccountSettle :=
  match l with [t; i; r; x] => mkAccountSettle (t =? 1) (unnum i) (unnum r) (unnum x) | _ => mkAccountSettle false [] [] [] end.

Definition fundSettle_nums (f : FundSettle) : list (list Z) := [num (fs_Address f)] :: (settle_nums <$> fs_AccountSettles f).
Definition nums_fundSettle (l : list (list Z)) : FundSettle :=
  match l with [a] :: s => mkFundSettle (unnum a) (nums_settle <$> s) | _ => mkFundSettle [] [] end.

Definition feeSettle_nums (f : FeeSettle) : list Z := num <$> [fe_Address f; fe_BaseFee f; fe_OperatorFee f].
Definition nums_feeSettle (l : list Z) : FeeSettle :=
  match unnum <$> l with [a; b; o] => mkFeeSettle a b o | _ => mkFeeSettle [] [] [] end.

Definition actions_nums (s : SettleActions) : list (list (list Z)) :=
  [[num (sa_TradeToken s); num (sa_QuoteToken s)]] :: (feeSettle_nums <$> sa_FeeActions s) ::
  (fundSettle_nums <$> sa_FundActions s).
Definition nums_actions (l : list (list (list Z))) : SettleActions :=
  match l with
  | [[t; q]] :: fees :: funds => mkSettleActions (unnum t) (unnum q) (nums_fundSettle <$> funds) (nums_feeSettle <$> fees)
  | _ => mkSettleActions [] [] [] []
  end.

(** Field by field. *)
Lemma fmap_inverse {A B} (to : A -> B) (from : B -> A) (l : list A) : (forall a, from (to a) = a) -> from <$> (to <$> l) = l.
Proof. intros H; induction l as [|a l IH]; [done|]; by rewrite !fmap_cons, IH, H. Qed.

Lemma account_inverse a : nums_account (account_nums a) = a.
Proof. unfold nums_account, account_nums; rewrite fmap_inverse by apply unnum_num; by destruct a. Qed.

Lemma fund_inverse f : nums_fund (fund_nums f) = f.
Proof. unfold nums_fund, fund_nums; rewrite unnum_num, fmap_inverse by apply account_inverse; by destruct f. Qed.

Lemma settle_inverse s : nums_settle (settle_nums s) = s.
Proof. unfold nums_settle, settle_nums; rewrite !unnum_num; by destruct s as [[] ? ? ?]. Qed.

Lemma fundSettle_inverse f : nums_fundSettle (fundSettle_nums f) = f.
Proof. unfold nums_fundSettle, fundSettle_nums; rewrite unnum_num, fmap_inverse by apply settle_inverse; by destruct f. Qed.

Lemma feeSettle_inverse f : nums_feeSettle (feeSettle_nums f) = f.
Proof. unfold nums_feeSettle, feeSettle_nums; rewrite fmap_inverse by apply unnum_num; by destruct f. Qed.

Lemma actions_inverse s : nums_actions (actions_nums s) = s.
Proof.
  unfold nums_actions, actions_nums; rewrite !unnum_num, !fmap_inverse by (apply fundSettle_inverse || apply feeSettle_inverse).
  by destruct s.
Qed.

Definition example_fund : fundEnv :=
  mkFundEnv example_dex (codec_of fund_nums nums_fund) (codec_of token_nums nums_token)
    (codec_of (fmap vx_nums) (fmap nums_vx)) (codec_of vip_nums nums_vip)
    (codec_of (fmap userFees_nums) (fmap nums_userFees)) (codec_of dexFees_nums nums_dexFees)
    (codec_of (fmap operatorFees_nums) (fmap nums_operatorFees)) (codec_of actions_nums nums_actions)
    (fun _ => mkVmLog [] []) (mkTimeIndex (1500000000 * Second) (86400 * Second)).

(** ** Storages *)

Definition storage_chain (st : gmap bytes bytes) : Chain :=
  let ch := example_chain 0 in
  mkChain (ch_GetBalance ch) (ch_GetContractCode ch) (ch_GetContractMeta ch)
    (ch_GetConfirmSnapshotHeaderByAbHash ch) (ch_GetContractMetaInSnapshot ch)
    (ch_GetSnapshotHeaderByHash ch) (ch_GetAccountBlockByHash ch) (ch_GetUnconfirmedBlocks ch)
    (ch_GetStakeBeneficialAmount ch)
    (fun _ key => Ok (default [] (st !! key)))
    (ch_GetCallDepth ch)
    (ch_GetQuotaUsedList ch) (ch_GetGlobalQuota ch) (ch_GetConfirmedTimes ch) (ch_GetLatestAccountBlock ch)
    (fun _ prefix => Ok (filter (fun kv => prefix `prefix_of` kv.1) (storage_list st)))
    (ch_GetGenesisSnapshotBlock ch) (ch_GetSnapshotBlockByHeight ch).

Definition storage_db (st : gmap bytes bytes) : vmDb := NewVmDb (storage_chain st) ZERO_ADDRESS ZERO_HASH ZERO_HASH.

Definition storage_view (st : gmap bytes bytes) (k : bytes) : bytes := default [] (st !! k).

Lemma storage_opened st : (forall k v, st !! k = Some v -> v <> []) -> (size st < 50)%nat ->
  opened example_dex (storage_view st) (storage_db st).
Proof.
  intros Hne Hsize; assert (Hget : forall k, db_GetOriginalValue (storage_db st) k = Ok (storage_view st k)) by done.
  split; [done|done| |by intros h [= <-]].
  intros prefix; exists (filter (fun kv => prefix `prefix_of` kv.1) (storage_list st)); split; [split|].
  - done.
  - apply filter_sorted, storage_list_sorted.
  - intros k v; rewrite list_elem_of_filter, elem_of_storage_list, Hget; cbn [fst]; unfold storage_view.
    destruct (st !! k) as [w|] eqn:E; [|naive_solver]; simpl.
    split; [intros [Hp [= ->]]; split_and!; [done|done|by eapply Hne]|intros (Hp & Hv & _); apply Ok_inj in Hv; by subst].
  - eapply Nat.le_lt_trans; [apply length_filter|]; unfold storage_list.
    by rewrite merge_sort_Permutation, length_map_to_list.
Qed.

(** ** A market with two users *)

Definition deposit (a : Address) (trade : bool) (available locked : Z) : Fund :=
  mkFund a [mkAccount (example_token trade) (Bytes available) (Bytes locked) [] [] []].

Definition example_token_info (trade : bool) : TokenInfo := mkTokenInfo (example_token trade) 6 [] 0 [] (if trade then 0 else 4).

(** The seller has the trade token and has 1000000 of it locked in the resting
    order; the buyer has the quote token, 2000 of it locked. *)
Definition fund_storage : gmap bytes bytes :=
  <[GetMarketInfoKey (example_token true) (example_token false) := marshal_MarketInfo example_dex example_market]>
  (<[tokenInfoKeyPrefix ++ example_token true := marshal (token_codec example_fund) (example_token_info true)]>
  (<[tokenInfoKeyPrefix ++ example_token false := marshal (token_codec example_fund) (example_token_info false)]>
  (<[dexTimestampKey := Uint64ToBytes 1600000000]>
  (<[orderIdSerialNoKey := marshal_SerialNo example_dex (mkSerialNo 5 1600000000)]>
  (<[GetFundKey seller := marshal (fund_codec example_fund) (deposit seller true 10000000 1000000)]>
  (<[GetFundKey buyer := marshal (fund_codec example_fund) (deposit buyer false 5000000 2000)]> ∅)))))).

Definition trade_storage : gmap bytes bytes :=
  <[od_Id example_maker := maker_data]> {[GetMarketInfoKeyById 1 := marshal_MarketInfo example_dex example_market]}.

Lemma fund_storage_opened : opened example_dex (storage_view fund_storage) (storage_db fund_storage).
Proof.
  apply storage_opened; [|vm_compute; lia]; intros k v; unfold fund_storage; rewrite !lookup_insert_Some, lookup_empty.
  assert (Hm : marshal_MarketInfo example_dex example_market <> []) by apply pack_not_empty.
  assert (Ht : forall t, marshal (token_codec example_fund) (example_token_info t) <> []) by (intros t; apply codec_of_not_empty).
  assert (Hf : forall f, marshal (fund_codec example_fund) f <> []) by (intros f; apply codec_of_not_empty).
  intros [[_ <-]|[_ [[_ <-]|[_ [[_ <-]|[_ [[_ <-]|[_ [[_ <-]|[_ [[_ <-]|[_ [[_ <-]|[_ ?]]]]]]]]]]]]]];
    [apply Hm|apply Ht|apply Ht|done|apply pack_not_empty|apply Hf|apply Hf|done].
Qed.

Lemma trade_storage_opened : opened example_dex (storage_view trade_storage) (storage_db trade_storage).
Proof.
  apply storage_opened; [|vm_compute; lia]; intros k v; unfold trade_storage; rewrite lookup_insert_Some, lookup_singleton_Some.
  intros [[_ <-]|[_ [_ <-]]]; [apply maker_data_not_empty|apply pack_not_empty].
Qed.

Definition place (side : bool) (quantity : Z) : ParamPlaceOrder :=
  mkParamPlaceOrder (example_token true) (example_token false) side Limited [x30; x2e; x35] quantity.

Definition example_hash : Hash := x21 :: zero_bytes 31.

(** ** From two orders to a settled trade *)

Definition first_data (l : list bytes) : bytes := default [] (head l).

(** What is available and what is locked. *)
Definition balances (db : vmDb) (a : Address) (trade : bool) : dexM (Z * Z) :=
  '(fund, _) ← GetFund example_fund db a;
  let acc := (GetAccountByToken fund (example_token trade)).1 in
  Ok (SetBytes (ac_Available acc), SetBytes (ac_Locked acc)).

(** A sell order of 8000000 at 0.5 joins the resting one of 1000000, and a buy
    order takes 4000000 from the two. *)
Definition example_cycle : dexM (list (Z * Z)) :=
  '(fund, calls) ← receiveFund example_fund (storage_db fund_storage) (MsgPlaceOrder seller (place true 8000000) example_hash);
  '(trade, _) ← TradePlaceOrder example_fund (storage_db trade_storage) (first_data (orders_of calls)) example_hash;
  '(fund, calls) ← receiveFund example_fund fund (MsgPlaceOrder buyer (place false 4000000) example_hash);
  '(trade, calls) ← TradePlaceOrder example_fund trade (first_data (orders_of calls)) example_hash;
  '(fund, _) ← FundSettleOrders example_fund fund (first_data (settles_of calls));
  sellerTrade ← balances fund seller true;
  sellerQuote ← balances fund seller false;
  buyerTrade ← balances fund buyer true;
  buyerQuote ← balances fund buyer false;
  Ok [sellerTrade; sellerQuote; buyerTrade; buyerQuote].

(** Both sides pay fees of 4000, the rest of the sell orders stays locked, and so
    do the 2000 that were locked before. *)
Example example_cycle_runs :
  example_cycle = Ok [(2000000, 5000000); (1996000, 0); (4000000, 0); (2996000, 2000)].
Proof. by vm_compute. Qed.
