(* ===== verification/DexBookSpec.v ===== *)
(** The order book: what an order id says, in which order the book is read, and
    matching against the stored book as matching against its sorted list. *)
From S2P Require Import Prelude Helper Float Types Upgrade VmDb Iterator IteratorSpec.
From S2P Require Import DexNumber DexNumberSpec DexOrder DexMatcher DexWorld.
From stdpp Require Import sorting.
From Stdlib Require Import ZifyBool.
#[local] Open Scope Z_scope.

(** ** Order ids *)

Lemma not_byte_invol b : Z_byte (255 - byte_Z (Z_byte (255 - byte_Z b))) = b.
Proof.
  apply byte_Z_inj; pose proof (byte_Z_range b); rewrite !byte_Z_byte, (Z.mod_small (255 - byte_Z b)) by lia.
  rewrite Z.mod_small; lia.
Qed.

Lemma BitwiseNotBytes_invol bs : BitwiseNotBytes (BitwiseNotBytes bs) = bs.
Proof.
  unfold BitwiseNotBytes; rewrite <- list_fmap_compose; rewrite <- (list_fmap_id bs) at 2.
  apply list_fmap_ext; intros; apply not_byte_invol.
Qed.

Lemma BitwiseNotBytes_cons x a : BitwiseNotBytes (x :: a) = Z_byte (255 - byte_Z x) :: BitwiseNotBytes a.
Proof. done. Qed.

Lemma length_BitwiseNotBytes bs : length (BitwiseNotBytes bs) = length bs.
Proof. apply length_fmap. Qed.

(** Inverting the bytes inverts the order. *)
Lemma BitwiseNotBytes_leb a b : length a = length b ->
  bytes_leb (BitwiseNotBytes a) (BitwiseNotBytes b) = bytes_leb b a.
Proof.
  revert b; induction a as [|x a IH]; intros [|y b] Hl; try discriminate Hl; [done|]; injection Hl as Hl.
  rewrite !BitwiseNotBytes_cons; cbn [bytes_leb].
  pose proof (byte_Z_range x); pose proof (byte_Z_range y); rewrite !byte_Z_byte, !Z.mod_small by lia.
  rewrite IH by done; destruct (Z.eqb_spec (byte_Z y) (byte_Z x)), (Z.eqb_spec (255 - byte_Z x) (255 - byte_Z y)); lia.
Qed.

Definition stored_price (side : bool) (price : bytes) : bytes := if side then price else BitwiseNotBytes price.

Lemma length_stored_price side price : length (stored_price side price) = length price.
Proof. destruct side; [done|apply length_BitwiseNotBytes]. Qed.

Lemma order_id_parts marketId side price timestamp serialNo :
  order_id marketId side price timestamp serialNo =
    be_bytes 3 (u32 marketId) ++ [if side then x01 else x00] ++ stored_price side price ++
    be_bytes 5 (u64 timestamp) ++ be_bytes 3 (u32 serialNo).
Proof.
  unfold order_id, Uint32ToBytes, Uint64ToBytes.
  by rewrite (low_bytes 1 3), (low_bytes 3 5), (low_bytes 1 3).
Qed.

Lemma DeCompose_order_id marketId side price timestamp serialNo :
  0 <= marketId < 2 ^ 24 -> 0 <= timestamp < 2 ^ 40 -> length price = 10%nat ->
  DeComposeOrderId (order_id marketId side price timestamp serialNo) = Ok (marketId, side, price, timestamp).
Proof.
  intros Hm Ht Hp; rewrite order_id_parts; unfold DeComposeOrderId.
  rewrite (u64_small timestamp) by (unfold is_u64; lia); replace (u32 marketId) with marketId by (unfold u32; rewrite Z.mod_small; lia).
  set (id := be_bytes 3 marketId ++ [_] ++ stored_price side price ++ _); assert (Hl : len id = OrderIdBytesLength).
  { unfold id, len; rewrite !length_app, !length_be_bytes, length_stored_price, Hp; done. }
  rewrite Hl; cbn [negb Z.eqb]; replace (OrderIdBytesLength =? OrderIdBytesLength) with true by done; cbn [negb].
  assert (E1 : take 3 id = be_bytes 3 marketId) by (apply take_app_length'; by rewrite length_be_bytes).
  assert (E2 : id !! 3%nat = Some (if side then x01 else x00)).
  { unfold id; rewrite lookup_app_r; rewrite length_be_bytes; [done|lia]. }
  assert (E3 : take 10 (drop 4 id) = stored_price side price).
  { unfold id; rewrite app_assoc, drop_app_length' by (by rewrite length_app, length_be_bytes).
    apply take_app_length'; by rewrite length_stored_price. }
  assert (E4 : take 5 (drop 14 id) = be_bytes 5 timestamp).
  { unfold id; rewrite !(app_assoc (be_bytes 3 marketId)), app_assoc, drop_app_length'.
    - apply take_app_length'; by rewrite length_be_bytes.
    - by rewrite !length_app, length_be_bytes, length_stored_price, Hp. }
  rewrite E1, E2, E3, E4; unfold BytesToUint32, BytesToUint64.
  replace (len (x00 :: be_bytes 3 marketId) <? 4) with false by done.
  replace (len ([x00; x00; x00] ++ be_bytes 5 timestamp) <? 8) with false
    by done.
  cbn [mbind outcome_bind or_panic]; rewrite !take_ge by (simpl; lia).
  rewrite SetBytes_cons, (SetBytes_app [x00; x00; x00]), !SetBytes_be_bytes, !Z.mod_small by (simpl; lia).
  replace (bool_decide ((if side then x01 else x00) = x01)) with side by (by destruct side).
  unfold i32; change (byte_Z x00) with 0; change (SetBytes [x00; x00; x00]) with 0.
  rewrite i64_small, !Z.mul_0_l, !Z.add_0_l, Z.mod_small, Z.add_simpl_r by lia.
  destruct side; [done|]; unfold stored_price; by rewrite BitwiseNotBytes_invol.
Qed.

(** An order id gives back the market, the side, the price and the time it
    was made from. *)
Theorem order_id_roundtrip marketId side price timestamp serialNo :
  0 <= marketId < 2 ^ 24 -> 0 <= timestamp < 2 ^ 40 -> length price = 10%nat ->
  DeComposeOrderId (order_id marketId side price timestamp serialNo) = Ok (marketId, side, price, timestamp).
Proof. apply DeCompose_order_id. Qed.

Lemma order_id_roundtrip_witness :
  DeComposeOrderId (order_id 7 false (be_bytes 10 5) 1600000000 3) = Ok (7, false, be_bytes 10 5, 1600000000).
Proof. apply order_id_roundtrip; [lia|lia|done]. Defined.

(** ** Priority *)

Lemma bytes_leb_parts a1 a2 b1 b2 : length a1 = length a2 ->
  bytes_leb (a1 ++ b1) (a2 ++ b2) = if bool_decide (a1 = a2) then bytes_leb b1 b2 else bytes_leb a1 a2.
Proof.
  revert a2; induction a1 as [|x a1 IH]; intros [|y a2] Hl; try discriminate Hl; [done|].
  injection Hl as Hl; simpl; destruct (Z.eqb_spec (byte_Z x) (byte_Z y)) as [E%byte_Z_inj|E].
  - subst; rewrite IH by done; case_bool_decide as H1; case_bool_decide as H2; naive_solver.
  - rewrite bool_decide_eq_false_2; [done|congruence].
Qed.

Lemma stored_price_leb side p1 p2 : length p1 = length p2 ->
  bytes_leb (stored_price side p1) (stored_price side p2) =
    if side then SetBytes p1 <=? SetBytes p2 else SetBytes p2 <=? SetBytes p1.
Proof.
  intros Hl; destruct side; simpl; [by apply bytes_leb_SetBytes|].
  rewrite BitwiseNotBytes_leb by done; by apply bytes_leb_SetBytes.
Qed.

Lemma be_bytes_eq n x y : 0 <= x < 256 ^ Z.of_nat n -> 0 <= y < 256 ^ Z.of_nat n ->
  be_bytes n x = be_bytes n y <-> x = y.
Proof.
  intros Hx Hy; split; [|by intros ->]; intros E; apply (f_equal SetBytes) in E.
  by rewrite !SetBytes_be_bytes, !Z.mod_small in E.
Qed.

(** C34 The ids of the orders on one side of a market are in the order in which
    they are to be served: the lower price first among sell orders and the
    higher price first among buy orders, then the earlier order, then the lower
    serial number. *)
Theorem order_ids_in_priority marketId side p1 t1 n1 p2 t2 n2 :
  length p1 = 10%nat -> length p2 = 10%nat -> 0 <= t1 < 2 ^ 40 -> 0 <= t2 < 2 ^ 40 ->
  0 <= n1 < 2 ^ 24 -> 0 <= n2 < 2 ^ 24 ->
  bytes_leb (order_id marketId side p1 t1 n1) (order_id marketId side p2 t2 n2) =
    if negb (SetBytes p1 =? SetBytes p2)
    then (if side then SetBytes p1 <? SetBytes p2 else SetBytes p2 <? SetBytes p1)
    else if negb (t1 =? t2) then t1 <? t2 else n1 <=? n2.
Proof.
  intros L1 L2 T1 T2 N1 N2; rewrite !order_id_parts, !app_assoc, <- !(app_assoc (_ ++ [_])), bytes_leb_app.
  rewrite !(u64_small) by (unfold is_u64; lia).
  replace (u32 n1) with n1 by (unfold u32; rewrite Z.mod_small; lia).
  replace (u32 n2) with n2 by (unfold u32; rewrite Z.mod_small; lia).
  rewrite <- !app_assoc, bytes_leb_parts by (rewrite !length_stored_price; congruence).
  rewrite stored_price_leb by congruence.
  assert (Hp : stored_price side p1 = stored_price side p2 <-> SetBytes p1 = SetBytes p2).
  { split; [|intros E; f_equal; rewrite <- (be_bytes_SetBytes p1), <- (be_bytes_SetBytes p2); congruence].
    intros E; destruct side; simpl in E; [congruence|].
    apply (f_equal BitwiseNotBytes) in E; rewrite !BitwiseNotBytes_invol in E; congruence. }
  rewrite (bool_decide_ext _ _ Hp); case_bool_decide as Ep.
  - rewrite Ep, Z.eqb_refl; cbn [negb]; rewrite bytes_leb_parts by (by rewrite !length_be_bytes).
    assert (Ht : be_bytes 5 t1 = be_bytes 5 t2 <-> t1 = t2) by (apply be_bytes_eq; simpl; lia).
    rewrite (bool_decide_ext _ _ Ht).
    case_bool_decide as Et; [subst; rewrite Z.eqb_refl; cbn [negb]|].
    + by rewrite bytes_leb_SetBytes, !SetBytes_be_bytes, !Z.mod_small by (by rewrite ?length_be_bytes || (simpl; lia)).
    + rewrite bytes_leb_SetBytes, !SetBytes_be_bytes, !Z.mod_small by (by rewrite ?length_be_bytes || (simpl; lia)).
      replace (t1 =? t2) with false by lia; cbn [negb]; lia.
  - replace (SetBytes p1 =? SetBytes p2) with false by lia; cbn [negb]; destruct side; lia.
Qed.

Lemma order_ids_in_priority_witness :
  bytes_leb (order_id 1 false (be_bytes 10 9) 50 0) (order_id 1 false (be_bytes 10 8) 10 0) = true.
Proof. rewrite order_ids_in_priority; try lia; reflexivity. Defined.

(** ** Reading the book *)

(** What [nextOrder] does with an entry of the storage. *)
Definition decode_entry (e : dexEnv) (kv : bytes * bytes) : dexM Order :=
  if negb (len kv.1 =? OrderIdBytesLength) || (len kv.2 =? 0) then Panic PDex
  else match DeSerializeCompact e kv.2 kv.1 with
       | Ok o => Ok o
       | Err _ => Panic PDex
       | Panic p => Panic p
       end.

Lemma nextOrder_spec e del M book :
  ahead del (scan_fuel e) M (bk_iterator book) ->
  match storage_list M with
  | [] => exists book', nextOrder e book = Ok (book', None)
  | kv :: rest => exists book',
      nextOrder e book = (o ← decode_entry e kv; Ok (book', Some o)) /\
      ahead del (scan_fuel e) (delete kv.1 M) (bk_iterator book') /\ storage_list (delete kv.1 M) = rest
  end.
Proof.
  intros Ha; unfold nextOrder.
  destruct (next_spec _ _ _ _ Ha) as [(-> & mi' & -> & He)|(k & v & mi' & HM & Hmin & -> & Hk & Hv & Ha')].
  - rewrite storage_list_empty; simpl; rewrite He; eauto.
  - rewrite (storage_list_cons _ _ _ HM Hmin); exists (mkBook (bk_marketId book) (bk_side book) mi').
    split; [|done]; simpl; rewrite Hk, Hv; simpl; unfold decode_entry; cbn [fst snd].
    destruct (negb (len k =? OrderIdBytesLength) || (len v =? 0)); [done|].
    by destruct (DeSerializeCompact e v k).
Qed.

(** ** Matching against the sorted list *)

Section Sorted.
Context (e : dexEnv) (db : vmDb) (m : MarketInfo) (height : Z).

Fixpoint take_from (st : taking) (maker : Order) (rest : list (bytes * bytes)) : dexM taking :=
  '(st, more) ← take_maker e db m height st maker;
  if (more : bool) then
    match rest with
    | [] => Ok st
    | kv :: rest => maker ← decode_entry e kv; take_from st maker rest
    end
  else Ok st.

Lemma recursiveTakeOrder_sorted n st maker book del M :
  ahead del (scan_fuel e) M (bk_iterator book) -> (size M < n)%nat ->
  recursiveTakeOrder n e db m height st maker book = take_from st maker (storage_list M).
Proof.
  revert st maker book M; induction n as [|n IH]; intros st maker book M Ha Hn; [lia|].
  cbn [recursiveTakeOrder]; pose proof (nextOrder_spec _ _ _ _ Ha) as Hnext.
  destruct (storage_list M) as [|[k v] rest] eqn:EM; cbn [take_from].
  - destruct Hnext as [book' ->].
    destruct (take_maker e db m height st maker) as [[st' more]| |]; [|done..]; simpl; by destruct more.
  - destruct Hnext as (book' & -> & Ha' & Hrest).
    destruct (take_maker e db m height st maker) as [[st' more]| |]; [|done..]; simpl; destruct more; [|done].
    destruct (decode_entry e (k, v)) as [o| |]; [|done..]; simpl; rewrite <- Hrest; eapply IH; [done|].
    assert (HM : M !! k = Some v) by (apply elem_of_storage_list; rewrite EM; apply elem_of_cons; by left).
    cbn [fst]; rewrite map_size_delete, HM; simpl; pose proof (map_size_ne_0_lookup_2 M k ltac:(eauto)); lia.
Qed.

End Sorted.

(** [doMatchTaker] on the entries of the book in order. *)
Definition match_sorted (e : dexEnv) (mc : Matcher) (taker : Order) (entries : list (bytes * bytes))
    (preHash : Hash) : dexM (Matcher * Order) :=
  '(mc, taker) ←
    match entries with
    | [] => handleTakerRes e mc taker
    | kv :: rest =>
        maker ← decode_entry e kv;
        height ← latestHeight (mt_db mc);
        st ← take_from e (mt_db mc) (mt_MarketInfo mc) height (mkTaking taker [] []) maker rest;
        '(mc, taker) ← handleTakerRes e mc (tk_taker st);
        if undone taker then Ok (mc, taker)
        else
          mc ← handleModifiedMakers e mc (tk_makers st);
          Ok (handleTxs e mc (tk_txs st), taker)
    end;
  db ← TryUpdateTimestamp (mt_db mc) (od_Timestamp taker) preHash;
  Ok (with_db mc db, taker).

Lemma doMatchTaker_sorted e mc taker book preHash del M :
  ahead del (scan_fuel e) M (bk_iterator book) -> (size M < scan_fuel e)%nat ->
  doMatchTaker e mc taker book preHash = match_sorted e mc taker (storage_list M) preHash.
Proof.
  intros Ha Hn; unfold doMatchTaker, match_sorted; pose proof (nextOrder_spec _ _ _ _ Ha) as Hnext.
  destruct (storage_list M) as [|[k v] rest] eqn:EM.
  - destruct Hnext as [book' ->]; done.
  - destruct Hnext as (book' & -> & Ha' & Hrest); destruct (decode_entry e (k, v)) as [o| |]; [|done..]; simpl.
    destruct (latestHeight (mt_db mc)) as [h| |]; [|done..]; simpl.
    rewrite (recursiveTakeOrder_sorted _ _ _ _ _ _ _ _ _ _ Ha'), Hrest; [done|].
    cbn [fst]; rewrite map_size_delete; destruct (M !! k); simpl; lia.
Qed.

(** The map of the stored orders that a match reads. *)
Lemma MatchOrder_book e mc taker preHash items :
  let db := mt_db mc in
  let prefix := getBookPrefix (mk_MarketId (mt_MarketInfo mc)) (negb (od_Side taker)) in
  rtc uns_step NewUnsaved (uns db) -> chain_iterates db prefix items ->
  (size (storage (uns db)) + length items < scan_fuel e)%nat ->
  exists M, MatchOrder e mc taker preHash = match_sorted e mc taker (storage_list M) preHash /\
    forall k v, M !! k = Some v <-> k <> [] /\ prefix `prefix_of` k /\ db_GetValue db k = Ok v /\ v <> [].
Proof.
  intros db prefix Hw%reachable_wf Hc Hf.
  destruct (storage_ahead _ _ _ _ Hw Hc Hf) as (it & M & Hit & Ha & Hs & HM); exists M; split; [|done].
  unfold MatchOrder, getMakerBook; fold db prefix; rewrite Hit; simpl.
  eapply doMatchTaker_sorted; [exact Ha|lia].
Qed.

(** C13 Matching an order reads the book through the merged storage iterator, one
    entry at a time, and does exactly what matching against the sorted list of
    the stored orders would do: every order of the opposite side that is stored,
    those written or deleted earlier in the same block included, in order of
    priority. *)
Theorem matching_reads_sorted_book e mc taker preHash items :
  let db := mt_db mc in
  let prefix := getBookPrefix (mk_MarketId (mt_MarketInfo mc)) (negb (od_Side taker)) in
  rtc uns_step NewUnsaved (uns db) -> chain_iterates db prefix items ->
  (size (storage (uns db)) + length items < scan_fuel e)%nat ->
  exists entries, StronglySorted klt entries /\
    (forall k v, (k, v) ∈ entries <-> prefix `prefix_of` k /\ db_GetValue db k = Ok v /\ v <> []) /\
    MatchOrder e mc taker preHash = match_sorted e mc taker entries preHash.
Proof.
  intros db prefix Hw Hc Hf; destruct (MatchOrder_book _ _ _ preHash _ Hw Hc Hf) as (M & Hm & HM).
  exists (storage_list M); split; [apply storage_list_sorted|]; split; [|done].
  intros k v; rewrite elem_of_storage_list, HM; split; [naive_solver|]; intros (Hp & ?); split; [|done].
  intros ->; destruct Hp as [r Hp]; apply (f_equal length) in Hp; revert Hp.
  unfold prefix, getBookPrefix; rewrite !length_app; simpl; lia.
Qed.

Lemma example_iterates :
  chain_iterates dex_db (getBookPrefix 1 true) [(od_Id example_maker, maker_data)].
Proof.
  pose proof maker_prefix as Hp; pose proof maker_data_not_empty as Hd; split.
  - unfold dex_db, NewVmDb; cbn [chain dex_chain ch_GetStorageIterator]; by rewrite decide_True.
  - repeat constructor.
  - intros k v; rewrite list_elem_of_singleton, dex_db_value.
    generalize dependent maker_data; generalize dependent (od_Id example_maker); intros; case_decide; naive_solver.
Qed.

Lemma matching_reads_sorted_book_witness :
  exists entries, (od_Id example_maker, maker_data) ∈ entries /\
    MatchOrder example_dex example_matcher example_taker ZERO_HASH =
    match_sorted example_dex example_matcher example_taker entries ZERO_HASH.
Proof.
  destruct (matching_reads_sorted_book example_dex example_matcher example_taker ZERO_HASH
              [(od_Id example_maker, maker_data)] (rtc_refl _ _) example_iterates ltac:(vm_compute; lia))
    as (entries & _ & Hin & Hm).
  exists entries; split; [|done]; apply Hin; split; [apply maker_prefix|]; split; [|apply maker_data_not_empty].
  by vm_compute.
Defined.
