(* ===== verification/DexMatcherSpec.v ===== *)
(** What matching does to the funds locked by orders: trades never execute more
    than an order has left, and what is reduced and released is exactly what
    the orders no longer lock. *)
From S2P Require Import Prelude Helper Float Types Upgrade VmDb Iterator IteratorSpec.
From S2P Require Import DexNumber DexNumberSpec DexOrder DexMatcher DexBookSpec.
From stdpp Require Import sorting.
From Stdlib Require Import ZifyBool.
#[local] Open Scope Z_scope.

Abbreviation val := SetBytes.

(** ** Orders *)

Definition rate_ok (r : Z) : Prop := 0 <= r <= 1000.

(** An order has executed no more than it has, and its rates are at most one
    percent. *)
Record order_ok (o : Order) : Prop := {
  ok_quantity : val (od_ExecutedQuantity o) <= val (od_Quantity o);
  ok_amount : od_Side o = false -> val (od_ExecutedAmount o) <= val (od_Amount o);
  ok_fee : od_Side o = false ->
    val (od_ExecutedBaseFee o) + val (od_ExecutedOperatorFee o) <= val (od_LockedBuyFee o);
  ok_taker_rate : rate_ok (od_TakerFeeRate o);
  ok_maker_rate : rate_ok (od_MakerFeeRate o);
  ok_taker_operator : rate_ok (od_TakerOperatorFeeRate o);
  ok_maker_operator : rate_ok (od_MakerOperatorFeeRate o);
}.

(** What the order still locks of the trade token ([true]) and of the quote
    token ([false]). *)
Definition lock (token : bool) (o : Order) : Z :=
  if od_Side o then
    if token then val (od_Quantity o) - val (od_ExecutedQuantity o) else 0
  else
    if token then 0
    else val (od_Amount o) - val (od_ExecutedAmount o) +
         (val (od_LockedBuyFee o) - val (od_ExecutedBaseFee o) - val (od_ExecutedOperatorFee o)).

Lemma lock_nonneg token o : order_ok o -> 0 <= lock token o.
Proof.
  intros [Hq Ha Hf _ _ _ _]; unfold lock; destruct (od_Side o), token; lia.
Qed.

(** The fields that matching never changes. *)
Record same_terms (o o' : Order) : Prop := {
  st_id : od_Id o' = od_Id o;
  st_address : od_Address o' = od_Address o;
  st_market : od_MarketId o' = od_MarketId o;
  st_side : od_Side o' = od_Side o;
  st_type : od_Type o' = od_Type o;
  st_price : od_Price o' = od_Price o;
  st_timestamp : od_Timestamp o' = od_Timestamp o;
  st_quantity : od_Quantity o' = od_Quantity o;
  st_amount : od_Amount o' = od_Amount o;
  st_fee : od_LockedBuyFee o' = od_LockedBuyFee o;
  st_hash : od_SendHash o' = od_SendHash o;
  st_rates : od_TakerFeeRate o' = od_TakerFeeRate o /\ od_MakerFeeRate o' = od_MakerFeeRate o /\
    od_TakerOperatorFeeRate o' = od_TakerOperatorFeeRate o /\
    od_MakerOperatorFeeRate o' = od_MakerOperatorFeeRate o;
}.

Lemma same_terms_refl o : same_terms o o.
Proof. by split. Qed.

Lemma same_terms_trans o1 o2 o3 : same_terms o1 o2 -> same_terms o2 o3 -> same_terms o1 o3.
Proof. intros [] []; split; try congruence; intuition congruence. Qed.

Lemma same_terms_status o s r : same_terms o (set_status o s r).
Proof. by split. Qed.

Lemma order_ok_status o s r : order_ok o -> order_ok (set_status o s r).
Proof. by intros []. Qed.

Lemma lock_status token o s r : lock token (set_status o s r) = lock token o.
Proof. done. Qed.

Lemma same_terms_executed o q a b f : same_terms o (set_executed o q a b f).
Proof. by split. Qed.

(** ** Fees *)

(** The fee of a buyer never exceeds what it locked for fees; the fee of a
    seller is at most half of the amount. *)
Lemma calculateExecutedFee_spec amount rate side origin locked used inc new left :
  rate_ok rate -> (side = false -> val (fold_left AddBigInt used []) <= val locked) ->
  calculateExecutedFee amount rate side origin locked used = Ok (inc, new, left) ->
  val new = val origin + val inc /\
  (side = false -> val (fold_left AddBigInt used []) + val inc <= val locked) /\
  (side = true -> left = true /\ 2 * val inc <= val amount).
Proof.
  intros Hr Hu; unfold calculateExecutedFee; pose proof (SetBytes_nonneg amount).
  destruct (rate =? 0); [intros [= <- <- <-]; change (val []) with 0; split; [lia|]; split; [lia|]; split; [done|lia]|].
  destruct (CalculateAmountForRate_half amount rate Hr) as (fee & -> & Hfee); simpl.
  destruct side.
  { intros [= <- <- <-]; autorewrite with amounts; done. }
  specialize (Hu eq_refl); set (u := fold_left AddBigInt used []) in *.
  destruct (Z.leb_spec (CmpForBigInt locked u) 0).
  { intros [= <- <- <-]; change (val []) with 0; split; [lia|]; split; [lia|done]. }
  destruct (Z.leb_spec (CmpForBigInt locked (AddBigInt u fee)) 0) as [|Hgt%CmpForBigInt_gt];
    intros [= <- <- <-]; autorewrite with amounts in *; split_and!; try done; intros _; lia.
Qed.

Lemma CalculateFee_spec box o amount rate orate height ib nb io no :
  IsDexFeeUpgrade box height = true -> order_ok o -> rate_ok rate -> rate_ok orate ->
  CalculateFeeAndExecutedFee box o amount rate orate height = Ok (ib, nb, io, no) ->
  val nb = val (od_ExecutedBaseFee o) + val ib /\ val no = val (od_ExecutedOperatorFee o) + val io /\
  (od_Side o = false -> val nb + val no <= val (od_LockedBuyFee o)) /\
  (od_Side o = true -> val ib + val io <= val amount).
Proof.
  intros Hup Hok Hr Hro; unfold CalculateFeeAndExecutedFee; intros H.
  apply outcome_bind_ok in H as ([[ib' nb'] left] & H1 & H).
  apply calculateExecutedFee_spec in H1 as (Hnb & Hcap & Hsell); [|done|].
  2:{ intros Hs; pose proof (ok_fee _ Hok Hs); simpl; autorewrite with amounts; change (val []) with 0; lia. }
  simpl in Hcap; autorewrite with amounts in Hcap; change (val []) with 0 in Hcap.
  destruct left.
  - apply outcome_bind_ok in H as ([[io' no'] left'] & H2 & H); simplify_eq.
    apply calculateExecutedFee_spec in H2 as (Hno & Hcap2 & Hsell2); [|done|].
    2:{ intros Hs; specialize (Hcap Hs); simpl; autorewrite with amounts; change (val []) with 0; lia. }
    simpl in Hcap2; autorewrite with amounts in Hcap2; change (val []) with 0 in Hcap2.
    split_and!; [done|done|intros Hs; specialize (Hcap2 Hs); lia|].
    intros Hs; destruct (Hsell Hs), (Hsell2 Hs); pose proof (SetBytes_nonneg ib); lia.
  - rewrite Hup in H; simplify_eq; change (val []) with 0; split_and!; [done|lia| |].
    + intros Hs; specialize (Hcap Hs); lia.
    + intros Hs; by destruct (Hsell Hs).
Qed.

(** ** One trade *)

Definition tx_fees (tx : Transaction) (taker : bool) : Z :=
  if taker then val (tx_TakerFee tx) + val (tx_TakerOperatorFee tx)
  else val (tx_MakerFee tx) + val (tx_MakerOperatorFee tx).

Definition sells (tx : Transaction) (taker : bool) : bool := Bool.eqb (tx_TakerSide tx) taker.

(** What the taker or the maker of a trade gives and gets of each token. *)
Definition tx_out (tx : Transaction) (taker token : bool) : Z :=
  if sells tx taker then (if token then val (tx_Quantity tx) else 0)
  else (if token then 0 else val (tx_Amount tx) + tx_fees tx taker).

Definition tx_in (tx : Transaction) (taker token : bool) : Z :=
  if sells tx taker then (if token then 0 else val (tx_Amount tx) - tx_fees tx taker)
  else (if token then val (tx_Quantity tx) else 0).

Definition tx_ok (tx : Transaction) : Prop := tx_fees tx (tx_TakerSide tx) <= val (tx_Amount tx).

Record traded (taker maker taker' maker' : Order) (ot : OrderTx) : Prop := {
  tr_taker : same_terms taker taker';
  tr_maker : same_terms maker maker';
  tr_ok_taker : order_ok taker';
  tr_ok_maker : order_ok maker';
  tr_address_taker : ot_takerAddress ot = od_Address taker;
  tr_address_maker : ot_makerAddress ot = od_Address maker;
  tr_side : tx_TakerSide (ot_tx ot) = od_Side taker;
  tr_price : tx_Price (ot_tx ot) = od_Price maker;
  tr_lock_taker token : lock token taker = lock token taker' + tx_out (ot_tx ot) true token;
  tr_lock_maker token : lock token maker = lock token maker' + tx_out (ot_tx ot) false token;
  tr_tx : tx_ok (ot_tx ot);
  tr_reason : od_CancelReason taker' = od_CancelReason taker;
  tr_status_taker : od_Status taker' = FullyExecuted \/ od_Status taker' = PartialExecuted;
  tr_status_maker : od_Status maker' = FullyExecuted \/ od_Status maker' = PartialExecuted;
}.

Lemma calculateOrderAmount_spec o quantity price diff amount :
  order_ok o -> calculateOrderAmount o quantity price diff = Ok amount -> od_Side o = false ->
  val amount <= val (od_Amount o) - val (od_ExecutedAmount o).
Proof.
  intros Hok H Hs; apply outcome_bind_ok in H as (a & _ & H); rewrite Hs in H; cbn [negb andb] in H.
  pose proof (ok_amount _ Hok Hs).
  destruct (Z.ltb_spec (val (od_Amount o)) (val (AddBigInt (od_ExecutedAmount o) a))); simplify_eq;
    autorewrite with amounts in *; lia.
Qed.

Lemma updateOrder_spec v12 o q a b f diff price o' :
  updateOrder v12 o q a b f diff price = Ok o' ->
  exists s, (s = FullyExecuted \/ s = PartialExecuted) /\
    o' = set_executed (set_status o s (od_CancelReason o)) (AddBigInt (od_ExecutedQuantity o) q)
           (AddBigInt (od_ExecutedAmount o) a) b f.
Proof.
  destruct v12; intros H; apply outcome_bind_ok in H as (full & _ & H); apply Ok_inj in H; subst o';
    exists (if full then FullyExecuted else PartialExecuted); (split; [|done]); destruct full; auto.
Qed.

Lemma takerQuantity_spec v12 taker maker m q :
  order_ok taker -> takerQuantity v12 taker maker m = Ok q ->
  val q <= val (od_Quantity taker) - val (od_ExecutedQuantity taker).
Proof.
  intros Hok; unfold takerQuantity; pose proof (ok_quantity _ Hok).
  destruct (v12 && _ && _); intros Hq; [apply outcome_bind_ok in Hq as (mq & _ & Hq)|];
    simplify_eq; autorewrite with amounts; lia.
Qed.

(** An order after it gave its part of a trade. *)
Lemma executed_ok o s r q a b f :
  order_ok o -> val q <= val (od_Quantity o) - val (od_ExecutedQuantity o) ->
  (od_Side o = false -> val a <= val (od_Amount o) - val (od_ExecutedAmount o)) ->
  (od_Side o = false -> val b + val f <= val (od_LockedBuyFee o)) ->
  order_ok (set_executed (set_status o s r) (AddBigInt (od_ExecutedQuantity o) q)
              (AddBigInt (od_ExecutedAmount o) a) b f).
Proof.
  intros [] Hq Ha Hf; split; simpl; autorewrite with amounts; auto; [lia|].
  intros Hs; specialize (Ha Hs); lia.
Qed.

Lemma calculateOrderAndTx_spec e taker maker m height taker' maker' ot :
  IsDexFeeUpgrade (dex_box e) height = true -> order_ok taker -> order_ok maker ->
  od_Side maker = negb (od_Side taker) ->
  calculateOrderAndTx e taker maker m height = Ok (taker', maker', ot) ->
  traded taker maker taker' maker' ot.
Proof.
  intros Hup Ht Hm Hside H; unfold calculateOrderAndTx in H.
  apply outcome_bind_ok in H as (tq & Htq & H).
  set (q := MinBigInt tq _) in H; assert (Hq : val q <= val (od_Quantity taker) - val (od_ExecutedQuantity taker) /\
    val q <= val (od_Quantity maker) - val (od_ExecutedQuantity maker)).
  { pose proof (takerQuantity_spec _ _ _ _ _ Ht Htq); pose proof (ok_quantity _ Hm).
    unfold q; autorewrite with amounts; lia. }
  apply outcome_bind_ok in H as (ta & Hta & H); apply outcome_bind_ok in H as (ma & Hma & H).
  set (a := MinBigInt ta ma) in H.
  pose proof (calculateOrderAmount_spec _ _ _ _ _ Ht Hta) as Hta'.
  pose proof (calculateOrderAmount_spec _ _ _ _ _ Hm Hma) as Hma'.
  assert (Ha : val a <= val ta /\ val a <= val ma) by (unfold a; autorewrite with amounts; lia).
  apply outcome_bind_ok in H as ([[[tib tnb] tio] tno] & Htf & H).
  apply outcome_bind_ok in H as ([[[mib mnb] mio] mno] & Hmf & H).
  apply CalculateFee_spec in Htf as (T1 & T2 & T3 & T4); [|done|done|apply Ht..].
  apply CalculateFee_spec in Hmf as (M1 & M2 & M3 & M4); [|done|done|apply Hm..].
  apply outcome_bind_ok in H as (t' & Hut & H); apply outcome_bind_ok in H as (m' & Hum & H); simplify_eq.
  apply updateOrder_spec in Hut as (s1 & Hs1 & ->); apply updateOrder_spec in Hum as (s2 & Hs2 & ->).
  split; try done.
  - apply executed_ok; [done|tauto|intros Hs; specialize (Hta' Hs); lia|done].
  - apply executed_ok; [done|tauto|intros Hs; specialize (Hma' Hs); lia|done].
  - intros token; unfold lock, tx_out, sells, tx_fees; simpl; autorewrite with amounts.
    destruct (od_Side taker), token; simpl; lia.
  - intros token; unfold lock, tx_out, sells, tx_fees; simpl; rewrite Hside; autorewrite with amounts.
    destruct (od_Side taker), token; simpl; lia.
  - unfold tx_ok, tx_fees; simpl; rewrite Hside in M4; destruct (od_Side taker); [apply T4|apply M4]; done.
Qed.

(** ** Settlements *)

Definition no_settle (token : bool) : AccountSettle := mkAccountSettle token [] [] [].

Definition settle_of (mc : Matcher) (a : Address) (token : bool) : AccountSettle :=
  default (no_settle token) (mt_fundSettles mc !! a ≫= fun m => m !! token).

Definition inc (mc : Matcher) (a : Address) (token : bool) : Z := val (as_IncAvailable (settle_of mc a token)).
Definition reduced (mc : Matcher) (a : Address) (token : bool) : Z := val (as_ReduceLocked (settle_of mc a token)).
Definition released (mc : Matcher) (a : Address) (token : bool) : Z := val (as_ReleaseLocked (settle_of mc a token)).

Definition fees_of (mc : Matcher) (a : Address) : Z :=
  match mt_feeSettles mc !! a with Some f => val (fe_BaseFee f) + val (fe_OperatorFee f) | None => 0 end.

(** [x] when the order or trade belongs to the address. *)
Definition at_address (a : Address) (owner : bytes) (x : Z) : Z := if bool_decide (a = address_of owner) then x else 0.

Lemma at_address_add a owner x y : at_address a owner (x + y) = at_address a owner x + at_address a owner y.
Proof. unfold at_address; case_bool_decide; lia. Qed.

Definition of_token (token : bool) (st : AccountSettle) (x : bytes) : Z :=
  if Bool.eqb token (as_IsTradeToken st) then val x else 0.

Lemma settle_of_update mc owner st a token :
  settle_of (updateFundSettle mc owner st) a token =
    if bool_decide (a = address_of owner) && Bool.eqb token (as_IsTradeToken st) then
      let old := settle_of mc a token in
      mkAccountSettle (as_IsTradeToken old) (AddBigInt (as_IncAvailable old) (as_IncAvailable st))
        (AddBigInt (as_ReduceLocked old) (as_ReduceLocked st)) (AddBigInt (as_ReleaseLocked old) (as_ReleaseLocked st))
    else settle_of mc a token.
Proof.
  unfold settle_of, updateFundSettle; cbn [mt_fundSettles]; case_bool_decide as Ha; simpl.
  - subst a; rewrite lookup_insert_eq; simpl; destruct (Bool.eqb_spec token (as_IsTradeToken st)) as [->|Hne].
    + rewrite lookup_insert_eq; simpl.
      by destruct (mt_fundSettles mc !! address_of owner) as [sm|]; simpl; [destruct (sm !! as_IsTradeToken st)|].
    + rewrite lookup_insert_ne by congruence.
      by destruct (mt_fundSettles mc !! address_of owner) as [sm|]; simpl.
  - by rewrite lookup_insert_ne by congruence.
Qed.

Lemma updateFundSettle_spec mc owner st a token :
  let mc' := updateFundSettle mc owner st in
  inc mc' a token = inc mc a token + at_address a owner (of_token token st (as_IncAvailable st)) /\
  reduced mc' a token = reduced mc a token + at_address a owner (of_token token st (as_ReduceLocked st)) /\
  released mc' a token = released mc a token + at_address a owner (of_token token st (as_ReleaseLocked st)).
Proof.
  intros mc'; unfold mc', inc, reduced, released, at_address, of_token; rewrite settle_of_update.
  case_bool_decide; simpl; [|lia]; destruct (Bool.eqb token _); simpl; autorewrite with amounts; lia.
Qed.

Lemma updateFee_spec mc owner fee operatorFee a :
  fees_of (updateFee mc owner fee operatorFee) a =
    fees_of mc a + at_address a owner (val fee + val operatorFee).
Proof.
  unfold fees_of, updateFee, at_address; cbn [mt_feeSettles]; case_bool_decide as Ha.
  - subst; rewrite lookup_insert_eq; destruct (mt_feeSettles mc !! _); simpl; autorewrite with amounts; lia.
  - rewrite lookup_insert_ne by congruence; lia.
Qed.

(** What a trade moves, on both sides. *)
Definition tx_at (flow : Transaction -> bool -> bool -> Z) (ot : OrderTx) (a : Address) (token : bool) : Z :=
  at_address a (ot_takerAddress ot) (flow (ot_tx ot) true token) +
  at_address a (ot_makerAddress ot) (flow (ot_tx ot) false token).

Lemma handleTxFundSettle_spec mc ot a token : tx_ok (ot_tx ot) ->
  let mc' := handleTxFundSettle mc ot in
  inc mc' a token = inc mc a token + tx_at tx_in ot a token /\
  reduced mc' a token = reduced mc a token + tx_at tx_out ot a token /\
  released mc' a token = released mc a token /\
  fees_of mc' a = fees_of mc a + tx_at (fun tx taker _ => tx_fees tx taker) ot a token.
Proof.
  intros Hok mc'; unfold tx_ok in Hok; unfold mc', handleTxFundSettle.
  set (sts := if tx_TakerSide (ot_tx ot) then _ else _).
  destruct sts as [[[ti to] mi] mo] eqn:Es.
  set (m1 := updateFundSettle mc _ ti); set (m2 := updateFundSettle m1 _ to).
  set (m3 := updateFundSettle m2 _ mi); set (m4 := updateFundSettle m3 _ mo).
  destruct (updateFundSettle_spec mc (ot_takerAddress ot) ti a token) as (I1 & R1 & L1); fold m1 in I1, R1, L1.
  destruct (updateFundSettle_spec m1 (ot_takerAddress ot) to a token) as (I2 & R2 & L2); fold m2 in I2, R2, L2.
  destruct (updateFundSettle_spec m2 (ot_makerAddress ot) mi a token) as (I3 & R3 & L3); fold m3 in I3, R3, L3.
  destruct (updateFundSettle_spec m3 (ot_makerAddress ot) mo a token) as (I4 & R4 & L4); fold m4 in I4, R4, L4.
  rewrite !updateFee_spec.
  change (inc (updateFee _ _ _ _)) with (inc m4); change (reduced (updateFee _ _ _ _)) with (reduced m4).
  change (released (updateFee _ _ _ _)) with (released m4); change (fees_of m4 a) with (fees_of mc a).
  unfold tx_at, tx_in, tx_out, sells, tx_fees, at_address, of_token in *.
  destruct (tx_TakerSide (ot_tx ot)) eqn:Eside; subst sts; simplify_eq/=; autorewrite with amounts in *;
    change (val []) with 0 in *; destruct token; simpl in *;
    repeat case_bool_decide; split_and!; lia.
Qed.

(** ** Sums over orders and trades *)

Definition closed (o : Order) : bool := (od_Status o =? FullyExecuted) || (od_Status o =? Cancelled).

(** What the orders of an address lock together; only open orders lock. *)
Definition lock_at (a : Address) (token : bool) (o : Order) : Z := at_address a (od_Address o) (lock token o).
Definition open_lock_at (a : Address) (token : bool) (o : Order) : Z := if closed o then 0 else lock_at a token o.
Definition closed_lock_at (a : Address) (token : bool) (o : Order) : Z := if closed o then lock_at a token o else 0.

Lemma lock_at_split a token o : lock_at a token o = open_lock_at a token o + closed_lock_at a token o.
Proof. unfold open_lock_at, closed_lock_at; destruct (closed o); lia. Qed.

Lemma zsum_lock_split a token os :
  zsum (lock_at a token) os = zsum (open_lock_at a token) os + zsum (closed_lock_at a token) os.
Proof. induction os as [|o os IH]; simpl; [done|]; rewrite IH, lock_at_split; lia. Qed.

Lemma lock_at_nonneg a token o : order_ok o -> 0 <= lock_at a token o.
Proof. intros H; unfold lock_at, at_address; case_bool_decide; [by apply lock_nonneg|done]. Qed.

(** ** The parts of a matcher that settlements do not touch *)

Record same_books (mc mc' : Matcher) : Prop := {
  sb_db k : db_GetValue (mt_db mc') k = db_GetValue (mt_db mc) k;
  sb_market : mt_MarketInfo mc' = mt_MarketInfo mc;
}.

Lemma same_books_refl mc : same_books mc mc.
Proof. by split. Qed.

Lemma handleTxs_spec e mc txs a token : Forall (fun ot => tx_ok (ot_tx ot)) txs ->
  let mc' := handleTxs e mc txs in
  inc mc' a token = inc mc a token + zsum (fun ot => tx_at tx_in ot a token) txs /\
  reduced mc' a token = reduced mc a token + zsum (fun ot => tx_at tx_out ot a token) txs /\
  released mc' a token = released mc a token /\
  fees_of mc' a = fees_of mc a + zsum (fun ot => tx_at (fun tx taker _ => tx_fees tx taker) ot a token) txs /\
  same_books mc mc'.
Proof.
  intros Hall; revert mc; induction Hall as [|ot txs Hot _ IH]; intros mc; simpl.
  { split_and!; [lia..|apply same_books_refl]. }
  destruct (IH (addLog e (handleTxFundSettle mc ot) (TransactionEvent (ot_tx ot)))) as (I & R & L & F & [S1 S2]).
  destruct (handleTxFundSettle_spec mc ot a token Hot) as (I' & R' & L' & F').
  rewrite I, R, L, F; change (inc (addLog _ ?m _)) with (inc m); change (reduced (addLog _ ?m _)) with (reduced m).
  change (released (addLog _ ?m _)) with (released m); change (fees_of (addLog _ ?m _)) with (fees_of m).
  rewrite I', R', L', F'; split_and!; [lia..|].
  assert (Hsame : mt_db (handleTxFundSettle mc ot) = mt_db mc /\ mt_MarketInfo (handleTxFundSettle mc ot) = mt_MarketInfo mc).
  { unfold handleTxFundSettle; by destruct (tx_TakerSide (ot_tx ot)). }
  destruct Hsame as [Hd Hm]; split; [intros k; rewrite S1; simpl; by rewrite Hd|rewrite S2; simpl; by rewrite Hm].
Qed.

Record refunded (mc : Matcher) (o : Order) (mc' : Matcher) (o' : Order) : Prop := {
  rf_terms : same_terms o o';
  rf_status : od_Status o' = od_Status o /\ od_CancelReason o' = od_CancelReason o;
  rf_executed : od_ExecutedQuantity o' = od_ExecutedQuantity o /\ od_ExecutedAmount o' = od_ExecutedAmount o /\
    od_ExecutedBaseFee o' = od_ExecutedBaseFee o /\ od_ExecutedOperatorFee o' = od_ExecutedOperatorFee o;
  rf_inc a token : inc mc' a token = inc mc a token;
  rf_reduced a token : reduced mc' a token = reduced mc a token;
  rf_released a token : released mc' a token = released mc a token + closed_lock_at a token o;
  rf_fees a : fees_of mc' a = fees_of mc a;
  rf_books : same_books mc mc';
}.

Lemma handleRefund_spec mc o mc' o' : order_ok o -> handleRefund mc o = (mc', o') -> refunded mc o mc' o'.
Proof.
  intros Hok; unfold handleRefund; unfold closed_lock_at, closed.
  destruct ((od_Status o =? FullyExecuted) || (od_Status o =? Cancelled)) eqn:Ec.
  2:{ intros [= <- <-]; split; try done; intros; unfold closed_lock_at, closed; rewrite Ec; lia. }
  set (tq := if od_Side o then _ else _); destruct tq as [t q] eqn:Et.
  assert (Hq : val q = lock (od_Side o) o /\ lock (negb (od_Side o)) o = 0).
  { unfold tq in Et; unfold lock; pose proof (ok_quantity _ Hok).
    destruct (od_Side o) eqn:Es; simplify_eq; autorewrite with amounts; [cbn [negb]; lia|].
    pose proof (ok_amount _ Hok Es); pose proof (ok_fee _ Hok Es).
    pose proof (SetBytes_nonneg (od_ExecutedOperatorFee o)); cbn [negb]; lia. }
  destruct Hq as [Hq Hn]; unfold CmpToBigZero; pose proof (lock_nonneg (od_Side o) o Hok).
  destruct (Z.ltb_spec 0 (Z.sgn (val q))) as [Hpos|Hpos]; intros [= <- <-]; split; try done; intros a token.
  1,2,3: destruct (updateFundSettle_spec mc (od_Address o) (mkAccountSettle (od_Side o) [] [] q) a token) as (I & R & L);
    rewrite ?I, ?R, ?L; unfold closed_lock_at, closed, lock_at, at_address, of_token; simpl; rewrite ?Ec;
    case_bool_decide; revert Hq Hn; destruct (od_Side o), token; simpl;
    change (val []) with 0; intros; lia.
  unfold closed_lock_at, closed, lock_at, at_address; rewrite Ec; case_bool_decide; [|lia].
  revert Hq Hn H; destruct (od_Side o), token; simpl; intros; lia.
Qed.

(** ** Stored orders *)

(** The key of an order has 22 bytes and spells its market, side, price and time;
    the hash kept with it is absent or has 32 bytes. *)
Record keyed (o : Order) : Prop := {
  ky_id : len (od_Id o) = OrderIdBytesLength;
  ky_hash : od_SendHash o = [] \/ length (od_SendHash o) = 32%nat;
  ky_address : od_Address o <> [];
  ky_parts : DeComposeOrderId (od_Id o) = Ok (od_MarketId o, od_Side o, od_Price o, od_Timestamp o);
}.

Lemma keyed_terms o o' : same_terms o o' -> keyed o -> keyed o'.
Proof. intros [] []; split; congruence. Qed.

(** Only the entry of the order changes among the keys of 22 bytes. *)
Definition wrote (db db' : vmDb) (id v : bytes) : Prop :=
  forall k, len k = OrderIdBytesLength ->
    db_GetValue db' k = if decide (k = id) then Ok v else db_GetValue db k.

Lemma setValueToDb_spec db key v db' k :
  setValueToDb db key v = Ok db' -> db_GetValue db' k = if decide (k = key) then Ok v else db_GetValue db k.
Proof.
  unfold setValueToDb; destruct (db_SetValue db key v) as [d| |] eqn:E; intros H; simplify_eq.
  by apply db_GetValue_SetValue.
Qed.

Lemma hash_key_length h key : length h = 32%nat -> GetHashMapOrderIdKey h = Ok key -> len key <> OrderIdBytesLength.
Proof.
  intros Hl; unfold GetHashMapOrderIdKey, len, OrderIdBytesLength; rewrite Hl.
  destruct (_ <? _); intros Hk; [done|]; apply Ok_inj in Hk; subst key; rewrite length_app, length_drop, Hl; done.
Qed.

(** Writing the hash entry next to the order entry. *)
Lemma wrote_with_hash db db1 db2 o v w :
  keyed o -> setValueToDb db (od_Id o) v = Ok db1 ->
  (db2 = db1 \/ exists key, GetHashMapOrderIdKey (od_SendHash o) = Ok key /\ od_SendHash o <> [] /\
     setValueToDb db1 key w = Ok db2) ->
  wrote db db2 (od_Id o) v.
Proof.
  intros [Hid Hh _ _] H1 H2 k Hk; rewrite <- (setValueToDb_spec _ _ _ _ k H1).
  destruct H2 as [->|(key & Hkey & Hne & Hset)]; [done|].
  rewrite (setValueToDb_spec _ _ _ _ k Hset); case_decide as Ek; [|done]; subst k.
  destruct Hh as [Hh|Hh]; [done|]; by destruct (hash_key_length _ _ Hh Hkey).
Qed.

(** The settlements of a matcher. *)
Definition same_settles (mc mc' : Matcher) : Prop :=
  mt_fundSettles mc' = mt_fundSettles mc /\ mt_feeSettles mc' = mt_feeSettles mc /\
  mt_MarketInfo mc' = mt_MarketInfo mc.

Lemma same_settles_view mc mc' : same_settles mc mc' ->
  (forall a t, inc mc' a t = inc mc a t) /\ (forall a t, reduced mc' a t = reduced mc a t) /\
  (forall a t, released mc' a t = released mc a t) /\ (forall a, fees_of mc' a = fees_of mc a).
Proof. intros (E1 & E2 & _); unfold inc, reduced, released, settle_of, fees_of; rewrite E1, E2; done. Qed.

Lemma saveOrder_spec e mc o isTaker mc' : keyed o -> saveOrder e mc o isTaker = Ok mc' ->
  same_settles mc mc' /\ wrote (mt_db mc) (mt_db mc') (od_Id o) (SerializeCompact e o).
Proof.
  intros Hk H; apply outcome_bind_ok in H as (db1 & H1 & H).
  destruct (isTaker && _) eqn:Eh.
  - apply outcome_bind_ok in H as (db2 & H2 & H); apply Ok_inj in H; subst mc'; split; [done|]; simpl.
    apply outcome_bind_ok in H2 as (key & Hkey & Hset); eapply wrote_with_hash; [done|done|right].
    exists key; split; [done|]; split; [|exact Hset]; intros E; rewrite E in Eh; by rewrite andb_false_r in Eh.
  - apply Ok_inj in H; subst mc'; split; [done|]; eapply wrote_with_hash; [done|exact H1|by left].
    Unshelve. exact [].
Qed.

Lemma deleteOrder_spec mc o mc' : keyed o -> deleteOrder mc o = Ok mc' ->
  same_settles mc mc' /\ wrote (mt_db mc) (mt_db mc') (od_Id o) [].
Proof.
  intros Hk H; apply outcome_bind_ok in H as (db1 & H1 & H).
  destruct (0 <? len (od_SendHash o)) eqn:Eh.
  - apply outcome_bind_ok in H as (db2 & H2 & H); apply Ok_inj in H; subst mc'; split; [done|]; simpl.
    apply outcome_bind_ok in H2 as (key & Hkey & Hset); eapply wrote_with_hash; [done|done|right].
    exists key; split; [done|]; split; [|exact Hset]; intros E; by rewrite E in Eh.
  - apply Ok_inj in H; subst mc'; split; [done|]; eapply (wrote_with_hash _ _ _ _ _ []); [done|exact H1|by left].
Qed.

(** The entry of an order after it was handled. *)
Definition entry_of (e : dexEnv) (o : Order) : bytes := if closed o then [] else SerializeCompact e o.

(** Closed makers are refunded and removed, open ones stored. *)
Lemma handleModifiedMakers_spec e mc makers mc' :
  Forall order_ok makers -> Forall keyed makers -> NoDup (od_Id <$> makers) ->
  handleModifiedMakers e mc makers = Ok mc' ->
  (forall a t, inc mc' a t = inc mc a t) /\ (forall a t, reduced mc' a t = reduced mc a t) /\
  (forall a t, released mc' a t = released mc a t + zsum (closed_lock_at a t) makers) /\
  (forall a, fees_of mc' a = fees_of mc a) /\ mt_MarketInfo mc' = mt_MarketInfo mc /\
  (forall o, o ∈ makers -> db_GetValue (mt_db mc') (od_Id o) = Ok (entry_of e o)) /\
  (forall k, len k = OrderIdBytesLength -> k ∉ od_Id <$> makers ->
     db_GetValue (mt_db mc') k = db_GetValue (mt_db mc) k).
Proof.
  revert mc; induction makers as [|o makers IH]; intros mc Hok Hky Hnd H; simpl in H.
  { simplify_eq; split_and!; try done; [simpl; lia|set_solver]. }
  apply Forall_cons_1 in Hok as [Ho Hok]; apply Forall_cons_1 in Hky as [Hk Hky].
  apply NoDup_cons in Hnd as [Hni Hnd]; apply outcome_bind_ok in H as ([mc1 o1] & H1 & H).
  assert (Hstep : (forall a t, inc mc1 a t = inc mc a t) /\ (forall a t, reduced mc1 a t = reduced mc a t) /\
    (forall a t, released mc1 a t = released mc a t + closed_lock_at a t o) /\
    (forall a, fees_of mc1 a = fees_of mc a) /\ mt_MarketInfo mc1 = mt_MarketInfo mc /\
    wrote (mt_db mc) (mt_db mc1) (od_Id o) (entry_of e o)).
  { unfold entry_of, closed_lock_at, closed; destruct (_ || _) eqn:Ec in H1 |- *.
    - destruct (handleRefund mc o) as [mc2 o2] eqn:Er; apply handleRefund_spec in Er; [|done].
      apply outcome_bind_ok in H1 as (mc3 & Hd & H1); simplify_eq.
      destruct (deleteOrder_spec _ _ _ (keyed_terms _ _ (rf_terms _ _ _ _ Er) Hk) Hd) as [Hs Hw].
      destruct (same_settles_view _ _ Hs) as (I & R & L & F); destruct Hs as (_ & _ & Hm).
      destruct Er as [Et _ _ Ei Erd Erl Ef [Ed Em]].
      split_and!; intros; rewrite ?I, ?R, ?L, ?F; auto; [|congruence|].
      + rewrite Erl; unfold closed_lock_at, closed; by rewrite Ec.
      + intros k Hk'; rewrite (Hw k Hk'), (st_id _ _ Et); case_decide; auto.
    - apply outcome_bind_ok in H1 as (mc3 & Hs & H1); simplify_eq.
      destruct (saveOrder_spec _ _ _ _ _ Hk Hs) as [Hss Hw].
      destruct (same_settles_view _ _ Hss) as (I & R & L & F); destruct Hss as (_ & _ & Hm).
      split_and!; intros; rewrite ?I, ?R, ?L, ?F; auto; lia. }
  destruct Hstep as (I1 & R1 & L1 & F1 & M1 & W1).
  destruct (IH _ Hok Hky Hnd H) as (I & R & L & F & M & G & U).
  split_and!.
  - intros a t; rewrite I; apply I1.
  - intros a t; rewrite R; apply R1.
  - intros a t; rewrite L; change (released (emitOrderUpdate _ ?m _)) with (released m); rewrite L1; simpl; lia.
  - intros a; rewrite F; apply F1.
  - rewrite M; apply M1.
  - intros o' [->|Ho']%elem_of_cons; [|by apply G].
    rewrite U by (done || apply Hk); etransitivity; [apply (W1 (od_Id o)), Hk|]; by rewrite decide_True.
  - intros k Hlen Hk'; rewrite fmap_cons, not_elem_of_cons in Hk'; destruct Hk' as [Hne Hk'].
    rewrite U by done; etransitivity; [by apply (W1 k)|]; by rewrite decide_False.
Qed.

(** ** Taking makers one after another *)

(** The trade price is within the limit of the taker. *)
Definition within_limit (taker : Order) (price : bytes) : Prop :=
  od_Type taker = Market \/
  if od_Side taker then bytes_leb (od_Price taker) price = true else bytes_leb price (od_Price taker) = true.

Lemma matchPrice_within taker maker : matchPrice taker maker = true -> within_limit taker (od_Price maker).
Proof.
  unfold matchPrice, within_limit, priceCompare, bytes_Compare; destruct (Z.eqb_spec (od_Type taker) Market); [by left|].
  intros H; right; revert H; simpl.
  destruct (bytes_leb_total (od_Price taker) (od_Price maker)) as [E|E]; rewrite E;
    destruct (od_Side taker); repeat case_match; simpl; done || congruence.
Qed.

Record took (taker0 : Order) (befores : list Order) (st : taking) : Prop := {
  tk_terms : same_terms taker0 (tk_taker st);
  tk_ok : order_ok (tk_taker st);
  tk_done : undone (tk_taker st) = false;
  tk_status : Pending <= od_Status (tk_taker st) <= Cancelled;
  tk_afters : Forall2 (fun b a => same_terms b a /\ order_ok a) befores (tk_makers st);
  tk_trades : Forall (fun ot => tx_ok (ot_tx ot) /\ within_limit taker0 (tx_Price (ot_tx ot))) (tk_txs st);
  tk_count : Z.of_nat (length (tk_txs st)) <= maxTxsCountPerTaker;
  tk_ledger a t : lock_at a t taker0 + zsum (lock_at a t) befores =
    lock_at a t (tk_taker st) + zsum (lock_at a t) (tk_makers st) +
    zsum (fun ot => tx_at tx_out ot a t) (tk_txs st);
}.

(** While matching goes on there is room for another trade. *)
Definition room (st : taking) : Prop := Z.of_nat (length (tk_txs st)) < maxTxsCountPerTaker.

Lemma took_start taker : order_ok taker -> undone taker = false -> od_Status taker = Pending -> took taker [] (mkTaking taker [] []).
Proof. intros Hok Hu Hp; split; simpl; try done; [by rewrite Hp|intros; lia]. Qed.

Lemma within_limit_terms o o' p : same_terms o o' -> within_limit o' p -> within_limit o p.
Proof. intros []; unfold within_limit; by rewrite st_type0, st_side0, st_price0. Qed.

Lemma undone_reason o r s : undone (set_status o s r) = (r =? cancelledByFillOrKillNotFilled) || (r =? cancelledByExceedMarketOrderAmtThreshold).
Proof. done. Qed.

Lemma lock_at_terms a t o o' : od_Address o' = od_Address o -> lock t o' = lock t o -> lock_at a t o' = lock_at a t o.
Proof. unfold lock_at; by intros -> ->. Qed.

Lemma take_maker_spec e db m height taker0 befores st maker st' more :
  IsDexFeeUpgrade (dex_box e) height = true -> took taker0 befores st -> room st ->
  order_ok maker -> od_Side maker = negb (od_Side taker0) ->
  take_maker e db m height st maker = Ok (st', more) ->
  exists befores', took taker0 befores' st' /\ (more = true -> befores' = befores ++ [maker] /\ room st') /\
    (befores' = befores \/ befores' = befores ++ [maker]).
Proof.
  intros Hup [Ht Hok Hd Hst Ha Htr Hc Hl] Hroom Hm Hs H; apply outcome_bind_ok in H as (expired & He & H).
  destruct expired as [maker'|].
  - assert (Em : exists r, maker' = set_status maker Cancelled r).
    { unfold filterTimeout in He; apply outcome_bind_ok in He as (ct & _ & He); repeat case_match; simplify_eq;
        try (apply outcome_bind_ok in He as (h & _ & He); case_match; simplify_eq); eauto. }
    destruct Em as [r ->]; simplify_eq; exists (befores ++ [maker]); split; [|split; [by intros _|by right]].
    split; simpl; try done.
    + apply Forall2_app; [done|]; constructor; [|done]; split; [apply same_terms_status|by apply order_ok_status].
    + intros a t; rewrite !zsum_app; simpl.
      rewrite (lock_at_terms a t maker (set_status maker Cancelled r)) by done; specialize (Hl a t); lia.
  - destruct (matchPrice (tk_taker st) maker) eqn:Emp; [|simplify_eq; exists befores; split; [done|]; split; [done|by left]].
    destruct (od_Type (tk_taker st) =? PostOnly); [simplify_eq; exists befores; split; [|split; [done|by left]]|].
    { split; simpl; try done; [|by apply order_ok_status].
      eapply same_terms_trans; [done|apply same_terms_status]. }
    apply outcome_bind_ok in H as ([[taker' maker'] ot] & Htx & H).
    apply calculateOrderAndTx_spec in Htx as T; [|done..|by rewrite (st_side _ _ Ht)].
    destruct T as [T1 T2 T3 T4 T5 T6 T7 T8 T9 T10 T11 Tr T12 T13]; cbv zeta in H.
    set (full := (od_Status taker' =? PartialExecuted) && _) in H.
    set (taker'' := if full then set_status taker' _ _ else taker') in H.
    injection H as <- Hmore.
    assert (Hsame : same_terms taker' taker'' /\ order_ok taker'' /\ (forall t, lock t taker'' = lock t taker')).
    { unfold taker''; destruct full; split_and!; try done; by apply order_ok_status. }
    destruct Hsame as (S1 & S2 & S3); exists (befores ++ [maker]); split; [|split; [|by right]].
    + split; simpl.
      * eapply same_terms_trans; [exact Ht|]; by eapply same_terms_trans.
      * done.
      * unfold taker''; destruct full; [done|]; unfold undone; by rewrite Tr.
      * unfold taker''; destruct full; [done|]; by destruct T12 as [-> | ->].
      * apply Forall2_app; [done|]; constructor; [|done]; done.
      * apply Forall_app; split; [done|]; constructor; [|done]; split; [done|].
        rewrite T8; eapply within_limit_terms; [done|by apply matchPrice_within].
      * rewrite length_app; simpl; unfold room in Hroom; lia.
      * intros a t; rewrite !zsum_app; simpl; specialize (Hl a t); unfold tx_at in Hl |- *.
        assert (L1 : lock_at a t (tk_taker st) = lock_at a t taker'' +
                     at_address a (ot_takerAddress ot) (tx_out (ot_tx ot) true t)).
        { unfold lock_at; by rewrite T5, (st_address _ _ S1), (st_address _ _ T1), S3, T9, at_address_add. }
        assert (L2 : lock_at a t maker = lock_at a t maker' +
                     at_address a (ot_makerAddress ot) (tx_out (ot_tx ot) false t)).
        { unfold lock_at; by rewrite T6, (st_address _ _ T2), T10, at_address_add. }
        lia.
    + intros ->; split; [done|]; unfold room; cbn [tk_txs] in *; cbn [tk_taker] in Hmore.
      destruct full eqn:Ef; unfold taker'' in Hmore; [done|].
      destruct T12 as [E|E]; rewrite E in Hmore; [done|]; unfold full in Ef; rewrite E in Ef; simpl in Ef; lia.
Qed.
