(* ===== verification/DexSpec.v ===== *)
(** The guarantees of the exchange: every match keeps the ledger of locked funds
    exact, moves tokens without creating or losing any, respects limit prices,
    and leaves the settlements covered by what the orders had locked. *)
From S2P Require Import Prelude Helper Float Types Upgrade VmDb Iterator IteratorSpec.
From S2P Require Import DexNumber DexNumberSpec DexOrder DexMatcher DexExchange DexWorld DexBookSpec DexMatcherSpec.
From stdpp Require Import sorting.
From Stdlib Require Import ZifyBool.
#[local] Open Scope Z_scope.

(** ** Stored orders *)

(** An order as it lies in the book. *)
Record resting (o : Order) : Prop := {
  rs_ok : order_ok o;
  rs_open : closed o = false;
  rs_keyed : keyed o;
}.

(** An entry of the book decodes, if at all, to a resting order of the side. *)
Definition entry_ok (e : dexEnv) (side : bool) (kv : bytes * bytes) : Prop :=
  forall o, decode_entry e kv = Ok o -> resting o /\ od_Side o = side /\ od_Id o = kv.1.

Abbreviation decodes e := (Forall2 (fun kv o => decode_entry e kv = Ok o)).

Lemma take_from_spec e db m height taker0 befores st maker kv rest st' :
  IsDexFeeUpgrade (dex_box e) height = true -> took taker0 befores st -> room st ->
  Forall (entry_ok e (negb (od_Side taker0))) (kv :: rest) -> decode_entry e kv = Ok maker ->
  take_from e db m height st maker rest = Ok st' ->
  exists visited os, visited `prefix_of` kv :: rest /\ decodes e visited os /\ took taker0 (befores ++ os) st'.
Proof.
  intros Hup; revert befores st maker kv; induction rest as [|kv' rest IH];
    intros befores st maker kv Ht Hroom Hall Hdec H; apply Forall_cons_1 in Hall as [Hkv Hall];
    destruct (Hkv _ Hdec) as (Hrest & Hside & _); cbn [take_from] in H;
    apply outcome_bind_ok in H as ([st1 more] & Htk & H);
    destruct (take_maker_spec _ _ _ _ _ _ _ _ _ _ Hup Ht Hroom (rs_ok _ Hrest) Hside Htk) as (b' & Ht' & Hmore & Hb').
  - destruct more; simplify_eq.
    + destruct (Hmore eq_refl) as [-> _]; exists [kv], [maker]; split; [done|]; split; [by repeat constructor|done].
    + destruct Hb' as [->| ->].
      * exists [], []; split; [apply prefix_nil|]; split; [constructor|by rewrite app_nil_r].
      * exists [kv], [maker]; split; [done|]; split; [by repeat constructor|done].
  - destruct more; simplify_eq.
    + destruct (Hmore eq_refl) as [-> Hroom']; apply outcome_bind_ok in H as (maker' & Hdec' & H).
      destruct (IH _ _ _ _ Ht' Hroom' Hall Hdec' H) as (vis & os & Hp & Hf & Htk').
      exists (kv :: vis), (maker :: os); split; [by apply prefix_cons|]; split; [by constructor|].
      by rewrite <- app_assoc in Htk'.
    + destruct Hb' as [->| ->].
      * exists [], []; split; [apply prefix_nil|]; split; [constructor|by rewrite app_nil_r].
      * exists [kv], [maker]; split; [by apply prefix_cons, prefix_nil|]; split; [by repeat constructor|done].
Qed.

(** ** The taker at the end *)

(** A new order has executed nothing. *)
Record fresh (o : Order) : Prop := {
  fr_ok : order_ok o;
  fr_keyed : keyed o;
  fr_status : od_Status o = Pending;
  fr_reason : od_CancelReason o = cancelledByUser;
  fr_executed : val (od_ExecutedQuantity o) = 0 /\ val (od_ExecutedAmount o) = 0 /\
    val (od_ExecutedBaseFee o) = 0 /\ val (od_ExecutedOperatorFee o) = 0;
}.

(** Nothing executed. *)
Definition reset_executed (o : Order) : Order := set_executed o [] [] [] [].

Lemma reset_ok o : order_ok o -> order_ok (reset_executed o).
Proof.
  intros []; split; simpl; auto; change (val []) with 0; intros; try apply SetBytes_nonneg.
Qed.

Record taker_handled (e : dexEnv) (mc : Matcher) (taker : Order) (mc' : Matcher) (taker' : Order) : Prop := {
  th_terms : same_terms taker taker';
  th_ok : order_ok taker';
  th_lock t : lock t taker' = if undone taker' then lock t (reset_executed taker) else lock t taker;
  th_closed : undone taker' = true -> closed taker' = true;
  th_inc a t : inc mc' a t = inc mc a t;
  th_reduced a t : reduced mc' a t = reduced mc a t;
  th_released a t : released mc' a t = released mc a t + closed_lock_at a t taker';
  th_fees a : fees_of mc' a = fees_of mc a;
  th_market : mt_MarketInfo mc' = mt_MarketInfo mc;
  th_db k : len k = OrderIdBytesLength ->
    db_GetValue (mt_db mc') k = if closed taker' then db_GetValue (mt_db mc) k
      else if decide (k = od_Id taker) then Ok (SerializeCompact e taker') else db_GetValue (mt_db mc) k;
}.

(** A refund of a closed order, as a way to end. *)
Lemma refund_handled e mc taker base mc' taker' :
  same_terms taker base -> order_ok base -> closed base = true ->
  (forall t, lock t base = if undone base then lock t (reset_executed taker) else lock t taker) ->
  handleRefund mc base = (mc', taker') -> taker_handled e mc taker (emitNewOrder e mc' taker') taker'.
Proof.
  intros Hs Hok Hc Hl Hr; apply handleRefund_spec in Hr as [R1 [R2 R2'] (R3 & R4 & R5 & R6) R7 R8 R9 R10 [R11 R12]]; [|done].
  assert (Hlock : forall t, lock t taker' = lock t base).
  { intros t; unfold lock; rewrite (st_side _ _ R1), (st_quantity _ _ R1), (st_amount _ _ R1), (st_fee _ _ R1).
    by rewrite R3, R4, R5, R6. }
  assert (Hund : undone taker' = undone base) by (unfold undone; by rewrite R2').
  assert (Hcl : closed taker' = true) by (unfold closed in *; by rewrite R2).
  split; try done.
  - by eapply same_terms_trans.
  - destruct Hok, R1 as [? ? ? ? ? ? ? Hq Ha Hf ? (Hr1 & Hr2 & Hr3 & Hr4)].
    split; rewrite ?R3, ?R4, ?R5, ?R6, ?Hq, ?Ha, ?Hf, ?Hr1, ?Hr2, ?Hr3, ?Hr4; auto;
      intros Hside; rewrite st_side in Hside; auto.
  - intros t; by rewrite Hlock, Hund.
  - intros a t; change (released (emitNewOrder e mc' taker') a t) with (released mc' a t); rewrite R9.
    unfold closed_lock_at; rewrite Hc, Hcl; unfold lock_at; by rewrite Hlock, (st_address _ _ R1).
  - intros k _; simpl; rewrite Hcl; apply R11.
Qed.

Lemma handleTakerRes_spec e mc taker mc' taker' :
  order_ok taker -> keyed taker -> undone taker = false -> Pending <= od_Status taker <= Cancelled ->
  handleTakerRes e mc taker = Ok (mc', taker') -> taker_handled e mc taker mc' taker'.
Proof.
  intros Hok Hk Hu Hst; unfold handleTakerRes, checkMarketOrderAmtThreshold.
  destruct ((od_Type taker =? Market) && _) eqn:Em; intros H; apply outcome_bind_ok in H as ([mc1 t1] & H1 & H); simplify_eq.
  { refine (refund_handled _ _ _ _ _ _ _ _ _ _ H1); try done; by apply (reset_ok (set_status taker _ _)), order_ok_status. }
  destruct ((od_Status taker =? PartialExecuted) || (od_Status taker =? Pending)) eqn:Eo.
  - destruct ((od_Type taker =? Market) || (od_Type taker =? ImmediateOrCancel)).
    { apply Ok_inj in H1; refine (refund_handled _ _ _ _ _ _ _ _ _ _ H1); try done; by apply order_ok_status. }
    destruct (od_Type taker =? FillOrKill).
    { apply Ok_inj in H1; refine (refund_handled _ _ _ _ _ _ _ _ _ _ H1); try done.
      by apply (reset_ok (set_status taker _ _)), order_ok_status. }
    assert (Hc : closed taker = false) by (unfold closed, FullyExecuted, Cancelled, PartialExecuted, Pending in *; lia).
    replace (od_Status taker =? Cancelled) with false in H1 by (unfold closed in Hc; lia).
    apply outcome_bind_ok in H1 as (mc2 & Hs & H1); simplify_eq.
    destruct (saveOrder_spec _ _ _ _ _ Hk Hs) as [Hss Hw].
    destruct (same_settles_view _ _ Hss) as (I & R & L & F); destruct Hss as (_ & _ & Hm).
    split; try done; intros; simpl.
    + by rewrite Hu.
    + rewrite Hu in *; done.
    + change (released (emitNewOrder e mc1 taker') a t) with (released mc1 a t); rewrite L; unfold closed_lock_at; rewrite Hc; lia.
    + rewrite Hc; by apply Hw.
  - apply Ok_inj in H1; refine (refund_handled _ _ _ _ _ _ (same_terms_refl _) Hok _ _ H1).
    + unfold closed, FullyExecuted, Cancelled, PartialExecuted, Pending in *; lia.
    + intros t; by rewrite Hu.
Qed.

(** ** A whole match *)

Record matched (e : dexEnv) (mc : Matcher) (taker : Order) (entries : list (bytes * bytes))
    (mc' : Matcher) (taker' : Order) (visited : list (bytes * bytes)) (os afters : list Order)
    (txs : list OrderTx) : Prop := {
  mh_visited : visited `prefix_of` entries;
  mh_decoded : decodes e visited os;
  mh_afters : Forall2 (fun b a => same_terms b a /\ order_ok a) os afters;
  mh_terms : same_terms taker taker';
  mh_ok : order_ok taker';
  mh_trades : Forall (fun ot => tx_ok (ot_tx ot) /\ within_limit taker (tx_Price (ot_tx ot))) txs;
  mh_count : Z.of_nat (length txs) <= maxTxsCountPerTaker;
  mh_ledger a t : lock_at a t taker + zsum (lock_at a t) os =
    open_lock_at a t taker' + zsum (open_lock_at a t) afters + reduced mc' a t + released mc' a t;
  mh_inc a t : inc mc' a t = zsum (fun ot => tx_at tx_in ot a t) txs;
  mh_reduced a t : reduced mc' a t = zsum (fun ot => tx_at tx_out ot a t) txs;
  mh_fees a : fees_of mc' a = zsum (fun ot => tx_at (fun tx taker _ => tx_fees tx taker) ot a false) txs;
  mh_makers o : o ∈ afters -> db_GetValue (mt_db mc') (od_Id o) = Ok (entry_of e o);
  mh_taker : closed taker' = false ->
    db_GetValue (mt_db mc') (od_Id taker) = Ok (SerializeCompact e taker');
  mh_others k : len k = OrderIdBytesLength -> k ∉ od_Id <$> afters -> (closed taker' = true \/ k <> od_Id taker) ->
    db_GetValue (mt_db mc') k = db_GetValue (mt_db mc) k;
}.

Lemma TryUpdateTimestamp_spec db timestamp preHash db' k :
  TryUpdateTimestamp db timestamp preHash = Ok db' -> len k = OrderIdBytesLength ->
  db_GetValue db' k = db_GetValue db k.
Proof.
  intros H Hk; apply outcome_bind_ok in H as (h & _ & H); case_match; simplify_eq; [|done].
  rewrite (setValueToDb_spec _ _ _ _ k H); case_decide as E; [by rewrite E in Hk|done].
Qed.

Definition no_settles (mc : Matcher) : Prop := mt_fundSettles mc = ∅ /\ mt_feeSettles mc = ∅.

Lemma no_settles_view mc : no_settles mc ->
  (forall a t, inc mc a t = 0) /\ (forall a t, reduced mc a t = 0) /\ (forall a t, released mc a t = 0) /\
  (forall a, fees_of mc a = 0).
Proof.
  intros [E1 E2]; unfold inc, reduced, released, fees_of, settle_of; rewrite E1, E2.
  split_and!; intros; by rewrite lookup_empty.
Qed.

Lemma reset_executed_lock o t : fresh o -> lock t (reset_executed o) = lock t o.
Proof.
  intros [_ _ _ _ (H1 & H2 & H3 & H4)]; unfold lock; simpl; rewrite H1, H2, H3, H4; done.
Qed.

(** Taking up nothing: the book is empty or the trades were dropped. *)
Lemma matched_nothing e mc mc1 taker st entries mc' taker' :
  no_settles mc -> fresh taker -> taker_handled e mc st mc1 taker' ->
  same_terms taker st -> (forall t, lock t taker' = lock t taker) ->
  same_settles mc1 mc' -> (forall k, len k = OrderIdBytesLength -> db_GetValue (mt_db mc') k = db_GetValue (mt_db mc1) k) ->
  matched e mc taker entries mc' taker' [] [] [] [].
Proof.
  intros Hno Hfr [T1 T2 _ _ T5 T6 T7 T8 T9 T10] Hst Hl Hss Hdb.
  destruct (no_settles_view _ Hno) as (I0 & R0 & L0 & F0), (same_settles_view _ _ Hss) as (I & R & L & F).
  pose proof (same_terms_trans _ _ _ Hst T1) as Ht; destruct (fr_keyed _ Hfr) as [Hid _ _ _].
  split; try done; try (by constructor).
  - apply prefix_nil.
  - intros a t; simpl; rewrite R, L, T6, T7, R0, L0; unfold closed_lock_at, open_lock_at, lock_at.
    rewrite Hl, (st_address _ _ Ht); destruct (closed taker'); lia.
  - intros a t; by rewrite I, T5, I0.
  - intros a t; by rewrite R, T6, R0.
  - intros a; by rewrite F, T8, F0.
  - set_solver.
  - intros Hc; rewrite Hdb, T10, Hc, (st_id _ _ Hst) by done; by rewrite decide_True.
  - intros k Hk _ Hor; rewrite Hdb, T10, (st_id _ _ Hst) by done.
    destruct (closed taker'); [done|]; case_decide; [by destruct Hor|done].
Qed.

Lemma reset_terms o o' t : same_terms o o' -> lock t (reset_executed o') = lock t (reset_executed o).
Proof. intros []; unfold lock; simpl; by rewrite st_side, st_quantity, st_amount, st_fee. Qed.

Lemma decodes_ids e side visited os : Forall (entry_ok e side) visited -> decodes e visited os ->
  od_Id <$> os = visited.*1 /\ Forall keyed os.
Proof.
  intros Hall Hd; induction Hd as [|kv o visited os Hkv _ IH]; [done|].
  apply Forall_cons_1 in Hall as [Hok Hall]; destruct (Hok _ Hkv) as ([_ _ Hk] & _ & Hid), (IH Hall) as [E Hf].
  rewrite !fmap_cons, E, Hid; split; [done|by constructor].
Qed.

Lemma afters_ids os afters : Forall2 (fun b a => same_terms b a /\ order_ok a) os afters ->
  od_Id <$> afters = od_Id <$> os /\ Forall order_ok afters /\ (Forall keyed os -> Forall keyed afters).
Proof.
  induction 1 as [|b a os afters [Ht Ho] _ (E & Hok & Hk)]; [done|].
  rewrite !fmap_cons, E, (st_id _ _ Ht); split; [done|]; split; [by constructor|].
  intros [Hb Hos]%Forall_cons_1; constructor; [by eapply keyed_terms|auto].
Qed.

Lemma matched_trades e mc mc2 mc3 taker entries visited os st taker' mc' :
  no_settles mc -> fresh taker -> Forall (entry_ok e (negb (od_Side taker))) entries ->
  StronglySorted klt entries -> od_Id taker ∉ entries.*1 ->
  visited `prefix_of` entries -> decodes e visited os -> took taker os st ->
  taker_handled e mc (tk_taker st) mc2 taker' -> undone taker' = false ->
  handleModifiedMakers e mc2 (tk_makers st) = Ok mc3 ->
  same_settles (handleTxs e mc3 (tk_txs st)) mc' ->
  (forall k, len k = OrderIdBytesLength ->
     db_GetValue (mt_db mc') k = db_GetValue (mt_db (handleTxs e mc3 (tk_txs st))) k) ->
  matched e mc taker entries mc' taker' visited os (tk_makers st) (tk_txs st).
Proof.
  intros Hno Hfr Hent Hsort Hnid Hpre Hdec [K1 K2 K3 _ K4 K5 K6 K7] [T1 T2 T3 _ T5 T6 T7 T8 T9 T10] Hu Hmm Hss Hdb.
  destruct (no_settles_view _ Hno) as (I0 & R0 & L0 & F0), (same_settles_view _ _ Hss) as (I & R & L & F).
  destruct Hpre as [tl Hent']; assert (Hvis : Forall (entry_ok e (negb (od_Side taker))) visited).
  { rewrite Hent' in Hent; by apply Forall_app in Hent as [? _]. }
  destruct (decodes_ids _ _ _ _ Hvis Hdec) as [Eids Hky], (afters_ids _ _ K4) as (Ea & Hok & Hk).
  assert (Hnd : NoDup (od_Id <$> tk_makers st)).
  { rewrite Ea, Eids; pose proof (sorted_NoDup _ Hsort) as Hn; rewrite Hent', fmap_app in Hn.
    by apply NoDup_app in Hn as [? _]. }
  assert (Hti : od_Id taker ∉ od_Id <$> tk_makers st).
  { rewrite Ea, Eids; intros Hin; apply Hnid; rewrite Hent', fmap_app; apply elem_of_app; by left. }
  destruct (handleModifiedMakers_spec _ _ _ _ Hok (Hk Hky) Hnd Hmm) as (I3 & R3 & L3 & F3 & M3 & G3 & U3).
  assert (Htx : Forall (fun ot => tx_ok (ot_tx ot)) (tk_txs st)) by (eapply Forall_impl; [exact K5|]; by intros ? [? _]).
  pose proof (fun a t => handleTxs_spec e mc3 (tk_txs st) a t Htx) as Hts.
  pose proof (same_terms_trans _ _ _ K1 T1) as Ht; destruct (fr_keyed _ Hfr) as [Hid _ _ _].
  assert (Hview : forall k, len k = OrderIdBytesLength -> db_GetValue (mt_db mc') k = db_GetValue (mt_db mc3) k).
  { intros k Hlen; destruct (Hts ZERO_ADDRESS true) as (_ & _ & _ & _ & [Sb _]); by rewrite Hdb, Sb. }
  split; try done; [by exists tl|..].
  - intros a t; destruct (Hts a t) as (_ & Er & El & _); specialize (K7 a t); rewrite zsum_lock_split in K7.
    rewrite zsum_lock_split in K7; rewrite R, Er, L, El, R3, L3, T6, T7, R0, L0.
    specialize (T3 t); rewrite Hu in T3.
    assert (Elt : lock_at a t (tk_taker st) = open_lock_at a t taker' + closed_lock_at a t taker').
    { rewrite <- lock_at_split; unfold lock_at; by rewrite T3, (st_address _ _ T1). }
    rewrite (zsum_lock_split a t os); lia.
  - intros a t; destruct (Hts a t) as (Ei & _); by rewrite I, Ei, I3, T5, I0.
  - intros a t; destruct (Hts a t) as (_ & Er & _); by rewrite R, Er, R3, T6, R0.
  - intros a; destruct (Hts a false) as (_ & _ & _ & Ef & _); by rewrite F, Ef, F3, T8, F0.
  - intros o Ho; rewrite Hview; [by apply G3|].
    specialize (Hk Hky); rewrite Forall_forall in Hk; by apply Hk.
  - intros Hc; rewrite Hview, U3, T10, Hc, (st_id _ _ K1) by done; by rewrite decide_True.
  - intros k Hlen Hk' Hor; rewrite Hview, U3, T10, (st_id _ _ K1) by done.
    destruct (closed taker'); [done|]; case_decide; [by destruct Hor|done].
Qed.

Lemma match_sorted_spec e mc taker entries preHash mc' taker' :
  no_settles mc -> fresh taker -> Forall (entry_ok e (negb (od_Side taker))) entries ->
  StronglySorted klt entries -> od_Id taker ∉ entries.*1 ->
  (forall h, latestHeight (mt_db mc) = Ok h -> IsDexFeeUpgrade (dex_box e) h = true) ->
  match_sorted e mc taker entries preHash = Ok (mc', taker') ->
  exists visited os afters txs, matched e mc taker entries mc' taker' visited os afters txs.
Proof.
  intros Hno Hfr Hent Hsort Hnid Hup H; apply outcome_bind_ok in H as ([mc1 t1] & H1 & H).
  apply outcome_bind_ok in H as (db & Hts & H); apply Ok_inj in H; simplify_eq.
  assert (Hdb : forall k, len k = OrderIdBytesLength -> db_GetValue (mt_db (with_db mc1 db)) k = db_GetValue (mt_db mc1) k).
  { intros k Hk; simpl; by eapply TryUpdateTimestamp_spec. }
  assert (Hss : same_settles mc1 (with_db mc1 db)) by done.
  assert (Hu0 : undone taker = false) by (unfold undone; by rewrite (fr_reason _ Hfr)).
  assert (Hfs : Pending <= od_Status taker <= Cancelled) by (by rewrite (fr_status _ Hfr)).
  destruct entries as [|kv rest].
  { pose proof (handleTakerRes_spec _ _ _ _ _ (fr_ok _ Hfr) (fr_keyed _ Hfr) Hu0 Hfs H1) as Hh.
    do 4 eexists; eapply matched_nothing; try done.
    intros t; rewrite (th_lock _ _ _ _ _ Hh); destruct (undone taker'); [by apply reset_executed_lock|done]. }
  apply outcome_bind_ok in H1 as (maker & Hdec & H1); apply outcome_bind_ok in H1 as (h & Hh & H1).
  apply outcome_bind_ok in H1 as (st & Htake & H1); apply outcome_bind_ok in H1 as ([mc2 t2] & Hres & H1).
  destruct (take_from_spec _ _ _ _ _ [] _ _ _ _ _ (Hup _ Hh) (took_start _ (fr_ok _ Hfr) Hu0 (fr_status _ Hfr))
              ltac:(done) Hent Hdec Htake) as (visited & os & Hp & Hd & Htk).
  assert (Hks : keyed (tk_taker st)) by (eapply keyed_terms; [apply Htk|apply Hfr]).
  pose proof (handleTakerRes_spec _ _ _ _ _ (tk_ok _ _ _ Htk) Hks (tk_done _ _ _ Htk) (tk_status _ _ _ Htk) Hres) as Hth.
  destruct (undone t2) eqn:Eu; simplify_eq.
  - do 4 eexists; eapply matched_nothing; try done; [apply Htk|].
    intros t; rewrite (th_lock _ _ _ _ _ Hth), Eu, (reset_terms taker) by apply Htk; by apply reset_executed_lock.
  - apply outcome_bind_ok in H1 as (mc3 & Hmm & H1); simplify_eq.
    exists visited, os, (tk_makers st), (tk_txs st); by eapply matched_trades.
Qed.

(** ** Reading stored orders back *)

(** What the protobuf library promises about orders. *)
Record order_codec (e : dexEnv) : Prop := {
  oc_roundtrip o : unmarshal_Order e (marshal_Order e o) = Some o;
  oc_not_empty o : od_Address o <> [] -> marshal_Order e o <> [];
}.

Lemma decode_saved e o : order_codec e -> keyed o -> decode_entry e (od_Id o, SerializeCompact e o) = Ok o.
Proof.
  intros [Hr Hn] [Hid _ Ha Hp]; unfold decode_entry; cbn [fst snd]; rewrite Hid.
  assert (Hl : len (SerializeCompact e o) =? 0 = false).
  { assert (Hne : SerializeCompact e o <> []) by (by apply Hn).
    destruct (SerializeCompact e o); [done|]; unfold len; simpl; lia. }
  rewrite Hl; change (OrderIdBytesLength =? OrderIdBytesLength) with true; cbn [negb orb].
  unfold DeSerializeCompact, SerializeCompact, Serialize; rewrite Hr; unfold RenderOrderById; rewrite Hp.
  by destruct o.
Qed.

Lemma decode_empty e k o : decode_entry e (k, []) <> Ok o.
Proof. unfold decode_entry; cbn [fst snd]; change (len [] =? 0) with true; by rewrite orb_true_r. Qed.

Lemma decode_length e k v o : decode_entry e (k, v) = Ok o -> len k = OrderIdBytesLength.
Proof. unfold decode_entry; cbn [fst snd]; destruct (Z.eqb_spec (len k) OrderIdBytesLength); [done|]; done. Qed.

Lemma DeComposeOrderId_side marketId side k m s p ts :
  getBookPrefix marketId side `prefix_of` k -> DeComposeOrderId k = Ok (m, s, p, ts) -> s = side.
Proof.
  intros [r ->] H; unfold DeComposeOrderId in H; case_match; [done|].
  apply outcome_bind_ok in H as (mk & _ & H); apply outcome_bind_ok in H as (b & Hb & H).
  apply outcome_bind_ok in H as (t & _ & H); apply Ok_inj in H; simplify_eq.
  unfold getBookPrefix, Uint32ToBytes in Hb; rewrite (low_bytes 1 3), <- app_assoc in Hb.
  rewrite lookup_app_r in Hb by (by rewrite length_be_bytes); rewrite length_be_bytes in Hb; simpl in Hb.
  simplify_eq; by destruct side.
Qed.

Lemma decode_key e marketId side k v o :
  getBookPrefix marketId side `prefix_of` k -> decode_entry e (k, v) = Ok o ->
  od_Id o = k /\ od_Side o = side /\ DeComposeOrderId k = Ok (od_MarketId o, od_Side o, od_Price o, od_Timestamp o).
Proof.
  intros Hp; unfold decode_entry, DeSerializeCompact; cbn [fst snd]; case_match; [done|].
  destruct (unmarshal_Order e v) as [o0|]; [|done]; unfold RenderOrderById.
  destruct (DeComposeOrderId k) as [[[[m s] p] ts]| |] eqn:E; simpl; [|done..]; intros Ho; simplify_eq; simpl.
  by rewrite (DeComposeOrderId_side _ _ _ _ _ _ _ Hp E).
Qed.

(** ** Funds that cover the book *)

(** A measure of orders, on the order stored under a key. *)
Definition weight (e : dexEnv) (view : bytes -> bytes) (q : Order -> Z) (id : bytes) : Z :=
  match decode_entry e (id, view id) with Ok o => q o | _ => 0 end.

(** The trade token and the quote token of every market. *)
Abbreviation market_tokens := (Z -> bool -> TokenTypeId).

(** What a market's two tokens amount to in the given token. *)
Definition in_token (tokens : market_tokens) (m : Z) (tok : TokenTypeId) (f : bool -> Z) : Z :=
  (if bool_decide (tokens m true = tok) then f true else 0) + (if bool_decide (tokens m false = tok) then f false else 0).

(** What an order locks of a token for an account. *)
Definition demand (tokens : market_tokens) (a : Address) (tok : TokenTypeId) (o : Order) : Z :=
  in_token tokens (od_MarketId o) tok (fun t => lock_at a t o).

(** The funds [L] of every account cover what the orders in all books lock,
    whichever of them are counted, next to what [extra] takes. *)
Definition covered (e : dexEnv) (tokens : market_tokens) (view : bytes -> bytes) (excluded : list bytes)
    (extra L : Address -> TokenTypeId -> Z) : Prop :=
  forall ids a tok, NoDup ids -> (forall id, id ∈ ids -> id ∉ excluded) ->
    extra a tok + zsum (weight e view (demand tokens a tok)) ids <= L a tok.

(** Every order stored in the market is well-formed and open. *)
Definition book_ok (e : dexEnv) (db : vmDb) (marketId : Z) : Prop :=
  forall side k v o, getBookPrefix marketId side `prefix_of` k -> db_GetValue db k = Ok v ->
    decode_entry e (k, v) = Ok o ->
    order_ok o /\ closed o = false /\ (od_SendHash o = [] \/ length (od_SendHash o) = 32%nat) /\ od_Address o <> [].

(** Only one key counts. *)
(** ** The setting of a match *)

Record match_setting (e : dexEnv) (mc : Matcher) (taker : Order) (items : list (bytes * bytes)) : Prop := {
  ms_reachable : rtc uns_step NewUnsaved (uns (mt_db mc));
  ms_chain : chain_iterates (mt_db mc) (getBookPrefix (mk_MarketId (mt_MarketInfo mc)) (negb (od_Side taker))) items;
  ms_fuel : (size (storage (uns (mt_db mc))) + length items < scan_fuel e)%nat;
  ms_codec : order_codec e;
  ms_book : book_ok e (mt_db mc) (mk_MarketId (mt_MarketInfo mc));
  ms_taker : fresh taker;
  ms_key : getBookPrefix (mk_MarketId (mt_MarketInfo mc)) (od_Side taker) `prefix_of` od_Id taker;
  ms_new : db_GetValue (mt_db mc) (od_Id taker) = Ok [];
  ms_settles : no_settles mc;
  ms_upgrade h : latestHeight (mt_db mc) = Ok h -> IsDexFeeUpgrade (dex_box e) h = true;
}.

(** The entries a match reads. *)
Lemma match_order_entries e mc taker items preHash : match_setting e mc taker items ->
  exists M, MatchOrder e mc taker preHash = match_sorted e mc taker (storage_list M) preHash /\
    (forall k v, M !! k = Some v ->
       getBookPrefix (mk_MarketId (mt_MarketInfo mc)) (negb (od_Side taker)) `prefix_of` k /\
       db_GetValue (mt_db mc) k = Ok v /\ v <> []) /\
    Forall (entry_ok e (negb (od_Side taker))) (storage_list M).
Proof.
  intros [Hr Hc Hf Hcd Hb Ht Hk Hn Hs Hup].
  destruct (MatchOrder_book e mc taker preHash items Hr Hc Hf) as (M & Hm & HM); exists M; split; [done|].
  split; [by intros k v (_ & ?)%HM|].
  apply Forall_forall; intros [k v] (_ & Hp & Hv & _)%elem_of_storage_list%HM o Ho.
  destruct (Hb _ _ _ _ Hp Hv Ho) as (? & ? & ? & ?), (decode_key _ _ _ _ _ _ Hp Ho) as (E1 & E2 & E3).
  split; [|done]; split; [done|done|]; split; [|done|done|by rewrite E1].
  rewrite E1; by eapply decode_length.
Qed.

Lemma match_order_spec e mc taker items preHash mc' taker' :
  match_setting e mc taker items -> MatchOrder e mc taker preHash = Ok (mc', taker') ->
  exists M visited os afters txs,
    (forall k v, M !! k = Some v ->
       getBookPrefix (mk_MarketId (mt_MarketInfo mc)) (negb (od_Side taker)) `prefix_of` k /\
       db_GetValue (mt_db mc) k = Ok v /\ v <> []) /\
    Forall (entry_ok e (negb (od_Side taker))) (storage_list M) /\
    matched e mc taker (storage_list M) mc' taker' visited os afters txs.
Proof.
  intros Hset H; destruct (match_order_entries _ _ _ _ preHash Hset) as (M & Hm & HM & Hent); rewrite Hm in H.
  destruct Hset as [_ _ _ _ _ Ht _ Hn Hs Hup].
  assert (Hnid : od_Id taker ∉ (storage_list M).*1).
  { intros ([k v] & E & (_ & Hv & Hne)%elem_of_storage_list%HM)%list_elem_of_fmap; simpl in E; subst k.
    rewrite Hn in Hv; congruence. }
  destruct (match_sorted_spec _ _ _ _ _ _ _ Hs Ht Hent (storage_list_sorted M) Hnid Hup H) as (vis & os & af & txs & Hma).
  by exists M, vis, os, af, txs.
Qed.

Lemma weight_others e view view' q id :
  (len id = OrderIdBytesLength -> view' id = view id) -> weight e view' q id = weight e view q id.
Proof.
  intros H; unfold weight; destruct (Z.eqb_spec (len id) OrderIdBytesLength) as [E|E]; [by rewrite H|].
  assert (Hz : forall v, match decode_entry e (id, v) with Ok o => q o | _ => 0 end = 0).
  { intros v; destruct (decode_entry e (id, v)) eqn:Ed; [|done..]; by apply decode_length in Ed. }
  by rewrite !Hz.
Qed.

(** The measure of an order that still rests. *)
Definition open_part (q : Order -> Z) (o : Order) : Z := if closed o then 0 else q o.

Lemma weight_of e view q id o : view id = entry_of e o -> id = od_Id o -> order_codec e -> keyed o ->
  weight e view q id = open_part q o.
Proof.
  intros Hv -> Hc Hk; unfold weight, open_part, entry_of in *; rewrite Hv; destruct (closed o).
  - destruct (decode_entry e (od_Id o, [])) eqn:E; [by apply decode_empty in E|done..].
  - by rewrite decode_saved.
Qed.

(** The orders taken from the book weigh what they lock. *)
Lemma weight_visited e view q visited os :
  (forall kv, kv ∈ visited -> view kv.1 = kv.2) -> decodes e visited os ->
  zsum (weight e view q) visited.*1 = zsum q os.
Proof.
  intros Hv Hd; induction Hd as [|[k v] o visited os Hkv _ IH]; [done|].
  rewrite fmap_cons, !zsum_cons, IH by (intros kv Hin; apply Hv, elem_of_cons; by right); f_equal.
  unfold weight; cbn [fst].
  pose proof (Hv (k, v) ltac:(apply elem_of_cons; by left)) as E; simpl in E; by rewrite E, Hkv.
Qed.

(** The keys a match may have written. *)
Definition touched (taker : Order) (afters : list Order) : list bytes := od_Id taker :: (od_Id <$> afters).

(** What the book holds after a match: the orders that were touched, with what is
    left of them, and the others as before. *)
Lemma weights_after e mc taker entries mc' taker' visited os afters txs q ids :
  matched e mc taker entries mc' taker' visited os afters txs -> order_codec e -> keyed taker ->
  Forall keyed afters -> Forall order_ok afters -> od_Id taker ∉ od_Id <$> afters ->
  db_GetValue (mt_db mc) (od_Id taker) = Ok [] -> NoDup ids -> (forall o, order_ok o -> 0 <= q o) ->
  zsum (weight e (view_of (mt_db mc')) q) ids <=
    open_part q taker' + zsum (open_part q) afters +
    zsum (weight e (view_of (mt_db mc)) q) (filter (fun x => x ∉ touched taker afters) ids).
Proof.
  intros [_ _ _ Hterms Hokt _ _ _ _ _ _ Hmk Htk Hoth] Hcd Hkt Hka Hoka Hti Hnew Hnd Hq.
  rewrite Forall_forall in Hka, Hoka.
  assert (Hwt : weight e (view_of (mt_db mc')) q (od_Id taker) = open_part q taker').
  { apply weight_of; [|by rewrite (st_id _ _ Hterms)|done|by eapply keyed_terms].
    apply view_Ok; unfold entry_of; destruct (closed taker') eqn:Ec; [|by apply Htk].
    rewrite Hoth; [done|apply Hkt|done|by left]. }
  assert (Hwo : forall o, o ∈ afters -> weight e (view_of (mt_db mc')) q (od_Id o) = open_part q o).
  { intros o Ho; apply weight_of; [by apply view_Ok, Hmk|done|done|by apply Hka]. }
  assert (Hpos : forall o, order_ok o -> 0 <= open_part q o).
  { intros o Ho; unfold open_part; destruct (closed o); [done|by apply Hq]. }
  etransitivity; [apply (zsum_le_split _ _ (touched taker afters)); [done|]|].
  - intros x [->|(o & -> & Ho)%list_elem_of_fmap]%elem_of_cons; [rewrite Hwt|rewrite Hwo by done]; auto.
  - unfold touched at 1; rewrite zsum_cons, Hwt, zsum_fmap, (zsum_ext _ (open_part q)) by done.
    rewrite (zsum_ext _ (weight e (view_of (mt_db mc)) q)); [done|].
    intros x [Hx _]%list_elem_of_filter; apply weight_others; intros Hlen; unfold view_of.
    apply not_elem_of_cons in Hx as [Hx1 Hx2]; rewrite Hoth; [done|done|done|by right].
Qed.

(** Orders of one market, token by token. *)
Lemma in_token_add tokens m tok f g :
  in_token tokens m tok (fun t => f t + g t) = in_token tokens m tok f + in_token tokens m tok g.
Proof. unfold in_token; repeat case_bool_decide; lia. Qed.

Lemma in_token_zsum {A} tokens m tok (f : bool -> A -> Z) l :
  in_token tokens m tok (fun t => zsum (f t) l) = zsum (fun x => in_token tokens m tok (fun t => f t x)) l.
Proof.
  induction l as [|x l IH]; simpl; [unfold in_token; by repeat case_bool_decide|].
  by rewrite (in_token_add tokens m tok (fun t => f t x) (fun t => zsum (f t) l)), IH.
Qed.

Lemma in_token_ext tokens m tok f g : (forall t, f t = g t) -> in_token tokens m tok f = in_token tokens m tok g.
Proof. intros H; unfold in_token; by rewrite !H. Qed.

Lemma open_demand tokens a tok o :
  open_part (demand tokens a tok) o = in_token tokens (od_MarketId o) tok (fun t => open_lock_at a t o).
Proof.
  unfold open_part, demand, open_lock_at; destruct (closed o); [unfold in_token; by repeat case_bool_decide|done].
Qed.

Lemma demand_nonneg tokens a tok o : order_ok o -> 0 <= demand tokens a tok o.
Proof.
  intros Ho; pose proof (fun t => lock_at_nonneg a t o Ho) as H; pose proof (H true); pose proof (H false).
  unfold demand, in_token; repeat case_bool_decide; lia.
Qed.

(** ** A match that trades *)

Lemma dex_db_get k : db_GetValue dex_db k = Ok (if decide (k = od_Id example_maker) then maker_data else []).
Proof. done. Qed.

Lemma example_codec : order_codec example_dex.
Proof. split; [apply order_roundtrip|]; intros; apply pack_not_empty. Qed.

Lemma example_keyed : keyed example_maker /\ keyed example_taker.
Proof. by repeat split; try (by left); vm_compute. Qed.

Lemma example_ok : order_ok example_maker /\ order_ok example_taker.
Proof. by repeat split; vm_compute. Qed.

(** The only order of the book. *)
Lemma example_decode k v o : db_GetValue dex_db k = Ok v -> decode_entry example_dex (k, v) = Ok o ->
  k = od_Id example_maker /\ o = example_maker.
Proof.
  rewrite dex_db_get; intros Hv%Ok_inj; subst v; case_decide as E; [|by intros ?%decode_empty].
  subst k; unfold maker_data; rewrite decode_saved; [by intros Ho%Ok_inj|apply example_codec|apply example_keyed].
Qed.

Lemma example_setting :
  match_setting example_dex example_matcher example_taker [(od_Id example_maker, maker_data)].
Proof.
  split.
  - apply rtc_refl.
  - apply example_iterates.
  - vm_compute; lia.
  - apply example_codec.
  - intros side k v o _ Hv Ho; destruct (example_decode _ _ _ Hv Ho) as [_ ->].
    destruct example_keyed as [[_ Hh Ha _] _]; split; [apply example_ok|]; split; [by vm_compute|done].
  - split; [apply example_ok|apply example_keyed|done|done|by vm_compute].
  - apply taker_prefix.
  - by vm_compute.
  - done.
  - intros h Hh; vm_compute in Hh; injection Hh as <-; by vm_compute.
Qed.

Lemma example_matches :
  exists mc' taker', MatchOrder example_dex example_matcher example_taker ZERO_HASH = Ok (mc', taker') /\
    reduced mc' buyer false = 200400.
Proof.
  assert (H : match MatchOrder example_dex example_matcher example_taker ZERO_HASH with
              | Ok (mc', _) => reduced mc' buyer false =? 200400 | _ => false end = true) by (by vm_compute).
  destruct (MatchOrder _ _ _ _) as [[mc' t']| |]; [|done..]; exists mc', t'; split; [done|lia].
Qed.

(** ** What a match takes *)

Lemma book_market M side k m s p t : getBookPrefix M side `prefix_of` k -> DeComposeOrderId k = Ok (m, s, p, t) ->
  BytesToUint32 (x00 :: drop 1 (Uint32ToBytes (u32 M))) ≫= (fun id => Ok (i32 id)) = Ok m.
Proof.
  intros [r ->]; unfold DeComposeOrderId; case_match; [done|].
  unfold getBookPrefix, Uint32ToBytes; rewrite (low_bytes 1 3), <- app_assoc.
  rewrite take_app_length' by (by rewrite length_be_bytes).
  intros H'; apply outcome_bind_ok in H' as (id & -> & H'); apply outcome_bind_ok in H' as (b & _ & H').
  apply outcome_bind_ok in H' as (ts & _ & H'); apply Ok_inj in H'; by simplify_eq.
Qed.

Lemma same_book M s1 s2 k1 k2 m1 m2 x1 x2 p1 p2 t1 t2 :
  getBookPrefix M s1 `prefix_of` k1 -> getBookPrefix M s2 `prefix_of` k2 ->
  DeComposeOrderId k1 = Ok (m1, x1, p1, t1) -> DeComposeOrderId k2 = Ok (m2, x2, p2, t2) -> m1 = m2.
Proof.
  intros H1 H2 D1 D2; pose proof (book_market _ _ _ _ _ _ _ H1 D1) as E1.
  rewrite (book_market _ _ _ _ _ _ _ H2 D2) in E1; by apply Ok_inj in E1.
Qed.

Lemma zsum_demand tokens a tok M os : (forall o, o ∈ os -> od_MarketId o = M) ->
  zsum (demand tokens a tok) os = in_token tokens M tok (fun t => zsum (lock_at a t) os).
Proof. intros H; rewrite (in_token_zsum _ _ _ (lock_at a)); apply zsum_ext; intros o Ho; unfold demand; by rewrite H. Qed.

Lemma zsum_open_demand tokens a tok M os : (forall o, o ∈ os -> od_MarketId o = M) ->
  zsum (open_part (demand tokens a tok)) os = in_token tokens M tok (fun t => zsum (open_lock_at a t) os).
Proof.
  intros H; rewrite (in_token_zsum _ _ _ (open_lock_at a)); apply zsum_ext; intros o Ho; by rewrite open_demand, H.
Qed.

(** The settlements of the market in a token. *)
Definition taken (tokens : market_tokens) (m : Z) (mc : Matcher) (a : Address) (tok : TokenTypeId) : Z :=
  in_token tokens m tok (fun t => reduced mc a t + released mc a t).

(** The ledger of a match, token by token. *)
Lemma match_ledger e mc taker entries mc' taker' visited os afters txs tokens a tok :
  matched e mc taker entries mc' taker' visited os afters txs ->
  (forall o, o ∈ os -> od_MarketId o = od_MarketId taker) ->
  demand tokens a tok taker + zsum (demand tokens a tok) os =
  open_part (demand tokens a tok) taker' + zsum (open_part (demand tokens a tok)) afters +
  taken tokens (od_MarketId taker) mc' a tok.
Proof.
  intros Hm Hos; assert (Haf : forall o, o ∈ afters -> od_MarketId o = od_MarketId taker).
  { intros o (i & Hi)%list_elem_of_lookup; destruct (Forall2_lookup_r _ _ _ _ _ (mh_afters _ _ _ _ _ _ _ _ _ _ Hm) Hi)
      as (b & Hb & [Hs _]); rewrite (st_market _ _ Hs); apply Hos; by eapply list_elem_of_lookup_2. }
  rewrite (zsum_demand _ _ _ _ _ Hos), (zsum_open_demand _ _ _ _ _ Haf), open_demand.
  rewrite (st_market _ _ (mh_terms _ _ _ _ _ _ _ _ _ _ Hm)); unfold demand, taken; rewrite <- !in_token_add.
  apply in_token_ext; intros t; pose proof (mh_ledger _ _ _ _ _ _ _ _ _ _ Hm a t); lia.
Qed.

(** What a match takes, together with any orders of the books after it, is no more
    than the taker and some orders of the books before it. *)
Lemma match_demand e mc taker items preHash mc' taker' tokens a tok ids :
  match_setting e mc taker items -> MatchOrder e mc taker preHash = Ok (mc', taker') -> NoDup ids ->
  exists ids0, NoDup ids0 /\ od_Id taker ∉ ids0 /\
    taken tokens (od_MarketId taker) mc' a tok + zsum (weight e (view_of (mt_db mc')) (demand tokens a tok)) ids <=
    demand tokens a tok taker + zsum (weight e (view_of (mt_db mc)) (demand tokens a tok)) ids0.
Proof.
  intros Hset Hmatch Hnd.
  destruct (match_order_spec _ _ _ _ _ _ _ Hset Hmatch) as (M & vis & os & afters & txs & HM & Hent & Hm).
  destruct (mh_visited _ _ _ _ _ _ _ _ _ _ Hm) as [tl Htl]; rewrite Htl in Hent; apply Forall_app in Hent as [Hvis _].
  assert (Hin : forall kv, kv ∈ vis -> M !! kv.1 = Some kv.2).
  { intros [k v] Hkv; apply elem_of_storage_list; rewrite Htl; apply elem_of_app; by left. }
  destruct (decodes_ids _ _ _ _ Hvis (mh_decoded _ _ _ _ _ _ _ _ _ _ Hm)) as [Eids Hky].
  destruct (afters_ids _ _ (mh_afters _ _ _ _ _ _ _ _ _ _ Hm)) as (Ea & Hoka & Hka).
  assert (Hti : od_Id taker ∉ vis.*1).
  { intros ([k v] & E & Hkv%Hin)%list_elem_of_fmap; simpl in *; subst k; destruct (HM _ _ Hkv) as (_ & Hv & Hne).
    rewrite (ms_new _ _ _ _ Hset) in Hv; congruence. }
  assert (Hmk : forall o, o ∈ os -> od_MarketId o = od_MarketId taker).
  { intros o Ho; apply (list_elem_of_fmap_2 od_Id) in Ho as Hid; rewrite Eids in Hid.
    apply list_elem_of_fmap in Hid as (kv & E & (Hp & _)%Hin%HM); rewrite <- E in Hp.
    rewrite Forall_forall in Hky; eapply same_book;
      [exact Hp|apply (ms_key _ _ _ _ Hset)|apply Hky; done|apply (fr_keyed _ (ms_taker _ _ _ _ Hset))]. }
  pose proof (weights_after _ _ _ _ _ _ _ _ _ _ (demand tokens a tok) ids Hm (ms_codec _ _ _ _ Hset)
    (fr_keyed _ (ms_taker _ _ _ _ Hset)) (Hka Hky) Hoka ltac:(by rewrite Ea, Eids) (ms_new _ _ _ _ Hset) Hnd
    (demand_nonneg tokens a tok)) as Hle.
  set (rest := filter _ ids) in Hle; pose proof (match_ledger _ _ _ _ _ _ _ _ _ _ tokens a tok Hm Hmk).
  assert (Hrest : forall x, x ∈ rest -> x <> od_Id taker /\ x ∉ vis.*1).
  { intros x [Hx _]%list_elem_of_filter; apply not_elem_of_cons in Hx as [? Hx]; by rewrite Ea, Eids in Hx. }
  exists (vis.*1 ++ rest); split; [|split].
  - apply NoDup_app; split; [|split; [by intros x ? (_ & ?)%Hrest|by apply NoDup_filter]].
    pose proof (sorted_NoDup _ (storage_list_sorted M)) as Hn; rewrite Htl, fmap_app in Hn.
    by apply NoDup_app in Hn as [? _].
  - by intros [Hx|[Hx _]%Hrest]%elem_of_app.
  - rewrite zsum_app, (weight_visited _ _ _ _ os); [lia| |apply Hm].
    intros kv Hkv%Hin; apply HM in Hkv as (_ & ? & _); by apply view_Ok.
Qed.

(** C15 Settling a match never takes more from an account than its orders had
    locked: if the locked funds of every account cover its orders in all books
    before the match, the taker included, then after it they cover what the
    match reduces and releases together with all orders that are left. *)
Theorem match_keeps_funds_covered e mc taker items preHash mc' taker' tokens L :
  match_setting e mc taker items -> MatchOrder e mc taker preHash = Ok (mc', taker') ->
  covered e tokens (view_of (mt_db mc)) [od_Id taker] (fun a tok => demand tokens a tok taker) L ->
  covered e tokens (view_of (mt_db mc')) [] (taken tokens (od_MarketId taker) mc') L.
Proof.
  intros Hset Hmatch Hcov ids a tok Hnd _.
  destruct (match_demand _ _ _ _ _ _ _ tokens a tok ids Hset Hmatch Hnd) as (ids0 & Hnd0 & Hni & Hle).
  specialize (Hcov ids0 a tok Hnd0); cbv beta in Hcov; etransitivity; [exact Hle|apply Hcov].
  by intros id Hid ->%list_elem_of_singleton.
Qed.

(** The funds of the example: what its two orders lock. *)
Definition example_tokens (m : Z) (t : bool) : TokenTypeId :=
  if t then mk_TradeToken example_market else mk_QuoteToken example_market.

Definition example_funds (a : Address) (tok : TokenTypeId) : Z :=
  demand example_tokens a tok example_taker + demand example_tokens a tok example_maker.

Lemma example_covered : covered example_dex example_tokens (view_of dex_db) [od_Id example_taker]
  (fun a tok => demand example_tokens a tok example_taker) example_funds.
Proof.
  intros ids a tok Hnd _; unfold example_funds; apply Z.add_le_mono_l; set (q := demand example_tokens a tok).
  assert (Hw : forall id, weight example_dex (view_of dex_db) q id =
                 if decide (id = od_Id example_maker) then q example_maker else 0).
  { intros id; unfold weight, view_of; rewrite dex_db_get; case_decide as E.
    - subst id; unfold maker_data; by rewrite decode_saved by (apply example_codec || apply example_keyed).
    - destruct (decode_entry _ _) eqn:Ed; [by apply decode_empty in Ed|done..]. }
  apply (zsum_one _ (od_Id example_maker)); [done|apply demand_nonneg, example_ok|done].
Qed.

Lemma match_keeps_funds_covered_witness :
  exists mc' taker', reduced mc' buyer false = 200400 /\
    covered example_dex example_tokens (view_of (mt_db mc')) [] (taken example_tokens 1 mc') example_funds /\
    MatchOrder example_dex example_matcher example_taker ZERO_HASH = Ok (mc', taker').
Proof.
  destruct example_matches as (mc' & taker' & Hm & Hr); exists mc', taker'; split; [done|]; split; [|done].
  exact (match_keeps_funds_covered _ _ _ _ _ _ _ _ _ example_setting Hm example_covered).
Defined.

(** ** Conservation *)

Lemma zsum_at_address l owner x : NoDup l -> address_of owner ∈ l -> zsum (fun a => at_address a owner x) l = x.
Proof.
  induction 1 as [|a l Hn _ IH]; [by intros ?%elem_of_nil|]; rewrite zsum_cons; intros [E|Hin]%elem_of_cons.
  - subst a; unfold at_address at 1; rewrite bool_decide_eq_true_2 by done; rewrite zsum_zero; [lia|].
    intros b Hb; unfold at_address; rewrite bool_decide_eq_false_2; [done|congruence].
  - rewrite IH by done; unfold at_address; rewrite bool_decide_eq_false_2; [lia|congruence].
Qed.

(** The accounts of trades. *)
Definition parties (txs : list OrderTx) : list Address :=
  txs ≫= (fun ot => [address_of (ot_takerAddress ot); address_of (ot_makerAddress ot)]).

Lemma zsum_flows (flow : Transaction -> bool -> bool -> Z) txs l t :
  NoDup l -> (forall a, a ∈ parties txs -> a ∈ l) ->
  zsum (fun a => zsum (fun ot => tx_at flow ot a t) txs) l =
  zsum (fun ot => flow (ot_tx ot) true t + flow (ot_tx ot) false t) txs.
Proof.
  intros Hnd Hin; rewrite zsum_swap; apply zsum_ext; intros ot Hot; unfold tx_at; rewrite zsum_add.
  rewrite !zsum_at_address; [done|done| |done|]; apply Hin, list_elem_of_bind; exists ot; split; set_solver.
Qed.

Lemma tx_balances tx t :
  tx_out tx true t + tx_out tx false t =
  tx_in tx true t + tx_in tx false t + if t then 0 else tx_fees tx true + tx_fees tx false.
Proof. unfold tx_out, tx_in, sells; destruct (tx_TakerSide tx), t; simpl; lia. Qed.

Lemma flows_balance txs l t : NoDup l -> (forall a, a ∈ parties txs -> a ∈ l) ->
  zsum (fun a => zsum (fun ot => tx_at tx_out ot a t) txs) l =
  zsum (fun a => zsum (fun ot => tx_at tx_in ot a t) txs) l +
  if t then 0 else zsum (fun a => zsum (fun ot => tx_at (fun tx taker _ => tx_fees tx taker) ot a false) txs) l.
Proof.
  intros Hnd Hin; rewrite !zsum_flows by done; destruct t.
  - rewrite Z.add_0_r; apply zsum_ext; intros ot _; by rewrite tx_balances, Z.add_0_r.
  - rewrite <- zsum_add; apply zsum_ext; intros ot _; by rewrite tx_balances.
Qed.

(** An account without an entry has nothing settled. *)
Lemma no_entry mc a : mt_fundSettles mc !! a = None -> mt_feeSettles mc !! a = None ->
  (forall t, inc mc a t = 0) /\ (forall t, reduced mc a t = 0) /\ fees_of mc a = 0.
Proof. intros H1 H2; unfold inc, reduced, fees_of, settle_of; rewrite H1, H2; split_and!; intros; by rewrite ?lookup_empty. Qed.

(** C17 A match moves tokens and neither creates nor destroys any: of the trade
    token the accounts receive exactly what is reduced from locked funds, and of
    the quote token the same once the fees are added.  The sums are over any
    list of accounts that has all accounts with a settlement. *)
Theorem match_conserves_tokens e mc taker items preHash mc' taker' accounts t :
  match_setting e mc taker items -> MatchOrder e mc taker preHash = Ok (mc', taker') ->
  NoDup accounts -> (forall a, a ∉ accounts -> mt_fundSettles mc' !! a = None /\ mt_feeSettles mc' !! a = None) ->
  zsum (fun a => reduced mc' a t) accounts =
  zsum (fun a => inc mc' a t) accounts + if t then 0 else zsum (fees_of mc') accounts.
Proof.
  intros Hset Hmatch Hnd Hout.
  destruct (match_order_spec _ _ _ _ _ _ _ Hset Hmatch) as (M & vis & os & afters & txs & _ & _ & Hm).
  set (more := filter (fun a => a ∉ accounts) (remove_dups (parties txs))).
  assert (Hz : forall a, a ∈ more -> (forall t, inc mc' a t = 0) /\ (forall t, reduced mc' a t = 0) /\ fees_of mc' a = 0).
  { intros a [[? ?]%Hout _]%list_elem_of_filter; by apply no_entry. }
  assert (Hext : forall f, (forall a, a ∈ more -> f a = 0) -> zsum f accounts = zsum f (accounts ++ more)).
  { intros f Hf; rewrite zsum_app, (zsum_zero f more) by done; lia. }
  rewrite !(Hext (fun a => reduced mc' a t)), (Hext (fun a => inc mc' a t)), (Hext (fees_of mc')); try (intros; by apply Hz).
  rewrite (zsum_ext _ _ _ (fun a _ => mh_reduced _ _ _ _ _ _ _ _ _ _ Hm a t)).
  rewrite (zsum_ext _ _ _ (fun a _ => mh_inc _ _ _ _ _ _ _ _ _ _ Hm a t)).
  rewrite (zsum_ext _ _ _ (fun a _ => mh_fees _ _ _ _ _ _ _ _ _ _ Hm a)).
  apply flows_balance.
  - apply NoDup_app; split; [done|]; split; [by intros a ? [? _]%list_elem_of_filter|].
    apply NoDup_filter, NoDup_remove_dups.
  - intros a Ha; apply elem_of_app; destruct (decide (a ∈ accounts)); [by left|right].
    apply list_elem_of_filter; split; [done|by apply elem_of_remove_dups].
Qed.

(** C21 The settlements of a match are exactly those of at most a hundred
    trades.  No trade is worse for the taker than its limit price, and no seller
    pays more fees than it receives.  The taker and every order of the book that
    the match touched keep their terms and end within their quantity and, if
    they buy, within the amount and the fee they locked; what the match stores
    for an order of the book is its end state, and the entries of all other
    orders are as before. *)
Theorem match_trades_within_limits e mc taker items preHash mc' taker' :
  match_setting e mc taker items -> MatchOrder e mc taker preHash = Ok (mc', taker') ->
  exists txs makers afters,
    Z.of_nat (length txs) <= maxTxsCountPerTaker /\
    Forall (fun ot => within_limit taker (tx_Price (ot_tx ot)) /\ tx_ok (ot_tx ot)) txs /\
    (forall a t, inc mc' a t = zsum (fun ot => tx_at tx_in ot a t) txs) /\
    (forall a t, reduced mc' a t = zsum (fun ot => tx_at tx_out ot a t) txs) /\
    same_terms taker taker' /\ order_ok taker' /\
    Forall (fun o => exists v, db_GetValue (mt_db mc) (od_Id o) = Ok v /\ decode_entry e (od_Id o, v) = Ok o) makers /\
    Forall2 (fun o o' => same_terms o o' /\ order_ok o') makers afters /\
    (forall o', o' ∈ afters -> db_GetValue (mt_db mc') (od_Id o') = Ok (entry_of e o')) /\
    (forall k, len k = OrderIdBytesLength -> k ∉ od_Id <$> afters -> k <> od_Id taker ->
       db_GetValue (mt_db mc') k = db_GetValue (mt_db mc) k).
Proof.
  intros Hset Hmatch.
  destruct (match_order_spec _ _ _ _ _ _ _ Hset Hmatch) as (M & vis & os & afters & txs & HM & Hent & Hm).
  exists txs, os, afters; split; [apply Hm|]; split; [eapply Forall_impl; [apply Hm|]; by intros ot [? ?]|].
  split; [apply Hm|]; split; [apply Hm|]; split; [apply Hm|]; split; [apply Hm|]; split; [|split; [apply Hm|split; [apply Hm|]]].
  - destruct (mh_visited _ _ _ _ _ _ _ _ _ _ Hm) as [tl Htl]; rewrite Htl in Hent; apply Forall_app in Hent as [Hvis _].
    assert (Hin : forall kv, kv ∈ vis -> M !! kv.1 = Some kv.2).
    { intros [k v] Hkv; apply elem_of_storage_list; rewrite Htl; apply elem_of_app; by left. }
    pose proof (mh_decoded _ _ _ _ _ _ _ _ _ _ Hm) as Hdec; clear -Hdec Hin Hvis HM.
    induction Hdec as [|[k v] o vis os Hkv _ IH]; constructor; apply Forall_cons_1 in Hvis as [Hok Hvis].
    + destruct (Hok _ Hkv) as (_ & _ & Hid), (HM _ _ (Hin _ (list_elem_of_here _ _))) as (_ & Hv & _).
      exists v; simpl in *; rewrite Hid; done.
    + apply IH; [done|]; intros kv ?; apply Hin; by apply list_elem_of_further.
  - intros k Hk Hn Ht; apply (mh_others _ _ _ _ _ _ _ _ _ _ Hm); auto.
Qed.

Lemma match_conserves_tokens_witness :
  exists mc' taker', MatchOrder example_dex example_matcher example_taker ZERO_HASH = Ok (mc', taker') /\
    let accounts := elements (dom (mt_fundSettles mc') ∪ dom (mt_feeSettles mc')) in
    zsum (fun a => reduced mc' a false) accounts =
    zsum (fun a => inc mc' a false) accounts + zsum (fees_of mc') accounts.
Proof.
  destruct example_matches as (mc' & taker' & Hm & _); exists mc', taker'; split; [done|]; intros accounts.
  refine (match_conserves_tokens _ _ _ _ _ _ _ accounts false example_setting Hm (NoDup_elements _) _).
  intros a Ha; unfold accounts in Ha; rewrite elem_of_elements, elem_of_union, !elem_of_dom in Ha.
  split; apply eq_None_not_Some; tauto.
Defined.

Lemma match_trades_within_limits_witness :
  exists mc' taker' txs (afters : list Order), MatchOrder example_dex example_matcher example_taker ZERO_HASH = Ok (mc', taker') /\
    Forall (fun ot => within_limit example_taker (tx_Price (ot_tx ot))) txs /\
    zsum (fun ot => tx_at tx_out ot buyer false) txs = 200400 /\
    (forall o', o' ∈ afters -> db_GetValue (mt_db mc') (od_Id o') = Ok (entry_of example_dex o')) /\
    od_Id example_maker ∈ od_Id <$> afters.
Proof.
  destruct example_matches as (mc' & taker' & Hm & Hr).
  destruct (match_trades_within_limits _ _ _ _ _ _ _ example_setting Hm)
    as (txs & makers & afters & _ & Hf & _ & Er & _ & _ & _ & _ & Ha & Ho).
  exists mc', taker', txs, afters; split; [done|]; rewrite <- Er; split; [|split; [done|split; [exact Ha|]]].
  - eapply Forall_impl; [exact Hf|]; by intros ot [? _].
  - destruct (decide (od_Id example_maker ∈ od_Id <$> afters)) as [|Hn]; [assumption|exfalso].
    specialize (Ho (od_Id example_maker) eq_refl Hn ltac:(discriminate)).
    assert (H : match MatchOrder example_dex example_matcher example_taker ZERO_HASH with
                | Ok (mc', _) => match db_GetValue (mt_db mc') (od_Id example_maker) with
                                 | Ok v => bool_decide (v = maker_data) | _ => true end
                | _ => true end = false) by (vm_compute; reflexivity).
    rewrite Hm, Ho in H; vm_compute in H; discriminate H.
Defined.
