(* ===== verification/DexFundSpec.v ===== *)
(** What happens to the funds of the exchange: every operation on accounts moves
    exactly its amount and touches no other account, and a settlement that the
    locked funds cover is carried out to the last unit. *)
From S2P Require Import Prelude Helper Float TimeIndex Types Upgrade VmDb Iterator.
From S2P Require Import DexNumber DexNumberSpec DexOrder DexMatcher DexFund DexSettle DexContracts.
From S2P Require Import DexExchange DexWorld DexExchangeWorld DexMatcherSpec DexSpec.
From stdpp Require Import sorting.
From Stdlib Require Import ZifyBool.
#[local] Open Scope Z_scope.

(** ** Accounts in a fund *)

Lemma find_put token acc accounts token' : ac_Token acc = token ->
  find_account token' (put_account token acc accounts) =
  if bool_decide (token' = token) then Some acc else find_account token' accounts.
Proof.
  intros Ht; induction accounts as [|a accounts IH]; simpl.
  - rewrite Ht; repeat case_bool_decide; congruence.
  - destruct (bool_decide (ac_Token a = token)) eqn:E1; cbn [find_account]; [|rewrite IH];
      repeat case_bool_decide; congruence.
Qed.

Lemma find_token token accounts acc : find_account token accounts = Some acc -> ac_Token acc = token.
Proof.
  induction accounts as [|a accounts IH]; simpl; [done|]; case_bool_decide; [naive_solver|done].
Qed.

(** The account of a token in a fund, empty if there is none. *)
Definition account (fund : Fund) (token : TokenTypeId) : Account := (GetAccountByToken fund token).1.

Lemma account_token fund token : ac_Token (account fund token) = token.
Proof.
  unfold account, GetAccountByToken; destruct (find_account _ _) eqn:E; [by apply find_token in E|done].
Qed.

Lemma account_put fund token acc token' : ac_Token acc = token ->
  account (with_account fund token acc) token' = if bool_decide (token' = token) then acc else account fund token'.
Proof.
  intros Ht; unfold account, GetAccountByToken, with_account; simpl; rewrite find_put by done.
  by case_bool_decide.
Qed.

(** ** Funds in the storage *)

(** What the protobuf library promises about a message: it reads back what it
    wrote, and only the empty message is written as nothing. *)
Record codec_ok {A} (c : codec A) (zero : A) : Prop := {
  co_roundtrip a : unmarshal c (marshal c a) = Some a;
  co_zero a : marshal c a = [] -> a = zero;
}.

Definition fund_in (e : fundEnv) (view : bytes -> bytes) (a : Address) : Fund :=
  if 0 <? len (view (GetFundKey a)) then default empty_fund (unmarshal (fund_codec e) (view (GetFundKey a)))
  else empty_fund.

Definition account_in (e : fundEnv) (view : bytes -> bytes) (a : Address) (tok : TokenTypeId) : Account :=
  account (fund_in e view a) tok.

Lemma GetFund_view e db a fund ok : GetFund e db a = Ok (fund, ok) -> fund = fund_in e (view_of db) a.
Proof.
  unfold GetFund, deserialize, deserializeFromDb, getValueFromDb, fund_in, view_of.
  destruct (db_GetValue db (GetFundKey a)) as [v| |]; simpl; [|done..].
  destruct (0 <? len v); simpl; [|naive_solver]; destruct (unmarshal (fund_codec e) v); simpl; naive_solver.
Qed.

Lemma set_view db key v db' k : setValueToDb db key v = Ok db' ->
  view_of db' k = if decide (k = key) then v else view_of db k.
Proof. intros H; unfold view_of; rewrite (setValueToDb_spec _ _ _ _ k H); by case_decide. Qed.

Lemma fund_key_inj a b : GetFundKey a = GetFundKey b -> a = b.
Proof. apply app_inv_head. Qed.

Lemma SaveFund_view e db a fund db' b : codec_ok (fund_codec e) empty_fund -> SaveFund e db a fund = Ok db' ->
  fund_in e (view_of db') b = if bool_decide (b = a) then fund else fund_in e (view_of db) b.
Proof.
  intros [Hr Hz] H; unfold fund_in; rewrite (set_view _ _ _ _ (GetFundKey b) H).
  case_bool_decide as E; [subst b; rewrite decide_True by done|].
  - destruct (marshal (fund_codec e) fund) as [|x l] eqn:Em; [simpl; by rewrite (Hz _ Em)|].
    rewrite <- Em, Hr; rewrite Em; unfold len; by replace (0 <? _) with true by (simpl; lia).
  - by rewrite decide_False by (by intros ?%fund_key_inj).
Qed.

(** Writes that leave the keys outside [P] as they are. *)
Definition writes_only (P : bytes -> Prop) (db db' : vmDb) : Prop := forall k, ~ P k -> view_of db' k = view_of db k.

Lemma writes_refl P db : writes_only P db db.
Proof. by intros k _. Qed.

Lemma writes_trans P db1 db2 db3 : writes_only P db1 db2 -> writes_only P db2 db3 -> writes_only P db1 db3.
Proof. intros H1 H2 k Hk; by rewrite H2, H1. Qed.

Lemma writes_set (P : bytes -> Prop) db key v db' : P key -> setValueToDb db key v = Ok db' -> writes_only P db db'.
Proof. intros Hp H k Hk; rewrite (set_view _ _ _ _ k H); case_decide; [by subst|done]. Qed.

Lemma writes_log P db log : writes_only P db (db_AddLog db log).
Proof. by intros k _. Qed.

Create HintDb frames.
#[export] Hint Resolve writes_refl writes_set writes_log : frames.

(** The keys of one account's fund. *)
Definition fund_key (a : Address) (k : bytes) : Prop := k = GetFundKey a.

(** ** Operations on one account *)

Definition acc_total (acc : Account) : Z :=
  val (ac_Available acc) + val (ac_Locked acc) + val (ac_VxLocked acc) + val (ac_VxUnlocking acc) +
  val (ac_CancellingStake acc).

(** One account is replaced, nothing else of any fund changes. *)
Record replaced (e : fundEnv) (db db' : vmDb) (a : Address) (tok : TokenTypeId) (acc : Account) : Prop := {
  rp_account b tok' : account_in e (view_of db') b tok' =
    if bool_decide (b = a /\ tok' = tok) then acc else account_in e (view_of db) b tok';
  rp_frame : writes_only (fund_key a) db db';
}.

Lemma save_replaced e db a fund ok tok acc db' :
  codec_ok (fund_codec e) empty_fund -> GetFund e db a = Ok (fund, ok) -> ac_Token acc = tok ->
  SaveFund e db a (with_account fund tok acc) = Ok db' -> replaced e db db' a tok acc.
Proof.
  intros Hc Hg Ht Hs; apply GetFund_view in Hg; subst fund; split.
  - intros b tok'; unfold account_in; rewrite (SaveFund_view _ _ _ _ _ b Hc Hs).
    case_bool_decide as E; [subst b; rewrite account_put by done|]; repeat case_bool_decide; naive_solver.
  - by eapply writes_set; [|exact Hs].
Qed.

Lemma updateFund_spec e db a tok amount f db' acc' :
  codec_ok (fund_codec e) empty_fund -> updateFund e db a tok amount f = Ok (db', acc') ->
  (forall acc acc', f acc amount = Ok acc' -> ac_Token acc' = ac_Token acc) ->
  f (account_in e (view_of db) a tok) amount = Ok acc' /\ replaced e db db' a tok acc'.
Proof.
  intros Hc H Hf; apply outcome_bind_ok in H as ([fund ok] & Hg & H); destruct ok; [|done].
  destruct (find_account tok (fu_Accounts fund)) as [acc|] eqn:Ea; [|done].
  apply outcome_bind_ok in H as (acc1 & Hacc & H); apply outcome_bind_ok in H as (db1 & Hs & H).
  apply Ok_inj in H; simplify_eq; pose proof (find_token _ _ _ Ea) as Ht; split.
  - unfold account_in; rewrite <- (GetFund_view _ _ _ _ _ Hg); unfold account, GetAccountByToken; by rewrite Ea.
  - eapply save_replaced; [done|exact Hg|by rewrite (Hf _ _ Hacc)|done].
Qed.

Lemma checked_sub_ok v amt v' : checked_sub v amt = Ok v' -> amt <= val v /\ val v' = val v - amt.
Proof.
  unfold checked_sub; destruct (Z.ltb_spec (val v) amt); [done|]; intros E%Ok_inj; subst v'.
  split; [done|]; apply SetBytes_Bytes; lia.
Qed.

(** The operations of fund_storage.go on the account of one token. *)
Inductive fund_op :=
| OpReduce (tok : TokenTypeId)
| OpLockVx
| OpScheduleVxUnlock
| OpFinishVxUnlock
| OpScheduleCancelStake
| OpFinishCancelStake
| OpDeposit (tok : TokenTypeId)
| OpLockMinedVx.

Definition run_account_op (e : fundEnv) (db : vmDb) (a : Address) (op : fund_op) (amount : Z) : dexM (vmDb * Account) :=
  match op with
  | OpReduce tok => ReduceAccount e db a tok amount
  | OpLockVx => LockVxForDividend e db a amount
  | OpScheduleVxUnlock => ScheduleVxUnlockForDividend e db a amount
  | OpFinishVxUnlock => FinishVxUnlockForDividend e db a amount
  | OpScheduleCancelStake => ScheduleCancelStake e db a amount
  | OpFinishCancelStake => FinishCancelStake e db a amount
  | OpDeposit tok => DepositAccount e db a tok amount
  | OpLockMinedVx => LockMinedVx e db a amount
  end.

Definition op_token (op : fund_op) : TokenTypeId :=
  match op with
  | OpReduce tok | OpDeposit tok => tok
  | OpScheduleCancelStake | OpFinishCancelStake => ViteTokenId
  | _ => VxTokenId
  end.

(** What enters the account. *)
Definition op_delta (op : fund_op) (amount : Z) : Z :=
  match op with
  | OpReduce _ => - amount
  | OpScheduleCancelStake | OpDeposit _ | OpLockMinedVx => amount
  | _ => 0
  end.

(** What moves inside an account. *)
Definition moved (acc acc' : Account) (delta : Z) : Prop :=
  acc_total acc' = acc_total acc + delta /\ ac_Locked acc' = ac_Locked acc.

Lemma add_spec e db a tok f db' acc' :
  codec_ok (fund_codec e) empty_fund -> (forall acc, ac_Token (f acc) = ac_Token acc) ->
  ('(fund, _) ← GetFund e db a; let '(fund, acc) := add_to_account fund tok f in
   db ← SaveFund e db a fund; Ok (db, acc)) = Ok (db', acc') ->
  acc' = f (account_in e (view_of db) a tok) /\ replaced e db db' a tok acc'.
Proof.
  intros Hc Hf H; apply outcome_bind_ok in H as ([fund ok] & Hg & H); unfold add_to_account in H.
  apply outcome_bind_ok in H as (db1 & Hs & H); apply Ok_inj in H; simplify_eq.
  assert (E : default (empty_account tok) (find_account tok (fu_Accounts fund)) = account_in e (view_of db) a tok).
  { unfold account_in; rewrite <- (GetFund_view _ _ _ _ _ Hg); unfold account, GetAccountByToken; by destruct (find_account _ _). }
  rewrite E in *; split; [done|]; eapply save_replaced; [done|exact Hg| |done].
  by rewrite Hf; unfold account_in; rewrite account_token.
Qed.

Ltac checked := cbv beta in *; repeat match goal with
  | H : mbind _ _ = Ok _ |- _ => apply outcome_bind_ok in H as (? & ?%checked_sub_ok & H)
  | H : (if ?b then Err _ else Ok _) = Ok _ |- _ => destruct b; [done|]
  | H : Ok _ = Ok _ |- _ => apply Ok_inj in H; subst
  end.

Lemma run_account_op_spec e db a op amount db' acc' :
  codec_ok (fund_codec e) empty_fund -> 0 <= amount -> run_account_op e db a op amount = Ok (db', acc') ->
  moved (account_in e (view_of db) a (op_token op)) acc' (op_delta op amount) /\
  replaced e db db' a (op_token op) acc'.
Proof.
  intros Hc Ha H; assert (Hb : val (Bytes amount) = amount) by (by apply SetBytes_Bytes).
  destruct op; simpl in H;
    first [ apply updateFund_spec in H as [Hf Hr]; [|done|intros acc acc1 Hacc; by checked]
          | apply add_spec in H as [-> Hr]; [|done|done] ];
    (split; [|exact Hr]); unfold moved, acc_total; checked; simpl; autorewrite with amounts; rewrite ?Hb; (split; [lia|done]).
Qed.

(** The operations on accounts are exact.  A deposit, a withdrawal and the
    steps of locking VX and cancelling stakes change what an account holds of
    its token by exactly the amount that enters or leaves it, never touch the
    funds locked by orders, and leave every other account of every user as it
    was.  A withdrawal or a step that the account does not cover is refused. *)
Theorem account_operations_exact e db a op amount db' acc' b tok :
  codec_ok (fund_codec e) empty_fund -> 0 <= amount -> run_account_op e db a op amount = Ok (db', acc') ->
  let before := account_in e (view_of db) b tok in
  let after := account_in e (view_of db') b tok in
  ac_Locked after = ac_Locked before /\
  acc_total after = acc_total before + (if bool_decide (b = a /\ tok = op_token op) then op_delta op amount else 0) /\
  (b = a /\ tok = op_token op -> 0 <= acc_total before + op_delta op amount) /\
  (~ (b = a /\ tok = op_token op) -> after = before).
Proof.
  intros Hc Ha H; destruct (run_account_op_spec _ _ _ _ _ _ _ Hc Ha H) as [[Ht Hl] [Hr _]].
  cbv zeta; rewrite Hr; case_bool_decide as E.
  - destruct E as [-> ->]; split; [done|]; split; [done|]; split; [|naive_solver].
    intros _; rewrite <- Ht; unfold acc_total; repeat match goal with |- context [val ?x] =>
      lazymatch goal with _ : 0 <= val x |- _ => fail | _ => pose proof (SetBytes_nonneg x) end end; lia.
  - split; [done|]; split; [lia|]; split; [naive_solver|done].
Qed.

Lemma example_fund_codec : codec_ok (fund_codec example_fund) empty_fund.
Proof.
  split; [intros f; apply codec_of_roundtrip, fund_inverse|intros f E; by apply codec_of_not_empty in E].
Qed.

Lemma account_operations_exact_witness :
  exists db' acc', run_account_op example_fund (storage_db fund_storage) buyer (OpReduce (example_token false)) 1000 = Ok (db', acc') /\
    val (ac_Available acc') = 4999000 /\
    ac_Locked (account_in example_fund (view_of db') buyer (example_token false)) =
    ac_Locked (account_in example_fund (view_of (storage_db fund_storage)) buyer (example_token false)).
Proof.
  assert (H : match run_account_op example_fund (storage_db fund_storage) buyer (OpReduce (example_token false)) 1000 with
              | Ok (_, acc') => val (ac_Available acc') =? 4999000 | _ => false end = true) by (by vm_compute).
  destruct (run_account_op _ _ _ _ _) as [[db' acc']| |] eqn:E; [|discriminate H..]; exists db', acc'.
  split; [reflexivity|]; split; [by apply Z.eqb_eq|].
  pose proof (account_operations_exact example_fund (storage_db fund_storage) buyer (OpReduce (example_token false)) 1000
    db' acc' buyer (example_token false) example_fund_codec ltac:(discriminate) E) as Hx; exact (proj1 Hx).
Defined.

(** ** Settling *)

(** What a settlement takes out of the locked funds, and what becomes available. *)
Definition settle_taken (s : AccountSettle) : Z := val (as_ReduceLocked s) + val (as_ReleaseLocked s).
Definition settle_given (s : AccountSettle) : Z := val (as_ReleaseLocked s) + val (as_IncAvailable s).

Lemma take_locked_spec e db acc sub acc' sub' :
  val sub <= val (ac_Locked acc) -> take_locked e db acc sub = Ok (acc', sub') ->
  exists l, acc' = set_Locked acc l /\ val l = val (ac_Locked acc) - val sub /\ val sub' = val sub.
Proof.
  intros Hle; unfold take_locked, SafeSubBigInt.
  destruct (Z.ltb_spec 0 (CmpForBigInt sub (ac_Locked acc))) as [Hc%CmpForBigInt_gt|_].
  - intros H; apply outcome_bind_ok in H as (b & _ & H); destruct b; [|done]; apply Ok_inj in H; simplify_eq.
    eexists; split; [done|]; change (val []) with 0; lia.
  - intros H; apply Ok_inj in H; simplify_eq; eexists; split; [done|]; autorewrite with amounts; lia.
Qed.

(** The parts of an account that settlement changes. *)
Record settled (acc acc' : Account) (takes gives : Z) : Prop := {
  sd_token : ac_Token acc' = ac_Token acc;
  sd_locked : val (ac_Locked acc') = val (ac_Locked acc) - takes;
  sd_available : val (ac_Available acc') = val (ac_Available acc) + gives;
  sd_others : ac_VxLocked acc' = ac_VxLocked acc /\ ac_VxUnlocking acc' = ac_VxUnlocking acc /\
    ac_CancellingStake acc' = ac_CancellingStake acc;
}.

Lemma CmpToBigZero_zero v : negb (CmpToBigZero v =? 0) = false -> val v = 0.
Proof. unfold CmpToBigZero; pose proof (SetBytes_nonneg v); lia. Qed.

Lemma settle_account_spec e db acc s acc' :
  settle_taken s <= val (ac_Locked acc) -> settle_account e db acc s = Ok acc' ->
  settled acc acc' (settle_taken s) (settle_given s).
Proof.
  unfold settle_taken, settle_given; intros Hle H.
  pose proof (SetBytes_nonneg (as_ReduceLocked s)) as P1; pose proof (SetBytes_nonneg (as_ReleaseLocked s)) as P2.
  apply outcome_bind_ok in H as (acc1 & H1 & H); apply outcome_bind_ok in H as (acc2 & H2 & H).
  assert (S1 : exists l, acc1 = set_Locked acc l /\ val l = val (ac_Locked acc) - val (as_ReduceLocked s)).
  { destruct (negb _) eqn:Ez in H1.
    - apply outcome_bind_ok in H1 as ([x y] & Ht & H1); apply Ok_inj in H1; subst x.
      apply take_locked_spec in Ht as (l & -> & El & _); [by exists l|lia].
    - apply CmpToBigZero_zero in Ez; apply Ok_inj in H1; subst acc1; exists (ac_Locked acc); split; [by destruct acc|lia]. }
  destruct S1 as (l1 & -> & El1).
  assert (S2 : exists l v, acc2 = set_Available (set_Locked acc l) v /\
             val l = val (ac_Locked acc) - val (as_ReduceLocked s) - val (as_ReleaseLocked s) /\
             val v = val (ac_Available acc) + val (as_ReleaseLocked s)).
  { destruct (negb _) eqn:Ez in H2.
    - apply outcome_bind_ok in H2 as ([x y] & Ht & H2); apply Ok_inj in H2; subst acc2.
      apply take_locked_spec in Ht as (l & -> & El & Ey); [|simpl; lia]; simpl in *.
      exists l, (AddBigInt (ac_Available acc) y); split; [done|]; autorewrite with amounts; lia.
    - apply CmpToBigZero_zero in Ez; apply Ok_inj in H2; subst acc2; exists l1, (ac_Available acc).
      split; [by destruct acc|lia]. }
  destruct S2 as (l2 & v2 & -> & El2 & Ev2); apply Ok_inj in H; subst acc'.
  destruct (negb (CmpToBigZero (as_IncAvailable s) =? 0)) eqn:Ez; [|apply CmpToBigZero_zero in Ez].
  - split; cbn [set_Available set_Locked ac_Locked ac_Available]; autorewrite with amounts; [done|lia|lia|done].
  - split; cbn [set_Available set_Locked ac_Locked ac_Available]; [done|lia|lia|done].
Qed.

(** The sum of a settlement's parts in a token. *)
Definition market_tk (m : MarketInfo) (trade : bool) : TokenTypeId := if trade then mk_TradeToken m else mk_QuoteToken m.

Definition settle_token (tk : bool -> TokenTypeId) (s : AccountSettle) : TokenTypeId := tk (as_IsTradeToken s).

Definition settle_sum (part : AccountSettle -> Z) (tk : bool -> TokenTypeId) (tok : TokenTypeId) (settles : list AccountSettle) : Z :=
  zsum (fun s => if bool_decide (settle_token tk s = tok) then part s else 0) settles.

Lemma settle_taken_nonneg s : 0 <= settle_taken s.
Proof. unfold settle_taken; pose proof (SetBytes_nonneg (as_ReduceLocked s)); pose proof (SetBytes_nonneg (as_ReleaseLocked s)); lia. Qed.

Lemma settle_sum_nonneg tk tok settles : 0 <= settle_sum settle_taken tk tok settles.
Proof. apply zsum_nonneg; intros s _; pose proof (settle_taken_nonneg s); case_bool_decide; lia. Qed.

(** Keys that hold no funds, markets, tokens or settings: what collecting fees
    and tracking VX writes. *)
Definition fee_key (k : bytes) : Prop :=
  userFeeKeyPrefix `prefix_of` k \/ dexFeesKeyPrefix `prefix_of` k \/ lastDexFeesPeriodIdKey `prefix_of` k \/
  operatorFeesKeyPrefix `prefix_of` k \/ vxFundKeyPrefix `prefix_of` k \/ vxSumFundsKey `prefix_of` k \/
  vxLockedFundsKeyPrefix `prefix_of` k \/ vxLockedSumFundsKey `prefix_of` k.

Lemma fund_key_not_fee a : ~ fee_key (GetFundKey a).
Proof. unfold fee_key; intros H; repeat destruct H as [[r H]|H]; try destruct H as [r H]; discriminate H. Qed.

Lemma fund_in_ext e view view' a : view' (GetFundKey a) = view (GetFundKey a) -> fund_in e view' a = fund_in e view a.
Proof. intros H; unfold fund_in; by rewrite H. Qed.

(** *** Collecting fees and tracking VX leaves everything else alone *)

Ltac fee_prefix := unfold fee_key; repeat (first [left; solve [eexists; reflexivity | apply prefix_app_r; done] | right]);
  solve [eexists; reflexivity | apply prefix_app_r; done].

(** Take a chain of binds apart. *)
Ltac binds H := repeat match type of H with
  | mbind _ _ = Ok _ => let x := fresh "x" in let E := fresh "E" in apply outcome_bind_ok in H as (x & E & H)
  | (let '(_, _) := ?p in _) = Ok _ => destruct p eqn:?
  | match ?p with pair _ _ => _ end = Ok _ => destruct p eqn:?
  end.

Lemma serialize_fee {A} (c : codec A) db k a db' : fee_key k -> serialize c db k a = Ok db' -> writes_only fee_key db db'.
Proof. intros Hk; unfold serialize, serializeToDb; by apply writes_set. Qed.

Lemma vx_key e db address key : GetVxFundsKey e db address = Ok key -> fee_key key.
Proof. unfold GetVxFundsKey; intros H; binds H; apply Ok_inj in H; subst key; destruct x; fee_prefix. Qed.

Lemma vx_sum_key e db key : GetVxSumFundsKey e db = Ok key -> fee_key key.
Proof. unfold GetVxSumFundsKey; intros H; binds H; apply Ok_inj in H; subst key; destruct x; fee_prefix. Qed.

Lemma DoSettleVxFunds_frame e db address amt acc db' :
  DoSettleVxFunds e db address amt acc = Ok db' -> writes_only fee_key db db'.
Proof.
  unfold DoSettleVxFunds; intros H; apply outcome_bind_ok in H as (key & Hk%vx_key & H); binds H.
  apply (writes_trans _ _ x2).
  - destruct (_ && _); [by eapply serialize_fee|]; destruct (_ && _); [by eapply writes_set|].
    by match goal with E : Ok _ = Ok _ |- _ => apply Ok_inj in E; subst end.
  - destruct o; [|by apply Ok_inj in H; subst]; destruct (_ =? 0); [by apply Ok_inj in H; subst|].
    apply outcome_bind_ok in H as (sumKey & Hs%vx_sum_key & H); binds H; by eapply serialize_fee.
Qed.

Lemma OnSettleVx_frame e db address s acc db' : OnSettleVx e db address s acc = Ok db' -> writes_only fee_key db db'.
Proof.
  unfold OnSettleVx; intros H; binds H; destruct x; [by apply Ok_inj in H; subst|by eapply DoSettleVxFunds_frame].
Qed.

Lemma OnChangeVx_frame e db address amt acc db' : OnChangeVx e db address amt acc = Ok db' -> writes_only fee_key db db'.
Proof.
  unfold OnChangeVx; intros H; binds H; destruct x; [by apply Ok_inj in H; subst|by eapply DoSettleVxFunds_frame].
Qed.

Lemma innerSettleUserFee_frame e db p th address d q b i db' s :
  innerSettleUserFee e db p th address d q b i = Ok (db', s) -> writes_only fee_key db db'.
Proof.
  unfold innerSettleUserFee; intros H; binds H; apply Ok_inj in H; simplify_eq; eapply serialize_fee; [|eassumption]; fee_prefix.
Qed.

Lemma settleUserFees_frame e db p d q th f rel db' rel' s :
  settleUserFees e db p d q th f rel = Ok (db', rel', s) -> writes_only fee_key db db'.
Proof.
  unfold settleUserFees; intros H; apply outcome_bind_ok in H as ([rel1 invited] & _ & H).
  destruct invited as [[[inviter b1] b2]|].
  - apply outcome_bind_ok in H as (earth & _ & H); apply outcome_bind_ok in H as ([db1 s1] & H1%innerSettleUserFee_frame & H).
    apply outcome_bind_ok in H as ([db2 s2] & H2%innerSettleUserFee_frame & H); apply Ok_inj in H; simplify_eq.
    by eapply writes_trans.
  - apply outcome_bind_ok in H as ([db1 s1] & H1%innerSettleUserFee_frame & H); apply Ok_inj in H; by simplify_eq.
Qed.

Lemma settle_user_fees_frame e allow p d q th fs : forall db rel div mine db' div' mine',
  settle_user_fees e db allow p d q th fs rel div mine = Ok (db', div', mine') -> writes_only fee_key db db'.
Proof.
  induction fs as [|f fs IH]; intros db rel div mine db' div' mine' H; cbn [settle_user_fees] in H.
  - apply Ok_inj in H; simplify_eq; apply writes_refl.
  - apply outcome_bind_ok in H as ([[db1 rel1] s] & H1 & H); eapply writes_trans; [|by eapply IH].
    destruct allow; [by eapply settleUserFees_frame|]; apply Ok_inj in H1; simplify_eq; apply writes_refl.
Qed.

Lemma Roll_frame e db p db' fees : RollAndGentNewDexFeesByPeriod e db p = Ok (db', fees) -> writes_only fee_key db db'.
Proof.
  unfold RollAndGentNewDexFeesByPeriod; intros H; binds H; apply Ok_inj in H; simplify_eq.
  eapply writes_set; [|eassumption]; fee_prefix.
Qed.

Lemma SettleFees_frame e db allow tok d q fs extra rel db' :
  SettleFees e db allow tok d q fs extra rel = Ok db' -> writes_only fee_key db db'.
Proof.
  unfold SettleFees, SettleFeesWithTokenId; destruct (_ && _); [by intros H%Ok_inj; subst|]; intros H.
  apply outcome_bind_ok in H as (p & _ & H); apply outcome_bind_ok in H as (saved & _ & H).
  apply outcome_bind_ok in H as ([db1 fees] & H1 & H); apply outcome_bind_ok in H as (th & _ & H).
  apply outcome_bind_ok in H as ([[db2 div] mine] & H2%settle_user_fees_frame & H).
  eapply (writes_trans _ _ db1); [|eapply (writes_trans _ _ db2); [done|eapply serialize_fee; [|exact H]; fee_prefix]].
  destruct saved; [apply Ok_inj in H1; simplify_eq; apply writes_refl|by eapply Roll_frame].
Qed.

Lemma SettleOperatorFees_frame e db fs m db' : SettleOperatorFees e db fs m = Ok db' -> writes_only fee_key db db'.
Proof.
  unfold SettleOperatorFees, GetCurrentOperatorFeesKey; destruct (operator_fees fs); [|by intros H%Ok_inj; subst].
  intros H; apply outcome_bind_ok in H as (key & Hk & H); binds Hk; apply Ok_inj in Hk; subst key; binds H.
  eapply serialize_fee; [|eassumption]; fee_prefix.
Qed.

(** *** Settling a list of actions *)

Lemma settled_refl acc : settled acc acc 0 0.
Proof. split; [done|lia|lia|done]. Qed.

Lemma settled_trans acc1 acc2 acc3 t1 g1 t2 g2 :
  settled acc1 acc2 t1 g1 -> settled acc2 acc3 t2 g2 -> settled acc1 acc3 (t1 + t2) (g1 + g2).
Proof. intros [? ? ? (? & ? & ?)] [? ? ? (? & ? & ?)]; split; [congruence|lia|lia|split_and!; congruence]. Qed.

Lemma settle_sum_cons part tk tok s settles :
  settle_sum part tk tok (s :: settles) =
  (if bool_decide (settle_token tk s = tok) then part s else 0) + settle_sum part tk tok settles.
Proof. apply zsum_cons. Qed.

Lemma settle_accounts_spec e address m settles : forall db fund db' fund',
  settle_accounts e db address m fund settles = Ok (db', fund') ->
  (forall tok, settle_sum settle_taken (market_tk m) tok settles <= val (ac_Locked (account fund tok))) ->
  writes_only fee_key db db' /\
  forall tok, settled (account fund tok) (account fund' tok)
                (settle_sum settle_taken (market_tk m) tok settles) (settle_sum settle_given (market_tk m) tok settles).
Proof.
  induction settles as [|s settles IH]; intros db fund db' fund' H Hle; cbn [settle_accounts] in H.
  { apply Ok_inj in H; simplify_eq; split; [apply writes_refl|]; intros tok; apply settled_refl. }
  change (if as_IsTradeToken s then mk_TradeToken m else mk_QuoteToken m) with (settle_token (market_tk m) s) in H; unfold BytesToTokenTypeId in H; set (T := settle_token (market_tk m) s) in *.
  destruct (len T =? TokenTypeIdSize); simpl in H; [|done].
  apply outcome_bind_ok in H as ([info|] & _ & H); [|done].
  apply outcome_bind_ok in H as (acc & Hacc & H); apply outcome_bind_ok in H as (db1 & Hvx & H).
  fold (account fund T) in Hacc.
  assert (HT : settle_taken s + settle_sum settle_taken (market_tk m) T settles <= val (ac_Locked (account fund T))).
  { specialize (Hle T); rewrite settle_sum_cons in Hle; fold T in Hle; by rewrite bool_decide_eq_true_2 in Hle. }
  apply settle_account_spec in Hacc as Hs; [|pose proof (settle_sum_nonneg (market_tk m) T settles); lia].
  assert (Ht : ac_Token acc = T) by (rewrite (sd_token _ _ _ _ Hs); apply account_token).
  destruct (IH _ _ _ _ H) as [Hw Hset].
  { intros tok; rewrite account_put by done; specialize (Hle tok); rewrite settle_sum_cons in Hle; fold T in Hle.
    destruct (decide (tok = T)) as [->|Hn].
    - rewrite !bool_decide_eq_true_2 in * by done; rewrite (sd_locked _ _ _ _ Hs); lia.
    - by rewrite !bool_decide_eq_false_2 in * by congruence. }
  split.
  - eapply writes_trans; [|exact Hw]; case_bool_decide; [by eapply OnSettleVx_frame|]; apply Ok_inj in Hvx; subst; apply writes_refl.
  - intros tok; rewrite !settle_sum_cons; fold T; specialize (Hset tok); rewrite account_put in Hset by done.
    destruct (decide (tok = T)) as [->|Hn].
    + rewrite !bool_decide_eq_true_2 in * by done; by eapply settled_trans.
    + rewrite !bool_decide_eq_false_2 in * by congruence; rewrite !Z.add_0_l; done.
Qed.

(** What a list of actions does to an account. *)
Definition action_sum (part : AccountSettle -> Z) (tk : bool -> TokenTypeId) (a : Address) (tok : TokenTypeId) (act : FundSettle) : Z :=
  if bool_decide (a = address_of (fs_Address act)) then settle_sum part tk tok (fs_AccountSettles act) else 0.

Definition fund_or_fee_key (k : bytes) : Prop := fee_key k \/ fundKeyPrefix `prefix_of` k.

Lemma fee_writes db db' : writes_only fee_key db db' -> writes_only fund_or_fee_key db db'.
Proof. intros H k Hk; apply H; intros ?; apply Hk; by left. Qed.

Lemma fee_writes_fund e db db' a : writes_only fee_key db db' -> fund_in e (view_of db') a = fund_in e (view_of db) a.
Proof. intros H; apply fund_in_ext, H, fund_key_not_fee. Qed.

Lemma DoSettleFund_spec e db act m db' :
  codec_ok (fund_codec e) empty_fund -> DoSettleFund e db act m = Ok db' ->
  (forall a tok, action_sum settle_taken (market_tk m) a tok act <= val (ac_Locked (account_in e (view_of db) a tok))) ->
  writes_only fund_or_fee_key db db' /\
  forall a tok, settled (account_in e (view_of db) a tok) (account_in e (view_of db') a tok)
                  (action_sum settle_taken (market_tk m) a tok act) (action_sum settle_given (market_tk m) a tok act).
Proof.
  intros Hc H Hle; apply outcome_bind_ok in H as ([fund ok] & Hg%GetFund_view & H).
  apply outcome_bind_ok in H as ([db1 fund1] & H1 & H); set (b := address_of (fs_Address act)) in *.
  apply settle_accounts_spec in H1 as [Hw Hset].
  2: { intros tok; specialize (Hle b tok); unfold action_sum in Hle; fold b in Hle; subst fund.
       by rewrite bool_decide_eq_true_2 in Hle. }
  split.
  - eapply writes_trans; [by apply fee_writes|]; eapply writes_set; [|exact H]; right; by eexists.
  - intros a tok; unfold account_in, action_sum; fold b; rewrite (SaveFund_view _ _ _ _ _ a Hc H).
    case_bool_decide as E; [by subst a fund|]; rewrite (fee_writes_fund _ _ _ _ Hw); apply settled_refl.
Qed.

Definition actions_sum (part : AccountSettle -> Z) (tk : bool -> TokenTypeId) (a : Address) (tok : TokenTypeId)
    (acts : list FundSettle) : Z := zsum (action_sum part tk a tok) acts.

Lemma actions_sum_nonneg tk a tok acts : 0 <= actions_sum settle_taken tk a tok acts.
Proof.
  apply zsum_nonneg; intros act _; unfold action_sum; case_bool_decide; [apply settle_sum_nonneg|done].
Qed.

Lemma settle_funds_spec e m acts : codec_ok (fund_codec e) empty_fund -> forall db db',
  settle_funds e db m acts = Ok db' ->
  (forall a tok, actions_sum settle_taken (market_tk m) a tok acts <= val (ac_Locked (account_in e (view_of db) a tok))) ->
  writes_only fund_or_fee_key db db' /\
  forall a tok, settled (account_in e (view_of db) a tok) (account_in e (view_of db') a tok)
                  (actions_sum settle_taken (market_tk m) a tok acts) (actions_sum settle_given (market_tk m) a tok acts).
Proof.
  intros Hc; induction acts as [|act acts IH]; intros db db' H Hle; cbn [settle_funds] in H.
  { apply Ok_inj in H; subst; split; [apply writes_refl|]; intros; apply settled_refl. }
  unfold actions_sum in *; setoid_rewrite zsum_cons in Hle; setoid_rewrite zsum_cons.
  apply outcome_bind_ok in H as (db1 & H1 & H); apply DoSettleFund_spec in H1 as [Hw1 Hs1]; [|done|].
  2: { intros a tok; specialize (Hle a tok); pose proof (actions_sum_nonneg (market_tk m) a tok acts); unfold actions_sum in *; lia. }
  destruct (IH _ _ H) as [Hw2 Hs2].
  { intros a tok; rewrite (sd_locked _ _ _ _ (Hs1 a tok)); specialize (Hle a tok); lia. }
  split; [by eapply writes_trans|]; intros a tok; by eapply settled_trans.
Qed.

Lemma FundSettleOrders_spec e db data acts db' calls :
  codec_ok (fund_codec e) empty_fund -> unmarshal (settle_codec e) data = Some acts ->
  FundSettleOrders e db data = Ok (db', calls) ->
  exists m, GetMarketInfoByTokens e db (sa_TradeToken acts) (sa_QuoteToken acts) = Ok (Some m) /\ calls = [] /\
    ((forall a tok, actions_sum settle_taken (market_tk m) a tok (sa_FundActions acts) <=
        val (ac_Locked (account_in e (view_of db) a tok))) ->
     writes_only fund_or_fee_key db db' /\
     forall a tok, settled (account_in e (view_of db) a tok) (account_in e (view_of db') a tok)
       (actions_sum settle_taken (market_tk m) a tok (sa_FundActions acts)) (actions_sum settle_given (market_tk m) a tok (sa_FundActions acts))).
Proof.
  intros Hc Hd; unfold FundSettleOrders; rewrite Hd; intros H.
  apply outcome_bind_ok in H as (found & Hf & H); destruct found as [m|]; [|done]; exists m; split; [done|].
  apply outcome_bind_ok in H as (db1 & H1 & H).
  assert (Hfee : calls = [] /\ writes_only fee_key db1 db').
  { destruct (0 <? _)%nat; [|apply Ok_inj in H; simplify_eq; split; [done|apply writes_refl]].
    apply outcome_bind_ok in H as (db2 & H2%SettleFees_frame & H).
    apply outcome_bind_ok in H as (db3 & H3%SettleOperatorFees_frame & H); apply Ok_inj in H; simplify_eq.
    split; [done|by eapply writes_trans]. }
  destruct Hfee as [-> Hfee]; split; [done|]; intros Hle; destruct (settle_funds_spec _ _ _ Hc _ _ H1 Hle) as [Hw Hs].
  split; [eapply writes_trans; [exact Hw|by apply fee_writes]|].
  intros a tok; unfold account_in at 2; rewrite (fee_writes_fund _ _ _ _ Hfee); apply Hs.
Qed.
