(* ===== verification/DexPlaceSpec.v ===== *)
(** Placing an order locks exactly what the order can cost, and sends on an order
    that is well-formed, new and locks that amount. *)
From S2P Require Import Prelude Helper Float TimeIndex Types Upgrade VmDb Iterator.
From S2P Require Import DexNumber DexNumberSpec DexOrder DexMatcher DexBookSpec DexMatcherSpec DexSpec.
From S2P Require Import DexFund DexSettle DexPlace DexContracts DexExchange DexFundSpec.
From Stdlib Require Import ZifyBool.
#[local] Open Scope Z_scope.

(** ** Rates *)

(** The operator's rates of a market are at most 0.2 percent. *)
Definition market_rates_ok (m : MarketInfo) : Prop :=
  ValidOperatorFeeRate (mk_TakerOperatorFeeRate m) = true /\ ValidOperatorFeeRate (mk_MakerOperatorFeeRate m) = true.

Definition rates_ok (r : rates) : Prop :=
  0 <= r_taker r <= 200 /\ 0 <= r_maker r <= 200 /\ 0 <= r_takerOperator r <= 200 /\ 0 <= r_makerOperator r <= 200.

Lemma cut_bounds (o : option Address) r : 0 <= r <= 200 ->
  0 <= match o with Some _ => Z.quot (i32 (r * 9)) 10 | None => r end <= 200.
Proof.
  intros Hr; destruct o; [|done]; unfold i32; rewrite Z.mod_small by lia.
  rewrite Z.quot_div_nonneg by lia; split; [apply Z.div_pos; lia|]; apply Z.div_le_upper_bound; lia.
Qed.

Lemma RenderFeeRate_ok e db a m r : market_rates_ok m -> RenderFeeRate e db a m = Ok r -> rates_ok r.
Proof.
  unfold market_rates_ok, ValidOperatorFeeRate, MaxOperatorFeeRate; intros [H1 H2] H.
  apply outcome_bind_ok in H as (stable & _ & H); destruct (stable && _); [apply Ok_inj in H; subst; unfold rates_ok; simpl; lia|].
  apply outcome_bind_ok in H as (vip & _ & H); apply outcome_bind_ok in H as (reduce & Hred & H).
  apply outcome_bind_ok in H as (inviter & _ & H); apply Ok_inj in H; subst r.
  assert (Hc : 0 <= i32 (BaseFeeRate - reduce) <= 200).
  { unfold i32, BaseFeeRate, VipReduceFeeRate in *; destruct vip; [apply Ok_inj in Hred; subst; by vm_compute|].
    apply outcome_bind_ok in Hred as (v & _ & Hred); apply Ok_inj in Hred; subst; destruct v; by vm_compute. }
  unfold rates_ok; cbn [r_taker r_maker r_takerOperator r_makerOperator]; split_and!; apply cut_bounds; lia.
Qed.

Lemma MaxTotalFeeRate_ok r : rates_ok r -> 0 <= MaxTotalFeeRate r <= 400.
Proof.
  intros (? & ? & ? & ?); unfold MaxTotalFeeRate, i32; rewrite !Z.mod_small by lia.
  destruct (Z.ltb_spec (r_maker r + r_makerOperator r + 2 ^ 31 - 2 ^ 31) (r_taker r + r_takerOperator r + 2 ^ 31 - 2 ^ 31)); lia.
Qed.

(** In float32, for all rates there are. *)
Lemma adjusted_small : forallb (fun r => (0 <=? adjustedFeeRate r) && (adjustedFeeRate r <=? 1000)) (seqZ 0 401) = true.
Proof. by vm_compute. Qed.

Lemma adjustedFeeRate_ok r : 0 <= r <= 400 -> 0 <= adjustedFeeRate r <= 1000.
Proof.
  intros Hr; pose proof adjusted_small as H; rewrite forallb_forall in H.
  assert (Hin : In r (seqZ 0 401)) by (apply list_elem_of_In, elem_of_seqZ; lia); apply H in Hin; lia.
Qed.

(** ** Order ids *)

Lemma length_PriceToBytes price : length (PriceToBytes price) = 10%nat.
Proof.
  unfold PriceToBytes; destruct (match split_dot price with [] => _ | _ => _ end) as [i d].
  rewrite length_app; destruct (0 <? len i), (0 <? len d); rewrite ?length_drop, ?length_be_bytes; done.
Qed.

(** When an order was made: the time and the serial number in its id. *)
Definition stamp (id : bytes) : Z := SetBytes (drop 14 id).

Lemma stamp_order_id marketId side price timestamp serialNo :
  length price = 10%nat -> 0 <= timestamp < 2 ^ 40 -> 0 <= serialNo < 2 ^ 24 ->
  stamp (order_id marketId side price timestamp serialNo) = timestamp * 2 ^ 24 + serialNo.
Proof.
  intros Hp Ht Hs; unfold stamp; rewrite order_id_parts.
  rewrite (u64_small timestamp) by (unfold is_u64; lia); unfold u32 at 2; rewrite (Z.mod_small serialNo) by lia.
  rewrite !app_assoc, <- (app_assoc _ (be_bytes 5 timestamp)).
  rewrite drop_app_length' by (rewrite !length_app, !length_be_bytes, length_stored_price, Hp; done).
  rewrite SetBytes_app, length_be_bytes, !SetBytes_be_bytes, !Z.mod_small by lia; done.
Qed.

Lemma getValue_view db k v : getValueFromDb db k = Ok v -> view_of db k = v.
Proof. unfold getValueFromDb, view_of; by destruct (db_GetValue db k); intros H; simplify_eq. Qed.

Lemma GetTimestamp_view db ts : GetTimestampInt64 db = Ok ts -> ts = dex_time (view_of db) /\ ts <> 0.
Proof.
  unfold GetTimestampInt64, GetDexTimestamp; intros H; apply outcome_bind_ok in H as (t & Ht & H).
  apply outcome_bind_ok in Ht as (bs & Hb%getValue_view & Ht); unfold dex_time; rewrite Hb.
  destruct (Z.eqb_spec t 0) as [|Hn]; [done|]; apply Ok_inj in H; subst ts; split; [|done].
  destruct (len bs =? 8); [|by apply Ok_inj in Ht]; unfold BytesToUint64 in Ht.
  destruct (len bs <? 8); simpl in Ht; by simplify_eq.
Qed.

Record composed (e : dexEnv) (db : vmDb) (marketId : Z) (side : bool) (price : bytes) (db' : vmDb) (id : bytes) : Prop := {
  cp_time : dex_time (view_of db) <> 0;
  cp_id : let ts := dex_time (view_of db) in
    id = order_id marketId side (PriceToBytes price) ts (next_serial (last_serial e (view_of db)) ts);
  cp_serial : let ts := dex_time (view_of db) in
    view_of db' orderIdSerialNoKey = marshal_SerialNo e (mkSerialNo (next_serial (last_serial e (view_of db)) ts) ts);
  cp_frame : writes_only (fun k => k = orderIdSerialNoKey) db db';
}.

Lemma ComposeOrderId_spec e db marketId side price db' id :
  ComposeOrderId e db marketId side price = Ok (db', id) -> composed e db marketId side price db' id.
Proof.
  unfold ComposeOrderId, NewAndSaveOrderSerialNo; intros H.
  apply outcome_bind_ok in H as (ts & [-> Hn]%GetTimestamp_view & H).
  apply outcome_bind_ok in H as ([db1 n] & Hs & H); apply Ok_inj in H; simplify_eq.
  apply outcome_bind_ok in Hs as (sn & Hsn & Hs); apply outcome_bind_ok in Hs as (db2 & Hset & Hs).
  apply Ok_inj in Hs; simplify_eq.
  assert (E : last_serial e (view_of db) = sn).
  { unfold deserializeFromDb in Hsn; apply outcome_bind_ok in Hsn as (bs & Hb%getValue_view & Hsn).
    unfold last_serial; rewrite Hb; destruct (0 <? len bs); [|by apply Ok_inj in Hsn].
    destruct (unmarshal_SerialNo e bs); simpl in Hsn; by simplify_eq. }
  split; cbv zeta; [done|by rewrite E| |].
  - rewrite (set_view _ _ _ _ orderIdSerialNoKey Hset), decide_True by done; by rewrite E.
  - by eapply writes_set; [|exact Hset].
Qed.

(** ** The order that is made *)

(** A market whose parameters are in range. *)
Record market_ok (m : MarketInfo) : Prop := {
  mo_rates : market_rates_ok m;
  mo_id : 0 <= mk_MarketId m < 2 ^ 24;
}.

(** An order that has executed nothing, whatever it asks for. *)
Lemma fresh_order o : keyed o -> od_Status o = Pending -> od_CancelReason o = cancelledByUser ->
  od_ExecutedQuantity o = [] -> od_ExecutedAmount o = [] -> od_ExecutedBaseFee o = [] -> od_ExecutedOperatorFee o = [] ->
  rates_ok (mkRates (od_TakerFeeRate o) (od_MakerFeeRate o) (od_TakerOperatorFeeRate o) (od_MakerOperatorFeeRate o)) ->
  fresh o.
Proof.
  intros Hk Hs Hr E1 E2 E3 E4 (? & ? & ? & ?); simpl in *.
  split; [|done|done|done|by rewrite E1, E2, E3, E4].
  split; unfold rate_ok; [rewrite E1|intros _; rewrite E2|intros _; rewrite E3, E4|lia..];
    change (val []) with 0; apply SetBytes_nonneg.
Qed.

Record rendered (e : fundEnv) (db : vmDb) (param : ParamPlaceOrder) (a : Address) (enrich : bool)
    (db' : vmDb) (o : Order) (m : MarketInfo) : Prop := {
  rd_market : GetMarketInfo e db (po_TradeToken param) (po_QuoteToken param) = Ok (Some m);
  rd_address : od_Address o = a;
  rd_marketId : od_MarketId o = mk_MarketId m;
  rd_side : od_Side o = po_Side param;
  rd_type : od_Type o = po_OrderType param;
  rd_fee : (od_Type o =? Limited) || IsAdvancedLimitOrder (od_Type o) enrich = false -> od_LockedBuyFee o = [];
  rd_executed : od_ExecutedQuantity o = [] /\ od_ExecutedAmount o = [] /\ od_ExecutedBaseFee o = [] /\
    od_ExecutedOperatorFee o = [];
  rd_composed : composed (fe_dex e) db (mk_MarketId m) (po_Side param) (po_Price param) db' (od_Id o);
  rd_fresh : market_ok m -> 0 <= dex_time (view_of db) < 2 ^ 40 -> a <> [] -> fresh o;
  rd_rates : market_ok m ->
    rates_ok (mkRates (od_TakerFeeRate o) (od_MakerFeeRate o) (od_TakerOperatorFeeRate o) (od_MakerOperatorFeeRate o));
}.

Lemma findMarket_spec e db param a agent m : findMarket e db param a agent = Ok m ->
  GetMarketInfo e db (po_TradeToken param) (po_QuoteToken param) = Ok (Some m).
Proof.
  unfold findMarket; intros H; apply outcome_bind_ok in H as (stopped & _ & H); destruct stopped; [done|].
  apply outcome_bind_ok in H as (found & Hf & H); rewrite Hf; destruct found as [m'|]; [|done].
  destruct (negb _); [done|]; destruct (mk_Stopped m'); [done|]; destruct agent as [agent|].
  - apply outcome_bind_ok in H as (granted & _ & H); destruct granted; [|done]; by apply Ok_inj in H; subst.
  - by apply Ok_inj in H; subst.
Qed.

Lemma RenderOrder_spec e db param a agent hash enrich db' o m : length hash = 32%nat ->
  RenderOrder e db param a agent hash enrich = Ok (db', o, m) -> rendered e db param a enrich db' o m.
Proof.
  intros Hh; unfold RenderOrder; intros H; apply outcome_bind_ok in H as (m1 & Hm%findMarket_spec & H).
  apply outcome_bind_ok in H as ([db1 id] & Hid%ComposeOrderId_spec & H).
  apply outcome_bind_ok in H as (r & Hr & H); binds H; destruct x1; [done|]; binds H; apply Ok_inj in H; simplify_eq.
  assert (Hrates : market_ok m -> rates_ok r) by (intros [? _]; by eapply RenderFeeRate_ok).
  split; try done.
  { simpl; intros El; match goal with H : (if _ && negb _ then _ else _) = Ok _ |- _ => rewrite El in H; by apply Ok_inj in H end. }
  intros Hok Ht Ha; pose proof (cp_id _ _ _ _ _ _ _ Hid) as Eid; cbv zeta in Eid; destruct (GetTimestamp_view _ _ E2) as [-> _].
  assert (Et : dex_time (view_of db') = dex_time (view_of db)).
  { unfold dex_time; by rewrite (cp_frame _ _ _ _ _ _ _ Hid dexTimestampKey) by done. }
  apply fresh_order; try done; [|by destruct r; apply Hrates].
  split; simpl; [..|done|].
  - rewrite Eid; unfold len; rewrite order_id_parts, !length_app, !length_be_bytes, length_stored_price, length_PriceToBytes; done.
  - destruct x2; [by right|by left].
  - rewrite Eid, Et; apply DeCompose_order_id; [apply Hok|done|apply length_PriceToBytes].
Qed.

(** ** Locking *)

Lemma lock_new t o : od_ExecutedQuantity o = [] -> od_ExecutedAmount o = [] -> od_ExecutedBaseFee o = [] ->
  od_ExecutedOperatorFee o = [] ->
  lock t o = if Bool.eqb t (od_Side o) then
               if od_Side o then val (od_Quantity o) else val (od_Amount o) + val (od_LockedBuyFee o)
             else 0.
Proof.
  intros E1 E2 E3 E4; unfold lock; rewrite E1, E2, E3, E4; change (val []) with 0.
  destruct t, (od_Side o); simpl; lia.
Qed.

(** The order as it is changed while its funds are locked. *)
Definition amounts_set (o o' : Order) : Prop := exists amount fee threshold, o' = set_amount o amount fee threshold.

Lemma amounts_trans o1 o2 o3 : amounts_set o1 o2 -> amounts_set o2 o3 -> amounts_set o1 o3.
Proof. intros (a1 & f1 & t1 & ->) (a2 & f2 & t2 & ->); by exists a2, f2, t2. Qed.

Lemma amounts_fresh o o' : amounts_set o o' -> fresh o -> fresh o'.
Proof.
  intros (a & f & t & ->) [[] [] Hs Hr Hx]; split; [|by split|done|done|done].
  destruct Hx as (X1 & X2 & X3 & X4); split; simpl; try done; intros _; rewrite ?X2, ?X3, ?X4; apply SetBytes_nonneg.
Qed.

Lemma CheckAndLock_spec e db fund o m enrich fund' o' :
  ((od_Type o =? Limited) || IsAdvancedLimitOrder (od_Type o) enrich = false -> od_LockedBuyFee o = []) ->
  CheckAndLockFundForNewOrder e db fund o m enrich = Ok (fund', o') ->
  let tok := market_tk m (od_Side o) in
  let locks := if od_Side o then val (od_Quantity o') else val (od_Amount o') + val (od_LockedBuyFee o') in
  amounts_set o o' /\ od_LockedBuyFee o' = od_LockedBuyFee o /\
  exists acc', fund' = with_account fund tok acc' /\ ac_Token acc' = tok /\
    settled (account fund tok) acc' (- locks) (- locks) /\ locks <= val (ac_Available (account fund tok)).
Proof.
  intros Hfee; unfold CheckAndLockFundForNewOrder, BytesToTokenTypeId.
  change (if od_Side o then mk_TradeToken m else mk_QuoteToken m) with (market_tk m (od_Side o)).
  set (T := market_tk m (od_Side o)); destruct (len T =? TokenTypeIdSize); cbn [negb]; [|done].
  destruct (find_account T (fu_Accounts fund)) as [acc|] eqn:Ea; [|done]; intros H.
  apply outcome_bind_ok in H as ([inc amount] & Hl & H).
  destruct (Z.ltb_spec (val (ac_Available acc) - inc) 0) as [|Hge]; [done|].
  apply outcome_bind_ok in H as (th & _ & H); apply Ok_inj in H; simplify_eq; cbv zeta.
  assert (Hinc : 0 <= inc /\ inc = if od_Side o then val (od_Quantity o) else val amount + val (od_LockedBuyFee o)).
  { unfold lockAmount in Hl; destruct (od_Side o); [apply Ok_inj in Hl; simplify_eq; split; [apply SetBytes_nonneg|done]|].
    destruct (_ || _) eqn:El in Hl.
    - apply Ok_inj in Hl; simplify_eq; autorewrite with amounts; split; [|done].
      pose proof (SetBytes_nonneg (od_Amount o)); pose proof (SetBytes_nonneg (od_LockedBuyFee o)); lia.
    - apply outcome_bind_ok in Hl as (small & _ & Hl); destruct small; [done|]; apply Ok_inj in Hl; simplify_eq.
      rewrite (Hfee El), SetBytes_Bytes by apply SetBytes_nonneg; change (val []) with 0.
      split; [apply SetBytes_nonneg|lia]. }
  destruct Hinc as [Hpos Hinc]; split; [by do 3 eexists|]; split; [done|].
  assert (Eacc : account fund T = acc) by (unfold account, GetAccountByToken; by rewrite Ea).
  eexists; split; [done|]; split; [by apply find_token in Ea|]; rewrite Eacc; cbn [set_amount od_Quantity od_Amount od_LockedBuyFee].
  rewrite <- Hinc; split; [|lia]; split; cbn [set_Locked set_Available ac_Locked ac_Available]; autorewrite with amounts;
    rewrite ?SetBytes_Bytes by lia; [done|lia|lia|done].
Qed.

Lemma RenderMarketBuy_spec o o' :
  rates_ok (mkRates (od_TakerFeeRate o) (od_MakerFeeRate o) (od_TakerOperatorFeeRate o) (od_MakerOperatorFeeRate o)) ->
  od_LockedBuyFee o = [] -> RenderMarketBuyOrderAmountAndFee o = Ok o' ->
  amounts_set o o' /\ val (od_Amount o') + val (od_LockedBuyFee o') = val (od_Amount o).
Proof.
  intros Hr Hf; unfold RenderMarketBuyOrderAmountAndFee; set (r := MaxTotalFeeRate _).
  assert (Hm : 0 <= r <= 400) by (by apply MaxTotalFeeRate_ok).
  destruct (0 <? r); intros H.
  - destruct (CalculateAmountForRate_half (od_Amount o) (adjustedFeeRate r) (adjustedFeeRate_ok r Hm)) as (fee & Ef & Hle).
    rewrite Ef in H; simpl in H; apply Ok_inj in H; subst o'; split; [by do 3 eexists|].
    cbn [set_amount od_Amount od_LockedBuyFee]; autorewrite with amounts.
    pose proof (SetBytes_nonneg fee); lia.
  - apply Ok_inj in H; subst o'; split; [|rewrite Hf; change (val []) with 0; lia].
    exists (od_Amount o), (od_LockedBuyFee o), (od_MarketOrderAmtThreshold o); by destruct o.
Qed.

(** ** The whole placement *)

Lemma DeSerialize_Serialize e o : order_codec e -> keyed o -> DeSerialize e (Serialize e o) = Ok o.
Proof.
  intros [Hr _] [_ _ _ Hp]; unfold DeSerialize, Serialize; rewrite Hr; unfold RenderOrderById; simpl; rewrite Hp; simpl.
  by destruct o.
Qed.

Lemma address_of_id a : length a = 21%nat -> address_of a = a.
Proof. intros H; unfold address_of, BytesToAddress, len; by rewrite H. Qed.

Lemma demand_new tokens b tok o : length (od_Address o) = 21%nat ->
  od_ExecutedQuantity o = [] -> od_ExecutedAmount o = [] -> od_ExecutedBaseFee o = [] -> od_ExecutedOperatorFee o = [] ->
  demand tokens b tok o =
  if bool_decide (b = od_Address o /\ tok = tokens (od_MarketId o) (od_Side o)) then
    if od_Side o then val (od_Quantity o) else val (od_Amount o) + val (od_LockedBuyFee o)
  else 0.
Proof.
  intros Ha E1 E2 E3 E4; unfold demand, in_token, lock_at, at_address; rewrite !lock_new, (address_of_id _ Ha) by done.
  destruct (od_Side o); cbn [Bool.eqb]; repeat case_bool_decide; naive_solver lia.
Qed.

Record placed (e : fundEnv) (tokens : market_tokens) (db : vmDb) (a : Address) (db' : vmDb) (o : Order) (m : MarketInfo) : Prop := {
  pl_fresh : fresh o;
  pl_address : od_Address o = a;
  pl_market : od_MarketId o = mk_MarketId m;
  pl_market_ok : market_ok m;
  pl_key : getBookPrefix (mk_MarketId m) (od_Side o) `prefix_of` od_Id o;
  pl_id : stamp (od_Id o) = dex_time (view_of db) * 2 ^ 24 +
            next_serial (last_serial (fe_dex e) (view_of db)) (dex_time (view_of db));
  pl_serial : let ts := dex_time (view_of db) in ts <> 0 /\ view_of db' orderIdSerialNoKey =
    marshal_SerialNo (fe_dex e) (mkSerialNo (next_serial (last_serial (fe_dex e) (view_of db)) ts) ts);
  pl_accounts b tok : settled (account_in e (view_of db) b tok) (account_in e (view_of db') b tok)
    (- demand tokens b tok o) (- demand tokens b tok o);
  pl_covered b tok : demand tokens b tok o <= val (ac_Available (account_in e (view_of db) b tok));
  pl_frame : writes_only (fun k => k = orderIdSerialNoKey \/ fundKeyPrefix `prefix_of` k) db db';
}.

(** What the two steps of locking leave of an order. *)
Lemma lock_order e db fund o m enrich fund' o1 o2 :
  rates_ok (mkRates (od_TakerFeeRate o) (od_MakerFeeRate o) (od_TakerOperatorFeeRate o) (od_MakerOperatorFeeRate o)) ->
  ((od_Type o =? Limited) || IsAdvancedLimitOrder (od_Type o) enrich = false -> od_LockedBuyFee o = []) ->
  CheckAndLockFundForNewOrder e db fund o m enrich = Ok (fund', o1) ->
  (if negb (od_Side o1) && IsMarketOrder (od_Type o1) enrich then RenderMarketBuyOrderAmountAndFee o1 else Ok o1) = Ok o2 ->
  let tok := market_tk m (od_Side o) in
  let locks := if od_Side o then val (od_Quantity o2) else val (od_Amount o2) + val (od_LockedBuyFee o2) in
  amounts_set o o2 /\ exists acc', fund' = with_account fund tok acc' /\ ac_Token acc' = tok /\
    settled (account fund tok) acc' (- locks) (- locks) /\ locks <= val (ac_Available (account fund tok)).
Proof.
  intros Hr Hfee H1 H2; apply CheckAndLock_spec in H1 as (Hset & Ef & Hacc); [|done]; cbv zeta in *.
  destruct (negb (od_Side o1) && IsMarketOrder (od_Type o1) enrich) eqn:Em; [|by apply Ok_inj in H2; subst o2].
  pose proof Hset as (am & fee & th & E); apply andb_true_iff in Em as [Es Em].
  assert (Hty : od_Type o1 = od_Type o /\ od_Side o1 = od_Side o) by (by subst o1); destruct Hty as [Ety Esd].
  assert (Hlim : od_LockedBuyFee o1 = []).
  { rewrite Ef; apply Hfee; rewrite <- Ety; unfold IsMarketOrder, Market in Em; apply andb_true_iff in Em as [_ Em].
    apply Z.eqb_eq in Em; rewrite Em; by destruct enrich. }
  apply RenderMarketBuy_spec in H2 as [Hset2 Hsum]; [|by subst o1|done].
  rewrite Esd in Es; destruct (od_Side o); [done|]; rewrite Hlim in Hacc; change (val []) with 0 in Hacc; rewrite Z.add_0_r in Hacc.
  rewrite Hsum; split; [by eapply amounts_trans|done].
Qed.

Lemma DoPlaceOrder_spec e tokens db param a agent hash db' calls :
  codec_ok (fund_codec e) empty_fund -> length hash = 32%nat -> length a = 21%nat ->
  (forall m, GetMarketInfo e db (po_TradeToken param) (po_QuoteToken param) = Ok (Some m) ->
     market_ok m /\ forall t, tokens (mk_MarketId m) t = market_tk m t) ->
  0 <= dex_time (view_of db) < 2 ^ 40 ->
  0 <= next_serial (last_serial (fe_dex e) (view_of db)) (dex_time (view_of db)) < 2 ^ 24 ->
  DoPlaceOrder e db param a agent hash = Ok (db', calls) ->
  exists o m leaf, calls = [CallTradePlaceOrder leaf (Serialize (fe_dex e) o)] /\ placed e tokens db a db' o m.
Proof.
  intros Hc Hh Ha Hmk Ht Hn; unfold DoPlaceOrder; intros H; apply outcome_bind_ok in H as (enrich & _ & H).
  destruct (_ && _); [done|]; apply outcome_bind_ok in H as ([[db1 o] m] & Hr & H); apply RenderOrder_spec in Hr; [|done].
  apply outcome_bind_ok in H as ([fund ok] & Hg & H); destruct ok; cbn [negb] in H; [|done].
  apply outcome_bind_ok in H as ([fund1 o1] & H1 & H); apply outcome_bind_ok in H as (db2 & Hs & H).
  apply outcome_bind_ok in H as (o2 & H2 & H); apply outcome_bind_ok in H as (leaf & _ & H); apply Ok_inj in H; simplify_eq.
  destruct (Hmk m (rd_market _ _ _ _ _ _ _ _ Hr)) as [Hok Htk]; pose proof (rd_composed _ _ _ _ _ _ _ _ Hr) as Hid.
  assert (Hfr : fresh o) by (apply Hr; [done|done|by intros ->]).
  destruct (lock_order _ _ _ _ _ _ _ _ _ (rd_rates _ _ _ _ _ _ _ _ Hr Hok) (rd_fee _ _ _ _ _ _ _ _ Hr) H1 H2)
    as (Hset & acc & -> & Htok & Hacc & Hav).
  destruct (save_replaced _ _ _ _ _ _ _ _ Hc Hg Htok Hs) as [Hrep Hfrm]; pose proof (GetFund_view _ _ _ _ _ Hg) as ->.
  pose proof Hset as (am & fee & th & Eo); destruct (rd_executed _ _ _ _ _ _ _ _ Hr) as (X1 & X2 & X3 & X4).
  assert (Hfrm0 : forall k, k <> orderIdSerialNoKey -> view_of db1 k = view_of db k) by (intros k Hk; by apply Hid).
  assert (Hd : forall b tok, demand tokens b tok o2 =
    if bool_decide (b = a /\ tok = market_tk m (od_Side o))
    then if od_Side o then val (od_Quantity o2) else val (od_Amount o2) + val (od_LockedBuyFee o2) else 0).
  { intros b tok; rewrite demand_new; subst o2; cbn [set_amount od_Address od_MarketId od_Side od_ExecutedQuantity
      od_ExecutedAmount od_ExecutedBaseFee od_ExecutedOperatorFee]; rewrite ?(rd_address _ _ _ _ _ _ _ _ Hr),
      ?(rd_marketId _ _ _ _ _ _ _ _ Hr), ?Htk; done. }
  assert (Hin : forall b, fund_in e (view_of db1) b = fund_in e (view_of db) b).
  { intros b; apply fund_in_ext, Hfrm0; discriminate. }
  exists o2, m, leaf; split; [done|]; split.
  - by eapply amounts_fresh.
  - subst o2; apply Hr.
  - subst o2; apply Hr.
  - done.
  - subst o2; cbn [set_amount od_Id od_Side]; rewrite (cp_id _ _ _ _ _ _ _ Hid), (rd_side _ _ _ _ _ _ _ _ Hr).
    unfold order_id, getBookPrefix; rewrite !app_assoc; rewrite <- !(app_assoc (_ ++ [_])); by eexists.
  - subst o2; cbn [set_amount od_Id]; rewrite (cp_id _ _ _ _ _ _ _ Hid); apply stamp_order_id; [apply length_PriceToBytes|done|done].
  - split; [apply Hid|]; rewrite (Hfrm orderIdSerialNoKey) by discriminate; apply Hid.
  - intros b tok; unfold account_in in *; rewrite Hrep, !Hin, Hd.
    case_bool_decide as E; [destruct E as [-> ->]; by rewrite Hin in Hacc|apply settled_refl].
  - intros b tok; unfold account_in; rewrite Hd; case_bool_decide as E; [destruct E as [-> ->]; by rewrite Hin in Hav|apply SetBytes_nonneg].
  - intros k Hk; rewrite Hfrm, Hfrm0; [done|by intros ->; apply Hk; left|].
    intros ->; apply Hk; right; by eexists.
Qed.
