(* ===== verification/DexTradeSpec.v ===== *)
(** What the trade contract does to its storage and which settlements it sends:
    matching, cancelling and refusing an order all settle exactly what the
    orders no longer lock. *)
From S2P Require Import Prelude Helper Float TimeIndex Types Upgrade VmDb Iterator IteratorSpec.
From S2P Require Import DexNumber DexNumberSpec DexOrder DexMatcher DexFund DexSettle DexPlace DexContracts DexExchange.
From S2P Require Import DexBookSpec DexMatcherSpec DexSpec DexFundSpec DexPlaceSpec.
From stdpp Require Import sorting.
From Stdlib Require Import ZifyBool.
#[local] Open Scope Z_scope.

(** ** Settlements as they are sent *)

Lemma address_of_twice b : address_of (address_of b) = address_of b.
Proof. unfold address_of, BytesToAddress; by destruct (len b =? AddressSize) eqn:E; simpl; rewrite ?E. Qed.

(** The settlements of a matcher are filed under their addresses and tokens. *)
Definition settles_wf (mc : Matcher) : Prop :=
  forall a settles, mt_fundSettles mc !! a = Some settles ->
    address_of a = a /\ forall t s, settles !! t = Some s -> as_IsTradeToken s = t.

Lemma update_wf mc owner s : settles_wf mc -> settles_wf (updateFundSettle mc owner s).
Proof.
  intros Hw a settles; unfold updateFundSettle; cbn [mt_fundSettles].
  rewrite lookup_insert; case_decide as E; [|apply Hw]; intros [= <-]; subst a; split; [apply address_of_twice|].
  intros t x; rewrite lookup_insert; case_decide as E; [subst t; intros [= <-]; cbn [as_IsTradeToken]|].
  - destruct (default ∅ (mt_fundSettles mc !! address_of owner) !! as_IsTradeToken s) as [y|] eqn:Ey; [|done].
    destruct (mt_fundSettles mc !! address_of owner) as [old|] eqn:Eo; [|done]; by apply (Hw _ _ Eo).
  - destruct (mt_fundSettles mc !! address_of owner) as [old|] eqn:Eo; [apply (Hw _ _ Eo)|]; simpl; by rewrite lookup_empty.
Qed.

(** What a part of the settlements amounts to in a token. *)
Definition part_in (part : AccountSettle -> Z) (tk : bool -> TokenTypeId) (tok : TokenTypeId) (mc : Matcher)
    (a : Address) : Z :=
  (if bool_decide (tk true = tok) then part (settle_of mc a true) else 0) +
  (if bool_decide (tk false = tok) then part (settle_of mc a false) else 0).

Lemma fund_actions_sum part tk mc a tok : settles_wf mc -> (forall t, part (no_settle t) = 0) ->
  actions_sum part tk a tok (fund_actions (mt_fundSettles mc)) = part_in part tk tok mc a.
Proof.
  intros Hw Hz; unfold actions_sum, fund_actions; rewrite merge_sort_Permutation, zsum_fmap.
  rewrite (zsum_ext _ (fun kv => if bool_decide (a = kv.1) then settle_sum part tk tok (account_settles kv.2) else 0)).
  2: { intros [b settles] Hin%elem_of_map_to_list; unfold action_sum; cbn [fs_Address fs_AccountSettles fst snd].
       by rewrite (proj1 (Hw _ _ Hin)). }
  rewrite (zsum_at_key (fun settles => settle_sum part tk tok (account_settles settles))).
  unfold part_in, settle_of; destruct (mt_fundSettles mc !! a) as [settles|] eqn:Ea; simpl.
  2: { rewrite !Hz; by repeat case_bool_decide. }
  unfold settle_sum, account_settles; rewrite zsum_app; destruct (Hw _ _ Ea) as [_ Hs].
  assert (Hone : forall t, zsum (fun s => if bool_decide (settle_token tk s = tok) then part s else 0) (option_list (settles !! t)) =
            if bool_decide (tk t = tok) then part (default (no_settle t) (settles !! t)) else 0).
  { intros t; destruct (settles !! t) as [s|] eqn:Et; simpl; [|rewrite Hz; by case_bool_decide].
    unfold settle_token; rewrite (Hs _ _ Et); lia. }
  by rewrite !Hone.
Qed.

(** ** What the matcher may write *)

(** Everything but the markets. *)
Definition trade_key (k : bytes) : Prop :=
  len k = OrderIdBytesLength \/ sendHashMapOrderIdPrefixKey `prefix_of` k \/ k = tradeTimestampKey.

Record calm (mc mc' : Matcher) : Prop := {
  cm_writes : writes_only trade_key (mt_db mc) (mt_db mc');
  cm_market : mt_MarketInfo mc' = mt_MarketInfo mc;
  cm_wf : settles_wf mc -> settles_wf mc';
}.

Lemma calm_refl mc : calm mc mc.
Proof. split; [apply writes_refl|done|done]. Qed.

Lemma calm_trans mc1 mc2 mc3 : calm mc1 mc2 -> calm mc2 mc3 -> calm mc1 mc3.
Proof. intros [? ? ?] [? ? ?]; split; [by eapply writes_trans|congruence|auto]. Qed.

Lemma calm_update mc owner s : calm mc (updateFundSettle mc owner s).
Proof. split; [apply writes_refl|done|apply update_wf]. Qed.

Lemma calm_fee mc owner fee operatorFee : calm mc (updateFee mc owner fee operatorFee).
Proof. split; [apply writes_refl|done|done]. Qed.

Lemma calm_log e mc ev : calm mc (addLog e mc ev).
Proof. split; [apply writes_log|done|done]. Qed.

Lemma calm_db mc db : writes_only trade_key (mt_db mc) db -> calm mc (with_db mc db).
Proof. by split. Qed.

Lemma hash_key h key : GetHashMapOrderIdKey h = Ok key -> trade_key key.
Proof. unfold GetHashMapOrderIdKey; case_match; [done|]; intros <-%Ok_inj; right; left; by eexists. Qed.

Lemma saveOrder_calm e mc o isTaker mc' : len (od_Id o) = OrderIdBytesLength -> saveOrder e mc o isTaker = Ok mc' -> calm mc mc'.
Proof.
  intros Hid H; apply outcome_bind_ok in H as (db1 & H1 & H).
  assert (W1 : writes_only trade_key (mt_db mc) db1) by (eapply writes_set; [|exact H1]; by left).
  destruct (isTaker && _); [|apply Ok_inj in H; subst; by apply calm_db].
  apply outcome_bind_ok in H as (db2 & H2 & H); apply outcome_bind_ok in H2 as (key & Hk%hash_key & H2).
  apply Ok_inj in H; subst; apply calm_db; eapply writes_trans; [exact W1|by eapply writes_set].
Qed.

Lemma deleteOrder_calm mc o mc' : len (od_Id o) = OrderIdBytesLength -> deleteOrder mc o = Ok mc' -> calm mc mc'.
Proof.
  intros Hid H; apply outcome_bind_ok in H as (db1 & H1 & H).
  assert (W1 : writes_only trade_key (mt_db mc) db1) by (eapply writes_set; [|exact H1]; by left).
  destruct (0 <? _); [|apply Ok_inj in H; subst; by apply calm_db].
  apply outcome_bind_ok in H as (db2 & H2 & H); apply outcome_bind_ok in H2 as (key & Hk%hash_key & H2).
  apply Ok_inj in H; subst; apply calm_db; eapply writes_trans; [exact W1|by eapply writes_set].
Qed.

Lemma handleRefund_calm mc o mc' o' : handleRefund mc o = (mc', o') -> calm mc mc' /\ od_Id o' = od_Id o.
Proof.
  unfold handleRefund; destruct (_ || _); [|intros [= <- <-]; split; [apply calm_refl|done]].
  destruct (if od_Side o then _ else _) as [t q]; destruct (0 <? _); intros [= <- <-];
    (split; [|done]); [apply calm_update|apply calm_refl].
Qed.

Lemma handleModifiedMakers_calm e makers : forall mc mc',
  Forall (fun o => len (od_Id o) = OrderIdBytesLength) makers -> handleModifiedMakers e mc makers = Ok mc' -> calm mc mc'.
Proof.
  induction makers as [|o makers IH]; intros mc mc' Hl H; cbn [handleModifiedMakers] in H.
  { apply Ok_inj in H; subst; apply calm_refl. }
  apply Forall_cons_1 in Hl as [Ho Hl]; apply outcome_bind_ok in H as ([mc1 o1] & H1 & H).
  eapply calm_trans; [|eapply calm_trans; [apply calm_log|by eapply IH]].
  destruct (_ || _).
  - destruct (handleRefund mc o) as [mc2 o2] eqn:Er; apply handleRefund_calm in Er as [C1 E1].
    apply outcome_bind_ok in H1 as (mc3 & Hd & H1); apply Ok_inj in H1; simplify_eq.
    eapply calm_trans; [exact C1|eapply deleteOrder_calm; [|exact Hd]; congruence].
  - apply outcome_bind_ok in H1 as (mc3 & Hs & H1); apply Ok_inj in H1; simplify_eq; by eapply saveOrder_calm.
Qed.

Lemma handleTxFundSettle_calm mc ot : calm mc (handleTxFundSettle mc ot).
Proof.
  unfold handleTxFundSettle; destruct (if tx_TakerSide (ot_tx ot) then _ else _) as [[[ti to] mi] mo].
  eapply calm_trans; [|apply calm_fee]; eapply calm_trans; [|apply calm_fee].
  do 3 (eapply calm_trans; [|apply calm_update]); apply calm_update.
Qed.

Lemma handleTxs_calm e txs : forall mc, calm mc (handleTxs e mc txs).
Proof.
  induction txs as [|ot txs IH]; intros mc; simpl; [apply calm_refl|].
  eapply calm_trans; [apply handleTxFundSettle_calm|eapply calm_trans; [apply calm_log|apply IH]].
Qed.

Lemma handleTakerRes_calm e mc taker mc' taker' :
  len (od_Id taker) = OrderIdBytesLength -> handleTakerRes e mc taker = Ok (mc', taker') -> calm mc mc'.
Proof.
  intros Hid; unfold handleTakerRes; destruct (checkMarketOrderAmtThreshold taker) as [t exceeded] eqn:Et.
  assert (Ht : len (od_Id t) = OrderIdBytesLength).
  { unfold checkMarketOrderAmtThreshold in Et; by destruct (_ && _); simplify_eq. }
  intros H; apply outcome_bind_ok in H as ([mc1 t1] & H1 & H); apply Ok_inj in H; simplify_eq.
  eapply calm_trans; [|apply calm_log]; clear Et.
  assert (Hr : forall o, (Ok (handleRefund mc o) : dexM (Matcher * Order)) = Ok (mc1, taker') -> calm mc mc1).
  { intros o Ho; apply Ok_inj in Ho; by apply handleRefund_calm in Ho as [? _]. }
  destruct exceeded; [exact (Hr _ H1)|]; destruct (_ || _); [|exact (Hr _ H1)].
  destruct (_ || _); [exact (Hr _ H1)|]; destruct (od_Type t =? FillOrKill); [exact (Hr _ H1)|].
  destruct (od_Status t =? Cancelled); [exact (Hr _ H1)|].
  apply outcome_bind_ok in H1 as (mc2 & Hs & H1); apply Ok_inj in H1; simplify_eq; by eapply saveOrder_calm.
Qed.

Lemma TryUpdateTimestamp_writes db timestamp preHash db' :
  TryUpdateTimestamp db timestamp preHash = Ok db' -> writes_only trade_key db db'.
Proof.
  intros H; apply outcome_bind_ok in H as (h & _ & H); destruct (_ <? _); [|apply Ok_inj in H; subst; apply writes_refl].
  eapply writes_set; [|exact H]; by right; right.
Qed.

Lemma match_sorted_calm e mc taker entries preHash mc' taker' :
  DexSpec.fresh taker -> Forall (entry_ok e (negb (od_Side taker))) entries ->
  (forall h, latestHeight (mt_db mc) = Ok h -> IsDexFeeUpgrade (dex_box e) h = true) ->
  match_sorted e mc taker entries preHash = Ok (mc', taker') -> calm mc mc'.
Proof.
  intros Hfr Hent Hup H; apply outcome_bind_ok in H as ([mc1 t1] & H1 & H).
  apply outcome_bind_ok in H as (db & Hts%TryUpdateTimestamp_writes & H); apply Ok_inj in H; simplify_eq.
  eapply calm_trans; [|by apply calm_db]; clear Hts.
  assert (Hid : len (od_Id taker) = OrderIdBytesLength) by apply (fr_keyed _ Hfr).
  destruct entries as [|kv rest]; [by eapply handleTakerRes_calm|].
  assert (Hu0 : undone taker = false) by (unfold undone; by rewrite (fr_reason _ Hfr)).
  apply outcome_bind_ok in H1 as (maker & Hdec & H1); apply outcome_bind_ok in H1 as (h & Hh & H1).
  apply outcome_bind_ok in H1 as (st & Htake & H1); apply outcome_bind_ok in H1 as ([mc2 t2] & Hres & H1).
  destruct (take_from_spec _ _ _ _ _ [] _ _ _ _ _ (Hup _ Hh) (took_start _ (fr_ok _ Hfr) Hu0 (fr_status _ Hfr))
              ltac:(done) Hent Hdec Htake) as (visited & os & [tl Hp] & Hd & Htk).
  apply handleTakerRes_calm in Hres; [|by rewrite (st_id _ _ (tk_terms _ _ _ Htk))].
  destruct (undone t2); [by apply Ok_inj in H1; simplify_eq|].
  apply outcome_bind_ok in H1 as (mc3 & Hmm & H1); apply Ok_inj in H1; simplify_eq.
  eapply calm_trans; [exact Hres|eapply calm_trans; [|apply handleTxs_calm]].
  eapply handleModifiedMakers_calm; [|exact Hmm].
  rewrite Hp in Hent; apply Forall_app in Hent as [Hvis _]; destruct (decodes_ids _ _ _ _ Hvis Hd) as [_ Hky].
  destruct (afters_ids _ _ (tk_afters _ _ _ Htk)) as (_ & _ & Hka).
  specialize (Hka Hky); rewrite Forall_forall in Hka |- *; intros o Ho; by apply Hka.
Qed.

(** ** The book after a message *)

(** Entries change only for the new orders and the orders in the book; what is
    there afterwards is gone or a well-formed open order. *)
Definition book_step (e : dexEnv) (new : list bytes) (view view' : bytes -> bytes) : Prop :=
  forall k, len k = OrderIdBytesLength ->
    view' k = view k \/
    (k ∈ new \/ view k <> []) /\
    (view' k = [] \/ exists o, view' k = SerializeCompact e o /\ od_Id o = k /\ resting o).

Lemma match_effect e mc taker items preHash mc' taker' :
  match_setting e mc taker items -> MatchOrder e mc taker preHash = Ok (mc', taker') ->
  calm mc mc' /\ book_step e [od_Id taker] (view_of (mt_db mc)) (view_of (mt_db mc')).
Proof.
  intros Hset H; split.
  - destruct (match_order_entries _ _ _ _ preHash Hset) as (M & Hm & HM & Hent); rewrite Hm in H.
    eapply match_sorted_calm; [apply Hset|exact Hent|apply Hset|exact H].
  - destruct (match_order_spec _ _ _ _ _ _ _ Hset H) as (M & vis & os & afters & txs & HM & Hent & Hm).
    destruct (mh_visited _ _ _ _ _ _ _ _ _ _ Hm) as [tl Htl]; rewrite Htl in Hent; apply Forall_app in Hent as [Hvis _].
    destruct (decodes_ids _ _ _ _ Hvis (mh_decoded _ _ _ _ _ _ _ _ _ _ Hm)) as [Eids Hky].
    destruct (afters_ids _ _ (mh_afters _ _ _ _ _ _ _ _ _ _ Hm)) as (Ea & Hoka & Hka); specialize (Hka Hky).
    assert (Hkt : keyed taker') by (eapply keyed_terms; [apply Hm|apply Hset]).
    intros k Hk; destruct (decide (k ∈ od_Id <$> afters)) as [Hin|Hni].
    { right; split.
      - right; rewrite Ea, Eids in Hin; apply list_elem_of_fmap in Hin as ([k' v] & -> & Hin).
        assert (HMk : M !! k' = Some v) by (apply elem_of_storage_list; rewrite Htl; apply elem_of_app; by left).
        destruct (HM _ _ HMk) as (_ & Hv & Hne); cbn [fst]; by rewrite (view_Ok _ _ _ Hv).
      - apply list_elem_of_fmap in Hin as (o & -> & Ho); rewrite (view_Ok _ _ _ (mh_makers _ _ _ _ _ _ _ _ _ _ Hm _ Ho)).
        unfold entry_of; rewrite Forall_forall in Hoka, Hka.
        destruct (closed o) eqn:Ec; [by left|right; exists o; split_and!; [done|done|split; [by apply Hoka|done|by apply Hka]]]. }
    destruct (closed taker') eqn:Ec; [left; unfold view_of; rewrite (mh_others _ _ _ _ _ _ _ _ _ _ Hm); auto|].
    destruct (decide (k = od_Id taker)) as [->|Hne].
    + right; split; [left; set_solver|right]; exists taker'; rewrite (view_Ok _ _ _ (mh_taker _ _ _ _ _ _ _ _ _ _ Hm Ec)).
      split_and!; [done|by rewrite (st_id _ _ (mh_terms _ _ _ _ _ _ _ _ _ _ Hm))|split; [apply Hm|done|done]].
    + left; unfold view_of; rewrite (mh_others _ _ _ _ _ _ _ _ _ _ Hm); auto.
Qed.

(** ** Messages to the trade contract *)

(** What a settlement in flight takes from the locked funds of an account. *)
Definition acts_tk (acts : SettleActions) (trade : bool) : TokenTypeId :=
  if trade then sa_TradeToken acts else sa_QuoteToken acts.

Definition settle_demand (e : fundEnv) (a : Address) (tok : TokenTypeId) (data : bytes) : Z :=
  match unmarshal (settle_codec e) data with
  | Some acts => actions_sum settle_taken (acts_tk acts) a tok (sa_FundActions acts)
  | None => 0
  end.

Lemma settle_demand_nonneg e a tok data : 0 <= settle_demand e a tok data.
Proof. unfold settle_demand; case_match; [apply actions_sum_nonneg|done]. Qed.

(** What is stored decodes, if at all, to open orders, and every market is stored
    under its id with its tokens. *)
Record trade_ok (e : dexEnv) (tokens : market_tokens) (view : bytes -> bytes) : Prop := {
  to_book k o : decode_entry e (k, view k) = Ok o -> resting o;
  to_markets id m : 0 <= id < 2 ^ 24 -> unmarshal_MarketInfo e (view (GetMarketInfoKeyById id)) = Some m ->
    mk_MarketId m = id /\ forall t, tokens id t = market_tk m t;
}.

(** What a message to the trade contract does: the orders [new] come in, and what
    the settlements sent take is paid for by the orders. *)
Record trade_effect (e : fundEnv) (tokens : market_tokens) (view view' : bytes -> bytes) (new : list Order)
    (settles : list bytes) : Prop := {
  te_book : book_step (fe_dex e) (od_Id <$> new) view view';
  te_markets id : view' (GetMarketInfoKeyById id) = view (GetMarketInfoKeyById id);
  te_demand ids a tok : NoDup ids -> exists ids0, NoDup ids0 /\
    zsum (settle_demand e a tok) settles + zsum (weight (fe_dex e) view' (demand tokens a tok)) ids <=
    zsum (demand tokens a tok) new + zsum (weight (fe_dex e) view (demand tokens a tok)) ids0;
}.

Lemma opened_view e view db k : opened e view db -> view_of db k = view k.
Proof. intros Ho; unfold view_of; by rewrite (op_value _ _ _ Ho). Qed.

Lemma NewMatcher_spec e tokens view db id mc : trade_ok e tokens view -> opened e view db -> 0 <= id < 2 ^ 24 ->
  NewMatcher e db id = Ok mc -> exists m, mc = NewMatcherWithMarketInfo db m /\ mk_MarketId m = id /\
    forall t, tokens id t = market_tk m t.
Proof.
  intros Hok Ho Hid H; apply outcome_bind_ok in H as ([m|] & Hm & H); [|done]; apply Ok_inj in H; subst mc.
  exists m; split; [done|]; apply (to_markets _ _ _ Hok id m Hid).
  unfold GetMarketInfoById, deserializeFromDb, getValueFromDb in Hm; rewrite (op_value _ _ _ Ho) in Hm; simpl in Hm.
  destruct (0 <? _); [|done]; by destruct (unmarshal_MarketInfo e _); simpl in Hm; simplify_eq.
Qed.

Lemma market_key id : ~ trade_key (GetMarketInfoKeyById id).
Proof.
  unfold trade_key, GetMarketInfoKeyById; intros [H|[[r H]|H]]; [|discriminate..].
  unfold len, Uint32ToBytes in H; rewrite length_app, length_be_bytes in H; done.
Qed.

(** The settlements of a matcher, sent as one message. *)
Lemma handleSettleActions_spec e tokens db mc fees calls a tok :
  codec_ok (settle_codec e) (mkSettleActions [] [] [] []) -> settles_wf mc ->
  (forall t, tokens (mk_MarketId (mt_MarketInfo mc)) t = market_tk (mt_MarketInfo mc) t) ->
  handleSettleActions e db (mt_fundSettles mc) fees (mt_MarketInfo mc) = Ok calls ->
  zsum (settle_demand e a tok) (settles_of calls) = taken tokens (mk_MarketId (mt_MarketInfo mc)) mc a tok.
Proof.
  intros Hc Hw Ht; assert (Hp : part_in settle_taken (market_tk (mt_MarketInfo mc)) tok mc a =
    taken tokens (mk_MarketId (mt_MarketInfo mc)) mc a tok).
  { unfold taken, in_token, part_in, settle_taken; by rewrite !Ht. }
  rewrite <- Hp; unfold handleSettleActions, send_settle; destruct (_ && _) eqn:Es.
  - intros H%Ok_inj; subst calls; simpl; apply andb_true_iff in Es as [Es%Nat.eqb_eq%map_size_empty_inv _].
    unfold part_in, settle_of; rewrite Es, !lookup_empty; by repeat case_bool_decide.
  - intros H; apply outcome_bind_ok in H as (leaf & _ & H); apply Ok_inj in H; subst calls; simpl.
    unfold settle_demand; rewrite (co_roundtrip _ _ Hc); cbn [sa_FundActions]; rewrite Z.add_0_r.
    rewrite <- (fund_actions_sum settle_taken (market_tk (mt_MarketInfo mc)) mc a tok Hw) by done; done.
Qed.

(** An order that was placed and is on its way to the book. *)
Record in_flight (o : Order) : Prop := {
  if_fresh : DexSpec.fresh o;
  if_market : 0 <= od_MarketId o < 2 ^ 24;
  if_key : getBookPrefix (od_MarketId o) (od_Side o) `prefix_of` od_Id o;
}.

Section Trade.
Context (e : fundEnv) (tokens : market_tokens) (view : bytes -> bytes) (db : vmDb).
Context (Hcodec : order_codec (fe_dex e)) (Hsettle : codec_ok (settle_codec e) (mkSettleActions [] [] [] [])).
Context (Hok : trade_ok (fe_dex e) tokens view) (Hopen : opened (fe_dex e) view db).

Lemma trade_setting m o : mk_MarketId m = od_MarketId o -> in_flight o -> view (od_Id o) = [] ->
  exists items, match_setting (fe_dex e) (NewMatcherWithMarketInfo db m) o items.
Proof.
  intros Hm [Hf Hid Hk] Hn; destruct Hopen as [Hnew Hv Hi Hup].
  destruct (Hi (getBookPrefix (mk_MarketId m) (negb (od_Side o)))) as (items & Hit & Hlen); exists items.
  split; cbn [mt_db mt_MarketInfo NewMatcherWithMarketInfo]; try done.
  - rewrite Hnew; apply rtc_refl.
  - rewrite Hnew; simpl; done.
  - intros side k v x _ Hkv Hx; rewrite Hv in Hkv; apply Ok_inj in Hkv; subst v.
    destruct (to_book _ _ _ Hok _ _ Hx) as [? ? []]; done.
  - by rewrite Hm.
  - by rewrite Hv, Hn.
Qed.

Lemma settles_wf_new m : settles_wf (NewMatcherWithMarketInfo db m).
Proof. intros a s; cbn [mt_fundSettles NewMatcherWithMarketInfo]; by rewrite lookup_empty. Qed.

Lemma failed_demand o m leaf calls a tok : in_flight o -> (forall t, tokens (od_MarketId o) t = market_tk m t) ->
  OnPlaceOrderFailed e leaf o m = Ok calls -> zsum (settle_demand e a tok) (settles_of calls) = demand tokens a tok o.
Proof.
  intros [[_ _ _ _ (E1 & E2 & E3 & E4)] _ _] Ht H; apply outcome_bind_ok in H as (b & _ & H); apply Ok_inj in H; subst calls.
  simpl; unfold settle_demand; rewrite (co_roundtrip _ _ Hsettle); simpl; unfold actions_sum, action_sum, settle_sum.
  cbn [zsum foldr fs_Address fs_AccountSettles]; unfold settle_token, settle_taken, acts_tk; simpl.
  change (val []) with 0; unfold demand, in_token, lock_at, at_address, lock; rewrite !Ht, E1, E2, E3, E4; unfold market_tk.
  destruct (od_Side o); autorewrite with amounts; repeat case_bool_decide; lia.
Qed.

Lemma TradePlaceOrder_effect o prevHash db' calls : in_flight o -> view (od_Id o) = [] ->
  TradePlaceOrder e db (Serialize (fe_dex e) o) prevHash = Ok (db', calls) ->
  trade_effect e tokens view (view_of db') [o] (settles_of calls).
Proof.
  intros Hf Hn; unfold TradePlaceOrder; rewrite DeSerialize_Serialize by (done || apply Hf).
  intros H; apply outcome_bind_ok in H as (o1 & <-%Ok_inj & H); apply outcome_bind_ok in H as (mc & Hmc & H).
  destruct (NewMatcher_spec _ _ _ _ _ _ Hok Hopen (if_market _ Hf) Hmc) as (m & -> & Hid & Ht).
  assert (Hfail : forall calls', OnPlaceOrderFailed e db o m = Ok calls' ->
            trade_effect e tokens view (view_of db) [o] (settles_of calls')).
  { intros calls' Hc; split; [intros k _; left; by eapply opened_view|intros; by eapply opened_view|].
    intros ids a tok Hnd; exists ids; split; [done|]; rewrite (failed_demand _ _ _ _ a tok Hf Ht Hc); simpl.
    rewrite (zsum_ext _ (weight (fe_dex e) view (demand tokens a tok))); [lia|].
    intros k _; apply weight_others; intros _; by eapply opened_view. }
  destruct (MatchOrder _ _ o prevHash) as [[mc' o']|err|] eqn:Hm; [|destruct err; try done;
    apply outcome_bind_ok in H as (c & Hc & H); apply Ok_inj in H; simplify_eq; by apply Hfail|done].
  apply outcome_bind_ok in H as (c & Hc & H); apply Ok_inj in H; simplify_eq.
  destruct (trade_setting m o Hid Hf Hn) as (items & Hset).
  destruct (match_effect _ _ _ _ _ _ _ Hset Hm) as [[Hw Hmk Hwf] Hb]; cbn [mt_db mt_MarketInfo NewMatcherWithMarketInfo] in *.
  split.
  - intros k Hk; rewrite <- (opened_view _ _ _ k Hopen); by apply Hb.
  - intros id; rewrite (Hw _ (market_key id)); by eapply opened_view.
  - intros ids a tok Hnd; destruct (match_demand _ _ _ _ _ _ _ tokens a tok ids Hset Hm Hnd) as (ids0 & Hnd0 & _ & Hle).
    exists ids0; split; [done|].
    pose proof (handleSettleActions_spec e tokens (mt_db mc') mc' (mt_feeSettles mc') calls a tok Hsettle (Hwf (settles_wf_new m))) as Hs.
    rewrite Hmk in Hs, Hc; specialize (Hs ltac:(intros t; rewrite Hid; apply Ht) Hc); rewrite Hid in Hs.
    cbn [mt_db NewMatcherWithMarketInfo] in Hle; rewrite (zsum_ext _ (weight (fe_dex e) view (demand tokens a tok)) ids0) in Hle.
    + simpl; lia.
    + intros k _; apply weight_others; intros _; by eapply opened_view.
Qed.

Lemma DeComposeOrderId_range id m side price ts : DeComposeOrderId id = Ok (m, side, price, ts) ->
  len id = OrderIdBytesLength /\ 0 <= m < 2 ^ 24.
Proof.
  unfold DeComposeOrderId; destruct (Z.eqb_spec (len id) OrderIdBytesLength) as [El|]; [|done]; cbn [negb].
  intros H; apply outcome_bind_ok in H as (n & Hn & H); apply outcome_bind_ok in H as (b & _ & H).
  apply outcome_bind_ok in H as (t & _ & H); apply Ok_inj in H; simplify_eq; split; [done|].
  unfold BytesToUint32 in Hn; destruct (_ <? 4); [done|]; apply Ok_inj in Hn; subst n.
  change (take 4 (x00 :: take 3 id)) with (x00 :: take 3 (take 3 id)); rewrite take_take.
  change (x00 :: take (3 `min` 3) id) with ([x00] ++ take 3 id); rewrite SetBytes_app.
  change (SetBytes [x00]) with 0; pose proof (SetBytes_range (take 3 id)) as Hb.
  assert (Hl : Z.of_nat (length (take 3 id)) <= 3) by (rewrite length_take; lia).
  assert (256 ^ Z.of_nat (length (take 3 id)) <= 256 ^ 3) by (apply Z.pow_le_mono_r; lia).
  unfold i32; rewrite Z.mod_small by lia; lia.
Qed.

(** An order read by its id is the one in the book. *)
Lemma GetOrderById_stored m orderId o id side price ts :
  DeComposeOrderId orderId = Ok (id, side, price, ts) ->
  GetOrderById (fe_dex e) (NewMatcherWithMarketInfo db m) orderId = Ok o ->
  decode_entry (fe_dex e) (orderId, view orderId) = Ok o /\ od_Id o = orderId /\ od_MarketId o = id.
Proof.
  intros Ed Ho; unfold GetOrderById, getValueFromDb in Ho; cbn [mt_db NewMatcherWithMarketInfo] in Ho.
  rewrite (op_value _ _ _ Hopen) in Ho; simpl in Ho; destruct (0 <? len (view orderId)) eqn:E0; [|done]; split.
  - unfold decode_entry; cbn [fst snd]; rewrite (proj1 (DeComposeOrderId_range _ _ _ _ _ Ed)).
    change (negb (_ =? _)) with false; cbn [orb]; replace (len (view orderId) =? 0) with false by lia; by rewrite Ho.
  - unfold DeSerializeCompact, RenderOrderById in Ho; rewrite Ed in Ho.
    destruct (unmarshal_Order _ _); simpl in Ho; [|done]; by apply Ok_inj in Ho; subst o.
Qed.

Lemma CancelOrderById_spec m o mc' : order_ok o -> keyed o ->
  CancelOrderById (fe_dex e) (NewMatcherWithMarketInfo db m) o = Ok mc' ->
  calm (NewMatcherWithMarketInfo db m) mc' /\
  (forall k, len k = OrderIdBytesLength -> view_of (mt_db mc') k = if decide (k = od_Id o) then [] else view k) /\
  forall a t, reduced mc' a t + released mc' a t = lock_at a t o.
Proof.
  intros Hoo Hky Hcl; unfold CancelOrderById in Hcl; set (reason := if od_Status o =? Pending then _ else _) in Hcl.
  destruct (handleRefund _ (set_status o Cancelled reason)) as [mc1 o1] eqn:Er.
  pose proof (handleRefund_calm _ _ _ _ Er) as [C1 Ei1]; apply handleRefund_spec in Er as Hrf; [|by apply order_ok_status].
  assert (Hk1 : keyed o1) by (eapply keyed_terms; [|exact Hky]; eapply same_terms_trans; [apply same_terms_status|apply Hrf]).
  pose proof (deleteOrder_calm _ _ _ (ky_id _ Hk1) Hcl) as C2; apply deleteOrder_spec in Hcl as [Hs Hw]; [|done].
  split; [exact (calm_trans _ _ _ C1 (calm_trans _ _ _ (calm_log (fe_dex e) _ _) C2))|]; split.
  - intros k Hk; unfold view_of; rewrite (Hw k Hk), Ei1; cbn [set_status od_Id]; case_decide; [done|].
    change (db_GetValue (mt_db (emitOrderUpdate (fe_dex e) mc1 o1)) k) with (db_GetValue (mt_db mc1) k).
    rewrite (sb_db _ _ (rf_books _ _ _ _ Hrf)); cbn [mt_db NewMatcherWithMarketInfo]; by rewrite (op_value _ _ _ Hopen).
  - destruct (same_settles_view _ _ Hs) as (_ & R & L & _); intros a t; rewrite R, L.
    change (reduced (emitOrderUpdate _ ?x _) ?y ?z) with (reduced x y z).
    change (released (emitOrderUpdate _ ?x _) ?y ?z) with (released x y z).
    rewrite (rf_reduced _ _ _ _ Hrf), (rf_released _ _ _ _ Hrf).
    destruct (no_settles_view (NewMatcherWithMarketInfo db m) ltac:(done)) as (_ & R0 & L0 & _); by rewrite R0, L0.
Qed.

(** The matcher stays at its height. *)
Lemma setValue_height db0 key v db1 : setValueToDb db0 key v = Ok db1 -> latestHeight db1 = latestHeight db0.
Proof.
  unfold setValueToDb, db_SetValue; destruct (32 <? _); [done|]; intros H; apply Ok_inj in H; by subst.
Qed.

Lemma CancelOrderById_height mc o mc' : CancelOrderById (fe_dex e) mc o = Ok mc' ->
  latestHeight (mt_db mc') = latestHeight (mt_db mc).
Proof.
  unfold CancelOrderById; destruct (handleRefund mc _) as [mc1 o1] eqn:Er; intros H.
  assert (E1 : mt_db mc1 = mt_db mc).
  { unfold handleRefund in Er; destruct (_ || _) in Er; [|by simplify_eq]; destruct (if od_Side _ then _ else _) as [t q].
    destruct (0 <? _) in Er; by simplify_eq. }
  apply outcome_bind_ok in H as (db1 & H1%setValue_height & H); rewrite <- E1.
  destruct (0 <? _); [|apply Ok_inj in H; by subst].
  apply outcome_bind_ok in H as (db2 & H2 & H); apply outcome_bind_ok in H2 as (key & _ & H2%setValue_height).
  apply Ok_inj in H; subst; cbn [with_db mt_db]; by rewrite H2, H1.
Qed.

(** One entry of the book goes away. *)
Lemma weights_without q view' id o ids : NoDup ids ->
  (forall k, len k = OrderIdBytesLength -> view' k = if decide (k = id) then [] else view k) ->
  decode_entry (fe_dex e) (id, view id) = Ok o ->
  exists ids0, NoDup ids0 /\ q o + zsum (weight (fe_dex e) view' q) ids <= zsum (weight (fe_dex e) view q) ids0.
Proof.
  intros Hnd Hview Hdec; exists (id :: filter (fun k => k ∉ [id]) ids); split.
  { constructor; [|by apply NoDup_filter]; intros [Hx _]%list_elem_of_filter; apply Hx; set_solver. }
  assert (Hwo : weight (fe_dex e) view q id = q o) by (unfold weight; by rewrite Hdec).
  assert (Hz : weight (fe_dex e) view' q id = 0).
  { assert (Ev : view' id = []) by (rewrite Hview by (by eapply decode_length); by rewrite decide_True).
    unfold weight; rewrite Ev; destruct (decode_entry (fe_dex e) (id, [])) eqn:E; [by apply decode_empty in E|done..]. }
  rewrite zsum_cons, Hwo; pose proof (zsum_le_split (weight (fe_dex e) view' q) ids [id] Hnd) as Hle.
  specialize (Hle ltac:(intros x ->%list_elem_of_singleton; rewrite Hz; lia)); rewrite zsum_cons, Hz in Hle.
  rewrite (zsum_ext _ (weight (fe_dex e) view q) (filter _ _)) in Hle; [simpl in Hle; lia|].
  intros k [Hk _]%list_elem_of_filter; apply weight_others; intros Hl; rewrite Hview, decide_False; [done|set_solver|done].
Qed.

Lemma cancel_effect orderId operator db' calls :
  handleCancelOrderById e db orderId operator = Ok (db', calls) ->
  trade_effect e tokens view (view_of db') [] (settles_of calls).
Proof.
  unfold handleCancelOrderById; intros H; apply outcome_bind_ok in H as (id & Hid & H).
  destruct (DeComposeOrderId orderId) as [[[[id' side] price] ts]| |] eqn:Ed; [|done..]; apply Ok_inj in Hid; subst id'.
  apply outcome_bind_ok in H as (mc & Hmc & H); apply outcome_bind_ok in H as (o & Ho & H).
  destruct (NewMatcher_spec _ _ _ _ _ _ Hok Hopen (proj2 (DeComposeOrderId_range _ _ _ _ _ Ed)) Hmc) as (m & -> & Hm & Ht).
  destruct (_ && _); [done|]; destruct (_ && _); [done|]; apply outcome_bind_ok in H as (mc' & Hcl & H).
  apply outcome_bind_ok in H as (c & Hc & H); apply Ok_inj in H; simplify_eq.
  destruct (GetOrderById_stored _ _ _ _ _ _ _ Ed Ho) as (Hdec & <- & Emk).
  destruct (to_book _ _ _ Hok _ _ Hdec) as [Hoo _ Hky].
  destruct (CancelOrderById_spec _ _ _ Hoo Hky Hcl) as ([Cw Cm Cwf] & Hview & Htk); cbn [mt_db mt_MarketInfo NewMatcherWithMarketInfo] in *.
  split.
  - intros k Hk; rewrite Hview by done; case_decide; [subst k; right|by left]; split; [right|by left].
    intros E; rewrite E in Hdec; by apply decode_empty in Hdec.
  - intros k; rewrite (Cw _ (market_key k)); by eapply opened_view.
  - intros ids a tok Hnd; destruct (weights_without (demand tokens a tok) _ _ _ ids Hnd Hview Hdec) as (ids0 & Hnd0 & Hle).
    exists ids0; split; [done|].
    pose proof (handleSettleActions_spec e tokens (mt_db mc') mc' ∅ calls a tok Hsettle (Cwf (settles_wf_new m))) as Hs.
    rewrite Cm in Hs, Hc; specialize (Hs ltac:(intros t; rewrite <- Emk; by rewrite Emk) Hc).
    assert (E : taken tokens (mk_MarketId m) mc' a tok = demand tokens a tok o).
    { unfold taken, demand; rewrite Emk; by apply in_token_ext. }
    rewrite E in Hs; change (zsum (demand tokens a tok) []) with 0; lia.
Qed.

Lemma setValue_ok db0 key v : len key <= 32 -> exists db1, setValueToDb db0 key v = Ok db1.
Proof. intros H; unfold setValueToDb, db_SetValue; replace (32 <? len key) with false by lia; by eexists. Qed.

Lemma deleteOrder_ok mc o : keyed o -> exists mc', deleteOrder mc o = Ok mc'.
Proof.
  intros [Hid Hh _ _]; unfold deleteOrder.
  destruct (setValue_ok (mt_db mc) (od_Id o) []) as [db1 ->]; [by rewrite Hid|]; cbn [mbind outcome_bind].
  destruct (0 <? len (od_SendHash o)) eqn:El; [|by eexists]; destruct Hh as [E|Hh]; [by rewrite E in El|].
  unfold DeleteHashMapOrderId, GetHashMapOrderIdKey.
  replace (len (od_SendHash o) <? len sendHashMapOrderIdPrefixKey) with false by (unfold len; by rewrite Hh).
  cbn [mbind outcome_bind].
  destruct (setValue_ok db1 (sendHashMapOrderIdPrefixKey ++ drop 5 (od_SendHash o)) []) as [db2 ->]; [|by eexists].
  unfold len; rewrite length_app, length_drop, Hh; done.
Qed.

Lemma decode_read m orderId o : decode_entry (fe_dex e) (orderId, view orderId) = Ok o ->
  od_Id o = orderId /\ GetOrderById (fe_dex e) (NewMatcherWithMarketInfo db m) orderId = Ok o.
Proof.
  intros Hdec; unfold decode_entry in Hdec; cbn [fst snd] in Hdec.
  destruct (len (view orderId) =? 0) eqn:E0; [by rewrite orb_true_r in Hdec|]; destruct (_ || _); [done|].
  destruct (DeSerializeCompact (fe_dex e) (view orderId) orderId) as [o'| |] eqn:Ed; [|done..]; apply Ok_inj in Hdec; subst o'; split.
  - unfold DeSerializeCompact, RenderOrderById in Ed; destruct (unmarshal_Order _ _); [|done].
    destruct (DeComposeOrderId orderId) as [[[[? ?] ?] ?]| |]; simpl in Ed; try done; by apply Ok_inj in Ed; subst o.
  - unfold GetOrderById, getValueFromDb; cbn [mt_db NewMatcherWithMarketInfo]; rewrite (op_value _ _ _ Hopen); cbn [mbind outcome_bind].
    by replace (0 <? len (view orderId)) with true by (unfold len in *; lia).
Qed.

(** Its owner can cancel an order of the book. *)
Lemma cancel_succeeds orderId o m h : decode_entry (fe_dex e) (orderId, view orderId) = Ok o ->
  od_Status o = Pending \/ od_Status o = PartialExecuted ->
  GetMarketInfoById (fe_dex e) db (od_MarketId o) = Ok (Some m) -> latestHeight db = Ok h ->
  exists db' calls, handleCancelOrderById e db orderId (od_Address o) = Ok (db', calls) /\ view_of db' orderId = [] /\
    forall a tok, zsum (settle_demand e a tok) (settles_of calls) = demand tokens a tok o.
Proof.
  intros Hdec Hst Hmk Hh; destruct (to_book _ _ _ Hok _ _ Hdec) as [Hoo _ Hky]; pose proof (decode_length _ _ _ _ Hdec) as Hlen.
  destruct (decode_read m _ _ Hdec) as [Eid Ho].
  pose proof (ky_parts _ Hky) as Hp; rewrite Eid in Hp; set (mc := NewMatcherWithMarketInfo db m) in *.
  assert (Hmc : NewMatcher (fe_dex e) db (od_MarketId o) = Ok mc) by (unfold NewMatcher; by rewrite Hmk).
  destruct (NewMatcher_spec _ _ _ _ _ _ Hok Hopen (proj2 (DeComposeOrderId_range _ _ _ _ _ Hp)) Hmc) as (m' & E & Hm & Ht).
  injection E as <-.
  assert (Hcl : exists mc', CancelOrderById (fe_dex e) mc o = Ok mc').
  { unfold CancelOrderById; set (reason := if od_Status o =? Pending then _ else _).
    destruct (handleRefund mc (set_status o Cancelled reason)) as [mc1 o1] eqn:Er; apply handleRefund_spec in Er; [|by apply order_ok_status].
    apply deleteOrder_ok; eapply keyed_terms; [|exact Hky]; eapply same_terms_trans; [apply same_terms_status|apply Er]. }
  destruct Hcl as [mc' Hcl]; destruct (CancelOrderById_spec _ _ _ Hoo Hky Hcl) as ([Cw Cm Cwf] & Hview & Htk).
  assert (Hse : exists calls, handleSettleActions e (mt_db mc') (mt_fundSettles mc') ∅ (mt_MarketInfo mc') = Ok calls).
  { unfold handleSettleActions, send_settle, IsLeafFork, CheckFork; destruct (_ && _); [by eexists|].
    rewrite (CancelOrderById_height _ _ _ Hcl); cbn [mc mt_db NewMatcherWithMarketInfo]; rewrite Hh; by eexists. }
  destruct Hse as [calls Hse]; exists (mt_db mc'), calls; split; [|split].
  - unfold handleCancelOrderById; rewrite Hp; cbn [mbind outcome_bind]; rewrite Hmc; cbn [mbind outcome_bind].
    rewrite Ho; cbn [mbind outcome_bind]; rewrite bool_decide_eq_true_2 by done; cbn [negb andb].
    replace (_ && _) with false by (destruct Hst as [-> | ->]; done); rewrite Hcl; cbn [mbind outcome_bind]; by rewrite Hse.
  - rewrite Hview, decide_True by done; done.
  - intros a tok; rewrite (handleSettleActions_spec e tokens (mt_db mc') mc' ∅ calls a tok Hsettle (Cwf (settles_wf_new m))); [| |exact Hse].
    + rewrite Cm; unfold taken, demand; cbn [mt_MarketInfo NewMatcherWithMarketInfo mc]; rewrite Hm; by apply in_token_ext.
    + intros t; rewrite Cm; cbn [mt_MarketInfo NewMatcherWithMarketInfo]; by rewrite Hm.
Qed.

Lemma receiveTrade_effect msg db' calls :
  receiveTrade e db msg = Ok (db', calls) -> trade_effect e tokens view (view_of db') [] (settles_of calls).
Proof.
  destruct msg; simpl; [apply cancel_effect|..]; intros H; apply outcome_bind_ok in H as (found & _ & H);
    (destruct found; [|done]); by eapply cancel_effect.
Qed.

End Trade.
