(* ===== verification/DexExchangeSpec.v ===== *)
(** The exchange as a whole keeps its promise: whatever the interleaving of the
    two contracts, the locked funds of every account cover its orders in the
    books, its orders on their way there and the settlements on their way back. *)
From S2P Require Import Prelude Helper Float TimeIndex Types Upgrade VmDb Iterator IteratorSpec.
From S2P Require Import DexNumber DexNumberSpec DexOrder DexMatcher DexFund DexSettle DexPlace DexContracts DexExchange.
From S2P Require Import DexWorld DexExchangeWorld DexBookSpec DexMatcherSpec DexSpec DexFundSpec DexPlaceSpec DexTradeSpec.
From stdpp Require Import list.
From Stdlib Require Import ZifyBool.
#[local] Open Scope Z_scope.

(** What the protobuf library promises about the messages of the exchange. *)
Record exchange_codecs (e : fundEnv) : Prop := {
  ec_order : order_codec (fe_dex e);
  ec_fund : codec_ok (fund_codec e) empty_fund;
  ec_settle : codec_ok (settle_codec e) (mkSettleActions [] [] [] []);
  ec_serial sn : unmarshal_SerialNo (fe_dex e) (marshal_SerialNo (fe_dex e) sn) = Some sn;
  ec_serial_zero sn : marshal_SerialNo (fe_dex e) sn = [] -> sn_Timestamp sn = 0;
}.

(** ** Messages to the fund contract *)

(** When the last order was made. *)
Definition last_stamp (e : fundEnv) (view : bytes -> bytes) : Z :=
  match last_serial (fe_dex e) view with
  | None => -1
  | Some sn => sn_Timestamp sn * 2 ^ 24 + sn_No sn
  end.

(** Every market is stored under its tokens, the clock is not behind the last
    order, and the last serial number fits into an order id. *)
Record fund_ok (e : fundEnv) (tokens : market_tokens) (view : bytes -> bytes) : Prop := {
  fo_markets tt qt m : length tt = 10%nat -> length qt = 10%nat ->
    unmarshal_MarketInfo (fe_dex e) (view (GetMarketInfoKey tt qt)) = Some m ->
    market_ok m /\ mk_TradeToken m = tt /\ mk_QuoteToken m = qt /\ forall t, tokens (mk_MarketId m) t = market_tk m t;
  fo_clock sn : last_serial (fe_dex e) view = Some sn -> sn_Timestamp sn <= dex_time view /\ 0 <= sn_No sn < 2 ^ 24;
}.

Lemma GetMarketInfo_view e tokens db tt qt m : fund_ok e tokens (view_of db) ->
  length tt = 10%nat -> length qt = 10%nat -> GetMarketInfo e db tt qt = Ok (Some m) ->
  market_ok m /\ mk_TradeToken m = tt /\ mk_QuoteToken m = qt /\ forall t, tokens (mk_MarketId m) t = market_tk m t.
Proof.
  intros Hok Ht Hq H; apply (fo_markets _ _ _ Hok _ _ _ Ht Hq).
  apply outcome_bind_ok in H as (bs & Hb%getValue_view & H); rewrite Hb.
  destruct (0 <? _); [|done]; by destruct (unmarshal_MarketInfo _ bs); simpl in H; simplify_eq.
Qed.

(** What a message to the fund contract does: [new] orders lock their demand, the
    settlements [done] take theirs. *)
Record fund_effect (e : fundEnv) (tokens : market_tokens) (view view' : bytes -> bytes) (new : list Order)
    (settled : list bytes) : Prop := {
  fe_ok : fund_ok e tokens view';
  fe_locked a tok : val (ac_Locked (account_in e view' a tok)) =
    val (ac_Locked (account_in e view a tok)) + zsum (demand tokens a tok) new - zsum (settle_demand e a tok) settled;
  fe_stamp : last_stamp e view <= last_stamp e view';
  fe_new o : o ∈ new -> in_flight o /\ last_stamp e view < stamp (od_Id o) <= last_stamp e view';
}.

(** A message that leaves the markets, the clock and the serial number alone. *)
Lemma quiet_effect e tokens db db' settled :
  fund_ok e tokens (view_of db) -> writes_only fund_or_fee_key db db' ->
  (forall a tok, val (ac_Locked (account_in e (view_of db') a tok)) =
     val (ac_Locked (account_in e (view_of db) a tok)) - zsum (settle_demand e a tok) settled) ->
  fund_effect e tokens (view_of db) (view_of db') [] settled.
Proof.
  intros Hok Hw Hl.
  assert (Hs : last_serial (fe_dex e) (view_of db') = last_serial (fe_dex e) (view_of db) /\ dex_time (view_of db') = dex_time (view_of db)).
  { unfold last_serial, dex_time; rewrite (Hw orderIdSerialNoKey), (Hw dexTimestampKey); [done|..];
      intros [H|[r H]]; (discriminate H || (unfold fee_key in H; repeat destruct H as [[r H]|H]; try destruct H as [r H]; discriminate H)). }
  destruct Hs as [Es Ed]; split.
  - split; [|intros sn; rewrite Es, Ed; apply Hok]; intros tt qt m Ht Hq; rewrite (Hw (GetMarketInfoKey tt qt)); [by apply Hok|].
    intros [H|[r H]]; [|discriminate H]; unfold fee_key in H; repeat destruct H as [[r H]|H]; try destruct H as [r H]; discriminate H.
  - intros a tok; rewrite Hl; simpl; lia.
  - unfold last_stamp; by rewrite Es.
  - by intros o ?%elem_of_nil.
Qed.

(** Moves of funds that lock and unlock nothing. *)
Definition unlocked (e : fundEnv) (db db' : vmDb) : Prop :=
  writes_only fund_or_fee_key db db' /\
  forall a tok, ac_Locked (account_in e (view_of db') a tok) = ac_Locked (account_in e (view_of db) a tok).

Lemma unlocked_trans e db1 db2 db3 : unlocked e db1 db2 -> unlocked e db2 db3 -> unlocked e db1 db3.
Proof. intros [W1 L1] [W2 L2]; split; [by eapply writes_trans|intros; by rewrite L2, L1]. Qed.

Lemma unlocked_fees e db db' : writes_only fee_key db db' -> unlocked e db db'.
Proof. intros Hw; split; [by apply fee_writes|]; intros a tok; unfold account_in; by rewrite (fee_writes_fund _ _ _ _ Hw). Qed.

Lemma unlocked_op e db a op amount db' acc : codec_ok (fund_codec e) empty_fund -> 0 <= amount ->
  run_account_op e db a op amount = Ok (db', acc) -> unlocked e db db'.
Proof.
  intros Hc Ha H; destruct (run_account_op_spec _ _ _ _ _ _ _ Hc Ha H) as [[_ Hl] [Hr Hw]]; split.
  - intros k Hk; apply Hw; unfold fund_key; intros ->; apply Hk; right; by eexists.
  - intros b tok; rewrite Hr; case_bool_decide as E; [by destruct E as [-> ->]|done].
Qed.

Lemma unlocked_effect e tokens db db' : fund_ok e tokens (view_of db) -> unlocked e db db' ->
  fund_effect e tokens (view_of db) (view_of db') [] [].
Proof. intros Hok [Hw Hl]; apply quiet_effect; [done|done|]; intros a tok; rewrite Hl; simpl; lia. Qed.

Section Fund.
Context (e : fundEnv) (tokens : market_tokens) (db : vmDb).
Context (Hc : exchange_codecs e) (Hok : fund_ok e tokens (view_of db)).

Lemma DoPlaceOrder_effect param a agent hash db' calls :
  placing_ok e db a param hash -> DoPlaceOrder e db param a agent hash = Ok (db', calls) ->
  exists o, orders_of calls = [Serialize (fe_dex e) o] /\ fund_effect e tokens (view_of db) (view_of db') [o] [].
Proof.
  intros (Ha & Hh & Htt & Hqt & Ht & Hn) H.
  assert (Hmk : forall m, GetMarketInfo e db (po_TradeToken param) (po_QuoteToken param) = Ok (Some m) ->
            market_ok m /\ forall t, tokens (mk_MarketId m) t = market_tk m t).
  { intros m Hm; by destruct (GetMarketInfo_view _ _ _ _ _ _ Hok Htt Hqt Hm) as (? & _ & _ & ?). }
  destruct (DoPlaceOrder_spec _ tokens _ _ _ _ _ _ _ (ec_fund _ Hc) Hh Ha Hmk Ht Hn H) as (o & m & leaf & -> & Hp).
  exists o; split; [done|]; destruct (pl_serial _ _ _ _ _ _ _ Hp) as [Hts Hsn]; cbv zeta in *.
  set (ts := dex_time (view_of db)) in *; set (no := next_serial (last_serial (fe_dex e) (view_of db)) ts) in *.
  assert (Es : last_serial (fe_dex e) (view_of db') = Some (mkSerialNo no ts)).
  { unfold last_serial; rewrite Hsn, (ec_serial _ Hc); case_match eqn:El; [done|].
    destruct (marshal_SerialNo (fe_dex e) (mkSerialNo no ts)) eqn:Em; [|unfold len in El; simpl in El; lia].
    by apply (ec_serial_zero _ Hc) in Em. }
  assert (Hlt : last_stamp e (view_of db) < ts * 2 ^ 24 + no).
  { unfold last_stamp; destruct (last_serial (fe_dex e) (view_of db)) as [sn|] eqn:El; [|lia].
    destruct (fo_clock _ _ _ Hok _ El) as [Hle Hno]; fold ts in Hle; unfold no, next_serial in *.
    destruct (Z.eqb_spec ts (sn_Timestamp sn)) as [E|E]; [rewrite E; unfold i32 in *; rewrite Z.mod_small in * by lia; lia|].
    assert (sn_Timestamp sn + 1 <= ts) by lia; nia. }
  assert (Hfrm : forall k, k <> orderIdSerialNoKey -> ~ fundKeyPrefix `prefix_of` k -> view_of db' k = view_of db k).
  { intros k H1 H2; apply (pl_frame _ _ _ _ _ _ _ Hp); tauto. }
  assert (Ed : dex_time (view_of db') = ts).
  { unfold dex_time; rewrite (Hfrm dexTimestampKey); [done|done|]; intros [r Hr]; discriminate Hr. }
  assert (Est : last_stamp e (view_of db') = ts * 2 ^ 24 + no) by (unfold last_stamp; by rewrite Es).
  split.
  - split; [|intros sn; rewrite Es, Ed; intros [= <-]; simpl; lia]; intros tt qt m' Ht' Hq'.
    rewrite Hfrm; [by apply Hok|discriminate|intros [r Hr]; discriminate Hr].
  - intros b tok; rewrite (sd_locked _ _ _ _ (pl_accounts _ _ _ _ _ _ _ Hp b tok)); cbn [zsum foldr]; lia.
  - lia.
  - intros x ->%list_elem_of_singleton; pose proof (pl_id _ _ _ _ _ _ _ Hp) as Eid; fold ts in Eid; fold no in Eid.
    rewrite Eid, Est; split; [|lia].
    split; [apply Hp|rewrite (pl_market _ _ _ _ _ _ _ Hp); apply (pl_market_ok _ _ _ _ _ _ _ Hp)|].
    rewrite (pl_market _ _ _ _ _ _ _ Hp); apply Hp.
Qed.

Lemma FundDeposit_unlocked sender token amount db' calls : 0 <= amount ->
  FundDeposit e db sender token amount = Ok (db', calls) -> unlocked e db db' /\ orders_of calls = [].
Proof.
  intros Ha H; apply outcome_bind_ok in H as ([db1 acc] & H1 & H); apply outcome_bind_ok in H as (db2 & H2 & H).
  apply outcome_bind_ok in H as (v & _ & H); apply Ok_inj in H; simplify_eq; split; [|done].
  eapply unlocked_trans; [by eapply (unlocked_op _ _ _ (OpDeposit token)); [apply Hc|..]|].
  eapply (unlocked_trans _ _ db2); [|destruct v; apply unlocked_fees; apply writes_log || apply writes_refl].
  case_bool_decide; [by eapply unlocked_fees, OnChangeVx_frame|apply Ok_inj in H2; subst; apply unlocked_fees, writes_refl].
Qed.

Lemma FundWithdraw_unlocked sender token amount db' calls : 0 <= amount ->
  FundWithdraw e db sender token amount = Ok (db', calls) -> unlocked e db db' /\ orders_of calls = [].
Proof.
  intros Ha H; apply outcome_bind_ok in H as ([db1 acc] & H1 & H); apply outcome_bind_ok in H as (db2 & H2 & H).
  apply outcome_bind_ok in H as (v & _ & H); apply Ok_inj in H; simplify_eq; split; [|done].
  eapply unlocked_trans; [by eapply (unlocked_op _ _ _ (OpReduce token)); [apply Hc|..]|].
  eapply (unlocked_trans _ _ db2); [|destruct v; apply unlocked_fees; apply writes_log || apply writes_refl].
  case_bool_decide; [by eapply unlocked_fees, OnChangeVx_frame|apply Ok_inj in H2; subst; apply unlocked_fees, writes_refl].
Qed.

Lemma FundTransfer_unlocked sender target token amount db' calls : 0 <= amount ->
  FundTransfer e db sender target token amount = Ok (db', calls) -> unlocked e db db' /\ orders_of calls = [].
Proof.
  intros Ha H; apply outcome_bind_ok in H as ([db1 acc] & H1 & H); apply outcome_bind_ok in H as ([db2 acc2] & H2 & H).
  apply Ok_inj in H; simplify_eq; split; [|done].
  eapply unlocked_trans; [by eapply (unlocked_op _ _ _ (OpReduce token)); [apply Hc|..]|].
  eapply unlocked_trans; [by eapply (unlocked_op _ _ _ (OpDeposit token)); [apply Hc|..]|].
  apply unlocked_fees, writes_log.
Qed.

(** Setting the clock leaves the funds alone. *)
Lemma SetDexTimestamp_writes timestamp db' : SetDexTimestamp e db timestamp = Ok db' ->
  exists db1, writes_only fee_key db db1 /\ setValueToDb db1 dexTimestampKey (Uint64ToBytes (u64 timestamp)) = Ok db' /\
    exists old, GetDexTimestamp db = Ok old /\ old < timestamp.
Proof.
  intros H; apply outcome_bind_ok in H as (old & Ho & H); destruct (Z.ltb_spec old timestamp) as [Hlt|]; [|done].
  do 3 apply outcome_bind_ok in H as (? & _ & H); destruct (_ && _ && _); [done|].
  apply outcome_bind_ok in H as (db1 & H1 & H2); exists db1; split; [|split; [done|by exists old]].
  destruct (_ =? _); [apply Ok_inj in H1; subst; apply writes_refl|].
  apply outcome_bind_ok in H1 as ([db2 fees] & Hroll%Roll_frame & H1).
  eapply writes_trans; [exact Hroll|eapply serialize_fee; [|exact H1]; fee_prefix].
Qed.

Lemma SetDexTimestamp_funds timestamp db' a : SetDexTimestamp e db timestamp = Ok db' ->
  view_of db' (GetFundKey a) = view_of db (GetFundKey a).
Proof.
  intros (db1 & Hw & Hs & _)%SetDexTimestamp_writes; rewrite (set_view _ _ _ _ _ Hs), decide_False by discriminate.
  apply Hw, fund_key_not_fee.
Qed.

Lemma SetDexTimestamp_effect timestamp db' : - 2 ^ 63 <= timestamp < 2 ^ 63 ->
  SetDexTimestamp e db timestamp = Ok db' -> fund_effect e tokens (view_of db) (view_of db') [] [].
Proof.
  intros Hr H; destruct (SetDexTimestamp_writes _ _ H) as (db1 & Hw & H2 & old & Ho & Hlt).
  assert (E1 : fund_effect e tokens (view_of db) (view_of db1) [] []) by (apply unlocked_effect, unlocked_fees; done).
  pose proof (fun k => set_view _ _ _ _ k H2) as Hv.
  assert (Hold : dex_time (view_of db1) = old).
  { unfold dex_time; rewrite (Hw dexTimestampKey) by (unfold fee_key; intros Hf; repeat destruct Hf as [[r Hf]|Hf]; try destruct Hf as [r Hf]; discriminate Hf).
    apply outcome_bind_ok in Ho as (bs & Hb%getValue_view & Ho); rewrite Hb.
    destruct (len bs =? 8); [|by apply Ok_inj in Ho]; unfold BytesToUint64 in Ho; destruct (len bs <? 8); simpl in Ho; by simplify_eq. }
  assert (Hnew : dex_time (view_of db') = timestamp).
  { unfold dex_time; rewrite Hv, decide_True by done; unfold Uint64ToBytes; unfold len; rewrite length_be_bytes; cbn [Z.of_nat].
    change (_ =? 8) with true; cbn iota; rewrite take_ge by (by rewrite length_be_bytes); rewrite SetBytes_be_bytes.
    change (256 ^ Z.of_nat 8) with (2 ^ 64); unfold u64; rewrite Zmod_mod; by apply i64_u64. }
  assert (Hs : last_serial (fe_dex e) (view_of db') = last_serial (fe_dex e) (view_of db1)).
  { unfold last_serial; by rewrite Hv, decide_False. }
  destruct E1 as [[F1 F2] F3 F4 F5]; split.
  - split; [|intros sn; rewrite Hs, Hnew; intros Hsn; destruct (F2 _ Hsn); lia].
    intros tt qt m Ht Hq; rewrite Hv, decide_False by discriminate; by apply F1.
  - intros a tok; rewrite <- F3; unfold account_in; by rewrite (fund_in_ext e (view_of db1)) by (by rewrite Hv, decide_False by discriminate).
  - unfold last_stamp in *; by rewrite Hs.
  - by intros o ?%elem_of_nil.
Qed.

Lemma receiveFund_effect msg db' calls : fund_message_ok e db msg -> receiveFund e db msg = Ok (db', calls) ->
  exists new, orders_of calls = Serialize (fe_dex e) <$> new /\ (length new <= 1)%nat /\
    fund_effect e tokens (view_of db) (view_of db') new [].
Proof.
  assert (Hquiet : unlocked e db db' /\ orders_of calls = [] -> exists new, orders_of calls = Serialize (fe_dex e) <$> new /\
    (length new <= 1)%nat /\ fund_effect e tokens (view_of db) (view_of db') new []).
  { intros [Hu ->]; exists []; split; [done|]; split; [simpl; lia|by apply unlocked_effect]. }
  assert (Hplace : forall param a agent hash, placing_ok e db a param hash -> DoPlaceOrder e db param a agent hash = Ok (db', calls) ->
    exists new, orders_of calls = Serialize (fe_dex e) <$> new /\ (length new <= 1)%nat /\
      fund_effect e tokens (view_of db) (view_of db') new []).
  { intros param a agent hash Hp H; destruct (DoPlaceOrder_effect _ _ _ _ _ _ Hp H) as (o & -> & He); by exists [o]. }
  destruct msg; cbn [fund_message_ok receiveFund]; intros Hm H.
  - by apply Hquiet, (FundDeposit_unlocked sender token amount).
  - by apply Hquiet, (FundWithdraw_unlocked sender token amount).
  - by eapply Hplace.
  - by eapply Hplace.
  - by apply Hquiet, (FundTransfer_unlocked sender target token amount).
  - apply outcome_bind_ok in H as ([db1 acc] & H1 & H); apply Ok_inj in H; simplify_eq; apply Hquiet; split; [|done].
    eapply unlocked_trans; [by eapply (unlocked_op _ _ _ (OpDeposit token)); [apply Hc|..]|apply unlocked_fees, writes_log].
  - apply outcome_bind_ok in H as ([db1 acc] & H1 & H); apply Ok_inj in H; simplify_eq; apply Hquiet; split; [|done].
    eapply unlocked_trans; [by eapply (unlocked_op _ _ _ (OpReduce token)); [apply Hc|..]|apply unlocked_fees, writes_log].
  - apply outcome_bind_ok in H as (owner & _ & H); apply Ok_inj in H; simplify_eq.
    apply Hquiet; split; [apply unlocked_fees, writes_refl|done].
  - apply outcome_bind_ok in H as (valid & _ & H); destruct valid; [|done]; apply outcome_bind_ok in H as (db1 & H1 & H).
    apply Ok_inj in H; simplify_eq; exists []; split; [done|]; split; [simpl; lia|by eapply SetDexTimestamp_effect].
Qed.

Lemma actions_sum_ext part tk tk' a tok acts : (forall t, tk t = tk' t) ->
  actions_sum part tk a tok acts = actions_sum part tk' a tok acts.
Proof.
  intros Ht; apply zsum_ext; intros act _; unfold action_sum; case_bool_decide; [|done].
  apply zsum_ext; intros st _; unfold settle_token; by rewrite Ht.
Qed.

(** What a settlement makes available. *)
Definition settle_gives (a : Address) (tok : TokenTypeId) (data : bytes) : Z :=
  match unmarshal (settle_codec e) data with
  | Some acts => actions_sum settle_given (acts_tk acts) a tok (sa_FundActions acts)
  | None => 0
  end.

Lemma FundSettleOrders_effect data db' calls :
  (forall a tok, settle_demand e a tok data <= val (ac_Locked (account_in e (view_of db) a tok))) ->
  FundSettleOrders e db data = Ok (db', calls) ->
  fund_effect e tokens (view_of db) (view_of db') [] [data] /\
  forall a tok, settled (account_in e (view_of db) a tok) (account_in e (view_of db') a tok)
                  (settle_demand e a tok data) (settle_gives a tok data).
Proof.
  unfold settle_demand, settle_gives; intros Hle H.
  destruct (unmarshal (settle_codec e) data) as [acts|] eqn:Ed; [|unfold FundSettleOrders in H; by rewrite Ed in H].
  destruct (FundSettleOrders_spec _ _ _ _ _ _ (ec_fund _ Hc) Ed H) as (m & Hm & _ & Hs).
  assert (Htk : forall t, acts_tk acts t = market_tk m t).
  { unfold GetMarketInfoByTokens, BytesToTokenTypeId in Hm.
    destruct (Z.eqb_spec (len (sa_TradeToken acts)) TokenTypeIdSize) as [L1|],
      (Z.eqb_spec (len (sa_QuoteToken acts)) TokenTypeIdSize) as [L2|]; try done; cbn [negb orb] in Hm.
    unfold len, TokenTypeIdSize in L1, L2.
    apply (GetMarketInfo_view e tokens db) in Hm as (_ & E1 & E2 & _); [|done|lia|lia].
    intros t; unfold acts_tk, market_tk; by rewrite E1, E2. }
  assert (Ht : forall part a tok, actions_sum part (market_tk m) a tok (sa_FundActions acts) =
                 actions_sum part (acts_tk acts) a tok (sa_FundActions acts)) by (intros; by apply actions_sum_ext).
  destruct Hs as [Hw Hs]; [intros a tok; rewrite Ht; apply Hle|]; split; [|intros a tok; by rewrite <- !Ht].
  apply quiet_effect; [done|done|]; intros a tok; rewrite (sd_locked _ _ _ _ (Hs a tok)), Ht; cbn [zsum foldr].
  unfold settle_demand; rewrite Ed; lia.
Qed.

End Fund.

(** ** The invariant of the exchange *)

(** What an order in flight locks. *)
Definition order_demand (e : fundEnv) (tokens : market_tokens) (a : Address) (tok : TokenTypeId) (data : bytes) : Z :=
  match DeSerialize (fe_dex e) data with Ok o => demand tokens a tok o | _ => 0 end.

(** The orders in flight are new to the book and older than the clock. *)
Definition orders_ok (e : fundEnv) (s : exchange) (os : list Order) : Prop :=
  ex_orders s = Serialize (fe_dex e) <$> os /\ NoDup (od_Id <$> os) /\
  forall o, o ∈ os -> in_flight o /\ ex_trade s (od_Id o) = [] /\ stamp (od_Id o) <= last_stamp e (ex_fund s).

Record exchange_ok (e : fundEnv) (tokens : market_tokens) (s : exchange) : Prop := {
  xo_fund : fund_ok e tokens (ex_fund s);
  xo_trade : trade_ok (fe_dex e) tokens (ex_trade s);
  xo_orders : exists os, orders_ok e s os;
  xo_stamps k : len k = OrderIdBytesLength -> ex_trade s k <> [] -> stamp k <= last_stamp e (ex_fund s);
  xo_covered ids a tok : NoDup ids ->
    zsum (weight (fe_dex e) (ex_trade s) (demand tokens a tok)) ids +
    zsum (order_demand e tokens a tok) (ex_orders s) +
    zsum (settle_demand e a tok) (ex_settles s) <= val (ac_Locked (account_in e (ex_fund s) a tok));
}.

Section Exchange.
Context (e : fundEnv) (tokens : market_tokens) (Hc : exchange_codecs e).

Lemma zsum_orders a tok os : (forall o, o ∈ os -> in_flight o) ->
  zsum (order_demand e tokens a tok) (Serialize (fe_dex e) <$> os) = zsum (demand tokens a tok) os.
Proof.
  intros Hf; rewrite zsum_fmap; apply zsum_ext; intros o Ho; unfold order_demand.
  by rewrite DeSerialize_Serialize by (apply Hc || apply (Hf _ Ho)).
Qed.

(** A book keeps its orders well-formed. *)
Lemma book_step_ok new view view' : book_step (fe_dex e) new view view' ->
  (forall k o, decode_entry (fe_dex e) (k, view k) = Ok o -> resting o) ->
  forall k o, decode_entry (fe_dex e) (k, view' k) = Ok o -> resting o.
Proof.
  intros Hb Hv k o Hd; pose proof (decode_length _ _ _ _ Hd) as Hl.
  destruct (Hb k Hl) as [E|[_ [E|(o' & E & <- & Hr)]]]; rewrite E in Hd; [by eapply Hv|by apply decode_empty in Hd|].
  rewrite decode_saved in Hd by (apply Hc || apply Hr); by apply Ok_inj in Hd; subst.
Qed.

(** A message to the fund contract keeps the invariant. *)
Lemma fund_effect_keeps s view' new done1 settles : exchange_ok e tokens s ->
  fund_effect e tokens (ex_fund s) view' new done1 -> (length new <= 1)%nat -> ex_settles s ≡ₚ done1 ++ settles ->
  exchange_ok e tokens (mkExchange view' (ex_trade s) (ex_orders s ++ (Serialize (fe_dex e) <$> new)) settles).
Proof.
  intros [Hf Ht (os & Eo & Hnd & Hos) Hst Hcov] [Fk Fl Fs Fn] Hone Hp; split; cbn [ex_fund ex_trade ex_orders ex_settles].
  - done.
  - done.
  - exists (os ++ new); split; [by rewrite Eo, fmap_app|]; cbn [ex_trade ex_fund]; rewrite fmap_app; split.
    + apply NoDup_app; split; [done|]; split.
      * intros id (o & -> & (_ & _ & Ho)%Hos)%list_elem_of_fmap (o' & E & (_ & Hlt & _)%Fn)%list_elem_of_fmap; rewrite E in Ho; lia.
      * destruct new as [|o [|? ?]]; simpl in *; [constructor|apply NoDup_singleton|lia].
    + intros o [Ho|Ho]%elem_of_app; [destruct (Hos _ Ho) as (? & ? & ?); split_and!; [done|done|lia]|].
      destruct (Fn _ Ho) as (Hfl & Hlt & Hle); split_and!; [done| |done].
      destruct (decide (ex_trade s (od_Id o) = [])) as [|Hne]; [done|].
      specialize (Hst (od_Id o) (ky_id _ (fr_keyed _ (if_fresh _ Hfl))) Hne); lia.
  - intros k Hk Hne; specialize (Hst k Hk Hne); lia.
  - intros ids a tok Hnd'; specialize (Hcov ids a tok Hnd'); rewrite Fl, zsum_app, (zsum_orders a tok new) by (by intros o []%Fn).
    rewrite Hp, zsum_app in Hcov; lia.
Qed.

(** A message to the trade contract keeps the invariant. *)
Lemma trade_effect_keeps s view' os new os' settles : exchange_ok e tokens s -> orders_ok e s os -> os ≡ₚ new ++ os' ->
  trade_effect e tokens (ex_trade s) view' new settles ->
  exchange_ok e tokens (mkExchange (ex_fund s) view' (Serialize (fe_dex e) <$> os') (ex_settles s ++ settles)).
Proof.
  intros [Hf [Hb Hm] _ Hst Hcov] (Eo & Hnd & Hos) Hp [Tb Tm Td]; split; cbn [ex_fund ex_trade ex_orders ex_settles].
  - done.
  - split; [by eapply book_step_ok|]; intros id m; rewrite Tm; apply Hm.
  - exists os'; split; [done|]; cbn [ex_trade ex_fund]; rewrite Hp, fmap_app in Hnd; apply NoDup_app in Hnd as (_ & Hdis & Hnd).
    split; [done|]; intros o Ho; destruct (Hos o) as (Hfl & Hemp & Hle); [rewrite Hp; apply elem_of_app; by right|].
    split_and!; [done| |done]; destruct (Tb (od_Id o) (ky_id _ (fr_keyed _ (if_fresh _ Hfl)))) as [E|[[Hin|Hne] _]]; [congruence| |done].
    exfalso; eapply Hdis; [exact Hin|by apply list_elem_of_fmap_2].
  - intros k Hk Hne; destruct (Tb k Hk) as [E|[[Hin|Hne'] _]]; [rewrite E in Hne; by apply Hst| |by apply Hst].
    apply list_elem_of_fmap in Hin as (o & -> & Ho); apply Hos; rewrite Hp; apply elem_of_app; by left.
  - intros ids a tok Hnd'; destruct (Td ids a tok Hnd') as (ids0 & Hnd0 & Hle); specialize (Hcov ids0 a tok Hnd0).
    rewrite Eo, (zsum_orders a tok os) in Hcov by (by intros o []%Hos); rewrite Hp, zsum_app in Hcov.
    rewrite zsum_app, (zsum_orders a tok os'); [lia|]; intros o Ho; apply Hos; rewrite Hp; apply elem_of_app; by right.
Qed.

Lemma opened_pointwise view db : opened (fe_dex e) view db -> forall k, view_of db k = view k.
Proof. intros Ho k; by eapply opened_view. Qed.

(** Storages are compared key by key. *)
Lemma account_ext view view' a tok : (forall k, view' k = view k) -> account_in e view' a tok = account_in e view a tok.
Proof. intros H; unfold account_in; by rewrite (fund_in_ext e view) by done. Qed.

Lemma fund_ok_ext view view' : (forall k, view' k = view k) -> fund_ok e tokens view -> fund_ok e tokens view'.
Proof.
  intros H [H1 H2]; split; [intros tt qt m; rewrite H; apply H1|]; intros sn; unfold last_serial, dex_time; rewrite !H; apply H2.
Qed.

Lemma fund_effect_ext view view0 view' new done1 : (forall k, view k = view0 k) ->
  fund_effect e tokens view view' new done1 -> fund_effect e tokens view0 view' new done1.
Proof.
  intros H [F1 F2 F3 F4]; assert (E : last_stamp e view = last_stamp e view0) by (unfold last_stamp, last_serial; by rewrite H).
  split; [done| |by rewrite <- E|by rewrite <- E]; intros a tok; by rewrite F2, (account_ext view0 view).
Qed.

Lemma one_settle s data a tok : exchange_ok e tokens s -> data ∈ ex_settles s ->
  settle_demand e a tok data <= val (ac_Locked (account_in e (ex_fund s) a tok)).
Proof.
  intros [_ _ (os & Eo & _ & Hos) _ Hcov] (l1 & l2 & E)%list_elem_of_split; specialize (Hcov [] a tok ltac:(constructor)).
  rewrite E, zsum_app, zsum_cons, Eo, (zsum_orders a tok os) in Hcov by (by intros o []%Hos).
  assert (0 <= zsum (demand tokens a tok) os).
  { apply zsum_nonneg; intros o Ho; apply demand_nonneg, fr_ok; by apply Hos. }
  pose proof (zsum_nonneg (settle_demand e a tok) l1 ltac:(intros; apply settle_demand_nonneg)).
  pose proof (zsum_nonneg (settle_demand e a tok) l2 ltac:(intros; apply settle_demand_nonneg)).
  change (zsum _ []) with 0 in Hcov; lia.
Qed.

(** An order that is refused leaves the rest as it is. *)
Lemma refuse_order_keeps s l1 data l2 : exchange_ok e tokens s -> ex_orders s = l1 ++ data :: l2 ->
  exchange_ok e tokens (mkExchange (ex_fund s) (ex_trade s) (l1 ++ l2) (ex_settles s)).
Proof.
  intros Hok El; destruct Hok as [Hf Ht (os & Eo & Hnd & Hos) Hs Hcov]; rewrite El in Eo.
  symmetry in Eo; apply fmap_app_inv in Eo as (os1 & os2 & -> & E2 & ->); destruct os2 as [|o os2]; [done|]; injection E2 as -> ->.
  assert (Hin : forall x, x ∈ os1 ++ os2 -> x ∈ os1 ++ o :: os2).
  { intros x [?|?]%elem_of_app; apply elem_of_app; [by left|right; apply elem_of_cons; by right]. }
  split; cbn [ex_fund ex_trade ex_orders ex_settles]; [done|done| |done|].
  - exists (os1 ++ os2); split; [by rewrite fmap_app|]; split; [|by intros x ?%Hin%Hos].
    rewrite <- Permutation_middle, fmap_cons in Hnd; by apply NoDup_cons in Hnd as [_ ?].
  - intros ids a tok Hn; specialize (Hcov ids a tok Hn); rewrite El, !zsum_app, zsum_cons in Hcov; rewrite zsum_app.
    assert (0 <= order_demand e tokens a tok (Serialize (fe_dex e) o)); [|lia].
    assert (Hfl : in_flight o) by (apply Hos; apply elem_of_app; right; apply elem_of_cons; by left).
    unfold order_demand; rewrite DeSerialize_Serialize by (apply Hc || apply Hfl); apply demand_nonneg, fr_ok, Hfl.
Qed.

Lemma exchange_step_keeps s s' : exchange_ok e tokens s -> exchange_step e s s' -> exchange_ok e tokens s'.
Proof.
  intros Hok Hst; destruct Hst as [s db msg db' calls Ho Hm H|s db msg db' calls Ho H|s db l1 data l2 ph db' calls Ho El H
    |s db l1 data l2 db' calls Ho El H|s l1 data l2 El|s l1 data l2 El].
  - pose proof (fund_ok_ext _ (view_of db) (opened_pointwise _ _ Ho) (xo_fund _ _ _ Hok)) as Hf.
    destruct (receiveFund_effect _ _ _ Hc Hf _ _ _ Hm H) as (new & -> & Hone & He).
    eapply fund_effect_keeps; [done|eapply fund_effect_ext; [|exact He]; by apply opened_pointwise|done|done].
  - destruct (xo_orders _ _ _ Hok) as (os & Hos); pose proof Hos as (Eo & _); rewrite Eo.
    eapply (trade_effect_keeps _ _ _ []); [done|exact Hos|done|].
    by eapply receiveTrade_effect; [apply Hc|apply Hc|apply Hok|exact Ho|].
  - destruct (xo_orders _ _ _ Hok) as (os & Hos); pose proof Hos as (Eo & _ & Hin); rewrite Eo in El.
    apply fmap_app_inv in El as (os1 & os2 & -> & E2 & ->); destruct os2 as [|o os2]; [done|]; injection E2 as -> ->.
    rewrite <- fmap_app; eapply (trade_effect_keeps _ _ _ [o]); [done|exact Hos|symmetry; exact (Permutation_middle os1 os2 o)|].
    destruct (Hin o) as (Hfl & Hemp & _); [apply elem_of_app; right; apply elem_of_cons; by left|].
    by eapply TradePlaceOrder_effect; [apply Hc|apply Hc|apply Hok|exact Ho|..].
  - pose proof (fund_ok_ext _ (view_of db) (opened_pointwise _ _ Ho) (xo_fund _ _ _ Hok)) as Hf.
    destruct (FundSettleOrders_effect _ _ _ Hc Hf data db' calls) as [He _]; [|done|].
    { intros a tok; rewrite (account_ext (ex_fund s)) by (by apply opened_pointwise); apply one_settle; [done|].
      rewrite El; apply elem_of_app; right; apply elem_of_cons; by left. }
    rewrite <- (app_nil_r (ex_orders s)); apply (fund_effect_keeps _ _ [] [data]); [done| |simpl; lia|rewrite El; symmetry; exact (Permutation_middle l1 l2 data)].
    eapply fund_effect_ext; [|exact He]; by apply opened_pointwise.
  - by eapply refuse_order_keeps.
  - destruct Hok as [Hf Ht Hos Hs Hcov]; split; cbn [ex_fund ex_trade ex_orders ex_settles]; [done|done|done|done|].
    intros ids a tok Hn; specialize (Hcov ids a tok Hn); rewrite El, zsum_app, zsum_cons in Hcov; rewrite zsum_app.
    pose proof (settle_demand_nonneg e a tok data); lia.
Qed.

Lemma reachable_ok s s' : exchange_ok e tokens s -> rtc (exchange_step e) s s' -> exchange_ok e tokens s'.
Proof. intros Hok Hr; induction Hr; [done|]; eauto using exchange_step_keeps. Qed.

End Exchange.

(** ** What holds of every run *)

(** C2 Whatever the users do and in whatever order the two contracts receive each
    other's messages, the locked funds of every account in every token cover
    its orders in the books, its orders in flight and the settlements in
    flight; the books hold only well-formed open orders, and no two orders ever
    get the same id. *)
Theorem exchange_stays_covered e tokens s s' :
  exchange_codecs e -> exchange_ok e tokens s -> rtc (exchange_step e) s s' -> exchange_ok e tokens s'.
Proof. intros Hc; by apply reachable_ok. Qed.

(** C12 No settlement ever falls short.  In every reachable state, a settlement in
    flight takes no more than the locked funds of each account, and when the
    fund contract carries it out, every account loses exactly what the
    settlement takes from its locked funds and gains exactly what it gives. *)
Theorem settlements_exact e tokens s s' data db db' calls a tok :
  exchange_codecs e -> exchange_ok e tokens s -> rtc (exchange_step e) s s' -> data ∈ ex_settles s' ->
  opened (fe_dex e) (ex_fund s') db -> FundSettleOrders e db data = Ok (db', calls) ->
  settle_demand e a tok data <= val (ac_Locked (account_in e (ex_fund s') a tok)) /\
  settled (account_in e (ex_fund s') a tok) (account_in e (view_of db') a tok)
    (settle_demand e a tok data) (settle_gives e a tok data).
Proof.
  intros Hc Hok Hr Hin Ho H; pose proof (reachable_ok _ _ Hc _ _ Hok Hr) as Hok'; split; [by eapply one_settle|].
  pose proof (opened_pointwise _ _ _ Ho) as Hv.
  rewrite <- (account_ext e (ex_fund s') (view_of db) a tok Hv).
  eapply FundSettleOrders_effect; [done|eapply fund_ok_ext; [exact Hv|apply Hok']| |exact H].
  intros b t; rewrite (account_ext e (ex_fund s')) by done; by eapply one_settle.
Qed.

(** ** An exchange that runs *)

Lemma example_codecs : exchange_codecs example_fund.
Proof.
  refine (Build_exchange_codecs example_fund example_codec example_fund_codec _ _ _).
  - split; [intros f; apply codec_of_roundtrip, actions_inverse|intros f E; by apply codec_of_not_empty in E].
  - intros sn; simpl; rewrite unpack_pack; by destruct sn.
  - intros sn E; destruct (pack_not_empty _ E).
Qed.

Definition example_tk (m : Z) (t : bool) : TokenTypeId := example_token t.

Lemma example_no_market : unmarshal_MarketInfo example_dex [] = None.
Proof. by vm_compute. Qed.

Lemma example_market_roundtrip : unmarshal_MarketInfo example_dex (marshal_MarketInfo example_dex example_market) = Some example_market.
Proof. by vm_compute. Qed.

Lemma example_serial : last_serial example_dex (storage_view fund_storage) = Some (mkSerialNo 5 1600000000).
Proof. by vm_compute. Qed.

Lemma example_fund_ok : fund_ok example_fund example_tk (storage_view fund_storage).
Proof.
  split; change (fe_dex example_fund) with example_dex; [|intros sn; rewrite example_serial; intros [= <-]; by vm_compute].
  intros tt qt m Ht Hq; unfold storage_view, fund_storage.
  destruct (decide (GetMarketInfoKey tt qt = GetMarketInfoKey (example_token true) (example_token false))) as [E|E].
  - rewrite E, lookup_insert_eq; cbn [from_option]; unfold id; rewrite example_market_roundtrip; intros [= <-].
    unfold GetMarketInfoKey in E; apply app_inv_head in E; apply app_inj_1 in E as [-> ->]; [|by rewrite Ht].
    split; [split; [by unfold market_rates_ok|by simpl]|]; split_and!; [done|done|by intros []].
  - rewrite lookup_insert_ne by congruence; rewrite !lookup_insert_ne by (unfold GetMarketInfoKey, GetFundKey; discriminate).
    rewrite lookup_empty; cbn [from_option]; by rewrite example_no_market.
Qed.

Lemma trade_view k : storage_view trade_storage k =
  if decide (k = od_Id example_maker) then maker_data
  else if decide (k = GetMarketInfoKeyById 1) then marshal_MarketInfo example_dex example_market else [].
Proof.
  unfold storage_view, trade_storage; rewrite lookup_insert; case_decide as E1; [by rewrite decide_True|].
  rewrite (decide_False (P := k = _)) by congruence; rewrite lookup_singleton; case_decide; [by rewrite decide_True|].
  by rewrite decide_False by congruence.
Qed.

(** The resting order is the only one. *)
Lemma example_book k o : decode_entry example_dex (k, storage_view trade_storage k) = Ok o <->
  k = od_Id example_maker /\ o = example_maker.
Proof.
  assert (Hm : decode_entry example_dex (od_Id example_maker, maker_data) = Ok example_maker).
  { unfold maker_data; apply decode_saved; [apply example_codec|apply example_keyed]. }
  rewrite trade_view; case_decide as E1.
  - rewrite E1, Hm; split; [intros H%Ok_inj; split; [reflexivity|by symmetry]|intros [_ Ho]; by rewrite Ho].
  - split; [|intros [Hk _]; contradiction]; case_decide as E2; [|intros H%decode_empty; contradiction].
    intros H%decode_length; rewrite E2 in H; discriminate H.
Qed.

Lemma example_weight q k : weight example_dex (storage_view trade_storage) q k =
  if decide (k = od_Id example_maker) then q example_maker else 0.
Proof.
  unfold weight; case_decide as E; [by rewrite (proj2 (example_book k example_maker) (conj E eq_refl))|].
  destruct (decode_entry example_dex (k, storage_view trade_storage k)) as [o| |] eqn:Ed; [|reflexivity..].
  apply example_book in Ed as [Hk _]; contradiction.
Qed.

Lemma example_trade_ok : trade_ok example_dex example_tk (storage_view trade_storage).
Proof.
  split.
  - intros k o [_ ->]%example_book; split; [apply example_ok|by vm_compute|apply example_keyed].
  - intros n m Hid; rewrite trade_view, decide_False by (intros E; apply (f_equal length) in E; vm_compute in E; discriminate E).
    case_decide as E; [|by rewrite example_no_market].
    rewrite example_market_roundtrip; intros [= <-]; split; [|by intros []].
    unfold GetMarketInfoKeyById in E; apply app_inv_head in E; apply (f_equal SetBytes) in E; unfold Uint32ToBytes in E.
    rewrite !SetBytes_be_bytes in E; unfold u32 in E; change (256 ^ Z.of_nat 4) with (2 ^ 32) in E.
    rewrite !Zmod_mod, (Z.mod_small n) in E by lia; by symmetry.
Qed.

(** A settlement that releases 1000 of what the buyer has locked. *)
Definition example_settle : bytes :=
  marshal (settle_codec example_fund) (mkSettleActions (example_token true) (example_token false)
    [mkFundSettle buyer [mkAccountSettle false [] [] (Bytes 1000)]] []).

Definition example_exchange : exchange :=
  mkExchange (storage_view fund_storage) (storage_view trade_storage) [] [example_settle].

Lemma example_demand a tok : demand example_tk a tok example_maker =
  if bool_decide (a = seller /\ tok = example_token true) then 1000000 else 0.
Proof.
  unfold demand, in_token, example_tk, lock_at, at_address.
  change (address_of (od_Address example_maker)) with seller; change (lock true example_maker) with 1000000.
  change (lock false example_maker) with 0; repeat case_bool_decide; naive_solver.
Qed.

Lemma example_exchange_ok : exchange_ok example_fund example_tk example_exchange.
Proof.
  assert (Hb : fund_in example_fund (storage_view fund_storage) buyer = deposit buyer false 5000000 2000) by (by vm_compute).
  assert (Hs : fund_in example_fund (storage_view fund_storage) seller = deposit seller true 10000000 1000000) by (by vm_compute).
  split; cbn [example_exchange ex_fund ex_trade ex_orders ex_settles].
  - apply example_fund_ok.
  - apply example_trade_ok.
  - exists []; unfold orders_ok; split; [reflexivity|]; split; [by apply NoDup_nil|].
    intros o Ho; exfalso; by apply elem_of_nil in Ho.
  - intros k Hk; rewrite trade_view; case_decide as E1; [subst k; intros _; by vm_compute|].
    intros Hne; exfalso; case_decide as E2; [subst k; discriminate Hk|by apply Hne].
  - intros ids a tok Hnd; change (fe_dex example_fund) with example_dex; change (zsum (order_demand _ _ _ _) []) with 0.
    assert (Hw : zsum (weight example_dex (storage_view trade_storage) (demand example_tk a tok)) ids <= demand example_tk a tok example_maker).
    { apply (zsum_one _ (od_Id example_maker)); [|apply demand_nonneg, example_ok|done].
      intros k; apply example_weight. }
    rewrite example_demand in Hw; cbn [zsum foldr].
    unfold settle_demand, example_settle; rewrite (co_roundtrip _ _ (ec_settle _ example_codecs)).
    unfold actions_sum, action_sum, settle_sum; cbn [zsum foldr sa_FundActions fs_Address fs_AccountSettles].
    change (address_of buyer) with buyer; unfold settle_token, acts_tk; cbn [as_IsTradeToken sa_QuoteToken].
    change (settle_taken _) with 1000; pose proof (SetBytes_nonneg (ac_Locked (account_in example_fund (storage_view fund_storage) a tok))).
    destruct (decide (a = buyer)) as [->|Ha]; [|rewrite (bool_decide_eq_false_2 (a = buyer)) by done].
    + rewrite (bool_decide_eq_false_2 (buyer = seller /\ _)) in Hw by (intros [E _]; discriminate E).
      rewrite bool_decide_eq_true_2 by done; case_bool_decide as Et; [subst tok|lia].
      unfold account_in; rewrite Hb; change (val (ac_Locked _)) with 2000; lia.
    + case_bool_decide as Es; [destruct Es as [-> ->]|lia].
      unfold account_in; rewrite Hs; change (val (ac_Locked _)) with 1000000; lia.
Qed.

Lemma example_places :
  exists db' calls, receiveFund example_fund (storage_db fund_storage) (MsgPlaceOrder buyer (place false 4000000) example_hash)
    = Ok (db', calls) /\ length (orders_of calls) = 1%nat.
Proof.
  assert (H : match receiveFund example_fund (storage_db fund_storage) (MsgPlaceOrder buyer (place false 4000000) example_hash) with
              | Ok (_, calls) => bool_decide (length (orders_of calls) = 1%nat) | _ => false end = true) by (by vm_compute).
  destruct (receiveFund _ _ _) as [[db' calls]| |]; [|discriminate H..]; exists db', calls; split; [reflexivity|].
  by apply bool_decide_eq_true in H.
Qed.

(** The buyer places an order while a settlement is on its way. *)
Lemma exchange_stays_covered_witness : exists s', length (ex_orders s') = 1%nat /\ ex_settles s' = [example_settle] /\
  exchange_ok example_fund example_tk s'.
Proof.
  destruct example_places as (db' & calls & H & Hl).
  exists (mkExchange (view_of db') (storage_view trade_storage) ([] ++ orders_of calls) [example_settle]).
  split; [exact Hl|]; split; [reflexivity|].
  apply (exchange_stays_covered example_fund example_tk example_exchange); [exact example_codecs|exact example_exchange_ok|].
  apply rtc_once; refine (step_fund example_fund example_exchange _ _ _ _ fund_storage_opened _ H).
  cbn [fund_message_ok]; unfold placing_ok, clock_ok; repeat split; vm_compute; done.
Defined.

Lemma example_settles :
  exists db' calls, FundSettleOrders example_fund (storage_db fund_storage) example_settle = Ok (db', calls).
Proof.
  assert (H : match FundSettleOrders example_fund (storage_db fund_storage) example_settle with Ok _ => true | _ => false end = true)
    by (by vm_compute).
  destruct (FundSettleOrders _ _ _) as [[db' calls]| |]; [|discriminate H..]; exists db', calls; reflexivity.
Qed.

Lemma settlements_exact_witness : exists db' calls,
  FundSettleOrders example_fund (storage_db fund_storage) example_settle = Ok (db', calls) /\
  settle_demand example_fund buyer (example_token false) example_settle = 1000 /\
  settled (account_in example_fund (storage_view fund_storage) buyer (example_token false))
    (account_in example_fund (view_of db') buyer (example_token false))
    (settle_demand example_fund buyer (example_token false) example_settle)
    (settle_gives example_fund buyer (example_token false) example_settle).
Proof.
  destruct example_settles as (db' & calls & H); exists db', calls; split; [exact H|]; split; [vm_compute; reflexivity|].
  apply (settlements_exact example_fund example_tk example_exchange example_exchange example_settle (storage_db fund_storage) db' calls
    buyer (example_token false) example_codecs example_exchange_ok (rtc_refl _ _)
    (list_elem_of_here example_settle []) fund_storage_opened H).
Defined.

(** ** Cancelling *)

(** C14 An owner can always get out of an order.  In every reachable state, the owner
    of an open order in the book can cancel it: the contract accepts, the order
    is gone, and the settlement it sends releases exactly what the order still
    locked. *)
Theorem owner_can_cancel e tokens s s' db orderId o m h :
  exchange_codecs e -> exchange_ok e tokens s -> rtc (exchange_step e) s s' -> opened (fe_dex e) (ex_trade s') db ->
  decode_entry (fe_dex e) (orderId, ex_trade s' orderId) = Ok o ->
  od_Status o = Pending \/ od_Status o = PartialExecuted ->
  GetMarketInfoById (fe_dex e) db (od_MarketId o) = Ok (Some m) -> latestHeight db = Ok h ->
  exists db' calls, TradeCancelOrder e db orderId (od_Address o) = Ok (db', calls) /\ view_of db' orderId = [] /\
    forall a tok, zsum (settle_demand e a tok) (settles_of calls) = demand tokens a tok o.
Proof.
  intros Hc Hok Hr Ho Hd Hst Hm Hh; pose proof (reachable_ok _ _ Hc _ _ Hok Hr) as Hok'.
  eapply cancel_succeeds; [apply Hc|apply Hok'|exact Ho|exact Hd|exact Hst|exact Hm|exact Hh].
Qed.

Lemma owner_can_cancel_witness : exists db' calls,
  TradeCancelOrder example_fund (storage_db trade_storage) (od_Id example_maker) seller = Ok (db', calls) /\
  view_of db' (od_Id example_maker) = [] /\
  zsum (settle_demand example_fund seller (example_token true)) (settles_of calls) = 1000000.
Proof.
  assert (Hm : GetMarketInfoById example_dex (storage_db trade_storage) 1 = Ok (Some example_market)) by (vm_compute; reflexivity).
  assert (Hh : latestHeight (storage_db trade_storage) = Ok 100) by (vm_compute; reflexivity).
  destruct (owner_can_cancel example_fund example_tk example_exchange example_exchange (storage_db trade_storage)
    (od_Id example_maker) example_maker example_market 100 example_codecs example_exchange_ok (rtc_refl _ _) trade_storage_opened
    (proj2 (example_book (od_Id example_maker) example_maker) (conj eq_refl eq_refl)) (or_introl eq_refl) Hm Hh)
    as (db' & calls & H1 & H2 & H3).
  change (od_Address example_maker) with seller in H1; exists db', calls; split; [exact H1|]; split; [exact H2|].
  rewrite H3, example_demand; rewrite bool_decide_eq_true_2 by (split; reflexivity); reflexivity.
Defined.

(** *** Expired orders *)

(** Before version 11 anybody could have expired orders removed.  A message that
    names an expired order twice releases its locked funds twice. *)
Definition mainnet_dex : dexEnv :=
  mkDexEnv (marshal_Order example_dex) (unmarshal_Order example_dex) (marshal_MarketInfo example_dex)
    (unmarshal_MarketInfo example_dex) (marshal_SerialNo example_dex) (unmarshal_SerialNo example_dex)
    (crypto_Hash example_dex) (newLog example_dex)
    (match NewMainnetUpgradeBox with Ok box => box | _ => mkBox ∅ ∅ [] end) (scan_fuel example_dex).

Definition mainnet_db (height : Z) (st : gmap bytes bytes) : vmDb :=
  let ch := storage_chain st in
  NewVmDb (mkChain (ch_GetBalance ch) (ch_GetContractCode ch) (ch_GetContractMeta ch)
    (ch_GetConfirmSnapshotHeaderByAbHash ch) (ch_GetContractMetaInSnapshot ch)
    (fun _ => Ok (Some (mkSnapshotBlock ZERO_HASH height 0))) (ch_GetAccountBlockByHash ch) (ch_GetUnconfirmedBlocks ch)
    (ch_GetStakeBeneficialAmount ch) (ch_GetValue ch) (ch_GetCallDepth ch)
    (ch_GetQuotaUsedList ch) (ch_GetGlobalQuota ch) (ch_GetConfirmedTimes ch) (ch_GetLatestAccountBlock ch)
    (ch_GetStorageIterator ch) (ch_GetGenesisSnapshotBlock ch) (ch_GetSnapshotBlockByHeight ch)) ZERO_ADDRESS ZERO_HASH ZERO_HASH.

Lemma expired_order_released_twice :
  let db := mainnet_db 50000000 (<[tradeTimestampKey := Uint64ToBytes 1700000000]> trade_storage) in
  lock true example_maker = 1000000 /\
  exists mc, CleanExpireOrders mainnet_dex db (od_Id example_maker ++ od_Id example_maker) = Ok (Some mc) /\
    released mc seller true = 2000000.
Proof.
  intros db; split; [vm_compute; reflexivity|].
  assert (H : match CleanExpireOrders mainnet_dex db (od_Id example_maker ++ od_Id example_maker) with
              | Ok (Some mc) => released mc seller true =? 2000000 | _ => false end = true) by (vm_compute; reflexivity).
  destruct (CleanExpireOrders _ _ _) as [[mc|]| |]; [|discriminate H..]; exists mc; split; [reflexivity|by apply Z.eqb_eq].
Qed.
