(* ===== verification/DexLedgerSpec.v ===== *)
(** The fund contract implements a ledger: an account holds what was deposited,
    received or settled, less what was sent and withdrawn, whatever of it is
    available, locked in orders or locked as VX; and what leaves the ledger is
    exactly what the contract pays out. *)
From S2P Require Import Prelude Helper Float TimeIndex Types Upgrade VmDb Iterator IteratorSpec.
From S2P Require Import DexNumber DexNumberSpec DexOrder DexMatcher DexFund DexSettle DexPlace DexContracts DexExchange.
From S2P Require Import DexWorld DexExchangeWorld DexBookSpec DexMatcherSpec DexSpec DexFundSpec DexPlaceSpec DexTradeSpec DexExchangeSpec.
From stdpp Require Import list.
From Stdlib Require Import ZifyBool.
#[local] Open Scope Z_scope.

(** ** The ledger *)

(** What one entry adds. *)
Definition entry (b : Address) (t : TokenTypeId) (amount : Z) (a : Address) (tok : TokenTypeId) : Z :=
  if bool_decide (a = b /\ tok = t) then amount else 0.

(** What a message means for the ledger. *)
Definition ledger_entries (msg : fundMessage) (a : Address) (tok : TokenTypeId) : Z :=
  match msg with
  | MsgDeposit sender token amount => entry sender token amount a tok
  | MsgWithdraw sender token amount => entry sender token (- amount) a tok
  | MsgTransfer sender target token amount => entry sender token (- amount) a tok + entry target token amount a tok
  | MsgAgentDeposit _ beneficiary token amount => entry beneficiary token amount a tok
  | MsgAssignedWithdraw sender _ token amount _ => entry sender token (- amount) a tok
  | MsgPlaceOrder _ _ _ | MsgPlaceAgentOrder _ _ _ _ | MsgCancelBySendHash _ _ _ _ _ | MsgNotifyTime _ _ => 0
  end.

(** The tokens that come with a message and the tokens that are paid out. *)
Definition paid_in (msg : fundMessage) (tok : TokenTypeId) : Z :=
  match msg with
  | MsgDeposit _ token amount | MsgAgentDeposit _ _ token amount => if bool_decide (tok = token) then amount else 0
  | _ => 0
  end.

Definition paid_out (tok : TokenTypeId) (call : dexCall) : Z :=
  match call with CallTransfer _ token amount _ => if bool_decide (tok = token) then amount else 0 | _ => 0 end.

(** The accounts a message may change. *)
Definition accounts_of (msg : fundMessage) : list Address :=
  match msg with
  | MsgDeposit sender _ _ | MsgWithdraw sender _ _ | MsgAssignedWithdraw sender _ _ _ _ => [sender]
  | MsgTransfer sender target _ _ => [sender; target]
  | MsgAgentDeposit _ beneficiary _ _ => [beneficiary]
  | _ => []
  end.

(** ** The accounts of the contract follow the ledger *)

Definition shifted (e : fundEnv) (db db' : vmDb) (delta : Address -> TokenTypeId -> Z) : Prop :=
  forall a tok, acc_total (account_in e (view_of db') a tok) = acc_total (account_in e (view_of db) a tok) + delta a tok.

Lemma shifted_trans e db1 db2 db3 d1 d2 : shifted e db1 db2 d1 -> shifted e db2 db3 d2 ->
  shifted e db1 db3 (fun a tok => d1 a tok + d2 a tok).
Proof. intros H1 H2 a tok; rewrite H2, H1; lia. Qed.

Lemma shifted_frame e db db' : writes_only fee_key db db' -> shifted e db db' (fun _ _ => 0).
Proof. intros Hw a tok; unfold account_in; rewrite (fee_writes_fund _ _ _ _ Hw); lia. Qed.

Lemma shifted_ext e db db' d d' : (forall a tok, d a tok = d' a tok) -> shifted e db db' d -> shifted e db db' d'.
Proof. intros Hd H a tok; by rewrite <- Hd. Qed.

Lemma shifted_op e db a op amount db' acc : codec_ok (fund_codec e) empty_fund -> 0 <= amount ->
  run_account_op e db a op amount = Ok (db', acc) -> shifted e db db' (entry a (op_token op) (op_delta op amount)).
Proof.
  intros Hc Ha H b tok; destruct (run_account_op_spec _ _ _ _ _ _ _ Hc Ha H) as [[Ht _] [Hr _]]; rewrite Hr; unfold entry.
  case_bool_decide as E; [by destruct E as [-> ->]|lia].
Qed.

Section Ledger.
Context (e : fundEnv) (tokens : market_tokens) (db : vmDb).
Context (Hc : exchange_codecs e) (Hok : fund_ok e tokens (view_of db)).

(** A deposit or withdrawal with what follows it. *)
Lemma moved_with_vx a op amount db1 acc vx db2 db' :
  0 <= amount -> run_account_op e db a op amount = Ok (db1, acc) ->
  (if bool_decide (op_token op = VxTokenId) then OnChangeVx e db1 a vx acc else Ok db1) = Ok db2 ->
  writes_only fee_key db2 db' -> shifted e db db' (entry a (op_token op) (op_delta op amount)).
Proof.
  intros Ha H1 H2 Hw; assert (Hw2 : writes_only fee_key db1 db2).
  { case_bool_decide; [by eapply OnChangeVx_frame|apply Ok_inj in H2; subst; apply writes_refl]. }
  eapply shifted_ext; [|eapply shifted_trans; [by eapply shifted_op; [apply Hc|..]|]].
  2: { apply shifted_frame; eapply writes_trans; [exact Hw2|exact Hw]. }
  intros b tok; simpl; lia.
Qed.

Lemma placed_shifts param a agent hash db' calls : placing_ok e db a param hash ->
  DoPlaceOrder e db param a agent hash = Ok (db', calls) ->
  shifted e db db' (fun _ _ => 0) /\ forall tok, zsum (paid_out tok) calls = 0.
Proof.
  intros (Ha & Hh & Htt & Hqt & Ht & Hn) H.
  assert (Hmk : forall m, GetMarketInfo e db (po_TradeToken param) (po_QuoteToken param) = Ok (Some m) ->
            market_ok m /\ forall t, tokens (mk_MarketId m) t = market_tk m t).
  { intros m Hm; by destruct (GetMarketInfo_view _ _ _ _ _ _ Hok Htt Hqt Hm) as (? & _ & _ & ?). }
  destruct (DoPlaceOrder_spec _ tokens _ _ _ _ _ _ _ (ec_fund _ Hc) Hh Ha Hmk Ht Hn H) as (o & m & leaf & -> & Hp).
  split; [|done]; intros b tok; destruct (pl_accounts _ _ _ _ _ _ _ Hp b tok) as [_ El Ea (E1 & E2 & E3)].
  unfold acc_total; rewrite El, Ea, E1, E2, E3; lia.
Qed.

Lemma receiveFund_shifts msg db' calls : fund_message_ok e db msg -> receiveFund e db msg = Ok (db', calls) ->
  shifted e db db' (ledger_entries msg).
Proof.
  destruct msg; cbn [fund_message_ok receiveFund]; intros Hm H.
  - apply outcome_bind_ok in H as ([db1 acc] & H1 & H); apply outcome_bind_ok in H as (db2 & H2 & H).
    apply outcome_bind_ok in H as (v & _ & H); apply Ok_inj in H; simplify_eq.
    apply (moved_with_vx _ (OpDeposit token) _ _ _ _ _ _ Hm H1 H2); destruct v; apply writes_log || apply writes_refl.
  - apply outcome_bind_ok in H as ([db1 acc] & H1 & H); apply outcome_bind_ok in H as (db2 & H2 & H).
    apply outcome_bind_ok in H as (v & _ & H); apply Ok_inj in H; simplify_eq.
    apply (moved_with_vx _ (OpReduce token) _ _ _ _ _ _ Hm H1 H2); destruct v; apply writes_log || apply writes_refl.
  - by apply placed_shifts in H as [? _].
  - by apply placed_shifts in H as [? _].
  - apply outcome_bind_ok in H as ([db1 acc] & H1 & H); apply outcome_bind_ok in H as ([db2 acc2] & H2 & H).
    apply Ok_inj in H; simplify_eq; refine (shifted_ext _ _ _ _ _ _ (shifted_trans _ _ _ _ _ _
      (shifted_op _ _ _ (OpReduce token) _ _ _ (ec_fund _ Hc) Hm H1) (shifted_trans _ _ _ _ _ _
      (shifted_op _ _ _ (OpDeposit token) _ _ _ (ec_fund _ Hc) Hm H2) (shifted_frame _ _ _ (writes_log _ _ _))))).
    intros a tok; simpl; lia.
  - apply outcome_bind_ok in H as ([db1 acc] & H1 & H); apply Ok_inj in H; simplify_eq.
    refine (shifted_ext _ _ _ _ _ _ (shifted_trans _ _ _ _ _ _
      (shifted_op _ _ _ (OpDeposit token) _ _ _ (ec_fund _ Hc) Hm H1) (shifted_frame _ _ _ (writes_log _ _ _)))).
    intros a tok; simpl; lia.
  - apply outcome_bind_ok in H as ([db1 acc] & H1 & H); apply Ok_inj in H; simplify_eq.
    refine (shifted_ext _ _ _ _ _ _ (shifted_trans _ _ _ _ _ _
      (shifted_op _ _ _ (OpReduce token) _ _ _ (ec_fund _ Hc) Hm H1) (shifted_frame _ _ _ (writes_log _ _ _)))).
    intros a tok; simpl; lia.
  - apply outcome_bind_ok in H as (owner & _ & H); apply Ok_inj in H; simplify_eq; apply shifted_frame, writes_refl.
  - apply outcome_bind_ok in H as (valid & _ & H); destruct valid; [|done]; apply outcome_bind_ok in H as (db1 & H1 & H).
    apply Ok_inj in H; simplify_eq; intros a tok; unfold account_in.
    rewrite (fund_in_ext e (view_of db)) by (by eapply SetDexTimestamp_funds); simpl; lia.
Qed.

(** What is paid out is what the ledger loses. *)
Lemma zsum_entry b t x tok l : NoDup l -> b ∈ l -> zsum (fun a => entry b t x a tok) l = if bool_decide (tok = t) then x else 0.
Proof.
  intros Hnd Hin; rewrite (zsum_ext _ (fun a => if decide (a = b) then if bool_decide (tok = t) then x else 0 else 0)).
  - revert Hin; induction Hnd as [|a l Hn _ IH]; [by intros ?%elem_of_nil|]; rewrite zsum_cons; intros [<-|Hin]%elem_of_cons.
    + rewrite decide_True by done; rewrite zsum_zero; [lia|]; intros y Hy; rewrite decide_False; [done|congruence].
    + rewrite IH by done; rewrite decide_False; [lia|congruence].
  - intros a _; unfold entry; case_decide; repeat case_bool_decide; naive_solver.
Qed.

Lemma receiveFund_pays msg db' calls tok l : fund_message_ok e db msg -> receiveFund e db msg = Ok (db', calls) ->
  NoDup l -> (forall a, a ∈ accounts_of msg -> a ∈ l) ->
  zsum (fun a => ledger_entries msg a tok) l = paid_in msg tok - zsum (paid_out tok) calls.
Proof.
  destruct msg; cbn [fund_message_ok receiveFund ledger_entries paid_in accounts_of]; intros Hm H Hnd Hin.
  all: try (rewrite zsum_zero by done).
  all: unfold FundDeposit, FundWithdraw, FundTransfer, FundAgentDeposit, FundAssignedWithdraw, FundCancelOrderBySendHash, FundNotifyTime in H.
  - binds H; apply Ok_inj in H; simplify_eq; rewrite zsum_entry by set_solver; cbn [zsum foldr paid_out]; lia.
  - binds H; apply Ok_inj in H; simplify_eq; rewrite zsum_entry by set_solver; cbn [zsum foldr paid_out]; repeat case_bool_decide; (lia || done).
  - apply placed_shifts in H as [_ ->]; [done|done].
  - apply placed_shifts in H as [_ ->]; [done|done].
  - binds H; apply Ok_inj in H; simplify_eq; rewrite zsum_add, !zsum_entry by set_solver; cbn [zsum foldr paid_out]; repeat case_bool_decide; (lia || done).
  - binds H; apply Ok_inj in H; simplify_eq; rewrite zsum_entry by set_solver; cbn [zsum foldr paid_out]; lia.
  - binds H; apply Ok_inj in H; simplify_eq; rewrite zsum_entry by set_solver; cbn [zsum foldr paid_out]; repeat case_bool_decide; (lia || done).
  - binds H; apply Ok_inj in H; by simplify_eq.
  - apply outcome_bind_ok in H as (valid & _ & H); destruct valid; [|done]; cbn [negb] in H; binds H; apply Ok_inj in H; by simplify_eq.
Qed.

End Ledger.

(** C3 The fund contract refines a ledger.  Every message it accepts changes what
    each account holds by exactly the ledger entries of the message, whether
    the funds are available, locked in orders or locked as VX; and over any
    list of accounts that has those of the message, what the accounts gain is
    what came with the message less what the contract pays out. *)
Theorem fund_refines_ledger e tokens view db msg db' calls l :
  exchange_codecs e -> fund_ok e tokens view -> opened (fe_dex e) view db -> fund_message_ok e db msg ->
  receiveFund e db msg = Ok (db', calls) -> NoDup l -> (forall a, a ∈ accounts_of msg -> a ∈ l) ->
  (forall a tok, acc_total (account_in e (view_of db') a tok) = acc_total (account_in e view a tok) + ledger_entries msg a tok) /\
  forall tok, zsum (fun a => acc_total (account_in e (view_of db') a tok)) l =
    zsum (fun a => acc_total (account_in e view a tok)) l + paid_in msg tok - zsum (paid_out tok) calls.
Proof.
  intros Hc Hok Ho Hm H Hnd Hin; pose proof (opened_pointwise _ _ _ Ho) as Hv.
  pose proof (fund_ok_ext _ _ _ _ Hv Hok) as Hok'; pose proof (receiveFund_shifts _ _ _ Hc Hok' _ _ _ Hm H) as Hs.
  assert (Ht : forall a tok, acc_total (account_in e (view_of db') a tok) = acc_total (account_in e view a tok) + ledger_entries msg a tok).
  { intros a tok; by rewrite Hs, (account_ext e view). }
  split; [done|]; intros tok; rewrite (zsum_ext _ (fun a => acc_total (account_in e view a tok) + ledger_entries msg a tok)) by done.
  rewrite zsum_add, (receiveFund_pays _ _ _ Hc Hok' _ _ _ _ _ Hm H Hnd Hin); lia.
Qed.

Lemma example_transfers :
  exists db' calls, receiveFund example_fund (storage_db fund_storage) (MsgAssignedWithdraw buyer seller (example_token false) 700 [])
    = Ok (db', calls).
Proof.
  assert (H : match receiveFund example_fund (storage_db fund_storage) (MsgAssignedWithdraw buyer seller (example_token false) 700 []) with
              | Ok _ => true | _ => false end = true) by (vm_compute; reflexivity).
  destruct (receiveFund _ _ _) as [[db' calls]| |]; [|discriminate H..]; exists db', calls; reflexivity.
Qed.

Lemma fund_refines_ledger_witness : exists db' calls,
  receiveFund example_fund (storage_db fund_storage) (MsgAssignedWithdraw buyer seller (example_token false) 700 []) = Ok (db', calls) /\
  acc_total (account_in example_fund (view_of db') buyer (example_token false)) =
  acc_total (account_in example_fund (storage_view fund_storage) buyer (example_token false)) +
  ledger_entries (MsgAssignedWithdraw buyer seller (example_token false) 700 []) buyer (example_token false).
Proof.
  destruct example_transfers as (db' & calls & H); exists db', calls; split; [exact H|].
  assert (Hm : fund_message_ok example_fund (storage_db fund_storage) (MsgAssignedWithdraw buyer seller (example_token false) 700 [])) by (simpl; lia).
  pose proof (fund_refines_ledger example_fund example_tk (storage_view fund_storage) (storage_db fund_storage)
    (MsgAssignedWithdraw buyer seller (example_token false) 700 []) db' calls [buyer] example_codecs example_fund_ok
    fund_storage_opened Hm H (NoDup_singleton buyer) (fun a Ha => Ha)) as [Hx _]; apply Hx.
Defined.
