(* ===== verification/AccountQuotaSpec.v ===== *)
(** What the account quota guarantees: the binary search in the tables finds
    what a linear count finds, the quota of a block is bounded, and the stake
    and the difficulty the node recommends are the least that suffice. *)
From S2P Require Import Prelude Helper Types Upgrade QuotaParams QuotaTable VmDb AccountQuota.
From S2P Require Import World.
From Stdlib Require Import ZifyBool.

(** ** Tables *)

(** Adjacent entries are related by [r]. *)
Fixpoint chained (r : Z -> Z -> bool) (l : list Z) : bool :=
  match l with
  | a :: (b :: _) as l' => r a b && chained r l'
  | _ => true
  end.

(** A table has an entry for each section, starts at 0 and increases. *)
Record table (l : list Z) : Prop := {
  tb_length : Z.of_nat (length l) = sectionLen + 1;
  tb_zero : l !! 0%nat = Some 0;
  tb_lt (i : nat) a b : l !! i = Some a -> l !! S i = Some b -> a < b;
}.

Lemma chained_lt l (i : nat) a b :
  chained Z.ltb l = true -> l !! i = Some a -> l !! S i = Some b -> a < b.
Proof.
  revert i; induction l as [|x [|y l] IH]; intros i H Ha Hb; [done|by destruct i|].
  apply andb_prop in H as [Hx H]; destruct i as [|i]; simplify_eq/=; [lia|exact (IH i H Ha Hb)].
Qed.

Lemma table_of_bool l :
  (Z.of_nat (length l) =? sectionLen + 1) && bool_decide (l !! 0%nat = Some 0) && chained Z.ltb l = true ->
  table l.
Proof.
  intros [[H1 H2%bool_decide_eq_true]%andb_prop H3]%andb_prop.
  split; [lia|done|by intros i a b; apply chained_lt].
Qed.

Lemma mainnet_stake_table : table stakeAmountListMainnet.
Proof. apply table_of_bool; vm_compute; reflexivity. Qed.
Lemma mainnet_difficulty_table : table difficultyListMainnet.
Proof. apply table_of_bool; vm_compute; reflexivity. Qed.
Lemma testnet_difficulty_table : table difficultyListTestnet.
Proof. apply table_of_bool; vm_compute; reflexivity. Qed.

Lemma difficulty_table isTest isTestParam : table (difficultyList (InitQuotaConfig isTest isTestParam)).
Proof.
  destruct isTestParam; [exact testnet_difficulty_table|exact mainnet_difficulty_table].
Qed.

Lemma table_mono l (i j : nat) a b :
  table l -> (i < j)%nat -> l !! i = Some a -> l !! j = Some b -> a < b.
Proof.
  intros Ht Hij Ha; revert b; induction Hij as [|j Hij IH]; intros b Hb; [by eapply tb_lt|].
  destruct (lookup_lt_is_Some_2 l j) as [c Hc]; [apply lookup_lt_Some in Hb; lia|].
  pose proof (IH c Hc); pose proof (tb_lt l Ht j c b Hc Hb); lia.
Qed.

Lemma table_at l i : table l -> 0 <= i <= sectionLen -> exists v, l !! Z.to_nat i = Some v /\ 0 <= v.
Proof.
  intros Ht Hi; pose proof (tb_length l Ht).
  destruct (lookup_lt_is_Some_2 l (Z.to_nat i)) as [v Hv]; [lia|]; exists v; split; [done|].
  destruct (decide (Z.to_nat i = 0%nat)) as [E|E].
  - rewrite E, (tb_zero l Ht) in Hv; injection Hv; lia.
  - pose proof (table_mono l 0 (Z.to_nat i) 0 v Ht ltac:(lia) (tb_zero l Ht) Hv); lia.
Qed.

Lemma big_at_lookup l i v : 0 <= i -> l !! Z.to_nat i = Some v -> big_at l i = Ok v.
Proof. intros Hi Hv; unfold big_at; destruct (Z.ltb_spec i 0); [lia|]; by rewrite Hv. Qed.

(** The section that [x] reaches. *)
Record section_of (l : list Z) (x i : Z) : Prop := {
  so_range : 0 <= i <= sectionLen;
  so_reached v : l !! Z.to_nat i = Some v -> v <= x;
  so_next v : l !! Z.to_nat (i + 1) = Some v -> x < v;
}.

Lemma getIndex_section fuel x l left right :
  table l -> 0 <= left <= right -> right <= sectionLen -> right - left <= Z.of_nat fuel ->
  (forall v, l !! Z.to_nat left = Some v -> v <= x) ->
  (forall v, l !! Z.to_nat (right + 1) = Some v -> x < v) ->
  exists i, getIndex_fuel fuel x l left right = Ok i /\ section_of l x i.
Proof.
  intros Ht; revert left right; induction fuel as [|fuel IH]; intros left right Hlr Hr Hf Hlo Hhi;
    cbn [getIndex_fuel]; destruct (Z.eqb_spec left right) as [->|Hne]; try lia.
  1,2: destruct (table_at l right Ht ltac:(lia)) as (v & Hv & _);
    exists right; split; [|split; [lia|exact Hlo|exact Hhi]];
    unfold getExactIndex; destruct (Z.eqb_spec right 0); [done|];
    rewrite (big_at_lookup l right v ltac:(lia) Hv), bind_Ok;
    pose proof (Hlo v Hv); destruct (Z.leb_spec v x); [done|lia].
  set (mid := (left + right + 1) / 2).
  assert (Hm : left < mid <= right) by (unfold mid; Z.to_euclidean_division_equations; lia).
  destruct (table_at l mid Ht ltac:(lia)) as (v & Hv & _); cbv zeta.
  rewrite (big_at_lookup l mid v ltac:(lia) Hv), bind_Ok.
  destruct (Z.eqb_spec v x) as [->|Hx]; [|destruct (Z.ltb_spec x v)].
  - exists mid; split; [done|]; split; [lia|intros w Hw; rewrite Hv in Hw; injection Hw; lia|].
    intros w Hw; exact (table_mono l (Z.to_nat mid) (Z.to_nat (mid + 1)) x w Ht ltac:(lia) Hv Hw).
  - apply IH; try lia; [exact Hlo|]; intros w Hw; replace (mid - 1 + 1) with mid in Hw by lia.
    rewrite Hv in Hw; injection Hw; lia.
  - apply IH; try lia; [|exact Hhi]; intros w Hw; rewrite Hv in Hw; injection Hw; lia.
Qed.

Lemma search_section l x :
  table l -> 0 <= x ->
  exists i, getIndexInBigIntList x l 0 sectionLen = Ok i /\ section_of l x i.
Proof.
  intros Ht Hx; unfold getIndexInBigIntList; apply getIndex_section;
    try done; try (unfold sectionLen; lia); intros v Hv.
  - change (Z.to_nat 0) with 0%nat in Hv; rewrite (tb_zero l Ht) in Hv; injection Hv; lia.
  - apply lookup_lt_Some in Hv; pose proof (tb_length l Ht); lia.
Qed.

(** The linear reference: how many entries [x] reaches. *)
Definition reached (l : list Z) (x : Z) : Z := Z.of_nat (length (filter (fun v => v <= x) l)).

Lemma section_reached l x i : table l -> section_of l x i -> reached l x = i + 1.
Proof.
  intros Ht [Hi Hr Hn]; unfold reached; pose proof (tb_length l Ht).
  rewrite <- (take_drop (Z.to_nat (i + 1)) l), list.filter_app, length_app.
  rewrite (filter_all _ (take _ _)), (filter_none _ (drop _ _)), length_take; [simpl; lia| |].
  - apply Forall_lookup; intros k v Hk; rewrite lookup_drop in Hk.
    pose proof (lookup_lt_Some _ _ _ Hk).
    destruct (lookup_lt_is_Some_2 l (Z.to_nat (i + 1))) as [w Hw]; [lia|]; pose proof (Hn w Hw).
    destruct k as [|k]; [rewrite Nat.add_0_r in Hk; rewrite Hw in Hk; injection Hk; lia|].
    pose proof (table_mono l (Z.to_nat (i + 1)) (Z.to_nat (i + 1) + S k) w v Ht ltac:(lia) Hw Hk); lia.
  - apply Forall_lookup; intros k v Hk; apply lookup_take_Some in Hk as [Hk Hlt].
    destruct (table_at l i Ht Hi) as (w & Hw & _); pose proof (Hr w Hw).
    destruct (decide (k = Z.to_nat i)) as [->|]; [rewrite Hw in Hk; injection Hk; lia|].
    pose proof (table_mono l k (Z.to_nat i) v w Ht ltac:(lia) Hk Hw); lia.
Qed.

Lemma calcQuotaByIndex_section i : 0 <= i <= sectionLen -> calcQuotaByIndex i = quotaForSection * i.
Proof.
  intros Hi; unfold calcQuotaByIndex, quotaForSection, sectionLen in *.
  replace ((0 <=? i) && (i <=? 3571)) with true by lia; rewrite u64_small; [lia|unfold is_u64; lia].
Qed.

(** [x] reaches section [k] exactly when it is at least the entry [k]. *)
Lemma section_ge l x i k v :
  table l -> section_of l x i -> 0 <= k <= sectionLen -> l !! Z.to_nat k = Some v ->
  k <= i <-> v <= x.
Proof.
  intros Ht [Hi Hr Hn] Hk Hv; destruct (table_at l i Ht Hi) as (w & Hw & _); pose proof (Hr w Hw); split.
  - intros Hle; destruct (decide (k = i)) as [->|]; [rewrite Hv in Hw; injection Hw; lia|].
    pose proof (table_mono l (Z.to_nat k) (Z.to_nat i) v w Ht ltac:(lia) Hv Hw); lia.
  - intros Hle; destruct (decide (k <= i)); [done|exfalso].
    destruct (table_at l (i + 1) Ht ltac:(lia)) as (u & Hu & _); pose proof (Hn u Hu).
    destruct (decide (k = i + 1)) as [->|]; [rewrite Hv in Hu; injection Hu; lia|].
    pose proof (table_mono l (Z.to_nat (i + 1)) (Z.to_nat k) u v Ht ltac:(lia) Hu Hv); lia.
Qed.

(** ** Congestion *)

Lemma qcMainnet_range k : 51 <= k <= 500 -> exists q, qcMapMainnet k = Some q /\ 0 < q <= qcDivision.
Proof.
  intros Hk; unfold qcMapMainnet; replace (51 <=? k) with true by lia.
  assert (Hall : forallb (fun q => (0 <? q) && (q <=? qcDivision)) qcListMainnet = true)
    by (vm_compute; reflexivity).
  assert (Hlen : length qcListMainnet = 450%nat) by (vm_compute; reflexivity).
  destruct (lookup_lt_is_Some_2 qcListMainnet (Z.to_nat (k - 51))) as [q Hq]; [lia|].
  exists q; split; [done|]; rewrite forallb_forall in Hall.
  assert (In q qcListMainnet) by (apply list_elem_of_In; eapply list_elem_of_lookup_2; eauto).
  specialize (Hall q ltac:(done)); lia.
Qed.

(** The ratio a computation uses: it is there and at most 1 when the network is
    congested. *)
Definition ratio_ok (qc : option Z) (isCongestion : bool) : Prop :=
  isCongestion = true -> exists q, qc = Some q /\ 0 < q <= qcDivision.

Lemma CalcQc_ratio box isTest isTestParam db h :
  0 <= QuotaUsedTotal (db_GetGlobalQuota db) ->
  let '(qc, _, isCongestion) := CalcQc box (InitQuotaConfig isTest isTestParam) db h in
  ratio_ok qc isCongestion.
Proof.
  intros Hg; unfold CalcQc; destruct (negb _); [done|].
  replace (qcIndexMin (InitQuotaConfig isTest isTestParam)) with 51 by (by destruct isTestParam).
  replace (qcIndexMax (InitQuotaConfig isTest isTestParam)) with 500 by (by destruct isTestParam).
  replace (qcMap (InitQuotaConfig isTest isTestParam)) with qcMapMainnet by (by destruct isTestParam).
  set (k := _ / qcGap); destruct (Z.ltb_spec k 51); [done|]; intros _.
  destruct (Z.leb_spec 500 k); apply qcMainnet_range; lia.
Qed.

Lemma calcStakeParam_ok qc c x :
  ratio_ok qc c -> 0 <= x -> exists p, calcStakeParam qc c x = Ok p /\ 0 <= p <= x.
Proof.
  intros Hq Hx; unfold calcStakeParam; destruct c; simpl; [|eexists; split; [done|lia]].
  destruct (Hq eq_refl) as (q & -> & Hr); simpl; rewrite big_Div_pos by done; eexists; split; [done|].
  unfold qcDivision in *.
  split; [apply Z.div_pos; nia|apply Z.div_le_upper_bound; nia].
Qed.

(** ** Quota of stake and work *)

Lemma calcStakeQuota_section cfg qc c a :
  table (stakeAmountList cfg) -> ratio_ok qc c -> 0 < a ->
  exists p i, calcStakeParam qc c a = Ok p /\ section_of (stakeAmountList cfg) p i /\
    calcStakeQuota cfg qc c (Some a) = Ok (quotaForSection * i).
Proof.
  intros Ht Hr Ha; destruct (calcStakeParam_ok qc c a Hr ltac:(lia)) as (p & Ep & Hp).
  destruct (search_section _ p Ht ltac:(lia)) as (i & Ei & Hi); exists p, i; split_and!; [done..|].
  unfold calcStakeQuota; destruct (Z.leb_spec a 0); [lia|]; rewrite Ep, bind_Ok, Ei, bind_Ok.
  by rewrite calcQuotaByIndex_section by apply Hi.
Qed.

Lemma calcPoWQuota_section cfg qc c d :
  table (difficultyList cfg) -> ratio_ok qc c -> 0 < d ->
  exists p i, calcStakeParam qc c d = Ok p /\ section_of (difficultyList cfg) p i /\
    calcPoWQuota cfg qc c (Some d) = Ok (quotaForSection * i).
Proof.
  intros Ht Hr Hd; destruct (calcStakeParam_ok qc c d Hr ltac:(lia)) as (p & Ep & Hp).
  destruct (search_section _ p Ht ltac:(lia)) as (i & Ei & Hi); exists p, i; split_and!; [done..|].
  unfold calcPoWQuota; destruct (Z.leb_spec d 0); [lia|]; rewrite Ep, bind_Ok, Ei, bind_Ok.
  by rewrite calcQuotaByIndex_section by apply Hi.
Qed.

(** What stake or work gives is at most all sections. *)
Definition section_quota (r : result Z) : Prop := exists q, r = Ok q /\ 0 <= q <= quotaForSection * sectionLen.

Lemma calcStakeQuota_bound cfg qc c o :
  table (stakeAmountList cfg) -> ratio_ok qc c -> section_quota (calcStakeQuota cfg qc c o).
Proof.
  intros Ht Hr; unfold quotaForSection; destruct o as [a|]; [destruct (decide (0 < a)) as [Ha|Ha]|].
  - destruct (calcStakeQuota_section cfg qc c a Ht Hr Ha) as (p & i & _ & [Hi _ _] & ->).
    eexists; split; [done|]; unfold quotaForSection, sectionLen in *; lia.
  - exists 0; unfold calcStakeQuota, sectionLen; destruct (Z.leb_spec a 0); [done|lia].
  - by exists 0.
Qed.

Lemma calcPoWQuota_bound cfg qc c o :
  table (difficultyList cfg) -> ratio_ok qc c -> section_quota (calcPoWQuota cfg qc c o).
Proof.
  intros Ht Hr; unfold quotaForSection; destruct o as [a|]; [destruct (decide (0 < a)) as [Ha|Ha]|].
  - destruct (calcPoWQuota_section cfg qc c a Ht Hr Ha) as (p & i & _ & [Hi _ _] & ->).
    eexists; split; [done|]; unfold quotaForSection, sectionLen in *; lia.
  - exists 0; unfold calcPoWQuota, sectionLen; destruct (Z.leb_spec a 0); [done|lia].
  - by exists 0.
Qed.

(** The binary search in the mainnet tables finds the section a linear count
    of the thresholds finds, without ever indexing out of range: stake and work
    give 280 units of quota for each threshold they reach, after scaling by the
    congestion ratio. *)
Theorem quota_search_is_count isTest qc c a :
  ratio_ok qc c -> 0 < a ->
  exists p, calcStakeParam qc c a = Ok p /\
    calcStakeQuota (InitQuotaConfig isTest false) qc c (Some a) =
      Ok (quotaForSection * (reached stakeAmountListMainnet p - 1)) /\
    calcPoWQuota (InitQuotaConfig isTest false) qc c (Some a) =
      Ok (quotaForSection * (reached difficultyListMainnet p - 1)).
Proof.
  intros Hr Ha; set (cfg := InitQuotaConfig isTest false).
  destruct (calcStakeQuota_section cfg qc c a mainnet_stake_table Hr Ha) as (p & i & Ep & Hi & ->).
  destruct (calcPoWQuota_section cfg qc c a mainnet_difficulty_table Hr Ha) as (p' & j & Ep' & Hj & ->).
  rewrite Ep in Ep'; injection Ep' as <-; exists p; split; [done|].
  rewrite (section_reached _ _ _ mainnet_stake_table Hi).
  rewrite (section_reached _ _ _ mainnet_difficulty_table Hj); split; do 2 f_equal; lia.
Qed.

Lemma quota_search_is_count_witness :
  exists p, calcStakeParam (Some (10 ^ 17)) true (10 ^ 22) = Ok p /\
    calcStakeQuota (InitQuotaConfig false false) (Some (10 ^ 17)) true (Some (10 ^ 22)) =
      Ok (quotaForSection * (reached stakeAmountListMainnet p - 1)) /\
    calcPoWQuota (InitQuotaConfig false false) (Some (10 ^ 17)) true (Some (10 ^ 22)) =
      Ok (quotaForSection * (reached difficultyListMainnet p - 1)).
Proof.
  apply quota_search_is_count; [intros _; exists (10 ^ 17); split; [reflexivity|vm_compute; split; congruence]
                               |reflexivity].
Defined.

(** ** Recommended stake *)

Lemma section_index q :
  0 < q <= quotaForSection * sectionLen ->
  let k := u64 (q + quotaForSection - 1) / quotaForSection in
  1 <= k <= sectionLen /\ quotaForSection * (k - 1) < q <= quotaForSection * k.
Proof.
  unfold quotaForSection, sectionLen; intros Hq; rewrite u64_small by (unfold is_u64; lia).
  cbv zeta; Z.to_euclidean_division_equations; lia.
Qed.

(** The stake the node recommends for a quota is the least that gives it: it
    gives at least the quota asked for, and any smaller stake gives less. *)
Theorem stake_recommendation_least isTest q :
  0 < q <= getMaxQuota ->
  let cfg := InitQuotaConfig isTest false in
  exists a got, CalcStakeAmountByQuota cfg q = Ok a /\ 0 < a /\
    calcStakeQuota cfg None false (Some a) = Ok got /\ q <= got < q + quotaForSection /\
    forall b, 0 < b < a -> exists less, calcStakeQuota cfg None false (Some b) = Ok less /\ less < q.
Proof.
  change getMaxQuota with (quotaForSection * sectionLen); intros Hq cfg.
  pose proof mainnet_stake_table as Ht; destruct (section_index q Hq) as [Hk Hqk].
  set (k := _ / quotaForSection) in *; destruct (table_at _ k Ht ltac:(lia)) as (a & Ea & _).
  assert (0 < a) by (apply (table_mono _ 0 (Z.to_nat k) 0 a Ht); [lia|apply Ht|done]).
  assert (Hsec : forall x, 0 < x -> exists i, section_of stakeAmountListMainnet x i /\
            calcStakeQuota cfg None false (Some x) = Ok (quotaForSection * i)).
  { intros x Hx; destruct (calcStakeQuota_section cfg None false x Ht ltac:(done) Hx) as (p & i & E & Hi & ->).
    injection E as <-; eauto. }
  destruct (Hsec a ltac:(done)) as (i & Hi & Ei); exists a, (quotaForSection * i).
  assert (k <= i) by (by apply (section_ge _ a i k a Ht Hi ltac:(lia) Ea)).
  assert (i <= k).
  { destruct (decide (i <= k)); [done|]; destruct (table_at _ i Ht) as (w & Ew & _); [apply Hi|].
    pose proof (so_reached _ _ _ Hi w Ew).
    pose proof (table_mono _ (Z.to_nat k) (Z.to_nat i) a w Ht ltac:(lia) Ea Ew); lia. }
  split_and!; [|done|done|unfold quotaForSection in *; lia..|].
  - unfold CalcStakeAmountByQuota; change getMaxQuota with (quotaForSection * sectionLen).
    destruct (Z.ltb_spec (quotaForSection * sectionLen) q); [lia|].
    destruct (Z.eqb_spec q 0); [lia|]; apply big_at_lookup; [lia|done].
  - intros b Hb; destruct (Hsec b ltac:(lia)) as (j & Hj & ->); eexists; split; [done|].
    assert (~ k <= j) by (rewrite (section_ge _ b j k a Ht Hj ltac:(lia) Ea); lia).
    unfold quotaForSection in *; lia.
Qed.

Lemma stake_recommendation_least_witness :
  let cfg := InitQuotaConfig false false in
  exists a got, CalcStakeAmountByQuota cfg 21000 = Ok a /\ 0 < a /\
    calcStakeQuota cfg None false (Some a) = Ok got /\ 21000 <= got < 21000 + quotaForSection /\
    forall b, 0 < b < a -> exists less, calcStakeQuota cfg None false (Some b) = Ok less /\ less < 21000.
Proof. apply (stake_recommendation_least false 21000); vm_compute; split; congruence. Defined.

(** On the testnet table, whose first thresholds are repeated, the stake
    recommended for a quota of 1681 gives only 1680. *)
Theorem testnet_recommendation_short :
  let cfg := InitQuotaConfig false true in
  CalcStakeAmountByQuota cfg 1681 = Ok (10 ^ 18) /\
  calcStakeQuota cfg None false (Some (10 ^ 18)) = Ok 1680.
Proof. split; vm_compute; reflexivity. Qed.

(** ** Recommended difficulty *)

(** Two tests of the loop are enough, and the result is the least number whose
    scaled value reaches the target. *)
Lemma target_loop_least fuel q t :
  (2 <= fuel)%nat -> 0 < q -> 0 <= t ->
  exists d, target_loop fuel (Some q) true t (t * qcDivision / q) = Some (Ok d) /\
    forall x, d <= x <-> t <= x * q / qcDivision.
Proof.
  intros Hf Hq Ht; destruct fuel as [|[|fuel]]; [lia..|].
  assert (HD : 0 < qcDivision) by reflexivity; set (D := qcDivision) in *.
  assert (Hle : forall x, t <= x * q / D <-> t * D <= x * q).
  { intros x; split; intros H; [|apply Z.div_le_lower_bound; lia].
    pose proof (Z.mul_div_le (x * q) D HD); nia. }
  set (n := t * D / q).
  assert (Hn : n * q <= t * D < (n + 1) * q).
  { pose proof (Z.mul_div_le (t * D) q Hq); pose proof (Z.mul_succ_div_gt (t * D) q Hq); unfold n; lia. }
  cbn [target_loop calcStakeParam negb or_panic]; rewrite !bind_Ok, !big_Div_pos by done; fold D.
  destruct (Z.leb_spec t (n * q / D)) as [H1|H1].
  - exists n; split; [done|]; intros x; rewrite Hle in *; nia.
  - exists (n + 1); split.
    { replace (t <=? (n + 1) * q / D) with true; [done|].
      symmetry; apply Z.leb_le, Hle; lia. }
    assert (n * q < t * D) by (apply Z.nle_gt; rewrite <- Hle; lia).
    intros x; rewrite Hle; nia.
Qed.

Lemma calcStakeTarget_least fuel qc c t :
  (2 <= fuel)%nat -> ratio_ok qc c -> 0 <= t < 2 ^ 128 ->
  exists d, (if negb c then Some (Ok t) else calcStakeTargetParam fuel qc c t) = Some (Ok d) /\
    forall x p, calcStakeParam qc c x = Ok p -> d <= x <-> t <= p.
Proof.
  intros Hf Hr Ht; destruct c; simpl.
  2: { exists t; split; [done|]; intros x p [= <-]; done. }
  destruct (Hr eq_refl) as (q & -> & Hq); unfold calcStakeTargetParam.
  rewrite big_Div_pos by lia.
  destruct (target_loop_least fuel q t Hf ltac:(lia) ltac:(lia)) as (d & Ed & Hd).
  exists d; rewrite Ed; split.
  - simpl; replace (BitLen d <=? 256) with true; [done|symmetry; apply Z.leb_le].
    assert (d <= 2 ^ 200).
    { apply Hd; unfold qcDivision in *; apply Z.div_le_lower_bound; nia. }
    assert (0 <= d \/ d < 0) as [H0|H0] by lia; [apply BitLen_le; lia|exfalso].
    assert (d <= -1) by lia; pose proof (proj1 (Hd (-1)) ltac:(lia)) as Hneg.
    assert (-1 * q / qcDivision < 0) by (apply Z.div_lt_upper_bound; unfold qcDivision in *; lia); lia.
  - intros x p; unfold calcStakeParam; simpl; rewrite big_Div_pos by done.
    intros [= <-]; apply Hd.
Qed.

Lemma getIndexByQuota_ok q :
  0 < q <= quotaForSection * sectionLen ->
  exists k, getIndexByQuota q = Ok k /\ 1 <= k <= sectionLen /\
    quotaForSection * (k - 1) < q <= quotaForSection * k.
Proof.
  intros Hq; pose proof (section_index q Hq) as [Hk Hr]; unfold getIndexByQuota.
  set (k := _ / quotaForSection) in *; unfold quotaForSection, sectionLen in *.
  rewrite i64_small by lia; rewrite u64_small by (unfold is_u64; lia).
  replace ((3571 <? k) || (k * 280 <? q)) with false by lia; exists k; split_and!; done || lia.
Qed.

(** A threshold of a table fits: the tables stay below 2^128. *)
Lemma difficulty_small isTest isTestParam i v :
  difficultyList (InitQuotaConfig isTest isTestParam) !! i = Some v -> v < 2 ^ 128.
Proof.
  intros Hv; assert (Hall : forallb (fun x => x <? 2 ^ 128)
                              (difficultyList (InitQuotaConfig isTest isTestParam)) = true)
    by (destruct isTestParam; vm_compute; reflexivity).
  rewrite forallb_forall in Hall; apply Z.ltb_lt, Hall, list_elem_of_In.
  by eapply list_elem_of_lookup_2.
Qed.

(** The difficulty the node recommends for a quota is the least that gives
    it, at any congestion: the correcting loop, which the code says runs at most
    once, ends after two tests, the difficulty gives at least the quota asked
    for, and any smaller difficulty gives less. *)
Theorem difficulty_recommendation_least box isTest isTestParam db h req q fuel :
  (2 <= fuel)%nat -> 0 <= QuotaUsedTotal (db_GetGlobalQuota db) ->
  0 <= Current q < req -> req <= quotaForSection * sectionLen ->
  let cfg := InitQuotaConfig isTest isTestParam in
  let '(qc, _, c) := CalcQc box cfg db h in
  exists d got, CalcPoWDifficulty box cfg fuel db req q h = Some (Ok d) /\
    calcPoWQuota cfg qc c (Some d) = Ok got /\ req <= got /\
    forall b, b < d -> exists less, calcPoWQuota cfg qc c (Some b) = Ok less /\ less < req.
Proof.
  intros Hf Hg Hc Hreq cfg; pose proof (CalcQc_ratio box isTest isTestParam db h Hg) as Hr; fold cfg in Hr.
  destruct (CalcQc box cfg db h) as [[qc g] c] eqn:Eqc.
  destruct (getIndexByQuota_ok req ltac:(lia)) as (k & Ek & Hk & Hkr).
  pose proof (difficulty_table isTest isTestParam) as Ht; fold cfg in Ht.
  destruct (table_at _ k Ht ltac:(lia)) as (t & Et & Ht0).
  pose proof (table_mono _ 0 (Z.to_nat k) 0 t Ht ltac:(lia) (tb_zero _ Ht) Et).
  destruct (calcStakeTarget_least fuel qc c t Hf Hr) as (d & Ed & Hd);
    [split; [done|by eapply difficulty_small]|].
  assert (Hgot : forall x, 0 < x -> exists i, calcPoWQuota cfg qc c (Some x) = Ok (quotaForSection * i) /\
            (k <= i <-> d <= x)).
  { intros x Hx; destruct (calcPoWQuota_section cfg qc c x Ht Hr Hx) as (p & i & Ep & Hi & ->).
    exists i; split; [done|]; rewrite (section_ge _ p i k t Ht Hi ltac:(lia) Et); symmetry; by apply Hd. }
  assert (0 < d).
  { destruct (calcStakeParam_ok qc c 0 Hr ltac:(lia)) as (p & Ep & Hp).
    apply Z.nle_gt; rewrite (Hd 0 p Ep); lia. }
  destruct (Hgot d ltac:(done)) as (i & Ei & Hi); exists d, (quotaForSection * i); split_and!; [|done| |].
  - unfold CalcPoWDifficulty; destruct (Z.ltb_spec quotaLimitForBlock req);
      [unfold quotaLimitForBlock, quotaForSection, sectionLen in *; lia|].
    destruct (Z.leb_spec req (Current q)); [lia|]; rewrite Ek, bind_Ok.
    rewrite (big_at_lookup _ k t ltac:(lia) Et); unfold calcStakeTargetParamByQc; rewrite Eqc.
    destruct c; exact Ed.
  - assert (k <= i) by (apply Hi; lia); unfold quotaForSection in *; lia.
  - intros b Hb; destruct (decide (0 < b)) as [Hb0|Hb0].
    + destruct (Hgot b Hb0) as (j & -> & Hj); eexists; split; [done|].
      assert (~ k <= j) by (rewrite Hj; lia); unfold quotaForSection in *; lia.
    + exists 0; unfold calcPoWQuota; destruct (Z.leb_spec b 0); [split; [done|lia]|lia].
Qed.

Lemma difficulty_recommendation_least_witness :
  let cfg := InitQuotaConfig false false in
  let '(qc, _, c) := CalcQc example_box cfg busy_db 100 in
  exists d got, CalcPoWDifficulty example_box cfg 2 busy_db 21000 (NewQuota 0 0 0 0 false 0) 100 = Some (Ok d) /\
    calcPoWQuota cfg qc c (Some d) = Ok got /\ 21000 <= got /\
    forall b, b < d -> exists less, calcPoWQuota cfg qc c (Some b) = Ok less /\ less < 21000.
Proof.
  apply (difficulty_recommendation_least example_box false false busy_db 100 21000
           (NewQuota 0 0 0 0 false 0) 2); [lia|vm_compute; congruence|split; [vm_compute; congruence|reflexivity]
           |vm_compute; congruence].
Defined.

(** ** The quota of a block *)

(** A bucket that [stake] fills at each snapshot block and use drains. *)
Definition bucket (stake : Z) (l : list QuotaInfo) : Z :=
  fold_left (fun t q => Z.max 0 (t + stake - QuotaTotal q)) l 0.

Lemma bucket_snoc stake l q : bucket stake (l ++ [q]) = Z.max 0 (bucket stake l + stake - QuotaTotal q).
Proof. unfold bucket; by rewrite fold_left_app. Qed.

Lemma bucket_bound stake l :
  0 <= stake -> Forall (fun q => 0 <= QuotaTotal q) l ->
  0 <= bucket stake l <= stake * Z.of_nat (length l).
Proof.
  intros Hs; induction l as [|q l IH] using rev_ind; intros Hl; [unfold bucket; simpl; lia|].
  apply Forall_app in Hl as [Hl [Hq _]%Forall_cons_1].
  rewrite bucket_snoc, length_app; simpl; specialize (IH Hl); Z.to_euclidean_division_equations; nia.
Qed.

Lemma accumulate_bucket stake l :
  0 <= stake <= quotaForSection * sectionLen -> Z.of_nat (length l) < 2 ^ 20 ->
  Forall (fun q => 0 <= QuotaTotal q) l ->
  exists u b, fold_left (accumulate stake) l (0, 0, 0) = (bucket stake l, u, b).
Proof.
  intros Hs; induction l as [|q l IH] using rev_ind; intros Hn Hl; [eauto|].
  rewrite length_app in Hn; cbn [length] in Hn; apply Forall_app in Hl as [Hl [Hq _]%Forall_cons_1].
  destruct IH as (u & b & E); [lia|done|]; rewrite fold_left_app, E, bucket_snoc; simpl.
  pose proof (bucket_bound stake l ltac:(lia) Hl); unfold quotaForSection, sectionLen in *.
  rewrite (u64_small (bucket stake l + stake)) by (unfold is_u64; nia).
  destruct (Z.leb_spec (QuotaTotal q) (bucket stake l + stake)).
  - rewrite u64_small by (unfold is_u64; nia); rewrite Z.max_r by lia; eauto.
  - rewrite Z.max_l by lia; eauto.
Qed.

(** C37 The quota of a block is a bucket: the stake fills it at every snapshot
    block, what was used there drains it, the work of the block is added, and
    both parts are cut at the block limit; nothing overflows.  A contract that
    ran out of quota lately has none, and an account may add work only once. *)
Theorem block_quota_is_bucket box db addr stake work h l q :
  0 <= QuotaUsedTotal (db_GetGlobalQuota db) -> db_GetQuotaUsedList db addr = l ++ [q] ->
  Z.of_nat (length l) < 2 ^ 20 -> Forall (fun i => 0 <= QuotaTotal i) (l ++ [q]) ->
  let cfg := InitQuotaConfig false false in
  let '(qc, _, c) := CalcQc box cfg db h in
  exists s w, calcStakeQuota cfg qc c stake = Ok s /\ calcPoWQuota cfg qc c work = Ok w /\
    GetQuotaForBlock box cfg db addr stake work h =
      if (0 <? default 0 work) && negb (CanPoW db addr) then Err ErrCalcPoWTwice
      else match isBlocked db addr with
           | (_, _, Some e) => Err e
           | (blocked, _, None) =>
               let left := bucket s l + s - QuotaTotal q in
               if left <? 0 then Err ErrInvalidUnconfirmedQuota
               else if blocked then Ok (0, 0)
               else Ok (Z.min quotaLimitForBlock (left + w), Z.min quotaLimitForBlock w)
           end.
Proof.
  intros Hg El Hn Hl cfg; pose proof (CalcQc_ratio box false false db h Hg) as Hr; fold cfg in Hr.
  destruct (CalcQc box cfg db h) as [[qc g] c] eqn:Eqc.
  destruct (calcStakeQuota_bound cfg qc c stake mainnet_stake_table Hr) as (s & Es & Hs).
  destruct (calcPoWQuota_bound cfg qc c work mainnet_difficulty_table Hr) as (w & Ew & Hw).
  exists s, w; split_and!; [done..|].
  apply Forall_app in Hl as [Hl [Hq _]%Forall_cons_1].
  destruct (accumulate_bucket s l Hs Hn Hl) as (u & b & Ef); pose proof (bucket_bound s l ltac:(lia) Hl).
  unfold quotaForSection, sectionLen in *.
  unfold GetQuotaForBlock, calcQuotaFunc; change (fixedQuota cfg) with false; cbv iota.
  unfold calcQuotaV3; replace (match work with Some d => 0 <? d | None => false end)
    with (0 <? default 0 work) by (by destruct work).
  destruct (_ && _); [done|]; unfold calcQuotaTotal; destruct (isBlocked db addr) as [[blk rel] [e|]]; [done|].
  rewrite Eqc, Es, Ew, El, !bind_Ok, length_app, take_app_length', Ef, last_snoc by (simpl; lia).
  rewrite (u64_small (bucket s l + s)) by (unfold is_u64; nia); cbv zeta.
  destruct (Z.leb_spec (QuotaTotal q) (bucket s l + s)), (Z.ltb_spec (bucket s l + s - QuotaTotal q) 0);
    try lia; [|done].
  rewrite (u64_small (_ - _)) by (unfold is_u64; nia); destruct blk; [done|].
  rewrite bind_Ok; cbn [qr_err qr_total qr_addition]; rewrite u64_small by (unfold is_u64; nia).
  unfold quotaLimitForBlock; set (left := bucket s l + s - QuotaTotal q) in *.
  destruct (Z.ltb_spec 1000000 (left + w)); [destruct (Z.ltb_spec 1000000 w)|]; do 2 f_equal; lia.
Qed.

Lemma block_quota_is_bucket_witness :
  let cfg := InitQuotaConfig false false in
  let '(qc, _, c) := CalcQc example_box cfg busy_db 100 in
  exists s w, calcStakeQuota cfg qc c (Some (10 ^ 22)) = Ok s /\ calcPoWQuota cfg qc c (Some (10 ^ 8)) = Ok w /\
    GetQuotaForBlock example_box cfg busy_db ZERO_ADDRESS (Some (10 ^ 22)) (Some (10 ^ 8)) 100 =
      if (0 <? default 0 (Some (10 ^ 8))) && negb (CanPoW busy_db ZERO_ADDRESS) then Err ErrCalcPoWTwice
      else match isBlocked busy_db ZERO_ADDRESS with
           | (_, _, Some e) => Err e
           | (blocked, _, None) =>
               let left := bucket s [] + s - QuotaTotal (mkQuotaInfo 0 0 0) in
               if left <? 0 then Err ErrInvalidUnconfirmedQuota
               else if blocked then Ok (0, 0)
               else Ok (Z.min quotaLimitForBlock (left + w), Z.min quotaLimitForBlock w)
           end.
Proof.
  apply (block_quota_is_bucket example_box busy_db ZERO_ADDRESS (Some (10 ^ 22)) (Some (10 ^ 8)) 100
           [] (mkQuotaInfo 0 0 0));
    [vm_compute; congruence|reflexivity|reflexivity|repeat constructor; vm_compute; congruence].
Defined.
