(* ===== verification/InstructionSafety.v ===== *)
(** The invariant of the machine state, and that every execution function of
    instructions.go keeps it: words stay 256-bit, stack and memory accesses stay
    in range, and the program counter stays on instruction boundaries. *)
From S2P Require Import Prelude Helper Types Upgrade QuotaTable VmDb Builtin Opcodes AccountBlock.
From S2P Require Import Destination Machine Instructions GasTable JumpTable Interpreter.

(** ** What is assumed of the world *)

(** Facts that the types of the Go code and its libraries guarantee: array
    sizes, the output size of the hash functions, the growth of slices, and
    code and data that fit in memory; amounts are 256-bit by the rules of the
    chain. *)
Record env_ok (e : env) : Prop := {
  eo_table : table_ok (gasTable e);
  eo_keccak d : length (Keccak256 e d) = 32%nat;
  eo_blake d : length (Hash256 e d) = 32%nat;
  eo_grow c n : n <= grow e c n;
  eo_code : len (c_code e) < 2 ^ 62;
  eo_data : len (c_data e) < 2 ^ 62;
  eo_account : (length (AccountAddress (c_block e)) <= 32)%nat;
  eo_from : (length (FromBlockHash (c_block e)) <= 32)%nat;
  eo_caller : (length (AccountAddress (c_sendBlock e)) <= 32)%nat;
  eo_token : (length (TokenId (c_sendBlock e)) <= 32)%nat;
  eo_amount a : Amount (c_sendBlock e) = Some a -> is_u256 a;
  eo_builtin g a f sel m d : contracts e g a = Some f -> f sel = Some m ->
    match GetSendQuota m d (gasTable e) with
    | Ok c => is_u64 c | Err _ => True | Panic p => p = PDb \/ p = PNil
    end;
  eo_seed g v : globalStatus e = Some g -> gs_Seed g = Ok v -> is_u64 v;
  eo_random g n v : globalStatus e = Some g -> gs_Random g n = Ok v -> is_u64 v;
}.

(** The database a run starts from: contract storage holds words, balances are
    words, hashes have their size. *)
Record db_ok (d : vmDb) : Prop := {
  do_stored k v : storage (uns d) !! k = Some v -> (length v <= 32)%nat;
  do_chain k v : db_GetOriginalValue d k = Ok v -> (length v <= 32)%nat;
  do_balance t b : db_GetBalance d t = Ok b -> is_u256 b;
  do_prev b : db_PrevAccountBlock d = Ok (Some b) -> (length (ab_Hash b) <= 32)%nat;
}.

(** Memory is a whole number of words, within its capacity and below 2^40. *)
Record mem_ok (m : memory) : Prop := {
  mo_cap : mem_len m <= mem_cap m;
  mo_max : mem_len m <= 2 ^ 40;
  mo_words : (32 | mem_len m);
}.

Record data_inv (e : env) (s : mstate) : Prop := {
  di_words : Forall is_u256 (st s);
  di_mem : mem_ok (mem s);
  di_cache : cache_ok (jumpdests s) (c_codeAddr e) (c_code e);
  di_db : db_ok (db s);
  di_ret : len (returnData s) < 2 ^ 62;
}.

(** The program counter is at the start of an instruction, or just behind the
    last one. *)
Definition pc_ok (e : env) (v : Z) : Prop := 0 <= v /\ code_start (c_code e) (Z.to_nat v).

(** The panics that come from outside the machine: the database, or a missing
    global status or amount. *)
Definition benign (p : go_panic) : Prop := p = PDb \/ p = PNil.

(** The calls read their data from memory before it is resized, so they may
    also slice out of range. *)
Definition allowed (k : Z) (p : go_panic) : Prop :=
  benign p \/ (p = PSlice /\ (k = CALL \/ k = CALL2)).

(** ** Words *)

Lemma is_u256_bool b : is_u256 (bool_word b).
Proof. destruct b; vm_compute; split; congruence. Qed.

Lemma is_u256_small z : 0 <= z < 2 ^ 64 -> is_u256 z.
Proof. intros [? H]; split; [done|]; eapply Z.lt_trans; [exact H|reflexivity]. Qed.

Lemma is_u256_0 : is_u256 0.
Proof. apply is_u256_bool with (b := false). Qed.

Lemma Int64_small z : 0 <= z < 2 ^ 63 -> Int64 z = z.
Proof.
  intros H; unfold Int64; rewrite Z.abs_eq, (i64_small z) by lia.
  destruct (Z.ltb_spec z 0); lia.
Qed.

Lemma Z_land_u256 x y : is_u256 x -> is_u256 y -> is_u256 (Z.land x y).
Proof.
  intros Hx Hy; rewrite <- (U256_small x Hx); unfold U256.
  rewrite <- Z.land_assoc, (Z.land_comm _ y), Z.land_assoc; apply (U256_range (Z.land x y)).
Qed.

Lemma high_bits_u256 z : 0 <= z -> (forall i, 256 <= i -> Z.testbit z i = false) -> is_u256 z.
Proof.
  intros H0 H; assert (E : U256 z = z).
  { rewrite U256_mod; apply Z.bits_inj'; intros i Hi.
    destruct (Z.lt_ge_cases i 256); [by apply Z.mod_pow2_bits_low|].
    rewrite Z.mod_pow2_bits_high by lia; symmetry; apply H; done. }
  rewrite <- E; apply U256_range.
Qed.

Lemma u256_high_bits z i : is_u256 z -> 256 <= i -> Z.testbit z i = false.
Proof.
  intros H Hi; rewrite <- (U256_small z H), U256_mod; apply Z.mod_pow2_bits_high; lia.
Qed.

Lemma Z_lor_u256 x y : is_u256 x -> is_u256 y -> is_u256 (Z.lor x y).
Proof.
  intros Hx Hy; apply high_bits_u256; [apply Z.lor_nonneg; split; [apply Hx|apply Hy]|].
  intros i Hi; rewrite Z.lor_spec, !u256_high_bits; done.
Qed.

Lemma Z_lxor_u256 x y : is_u256 x -> is_u256 y -> is_u256 (Z.lxor x y).
Proof.
  intros Hx Hy; apply high_bits_u256.
  - apply Z.lxor_nonneg; destruct Hx, Hy; lia.
  - intros i Hi; rewrite Z.lxor_spec, !u256_high_bits; done.
Qed.

Lemma mod_u256 x : is_u256 (x mod 2 ^ 256).
Proof. apply Z.mod_pos_bound; reflexivity. Qed.

Lemma Exp_u256 x y : is_u256 x -> is_u256 y -> is_u256 (Exp x y).
Proof. intros Hx [Hy _]; rewrite Exp_spec by done; apply mod_u256. Qed.

Lemma Byte_u256 x n : is_u256 x -> 0 <= n < 32 -> is_u256 (Byte x WordSize n).
Proof.
  intros [Hx _] Hn; rewrite Byte_spec by done; apply is_u256_small.
  pose proof (Z.mod_pos_bound (x / 256 ^ (31 - n)) 256 ltac:(lia)); lia.
Qed.

(** ** Memory *)

Lemma mem_slice_spec m lo hi :
  mem_ok m -> 0 <= lo <= hi -> hi <= mem_len m ->
  mem_slice m lo hi = Ok (subslice (store m) lo hi).
Proof.
  intros [Hc Hm Hw] H1 H2; unfold mem_slice.
  destruct (Z.ltb_spec lo 0), (Z.ltb_spec hi lo), (Z.ltb_spec (mem_cap m) hi); try lia; simpl.
  by rewrite RightPad_id by (rewrite length_subslice; [lia|done..]).
Qed.

Lemma mem_get_spec m off sz :
  mem_ok m -> 0 <= off -> 0 <= sz -> calcMemSize off sz <= mem_len m ->
  mem_get m (Int64 off) (Int64 sz) =
    Ok (if sz =? 0 then [] else subslice (store m) off (off + sz)).
Proof.
  intros Hm H0 H1; unfold calcMemSize, mem_get; pose proof (mo_max m Hm).
  destruct (Z.eqb_spec sz 0) as [->|]; [done|]; intros H2.
  rewrite !Int64_small by lia.
  destruct (Z.eqb_spec sz 0); [lia|]; destruct (Z.ltb_spec off (mem_len m)); [|lia].
  rewrite i64_small by lia; apply mem_slice_spec; [done|lia..].
Qed.

Lemma mem_get_ok m off sz :
  mem_ok m -> is_u256 off -> is_u256 sz -> calcMemSize off sz <= mem_len m ->
  exists d, mem_get m (Int64 off) (Int64 sz) = Ok d /\ len d <= 2 ^ 40.
Proof.
  intros Hm [H0 _] [H1 _] H2; rewrite mem_get_spec by done; eexists; split; [done|].
  pose proof (mo_max m Hm); unfold calcMemSize in H2.
  destruct (Z.eqb_spec sz 0); [done|]; rewrite length_subslice by (unfold mem_len in *; lia); lia.
Qed.

Lemma length_write_at s lo v :
  0 <= lo -> lo + len v <= len s -> length (write_at s lo v) = length s.
Proof.
  unfold write_at, len; intros; rewrite !length_app, length_take, length_drop; lia.
Qed.

Lemma mem_ok_with_store m s : mem_ok m -> length s = length (store m) -> mem_ok (with_store m s).
Proof.
  intros [Hc Hm Hw] E; unfold mem_len, len in *; split; unfold mem_len, len; simpl; rewrite E; done.
Qed.

Lemma mem_set_spec m off sz v :
  mem_ok m -> 0 <= off -> 0 < sz -> off + sz <= mem_len m ->
  mem_set m (Uint64 off) (Uint64 sz) v =
    Ok (with_store m (write_at (store m) off (take (Z.to_nat sz) v))).
Proof.
  intros Hm H0 H1 H2; pose proof (mo_max m Hm); unfold mem_set.
  rewrite !Uint64_small, u64_small by (unfold is_u64; lia).
  destruct (Z.ltb_spec 0 sz), (Z.ltb_spec (mem_len m) (off + sz)), (Z.ltb_spec (off + sz) off);
    done || lia.
Qed.

Lemma mem_set_ok m off sz v :
  mem_ok m -> is_u256 off -> is_u256 sz -> calcMemSize off sz <= mem_len m ->
  exists m', mem_set m (Uint64 off) (Uint64 sz) v = Ok m' /\ mem_ok m'.
Proof.
  intros Hm [H0 _] [H1 _]; unfold calcMemSize.
  destruct (Z.eqb_spec sz 0) as [->|]; intros H2; [by exists m|].
  rewrite mem_set_spec by (done || lia); eexists; split; [done|].
  apply mem_ok_with_store, length_write_at; [done..|].
  unfold mem_len, len in *; rewrite length_take; lia.
Qed.

Lemma length_ReadBits32 v : is_u256 v -> length (ReadBits v (zero_bytes 32)) = 32%nat.
Proof.
  intros [Hv _]; unfold zero_bytes.
  pose proof (ReadBits_spec v 32 Hv) as E; unfold zero_bytes in E; rewrite E; apply length_be_bytes.
Qed.

Lemma mem_set32_spec m off v :
  mem_ok m -> 0 <= off -> off + 32 <= mem_len m ->
  mem_set32 m (Uint64 off) v =
    Ok (with_store m (write_at (store m) off (ReadBits v (zero_bytes 32)))).
Proof.
  intros Hm H0 H2; pose proof (mo_max m Hm); unfold mem_set32.
  rewrite Uint64_small, u64_small by (unfold is_u64; lia).
  destruct (Z.ltb_spec (mem_len m) (off + 32)), (Z.ltb_spec (off + 32) off); done || lia.
Qed.

Lemma mem_set32_ok m off v :
  mem_ok m -> is_u256 off -> is_u256 v -> off + 32 <= mem_len m ->
  exists m', mem_set32 m (Uint64 off) v = Ok m' /\ mem_ok m'.
Proof.
  intros Hm [H0 _] Hv H2; rewrite mem_set32_spec by done; eexists; split; [done|].
  apply mem_ok_with_store, length_write_at; [done..|].
  unfold mem_len, len in *; rewrite length_ReadBits32 by done; lia.
Qed.

Lemma mem_set_byte_ok m off b :
  mem_ok m -> is_u256 off -> off + 1 <= mem_len m ->
  exists m', mem_set_byte m (Int64 off) b = Ok m' /\ mem_ok m'.
Proof.
  intros Hm [H0 _] H1; pose proof (mo_max m Hm); unfold mem_set_byte.
  rewrite Int64_small by lia.
  destruct (Z.ltb_spec off 0), (Z.leb_spec (mem_len m) off); try lia; simpl.
  eexists; split; [done|]; apply mem_ok_with_store; [done|apply length_insert].
Qed.

Lemma resize_spec g m size :
  (forall c n, n <= g c n) -> mem_ok m -> 0 <= size <= 2 ^ 40 -> (32 | size) ->
  mem_ok (resize g m size) /\ mem_len (resize g m size) = Z.max (mem_len m) size.
Proof.
  intros Hg [Hc Hm Hw] Hs Hd; unfold resize; destruct (Z.ltb_spec (mem_len m) size).
  - assert (E : mem_len (mkMemory (store m ++ zero_bytes (Z.to_nat (size - mem_len m)))
               (if size <=? mem_cap m then mem_cap m else g (mem_cap m) size) (lastGasCost m)) = size).
    { unfold mem_len, len, zero_bytes in *; simpl; rewrite length_app, length_replicate; lia. }
    split; [|rewrite E; lia]; split; rewrite ?E; simpl; [|lia|done].
    destruct (Z.leb_spec size (mem_cap m)); [done|apply Hg].
  - split; [done|lia].
Qed.

(** ** What executing an instruction guarantees *)

#[local] Hint Constructors Forall : core.
#[local] Arguments push _ _ /.

(** What an instruction leaves alone in the database: everything but the
    storage and the logs. *)
Definition db_frame (d d' : vmDb) : Prop :=
  balanceMap (uns d') = balanceMap (uns d) /\ contractMetaMap (uns d') = contractMetaMap (uns d) /\
  uns_code (uns d') = uns_code (uns d) /\ chain d' = chain d /\ db_address d' = db_address d /\
  latestSnapshotBlockHash d' = latestSnapshotBlockHash d /\ prevAccountBlockHash d' = prevAccountBlockHash d.

#[export] Instance db_frame_preorder : PreOrder db_frame.
Proof. unfold db_frame; split; [by intros d|intros d1 d2 d3; naive_solver congruence]. Qed.

#[local] Hint Extern 1 (db_frame _ _) => (split_and!; reflexivity) : core.

(** A block that a CALL instruction appends to the send list. *)
Definition call_block (e : env) (b : AccountBlock) : Prop :=
  exists to amount token data, is_u256 amount /\
    b = MakeRequestBlock (AccountAddress (c_block e)) to BlockTypeSendCall amount token data.

Definition sends_grow (e : env) (s s' : mstate) : Prop :=
  exists l, sendBlockList s' = sendBlockList s ++ l /\ Forall (call_block e) l.

Lemma sends_grow_same e s s' : sendBlockList s' = sendBlockList s -> sends_grow e s s'.
Proof. intros E; exists []; split; [by rewrite app_nil_r|constructor]. Qed.

Lemma sends_grow_trans e s1 s2 s3 : sends_grow e s1 s2 -> sends_grow e s2 s3 -> sends_grow e s1 s3.
Proof.
  intros (l & E & Hl) (l' & E' & Hl'); exists (l ++ l'); rewrite E', E, app_assoc.
  split; [done|by apply Forall_app].
Qed.
#[local] Hint Extern 1 (sends_grow _ _ _) => (apply sends_grow_same; reflexivity) : core.

(** Opcode [k] pops [a] words and pushes [b]; [jmp] tells whether it sets the
    program counter itself, [sto] whether it may write storage. *)
Record exec_post (e : env) (k : Z) (jmp sto : bool) (a b : nat) (s : mstate)
    (ret : bytes) (s' : mstate) : Prop := {
  ep_data : data_inv e s';
  ep_len : (length (st s') + a = length (st s) + b)%nat;
  ep_quota : quotaLeft s' = quotaLeft s;
  ep_frame : db_frame (db s) (db s');
  ep_sends : sends_grow e s s';
  ep_storage : sto = false -> storage (uns (db s')) = storage (uns (db s)) /\
                              deletedKeys (uns (db s')) = deletedKeys (uns (db s));
  ep_ret : len ret < 2 ^ 62;
  ep_pc : if jmp then pc_ok e (pc s') else pc s' = pc s + Z.of_nat (push_size k);
}.

Definition exec_result (e : env) (k : Z) (jmp sto : bool) (a b : nat) (s : mstate)
    (r : result (bytes * mstate)) : Prop :=
  match r with
  | Ok (ret, s') => exec_post e k jmp sto a b s ret s'
  | Err _ => True
  | Panic p => allowed k p
  end.

(** The execution function of opcode [k], given enough words on the stack and
    the memory that [size] asks for. *)
Definition exec_ok (k : Z) (jmp sto : bool) (a b : nat) (size : option (stack -> result Z))
    (f : executionFunc) : Prop :=
  forall e s, env_ok e -> data_inv e s -> pc_ok e (pc s) -> getOp e (pc s) = k ->
    (a <= length (st s))%nat ->
    (forall g n, size = Some g -> g (st s) = Ok n -> n <= mem_len (mem s)) ->
    exec_result e k jmp sto a b s (f e s).

(** Name the words on top of the stack of [s]. *)
Tactic Notation "top_words" constr(s) "as" simple_intropattern(pat) :=
  match goal with
  | Hd : data_inv ?e s, Ha : (_ <= length (st s))%nat |- _ =>
      let W := fresh "W" in
      let Est := fresh "Est" in
      pose proof (di_words e s Hd) as W;
      destruct (st s) as pat eqn:Est; [simpl in Ha; lia..|];
      repeat (apply Forall_cons_1 in W as [? W]); simpl in Ha
  end.

Lemma data_inv_with_st e s v : data_inv e s -> Forall is_u256 v -> data_inv e (with_st s v).
Proof. intros [] ?; split; done. Qed.

Lemma data_inv_with_mem e s m : data_inv e s -> mem_ok m -> data_inv e (with_mem s m).
Proof. intros [] ?; split; done. Qed.

(** Instructions that only change the stack, after a change of the state that
    the invariant allows. *)
Lemma ret_st_ok e k a b s s1 v :
  data_inv e s1 -> Forall is_u256 v -> push_size k = 0%nat ->
  (length v + a = length (st s) + b)%nat ->
  quotaLeft s1 = quotaLeft s -> pc s1 = pc s ->
  db_frame (db s) (db s1) -> sendBlockList s1 = sendBlockList s ->
  storage (uns (db s1)) = storage (uns (db s)) ->
  deletedKeys (uns (db s1)) = deletedKeys (uns (db s)) ->
  exec_result e k false false a b s (ret_st s1 v).
Proof.
  intros Hd Hv Hk Hl Hq Hp Hf Hb Hs Hx; constructor; simpl; try done.
  - by apply data_inv_with_st.
  - by apply sends_grow_same.
  - rewrite Hk; lia.
Qed.

(** A computation that neither fails nor panics, and gives a word. *)
Definition word_result (r : result Z) : Prop := exists v, r = Ok v /\ is_u256 v.

Lemma binopM_ok k f :
  push_size k = 0%nat -> (forall x y, is_u256 x -> is_u256 y -> word_result (f x y)) ->
  exec_ok k false false 2 1 None (binopM f).
Proof.
  intros Hk Hf e s He Hd Hp Ho Ha _; unfold binopM; top_words s as [|x [|y l]]; simpl.
  destruct (Hf x y) as (v & -> & Hv); [done..|]; rewrite bind_Ok.
  apply ret_st_ok; rewrite ?Est; simpl; auto; lia.
Qed.

Lemma binop_ok k f :
  push_size k = 0%nat -> (forall x y, is_u256 x -> is_u256 y -> is_u256 (f x y)) ->
  exec_ok k false false 2 1 None (binop f).
Proof. intros Hk Hf; apply binopM_ok; [done|]; intros x y Hx Hy; eexists; split; [done|]; auto. Qed.

Lemma ternopM_ok k f :
  push_size k = 0%nat ->
  (forall x y z, is_u256 x -> is_u256 y -> is_u256 z -> word_result (f x y z)) ->
  exec_ok k false false 3 1 None (ternopM f).
Proof.
  intros Hk Hf e s He Hd Hp Ho Ha _; unfold ternopM; top_words s as [|x [|y [|z l]]]; simpl.
  destruct (Hf x y z) as (v & -> & Hv); [done..|]; rewrite bind_Ok.
  apply ret_st_ok; rewrite ?Est; simpl; auto; lia.
Qed.

(** The zero tests of the division instructions keep the division from
    panicking. *)
Lemma divisions_ok x y z :
  is_u256 x -> is_u256 y -> is_u256 z ->
  word_result (if negb (y =? 0) then v ← big_Div x y; Ok (U256 v) else Ok 0) /\
  word_result (if (S256 y =? 0) || (S256 x =? 0) then Ok 0
    else res ← big_Div (Z.abs (S256 x)) (Z.abs (S256 y));
         Ok (if negb (Z.sgn (S256 x) =? Z.sgn (S256 y)) then U256 (- res) else U256 res)) /\
  word_result (if y =? 0 then Ok 0 else v ← big_Mod x y; Ok (U256 v)) /\
  word_result (if S256 y =? 0 then Ok 0
    else res ← big_Mod (Z.abs (S256 x)) (Z.abs (S256 y));
         Ok (if S256 x <? 0 then U256 (- res) else U256 res)) /\
  (forall a, word_result (if 0 <? z then v ← big_Mod a z; Ok (U256 v) else Ok 0)).
Proof.
  intros [Hx _] [Hy _] [Hz _].
  destruct (Z.eqb_spec y 0), (Z.eqb_spec (S256 y) 0), (Z.eqb_spec (S256 x) 0), (Z.ltb_spec 0 z); cbn [negb orb];
    rewrite ?big_Div_pos, ?big_Mod_pos, ?bind_Ok by lia; split_and!; intros;
    rewrite ?big_Mod_pos, ?bind_Ok by lia;
    (eexists; split; [reflexivity|]); repeat case_match; apply U256_range || done.
Qed.

Lemma unop_ok k f :
  push_size k = 0%nat -> (forall x, is_u256 x -> is_u256 (f x)) ->
  exec_ok k false false 1 1 None (unop f).
Proof.
  intros Hk Hf e s He Hd Hp Ho Ha _; unfold unop; top_words s as [|x l]; simpl.
  apply ret_st_ok; rewrite ?Est; simpl; auto; lia.
Qed.

(** ** Closure of the word operations *)

Create HintDb words.
#[export] Hint Resolve U256_range is_u256_bool is_u256_0 Z_land_u256 Z_lor_u256 Z_lxor_u256
  Exp_u256 mod_u256 : words.

(** Split the conditionals of a word operation and close each branch. *)
Ltac solve_word :=
  first
  [ solve [eauto with words]
  | repeat match goal with
    | |- is_u256 (if ?b then _ else _) => destruct b eqn:?
    | |- is_u256 1 => apply (is_u256_bool true)
    end; solve [eauto with words] ].

Lemma opByte_word th val :
  is_u256 th -> is_u256 val -> is_u256 (if th <? 32 then Byte val WordSize (Int64 th) else 0).
Proof.
  intros [Ht _] Hv; destruct (Z.ltb_spec th 32); [|auto with words].
  rewrite Int64_small by lia; apply Byte_u256; [done|lia].
Qed.
#[export] Hint Resolve opByte_word : words.

(** ** Pushing instructions *)

Lemma pushop_ok k f :
  push_size k = 0%nat ->
  (forall e s, env_ok e -> data_inv e s -> pc_ok e (pc s) ->
     match f e s with Ok v => is_u256 v | Err _ => True | Panic p => benign p end) ->
  exec_ok k false false 0 1 None (pushop f).
Proof.
  intros Hk Hf e s He Hd Hp Ho Ha _; unfold pushop; specialize (Hf e s He Hd Hp).
  destruct (f e s) as [v| |]; [|done|by left]; rewrite bind_Ok.
  pose proof (di_words e s Hd); apply ret_st_ok; simpl; auto; lia.
Qed.

Lemma code_start_bound code p : code_start code p -> (p <= length code + 32)%nat.
Proof. induction 1; [lia|]; pose proof (push_size_le code pc); lia. Qed.

Lemma pc_ok_range e v : env_ok e -> pc_ok e v -> 0 <= v < 2 ^ 62 + 32.
Proof.
  intros He [H0 H]; apply code_start_bound in H; pose proof (eo_code e He); unfold len in *; lia.
Qed.

Lemma len_i64 bs : len bs < 2 ^ 62 -> is_u256 (i64 (len bs)).
Proof. intros H; unfold len in *; rewrite i64_small by lia; apply is_u256_small; lia. Qed.

(** ** Instructions that read memory or the database *)

Lemma GetValue_words d k v : db_ok d -> GetValue d k = Ok v -> (length v <= 32)%nat.
Proof.
  intros [Hs Hc _ _]; unfold GetValue, db_GetValue, Unsaved_GetValue.
  destruct (storage (uns d) !! k) as [w|] eqn:E; simpl; [intros [= <-]; by eapply Hs|].
  case_bool_decide; simpl; [intros [= <-]; simpl; lia|].
  destruct (db_GetOriginalValue d k) eqn:Eo; simpl; intros Hq; simplify_eq; by eapply Hc.
Qed.

Lemma db_ok_with_uns d u :
  db_ok d -> balanceMap u = balanceMap (uns d) ->
  (forall k v, storage u !! k = Some v -> (length v <= 32)%nat) -> db_ok (with_uns d u).
Proof.
  intros [Hs Hc Hb Hp] Eb Hu; split; [exact Hu|exact Hc| |exact Hp].
  intros t b; unfold db_GetBalance; simpl; rewrite Eb; apply Hb.
Qed.

Lemma opBalance_ok : exec_ok BALANCE false false 1 1 None opBalance.
Proof.
  intros e s He Hd Hp Ho Ha _; unfold opBalance; top_words s as [|x l]; simpl.
  destruct (db_GetBalance (db s) (BigToTokenTypeId x).1) as [b| |] eqn:Eb; simpl; [|by left; left..].
  pose proof (do_balance _ (di_db e s Hd) _ _ Eb).
  apply ret_st_ok; rewrite ?Est; simpl; auto; lia.
Qed.

Lemma opSLoad_ok : exec_ok SLOAD false false 1 1 None opSLoad.
Proof.
  intros e s He Hd Hp Ho Ha _; unfold opSLoad; top_words s as [|x l]; simpl.
  destruct (GetValue (db s) (BigToHash x).1) as [v| |p] eqn:Ev; simpl; [|done|].
  - pose proof (SetBytes_u256 v (GetValue_words _ _ _ (di_db e s Hd) Ev)).
    apply ret_st_ok; rewrite ?Est; simpl; auto; lia.
  - revert Ev; unfold GetValue, DealWithErr; destruct (db_GetValue _ _); intros; simplify_eq; by left; left.
Qed.

Lemma hashop_ok k (H : env -> bytes -> bytes) :
  push_size k = 0%nat -> (forall e d, env_ok e -> length (H e d) = 32%nat) ->
  exec_ok k false false 2 1 (Some (mem_size_at 0 1)) (fun e s =>
    '(offset, st1) ← pop (st s); '(size, st2) ← pop st1;
    data ← mem_get (mem s) (Int64 offset) (Int64 size);
    ret_st s (push st2 (SetBytes (H e data)))).
Proof.
  intros Hk HH e s He Hd Hp Ho Ha Hm; top_words s as [|x [|y l]]; simpl.
  destruct (mem_get_ok (mem s) x y) as (d & -> & _); [apply Hd|done..|by apply (Hm _ _ eq_refl)|].
  rewrite bind_Ok; pose proof (SetBytes_u256 (H e d)); rewrite HH in * by done.
  apply ret_st_ok; rewrite ?Est; simpl; auto; lia.
Qed.

Lemma opCallDataLoad_ok : exec_ok CALLDATALOAD false false 1 1 None opCallDataLoad.
Proof.
  intros e s He Hd Hp Ho Ha _; unfold opCallDataLoad; top_words s as [|x l]; simpl.
  destruct (@GetDataBig_ok vm_err (c_data e) x 32) as (d & -> & Hl); [apply H|done|by apply eo_data|].
  rewrite bind_Ok; assert (is_u256 (SetBytes d)) by (apply SetBytes_u256; rewrite Hl; done).
  apply ret_st_ok; rewrite ?Est; simpl; auto; lia.
Qed.

(** Write to memory, then keep the rest of the stack. *)
Lemma ret_mem_ok e k a b s m v :
  data_inv e s -> mem_ok m -> Forall is_u256 v -> push_size k = 0%nat ->
  (length v + a = length (st s) + b)%nat ->
  exec_result e k false false a b s (ret_st (with_mem s m) v).
Proof. intros; apply ret_st_ok; simpl; auto; by apply data_inv_with_mem. Qed.

Lemma copyop_ok k src :
  push_size k = 0%nat -> (forall e, env_ok e -> len (src e) < 2 ^ 62) ->
  exec_ok k false false 3 0 (Some (mem_size_at 0 2)) (copyop src).
Proof.
  intros Hk Hsrc e s He Hd Hp Ho Ha Hm; unfold copyop; top_words s as [|x [|y [|z l]]]; simpl.
  assert (0 <= z < 2 ^ 63).
  { pose proof (Hm _ _ eq_refl eq_refl) as Hc; pose proof (mo_max _ (di_mem e s Hd)).
    unfold calcMemSize, is_u256 in *; destruct (Z.eqb_spec z 0); lia. }
  destruct (@GetDataBig_ok vm_err (src e) y z) as (d & -> & _); [apply H0|done|by apply Hsrc|]; rewrite bind_Ok.
  destruct (mem_set_ok (mem s) x z d) as (m & -> & Hm');
    [apply Hd|done..|by apply (Hm _ _ eq_refl)|]; rewrite bind_Ok.
  apply ret_mem_ok; rewrite ?Est; simpl; auto; lia.
Qed.

Lemma opReturnDataCopy_ok :
  exec_ok RETURNDATACOPY false false 3 0 (Some memoryReturnDataCopy) opReturnDataCopy.
Proof.
  intros e s He Hd Hp Ho Ha Hm; unfold opReturnDataCopy; top_words s as [|x [|y [|z l]]]; simpl.
  destruct (Z.ltb_spec 64 (BitLen (y + z))) as [|Hb]; [done|]; cbn [orb].
  destruct (Z.ltb_spec (len (returnData s)) (Uint64 (y + z))) as [|Hl]; [done|].
  assert (y + z < 2 ^ 64).
  { pose proof (BitLen_gt (y + z) 64 ltac:(lia)); unfold is_u256 in *; lia. }
  assert (0 <= y /\ 0 <= z) as [] by (unfold is_u256 in *; lia).
  rewrite !(Uint64_small y), !(Uint64_small (y + z)) by lia.
  rewrite (Uint64_small (y + z)) in Hl by lia; rewrite go_slice_ok, bind_Ok by lia.
  destruct (mem_set_ok (mem s) x z (subslice (returnData s) y (y + z))) as (m & -> & Hm');
    [apply Hd|done..|by apply (Hm _ _ eq_refl)|]; rewrite bind_Ok.
  apply ret_mem_ok; rewrite ?Est; simpl; auto; lia.
Qed.

Lemma opMload_ok : exec_ok MLOAD false false 1 1 (Some memoryMLoad) opMload.
Proof.
  intros e s He Hd Hp Ho Ha Hm; unfold opMload; top_words s as [|x l]; simpl.
  assert (Hx : calcMemSize x 32 <= mem_len (mem s)).
  { apply (Hm _ _ eq_refl); unfold memoryMLoad; rewrite Est || idtac; done. }
  change WordSize with (Int64 32).
  rewrite mem_get_spec; [|apply Hd|apply H|done|done]; rewrite bind_Ok; simpl.
  assert (is_u256 (SetBytes (subslice (store (mem s)) x (x + 32)))).
  { apply SetBytes_u256; unfold subslice; rewrite length_take; lia. }
  apply ret_st_ok; rewrite ?Est; simpl; auto; lia.
Qed.

Lemma opMstore_ok : exec_ok MSTORE false false 2 0 (Some memoryMStore) opMstore.
Proof.
  intros e s He Hd Hp Ho Ha Hm; unfold opMstore; top_words s as [|x [|y l]]; simpl.
  destruct (mem_set32_ok (mem s) x y) as (m & -> & Hm'); [apply Hd|done..|by apply (Hm _ _ eq_refl)|].
  rewrite bind_Ok; apply ret_mem_ok; rewrite ?Est; simpl; auto; lia.
Qed.

Lemma opMstore8_ok : exec_ok MSTORE8 false false 2 0 (Some memoryMStore8) opMstore8.
Proof.
  intros e s He Hd Hp Ho Ha Hm; unfold opMstore8; top_words s as [|x [|y l]]; simpl.
  destruct (mem_set_byte_ok (mem s) x (Z_byte (Z.land (Int64 y) 255))) as (m & -> & Hm');
    [apply Hd|done|by apply (Hm _ _ eq_refl)|].
  rewrite bind_Ok; apply ret_mem_ok; rewrite ?Est; simpl; auto; lia.
Qed.

Lemma SetValue_word d x v :
  is_u256 v ->
  SetValue d (BigToHash x).1 (Bytes v) =
    Ok (with_uns d (Unsaved_SetValue (uns d) (BigToHash x).1 (Bytes v))).
Proof.
  intros Hv; unfold SetValue, db_SetValue, len; rewrite BigToHash_length; done.
Qed.

Lemma opSStore_ok : exec_ok SSTORE false true 2 0 None opSStore.
Proof.
  intros e s He Hd Hp Ho Ha _; unfold opSStore; top_words s as [|x [|y l]]; simpl.
  rewrite SetValue_word, bind_Ok by done.
  assert (Hdb : db_ok (with_uns (db s) (Unsaved_SetValue (uns (db s)) (BigToHash x).1 (Bytes y)))).
  { apply db_ok_with_uns; [apply Hd|done|]; simpl; intros k v.
    rewrite lookup_insert; case_decide; [intros [= <-]; by apply length_Bytes_u256|].
    apply (do_stored _ (di_db e s Hd)). }
  destruct Hd; constructor; simpl; rewrite ?Est; simpl; auto; try done; try lia.
  change (push_size SSTORE) with 0%nat; lia.
Qed.

Lemma popn_ok n l :
  (n <= length l)%nat -> Forall is_u256 l ->
  exists xs l', pop_n n l = Ok (xs, l') /\ Forall is_u256 l' /\ (length l' + n = length l)%nat.
Proof.
  revert l; induction n as [|n IH]; intros l Hl Hw; [exists [], l; split_and!; [done..|lia]|].
  destruct l as [|x l]; simpl in *; [lia|]; inversion Hw as [|? ? ? Hw']; subst.
  destruct (IH l ltac:(lia) Hw') as (xs & l' & -> & ? & ?); exists (x :: xs), l'.
  split_and!; [done..|lia].
Qed.

Lemma makeLog_ok k n :
  push_size k = 0%nat -> exec_ok k false false (2 + n) 0 (Some memoryLog) (makeLog n).
Proof.
  intros Hk e s He Hd Hp Ho Ha Hm; unfold makeLog; top_words s as [|x [|y l]]; simpl.
  destruct (popn_ok n l) as (xs & l' & -> & Hw' & Hl'); [lia|done|]; rewrite bind_Ok.
  destruct (mem_get_ok (mem s) x y) as (d & -> & _); [apply Hd|done..|by apply (Hm _ _ eq_refl)|].
  rewrite bind_Ok; apply ret_st_ok; rewrite ?Est; simpl; auto; [|lia].
  destruct Hd; split; auto; by apply db_ok_with_uns; [| |apply (do_stored (db s))].
Qed.

Lemma makeOffchainLog_ok k n sz :
  push_size k = 0%nat -> exec_ok k false false (2 + n) 0 sz (makeOffchainLog n).
Proof.
  intros Hk e s He Hd Hp Ho Ha Hm; unfold makeOffchainLog; top_words s as [|x [|y l]]; simpl.
  destruct (popn_ok n l) as (xs & l' & -> & Hw' & Hl'); [lia|done|]; rewrite bind_Ok.
  apply ret_st_ok; rewrite ?Est; simpl; auto; lia.
Qed.

(** ** Program counter *)

Lemma getOp_code_op e v k :
  0 <= v -> getOp e v = k -> k <> 0 -> v < len (c_code e) /\ code_op (c_code e) (Z.to_nat v) = k.
Proof.
  unfold getOp, getByte, code_op, len; intros H0 <- Hk.
  destruct (Z.ltb_spec v (Z.of_nat (length (c_code e)))); [|done].
  split; [done|]; destruct (lookup_lt_is_Some_2 (c_code e) (Z.to_nat v)) as [b ->]; [lia|done].
Qed.

Lemma pc_ok_next e v k :
  pc_ok e v -> getOp e v = k -> k <> 0 -> pc_ok e (v + Z.of_nat (push_size k) + 1).
Proof.
  intros [H0 Hs] Hk Hn; destruct (getOp_code_op e v k H0 Hk Hn) as [Hl <-]; split; [lia|].
  replace (Z.to_nat _) with (S (Z.to_nat v) + push_size (code_op (c_code e) (Z.to_nat v)))%nat by lia.
  apply start_next; [done|]; unfold len in *; lia.
Qed.

Lemma jump_to_ok e k a s s1 pos :
  env_ok e -> data_inv e s1 -> is_u256 pos -> (length (st s1) + a = length (st s))%nat ->
  quotaLeft s1 = quotaLeft s -> db s1 = db s -> sendBlockList s1 = sendBlockList s ->
  exec_result e k true false a 0 s (jump_to e s1 pos).
Proof.
  intros He Hd [H0 _] Hl Hq Hdb Hsl; unfold jump_to; pose proof (eo_code e He).
  destruct (has_spec (jumpdests s1) (c_codeAddr e) (c_code e) pos) as (b & d & -> & Hc & Hb);
    [apply Hd|done..|]; rewrite bind_Ok; destruct b; [|done].
  destruct (proj1 Hb eq_refl) as (Hlt & _ & Hs); clear Hb.
  rewrite Uint64_small by lia; constructor; simpl; rewrite ?Hdb; auto; try done; try lia.
  - destruct Hd; split; done.
  - by apply sends_grow_same.
Qed.

Lemma opJump_ok : exec_ok JUMP true false 1 0 None opJump.
Proof.
  intros e s He Hd Hp Ho Ha _; unfold opJump; top_words s as [|x l]; simpl.
  apply jump_to_ok; rewrite ?Est; simpl; auto; [by apply data_inv_with_st|lia].
Qed.

Lemma opJumpi_ok : exec_ok JUMPI true false 2 0 None opJumpi.
Proof.
  intros e s He Hd Hp Ho Ha _; unfold opJumpi; top_words s as [|x [|y l]]; simpl.
  destruct (negb (y =? 0)).
  - apply jump_to_ok; rewrite ?Est; simpl; auto; [by apply data_inv_with_st|lia].
  - pose proof (pc_ok_range e _ He Hp); rewrite u64_small by (unfold is_u64; lia).
    constructor; simpl; rewrite ?Est; simpl; auto; try done; try lia; [by destruct Hd|].
    replace (pc s + 1) with (pc s + Z.of_nat (push_size JUMPI) + 1)
      by (change (push_size JUMPI) with 0%nat; lia).
    by apply pc_ok_next.
Qed.

Lemma makePush_ok k n :
  (n <= 32)%nat -> push_size k = n ->
  exec_ok k false false 0 1 None (makePush (Z.of_nat n) (Z.of_nat n)).
Proof.
  intros Hn Hk e s He Hd Hp Ho Ha _; pose proof (pc_ok_range e _ He Hp) as Hr.
  pose proof (eo_code e He); unfold makePush.
  rewrite (u64_small (pc s + 1)), i64_small by (unfold is_u64; lia).
  set (a := if len (c_code e) <? pc s + 1 then len (c_code e) else pc s + 1).
  set (b := if len (c_code e) <? a + Z.of_nat n then _ else _).
  assert (Ha' : 0 <= a <= len (c_code e)).
  { unfold a, len in *; destruct (Z.ltb_spec (Z.of_nat (length (c_code e))) (pc s + 1)); lia. }
  assert (Hb : a <= b <= len (c_code e) /\ b - a <= Z.of_nat n).
  { unfold b; destruct (Z.ltb_spec (len (c_code e)) (a + Z.of_nat n)); lia. }
  rewrite go_slice_ok, bind_Ok by lia.
  rewrite (u64_small (pc s + Z.of_nat n)) by (unfold is_u64; lia).
  constructor; simpl; rewrite ?Hk; auto; try done; try lia.
  destruct Hd as [W ? ? ? ?]; split; simpl; try done.
  constructor; [|exact W]; apply SetBytes_u256; unfold RightPadBytes, subslice, zero_bytes, len.
  destruct (Z.leb_spec (Z.of_nat n) (Z.of_nat (length (take (Z.to_nat (b - a)) (drop (Z.to_nat a) (c_code e))))));
    rewrite ?length_app, ?length_replicate; rewrite length_take in *; lia.
Qed.

(** ** Stack shuffling *)

Lemma opPop_ok : exec_ok POP false false 1 0 None opPop.
Proof.
  intros e s He Hd Hp Ho Ha _; unfold opPop; top_words s as [|x l]; simpl.
  apply ret_st_ok; rewrite ?Est; simpl; auto; lia.
Qed.

Lemma makeDup_ok k n :
  (0 < n)%nat -> push_size k = 0%nat -> exec_ok k false false n (n + 1) None (makeDup n).
Proof.
  intros Hn Hk e s He Hd Hp Ho Ha _; unfold makeDup, dup, back; destruct n as [|n]; [lia|].
  destruct (lookup_lt_is_Some_2 (st s) n) as [x Hx]; [lia|]; rewrite Hx; simpl.
  pose proof (di_words e s Hd) as W; pose proof (Forall_lookup_1 _ _ _ _ W Hx).
  apply ret_st_ok; simpl; auto; lia.
Qed.

Lemma makeSwap_ok k n :
  push_size k = 0%nat -> exec_ok k false false (n + 1) (n + 1) None (makeSwap n).
Proof.
  intros Hk e s He Hd Hp Ho Ha _; unfold makeSwap; replace (n + 1)%nat with (S n) in * by lia.
  unfold swap, back.
  destruct (lookup_lt_is_Some_2 (st s) 0) as [x Hx]; [lia|].
  destruct (lookup_lt_is_Some_2 (st s) n) as [y Hy]; [lia|]; rewrite Hx, Hy; simpl.
  pose proof (di_words e s Hd) as W.
  pose proof (Forall_lookup_1 _ _ _ _ W Hx); pose proof (Forall_lookup_1 _ _ _ _ W Hy).
  apply ret_st_ok; auto; [|by rewrite !length_insert].
  by apply Forall_insert; [apply Forall_insert|].
Qed.

(** ** Calls *)

Lemma mem_get_total m off sz :
  (exists d, mem_get m off sz = Ok d) \/ mem_get m off sz = Panic PSlice.
Proof.
  unfold mem_get, mem_slice; destruct (sz =? 0); [eauto|]; destruct (off <? mem_len m); [|eauto].
  destruct (_ || _); eauto.
Qed.

Lemma opCall_ok k sz : k = CALL \/ k = CALL2 -> exec_ok k false false 5 0 sz opCall.
Proof.
  intros Hk e s He Hd Hp Ho Ha Hm; unfold opCall; top_words s as [|x [|y [|z [|u [|v l]]]]]; simpl.
  destruct (mem_get_total (mem s) (Int64 u) (Int64 v)) as [[d ->]| ->]; simpl; [|by right].
  constructor; simpl; rewrite ?Est; simpl; auto; try done; try lia; [by destruct Hd| |].
  { eexists [_]; split; [done|]; constructor; [|constructor]; eexists _, z, _, d; done. }
  destruct Hk as [-> | ->]; change (push_size _) with 0%nat; lia.
Qed.

Lemma opCall2_ok sz : exec_ok CALL2 false false 5 1 sz opCall2.
Proof.
  intros e s He Hd Hp Ho Ha Hm.
  pose proof (opCall_ok CALL2 sz (or_intror eq_refl) e s He Hd Hp Ho Ha Hm) as H.
  assert (Hlast : forall s1 r, opCall e s = Ok (r, s1) -> exists b am, Amount b = Some am /\
    sendBlockList s1 !! (length (sendBlockList s1) - 1)%nat = Some b).
  { intros s1 r; unfold opCall; top_words s as [|x [|y [|z [|u [|v l]]]]]; simpl.
    destruct (mem_get _ _ _); simpl; intros E; simplify_eq/=.
    eexists _, z; split; [|rewrite length_app; simpl; rewrite Nat.add_sub;
      rewrite lookup_app_r, Nat.sub_diag by lia; done]; done. }
  unfold opCall2; destruct (opCall e s) as [[r s1]| |]; simpl; [|done..].
  destruct (Hlast s1 r eq_refl) as (b & am & Eam & ->); simpl; unfold ComputeSendHash.
  set (i := u8 _); set (x := PrevHash (c_block e) ++ _).
  assert (exists src, (hashSource (Hash256 e) b x : result bytes) = Ok src) as [src ->].
  { unfold hashSource; rewrite Eam; destruct (IsSendBlock _); simpl; eauto. }
  simpl; destruct H as [Hd' Hl Hq Hf Hb Hs Hr Hpc]; constructor; simpl; auto; try done; try lia.
  apply data_inv_with_st; [done|]; constructor; [|apply Hd'].
  unfold BytesToHash; apply SetBytes_u256; unfold len; rewrite eo_blake by done; simpl.
  rewrite eo_blake by done; lia.
Qed.

Lemma opOffchainCall_ok k sz :
  push_size k = 0%nat -> exec_ok k false false 5 0 sz opOffchainCall.
Proof.
  intros Hk e s He Hd Hp Ho Ha Hm; unfold opOffchainCall.
  destruct (popn_ok 5 (st s)) as (xs & l' & -> & Hw' & Hl'); [done|apply Hd|].
  rewrite bind_Ok; apply ret_st_ok; simpl; auto; lia.
Qed.

Lemma opOffchainCall2_ok sz : exec_ok CALL2 false false 5 1 sz opOffchainCall2.
Proof.
  intros e s He Hd Hp Ho Ha Hm; unfold opOffchainCall2, opOffchainCall.
  destruct (popn_ok 5 (st s)) as (xs & l' & -> & Hw' & Hl'); [done|apply Hd|].
  rewrite bind_Ok; simpl; apply ret_st_ok; simpl; auto with words; [by apply data_inv_with_st|lia].
Qed.

(** ** Halting and empty instructions *)

Lemma opReturn_ok k :
  push_size k = 0%nat -> exec_ok k false false 2 0 (Some (mem_size_at 0 1)) opReturn.
Proof.
  intros Hk e s He Hd Hp Ho Ha Hm; unfold opReturn; top_words s as [|x [|y l]]; simpl.
  change mem_getPtr with mem_get.
  destruct (mem_get_ok (mem s) x y) as (d & -> & Hlen);
    [apply Hd|done..|by apply (Hm _ _ eq_refl)|]; simpl.
  constructor; simpl; rewrite ?Est, ?Hk; simpl; auto; try done; try lia; by destruct Hd.
Qed.

Lemma opOffchainRevert_ok k sz :
  push_size k = 0%nat -> exec_ok k false false 2 0 sz opOffchainRevert.
Proof.
  intros Hk e s He Hd Hp Ho Ha Hm; unfold opOffchainRevert; top_words s as [|x [|y l]]; simpl.
  apply ret_st_ok; rewrite ?Est; simpl; auto; lia.
Qed.

Lemma skip_ok k : push_size k = 0%nat -> exec_ok k false false 0 0 None (fun _ s => Ok ([], s)).
Proof. intros Hk e s He Hd Hp Ho Ha _; constructor; rewrite ?Hk; simpl; auto; try done; lia. Qed.
