(* ===== verification/InstructionSpec.v ===== *)
(** What the instructions compute, against the arithmetic and the data
    structures they are meant to implement. *)
From S2P Require Import Prelude Helper Types Upgrade QuotaTable VmDb Builtin Opcodes.
From S2P Require Import Destination Machine Instructions GasTable JumpTable Interpreter.
From S2P Require Import World InstructionSafety.

(** An instruction that replaces the words [args] on top by [res]. *)
Definition computes (f : executionFunc) (args res : list Z) : Prop :=
  forall e s l, st s = args ++ l -> f e s = Ok ([], with_st s (res ++ l)).

Lemma binop_computes f x y : computes (binop f) [x; y] [f x y].
Proof. intros e s l E; unfold binop, binopM; rewrite E; done. Qed.
Lemma unop_computes f x : computes (unop f) [x] [f x].
Proof. intros e s l E; unfold unop; rewrite E; done. Qed.

(** Reduce a computation to an equation between words. *)
Lemma binop_to f x y r : f x y = r -> computes (binop f) [x; y] [r].
Proof. intros <-; apply binop_computes. Qed.
Lemma unop_to f x r : f x = r -> computes (unop f) [x] [r].
Proof. intros <-; apply unop_computes. Qed.
Lemma binopM_to f x y r : f x y = Ok r -> computes (binopM f) [x; y] [r].
Proof. intros E e s l Es; unfold binopM; rewrite Es; simpl; by rewrite E. Qed.
Lemma ternopM_to f x y z r : f x y z = Ok r -> computes (ternopM f) [x; y; z] [r].
Proof. intros E e s l Es; unfold ternopM; rewrite Es; simpl; by rewrite E. Qed.

Lemma div_u256 x y : is_u256 x -> 0 < y -> is_u256 (x / y).
Proof.
  intros [H0 H1] Hy; split; [by apply Z.div_pos|].
  apply Z.le_lt_trans with x; [by apply Z.div_le_upper_bound; nia|done].
Qed.

(** C39 The unsigned instructions compute modulo 2^256: sums, products,
    differences, powers, quotients and remainders, with 0 for a division by
    zero, and ADDMOD and MULMOD without losing the carry. *)
Theorem unsigned_arithmetic x y z :
  is_u256 x -> is_u256 y -> is_u256 z ->
  computes opAdd [x; y] [(x + y) mod 2 ^ 256] /\
  computes opMul [x; y] [(x * y) mod 2 ^ 256] /\
  computes opSub [x; y] [(x - y) mod 2 ^ 256] /\
  computes opDiv [x; y] [if decide (y = 0) then 0 else x / y] /\
  computes opMod [x; y] [if decide (y = 0) then 0 else x mod y] /\
  computes opExp [x; y] [(x ^ y) mod 2 ^ 256] /\
  computes opAddmod [x; y; z] [if decide (z = 0) then 0 else (x + y) mod z] /\
  computes opMulmod [x; y; z] [if decide (z = 0) then 0 else (x * y) mod z].
Proof.
  intros Hx Hy Hz; assert (Hmod : forall a b, is_u256 b -> 0 < b -> is_u256 (a mod b)).
  { intros a b [_ Hb] H0; pose proof (Z.mod_pos_bound a b H0); split; [lia|].
    eapply Z.lt_trans; [apply Z.mod_pos_bound|]; done. }
  destruct Hy as [Hy0 Hy1] eqn:E1; clear E1; destruct Hz as [Hz0 Hz1] eqn:E2; clear E2.
  split_and!; try (apply binop_to; by rewrite U256_mod).
  - apply binopM_to; case_decide as Hd; [by subst|].
    destruct (Z.eqb_spec y 0); [done|]; simpl; rewrite big_Div_pos, bind_Ok, U256_small by
      (try apply div_u256; done || lia); done.
  - apply binopM_to; case_decide as Hd; [by subst|]; destruct (Z.eqb_spec y 0); [done|].
    rewrite big_Mod_pos, bind_Ok, U256_small by (try apply Hmod; done || lia); done.
  - apply binop_to, Exp_spec; done.
  - apply ternopM_to; case_decide as Hd; [by subst|]; destruct (Z.ltb_spec 0 z); [|lia].
    rewrite big_Mod_pos, bind_Ok, U256_small by (try apply Hmod; done || lia); done.
  - apply ternopM_to; case_decide as Hd; [by subst|]; destruct (Z.ltb_spec 0 z); [|lia].
    rewrite big_Mod_pos, bind_Ok, U256_small by (try apply Hmod; done || lia); done.
Qed.

Lemma unsigned_arithmetic_witness : computes opSub [3; 5] [(3 - 5) mod 2 ^ 256].
Proof.
  apply (unsigned_arithmetic 3 5 7); vm_compute; split; congruence.
Defined.

(** ** Comparison, bits, shifts *)

Lemma Z_lnot_U256 x : is_u256 x -> U256 (Z.lnot x) = 2 ^ 256 - 1 - x.
Proof.
  intros Hx; rewrite U256_mod; unfold Z.lnot; symmetry.
  apply Z.mod_unique_pos with (q := -1); destruct Hx; lia.
Qed.

Lemma shift_spec v sh :
  is_u256 v -> is_u256 sh ->
  (if 256 <=? U256 sh then 0 else U256 (Z.shiftl (U256 v) (Uint64 (U256 sh)))) =
    (v * 2 ^ sh) mod 2 ^ 256 /\
  (if 256 <=? U256 sh then 0 else U256 (Z.shiftr (U256 v) (Uint64 (U256 sh)))) = v / 2 ^ sh.
Proof.
  intros Hv Hs; rewrite (U256_small v), (U256_small sh) by done; destruct Hs as [H0 _]; destruct (Z.leb_spec 256 sh).
  - split; symmetry.
    + replace sh with (sh - 256 + 256) by lia; rewrite Z.pow_add_r, Z.mul_assoc by lia.
      by apply Z.mod_mul.
    + apply Z.div_small; destruct Hv; split; [done|].
      eapply Z.lt_le_trans; [done|]; apply Z.pow_le_mono_r; lia.
  - rewrite Uint64_small, Z.shiftl_mul_pow2, Z.shiftr_div_pow2 by lia.
    split; [apply U256_mod|]; apply U256_small, div_u256; [done|]; apply Z.pow_pos_nonneg; lia.
Qed.

(** Comparisons give 1 or 0, the bit operations act on 256-bit words, BYTE
    selects from the most significant byte, and the shifts multiply and divide
    by powers of two for shift counts of any size. *)
Theorem word_operations x y :
  is_u256 x -> is_u256 y ->
  computes opLt [x; y] [bool_word (x <? y)] /\
  computes opGt [x; y] [bool_word (y <? x)] /\
  computes opEq [x; y] [bool_word (x =? y)] /\
  computes opIszero [x] [bool_word (x =? 0)] /\
  computes opAnd [x; y] [Z.land x y] /\
  computes opOr [x; y] [Z.lor x y] /\
  computes opXor [x; y] [Z.lxor x y] /\
  computes opNot [x] [2 ^ 256 - 1 - x] /\
  computes opByte [x; y] [if decide (x < 32) then (y / 256 ^ (31 - x)) mod 256 else 0] /\
  computes opSHL [x; y] [(y * 2 ^ x) mod 2 ^ 256] /\
  computes opSHR [x; y] [y / 2 ^ x].
Proof.
  intros Hx Hy; split_and!; try apply binop_computes.
  - apply unop_to; destruct Hx; destruct (Z.ltb_spec 0 x), (Z.eqb_spec x 0); done || lia.
  - by apply unop_to, Z_lnot_U256.
  - apply binop_to; destruct Hx, Hy; case_decide; destruct (Z.ltb_spec x 32); try lia.
    rewrite Int64_small, Byte_spec by lia; done.
  - by apply binop_to, shift_spec.
  - by apply binop_to, shift_spec.
Qed.

Lemma word_operations_witness : computes opSHL [300; 5] [(5 * 2 ^ 300) mod 2 ^ 256].
Proof. apply (word_operations 300 5); vm_compute; split; congruence. Defined.

(** ** Signed instructions *)

Lemma S256_zero x : is_u256 x -> S256 x = 0 <-> x = 0.
Proof. unfold is_u256, S256, Tt255, Tt256; intros; destruct (Z.ltb_spec x (2 ^ 255)); lia. Qed.

Lemma lor_sign num bit :
  0 <= bit -> Z.lor num (Z.lnot (Z.shiftl 1 bit - 1)) = num mod 2 ^ bit - 2 ^ bit.
Proof.
  intros Hb; replace (Z.shiftl 1 bit - 1) with (Z.ones bit) by (unfold Z.ones; lia).
  rewrite <- (Z.lnot_involutive num) at 1; rewrite <- Z.lnot_land, Z.land_ones by done.
  set (P := 2 ^ bit); assert (0 < P) by (apply Z.pow_pos_nonneg; lia).
  pose proof (Z.div_mod num P ltac:(lia)); pose proof (Z.mod_pos_bound num P ltac:(lia)).
  assert (E : Z.lnot num mod P = P - 1 - num mod P).
  { symmetry; apply Z.mod_unique_pos with (q := - (num / P) - 1); unfold Z.lnot; lia. }
  rewrite E; unfold Z.lnot; lia.
Qed.

(** The low [8 * (k + 1)] bits of [num] as a signed number. *)
Definition sign_extended (k num : Z) : Z :=
  let w := 2 ^ (8 * (k + 1)) in
  let v := num mod w in
  if v <? w / 2 then v else v - w.

Lemma signextend_spec k num :
  0 <= k ->
  (if Z.testbit num (k * 8 + 7) then U256 (Z.lor num (Z.lnot (Z.shiftl 1 (k * 8 + 7) - 1)))
   else U256 (Z.land num (Z.shiftl 1 (k * 8 + 7) - 1))) = U256 (sign_extended k num).
Proof.
  intros Hk; set (bit := k * 8 + 7); unfold sign_extended.
  replace (8 * (k + 1)) with (bit + 1) by lia.
  set (P := 2 ^ bit); assert (HP : 2 ^ (bit + 1) = P * 2) by (rewrite Z.pow_add_r; [done|lia..]).
  assert (0 < P) by (apply Z.pow_pos_nonneg; lia).
  rewrite HP, Z.div_mul, Z.rem_mul_r by lia.
  pose proof (Z.mod_pos_bound num P ltac:(lia)).
  assert (Hbit : Z.testbit num bit = ((num / P) mod 2 =? 1)).
  { rewrite Z.testbit_odd, Z.shiftr_div_pow2 by lia; fold P.
    rewrite Zmod_odd; by destruct (Z.odd (num / P)). }
  rewrite Hbit; pose proof (Z.mod_pos_bound (num / P) 2 ltac:(lia)).
  destruct (Z.eqb_spec ((num / P) mod 2) 1) as [E|E].
  - rewrite lor_sign by lia; fold P; rewrite E.
    destruct (Z.ltb_spec (num mod P + P * 1) P); [lia|]; f_equal; lia.
  - replace ((num / P) mod 2) with 0 by lia; rewrite Z.mul_0_r, Z.add_0_r.
    destruct (Z.ltb_spec (num mod P) P); [|lia].
    replace (Z.shiftl 1 bit - 1) with (Z.ones bit) by (unfold Z.ones; lia).
    rewrite Z.land_ones by lia; done.
Qed.

Lemma slt_spec x y :
  is_u256 x -> is_u256 y ->
  (if (Tt255 <=? x) && (y <? Tt255) then 1
   else if (x <? Tt255) && (Tt255 <=? y) then 0 else bool_word (x <? y)) =
  bool_word (S256 x <? S256 y).
Proof.
  unfold is_u256, S256, Tt255, Tt256; intros Hx Hy.
  destruct (Z.ltb_spec x (2 ^ 255)), (Z.ltb_spec y (2 ^ 255)), (Z.leb_spec (2 ^ 255) x),
    (Z.leb_spec (2 ^ 255) y); try lia; cbn [andb].
  all: repeat match goal with |- context [?a <? ?b] => destruct (Z.ltb_spec a b) end; done || lia.
Qed.

(** C40 The signed instructions read words in two's complement: SDIV and SMOD
    truncate towards zero, with 0 for a division by zero, SLT and SGT compare
    signed values, SIGNEXTEND extends the sign of the chosen byte, and SAR is
    the shift with sign, except that it is not for the value 0 shifted by 256 or
    more. *)
Theorem signed_arithmetic x y :
  is_u256 x -> is_u256 y ->
  computes opSdiv [x; y] [if decide (y = 0) then 0 else U256 (Z.quot (S256 x) (S256 y))] /\
  computes opSmod [x; y] [if decide (y = 0) then 0 else U256 (Z.rem (S256 x) (S256 y))] /\
  computes opSlt [x; y] [bool_word (S256 x <? S256 y)] /\
  computes opSgt [x; y] [bool_word (S256 y <? S256 x)] /\
  computes opSignExtend [x; y] [if decide (x < 31) then U256 (sign_extended x y) else y] /\
  (x < 256 \/ y <> 0 -> computes opSAR [x; y] [U256 (S256 y / 2 ^ x)]).
Proof.
  intros Hx Hy; pose proof (S256_zero x Hx) as Zx; pose proof (S256_zero y Hy) as Zy.
  pose proof (S256_range y Hy) as Ry; split_and!.
  - apply binopM_to; cbv beta zeta; case_decide as Hd.
    { destruct (Z.eqb_spec (S256 y) 0); [done|tauto]. }
    destruct (Z.eqb_spec (S256 y) 0); [tauto|]; cbn [orb].
    rewrite Z.quot_div by done; destruct (Z.eqb_spec (S256 x) 0) as [->|]; [done|].
    rewrite big_Div_pos, bind_Ok by lia; f_equal.
    destruct (Z.sgn_spec (S256 x)) as [[? ->]|[[? ->]|[? ->]]], (Z.sgn_spec (S256 y)) as [[? ->]|[[? ->]|[? ->]]];
      simpl Z.eqb; cbn [negb]; lia || (f_equal; lia).
  - apply binopM_to; cbv beta zeta; case_decide as Hd.
    { destruct (Z.eqb_spec (S256 y) 0); [done|tauto]. }
    destruct (Z.eqb_spec (S256 y) 0); [tauto|].
    rewrite Z.rem_mod, big_Mod_pos, bind_Ok by lia; f_equal.
    destruct (Z.ltb_spec (S256 x) 0), (Z.sgn_spec (S256 x)) as [[? ->]|[[E ->]|[? ->]]]; try lia;
      f_equal; try lia.
    replace (Z.abs (S256 x)) with 0 by lia; rewrite Z.mod_0_l; lia.
  - by apply binop_to, slt_spec.
  - apply binop_to; rewrite <- slt_spec by done.
    destruct (Z.leb_spec Tt255 x), (Z.ltb_spec x Tt255), (Z.leb_spec Tt255 y), (Z.ltb_spec y Tt255);
      done || lia.
  - apply binop_to; cbv beta zeta; destruct Hx; case_decide; destruct (Z.ltb_spec x 31); try lia.
    rewrite Uint64_small by lia; by apply signextend_spec.
  - intros Hc; apply binop_to; cbv beta zeta; rewrite (U256_small x) by done; destruct Hx as [H0 H1].
    destruct (Z.leb_spec 256 x).
    + assert (Hb : 2 ^ 256 <= 2 ^ x) by (apply Z.pow_le_mono_r; lia).
      destruct (Z.ltb_spec 0 (S256 y)); f_equal.
      * rewrite Z.div_small; [done|split; [lia|]]; eapply Z.lt_le_trans; [apply Ry|].
        eapply Z.le_trans; [|exact Hb]; done.
      * assert (S256 y < 0) by (destruct Hc; [lia|]; lia).
        apply Z.div_unique with (r := S256 y + 2 ^ x); [left|lia].
        split; [|lia]; assert (- 2 ^ 255 + 2 ^ 256 >= 0) by done; lia.
    + rewrite Uint64_small, Z.shiftr_div_pow2 by lia; done.
Qed.

Lemma signed_arithmetic_witness :
  computes opSAR [4; 2 ^ 256 - 32] [U256 (S256 (2 ^ 256 - 32) / 2 ^ 4)].
Proof.
  apply (signed_arithmetic 4 (2 ^ 256 - 32)); [vm_compute; split; congruence..|left; reflexivity].
Defined.

(** Shifting the value 0 right with sign by 256 or more gives the word with
    all bits set instead of 0. *)
Theorem sar_zero_by_256 : computes opSAR [256; 0] [2 ^ 256 - 1].
Proof. apply binop_to; vm_compute; reflexivity. Qed.

(** ** Memory and storage *)

Lemma write_at_lookup s lo v (i : nat) :
  0 <= lo -> lo + len v <= len s ->
  Z.of_nat i < lo \/ lo + len v <= Z.of_nat i -> write_at s lo v !! i = s !! i.
Proof.
  unfold write_at, len; intros H0 H1 [H|H].
  - rewrite lookup_app_l by (rewrite length_take; lia); apply lookup_take_lt; lia.
  - rewrite lookup_app_r, lookup_app_r by (rewrite length_take; lia).
    rewrite length_take, lookup_drop; f_equal; lia.
Qed.

Lemma write_at_subslice s lo v :
  0 <= lo -> lo + len v <= len s -> subslice (write_at s lo v) lo (lo + len v) = v.
Proof.
  unfold write_at, subslice, len; intros H0 H1.
  rewrite drop_app_length' by (rewrite length_take; lia).
  replace (Z.to_nat (lo + Z.of_nat (length v) - lo)) with (length v) by lia.
  apply take_app_length.
Qed.

Lemma mem_len_with_store m s : length s = length (store m) -> mem_len (with_store m s) = mem_len m.
Proof. unfold mem_len, len; simpl; by intros ->. Qed.

(** MSTORE followed by MLOAD at the same offset gives back the word, and
    MSTORE changes no other byte and not the size of the memory. *)
Theorem mstore_mload e s off v l :
  mem_ok (mem s) -> is_u256 off -> is_u256 v -> off + 32 <= mem_len (mem s) -> st s = off :: v :: l ->
  exists m, opMstore e s = Ok ([], with_st (with_mem s m) l) /\ mem_len m = mem_len (mem s) /\
    (forall s' l', mem s' = m -> st s' = off :: l' -> opMload e s' = Ok ([], with_st s' (v :: l'))) /\
    (forall i : nat, Z.of_nat i < off \/ off + 32 <= Z.of_nat i -> store m !! i = store (mem s) !! i).
Proof.
  intros Hm Ho Hv Hl Hst; pose proof (length_ReadBits32 v Hv) as H32.
  set (w := ReadBits v (zero_bytes 32)) in *.
  assert (Hw : len w = 32) by (unfold len; lia).
  assert (Hlen : length (write_at (store (mem s)) off w) = length (store (mem s))).
  { apply length_write_at; [apply Ho|unfold mem_len in *; lia]. }
  exists (with_store (mem s) (write_at (store (mem s)) off w)); split_and!.
  - unfold opMstore; rewrite Hst; simpl; rewrite mem_set32_spec by (done || apply Ho); done.
  - by apply mem_len_with_store.
  - intros s' l' Hms' Hs'; unfold opMload; rewrite Hs'; simpl; change WordSize with (Int64 32).
    rewrite Hms', mem_get_spec; [|by apply mem_ok_with_store|apply Ho|done|]; simpl.
    + replace (off + 32) with (off + len w) by lia.
      rewrite write_at_subslice by (unfold mem_len in *; try apply Ho; lia).
      unfold w; rewrite ReadBits_spec by apply Hv.
      rewrite SetBytes_be_bytes; change (256 ^ Z.of_nat 32) with (2 ^ 256).
      by rewrite Z.mod_small by exact Hv.
    + rewrite mem_len_with_store by done; done.
  - intros i Hi; simpl; apply write_at_lookup; [apply Ho|unfold mem_len in *; lia|lia].
Qed.

(** A state with 32 bytes of memory and two words on the stack. *)
Definition example_state : mstate :=
  with_mem (with_st (newContract 0 example_db []) [0; 7]) (mkMemory (zero_bytes 32) 32 0).

Lemma mstore_mload_witness :
  exists m, opMstore (example_env []) example_state =
      Ok ([], with_st (with_mem example_state m) []) /\ mem_len m = mem_len (mem example_state) /\
    (forall s' l', mem s' = m -> st s' = 0 :: l' ->
       opMload (example_env []) s' = Ok ([], with_st s' (7 :: l'))) /\
    (forall i : nat, Z.of_nat i < 0 \/ 0 + 32 <= Z.of_nat i ->
       store m !! i = store (mem example_state) !! i).
Proof.
  apply (mstore_mload (example_env []) example_state 0 7 []); try reflexivity;
    try (vm_compute; split; congruence); try (vm_compute; congruence).
  split; [vm_compute; congruence..|exists 1; reflexivity].
Defined.

(** SSTORE followed by SLOAD of the same location gives back the word, and
    every other location reads as before. *)
Theorem sstore_sload e s loc v l :
  is_u256 loc -> is_u256 v -> st s = loc :: v :: l ->
  exists d, opSStore e s = Ok ([], with_st (with_db s d) l) /\
    (forall s' l', db s' = d -> st s' = loc :: l' -> opSLoad e s' = Ok ([], with_st s' (v :: l'))) /\
    (forall loc', is_u256 loc' -> loc' <> loc ->
       GetValue d (BigToHash loc').1 = GetValue (db s) (BigToHash loc').1).
Proof.
  intros Hl Hv Hst; pose proof (SetValue_word (db s) loc v Hv) as E.
  eexists; split; [unfold opSStore; rewrite Hst; simpl; rewrite E; reflexivity|]; split.
  - intros s' l' Hd Hs'; unfold opSLoad; rewrite Hs'; simpl; rewrite Hd.
    rewrite (GetValue_SetValue _ _ _ _ _ E), decide_True by done; simpl.
    by rewrite SetBytes_Bytes by apply Hv.
  - intros loc' Hl' Hne; rewrite (GetValue_SetValue _ _ _ _ _ E), decide_False; [done|].
    intros Heq; by apply BigToHash_inj in Heq.
Qed.

Lemma sstore_sload_witness :
  exists d, opSStore (example_env []) example_state = Ok ([], with_st (with_db example_state d) []) /\
    (forall s' l', db s' = d -> st s' = 0 :: l' ->
       opSLoad (example_env []) s' = Ok ([], with_st s' (7 :: l'))) /\
    (forall loc', is_u256 loc' -> loc' <> 0 ->
       GetValue d (BigToHash loc').1 = GetValue (db example_state) (BigToHash loc').1).
Proof.
  apply (sstore_sload (example_env []) example_state 0 7 []); try reflexivity;
    vm_compute; split; congruence.
Defined.

(** ** Immediate data and stack shuffling *)

(** PUSHn puts the next n bytes of the code on the stack, read as a
    big-endian number, with zeros for the bytes behind the end of the code, and
    moves the program counter over them; DUPn copies the n-th word to the top
    and SWAPn exchanges the top with the word n below it, leaving the others. *)
Theorem push_dup_swap e s (n : nat) :
  (1 <= n <= 32)%nat -> 0 <= pc s < len (c_code e) -> len (c_code e) < 2 ^ 62 ->
  makePush (Z.of_nat n) (Z.of_nat n) e s =
    Ok ([], with_pc (with_st s (SetBytes (RightPadBytes (take n (drop (Z.to_nat (pc s + 1)) (c_code e)))
                                                        (Z.of_nat n)) :: st s))
                    (pc s + Z.of_nat n)) /\
  (forall x, st s !! (n - 1)%nat = Some x -> makeDup n e s = Ok ([], with_st s (x :: st s))) /\
  (forall x y l1 l2, st s = x :: l1 ++ y :: l2 -> length l1 = (n - 1)%nat ->
     makeSwap n e s = Ok ([], with_st s (y :: l1 ++ x :: l2))).
Proof.
  intros Hn Hp Hc; split_and!.
  - unfold makePush; rewrite !u64_small, i64_small by (unfold is_u64; lia).
    destruct (Z.ltb_spec (len (c_code e)) (pc s + 1)); [lia|].
    rewrite go_slice_ok, bind_Ok by (destruct (Z.ltb_spec (len (c_code e)) (pc s + 1 + Z.of_nat n)); lia).
    assert (E : subslice (c_code e) (pc s + 1)
                  (if len (c_code e) <? pc s + 1 + Z.of_nat n then len (c_code e)
                   else pc s + 1 + Z.of_nat n) = take n (drop (Z.to_nat (pc s + 1)) (c_code e))).
    { unfold subslice; destruct (Z.ltb_spec (len (c_code e)) (pc s + 1 + Z.of_nat n)).
      - unfold len in *; rewrite !take_ge by (rewrite length_drop; lia); done.
      - f_equal; lia. }
    by rewrite E.
  - intros x Hx; unfold makeDup, dup, back; destruct n as [|m]; [lia|].
    replace (S m - 1)%nat with m in Hx by lia; rewrite Hx; done.
  - intros x y l1 l2 E Hl; unfold makeSwap; replace (n + 1)%nat with (S n) by lia; unfold swap, back.
    rewrite E; destruct n as [|m]; [lia|]; simpl; replace m with (length l1) by lia.
    rewrite lookup_app_r, Nat.sub_diag by lia; simpl.
    rewrite insert_app_r_alt, Nat.sub_diag by lia; done.
Qed.

Lemma push_dup_swap_witness :
  makePush (Z.of_nat 1) (Z.of_nat 1) (example_env [x60; x07]) (newContract 0 example_db []) =
    Ok ([], with_pc (with_st (newContract 0 example_db [])
      (SetBytes (RightPadBytes (take 1 (drop (Z.to_nat (0 + 1)) [x60; x07])) (Z.of_nat 1)) :: [])) (0 + 1)).
Proof.
  apply (push_dup_swap (example_env [x60; x07]) (newContract 0 example_db []) 1);
    [lia|vm_compute; split; congruence|reflexivity].
Defined.
