(* ===== verification/GasSafety.v ===== *)
(** Every gas function of gas_table.go returns a 64-bit cost, changes nothing
    but the gas bookkeeping, and lets an instruction that asks for memory pass
    only below 2^40 bytes. *)
From S2P Require Import Prelude Helper Types Upgrade QuotaTable VmDb Builtin Opcodes.
From S2P Require Import Destination Machine Instructions GasTable InstructionSafety.

(** The state after pricing: only the memory's last cost and the set of
    modified locations may differ. *)
Definition gas_same (s s' : mstate) : Prop :=
  exists c m, s' = with_storageModified (with_mem s (with_lastGasCost (mem s) c)) m.

(** The result of pricing opcode [k], which pops [a] and pushes [b] words;
    [needs] tells whether it asks for memory.  Outside SSTORE and STOP the
    price is charged, and it is positive or the stack shrinks. *)
Definition gas_result (k : Z) (needs : bool) (a b : nat) (sz : Z) (s : mstate)
    (r : result (Z * bool * mstate)) : Prop :=
  match r with
  | Ok (c, flag, s') =>
      is_u64 c /\ gas_same s s' /\ (needs = true -> sz <= 2 ^ 40) /\
      (k = SSTORE \/ k = STOP \/ (flag = true /\ (0 < c \/ (b < a)%nat)))
  | Err _ => True
  | Panic p => allowed k p
  end.

Definition gas_ok (k : Z) (needs : bool) (a b : nat) (f : gasFunc) : Prop :=
  forall e s sz, env_ok e -> data_inv e s -> (a <= length (st s))%nat -> is_u64 sz ->
    gas_result k needs a b sz s (f e s sz).

(** ** Checked sums *)

Lemma no_overflow_SafeAdd x y :
  is_u64 x -> is_u64 y ->
  match no_overflow (SafeAdd x y) with Ok z => is_u64 z /\ z = x + y | Err _ => True | Panic _ => False end.
Proof.
  intros Hx Hy; rewrite SafeAdd_spec by done; unfold no_overflow.
  destruct (Z.leb_spec (x + y) MaxUint64); simpl; [|done].
  unfold is_u64, MaxUint64 in *; lia.
Qed.

Lemma no_overflow_SafeMul x y :
  is_u64 x -> is_u64 y ->
  match no_overflow (SafeMul x y) with Ok z => is_u64 z /\ z = x * y | Err _ => True | Panic _ => False end.
Proof.
  intros Hx Hy; destruct (SafeMul_spec x y Hx Hy) as [Ho Hv]; unfold no_overflow.
  destruct (SafeMul x y) as [z o]; simpl in *; destruct o; [done|].
  rewrite Hv by done; unfold is_u64 in *; nia.
Qed.

Lemma no_overflow_BigUint64 v :
  match no_overflow (BigUint64 v) with Ok z => is_u64 z | Err _ => True | Panic _ => False end.
Proof. unfold no_overflow; pose proof (BigUint64_range v); by destruct (BigUint64 v) as [z []]. Qed.

Lemma table_u64 e f : env_ok e -> is_u64 (gasTable e f).
Proof. intros He; pose proof (tok_range _ (eo_table e He) f); unfold is_u64; lia. Qed.

Lemma table_pos e f : env_ok e -> f ∈ op_fields -> 0 < gasTable e f.
Proof. intros He Hf; pose proof (tok_pos _ (eo_table e He) f Hf); lia. Qed.

(** Decide membership in the list of positive fields. *)
Ltac in_fields := repeat first [apply list_elem_of_here | apply list_elem_of_further].

(** ** Memory *)

Lemma memoryGasCost_ok e m sz :
  env_ok e -> is_u64 sz ->
  match memoryGasCost e m sz with
  | Ok (c, _, m') => is_u64 c /\ (exists l, m' = with_lastGasCost m l) /\ sz <= 2 ^ 40
  | Err _ => True
  | Panic _ => False
  end.
Proof.
  intros He Hs; pose proof (table_pos e MemQuotaDivision He ltac:(in_fields)).
  assert (Hid : exists l, m = with_lastGasCost m l) by (exists (lastGasCost m); by destruct m).
  unfold memoryGasCost; destruct (Z.eqb_spec sz 0); [unfold is_u64; split_and!; [lia..|done|lia]|].
  destruct (Z.ltb_spec 0xffffffffe0 sz); [done|].
  destruct (mem_len m <? _); [|unfold is_u64; split_and!; [lia..|done|lia]].
  destruct (Z.eqb_spec (gasTable e MemQuotaDivision) 0); [lia|].
  split_and!; [apply u64_range..|by eexists|lia].
Qed.

Lemma gas_same_mem s l : gas_same s (with_mem s (with_lastGasCost (mem s) l)).
Proof. exists l, (storageModified s); by destruct s. Qed.

Lemma gas_same_refl s : gas_same s s.
Proof. exists (lastGasCost (mem s)), (storageModified s); by destruct s as [? ? [] ? ? ? ? ? ? ?]. Qed.

Lemma mem_gas_ok e s sz :
  env_ok e -> is_u64 sz ->
  match mem_gas e s sz with
  | Ok (c, s') => is_u64 c /\ gas_same s s' /\ sz <= 2 ^ 40 /\ st s' = st s /\ db s' = db s
  | Err _ => True
  | Panic _ => False
  end.
Proof.
  intros He Hs; unfold mem_gas; pose proof (memoryGasCost_ok e (mem s) sz He Hs) as H.
  destruct (memoryGasCost e (mem s) sz) as [[[c f] m]| |]; simpl; [|done..].
  destruct H as (Hc & [l ->] & Hl); split; [done|]; split; [apply gas_same_mem|done].
Qed.

(** ** The gas functions *)

Lemma tableGas_ok k f a b : f ∈ op_fields -> gas_ok k false a b (tableGas f).
Proof.
  intros Hf e s sz He Hd Ha Hs; split; [by apply table_u64|]; split; [apply gas_same_refl|].
  split; [done|]; right; right; split; [done|left; by apply table_pos].
Qed.

Lemma constGasFunc_ok : gas_ok STOP false 0 0 (constGasFunc 0).
Proof.
  intros e s sz He Hd Ha Hs; split; [unfold is_u64; lia|]; split; [apply gas_same_refl|].
  split; [done|]; right; by left.
Qed.

(** Step through one checked operation of a gas function. *)
Ltac gas_step :=
  match goal with
  | |- context [no_overflow (SafeAdd ?x ?y)] =>
      let H := fresh "H" in
      pose proof (no_overflow_SafeAdd x y) as H;
      destruct (no_overflow (SafeAdd x y)); simpl;
      [destruct H as [? ->]; [by (apply table_u64 || auto)..|]
      |exact I|exfalso; apply H; by (apply table_u64 || auto)]
  | |- context [no_overflow (SafeMul ?x ?y)] =>
      let H := fresh "H" in
      pose proof (no_overflow_SafeMul x y) as H;
      destruct (no_overflow (SafeMul x y)); simpl;
      [destruct H as [? ->]; [by (apply table_u64 || auto)..|]
      |exact I|exfalso; apply H; by (apply table_u64 || auto)]
  | |- context [no_overflow (BigUint64 ?x)] =>
      let H := fresh "H" in
      pose proof (no_overflow_BigUint64 x) as H;
      destruct (no_overflow (BigUint64 x)); simpl; [|exact I|exact (False_ind _ H)]
  | |- context [mem_gas ?e ?s ?sz] =>
      let H := fresh "H" in
      let E1 := fresh "Est" in
      let E2 := fresh "Edb" in
      pose proof (mem_gas_ok e s sz) as H;
      destruct (mem_gas e s sz) as [[? ?]| |]; simpl;
      [destruct H as (? & ? & ? & E1 & E2); [done..|]; rewrite ?E1, ?E2
      |exact I|exfalso; apply H; done]
  end.

Lemma ToWordSize_u64 z : is_u64 z -> is_u64 (ToWordSize z).
Proof. intros H; pose proof (proj2 (ToWordSize_spec z H)); unfold is_u64; lia. Qed.
#[local] Hint Resolve ToWordSize_u64 : core.

Lemma back_ok (l : stack) n : (n < length l)%nat -> exists x, back l n = Ok x /\ l !! n = Some x.
Proof. intros H; destruct (lookup_lt_is_Some_2 l n H) as [x Hx]; exists x; unfold back; by rewrite Hx. Qed.

Lemma gasExp_ok : gas_ok EXP false 2 1 gasExp.
Proof.
  intros e s sz He Hd Ha Hs; unfold gasExp; destruct (back_ok (st s) 1) as (x & -> & _); [lia|].
  rewrite bind_Ok; assert (is_u64 (u64 ((BitLen x + 7) / 8 * gasTable e ExpByteQuota))) as Hu
    by apply u64_range.
  gas_step; split; [done|]; split; [apply gas_same_refl|]; split; [done|]; right; right.
  pose proof (table_pos e ExpQuota He ltac:(in_fields)); unfold is_u64 in Hu; split; [done|left; lia].
Qed.

Lemma copyGas_ok k base word i a b :
  base ∈ op_fields -> (i < a)%nat -> gas_ok k true a b (copyGas base word i).
Proof.
  intros Hf Hi e s sz He Hd Ha Hs; unfold copyGas; pose proof (table_pos e base He Hf).
  gas_step; gas_step.
  destruct (back_ok (st s) i) as (x & -> & _); [lia|]; rewrite bind_Ok; do 3 gas_step.
  split; [done|]; split; [done|]; split; [done|]; right; right; split; [done|left].
  unfold is_u64 in *; lia.
Qed.

Lemma memGas_ok k base a b : base ∈ op_fields -> gas_ok k true a b (memGas base).
Proof.
  intros Hf e s sz He Hd Ha Hs; unfold memGas; pose proof (table_pos e base He Hf).
  gas_step; gas_step; split; [done|]; split; [done|]; split; [done|]; right; right.
  split; [done|left]; unfold is_u64 in *; lia.
Qed.

Lemma makeGasLog_ok k n a : (2 <= a)%nat -> gas_ok k true a 0 (makeGasLog n).
Proof.
  intros Hi e s sz He Hd Ha Hs; unfold makeGasLog.
  destruct (back_ok (st s) 1) as (x & -> & _); [lia|]; rewrite bind_Ok.
  assert (is_u64 (u64 (n * gasTable e LogTopicQuota))) by apply u64_range.
  do 6 gas_step; split; [done|]; split; [done|]; split; [done|]; right; right.
  split; [done|right; lia].
Qed.

Lemma gasReturn_ok k : gas_ok k true 2 0 gasReturn.
Proof.
  intros e s sz He Hd Ha Hs; unfold gasReturn; gas_step.
  split; [done|]; split; [done|]; split; [done|]; right; right; split; [done|right; lia].
Qed.

(** ** Storage *)

Lemma sstore_price_u64 gt o c n : table_ok gt -> is_u64 (sstore_price gt o c n).1.
Proof.
  intros Ht; assert (Hr : forall f, is_u64 (gt f)).
  { intros f; pose proof (tok_range gt Ht f); unfold is_u64; lia. }
  unfold sstore_price.
  repeat match goal with |- context [if ?b then _ else _] => destruct b end; simpl;
    apply Hr || apply u64_range.
Qed.

Lemma GetValue_result d k :
  match GetValue d k with Ok _ => True | Err _ => False | Panic p => p = PDb end.
Proof. unfold GetValue, DealWithErr; by destruct (db_GetValue d k). Qed.

Lemma gasSStore_ok : gas_ok SSTORE false 2 0 gasSStore.
Proof.
  intros e s sz He Hd Ha Hs; unfold gasSStore.
  destruct (back_ok (st s) 1) as (n & -> & _); [lia|].
  destruct (back_ok (st s) 0) as (loc & -> & _); [lia|]; rewrite !bind_Ok.
  assert (Hm : forall s1, gas_same s s1 -> db s1 = db s ->
    gas_result SSTORE false 2 0 sz s (
      currentValue ← GetValue (db s1) (BigToHash loc).1;
      if bytes_Equal currentValue (Bytes n) then Ok (gasTable e SstoreNoopQuota, true, s1)
      else
        originalValue ← DealWithErr (db_GetOriginalValue (db s1) (BigToHash loc).1);
        let '(cost, flag) := sstore_price (gasTable e) originalValue currentValue n in
        Ok (cost, flag, s1))).
  { intros s1 Hg Hdb; pose proof (GetValue_result (db s1) (BigToHash loc).1) as Hv.
    destruct (GetValue _ _) as [c| |p]; simpl; [|done|by left; left].
    destruct (bytes_Equal c (Bytes n)); simpl.
    { split; [by apply table_u64|]; split; [done|]; split; [done|by left]. }
    destruct (db_GetOriginalValue _ _) as [o| |]; simpl; [|by left; left..].
    pose proof (sstore_price_u64 (gasTable e) o c n (eo_table e He)) as Hp.
    destruct (sstore_price _ _ _ _) as [cost flag]; simpl in *.
    split; [done|]; split; [done|]; split; [done|by left]. }
  destruct (IsEarthUpgrade _ _); [|by apply Hm; [apply gas_same_refl|]].
  destruct (_ <? _); [done|]; apply Hm; [|done].
  exists (lastGasCost (mem s)), ({[loc]} ∪ storageModified s).
  by destruct s as [? ? [] ? ? ? ? ? ? ?].
Qed.

(** ** Calls *)

(** A cost computation that ends in a 64-bit amount, an error, or a panic from
    outside. *)
Definition cost_result (r : result Z) : Prop :=
  match r with Ok c => is_u64 c | Err _ => True | Panic p => benign p end.

Lemma BlockGasCost_ok d base n gt :
  0 < gt TxDataQuota -> cost_result (BlockGasCost d base n gt).
Proof.
  intros Ht; unfold BlockGasCost, DataQuotaCost, cost_result.
  repeat match goal with
  | |- context [if ?b then _ else _] => destruct b eqn:?; simpl
  end; try done; try (apply u64_range); lia.
Qed.

Lemma gasRequiredForSendBlock_ok e b h :
  env_ok e -> cost_result (gasRequiredForSendBlock (contracts e) (upgrades e) b (gasTable e) h).
Proof.
  intros He; pose proof (table_pos e TxDataQuota He ltac:(in_fields)).
  unfold gasRequiredForSendBlock, gasSendCreate, gasUserSendCall, gasSendCall.
  destruct (_ =? BlockTypeSendCreate); [by apply BlockGasCost_ok|].
  destruct (_ =? BlockTypeSendCall); [|done].
  destruct (IsBuiltinContractAddrInUse _); [|by apply BlockGasCost_ok].
  unfold GetBuiltinContractMethod.
  destruct (contracts e _ _) as [f|] eqn:Ef; [|done]; destruct (f (Data b)) as [m|] eqn:Em; [|done].
  exact (eo_builtin e He _ _ _ _ _ (Data b) Ef Em).
Qed.

Lemma multiplier_panics d a b g :
  match getQuotaMultiplierForRS d a b g with Panic p => p = PDb | _ => True end.
Proof.
  unfold getQuotaMultiplierForRS, getQuotaMultiplierBySnapshotBlock, DealWithErr.
  repeat match goal with
  | |- context [match ?x with _ => _ end] =>
      lazymatch x with context [match _ with _ => _ end] => fail | _ => destruct x eqn:?; simpl end
  end; try done.
Qed.

Lemma MultipleCost_ok c m :
  is_u64 c -> match MultipleCost c m with Ok z => is_u64 z | Err _ => True | Panic _ => False end.
Proof.
  intros Hc; unfold MultipleCost; destruct (_ <? _); [done|]; destruct (_ =? _); [done|].
  destruct (_ <? _); [done|].
  pose proof (u64_range (c * m)); unfold quotaMultiplierDivision, is_u64.
  Z.to_euclidean_division_equations; lia.
Qed.

Lemma gasCall_ok k needs b : k = CALL \/ k = CALL2 -> (b < 5)%nat -> gas_ok k needs 5 b gasCall.
Proof.
  intros Hk Hb e s sz He Hd Ha Hs; unfold gasCall; gas_step.
  top_words s as [|w1 [|w2 [|w3 [|w4 [|w5 l]]]]]; simpl.
  destruct (mem_get_total (mem m) (Int64 w4) (Int64 w5)) as [[d ->]| ->]; simpl; [|by right].
  match goal with |- context [gasRequiredForSendBlock ?a ?b ?c ?d ?e'] =>
    pose proof (gasRequiredForSendBlock_ok e c e' He) as Hcost;
    destruct (gasRequiredForSendBlock a b c d e') as [cost| |]; simpl; [|done|by left] end.
  match goal with |- context [getQuotaMultiplierForRS ?a ?b ?c ?d] =>
    pose proof (multiplier_panics a b c d) as Hq;
    destruct (getQuotaMultiplierForRS a b c d) as [q| |]; simpl; [|done|by left; left] end.
  pose proof (MultipleCost_ok cost q Hcost) as Hm.
  destruct (MultipleCost cost q) as [c'| |]; simpl; [|done..].
  destruct (_ <? c').
  - assert (is_u64 (u64 (c' - gasTable e CallMinusQuota))) by apply u64_range.
    gas_step; split; [done|]; split; [done|]; split; [done|]; right; right; split; [done|right; lia].
  - split; [done|]; split; [done|]; split; [done|]; right; right; split; [done|right; lia].
Qed.
