(* ===== verification/GasSpec.v ===== *)
(** What the gas functions compute: the fee for memory, and the arithmetic of
    quota costs. *)
From S2P Require Import Prelude Helper Types Upgrade QuotaTable VmDb Builtin Opcodes AccountBlock.
From S2P Require Import Destination Machine Instructions GasTable JumpTable Interpreter.
From S2P Require Import World InstructionSafety GasSafety.

(** ** Memory *)

(** The fee for a memory of [w] words. *)
Definition mem_fee (gt : QuotaTable) (w : Z) : Z := w * gt MemQuota + w * w / gt MemQuotaDivision.

(** The memory has been paid for. *)
Definition priced (gt : QuotaTable) (m : memory) : Prop :=
  lastGasCost m = mem_fee gt (mem_len m / 32).

Lemma mem_fee_mono gt a b : table_ok gt -> 0 <= a <= b -> mem_fee gt a <= mem_fee gt b.
Proof.
  intros Ht H; unfold mem_fee; pose proof (tok_range gt Ht MemQuota).
  assert (0 < gt MemQuotaDivision) by (pose proof (tok_pos gt Ht MemQuotaDivision ltac:(in_fields)); lia).
  assert (a * a / gt MemQuotaDivision <= b * b / gt MemQuotaDivision) by (apply Z.div_le_mono; nia).
  nia.
Qed.

Lemma mem_fee_range gt w : table_ok gt -> 0 <= w < 2 ^ 32 - 2 ^ 22 -> is_u64 (mem_fee gt w).
Proof.
  intros Ht H; unfold mem_fee, is_u64; pose proof (tok_range gt Ht MemQuota).
  pose proof (tok_pos gt Ht MemQuotaDivision ltac:(in_fields)).
  assert (0 <= w * w / gt MemQuotaDivision <= w * w).
  { split; [apply Z.div_pos; nia|apply Z.div_le_upper_bound; nia]. }
  nia.
Qed.

Lemma memoryGasCost_fee e m sz :
  table_ok (gasTable e) -> mem_ok m -> priced (gasTable e) m -> 0 < sz -> sz <= 2 ^ 36 ->
  mem_len m <= 2 ^ 36 ->
  let w := Z.max (mem_len m / 32) ((sz + 31) / 32) in
  exists m', memoryGasCost e m sz =
      Ok (mem_fee (gasTable e) w - mem_fee (gasTable e) (mem_len m / 32), true, m') /\
    m' = with_lastGasCost m (mem_fee (gasTable e) w).
Proof.
  intros Ht [Hc Hm [q Hq]] Hp H0 Hs Hl.
  assert (Hdiv : mem_len m / 32 = q) by (rewrite Hq, Z.div_mul; lia).
  unfold priced in Hp; rewrite Hdiv in *; cbv zeta; unfold memoryGasCost.
  destruct (Z.eqb_spec sz 0); [lia|]; destruct (Z.ltb_spec 0xffffffffe0 sz); [lia|].
  destruct (ToWordSize_spec sz) as [-> _]; [unfold is_u64; lia|].
  set (k := (sz + 31) / 32) in *.
  assert (Hk : 0 < k <= 2 ^ 31) by (unfold k; Z.to_euclidean_division_equations; lia).
  assert (H2 : 0 <= q) by (unfold mem_len, len in Hq; lia).
  unfold WordSize; rewrite (u64_small (k * 32)) by (unfold is_u64; lia).
  pose proof (mem_fee_range (gasTable e) k Ht ltac:(lia)) as Hf.
  pose proof (mem_fee_mono (gasTable e) q k Ht).
  pose proof (tok_range _ Ht MemQuota).
  pose proof (tok_pos _ Ht MemQuotaDivision ltac:(in_fields)).
  destruct (Z.ltb_spec (mem_len m) (k * 32)) as [Hlt|Hge].
  - destruct (Z.eqb_spec (gasTable e MemQuotaDivision) 0); [lia|].
    rewrite (u64_small (k * k)), (u64_small (k * _)) by (unfold is_u64; nia).
    fold (mem_fee (gasTable e) k); rewrite (u64_small (mem_fee _ k)) by done.
    replace (Z.max q k) with k by lia.
    pose proof (mem_fee_range (gasTable e) q Ht ltac:(lia)); unfold is_u64 in *.
    rewrite Hp, u64_small by (unfold is_u64; lia); by eexists.
  - replace (Z.max q k) with q by lia; rewrite Z.sub_diag; eexists; split; [done|].
    rewrite <- Hp; by destruct m.
Qed.

(** The fee for growing the memory is the difference of the fees of the two
    sizes: however a contract grows its memory, up to 2^36 bytes, it has paid
    in total the fee of the size it has, linear plus quadratic in the number of
    words, and growing never refunds. *)
Theorem memory_fee_telescopes e m sz :
  table_ok (gasTable e) -> (forall c n, n <= grow e c n) -> mem_ok m -> priced (gasTable e) m ->
  0 < sz -> sz <= 2 ^ 36 -> (32 | sz) -> mem_len m <= 2 ^ 36 ->
  exists fee m', memoryGasCost e m sz = Ok (fee, true, m') /\ 0 <= fee /\
    let grown := resize (grow e) m' sz in
    mem_len grown = Z.max (mem_len m) sz /\ priced (gasTable e) grown /\
    fee = mem_fee (gasTable e) (mem_len grown / 32) - mem_fee (gasTable e) (mem_len m / 32).
Proof.
  intros Ht Hg Hm Hp H0 Hs Hd Hl.
  destruct (memoryGasCost_fee e m sz Ht Hm Hp H0 Hs Hl) as (m' & E & ->).
  destruct Hd as [k Hk].
  replace ((sz + 31) / 32) with k in E by (rewrite Hk; Z.to_euclidean_division_equations; lia).
  destruct Hm as [Hc Hmax [q Hq]].
  assert (Hq0 : 0 <= q) by (unfold mem_len, len in Hq; lia).
  assert (Hdq : mem_len m / 32 = q) by (rewrite Hq, Z.div_mul; lia); rewrite Hdq in *.
  do 2 eexists; split; [exact E|].
  pose proof (mem_fee_mono (gasTable e) q (Z.max q k) Ht ltac:(lia)); split; [lia|].
  set (m' := with_lastGasCost m (mem_fee (gasTable e) (Z.max q k))).
  assert (Hm' : mem_ok m') by (split; [exact Hc|exact Hmax|by exists q]).
  destruct (resize_spec (grow e) m' sz Hg Hm' ltac:(lia) ltac:(by exists k)) as [_ Hr].
  cbv zeta; rewrite Hr; change (mem_len m') with (mem_len m).
  assert (Hmx : Z.max (mem_len m) sz / 32 = Z.max q k) by (rewrite Hq, Hk; Z.to_euclidean_division_equations; lia).
  rewrite Hmx; split; [done|]; split; [|done].
  unfold priced; rewrite Hr; change (mem_len m') with (mem_len m); rewrite Hmx.
  unfold resize; destruct (mem_len m' <? sz); done.
Qed.

Lemma memory_fee_telescopes_witness :
  exists fee m', memoryGasCost (example_env []) newMemory 64 = Ok (fee, true, m') /\ 0 <= fee /\
    let grown := resize (grow (example_env [])) m' 64 in
    mem_len grown = Z.max (mem_len newMemory) 64 /\ priced (gasTable (example_env [])) grown /\
    fee = mem_fee (gasTable (example_env [])) (mem_len grown / 32)
          - mem_fee (gasTable (example_env [])) (mem_len newMemory / 32).
Proof.
  apply (memory_fee_telescopes (example_env []) newMemory 64).
  - apply QuotaTableByHeight_ok.
  - intros c n; apply Z.le_refl.
  - split; [vm_compute; congruence..|exists 0; reflexivity].
  - vm_compute; reflexivity.
  - reflexivity.
  - vm_compute; congruence.
  - exists 2; reflexivity.
  - vm_compute; congruence.
Defined.

Lemma memory_prices box h :
  (QuotaTableByHeight box h MemQuota, QuotaTableByHeight box h MemQuotaDivision) = (1, 1024) \/
  (QuotaTableByHeight box h MemQuota, QuotaTableByHeight box h MemQuotaDivision) = (3, 512).
Proof.
  unfold QuotaTableByHeight.
  repeat match goal with |- context [if ?b then _ else _] => destruct b end;
    first [left; reflexivity|right; reflexivity].
Qed.

(** The guard against overflow in the memory fee does not cover the square:
    for 2^37 bytes, which the guard accepts, the square of the number of words
    wraps to 0, and the fee is below the fee for one word less. *)
Theorem memory_square_wraps e box h :
  gasTable e = QuotaTableByHeight box h ->
  exists c1 c2 m1 m2, memoryGasCost e newMemory (2 ^ 37 - 32) = Ok (c1, true, m1) /\
    memoryGasCost e newMemory (2 ^ 37) = Ok (c2, true, m2) /\ c2 < c1.
Proof.
  intros Et; destruct (memory_prices box h) as [[= H1 H2]|[= H1 H2]];
    unfold memoryGasCost; rewrite Et, H1, H2;
    (do 4 eexists; split; [reflexivity|]; split; [reflexivity|]; vm_compute; reflexivity).
Qed.

Lemma memory_square_wraps_witness :
  exists c1 c2 m1 m2, memoryGasCost (example_env []) newMemory (2 ^ 37 - 32) = Ok (c1, true, m1) /\
    memoryGasCost (example_env []) newMemory (2 ^ 37) = Ok (c2, true, m2) /\ c2 < c1.
Proof. apply (memory_square_wraps (example_env []) example_box 100); reflexivity. Defined.

(** ** Quota costs *)

Lemma DataQuotaCost_spec data gt :
  table_ok gt -> len data < 2 ^ 63 ->
  DataQuotaCost data gt =
    if decide (len data * gt TxDataQuota < 2 ^ 64) then Ok (len data * gt TxDataQuota)
    else Err ErrGasUintOverflow.
Proof.
  intros Ht Hl; pose proof (tok_pos gt Ht TxDataQuota ltac:(in_fields)) as Hp.
  pose proof (tok_range gt Ht TxDataQuota); unfold DataQuotaCost, len in *.
  set (n := Z.of_nat (length data)) in *; set (p := gt TxDataQuota) in *.
  destruct (Z.ltb_spec 0 n); [|replace n with 0 by lia; done].
  destruct (Z.eqb_spec p 0); [lia|]; unfold MaxUint64.
  pose proof (Z.div_mod (2 ^ 64 - 1) p ltac:(lia)); pose proof (Z.mod_pos_bound (2 ^ 64 - 1) p ltac:(lia)).
  destruct (Z.ltb_spec ((2 ^ 64 - 1) / p) n); case_decide; try nia; try done.
  rewrite u64_small by (unfold is_u64; nia); done.
Qed.

(** The cost of a block is the exact sum of its base cost, its data cost and
    its confirmation cost, or the overflow error when that sum does not fit 64
    bits; a quota multiplier scales it by tenths, rounding down, or reports the
    overflow; and the quota used splits exactly into the part paid by proof of
    work and the part paid by stake. *)
Theorem quota_costs_exact gt data base n cost mult total add left :
  table_ok gt -> len data < 2 ^ 63 -> 0 <= base < 2 ^ 20 -> 0 <= n < 256 ->
  is_u64 cost -> 10 <= mult < 256 -> 0 <= left <= total -> total < 2 ^ 64 -> is_u64 add ->
  (let sum := base + len data * gt TxDataQuota + n * gt SnapshotQuota in
   BlockGasCost data base n gt = if decide (sum < 2 ^ 64) then Ok sum else Err ErrGasUintOverflow) /\
  MultipleCost cost mult =
    (if decide (mult = 10 \/ cost * mult < 2 ^ 64) then Ok (cost * mult / 10)
     else Err ErrGasUintOverflow) /\
  CalcQuotaUsed true total add left None = (Z.max 0 (total - left - add), total - left).
Proof.
  intros Ht Hl Hb Hn Hc Hm Hle Htot Hadd; split_and!.
  - cbv zeta; unfold BlockGasCost; rewrite DataQuotaCost_spec by done.
    pose proof (tok_range gt Ht SnapshotQuota); set (d := len data * gt TxDataQuota).
    assert (0 <= d) by (pose proof (tok_range gt Ht TxDataQuota); unfold d, len; nia).
    assert (0 <= n * gt SnapshotQuota < 2 ^ 28) by nia.
    destruct (decide (d < 2 ^ 64)); [|case_decide; [lia|done]].
    unfold MaxUint64; rewrite (u64_small (2 ^ 64 - 1 - base)) by (unfold is_u64; lia).
    destruct (Z.ltb_spec (2 ^ 64 - 1 - base) d); [case_decide; [lia|done]|].
    rewrite (u64_small (base + d)) by (unfold is_u64; lia).
    destruct (Z.eqb_spec n 0) as [->|]; [rewrite Z.mul_0_l, Z.add_0_r; case_decide; [done|lia]|].
    rewrite (u64_small (n * _)), (u64_small (2 ^ 64 - 1 - _)) by (unfold is_u64; lia).
    destruct (Z.ltb_spec (2 ^ 64 - 1 - (base + d)) (n * gt SnapshotQuota)); case_decide; try lia; [done|].
    rewrite u64_small by (unfold is_u64; lia); done.
  - unfold MultipleCost, CommonQuotaMultiplier, quotaMultiplierDivision, MaxUint64.
    destruct (Z.ltb_spec mult 10); [lia|]; destruct (Z.eqb_spec mult 10) as [->|].
    { rewrite decide_True by auto; f_equal; rewrite Z.div_mul; lia. }
    pose proof (Z.div_mod (2 ^ 64 - 1) mult ltac:(lia)).
    pose proof (Z.mod_pos_bound (2 ^ 64 - 1) mult ltac:(lia)).
    destruct (Z.ltb_spec ((2 ^ 64 - 1) / mult) cost); case_decide; try nia; [done|].
    rewrite u64_small by (unfold is_u64 in *; nia); done.
  - unfold CalcQuotaUsed; simpl; rewrite u64_small by (unfold is_u64; lia).
    destruct (Z.ltb_spec (total - left) add); [f_equal; lia|].
    rewrite u64_small by (unfold is_u64 in *; lia); f_equal; lia.
Qed.

Lemma quota_costs_exact_witness :
  CalcQuotaUsed true 21000 5000 4000 None = (Z.max 0 (21000 - 4000 - 5000), 21000 - 4000).
Proof.
  apply (quota_costs_exact initQuotaTable [] 0 0 0 10 21000 5000 4000);
    try (vm_compute; split; congruence); try reflexivity; try lia.
  apply QuotaTable_literals_ok.
Defined.
