(* ===== verification/Safety.v ===== *)
(** The interpreter keeps its invariant: every entry of every instruction set
    is safe, so one round of the loop is, and so is a whole run. *)
From S2P Require Import Prelude Helper Types Upgrade QuotaTable VmDb Builtin Opcodes.
From S2P Require Import Destination Machine Instructions GasTable JumpTable Interpreter World.
From S2P Require Import InstructionSafety GasSafety.

(** ** Entries of an instruction set *)

(** The memory size function finds its operands. *)
Definition size_ok (a : nat) (m : option (stack -> result Z)) : Prop :=
  forall f l, m = Some f -> Forall is_u256 l -> (a <= length l)%nat ->
    exists n, f l = Ok n /\ 0 <= n.

(** The entry of opcode [k] pops [a] words, pushes [b], and is safe. *)
Record op_spec (k : Z) (op : operation) (a b : nat) (sto : bool) : Prop := {
  os_exec : exec_ok k (jumps op) sto a b (memorySize op) (execute op);
  os_gas : gas_ok k (bool_decide (is_Some (memorySize op))) a b (gasCost op);
  os_stack : validateStack op = makeStackFunc (Z.of_nat a) (Z.of_nat b);
  os_size : size_ok a (memorySize op);
  os_sto : sto = true -> k = SSTORE;
  os_stop : k = STOP -> halts op = true;
}.
Definition op_ok (k : Z) (op : operation) : Prop := exists a b sto, op_spec k op a b sto.

Lemma size_ok_None a : size_ok a None.
Proof. intros f l [=]. Qed.

Lemma size_ok_at a i j : (i < a)%nat -> (j < a)%nat -> size_ok a (Some (mem_size_at i j)).
Proof.
  intros Hi Hj f l [= <-] Hl Ha; unfold mem_size_at.
  destruct (back_ok l i) as (x & -> & Hx); [lia|]; destruct (back_ok l j) as (y & -> & Hy); [lia|].
  pose proof (Forall_lookup_1 _ _ _ _ Hl Hx) as [? _]; pose proof (Forall_lookup_1 _ _ _ _ Hl Hy) as [? _].
  eexists; split; [done|]; unfold calcMemSize; destruct (y =? 0); lia.
Qed.

Lemma size_ok_const a c :
  (0 < a)%nat -> 0 <= c -> size_ok a (Some (fun l => off ← back l 0; Ok (calcMemSize off c))).
Proof.
  intros Ha Hc f l [= <-] Hl Hal; destruct (back_ok l 0) as (x & -> & Hx); [lia|].
  pose proof (Forall_lookup_1 _ _ _ _ Hl Hx) as [? _].
  eexists; split; [done|]; unfold calcMemSize; destruct (c =? 0); lia.
Qed.

Lemma size_ok_log a : (2 <= a)%nat -> size_ok a (Some memoryLog).
Proof.
  intros Ha f l [= <-] Hl Hal; unfold memoryLog.
  destruct (back_ok l 1) as (y & -> & Hy); [lia|]; destruct (back_ok l 0) as (x & -> & Hx); [lia|].
  pose proof (Forall_lookup_1 _ _ _ _ Hl Hx) as [? _]; pose proof (Forall_lookup_1 _ _ _ _ Hl Hy) as [? _].
  eexists; split; [done|]; unfold calcMemSize; destruct (y =? 0); lia.
Qed.

(** ** Values pushed from the environment *)

Lemma env_word e s :
  env_ok e -> data_inv e s ->
  is_u256 (SetBytes (AccountAddress (c_block e))) /\ is_u256 (SetBytes (FromBlockHash (c_block e))) /\
  is_u256 (SetBytes (AccountAddress (c_sendBlock e))) /\ is_u256 (SetBytes (TokenId (c_sendBlock e))) /\
  is_u256 (i64 (len (c_data e))) /\ is_u256 (i64 (len (c_code e))) /\
  is_u256 (len (returnData s)) /\ is_u256 (i64 (mem_len (mem s))).
Proof.
  intros He Hd; destruct He, Hd as [_ Hm _ _ Hr]; split_and!; try (apply SetBytes_u256; done);
    try by apply len_i64.
  - apply is_u256_small; unfold len in *; lia.
  - destruct Hm; unfold mem_len in *; apply len_i64; lia.
Qed.

(** Solve the side condition of [pushop_ok]. *)
Ltac solve_push :=
  let e := fresh "e" in let s := fresh "s" in
  let He := fresh "He" in let Hd := fresh "Hd" in let Hp := fresh "Hp" in
  intros e s He Hd Hp;
  pose proof (env_word e s He Hd) as (? & ? & ? & ? & ? & ? & ? & ?); simpl; try done.

Lemma opCallValue_ok : exec_ok CALLVALUE false false 0 1 None opCallValue.
Proof.
  apply pushop_ok; [done|]; solve_push.
  destruct (Amount (c_sendBlock e)) eqn:E; simpl; [by eapply eo_amount|by right].
Qed.

Lemma status_ok k f :
  push_size k = 0%nat ->
  exec_ok k false false 0 1 None (pushop (fun e _ => sb ← status_block e; Ok (U256 (f sb)))).
Proof.
  intros Hk; apply pushop_ok; [done|]; solve_push; unfold status_block.
  destruct (globalStatus e) as [g|]; simpl; [|by right].
  destruct (gs_SnapshotBlock g); simpl; [apply U256_range|by right].
Qed.

Lemma prev_block_ok k f :
  push_size k = 0%nat ->
  (forall b, (length (ab_Hash b) <= 32)%nat -> is_u256 (f b)) ->
  exec_ok k false false 0 1 None (pushop (fun _ s =>
    ab ← DealWithErr (db_PrevAccountBlock (db s));
    match ab with Some b => Ok (f b) | None => Ok 0 end)).
Proof.
  intros Hk Hf; apply pushop_ok; [done|]; solve_push.
  destruct (db_PrevAccountBlock (db s)) as [[b|]| |] eqn:E; simpl; [|apply is_u256_0|by left..].
  apply Hf, (do_prev _ (di_db e s Hd) b E).
Qed.

Lemma opSeed_ok : exec_ok SEED false false 0 1 None opSeed.
Proof.
  apply pushop_ok; [done|]; solve_push; destruct (globalStatus e) as [g|] eqn:Eg; simpl; [|by right].
  destruct (gs_Seed g) eqn:Es; simpl; [|by left..]; apply is_u256_small; by eapply eo_seed.
Qed.

Lemma opRandom_ok : exec_ok RANDOM false false 0 1 None opRandom.
Proof.
  intros e s He Hd Hp Ho Ha _; unfold opRandom.
  destruct (globalStatus e) as [g|] eqn:Eg; simpl; [|by left; right].
  destruct (gs_Random g (draws s)) eqn:Er; simpl; [|by left; left..].
  assert (is_u256 a) by (apply is_u256_small; by eapply eo_random).
  destruct Hd; apply ret_st_ok; simpl; try done; try lia; by constructor.
Qed.

Lemma opZero_ok k : push_size k = 0%nat -> exec_ok k false false 0 1 None opZero.
Proof. intros Hk; apply pushop_ok; [done|]; solve_push; apply is_u256_0. Qed.

Lemma opPc_ok : exec_ok PC false false 0 1 None opPc.
Proof.
  apply pushop_ok; [done|]; solve_push; pose proof (pc_ok_range e _ He Hp).
  apply is_u256_small; lia.
Qed.

(** ** The sets *)

(** Side conditions of the execution lemmas. *)
Ltac side := first [reflexivity | lia | done].

(** The execution part of an entry. *)
Ltac solve_exec :=
  first
  [ apply skip_ok; side
  | apply opBalance_ok | apply opSLoad_ok | apply opCallDataLoad_ok
  | apply opReturnDataCopy_ok | apply opMload_ok | apply opMstore_ok | apply opMstore8_ok
  | apply opSStore_ok | apply opJump_ok | apply opJumpi_ok | apply opPop_ok
  | apply opCallValue_ok | apply opSeed_ok | apply opRandom_ok | apply opPc_ok
  | apply opZero_ok; side
  | apply (hashop_ok _ Keccak256); [side|intros; by apply eo_keccak]
  | apply (hashop_ok _ Hash256); [side|intros; by apply eo_blake]
  | apply copyop_ok; [side|intros e' He'; first [apply (eo_data e' He') | apply (eo_code e' He')]]
  | apply (status_ok _ sb_Timestamp); side | apply (status_ok _ sb_Height); side
  | apply (prev_block_ok _ (fun b => U256 (Height b))); [side|intros; apply U256_range]
  | apply (prev_block_ok _ (fun b => SetBytes (ab_Hash b))); [side|intros; by apply SetBytes_u256]
  | apply opCall2_ok | apply opOffchainCall2_ok
  | apply opCall_ok; by left
  | apply opOffchainCall_ok; side
  | apply opOffchainRevert_ok; side
  | apply opReturn_ok; side
  | apply makeLog_ok; side | apply makeOffchainLog_ok; side
  | match goal with |- context [makePush ?z _] =>
      let n := eval vm_compute in (Z.to_nat z) in apply (makePush_ok _ n); side end
  | apply makeDup_ok; side | apply makeSwap_ok; side
  | apply pushop_ok; [side|solve_push]
  | apply binop_ok; [side|intros; cbv beta zeta; solve_word]
  | apply binopM_ok; [side|intros x y Hx Hy; apply (divisions_ok x y 0 Hx Hy); done]
  | apply ternopM_ok; [side|intros x y z Hx Hy Hz; apply (divisions_ok x y z Hx Hy Hz)]
  | apply unop_ok; [side|intros; cbv beta zeta; solve_word] ].

(** The gas part. *)
Ltac solve_gas :=
  first
  [ apply tableGas_ok; in_fields
  | apply constGasFunc_ok | apply gasExp_ok | apply gasSStore_ok
  | apply copyGas_ok; [in_fields|side]
  | apply memGas_ok; in_fields
  | apply makeGasLog_ok; side
  | apply gasReturn_ok
  | apply gasCall_ok; [first [by left|by right]|side] ].

Ltac solve_size :=
  first [ apply size_ok_None | apply size_ok_at; side | apply size_ok_log; side
        | apply size_ok_const; side ].

Ltac solve_entry :=
  do 3 eexists; split; cbn [jumps memorySize execute gasCost validateStack halts
                            plain halting jumping writing reverting];
  [ solve_exec | solve_gas | reflexivity | solve_size | by (intros [=] || intros _) | by intros [=] ].

Ltac solve_entries := repeat (apply List.Forall_cons; [cbn [fst snd]; solve_entry|]); apply List.Forall_nil.

Definition set_ok (i : instruction_set) : Prop := Forall (fun p => op_ok p.1 p.2) i.

Lemma base_arithmetic_ok : set_ok base_arithmetic.
Proof. unfold set_ok, base_arithmetic; solve_entries. Qed.

Lemma base_comparison_ok : set_ok base_comparison.
Proof. unfold set_ok, base_comparison; solve_entries. Qed.

Lemma base_data_ok : set_ok base_data.
Proof. unfold set_ok, base_data; solve_entries. Qed.

Lemma base_flow_ok : set_ok base_flow.
Proof. unfold set_ok, base_flow; solve_entries. Qed.

Lemma base_push_low_ok : set_ok base_push_low.
Proof. unfold set_ok, base_push_low; solve_entries. Qed.

Lemma base_push_high_ok : set_ok base_push_high.
Proof. unfold set_ok, base_push_high; solve_entries. Qed.

Lemma base_dup_ok : set_ok base_dup.
Proof. unfold set_ok, base_dup; solve_entries. Qed.

Lemma base_swap_ok : set_ok base_swap.
Proof. unfold set_ok, base_swap; solve_entries. Qed.

Lemma base_chain_ok : set_ok base_chain.
Proof. unfold set_ok, base_chain; solve_entries. Qed.

Lemma set_ok_app i j : set_ok i -> set_ok j -> set_ok (i ++ j).
Proof. apply Forall_app_2. Qed.

Lemma newBaseInstructionSet_ok : set_ok newBaseInstructionSet.
Proof.
  repeat apply set_ok_app; [apply base_arithmetic_ok|apply base_comparison_ok|apply base_data_ok
    |apply base_flow_ok|apply base_push_low_ok|apply base_push_high_ok|apply base_dup_ok
    |apply base_swap_ok|apply base_chain_ok].
Qed.

Lemma newSimpleInstructionSet_ok : set_ok newSimpleInstructionSet.
Proof. apply set_ok_app; [unfold set_ok; solve_entries|apply newBaseInstructionSet_ok]. Qed.

Lemma newOffchainSimpleInstructionSet_ok : set_ok newOffchainSimpleInstructionSet.
Proof. apply set_ok_app; [unfold set_ok; solve_entries|apply newBaseInstructionSet_ok]. Qed.

Lemma newRandInstructionSet_ok : set_ok newRandInstructionSet.
Proof. apply set_ok_app; [unfold set_ok; solve_entries|apply newSimpleInstructionSet_ok]. Qed.

Lemma newRandOffchainInstructionSet_ok : set_ok newRandOffchainInstructionSet.
Proof. apply set_ok_app; [unfold set_ok; solve_entries|apply newOffchainSimpleInstructionSet_ok]. Qed.

Lemma newInterpreter_ok box h off : set_ok (newInterpreter box h off).
Proof.
  unfold newInterpreter; destruct (IsEarthUpgrade box h), off, (IsSeedUpgrade box h);
    auto using newSimpleInstructionSet_ok, newOffchainSimpleInstructionSet_ok,
      newRandInstructionSet_ok, newRandOffchainInstructionSet_ok;
    (apply set_ok_app; [unfold set_ok; solve_entries|]);
    auto using newRandInstructionSet_ok, newRandOffchainInstructionSet_ok.
Qed.

(** ** One round *)

Record inv (e : env) (s : mstate) : Prop := {
  inv_data : data_inv e s;
  inv_pc : pc_ok e (pc s);
  inv_depth : Z.of_nat (length (st s)) <= stackLimit;
  inv_quota : is_u64 (quotaLeft s);
}.

Lemma lookup_op_ok i k op : set_ok i -> lookup_op i k = Some op -> op_ok k op.
Proof.
  induction 1 as [|[k' o] i Hop _ IH]; simpl; [done|].
  destruct (Z.eqb_spec k' k) as [->|]; [intros [= <-]; exact Hop|exact IH].
Qed.

Lemma makeStackFunc_spec a b l :
  makeStackFunc (Z.of_nat a) (Z.of_nat b) l = Ok tt ->
  (a <= length l)%nat /\ Z.of_nat (length l) + Z.of_nat b <= stackLimit + Z.of_nat a.
Proof.
  unfold makeStackFunc, require, stack_len.
  destruct (Z.ltb_spec (Z.of_nat (length l)) (Z.of_nat a)); simpl; [done|].
  destruct (Z.ltb_spec stackLimit (Z.of_nat (length l) + Z.of_nat b - Z.of_nat a)); [done|lia].
Qed.

Lemma makeStackFunc_result a b l :
  match makeStackFunc a b l with Ok _ | Err _ => True | Panic _ => False end.
Proof. unfold makeStackFunc, require; repeat (destruct (_ <? _); simpl); done. Qed.

(** The size granted is a number of words that covers the size asked for. *)
Lemma requested_size_spec op a l :
  size_ok a (memorySize op) -> Forall is_u256 l -> (a <= length l)%nat ->
  match requested_size op l with
  | Ok sz => is_u64 sz /\ (32 | sz) /\
             (forall f n, memorySize op = Some f -> f l = Ok n -> n <= sz) /\
             (memorySize op = None -> sz = 0)
  | Err _ => True
  | Panic _ => False
  end.
Proof.
  intros Hs Hl Ha; unfold requested_size; destruct (memorySize op) as [f|] eqn:Em.
  - destruct (Hs f l eq_refl Hl Ha) as (n & Hn & H0); rewrite Hn, bind_Ok.
    destruct (BigUint64 n) as [v o] eqn:Eb; destruct o; [done|].
    destruct (BigUint64_spec n H0) as [Hv Hlt]; [by rewrite Eb|]; rewrite Eb in Hv; simpl in Hv; subst v.
    destruct (ToWordSize_spec n) as [Hw Hr]; [by unfold is_u64|].
    destruct (SafeMul_spec (ToWordSize n) WordSize) as [Ho Hm];
      [unfold is_u64; lia|done|].
    destruct (SafeMul (ToWordSize n) WordSize) as [sz o]; simpl in *; destruct o; [done|].
    rewrite Hm by done; unfold WordSize in *; split; [unfold is_u64; lia|].
    split; [by exists (ToWordSize n)|]; split; [|done]; intros g n' [= <-] E.
    rewrite Hn in E; injection E as <-; rewrite Hw; Z.to_euclidean_division_equations; lia.
  - split; [done|]; split; [by exists 0|]; done.
Qed.

(** What a round that reached [execute] did before it. *)
Record charged (e : env) (op : operation) (s : mstate) (sz c : Z) (flag : bool) (q : Z)
    (s2 : mstate) : Prop := {
  ch_cost : exists s1, gasCost op e s sz = Ok (c, flag, s1);
  ch_quota : UseQuotaWithFlag (quotaLeft s) c flag = Ok q;
  ch_left : quotaLeft s2 = q;
  ch_u64 : is_u64 q;
  ch_stack : st s2 = st s;
  ch_pc : pc s2 = pc s;
  ch_db : db s2 = db s;
  ch_sends : sendBlockList s2 = sendBlockList s;
  ch_data : data_inv e s2;
  ch_mem : forall f n, memorySize op = Some f -> f (st s) = Ok n -> n <= mem_len (mem s2);
}.

Lemma UseQuotaWithFlag_u64 q c flag :
  is_u64 q -> is_u64 c ->
  match UseQuotaWithFlag q c flag with Ok v => is_u64 v | Err _ => True | Panic _ => False end.
Proof.
  intros Hq Hc; unfold UseQuotaWithFlag, UseQuota; destruct flag; [|apply u64_range].
  destruct (q <? c); [done|apply u64_range].
Qed.

Lemma data_inv_gas e s s1 q :
  data_inv e s -> gas_same s s1 -> data_inv e (with_quotaLeft s1 q).
Proof. intros [? [] ? ? ?] (c & m & ->); split; simpl; done. Qed.

Lemma data_inv_resize e s sz :
  env_ok e -> data_inv e s -> is_u64 sz -> sz <= 2 ^ 40 -> (32 | sz) ->
  let s' := if 0 <? sz then with_mem s (resize (grow e) (mem s) sz) else s in
  data_inv e s' /\ sz <= mem_len (mem s').
Proof.
  intros He Hd Hu Hs Hw; pose proof (di_mem e s Hd) as Hm; cbv zeta.
  destruct (Z.ltb_spec 0 sz); simpl.
  - destruct (resize_spec (grow e) (mem s) sz) as [Hr Hl]; [by apply eo_grow|done|lia|done|].
    split; [by apply data_inv_with_mem|lia].
  - split; [done|]; unfold mem_len, len; lia.
Qed.

(** A round returns an error, panics from outside, or runs the instruction to
    its end. *)
Inductive round (e : env) (k : Z) (op : operation) (a b : nat) (sto : bool) (s : mstate) :
    step_result -> Prop :=
| round_err err s' :
    is_u64 (quotaLeft s') -> db s' = db s -> sendBlockList s' = sendBlockList s ->
    round e k op a b sto s (Halt [] (Some err) s')
| round_crash p : allowed k p -> round e k op a b sto s (Crash p)
| round_done sz c flag q s2 ret s3 :
    charged e op s sz c flag q s2 -> is_u64 c ->
    (k = SSTORE \/ k = STOP \/ (flag = true /\ (0 < c \/ (b < a)%nat))) ->
    execute op e s2 = Ok (ret, s3) ->
    exec_post e k (jumps op) sto a b s2 ret s3 ->
    (a <= length (st s))%nat -> Z.of_nat (length (st s3)) <= stackLimit ->
    round e k op a b sto s (finish op ret s3).

Lemma run_op_round e k op a b sto s :
  env_ok e -> inv e s -> getOp e (pc s) = k -> op_spec k op a b sto ->
  round e k op a b sto s (run_op e op s).
Proof.
  intros He [Hd Hp Hdepth Hq] Hk [Hex Hgas Hst Hsz Hsto Hstop]; unfold run_op.
  pose proof (makeStackFunc_result (Z.of_nat a) (Z.of_nat b) (st s)) as Hv; rewrite Hst.
  destruct (makeStackFunc _ _ (st s)) as [[]| |] eqn:Ev; simpl; [|by apply round_err|done].
  apply makeStackFunc_spec in Ev as [Ha Hlim].
  pose proof (requested_size_spec op a (st s) Hsz (di_words e s Hd) Ha) as Hr.
  destruct (requested_size op (st s)) as [sz| |]; simpl; [|by apply round_err|done].
  destruct Hr as (Hu & Hw & Hcov & Hnone).
  pose proof (Hgas e s sz He Hd Ha Hu) as Hg.
  destruct (gasCost op e s sz) as [[[c flag] s1]| |] eqn:Eg; simpl;
    [|by apply round_err|by apply round_crash].
  destruct Hg as (Hc & Hsame & Hneeds & Hprog).
  assert (quotaLeft s1 = quotaLeft s /\ db s1 = db s /\ sendBlockList s1 = sendBlockList s)
    as (Hq1 & Hdb1 & Hsl1) by (destruct Hsame as (? & ? & ->); done).
  rewrite Hq1; pose proof (UseQuotaWithFlag_u64 (quotaLeft s) c flag Hq Hc) as Hqu.
  destruct (UseQuotaWithFlag (quotaLeft s) c flag) as [q| |] eqn:Eq; simpl; [|by apply round_err|done].
  assert (Hsz40 : sz <= 2 ^ 40).
  { destruct (memorySize op); [by apply Hneeds|rewrite Hnone by done; lia]. }
  destruct (data_inv_resize e (with_quotaLeft s1 q) sz He (data_inv_gas e s s1 q Hd Hsame) Hu Hsz40 Hw)
    as [Hd2 Hmem]; revert Hd2 Hmem.
  set (s2 := if 0 <? sz then _ else _); intros Hd2 Hmem.
  assert (Hs2 : quotaLeft s2 = q /\ st s2 = st s /\ pc s2 = pc s /\ db s2 = db s /\
                sendBlockList s2 = sendBlockList s).
  { unfold s2; destruct Hsame as (? & ? & ->); by destruct (0 <? sz). }
  destruct Hs2 as (Hs2q & Hs2s & Hs2p & Hs2d & Hs2l).
  assert (Hch : charged e op s sz c flag q s2).
  { split; try done; [by exists s1|]; intros f n Hf Hn; specialize (Hcov f n Hf Hn); lia. }
  pose proof (Hex e s2 He Hd2) as Hx; rewrite Hs2p, Hs2s in Hx.
  specialize (Hx Hp Hk Ha (ch_mem _ _ _ _ _ _ _ _ Hch)).
  destruct (execute op e s2) as [[ret s3]| |] eqn:Ee; simpl;
    [|by apply round_err; rewrite ?Hs2q|by apply round_crash].
  simpl in Hx; eapply round_done; try done.
  pose proof (ep_len _ _ _ _ _ _ _ _ _ Hx) as Hl; rewrite Hs2s in Hl; lia.
Qed.

Lemma finish_next op ret s3 s' :
  finish op ret s3 = Next s' ->
  halts op = false /\ st s' = st s3 /\ mem s' = mem s3 /\ jumpdests s' = jumpdests s3 /\
  db s' = db s3 /\ quotaLeft s' = quotaLeft s3 /\
  (returnData s' = returnData s3 \/ returnData s' = ret) /\
  pc s' = (if jumps op then pc s3 else u64 (pc s3 + 1)).
Proof.
  unfold finish; destruct (halts op), (reverts op), (jumps op), (returns op); intros [= <-];
    simpl; split_and!; auto.
Qed.

Lemma step_round e i s op :
  env_ok e -> set_ok i -> inv e s -> lookup_op i (getOp e (pc s)) = Some op ->
  exists a b sto, op_spec (getOp e (pc s)) op a b sto /\
    round e (getOp e (pc s)) op a b sto s (run_op e op s).
Proof.
  intros He Hi Hinv Hop; destruct (lookup_op_ok _ _ _ Hi Hop) as (a & b & sto & Hs).
  exists a, b, sto; split; [done|]; by apply run_op_round.
Qed.

(** One round keeps the invariant, and panics only for reasons outside it. *)
Lemma step_safe e i s :
  env_ok e -> set_ok i -> inv e s ->
  match step e i s with
  | Next s' => inv e s'
  | Halt _ _ s' => is_u64 (quotaLeft s')
  | Crash p => allowed (getOp e (pc s)) p
  end.
Proof.
  intros He Hi Hinv; unfold step; destruct (lookup_op i _) as [op|] eqn:Eop; [|apply Hinv].
  destruct (step_round e i s op He Hi Hinv Eop) as (a & b & sto & Hs & Hr).
  inversion Hr as [err s' Hq _ _ Eq|p Hp Eq|sz c flag q s2 ret s3 Hch Hc Hprog Hex Hpost Ha Hlim Eq];
    [exact Hq|exact Hp|].
  destruct Hpost as [Hd3 _ Hq3 _ _ _ Hret Hpc].
  destruct (finish op ret s3) as [s'| |p] eqn:Ef.
  - apply finish_next in Ef as (Hh & Est & Em & Ej & Edb & Eq' & Erd & Epc).
    destruct Hd3 as [W3 M3 J3 D3 R3]; split; [split; rewrite ?Est, ?Em, ?Ej, ?Edb; try done| | |].
    + destruct Erd as [-> | ->]; done.
    + rewrite Epc; destruct (jumps op); [done|].
      assert (Hk : getOp e (pc s) <> 0) by (intros E; rewrite (os_stop _ _ _ _ _ Hs E) in Hh; done).
      pose proof (pc_ok_next e _ _ (inv_pc e s Hinv) eq_refl Hk) as Hn.
      rewrite Hpc, (ch_pc _ _ _ _ _ _ _ _ Hch).
      pose proof (pc_ok_range e _ He Hn); rewrite u64_small by (unfold is_u64; lia); exact Hn.
    + by rewrite Est.
    + rewrite Eq', Hq3, (ch_left _ _ _ _ _ _ _ _ Hch); apply Hch.
  - unfold finish in Ef.
    assert (quotaLeft s0 = quotaLeft s3) as ->.
    { destruct (halts op), (reverts op), (jumps op), (returns op); by simplify_eq/=. }
    rewrite Hq3, (ch_left _ _ _ _ _ _ _ _ Hch); apply Hch.
  - unfold finish in Ef; destruct (halts op), (reverts op), (jumps op); discriminate Ef.
Qed.

Lemma finish_keeps op ret s3 :
  match finish op ret s3 with
  | Next s' | Halt _ _ s' => db s' = db s3 /\ sendBlockList s' = sendBlockList s3
  | Crash _ => True
  end.
Proof. unfold finish; by destruct (halts op), (reverts op), (jumps op), (returns op). Qed.

(** A round changes only storage and logs in the database, and appends calls to
    the send list. *)
Lemma step_frame e i s :
  env_ok e -> set_ok i -> inv e s ->
  match step e i s with
  | Next s' | Halt _ _ s' => db_frame (db s) (db s') /\ sends_grow e s s'
  | Crash _ => True
  end.
Proof.
  intros He Hi Hinv; unfold step; destruct (lookup_op i _) as [op|] eqn:Eop;
    [|split; [done|by apply sends_grow_same]].
  destruct (step_round e i s op He Hi Hinv Eop) as (a & b & sto & Hs & Hr).
  inversion Hr as [err s' Hq Edb Esl Eq|p Hp Eq|sz c flag q s2 ret s3 Hch Hc Hprog Hex Hpost Ha Hlim Eq];
    [by rewrite Edb; split; [|apply sends_grow_same]|done|].
  pose proof (ep_frame _ _ _ _ _ _ _ _ _ Hpost) as Hf; pose proof (ep_sends _ _ _ _ _ _ _ _ _ Hpost) as Hg.
  rewrite (ch_db _ _ _ _ _ _ _ _ Hch) in Hf.
  assert (Hg' : sends_grow e s s3).
  { destruct Hg as (l & E & Hl); exists l; by rewrite E, (ch_sends _ _ _ _ _ _ _ _ Hch). }
  pose proof (finish_keeps op ret s3) as Hk; destruct (finish op ret s3) as [s'|ret' err s'|]; [..|done].
  all: destruct Hk as [-> El]; split; [done|]; destruct Hg' as (l & E & Hl); exists l; by rewrite El, E.
Qed.

(** The states a run goes through. *)
Definition steps_to (e : env) (i : instruction_set) : mstate -> mstate -> Prop :=
  rtc (fun s s' => step e i s = Next s').

Lemma newContract_inv e quota d sends :
  db_ok d -> is_u64 quota -> inv e (newContract quota d sends).
Proof.
  intros Hd Hq; split; [|split; [done|constructor]|done|done].
  split; [constructor| | |exact Hd|done].
  - split; unfold mem_len, len; simpl; [lia..|by exists 0].
  - intros m Hm; simpl in Hm; by rewrite lookup_empty in Hm.
Qed.

Lemma steps_inv e i s s' :
  env_ok e -> set_ok i -> inv e s -> steps_to e i s s' -> inv e s'.
Proof.
  intros He Hi Hs H; induction H as [|s s1 s2 Hst _ IH]; [done|]; apply IH.
  pose proof (step_safe e i s He Hi Hs) as H; rewrite Hst in H; exact H.
Qed.

(** ** A concrete world *)

Lemma example_env_ok code : len code < 2 ^ 62 -> env_ok (example_env code).
Proof.
  intros Hc; split; try done; simpl; try lia; try (vm_compute; lia).
  apply QuotaTableByHeight_ok.
Qed.

Lemma example_db_ok : db_ok example_db.
Proof.
  split; simpl.
  - intros k v H; by rewrite lookup_empty in H.
  - intros k v [= <-]; simpl; lia.
  - intros t b; unfold db_GetBalance; simpl; rewrite lookup_empty; intros [= <-]; vm_compute; split; congruence.
  - intros b; unfold db_PrevAccountBlock; simpl; done.
Qed.

Lemma state_after_steps n e i s : steps_to e i s (state_after n e i s).
Proof.
  revert s; induction n as [|n IH]; intros s; simpl; [done|].
  destruct (step e i s) as [s'| |] eqn:E; [|done..]; eapply rtc_l; [exact E|apply IH].
Qed.

(** ** Properties *)

(** C19 In every state a contract run reaches, whatever the code, the stack
    holds at most 1024 words, all of 256 bits, the program counter is at an
    instruction boundary, never inside push data, and the memory is a whole
    number of words below 2^40 bytes. *)
Theorem run_keeps_invariant e box h off quota d sends s :
  env_ok e -> db_ok d -> is_u64 quota ->
  steps_to e (newInterpreter box h off) (newContract quota d sends) s ->
  Z.of_nat (length (st s)) <= stackLimit /\ Forall is_u256 (st s) /\
  0 <= pc s /\ code_start (c_code e) (Z.to_nat (pc s)) /\
  (32 | mem_len (mem s)) /\ mem_len (mem s) <= 2 ^ 40 /\ is_u64 (quotaLeft s).
Proof.
  intros He Hd Hq Hs.
  destruct (steps_inv _ _ _ _ He (newInterpreter_ok box h off) (newContract_inv e quota d sends Hd Hq) Hs)
    as [[W M _ _ _] [P0 P1] D Q].
  split_and!; try done; apply M.
Qed.

Lemma run_keeps_invariant_witness :
  length (st (example_run 6 call_code)) = 3%nat /\
  code_start call_code (Z.to_nat (pc (example_run 6 call_code))).
Proof.
  split; [vm_compute; reflexivity|].
  apply (run_keeps_invariant (example_env call_code) example_box 100 false 1000000 example_db []).
  - apply example_env_ok; vm_compute; reflexivity.
  - exact example_db_ok.
  - vm_compute; split; congruence.
  - apply state_after_steps.
Defined.



(** The slice panic is real: a CALL that asks for more call data than the
    memory holds panics while its cost is computed, because the data is read
    before the memory is resized. *)
Theorem call_data_read_before_resize :
  runLoop 100 (example_env call_code) (newInterpreter example_box 100 false) 1000000 example_db [] =
  Panicked PSlice.
Proof. vm_compute; reflexivity. Qed.
