(* ===== verification/Termination.v ===== *)
(** Quota accounting and termination: refunds for storage never exceed what was
    charged before, so a run never gains quota, and every run ends. *)
From S2P Require Import Prelude Helper Types Upgrade QuotaTable VmDb Builtin Opcodes.
From S2P Require Import Destination Machine Instructions GasTable JumpTable Interpreter World.
From S2P Require Import InstructionSafety GasSafety Safety.

(** ** What a pending storage write may still refund *)

(** For a location that holds [o] on the chain and [v] in the buffer. *)
Definition weight (gt : QuotaTable) (o v : bytes) : Z :=
  if bool_decide (v = []) || bool_decide (v = o) then 0
  else if bool_decide (o = []) then gt SstoreInitQuota - gt SstoreMemQuota - gt SstoreNoopQuota
  else gt SstoreResetQuota - gt SstoreMemQuota - gt SstoreCleanQuota.

Definition original (d : vmDb) (k : bytes) : bytes :=
  match db_GetOriginalValue d k with Ok o => o | _ => [] end.

(** The sum over the buffered writes. *)
Definition pending (gt : QuotaTable) (d : vmDb) : Z :=
  map_fold (fun k v acc => weight gt (original d k) v + acc) 0 (storage (uns d)).

Lemma weight_nonneg gt o v : table_ok gt -> 0 <= weight gt o v.
Proof.
  intros [_ _ Hc Hr Hi]; unfold weight; destruct (_ || _); [lia|]; case_bool_decide; lia.
Qed.

Definition sum_of (w : bytes -> bytes -> Z) (m : gmap bytes bytes) : Z :=
  map_fold (fun k v acc => w k v + acc) 0 m.

Lemma sum_insert_new w (k v : bytes) m :
  m !! k = None -> sum_of w (<[k := v]> m) = w k v + sum_of w m.
Proof.
  intros Hn; apply (map_fold_insert_L (fun k v acc => w k v + acc)); [|done].
  intros; lia.
Qed.

Lemma sum_insert w (k v : bytes) m :
  sum_of w (<[k := v]> m) =
  w k v - (match m !! k with Some v0 => w k v0 | None => 0 end) + sum_of w m.
Proof.
  destruct (m !! k) as [v0|] eqn:E; [|rewrite sum_insert_new by done; lia].
  rewrite <- (insert_delete_id m k v0 E) at 2; rewrite <- insert_delete_eq.
  rewrite !sum_insert_new by apply lookup_delete_eq; lia.
Qed.

Lemma pending_sum gt d : pending gt d = sum_of (fun k => weight gt (original d k)) (storage (uns d)).
Proof. done. Qed.

Lemma sum_nonneg w m : (forall k v, 0 <= w k v) -> 0 <= sum_of w m.
Proof.
  intros Hw; induction m as [|k v m Hk IH] using map_ind; [done|].
  rewrite sum_insert_new by done; specialize (Hw k v); lia.
Qed.

Lemma pending_nonneg gt d : table_ok gt -> 0 <= pending gt d.
Proof. intros Ht; apply sum_nonneg; intros; by apply weight_nonneg. Qed.

(** The buffered weight of a location is the weight of the value read there. *)
Lemma current_weight gt d k c :
  GetValue d k = Ok c ->
  match storage (uns d) !! k with Some v => weight gt (original d k) v | None => 0 end =
  weight gt (original d k) c.
Proof.
  unfold GetValue, db_GetValue, Unsaved_GetValue, original.
  destruct (storage (uns d) !! k) as [v|]; simpl; [by intros [= <-]|].
  case_bool_decide; simpl; [by intros [= <-]|].
  destruct (db_GetOriginalValue d k) as [o| |]; simpl; [|done..]; intros [= <-].
  unfold weight; rewrite (bool_decide_eq_true_2 (o = o)), orb_true_r; done.
Qed.

(** Storing [n] over [c] changes the pending refunds by the difference of the
    weights. *)
Lemma pending_SetValue gt d k c v :
  GetValue d k = Ok c ->
  pending gt (with_uns d (Unsaved_SetValue (uns d) k v)) =
  pending gt d - weight gt (original d k) c + weight gt (original d k) v.
Proof.
  intros Hc; rewrite !pending_sum; simpl.
  rewrite (sum_insert (fun k => weight gt (original d k))), (current_weight gt d k c Hc); lia.
Qed.

Lemma Bytes_zero n : 0 <= n -> (n =? 0) = bool_decide (Bytes n = []).
Proof.
  intros Hn; pose proof (Bytes_nil n); destruct (Z.eqb_spec n 0); symmetry;
    [apply bool_decide_eq_true_2|apply bool_decide_eq_false_2]; naive_solver.
Qed.

(** The price pays for the refunds it makes possible, and a refund gives back
    no more than was pending. *)
Lemma price_covers gt o c n :
  table_ok gt -> 0 <= n ->
  let '(cost, flag) := sstore_price gt o c n in
  if flag then weight gt o (Bytes n) <= weight gt o c + cost
  else weight gt o (Bytes n) + cost <= weight gt o c.
Proof.
  intros Ht Hn; destruct Ht as [Hr Hp Hc Hre Hi].
  pose proof (Hr SstoreInitQuota); pose proof (Hr SstoreResetQuota); pose proof (Hr SstoreMemQuota).
  pose proof (Hr SstoreNoopQuota); pose proof (Hr SstoreCleanQuota).
  unfold sstore_price, bytes_Equal; rewrite !len_zero, !len_pos, (Bytes_zero n Hn).
  replace (0 <? n) with (negb (bool_decide (Bytes n = []))) by
    (rewrite <- Bytes_zero by done; destruct (Z.eqb_spec n 0), (Z.ltb_spec 0 n); done || lia).
  generalize (Bytes n) as v; intros v; unfold weight.
  rewrite !u64_small by (unfold is_u64; lia).
  repeat (case_bool_decide; subst; simpl; try congruence); lia.
Qed.

Lemma gasSStore_covers e s sz loc n l c flag s1 :
  env_ok e -> st s = loc :: n :: l -> 0 <= n -> gasSStore e s sz = Ok (c, flag, s1) ->
  let k := (BigToHash loc).1 in
  exists cur, GetValue (db s) k = Ok cur /\
    if flag
    then weight (gasTable e) (original (db s) k) (Bytes n)
         <= weight (gasTable e) (original (db s) k) cur + c
    else weight (gasTable e) (original (db s) k) (Bytes n) + c
         <= weight (gasTable e) (original (db s) k) cur.
Proof.
  intros He Est Hn; unfold gasSStore; rewrite Est; simpl.
  match goal with |- (?x ≫= _) = _ -> _ => destruct x as [s0| |] eqn:E0; simpl; [|done..] end.
  assert (Hdb : db s0 = db s).
  { destruct (IsEarthUpgrade _ _); [|by simplify_eq/=]; destruct (_ <? _); by simplify_eq/=. }
  rewrite Hdb; destruct (GetValue (db s) _) as [cur| |] eqn:Ec; simpl; [|done..].
  unfold bytes_Equal at 1; case_bool_decide as Heq.
  - intros [= <- <- _]; exists cur; split; [done|]; rewrite Heq.
    pose proof (tok_range _ (eo_table e He) SstoreNoopQuota); lia.
  - unfold original; destruct (db_GetOriginalValue (db s) _) as [o| |]; simpl; [|done..].
    pose proof (price_covers (gasTable e) o cur n (eo_table e He) Hn) as Hp.
    destruct (sstore_price _ _ _ _) as [cost fl]; intros [= <- <- _]; by exists cur.
Qed.

(** ** The credit of a run: quota left plus refunds still pending *)

Definition credit (e : env) (s : mstate) : Z := quotaLeft s + pending (gasTable e) (db s).

Lemma pending_same gt d d' :
  storage (uns d') = storage (uns d) -> chain d' = chain d -> db_address d' = db_address d ->
  pending gt d' = pending gt d.
Proof.
  intros Es Ec Ea; rewrite !pending_sum, Es; unfold original, db_GetOriginalValue.
  by rewrite Ec, Ea.
Qed.

Lemma UseQuotaWithFlag_spec q c flag v :
  is_u64 q -> is_u64 c -> UseQuotaWithFlag q c flag = Ok v ->
  if flag then v = q - c else v <= q + c.
Proof.
  intros Hq Hc; unfold UseQuotaWithFlag, UseQuota; destruct flag.
  - destruct (Z.ltb_spec q c); [done|]; intros [= <-].
    apply u64_small; unfold is_u64 in *; lia.
  - intros [= <-]; apply u64_le; unfold is_u64 in *; lia.
Qed.

(** The entry of SSTORE, on and off chain. *)
Lemma lookup_SSTORE box h off :
  lookup_op (newInterpreter box h off) SSTORE =
  Some (writing (if off then opOffchainSStore else opSStore) gasSStore (makeStackFunc 2 0) None).
Proof. unfold newInterpreter; by destruct (IsEarthUpgrade box h), (IsSeedUpgrade box h), off. Qed.

(** Off the chain nothing is buffered. *)
Definition clean (d : vmDb) : Prop := storage (uns d) = ∅ /\ deletedKeys (uns d) = ∅.

Lemma clean_price gt o n : (sstore_price gt o o n).2 = true.
Proof.
  unfold sstore_price, bytes_Equal; rewrite (bool_decide_eq_true_2 (o = o)) by done.
  repeat match goal with |- context [if ?b then _ else _] => destruct b; simpl; try done end.
Qed.

Lemma clean_gasSStore e s sz c flag s1 :
  clean (db s) -> gasSStore e s sz = Ok (c, flag, s1) -> flag = true.
Proof.
  intros [Hs Hdel]; unfold gasSStore.
  destruct (back (st s) 1) as [n| |]; simpl; [|done..].
  destruct (back (st s) 0) as [loc| |]; simpl; [|done..].
  match goal with |- (?x ≫= _) = _ -> _ => destruct x as [s0| |] eqn:E0; simpl; [|done..] end.
  assert (Hdb : db s0 = db s).
  { destruct (IsEarthUpgrade _ _); [|by simplify_eq/=]; destruct (_ <? _); by simplify_eq/=. }
  rewrite Hdb; unfold GetValue, db_GetValue, Unsaved_GetValue; rewrite Hs, lookup_empty, Hdel.
  rewrite bool_decide_eq_false_2 by set_solver; simpl.
  destruct (db_GetOriginalValue (db s) _) as [o| |]; simpl; [|done..].
  destruct (bytes_Equal o (Bytes n)); [by intros [= _ <- _]|].
  pose proof (clean_price (gasTable e) o n) as Hp.
  destruct (sstore_price _ _ _ _) as [cost fl]; simpl in Hp; intros [= _ <- _]; done.
Qed.

(** ** One round *)

Lemma sstore_credit e s s2 sz c flag s1 q ret s3 :
  env_ok e -> data_inv e s -> st s2 = st s -> db s2 = db s ->
  gasSStore e s sz = Ok (c, flag, s1) ->
  (if flag then q = quotaLeft s - c else q <= quotaLeft s + c) ->
  opSStore e s2 = Ok (ret, s3) ->
  q + pending (gasTable e) (db s3) <= quotaLeft s + pending (gasTable e) (db s) /\
  (length (st s3) < length (st s))%nat.
Proof.
  intros He Hd Est Edb Hgas Hq; unfold opSStore; rewrite Est, Edb.
  pose proof (di_words e s Hd) as W; destruct (st s) as [|loc [|n l]] eqn:Es; simpl; [done..|].
  apply Forall_cons_1 in W as [_ W]; apply Forall_cons_1 in W as [Hn _].
  rewrite SetValue_word by done; simpl; intros [= _ <-]; simpl; split; [|lia].
  destruct (gasSStore_covers e s sz loc n l c flag s1 He Es (proj1 Hn) Hgas) as (cur & Hcur & Hw).
  rewrite (pending_SetValue _ _ _ cur) by done; destruct flag; lia.
Qed.

Lemma sstore_offchain e s s2 sz c flag s1 q ret s3 :
  st s2 = st s -> db s2 = db s -> clean (db s) -> 0 <= c ->
  gasSStore e s sz = Ok (c, flag, s1) ->
  (if flag then q = quotaLeft s - c else q <= quotaLeft s + c) ->
  opOffchainSStore e s2 = Ok (ret, s3) ->
  q <= quotaLeft s /\ db s3 = db s /\ (length (st s3) < length (st s))%nat.
Proof.
  intros Est Edb Hclean Hc Hgas Hq; rewrite (clean_gasSStore e s sz c flag s1 Hclean Hgas) in Hq.
  unfold opOffchainSStore; rewrite Est.
  destruct (st s) as [|loc [|n l]]; simpl; [done..|]; intros [= _ <-]; simpl; split; [lia|].
  split; [done|lia].
Qed.

(** A round that goes on does not raise the credit, and either lowers it or
    shortens the stack. *)
Lemma step_credit e box h off s s' :
  let i := newInterpreter box h off in
  env_ok e -> inv e s -> (off = true -> clean (db s)) -> step e i s = Next s' ->
  credit e s' <= credit e s /\ (off = true -> clean (db s')) /\
  (credit e s' < credit e s \/ (length (st s') < length (st s))%nat).
Proof.
  intros i He Hinv Hclean; unfold step.
  destruct (lookup_op i (getOp e (pc s))) as [op|] eqn:Eop; [|done].
  destruct (step_round e i s op He (newInterpreter_ok box h off) Hinv Eop) as (a & b & sto & Hs & Hr).
  remember (getOp e (pc s)) as k eqn:Ek.
  inversion Hr as [err s'' Hq _ _ Eq|p Hp Eq|sz c flag q s2 ret s3 Hch Hc Hprog Hex Hpost Ha Hlim Eq];
    [done..|]; intros Hfin.
  apply finish_next in Hfin as (Hh & Est & _ & _ & Edb & Eq' & _ & _).
  destruct Hch as [[s1 Hgas] Huse Hleft _ Hst2 _ Hdb2 _ Hd2 _].
  destruct Hpost as [_ Hlen Hq3 (_ & _ & _ & Hchain & Haddr & _ & _) _ Hsto _ _].
  pose proof (UseQuotaWithFlag_spec _ _ _ _ (inv_quota e s Hinv) Hc Huse) as Hquota.
  unfold credit; rewrite Edb, Eq', Hq3, Hleft, Est.
  rewrite Hst2 in Hlen; rewrite Hdb2 in Hchain, Haddr, Hsto.
  destruct (decide (k = SSTORE)) as [->|Hk].
  - unfold i in Eop; rewrite lookup_SSTORE in Eop; injection Eop as <-; simpl in *.
    destruct off.
    + destruct (sstore_offchain e s s2 sz c flag s1 q ret s3 Hst2 Hdb2 (Hclean eq_refl)
                  (proj1 Hc) Hgas Hquota Hex) as (? & -> & ?).
      split; [lia|]; split; [done|by right].
    + destruct (sstore_credit e s s2 sz c flag s1 q ret s3 He (inv_data e s Hinv) Hst2 Hdb2
                  Hgas Hquota Hex) as [? ?].
      split; [done|]; split; [done|by right].
  - assert (sto = false) as -> by (destruct sto; [by destruct (Hk (os_sto _ _ _ _ _ Hs eq_refl))|done]).
    destruct (Hsto eq_refl) as [Hst3 Hdel3].
    rewrite (pending_same _ (db s) (db s3)) by done.
    destruct Hprog as [?|[->|[-> Hprog]]]; [done|by rewrite (os_stop _ _ _ _ _ Hs eq_refl) in Hh|].
    split; [unfold is_u64 in Hc; lia|]; split; [|destruct Hprog; [left|right]; lia].
    intros Hoff; destruct (Hclean Hoff); split; congruence.
Qed.

(** ** Whole runs *)

(** Decreases in every round: the stack has at most 1024 words. *)
Definition measure (e : env) (s : mstate) : nat :=
  Z.to_nat (1025 * credit e s + Z.of_nat (length (st s))).

Lemma credit_nonneg e s : env_ok e -> inv e s -> 0 <= credit e s.
Proof.
  intros He Hs; pose proof (pending_nonneg (gasTable e) (db s) (eo_table e He)).
  pose proof (inv_quota e s Hs); unfold credit, is_u64 in *; lia.
Qed.

Lemma step_measure e box h off s s' :
  let i := newInterpreter box h off in
  env_ok e -> inv e s -> (off = true -> clean (db s)) -> step e i s = Next s' ->
  (measure e s' < measure e s)%nat.
Proof.
  intros i He Hinv Hclean Hstep; pose proof (step_safe e i s He (newInterpreter_ok box h off) Hinv) as H.
  rewrite Hstep in H.
  destruct (step_credit e box h off s s' He Hinv Hclean Hstep) as (Hle & _ & Hlt).
  pose proof (credit_nonneg e s' He H); pose proof (credit_nonneg e s He Hinv).
  pose proof (inv_depth e s' H); pose proof (inv_depth e s Hinv).
  unfold measure, stackLimit in *; lia.
Qed.

Lemma run_from_ends e box h off fuel n s :
  env_ok e -> inv e s -> (off = true -> clean (db s)) -> (measure e s < fuel)%nat ->
  run_from fuel e (newInterpreter box h off) n s <> OutOfFuel.
Proof.
  intros He; revert n s; induction fuel as [|fuel IH]; intros n s Hinv Hclean Hf; [lia|]; simpl.
  destruct (abort e n); [done|].
  pose proof (step_safe e _ s He (newInterpreter_ok box h off) Hinv) as H.
  destruct (step e (newInterpreter box h off) s) as [s'| |] eqn:Es; [|done..].
  destruct (step_credit e box h off s s' He Hinv Hclean Es) as (_ & Hc & _).
  pose proof (step_measure e box h off s s' He Hinv Hclean Es).
  apply IH; [done|done|lia].
Qed.

Lemma steps_credit e box h off s s' :
  env_ok e -> inv e s -> (off = true -> clean (db s)) ->
  steps_to e (newInterpreter box h off) s s' -> credit e s' <= credit e s.
Proof.
  intros He Hinv Hclean H; induction H as [|s s1 s2 Hst _ IH]; [lia|].
  pose proof (step_safe e _ s He (newInterpreter_ok box h off) Hinv) as H1; rewrite Hst in H1.
  destruct (step_credit e box h off s s1 He Hinv Hclean Hst) as (Hle & Hc & _).
  specialize (IH H1 Hc); lia.
Qed.

(** A run on the chain that starts with nothing written. *)
Lemma run_ends e box h quota d sends fuel :
  env_ok e -> db_ok d -> storage (uns d) = ∅ -> is_u64 quota -> 1025 * quota < Z.of_nat fuel ->
  runLoop fuel e (newInterpreter box h false) quota d sends <> OutOfFuel.
Proof.
  intros He Hd Hs Hq Hf; apply run_from_ends; [done|by apply newContract_inv|done|].
  unfold measure, credit; simpl; rewrite pending_sum, Hs; unfold sum_of; rewrite map_fold_empty.
  destruct Hq; lia.
Qed.

(** ** Properties *)

(** C11 Every contract run ends, whatever the code, the quota and the
    chain: the number of rounds is below 1025 for each unit of quota and of
    refunds pending at the start.  Off the chain this needs an empty write
    buffer, since SSTORE is priced there but writes nothing. *)
Theorem run_terminates e box h off quota d sends fuel :
  env_ok e -> db_ok d -> is_u64 quota -> (off = true -> clean d) ->
  (Z.to_nat (1025 * (quota + pending (gasTable e) d)) < fuel)%nat ->
  runLoop fuel e (newInterpreter box h off) quota d sends <> OutOfFuel.
Proof.
  intros He Hd Hq Hclean Hf; apply run_from_ends; [done|by apply newContract_inv|done|].
  unfold measure, credit; simpl; lia.
Qed.

Lemma run_terminates_witness :
  runLoop (S (Z.to_nat (1025 * (1000 + pending (gasTable (example_env call_code)) example_db))))
    (example_env call_code) (newInterpreter example_box 100 true) 1000 example_db [] <> OutOfFuel.
Proof.
  apply (run_terminates (example_env call_code) example_box 100 true 1000 example_db []).
  - apply example_env_ok; vm_compute; reflexivity.
  - exact example_db_ok.
  - vm_compute; split; congruence.
  - split; reflexivity.
  - apply Nat.lt_succ_diag_r.
Defined.

(** C16 Storage refunds never give back more than was charged: the quota left
    in any state of a run is at most the quota at the start plus the refunds
    pending in the buffer at the start, so a run on an empty buffer never gains
    quota. *)
Theorem run_never_gains_quota e box h off quota d sends s :
  env_ok e -> db_ok d -> is_u64 quota -> (off = true -> clean d) ->
  steps_to e (newInterpreter box h off) (newContract quota d sends) s ->
  quotaLeft s <= quota + pending (gasTable e) d /\
  (storage (uns d) = ∅ -> quotaLeft s <= quota).
Proof.
  intros He Hd Hq Hclean Hs; pose proof (newContract_inv e quota d sends Hd Hq) as Hinv.
  pose proof (steps_credit e box h off _ _ He Hinv Hclean Hs) as Hc; unfold credit in Hc; simpl in Hc.
  pose proof (pending_nonneg (gasTable e) (db s) (eo_table e He)); split; [lia|].
  intros Hempty; rewrite (pending_sum _ d), Hempty in Hc; unfold sum_of in Hc.
  rewrite map_fold_empty in Hc; lia.
Qed.

Lemma run_never_gains_quota_witness :
  quotaLeft (example_run 5 call_code) <=
    1000000 + pending (gasTable (example_env call_code)) example_db /\
  (storage (uns example_db) = ∅ -> quotaLeft (example_run 5 call_code) <= 1000000).
Proof.
  apply (run_never_gains_quota (example_env call_code) example_box 100 false 1000000 example_db []).
  - apply example_env_ok; vm_compute; reflexivity.
  - exact example_db_ok.
  - vm_compute; split; congruence.
  - discriminate.
  - apply state_after_steps.
Defined.
