(* ===== verification/VmSpec.v ===== *)
(** What the execution of blocks does to balances: transfers move exactly their
    amount, a creation pays its fee and registers what was checked, contract
    calls neither create nor lose tokens, and a failed call leaves no trace but
    the refund. *)
From S2P Require Import Prelude Helper Types Upgrade QuotaParams QuotaTable VmDb AccountQuota.
From S2P Require Import Builtin Opcodes AccountBlock CreateData Destination Machine.
From S2P Require Import Instructions GasTable JumpTable Interpreter Vm World.
From S2P Require Import AccountQuotaSpec InstructionSafety Safety Termination.

(** ** Inversion of successful executions *)

Lemma bind_Done {A B} (m : M A) (k : A -> M B) c b c2 :
  (m ≫= k) c = Done b c2 -> exists a c1, m c = Done a c1 /\ k a c1 = Done b c2.
Proof. unfold mbind, M_bind; destruct (m c) as [a c1| | |]; intros H; try done; eauto. Qed.

Lemma or_return_Done {A} r (m : M A) k c res c2 :
  or_return r m k c = Done res c2 ->
  (exists a c1, m c = Done a c1 /\ k a c1 = Done res c2) \/
  (exists e, m c = Fail e c2 /\ res = mkResult None r (Some e)).
Proof. unfold or_return; destruct (m c) as [a c1|e c1| |]; intros H; simplify_eq; eauto. Qed.

Lemma reads_Done {A} (f : vmDb -> result A) c a c1 :
  reads f c = Done a c1 -> f (vc_db c) = Ok a /\ c1 = c.
Proof. unfold reads; destruct (f (vc_db c)); intros H; by simplify_eq. Qed.

Lemma lift_Fail {A} (r : result A) c e c1 : lift r c = Fail e c1 -> r = Err e /\ c1 = c.
Proof. unfold lift, reads; destruct r; intros H; by simplify_eq. Qed.

Lemma lift_Done {A} (r : result A) c a c1 : lift r c = Done a c1 -> r = Ok a /\ c1 = c.
Proof. exact (reads_Done (fun _ => r) c a c1). Qed.

Lemma try_Done {A} (m : M A) c r c1 :
  try m c = Done r c1 ->
  match r with inl a => m c = Done a c1 | inr e => m c = Fail e c1 end.
Proof. unfold try; destruct (m c); intros H; by simplify_eq. Qed.

Lemma bind_OkE {E A B} (m : outcome E A) (k : A -> outcome E B) b :
  (m ≫= k) = Ok b -> exists a, m = Ok a /\ k a = Ok b.
Proof. destruct m; simpl; intros H; [eauto|done..]. Qed.

Lemma DealWithErr_Ok {A} (r : outcome unit A) a : DealWithErr r = Ok a -> r = Ok a.
Proof. by destruct r; intros H; simplify_eq/=. Qed.

Lemma or_panic_Ok {E A} p (o : option A) a : (or_panic p o : outcome E A) = Ok a -> o = Some a.
Proof. by destruct o; intros H; simplify_eq/=. Qed.

(** Running forward. *)
Lemma bind_run {A B} (m : M A) (k : A -> M B) c a c1 : m c = Done a c1 -> (m ≫= k) c = k a c1.
Proof. unfold mbind, M_bind; by intros ->. Qed.

Lemma bind_fail {A B} (m : M A) (k : A -> M B) c e c1 : m c = Fail e c1 -> (m ≫= k) c = Fail e c1.
Proof. unfold mbind, M_bind; by intros ->. Qed.

Lemma reads_run {A} (f : vmDb -> result A) c a : f (vc_db c) = Ok a -> reads f c = Done a c.
Proof. unfold reads; by intros ->. Qed.

Lemma or_return_run {A} r (m : M A) k c a c1 : m c = Done a c1 -> or_return r m k c = k a c1.
Proof. unfold or_return; by intros ->. Qed.

Lemma or_return_fail {A} r (m : M A) k c e c1 :
  m c = Fail e c1 -> or_return r m k c = Done (mkResult None r (Some e)) c1.
Proof. unfold or_return; by intros ->. Qed.

(** Take apart what an execution that succeeded went through. *)
Ltac inv_M :=
  repeat match goal with
  | H : (_ ≫= _) _ = Done _ _ |- _ => apply bind_Done in H as (? & ? & ? & ?)
  | H : reads _ _ = Done _ _ |- _ => apply reads_Done in H as [? ?]
  | H : lift _ _ = Done _ _ |- _ => apply lift_Done in H as [? ?]
  | H : mret _ _ = Done _ _ |- _ => unfold mret, M_ret in H
  | H : fail _ _ = Done _ _ |- _ => discriminate H
  | H : crash _ _ = Done _ _ |- _ => discriminate H
  | H : set_db _ _ = Done _ _ |- _ => unfold set_db in H
  | H : set_sends _ _ = Done _ _ |- _ => unfold set_sends in H
  | H : get_sends _ = Done _ _ |- _ => unfold get_sends in H
  | H : revert _ = Done _ _ |- _ => unfold revert in H
  | H : appendBlock _ _ = Done _ _ |- _ => unfold appendBlock in H
  | H : try _ _ = Done _ _ |- _ => apply try_Done in H
  | H : (_ ≫= _) = Ok _ |- _ => apply bind_OkE in H as (? & ? & ?)
  | H : DealWithErr _ = Ok _ |- _ => apply DealWithErr_Ok in H
  | H : or_panic _ _ = Ok _ |- _ => apply or_panic_Ok in H
  | H : Ok _ = Ok _ |- _ => apply Ok_inj in H
  | H : Done _ _ = Done _ _ |- _ => injection H; clear H; intros
  | H : (_, _) = (_, _) |- _ => injection H; clear H; intros
  | H : Err _ = Ok _ |- _ => discriminate H
  | H : Panic _ = Ok _ |- _ => discriminate H
  | H : Ok _ = Err _ |- _ => discriminate H
  | x : (_ * _)%type |- _ => destruct x
  | x : unit |- _ => destruct x
  | H : (if true then _ else _) _ = _ |- _ => cbv iota in H
  | H : (if false then _ else _) _ = _ |- _ => cbv iota in H
  | _ => progress subst
  end.

(** ** Movements of balances *)

(** From [d] to [d'] the balance of every token [t] changes by [f t]. *)
Definition moves (d d' : vmDb) (f : TokenTypeId -> Z) : Prop :=
  forall t, db_GetBalance d' t = (fun b => b + f t) <$> db_GetBalance d t.

(** [a] units of token [id]. *)
Definition coins (id : TokenTypeId) (a : Z) : TokenTypeId -> Z :=
  fun t => if decide (t = id) then a else 0.

Definition nothing : TokenTypeId -> Z := fun _ => 0.

Lemma moves_trans d1 d2 d3 f g h :
  moves d1 d2 f -> moves d2 d3 g -> (forall t, h t = f t + g t) -> moves d1 d3 h.
Proof.
  intros H1 H2 Hh t; rewrite H2, H1; destruct (db_GetBalance d1 t); simpl; [|done..].
  f_equal; rewrite Hh; lia.
Qed.

Lemma moves_same d d' :
  balanceMap (uns d') = balanceMap (uns d) -> chain d' = chain d -> db_address d' = db_address d ->
  moves d d' nothing.
Proof.
  intros Eb Ec Ea t; unfold db_GetBalance; rewrite Eb, Ec, Ea; unfold nothing.
  destruct (balanceMap (uns d) !! t); simpl; [f_equal; lia|].
  destruct (ch_GetBalance _ _ _); simpl; [f_equal; lia|done..].
Qed.

Lemma moves_SetBalance d id b a :
  db_GetBalance d id = Ok b -> moves d (db_SetBalance d id (b + a)) (coins id a).
Proof.
  intros Hb t; rewrite GetBalance_SetBalance; unfold coins; case_decide; [by subst; rewrite Hb|].
  destruct (db_GetBalance d t); simpl; [f_equal; lia|done..].
Qed.

Lemma addBalance_Done id o c x c1 :
  addBalance id o c = Done x c1 ->
  exists a b, o = Some a /\ db_GetBalance (vc_db c) id = Ok b /\
    c1 = mkContext (db_SetBalance (vc_db c) id (b + a)) (vc_sends c).
Proof.
  unfold addBalance; intros H; inv_M; unfold AddBalance in *; inv_M; eexists _, _; eauto.
Qed.

Lemma subBalance_Done id o c x c1 :
  subBalance id o c = Done x c1 ->
  exists a b, o = Some a /\ db_GetBalance (vc_db c) id = Ok b /\ a <= b /\
    c1 = mkContext (db_SetBalance (vc_db c) id (b - a)) (vc_sends c).
Proof.
  unfold subBalance; intros H; inv_M; unfold SubBalance in *; inv_M.
  match goal with H : (if ?a <=? ?b then _ else _) = Ok _ |- _ => destruct (Z.leb_spec a b) end; inv_M.
  eexists _, _; eauto.
Qed.

(** ** Transfers and creations *)

Lemma Copy_fields b :
  BlockType (Copy b) = BlockType b /\ AccountAddress (Copy b) = AccountAddress b /\
  ToAddress (Copy b) = ToAddress b /\ Amount (Copy b) = Amount b /\ TokenId (Copy b) = TokenId b /\
  Data (Copy b) = Data b /\ Difficulty (Copy b) = Difficulty b /\ Height (Copy b) = Height b /\
  PrevHash (Copy b) = PrevHash b /\ Fee (Copy b) = Fee b.
Proof. by destruct b. Qed.

Lemma blockQuota_Copy vm b d : blockQuota vm (Copy b) d = blockQuota vm b d.
Proof. by destruct b. Qed.

Lemma useQuotaForSend_Copy b q gt d : useQuotaForSend (set_Fee (Copy b) (Some 0)) q gt d = useQuotaForSend b q gt d.
Proof. by destruct b. Qed.

Lemma canTransfer_no_fee isTest id a d b :
  db_GetBalance d id = Ok b -> canTransfer isTest id (Some a) (Some 0) d = Ok (isTest || (a <=? b)).
Proof. intros Hb; unfold canTransfer; destruct isTest; simpl; by rewrite ?Hb. Qed.

Lemma subBalance_exact id a c b :
  db_GetBalance (vc_db c) id = Ok b ->
  subBalance id (Some a) c =
    if a <=? b then Done tt (mkContext (db_SetBalance (vc_db c) id (b - a)) (vc_sends c))
    else Fail ErrInsufficientBalance c.
Proof.
  intros Hb; unfold subBalance, mbind, M_bind, reads, SubBalance; rewrite Hb; simpl.
  by destruct (a <=? b).
Qed.

Lemma moves_Finish d : moves d (db_Finish d) nothing.
Proof.
  apply moves_same; [|done..]; simpl; unfold Unsaved_GetStorage; by destruct (storageDirty (uns d)).
Qed.

(** C32 A transfer with enough quota, to no built-in contract, succeeds exactly
    when the balance covers the amount.  It then takes the amount, and nothing
    else, from the sender, changes no other part of the database, and returns
    the block with its fee and quota filled in; otherwise it changes nothing. *)
Theorem transfer_exact n d b s st sb qt qa ql a bal :
  let vm := machineAt n (sb_Height sb) None in
  db_LatestSnapshotBlock d = Ok sb -> BlockType b = BlockTypeSendCall ->
  GetBuiltinContractMethod (n_contracts n) (n_box n) (ToAddress b) (Data b) (sb_Height sb) = NotBuiltin ->
  blockQuota vm b d = Ok (qt, qa) -> useQuotaForSend b qt (vm_gasTable vm) d = Ok ql ->
  Amount b = Some a -> db_GetBalance d (TokenId b) = Ok bal ->
  let '(qs, qu) := CalcQuotaUsed true qt qa ql None in
  let d' := db_Finish (db_SetBalance d (TokenId b) (bal - a)) in
  moves d d' (coins (TokenId b) (- a)) /\
  RunV2 n d b s st =
    if a <=? bal
    then Done (mkResult (Some (set_quotas (set_Fee (Copy b) (Some 0)) qs qu)) noRetry None)
              (mkContext d' [])
    else Done (mkResult None noRetry (Some ErrInsufficientBalance)) (mkContext (db_Finish d) []).
Proof.
  intros vm Hsb Hbt Hm Hq Hu Ha Hbal; destruct (CalcQuotaUsed _ _ _ _ _) as [qs qu] eqn:Ecalc; cbv zeta.
  destruct (Copy_fields b) as (Ft & _ & Fto & Fa & Ftk & Fd & _).
  split.
  - eapply moves_trans; [|apply moves_Finish|].
    + replace (bal - a) with (bal + - a) by lia; by apply moves_SetBalance.
    + intros t; unfold nothing; lia.
  - assert (Hsend : sendCall vm (Copy b) true qt qa (mkContext d []) =
      if a <=? bal then Done (set_quotas (set_Fee (Copy b) (Some 0)) qs qu)
                             (mkContext (db_SetBalance d (TokenId b) (bal - a)) [])
      else Fail ErrInsufficientBalance (mkContext d [])).
    { unfold sendCall; rewrite Fto, Fd; simpl vm_node; simpl vm_latestSnapshotHeight; rewrite Hm.
      rewrite <- (useQuotaForSend_Copy b) in Hu; set (b1 := set_Fee (Copy b) (Some 0)) in *.
      assert (Fb : Amount b1 = Some a /\ TokenId b1 = TokenId b /\ BlockType b1 = BlockTypeSendCall)
        by (unfold b1; simpl; by rewrite Fa, Ftk, Ft, Ha, Hbt).
      destruct Fb as (Fb1 & Fb2 & Fb3); rewrite Fb1, Fb2.
      pose proof (canTransfer_no_fee (n_isTest n) _ a _ _ Hbal) as Hcan.
      pose proof (subBalance_exact (TokenId b) a (mkContext d []) bal Hbal) as Hsub.
      destruct (a <=? bal) eqn:Ele.
      - erewrite bind_run; [|erewrite bind_run; [|by apply reads_run, Hu];
          erewrite bind_run; [|by apply reads_run, Hcan]; rewrite orb_true_r; cbn [negb];
          erewrite bind_run; [|exact Hsub]; reflexivity].
        cbv beta iota; rewrite Ecalc; unfold updateBlock; change (BlockType (set_quotas b1 qs qu)) with (BlockType b1); by rewrite Fb3.
      - apply bind_fail; erewrite bind_run; [|by apply reads_run, Hu].
        erewrite bind_run; [|by apply reads_run, Hcan]; rewrite orb_false_r.
        destruct (n_isTest n); [by apply bind_fail|done]. }
    unfold RunV2; rewrite Hsb; cbn [DealWithErr]; rewrite Ft, Hbt.
    change (IsSendBlock BlockTypeSendCall) with true; cbv iota zeta; fold vm; unfold sendV2; rewrite Ft, Hbt.
    change (BlockTypeSendCall =? BlockTypeSendCreate) with false; cbn [orb Z.eqb BlockTypeSendCall Pos.eqb].
    erewrite or_return_run by (apply reads_run; rewrite blockQuota_Copy; exact Hq).
    destruct (a <=? bal); [by erewrite or_return_run by exact Hsend|].
    by erewrite or_return_fail by exact Hsend.
Qed.

Lemma transfer_exact_witness :
  let b := MakeRequestBlock ZERO_ADDRESS ZERO_ADDRESS BlockTypeSendCall 7 ViteTokenId [] in
  let d' := db_Finish (db_SetBalance example_db ViteTokenId (10 ^ 20 - 7)) in
  moves example_db d' (coins ViteTokenId (- 7)).
Proof.
  refine (proj1 (transfer_exact example_node example_db
    (MakeRequestBlock ZERO_ADDRESS ZERO_ADDRESS BlockTypeSendCall 7 ViteTokenId []) None None
    (mkSnapshotBlock ZERO_HASH 100 0) 970480 0 949480 7 (10 ^ 20) _ _ _ _ _ _ _));
    vm_compute; reflexivity.
Defined.

(** What a creation request that passed the checks guarantees of the contract. *)
Record meta_ok (box : upgradeBox) (h : Z) (data : bytes) (m : ContractMeta) : Prop := {
  mok_gid : cm_Gid m <> SNAPSHOT_GID;
  mok_counts : 0 <= SeedConfirmedTimes m <= SendConfirmedTimes m /\ SendConfirmedTimes m <= 75;
  mok_ratio : 10 <= QuotaRatio m <= 100;
  mok_code : exists code, GetCodeFromCreateContractData box data h = Ok code /\
    if IsSeedUpgrade box h
    then exists rs rss, ContainsCertainStatusCode code = Ok (rs, rss) /\
           (rs = true -> 0 < SendConfirmedTimes m) /\ (rss = true -> 0 < SeedConfirmedTimes m)
    else exists c, ContainsStatusCode code = Ok c /\ (c = true -> 0 < SendConfirmedTimes m);
}.

Lemma data_byte_range data i v : data_byte data i = Ok v -> 0 <= v < 256.
Proof.
  unfold data_byte; destruct (data !! i); simpl; intros H; simplify_eq; apply byte_Z_range.
Qed.

(** Split the test that guards the rest of a computation that succeeded. *)
Ltac test_passed E :=
  match goal with
  | H : (if ?b then _ else _) = Ok _ |- _ => destruct b eqn:E; [discriminate H|]
  end.

Lemma checkCreateData_ok box data h m : checkCreateData box data h = Ok m -> meta_ok box h data m.
Proof.
  unfold checkCreateData; intros H; test_passed E0; inv_M; test_passed E1; inv_M; test_passed E2; inv_M.
  test_passed E3; inv_M; test_passed E4; apply bool_decide_eq_false in E1.
  match goal with H : GetSnapshotCountFromCreateContractData _ = Ok _ |- _ => apply data_byte_range in H end.
  unfold snapshotCountMin, snapshotCountMax, snapshotWithSeedCountMin, snapshotWithSeedCountMax in *.
  destruct (IsSeedUpgrade box h) eqn:Es; cbn [negb] in *; inv_M.
  - test_passed E5; inv_M; test_passed E6; test_passed E7; inv_M.
    split; simpl; [done|lia..|]; eexists; split; [eassumption|]; rewrite Es.
    eexists _, _; split; [eassumption|]; split; intros ->; simpl in *; lia.
  - test_passed E5; inv_M; split; simpl; [done|lia..|]; eexists; split; [eassumption|]; rewrite Es.
    eexists; split; [eassumption|]; intros ->; simpl in *; lia.
Qed.

Lemma updateBlock_Done vm b err qs qu c b' c1 :
  updateBlock vm b err qs qu c = Done b' c1 ->
  c1 = c /\ exists lh, b' = set_outcome (set_quotas b qs qu)
    (if IsReceiveBlock (BlockType b)
     then if bool_decide (err = Some ErrOutOfQuota) then BlockTypeReceiveError else BlockTypeReceive
     else BlockType b) lh.
Proof.
  unfold updateBlock; change (BlockType (set_quotas b qs qu)) with (BlockType b).
  destruct (IsReceiveBlock (BlockType b)); intros H; inv_M; (split; [done|]); [eauto|].
  exists (LogHash b); by destruct b.
Qed.

Lemma RunV2_Done n d b s st r c' sb :
  RunV2 n d b s st = Done r c' -> db_LatestSnapshotBlock d = Ok sb ->
  exists c, c' = mkContext (db_Finish (vc_db c)) (vc_sends c) /\
    (if IsSendBlock (BlockType b) then sendV2 (machineAt n (sb_Height sb) None) (Copy b)
     else receiveV2 (machineAt n (sb_Height sb) st) (Copy b) s) (mkContext d []) = Done r c.
Proof.
  unfold RunV2; intros H Hsb; rewrite Hsb in H; cbn [DealWithErr] in H; destruct (Copy_fields b) as [Ft _].
  rewrite Ft in H; cbv zeta in H; destruct (IsSendBlock (BlockType b)); revert H; unfold finished.
  all: match goal with |- context [match ?x with _ => _ end] => destruct x as [r0 c0| | |] eqn:E end;
    intros H; simplify_eq; eauto.
Qed.

(** Name the results of the next step of an execution that succeeded. *)
Tactic Notation "next" hyp(H) "as" simple_intropattern(a) simple_intropattern(c) simple_intropattern(E) :=
  apply bind_Done in H as (a & c & E & H).

Lemma use_quota_context {A} (uq : bool) (m : result A) a0 c a c1 :
  (if uq then lift m else mret a0) c = Done a c1 -> c1 = c.
Proof. destruct uq; intros H; by inv_M. Qed.

Lemma sendCreate_Done vm b uq qt qa c b' c' :
  sendCreate vm b uq qt qa c = Done b' c' -> BlockType b = BlockTypeSendCreate ->
  let n := vm_node vm in
  let addr := NewContractAddress (n_Hash20 n) (AccountAddress b) (Height b) (PrevHash b) in
  exists a m bal, Amount b = Some a /\
    checkCreateData (n_box n) (Data b) (vm_latestSnapshotHeight vm) = Ok m /\
    db_GetBalance (vc_db c) (TokenId b) = Ok bal /\ a <= bal /\
    Fee b' = Some createContractFee /\ ToAddress b' = addr /\
    contractMetaMap (uns (vc_db c')) = <[addr := m]> (contractMetaMap (uns (vc_db c))) /\
    moves (vc_db c) (vc_db c')
      (fun t => coins (TokenId b) (- a) t + coins ViteTokenId (- createContractFee) t).
Proof.
  intros H Hbt n addr; unfold sendCreate in H; next H as ql c1 E; apply use_quota_context in E as ->.
  next H as m c1 Em; apply lift_Done in Em as [Em ->].
  next H as fee c1 Ef; apply lift_Done in Ef as [[= <-] ->].
  next H as ok c1 Eok; apply reads_Done in Eok as [_ ->]; destruct ok; cbn [negb] in H; [|done].
  next H as [] c1 E1; apply subBalance_Done in E1 as (a & bal & Ea & Ebal & Hle & ->).
  next H as [] c1 E2; apply subBalance_Done in E2 as (fee & vbal & [= <-] & Evite & _ & ->).
  destruct (CalcQuotaUsed _ _ _ _ _) as [qs qu]; next H as b1 c1 E3.
  apply updateBlock_Done in E3 as (-> & lh & ->); inv_M.
  exists a, m, bal; split_and!; try done; simpl.
  eapply moves_trans; [eapply moves_trans; [| |reflexivity]|apply moves_same; reflexivity|].
  - replace (bal - a) with (bal + - a) by lia; apply moves_SetBalance, Ebal.
  - replace (vbal - createContractFee) with (vbal + - createContractFee) by lia.
    apply moves_SetBalance, Evite.
  - intros t; unfold nothing; simpl; lia.
Qed.

(** A contract creation that succeeds passed all the checks on its data,
    takes its amount and the fee of 10 VITE from the sender and nothing else,
    and registers the new contract under the address derived from the sender,
    its height and its previous block. *)
Theorem creation_charges n d b s st r c' sb b' :
  RunV2 n d b s st = Done r c' -> db_LatestSnapshotBlock d = Ok sb ->
  BlockType b = BlockTypeSendCreate -> vr_block r = Some b' ->
  exists a m, Amount b = Some a /\ meta_ok (n_box n) (sb_Height sb) (Data b) m /\
    vr_err r = None /\ vr_retry r = noRetry /\ Fee b' = Some createContractFee /\
    ToAddress b' = NewContractAddress (n_Hash20 n) (AccountAddress b) (Height b) (PrevHash b) /\
    contractMetaMap (uns (vc_db c')) = <[ToAddress b' := m]> (contractMetaMap (uns d)) /\
    moves d (vc_db c') (fun t => coins (TokenId b) (- a) t + coins ViteTokenId (- createContractFee) t) /\
    exists bal, db_GetBalance d (TokenId b) = Ok bal /\ a <= bal.
Proof.
  intros HR Hsb Hbt Hb'; destruct (RunV2_Done _ _ _ _ _ _ _ _ HR Hsb) as (c & -> & H).
  destruct (Copy_fields b) as (Ft & Fac & Fto & Fa & Ftk & Fd & _ & Fh & Fp & _).
  rewrite Hbt in H; change (IsSendBlock BlockTypeSendCreate) with true in H; cbv iota in H.
  unfold sendV2 in H; rewrite Ft, Hbt in H.
  change (BlockTypeSendCreate =? BlockTypeSendCreate) with true in H; cbn [orb] in H.
  apply or_return_Done in H as [([qt qa] & c1 & Hq & H)|(e & _ & ->)]; [|done].
  apply or_return_Done in H as [(b1 & c2 & H & Hr)|(e & _ & ->)]; [|done].
  apply sendCreate_Done in H as (a & m & bal & Ea & Em & Ebal & Hle & Efee & Eto & Emeta & Hmv); [|by rewrite Ft].
  rewrite Fa, Ftk, Fac, Fh, Fp, Fd in *; injection Hr as <- <-; injection Hb' as <-.
  apply checkCreateData_ok in Em.
  assert (Ec1 : c1 = mkContext d []) by (by inv_M); subst c1; simpl in *.
  exists a, m; split_and!; try done; [|eapply moves_trans; [exact Hmv|apply moves_Finish|]|by exists bal].
  - rewrite Eto, <- Emeta; unfold Unsaved_GetStorage; by destruct (storageDirty _).
  - intros t; unfold nothing; lia.
Qed.

Definition example_creation : AccountBlock :=
  MakeRequestBlock ZERO_ADDRESS ZERO_ADDRESS BlockTypeSendCreate 7 ViteTokenId
    (GetCreateContractData [x60; x00; x60; x00; xf3] x01 x01 x00 x0a DELEGATE_GID).

(** Whether an execution gave a block, and this error. *)
Definition gave_block (e : option vm_err) (x : exec vm_result) : bool :=
  match x with Done (mkResult (Some _) _ e') _ => bool_decide (e' = e) | _ => false end.

Lemma gave_block_Done e x :
  gave_block e x = true -> exists r c b, x = Done r c /\ vr_block r = Some b /\ vr_err r = e.
Proof. destruct x as [[[b|] rt e'] c| | |]; intros H%bool_decide_eq_true || done; by eexists _, _, b. Qed.

Lemma creation_charges_witness :
  exists r c' b', RunV2 example_node example_db example_creation None None = Done r c' /\
    vr_block r = Some b' /\ Fee b' = Some createContractFee.
Proof.
  destruct (gave_block_Done None (RunV2 example_node example_db example_creation None None))
    as (r & c' & b' & E & Eb & Ee); [vm_compute; reflexivity|].
  exists r, c', b'; split; [exact E|]; split; [exact Eb|].
  destruct (creation_charges _ _ _ _ _ _ _ (mkSnapshotBlock ZERO_HASH 100 0) b' E eq_refl eq_refl Eb)
    as (a & m & _ & _ & _ & _ & Hf & _); exact Hf.
Defined.

(** ** Lists of sent blocks *)

(** What the account of a sent block pays: the amount and the fee, and nothing
    for a reward, which is minted. *)
Definition spent (b : AccountBlock) (t : TokenTypeId) : Z :=
  if BlockType b =? BlockTypeSendReward then 0
  else coins (TokenId b) (default 0 (Amount b)) t + coins ViteTokenId (default 0 (Fee b)) t.

Definition total_spent (l : list AccountBlock) (t : TokenTypeId) : Z :=
  foldr (fun b z => spent b t + z) 0 l.

Lemma coins_opp id a t : coins id (- a) t = - coins id a t.
Proof. unfold coins; case_decide; lia. Qed.

Lemma coins_zero id t : coins id 0 t = 0.
Proof. unfold coins; by case_decide. Qed.

Lemma spent_no_fee b a t :
  BlockType b <> BlockTypeSendReward -> Amount b = Some a -> Fee b = Some 0 ->
  spent b t = coins (TokenId b) a t.
Proof.
  intros Hr Ha Hf; unfold spent; rewrite Ha, Hf; destruct (Z.eqb_spec (BlockType b) BlockTypeSendReward); [done|].
  simpl; rewrite coins_zero; lia.
Qed.

Lemma moves_ext d d' f g : moves d d' f -> (forall t, f t = g t) -> moves d d' g.
Proof. intros H E t; by rewrite H, E. Qed.

(** The handle of the database is the same. *)
Definition same_handle (d d' : vmDb) : Prop :=
  chain d' = chain d /\ db_address d' = db_address d /\
  latestSnapshotBlockHash d' = latestSnapshotBlockHash d /\ prevAccountBlockHash d' = prevAccountBlockHash d.

#[export] Instance same_handle_preorder : PreOrder same_handle.
Proof. unfold same_handle; split; [by intros d|intros d1 d2 d3; naive_solver congruence]. Qed.

(** Nothing but balances differs. *)
Record rest_same (d d' : vmDb) : Prop := {
  rs_handle : same_handle d d';
  rs_storage : storage (uns d') = storage (uns d);
  rs_deleted : deletedKeys (uns d') = deletedKeys (uns d);
  rs_wf : uns_wf (uns d) -> uns_wf (uns d');
}.

#[export] Instance rest_same_preorder : PreOrder rest_same.
Proof.
  split; [by intros d|intros d1 d2 d3 [] []; split; [by etrans|by etrans|by etrans|auto]].
Qed.

Lemma rest_SetBalance d id a : rest_same d (db_SetBalance d id a).
Proof. split; [done..|]; apply (uns_step_wf _ _ (step_SetBalance (uns d) id a)). Qed.

(** What the machine relies on in the built-in contracts: accepting a request
    does not write to the database, and may change only the data of the block. *)
Class BuiltinLaws (n : node) : Prop := {
  DoSend_db g a f sel p d b :
    n_contracts n g a = Some f -> f sel = Some p -> (DoSend p d b).1.2 = d;
  DoSend_block g a f sel p d b d' b' :
    n_contracts n g a = Some f -> f sel = Some p -> DoSend p d b = (Ok tt, d', b') -> b' = set_Data b (Data b');
}.

(** The method that data select of the contract at an address, if there is one, has no fee. *)
Definition free_call (n : node) (a : Address) (data : bytes) : Prop := forall g f p b fee,
  n_contracts n g a = Some f -> f data = Some p -> GetFee p b = Ok fee -> fee = 0.

(** No method of the contract has one. *)
Definition free_calls (n : node) (a : Address) : Prop := forall data, free_call n a data.

(** Whether it succeeds or not, an execution changes nothing but balances. *)
Definition keeps_rest {A} (m : M A) : Prop := forall c,
  match m c with Done _ c' | Fail _ c' => rest_same (vc_db c) (vc_db c') | _ => True end.

Lemma keeps_bind {A B} (m : M A) (k : A -> M B) :
  keeps_rest m -> (forall a, keeps_rest (k a)) -> keeps_rest (m ≫= k).
Proof.
  intros Hm Hk c; unfold mbind, M_bind; specialize (Hm c); destruct (m c) as [a c1| | |]; try done.
  specialize (Hk a c1); destruct (k a c1); try done; by etrans.
Qed.

Lemma keeps_reads {A} (f : vmDb -> result A) : keeps_rest (reads f).
Proof. intros c; unfold reads; by destruct (f (vc_db c)). Qed.

Lemma keeps_sub id o : keeps_rest (subBalance id o).
Proof.
  intros c; unfold subBalance, mbind, M_bind, reads, SubBalance.
  destruct (db_GetBalance (vc_db c) id); try done; destruct o; try done; simpl.
  destruct (_ <=? _); [apply rest_SetBalance|done].
Qed.

Create HintDb rest.
#[export] Hint Resolve keeps_reads keeps_sub : rest.
Ltac keeps :=
  repeat match goal with
  | |- keeps_rest (if ?x then _ else _) => destruct x
  | |- keeps_rest (let '(_, _) := ?x in _) => destruct x
  | |- keeps_rest (mbind _ _) => apply keeps_bind; [|intros ?]
  | |- keeps_rest (lift _) => apply keeps_reads
  | |- keeps_rest _ => solve [auto with rest | intros ?; done]
  end.


Section Sending.
Context (vm : VM) `{Laws : !BuiltinLaws (vm_node vm)}.

Lemma subBalance_moves id o c x c1 :
  subBalance id o c = Done x c1 ->
  exists a, o = Some a /\ moves (vc_db c) (vc_db c1) (coins id (- a)) /\
    same_handle (vc_db c) (vc_db c1) /\ vc_sends c1 = vc_sends c.
Proof.
  intros H; apply subBalance_Done in H as (a & b & -> & Hb & _ & ->); exists a; split_and!; try done.
  simpl; replace (b - a) with (b + - a) by lia; by apply moves_SetBalance.
Qed.

(** A block that was sent: the account paid for it. *)
Record sent (b b' : AccountBlock) (c c' : vmContext) : Prop := {
  sent_type : BlockType b' = BlockType b;
  sent_sends : vc_sends c' = vc_sends c;
  sent_handle : same_handle (vc_db c) (vc_db c');
  sent_moves : moves (vc_db c) (vc_db c') (fun t => - spent b' t);
  sent_value : TokenId b' = TokenId b /\ Amount b' = Amount b;
  sent_fee : (BlockType b = BlockTypeSendCall -> free_call (vm_node vm) (ToAddress b) (Data b)) -> BlockType b <> BlockTypeSendReward -> Fee b' = Some 0;
}.

Lemma quota_context (uq : bool) (f : vmDb -> result Z) q c a c1 :
  (if uq then reads f else mret q) c = Done a c1 -> c1 = c.
Proof. destruct uq; intros H; by inv_M. Qed.

Lemma sendRefund_sent b uq qt qa c b' c' :
  sendRefund vm b uq qt qa c = Done b' c' -> BlockType b = BlockTypeSendRefund -> sent b b' c c'.
Proof.
  intros H Hbt; unfold sendRefund in H; next H as ql c1 E; apply quota_context in E as ->.
  next H as ok c1 E; apply reads_Done in E as [_ ->]; destruct ok; cbn [negb] in H; [|done].
  next H as [] c1 E; apply subBalance_moves in E as (a & Ea & Hm & Hh & Hs).
  destruct (CalcQuotaUsed _ _ _ _ _) as [qs qu]; apply updateBlock_Done in H as (-> & lh & ->).
  simpl in *; rewrite Hbt; split; try done; eapply moves_ext; [exact Hm|]; intros t.
  by rewrite (spent_no_fee _ a), coins_opp.
Qed.

Lemma sendReward_sent b uq qt qa c b' c' :
  sendReward vm b uq qt qa c = Done b' c' -> BlockType b = BlockTypeSendReward -> sent b b' c c'.
Proof.
  intros H Hbt; unfold sendReward in H; next H as ql c1 E; apply quota_context in E as ->.
  destruct (_ && _); [done|]; destruct (CalcQuotaUsed _ _ _ _ _) as [qs qu].
  apply updateBlock_Done in H as (-> & lh & ->); rewrite Hbt; split; simpl; try done.
  by apply moves_same.
Qed.

Lemma sendCall_sent b uq qt qa c b' c' :
  sendCall vm b uq qt qa c = Done b' c' -> BlockType b = BlockTypeSendCall -> sent b b' c c'.
Proof.
  intros H Hbt; unfold sendCall in H; next H as [b1 ql] c0 E.
  destruct (CalcQuotaUsed _ _ _ _ _) as [qs qu]; apply updateBlock_Done in H as (-> & lh & ->).
  assert (Hsent : sent b b1 c c0).
  { unfold GetBuiltinContractMethod in E; destruct (n_contracts _ _ _) as [f|] eqn:Ef;
      [destruct (f (Data b)) as [p|] eqn:Ep; [|done]|].
    - next E as fee c1 E1; apply lift_Done in E1 as [Efee ->].
      next E as ok c1 E1; apply reads_Done in E1 as [_ ->]; destruct ok; cbn [negb] in E; [|done].
      next E as ql' c1 E1; apply use_quota_context in E1 as ->.
      next E as b2 c1 E1; unfold doSend in E1.
      destruct (DoSend p _ _) as [[[[]| |] d2] b3] eqn:Es; simplify_eq.
      pose proof (DoSend_db _ _ _ _ _ (vc_db c) (set_Fee b (Some fee)) Ef Ep) as Hd2; rewrite Es in Hd2; simpl in Hd2; subst d2.
      pose proof (DoSend_block _ _ _ _ _ _ _ _ _ Ef Ep Es) as Hb2.
      next E as [] c1 E1; apply subBalance_moves in E1 as (a & Ea & Hm1 & Hh1 & Hs1).
      next E as [] c2 E1; apply subBalance_moves in E1 as (fe & Efe & Hm2 & Hh2 & Hs2); inv_M.
      rewrite Hb2 in *; simpl in *; simplify_eq; split; simpl; [done|congruence|by etrans| |done|].
      + eapply moves_trans; [exact Hm1|exact Hm2|].
        intros t; unfold spent; simpl; rewrite Hbt, Ea; simpl; rewrite !coins_opp; lia.
      + intros Hfree _; by rewrite (Hfree Hbt _ _ _ _ _ Ef Ep Efee).
    - next E as ql' c1 E1; apply quota_context in E1 as ->.
      next E as ok c1 E1; apply reads_Done in E1 as [_ ->]; destruct ok; cbn [negb] in E; [|done].
      next E as [] c1 E1; apply subBalance_moves in E1 as (a & Ea & Hm1 & Hh1 & Hs1); inv_M.
      simpl in *; split; try done; eapply moves_ext; [exact Hm1|]; intros t.
      rewrite (spent_no_fee _ a), coins_opp; simpl; rewrite ?Hbt; done. }
  destruct Hsent as [Ht Hs Hh Hm Hv Hfee]; rewrite Ht, Hbt; split; try done.
  eapply moves_ext; [exact Hm|]; intros t; unfold spent; simpl; by rewrite Ht, Hbt.
Qed.

Lemma sendOne_sent b c b' c' : sendOne vm b c = Done b' c' -> sent b b' c c'.
Proof.
  unfold sendOne; destruct (Z.eqb_spec (BlockType b) BlockTypeSendCall); [intros; by eapply sendCall_sent|].
  destruct (Z.eqb_spec (BlockType b) BlockTypeSendReward); [intros; by eapply sendReward_sent|].
  destruct (Z.eqb_spec (BlockType b) BlockTypeSendRefund); [intros; by eapply sendRefund_sent|done].
Qed.

Lemma sendAll_spent l c l' c' :
  sendAll vm l c = Done l' c' ->
  vc_sends c' = vc_sends c /\ same_handle (vc_db c) (vc_db c') /\
  moves (vc_db c) (vc_db c') (fun t => - total_spent l' t).
Proof.
  revert c l'; induction l as [|b l IH]; intros c l' H; cbn [sendAll] in H.
  - inv_M; split_and!; [done..|by apply moves_same].
  - next H as b1 c1 E; next H as l1 c2 E2; inv_M; apply sendOne_sent in E as [_ Hs Hh Hm _ _].
    apply IH in E2 as (Hs' & Hh' & Hm'); split_and!; [congruence|by etrans|].
    eapply moves_trans; [exact Hm|exact Hm'|]; intros t; simpl; lia.
Qed.

Lemma keeps_updateBlock b err qs qu : keeps_rest (updateBlock vm b err qs qu).
Proof. unfold updateBlock; keeps. Qed.
#[local] Hint Resolve keeps_updateBlock : rest.

Lemma keeps_sendOne b : keeps_rest (sendOne vm b).
Proof.
  unfold sendOne, sendReward, sendRefund.
  destruct (_ =? BlockTypeSendCall); [|keeps].
  unfold sendCall, GetBuiltinContractMethod; destruct (n_contracts _ _ _) as [f|] eqn:Ef;
    [destruct (f (Data b)) as [p|] eqn:Ep|]; [|keeps..].
  keeps; intros c; unfold doSend.
  pose proof (DoSend_db _ _ _ _ _ (vc_db c) (set_Fee b (Some a)) Ef Ep) as Hd.
  destruct (DoSend p _ _) as [[[] d] b']; simpl in *; subst; done.
Qed.

Lemma keeps_doSendBlockList : keeps_rest (doSendBlockList vm).
Proof.
  assert (H : forall l, keeps_rest (sendAll vm l)).
  { induction l; cbn [sendAll]; [by intros c|]; apply keeps_bind; [apply keeps_sendOne|intros ?; keeps]. }
  unfold doSendBlockList; apply keeps_bind; [by intros c|intros l].
  apply keeps_bind; [apply H|by intros l' c].
Qed.

Lemma doSendBlockList_spent c x c' :
  doSendBlockList vm c = Done x c' ->
  same_handle (vc_db c) (vc_db c') /\
  moves (vc_db c) (vc_db c') (fun t => - total_spent (vc_sends c') t).
Proof.
  unfold doSendBlockList; intros H; next H as l c1 E; next H as l' c2 E2; inv_M.
  by apply sendAll_spent in E2 as (_ & ? & ?).
Qed.
End Sending.

(** ** Contract runs *)

Lemma run_from_frame fuel e i k s ret err s' :
  env_ok e -> set_ok i -> inv e s -> run_from fuel e i k s = Returned ret err s' ->
  db_frame (db s) (db s') /\ sends_grow e s s' /\ is_u64 (quotaLeft s').
Proof.
  intros He Hi; revert k s; induction fuel as [|fuel IH]; intros k s Hinv H; [done|].
  cbn [run_from] in H; destruct (abort e k); [done|].
  pose proof (step_frame e i s He Hi Hinv) as Hf; pose proof (step_safe e i s He Hi Hinv) as Hs.
  destruct (step e i s) as [s1|ret1 err1 s1|]; [destruct Hf as [Hf Hg]|simplify_eq; by destruct Hf|done].
  destruct (IH _ _ Hs H) as (Hf' & Hg' & Hq); split_and!; [by etrans|by eapply sends_grow_trans|done].
Qed.

Lemma db_frame_moves d d' : db_frame d d' -> moves d d' nothing /\ same_handle d d'.
Proof. intros (Hb & _ & _ & Hc & Ha & Hl & Hp); split; [by apply moves_same|done]. Qed.

Lemma runCode_Done vm block sendBlock data code q c ret err q' c' n h st :
  vm = machineAt n h st ->
  env_ok (contractEnv vm block sendBlock data code) -> db_ok (vc_db c) -> is_u64 q ->
  runCode vm block sendBlock data code q c = Done (ret, err, q') c' ->
  moves (vc_db c) (vc_db c') nothing /\ same_handle (vc_db c) (vc_db c').
Proof.
  intros -> He Hd Hq; unfold runCode, runLoop; destruct (run_from _ _ _ _ _) as [r e s| |] eqn:E; [|done..].
  intros H; simplify_eq; eapply run_from_frame in E as (Hf & _ & _);
    [by apply db_frame_moves|done|apply newInterpreter_ok|by apply newContract_inv].
Qed.

(** ** Receiving *)

Lemma getReceiveCallData_Done vm err c data c' :
  getReceiveCallData vm err c = Done data c' ->
  vc_sends c' = vc_sends c /\ moves (vc_db c) (vc_db c') nothing /\ same_handle (vc_db c) (vc_db c').
Proof.
  unfold getReceiveCallData, db_GetReceiptHash, Unsaved_GetStorage; intros H.
  destruct (storageDirty (uns (vc_db c))) eqn:E; [destruct (storage_list _)|destruct (storageCache _)];
    simplify_eq; split_and!; try done; by apply moves_same.
Qed.

Lemma withReceiptAndSends_Done vm b err c r c' :
  withReceiptAndSends vm b err c = Done r c' ->
  exists data, r = mkResult (Some (mergeReceiveBlock (set_Data b data) (vc_sends c'))) noRetry err /\
    vc_sends c' = vc_sends c /\ moves (vc_db c) (vc_db c') nothing /\ same_handle (vc_db c) (vc_db c').
Proof.
  unfold withReceiptAndSends; intros H; next H as data c1 E; next H as l c2 E2; inv_M.
  apply getReceiveCallData_Done in E as (? & ? & ?); eauto.
Qed.

Lemma addBalance_moves id o c x c1 :
  addBalance id o c = Done x c1 ->
  exists a, o = Some a /\ moves (vc_db c) (vc_db c1) (coins id a) /\
    same_handle (vc_db c) (vc_db c1) /\ vc_sends c1 = vc_sends c.
Proof.
  intros H; apply addBalance_Done in H as (a & b & -> & Hb & ->); exists a; split_and!; try done.
  by apply moves_SetBalance.
Qed.

(** The inputs of a receive that the interpreter's guarantees need: what
    [env_ok] asks of the machine, a fresh database that is well formed, and an
    amount that keeps the balance a word. *)
Record receive_ok (vm : VM) (d : vmDb) (block sendBlock : AccountBlock) : Prop := {
  ro_env data code : len data < 2 ^ 62 -> len code < 2 ^ 62 ->
    env_ok (contractEnv vm block sendBlock data code);
  ro_db : db_ok d;
  ro_fresh : uns d = NewUnsaved;
  ro_amount a b : Amount sendBlock = Some a -> db_GetBalance d (TokenId sendBlock) = Ok b ->
    0 <= a /\ is_u256 (b + a);
  ro_data : len (Data sendBlock) < 2 ^ 62;
  ro_code code : db_GetContractCode d = Ok code -> len code < 2 ^ 62;
}.

Lemma db_ok_SetBalance d id a : db_ok d -> is_u256 a -> db_ok (db_SetBalance d id a).
Proof.
  intros [Hs Hc Hb Hp] Ha; split; [exact Hs|exact Hc| |exact Hp]; intros t b.
  rewrite GetBalance_SetBalance; case_decide; [by intros [= <-]|apply Hb].
Qed.

Lemma UseQuota_u64 q cost r : UseQuota q cost = Ok r -> is_u64 r.
Proof. unfold UseQuota; destruct (q <? cost); intros H; simplify_eq; apply u64_range. Qed.

Lemma GetContractCode_len d a st x code :
  GetContractCode d a st = Ok (x, code) -> (forall c, db_GetContractCode d = Ok c -> len c < 2 ^ 62) ->
  len code < 2 ^ 62.
Proof.
  unfold GetContractCode; intros H Hc; apply bind_OkE in H as (all & E & H).
  assert (len all < 2 ^ 62).
  { case_bool_decide; [apply Hc; by apply DealWithErr_Ok|]; apply bind_OkE in E as (g & _ & E); apply DealWithErr_Ok in E.
    unfold db_GetContractCodeBySnapshotBlock in E; by simplify_eq. }
  destruct (0 <? len all) eqn:Hl; simplify_eq; [|done].
  apply bind_OkE in H as (tag & _ & H); apply bind_OkE in H as (rest & E' & H); simplify_eq.
  apply go_slice_inv in E' as (? & ? & ->); rewrite length_subslice by lia; unfold contractTypeSize; lia.
Qed.

Lemma refundAndFinish_err vm b sb data need bt err qs qu c r c' :
  refundAndFinish vm b sb data need bt err qs qu c = Done r c' ->
  vr_err r = err /\ (vr_retry r = true -> vr_block r = None).
Proof.
  unfold refundAndFinish; intros H; next H as flag c1 E; next H as b1 c2 E1; destruct flag.
  - unfold sendRefunds in H; next H as res c3 E2; destruct res; [|by inv_M].
    by apply withReceiptAndSends_Done in H as (data' & -> & _).
  - unfold withReceipt in H; next H as data' c3 E2; by inv_M.
Qed.

(** ** Calls *)

Lemma gasReceive_err m t e : gasReceive m t = Err e -> e = ErrGasUintOverflow.
Proof. unfold gasReceive, BlockGasCost; intros H; by repeat case_match; simplify_eq. Qed.

Lemma UseQuota_err q cost e : UseQuota q cost = Err e -> e = ErrOutOfQuota.
Proof. unfold UseQuota; by destruct (q <? cost); intros; simplify_eq. Qed.

(** The run of a contract: the quota does not suffice, or the amount is added
    and the code runs in a database whose handle does not change. *)
Lemma receiveContract_ran n h st block sendBlock meta c r c' :
  let vm := machineAt n h st in
  receive_ok vm (vc_db c) block sendBlock ->
  receiveContract vm block sendBlock (Some meta) c = Done r c' ->
  (vr_block r = None /\ (vr_err r = Some ErrGasUintOverflow \/ vr_err r = Some ErrOutOfQuota)) \/
  exists a err qt qa q' c2, Amount sendBlock = Some a /\
    moves (vc_db c) (vc_db c2) (coins (TokenId sendBlock) a) /\ same_handle (vc_db c) (vc_db c2) /\
    finishContract vm block sendBlock err qt qa q' c2 = Done r c'.
Proof.
  intros vm Hok H; unfold receiveContract in H; next H as [qt qa] c1 E; apply reads_Done in E as [_ ->].
  apply or_return_Done in H as [(cost & c1 & E & H)|(e & E & ->)].
  2: { apply lift_Fail in E as [->%gasReceive_err _]; auto. }
  apply lift_Done in E as [_ ->]; apply or_return_Done in H as [(ql & c1 & E & H)|(e & E & ->)].
  2: { apply lift_Fail in E as [->%UseQuota_err _]; auto. }
  apply lift_Done in E as [Eq ->]; right.
  next H as [] c1 E; pose proof E as E0; apply addBalance_Done in E0 as (a0 & bal & Ea & Ebal & ->).
  apply addBalance_moves in E as (a & Ea' & Hm1 & Hh1 & _); rewrite Ea in Ea'; injection Ea' as <-.
  destruct (ro_amount _ _ _ _ Hok _ _ Ea Ebal) as [_ Hword].
  next H as [x code] c1 E; apply reads_Done in E as [Ecode ->].
  assert (Hcode : len code < 2 ^ 62).
  { eapply GetContractCode_len; [exact Ecode|]; intros cd; apply (ro_code _ _ _ _ Hok). }
  next H as [[ret err] q'] c2 E; apply (runCode_Done _ _ _ _ _ _ _ _ _ _ _ n h st) in E as [Hm2 Hh2];
    [|done|apply (ro_env _ _ _ _ Hok); [apply Hok|done]
     |apply db_ok_SetBalance; [apply Hok|done]|by eapply UseQuota_u64].
  exists a0, err, qt, qa, q', c2; split_and!; [done| |by etrans|done].
  eapply moves_trans; [exact Hm1|exact Hm2|]; intros t; unfold nothing; lia.
Qed.

(** A call of a contract that succeeded: the tokens sent are those it lost. *)
Lemma finishContract_conserves vm block sendBlock err qt qa q c r c' b' `{!BuiltinLaws (vm_node vm)} :
  finishContract vm block sendBlock err qt qa q c = Done r c' -> vr_block r = Some b' -> vr_err r = None ->
  moves (vc_db c) (vc_db c') (fun t => - total_spent (SendBlockList b') t).
Proof.
  intros H Hb He; unfold finishContract in H; next H as res c3 E; destruct res as [res|[err' b2]].
  2: { exfalso; case_bool_decide; [by inv_M|].
    next H as [] c4 E4; next H as l c5 E5; destruct (_ && _); [by inv_M|].
    destruct (CalcQuotaUsed true qt qa q (Some err')) as [qs qu].
    apply refundAndFinish_err in H as [Hr _]; congruence. }
  destruct err as [e|]; [by inv_M|]; destruct (CalcQuotaUsed true qt qa q None) as [qs qu].
  next E as b1 c4 E4; apply updateBlock_Done in E4 as (-> & lh & ->).
  next E as sent c4 E4; apply try_Done in E4; destruct sent as [[]|e]; [|by inv_M].
  apply (doSendBlockList_spent vm) in E4 as [_ Hm3]; next E as res' c5 E5; inv_M.
  apply withReceiptAndSends_Done in E5 as (data & -> & Hs & Hm4 & _); injection Hb as <-.
  eapply moves_trans; [exact Hm3|exact Hm4|]; intros t; unfold nothing; simpl; rewrite Hs; lia.
Qed.

(** A call that is too deep is only credited; any other is carried out. *)
Lemma receiveV2_cases n h st block sendBlock c r c' :
  let vm := machineAt n h st in
  receiveV2 vm block (Some sendBlock) c = Done r c' -> BlockType sendBlock = BlockTypeSendCall ->
  IsContractAddr (db_address (vc_db c)) = true ->
  GetBuiltinContractMethod (n_contracts n) (n_box n) (AccountAddress block) (Data sendBlock) h = NotBuiltin ->
  exists deep, checkDepth sendBlock (vc_db c) = Ok deep /\
    if deep : bool then
      vr_err r = Some ErrDepth /\
      (_ ← addBalance (TokenId sendBlock) (Amount sendBlock);
       data ← getReceiveCallData vm (Some ErrDepth);
       block ← updateBlock vm (set_Data (set_Data block []) data) (Some ErrDepth) 0 0;
       mret (mkResult (Some block) noRetry (Some ErrDepth))) c = Done r c'
    else exists meta, receiveContract vm (set_Data block []) sendBlock (Some meta) c = Done r c'.
Proof.
  intros vm H Hbt Haddr Hnb; unfold receiveV2 in H; next H as meta c1 E; apply reads_Done in E as [Em ->].
  next H as sb c1 E; apply lift_Done in E as [[= <-] ->]; rewrite Hbt in H; cbn [Z.eqb Pos.eqb BlockTypeSendCall
    BlockTypeSendCreate] in H.
  unfold getContractMeta in Em; rewrite Haddr in Em; cbn [negb] in Em.
  apply bind_OkE in Em as ([m|] & _ & Em); [|done]; injection Em as <-.
  unfold receiveCall in H; next H as deep c1 E; apply reads_Done in E as [Ed ->]; exists deep; split; [done|]; destruct deep.
  - split; [|exact H]; next H as [] c1 E1; next H as data c2 E2; next H as b1 c3 E3; by inv_M.
  - by simpl in H; rewrite Hnb in H; exists m.
Qed.

Lemma receiveV2_call n h st block sendBlock c r c' :
  let vm := machineAt n h st in
  receiveV2 vm block (Some sendBlock) c = Done r c' -> BlockType sendBlock = BlockTypeSendCall ->
  IsContractAddr (db_address (vc_db c)) = true ->
  GetBuiltinContractMethod (n_contracts n) (n_box n) (AccountAddress block) (Data sendBlock) h = NotBuiltin ->
  vr_err r <> Some ErrDepth ->
  exists meta, receiveContract vm (set_Data block []) sendBlock (Some meta) c = Done r c'.
Proof.
  intros vm H Hbt Haddr Hnb Hd; destruct (receiveV2_cases _ _ _ _ _ _ _ _ H Hbt Haddr Hnb) as ([] & _ & Hc); [by destruct Hc|done].
Qed.

(** C1 A call of a contract that succeeds neither creates nor loses tokens: the
    balance of every token grows by the amount received, and shrinks by the
    amounts and fees of the blocks the contract sends, whatever its code does. *)
Theorem contract_call_conserves n d block sendBlock st r c' sb b' `{!BuiltinLaws n} :
  db_LatestSnapshotBlock d = Ok sb -> RunV2 n d block (Some sendBlock) st = Done r c' ->
  IsSendBlock (BlockType block) = false -> BlockType sendBlock = BlockTypeSendCall ->
  IsContractAddr (db_address d) = true ->
  GetBuiltinContractMethod (n_contracts n) (n_box n) (AccountAddress block) (Data sendBlock)
    (sb_Height sb) = NotBuiltin ->
  receive_ok (machineAt n (sb_Height sb) st) d (set_Data (Copy block) []) sendBlock ->
  vr_block r = Some b' -> vr_err r = None ->
  exists a, Amount sendBlock = Some a /\
    moves d (vc_db c') (fun t => coins (TokenId sendBlock) a t - total_spent (SendBlockList b') t).
Proof.
  intros Hsb HR Hs Hbt Haddr Hnb Hok Hb' He; destruct (RunV2_Done _ _ _ _ _ _ _ _ HR Hsb) as (c & -> & H).
  destruct (Copy_fields block) as (_ & Fac & _); rewrite Hs in H; rewrite <- Fac in Hnb.
  apply receiveV2_call in H as [meta H]; [|done..|congruence].
  destruct (receiveContract_ran n _ st _ sendBlock meta (mkContext d []) r c Hok H)
    as [[? _]|(a & err & qt & qa & q & c2 & Ea & Hm & _ & H2)]; [congruence|]; exists a; split; [done|].
  apply (finishContract_conserves (machineAt n _ _) _ _ _ _ _ _ _ _ _ _ H2 Hb') in He.
  eapply moves_trans; [exact Hm|eapply moves_trans; [exact He|apply moves_Finish|reflexivity]|].
  intros t; unfold nothing; simpl; lia.
Qed.

#[export] Instance example_laws : BuiltinLaws example_node.
Proof.
  split; [intros g a f sel p d b|intros g a f sel p d b d' b']; simpl; unfold example_contracts;
    (case_bool_decide; [|done]); intros [= <-]; (destruct (len sel <? 4); [done|]); intros [= <-]; simpl; [done|].
  by intros [= <- <-].
Qed.

Lemma contract_receive_ok code :
  len code < 2 ^ 61 ->
  receive_ok (machineAt example_node 100 None) (contract_db code) (set_Data (Copy example_receive) []) example_call.
Proof.
  intros Hc; split.
  - intros data cd Hd Hcd; split; try done; simpl; try lia.
    + apply QuotaTableByHeight_ok.
    + intros a [= <-]; by vm_compute.
    + unfold example_contracts; intros g a f sel m d; case_bool_decide; [|done]; intros [= <-].
      destruct (len sel <? 4); [done|]; intros [= <-]; simpl; by destruct (len d <? 4).
  - split; simpl.
    + intros k v H; by rewrite lookup_empty in H.
    + intros k v [= <-]; simpl; lia.
    + intros t b; unfold db_GetBalance; simpl; rewrite lookup_empty; intros [= <-]; vm_compute; split; congruence.
    + intros b; unfold db_PrevAccountBlock; simpl; done.
  - done.
  - intros a b [= <-]; unfold db_GetBalance; simpl; rewrite lookup_empty; intros [= <-]; by vm_compute.
  - by vm_compute.
  - intros cd [= <-]; unfold len in *; simpl length; lia.
Qed.

Lemma contract_call_conserves_witness :
  exists r c' b', RunV2 example_node (contract_db pay_code) example_receive (Some example_call) None = Done r c' /\
    vr_block r = Some b' /\ exists a, Amount example_call = Some a /\
    moves (contract_db pay_code) (vc_db c')
      (fun t => coins ViteTokenId a t - total_spent (SendBlockList b') t).
Proof.
  destruct (gave_block_Done None (RunV2 example_node (contract_db pay_code) example_receive (Some example_call) None))
    as (r & c' & b' & E & Eb & Ee); [vm_compute; reflexivity|].
  exists r, c', b'; split; [exact E|]; split; [exact Eb|].
  apply (contract_call_conserves example_node (contract_db pay_code) example_receive example_call None r c'
    (mkSnapshotBlock ZERO_HASH 100 0) b' eq_refl E eq_refl eq_refl eq_refl eq_refl).
  - apply contract_receive_ok; vm_compute; reflexivity.
  - exact Eb.
  - exact Ee.
Defined.

(** ** Failed calls *)

(** Nothing but balances was written. *)
Definition pristine (d : vmDb) : Prop :=
  exists k m, uns d = mkUnsaved ∅ [] [] ∅ ∅ k false [] m.

Lemma pristine_SetBalance d id a : pristine d -> pristine (db_SetBalance d id a).
Proof. intros (k & m & E); exists k, (<[id := a]> m); simpl; by rewrite E. Qed.

Lemma pristine_receipt vm err d l :
  pristine d ->
  getReceiveCallData vm err (mkContext d l) =
    Done (ZERO_HASH ++ [match err with None => resultSuccess | Some ErrDepth => resultDepthErr
                        | Some _ => resultFail end]) (mkContext d l).
Proof.
  intros (k & m & E); unfold getReceiveCallData, db_GetReceiptHash, Unsaved_GetStorage; simpl; rewrite E; simpl.
  unfold with_uns; by rewrite <- E; destruct d.
Qed.

(** A refund of [a] units of [token] to the sender of [sendBlock]. *)
Definition refund_of (block sendBlock : AccountBlock) (a : Z) (token : TokenTypeId) : AccountBlock :=
  MakeRequestBlock (AccountAddress block) (AccountAddress sendBlock) BlockTypeSendRefund a token [].

Definition is_refund (block sendBlock b : AccountBlock) : Prop :=
  exists a token, 0 < a /\ b = refund_of block sendBlock a token.

Lemma spent_refund block sendBlock a token t :
  spent (refund_of block sendBlock a token) t = coins token a t.
Proof. by rewrite (spent_no_fee _ a). Qed.

Lemma sendRefund_run vm block sendBlock a token c bal :
  db_GetBalance (vc_db c) token = Ok bal -> a <= bal ->
  sendOne vm (refund_of block sendBlock a token) c =
    Done (refund_of block sendBlock a token)
         (mkContext (db_SetBalance (vc_db c) token (bal + - a)) (vc_sends c)).
Proof.
  intros Hb Hle; rewrite Z.add_opp_r; change (sendOne vm (refund_of block sendBlock a token))
    with (sendRefund vm (refund_of block sendBlock a token) false 0 0); unfold sendRefund.
  erewrite bind_run by reflexivity.
  erewrite bind_run by (apply reads_run; simpl; apply (canTransfer_no_fee _ _ _ _ _ Hb)).
  replace (a <=? bal) with true by lia; rewrite orb_true_r; cbn [negb].
  erewrite bind_run; [|simpl; rewrite (subBalance_exact _ _ _ _ Hb); replace (a <=? bal) with true by lia; done].
  reflexivity.
Qed.

(** Refunds whose amounts were just added can always be sent. *)
Lemma sendAll_refunds vm block sendBlock l d0 c :
  (forall t, exists x, db_GetBalance d0 t = Ok x /\ 0 <= x) ->
  Forall (is_refund block sendBlock) l -> pristine (vc_db c) ->
  moves d0 (vc_db c) (total_spent l) ->
  exists c', sendAll vm l c = Done l c' /\ vc_sends c' = vc_sends c /\ pristine (vc_db c') /\
    same_handle (vc_db c) (vc_db c') /\ moves d0 (vc_db c') nothing.
Proof.
  intros H0 Hl; revert c; induction Hl as [|b l (a & token & Ha & ->) Hl IH]; intros c Hp Hm; cbn [sendAll].
  - by exists c.
  - assert (Hnn : forall t, 0 <= total_spent l t).
    { intros t; clear -Hl; induction Hl as [|b l (a & k & Ha & ->) Hl IH]; [done|]; simpl.
      rewrite spent_refund; unfold coins; case_decide; lia. }
    destruct (H0 token) as (x & Hx & Hx0); pose proof (Hm token) as Hb; rewrite Hx in Hb; simpl in Hb.
    rewrite spent_refund in Hb; unfold coins in Hb; rewrite decide_True in Hb by done.
    pose proof (sendRefund_run vm block sendBlock a token c _ Hb) as Hrun.
    specialize (Hnn token); specialize (Hrun ltac:(lia)).
    destruct (IH (mkContext (db_SetBalance (vc_db c) token (x + (a + total_spent l token) + - a)) (vc_sends c)))
      as (c' & E & Hs & Hp' & Hh & Hm').
    { by apply pristine_SetBalance. }
    { eapply moves_trans; [exact Hm|apply moves_SetBalance, Hb|].
      intros t; simpl; rewrite spent_refund, coins_opp; lia. }
    exists c'; erewrite bind_run by exact Hrun.
    split_and!; [|done|done|done|done].
    by erewrite bind_run by exact E.
Qed.

Lemma addBalance_run id a c b :
  db_GetBalance (vc_db c) id = Ok b ->
  addBalance id (Some a) c = Done tt (mkContext (db_SetBalance (vc_db c) id (b + a)) (vc_sends c)).
Proof. intros Hb; unfold addBalance, mbind, M_bind, reads, AddBalance; by rewrite Hb. Qed.

(** Append one refund and add its amount. *)
Lemma refund_step block sendBlock a token d0 d l :
  (forall t, exists x, db_GetBalance d0 t = Ok x /\ 0 <= x) -> pristine d -> moves d0 d (total_spent l) ->
  exists d1, (_ ← appendBlock (refund_of block sendBlock a token); _ ← addBalance token (Some a); mret true)
               (mkContext d l) = Done true (mkContext d1 (l ++ [refund_of block sendBlock a token])) /\
    pristine d1 /\ same_handle d d1 /\ moves d0 d1 (total_spent (l ++ [refund_of block sendBlock a token])).
Proof.
  intros H0 Hp Hm; destruct (H0 token) as (x & Hx & _); pose proof (Hm token) as Hb; rewrite Hx in Hb.
  exists (db_SetBalance d token (x + total_spent l token + a)); split_and!; try done.
  - erewrite bind_run by reflexivity; simpl vc_db; simpl vc_sends.
    by erewrite bind_run by (apply addBalance_run, Hb).
  - by apply pristine_SetBalance.
  - eapply moves_trans; [exact Hm|apply moves_SetBalance, Hb|]; intros t; unfold total_spent.
    rewrite foldr_app; simpl; rewrite spent_refund, Z.add_0_r.
    generalize (coins token a t) as z; clear; induction l as [|b l IH]; intros z; simpl; [lia|rewrite IH; lia].
Qed.

Definition nonempty {A} (l : list A) : bool := match l with [] => false | _ => true end.

Lemma doRefund_run block sendBlock d a f :
  Amount sendBlock = Some a -> Fee sendBlock = Some f ->
  (forall t, exists x, db_GetBalance d t = Ok x /\ 0 <= x) -> pristine d ->
  exists l d1, doRefund block sendBlock [] false BlockTypeSendRefund (mkContext d []) =
      Done (nonempty l) (mkContext d1 l) /\
    Forall (is_refund block sendBlock) l /\ pristine d1 /\ same_handle d d1 /\
    moves d d1 (total_spent l) /\
    forall t, total_spent l t = coins (TokenId sendBlock) (Z.max 0 a) t + coins ViteTokenId (Z.max 0 f) t.
Proof.
  intros Ea Ef H0 Hp; assert (Hm : moves d d (total_spent [])) by (by apply moves_same).
  pose proof (fun a k => refund_step block sendBlock a k d d [] H0 Hp Hm) as Hstep.
  unfold doRefund; rewrite Ea; erewrite bind_run by reflexivity; rewrite Ef.
  destruct (Z.ltb_spec 0 a) as [Ha|Ha]; cbn [andb]; erewrite bind_run by reflexivity.
  - destruct (Z.ltb_spec 0 f) as [Hf|Hf]; cbn [andb]; [case_bool_decide as Ht|].
    + destruct (Hstep (a + f) ViteTokenId) as (d1 & E & Hp1 & Hh1 & Hm1).
      exists [refund_of block sendBlock (a + f) ViteTokenId], d1; erewrite bind_run by exact E.
      split_and!; try done; [constructor; [|done]; eexists _, _; split; [|done]; lia|].
      intros t; simpl; rewrite spent_refund, Ht; unfold coins; case_decide; lia.
    + destruct (Hstep a (TokenId sendBlock)) as (d1 & E & Hp1 & Hh1 & Hm1).
      destruct (refund_step block sendBlock f ViteTokenId d d1 _ H0 Hp1 Hm1) as (d2 & E2 & Hp2 & Hh2 & Hm2).
      exists [refund_of block sendBlock a (TokenId sendBlock); refund_of block sendBlock f ViteTokenId], d2.
      erewrite bind_run.
      2: { erewrite bind_run by exact E; erewrite bind_run by reflexivity.
           replace (0 <? f) with true by lia; exact E2. }
      split_and!; try done; [|by etrans|].
      * repeat constructor; eexists _, _; (split; [|done]); lia.
      * intros t; simpl; rewrite !spent_refund; unfold coins; do 2 case_decide; lia.
    + destruct (Hstep a (TokenId sendBlock)) as (d1 & E & Hp1 & Hh1 & Hm1).
      exists [refund_of block sendBlock a (TokenId sendBlock)], d1; erewrite bind_run.
      2: { erewrite bind_run by exact E; erewrite bind_run by reflexivity.
           replace (0 <? f) with false by lia; reflexivity. }
      split_and!; try done; [constructor; [|done]; eexists _, _; split; [|done]; lia|].
      intros t; simpl; rewrite spent_refund; unfold coins; do 2 case_decide; lia.
  - destruct (Z.ltb_spec 0 f) as [Hf|Hf].
    + destruct (Hstep f ViteTokenId) as (d1 & E & Hp1 & Hh1 & Hm1).
      exists [refund_of block sendBlock f ViteTokenId], d1; erewrite bind_run.
      2: { erewrite bind_run by reflexivity; erewrite bind_run by reflexivity.
           replace (0 <? f) with true by lia; exact E. }
      split_and!; try done; [constructor; [|done]; eexists _, _; split; [|done]; lia|].
      intros t; simpl; rewrite spent_refund; unfold coins; do 2 case_decide; lia.
    + exists [], d; erewrite bind_run.
      2: { erewrite bind_run by reflexivity; erewrite bind_run by reflexivity.
           replace (0 <? f) with false by lia; reflexivity. }
      split_and!; try done; intros t; simpl; unfold coins; do 2 case_decide; lia.
Qed.

(** The block of a failed receive. *)
Record failed_block (block sendBlock b' : AccountBlock) (e : vm_err) (a f : Z) (d d' : vmDb) : Prop := {
  fb_balances : moves d d' nothing;
  fb_pristine : pristine d';
  fb_refunds : Forall (is_refund block sendBlock) (SendBlockList b');
  fb_total t : total_spent (SendBlockList b') t =
    coins (TokenId sendBlock) (Z.max 0 a) t + coins ViteTokenId (Z.max 0 f) t;
  fb_data : Data b' = ZERO_HASH ++ [match e with ErrDepth => resultDepthErr | _ => resultFail end];
  fb_type : BlockType b' = if bool_decide (e = ErrOutOfQuota) then BlockTypeReceiveError else BlockTypeReceive;
}.

Lemma refundAndFinish_run vm block sendBlock d a f e qs qu r c' :
  Amount sendBlock = Some a -> Fee sendBlock = Some f ->
  (forall t, exists x, db_GetBalance d t = Ok x /\ 0 <= x) -> pristine d ->
  IsReceiveBlock (BlockType block) = true -> SendBlockList block = [] ->
  refundAndFinish vm block sendBlock [] false BlockTypeSendRefund (Some e) qs qu (mkContext d []) = Done r c' ->
  exists b', r = mkResult (Some b') noRetry (Some e) /\
    failed_block block sendBlock b' e a f d (vc_db c').
Proof.
  intros Ea Ef H0 Hp Hrt Hnil H.
  destruct (doRefund_run block sendBlock d a f Ea Ef H0 Hp) as (l & d1 & E & Hl & Hp1 & Hh1 & Hm1 & Ht).
  unfold refundAndFinish in H; erewrite bind_run in H by exact E; next H as b1 c1 E1.
  apply updateBlock_Done in E1 as (-> & lh & ->); rewrite Hrt in H.
  rewrite (bool_decide_ext (Some e = Some ErrOutOfQuota) (e = ErrOutOfQuota)) in H by (split; congruence).
  destruct (nonempty l) eqn:El.
  - destruct (sendAll_refunds vm block sendBlock l d (mkContext d1 l) H0 Hl Hp1 Hm1)
      as (c2 & E2 & Hs2 & Hp2 & _ & Hm2).
    assert (Esend : doSendBlockList vm (mkContext d1 l) = Done tt (mkContext (vc_db c2) l)).
    { unfold doSendBlockList; erewrite bind_run by reflexivity; by erewrite bind_run by exact E2. }
    unfold sendRefunds in H; erewrite bind_run in H by (unfold try; by rewrite Esend).
    unfold withReceiptAndSends in H; erewrite bind_run in H by (apply pristine_receipt, Hp2).
    erewrite bind_run in H by reflexivity; inv_M; eexists; split; [done|].
    split; simpl; try done; by destruct e.
  - destruct l; [|done]; unfold withReceipt in H; erewrite bind_run in H by (apply pristine_receipt, Hp1).
    inv_M; eexists; split; [done|]; split; simpl; try done.
    + by rewrite Hnil.
    + intros t; rewrite Hnil; exact (Ht t).
Qed.

(** Resetting a database that started fresh gives back its balances. *)
Lemma reset_fresh d d' :
  uns d = NewUnsaved -> same_handle d d' -> pristine (db_Reset d') /\ moves d (db_Reset d') nothing.
Proof.
  intros Hf (Hc & Ha & _); split; [by eexists _, _|].
  apply moves_same; [by rewrite Hf|exact Hc|exact Ha].
Qed.

Lemma refunds_ext b1 b2 sendBlock l :
  AccountAddress b1 = AccountAddress b2 -> Forall (is_refund b1 sendBlock) l -> Forall (is_refund b2 sendBlock) l.
Proof. unfold is_refund, refund_of; by intros ->. Qed.

Lemma fresh_pristine d : uns d = NewUnsaved -> pristine d.
Proof. intros E; unfold pristine; rewrite E; by eexists _, _. Qed.

Lemma pristine_Finish d : pristine d -> pristine (db_Finish d).
Proof. intros (k & m & E); unfold db_Finish, Unsaved_ReleaseRuntime, Unsaved_GetStorage; rewrite E; by eexists _, _. Qed.

Lemma receive_not_send bt : IsReceiveBlock bt = true -> IsSendBlock bt = false.
Proof. unfold IsReceiveBlock; rewrite !orb_true_iff, !Z.eqb_eq; by intros [[->| ->]| ->]. Qed.

Lemma Copy_no_sends b : SendBlockList b = [] -> SendBlockList (Copy b) = [].
Proof. destruct b; simpl; by intros ->. Qed.

Lemma updateBlock_fields vm b err qs qu c b1 c1 :
  updateBlock vm b err qs qu c = Done b1 c1 ->
  c1 = c /\ AccountAddress b1 = AccountAddress b /\ SendBlockList b1 = SendBlockList b /\
  (IsReceiveBlock (BlockType b) = true -> IsReceiveBlock (BlockType b1) = true).
Proof.
  intros H; apply updateBlock_Done in H as (-> & lh & ->); destruct (IsReceiveBlock (BlockType b)) eqn:Hr; [|done].
  split_and!; try done; intros _; simpl; by case_bool_decide.
Qed.

Lemma finishContract_failed vm block sendBlock err qt qa q d c r c' e a f `{!BuiltinLaws (vm_node vm)} :
  uns d = NewUnsaved -> same_handle d (vc_db c) -> (forall t, exists x, db_GetBalance d t = Ok x /\ 0 <= x) ->
  IsReceiveBlock (BlockType block) = true -> SendBlockList block = [] ->
  Amount sendBlock = Some a -> Fee sendBlock = Some f ->
  finishContract vm block sendBlock err qt qa q c = Done r c' -> vr_err r = Some e ->
  (vr_block r = None /\ (e = ErrOutOfQuota \/ e = ErrNoReliableStatus)) \/
  exists b', r = mkResult (Some b') noRetry (Some e) /\ failed_block block sendBlock b' e a f d (vc_db c').
Proof.
  intros Hf Hh H0 Hrt Hnil Ea Ef H He; unfold finishContract in H; next H as res c3 E.
  assert (Hres : match res with
    | inl res => vr_err res = None
    | inr (_, b2) => same_handle d (vc_db c3) /\ AccountAddress b2 = AccountAddress block /\
        SendBlockList b2 = [] /\ IsReceiveBlock (BlockType b2) = true
    end).
  { destruct err as [err|]; [by inv_M|]; destruct (CalcQuotaUsed true qt qa q None) as [qs qu].
    next E as b1 c4 E4; apply updateBlock_fields in E4 as (-> & Hac & Hsl & Hr).
    next E as sent c4 E4; apply try_Done in E4; destruct sent as [[]|e'].
    - next E as res' c5 E5; inv_M; by apply withReceiptAndSends_Done in E5 as (data & -> & _).
    - pose proof (keeps_doSendBlockList vm c) as Hk; rewrite E4 in Hk; inv_M.
      split_and!; [etrans; [done|apply Hk]|done|congruence|auto]. }
  destruct res as [res|[err' b2]]; [inv_M; congruence|]; destruct Hres as (Hh3 & Hac & Hsl & Hr).
  case_bool_decide as Hnr; [inv_M; simpl in He; injection He as <-; auto|].
  destruct (reset_fresh d (vc_db c3) Hf Hh3) as [Hp Hm].
  erewrite bind_run in H by reflexivity; next H as l c5 E5; apply reads_Done in E5 as [_ ->].
  destruct (_ && _) eqn:Eq.
  { inv_M; simpl in He; injection He as <-; apply andb_true_iff in Eq as [Eq%bool_decide_eq_true _]; auto. }
  destruct (CalcQuotaUsed true qt qa q (Some err')) as [qs qu].
  eapply refundAndFinish_run in H as (b' & -> & [F1 F2 F3 F4 F5 F6]); try done.
  2: { intros t; destruct (H0 t) as (x & Hx & Hx0); specialize (Hm t); rewrite Hx in Hm.
       exists (x + nothing t); split; [exact Hm|unfold nothing; lia]. }
  injection He as <-; right; exists b'; split; [done|]; split; try done.
  - eapply moves_trans; [exact Hm|exact F1|reflexivity].
  - by eapply refunds_ext.
Qed.

(** The block of a call that is too deep: the amount stays with the contract. *)
Record kept_block (sendBlock b' : AccountBlock) (a : Z) (d d' : vmDb) : Prop := {
  kb_balances : moves d d' (coins (TokenId sendBlock) a);
  kb_pristine : pristine d';
  kb_sends : SendBlockList b' = [];
  kb_data : Data b' = ZERO_HASH ++ [resultDepthErr];
  kb_type : BlockType b' = BlockTypeReceive;
}.

Lemma deep_call_kept vm block sendBlock d a r c' :
  Amount sendBlock = Some a -> pristine d -> IsReceiveBlock (BlockType block) = true -> SendBlockList block = [] ->
  (_ ← addBalance (TokenId sendBlock) (Amount sendBlock);
   data ← getReceiveCallData vm (Some ErrDepth);
   block ← updateBlock vm (set_Data block data) (Some ErrDepth) 0 0;
   mret (mkResult (Some block) noRetry (Some ErrDepth))) (mkContext d []) = Done r c' ->
  exists b', r = mkResult (Some b') noRetry (Some ErrDepth) /\ kept_block sendBlock b' a d (vc_db c').
Proof.
  intros Ea Hp Hrt Hnil H; next H as [] c1 E1.
  apply addBalance_Done in E1 as (a' & b & Ea' & Hb & ->); rewrite Ea in Ea'; injection Ea' as <-; simpl in H.
  pose proof (pristine_SetBalance _ (TokenId sendBlock) (b + a) Hp) as Hp1; simpl in Hb.
  erewrite bind_run in H by (by apply pristine_receipt); next H as b1 c2 E2; apply updateBlock_Done in E2 as (-> & lh & ->).
  cbn [set_Data BlockType set_quotas] in H; rewrite Hrt in H; inv_M; eexists; split; [done|]; split; try done.
  by apply moves_SetBalance.
Qed.

(** C4 A call of a contract that fails is undone and paid back, unless it is too
    deep.  Below the depth limit there is no block, because the call is to be
    tried again or its quota overflows, or the block received leaves every
    balance as it was, writes nothing else, says in its data that the call
    failed, is of the error type exactly when the quota ran out, and sends
    refunds to the caller that add up to the amount and the fee of the call.  At
    the depth limit the code is not run and nothing is refunded: the block says
    so in its data, the amount stays with the contract, and nothing else
    changes. *)
Theorem failed_call_refunded n d block sendBlock st r c' sb e a f `{!BuiltinLaws n} :
  db_LatestSnapshotBlock d = Ok sb -> RunV2 n d block (Some sendBlock) st = Done r c' ->
  IsReceiveBlock (BlockType block) = true -> BlockType sendBlock = BlockTypeSendCall ->
  IsContractAddr (db_address d) = true -> SendBlockList block = [] ->
  GetBuiltinContractMethod (n_contracts n) (n_box n) (AccountAddress block) (Data sendBlock)
    (sb_Height sb) = NotBuiltin ->
  receive_ok (machineAt n (sb_Height sb) st) d (set_Data (Copy block) []) sendBlock ->
  (forall t, exists x, db_GetBalance d t = Ok x /\ 0 <= x) ->
  Amount sendBlock = Some a -> Fee sendBlock = Some f ->
  vr_err r = Some e ->
  exists deep, checkDepth sendBlock d = Ok deep /\
    if deep : bool then
      e = ErrDepth /\ exists b', r = mkResult (Some b') noRetry (Some e) /\ kept_block sendBlock b' a d (vc_db c')
    else
      (vr_block r = None /\ (e = ErrGasUintOverflow \/ e = ErrOutOfQuota \/ e = ErrNoReliableStatus)) \/
      exists b', r = mkResult (Some b') noRetry (Some e) /\
        failed_block block sendBlock b' e a f d (vc_db c').
Proof.
  intros Hsb HR Hr Hbt Haddr Hnil Hnb Hok H0 Ea Ef He.
  destruct (RunV2_Done _ _ _ _ _ _ _ _ HR Hsb) as (c & -> & H).
  destruct (Copy_fields block) as (Fbt & Fac & _); rewrite (receive_not_send _ Hr) in H; rewrite <- Fac in Hnb.
  assert (Hrt : IsReceiveBlock (BlockType (set_Data (Copy block) [])) = true) by (simpl; by rewrite Fbt).
  apply receiveV2_cases in H as (deep & Ed & H); [|done..]; exists deep; split; [done|]; destruct deep.
  { destruct H as [He' H]; rewrite He' in He; injection He as <-; split; [done|].
    destruct (deep_call_kept _ _ _ _ _ _ _ Ea (fresh_pristine _ (ro_fresh _ _ _ _ Hok)) Hrt (Copy_no_sends _ Hnil) H)
      as (b' & -> & [K1 K2 K3 K4 K5]); exists b'; split; [done|]; split; try done.
    - eapply moves_trans; [exact K1|apply moves_Finish|intros t; unfold nothing; lia].
    - by apply pristine_Finish. }
  destruct H as [meta H]; destruct (receiveContract_ran n _ st _ sendBlock meta (mkContext d []) r c Hok H)
    as [[? Hq]|(a' & err & qt & qa & q & c2 & _ & _ & Hh & H2)]; [left; rewrite He in Hq; naive_solver|].
  destruct (finishContract_failed (machineAt n _ _) _ _ _ _ _ _ d _ _ _ e a f (ro_fresh _ _ _ _ Hok) Hh H0 Hrt
    (Copy_no_sends _ Hnil) Ea Ef H2 He) as [[? ?]|(b' & -> & [F1 F2 F3 F4 F5 F6])]; [tauto|].
  right; exists b'; split; [done|]; split; try done.
  - eapply moves_trans; [exact F1|apply moves_Finish|reflexivity].
  - by apply pristine_Finish.
  - by eapply refunds_ext.
Qed.

Lemma failed_call_refunded_witness :
  exists r c' b', RunV2 example_node (contract_db revert_code) example_receive (Some example_call) None = Done r c' /\
    r = mkResult (Some b') noRetry (Some ErrExecutionReverted) /\
    failed_block example_receive example_call b' ErrExecutionReverted 5 0 (contract_db revert_code) (vc_db c').
Proof.
  destruct (gave_block_Done (Some ErrExecutionReverted)
    (RunV2 example_node (contract_db revert_code) example_receive (Some example_call) None))
    as (r & c' & b & E & Eb & Ee); [vm_compute; reflexivity|].
  destruct (failed_call_refunded example_node (contract_db revert_code) example_receive example_call None r c'
    (mkSnapshotBlock ZERO_HASH 100 0) ErrExecutionReverted 5 0 eq_refl E eq_refl eq_refl eq_refl eq_refl eq_refl)
    as ([] & Hd & H).
  - apply contract_receive_ok; vm_compute; reflexivity.
  - intros t; exists (10 ^ 20); split; [|discriminate].
    unfold db_GetBalance; simpl; by rewrite lookup_empty.
  - reflexivity.
  - reflexivity.
  - exact Ee.
  - destruct H as [H _]; discriminate H.
  - destruct H as [[Hn _]|(b' & Hr & Hf)]; [rewrite Hn in Eb; discriminate|].
    exists r, c', b'; split; [exact E|]; split; [exact Hr|exact Hf].
Defined.
