(* ===== verification/BuiltinSpec.v ===== *)
(** Receiving a call of a built-in contract: what the machine does around the
    method's [DoReceive], when it succeeds and when it fails. *)
From stdpp Require Import sorting.
From S2P Require Import Prelude Helper Types Upgrade VmDb IteratorSpec AccountQuota QuotaTable Builtin AccountBlock Machine Vm VmSpec.

(** The amounts that requests take from the account: none for a reward, which is minted. *)
Definition asks (b : AccountBlock) (t : TokenTypeId) : Z :=
  if BlockType b =? BlockTypeSendReward then 0 else coins (TokenId b) (default 0 (Amount b)) t.
Definition asked (l : list AccountBlock) (t : TokenTypeId) : Z := zsum (fun b => asks b t) l.

(** ** Sending the requests of a contract *)

Section Sends.
Context (vm : VM) `{Laws : !BuiltinLaws (vm_node vm)}.

(** A request and the block it was sent as. *)
Definition sent_as (b b' : AccountBlock) : Prop := exists c c', sent vm b b' c c'.

Lemma sendAll_sent l c l' c' : sendAll vm l c = Done l' c' -> Forall2 sent_as l l'.
Proof.
  revert c l'; induction l as [|b l IH]; intros c l' H; cbn [sendAll] in H; [inv_M; constructor|].
  next H as b1 c1 E; next H as l1 c2 E2; inv_M; constructor; [|by eapply IH].
  eexists _, _; by apply sendOne_sent.
Qed.

(** A call goes to a method without a fee. *)
Definition free_request (b : AccountBlock) : Prop :=
  BlockType b = BlockTypeSendCall -> free_call (vm_node vm) (ToAddress b) (Data b).

Lemma sends_ask l l' t : Forall2 sent_as l l' -> Forall free_request l -> total_spent l' t = asked l t.
Proof.
  intros H; induction H as [|b b' l l' (c & c' & Hs) _ IH]; intros Hf; [done|]; inversion Hf as [|? ? Hfree Hf']; subst.
  unfold total_spent, asked in *; cbn [foldr zsum]; rewrite IH by done; f_equal; destruct Hs as [Ht _ _ _ [Etk Ea] Efee].
  unfold spent, asks; rewrite Ht, Etk, Ea; destruct (Z.eqb_spec (BlockType b) BlockTypeSendReward); [done|].
  rewrite Efee by done; simpl; rewrite coins_zero; lia.
Qed.

(** What sending a list does: the requests become blocks that the account pays for. *)
Lemma doSendBlockList_sends l d x c' : doSendBlockList vm (mkContext d l) = Done x c' ->
  rest_same d (vc_db c') /\ Forall2 sent_as l (vc_sends c') /\ moves d (vc_db c') (fun t => - total_spent (vc_sends c') t).
Proof.
  intros H; pose proof (keeps_doSendBlockList vm (mkContext d l)) as Hk; rewrite H in Hk; split; [exact Hk|].
  pose proof (doSendBlockList_spent vm _ _ _ H) as [_ Hm]; split; [|exact Hm].
  unfold doSendBlockList in H; next H as l0 c1 E; next H as l1 c2 E2; inv_M; by eapply sendAll_sent.
Qed.

(** A call of a built-in contract went through the method's [DoSend]. *)
Lemma sendCall_builtin b uq qt qa c s c' f :
  n_contracts (vm_node vm) (generation_at (n_box (vm_node vm)) (vm_latestSnapshotHeight vm)) (ToAddress b) = Some f ->
  sendCall vm b uq qt qa c = Done s c' ->
  exists p d b0 d' b1, f (Data b) = Some p /\ DoSend p d b0 = (Ok tt, d', b1) /\
    Data b1 = Data s /\ Amount b1 = Amount s /\ TokenId b1 = TokenId s.
Proof.
  intros Ef H; unfold sendCall in H; next H as [b1 ql] c0 E; destruct (CalcQuotaUsed _ _ _ _ _) as [qs qu].
  apply updateBlock_Done in H as (_ & lh & ->); unfold GetBuiltinContractMethod in E; rewrite Ef in E.
  destruct (f (Data b)) as [p|]; [|done]; next E as fee c1 E1; apply lift_Done in E1 as [_ ->].
  next E as ok c1 E1; apply reads_Done in E1 as [_ ->]; destruct ok; cbn [negb] in E; [|done].
  next E as ql' c1 E1; apply use_quota_context in E1 as ->; next E as b2 c1 E1; unfold doSend in E1.
  destruct (DoSend p _ _) as [[[[]| |] d2] b3] eqn:Es; simplify_eq.
  next E as [] c1 E1; next E as [] c2 E2; inv_M; exists p, (vc_db c), (set_Fee b (Some fee)), d2, b1; by split_and!.
Qed.
End Sends.

(** ** Refunds *)

Lemma asked_app l1 l2 t : asked (l1 ++ l2) t = asked l1 t + asked l2 t.
Proof. apply zsum_app. Qed.

(** Requests that return something to the sender of the call. *)
Definition pays_back (block sendBlock b : AccountBlock) : Prop :=
  exists bt a token data, b = MakeRequestBlock (AccountAddress block) (AccountAddress sendBlock) bt a token data /\
    0 <= a /\ bt <> BlockTypeSendReward.

(** What a failed call pays back: its amount and its fee. *)
Definition refund_of (sendBlock : AccountBlock) (t : TokenTypeId) : Z :=
  coins (TokenId sendBlock) (Z.max 0 (default 0 (Amount sendBlock))) t + coins ViteTokenId (Z.max 0 (default 0 (Fee sendBlock))) t.

(** Appending such a request while adding its amount, [paid] in all. *)
Definition backed (block sendBlock : AccountBlock) (d : vmDb) (c : vmContext) (paid : TokenTypeId -> Z) : Prop :=
  rest_same d (vc_db c) /\ moves d (vc_db c) (asked (vc_sends c)) /\ Forall (pays_back block sendBlock) (vc_sends c) /\
  forall t, asked (vc_sends c) t = paid t.

Lemma backed_ext block sendBlock d c paid paid' : backed block sendBlock d c paid -> (forall t, paid t = paid' t) ->
  backed block sendBlock d c paid'.
Proof. intros (? & ? & ? & H) Hp; split_and!; [done..|]; intros t; by rewrite H. Qed.

Lemma asked_request block sendBlock bt a token data t : bt <> BlockTypeSendReward ->
  asked [MakeRequestBlock (AccountAddress block) (AccountAddress sendBlock) bt a token data] t = coins token a t.
Proof.
  intros Hbt; unfold asked, asks; cbn [zsum foldr].
  destruct (Z.eqb_spec (BlockType (MakeRequestBlock (AccountAddress block) (AccountAddress sendBlock) bt a token data)) BlockTypeSendReward); [done|simpl; lia].
Qed.

Lemma backed_step block sendBlock d c bt a token data x c' paid : backed block sendBlock d c paid ->
  0 < a -> bt <> BlockTypeSendReward ->
  (_ ← appendBlock (MakeRequestBlock (AccountAddress block) (AccountAddress sendBlock) bt a token data);
   _ ← addBalance token (Some a); mret true) c = Done x c' ->
  backed block sendBlock d c' (fun t => paid t + coins token a t) /\ x = true.
Proof.
  intros (Hr & Hm & Hl & Hp) Ha Hbt H; next H as [] c1 E; unfold appendBlock in E; injection E as <-.
  next H as [] c2 E; apply addBalance_Done in E as (a' & b & [= <-] & Hb & ->); inv_M; simpl in *; split; [|done]; split_and!; simpl.
  - etrans; [exact Hr|apply rest_SetBalance].
  - eapply moves_trans; [exact Hm|by apply moves_SetBalance|]; intros t; by rewrite asked_app, asked_request.
  - apply Forall_app; split; [done|]; constructor; [|done]; exists bt, a, token, data; split_and!; [done|lia|done].
  - intros t; by rewrite asked_app, asked_request, Hp.
Qed.

Lemma doRefund_Done block sendBlock data need bt d flag c' : bt <> BlockTypeSendReward ->
  doRefund block sendBlock data need bt (mkContext d []) = Done flag c' ->
  backed block sendBlock d c' (refund_of sendBlock) /\ (flag = false -> vc_sends c' = []).
Proof.
  intros Hbt H; assert (H0 : backed block sendBlock d (mkContext d []) nothing) by (split_and!; [done|by apply moves_same|done..]).
  unfold doRefund in H; next H as a c1 E; apply lift_Done in E as [Ea ->]; next H as f c1 E.
  destruct (Amount sendBlock) as [a0|] eqn:EA; [injection Ea as ->|done].
  assert (Hf : c1 = mkContext d [] /\ (0 < a -> Fee sendBlock = Some f)).
  { destruct (Z.ltb_spec 0 a); [|inv_M; split; [done|lia]]; apply lift_Done in E as [Ef ->]; split; [done|]; intros _.
    destruct (Fee sendBlock); [by injection Ef as ->|done]. }
  destruct Hf as [-> Hf]; clear E; next H as fl c2 E.
  assert (H1 : backed block sendBlock d c2 (refund_of sendBlock) /\ (fl = false -> vc_sends c2 = [])).
  { unfold refund_of; rewrite EA; destruct ((0 <? a) && (0 <? f) && _) eqn:Eb.
    { apply andb_true_iff in Eb as [Eb ->%bool_decide_eq_true]; eapply backed_step in E as [? ->]; [|done|lia|done]; split; [|done].
      eapply backed_ext; [done|]; intros t; rewrite Hf by lia; unfold nothing, coins; simpl; case_decide; lia. }
    next E as fl1 c3 E1.
    assert (H1 : backed block sendBlock d c3 (coins (TokenId sendBlock) (Z.max 0 a)) /\ (fl1 = false -> vc_sends c3 = [])).
    { destruct (Z.ltb_spec 0 a); [eapply backed_step in E1 as [? ->]; [|done|lia|done]; split; [|done]|inv_M; split; [|done]].
      all: eapply backed_ext; [eassumption|]; intros t; unfold nothing, coins; destruct (decide (t = TokenId sendBlock)); lia. }
    next E as f' c4 E2; apply lift_Done in E2 as [Ef ->]; destruct (Fee sendBlock) as [f0|]; [injection Ef as ->|done]; cbn [default].
    destruct H1 as [H1 Hz]; destruct (Z.ltb_spec 0 f').
    - eapply backed_step in E as [? ->]; [|done|lia|done]; split; [|done]; eapply backed_ext; [done|].
      intros t; simpl; by rewrite (Z.max_r 0 f') by lia.
    - inv_M; split; [|done]; eapply backed_ext; [done|]; intros t; simpl; rewrite (Z.max_l 0 f') by lia; rewrite coins_zero; lia. }
  destruct (negb fl && need); [|by inv_M]; next H as [] c3 E3; unfold appendBlock in E3; inv_M; destruct H1 as [(Hr & Hm & Hl & Hp) _].
  split; [|done]; split_and!; simpl; [done| | |].
  - eapply moves_ext; [exact Hm|]; intros t; rewrite asked_app, asked_request, coins_zero by done; lia.
  - apply Forall_app; split; [done|]; constructor; [|done]; by eexists _, _, _, _.
  - intros t; rewrite asked_app, asked_request, coins_zero, Hp by done; unfold refund_of; lia.
Qed.

(** ** The receipt *)

Lemma keeps_receipt vm err : keeps_rest (getReceiveCallData vm err).
Proof.
  intros c; unfold getReceiveCallData, db_GetReceiptHash.
  pose proof (uns_step_wf _ _ (step_GetStorage (uns (vc_db c)))) as Hwf; revert Hwf; unfold Unsaved_GetStorage.
  destruct (storageDirty _); [destruct (storage_list _)|destruct (storageCache _)]; intros Hwf; by split.
Qed.

Lemma withReceiptAndSends_rest vm b err c r c' : withReceiptAndSends vm b err c = Done r c' -> rest_same (vc_db c) (vc_db c').
Proof.
  unfold withReceiptAndSends; intros H; next H as data c1 E; next H as l c2 E2; inv_M.
  pose proof (keeps_receipt vm err c) as Hk; by rewrite E in Hk.
Qed.

Lemma reset_rest d d' : uns d = NewUnsaved -> same_handle d d' -> rest_same d (db_Reset d').
Proof. intros Hf Hh; split; [done|simpl; by rewrite Hf..|]; intros _; by destruct NewUnsaved_wf as [H1 H2]; split. Qed.

Section Receive.
Context (vm : VM) `{Laws : !BuiltinLaws (vm_node vm)}.

(** Paying back after the database was reset. *)
Lemma refundAndFinish_back block sendBlock data need bt e qs qu d r c' b' :
  bt <> BlockTypeSendReward -> SendBlockList block = [] ->
  refundAndFinish vm block sendBlock data need bt (Some e) qs qu (mkContext d []) = Done r c' -> vr_block r = Some b' ->
  exists l, rest_same d (vc_db c') /\ (Forall (pays_back block sendBlock) l /\ forall t, asked l t = refund_of sendBlock t) /\
    Forall2 (sent_as vm) l (SendBlockList b') /\ moves d (vc_db c') (fun t => asked l t - total_spent (SendBlockList b') t).
Proof.
  intros Hbt Hnil H Hb; unfold refundAndFinish in H; next H as flag c1 E; apply doRefund_Done in E as [(Hr & Hm & Hl & Hpaid) Hz]; [|done].
  next H as b1 c2 E1; apply updateBlock_fields in E1 as (-> & _ & Hs & _); destruct flag.
  - unfold sendRefunds in H; next H as res c3 E2; apply try_Done in E2; destruct res as [[]|]; [|by inv_M].
    destruct c1 as [d1 l]; apply (doSendBlockList_sends vm) in E2 as (Hr2 & Hl2 & Hm2); pose proof (withReceiptAndSends_rest _ _ _ _ _ _ H) as Hr3.
    apply withReceiptAndSends_Done in H as (data' & -> & Es & Hm3 & _); injection Hb as <-; simpl in *; exists l; rewrite Es.
    split_and!; [by do 2 (etrans; [eassumption|])|done|done|done|].
    eapply moves_trans; [exact Hm|eapply moves_trans; [exact Hm2|exact Hm3|reflexivity]|]; intros t; unfold nothing; lia.
  - unfold withReceipt in H; next H as data' c3 E2; inv_M; injection Hb as <-; simpl; rewrite Hs, Hnil.
    pose proof (keeps_receipt vm (Some e) c1) as Hr3; rewrite E2 in Hr3; apply getReceiveCallData_Done in E2 as (_ & Hm3 & _).
    exists []; rewrite Hz in Hpaid by done; split_and!; [by etrans|done|done|done|]; eapply moves_trans; [exact Hm|exact Hm3|]; intros t; by rewrite Hz.
Qed.

(** How a call that gave a block ended, for a method that returned [r0] and left the
    database [d2]: its requests were sent, or everything was undone and the sender is paid back. *)
Definition ended (d d2 d' : vmDb) (block sendBlock b' : AccountBlock) (r0 : result (list AccountBlock)) (err : option vm_err) : Prop :=
  (exists l, r0 = Ok l /\ err = None /\ rest_same d2 d' /\ Forall2 (sent_as vm) l (SendBlockList b') /\
     moves d2 d' (fun t => - total_spent (SendBlockList b') t)) \/
  (exists e l, err = Some e /\ rest_same d d' /\ (Forall (pays_back block sendBlock) l /\ forall t, asked l t = refund_of sendBlock t) /\ Forall2 (sent_as vm) l (SendBlockList b') /\
     moves d d' (fun t => asked l t - total_spent (SendBlockList b') t)).

Lemma receiveBuiltin_Done p block sendBlock d r c' b' :
  receiveBuiltin vm p block sendBlock (mkContext d []) = Done r c' -> vr_block r = Some b' ->
  uns d = NewUnsaved -> SendBlockList block = [] ->
  exists a bal, Amount sendBlock = Some a /\ db_GetBalance d (TokenId sendBlock) = Ok bal /\
  forall r0 d2, DoReceive p (db_SetBalance d (TokenId sendBlock) (bal + a)) block sendBlock (vm_globalStatus vm) = (r0, d2, block) ->
    same_handle d d2 -> ended d d2 (vc_db c') block sendBlock b' r0 (vr_err r).
Proof.
  intros H Hb Hf Hnil; unfold receiveBuiltin in H; set (q := GetReceiveQuota _ _) in H.
  apply or_return_Done in H as [([qt qa] & c1 & E & H)|(e & _ & ->)]; [|done].
  assert (c1 = mkContext d []) as -> by (destruct (0 <? q); by inv_M); clear E.
  apply or_return_Done in H as [(ql & c1 & E & H)|(e & _ & ->)]; [|done]; apply use_quota_context in E as ->.
  next H as [] c1 E; apply addBalance_Done in E as (a & bal & Ea & Ebal & ->); exists a, bal; split_and!; [done..|].
  intros r0 d2 Hdr Hh; next H as [res b1] c1 E; unfold doReceive in E; simpl in E; rewrite Hdr in E.
  next H as res2 c3 E2; assert (Hres : match res2 with
    | inl res' => vr_block res' = Some b' -> ended d d2 (vc_db c3) block sendBlock b' r0 (vr_err res')
    | inr (_, b3) => same_handle d (vc_db c3) /\ AccountAddress b3 = AccountAddress block /\ SendBlockList b3 = []
    end).
  { clear H Hb; destruct r0 as [l|e|]; simplify_eq; [|by inv_M].
    next E2 as b2 c4 E3; apply updateBlock_fields in E3 as (-> & Hac & Hsl & _); next E2 as [] c4 E3; inv_M; simpl in *.
    match goal with H : match ?x with inl _ => doSendBlockList _ _ = _ | inr _ => _ end |- _ => rename H into Hsend; destruct x as [[]|e] end.
    - apply (doSendBlockList_sends vm) in Hsend as (Hr2 & Hl2 & Hm2); inv_M; intros Hb'.
      match goal with H : withReceiptAndSends _ _ _ _ = _ |- _ => rename H into Hrc end; pose proof (withReceiptAndSends_rest _ _ _ _ _ _ Hrc) as Hr3.
      apply withReceiptAndSends_Done in Hrc as (data & -> & Es & Hm3 & _); injection Hb' as <-; left; exists l; simpl; rewrite Es.
      split_and!; [done|done|by etrans|done|]; eapply moves_trans; [exact Hm2|exact Hm3|]; intros t; unfold nothing; lia.
    - pose proof (keeps_doSendBlockList vm (mkContext d2 l)) as Hk; rewrite Hsend in Hk; inv_M.
      split_and!; [etrans; [exact Hh|apply Hk]|done|congruence]. }
  destruct res2 as [res'|[e b3]]; [inv_M; by apply Hres|]; destruct Hres as (Hh3 & Hac & Hsl); right; exists e.
  erewrite bind_run in H by reflexivity; destruct (GetRefundData _ _ _) as [data need]; pose proof H as He; apply refundAndFinish_err in He as [He _].
  apply refundAndFinish_back with (b' := b') in H as (l & Hr & Hl & Hs & Hm); [|done..].
  pose proof (reset_rest d (vc_db c3) Hf Hh3) as Hr0; destruct (reset_fresh d (vc_db c3) Hf Hh3) as [_ Hm0].
  destruct Hl as [Hl Hpaid]; exists l; split_and!; [done|by etrans|unfold pays_back in *; by rewrite Hac in Hl|done|done|].
  eapply moves_trans; [exact Hm0|exact Hm|]; intros t; unfold nothing; lia.
Qed.
End Receive.

(** ** What is stored *)

Lemma rest_view d d' k : rest_same d d' -> view_of d' k = view_of d k.
Proof.
  intros [(Hc & Ha & _) Hs Hd _]; unfold view_of, db_GetValue, Unsaved_GetValue, db_GetOriginalValue; by rewrite Hs, Hd, Hc, Ha.
Qed.

Lemma rest_ready d d' : rest_same d d' -> db_ready d -> db_ready d'.
Proof.
  intros Hr [Hw Hg Hi]; pose proof (fun k => rest_view _ _ k Hr) as Hv; destruct Hr as [(Hc & Ha & _) Hs Hd Hwf]; split; [by apply Hwf| |].
  - intros k; rewrite Hv, <- Hg; unfold db_GetValue, Unsaved_GetValue, db_GetOriginalValue; by rewrite Hs, Hd, Hc, Ha.
  - intros prefix; destruct (Hi prefix) as (items & [H1 H2 H3]); exists items; unfold db_GetOriginalValue in *.
    split; unfold db_GetOriginalValue; by rewrite ?Hc, ?Ha.
Qed.

Lemma storage_only_moves d d' : storage_only d d' -> moves d d' nothing /\ same_handle d d'.
Proof. intros []; split; [by apply moves_same|done]. Qed.

(** ** Blocks *)

(** What is stored once a block is accepted: what it wrote, over the state before it. *)
Definition committed (d : vmDb) (k : bytes) : bytes :=
  match (list_to_map (storageCache (uns d)) : gmap bytes bytes) !! k with
  | Some v => v
  | None => match db_GetOriginalValue d k with Ok v => v | _ => [] end
  end.

Lemma storage_list_map m : list_to_map (storage_list m) = m.
Proof.
  rewrite (list_to_map_proper _ (map_to_list m)); [apply list_to_map_to_list| |apply merge_sort_Permutation].
  unfold storage_list; rewrite merge_sort_Permutation; apply NoDup_fst_map_to_list.
Qed.

Lemma committed_Finish d k : uns_wf (uns d) -> committed (db_Finish d) k = view_of d k.
Proof.
  intros Hw; assert (Hc : storageCache (uns (db_Finish d)) = storage_list (storage (uns d))).
  { simpl; unfold Unsaved_GetStorage; destruct (storageDirty (uns d)) eqn:E; [done|by apply (wf_cache _ Hw)]. }
  unfold committed; rewrite Hc, storage_list_map; unfold view_of, db_GetValue, Unsaved_GetValue.
  destruct (storage (uns d) !! k) as [v|] eqn:E; [done|]; case_bool_decide as Hd; [|done].
  apply (wf_deleted _ Hw) in Hd; congruence.
Qed.

Lemma RunV2_builtin n d block sendBlock st r c' sb b' : db_LatestSnapshotBlock d = Ok sb ->
  RunV2 n d block (Some sendBlock) st = Done r c' -> IsReceiveBlock (BlockType block) = true -> BlockType sendBlock = BlockTypeSendCall ->
  GetBuiltinContractMethod (n_contracts n) (n_box n) (AccountAddress block) (Data sendBlock) (sb_Height sb) <> NotBuiltin ->
  vr_block r = Some b' ->
  exists c, c' = mkContext (db_Finish (vc_db c)) (vc_sends c) /\
    ((vr_err r = Some ErrDepth /\ rest_same d (vc_db c) /\ SendBlockList b' = SendBlockList (Copy block) /\ exists a, Amount sendBlock = Some a /\ moves d (vc_db c) (coins (TokenId sendBlock) a)) \/
     exists p, GetBuiltinContractMethod (n_contracts n) (n_box n) (AccountAddress block) (Data sendBlock) (sb_Height sb) = Method p /\
       receiveBuiltin (machineAt n (sb_Height sb) st) p (set_Data (Copy block) []) sendBlock (mkContext d []) = Done r c).
Proof.
  intros Hsb HR Hr Hbt Hm Hb; destruct (RunV2_Done _ _ _ _ _ _ _ _ HR Hsb) as (c & -> & H); exists c; split; [done|].
  destruct (Copy_fields block) as (_ & Fac & _); rewrite (receive_not_send _ Hr) in H.
  unfold receiveV2 in H; next H as meta c1 E; apply reads_Done in E as [_ ->]; next H as s c1 E; apply lift_Done in E as [[= <-] ->].
  rewrite Hbt in H; simpl in H; unfold receiveCall in H; next H as deep c1 E; apply reads_Done in E as [_ ->]; destruct deep.
  - left; next H as [] c1 E; apply addBalance_Done in E as (a & bal & Ea & Ebal & ->); next H as data c1 E.
    pose proof (keeps_receipt (machineAt n (sb_Height sb) st) (Some ErrDepth)
      (mkContext (db_SetBalance d (TokenId sendBlock) (bal + a)) [])) as Hk.
    simpl in *; rewrite E in Hk; apply getReceiveCallData_Done in E as (_ & Hm2 & _).
    next H as b2 c2 E; apply updateBlock_Done in E as (-> & lh & ->); inv_M; injection Hb as <-; split_and!; [done|etrans; [apply rest_SetBalance|exact Hk]|done|].
    exists a; split; [done|]; eapply moves_trans; [by apply moves_SetBalance|exact Hm2|]; intros t; unfold nothing; lia.
  - right; change (n_contracts (vm_node (machineAt n (sb_Height sb) st))) with (n_contracts n) in H.
    simpl in H; rewrite Fac in H; destruct (GetBuiltinContractMethod _ _ _ _ _) as [p| |]; [by exists p|done..].
Qed.
