(* ===== verification/ContractVmSpec.v ===== *)
(** A block of a built-in contract, for any contract: the method that receives a
    request is the one that accepted it, and the block ends in one of three ways. *)
From Stdlib Require Import ZifyBool Ascii String.
From stdpp Require Import strings.
From S2P Require Import Prelude Helper Types Upgrade VmDb IteratorSpec AccountQuota Builtin AccountBlock Machine Vm Abi AbiSpec.
From S2P Require Import ContractUtil ContractSpec VmSpec BuiltinSpec.
#[local] Open Scope Z_scope.

(** ** Methods by selector *)

(** What a contract promises about its methods: they are found by the name that
    the selector stands for, a name has one method in all generations, and the
    data of an accepted request carry the selector of the method that accepted it. *)
Class MethodTable (abi : ABIContract) (contract : generation -> bytes -> option BuiltinContractMethod) := {
  mt_method : string -> BuiltinContractMethod -> Prop;
  mt_found g sel p : contract g sel = Some p -> exists m, MethodById abi sel = Ok m /\ mt_method (md_Name m) p;
  mt_one name p p' : mt_method name p -> mt_method name p' -> p = p';
  mt_selects name p s : mt_method name p -> sent_through p s -> exists m, MethodById abi (Data s) = Ok m /\ md_Name m = name;
}.

Lemma MethodById_take abi data : MethodById abi (take 4 data) = MethodById abi data.
Proof.
  unfold MethodById; rewrite take_take, Nat.min_id; destruct (Z.ltb_spec (len data) 4).
  - destruct (Z.ltb_spec (len (take 4 data)) 4); [reflexivity|unfold len in *; rewrite length_take in *; lia].
  - destruct (Z.ltb_spec (len (take 4 data)) 4); [unfold len in *; rewrite length_take in *; lia|reflexivity].
Qed.

Lemma UnpackMethod_selects abi name data vs : UnpackMethod abi name data = Ok vs -> exists m, MethodById abi data = Ok m /\ md_Name m = name.
Proof.
  unfold UnpackMethod; rewrite MethodById_take; destruct (len data <=? 4); [discriminate|].
  destruct (MethodById abi data) as [m| |]; [|discriminate..]; case_bool_decide; [|discriminate]; by exists m.
Qed.

(** ** Amounts *)

(** What blocks carry of a token, rewards included. *)
Definition paid (l : list AccountBlock) (t : TokenTypeId) : Z := zsum (fun b => coins (TokenId b) (default 0 (Amount b)) t) l.

Lemma paid_sent vm l l' t : Forall2 (sent_as vm) l l' -> paid l' t = paid l t.
Proof.
  intros H; induction H as [|b b' l l' (c & c' & Hs) _ IH]; [done|]; unfold paid in *; rewrite !zsum_cons, IH.
  by destruct (sent_value _ _ _ _ _ Hs) as [-> ->].
Qed.

Lemma paid_back block s l t : Forall (pays_back block s) l -> paid l t = asked l t.
Proof.
  intros H; induction H as [|b l (bt & a & tk & data & -> & _ & Hbt) _ IH]; [done|]; unfold paid, asked in *; rewrite !zsum_cons, IH.
  unfold asks; destruct (Z.eqb_spec (BlockType (MakeRequestBlock (AccountAddress block) (AccountAddress s) bt a tk data)) BlockTypeSendReward); done.
Qed.

(** The balances after a move. *)
Lemma moved d d' f t bal : moves d d' f -> db_GetBalance d t = Ok bal -> db_GetBalance d' t = Ok (bal + f t).
Proof. intros Hm Hb; by rewrite Hm, Hb. Qed.

(** The database of the next block: what the block wrote is the state of the chain
    now, with the balances of the tokens [P]. *)
Record persisted (P : TokenTypeId -> Prop) (d' d2 : vmDb) : Prop := {
  pe_fresh : uns d2 = NewUnsaved;
  pe_ready : db_ready d2;
  pe_view k : view_of d2 k = committed d' k;
  pe_balance t : P t -> db_GetBalance d2 t = db_GetBalance d' t;
}.

Section Contract.
Context (n : node) `{Laws : !BuiltinLaws n} (A : Address) {abi : ABIContract}.
Context {contract : generation -> bytes -> option BuiltinContractMethod} `{Table : !MethodTable abi contract}.
Context (Hcontract : forall g, n_contracts n g A = Some (contract g)).

(** The method that receives a request is the one that accepted it, whatever
    upgrades happened in between. *)
Lemma same_method g g' sel p p' s : contract g sel = Some p -> sent_through p s -> contract g' (Data s) = Some p' -> p' = p.
Proof.
  intros (m & _ & Hm)%mt_found Hs (m' & Hid & Hm')%mt_found; destruct (mt_selects _ _ _ Hm Hs) as (m2 & Hid2 & En).
  rewrite Hid in Hid2; injection Hid2 as ->; rewrite En in Hm'; by eapply mt_one.
Qed.

(** A request that some account sent with the machine. *)
Definition sent_request (s : AccountBlock) : Prop :=
  exists vm b uq qt qa c s0 c', vm_node vm = n /\ ToAddress b = A /\
    sendCall vm b uq qt qa c = Done s0 c' /\ Data s0 = Data s /\ Amount s0 = Amount s /\ TokenId s0 = TokenId s.

Lemma sent_accepted g s p : sent_request s -> contract g (Data s) = Some p -> sent_through p s.
Proof.
  intros (vm & b & uq & qt & qa & c & s0 & c' & En & Eto & Hs & Ed & Ea & Et) Hp; subst n.
  eapply sendCall_builtin in Hs as (p0 & d & b0 & d' & b1 & Hp0 & Hd & E1 & E2 & E3); [|rewrite Eto; apply Hcontract].
  assert (H0 : sent_through p0 s) by (exists d, b0, d', b1; split_and!; congruence).
  by rewrite (same_method _ _ _ _ _ _ Hp0 H0 Hp).
Qed.

(** ** The block *)

Lemma refunds_free vm block s l : vm_node vm = n -> free_calls n (AccountAddress s) -> Forall (pays_back block s) l ->
  Forall (free_request vm) l.
Proof.
  intros En Hf Hl; induction Hl as [|b l (bt & a & t & data & -> & _) _ IH]; constructor; [|done]; intros _; rewrite En; apply Hf.
Qed.

(** What a method that received request [s] for [block] in [d] does not touch. *)
Definition well_behaved (d : vmDb) (block s : AccountBlock) (st : option GlobalStatus) (p : BuiltinContractMethod) : Prop :=
  match DoReceive p d block s st with
  | (Ok l, d', block') => uns_wf (uns d') /\ same_handle d d' /\ block' = block
  | (Err _, d', block') => same_handle d d' /\ block' = block
  | (Panic _, _, _) => False
  end.

(** The ways a block ends that received [s] in [d]: the request is too deep and only its amount is kept, it succeeded,
    or it failed and all of its amount and its fee are sent back. *)
Inductive block_end (d d' : vmDb) (block s : AccountBlock) (st : option GlobalStatus) (sends : list AccountBlock) : option vm_err -> Prop :=
| end_deep a : Amount s = Some a -> (forall k, committed d' k = view_of d k) -> moves d d' (coins (TokenId s) a) -> sends = [] ->
    block_end d d' block s st sends (Some ErrDepth)
| end_success vm g p a bal l d2 : vm_node vm = n -> contract g (Data s) = Some p -> sent_through p s ->
    Amount s = Some a -> db_GetBalance d (TokenId s) = Ok bal ->
    DoReceive p (db_SetBalance d (TokenId s) (bal + a)) (set_Data (Copy block) []) s st = (Ok l, d2, set_Data (Copy block) []) ->
    (forall k, committed d' k = view_of d2 k) -> Forall2 (sent_as vm) l sends -> moves d2 d' (fun t => - total_spent sends t) ->
    block_end d d' block s st sends None
| end_failure e : (forall k, committed d' k = view_of d k) -> moves d d' nothing -> (forall t, paid sends t = refund_of s t) ->
    block_end d d' block s st sends (Some e).

Lemma committed_rest d c : db_ready d -> rest_same d (vc_db c) -> forall k, committed (db_Finish (vc_db c)) k = view_of d k.
Proof. intros Hdb Hr k; rewrite committed_Finish by (apply Hr, Hdb); by apply rest_view. Qed.

Lemma block_ends d block s st sb r c' b' : db_LatestSnapshotBlock d = Ok sb -> RunV2 n d block (Some s) st = Done r c' -> vr_block r = Some b' ->
  IsReceiveBlock (BlockType block) = true -> SendBlockList block = [] -> AccountAddress block = A ->
  BlockType s = BlockTypeSendCall -> sent_request s -> free_calls n (AccountAddress s) -> uns d = NewUnsaved -> db_ready d ->
  (forall g p d1, contract g (Data s) = Some p -> sent_through p s -> rest_same d d1 -> db_ready d1 ->
     (exists a bal, Amount s = Some a /\ db_GetBalance d (TokenId s) = Ok bal /\ d1 = db_SetBalance d (TokenId s) (bal + a)) ->
     well_behaved d1 (set_Data (Copy block) []) s st p) ->
  block_end d (vc_db c') block s st (SendBlockList b') (vr_err r).
Proof.
  intros Hsb HR Hb Hr Hnil Hac Hbt Hreq Hfree Hfresh Hdb Hgood.
  destruct (RunV2_builtin n d block s st r c' sb b' Hsb HR Hr Hbt) as (c & -> & Hcase); [|exact Hb|].
  { unfold GetBuiltinContractMethod; rewrite Hac, Hcontract; by destruct (contract _ _). }
  assert (Hfin : forall d1 f, moves d1 (vc_db c) f -> moves d1 (db_Finish (vc_db c)) f).
  { intros d1 f Hm; eapply moves_trans; [exact Hm|apply moves_Finish|]; intros t; unfold nothing; lia. }
  destruct Hcase as [(-> & Hrs & Hs & a & Ea & Hm)|(p & Hp & Hrecv)].
  { apply (end_deep _ _ _ _ _ _ a); [done|by apply committed_rest|by apply Hfin|rewrite Hs; by apply Copy_no_sends]. }
  unfold GetBuiltinContractMethod in Hp; rewrite Hac, Hcontract in Hp.
  destruct (contract _ _) as [p'|] eqn:Eq; [injection Hp as ->|discriminate]; pose proof (sent_accepted _ _ _ Hreq Eq) as Hacc.
  destruct (receiveBuiltin_Done (machineAt n (sb_Height sb) st) p (set_Data (Copy block) []) s d r c b') as (a & bs & Ea & Ebs & Hend);
    [exact Hrecv|exact Hb|exact Hfresh|by apply Copy_no_sends|].
  set (d1 := db_SetBalance d (TokenId s) (bs + a)) in *; assert (Hr1 : rest_same d d1) by apply rest_SetBalance.
  assert (Hw : well_behaved d1 (set_Data (Copy block) []) s st p).
  { apply (Hgood _ p d1 Eq Hacc Hr1 (rest_ready _ _ Hr1 Hdb)); by exists a, bs. }
  unfold well_behaved in Hw; cbn [vm_globalStatus machineAt] in Hend; destruct (DoReceive p d1 _ s st) as [[r0 d2] b2] eqn:Edr.
  assert (Hd2 : b2 = set_Data (Copy block) [] /\ same_handle d d2).
  { destruct r0 as [l|e|]; [destruct Hw as (_ & Hh & ->)|destruct Hw as [Hh ->]|destruct Hw]; (split; [reflexivity|]); (etrans; [|exact Hh]); apply (rs_handle _ _ Hr1). }
  destruct Hd2 as [-> Hh2]; destruct (Hend r0 d2 eq_refl Hh2) as [(l & -> & -> & Hrs & Hsent & Hm)|(e & l & -> & Hrs & [Hl Hpaid] & Hsent & Hm)].
  - eapply end_success; [| exact Eq|exact Hacc|exact Ea|exact Ebs|exact Edr| |exact Hsent|by apply Hfin]; [reflexivity|].
    intros k; cbn [vc_db]; rewrite committed_Finish by (apply Hrs, Hw); by apply rest_view.
  - apply end_failure; [by apply committed_rest|apply Hfin; eapply moves_ext; [exact Hm|]|].
    + intros t; cbv beta; rewrite (sends_ask _ _ _ _ Hsent); [unfold nothing; lia|by eapply refunds_free].
    + intros t; rewrite (paid_sent _ _ _ t Hsent), (paid_back _ _ _ t Hl); apply Hpaid.
Qed.
End Contract.
