(* ===== verification/GovernanceSpec.v ===== *)
(** What the governance contract guarantees.

    The storage is read as a register of producers: a finite map from the keys of
    names in a consensus group to registrations, the names by producing address, and the votes. *)
From Stdlib Require Import ZifyBool Ascii String.
From stdpp Require Import strings.
From S2P Require Import Prelude Helper Types Upgrade VmDb Iterator IteratorSpec Builtin TimeIndex SbpStats AccountBlock Abi AbiSpec ContractUtil ContractSpec.
From S2P Require Import AssetContract GovernanceContract WithdrawNames.
#[local] Open Scope Z_scope.

(** ** Registrations *)

Definition is_i64 (z : Z) : Prop := - 2 ^ 63 <= z < 2 ^ 63.

(** A registration that has had at most [h] producing addresses. *)
Record registration_wf (h : Z) (r : Registration) : Prop := {
  gw_amount : exists a, rg_Amount r = Some a /\ 0 <= a < 2 ^ 256;
  gw_name : len (rg_Name r) <= registrationNameLengthMax;
  gw_producing : len (rg_BlockProducingAddress r) = AddressSize;
  gw_withdraw : len (rg_RewardWithdrawAddress r) = AddressSize;
  gw_stake : len (rg_StakeAddress r) = AddressSize;
  gw_height : is_u64 (rg_ExpirationHeight r);
  gw_times : is_i64 (rg_RewardTime r) /\ is_i64 (rg_RevokeTime r);
  gw_his : Forall (fun a => len a = AddressSize) (rg_HisAddrList r);
  gw_count : Z.of_nat (length (rg_HisAddrList r)) <= h;
}.

(** The first word of packed values, when the first of them is a string. *)
Lemma Pack_first args vs data : Forall2 has_type (ArgType <$> args) vs -> Pack args vs = Ok data ->
  match ArgType <$> args with t :: _ => requiresLengthPrefix t = true | [] => False end ->
  take 32 data = be_bytes 32 (32 * words (ArgType <$> args)).
Proof.
  intros Hv Hp Ht; unfold Pack in Hp; pose proof (Forall2_length Hv) as Hl; rewrite length_fmap in Hl; rewrite <- Hl, Nat.eqb_refl in Hp; cbn [negb] in Hp.
  rewrite inputOffset_words in Hp; destruct Hv as [|t v ts vs Hv Hvs]; [done|].
  destruct (pack_typed t v Hv) as (p & Hpk & _); cbn [packArgs] in Hp; rewrite Hpk, bind_Ok, Ht in Hp.
  destruct (packArgs_typed ts vs Hvs (32 * words (t :: ts)) ([] ++ packNum (32 * words (t :: ts) + len [])) ([] ++ p)) as (H & V & E & _).
  rewrite E, bind_Ok in Hp; injection Hp as <-; cbn [app]; rewrite packNum_spec, <- !app_assoc; change (len []) with 0; rewrite Z.add_0_r.
  apply take_app_length'; by rewrite length_be_bytes.
Qed.

Section Governance.
Context (Hash256 : bytes -> bytes) (box : upgradeBox) (reader : ConsensusReader).
Abbreviation ABI := (ABIGovernance Hash256).

Definition registration_inputs : list (string * string) :=
  [("name", "string"); ("blockProducingAddress", "address"); ("stakeAddress", "address"); ("amount", "uint256");
   ("expirationHeight", "uint64"); ("rewardTime", "int64"); ("revokeTime", "int64"); ("hisAddrList", "address[]")]%string.
Definition registration_inputs_V2 : list (string * string) :=
  [("name", "string"); ("blockProducingAddress", "address"); ("rewardWithdrawAddress", "address"); ("stakeAddress", "address"); ("amount", "uint256");
   ("expirationHeight", "uint64"); ("rewardTime", "int64"); ("revokeTime", "int64"); ("hisAddrList", "address[]")]%string.

Lemma variable_registration : assoc VariableNameRegistrationInfo (Variables ABI) = Some (args_of registration_inputs).
Proof. vm_compute; reflexivity. Qed.
Lemma variable_registrationV2 : assoc VariableNameRegistrationInfoV2 (Variables ABI) = Some (args_of registration_inputs_V2).
Proof. vm_compute; reflexivity. Qed.
Lemma variable_hisName : assoc VariableNameRegisteredHisName (Variables ABI) = Some (args_of [("name", "string")]%string).
Proof. vm_compute; reflexivity. Qed.
Lemma variable_vote : assoc VariableNameVoteInfo (Variables ABI) = Some (args_of [("sbpName", "string")]%string).
Proof. vm_compute; reflexivity. Qed.

(** The value stored for a registration decodes to it. *)
Definition stored_registration (r : Registration) (v : bytes) : Prop := v <> [] /\ UnpackRegistration Hash256 v = Ok (Some r).

(** The first form has no withdraw address: it is the staking address then. *)
Definition saved (earth : bool) (r : Registration) : Registration := if earth then r else set_Withdraw r (rg_StakeAddress r).

Lemma addresses_typed l : Forall (fun a => len a = AddressSize) l -> Forall (has_elem AddressTy) (VArray <$> l).
Proof. intros H; apply Forall_fmap; exact H. Qed.

Lemma addresses_back (l : list Address) : omap (fun v => match v with VArray a => Some a | _ => None end) (VArray <$> l) = l.
Proof. induction l as [|a l IH]; [done|]; simpl; by f_equal. Qed.

Lemma registerInfo_stored h earth r : registration_wf h r -> h < 2 ^ 50 ->
  exists v, registerInfo Hash256 earth r = Ok v /\ stored_registration (saved earth r) v.
Proof.
  intros [(a & Ea & Ha) Hn Hb Hw Hs He [Ht1 Ht2] Hh Hc] Hh50; unfold is_u64, is_i64, registrationNameLengthMax in *; pose proof (addresses_typed _ Hh) as Hty.
  destruct earth; unfold registerInfo, packRegistration, packRegistrationV2; rewrite Ea, big_Some.
  - set (vs := [VString _; VArray _; VArray _; VArray _; vBig a; _; _; _; _]).
    assert (Hv : Forall2 has_type (ArgType <$> args_of registration_inputs_V2) vs).
    { unfold vs; has_types; first [assumption | split; [reflexivity|lia] | split; [reflexivity|assumption] | lia]. }
    destruct (sized_variable ABI _ _ vs variable_registrationV2) as (v & Hp & Hl & Hu); [vm_compute; discriminate| |exact Hv|].
    { change (32 * words _) with 288; unfold vs; cbn [zsum foldr tail_size vBig vUint64 vInt64]; rewrite length_fmap; lia. }
    rewrite Hp; exists v; split; [done|]; split; [eapply len_nonempty; [reflexivity|lia]|].
    unfold UnpackRegistration; destruct (Nat.ltb_spec (length v) 32); [unfold len in Hl; lia|].
    unfold PackVariable in Hp; rewrite variable_registrationV2 in Hp; rewrite (Pack_first _ _ _ Hv Hp) by reflexivity.
    rewrite bool_decide_eq_false_2 by (vm_compute; discriminate); rewrite Hu; unfold vs; cbn [vBig vUint64 vInt64]; rewrite addresses_back, <- Ea.
    clear; by destruct r.
  - set (vs := [VString _; VArray _; VArray _; vBig a; _; _; _; _]).
    assert (Hv : Forall2 has_type (ArgType <$> args_of registration_inputs) vs).
    { unfold vs; has_types; first [assumption | split; [reflexivity|lia] | split; [reflexivity|assumption] | lia]. }
    destruct (sized_variable ABI _ _ vs variable_registration) as (v & Hp & Hl & Hu); [vm_compute; discriminate| |exact Hv|].
    { change (32 * words _) with 256; unfold vs; cbn [zsum foldr tail_size vBig vUint64 vInt64]; rewrite length_fmap; lia. }
    rewrite Hp; exists v; split; [done|]; split; [eapply len_nonempty; [reflexivity|lia]|].
    unfold UnpackRegistration; destruct (Nat.ltb_spec (length v) 32); [unfold len in Hl; lia|].
    unfold PackVariable in Hp; rewrite variable_registration in Hp; rewrite (Pack_first _ _ _ Hv Hp) by reflexivity.
    rewrite bool_decide_eq_true_2 by (vm_compute; reflexivity); rewrite Hu; unfold vs; cbn [vBig vUint64 vInt64]; rewrite addresses_back, <- Ea.
    clear; by destruct r.
Qed.

(** ** Calls *)

(** The inputs of the methods, and the names with these inputs. *)
Inductive gov_inputs := GProducing | GRegisterV3 | GProducingV3 | GWithdraw | GNamed | GNamedV3 | GReward | GRewardV3 | GGid.

Definition inputs_of (q : gov_inputs) : list (string * string) :=
  match q with
  | GProducing => [("gid", "gid"); ("sbpName", "string"); ("blockProducingAddress", "address")]
  | GRegisterV3 => [("sbpName", "string"); ("blockProducingAddress", "address"); ("rewardWithdrawAddress", "address")]
  | GProducingV3 => [("sbpName", "string"); ("blockProducingAddress", "address")]
  | GWithdraw => [("sbpName", "string"); ("rewardWithdrawAddress", "address")]
  | GNamed => [("gid", "gid"); ("sbpName", "string")]
  | GNamedV3 => [("sbpName", "string")]
  | GReward => [("gid", "gid"); ("sbpName", "string"); ("receiveAddress", "address")]
  | GRewardV3 => [("sbpName", "string"); ("receiveAddress", "address")]
  | GGid => [("gid", "gid")]
  end%string.

Definition gov_names (q : gov_inputs) : list string :=
  match q with
  | GProducing => [MethodNameRegister; MethodNameUpdateBlockProducingAddress; MethodNameUpdateBlockProducintAddressV2]
  | GRegisterV3 => [MethodNameRegisterV3]
  | GProducingV3 => [MethodNameUpdateBlockProducintAddressV3]
  | GWithdraw => [MethodNameUpdateSBPRewardWithdrawAddress]
  | GNamed => [MethodNameRevoke; MethodNameRevokeV2; MethodNameVote]
  | GNamedV3 => [MethodNameRevokeV3; MethodNameVoteV3]
  | GReward => [MethodNameWithdrawReward; MethodNameWithdrawRewardV2]
  | GRewardV3 => [MethodNameWithdrawRewardV3]
  | GGid => [MethodNameCancelVote]
  end.

Lemma gov_names_nonempty q name : name ∈ gov_names q -> name <> ""%string.
Proof.
  intros H ->; destruct q; cbn [gov_names] in H; rewrite ?elem_of_cons, elem_of_nil in H;
    repeat destruct H as [H|H]; try discriminate H; exact H.
Qed.

Lemma gov_methods_defined q name : name ∈ gov_names q ->
  assoc name (Methods ABI) = Some (newMethod Hash256 name (args_of (inputs_of q))).
Proof.
  intros H; destruct q; cbn [gov_names] in H; rewrite ?elem_of_cons, elem_of_nil in H;
    repeat destruct H as [->|H]; try (exfalso; exact H); vm_compute; reflexivity.
Qed.

Lemma gov_abi_ok : abi_selectors ABI -> abi_ok ABI.
Proof.
  intros Hd; apply (abi_ok_intro Hash256); [exact Hd|apply (bool_decide_unpack _); vm_compute; exact I|vm_compute; repeat constructor].
Qed.

Context (Hsel : abi_selectors ABI).

(** The method that data select. *)
Definition selects (name : string) (data : bytes) : Prop := exists m, MethodById ABI data = Ok m /\ md_Name m = name.

(** A decoded call is packed again to data that decode to it. *)
Lemma gov_recode q name input vs : name ∈ gov_names q -> UnpackMethod ABI name input = Ok vs ->
  Forall2 has_type (ArgType <$> args_of (inputs_of q)) vs /\
  exists data, PackMethod ABI name vs = Ok data /\ selects name data /\
    (len data < 2 ^ 63 \/ zsum tail_size vs < 2 ^ 32 -> UnpackMethod ABI name data = Ok vs).
Proof.
  intros Hn Hu; pose proof (gov_methods_defined q name Hn) as Hm.
  assert (Ht : Forall2 has_type (ArgType <$> args_of (inputs_of q)) vs).
  { refine (decoded_typed ABI name _ input vs (gov_abi_ok Hsel) Hm _ Hu).
    destruct q; repeat constructor; vm_compute; discriminate. }
  split; [exact Ht|].
  destruct (method_decodes ABI name _ vs (gov_abi_ok Hsel) (gov_names_nonempty q name Hn) Hm) as (data & Hp & _ & _ & Hle & Hd); [|exact Ht|].
  { destruct q; vm_compute; discriminate. }
  exists data; split_and!; [exact Hp| |].
  - eexists; split; [by eapply (PackMethod_selects ABI name _ vs data (gov_abi_ok Hsel) (gov_names_nonempty q name Hn) Hm)|reflexivity].
  - intros H; apply Hd; destruct H as [H|H]; [exact H|].
    assert (words (ArgType <$> md_Inputs (newMethod Hash256 name (args_of (inputs_of q)))) <= 3) by (destruct q; vm_compute; discriminate); lia.
Qed.

#[local] Opaque ABIGovernance UnpackMethod PackMethod PackVariable UnpackVariable SetValue.

(** A name in a consensus group as the calls pass it. *)
Record named (gid : Gid) (n : bytes) : Prop := {
  nd_gid : length gid = 10%nat;
  nd_name : is_name n;
  nd_length : len n <= registrationNameLengthMax;
}.

Lemma zeroAmount_ok b : zeroAmount b = Ok tt -> Amount b = Some 0.
Proof. intros (a & Ha & H)%big_ok; destruct (Z.eqb_spec a 0) as [->|]; [exact Ha|done]. Qed.

Lemma checked gid n : len gid = GidSize -> checkRegisterAndVoteParam gid n = true -> named gid n.
Proof. intros Hg Hc; destruct (checked_name gid n Hc) as (? & ? & _); split; [unfold len, GidSize in Hg; lia|done|lia]. Qed.

Lemma Register_accepted name s : name ∈ [MethodNameRegister; MethodNameRegisterV3] -> accepted (Register_send Hash256 name) s -> selects name (Data s) /\
  exists gid n bp wd, Register_param Hash256 name s = Ok (mkParamRegister gid n bp wd) /\ named gid n /\
    len bp = AddressSize /\ (length (AccountAddress s) = 21%nat -> len wd = AddressSize).
Proof.
  intros Hn (b0 & Hs & Ea & Et); unfold Register_send in Hs; apply outcome_bind_ok in Hs as (vs & Hu%or_invalid_ok & Hs).
  assert (Hsn : len SNAPSHOT_GID = GidSize) by reflexivity; rewrite !elem_of_cons, elem_of_nil in Hn; destruct Hn as [->|[->|[]]]; unfold Register_param.
  - destruct (gov_recode GProducing _ _ _ (list_elem_of_here _ _) Hu) as (Ht & Hr); inv_types Ht; destruct Hr as (data & Hp & Hsl & Hd).
    rewrite bool_decide_eq_false_2 in * by discriminate; cbn [toRegister pr_Gid pr_SbpName pr_BlockProducingAddress] in Hs.
    destruct (checkRegisterAndVoteParam bs0 s0) eqn:Ec; [|discriminate Hs]; cbn [negb] in Hs; rewrite Hp in Hs; injection Hs as <-; split; [exact Hsl|].
    apply checked in Ec; [|assumption]; pose proof (nd_length _ _ Ec); rewrite Hd by (right; unfold registrationNameLengthMax in *; cbn [zsum foldr tail_size]; lia).
    cbn [ignore_err]; rewrite bind_Ok; cbn [toRegister pr_Gid pr_SbpName pr_BlockProducingAddress].
    eexists _, _, _, _; split; [reflexivity|]; split_and!; [exact Ec|assumption|unfold len, AddressSize; lia].
  - destruct (gov_recode GRegisterV3 _ _ _ (list_elem_of_here _ _) Hu) as (Ht & Hr); inv_types Ht; destruct Hr as (data & Hp & Hsl & Hd).
    rewrite bool_decide_eq_true_2 in * by reflexivity; cbn [toRegister pr_Gid pr_SbpName pr_BlockProducingAddress pr_RewardWithdrawAddress] in Hs.
    destruct (checkRegisterAndVoteParam SNAPSHOT_GID s0) eqn:Ec; [|discriminate Hs]; cbn [negb] in Hs; rewrite Hp in Hs; injection Hs as <-; split; [exact Hsl|].
    apply checked in Ec; [|assumption]; pose proof (nd_length _ _ Ec); rewrite Hd by (right; unfold registrationNameLengthMax in *; cbn [zsum foldr tail_size]; lia).
    cbn [ignore_err]; rewrite bind_Ok; cbn [toRegister pr_Gid pr_SbpName pr_BlockProducingAddress pr_RewardWithdrawAddress].
    eexists _, _, _, _; split; [reflexivity|]; split_and!; [exact Ec|assumption|intros _; assumption].
Qed.

(** Revoke and Vote: the data of an accepted call pass a name in a group. *)
Lemma named_accepted name v3 input data : name ∈ gov_names GNamed /\ name <> v3 \/ name ∈ gov_names GNamedV3 /\ name = v3 ->
  (vs ← or_invalid (UnpackMethod ABI name input);
   let param := toNamed vs in
   let v3 := bool_decide (name = v3) in
   let gid := if v3 then SNAPSHOT_GID else pn_Gid param in
   if negb (checkRegisterAndVoteParam gid (pn_SbpName param)) then Err ErrInvalidMethodParam
   else ignore_err [] (PackMethod ABI name (if v3 then [VString (pn_SbpName param)] else [VArray gid; VString (pn_SbpName param)]))) = Ok data ->
  selects name data /\ exists vs gid n, UnpackMethod ABI name data = Ok vs /\ named gid n /\
    (if bool_decide (name = v3) then SNAPSHOT_GID else pn_Gid (toNamed vs)) = gid /\ pn_SbpName (toNamed vs) = n.
Proof.
  intros Hn Hs; apply outcome_bind_ok in Hs as (vs & Hu%or_invalid_ok & Hs); assert (Hsn : len SNAPSHOT_GID = GidSize) by reflexivity.
  destruct Hn as [[Hn Hne]|[Hn He]].
  - destruct (gov_recode GNamed _ _ _ Hn Hu) as (Ht & Hr); inv_types Ht; destruct Hr as (d & Hp & Hsl & Hd).
    rewrite bool_decide_eq_false_2 in * by exact Hne; cbn [toNamed pn_Gid pn_SbpName] in Hs.
    destruct (checkRegisterAndVoteParam bs s) eqn:Ec; [|discriminate Hs]; cbn [negb] in Hs; rewrite Hp in Hs; injection Hs as <-; split; [exact Hsl|].
    apply checked in Ec; [|assumption]; pose proof (nd_length _ _ Ec).
    exists [VArray bs; VString s], bs, s; split_and!; [|exact Ec|reflexivity..].
    apply Hd; right; unfold registrationNameLengthMax in *; cbn [zsum foldr tail_size]; lia.
  - destruct (gov_recode GNamedV3 _ _ _ Hn Hu) as (Ht & Hr); inv_types Ht; destruct Hr as (d & Hp & Hsl & Hd).
    rewrite bool_decide_eq_true_2 in * by exact He; cbn [toNamed pn_Gid pn_SbpName] in Hs.
    destruct (checkRegisterAndVoteParam SNAPSHOT_GID s) eqn:Ec; [|discriminate Hs]; cbn [negb] in Hs; rewrite Hp in Hs; injection Hs as <-; split; [exact Hsl|].
    apply checked in Ec; [|assumption]; pose proof (nd_length _ _ Ec).
    exists [VString s], SNAPSHOT_GID, s; split_and!; [|exact Ec|reflexivity..].
    apply Hd; right; unfold registrationNameLengthMax in *; cbn [zsum foldr tail_size]; lia.
Qed.

Lemma Revoke_accepted name s : name ∈ [MethodNameRevoke; MethodNameRevokeV2; MethodNameRevokeV3] -> accepted (Revoke_send Hash256 name) s ->
  selects name (Data s) /\ Amount s = Some 0 /\ exists vs gid n, UnpackMethod ABI name (Data s) = Ok vs /\ named gid n /\
    (if bool_decide (name = MethodNameRevokeV3) then SNAPSHOT_GID else pn_Gid (toNamed vs)) = gid /\ pn_SbpName (toNamed vs) = n.
Proof.
  intros Hn (b0 & Hs & Ea & Et); unfold Revoke_send in Hs; apply outcome_bind_ok in Hs as ([] & Hz%zeroAmount_ok & Hs); rewrite Ea in Hz.
  apply named_accepted in Hs as [Hsl H]; [by split_and!|]; rewrite !elem_of_cons, elem_of_nil in Hn; destruct Hn as [->|[->|[->|[]]]].
  - left; split; [apply list_elem_of_here|discriminate].
  - left; split; [apply list_elem_of_further, list_elem_of_here|discriminate].
  - right; split; [apply list_elem_of_here|reflexivity].
Qed.

Lemma mayVote_ok db b : mayVote box db b = Ok tt -> Amount b = Some 0.
Proof.
  unfold mayVote; intros (sb & _ & H)%outcome_bind_ok; apply big_ok in H as (a & Ha & H); rewrite Ha; destruct (Z.eqb_spec a 0) as [->|]; [done|discriminate H].
Qed.

Lemma Vote_accepted name d s : name ∈ [MethodNameVote; MethodNameVoteV3] -> accepted (Vote_send Hash256 box name d) s ->
  selects name (Data s) /\ Amount s = Some 0 /\ exists vs gid n, UnpackMethod ABI name (Data s) = Ok vs /\ named gid n /\
    (if bool_decide (name = MethodNameVoteV3) then SNAPSHOT_GID else pn_Gid (toNamed vs)) = gid /\ pn_SbpName (toNamed vs) = n.
Proof.
  intros Hn (b0 & Hs & Ea & Et); unfold Vote_send in Hs; apply outcome_bind_ok in Hs as ([] & Hz%mayVote_ok & Hs); rewrite Ea in Hz.
  apply named_accepted in Hs as [Hsl H]; [by split_and!|]; rewrite !elem_of_cons, elem_of_nil in Hn; destruct Hn as [->|[->|[]]].
  - left; split; [do 2 apply list_elem_of_further; apply list_elem_of_here|discriminate].
  - right; split; [apply list_elem_of_further, list_elem_of_here|reflexivity].
Qed.

Lemma UpdateProducing_accepted name s :
  name ∈ [MethodNameUpdateBlockProducingAddress; MethodNameUpdateBlockProducintAddressV2; MethodNameUpdateBlockProducintAddressV3] ->
  accepted (UpdateProducing_send Hash256 name) s ->
  selects name (Data s) /\ Amount s = Some 0 /\ exists vs gid n bp, UnpackMethod ABI name (Data s) = Ok vs /\ named gid n /\ len bp = AddressSize /\
    (if bool_decide (name = MethodNameUpdateBlockProducintAddressV3) then SNAPSHOT_GID else pr_Gid (toRegister vs)) = gid /\
    pr_SbpName (toRegister vs) = n /\ pr_BlockProducingAddress (toRegister vs) = bp.
Proof.
  intros Hn (b0 & Hs & Ea & Et); unfold UpdateProducing_send in Hs; apply outcome_bind_ok in Hs as ([] & Hz%zeroAmount_ok & Hs); rewrite Ea in Hz.
  apply outcome_bind_ok in Hs as (vs & Hu%or_invalid_ok & Hs); assert (Hsn : len SNAPSHOT_GID = GidSize) by reflexivity.
  assert (Hk : name ∈ gov_names GProducing /\ name <> MethodNameUpdateBlockProducintAddressV3 \/ name = MethodNameUpdateBlockProducintAddressV3).
  { rewrite !elem_of_cons, elem_of_nil in Hn; destruct Hn as [->|[->|[->|[]]]]; [left; split; [|discriminate]..|by right];
      repeat (apply list_elem_of_here || apply list_elem_of_further). }
  destruct Hk as [[Hn' Hne]| ->].
  - destruct (gov_recode GProducing _ _ _ Hn' Hu) as (Ht & Hr); inv_types Ht; destruct Hr as (data & Hp & Hsl & Hd).
    rewrite bool_decide_eq_false_2 in * by exact Hne; cbn [toRegister pr_Gid pr_SbpName pr_BlockProducingAddress] in Hs.
    destruct (checkRegisterAndVoteParam bs0 s0) eqn:Ec; [|discriminate Hs]; cbn [negb] in Hs; rewrite Hp in Hs; injection Hs as <-.
    apply checked in Ec; [|assumption]; pose proof (nd_length _ _ Ec); split_and!; [exact Hsl|exact Hz|].
    exists [VArray bs0; VString s0; VArray bs], bs0, s0, bs; split_and!; [|exact Ec|assumption|reflexivity..].
    apply Hd; right; unfold registrationNameLengthMax in *; cbn [zsum foldr tail_size]; lia.
  - destruct (gov_recode GProducingV3 _ _ _ (list_elem_of_here _ _) Hu) as (Ht & Hr); inv_types Ht; destruct Hr as (data & Hp & Hsl & Hd).
    rewrite bool_decide_eq_true_2 in * by reflexivity; cbn [toRegister pr_Gid pr_SbpName pr_BlockProducingAddress] in Hs.
    destruct (checkRegisterAndVoteParam SNAPSHOT_GID s0) eqn:Ec; [|discriminate Hs]; cbn [negb] in Hs; rewrite Hp in Hs; injection Hs as <-.
    apply checked in Ec; [|assumption]; pose proof (nd_length _ _ Ec); split_and!; [exact Hsl|exact Hz|].
    exists [VString s0; VArray bs], SNAPSHOT_GID, s0, bs; split_and!; [|exact Ec|assumption|reflexivity..].
    apply Hd; right; unfold registrationNameLengthMax in *; cbn [zsum foldr tail_size]; lia.
Qed.

Lemma UpdateWithdraw_accepted s : accepted (UpdateWithdraw_send Hash256 MethodNameUpdateSBPRewardWithdrawAddress) s ->
  selects MethodNameUpdateSBPRewardWithdrawAddress (Data s) /\ Amount s = Some 0 /\
  exists n wd, UnpackMethod ABI MethodNameUpdateSBPRewardWithdrawAddress (Data s) = Ok [VString n; VArray wd] /\ named SNAPSHOT_GID n /\ len wd = AddressSize.
Proof.
  intros (b0 & Hs & Ea & Et); unfold UpdateWithdraw_send in Hs; apply outcome_bind_ok in Hs as ([] & Hz%zeroAmount_ok & Hs); rewrite Ea in Hz.
  apply outcome_bind_ok in Hs as (vs & Hu%or_invalid_ok & Hs); assert (Hsn : len SNAPSHOT_GID = GidSize) by reflexivity.
  destruct (gov_recode GWithdraw _ _ _ (list_elem_of_here _ _) Hu) as (Ht & Hr); inv_types Ht; destruct Hr as (data & Hp & Hsl & Hd).
  cbn [toWithdrawAddress pr_SbpName pr_RewardWithdrawAddress] in Hs.
  destruct (checkRegisterAndVoteParam SNAPSHOT_GID s0) eqn:Ec; [|discriminate Hs]; cbn [negb] in Hs; rewrite Hp in Hs; injection Hs as <-.
  apply checked in Ec; [|assumption]; pose proof (nd_length _ _ Ec); split_and!; [exact Hsl|exact Hz|].
  exists s0, bs; split_and!; [|exact Ec|assumption]; apply Hd; right; unfold registrationNameLengthMax in *; cbn [zsum foldr tail_size]; lia.
Qed.

(** The name in a withdrawal is not checked; its data are not longer than a slice can be. *)
Lemma WithdrawReward_accepted name s : name ∈ [MethodNameWithdrawReward; MethodNameWithdrawRewardV2; MethodNameWithdrawRewardV3] ->
  accepted (WithdrawReward_send Hash256 name) s ->
  selects name (Data s) /\ Amount s = Some 0 /\ (len (Data s) < 2 ^ 63 -> exists vs n to, UnpackMethod ABI name (Data s) = Ok vs /\ len to = AddressSize /\
    (if bool_decide (name = MethodNameWithdrawRewardV3) then SNAPSHOT_GID else pw_Gid (toReward vs)) = SNAPSHOT_GID /\
    pw_SbpName (toReward vs) = n /\ pw_ReceiveAddress (toReward vs) = to).
Proof.
  intros Hn (b0 & Hs & Ea & Et); unfold WithdrawReward_send in Hs; apply outcome_bind_ok in Hs as ([] & Hz%zeroAmount_ok & Hs); rewrite Ea in Hz.
  apply outcome_bind_ok in Hs as (vs & Hu%or_invalid_ok & Hs).
  assert (Hk : name ∈ gov_names GReward /\ name <> MethodNameWithdrawRewardV3 \/ name = MethodNameWithdrawRewardV3).
  { rewrite !elem_of_cons, elem_of_nil in Hn; destruct Hn as [->|[->|[->|[]]]]; [left; split; [|discriminate]..|by right];
      repeat (apply list_elem_of_here || apply list_elem_of_further). }
  destruct Hk as [[Hn' Hne]| ->].
  - destruct (gov_recode GReward _ _ _ Hn' Hu) as (Ht & Hr); inv_types Ht; destruct Hr as (data & Hp & Hsl & Hd).
    rewrite bool_decide_eq_false_2 in * by exact Hne; cbn [toReward pw_Gid pw_SbpName pw_ReceiveAddress] in Hs; unfold IsSnapshotGid in Hs.
    destruct (decide (bs0 = SNAPSHOT_GID)) as [->|Hg]; [rewrite bool_decide_eq_true_2 in Hs by reflexivity|rewrite bool_decide_eq_false_2 in Hs by exact Hg; discriminate Hs].
    cbn [negb] in Hs; rewrite Hp in Hs; injection Hs as <-; split_and!; [exact Hsl|exact Hz|]; intros Hlen.
    exists [VArray SNAPSHOT_GID; VString s0; VArray bs], s0, bs; split_and!; [apply Hd; by left|assumption|reflexivity..].
  - destruct (gov_recode GRewardV3 _ _ _ (list_elem_of_here _ _) Hu) as (Ht & Hr).
    assert (Hvs : exists s0 bs, vs = [VString s0; VArray bs] /\ len bs = AddressSize) by (clear -Ht; inv_types Ht; eauto).
    destruct Hvs as (s0 & bs & -> & Hbs), Hr as (data & Hp & Hsl & Hd).
    rewrite bool_decide_eq_true_2 in * by reflexivity; cbn [toReward pw_Gid pw_SbpName pw_ReceiveAddress] in Hs; unfold IsSnapshotGid in Hs.
    rewrite bool_decide_eq_true_2 in Hs by reflexivity; cbn [negb] in Hs; rewrite Hp in Hs; injection Hs as <-; split_and!; [exact Hsl|exact Hz|]; intros Hlen.
    exists [VString s0; VArray bs], s0, bs; split_and!; [apply Hd; by left|assumption|reflexivity..].
Qed.

Lemma CancelVote_accepted name d s : name ∈ [MethodNameCancelVote; MethodNameCancelVoteV3] -> accepted (CancelVote_send Hash256 box name d) s ->
  selects name (Data s) /\ Amount s = Some 0 /\ exists vs gid, ignore_err [] (UnpackMethod ABI name (Data s)) = Ok vs /\ length gid = 10%nat /\
    (if bool_decide (name = MethodNameCancelVoteV3) then SNAPSHOT_GID else toGid vs) = gid.
Proof.
  intros Hn (b0 & Hs & Ea & Et); unfold CancelVote_send in Hs; apply outcome_bind_ok in Hs as ([] & Hz%mayVote_ok & Hs); rewrite Ea in Hz.
  rewrite !elem_of_cons, elem_of_nil in Hn; destruct Hn as [->|[->|[]]].
  - rewrite bool_decide_eq_false_2 in * by discriminate; apply outcome_bind_ok in Hs as (vs & Hu%or_invalid_ok & Hs).
    destruct (gov_recode GGid _ _ _ (list_elem_of_here _ _) Hu) as (Ht & Hr).
    assert (Hvs : exists bs, vs = [VArray bs] /\ len bs = GidSize) by (clear -Ht; inv_types Ht; eauto).
    destruct Hvs as (bs & -> & Hbs), Hr as (data & Hp & Hsl & Hd).
    cbn [toGid] in Hs; destruct (IsDelegateGid bs); [discriminate Hs|]; rewrite Hp in Hs; injection Hs as <-; split_and!; [exact Hsl|exact Hz|].
    exists [VArray bs], bs; rewrite Hd by (right; vm_compute; reflexivity); split_and!; [reflexivity|unfold len, GidSize in *; lia|reflexivity].
  - rewrite bool_decide_eq_true_2 in * by reflexivity.
    assert (Hm : exists m, assoc MethodNameCancelVoteV3 (Methods ABI) = Some m /\ md_Name m = MethodNameCancelVoteV3 /\ md_Inputs m = []) by (eexists; split_and!; vm_compute; reflexivity).
    destruct Hm as (m & Hm & Hn & Hin).
    destruct (PackMethod_no_inputs ABI MethodNameCancelVoteV3 m (gov_abi_ok Hsel)) as (data & Hp & Hid & Hu); [discriminate|exact Hm|exact Hin|].
    rewrite Hp in Hs; injection Hs as <-; split_and!; [exists m; split; [exact Hid|exact Hn]|exact Hz|].
    exists [], SNAPSHOT_GID; rewrite Hu; split_and!; reflexivity.
Qed.
End Governance.
