(* ===== verification/GovernanceCallSpec.v ===== *)
(** The methods of the governance contract implement a register of producers. *)
From Stdlib Require Import ZifyBool Ascii String.
From stdpp Require Import strings.
From S2P Require Import Prelude Helper Types Upgrade VmDb Iterator IteratorSpec Builtin TimeIndex SbpStats AccountBlock Abi AbiSpec ContractUtil ContractSpec.
From S2P Require Import AssetContract GovernanceContract WithdrawNames GovernanceSpec.
#[local] Open Scope Z_scope.

(** ** Outcomes without errors *)

(** Results that may be a panic but no error. *)
Definition no_err {E A} (P : A -> Prop) (o : outcome E A) : Prop :=
  match o with Ok a => P a | Err _ => False | Panic _ => True end.

Lemma no_err_bind {E A B} (P : A -> Prop) (Q : B -> Prop) (m : outcome E A) (f : A -> outcome E B) :
  no_err P m -> (forall a, P a -> no_err Q (f a)) -> no_err Q (m ≫= f).
Proof. destruct m; simpl; [auto|done..]. Qed.

Lemma no_err_panic {A} (P : A -> Prop) p (o : option A) : (forall a, o = Some a -> P a) -> no_err (E := vm_err) P (or_panic p o).
Proof. destruct o; simpl; auto. Qed.

Lemma no_err_db {A} (P : A -> Prop) (o : outcome unit A) : no_err P o -> no_err P (or_db_err o).
Proof. by destruct o. Qed.

(** ** The computation of rewards *)

Section Rewards.
Context (box : upgradeBox) (reader : ConsensusReader) (db : vmDb).

(** The databases of the chain and of the statistics work. *)
Record reads_work : Prop := {
  rk_latest : exists sb, db_LatestSnapshotBlock db = Ok sb;
  rk_height h : db_GetSnapshotBlockByHeight db h <> Err tt;
  rk_details a b : cr_GetConsensusDetailByDay reader a b <> Err tt;
  rk_genesis : is_i64 (sb_Timestamp (db_GetGenesisSnapshotBlock db)) /\ is_i64 (GenesisTime (cr_day reader));
}.

Lemma not_Err {A} (o : outcome unit A) : o <> Err tt -> no_err (fun _ => True) o.
Proof. by destruct o as [|[]|]. Qed.

Lemma Time2Index_no_err ti t : no_err (fun _ => True) (Time2Index ti t).
Proof. unfold Time2Index; by destruct (_ =? 0). Qed.

Lemma GetIndexByTime_no_err t g : no_err (fun _ => True) (GetIndexByTime (cr_day reader) t g).
Proof. unfold GetIndexByTime; destruct (t <? g); [done|apply Time2Index_no_err]. Qed.

Lemma end_time i : is_i64 (GenesisTime (cr_day reader)) -> is_i64 (getEndTimeByIndex (cr_day reader) i).
Proof.
  unfold is_i64, getEndTimeByIndex, Index2Time, Unix, Second; intros Hg; cbn [snd].
  set (x := Interval (cr_day reader) * i64 (u64 (i + 1))); assert (- 2 ^ 63 <= i64 x < 2 ^ 63) by (unfold i64; pose proof (Z.mod_pos_bound (x + 2 ^ 63) (2 ^ 64) eq_refl); lia).
  split; [apply Z.div_le_lower_bound; lia|apply Z.div_lt_upper_bound; lia].
Qed.

Lemma GetIndexByEndTime_no_err t g : is_i64 g -> is_i64 (GenesisTime (cr_day reader)) ->
  no_err (fun r => is_i64 r.1.2) (GetIndexByEndTime (cr_day reader) t g).
Proof.
  intros Hg Hd; unfold GetIndexByEndTime; destruct (t <? g); [exact Hg|].
  eapply no_err_bind; [apply Time2Index_no_err|]; intros i _; destruct (i =? 0); [exact Hg|by apply end_time].
Qed.

Lemma stake_no_err g i f : reads_work -> no_err (fun _ => True) (getSnapshotGroupStakeAmount box reader db g i f).
Proof.
  intros [(sb & Hsb) Hh _ _]; unfold getSnapshotGroupStakeAmount; rewrite Hsb; cbn [or_db_err]; rewrite bind_Ok; destruct (negb _); [done|].
  apply (no_err_bind (fun _ => True)); [|done]; destruct (f =? 0); [|done].
  apply (no_err_bind (fun _ => True)); [by apply no_err_panic|]; intros p _; apply (no_err_bind (fun _ => True)); [apply no_err_db, not_Err, Hh|].
  intros fb _; apply (no_err_bind (fun _ => True)); [by apply no_err_panic|]; intros b _; apply no_err_db, GetIndexByTime_no_err.
Qed.

Lemma Quo_no_err x y : no_err (fun _ => True) (big_Quo x y : result Z).
Proof. unfold big_Quo; by destruct (_ =? 0). Qed.

Lemma detail_no_err d name stake : no_err (fun _ => True) (calcRewardByDayDetail d name stake).
Proof.
  unfold calcRewardByDayDetail; destruct (_ !! _) as [s|]; [|done]; destruct (_ =? 0); [done|]; unfold big.
  apply (no_err_bind (fun _ => True)); [by apply no_err_panic|]; intros v _; apply (no_err_bind (fun _ => True)); [by apply no_err_panic|].
  intros w _; repeat (apply (no_err_bind (fun _ => True)); [apply Quo_no_err|]; intros ? _); done.
Qed.

Lemma addRewards_no_err g name l f r : reads_work -> no_err (fun _ => True) (addRewards box reader db g name l f r).
Proof.
  intros Hw; revert f r; induction l as [|d l IH]; intros f r; [done|]; cbn [addRewards].
  eapply no_err_bind; [by apply stake_no_err|]; intros [stake f'] _; eapply no_err_bind; [apply detail_no_err|]; intros dd _; apply IH.
Qed.

(** The reward of a registration is always computed: a panic is recovered from, and the time fits. *)
Lemma CalcReward_ok r cur : reads_work -> exists s e rew drained, CalcReward box reader db r cur = Ok (s, e, rew, drained) /\ is_i64 e.
Proof.
  intros Hw; destruct (rk_genesis Hw) as [Hg Hd]; set (g := sb_Timestamp _) in *; unfold CalcReward; fold g.
  enough (H : no_err (fun x => is_i64 x.1.1.2) (calcReward box reader r g db cur)).
  { destruct (calcReward _ _ _ _ _ _) as [[[[s e] rew] dr]| |]; [by eexists _, _, _, _|done|].
    eexists _, _, _, _; split; [reflexivity|unfold is_i64; lia]. }
  unfold calcReward; apply (no_err_bind (fun _ => True)).
  { apply no_err_db; unfold GetIndexByStartTime; destruct (_ <? 0); [done|]; destruct (_ <=? g); [done|].
    eapply no_err_bind; [apply Time2Index_no_err|done]. }
  intros [[si st] dr] _; destruct dr; [unfold is_i64; simpl; lia|]; apply (no_err_bind (fun _ => True)); [by apply no_err_panic|]; intros c _.
  apply (no_err_bind (fun x => is_i64 x.1.1.2)).
  { assert (Hdue : forall t b, no_err (fun x : Z * Z * bool * bool => is_i64 x.1.1.2)
      ('(ei, et, w) ← or_db_err (GetIndexByEndTime (cr_day reader) t g); Ok (ei, et, w, b) : result _)).
    { intros t b; eapply no_err_bind; [apply no_err_db, (GetIndexByEndTime_no_err t g Hg Hd)|]; by intros [[ei et] w] He. }
    unfold rewardEnd; destruct (negb _); [|apply Hdue].
    eapply no_err_bind; [apply no_err_db, (GetIndexByEndTime_no_err (rg_RevokeTime r) g Hg Hd)|]; intros [[ei et] w] He; destruct (_ <=? _); [exact He|apply Hdue]. }
  intros [[[ei et] w] drained] He; destruct (_ || _); [exact He|]; apply (no_err_bind (fun _ => True)); [apply no_err_db, not_Err, Hw|].
  intros l _; eapply no_err_bind; [by apply addRewards_no_err|]; intros rew _; exact He.
Qed.

Lemma checkRewardDrained_ok r cur : reads_work -> exists b, checkRewardDrained box reader db r cur = Ok b.
Proof.
  intros Hw; destruct (CalcReward_ok r cur Hw) as (s & e & rew & dr & E & _); unfold checkRewardDrained; rewrite E, bind_Ok; by eexists.
Qed.
End Rewards.

(** ** The state *)

Section Governance.
Context (Hash256 : bytes -> bytes) (box : upgradeBox) (reader : ConsensusReader).
Abbreviation ABI := (ABIGovernance Hash256).
Abbreviation key := (GetRegistrationInfoKey Hash256).

(** The registrations by key, and the names voted for by key. *)
Abbreviation register := (gmap bytes Registration).
Abbreviation ballot := (gmap bytes bytes).

Definition names_producer (n v : bytes) : Prop := v <> [] /\ UnpackVariable ABI VariableNameRegisteredHisName v = Ok [VString n].
Definition names_vote (n v : bytes) : Prop := v <> [] /\ UnpackVariable ABI VariableNameVoteInfo v = Ok [VString n].

(** A producing address is recorded for the registration with key [k]. *)
Definition produces_for (k v : bytes) : Prop := exists n, names_producer n v /\ key n (take 10 k) = k.

(** The storage holds the register, in which no registration has had more than [h] producing addresses. *)
Record governed (h : Z) (view : bytes -> bytes) (R : register) (V : ballot) : Prop := {
  gv_reg k r : R !! k = Some r -> length k = 30%nat /\ registration_wf h r /\ stored_registration Hash256 r (view k) /\ key (rg_Name r) (take 10 k) = k;
  gv_none k : length k = 30%nat -> R !! k = None -> view k = [];
  gv_idle k r : R !! k = Some r -> IsActive r = false -> rg_Amount r = Some 0;
  gv_current k r : R !! k = Some r -> rg_BlockProducingAddress r ∈ rg_HisAddrList r;
  gv_his k r a : R !! k = Some r -> a ∈ rg_HisAddrList r -> produces_for k (view (GetHisNameKey a (take 10 k)));
  gv_back a gid : length a = 21%nat -> length gid = 10%nat -> view (GetHisNameKey a gid) = [] \/
    exists n r, names_producer n (view (GetHisNameKey a gid)) /\ R !! key n gid = Some r /\ a ∈ rg_HisAddrList r;
  gv_vote k n : V !! k = Some n -> length k = 32%nat /\ names_vote n (view k);
  gv_novote k : length k = 32%nat -> V !! k = None -> view k = [];
  gv_group gid : length gid = 10%nat -> view (GetConsensusGroupInfoKey gid) = [] \/
    exists info height, parseConsensusGroup Hash256 (view (GetConsensusGroupInfoKey gid)) gid = Ok info /\
      GetRegisterStakeParamOfConsensusGroup Hash256 (cg_RegisterConditionParam info) = Ok height;
}.

Lemma his_length h view R V k r a : governed h view R V -> R !! k = Some r -> a ∈ rg_HisAddrList r -> length a = 21%nat.
Proof.
  intros HG E Hin; destruct (gv_reg _ _ _ _ HG _ _ E) as (_ & [] & _); assert (len a = AddressSize) as Hl; [|unfold len, AddressSize in Hl; lia].
  apply (proj1 (Forall_forall _ _) gw_his); by apply list_elem_of_In.
Qed.

Lemma length_key n gid : length gid = 10%nat -> length (key n gid) = 30%nat.
Proof. intros Hg; unfold GetRegistrationInfoKey; rewrite length_app, length_take, length_DataHash, Hg; reflexivity. Qed.

Lemma take_key n gid : length gid = 10%nat -> take 10 (key n gid) = gid.
Proof. intros Hg; by apply take_app_length'. Qed.

Lemma governed_later h h' view view' R V : (forall k, view' k = view k) -> h <= h' -> governed h view R V -> governed h' view' R V.
Proof.
  intros Hv Hh [H1 H2 H3 H4 H5 H6 H7 H8 H9]; split; intros *; rewrite ?Hv;
    [|exact (H2 k)|exact (H3 k r)|exact (H4 k r)|exact (H5 k r a)|exact (H6 a gid)|exact (H7 k n)|exact (H8 k)|exact (H9 gid)].
  intros E; destruct (H1 _ _ E) as (? & [] & ? & ?); split_and!; try assumption; split; try assumption; lia.
Qed.

(** No producing address belongs to two registrations of a group. *)
Lemma producers_differ h view R V k1 r1 k2 r2 a : governed h view R V -> R !! k1 = Some r1 -> R !! k2 = Some r2 ->
  a ∈ rg_HisAddrList r1 -> a ∈ rg_HisAddrList r2 -> take 10 k1 = take 10 k2 -> k1 = k2.
Proof.
  intros HG E1 E2 H1 H2 Eg; destruct (gv_his _ _ _ _ HG _ _ _ E1 H1) as (n1 & [_ U1] & <-), (gv_his _ _ _ _ HG _ _ _ E2 H2) as (n2 & [_ U2] & <-).
  rewrite Eg in *; rewrite U1 in U2; injection U2 as ->; done.
Qed.

(** A registration is put into the register: [view'] differs in its value, and in the name of one producing address at most. *)
Lemma governed_put h view view' R V k new : governed h view R V -> length k = 30%nat -> registration_wf (h + 1) new ->
  stored_registration Hash256 new (view' k) -> key (rg_Name new) (take 10 k) = k -> (IsActive new = false -> rg_Amount new = Some 0) ->
  rg_BlockProducingAddress new ∈ rg_HisAddrList new -> (forall r a, R !! k = Some r -> a ∈ rg_HisAddrList r -> a ∈ rg_HisAddrList new) ->
  (forall a, a ∈ rg_HisAddrList new -> produces_for k (view' (GetHisNameKey a (take 10 k)))) ->
  (forall k', length k' = 30%nat -> k' <> k -> view' k' = view k') ->
  (forall k', length k' = 32%nat \/ length k' = 11%nat -> view' k' = view k') ->
  (forall a gid, length a = 21%nat -> length gid = 10%nat -> view' (GetHisNameKey a gid) = view (GetHisNameKey a gid) \/
     view (GetHisNameKey a gid) = [] /\ gid = take 10 k /\ a ∈ rg_HisAddrList new) ->
  governed (h + 1) view' (<[k := new]> R) V.
Proof.
  intros HG Hk Hw Hst Hkey Hidle Hcur Hold Hhis H30 Ho H31; pose proof (governed_later h (h + 1) view view R V (fun _ => eq_refl) ltac:(lia) HG) as HG'.
  split.
  - intros k' r; rewrite lookup_insert; case_decide as D; [intros [= <-]; subst k'; by split_and!|]; intros E.
    destruct (gv_reg _ _ _ _ HG' _ _ E) as (? & ? & ? & ?); rewrite H30 by congruence; by split_and!.
  - intros k' Hl; rewrite lookup_insert; case_decide; [done|]; intros E; rewrite H30 by congruence; by apply (gv_none _ _ _ _ HG).
  - intros k' r; rewrite lookup_insert; case_decide; [intros [= <-]; done|apply (gv_idle _ _ _ _ HG)].
  - intros k' r; rewrite lookup_insert; case_decide; [intros [= <-]; done|apply (gv_current _ _ _ _ HG)].
  - intros k' r a; rewrite lookup_insert; case_decide as D; [intros [= <-]; subst k'; apply Hhis|]; intros E Hin.
    destruct (gv_reg _ _ _ _ HG _ _ E) as (Hl' & _); pose proof (gv_his _ _ _ _ HG _ _ _ E Hin) as Hp.
    destruct (H31 a (take 10 k')) as [Hv|(Hv & _)]; [by eapply his_length|rewrite length_take; lia|by rewrite Hv|].
    destruct Hp as (n & [Hne _] & _); by rewrite Hv in Hne.
  - intros a gid Hla Hlg; destruct (H31 a gid Hla Hlg) as [->|(_ & -> & Hin)].
    + destruct (gv_back _ _ _ _ HG a gid Hla Hlg) as [Hv|(n & r & Hn & E & Hin)]; [by left|right].
      destruct (decide (key n gid = k)) as [Ek|Hne].
      * exists n, new; rewrite Ek, lookup_insert_eq; rewrite Ek in E; split_and!; [done|done|by eapply Hold].
      * exists n, r; by rewrite lookup_insert_ne.
    + right; destruct (Hhis a Hin) as (n & Hn & Ek); exists n, new; rewrite Ek, lookup_insert_eq; by split_and!.
  - intros k' n E; destruct (gv_vote _ _ _ _ HG _ _ E) as [? ?]; rewrite Ho by (by left); by split.
  - intros k' Hl E; rewrite Ho by (by left); by apply (gv_novote _ _ _ _ HG).
  - intros gid Hl; assert (length (GetConsensusGroupInfoKey gid) = 11%nat) by (unfold GetConsensusGroupInfoKey; simpl; lia).
    rewrite Ho by (by right); by apply (gv_group _ _ _ _ HG).
Qed.

(** ** Reading and writing *)

Lemma GetRegistration_spec db h R V gid n : db_ready db -> db_address db = AddressGovernance -> governed h (view_of db) R V ->
  length gid = 10%nat -> GetRegistration Hash256 db gid n = Ok (R !! key n gid).
Proof.
  intros Hdb Ha HG Hg; unfold GetRegistration; rewrite Ha, bool_decide_eq_true_2 by done; cbn [negb]; rewrite (dr_reads _ Hdb), len_zero.
  destruct (R !! key n gid) as [r|] eqn:E.
  - destruct (gv_reg _ _ _ _ HG _ _ E) as (_ & _ & [Hne Hu] & _); by rewrite bool_decide_eq_false_2.
  - rewrite (gv_none _ _ _ _ HG _ (length_key n gid Hg) E), bool_decide_eq_true_2; done.
Qed.

Lemma IsActiveRegistration_spec db h R V gid n : db_ready db -> db_address db = AddressGovernance -> governed h (view_of db) R V ->
  length gid = 10%nat -> IsActiveRegistration Hash256 db n gid = Ok (match R !! key n gid with Some r => IsActive r | None => false end).
Proof.
  intros Hdb Ha HG Hg; unfold IsActiveRegistration; rewrite Ha, bool_decide_eq_true_2 by done; cbn [negb]; rewrite (dr_reads _ Hdb).
  destruct (R !! key n gid) as [r|] eqn:E.
  - destruct (gv_reg _ _ _ _ HG _ _ E) as (_ & _ & [Hne Hu] & _); rewrite Hu, !bind_Ok; destruct (Z.ltb_spec 0 (len (view_of db (key n gid)))) as [|Hz]; [done|].
    by destruct (view_of db (key n gid)); [|unfold len in Hz; simpl in Hz; lia].
  - by rewrite (gv_none _ _ _ _ HG _ (length_key n gid Hg) E).
Qed.

Lemma GetConsensusGroup_spec db h R V gid : db_ready db -> db_address db = AddressGovernance -> governed h (view_of db) R V -> length gid = 10%nat ->
  GetConsensusGroup Hash256 db gid = Ok None \/ exists info height, GetConsensusGroup Hash256 db gid = Ok (Some info) /\
    GetRegisterStakeParamOfConsensusGroup Hash256 (cg_RegisterConditionParam info) = Ok height.
Proof.
  intros Hdb Ha HG Hg; unfold GetConsensusGroup; rewrite Ha, bool_decide_eq_true_2 by done; cbn [negb]; rewrite (dr_reads _ Hdb).
  destruct (gv_group _ _ _ _ HG gid Hg) as [->|(info & height & Hp & Hh)]; [by left|].
  destruct (0 <? len _); [right; exists info, height; by rewrite Hp|by left].
Qed.

(** The addresses with which a registration has produced, if there was one. *)
Definition past (o : option Registration) : list Address := match o with Some r => rg_HisAddrList r | None => [] end.

(** The addresses after one is used. *)
Definition used (his : list Address) (bp : Address) : list Address := if decide (bp ∈ his) then his else his ++ [bp].

Lemma used_in his bp : bp ∈ used his bp /\ forall a, a ∈ used his bp <-> a ∈ his \/ a = bp.
Proof.
  unfold used; destruct (decide (bp ∈ his)); [split; [done|naive_solver]|].
  split; [apply elem_of_app; right; by left|]; intros a; by rewrite elem_of_app, list_elem_of_singleton.
Qed.

(** Nobody else has produced blocks of the group with the address. *)
Definition may_produce (view : bytes -> bytes) (a : Address) (gid : Gid) (n : bytes) : Prop :=
  view (GetHisNameKey a gid) = [] \/ names_producer n (view (GetHisNameKey a gid)).

(** A call of the contract that ends in [P], or that is refused because of [Q]. *)
Definition ok_or {E A} (P : A -> Prop) (Q : Prop) (o : outcome E A) : Prop :=
  match o with Ok a => P a | Err _ => Q | Panic _ => False end.

Lemma ok_or_bind {E A B} (P : A -> Prop) (P' : B -> Prop) (Q Q' : Prop) (m : outcome E A) (f : A -> outcome E B) :
  ok_or P Q m -> (Q -> Q') -> (forall a, P a -> ok_or P' Q' (f a)) -> ok_or P' Q' (m ≫= f).
Proof. destruct m; simpl; [auto|auto|done]. Qed.

(** The check of a producing address leaves storage in which it is recorded for the name. *)
Record recorded_for (db : vmDb) (R : register) (a : Address) (gid : Gid) (n : bytes) (db' : vmDb) (his' : list Address) : Prop := {
  rf_ready : db_ready db';
  rf_storage : storage_only db db';
  rf_others k : k <> GetHisNameKey a gid -> view_of db' k = view_of db k;
  rf_name : names_producer n (view_of db' (GetHisNameKey a gid));
  rf_new : view_of db (GetHisNameKey a gid) = [] \/ view_of db' (GetHisNameKey a gid) = view_of db (GetHisNameKey a gid);
  rf_his : his' = used (past (R !! key n gid)) a;
}.

Lemma checkHisName_spec db h R V a gid n : db_ready db -> governed h (view_of db) R V -> length a = 21%nat -> named gid n ->
  ok_or (fun x => may_produce (view_of db) a gid n /\ recorded_for db R a gid n x.1 x.2) (~ may_produce (view_of db) a gid n)
    (checkHisName Hash256 db a gid n (past (R !! key n gid))).
Proof.
  intros Hdb HG Ha [Hg _ Hl]; unfold registrationNameLengthMax in Hl; unfold checkHisName; rewrite GetValue_ready, bind_Ok, len_zero by done.
  case_bool_decide as Hv.
  - destruct (sized_variable ABI _ _ [VString n] (variable_hisName Hash256)) as (v & Hp & Hlv & Hu); [vm_compute; discriminate| | |].
    { change (32 * words _) with 32; cbn [zsum foldr tail_size]; lia. }
    { has_types; lia. }
    rewrite Hp; cbn [ignore_err]; rewrite bind_Ok.
    destruct (SetValue_ready db (GetHisNameKey a gid) v Hdb) as (db' & Hs & Hdb' & Hso & Hv'); [unfold len, GetHisNameKey; rewrite length_app; lia|].
    rewrite Hs, bind_Ok; split; [by left|]; split; cbn [fst snd]; [exact Hdb'|exact Hso|intros k Hk; by rewrite Hv', decide_False| |by left|].
    + rewrite Hv', decide_True by done; split; [eapply len_nonempty; [reflexivity|lia]|exact Hu].
    + unfold used; rewrite decide_False; [done|]; intros Hin; destruct (R !! key n gid) as [r|] eqn:Er; [|by apply not_elem_of_nil in Hin].
      destruct (gv_his _ _ _ _ HG _ _ _ Er Hin) as (n' & [Hne _] & _); rewrite take_key in Hne by done; done.
  - destruct (gv_back _ _ _ _ HG a gid Ha Hg) as [|(n' & r & [Hne Hu] & Er & Hin)]; [done|]; rewrite Hu.
    case_bool_decide as E.
    + subst n'; split; [right; by split|]; split; cbn [fst snd]; [done|done|done|by split|by right|].
      rewrite Er; unfold used; by rewrite decide_True.
    + intros [|[_ Hu']]; [done|]; rewrite Hu in Hu'; by injection Hu'.
Qed.

(** Withdraw addresses are kept beside the register. *)
Lemma deleteWithdraw_ok db a n : db_ready db -> length a = 21%nat -> exists db', deleteWithdrawRewardAddress db a n = Ok db' /\ db_ready db' /\
  storage_only db db' /\ forall k, length k <> 21%nat -> view_of db' k = view_of db k.
Proof.
  intros Hdb Ha; unfold deleteWithdrawRewardAddress; rewrite GetValue_ready, bind_Ok by done; destruct (deleteName _ _) as [v|]; [|by exists db].
  destruct (SetValue_ready db a v Hdb) as (db' & -> & Hdb' & Hso & Hv'); [unfold len; lia|]; exists db'; split_and!; [done..|].
  intros k Hk; rewrite Hv', decide_False; [done|by intros ->].
Qed.

Lemma addWithdraw_ok db a n : db_ready db -> length a = 21%nat -> exists db', addWithdrawRewardAddress db a n = Ok db' /\ db_ready db' /\
  storage_only db db' /\ forall k, length k <> 21%nat -> view_of db' k = view_of db k.
Proof.
  intros Hdb Ha; unfold addWithdrawRewardAddress; rewrite GetValue_ready, bind_Ok by done.
  destruct (SetValue_ready db a (addName (view_of db a) n) Hdb) as (db' & -> & Hdb' & Hso & Hv'); [unfold len; lia|]; exists db'; split_and!; [done..|].
  intros k Hk; rewrite Hv', decide_False; [done|by intros ->].
Qed.

Lemma saveWithdraw_ok db old new owner n : db_ready db -> length new = 21%nat -> (forall a, old = Some a -> length a = 21%nat) ->
  exists db', saveWithdrawRewardAddress db old new owner n = Ok db' /\ db_ready db' /\ storage_only db db' /\
    forall k, length k <> 21%nat -> view_of db' k = view_of db k.
Proof.
  intros Hdb Hn Ho; unfold saveWithdrawRewardAddress; destruct old as [o|]; repeat case_bool_decide; try (by exists db);
    try (by apply addWithdraw_ok); try (by apply deleteWithdraw_ok; [|apply Ho]).
  destruct (deleteWithdraw_ok db o n Hdb (Ho o eq_refl)) as (d1 & -> & Hd1 & Hso & Hk); rewrite bind_Ok.
  destruct (addWithdraw_ok d1 new n Hd1 Hn) as (d2 & -> & Hd2 & Hso2 & Hk2); exists d2; split_and!; [done..|by etrans|]; intros k Hl; by rewrite Hk2, Hk.
Qed.

Lemma saved_wf h earth r : registration_wf h r -> registration_wf h (saved earth r).
Proof. intros [H1 H2 H3 H4 H5 H6 H7 H8 H9]; destruct earth; [by split|]; split; assumption. Qed.

(** A registration is stored: [db1] differs from [db] in withdraw addresses and the name of the producing address at most. *)
Lemma store_registration db h R V db1 n gid new earth : governed h (view_of db) R V -> h + 1 < 2 ^ 50 -> length gid = 10%nat ->
  db_ready db1 -> storage_only db db1 -> registration_wf (h + 1) new -> key (rg_Name new) gid = key n gid ->
  (IsActive new = false -> rg_Amount new = Some 0) -> rg_HisAddrList new = used (past (R !! key n gid)) (rg_BlockProducingAddress new) ->
  let bk := GetHisNameKey (rg_BlockProducingAddress new) gid in
  (forall k, length k <> 21%nat -> k <> bk -> view_of db1 k = view_of db k) ->
  produces_for (key n gid) (view_of db1 bk) -> view_of db bk = [] \/ view_of db1 bk = view_of db bk ->
  exists info db2, registerInfo Hash256 earth new = Ok info /\ SetValue db1 (key n gid) info = Ok db2 /\ db_ready db2 /\ storage_only db db2 /\
    governed (h + 1) (view_of db2) (<[key n gid := saved earth new]> R) V /\ (forall k, length k = 21%nat -> view_of db2 k = view_of db1 k).
Proof.
  intros HG Hh Hg Hdb1 Hso1 Hw Hkey Hidle Hhis bk Hv1 Hp Hbk; destruct (registerInfo_stored Hash256 (h + 1) earth new Hw Hh) as (info & Hi & Hst).
  pose proof (length_key n gid Hg) as Hlk; destruct (SetValue_ready db1 (key n gid) info Hdb1) as (db2 & Hs & Hdb2 & Hso2 & Hv2); [unfold len; lia|].
  exists info, db2; split_and!; [done..|by etrans| |intros k Hk; rewrite Hv2, decide_False; [done|]; intros ->; lia].
  destruct (used_in (past (R !! key n gid)) (rg_BlockProducingAddress new)) as [Hin Hall]; rewrite <- Hhis in Hin, Hall.
  assert (Eb : rg_BlockProducingAddress (saved earth new) = rg_BlockProducingAddress new) by by destruct earth.
  assert (Eh : rg_HisAddrList (saved earth new) = rg_HisAddrList new) by by destruct earth.
  assert (Hl31 : forall a, length a = 21%nat -> length (GetHisNameKey a gid) = 31%nat) by (intros a Ha; unfold GetHisNameKey; rewrite length_app; lia).
  assert (Hlb : length (rg_BlockProducingAddress new) = 21%nat) by (pose proof (gw_producing _ _ Hw) as Hl; unfold len, AddressSize in Hl; lia).
  assert (Hbk31 : length bk = 31%nat) by by apply Hl31.
  assert (Hpl : forall a, a ∈ past (R !! key n gid) -> length a = 21%nat).
  { intros a; destruct (R !! key n gid) as [r|] eqn:Er; [by eapply his_length|by intros ?%not_elem_of_nil]. }
  apply (governed_put h (view_of db)); rewrite ?Eb, ?Eh, ?take_key by done; try done.
  - by apply saved_wf.
  - by rewrite Hv2, decide_True.
  - by destruct earth.
  - by destruct earth.
  - intros r a Er Ha; rewrite Er in Hall; apply Hall; by left.
  - intros a [Ha|Ha]%Hall; (rewrite Hv2, decide_False; [|intros E; apply (f_equal length) in E; unfold GetHisNameKey in E; rewrite length_app in E]).
    + destruct (decide (a = rg_BlockProducingAddress new)) as [->|Hne]; [done|].
      rewrite Hv1; [|rewrite Hl31; [done|by apply Hpl]|intros E; apply Hne; by apply app_inj_2 in E as [? _]].
      destruct (R !! key n gid) as [r|] eqn:Er; [|by apply not_elem_of_nil in Ha]; pose proof (gv_his _ _ _ _ HG _ _ _ Er Ha) as Hpa; by rewrite take_key in Hpa.
    + apply Hpl in Ha; lia.
    + by rewrite Ha.
    + rewrite Ha in E; lia.
  - intros k Hk Hne; rewrite Hv2, decide_False by done; apply Hv1; [lia|]; intros ->; lia.
  - intros k Hk; rewrite Hv2, decide_False by (intros ->; lia); apply Hv1; [lia|]; intros ->; lia.
  - intros a gid' Ha Hg'; assert (length (GetHisNameKey a gid') = 31%nat) by (unfold GetHisNameKey; rewrite length_app; lia).
    rewrite Hv2, decide_False by (intros E; rewrite E in *; lia); destruct (decide (GetHisNameKey a gid' = bk)) as [E|Hne]; [|left; apply Hv1; [lia|done]].
    apply app_inj_1 in E as [-> ->]; [|lia]; destruct Hbk as [Hb|Hb]; [right|by left]; by split_and!.
Qed.

(** ** Votes *)

Lemma length_vote a gid : length a = 21%nat -> length gid = 10%nat -> length (GetVoteInfoKey a gid) = 32%nat.
Proof. intros Ha Hg; unfold GetVoteInfoKey; rewrite !length_app, Ha, Hg; done. Qed.

(** A vote is changed. *)
Lemma governed_vote h view view' R V V' k : governed h view R V -> length k = 32%nat -> (forall k', k' <> k -> view' k' = view k' /\ V' !! k' = V !! k') ->
  match V' !! k with Some n => names_vote n (view' k) | None => view' k = [] end -> governed (h + 1) view' R V'.
Proof.
  intros HG Hk Ho Hv; assert (Hsame : forall k', length k' <> 32%nat -> view' k' = view k') by (intros k' Hl; apply Ho; congruence).
  destruct (governed_later h (h + 1) view view R V (fun _ => eq_refl) ltac:(lia) HG) as [H1 H2 H3 H4 H5 H6 H7 H8 H9]; split; try assumption.
  - intros k' r E; destruct (H1 _ _ E) as (Hl & ? & ? & ?); rewrite Hsame by lia; by split_and!.
  - intros k' Hl E; rewrite Hsame by lia; by apply H2.
  - intros k' r a E Hin; destruct (H1 _ _ E) as (Hl & _); pose proof (his_length _ _ _ _ _ _ _ HG E Hin) as Hla.
    rewrite Hsame by (unfold GetHisNameKey; rewrite length_app, length_take; lia); by eapply H5.
  - intros a gid Ha Hg; rewrite Hsame by (unfold GetHisNameKey; rewrite length_app; lia); by apply H6.
  - intros k' n E; destruct (decide (k' = k)) as [->|Hne]; [by rewrite E in Hv|]; destruct (Ho k' Hne) as [-> E']; rewrite E' in E; by apply H7.
  - intros k' Hl E; destruct (decide (k' = k)) as [->|Hne]; [by rewrite E in Hv|]; destruct (Ho k' Hne) as [-> E']; rewrite E' in E; by apply H8.
  - intros gid Hg; rewrite Hsame by (unfold GetConsensusGroupInfoKey; rewrite length_app; simpl; lia); by apply H9.
Qed.
End Governance.
