(* ===== verification/GovernanceQueries.v ===== *)
(** The queries of the governance contract, from which the consensus elects the
    producers: the candidates and the votes of a group. *)
From Stdlib Require Import ZifyBool Ascii String Sorted.
From stdpp Require Import strings.
From S2P Require Import Prelude Helper Types Upgrade VmDb Iterator IteratorSpec Builtin SbpStats AccountBlock Abi AbiSpec ContractUtil ContractSpec.
From S2P Require Import GovernanceContract WithdrawNames GovernanceSpec GovernanceCallSpec.
#[local] Open Scope Z_scope.
#[local] Opaque ABIGovernance UnpackVariable.

(** ** Loops over the storage *)

Lemma fold_until_lists {B E} (body : bytes -> bytes -> list B -> list B + E) (f : bytes -> option B) kvs l :
  (forall k v l, (k, v) ∈ kvs -> body k v l = inl (l ++ option_list (f k))) ->
  fold_until body l kvs = inl (l ++ omap f kvs.*1).
Proof.
  revert l; induction kvs as [|[k v] kvs IH]; intros l H; [by rewrite app_nil_r|]; cbn [fold_until fst snd]; rewrite H by (by left).
  rewrite IH by (intros; apply H; by right); rewrite <- app_assoc; cbn [fmap list_fmap fst]; f_equal; simpl; by destruct (f k).
Qed.

Lemma omap_filter_some {A B} (f : A -> option B) (l : list A) : omap f (filter (fun x => is_Some (f x)) l) = omap f l.
Proof.
  induction l as [|x l IH]; [done|]; rewrite filter_cons; simpl; destruct (f x) as [b|] eqn:E.
  - rewrite decide_True by done; simpl; rewrite E; f_equal; exact IH.
  - rewrite decide_False by (by intros []); exact IH.
Qed.

Lemma omap_known {A B} (f : A -> option B) (g : A -> B) (l : list A) : (forall x, x ∈ l -> f x = Some (g x)) -> omap f l = g <$> l.
Proof.
  induction l as [|x l IH]; intros H; [done|]; simpl; rewrite (H x) by (by left); f_equal; apply IH; intros; apply H; by right.
Qed.

Lemma sorted_keys kvs : StronglySorted klt kvs -> StronglySorted blt kvs.*1.
Proof.
  induction 1 as [|kv kvs _ IH H]; [constructor|]; simpl; constructor; [exact IH|].
  apply Forall_fmap; eapply Forall_impl; [|exact H]; done.
Qed.

(** A loop that collects [f] of the keys collects it of the stored keys with the prefix, in order. *)
Lemma queryWith_lists {B} db prefix body (f : bytes -> option B) (g : bytes -> B) : db_ready db -> (forall k b, f k = Some b -> b = g k) ->
  (forall k l, prefix `prefix_of` k -> view_of db k <> [] -> body k (view_of db k) l = inl (l ++ option_list (f k))) ->
  exists ks, queryWith db prefix body [] = Ok (g <$> ks) /\ StronglySorted blt ks /\
    forall k, k ∈ ks <-> is_Some (f k) /\ k <> [] /\ prefix `prefix_of` k /\ view_of db k <> [].
Proof.
  intros Hdb Hg Hbody; destruct (dr_iterates _ Hdb prefix) as (items & Hci).
  destruct (scanStorage_spec db prefix items body [] (dr_wf _ Hdb) Hci) as (kvs & Hsc & Hs & Hk).
  assert (Hin : forall k v, (k, v) ∈ kvs <-> k <> [] /\ prefix `prefix_of` k /\ view_of db k = v /\ v <> []).
  { intros k v; rewrite Hk, (dr_reads _ Hdb); naive_solver. }
  exists (filter (fun k => is_Some (f k)) kvs.*1); split; [|split].
  - unfold queryWith; rewrite Hsc, (fold_until_lists body f kvs []), bind_Ok; [|intros k v l (_ & Hp & <- & Hv)%Hin; by apply Hbody].
    rewrite <- omap_filter_some, (omap_known f g) by (intros k [(b & Hb) _]%list_elem_of_filter; rewrite Hb; f_equal; by apply Hg).
    unfold scanStorage in Hsc; destruct (db_NewStorageIterator db prefix); done.
  - by apply filter_sorted, sorted_keys.
  - intros k; rewrite list_elem_of_filter, list_elem_of_fmap; split.
    + intros (Hf & [k' v] & -> & (? & ? & <- & ?)%Hin); by split_and!.
    + intros (Hf & Hne & Hp & Hv); split; [done|]; exists (k, view_of db k); split; [done|]; by apply Hin.
Qed.

(** ** The queries *)

Section Queries.
Context (Hash256 : bytes -> bytes).
Abbreviation register := (gmap bytes Registration).
Abbreviation ballot := (gmap bytes bytes).

Lemma nonempty_len (v : bytes) : v <> [] -> (0 <? len v) = true.
Proof. destruct v; [done|]; intros _; unfold len; simpl; lia. Qed.

Lemma length_registrationGid gid : length gid = 10%nat -> length (registrationGid gid) = 10%nat.
Proof. unfold registrationGid; case_bool_decide; [reflexivity|done]. Qed.

Lemma prefix_take (p k : bytes) : p `prefix_of` k <-> take (length p) k = p.
Proof. split; [intros (q & ->); apply take_app_length|intros <-; exists (drop (length p) k); symmetry; apply take_drop]. Qed.

(** The registrations of a group that [keep] selects, by key. *)
Lemma queryRegistrations_spec db h R V gid keep (P : Registration -> bool) : db_ready db -> db_address db = AddressGovernance ->
  governed Hash256 h (view_of db) R V -> length gid = 10%nat -> (forall r, keep (Some r) = Ok (P r)) ->
  exists ks, queryRegistrations Hash256 db gid keep = Ok ((fun k => R !! k) <$> ks) /\ StronglySorted blt ks /\
    forall k, k ∈ ks <-> exists r, R !! k = Some r /\ take 10 k = registrationGid gid /\ P r = true.
Proof.
  intros Hdb Ha HG Hg Hkeep; unfold queryRegistrations; rewrite Ha, bool_decide_eq_true_2 by done; cbn [negb]; pose proof (length_registrationGid gid Hg) as Hlg.
  set (f := fun k : bytes => if (length k =? 30)%nat then match R !! k with Some r => if P r then Some (Some r) else None | None => None end else None).
  destruct (queryWith_lists db (registrationGid gid) (fun key value l =>
      if negb (filterKeyValue key value isRegistrationInfoKey) then inl l
      else continues (registration ← UnpackRegistration Hash256 value; k ← keep registration; Ok (if k : bool then l ++ [registration] else l)))
    f (fun k => R !! k) Hdb) as (ks & Hq & Hs & Hin).
  - intros k b; unfold f; destruct (_ =? _)%nat; [|done]; destruct (R !! k) as [r|]; [|done]; destruct (P r); congruence.
  - intros k l _ Hv; unfold filterKeyValue, isRegistrationInfoKey, registrationInfoKeySize, f; rewrite nonempty_len by done; cbn [andb].
    destruct (Nat.eqb_spec (length k) 30) as [El|Hne]; [|destruct (Z.eqb_spec (len k) 30) as [E|]; [unfold len in E; lia|by rewrite app_nil_r]].
    destruct (Z.eqb_spec (len k) 30) as [_|E]; [|unfold len in E; lia]; cbn [negb].
    destruct (R !! k) as [r|] eqn:Er; [|by rewrite (gv_none _ _ _ _ _ HG k El Er) in Hv].
    destruct (gv_reg _ _ _ _ _ HG _ _ Er) as (_ & _ & [_ ->] & _); rewrite bind_Ok, Hkeep, bind_Ok; destruct (P r); [done|by rewrite app_nil_r].
  - exists ks; split_and!; [exact Hq|exact Hs|]; intros k; rewrite Hin, prefix_take, Hlg; unfold f; split.
    + intros (Hf & _ & Hp & _); destruct (Nat.eqb_spec (length k) 30); [|by destruct Hf]; destruct (R !! k) as [r|]; [|by destruct Hf].
      exists r; destruct (P r); [by split_and!|by destruct Hf].
    + intros (r & Er & Hp & HP); destruct (gv_reg _ _ _ _ _ HG _ _ Er) as (Hl & _ & [Hv _] & _); rewrite Hl, Nat.eqb_refl, Er, HP.
      split_and!; [by eexists|by intros ->|done|done].
Qed.

(** The votes of a group, by key. *)
Lemma GetVoteList_spec db h R V gid : db_ready db -> db_address db = AddressGovernance -> governed Hash256 h (view_of db) R V -> length gid = 10%nat ->
  exists ks, GetVoteList Hash256 db gid = Ok ((fun k => mkVoteInfo (drop 11 k) (default [] (V !! k))) <$> ks) /\ StronglySorted blt ks /\
    forall k, k ∈ ks <-> exists a n, length a = 21%nat /\ k = GetVoteInfoKey a (registrationGid gid) /\ V !! k = Some n.
Proof.
  intros Hdb Ha HG Hg; unfold GetVoteList; rewrite Ha, bool_decide_eq_true_2 by done; cbn [negb]; pose proof (length_registrationGid gid Hg) as Hlg.
  set (g := fun k : bytes => mkVoteInfo (drop 11 k) (default [] (V !! k))).
  set (f := fun k : bytes => if (length k =? 32)%nat then match V !! k with Some n => Some (g k) | None => None end else None).
  match goal with |- context [queryWith db ?p ?body []] => destruct (queryWith_lists db p body f g Hdb) as (ks & Hq & Hs & Hin) end.
  - intros k b; unfold f; destruct (_ =? _)%nat; [|done]; destruct (V !! k); congruence.
  - intros k l _ Hv; unfold filterKeyValue, isVoteInfoKey, f, g; change voteInfoKeySize with 32; rewrite nonempty_len by done; cbn [andb].
    destruct (Nat.eqb_spec (length k) 32) as [El|Hne]; [|destruct (Z.eqb_spec (len k) 32) as [E|]; [unfold len in E; lia|by rewrite app_nil_r]].
    destruct (Z.eqb_spec (len k) 32) as [_|E]; [|unfold len in E; lia]; cbn [negb].
    destruct (V !! k) as [n|] eqn:En; [|by rewrite (gv_novote _ _ _ _ _ HG k El En) in Hv].
    destruct (gv_vote _ _ _ _ _ HG _ _ En) as (_ & _ & ->); unfold getAddrFromVoteInfoKey; rewrite checked_Address; [done|].
    unfold len, AddressSize; rewrite length_drop; lia.
  - exists ks; split_and!; [exact Hq|exact Hs|]; intros k; rewrite Hin, prefix_take; unfold f; split.
    + intros (Hf & _ & Hp & _); destruct (Nat.eqb_spec (length k) 32) as [El|]; [|by destruct Hf]; destruct (V !! k) as [n|]; [|by destruct Hf].
      exists (drop 11 k), n; split_and!; [rewrite length_drop; lia| |done]; unfold getVoteInfoKeyPerfixByGid in Hp; unfold GetVoteInfoKey.
      rewrite length_app, Hlg in Hp; simpl length in Hp; rewrite <- (take_drop 11 k) at 1; rewrite app_assoc; f_equal; exact Hp.
    + intros (a & n & Hla & -> & En); destruct (gv_vote _ _ _ _ _ HG _ _ En) as (Hl & Hv & _); rewrite Hl, Nat.eqb_refl, En.
      split_and!; [by eexists|done| |done]; unfold GetVoteInfoKey; rewrite app_assoc; apply take_app_length.
Qed.

(** C27 The consensus reads the register exactly.  The list of candidates of a group
    holds, once each and ordered by key, the registrations of the group that are active, for the delegate group those of the snapshot group;
    that of an account those it staked for; and the list of votes holds exactly one entry for
    each account that voted in the group, with the name it voted for last. *)
Theorem election_reads_exact db h R V gid a : db_ready db -> db_address db = AddressGovernance -> governed Hash256 h (view_of db) R V -> length gid = 10%nat ->
  (exists ks, GetCandidateList Hash256 db gid = Ok ((fun k => R !! k) <$> ks) /\ StronglySorted blt ks /\
     forall k, k ∈ ks <-> exists r, R !! k = Some r /\ take 10 k = registrationGid gid /\ IsActive r = true) /\
  (exists ks, GetRegistrationList Hash256 db gid a = Ok ((fun k => R !! k) <$> ks) /\ StronglySorted blt ks /\
     forall k, k ∈ ks <-> exists r, R !! k = Some r /\ take 10 k = registrationGid gid /\ rg_StakeAddress r = a) /\
  exists ks, GetVoteList Hash256 db gid = Ok ((fun k => mkVoteInfo (drop 11 k) (default [] (V !! k))) <$> ks) /\ StronglySorted blt ks /\
     forall k, k ∈ ks <-> exists a n, length a = 21%nat /\ k = GetVoteInfoKey a (registrationGid gid) /\ V !! k = Some n.
Proof.
  intros Hdb Ha HG Hg; split_and!; [by eapply queryRegistrations_spec| |by eapply GetVoteList_spec].
  destruct (queryRegistrations_spec db h R V gid (fun registration => r ← or_panic PNil registration; Ok (bool_decide (rg_StakeAddress r = a)))
    (fun r => bool_decide (rg_StakeAddress r = a)) Hdb Ha HG Hg) as (ks & Hq & Hs & Hin); [done|].
  exists ks; split_and!; [exact Hq|exact Hs|]; intros k; rewrite Hin; split; intros (r & ? & ? & Hr); exists r; split_and!; try done;
    [by apply bool_decide_eq_true in Hr|by apply bool_decide_eq_true].
Qed.
End Queries.
