(* ===== verification/AssetSpec.v ===== *)
(** What the asset contract guarantees.

    The storage is read as a registry: a finite map from token ids to tokens,
    with the list of the ids of every owner and the next index of every symbol. *)
From Stdlib Require Import ZifyBool Ascii String.
From stdpp Require Import strings.
From S2P Require Import Prelude Helper Types Upgrade VmDb Iterator IteratorSpec Builtin AccountBlock Abi AbiSpec ContractUtil ContractSpec.
From S2P Require Import Regexp AssetContract Machine Vm VmSpec BuiltinSpec.
#[local] Open Scope Z_scope.

(** ** Lists of token ids *)

Definition ids_ok (ids : list bytes) : Prop := Forall (fun t => length t = 10%nat) ids.

Lemma length_concat_ids ids : ids_ok ids -> length (concat ids) = (10 * length ids)%nat.
Proof. induction 1 as [|t ids Ht _ IH]; cbn [concat]; [done|]; rewrite length_app, IH, Ht; simpl; lia. Qed.

Lemma drop_concat_ids ids i : ids_ok ids -> drop (10 * i) (concat ids) = concat (drop i ids).
Proof.
  intros H; revert i; induction H as [|t ids Ht _ IH]; intros i; [cbn [concat]; rewrite !drop_nil; done|].
  destruct i as [|i]; [done|]; cbn [concat drop]; rewrite <- IH, drop_app, Ht.
  rewrite drop_ge by lia; simpl; f_equal; lia.
Qed.

Lemma take_concat_ids ids i : ids_ok ids -> take (10 * i) (concat ids) = concat (take i ids).
Proof.
  intros H; revert i; induction H as [|t ids Ht _ IH]; intros i; [cbn [concat]; rewrite !take_nil; done|].
  destruct i as [|i]; [done|]; cbn [concat take]; rewrite <- IH, take_app, Ht.
  rewrite (take_ge t) by lia; f_equal; f_equal; lia.
Qed.

Lemma tokenIDAt_concat ids i t : ids_ok ids -> ids !! i = Some t -> tokenIDAt (concat ids) i = t.
Proof.
  intros Hok Hi; unfold tokenIDAt; rewrite drop_concat_ids by done; rewrite (drop_S _ _ _ Hi); cbn [concat].
  apply take_app_length'; symmetry; by eapply (Forall_lookup_1 _ _ _ _ Hok).
Qed.

(** Deleting from the bytes deletes from the list. *)
Lemma deleteTokenID_concat ids t n i : ids_ok ids -> (n + i = length ids)%nat -> (forall j, (j < i)%nat -> ids !! j <> Some t) ->
  NoDup ids -> deleteTokenID (concat ids) t n i = concat (filter (fun x => x <> t) ids).
Proof.
  intros Hok; revert i; induction n as [|n IH]; intros i Hn Hi Hnd; cbn [deleteTokenID].
  - f_equal; symmetry; clear -Hi Hn; simpl in Hn; subst i; induction ids as [|x ids IH]; [done|].
    rewrite filter_cons_True by (intros ->; by apply (Hi 0%nat); simpl; [lia|]); f_equal; apply IH.
    intros j Hj; apply (Hi (S j)); simpl; lia.
  - destruct (lookup_lt_is_Some_2 ids i ltac:(lia)) as [x Hx]; rewrite (tokenIDAt_concat ids i x Hok Hx).
    case_bool_decide as E; [subst x|apply IH; [lia| |done]].
    + rewrite take_concat_ids, drop_concat_ids, <- concat_app by done; f_equal; clear -Hx Hnd.
      pose proof (take_drop_middle ids i t Hx) as Hsp; replace (S i) with (i + 1)%nat in Hsp by lia.
      revert Hnd Hsp; generalize (take i ids) (drop (i + 1) ids); intros l1 l2 Hnd <-; apply list.NoDup_app in Hnd as (_ & Hd & Hn2).
      inversion Hn2 as [|? ? Hni _]; subst; rewrite list.filter_app, filter_cons_False by (intros H; by apply H).
      rewrite !filter_absent; [done|done|]; intros Hin; apply (Hd t Hin), elem_of_cons; by left.
    + intros j Hj; destruct (decide (j = i)) as [->|]; [congruence|apply Hi; lia].
Qed.

Lemma DeleteTokenID_concat ids t : ids_ok ids -> NoDup ids ->
  DeleteTokenID (concat ids) t = concat (filter (fun x => x <> t) ids).
Proof.
  intros Hok Hnd; unfold DeleteTokenID; apply deleteTokenID_concat; [done| |lia|done].
  rewrite length_concat_ids by done; rewrite Nat.mul_comm, Nat.div_mul by lia; lia.
Qed.

Lemma AppendTokenID_concat ids t : AppendTokenID (concat ids) t = concat (ids ++ [t]).
Proof. unfold AppendTokenID; rewrite concat_app; simpl; by rewrite app_nil_r. Qed.

(** ** Tokens *)

Definition supply (t : TokenInfo) : Z := default 0 (ti_TotalSupply t).
Definition limit (t : TokenInfo) : Z := default 0 (ti_MaxSupply t).

Record token_wf (t : TokenInfo) : Prop := {
  tw_supply : ti_TotalSupply t = Some (supply t) /\ 0 <= supply t < 2 ^ 256;
  tw_limit : ti_MaxSupply t = Some (limit t) /\ 0 <= limit t < 2 ^ 256;
  tw_kind : if ti_IsReIssuable t then supply t <= limit t else limit t = 0 /\ ti_OwnerBurnOnly t = false;
  tw_name : len (ti_TokenName t) <= tokenNameLengthMax /\ len (ti_TokenSymbol t) <= tokenSymbolLengthMax;
  tw_decimals : 0 <= ti_Decimals t < 2 ^ 8;
  tw_owner : len (ti_Owner t) = AddressSize;
  tw_index : 0 <= ti_Index t < tokenNameIndexMax;
}.

(** The tokens by id. *)
Abbreviation registry := (gmap bytes TokenInfo).

(** The ids of an owner. *)
Definition owned (T : registry) (o : Address) (ids : list bytes) : Prop :=
  NoDup ids /\ forall t, t ∈ ids <-> exists i, T !! t = Some i /\ ti_Owner i = o.

(** A token put into the registry leaves the lists of other owners alone. *)
Lemma owned_put T t new o ids : owned T o ids -> ti_Owner new <> o -> (forall i, T !! t = Some i -> ti_Owner i <> o) ->
  owned (<[t := new]> T) o ids.
Proof.
  intros [Hnd Hin] Hn Ho; split; [done|]; intros t'; rewrite Hin; destruct (decide (t' = t)) as [->|Hne].
  - rewrite lookup_insert_eq; naive_solver.
  - by rewrite lookup_insert_ne.
Qed.

Lemma owned_same T t old new o ids : owned T o ids -> T !! t = Some old -> ti_Owner new = ti_Owner old ->
  owned (<[t := new]> T) o ids.
Proof.
  intros [Hnd Hin] Ht Ho; split; [done|]; intros t'; rewrite Hin; destruct (decide (t' = t)) as [->|Hne].
  - rewrite lookup_insert_eq; naive_solver congruence.
  - by rewrite lookup_insert_ne.
Qed.

(** The list of the new owner, from which the token may have been deleted before. *)
Lemma owned_append T t new ids : owned T (ti_Owner new) ids ->
  owned (<[t := new]> T) (ti_Owner new) (filter (fun x => x <> t) ids ++ [t]).
Proof.
  intros [Hnd Hin]; split.
  - apply list.NoDup_app; split_and!; [by apply list.NoDup_filter| |apply NoDup_singleton].
    intros x [Hx _]%list_elem_of_filter ->%list_elem_of_singleton; done.
  - intros t'; rewrite elem_of_app, list_elem_of_filter, list_elem_of_singleton, Hin; destruct (decide (t' = t)) as [->|Hne].
    + rewrite lookup_insert_eq; naive_solver.
    + rewrite lookup_insert_ne by done; naive_solver.
Qed.

Lemma owned_delete T t new o ids : owned T o ids -> ti_Owner new <> o -> owned (<[t := new]> T) o (filter (fun x => x <> t) ids).
Proof.
  intros [Hnd Hin] Hn; split; [by apply list.NoDup_filter|]; intros t'; rewrite list_elem_of_filter, Hin.
  destruct (decide (t' = t)) as [->|Hne]; [rewrite lookup_insert_eq; naive_solver|rewrite lookup_insert_ne by done; naive_solver].
Qed.

Section Asset.
Context (Hash256 Hash10 : bytes -> bytes) (box : upgradeBox).
Abbreviation ABI := (ABIAsset Hash256).

Lemma variable_tokenInfo : assoc VariableNameTokenInfo (Variables ABI) = Some (args_of
  [("tokenName", "string"); ("tokenSymbol", "string"); ("totalSupply", "uint256"); ("decimals", "uint8");
   ("owner", "address"); ("isReIssuable", "bool"); ("maxSupply", "uint256"); ("ownerBurnOnly", "bool"); ("index", "uint16")]%string).
Proof. vm_compute; reflexivity. Qed.

Lemma variable_tokenIndex : assoc VariableNameTokenIndex (Variables ABI) = Some (args_of [("nextIndex", "uint16")]%string).
Proof. vm_compute; reflexivity. Qed.

(** The value stored for a token decodes to it. *)
Definition stored_token (t : TokenInfo) (v : bytes) : Prop := v <> [] /\ parseTokenInfo Hash256 v = (Ok tt, Some t).

Lemma packTokenInfo_stored t : token_wf t -> exists v, packTokenInfo Hash256 t = Ok v /\ stored_token t v.
Proof.
  intros [[Es Hs] [Em Hm] _ [Hn Hy] Hd Ho Hi]; unfold packTokenInfo, stored_token, parseTokenInfo; rewrite Es, Em, !big_Some.
  unfold tokenNameLengthMax, tokenSymbolLengthMax, tokenNameIndexMax in *.
  destruct (sized_variable ABI _ _ [VString (ti_TokenName t); VString (ti_TokenSymbol t); vBig (supply t); vUint8 (ti_Decimals t);
    VArray (ti_Owner t); VBool (ti_IsReIssuable t); vBig (limit t); VBool (ti_OwnerBurnOnly t); vUint16 (ti_Index t)] variable_tokenInfo)
    as (v & -> & Hl & Hu).
  - vm_compute; discriminate.
  - change (32 * words _) with 288; cbn [zsum foldr tail_size vBig vUint8 vUint16]; lia.
  - has_types; first [assumption | split; lia | lia].
  - exists v; split; [done|]; split; [eapply len_nonempty; [reflexivity|lia]|]; rewrite Hu; cbn [vBig vUint8 vUint16].
    destruct (Z.eqb_spec (len v) 0); [lia|]; rewrite <- Es, <- Em; clear; by destruct t.
Qed.

(** The counter of a symbol. *)
Definition counter (n : Z) (v : bytes) : Prop := nextTokenIndex Hash256 v = Ok n.

Lemma counter_empty : counter 0 [].
Proof. reflexivity. Qed.

Lemma pack_counter n : 0 <= n < 2 ^ 16 ->
  exists v, PackVariable ABI VariableNameTokenIndex [vUint16 n] = Ok v /\ counter n v.
Proof.
  intros Hn; destruct (sized_variable ABI _ _ [vUint16 n] variable_tokenIndex) as (v & -> & Hl & Hu);
    [vm_compute; discriminate|vm_compute; reflexivity|has_types; lia|].
  exists v; split; [done|]; unfold counter, nextTokenIndex; rewrite Hu.
  destruct (Z.ltb_spec 0 (len v)); [reflexivity|lia].
Qed.

(** The storage holds the registry. *)
Record tokens (view : bytes -> bytes) (T : registry) : Prop := {
  tk_token t i : T !! t = Some i -> length t = 10%nat /\ token_wf i /\ stored_token i (view t);
  tk_none t : length t = 10%nat -> T !! t = None -> view t = [];
  tk_owner o : length o = 21%nat -> exists ids, view o = concat ids /\ owned T o ids;
  tk_counter k : length k = 32%nat -> exists n, counter n (view k) /\ 0 <= n <= tokenNameIndexMax;
  tk_index t i n : T !! t = Some i -> counter n (view (GetNextTokenIndexKey Hash256 (ti_TokenSymbol i))) -> ti_Index i < n;
  tk_unique t1 t2 i1 i2 : T !! t1 = Some i1 -> T !! t2 = Some i2 ->
    ti_TokenSymbol i1 = ti_TokenSymbol i2 -> ti_Index i1 = ti_Index i2 -> t1 = t2;
}.

Lemma tokens_empty view : (forall k, view k = []) -> tokens view ∅.
Proof.
  intros Hv; split; intros *; rewrite ?lookup_empty; try discriminate; [by rewrite Hv|..].
  - intros _; exists []; rewrite Hv; split; [done|]; split; [constructor|]; intros t; split; [by intros ?%not_elem_of_nil|].
    intros (i & E & _); by rewrite lookup_empty in E.
  - intros _; exists 0; rewrite Hv; split; [reflexivity|unfold tokenNameIndexMax; lia].
Qed.

Lemma tokens_ext view view' T : (forall k, view k = view' k) -> tokens view T -> tokens view' T.
Proof.
  intros Hv [H1 H2 H3 H4 H5 H6]; split; intros *; rewrite <- ?Hv; [exact (H1 t i)|exact (H2 t)|exact (H3 o)|exact (H4 k)|exact (H5 t i n)|exact (H6 t1 t2 i1 i2)].
Qed.

Lemma counter_fun n n' v : counter n v -> counter n' v -> n = n'.
Proof. unfold counter; congruence. Qed.

Lemma owner_ids view T o : tokens view T -> length o = 21%nat -> exists ids, view o = concat ids /\ owned T o ids /\ ids_ok ids.
Proof.
  intros HT Ho; destruct (tk_owner _ _ HT o Ho) as (ids & Hv & Hnd & Hin); exists ids; split_and!; [done|done|].
  apply Forall_forall; intros t Ht%list_elem_of_In; apply Hin in Ht as (i & E & _); apply (tk_token _ _ HT _ _ E).
Qed.

(** Put a token into the registry. *)
Lemma tokens_put view view' T t new : tokens view T -> length t = 10%nat -> token_wf new -> stored_token new (view' t) ->
  (forall k, length k = 10%nat -> k <> t -> view' k = view k) ->
  (forall o, length o = 21%nat -> exists ids, view' o = concat ids /\ owned (<[t := new]> T) o ids) ->
  (forall k n, length k = 32%nat -> counter n (view k) -> 0 <= n <= tokenNameIndexMax ->
     exists n', counter n' (view' k) /\ n <= n' <= tokenNameIndexMax /\
       (k = GetNextTokenIndexKey Hash256 (ti_TokenSymbol new) -> ti_Index new < n')) ->
  (forall t2 i2, T !! t2 = Some i2 -> t2 <> t -> ti_TokenSymbol i2 = ti_TokenSymbol new -> ti_Index i2 <> ti_Index new) ->
  tokens view' (<[t := new]> T).
Proof.
  intros HT Ht Hw Hst H10 Ho Hc Hu; assert (Hkey : forall y, length (GetNextTokenIndexKey Hash256 y) = 32%nat) by (intros; apply length_DataHash).
  split.
  - intros t' i; rewrite lookup_insert; case_decide; [by intros [= <-]; subst|]; intros E; rewrite H10; [by apply (tk_token _ _ HT)| |congruence].
    apply (tk_token _ _ HT _ _ E).
  - intros t' Hl; rewrite lookup_insert; case_decide; [done|]; intros E; rewrite H10 by congruence; by apply (tk_none _ _ HT).
  - exact Ho.
  - intros k Hk; destruct (tk_counter _ _ HT k Hk) as (n & Hn & Hr); destruct (Hc k n Hk Hn Hr) as (n' & ? & ? & _); exists n'; split; [done|lia].
  - intros t' i n; rewrite lookup_insert; destruct (tk_counter _ _ HT _ (Hkey (ti_TokenSymbol i))) as (n0 & Hn0 & Hr).
    destruct (Hc _ n0 (Hkey _) Hn0 Hr) as (n' & Hn' & Hle & Hnew); case_decide as D; intros E Hn; pose proof (counter_fun _ _ _ Hn Hn') as ->.
    + injection E as <-; by apply Hnew.
    + pose proof (tk_index _ _ HT _ _ _ E Hn0); lia.
  - intros t1 t2 i1 i2; rewrite !lookup_insert; do 2 case_decide; subst; intros E1 E2 Es Ei; simplify_eq; [done|..].
    + destruct (Hu t2 i2 E2); congruence.
    + destruct (Hu t1 i1 E1); congruence.
    + by eapply (tk_unique _ _ HT).
Qed.

(** ** Calls *)

(** The methods with inputs; a method may have several names. *)
Inductive asset_method := MIssue | MReIssue | MTransfer | MDisable | MGetInfo | MGetInfoV3.

Definition asset_inputs (q : asset_method) : list (string * string) :=
  match q with
  | MIssue => [("isReIssuable", "bool"); ("tokenName", "string"); ("tokenSymbol", "string"); ("totalSupply", "uint256");
               ("decimals", "uint8"); ("maxSupply", "uint256"); ("isOwnerBurnOnly", "bool")]
  | MReIssue => [("tokenId", "tokenId"); ("amount", "uint256"); ("receiveAddress", "address")]
  | MTransfer => [("tokenId", "tokenId"); ("newOwner", "address")]
  | MDisable | MGetInfoV3 => [("tokenId", "tokenId")]
  | MGetInfo => [("tokenId", "tokenId"); ("bid", "uint8")]
  end%string.

Definition asset_names (q : asset_method) : list string :=
  match q with
  | MIssue => [MethodNameIssue; MethodNameIssueV2]
  | MReIssue => [MethodNameReIssue; MethodNameReIssueV2]
  | MTransfer => [MethodNameTransferOwnership; MethodNameTransferOwnershipV2]
  | MDisable => [MethodNameDisableReIssue; MethodNameDisableReIssueV2]
  | MGetInfo => [MethodNameGetTokenInfo]
  | MGetInfoV3 => [MethodNameGetTokenInfoV3]
  end.

Lemma asset_names_nonempty q name : name ∈ asset_names q -> name <> ""%string.
Proof.
  intros H ->; destruct q; cbn [asset_names] in H; rewrite ?elem_of_cons, elem_of_nil in H;
    repeat destruct H as [H|H]; try discriminate H; exact H.
Qed.

Lemma asset_methods_defined q name : name ∈ asset_names q ->
  assoc name (Methods ABI) = Some (newMethod Hash256 name (args_of (asset_inputs q))).
Proof.
  intros H; destruct q; cbn [asset_names] in H; rewrite ?elem_of_cons, elem_of_nil in H;
    repeat destruct H as [->|H]; try (exfalso; exact H); vm_compute; reflexivity.
Qed.

Lemma asset_abi_ok : abi_selectors ABI -> abi_ok ABI.
Proof.
  intros Hd; apply (abi_ok_intro Hash256); [exact Hd|apply (bool_decide_unpack _); vm_compute; exact I|vm_compute; repeat constructor].
Qed.

Context (Hsel : abi_selectors ABI).

(** A decoded call is packed again to data that decodes to it. *)
Lemma asset_recode q name input vs : name ∈ asset_names q -> UnpackMethod ABI name input = Ok vs ->
  Forall2 has_type (ArgType <$> args_of (asset_inputs q)) vs /\
  (zsum tail_size vs < 2 ^ 32 -> exists data, PackMethod ABI name vs = Ok data /\
     MethodById ABI (take 4 data) = Ok (newMethod Hash256 name (args_of (asset_inputs q))) /\ UnpackMethod ABI name data = Ok vs).
Proof.
  intros Hn Hu; pose proof (asset_methods_defined q name Hn) as Hm.
  assert (Ht : Forall2 has_type (ArgType <$> args_of (asset_inputs q)) vs).
  { refine (decoded_typed ABI name _ input vs (asset_abi_ok Hsel) Hm _ Hu).
    destruct q; repeat constructor; vm_compute; discriminate. }
  split; [exact Ht|]; intros Hs.
  apply (sized_method ABI name _ vs (asset_abi_ok Hsel) (asset_names_nonempty q name Hn) Hm); [| |exact Ht].
  - destruct q; vm_compute; discriminate.
  - assert (words (ArgType <$> md_Inputs (newMethod Hash256 name (args_of (asset_inputs q)))) <= 7) by (destruct q; vm_compute; discriminate); lia.
Qed.

Lemma packTokenCallback_ok name s q info : name ∈ asset_names MGetInfo ++ asset_names MGetInfoV3 -> length (ab_Hash s) = 32%nat ->
  len (pg_TokenId q) = TokenTypeIdSize -> 0 <= pg_Bid q < 2 ^ 8 -> (forall i, info = Some i -> token_wf i) ->
  exists data, packTokenCallback Hash256 name s q info = Ok data.
Proof.
  intros Hn Hh Ht Hb Hi; unfold packTokenCallback; cbn [asset_names app] in Hn; rewrite ?elem_of_cons, elem_of_nil in Hn.
  assert (Hl : len (ab_Hash s) = 32) by (unfold len; lia).
  destruct info as [i|]; [destruct (Hi i eq_refl) as [[Es Hs] [Em Hm] _ [Hnm Hsy] Hd Ho Hx]|].
  all: destruct Hn as [->|[->|[]]]; unfold isV3; [rewrite bool_decide_eq_false_2 by discriminate|rewrite bool_decide_eq_true_2 by reflexivity];
    rewrite ?Es, ?Em, ?big_Some; unfold tokenNameLengthMax, tokenSymbolLengthMax, tokenNameIndexMax in *.
  all: eapply callback_packed; [eexists; split; vm_compute; reflexivity|].
  all: has_types; first [assumption | split; lia | lia].
Qed.

#[local] Opaque ABIAsset UnpackMethod PackMethod PackCallback PackVariable UnpackVariable SetValue packTokenInfo addLog.

Lemma noAmount_ok b : noAmount b = Ok tt -> exists a, Amount b = Some a /\ a <= 0.
Proof. intros (a & Ha & H1)%big_ok; exists a; split; [done|]; destruct (Z.ltb_spec 0 a); done. Qed.

(** A token as [checkToken] lets it pass. *)
Record new_token (re : bool) (nm sym : bytes) (total dec max : Z) (obo : bool) : Prop := {
  nt_supply : 0 <= total < 2 ^ 256 /\ 0 <= max < 2 ^ 256 /\ 0 <= dec < 2 ^ 8;
  nt_kind : if re then total <= max else max = 0 /\ obo = false;
  nt_length : 0 < len nm <= tokenNameLengthMax /\ 0 < len sym <= tokenSymbolLengthMax;
  nt_names : MatchString tokenNameRegex nm = true /\ MatchString tokenSymbolRegex sym = true /\ sym ∉ reservedSymbols;
}.

Lemma new_token_wf re nm sym total dec max obo o n : new_token re nm sym total dec max obo -> len o = AddressSize -> 0 <= n < tokenNameIndexMax ->
  token_wf (mkTokenInfo nm sym (Some total) dec o (Some max) obo re n).
Proof. intros [(? & ? & ?) Hk [? ?] _] Ho Hn; split; unfold supply, limit; simpl; try done; split; lia || done. Qed.

Lemma checkToken_ok re nm sym total dec max obo h : is_u256 total -> is_u256 max -> 0 <= dec < 2 ^ 8 ->
  checkToken box (mkParamIssue nm sym (Some total) dec (Some max) obo re) h = Ok tt -> new_token re nm sym total dec max obo.
Proof.
  intros Ht Hm Hd; unfold checkToken; cbn [pi_TotalSupply pi_MaxSupply pi_TokenName pi_TokenSymbol pi_Decimals pi_IsReIssuable pi_IsOwnerBurnOnly].
  rewrite !big_Some; destruct re; repeat (match goal with |- context [if ?b then Err _ else _] => destruct b eqn:? end; [done|]).
  all: intros _; unfold is_u256, len in *; split; [lia| |unfold len; lia|].
  all: try (destruct obo; simpl in *; lia).
  all: repeat match goal with H : negb _ = false |- _ => apply negb_false_iff in H | H : bool_decide _ = false |- _ => apply bool_decide_eq_false in H end.
  all: by split_and!.
Qed.

Lemma Issue_accepted name d s : name ∈ asset_names MIssue -> accepted (Issue_send Hash256 box name d) s ->
  exists re nm sym total dec max obo, new_token re nm sym total dec max obo /\
    UnpackMethod ABI name (Data s) = Ok [VBool re; VString nm; VString sym; vBig total; vUint8 dec; vBig max; VBool obo].
Proof.
  intros Hn (b0 & Hs & Ea & Et); unfold Issue_send in Hs; apply outcome_bind_ok in Hs as (vs & Hu%or_abi_err_ok & Hs).
  destruct (asset_recode MIssue name _ _ Hn Hu) as (Ht & Hr); inv_types Ht.
  repeat match goal with H : _ = reflectIntKind _ _ /\ _ |- _ => destruct H as [-> H] end.
  cbn [toIssue pi_TotalSupply pi_MaxSupply pi_TokenName pi_TokenSymbol pi_Decimals pi_IsReIssuable pi_IsOwnerBurnOnly] in Hs.
  apply outcome_bind_ok in Hs as (sb & _ & Hs); apply outcome_bind_ok in Hs as ([] & Hc & Hs); rewrite !big_Some in Hs.
  apply checkToken_ok in Hc; [|assumption..]; unfold vBig, vUint8 in *.
  change (reflectIntKind true 256) with Big in *; change (reflectIntKind true 8) with (Machine true 8) in *.
  destruct Hr as (data & Hp & _ & Hd).
  { destruct (nt_length _ _ _ _ _ _ _ Hc); unfold tokenNameLengthMax, tokenSymbolLengthMax in *; cbn [zsum foldr tail_size]; lia. }
  rewrite Hp in Hs; injection Hs as <-; eexists _, _, _, _, _, _, _; split; [exact Hc|exact Hd].
Qed.

Lemma ReIssue_accepted name s : name ∈ asset_names MReIssue -> accepted (ReIssue_send Hash256 name) s ->
  exists t a to, len t = TokenTypeIdSize /\ 0 < a < 2 ^ 256 /\ len to = AddressSize /\
    UnpackMethod ABI name (Data s) = Ok [VArray t; vBig a; VArray to] /\ exists x, Amount s = Some x /\ x <= 0.
Proof.
  intros Hn (b0 & Hs & Ea & Et); unfold ReIssue_send in Hs; apply outcome_bind_ok in Hs as (vs & Hu%or_abi_err_ok & Hs).
  destruct (asset_recode MReIssue name _ _ Hn Hu) as (Ht & Hr); inv_types Ht; destruct Hv0 as [-> [_ Hz]].
  cbn [toReIssue pr_Amount pr_TokenId pr_ReceiveAddress] in Hs; rewrite big_Some in Hs; destruct (Z.leb_spec z 0); [done|].
  apply outcome_bind_ok in Hs as ([] & Hc%noAmount_ok & Hs); unfold vBig in *; change (reflectIntKind true 256) with Big in *.
  destruct Hr as (data & Hp & _ & Hd); [vm_compute; reflexivity|]; rewrite Hp in Hs; injection Hs as <-; rewrite Ea in Hc.
  exists bs0, z, bs; split_and!; try assumption.
Qed.

Lemma Transfer_accepted name s : name ∈ asset_names MTransfer -> accepted (TransferOwnership_send Hash256 name) s ->
  exists t o, len t = TokenTypeIdSize /\ len o = AddressSize /\ UnpackMethod ABI name (Data s) = Ok [VArray t; VArray o] /\
    exists x, Amount s = Some x /\ x <= 0.
Proof.
  intros Hn (b0 & Hs & Ea & Et); unfold TransferOwnership_send in Hs; apply outcome_bind_ok in Hs as ([] & Hc%noAmount_ok & Hs).
  apply outcome_bind_ok in Hs as (vs & Hu%or_abi_err_ok & Hs); destruct (asset_recode MTransfer name _ _ Hn Hu) as (Ht & Hr); inv_types Ht.
  cbn [toTransferOwnership pt_TokenId pt_NewOwner] in Hs; case_bool_decide; [done|].
  destruct Hr as (data & Hp & _ & Hd); [vm_compute; reflexivity|]; rewrite Hp in Hs; injection Hs as <-; rewrite Ea in Hc.
  exists bs0, bs; split_and!; assumption.
Qed.

Lemma Disable_accepted name s : name ∈ asset_names MDisable -> accepted (DisableReIssue_send Hash256 name) s ->
  exists t, len t = TokenTypeIdSize /\ UnpackMethod ABI name (Data s) = Ok [VArray t] /\ exists x, Amount s = Some x /\ x <= 0.
Proof.
  intros Hn (b0 & Hs & Ea & Et); unfold DisableReIssue_send in Hs; apply outcome_bind_ok in Hs as (vs & Hu%or_abi_err_ok & Hs).
  apply outcome_bind_ok in Hs as ([] & Hc%noAmount_ok & Hs); destruct (asset_recode MDisable name _ _ Hn Hu) as (Ht & Hr); inv_types Ht.
  destruct Hr as (data & Hp & _ & Hd); [vm_compute; reflexivity|]; cbn [toTokenId] in Hs; rewrite Hp in Hs; injection Hs as <-; rewrite Ea in Hc.
  exists bs; split_and!; assumption.
Qed.

Lemma GetInfo_accepted name s : name ∈ asset_names MGetInfo ++ asset_names MGetInfoV3 -> accepted (GetTokenInfo_send Hash256 name) s ->
  exists vs t bid, len t = TokenTypeIdSize /\ 0 <= bid < 2 ^ 8 /\ UnpackMethod ABI name (Data s) = Ok vs /\
    toGetTokenInfo vs = mkParamGetTokenInfo t bid /\ exists x, Amount s = Some x /\ x <= 0.
Proof.
  intros Hn (b0 & Hs & Ea & Et); unfold GetTokenInfo_send in Hs; apply outcome_bind_ok in Hs as (vs & Hu%or_abi_err_ok & Hs).
  apply outcome_bind_ok in Hs as ([] & Hc%noAmount_ok & Hs); rewrite Ea in Hc; unfold isV3 in Hs; apply elem_of_app in Hn as [Hn|Hn].
  - destruct (asset_recode MGetInfo name _ _ Hn Hu) as (Ht & Hr); inv_types Ht; destruct Hv0 as [-> Hz].
    apply list_elem_of_singleton in Hn as ->; rewrite bool_decide_eq_false_2 in Hs by discriminate; cbn [toGetTokenInfo pg_TokenId pg_Bid] in Hs.
    unfold vUint8 in *; change (reflectIntKind true 8) with (Machine true 8) in *.
    destruct Hr as (data & Hp & _ & Hd); [vm_compute; reflexivity|]; rewrite Hp in Hs; injection Hs as <-.
    exists [VArray bs; VNum (Machine true 8) z], bs, z; split_and!; try assumption; [apply Hz..|reflexivity].
  - destruct (asset_recode MGetInfoV3 name _ _ Hn Hu) as (Ht & Hr); inv_types Ht.
    apply list_elem_of_singleton in Hn as ->; rewrite bool_decide_eq_true_2 in Hs by reflexivity; cbn [toGetTokenInfo pg_TokenId pg_Bid] in Hs.
    destruct Hr as (data & Hp & _ & Hd); [vm_compute; reflexivity|]; rewrite Hp in Hs; injection Hs as <-.
    exists [VArray bs], bs, 0; split_and!; try assumption; [lia..|reflexivity].
Qed.

(** ** What the methods do *)

Definition reward (block : AccountBlock) (to : Address) (a : Z) (t : TokenTypeId) : AccountBlock :=
  sendLiteral block to BlockTypeSendReward (Some a) t [].

(** The changes of the registry, with the blocks that the contract sends and the
    amount that it burns. *)
Inductive token_step (block s : AccountBlock) (T : registry) : registry -> list AccountBlock -> Z -> Prop :=
| step_issue t i : T !! t = None -> length t = 10%nat -> token_wf i -> ti_Owner i = AccountAddress s ->
    new_token (ti_IsReIssuable i) (ti_TokenName i) (ti_TokenSymbol i) (supply i) (ti_Decimals i) (limit i) (ti_OwnerBurnOnly i) ->
    (forall t' i', T !! t' = Some i' -> ti_TokenSymbol i' = ti_TokenSymbol i -> ti_Index i' < ti_Index i) ->
    token_step block s T (<[t := i]> T) [reward block (AccountAddress s) (supply i) t] 0
| step_reissue t i a to : T !! t = Some i -> ti_IsReIssuable i = true -> ti_Owner i = AccountAddress s ->
    0 < a -> supply i + a <= limit i ->
    token_step block s T (<[t := set_TotalSupply i (supply i + a)]> T) [reward block to a t] 0
| step_burn i a : T !! TokenId s = Some i -> Amount s = Some a -> 0 < a <= supply i ->
    (ti_OwnerBurnOnly i = true -> ti_Owner i = AccountAddress s) ->
    token_step block s T (<[TokenId s := set_TotalSupply i (supply i - a)]> T) [] a
| step_transfer t i o : T !! t = Some i -> ti_IsReIssuable i = true -> ti_Owner i = AccountAddress s ->
    token_step block s T (<[t := set_Owner i o]> T) [] 0
| step_fix t i : T !! t = Some i -> ti_IsReIssuable i = true -> ti_Owner i = AccountAddress s ->
    token_step block s T (<[t := set_fixed i]> T) [] 0
| step_query name q data : packTokenCallback Hash256 name s q (T !! pg_TokenId q) = Ok data ->
    token_step block s T T [requestTo block s (Some 0) data] 0.

(** A receive block of the contract.  No more of a token is burned than was issued. *)
Record asset_calling (db : vmDb) (T : registry) (s : AccountBlock) : Prop := {
  ac_db : db_ready db;
  ac_address : db_address db = AddressAsset;
  ac_tokens : tokens (view_of db) T;
  ac_sender : length (AccountAddress s) = 21%nat;
  ac_token : length (TokenId s) = 10%nat;
  ac_hash : length (ab_Hash s) = 32%nat;
  ac_balance t : exists b, db_GetBalance db t = Ok b;
  ac_snapshot : exists sb, db_LatestSnapshotBlock db = Ok sb;
  ac_supply i : T !! TokenId s = Some i -> default 0 (Amount s) <= supply i;
}.

Definition asset_called (db : vmDb) (T : registry) (block s : AccountBlock) (r : vmDb * list AccountBlock) : Prop :=
  exists T' b, token_step block s T T' r.2 b /\ tokens (view_of r.1) T' /\ db_ready r.1 /\ same_handle db r.1 /\
    moves db r.1 (coins (TokenId s) (- b)).

Lemma tokenByID_spec db T t : db_ready db -> db_address db = AddressAsset -> tokens (view_of db) T -> length t = 10%nat ->
  tokenByID Hash256 db t = Ok (T !! t).
Proof.
  intros Hdb Ha HT Ht; unfold tokenByID, GetTokenByID, GetTokenInfoKey; rewrite Ha, bool_decide_eq_true_2 by done; cbn [negb].
  rewrite (dr_reads _ Hdb t); destruct (T !! t) as [i|] eqn:E.
  - destruct (tk_token _ _ HT _ _ E) as (_ & _ & Hv & Hp); rewrite Hp.
    destruct (Z.ltb_spec 0 (len (view_of db t))); [reflexivity|]; destruct (view_of db t); [done|unfold len in *; simpl in *; lia].
  - rewrite (tk_none _ _ HT t Ht E); reflexivity.
Qed.

Lemma addLog_spec db name e vs : db_ready db -> assoc (FirstToLower name) (Events ABI) = Some e ->
  Forall2 has_type (ArgType <$> ev_Inputs e) vs ->
  exists db', addLog Hash256 db name vs = Ok db' /\ db_ready db' /\ storage_only db db' /\ forall k, view_of db' k = view_of db k.
Proof.
  intros Hdb He Hv; destruct (NewLog_ok Hash256 ABI _ e vs He Hv) as (log & E).
  with_strategy transparent [addLog] unfold addLog; rewrite E, bind_Ok; eexists; split; [reflexivity|]; by apply AddLog_ready.
Qed.

(** Overwriting a token that keeps its owner, symbol and index. *)
Lemma overwrite db T t old new name e vs : db_ready db -> tokens (view_of db) T -> T !! t = Some old -> token_wf new ->
  ti_Owner new = ti_Owner old -> ti_TokenSymbol new = ti_TokenSymbol old -> ti_Index new = ti_Index old ->
  assoc (FirstToLower name) (Events ABI) = Some e -> Forall2 has_type (ArgType <$> ev_Inputs e) vs ->
  exists v db1 db2, packTokenInfo Hash256 new = Ok v /\ SetValue db t v = Ok db1 /\ addLog Hash256 db1 name vs = Ok db2 /\
    db_ready db2 /\ storage_only db db2 /\ tokens (view_of db2) (<[t := new]> T).
Proof.
  intros Hdb HT Et Hw Ho Hy Hi He Hvs; destruct (tk_token _ _ HT _ _ Et) as (Hl & _ & _).
  destruct (packTokenInfo_stored new Hw) as (v & Hv & Hst).
  destruct (SetValue_ready db t v Hdb) as (db1 & Hset & Hdb1 & Hso1 & Hv1); [unfold len; lia|].
  destruct (addLog_spec db1 name e vs Hdb1 He Hvs) as (db2 & Hlog & Hdb2 & Hso2 & Hv2).
  exists v, db1, db2; split_and!; try assumption; [by etransitivity|].
  assert (Hne : forall k, k <> t -> view_of db2 k = view_of db k) by (intros k Hk; by rewrite Hv2, Hv1, decide_False).
  apply (tokens_put (view_of db)); [exact HT|exact Hl|exact Hw|by rewrite Hv2, Hv1, decide_True|auto|..].
  - intros o Hlo; destruct (tk_owner _ _ HT o Hlo) as (ids & Hids & Hown); exists ids; rewrite Hne by congruence.
    split; [exact Hids|by eapply owned_same].
  - intros k n Hk Hn Hr; exists n; rewrite Hne by congruence; split_and!; [exact Hn|lia|lia|].
    intros ->; rewrite Hy in Hn; rewrite Hi; by apply (tk_index _ _ HT _ _ _ Et).
  - intros t2 i2 E2 Hn2 Hs2 Hi2; apply Hn2, (tk_unique _ _ HT t2 t i2 old E2 Et); congruence.
Qed.

(** A token changes hands: its id moves from one list to another. *)
Lemma transferred view view' T t i o sender ids ido : tokens view T -> T !! t = Some i -> ti_Owner i = sender ->
  token_wf (set_Owner i o) -> length o = 21%nat -> length sender = 21%nat -> owned T sender ids -> owned T o ido ->
  (forall k, length k <> 10%nat \/ k <> t -> view' k =
     if decide (k = o) then concat ((if decide (o = sender) then filter (fun x => x <> t) ids else ido) ++ [t])
     else if decide (k = sender) then concat (filter (fun x => x <> t) ids) else view k) ->
  stored_token (set_Owner i o) (view' t) -> tokens view' (<[t := set_Owner i o]> T).
Proof.
  intros HT Et Eo Hw Ho Hs Hown Howno Hv Hst; destruct (tk_token _ _ HT _ _ Et) as (Hl & _ & _).
  apply (tokens_put view); [exact HT|exact Hl|exact Hw|exact Hst|..].
  - intros k Hk Hne; rewrite Hv, !decide_False by (by right || (intros ->; lia)); reflexivity.
  - intros o' Ho'; rewrite Hv by (left; lia); destruct (decide (o' = o)) as [->|Hno].
    + eexists; split; [reflexivity|]; destruct (decide (o = sender)) as [E|Hne].
      * apply (owned_append T t (set_Owner i o)); cbn [set_Owner ti_Owner]; by rewrite E.
      * rewrite <- (filter_absent t ido); [by apply (owned_append T t (set_Owner i o))|].
        intros Hin; apply Howno in Hin as (i' & E' & Eo'); congruence.
    + destruct (decide (o' = sender)) as [->|Hns].
      * eexists; split; [reflexivity|by apply owned_delete].
      * destruct (tk_owner _ _ HT o' Ho') as (l & Hlv & Hlo); exists l; split; [done|].
        apply owned_put; [done|cbn; congruence|congruence].
  - intros k n Hk Hn Hr; exists n; rewrite Hv, !decide_False by ((left; lia) || (intros ->; lia)); split_and!; [exact Hn|lia|lia|].
    intros ->; by apply (tk_index _ _ HT _ _ _ Et).
  - intros t2 i2 E2 Hn2 Hs2 Hi2; apply Hn2; by apply (tk_unique _ _ HT t2 t i2 i E2 Et).
Qed.

(** A token is added: its id at the end of the list of its owner, and the counter of its symbol one higher. *)
Lemma issued view view' T t i ids : tokens view T -> T !! t = None -> length t = 10%nat -> token_wf i -> view (ti_Owner i) = concat ids ->
  owned T (ti_Owner i) ids -> counter (ti_Index i) (view (GetNextTokenIndexKey Hash256 (ti_TokenSymbol i))) ->
  (forall k, length k = 10%nat -> k <> t -> view' k = view k) -> stored_token i (view' t) ->
  (forall o, length o = 21%nat -> view' o = if decide (o = ti_Owner i) then concat (ids ++ [t]) else view o) ->
  (forall k, length k = 32%nat -> k <> GetNextTokenIndexKey Hash256 (ti_TokenSymbol i) -> view' k = view k) ->
  counter (ti_Index i + 1) (view' (GetNextTokenIndexKey Hash256 (ti_TokenSymbol i))) -> tokens view' (<[t := i]> T).
Proof.
  intros HT Et Hl Hw Hids Hown Hn H10 Hst H21 H32 Hn'; apply (tokens_put view); [assumption..| | |].
  - intros o Ho; rewrite H21 by exact Ho; destruct (decide (o = ti_Owner i)) as [->|Hne].
    + eexists; split; [reflexivity|]; rewrite <- (filter_absent t ids) by (intros (? & E & _)%Hown; congruence); by apply owned_append.
    + destruct (tk_owner _ _ HT o Ho) as (l & Hlv & Hlo); exists l; split; [done|]; apply owned_put; congruence.
  - intros k n Hk Hkn Hr; destruct (decide (k = GetNextTokenIndexKey Hash256 (ti_TokenSymbol i))) as [->|Hne].
    + exists (ti_Index i + 1); rewrite (counter_fun _ _ _ Hkn Hn); destruct (tw_index _ Hw); split_and!; [exact Hn'|lia|lia|lia].
    + exists n; rewrite H32 by assumption; split_and!; [exact Hkn|lia|lia|congruence].
  - intros t2 i2 E2 _ Hs2; rewrite <- Hs2 in Hn; pose proof (tk_index _ _ HT _ _ _ E2 Hn); lia.
Qed.

Section Methods.
Context (db : vmDb) (T : registry) (block s : AccountBlock) (Hc : asset_calling db T s).

Lemma id_length (t : bytes) : len t = TokenTypeIdSize -> length t = 10%nat.
Proof. unfold len, TokenTypeIdSize; lia. Qed.

Lemma ownedToken_spec t :
  ok_or_err (fun i => T !! t = Some i /\ ti_IsReIssuable i = true /\ ti_Owner i = AccountAddress s) (ownedToken (T !! t) (AccountAddress s)).
Proof.
  unfold ownedToken; destruct (T !! t) as [i|]; [|exact I]; destruct (ti_IsReIssuable i) eqn:Er; [|exact I].
  case_bool_decide; [|exact I]; by split_and!.
Qed.

Lemma set_supply_wf i x : token_wf i -> 0 <= x < 2 ^ 256 -> (ti_IsReIssuable i = true -> x <= limit i) -> token_wf (set_TotalSupply i x).
Proof.
  intros [Hs Hl Hk Hn Hd Ho Hi] Hx Hm; split; try assumption; [by split|].
  cbn [ti_IsReIssuable set_TotalSupply]; destruct (ti_IsReIssuable i); [by apply Hm|exact Hk].
Qed.

(** What succeeded, from the writes of the method. *)
Lemma asset_called_intro T' l b db' : token_step block s T T' l b -> tokens (view_of db') T' -> db_ready db' -> same_handle db db' ->
  moves db db' (coins (TokenId s) (- b)) -> asset_called db T block s (db', l).
Proof. intros; exists T', b; by split_and!. Qed.

Lemma no_moves d d' t : storage_only d d' -> moves d d' (coins t (- 0)) /\ same_handle d d'.
Proof.
  intros [Hm Hh]%storage_only_moves; split; [|done]; eapply moves_ext; [exact Hm|]; intros t'; symmetry; apply coins_zero.
Qed.

Lemma ReIssue_spec name : name ∈ asset_names MReIssue -> accepted (ReIssue_send Hash256 name) s ->
  ok_or_err (asset_called db T block s) (ReIssue_receive Hash256 name db block s).
Proof.
  intros Hn Hacc; destruct (ReIssue_accepted name s Hn Hacc) as (t & a & to & Ht%id_length & Ha & Hto & Hd & _); pose proof Hc as [Hdb Had HT _ _ _ _ _ _].
  unfold ReIssue_receive, GetTokenInfoKey; rewrite Hd; cbn [ignore_err]; rewrite bind_Ok; cbn [toReIssue vBig pr_TokenId pr_Amount pr_ReceiveAddress].
  rewrite (tokenByID_spec db T t Hdb Had HT Ht), bind_Ok; eapply ok_or_err_bind; [apply ownedToken_spec|]; intros i (Ei & Er & Eo).
  destruct (tk_token _ _ HT _ _ Ei) as (_ & Hw & _); pose proof Hw as [[Es Hs] [El Hl] _ _ _ _ _]; rewrite Es, El, !big_Some.
  destruct (Z.ltb_spec (limit i - supply i) a); [exact I|].
  destruct (overwrite db T t i (set_TotalSupply i (supply i + a)) name
    (mkEvent (FirstToLower name) [mkArgument "tokenId" (ElemTy TokenIdTy) "tokenId" true]) [VArray t])
    as (v & db1 & db2 & -> & Hset & Hlog & Hdb2 & Hso & HT2); try assumption; try reflexivity.
  - apply set_supply_wf; [exact Hw|lia|lia].
  - cbn [asset_names] in Hn; rewrite ?elem_of_cons, elem_of_nil in Hn; destruct Hn as [->|[->|[]]]; vm_compute; reflexivity.
  - has_types; unfold len, TokenTypeIdSize; lia.
  - rewrite bind_Ok, Hset, bind_Ok, Hlog, bind_Ok; destruct (no_moves _ _ (TokenId s) Hso) as [Hm Hh].
    eapply asset_called_intro; [apply step_reissue with (t := t) (i := i) (a := a) (to := to)|..]; try assumption; lia.
Qed.

Lemma Disable_spec name : name ∈ asset_names MDisable -> accepted (DisableReIssue_send Hash256 name) s ->
  ok_or_err (asset_called db T block s) (DisableReIssue_receive Hash256 name db s).
Proof.
  intros Hn Hacc; destruct (Disable_accepted name s Hn Hacc) as (t & Ht%id_length & Hd & _); pose proof Hc as [Hdb Had HT _ _ _ _ _ _].
  unfold DisableReIssue_receive, GetTokenInfoKey; rewrite Hd; cbn [ignore_err]; rewrite bind_Ok; cbn [toTokenId].
  rewrite (tokenByID_spec db T t Hdb Had HT Ht), bind_Ok; eapply ok_or_err_bind; [apply ownedToken_spec|]; intros i (Ei & Er & Eo).
  destruct (tk_token _ _ HT _ _ Ei) as (_ & Hw & _).
  destruct (overwrite db T t i (set_fixed i) name
    (mkEvent (FirstToLower name) [mkArgument "tokenId" (ElemTy TokenIdTy) "tokenId" true]) [VArray t])
    as (v & db1 & db2 & -> & Hset & Hlog & Hdb2 & Hso & HT2); try assumption; try reflexivity.
  - destruct Hw as [Hs Hl Hk Hnm Hdc Hown Hidx]; split; try assumption; [split; [reflexivity|vm_compute; split; [discriminate|reflexivity]]|split; reflexivity].
  - cbn [asset_names] in Hn; rewrite ?elem_of_cons, elem_of_nil in Hn; destruct Hn as [->|[->|[]]]; vm_compute; reflexivity.
  - has_types; unfold len, TokenTypeIdSize; lia.
  - rewrite bind_Ok, Hset, bind_Ok, Hlog, bind_Ok; destruct (no_moves _ _ (TokenId s) Hso) as [Hm Hh].
    eapply asset_called_intro; [apply step_fix with (t := t) (i := i)|..]; assumption.
Qed.

Lemma Burn_spec : accepted (Burn_send Hash256 MethodNameBurn) s ->
  ok_or_err (asset_called db T block s) (Burn_receive Hash256 box MethodNameBurn db s).
Proof.
  intros (b0 & Hs & Ea & Et); unfold Burn_send in Hs; apply big_ok in Hs as (a & Ha & Hs); destruct (Z.leb_spec a 0); [done|].
  rewrite Ea in Ha; pose proof Hc as [Hdb Had HT Hsend Htok _ Hbal (sb & Hsb) Hsup]; rewrite Ha in Hsup; simpl in Hsup.
  unfold Burn_receive, GetTokenInfoKey; rewrite (tokenByID_spec db T _ Hdb Had HT Htok), bind_Ok.
  destruct (T !! TokenId s) as [i|] eqn:Ei; [|exact I]; specialize (Hsup i eq_refl); unfold CheckFork; rewrite Hsb; cbn [DealWithErr]; rewrite !bind_Ok.
  destruct (_ || _) eqn:Eb; [exact I|]; destruct (tk_token _ _ HT _ _ Ei) as (_ & Hw & _); pose proof Hw as [[Es Hs0] _ Hk _ _ _ _].
  rewrite Es, Ha, !big_Some; destruct (Hbal (TokenId s)) as (b & Hb); unfold SubBalance; rewrite Hb; cbn [DealWithErr]; rewrite bind_Ok.
  set (db0 := db_SetBalance db (TokenId s) (b - a)); pose proof (rest_SetBalance db (TokenId s) (b - a)) as Hr; fold db0 in Hr.
  destruct (overwrite db0 T (TokenId s) i (set_TotalSupply i (supply i - a)) MethodNameBurn
    (mkEvent "burn" [mkArgument "tokenId" (ElemTy TokenIdTy) "tokenId" true; mkArgument "address" (ElemTy AddressTy) "address" false;
      mkArgument "amount" (ElemTy (UintTy 256)) "uint256" false]) [VArray (TokenId s); VArray (AccountAddress s); vBig a])
    as (v & db1 & db2 & -> & Hset & Hlog & Hdb2 & Hso & HT2); try assumption; try reflexivity.
  - by eapply rest_ready.
  - apply set_supply_wf; [exact Hw|lia|]; intros Er; rewrite Er in Hk; lia.
  - clear Hs; has_types; unfold len, TokenTypeIdSize, AddressSize; lia.
  - rewrite bind_Ok; destruct (Z.leb_spec a b); rewrite bind_Ok; cbn [negb]; [|exact I].
    fold db0; rewrite Hset, bind_Ok, Hlog, bind_Ok; destruct (storage_only_moves _ _ Hso) as [Hm Hh].
    eapply asset_called_intro; [apply step_burn with (i := i)|exact HT2|exact Hdb2|etransitivity; [apply Hr|exact Hh]|]; [assumption|assumption|lia| |].
    + intros Eo; rewrite Eo in Eb; apply orb_false_iff in Eb as [_ Eb]; simpl in Eb; apply negb_false_iff, bool_decide_eq_true in Eb; done.
    + eapply moves_trans; [apply (moves_SetBalance db (TokenId s) b (- a) Hb)|rewrite Z.add_opp_r; exact Hm|]; intros t; unfold nothing; lia.
Qed.

Lemma Transfer_spec name : name ∈ asset_names MTransfer -> accepted (TransferOwnership_send Hash256 name) s ->
  ok_or_err (asset_called db T block s) (TransferOwnership_receive Hash256 name db s).
Proof.
  intros Hn Hacc; destruct (Transfer_accepted name s Hn Hacc) as (t & o & Ht%id_length & Ho & Hd & _); pose proof Hc as [Hdb Had HT Hsend _ _ _ _ _].
  assert (Ho21 : length o = 21%nat) by (unfold len, AddressSize in Ho; lia).
  unfold TransferOwnership_receive, GetTokenInfoKey, GetTokenIDListKey; rewrite Hd; cbn [ignore_err]; rewrite bind_Ok; cbn [toTransferOwnership pt_TokenId pt_NewOwner].
  rewrite (tokenByID_spec db T t Hdb Had HT Ht), bind_Ok; eapply ok_or_err_bind; [apply ownedToken_spec|]; intros i (Ei & Er & Eo).
  destruct (tk_token _ _ HT _ _ Ei) as (_ & Hw & _); assert (Hw' : token_wf (set_Owner i o)) by (destruct Hw; split; assumption).
  destruct (packTokenInfo_stored _ Hw') as (v & -> & Hst); rewrite bind_Ok.
  destruct (owner_ids _ T (AccountAddress s) HT Hsend) as (ids & Hids & Hown & Hok); destruct (tk_owner _ _ HT o Ho21) as (ido & Hido & Howno).
  destruct (SetValue_ready db t v Hdb) as (db1 & -> & Hdb1 & Hso1 & Hv1); [unfold len; lia|]; rewrite bind_Ok.
  rewrite GetValue_ready, bind_Ok, Hv1, decide_False, Hids, DeleteTokenID_concat by (assumption || apply Hown || (intros E; rewrite E in Hsend; lia)).
  destruct (SetValue_ready db1 (AccountAddress s) (concat (filter (fun x => x <> t) ids)) Hdb1) as (db2 & -> & Hdb2 & Hso2 & Hv2); [unfold len; lia|].
  rewrite bind_Ok, GetValue_ready, bind_Ok, Hv2 by assumption.
  set (new := if decide (o = AccountAddress s) then filter (fun x => x <> t) ids else ido).
  replace (if decide (o = AccountAddress s) then _ else _) with (concat new).
  2: { unfold new; destruct (decide (o = AccountAddress s)); [reflexivity|]; rewrite Hv1, decide_False by (intros ->; lia); by rewrite Hido. }
  rewrite AppendTokenID_concat; destruct (SetValue_ready db2 o (concat (new ++ [t])) Hdb2) as (db3 & -> & Hdb3 & Hso3 & Hv3); [unfold len; lia|]; rewrite bind_Ok.
  destruct (addLog_spec db3 name (mkEvent (FirstToLower name) [mkArgument "tokenId" (ElemTy TokenIdTy) "tokenId" true;
    mkArgument "owner" (ElemTy AddressTy) "address" false]) [VArray t; VArray o] Hdb3) as (db4 & -> & Hdb4 & Hso4 & Hv4).
  { cbn [asset_names] in Hn; rewrite ?elem_of_cons, elem_of_nil in Hn; destruct Hn as [->|[->|[]]]; vm_compute; reflexivity. }
  { has_types; unfold len, TokenTypeIdSize, AddressSize; lia. }
  rewrite bind_Ok; destruct (no_moves db db4 (TokenId s)) as [Hm Hh]; [do 3 (etransitivity; [eassumption|]); assumption|].
  eapply asset_called_intro; [apply step_transfer with (t := t) (i := i) (o := o)|..]; try assumption.
  apply (transferred (view_of db) (view_of db4) T t i o (AccountAddress s) ids ido); try assumption.
  - intros k Hk; assert (k <> t) by (destruct Hk; congruence); rewrite Hv4, Hv3, Hv2, Hv1, (decide_False (P := k = t)) by assumption; reflexivity.
  - rewrite Hv4, Hv3, !decide_False, Hv2, decide_False, Hv1, decide_True by (reflexivity || (intros ->; lia)); exact Hst.
Qed.

Lemma length_newTokenID a h p : length (newTokenID Hash10 a h p) = 10%nat.
Proof. unfold newTokenID, BytesToTokenTypeId; destruct (Z.eqb_spec (len (Hash10 (a ++ LeftPadBytes (Bytes h) 8 ++ p))) TokenTypeIdSize) as [E|_]; [by apply id_length|reflexivity]. Qed.

Lemma Issue_spec name d : name ∈ asset_names MIssue -> accepted (Issue_send Hash256 box name d) s ->
  ok_or_err (asset_called db T block s) (Issue_receive Hash256 Hash10 name db block s).
Proof.
  intros Hn Hacc; destruct (Issue_accepted name d s Hn Hacc) as (re & nm & sym & total & dec & max & obo & Hnew & Hd).
  pose proof Hc as [Hdb Had HT Hsend _ _ _ _ _]; unfold Issue_receive, GetTokenInfoKey, GetTokenIDListKey; rewrite Hd; cbn [ignore_err].
  rewrite bind_Ok; cbn [toIssue vBig vUint8 pi_TotalSupply pi_MaxSupply pi_TokenName pi_TokenSymbol pi_Decimals pi_IsReIssuable pi_IsOwnerBurnOnly].
  set (t := newTokenID Hash10 _ _ _); assert (Ht : length t = 10%nat) by apply length_newTokenID; clearbody t; clear Hd.
  rewrite !GetValue_ready, bind_Ok by exact Hdb; destruct (Z.ltb_spec 0 (len (view_of db t))) as [|Hz]; [exact I|].
  assert (Et : T !! t = None).
  { destruct (T !! t) as [i|] eqn:E; [|reflexivity]; destruct (tk_token _ _ HT _ _ E) as (_ & _ & Hv & _).
    destruct (view_of db t); [done|unfold len in Hz; simpl in Hz; lia]. }
  set (key := GetNextTokenIndexKey Hash256 sym); assert (Hkey : length key = 32%nat) by apply length_DataHash.
  destruct (tk_counter _ _ HT key Hkey) as (n & Hcn & Hr); unfold counter in Hcn; rewrite !bind_Ok, Hcn, bind_Ok.
  destruct (Z.eqb_spec n tokenNameIndexMax); [exact I|]; rewrite bind_Ok; unfold tokenNameIndexMax in *.
  destruct (tk_owner _ _ HT _ Hsend) as (ids & Hids & Hown); rewrite Hids, AppendTokenID_concat.
  set (i := mkTokenInfo nm sym (Some total) dec (AccountAddress s) (Some max) obo re n).
  assert (Hw : token_wf i) by (apply new_token_wf; [exact Hnew|unfold len, AddressSize; lia|unfold tokenNameIndexMax; lia]).
  destruct (packTokenInfo_stored i Hw) as (v & -> & Hst); rewrite bind_Ok.
  destruct (SetValue_ready db t v Hdb) as (db1 & -> & Hdb1 & Hso1 & Hv1); [unfold len; lia|]; rewrite bind_Ok.
  destruct (SetValue_ready db1 (AccountAddress s) (concat (ids ++ [t])) Hdb1) as (db2 & -> & Hdb2 & Hso2 & Hv2); [unfold len; lia|]; rewrite bind_Ok.
  rewrite (Z.mod_small (n + 1)) by lia; destruct (pack_counter (n + 1)) as (v' & -> & Hcn'); [lia|]; cbn [ignore_err]; rewrite bind_Ok.
  destruct (SetValue_ready db2 key v' Hdb2) as (db3 & -> & Hdb3 & Hso3 & Hv3); [unfold len; lia|]; rewrite bind_Ok.
  destruct (addLog_spec db3 name (mkEvent (FirstToLower name) [mkArgument "tokenId" (ElemTy TokenIdTy) "tokenId" true])
    [VArray t] Hdb3) as (db4 & -> & Hdb4 & Hso4 & Hv4).
  { cbn [asset_names] in Hn; rewrite ?elem_of_cons, elem_of_nil in Hn; destruct Hn as [->|[->|[]]]; vm_compute; reflexivity. }
  { has_types; unfold len, TokenTypeIdSize; lia. }
  rewrite bind_Ok; destruct (no_moves db db4 (TokenId s)) as [Hm Hh]; [do 3 (etransitivity; [eassumption|]); assumption|].
  eapply asset_called_intro; [apply step_issue with (t := t) (i := i)|..]; try assumption; try reflexivity.
  - intros t' i' E' Hs'; apply (tk_index _ _ HT t' i' n E'); rewrite Hs'; exact Hcn.
  - assert (Hne : forall k k' : bytes, length k <> length k' -> k <> k') by congruence.
    apply (issued (view_of db) (view_of db4) T t i ids); try assumption; intros *; rewrite Hv4, Hv3, ?Hv2, ?Hv1.
    + intros Hk Hkt; rewrite !decide_False by (assumption || (apply Hne; lia)); reflexivity.
    + rewrite !decide_False, decide_True by (reflexivity || (apply Hne; lia)); exact Hst.
    + intros Ho; rewrite (decide_False (P := o = key)), (decide_False (P := o = t)) by (apply Hne; lia); reflexivity.
    + intros Hk Hkk; rewrite !decide_False by (assumption || (apply Hne; lia)); reflexivity.
    + rewrite decide_True by reflexivity; exact Hcn'.
Qed.

Lemma GetInfo_spec name : name ∈ asset_names MGetInfo ++ asset_names MGetInfoV3 -> accepted (GetTokenInfo_send Hash256 name) s ->
  ok_or_err (asset_called db T block s) (GetTokenInfo_receive Hash256 name db block s).
Proof.
  intros Hn Hacc; destruct (GetInfo_accepted name s Hn Hacc) as (vs & t & bid & Ht & Hb & Hd & Hq & _).
  pose proof Hc as [Hdb Had HT _ _ Hh _ _ _]; unfold GetTokenInfo_receive; rewrite Hd; cbn [ignore_err]; rewrite bind_Ok, Hq.
  cbn [pg_TokenId]; rewrite (tokenByID_spec db T t Hdb Had HT (id_length t Ht)), bind_Ok.
  destruct (packTokenCallback_ok name s (mkParamGetTokenInfo t bid) (T !! t) Hn Hh Ht Hb) as (data & Hp).
  { intros i Ei; apply (tk_token _ _ HT _ _ Ei). }
  rewrite Hp, bind_Ok; destruct (no_moves db db (TokenId s)) as [Hm Hh']; [reflexivity|].
  eapply asset_called_intro; [apply (step_query _ _ _ name (mkParamGetTokenInfo t bid)); exact Hp|assumption..].
Qed.

End Methods.

(** ** Every method of every generation *)

Inductive is_asset_method : string -> BuiltinContractMethod -> Prop :=
| is_Issue name : name ∈ asset_names MIssue -> is_asset_method name (MethodIssue Hash256 Hash10 box name)
| is_ReIssue name : name ∈ asset_names MReIssue -> is_asset_method name (MethodReIssue Hash256 name)
| is_Burn : is_asset_method MethodNameBurn (MethodBurn Hash256 box MethodNameBurn)
| is_Burn2 : is_asset_method MethodNameBurnV2 MethodBurn2
| is_Transfer name : name ∈ asset_names MTransfer -> is_asset_method name (MethodTransferOwnership Hash256 name)
| is_Disable name : name ∈ asset_names MDisable -> is_asset_method name (MethodDisableReIssue Hash256 name)
| is_GetInfo name : name ∈ asset_names MGetInfo ++ asset_names MGetInfoV3 -> is_asset_method name (MethodGetTokenInfo Hash256 name).

Lemma earth_asset_methods name p : (name, p) ∈ earthAsset Hash256 Hash10 box -> is_asset_method name p.
Proof.
  unfold earthAsset, leafAsset, dexAsset, simpleAsset; rewrite !elem_of_app, !elem_of_cons, !elem_of_nil.
  intros H; repeat match type of H with _ \/ _ => destruct H as [H|H] | False => destruct H end; injection H as -> ->;
    [apply is_Issue|apply is_ReIssue|exact is_Burn|exact is_Burn2|apply is_Transfer|apply is_Disable|apply is_GetInfo
    |apply is_Issue|apply is_ReIssue|apply is_Disable|apply is_Transfer|apply is_GetInfo].
  all: cbn [asset_names app]; repeat (apply list_elem_of_here || apply list_elem_of_further).
Qed.

Lemma older_asset_methods g x : x ∈ assetMethods Hash256 Hash10 box g -> x ∈ earthAsset Hash256 Hash10 box.
Proof.
  unfold earthAsset, leafAsset; intros H; destruct g; cbn [assetMethods] in H; try exact H.
  all: apply elem_of_app; left; try exact H; apply elem_of_app; left; try exact H; apply elem_of_app; left; exact H.
Qed.

Lemma asset_method_cases g sel p : assetContract Hash256 Hash10 box g sel = Some p ->
  exists m, MethodById ABI sel = Ok m /\ is_asset_method (md_Name m) p.
Proof.
  unfold assetContract; destruct (MethodById ABI sel) as [m| |]; [|done..]; intros H%assoc_elem; exists m; split; [reflexivity|].
  by eapply earth_asset_methods, older_asset_methods.
Qed.

(** The outcome of a call. *)
Lemma asset_call_refines g sel p db T block s status :
  assetContract Hash256 Hash10 box g sel = Some p -> asset_calling db T s -> sent_through p s ->
  match DoReceive p db block s status with
  | (Ok l, db', block') => asset_called db T block s (db', l) /\ block' = block
  | (Err _, db', block') => db' = db /\ block' = block
  | (Panic _, _, _) => False
  end.
Proof.
  intros (m & _ & Hm)%asset_method_cases Hc Hs.
  assert (Hok : forall r, ok_or_err (asset_called db T block s) r -> match receive_with db block r with
    | (Ok l, db', block') => asset_called db T block s (db', l) /\ block' = block
    | (Err _, db', block') => db' = db /\ block' = block | (Panic _, _, _) => False end).
  { intros [[db' l]|e|q] Hr; [split; [exact Hr|reflexivity]|split; reflexivity|exact Hr]. }
  destruct Hm as [name Hn|name Hn| | |name Hn|name Hn|name Hn].
  - apply Hok; apply (send_data_accepted_in (Issue_send Hash256 box name)) in Hs as (d & Hs); by eapply Issue_spec.
  - apply Hok; apply send_data_accepted in Hs; by apply ReIssue_spec.
  - apply Hok; apply send_data_accepted in Hs; by apply Burn_spec.
  - destruct Hs as (d & b & d' & b' & Hs & _); cbn [MethodBurn2 DoSend] in Hs; destruct (Amount b); discriminate Hs.
  - apply Hok; apply send_data_accepted in Hs; by apply Transfer_spec.
  - apply Hok; apply send_data_accepted in Hs; by apply Disable_spec.
  - apply Hok; apply send_data_accepted in Hs; by apply GetInfo_spec.
Qed.

(** C9 The asset contract implements its registry.  A call that was accepted when
    it was sent either returns an error and changes nothing, or succeeds: then the
    storage holds a registry again, which differs by the issue of one token with a
    new index of its symbol, by an issue within the maximum, a burn, a change of
    owner or the end of re-issuing, each by whom and when it is allowed, and the
    only amounts sent are newly issued.  It never panics. *)
Theorem asset_refines g sel p db T block s status :
  assetContract Hash256 Hash10 box g sel = Some p -> asset_calling db T s -> sent_through p s ->
  match DoReceive p db block s status with
  | (Ok l, db', block') => asset_called db T block s (db', l) /\ block' = block
  | (Err _, db', block') => db' = db /\ block' = block
  | (Panic _, _, _) => False
  end.
Proof. apply asset_call_refines. Qed.

(** ** Queries *)

Definition tokenMapBody (key value : bytes) (acc : registry) : registry :=
  if negb (filterKeyValue key value isTokenInfoKey) then acc
  else match parseTokenInfo Hash256 value with
       | (Ok tt, Some t) => <[GetTokenIdFromTokenInfoKey key := t]> acc
       | _ => acc
       end.

Lemma scan_tokens (T : registry) kvs acc : acc ⊆ T ->
  (forall k v, (k, v) ∈ kvs -> length k = 10%nat -> exists i, T !! k = Some i /\ stored_token i v) ->
  let r := fold_left (fun acc kv => tokenMapBody kv.1 kv.2 acc) kvs acc in
  acc ⊆ r /\ r ⊆ T /\ forall k v, (k, v) ∈ kvs -> length k = 10%nat -> is_Some (r !! k).
Proof.
  revert acc; induction kvs as [|[k v] kvs IH]; intros acc Hacc Hk.
  { split_and!; [done..|]; by intros k v ?%not_elem_of_nil. }
  assert (Hk' : forall k v, (k, v) ∈ kvs -> length k = 10%nat -> exists i, T !! k = Some i /\ stored_token i v).
  { intros k' v' Hin; apply Hk; by right. }
  cbn [fold_left fst snd]; unfold tokenMapBody at 2 4 6, filterKeyValue, isTokenInfoKey; destruct (Z.eqb_spec (len k) TokenTypeIdSize) as [El|Hne].
  - destruct (Hk k v) as (i & Ei & Hv & Hp); [left|by apply id_length|]; rewrite Hp.
    destruct (Z.ltb_spec 0 (len v)) as [|Hz]; [|destruct v; [done|unfold len in Hz; simpl in Hz; lia]]; cbn [andb negb].
    unfold GetTokenIdFromTokenInfoKey; rewrite checked_TokenTypeId by exact El; cbn [fst].
    destruct (IH (<[k := i]> acc)) as (Ha & HrT & Hall); [by apply insert_subseteq_l|exact Hk'|]; set (r := fold_left _ _ _) in *.
    assert (Hrk : r !! k = Some i) by (eapply lookup_weaken; [apply lookup_insert_eq|exact Ha]).
    split_and!; [|exact HrT|].
    + apply map_subseteq_spec; intros t x Ht; destruct (decide (t = k)) as [->|]; [|eapply lookup_weaken; [|exact Ha]; by rewrite lookup_insert_ne].
      rewrite Hrk; eapply lookup_weaken in Ht; [|exact Hacc]; congruence.
    + intros k' v' [[= -> ->]|Hin]%elem_of_cons Hl; [by exists i|by eapply Hall].
  - rewrite andb_false_r; cbn [negb]; destruct (IH acc Hacc Hk') as (Ha & HrT & Hall); split_and!; try assumption.
    intros k' v' [[= -> ->]|Hin]%elem_of_cons Hl; [unfold len, TokenTypeIdSize in Hne; lia|by eapply Hall].
Qed.

Lemma GetTokenMap_spec db T : db_ready db -> db_address db = AddressAsset -> tokens (view_of db) T -> GetTokenMap Hash256 db = Ok T.
Proof.
  intros Hdb Had HT; unfold GetTokenMap; rewrite bool_decide_eq_true_2 by exact Had; cbn [negb].
  destruct (queryStorage_spec db [] tokenMapBody ∅ Hdb) as (kvs & Hq & _ & Hin); unfold tokenMapBody at 1 in Hq; rewrite Hq; f_equal.
  destruct (scan_tokens T kvs ∅ (map_empty_subseteq T)) as (_ & HrT & Hall).
  { intros k v (_ & _ & <- & Hv)%Hin Hl; destruct (T !! k) as [i|] eqn:E; [|by rewrite (tk_none _ _ HT k Hl E) in Hv].
    exists i; split; [done|apply (tk_token _ _ HT _ _ E)]. }
  apply (anti_symm (⊆)); [exact HrT|]; apply map_subseteq_spec; intros t i E; destruct (tk_token _ _ HT _ _ E) as (Hl & _ & Hv & _).
  destruct (Hall t (view_of db t)) as (x & Hx); [apply Hin; split_and!; [by intros ->|apply prefix_nil|done..]|exact Hl|].
  rewrite Hx; eapply lookup_weaken in Hx; [|exact HrT]; congruence.
Qed.

(** The tokens of an owner. *)
Definition tokens_owned (T : registry) (o : Address) : gmap TokenTypeId (option TokenInfo) :=
  Some <$> filter (fun ti => ti_Owner ti.2 = o) T.

Lemma tokensOf_spec db T o ids : db_ready db -> db_address db = AddressAsset -> tokens (view_of db) T -> owned T o ids -> ids_ok ids ->
  forall n i acc, (n + i = length ids)%nat -> acc ⊆ tokens_owned T o ->
  exists r, tokensOf Hash256 db (concat ids) n i acc = Ok r /\ acc ⊆ r /\ r ⊆ tokens_owned T o /\ forall t, t ∈ drop i ids -> is_Some (r !! t).
Proof.
  intros Hdb Had HT Hown Hok; induction n as [|n IH]; intros i acc Hn Hacc; cbn [tokensOf].
  { exists acc; rewrite drop_ge by lia; split_and!; [done..|]; by intros t ?%not_elem_of_nil. }
  destruct (lookup_lt_is_Some_2 ids i ltac:(lia)) as [t Et]; rewrite (tokenIDAt_concat ids i t Hok Et).
  pose proof (Forall_lookup_1 _ _ _ _ Hok Et) as Hl; simpl in Hl; rewrite checked_TokenTypeId by (unfold len, TokenTypeIdSize; lia); cbn [fst].
  assert (Hg : GetTokenByID Hash256 db t = Ok (T !! t)).
  { pose proof (tokenByID_spec db T t Hdb Had HT Hl) as H; unfold tokenByID in H; destruct (GetTokenByID Hash256 db t); congruence. }
  rewrite Hg, bind_Ok; destruct (proj1 (proj2 Hown t)) as (x & Ex & Eo); [by eapply list_elem_of_lookup_2|].
  assert (Hx : tokens_owned T o !! t = Some (T !! t)).
  { unfold tokens_owned; rewrite lookup_fmap, Ex; apply fmap_Some; exists x; split; [by apply map_lookup_filter_Some|done]. }
  destruct (IH (i + 1)%nat (<[t := T !! t]> acc)) as (r & Hr & Ha & HrT & Hall); [lia|by apply insert_subseteq_l|].
  assert (Hrt : r !! t = Some (T !! t)) by (eapply lookup_weaken; [apply lookup_insert_eq|exact Ha]).
  exists r; split_and!; [exact Hr| |exact HrT|].
  - apply map_subseteq_spec; intros t' y Hy; destruct (decide (t' = t)) as [->|]; [|eapply lookup_weaken; [|exact Ha]; by rewrite lookup_insert_ne].
    eapply lookup_weaken in Hy; [|exact Hacc]; congruence.
  - intros t'; rewrite (drop_S _ _ _ Et), elem_of_cons, <- Nat.add_1_r; intros [->|Hin]; [by eexists|by apply Hall].
Qed.

Lemma GetTokenMapByOwner_spec db T o : db_ready db -> db_address db = AddressAsset -> tokens (view_of db) T -> length o = 21%nat ->
  GetTokenMapByOwner Hash256 db o = Ok (tokens_owned T o).
Proof.
  intros Hdb Had HT Ho; unfold GetTokenMapByOwner, GetTokenIDListKey; rewrite bool_decide_eq_true_2 by exact Had; cbn [negb].
  rewrite (dr_reads _ Hdb); destruct (owner_ids _ T o HT Ho) as (ids & -> & Hown & Hok).
  rewrite length_concat_ids, Nat.mul_comm, Nat.div_mul by (assumption || lia).
  destruct (tokensOf_spec db T o ids Hdb Had HT Hown Hok (length ids) 0 ∅) as (r & -> & _ & HrT & Hall); [lia|apply map_empty_subseteq|].
  f_equal; apply (anti_symm (⊆)); [exact HrT|]; apply map_subseteq_spec; intros t y Hy; pose proof Hy as Hy'.
  unfold tokens_owned in Hy'; rewrite lookup_fmap in Hy'; apply fmap_Some in Hy' as (x & [Ex Eo]%map_lookup_filter_Some & ->).
  destruct (Hall t) as (z & Hz); [apply Hown; by exists x|]; rewrite Hz; eapply lookup_weaken in Hz; [|exact HrT]; congruence.
Qed.

(** The queries of the asset contract are exact: the map of all tokens that the
    iteration over the storage collects is the registry, and the map that the list
    of an owner's ids gives holds exactly the tokens that the account owns. *)
Theorem token_queries_exact db T o : db_ready db -> db_address db = AddressAsset -> tokens (view_of db) T -> length o = 21%nat ->
  GetTokenMap Hash256 db = Ok T /\ GetTokenMapByOwner Hash256 db o = Ok (Some <$> filter (fun ti => ti_Owner ti.2 = o) T).
Proof. intros Hdb Had HT Ho; split; [by apply GetTokenMap_spec|by apply GetTokenMapByOwner_spec]. Qed.

End Asset.
