(* ===== verification/GovernanceRefinement.v ===== *)
(** The governance contract refines its register: what each method does to the
    registrations and the votes, and what it sends. *)
From Stdlib Require Import ZifyBool Ascii String.
From stdpp Require Import strings.
From S2P Require Import Prelude Helper Types Upgrade VmDb Iterator IteratorSpec Builtin TimeIndex SbpStats AccountBlock Abi AbiSpec ContractUtil ContractSpec.
From S2P Require Import AssetContract AssetSpec GovernanceContract WithdrawNames GovernanceSpec GovernanceCallSpec.
#[local] Open Scope Z_scope.
#[local] Opaque ABIGovernance ABIAsset UnpackMethod PackMethod UnpackVariable PackVariable.

(** The request to issue an amount is packed whatever the amount. *)
Lemma reissue_packed Hash256 name t z to : name ∈ asset_names MReIssue ->
  exists data, PackMethod (ABIAsset Hash256) name [VArray t; vBig z; VArray to] = Ok data.
Proof.
  intros Hn; with_strategy transparent [PackMethod] unfold PackMethod; rewrite (asset_methods_defined Hash256 MReIssue name Hn).
  rewrite bool_decide_eq_false_2 by (by apply (asset_names_nonempty MReIssue)).
  unfold packMethod; cbn [newMethod md_Inputs]; by eexists.
Qed.

Section Governance.
Context (Hash256 : bytes -> bytes) (box : upgradeBox) (reader : ConsensusReader).
Context (Hsel : abi_selectors (ABIGovernance Hash256)).
Abbreviation ABI := (ABIGovernance Hash256).
Abbreviation key := (GetRegistrationInfoKey Hash256).
Abbreviation register := (gmap bytes Registration).
Abbreviation ballot := (gmap bytes bytes).

(** ** The specification *)

(** What a call can ask for. *)
Inductive gov_request :=
| QRegister (gid : Gid) (n : bytes) (bp wd : Address)
| QRevoke (gid : Gid) (n : bytes)
| QReward (n : bytes) (to : Address)
| QProducing (gid : Gid) (n : bytes) (bp : Address)
| QWithdraw (n : bytes) (wd : Address)
| QVote (gid : Gid) (n : bytes)
| QCancel (gid : Gid).

(** The methods of all generations and what their data ask for.  The methods of the third version are for the snapshot group. *)
Inductive requests (s : AccountBlock) : string -> gov_request -> Prop :=
| rq_register name gid n bp wd : name ∈ [MethodNameRegister; MethodNameRegisterV3] ->
    Register_param Hash256 name s = Ok (mkParamRegister gid n bp wd) -> requests s name (QRegister gid n bp wd)
| rq_revoke name vs gid n : name ∈ [MethodNameRevoke; MethodNameRevokeV2; MethodNameRevokeV3] -> UnpackMethod ABI name (Data s) = Ok vs ->
    (if bool_decide (name = MethodNameRevokeV3) then SNAPSHOT_GID else pn_Gid (toNamed vs)) = gid -> pn_SbpName (toNamed vs) = n ->
    requests s name (QRevoke gid n)
| rq_reward name vs n to : name ∈ [MethodNameWithdrawReward; MethodNameWithdrawRewardV2; MethodNameWithdrawRewardV3] ->
    UnpackMethod ABI name (Data s) = Ok vs -> pw_SbpName (toReward vs) = n -> pw_ReceiveAddress (toReward vs) = to ->
    requests s name (QReward n to)
| rq_producing name vs gid n bp :
    name ∈ [MethodNameUpdateBlockProducingAddress; MethodNameUpdateBlockProducintAddressV2; MethodNameUpdateBlockProducintAddressV3] ->
    UnpackMethod ABI name (Data s) = Ok vs -> (if bool_decide (name = MethodNameUpdateBlockProducintAddressV3) then SNAPSHOT_GID else pr_Gid (toRegister vs)) = gid ->
    pr_SbpName (toRegister vs) = n -> pr_BlockProducingAddress (toRegister vs) = bp ->
    requests s name (QProducing gid n bp)
| rq_withdraw n wd : UnpackMethod ABI MethodNameUpdateSBPRewardWithdrawAddress (Data s) = Ok [VString n; VArray wd] ->
    requests s MethodNameUpdateSBPRewardWithdrawAddress (QWithdraw n wd)
| rq_vote name vs gid n : name ∈ [MethodNameVote; MethodNameVoteV3] -> UnpackMethod ABI name (Data s) = Ok vs ->
    (if bool_decide (name = MethodNameVoteV3) then SNAPSHOT_GID else pn_Gid (toNamed vs)) = gid -> pn_SbpName (toNamed vs) = n ->
    requests s name (QVote gid n)
| rq_cancel name vs gid : name ∈ [MethodNameCancelVote; MethodNameCancelVoteV3] -> ignore_err [] (UnpackMethod ABI name (Data s)) = Ok vs ->
    (if bool_decide (name = MethodNameCancelVoteV3) then SNAPSHOT_GID else toGid vs) = gid -> requests s name (QCancel gid).

Section Step.
(** The latest snapshot block, and that of the block that receives the request. *)
Context (db : vmDb) (sb cur : SnapshotBlock) (block s : AccountBlock) (R : register) (V : ballot).
Abbreviation sender := (AccountAddress s).

(** The stake of a registration. *)
Definition stake_required : Z := if IsLeafUpgrade box (sb_Height sb) then SbpStakeAmountMainnet else SbpStakeAmountPreMainnet.

(** A name can be registered when it is new, or when its owner has revoked it and no reward is left. *)
Definition vacant (o : option Registration) : Prop :=
  forall r, o = Some r -> IsActive r = false /\ rg_StakeAddress r = sender /\ checkRewardDrained box reader db r (Some cur) = Ok true.

(** The request to issue a reward. *)
Definition reward_request (to : Address) (reward : option Reward) (l : list AccountBlock) : Prop :=
  l = [] /\ (forall r, reward = Some r -> rw_TotalReward r <= 0) \/
  exists r data, reward = Some r /\ 0 < rw_TotalReward r /\
    PackMethod (ABIAsset Hash256) (if IsLeafUpgrade box (sb_Height sb) then MethodNameReIssueV2 else MethodNameReIssue)
      [VArray ViteTokenId; vBig (rw_TotalReward r); VArray to] = Ok data /\
    l = [sendLiteral block AddressAsset BlockTypeSendCall (Some 0) ViteTokenId data].

(** The change that a request makes, and the blocks it sends.  A request for which there is none is refused.  The
    withdrawal of a reward leaves everything as it is when no cycle has ended since the last one. *)
Inductive sbp_step : gov_request -> register -> ballot -> list AccountBlock -> Prop :=
| step_register gid n bp wd group height :
    Amount s = Some stake_required -> TokenId s = ViteTokenId -> vacant (R !! key n gid) ->
    may_produce Hash256 (view_of db) bp gid n -> GetConsensusGroup Hash256 db gid = Ok (Some group) ->
    GetRegisterStakeParamOfConsensusGroup Hash256 (cg_RegisterConditionParam group) = Ok height ->
    sbp_step (QRegister gid n bp wd)
      (<[key n gid := saved (IsEarthUpgrade box (sb_Height sb)) (mkRegistration n bp wd sender (Amount s) (u64 (sb_Height cur + height))
         (if IsSnapshotGid gid then sb_Timestamp cur else 0) 0 (used (past (R !! key n gid)) bp))]> R) V []
| step_revoke gid n r a drained : R !! key n gid = Some r -> IsActive r = true -> rg_StakeAddress r = sender ->
    rg_ExpirationHeight r <= sb_Height cur -> rg_Amount r = Some a -> checkRewardDrained box reader db r (Some cur) = Ok drained ->
    sbp_step (QRevoke gid n)
      (<[key n gid := saved (IsEarthUpgrade box (sb_Height cur)) (revoked r (if drained : bool then -1 else rg_RewardTime r) (sb_Timestamp cur))]> R) V
      (if 0 <? a then [sendLiteral block sender BlockTypeSendCall (Some a) ViteTokenId []] else [])
| step_reward n to r start endTime reward (drained : bool) l : R !! key n SNAPSHOT_GID = Some r -> rg_RewardTime r <> -1 ->
    sender = rg_StakeAddress r \/ sender = rg_RewardWithdrawAddress r ->
    CalcReward box reader db r (Some cur) = Ok (start, endTime, reward, drained) ->
    let t := if drained then -1 else endTime in t <> rg_RewardTime r -> reward_request to reward l ->
    sbp_step (QReward n to) (<[key n SNAPSHOT_GID := saved (IsEarthUpgrade box (sb_Height sb)) (set_RewardTime r t)]> R) V l
| step_idle n to r start reward (drained : bool) endTime : R !! key n SNAPSHOT_GID = Some r -> rg_RewardTime r <> -1 ->
    sender = rg_StakeAddress r \/ sender = rg_RewardWithdrawAddress r ->
    CalcReward box reader db r (Some cur) = Ok (start, endTime, reward, drained) ->
    (if drained then -1 else endTime) = rg_RewardTime r -> sbp_step (QReward n to) R V []
| step_producing gid n bp r : R !! key n gid = Some r -> IsActive r = true -> rg_StakeAddress r = sender -> rg_BlockProducingAddress r <> bp ->
    may_produce Hash256 (view_of db) bp gid n ->
    sbp_step (QProducing gid n bp)
      (<[key n gid := saved (IsEarthUpgrade box (sb_Height sb)) (set_Producing r bp (used (rg_HisAddrList r) bp))]> R) V []
| step_withdraw n wd r : R !! key n SNAPSHOT_GID = Some r -> IsActive r = true -> rg_StakeAddress r = sender -> rg_RewardWithdrawAddress r <> wd ->
    sbp_step (QWithdraw n wd) (<[key n SNAPSHOT_GID := set_Withdraw r wd]> R) V []
| step_vote gid n group r : GetConsensusGroup Hash256 db gid = Ok (Some group) -> R !! key n gid = Some r -> IsActive r = true ->
    sbp_step (QVote gid n) R (<[GetVoteInfoKey sender gid := n]> V) []
| step_cancel gid : sbp_step (QCancel gid) R (delete (GetVoteInfoKey sender gid) V) [].

Definition refused (q : gov_request) : Prop := forall R' V' l, ~ sbp_step q R' V' l.
End Step.

(** A receive block of the contract. *)
Record gov_calling (h : Z) (db : vmDb) (sb cur : SnapshotBlock) (R : register) (V : ballot) (s : AccountBlock) (status : option GlobalStatus) : Prop := {
  gc_db : db_ready db;
  gc_address : db_address db = AddressGovernance;
  gc_governed : governed Hash256 h (view_of db) R V;
  gc_count : 0 <= h /\ h + 1 < 2 ^ 50;
  gc_sender : length (AccountAddress s) = 21%nat;
  gc_data : len (Data s) < 2 ^ 63;
  gc_amount : exists a, Amount s = Some a;
  gc_latest : db_LatestSnapshotBlock db = Ok sb;
  gc_status : exists gs, status = Some gs /\ gs_SnapshotBlock gs = Some cur;
  gc_time : is_i64 (sb_Timestamp cur);
  gc_reads : reads_work reader db;
}.

(** The name of a registration that is to be replaced is the one asked for, and not another one with the same hash. *)
Definition undisputed (R : register) (q : gov_request) : Prop :=
  match q with QRegister gid n _ _ => forall r, R !! key n gid = Some r -> rg_Name r = n | _ => True end.

(** The outcome of a successful call; from the upgrade Earth on it also keeps the lists of withdraw addresses. *)
Definition gov_called (h : Z) (db : vmDb) (sb cur : SnapshotBlock) (R : register) (V : ballot) (block s : AccountBlock) (q : gov_request)
    (r : vmDb * list AccountBlock) : Prop :=
  exists R' V', sbp_step db sb cur block s R V q R' V' r.2 /\ governed Hash256 (h + 1) (view_of r.1) R' V' /\ db_ready r.1 /\ storage_only db r.1 /\
    (IsEarthUpgrade box (sb_Height sb) = true -> IsEarthUpgrade box (sb_Height cur) = true -> undisputed R q ->
     listed (view_of db) R -> listed (view_of r.1) R').

Definition gov_outcome (h : Z) (db : vmDb) (sb cur : SnapshotBlock) (R : register) (V : ballot) (block s : AccountBlock) (q : gov_request) :
    result (vmDb * list AccountBlock) -> Prop :=
  ok_or (gov_called h db sb cur R V block s q) (refused db sb cur block s R V q).

(** A request is refused: no step has its conditions. *)
Ltac refuse := try unfold gov_outcome; cbn [ok_or]; intros R' V' l Hst; inversion Hst; subst;
  repeat match goal with E : ?x = Some ?a, E' : ?x = Some ?b |- _ => rewrite E in E'; injection E' as E'; subst end; try congruence; try lia; try tauto.

(** ** The methods *)

Section Methods.
Context (h : Z) (db : vmDb) (sb cur : SnapshotBlock) (R : register) (V : ballot) (block s : AccountBlock) (status : option GlobalStatus).
Context (Hc : gov_calling h db sb cur R V s status).

Lemma registration_later r : registration_wf h r -> registration_wf (h + 1) r.
Proof. intros []; split; try assumption; lia. Qed.

(** A registration that keeps its name and producing addresses is overwritten. *)
Lemma overwrite_registration n gid r new earth db1 : length gid = 10%nat -> R !! key n gid = Some r -> registration_wf (h + 1) new ->
  rg_Name new = rg_Name r -> rg_BlockProducingAddress new = rg_BlockProducingAddress r -> rg_HisAddrList new = rg_HisAddrList r ->
  (IsActive new = false -> rg_Amount new = Some 0) -> db_ready db1 -> storage_only db db1 ->
  (forall k, length k <> 21%nat -> view_of db1 k = view_of db k) ->
  exists info db2, registerInfo Hash256 earth new = Ok info /\ SetValue db1 (key n gid) info = Ok db2 /\ db_ready db2 /\ storage_only db db2 /\
    governed Hash256 (h + 1) (view_of db2) (<[key n gid := saved earth new]> R) V /\ (forall k, length k = 21%nat -> view_of db2 k = view_of db1 k).
Proof.
  intros Hg Er Hw En Eb Eh Hidle Hdb1 Hso Hv; pose proof (gc_governed _ _ _ _ _ _ _ _ Hc) as HG; pose proof (gv_current _ _ _ _ _ HG _ _ Er) as Hcur.
  assert (Hl : length (GetHisNameKey (rg_BlockProducingAddress r) gid) <> 21%nat).
  { pose proof (his_length _ _ _ _ _ _ _ _ HG Er Hcur); unfold GetHisNameKey; rewrite length_app; lia. }
  apply (store_registration _ db h); [done|apply Hc|done..| |done| | | |]; rewrite ?Eb, ?Eh, ?En, ?Er.
  - destruct (gv_reg _ _ _ _ _ HG _ _ Er) as (_ & _ & _ & Hk); by rewrite take_key in Hk.
  - unfold used; by rewrite decide_True.
  - intros k Hk _; by apply Hv.
  - rewrite Hv by done; pose proof (gv_his _ _ _ _ _ HG _ _ _ Er Hcur) as Hp; by rewrite take_key in Hp.
  - right; by apply Hv.
Qed.

Lemma gov_called_intro q R' V' l db' : sbp_step db sb cur block s R V q R' V' l -> governed Hash256 (h + 1) (view_of db') R' V' -> db_ready db' ->
  storage_only db db' ->
  (IsEarthUpgrade box (sb_Height sb) = true -> IsEarthUpgrade box (sb_Height cur) = true -> undisputed R q -> listed (view_of db) R -> listed (view_of db') R') ->
  gov_called h db sb cur R V block s q (db', l).
Proof. intros; exists R', V'; by split_and!. Qed.

(** The registration at a key has its name. *)
Lemma snapshot_key k r : R !! k = Some r -> take 10 k = SNAPSHOT_GID -> k = key (rg_Name r) SNAPSHOT_GID.
Proof. intros E Eg; destruct (gv_reg _ _ _ _ _ (gc_governed _ _ _ _ _ _ _ _ Hc) _ _ E) as (_ & _ & _ & Hk); by rewrite Eg in Hk. Qed.

Lemma registration_read n gid : length gid = 10%nat -> dealt (GetRegistration Hash256 db gid n) = Ok (R !! key n gid).
Proof. intros Hg; by rewrite (GetRegistration_spec _ db h R V gid n) by (done || apply Hc). Qed.

Lemma status_read : statusBlock status = Ok (Some cur).
Proof. destruct (gc_status _ _ _ _ _ _ _ _ Hc) as (gs & -> & E); unfold statusBlock; simpl; by rewrite E. Qed.

Lemma drained_read r : exists b, checkRewardDrained box reader db r (Some cur) = Ok b.
Proof. apply checkRewardDrained_ok, Hc. Qed.

Lemma fork_read f : CheckFork db f = Ok (f (sb_Height sb)).
Proof. unfold CheckFork; by rewrite (gc_latest _ _ _ _ _ _ _ _ Hc). Qed.

Lemma known_wf k r : R !! k = Some r -> registration_wf (h + 1) r /\ (IsActive r = false -> rg_Amount r = Some 0).
Proof.
  intros E; pose proof (gc_governed _ _ _ _ _ _ _ _ Hc) as HG; split; [apply registration_later, (gv_reg _ _ _ _ _ HG _ _ E)|by apply (gv_idle _ _ _ _ _ HG k)].
Qed.

(** The name of a request to revoke. *)
Definition revoke_names (name : string) (gid : Gid) (n : bytes) : Prop := exists vs, UnpackMethod ABI name (Data s) = Ok vs /\ length gid = 10%nat /\
  (if bool_decide (name = MethodNameRevokeV3) then SNAPSHOT_GID else pn_Gid (toNamed vs)) = gid /\ pn_SbpName (toNamed vs) = n.

(** The owner of an active registration is repaid after the lock-up. *)
Lemma Revoke_succeeds name gid n r : revoke_names name gid n -> R !! key n gid = Some r -> IsActive r = true -> rg_StakeAddress r = AccountAddress s ->
  rg_ExpirationHeight r <= sb_Height cur ->
  exists db' drained a, checkRewardDrained box reader db r (Some cur) = Ok drained /\ rg_Amount r = Some a /\
    Revoke_receive Hash256 box reader name db block s status =
      Ok (db', if 0 <? a then [sendLiteral block (AccountAddress s) BlockTypeSendCall (Some a) ViteTokenId []] else []) /\
    governed Hash256 (h + 1) (view_of db')
      (<[key n gid := saved (IsEarthUpgrade box (sb_Height cur)) (revoked r (if drained : bool then -1 else rg_RewardTime r) (sb_Timestamp cur))]> R) V /\
    db_ready db' /\ storage_only db db' /\ (forall k, length k = 21%nat -> view_of db' k = view_of db k).
Proof.
  intros (vs & Hu & Hg & Egid & En) Er Eact Eown Hexp.
  unfold Revoke_receive; rewrite Hu; cbn [ignore_err]; rewrite bind_Ok; cbv zeta; rewrite Egid, En, status_read, bind_Ok, registration_read, bind_Ok by done; clear Egid.
  rewrite Er, Eact, Eown, bool_decide_eq_true_2 by done; cbn [negb orb or_panic]; rewrite bind_Ok.
  destruct (Z.ltb_spec (sb_Height cur) (rg_ExpirationHeight r)) as [|_]; [lia|].
  destruct (drained_read r) as (b & Hb); rewrite Hb; cbn [dealt]; rewrite bind_Ok; destruct (known_wf _ _ Er) as [[(a & Ea & Ha) W2 W3 W4 W5 W6 [W7 W7'] W8 W9] _].
  set (new := revoked r _ _); destruct (overwrite_registration n gid r new (IsEarthUpgrade box (sb_Height cur)) db) as (info & db2 & Hi & Hs & Hdb2 & Hso & HG2 & Hv2); try done.
  { split; try assumption; [exists 0; by split|done|split; [|apply Hc]; cbn [new revoked rg_RewardTime]; destruct b; [unfold is_i64; lia|done]]. }
  { apply Hc. }
  rewrite Hi, bind_Ok, Hs, bind_Ok, Ea, big_Some; exists db2, b, a; by split_and!.
Qed.

Lemma Revoke_spec name : name ∈ [MethodNameRevoke; MethodNameRevokeV2; MethodNameRevokeV3] -> accepted (Revoke_send Hash256 name) s ->
  exists q, requests s name q /\ gov_outcome h db sb cur R V block s q (Revoke_receive Hash256 box reader name db block s status).
Proof.
  intros Hn (_ & _ & vs & gid & n & Hu & [Hg _ _] & Egid & En)%(Revoke_accepted _ Hsel); [|exact Hn].
  assert (Hnames : revoke_names name gid n) by (exists vs; split_and!; assumption); exists (QRevoke gid n); split; [by eapply rq_revoke|].
  assert (Hcase : (exists r, R !! key n gid = Some r /\ IsActive r = true /\ rg_StakeAddress r = AccountAddress s /\ rg_ExpirationHeight r <= sb_Height cur) \/
    Revoke_receive Hash256 box reader name db block s status = Err ErrInvalidMethodParam /\ refused db sb cur block s R V (QRevoke gid n)).
  { unfold Revoke_receive; rewrite Hu; cbn [ignore_err]; rewrite bind_Ok; cbv zeta; rewrite Egid, En, status_read, bind_Ok, registration_read, bind_Ok by exact Hg; clear Egid.
    destruct (R !! key n gid) as [r|] eqn:Er; [|right; split; [reflexivity|refuse]]; destruct (IsActive r) eqn:Eact; [|right; split; [reflexivity|refuse]]; cbn [negb orb or_panic].
    case_bool_decide; [|right; split; [reflexivity|refuse]]; cbn [negb]; rewrite bind_Ok.
    destruct (Z.ltb_spec (sb_Height cur) (rg_ExpirationHeight r)); [right; split; [reflexivity|refuse]|left; exists r; split_and!; [reflexivity|assumption..]]. }
  destruct Hcase as [(r & Er & Eact & Eown & Hexp)|[-> Href]]; [|exact Href].
  destruct (Revoke_succeeds name gid n r Hnames Er Eact Eown Hexp) as (db' & drained & a & Hd & Ea & -> & HG & Hdb & Hso & Hv).
  eapply gov_called_intro; [by eapply step_revoke|assumption..|]; intros _ -> _ HL; apply (listed_view (view_of db)); [|exact Hv].
  by apply (listed_kept _ _ _ r).
Qed.

(** The lists follow a registration of the snapshot group that is replaced by one of the same name and owner. *)
Lemma lists_follow db1 db2 view' new n wd owner : db_ready db1 -> (forall k, length k = 21%nat -> view_of db1 k = view_of db k) ->
  saveWithdrawRewardAddress db1 (rg_RewardWithdrawAddress <$> R !! key n SNAPSHOT_GID) wd owner (rg_Name new) = Ok db2 ->
  (forall k, length k = 21%nat -> view' k = view_of db2 k) -> length wd = 21%nat -> is_name (rg_Name new) -> key (rg_Name new) SNAPSHOT_GID = key n SNAPSHOT_GID ->
  (forall r, R !! key n SNAPSHOT_GID = Some r -> rg_Name r = rg_Name new /\ rg_StakeAddress r = owner) ->
  rg_RewardWithdrawAddress new = wd -> rg_StakeAddress new = owner -> listed (view_of db) R -> listed view' (<[key n SNAPSHOT_GID := new]> R).
Proof.
  intros Hdb1 Hv1 Hs Hv2 Hwd Hn Hk Hold Ew Eo HL; apply (listed_view (view_of db2)); [|exact Hv2].
  assert (HL1 : listed (view_of db1) R) by by apply (listed_view (view_of db)).
  assert (Hkey : forall k r, R !! k = Some r -> take 10 k = SNAPSHOT_GID -> rg_Name r = rg_Name new -> k = key n SNAPSHOT_GID).
  { intros k r E Eg En; rewrite (snapshot_key k r E Eg), En; exact Hk. }
  assert (Hg : take 10 (key n SNAPSHOT_GID) = SNAPSHOT_GID) by by apply take_key.
  destruct (saveWithdraw_spec db1 (names_at (view_of db1)) (rg_RewardWithdrawAddress <$> R !! key n SNAPSHOT_GID) wd owner (rg_Name new)) as (db' & Hs' & _ & _ & HL' & _).
  - exact Hdb1.
  - by apply (listed_lists _ R).
  - exact Hn.
  - exact Hwd.
  - intros a Ha; apply fmap_Some in Ha as (r & Er & ->); destruct (known_wf _ _ Er) as [[_ _ _ W _ _ _ _ _] _]; unfold len, AddressSize in W; lia.
  - by eapply not_listed.
  - rewrite Hs in Hs'; injection Hs' as <-; by eapply listed_moved.
Qed.

Lemma UpdateWithdraw_spec : accepted (UpdateWithdraw_send Hash256 MethodNameUpdateSBPRewardWithdrawAddress) s ->
  exists q, requests s MethodNameUpdateSBPRewardWithdrawAddress q /\
    gov_outcome h db sb cur R V block s q (UpdateWithdraw_receive Hash256 MethodNameUpdateSBPRewardWithdrawAddress db s).
Proof.
  intros (_ & _ & n & wd & Hu & _ & Hwd)%(UpdateWithdraw_accepted _ Hsel); exists (QWithdraw n wd); split; [by apply rq_withdraw|].
  unfold UpdateWithdraw_receive; rewrite Hu; cbn [ignore_err]; rewrite bind_Ok; cbn [toWithdrawAddress pr_SbpName pr_RewardWithdrawAddress]; rewrite registration_read, bind_Ok by done; clear Hu.
  destruct (R !! key n SNAPSHOT_GID) as [r|] eqn:Er; [|refuse]; destruct (IsActive r) eqn:Eact; [|refuse]; cbn [negb orb]; case_bool_decide as Eown; [|refuse].
  cbn [negb orb]; case_bool_decide as Ewd; [refuse|]; destruct (known_wf _ _ Er) as [Hwf Hidle]; assert (Hlw : length wd = 21%nat) by (unfold len, AddressSize in Hwd; lia).
  destruct (saveWithdraw_ok db (Some (rg_RewardWithdrawAddress r)) wd (rg_StakeAddress r) (rg_Name r)) as (db1 & Hs1 & Hdb1 & Hso1 & Hv1); [apply Hc|exact Hlw| |].
  { intros a [= <-]; pose proof (gw_withdraw _ _ Hwf) as Hl; unfold len, AddressSize in Hl; lia. }
  rewrite Hs1, bind_Ok; destruct (overwrite_registration n SNAPSHOT_GID r (set_Withdraw r wd) true db1) as (info & db2 & Hi & Hs & Hdb2 & Hso & HG2 & Hv2); try done.
  { destruct Hwf; split; assumption. }
  change (packRegistrationV2 Hash256 (set_Withdraw r wd)) with (registerInfo Hash256 true (set_Withdraw r wd)).
  rewrite Hi, bind_Ok, Hs, bind_Ok; eapply gov_called_intro; [by eapply step_withdraw|done..|]; intros _ _ _ HL.
  apply (lists_follow db db1 _ _ n wd (rg_StakeAddress r)); try done; [apply Hc|by rewrite Er|by apply (ls_register _ _ HL _ _ Er)| |intros r'; rewrite Er; by intros [= <-]].
  symmetry; apply (snapshot_key _ r Er); by apply take_key.
Qed.

(** The name of a request to withdraw the reward, and who is to receive it. *)
Definition reward_names (name : string) (n : bytes) (to : Address) : Prop := exists vs, UnpackMethod ABI name (Data s) = Ok vs /\
  (if bool_decide (name = MethodNameWithdrawRewardV3) then SNAPSHOT_GID else pw_Gid (toReward vs)) = SNAPSHOT_GID /\
  pw_SbpName (toReward vs) = n /\ pw_ReceiveAddress (toReward vs) = to.

Lemma WithdrawReward_outcome name n to : reward_names name n to ->
  gov_outcome h db sb cur R V block s (QReward n to) (WithdrawReward_receive Hash256 box reader name db block s status).
Proof.
  intros (vs & Hv & Egid & En & Eto).
  unfold WithdrawReward_receive; rewrite Hv; cbn [ignore_err]; rewrite bind_Ok; cbv zeta; rewrite Egid, En, Eto, registration_read, bind_Ok by done; clear Egid Hv.
  rewrite (gc_latest _ _ _ _ _ _ _ _ Hc); cbn [DealWithErr]; rewrite bind_Ok; destruct (R !! key n SNAPSHOT_GID) as [r|] eqn:Er; [|refuse].
  destruct (Z.eqb_spec (rg_RewardTime r) (-1)) as [|Ht]; [refuse|]; cbn [orb]; destruct (_ && _) eqn:Eown.
  { rewrite andb_true_iff, !negb_true_iff, !bool_decide_eq_false in Eown; refuse. }
  rewrite andb_false_iff, !negb_false_iff, !bool_decide_eq_true in Eown; rewrite status_read, bind_Ok.
  destruct (CalcReward_ok box reader db r (Some cur)) as (st & e & reward & drained & Hcr & He); [apply Hc|]; rewrite Hcr; cbn [dealt]; rewrite bind_Ok.
  set (t := if drained then -1 else e); destruct (Z.eqb_spec t (rg_RewardTime r)) as [|Hne].
  { eapply gov_called_intro; [by eapply step_idle| |apply Hc|reflexivity|done]; apply (governed_later _ h _ (view_of db)); [done|lia|apply Hc]. }
  destruct (known_wf _ _ Er) as [Hwf Hidle].
  destruct (overwrite_registration n SNAPSHOT_GID r (set_RewardTime r t) (IsEarthUpgrade box (sb_Height sb)) db) as (info & db2 & Hi & Hs & Hdb2 & Hso & HG2 & Hv2); try done.
  { destruct Hwf as [W1 W2 W3 W4 W5 W6 [_ W7] W8 W9]; split; try assumption; split; [|done]; cbn [set_RewardTime rg_RewardTime]; unfold t; destruct drained; [unfold is_i64; lia|done]. }
  { apply Hc. }
  rewrite Hi, bind_Ok, Hs, bind_Ok.
  assert (Hend : forall l, reward_request sb block to reward l -> gov_called h db sb cur R V block s (QReward n to) (db2, l)).
  { intros l Hl; eapply gov_called_intro; [by eapply step_reward|done..|]; intros -> _ _ HL; apply (listed_view (view_of db)); [by apply (listed_kept _ _ _ r)|done]. }
  destruct reward as [rw|]; [|apply Hend; by left]; destruct (Z.ltb_spec 0 (rw_TotalReward rw)) as [Hpos|]; [|apply Hend; left; split; [done|by intros r' [= <-]]].
  assert (Hf : CheckFork db2 (IsLeafUpgrade box) = Ok (IsLeafUpgrade box (sb_Height sb))).
  { rewrite <- (fork_read (IsLeafUpgrade box)); unfold CheckFork, db_LatestSnapshotBlock; by destruct Hso as [-> _ -> _ _]. }
  rewrite Hf, bind_Ok; destruct (reissue_packed Hash256 (if IsLeafUpgrade box (sb_Height sb) then MethodNameReIssueV2 else MethodNameReIssue) ViteTokenId (rw_TotalReward rw) to) as (data & Hp).
  { destruct (IsLeafUpgrade _ _); [apply list_elem_of_further|]; apply list_elem_of_here. }
  replace (if negb (IsLeafUpgrade box (sb_Height sb)) then MethodNameReIssue else MethodNameReIssueV2)
    with (if IsLeafUpgrade box (sb_Height sb) then MethodNameReIssueV2 else MethodNameReIssue) by (by destruct (IsLeafUpgrade _ _)).
  rewrite Hp; cbn [ignore_err]; rewrite bind_Ok; apply Hend; right; exists rw, data; by split_and!.
Qed.

Lemma WithdrawReward_spec name : name ∈ [MethodNameWithdrawReward; MethodNameWithdrawRewardV2; MethodNameWithdrawRewardV3] ->
  accepted (WithdrawReward_send Hash256 name) s ->
  exists q, requests s name q /\ gov_outcome h db sb cur R V block s q (WithdrawReward_receive Hash256 box reader name db block s status).
Proof.
  intros Hn (_ & _ & Hu)%(WithdrawReward_accepted _ Hsel); [|exact Hn]; destruct (Hu (gc_data _ _ _ _ _ _ _ _ Hc)) as (vs & n & to & Hv & _ & Egid & En & Eto).
  exists (QReward n to); split; [by eapply rq_reward|apply WithdrawReward_outcome; by exists vs].
Qed.

(** A reward of nothing with another end time only moves the reward time. *)
Lemma reward_time_moves name n to r st e rw : reward_names name n to -> R !! key n SNAPSHOT_GID = Some r -> rg_RewardTime r <> -1 ->
  AccountAddress s = rg_StakeAddress r \/ AccountAddress s = rg_RewardWithdrawAddress r ->
  CalcReward box reader db r (Some cur) = Ok (st, e, Some rw, false) -> rw_TotalReward rw = 0 -> e <> rg_RewardTime r ->
  exists db', WithdrawReward_receive Hash256 box reader name db block s status = Ok (db', []) /\
    governed Hash256 (h + 1) (view_of db') (<[key n SNAPSHOT_GID := saved (IsEarthUpgrade box (sb_Height sb)) (set_RewardTime r e)]> R) V.
Proof.
  intros Hn Er Ht Hs Hcr Hz Hne; pose proof (WithdrawReward_outcome name n to Hn) as H; unfold gov_outcome in H.
  destruct (WithdrawReward_receive _ _ _ _ _ _ _ _) as [[db' l]|err|]; cbn [ok_or] in H; [|exfalso|destruct H].
  - destruct H as (R' & V' & Hst & HG & _); cbn [fst snd] in *; exists db'.
    inversion Hst as [| |n' to' r' st' e' rew' b' l' Er' _ _ Hcr' t Hne' Hl|n' to' r' st' rew' b' e' Er' _ _ Hcr' Heq| | | |]; subst; rewrite Er in Er'; injection Er' as <-;
      rewrite Hcr in Hcr'; injection Hcr' as <- <- <- <-; [|done].
    destruct Hl as [[-> _]|(r' & data & [= <-] & Hp & _)]; [by split|lia].
  - eapply H, (step_reward db sb cur block s R V n to r st e (Some rw) false []); try done; left; split; [done|]; intros r' [= <-]; lia.
Qed.

Lemma vote_stored n v : UnpackVariable ABI VariableNameVoteInfo v = Ok [VString n] -> 32 <= len v -> names_vote Hash256 n v.
Proof. intros Hu Hl; split; [eapply len_nonempty; [reflexivity|lia]|exact Hu]. Qed.

Lemma Vote_spec name d : name ∈ [MethodNameVote; MethodNameVoteV3] -> accepted (Vote_send Hash256 box name d) s ->
  exists q, requests s name q /\ gov_outcome h db sb cur R V block s q (Vote_receive Hash256 name db s).
Proof.
  intros Hn (_ & _ & vs & gid & n & Hu & [Hg _ Hl] & Egid & En)%(Vote_accepted _ _ Hsel); [|exact Hn]; exists (QVote gid n); split; [by eapply rq_vote|].
  unfold Vote_receive; rewrite Hu; cbn [ignore_err]; rewrite bind_Ok; cbv zeta; rewrite Egid, En; clear Egid Hu.
  destruct (GetConsensusGroup_spec Hash256 db h R V gid) as [E|(info & hh & E & _)]; [apply Hc..|done| |]; rewrite E; cbn [dealt]; rewrite bind_Ok; [refuse|].
  rewrite (IsActiveRegistration_spec Hash256 db h R V gid n) by (done || apply Hc); cbn [dealt]; rewrite bind_Ok.
  destruct (R !! key n gid) as [r|] eqn:Er; [|refuse]; destruct (IsActive r) eqn:Eact; [|refuse]; cbn [negb].
  unfold registrationNameLengthMax in Hl; destruct (sized_variable ABI _ _ [VString n] (variable_vote Hash256)) as (v & Hp & Hlv & Hv); [vm_compute; discriminate| |has_types; lia|].
  { change (32 * words _) with 32; cbn [zsum foldr tail_size]; lia. }
  rewrite Hp; cbn [ignore_err]; rewrite bind_Ok; pose proof (length_vote (AccountAddress s) gid (gc_sender _ _ _ _ _ _ _ _ Hc) Hg) as Hlk.
  destruct (SetValue_ready db (GetVoteInfoKey (AccountAddress s) gid) v (gc_db _ _ _ _ _ _ _ _ Hc)) as (db' & Hs & Hdb' & Hso & Hv'); [unfold len; lia|].
  rewrite Hs, bind_Ok; eapply gov_called_intro; [by eapply step_vote| |done..|intros _ _ _ HL; apply (listed_view _ _ _ HL); intros k Hk; rewrite Hv', decide_False; [done|]; intros ->; lia].
  eapply governed_vote; [apply Hc|exact Hlk| |].
  - clear -Hv'; intros k Hk; rewrite Hv', decide_False by done; by rewrite lookup_insert_ne.
  - rewrite lookup_insert_eq, Hv', decide_True by done; by apply vote_stored.
Qed.

Lemma CancelVote_spec name d : name ∈ [MethodNameCancelVote; MethodNameCancelVoteV3] -> accepted (CancelVote_send Hash256 box name d) s ->
  exists q, requests s name q /\ gov_outcome h db sb cur R V block s q (CancelVote_receive Hash256 name db s).
Proof.
  intros Hn (_ & _ & vs & gid & Hu & Hg & Egid)%(CancelVote_accepted _ _ Hsel); [|exact Hn]; exists (QCancel gid); split; [by eapply rq_cancel|].
  unfold CancelVote_receive; rewrite Hu, bind_Ok; cbv zeta; rewrite Egid; clear Egid; pose proof (length_vote (AccountAddress s) gid (gc_sender _ _ _ _ _ _ _ _ Hc) Hg) as Hlk.
  destruct (SetValue_ready db (GetVoteInfoKey (AccountAddress s) gid) [] (gc_db _ _ _ _ _ _ _ _ Hc)) as (db' & Hs & Hdb' & Hso & Hv'); [unfold len; lia|].
  rewrite Hs, bind_Ok; eapply gov_called_intro; [by eapply step_cancel| |done..|intros _ _ _ HL; apply (listed_view _ _ _ HL); intros k Hk; rewrite Hv', decide_False; [done|]; intros ->; lia].
  eapply governed_vote; [apply Hc|exact Hlk| |].
  - clear -Hv'; intros k Hk; rewrite Hv', decide_False by done; by rewrite lookup_delete_ne.
  - by rewrite lookup_delete_eq, Hv', decide_True.
Qed.

(** A registration is stored after its producing address was checked. *)
Lemma store_checked n gid bp db1 his db2 new earth : named gid n -> recorded_for Hash256 db R bp gid n db1 his ->
  db_ready db2 -> storage_only db1 db2 -> (forall k, length k <> 21%nat -> view_of db2 k = view_of db1 k) ->
  registration_wf (h + 1) new -> key (rg_Name new) gid = key n gid -> (IsActive new = false -> rg_Amount new = Some 0) ->
  rg_BlockProducingAddress new = bp -> rg_HisAddrList new = his ->
  exists info db3, registerInfo Hash256 earth new = Ok info /\ SetValue db2 (key n gid) info = Ok db3 /\ db_ready db3 /\ storage_only db db3 /\
    governed Hash256 (h + 1) (view_of db3) (<[key n gid := saved earth new]> R) V /\ (forall k, length k = 21%nat -> view_of db3 k = view_of db2 k).
Proof.
  intros [Hg _ _] [Hdb1 Hso1 Ho Hname Hnew Hhis] Hdb2 Hso2 Hv2 Hw Hkey Hidle <- <-.
  assert (Hl : length (GetHisNameKey (rg_BlockProducingAddress new) gid) <> 21%nat).
  { pose proof (gw_producing _ _ Hw) as Hl; unfold len, AddressSize in Hl; unfold GetHisNameKey; rewrite length_app; lia. }
  apply (store_registration _ db h); try done; [apply Hc|apply Hc|by etrans| | |].
  - intros k Hk Hne; rewrite Hv2 by done; by apply Ho.
  - rewrite Hv2 by done; exists n; rewrite take_key by done; by split.
  - by rewrite Hv2.
Qed.

Lemma used_wf his bp : Forall (fun a => len a = AddressSize) his -> len bp = AddressSize -> Z.of_nat (length his) <= h ->
  Forall (fun a => len a = AddressSize) (used his bp) /\ Z.of_nat (length (used his bp)) <= h + 1.
Proof.
  intros Hf Hb Hl; unfold used; case_decide; [split; [done|lia]|].
  split; [apply Forall_app; split; [done|by constructor]|rewrite length_app; simpl; lia].
Qed.

(** The check of a producing address does not touch the lists of names. *)
Lemma recorded_lists bp gid n db1 his : len bp = AddressSize -> length gid = 10%nat -> recorded_for Hash256 db R bp gid n db1 his ->
  forall k, length k = 21%nat -> view_of db1 k = view_of db k.
Proof.
  intros Hb Hg Hrf k Hk; apply (rf_others _ _ _ _ _ _ _ _ Hrf); intros ->; unfold GetHisNameKey in Hk; rewrite length_app in Hk; unfold len, AddressSize in Hb; lia.
Qed.

Lemma past_wf k : Forall (fun a => len a = AddressSize) (past (R !! k)) /\ Z.of_nat (length (past (R !! k))) <= h.
Proof.
  destruct (R !! k) as [r|] eqn:E; [|split; [constructor|apply Hc]]; destruct (gv_reg _ _ _ _ _ (gc_governed _ _ _ _ _ _ _ _ Hc) _ _ E) as (_ & [] & _); by split.
Qed.

Lemma UpdateProducing_spec name :
  name ∈ [MethodNameUpdateBlockProducingAddress; MethodNameUpdateBlockProducintAddressV2; MethodNameUpdateBlockProducintAddressV3] ->
  accepted (UpdateProducing_send Hash256 name) s ->
  exists q, requests s name q /\ gov_outcome h db sb cur R V block s q (UpdateProducing_receive Hash256 box name db s).
Proof.
  intros Hn (_ & _ & vs & gid & n & bp & Hu & Hnd & Hbp & Egid & En & Eb)%(UpdateProducing_accepted _ Hsel); [|exact Hn].
  exists (QProducing gid n bp); split; [by eapply rq_producing|].
  unfold UpdateProducing_receive; rewrite Hu; cbn [ignore_err]; rewrite bind_Ok; cbv zeta; rewrite Egid, En, Eb, registration_read, bind_Ok by apply Hnd; clear Egid Hu.
  destruct (past_wf (key n gid)) as [Hpf Hpl]; pose proof (checkHisName_spec Hash256 db h R V bp gid n) as Hch.
  destruct (R !! key n gid) as [r|] eqn:Er; [|refuse]; destruct (IsActive r) eqn:Eact; [|refuse]; cbn [negb orb]; case_bool_decide as Eown; [|refuse].
  cbn [negb orb past] in *; case_bool_decide as Ewd; [refuse|]; destruct (known_wf _ _ Er) as [Hwf Hidle].
  eapply ok_or_bind; [apply Hch; [apply Hc..|unfold len, AddressSize in Hbp; lia|exact Hnd]|intros Hmay; refuse|]; clear Hch; intros [db1 his] [Hmay Hrf]; cbn [fst snd] in Hrf.
  assert (Hf : CheckFork db1 (IsEarthUpgrade box) = Ok (IsEarthUpgrade box (sb_Height sb))).
  { rewrite <- (fork_read (IsEarthUpgrade box)); unfold CheckFork, db_LatestSnapshotBlock; by destruct (rf_storage _ _ _ _ _ _ _ _ Hrf) as [-> _ -> _ _]. }
  assert (Hhis : his = used (rg_HisAddrList r) bp) by (pose proof (rf_his _ _ _ _ _ _ _ _ Hrf) as Hg; by rewrite Er in Hg).
  destruct (used_wf _ _ Hpf Hbp Hpl) as [Hf' Hl']; pose proof (recorded_lists _ _ _ _ _ Hbp (nd_gid _ _ Hnd) Hrf) as Hv1.
  rewrite Hf, bind_Ok; destruct (store_checked n gid bp db1 his db1 (set_Producing r bp his) (IsEarthUpgrade box (sb_Height sb))) as (info & db2 & Hi & Hs & Hdb2 & Hso & HG2 & Hv2); try done.
  { apply Hrf. }
  { rewrite Hhis; destruct Hwf; split; assumption. }
  { destruct (gv_reg _ _ _ _ _ (gc_governed _ _ _ _ _ _ _ _ Hc) _ _ Er) as (_ & _ & _ & Hk); rewrite take_key in Hk by apply Hnd; exact Hk. }
  rewrite Hi, bind_Ok, Hs, bind_Ok; subst his; eapply gov_called_intro; [by eapply step_producing|done..|]; intros -> _ _ HL.
  apply (listed_view (view_of db)); [by apply (listed_kept _ _ _ r)|]; intros k Hk; by rewrite Hv2, Hv1.
Qed.

(** The guards of a registration. *)
Lemma Register_check_spec gid n bp wd : named gid n ->
  ok_or (fun x => Amount s = Some (stake_required sb) /\ TokenId s = ViteTokenId /\ x = (if IsSnapshotGid gid then sb_Timestamp cur else 0, R !! key n gid) /\
    vacant db cur s (R !! key n gid)) (~ (Amount s = Some (stake_required sb) /\ TokenId s = ViteTokenId /\ vacant db cur s (R !! key n gid)))
    (Register_check Hash256 box reader db s (mkParamRegister gid n bp wd) sb (Some cur)).
Proof.
  intros Hnd; unfold Register_check, stake_required; cbn [pr_Gid pr_SbpName]; destruct (gc_amount _ _ _ _ _ _ _ _ Hc) as (a & Ha); rewrite Ha, big_Some; cbv zeta.
  destruct (_ || _) eqn:Eg.
  { intros ([= ->] & Et & _); rewrite Et, (bool_decide_eq_true_2 (ViteTokenId = ViteTokenId)) in Eg by reflexivity; rewrite orb_false_r in Eg; destruct (IsLeafUpgrade _ _); cbn [negb andb orb] in Eg; rewrite Z.eqb_refl in Eg; discriminate Eg. }
  rewrite !orb_false_iff, !andb_false_iff, !negb_false_iff, bool_decide_eq_true in Eg; destruct Eg as [[E1 E2] Et].
  assert (Ea : a = if IsLeafUpgrade box (sb_Height sb) then SbpStakeAmountMainnet else SbpStakeAmountPreMainnet) by (destruct (IsLeafUpgrade _ _); lia).
  assert (Ert : (if IsSnapshotGid gid then b ← or_panic PNil (Some cur); Ok (sb_Timestamp b) else Ok 0) = Ok (E := vm_err) (if IsSnapshotGid gid then sb_Timestamp cur else 0)) by by destruct (IsSnapshotGid gid).
  rewrite Ert, bind_Ok, registration_read, bind_Ok by apply Hnd; destruct (R !! key n gid) as [r|] eqn:Er.
  - assert (Hno : (vacant db cur s (Some r) -> False) -> ~ (Some a = Some (stake_required sb) /\ TokenId s = ViteTokenId /\ vacant db cur s (Some r))) by tauto.
    destruct (IsActive r) eqn:Eact; [apply Hno; intros Hva; destruct (Hva r eq_refl); congruence|]; cbn [orb].
    case_bool_decide as Eown; [|apply Hno; intros Hva; destruct (Hva r eq_refl) as (_ & ? & _); congruence]; cbn [negb].
    destruct (drained_read r) as (b & Hb); rewrite Hb; cbn [dealt]; rewrite bind_Ok.
    destruct b; [|apply Hno; intros Hva; destruct (Hva r eq_refl) as (_ & _ & ?); congruence]; cbn [negb].
    split_and!; [by rewrite Ea|done|done|]; intros r' [= <-]; by split_and!.
  - split_and!; [by rewrite Ea|done|done|]; intros r' [=].
Qed.

(** The withdraw address of a registration in another group is its owner's, which is not listed. *)
Lemma lists_unmoved gid n wd new db1 db2 view' : named gid n -> gid <> SNAPSHOT_GID -> wd = AccountAddress s -> vacant db cur s (R !! key n gid) ->
  saveWithdrawRewardAddress db1 (rg_RewardWithdrawAddress <$> R !! key n gid) wd (AccountAddress s) n = Ok db2 ->
  (forall k, length k = 21%nat -> view_of db1 k = view_of db k) -> (forall k, length k = 21%nat -> view' k = view_of db2 k) ->
  rg_Name new = n -> rg_RewardWithdrawAddress new = wd -> rg_StakeAddress new = AccountAddress s -> listed (view_of db) R -> listed view' (<[key n gid := new]> R).
Proof.
  intros [Hg Hn _] Hne -> Hvac Hs Hv1 Hv2 En Ew Eo HL; pose proof (take_key Hash256 n gid Hg) as Hk.
  assert (Ed : db2 = db1).
  { unfold saveWithdrawRewardAddress in Hs; destruct (R !! key n gid) as [r|] eqn:Er; cbn in Hs; [|rewrite bool_decide_eq_true_2 in Hs by done; congruence].
    destruct (Hvac r eq_refl) as (_ & Eown & _); rewrite (ls_owner _ _ HL _ _ Er), Eown, bool_decide_eq_true_2 in Hs by (done || by rewrite Hk); congruence. }
  subst db2; apply (listed_view (view_of db)); [|intros k Hl; by rewrite Hv2, Hv1]; apply listed_other; [done|by rewrite Hk|congruence|by rewrite En].
Qed.

(** A registration up to its last write. *)
Lemma Register_store_spec gid n bp wd db1 his : named gid n -> len bp = AddressSize -> len wd = AddressSize -> gid = SNAPSHOT_GID \/ wd = AccountAddress s ->
  Amount s = Some (stake_required sb) -> TokenId s = ViteTokenId -> vacant db cur s (R !! key n gid) -> may_produce Hash256 (view_of db) bp gid n ->
  recorded_for Hash256 db R bp gid n db1 his ->
  ok_or (fun db' => gov_called h db sb cur R V block s (QRegister gid n bp wd) (db', [])) (refused db sb cur block s R V (QRegister gid n bp wd))
    (Register_store Hash256 box db1 s (mkParamRegister gid n bp wd) sb (Some cur) (if IsSnapshotGid gid then sb_Timestamp cur else 0) (R !! key n gid) his).
Proof.
  intros Hnd Hbp Hwd Hgw Ea Et Hvac Hmay Hrf; unfold Register_store; cbn [pr_Gid pr_SbpName pr_BlockProducingAddress pr_RewardWithdrawAddress].
  pose proof Hrf as [Hdb1 Hso1 Ho _ _ Ehis]; destruct (past_wf (key n gid)) as [Hpf Hpl]; destruct (used_wf _ _ Hpf Hbp Hpl) as [Hf' Hl']; rewrite <- Ehis in Hf', Hl'.
  assert (Eg : GetConsensusGroup Hash256 db1 gid = GetConsensusGroup Hash256 db gid).
  { unfold GetConsensusGroup; rewrite (so_address _ _ Hso1), !dr_reads by (done || apply Hc); rewrite Ho; [done|].
    intros E%(f_equal length); unfold GetConsensusGroupInfoKey, GetHisNameKey in E; rewrite !length_app in E; simpl in E; unfold len, AddressSize in Hbp; lia. }
  rewrite Eg; destruct (GetConsensusGroup_spec Hash256 db h R V gid) as [E|(group & hh & E & Ehh)]; [apply Hc..|apply Hnd| |]; rewrite E; cbn [dealt]; rewrite bind_Ok; [refuse|].
  rewrite Ehh, bind_Ok; cbv zeta; set (earth := IsEarthUpgrade box (sb_Height sb)).
  set (new := mkRegistration n bp wd (AccountAddress s) (Amount s) (u64 (sb_Height cur + hh)) (if IsSnapshotGid gid then sb_Timestamp cur else 0) 0 his).
  assert (Hsave : exists db2, (if earth then saveWithdrawRewardAddress db1 (rg_RewardWithdrawAddress <$> R !! key n gid) wd (AccountAddress s) n else Ok db1) = Ok db2 /\
    db_ready db2 /\ storage_only db1 db2 /\ forall k, length k <> 21%nat -> view_of db2 k = view_of db1 k).
  { destruct earth; [|by exists db1]; apply saveWithdraw_ok; [done|unfold len, AddressSize in Hwd; lia|]; intros a Ha.
    destruct (R !! key n gid) as [r|] eqn:Er; [|done]; injection Ha as <-; destruct (known_wf _ _ Er) as [[_ _ _ W _ _ _ _ _] _]; unfold len, AddressSize in W; lia. }
  destruct Hsave as (db2 & Hs2 & Hdb2 & Hso2 & Hv2); rewrite Hs2, bind_Ok; cbn [or_panic]; rewrite bind_Ok; fold new.
  destruct (store_checked n gid bp db1 his db2 new earth) as (info & db3 & Hi & Hs & Hdb3 & Hso & HG3 & Hv3); try done.
  { pose proof (gc_sender _ _ _ _ _ _ _ _ Hc) as Hls; pose proof (gc_time _ _ _ _ _ _ _ _ Hc) as Htm; split; try done; cbn [new].
    - exists (stake_required sb); split; [exact Ea|]; unfold stake_required; destruct (IsLeafUpgrade _ _); vm_compute; by split.
    - apply Hnd.
    - unfold len, AddressSize; cbn; lia.
    - apply u64_range.
    - split; [cbn; destruct (IsSnapshotGid gid); [done|]|]; unfold is_i64; cbn; lia. }
  rewrite Hi, bind_Ok, Hs; unfold new in *; subst his; eapply gov_called_intro; [by eapply step_register|done..|].
  fold earth; intros Hearth _ Hun HL; rewrite Hearth in *; pose proof (recorded_lists _ _ _ _ _ Hbp (nd_gid _ _ Hnd) Hrf) as Hv1; cbn [saved].
  destruct (decide (gid = SNAPSHOT_GID)) as [->|Hne]; [|destruct Hgw as [?|Ewd]; [done|]; by apply (lists_unmoved gid n wd _ db1 db2)].
  apply (lists_follow db1 db2 _ _ n wd (AccountAddress s)); try done; [unfold len, AddressSize in Hwd; lia|apply Hnd|].
  intros r Er; split; [by apply Hun|by destruct (Hvac r Er) as (_ & ? & _)].
Qed.

Lemma param_withdraw name gid n bp wd : Register_param Hash256 name s = Ok (mkParamRegister gid n bp wd) -> gid = SNAPSHOT_GID \/ wd = AccountAddress s.
Proof.
  unfold Register_param; intros (vs & _ & H)%outcome_bind_ok; case_bool_decide; injection H; intros; [left|right]; congruence.
Qed.

Lemma Register_spec name : name ∈ [MethodNameRegister; MethodNameRegisterV3] -> accepted (Register_send Hash256 name) s ->
  exists q, requests s name q /\ match Register_receive Hash256 box reader name db s status with
  | (Ok l, db') => gov_called h db sb cur R V block s q (db', l)
  | (Err _, db') => storage_only db db' /\ refused db sb cur block s R V q
  | (Panic _, _) => False
  end.
Proof.
  intros Hn Hs; destruct (Register_accepted _ Hsel name s Hn Hs) as (_ & gid & n & bp & wd & Hp & Hnd & Hbp & Hwd); specialize (Hwd (gc_sender _ _ _ _ _ _ _ _ Hc)).
  exists (QRegister gid n bp wd); split; [by apply rq_register|]; pose proof (param_withdraw _ _ _ _ _ Hp) as Hgw.
  unfold Register_receive; rewrite Hp, bind_Ok, status_read, bind_Ok, (gc_latest _ _ _ _ _ _ _ _ Hc), bind_Ok; clear Hp.
  pose proof (Register_check_spec gid n bp wd Hnd) as Hch; destruct (Register_check _ _ _ _ _ _ _ _) as [[t old]|e|p]; cbn [ok_or] in Hch; [|split; [reflexivity|refuse]|destruct Hch].
  destruct Hch as (Ea & Et & [= -> ->] & Hvac); rewrite bind_Ok; cbn [pr_Gid pr_SbpName pr_BlockProducingAddress]; change (match R !! key n gid with Some r => rg_HisAddrList r | None => [] end) with (past (R !! key n gid)).
  pose proof (checkHisName_spec Hash256 db h R V bp gid n (gc_db _ _ _ _ _ _ _ _ Hc) (gc_governed _ _ _ _ _ _ _ _ Hc) ltac:(unfold len, AddressSize in Hbp; lia) Hnd) as Hrf.
  destruct (checkHisName _ _ _ _ _ _) as [[db1 his]|e|p]; cbn [ok_or fst snd] in Hrf; [|split; [reflexivity|refuse]|destruct Hrf]; destruct Hrf as [Hmay Hrf].
  rewrite bind_Ok; pose proof (Register_store_spec gid n bp wd db1 his Hnd Hbp Hwd Hgw Ea Et Hvac Hmay Hrf) as Hst.
  destruct (Register_store _ _ _ _ _ _ _ _ _ _); [exact Hst|split; [apply Hrf|exact Hst]|exact Hst].
Qed.
End Methods.

(** ** Every method of every generation *)

Inductive is_gov_method : string -> BuiltinContractMethod -> Prop :=
| is_Register name : name ∈ [MethodNameRegister; MethodNameRegisterV3] -> is_gov_method name (MethodRegister Hash256 box reader name)
| is_Revoke name : name ∈ [MethodNameRevoke; MethodNameRevokeV2; MethodNameRevokeV3] -> is_gov_method name (MethodRevoke Hash256 box reader name)
| is_WithdrawReward name : name ∈ [MethodNameWithdrawReward; MethodNameWithdrawRewardV2; MethodNameWithdrawRewardV3] ->
    is_gov_method name (MethodWithdrawReward Hash256 box reader name)
| is_UpdateProducing name :
    name ∈ [MethodNameUpdateBlockProducingAddress; MethodNameUpdateBlockProducintAddressV2; MethodNameUpdateBlockProducintAddressV3] ->
    is_gov_method name (MethodUpdateBlockProducingAddress Hash256 box name)
| is_UpdateWithdraw : is_gov_method MethodNameUpdateSBPRewardWithdrawAddress (MethodUpdateRewardWithdrawAddress Hash256 MethodNameUpdateSBPRewardWithdrawAddress)
| is_Vote name : name ∈ [MethodNameVote; MethodNameVoteV3] -> is_gov_method name (MethodVote Hash256 box name)
| is_CancelVote name : name ∈ [MethodNameCancelVote; MethodNameCancelVoteV3] -> is_gov_method name (MethodCancelVote Hash256 box name).

Lemma earth_gov_methods name p : (name, p) ∈ earthGovernance Hash256 box reader -> is_gov_method name p.
Proof.
  unfold earthGovernance, leafGovernance, simpleGovernance; rewrite !elem_of_app, !elem_of_cons, !elem_of_nil.
  intros H; repeat match type of H with _ \/ _ => destruct H as [H|H] | False => destruct H end; injection H as -> ->;
    [apply is_Register|apply is_Revoke|apply is_WithdrawReward|apply is_UpdateProducing|apply is_Vote|apply is_CancelVote
    |apply is_UpdateProducing|apply is_Revoke|apply is_WithdrawReward
    |apply is_Register|apply is_UpdateProducing|exact is_UpdateWithdraw|apply is_Revoke|apply is_WithdrawReward|apply is_Vote|apply is_CancelVote].
  all: repeat (apply list_elem_of_here || apply list_elem_of_further).
Qed.

Lemma older_gov_methods g x : x ∈ governanceMethods Hash256 box reader g -> x ∈ earthGovernance Hash256 box reader.
Proof.
  unfold earthGovernance, leafGovernance; intros H; destruct g; cbn [governanceMethods] in H; try exact H.
  all: apply elem_of_app; left; try exact H; apply elem_of_app; left; exact H.
Qed.

Lemma gov_method_cases g sel p : governanceContract Hash256 box reader g sel = Some p ->
  exists m, MethodById ABI sel = Ok m /\ is_gov_method (md_Name m) p.
Proof.
  unfold governanceContract; destruct (MethodById ABI sel) as [m| |]; [|done..]; intros H%assoc_elem; exists m; split; [reflexivity|].
  by eapply earth_gov_methods, older_gov_methods.
Qed.

(** The outcome of a call. *)
Lemma governance_call_refines g sel p h db sb cur R V block s status :
  governanceContract Hash256 box reader g sel = Some p -> gov_calling h db sb cur R V s status -> sent_through p s ->
  exists m q, MethodById ABI sel = Ok m /\ requests s (md_Name m) q /\ match DoReceive p db block s status with
  | (Ok l, db', block') => gov_called h db sb cur R V block s q (db', l) /\ block' = block
  | (Err _, db', block') => (storage_only db db' /\ refused db sb cur block s R V q) /\ block' = block
  | (Panic _, _, _) => False
  end.
Proof.
  intros (m & Hid & Hm)%gov_method_cases Hc Hs; exists m.
  assert (Hok : forall r, (exists q, requests s (md_Name m) q /\ gov_outcome h db sb cur R V block s q r) ->
    exists q, MethodById ABI sel = Ok m /\ requests s (md_Name m) q /\ match receive_with db block r with
    | (Ok l, db', block') => gov_called h db sb cur R V block s q (db', l) /\ block' = block
    | (Err _, db', block') => (storage_only db db' /\ refused db sb cur block s R V q) /\ block' = block | (Panic _, _, _) => False end).
  { intros r (q & Hq & Hr); exists q; split; [exact Hid|]; split; [exact Hq|]; destruct r as [[db' l]|e|pn]; [split; [exact Hr|reflexivity]| |exact Hr].
    split; [split; [reflexivity|exact Hr]|reflexivity]. }
  destruct Hm as [name Hn|name Hn|name Hn|name Hn| |name Hn|name Hn].
  - apply send_data_accepted in Hs; destruct (Register_spec h db sb cur R V block s status Hc name Hn Hs) as (q & Hq & Hr); exists q; split; [exact Hid|]; split; [exact Hq|].
    cbn [MethodRegister DoReceive]; unfold receive_in; destruct (Register_receive _ _ _ _ _ _ _) as [[l|e|pn] db']; [split; [exact Hr|reflexivity]..|exact Hr].
  - apply Hok; apply send_data_accepted in Hs; by apply Revoke_spec.
  - apply Hok; apply send_data_accepted in Hs; by apply WithdrawReward_spec.
  - apply Hok; apply send_data_accepted in Hs; by eapply UpdateProducing_spec.
  - apply Hok; apply send_data_accepted in Hs; by eapply UpdateWithdraw_spec.
  - apply Hok; apply (send_data_accepted_in (Vote_send Hash256 box name)) in Hs as (d & Hs); by eapply Vote_spec.
  - apply Hok; apply (send_data_accepted_in (CancelVote_send Hash256 box name)) in Hs as (d & Hs); by eapply CancelVote_spec.
Qed.

(** C10 The governance contract implements its register of block producers.  The data of a call
    that was accepted when it was sent make a request, which the specification grants or refuses.  Received
    in a state that holds register [R] and ballot [V], the call succeeds exactly when the request is granted, and it fails,
    without a change of balances or of the account's other state, exactly when no step of the specification is possible: a name is
    registered with exactly the stake when nobody holds it and its producing address is nobody else's, the owner
    revokes it after the lock-up and is repaid, a reward is requested exactly as computed, the producing
    or the withdraw address changes at the owner's request only, and votes go to active producers.  The storage
    then holds the changed register and ballot, in which every producing address ever used in a group still
    belongs to one registration.  It never panics. *)
Theorem governance_refines g sel p h db sb cur R V block s status :
  governanceContract Hash256 box reader g sel = Some p -> gov_calling h db sb cur R V s status -> sent_through p s ->
  exists m q, MethodById ABI sel = Ok m /\ requests s (md_Name m) q /\ match DoReceive p db block s status with
  | (Ok l, db', block') => block' = block /\ storage_only db db' /\ exists R' V', sbp_step db sb cur block s R V q R' V' l /\
      governed Hash256 (h + 1) (view_of db') R' V' /\
      forall k1 r1 k2 r2 a, R' !! k1 = Some r1 -> R' !! k2 = Some r2 -> a ∈ rg_HisAddrList r1 -> a ∈ rg_HisAddrList r2 -> take 10 k1 = take 10 k2 -> k1 = k2
  | (Err _, db', block') => block' = block /\ storage_only db db' /\ refused db sb cur block s R V q
  | (Panic _, _, _) => False
  end.
Proof.
  intros Hp Hc Hs; destruct (governance_call_refines g sel p h db sb cur R V block s status Hp Hc Hs) as (m & q & Hid & Hq & H).
  exists m, q; split; [exact Hid|]; split; [exact Hq|].
  destruct (DoReceive p db block s status) as [[[l|e|pn] db'] block']; [|destruct H as [[? ?] ->]; split_and!; (reflexivity || assumption)|exact H].
  destruct H as [(R' & V' & Hst & HG & _ & Hso & _) ->].
  split_and!; [reflexivity|exact Hso|]; exists R', V'; split_and!; [exact Hst|exact HG|]; intros k1 r1 k2 r2 a; by apply (producers_differ _ _ _ _ _ _ _ _ _ _ HG).
Qed.

(** C28 The governance contract keeps, from the upgrade Earth on, the lists of the producers by withdraw
    address: each lists, joined by commas and once each, exactly the names of the registrations of the snapshot group that
    have this withdraw address, other than their owner's.  Every call that was accepted when it was sent and succeeds, of every method and
    generation, preserves this, provided that no name is registered over that of another name with the same truncated hash. *)
Theorem withdraw_lists_exact g sel p h db sb cur R V block s status l db' block' :
  governanceContract Hash256 box reader g sel = Some p -> gov_calling h db sb cur R V s status -> sent_through p s ->
  IsEarthUpgrade box (sb_Height sb) = true -> IsEarthUpgrade box (sb_Height cur) = true ->
  (forall m q, MethodById ABI sel = Ok m -> requests s (md_Name m) q -> undisputed R q) ->
  listed (view_of db) R -> DoReceive p db block s status = (Ok l, db', block') ->
  exists m q R' V', MethodById ABI sel = Ok m /\ requests s (md_Name m) q /\ sbp_step db sb cur block s R V q R' V' l /\
    governed Hash256 (h + 1) (view_of db') R' V' /\ listed (view_of db') R'.
Proof.
  intros Hp Hc Hs He He' Hun HL Hr; destruct (governance_call_refines g sel p h db sb cur R V block s status Hp Hc Hs) as (m & q & Hid & Hq & H).
  rewrite Hr in H; destruct H as [(R' & V' & Hst & HG & _ & _ & Hl) _]; exists m, q, R', V'; split_and!; [assumption..|].
  apply Hl; [assumption..|by eapply Hun|assumption].
Qed.
End Governance.
