(* ===== verification/ContractWorldSpec.v ===== *)
(** The concrete chain of [ContractWorld] meets what the theorems about contracts ask of a chain and a node. *)
From Stdlib Require Import ZifyBool Ascii String.
From stdpp Require Import strings sorting.
From S2P Require Import Prelude Helper Types Upgrade VmDb Iterator IteratorSpec Builtin AccountBlock.
From S2P Require Import Machine Vm World Abi AbiSpec ContractUtil QuotaContract AssetContract ContractWorld QuotaContractSpec QuotaCallSpec VmSpec BuiltinSpec AssetSpec.
#[local] Open Scope Z_scope.

Lemma toy_selectors : selectors_differ toyHash.
Proof. apply (bool_decide_unpack _); vm_compute; exact I. Qed.

Lemma toy_asset_selectors : abi_selectors (ABIAsset toyHash).
Proof. apply (bool_decide_unpack _); vm_compute; exact I. Qed.

Lemma storage_ready a bal m : db_ready (contract_storage a bal m).
Proof.
  split; [apply NewUnsaved_wf|done|]; intros prefix; eexists; split; [done| |].
  - apply filter_sorted, storage_list_sorted.
  - intros k v; rewrite list_elem_of_filter, elem_of_storage_list; unfold db_GetOriginalValue; simpl; split.
    + by intros [[? ?] ->].
    + intros (Hp & [= E] & Hv); destruct (m !! k) as [w|]; simpl in E; subst; done.
Qed.

(** Methods that replace the data of a request or return an error. *)
Lemma send_data_db r d b : (send_data d b r).1.2 = d.
Proof. by destruct r. Qed.

Lemma send_data_block r d b d' b' : send_data d b r = (Ok tt, d', b') -> b' = set_Data b (Data b').
Proof. destruct r; intros E; unfold send_data in E; by simplify_eq. Qed.

#[export] Instance contract_laws : BuiltinLaws contract_node.
Proof.
  split; [intros g a f sel p d b|intros g a f sel p d b d' b']; simpl; (case_bool_decide; [|case_bool_decide; [|done]]); intros [= <-].
  - intros (m & _ & Hm)%(quota_method_cases _ _ toy_selectors); destruct Hm; apply send_data_db.
  - intros (m & _ & Hm)%asset_method_cases; destruct Hm; apply send_data_db.
  - intros (m & _ & Hm)%(quota_method_cases _ _ toy_selectors); destruct Hm; apply send_data_block.
  - intros (m & _ & Hm)%asset_method_cases; destruct Hm; apply send_data_block.
Qed.

Lemma users_free : free_calls contract_node someone.
Proof. intros data g f p b fee Hc; discriminate Hc. Qed.

Lemma storage_next d m a bal : (forall k, db_GetOriginalValue d k = Ok (default [] (m !! k))) ->
  forall k, view_of (contract_storage a bal (list_to_map (storageCache (uns d)) ∪ m)) k = committed d k.
Proof.
  intros E k; unfold committed; rewrite E; generalize (storageCache (uns d)); intros l.
  change (default [] (((list_to_map l : gmap bytes bytes) ∪ m) !! k) = match (list_to_map l : gmap bytes bytes) !! k with Some v => v | None => default [] (m !! k) end).
  rewrite lookup_union; destruct (list_to_map l !! k), (m !! k); reflexivity.
Qed.
