(* ===== verification/QuotaVmSpec.v ===== *)
(** The quota contract in the virtual machine: through every history of its
    account, the contract owns at least what its ledger owes. *)
From Stdlib Require Import ZifyBool Ascii String.
From stdpp Require Import strings.
From S2P Require Import Prelude Helper Types Upgrade VmDb IteratorSpec AccountQuota Builtin AccountBlock Machine Vm Abi AbiSpec.
From S2P Require Import ContractUtil ContractSpec QuotaContract QuotaContractSpec QuotaCallSpec VmSpec BuiltinSpec ContractVmSpec.
#[local] Open Scope Z_scope.
#[local] Opaque ABIQuota UnpackMethod PackMethod.

Section Machine.
Context (Hash256 : bytes -> bytes) (StakeHeight : Z) (Hsel : selectors_differ Hash256).
Context (n : node) `{Laws : !BuiltinLaws n}.
Context (Hquota : forall g, n_contracts n g Types.AddressQuota = Some (quotaContract Hash256 StakeHeight g)).

(** ** A call that was accepted keeps its method *)

Lemma method_known name p : is_method Hash256 StakeHeight name p -> assoc name (quotaMethods Hash256 StakeHeight earthContracts) = Some p.
Proof.
  intros [nm Hn|nm Hn|nm Hn|nm Hn|nm Hn|nm Hn]; cbn [names_of app] in Hn; rewrite ?elem_of_cons, elem_of_nil in Hn;
    repeat (destruct Hn as [->|Hn]; [reflexivity|]); destruct Hn.
Qed.

Lemma accepted_name name p s : is_method Hash256 StakeHeight name p -> sent_through p s ->
  (exists vs, UnpackMethod (ABIQuota Hash256) name (Data s) = Ok vs) /\ (TokenId s = ViteTokenId \/ default 0 (Amount s) <= 0).
Proof.
  intros [nm Hn|nm Hn|nm Hn|nm Hn|nm Hn|nm Hn] Hs; apply send_data_accepted in Hs.
  - destruct (Stake_accepted _ Hsel _ _ Hn Hs) as (b & a & _ & Hd & Ht & _); eauto.
  - destruct (CancelStake_accepted _ Hsel _ _ Hn Hs) as (b & x & _ & _ & Hd & a & -> & Ha); eauto.
  - destruct (DelegateStake_accepted _ _ Hsel _ _ Hn Hs) as (addr & b & bid & sh & a & _ & _ & _ & Hd & Ht & _); eauto.
  - destruct (CancelDelegateStake_accepted _ Hsel _ _ Hn Hs) as (addr & b & x & bid & _ & _ & _ & _ & Hd & a & -> & Ha); eauto.
  - destruct (StakeV3_accepted _ _ Hsel _ _ Hn Hs) as (vs & b & sh & a & _ & Hd & _ & Ht & _); eauto.
  - destruct (CancelStakeV3_accepted _ Hsel _ _ Hn Hs) as (id & _ & Hd & a & -> & Ha); eauto.
Qed.

#[local] Instance quota_table : MethodTable (ABIQuota Hash256) (quotaContract Hash256 StakeHeight).
Proof.
  apply (Build_MethodTable _ _ (is_method Hash256 StakeHeight)).
  - intros g sel p; by apply quota_method_cases.
  - intros name p p' Hp%method_known Hp'%method_known; rewrite Hp in Hp'; congruence.
  - intros name p s Hm Hs; destruct (accepted_name _ _ _ Hm Hs) as [(vs & Hu) _]; by eapply UnpackMethod_selects.
Defined.

(** ** A block of the contract *)

(** The block that receives request [s] in database [d] at height [h], and its
    outcome [d'] with the sent blocks.  The hash of a request is not that of an earlier one,
    and the supply of VITE is a word. *)
Record received (h height : Z) (d : vmDb) (block s : AccountBlock) (err : option vm_err) (sends : list AccountBlock) (d' : vmDb) : Prop := {
  re_run : exists st sb r c' b', db_LatestSnapshotBlock d = Ok sb /\ snapshotHeight st = Ok height /\
    RunV2 n d block (Some s) st = Done r c' /\ vr_block r = Some b' /\ vr_err r = err /\ SendBlockList b' = sends /\ vc_db c' = d';
  re_block : IsReceiveBlock (BlockType block) = true /\ SendBlockList block = [] /\ AccountAddress block = Types.AddressQuota;
  re_height : Height block = h /\ 0 < h /\ is_u64 h;
  re_call : BlockType s = BlockTypeSendCall /\ sent_request n Types.AddressQuota s /\ 0 <= default 0 (Amount s);
  re_sender : length (AccountAddress s) = 21%nat /\ free_calls n (AccountAddress s);
  re_hash : length (ab_Hash s) = 32%nat /\ view_of d (ab_Hash s) = [];
  re_supply bal : db_GetBalance d ViteTokenId = Ok bal -> bal + default 0 (Amount s) < 2 ^ 256;
}.

(** The ledger and what the contract owns of VITE. *)
Definition owns (h : Z) (view : bytes -> bytes) (d : vmDb) (S : ledger) (bal : Z) : Prop :=
  staking Hash256 h view S /\ db_GetBalance d ViteTokenId = Ok bal.

Lemma staking_later h h' v v' S : (forall k, v' k = v k) -> h <= h' -> staking Hash256 h v S -> staking Hash256 h' v' S.
Proof.
  intros Hv Hh [H1 H2 H3 H4 H5 H6]; split; intros *; rewrite ?Hv; [|exact (H2 k)|exact (H3 b)|exact (H4 k s id)| |exact (H6 k1 s1 k2 s2)].
  - intros E; destruct (H1 _ _ E) as (? & ? & ? & ?); split_and!; [assumption..|lia].
  - intros Hl; destruct (H5 _ Hl) as [?|(? & ? & ?)]; [by left|right; split_and!; [assumption|lia|assumption]].
Qed.

Lemma payments_sent vm l l' : Forall2 (sent_as vm) l l' -> payments l' = payments l.
Proof.
  intros H; induction H as [|b b' l l' (c & c' & []) _ IH]; [done|]; unfold payments in *; rewrite !zsum_cons, IH.
  by match goal with H : _ /\ Amount b' = Amount b |- _ => destruct H as [_ ->] end.
Qed.

(** Requests to the sender cost what they carry. *)
Lemma requests_cost vm block s l : vm_node vm = n -> free_calls n (AccountAddress s) -> Forall (to_sender block s) l ->
  Forall (free_request vm) l /\ asked l ViteTokenId = payments l.
Proof.
  intros En Hf Hl; induction Hl as [|b l (a & data & _ & ->) _ [IH1 IH2]]; [split; [constructor|reflexivity]|].
  split; [constructor; [intros _; rewrite En; apply Hf|done]|]; unfold asked, payments in *; rewrite !zsum_cons, IH2; reflexivity.
Qed.

Lemma calling_copy h height d d' S block s st : rest_same d d' -> calling Hash256 h height d S block s st ->
  calling Hash256 h height d' S (set_Data (Copy block) []) s st.
Proof.
  intros Hr [H1 H2 H3 H4 H5 H6 H7 H8]; split; [by eapply rest_ready| | |exact H4| |exact H6|exact H7|exact H8].
  - apply (staking_later h h (view_of d)); [|reflexivity|exact H2]; intros k; by apply rest_view.
  - destruct (Copy_fields block) as (_ & _ & _ & _ & _ & _ & _ & Fh & _); simpl; by rewrite Fh.
  - rewrite (rest_view _ _ _ Hr); exact H5.
Qed.

(** The claim of a received call on the ledger, and the surplus of the contract, which does not shrink. *)
Lemma received_keeps h height d block s err sends d' S bal : received h height d block s err sends d' ->
  uns d = NewUnsaved -> db_ready d -> owns h (view_of d) d S bal -> total S <= bal ->
  exists S' bal', owns (h + 1) (committed d') d' S' bal' /\ bal - total S <= bal' - total S' /\
    match err with
    | None => effect height S S' (AccountAddress s) (default 0 (Amount s)) (payments sends)
    | Some _ => S' = S
    end.
Proof.
  intros [(st & sb & r & c' & b' & Hsb & Hst & HR & Hb & <- & <- & <-) (Hr & Hnil & Hac) Hh (Hbt & Hreq & Ha0) [Hls Hfree] Hhash Hsup]
    Hfresh Hdb [HS Hbal] Hcov.
  assert (Hcall : forall d1, rest_same d d1 -> calling Hash256 h height d1 S (set_Data (Copy block) []) s st).
  { intros d1 Hr1; apply (calling_copy h height d); [done|split; try assumption; specialize (Hsup _ Hbal); lia]. }
  assert (Hsame : forall S', (forall k, committed (vc_db c') k = view_of d k) -> S' = S -> staking Hash256 (h + 1) (committed (vc_db c')) S').
  { intros S' Hv ->; apply (staking_later h (h + 1) (view_of d)); [exact Hv|lia|exact HS]. }
  pose proof (block_ends n Types.AddressQuota Hquota d block s st sb r c' b' Hsb HR Hb Hr Hnil Hac Hbt Hreq Hfree Hfresh Hdb) as Hend.
  destruct Hend as [a Ea Hv Hm _|vm g p a bs l d2 En Eq Hacc Ea Ebs Edr Hv Hsent Hm|e Hv Hm _].
  - intros g p d1 Eq Hacc Hr1 _ _; pose proof (call_refines _ _ Hsel _ _ _ _ _ _ _ _ _ _ Eq (Hcall d1 Hr1) Hacc) as Hout; unfold well_behaved.
    destruct (DoReceive p d1 _ s st) as [[[l|e|] d2] b2]; [|destruct Hout as [-> ->]; by split|exact Hout]; destruct Hout as [(S' & _ & Hdb2 & Hso & _) ->].
    split_and!; [apply Hdb2|apply (storage_only_moves _ _ Hso)|reflexivity].
  - exists S, (bal + coins (TokenId s) a ViteTokenId); split_and!; [split; [by apply Hsame|by apply (moved d)]| |done].
    unfold coins; case_decide; rewrite Ea in Ha0; simpl in Ha0; lia.
  - pose proof (call_refines _ _ Hsel _ _ _ _ _ _ _ _ _ _ Eq (Hcall _ (rest_SetBalance d (TokenId s) (bs + a))) Hacc) as Hout; rewrite Edr in Hout.
    destruct Hout as [(S' & HS' & Hdb2 & Hso & Hef & Hto) _]; cbn [fst snd] in *.
    destruct (requests_cost vm _ s l En Hfree Hto) as [Hfr Hask]; destruct (storage_only_moves _ _ Hso) as [Hm2 _]; rewrite (payments_sent _ _ _ Hsent).
    pose proof (moves_trans _ _ _ _ _ _ (moves_SetBalance d (TokenId s) bs a Ebs) (moves_trans _ _ _ _ _ _ Hm2 Hm (fun t => eq_refl)) (fun t => eq_refl)) as Hall.
    eexists S', _; split_and!; [split; [|exact (moved d _ _ _ _ Hall Hbal)]| |exact Hef].
    + by apply (staking_later (h + 1) (h + 1) (view_of d2)).
    + cbv beta; rewrite (sends_ask vm _ _ _ Hsent Hfr), Hask, (ef_total _ _ _ _ _ _ Hef); unfold nothing.
      destruct (quota_method_cases _ _ Hsel _ _ _ Eq) as (m & _ & Hmeth).
      destruct (accepted_name _ _ _ Hmeth Hacc) as [_ Htok]; rewrite Ea in *; simpl in *; unfold coins; case_decide; [lia|].
      destruct Htok; [congruence|lia].
  - exists S, bal; split_and!; [split; [by apply Hsame|]|lia|reflexivity].
    rewrite (moved _ _ _ _ _ Hm Hbal); f_equal; apply Z.add_0_r.
Qed.

(** ** Histories *)

(** The account of the contract, from an empty storage on: the database with
    which its block at height [h] starts. *)
Inductive quota_history : Z -> vmDb -> Prop :=
| qh_start h d bal : uns d = NewUnsaved -> db_ready d -> (forall k, view_of d k = []) ->
    db_GetBalance d ViteTokenId = Ok bal -> 0 <= bal -> quota_history h d
| qh_block h height d block s err sends d' d2 : quota_history h d ->
    received h height d block s err sends d' -> persisted (eq ViteTokenId) d' d2 -> quota_history (h + 1) d2.

Lemma staking_empty h v : (forall k, v k = []) -> staking Hash256 h v ∅.
Proof.
  intros Hv; split; intros *; rewrite ?lookup_empty; try discriminate; [by rewrite Hv|..].
  - intros _; unfold beneficial; rewrite msum_empty; apply Hv.
  - intros _; left; apply Hv.
Qed.

(** C5 The quota contract can always pay.  In every state that blocks of the
    virtual machine can bring its account to, whatever accounts called it with,
    whether the calls failed or succeeded and whatever upgrades happened between,
    the storage holds a ledger of stakes whose sum is at most the VITE that the contract owns. *)
Theorem quota_solvent h d : quota_history h d ->
  exists S bal, staking Hash256 h (view_of d) S /\ db_GetBalance d ViteTokenId = Ok bal /\ total S <= bal.
Proof.
  intros H; enough (uns d = NewUnsaved /\ db_ready d /\ exists S bal, owns h (view_of d) d S bal /\ total S <= bal) as (_ & _ & S & bal & [] & ?) by eauto.
  induction H as [h d bal Hf Hd Hv Hb H0|h height d block s err sends d' d2 _ (Hf & Hd & S & bal & Ho & Hc) Hr [Pf Pr Pv Pb]].
  - split_and!; [done..|]; exists ∅, bal; split; [split; [by apply staking_empty|done]|].
    unfold total; by rewrite msum_empty.
  - destruct (received_keeps _ _ _ _ _ _ _ _ _ _ Hr Hf Hd Ho Hc) as (S' & bal' & [HS' Hb'] & Hle & _).
    split_and!; [done..|]; exists S', bal'; split; [split; [|by rewrite Pb]|lia].
    by apply (staking_later (h + 1) (h + 1) (committed d')).
Qed.

End Machine.
