(* ===== verification/QuotaWitness.v ===== *)
(** The theorems about the quota contract at work: a stake, its return, and a
    history, on the concrete chain of [ContractWorld]. *)
From Stdlib Require Import ZifyBool Ascii String.
From stdpp Require Import strings sorting.
From S2P Require Import Prelude Helper Types Upgrade QuotaTable VmDb Iterator IteratorSpec AccountQuota Builtin AccountBlock CreateData.
From S2P Require Import Machine Vm World Abi AbiSpec ContractUtil ContractSpec QuotaContract AssetContract ContractWorld QuotaContractSpec QuotaCallSpec VmSpec BuiltinSpec ContractVmSpec AssetSpec ContractWorldSpec QuotaVmSpec.
#[local] Open Scope Z_scope.

(** ** A stake *)

Definition amount : Z := 134 * 10 ^ 18.
Definition stake_call : AccountBlock := quota_call (request_hash x01) amount MethodNameStakeV2 [VArray someone].

Abbreviation stake_method := (MethodStake toyHash 3 MethodNameStakeV2).

Lemma stake_calling bal : calling toyHash 1 100 (quota_db bal ∅) ∅ (quota_receive 1) stake_call (at_height 100).
Proof.
  split.
  - apply storage_ready.
  - apply staking_empty; reflexivity.
  - split_and!; [reflexivity|lia|vm_compute; split; [discriminate|reflexivity]].
  - reflexivity.
  - split; reflexivity.
  - reflexivity.
  - vm_compute; discriminate.
  - unfold total; rewrite msum_empty; vm_compute; reflexivity.
Qed.

Lemma stake_found : quotaContract toyHash 3 earthContracts (Data stake_call) = Some stake_method.
Proof.
  eapply (call_found toyHash 3 toy_selectors MStake MethodNameStakeV2 stake_method [VArray someone]);
    [apply elem_of_cons; right; by apply list_elem_of_singleton|reflexivity|by has_types|vm_compute; reflexivity].
Qed.

Lemma stake_sent : sent_through stake_method stake_call.
Proof.
  assert (E : Stake_send toyHash MethodNameStakeV2 stake_call = Ok (Data stake_call)) by (vm_compute; reflexivity).
  exists (quota_db 0 ∅), stake_call, (quota_db 0 ∅), (set_Data stake_call (Data stake_call)).
  split; [cbn [DoSend MethodStake]; rewrite E; reflexivity|split_and!; reflexivity].
Qed.

Lemma staking_refines_witness :
  match DoReceive stake_method (quota_db 0 ∅) (quota_receive 1) stake_call (at_height 100) with
  | (Ok l, db', block') => called toyHash 1 100 (quota_db 0 ∅) ∅ (quota_receive 1) stake_call (db', l) /\ block' = quota_receive 1
  | (Err _, db', block') => db' = quota_db 0 ∅ /\ block' = quota_receive 1
  | (Panic _, _, _) => False
  end.
Proof.
  exact (staking_refines toyHash 3 toy_selectors earthContracts (Data stake_call) stake_method 1 100 (quota_db 0 ∅) ∅
    (quota_receive 1) stake_call (at_height 100) stake_found (stake_calling 0) stake_sent).
Defined.

(** ** Its return *)

(** The storage with one stake. *)
Definition one_key : bytes := GetStakeInfoKey someone 1.
Definition one_stake : StakeInfo := mkStakeInfo (Some amount) 103 someone false ZERO_ADDRESS 0 ZERO_ADDRESS None.
Definition packed (r : result bytes) : bytes := match r with Ok v => v | _ => [] end.
Definition one_storage : gmap bytes bytes :=
  <[someone := packed (packStakeBeneficial toyHash amount)]>
    {[one_key := packed (packStakeInfo toyHash amount 103 someone false ZERO_ADDRESS 0)]}.


Lemma one_lookup k : one_storage !! k =
  if decide (k = someone) then Some (packed (packStakeBeneficial toyHash amount))
  else if decide (k = one_key) then Some (packed (packStakeInfo toyHash amount 103 someone false ZERO_ADDRESS 0)) else None.
Proof.
  unfold one_storage; rewrite lookup_insert; destruct (decide (someone = k)), (decide (k = someone)); try congruence.
  rewrite lookup_singleton; destruct (decide (one_key = k)), (decide (k = one_key)); congruence.
Qed.
#[local] Opaque one_storage.

Lemma one_view bal k : view_of (quota_db bal one_storage) k = default [] (one_storage !! k).
Proof. reflexivity. Qed.

Lemma one_wf : stake_wf one_stake.
Proof.
  split; [split; [reflexivity|vm_compute; split; [discriminate|reflexivity]]|vm_compute; split; [discriminate|reflexivity]|reflexivity..|].
  cbn [si_Id one_stake si_DelegateAddress si_Bid si_IsDelegated]; split_and!; [reflexivity|lia..|split; reflexivity].
Qed.

Lemma one_staking bal : staking toyHash 2 (view_of (quota_db bal one_storage)) {[one_key := one_stake]}.
Proof.
  assert (Hne : one_key <> someone) by (vm_compute; discriminate).
  assert (Hl : length one_key = 29%nat) by reflexivity; assert (Hs : length someone = 21%nat) by reflexivity.
  apply (staking_put toyHash 1 2 (fun _ => []) _ ∅).
  - apply staking_empty; reflexivity.
  - lia.
  - exact Hl.
  - vm_compute; reflexivity.
  - exact one_wf.
  - rewrite one_view, one_lookup, decide_False, decide_True by (assumption || reflexivity); split; vm_compute; [discriminate|reflexivity].
  - intros k' Hk Hn; rewrite one_view, one_lookup, decide_False, decide_False; [reflexivity|assumption|congruence].
  - intros s0; rewrite lookup_empty; discriminate.
  - intros b Hb Hn; cbn [si_Beneficiary one_stake] in Hn; rewrite one_view, one_lookup, decide_False, decide_False;
      [reflexivity|intros ->; unfold len, AddressSize in Hb; lia|assumption].
  - rewrite lookup_empty; unfold beneficial; rewrite msum_empty; cbn [si_Beneficiary one_stake]; rewrite one_view, one_lookup, decide_True by reflexivity.
    split; vm_compute; [discriminate|reflexivity].
  - intros id Hid; left; rewrite one_view, one_lookup, decide_False, decide_False; [reflexivity|congruence|congruence].
  - intros id; discriminate.
  - intros id _ E; rewrite <- E in Hl; discriminate Hl.
  - intros k2 s2; rewrite lookup_empty; discriminate.
Qed.

Definition cancel_call : AccountBlock :=
  quota_call (request_hash x02) 0 MethodNameCancelStakeV2 [VArray someone; vBig amount].

Lemma due_stake_returned_witness :
  returned toyHash 3 2 (quota_db amount one_storage) {[one_key := one_stake]} (quota_receive 2) cancel_call (at_height 103) one_key one_stake.
Proof.
  apply (due_stake_returned toyHash 3 toy_selectors 2 103 (quota_db amount one_storage) {[one_key := one_stake]}
    (quota_receive 2) cancel_call (at_height 103) one_key one_stake).
  - split.
    + apply storage_ready.
    + apply one_staking.
    + split_and!; [reflexivity|lia|vm_compute; split; [discriminate|reflexivity]].
    + reflexivity.
    + split; [reflexivity|]; rewrite one_view, one_lookup, decide_False, decide_False; [reflexivity|vm_compute; discriminate..].
    + reflexivity.
    + vm_compute; discriminate.
    + unfold total; rewrite <- insert_empty, msum_insert, msum_empty by apply lookup_empty; vm_compute; reflexivity.
  - apply lookup_singleton_eq.
  - reflexivity.
  - vm_compute; discriminate.
  - reflexivity.
  - vm_compute; reflexivity.
Defined.

(** A stake for longer by [StakeQuotaWithCallback] is due earlier once the same
    account stakes for the same beneficiary by the old [Stake]. *)
Lemma old_stake_shortens_lock :
  let m1 := after 1 100 ∅ (quota_call (request_hash x01) amount MethodNameStakeWithCallback [VArray someone; vUint64 50]) in
  let m2 := after 2 100 m1 (quota_call (request_hash x02) amount MethodNameStakeV2 [VArray someone]) in
  let stake m := (UnpackStakeInfo toyHash (default [] (m !! one_key))).1 in
  (si_ExpirationHeight <$> stake m1) = Ok 150 /\ (si_ExpirationHeight <$> stake m2) = Ok 103 /\ (si_Amount <$> stake m2) = Ok (Some (2 * amount)).
Proof. vm_compute; split_and!; reflexivity. Qed.

(** ** A history *)

Lemma stake_request : sent_request contract_node Types.AddressQuota stake_call.
Proof.
  set (run := sendCall (machineAt contract_node 100 None) stake_call false 0 0 (mkContext (quota_db (2 * amount) ∅) [])).
  assert (E : match run with
              | Done s _ => bool_decide (Data s = Data stake_call /\ Amount s = Amount stake_call /\ TokenId s = TokenId stake_call)
              | _ => false end = true) by (vm_compute; reflexivity).
  destruct run as [s c'| | |] eqn:Er; try discriminate E; apply bool_decide_eq_true in E as (E1 & E2 & E3).
  exists (machineAt contract_node 100 None), stake_call, false, 0, 0, (mkContext (quota_db (2 * amount) ∅) []), s, c'; split_and!; first [assumption|reflexivity].
Qed.

Definition stake_run : exec vm_result := RunV2 contract_node (quota_db 0 ∅) (quota_receive 1) (Some stake_call) (at_height 100).
Definition stake_run_db : vmDb := match stake_run with Done _ c => vc_db c | _ => quota_db 0 ∅ end.
Definition next_db : vmDb := quota_db amount (list_to_map (storageCache (uns stake_run_db)) ∪ ∅).

Lemma stake_received : exists sends, received contract_node 1 100 (quota_db 0 ∅) (quota_receive 1) stake_call None sends stake_run_db.
Proof.
  assert (E : gave_block None stake_run = true) by (vm_compute; reflexivity).
  apply gave_block_Done in E as (r & c' & b' & E & Eb & Ee); exists (SendBlockList b'); split.
  - exists (at_height 100), (mkSnapshotBlock ZERO_HASH 100 0), r, c', b'; unfold stake_run_db; rewrite E.
    split_and!; first [assumption|reflexivity].
  - split_and!; reflexivity.
  - split_and!; [reflexivity|lia|vm_compute; split; [discriminate|reflexivity]].
  - split_and!; [reflexivity|exact stake_request|vm_compute; discriminate].
  - split; [reflexivity|exact users_free].
  - split; reflexivity.
  - intros bal [= <-]; vm_compute; reflexivity.
Qed.

Lemma next_persisted : persisted (eq ViteTokenId) stake_run_db next_db.
Proof.
  split; [reflexivity|apply storage_ready| |intros t <-; vm_compute; reflexivity].
  apply storage_next; reflexivity.
Qed.

Lemma quota_solvent_witness :
  exists S bal, staking toyHash 2 (view_of next_db) S /\ db_GetBalance next_db ViteTokenId = Ok bal /\ total S <= bal.
Proof.
  apply (quota_solvent toyHash 3 toy_selectors contract_node); [reflexivity|].
  destruct stake_received as (sends & Hr).
  apply (qh_block contract_node 1 100 (quota_db 0 ∅) (quota_receive 1) stake_call None sends stake_run_db); [|exact Hr|exact next_persisted].
  apply (qh_start contract_node 1 (quota_db 0 ∅) 0); [reflexivity|apply storage_ready|reflexivity|reflexivity|reflexivity].
Defined.
