(* ===== verification/AssetVmSpec.v ===== *)
(** The asset contract in the virtual machine: through every history of its
    account, the supply that it records of a token is what exists of it. *)
From Stdlib Require Import ZifyBool Ascii String.
From stdpp Require Import strings.
From S2P Require Import Prelude Helper Types Upgrade VmDb IteratorSpec AccountQuota Builtin AccountBlock Machine Vm Abi AbiSpec.
From S2P Require Import ContractUtil ContractSpec AssetContract VmSpec BuiltinSpec ContractVmSpec AssetSpec.
#[local] Open Scope Z_scope.
#[local] Opaque ABIAsset UnpackMethod PackMethod.

Section Machine.
Context (Hash256 Hash10 : bytes -> bytes) (box : upgradeBox) (Hsel : abi_selectors (ABIAsset Hash256)).
Context (n : node) `{Laws : !BuiltinLaws n}.
Context (Hasset : forall g, n_contracts n g AddressAsset = Some (assetContract Hash256 Hash10 box g)).
Abbreviation ABI := (ABIAsset Hash256).

(** ** The methods *)

Lemma asset_method_known name p : is_asset_method Hash256 Hash10 box name p -> assoc name (earthAsset Hash256 Hash10 box) = Some p.
Proof.
  intros [nm Hn|nm Hn| | |nm Hn|nm Hn|nm Hn]; try reflexivity; cbn [asset_names app] in Hn; rewrite ?elem_of_cons, elem_of_nil in Hn;
    repeat (destruct Hn as [->|Hn]; [reflexivity|]); destruct Hn.
Qed.

Lemma burn_selects s : accepted (Burn_send Hash256 MethodNameBurn) s -> exists m, MethodById ABI (Data s) = Ok m /\ md_Name m = MethodNameBurn.
Proof.
  intros (b & Hs & _); unfold Burn_send in Hs; apply big_ok in Hs as (a & _ & Hs); destruct (a <=? 0); [done|].
  assert (Hm : exists m, assoc MethodNameBurn (Methods ABI) = Some m /\ md_Name m = MethodNameBurn /\ md_Inputs m = []) by (eexists; split_and!; vm_compute; reflexivity).
  destruct Hm as (m & Hm & Hn & Hin); exists m; split; [|exact Hn].
  destruct (PackMethod_no_inputs ABI MethodNameBurn m (asset_abi_ok _ Hsel)) as (data & Hp & Hid & _); [discriminate|exact Hm|exact Hin|].
  rewrite Hp in Hs; injection Hs as <-; exact Hid.
Qed.

#[local] Instance asset_table : MethodTable ABI (assetContract Hash256 Hash10 box).
Proof.
  apply (Build_MethodTable _ _ (is_asset_method Hash256 Hash10 box)).
  - intros g sel p; by apply asset_method_cases.
  - intros name p p' Hp%asset_method_known Hp'%asset_method_known; rewrite Hp in Hp'; congruence.
  - intros name p s [nm Hn|nm Hn| | |nm Hn|nm Hn|nm Hn] Hs.
    + apply (send_data_accepted_in (Issue_send Hash256 box nm)) in Hs as (d & Hs).
      destruct (Issue_accepted _ _ Hsel _ _ _ Hn Hs) as (re & nm' & sym & total & dec & max & obo & _ & Hd); by eapply UnpackMethod_selects.
    + apply send_data_accepted in Hs; destruct (ReIssue_accepted _ Hsel _ _ Hn Hs) as (t & a & to & _ & _ & _ & Hd & _); by eapply UnpackMethod_selects.
    + by apply send_data_accepted, burn_selects in Hs.
    + destruct Hs as (d & b & d' & b' & Hs & _); cbn [MethodBurn2 DoSend] in Hs; destruct (Amount b); discriminate Hs.
    + apply send_data_accepted in Hs; destruct (Transfer_accepted _ Hsel _ _ Hn Hs) as (t & o & _ & _ & Hd & _); by eapply UnpackMethod_selects.
    + apply send_data_accepted in Hs; destruct (Disable_accepted _ Hsel _ _ Hn Hs) as (t & _ & Hd & _); by eapply UnpackMethod_selects.
    + apply send_data_accepted in Hs; destruct (GetInfo_accepted _ Hsel _ _ Hn Hs) as (vs & t & bid & _ & _ & Hd & _); by eapply UnpackMethod_selects.
Defined.

(** ** A block of the contract *)

(** What the registry records of a token. *)
Definition recorded (T : registry) (t : TokenTypeId) : Z := match T !! t with Some i => supply i | None => 0 end.

(** What exists of a token, in the contract ([bal]) and outside ([circ]), is what is recorded.  The fees of calls
    that succeed are VITE that no longer exists. *)
Definition accounted (T : registry) (bal circ : TokenTypeId -> Z) : Prop := forall t, 0 <= bal t /\ 0 <= circ t /\
  bal t + circ t <= recorded T t /\ (t <> ViteTokenId -> bal t + circ t = recorded T t).

Definition balances (d : vmDb) (bal : TokenTypeId -> Z) : Prop := forall t, db_GetBalance d t = Ok (bal t).

(** The block that receives request [s] in database [d], and its outcome [d'] with the
    sent blocks.  What the request brings was in circulation. *)
Record asset_received (circ : TokenTypeId -> Z) (d : vmDb) (block s : AccountBlock) (err : option vm_err) (sends : list AccountBlock) (d' : vmDb) : Prop := {
  ar_run : exists st sb r c' b', db_LatestSnapshotBlock d = Ok sb /\
    RunV2 n d block (Some s) st = Done r c' /\ vr_block r = Some b' /\ vr_err r = err /\ SendBlockList b' = sends /\ vc_db c' = d';
  ar_block : IsReceiveBlock (BlockType block) = true /\ SendBlockList block = [] /\ AccountAddress block = AddressAsset /\ db_address d = AddressAsset;
  ar_call : BlockType s = BlockTypeSendCall /\ sent_request n AddressAsset s /\ 0 <= default 0 (Amount s);
  ar_sender : length (AccountAddress s) = 21%nat /\ free_calls n (AccountAddress s);
  ar_lengths : length (TokenId s) = 10%nat /\ length (ab_Hash s) = 32%nat;
  ar_brings t : refund_of s t <= circ t;
}.

(** In circulation afterwards: without what the request brought, with what the contract sent. *)
Definition circulation (circ : TokenTypeId -> Z) (s : AccountBlock) (sends : list AccountBlock) : TokenTypeId -> Z :=
  fun t => circ t - refund_of s t + paid sends t.

Lemma paid_single b t : paid [b] t = coins (TokenId b) (default 0 (Amount b)) t.
Proof. unfold paid; cbn [zsum foldr]; lia. Qed.

Lemma recorded_put T t i t' : recorded (<[t := i]> T) t' = if decide (t' = t) then supply i else recorded T t'.
Proof. unfold recorded; rewrite lookup_insert; destruct (decide (t = t')), (decide (t' = t)); congruence. Qed.

(** A change of the registry records what it sends and burns. *)
Lemma step_supply block s T T' l b : token_step Hash256 block s T T' l b -> (forall t i, T !! t = Some i -> token_wf i) ->
  (forall t, asked l t = 0) /\ 0 <= b <= Z.max 0 (default 0 (Amount s)) /\
  forall t, 0 <= paid l t /\ recorded T' t = recorded T t + paid l t - coins (TokenId s) b t.
Proof.
  intros Hst Hwf; destruct Hst as [t0 i Ei Hl Hw Ho Hnew Hidx|t0 i a to Ei Er Eo Ha0 Hmax|i a Ei Ea Hb Hob|t0 i o Ei Er Eo|t0 i Ei Er Eo|name q data Hq].
  all: split; [intros t; reflexivity || (unfold asked, asks; cbn; rewrite ?coins_zero; reflexivity)|].
  all: split; [rewrite ?Ea; simpl; lia|]; intros t; rewrite ?paid_single; cbn [reward requestTo sendLiteral TokenId Amount]; rewrite ?recorded_put, ?coins_zero.
  all: change (paid [] t) with 0; change (supply (set_Owner i o)) with (supply i) || change (supply (set_fixed i)) with (supply i) || idtac.
  all: change (supply (set_TotalSupply i (supply i + a))) with (supply i + a) || change (supply (set_TotalSupply i (supply i - a))) with (supply i - a) || idtac.
  all: unfold coins, recorded; try destruct (tw_supply _ Hw) as [_ ?].
  all: try (destruct (decide (t = t0)) as [->|]; [rewrite Ei|]); try (destruct (decide (t = TokenId s)) as [->|]; [rewrite Ei|]); simpl; lia.
Qed.

(** The requests of a change are free. *)
Lemma step_free vm block s T T' l b : token_step Hash256 block s T T' l b -> vm_node vm = n -> free_calls n (AccountAddress s) ->
  Forall (free_request vm) l.
Proof. intros [] En Hf; repeat constructor; try discriminate; intros _; rewrite En; apply Hf. Qed.

(** The record [accounted] after a call that succeeded. *)
Lemma step_accounted block s T T' l b bal circ : token_step Hash256 block s T T' l b -> (forall t i, T !! t = Some i -> token_wf i) ->
  accounted T bal circ -> 0 <= default 0 (Amount s) -> (forall t, refund_of s t <= circ t) ->
  accounted T' (fun t => bal t + coins (TokenId s) (default 0 (Amount s)) t - coins (TokenId s) b t) (circulation circ s l).
Proof.
  intros Hst Hwf Hac Ha Hbr t; destruct (step_supply _ _ _ _ _ _ Hst Hwf) as (_ & Hb & Hr); destruct (Hr t) as [Hp ->].
  destruct (Hac t) as (Hb0 & Hc0 & Hle & Heq); specialize (Hbr t); unfold circulation, refund_of, coins in *.
  destruct (decide (t = TokenId s)), (decide (t = ViteTokenId)); (split_and!; [lia|lia|lia|intros Hv; specialize (Heq Hv); lia || done]).
Qed.

(** The registry and the balances after a block. *)
Lemma asset_received_keeps circ d block s err sends d' T bal : asset_received circ d block s err sends d' ->
  uns d = NewUnsaved -> db_ready d -> tokens Hash256 (view_of d) T -> balances d bal -> accounted T bal circ ->
  exists T' bal', tokens Hash256 (committed d') T' /\ balances d' bal' /\ accounted T' bal' (circulation circ s sends).
Proof.
  intros [(st & sb & r & c' & b' & Hsb & HR & Hb & <- & <- & <-) (Hr & Hnil & Hac & Had) (Hbt & Hreq & Ha0) [Hls Hfree] [Hlt Hlh] Hbr] Hfresh Hdb HT Hbal Hacc.
  assert (Hwf : forall t i, T !! t = Some i -> token_wf i) by (intros t i E; apply (tk_token _ _ _ HT _ _ E)).
  assert (Hcall : forall d1 bal1, rest_same d d1 -> db_ready d1 -> balances d1 bal1 -> asset_calling Hash256 d1 T s).
  { intros d1 bal1 Hr1 Hd1 Hb1; split; try assumption; [destruct (rs_handle _ _ Hr1) as (_ & -> & _); exact Had| | | |].
    - apply (tokens_ext _ (view_of d)); [|exact HT]; intros k; symmetry; by apply rest_view.
    - intros t; exists (bal1 t); apply Hb1.
    - exists sb; destruct (rs_handle _ _ Hr1) as (Hc & _ & Hl & _); unfold db_LatestSnapshotBlock in *; by rewrite Hc, Hl.
    - intros i Ei; destruct (Hacc (TokenId s)) as (? & ? & Hle & _); unfold recorded in Hle; rewrite Ei in Hle; specialize (Hbr (TokenId s)).
      unfold refund_of, coins in Hbr; rewrite decide_True in Hbr by reflexivity; destruct (decide (TokenId s = ViteTokenId)); lia. }
  assert (Hd1 : forall a b, Amount s = Some a -> db_GetBalance d (TokenId s) = Ok b ->
    balances (db_SetBalance d (TokenId s) (b + a)) (fun t => bal t + coins (TokenId s) a t)).
  { intros a b Ea Eb t; exact (moved _ _ _ _ _ (moves_SetBalance d (TokenId s) b a Eb) (Hbal t)). }
  assert (Hkept : forall T', (forall k, committed (vc_db c') k = view_of d k) -> T' = T -> tokens Hash256 (committed (vc_db c')) T').
  { intros T' Hv ->; apply (tokens_ext _ (view_of d)); [intros k; symmetry; apply Hv|exact HT]. }
  pose proof (block_ends n AddressAsset Hasset d block s st sb r c' b' Hsb HR Hb Hr Hnil Hac Hbt Hreq Hfree Hfresh Hdb) as Hend.
  destruct Hend as [a Ea Hv Hm Hs|vm g p a bs l d2 En Eq Hacp Ea Ebs Edr Hv Hsent Hm|e Hv Hm Hp].
  - intros g p d1 Eq Hacp Hr1 Hdb1 (a & b & Ea & Eb & ->).
    pose proof (asset_call_refines _ Hash10 box Hsel _ _ _ _ _ (set_Data (Copy block) []) _ st Eq (Hcall _ _ Hr1 Hdb1 (Hd1 a b Ea Eb)) Hacp) as Hout; unfold well_behaved.
    destruct (DoReceive p _ _ s st) as [[[l|e|] d2] b2]; [|destruct Hout as [-> ->]; by split|exact Hout]; destruct Hout as [(T' & b0 & _ & _ & Hdb2 & Hh & _) ->].
    split_and!; [apply Hdb2|exact Hh|reflexivity].
  - exists T, (fun t => bal t + coins (TokenId s) a t); split_and!; [by apply Hkept|intros t; exact (moved _ _ _ _ _ Hm (Hbal t))|].
    rewrite Hs; intros t; destruct (Hacc t) as (? & ? & Hle & Heq); specialize (Hbr t); unfold circulation, refund_of, coins in *; rewrite Ea in *; simpl in *.
    unfold paid; cbn [zsum foldr]; destruct (decide (t = TokenId s)), (decide (t = ViteTokenId)); (split_and!; [lia|lia|lia|intros Hv'; specialize (Heq Hv'); lia || done]).
  - pose proof (asset_call_refines _ Hash10 box Hsel _ _ _ _ _ (set_Data (Copy block) []) _ st Eq
      (Hcall _ _ (rest_SetBalance d (TokenId s) (bs + a)) (rest_ready _ _ (rest_SetBalance d (TokenId s) (bs + a)) Hdb) (Hd1 a bs Ea Ebs)) Hacp) as Hout.
    rewrite Edr in Hout; destruct Hout as [(T' & b0 & Hst & HT' & Hdb2 & Hh & Hm2) _]; cbn [fst snd] in *.
    pose proof (step_accounted _ _ _ _ _ _ _ _ Hst Hwf Hacc Ha0 Hbr) as Hacc'; destruct (step_supply _ _ _ _ _ _ Hst Hwf) as (Hask & _ & _).
    exists T', (fun t => bal t + coins (TokenId s) (default 0 (Amount s)) t - coins (TokenId s) b0 t); split_and!.
    + apply (tokens_ext _ (view_of d2)); [intros k; symmetry; apply Hv|exact HT'].
    + intros t; rewrite (moved _ _ _ _ _ Hm (moved _ _ _ _ _ Hm2 (Hd1 a bs Ea Ebs t))); f_equal; cbv beta.
      rewrite (sends_ask vm _ _ _ Hsent), Hask, Ea; [unfold coins; simpl; destruct (decide (t = TokenId s)); lia|].
      by eapply step_free.
    + intros t; destruct (Hacc' t) as (? & ? & ? & ?); unfold circulation in *; rewrite (paid_sent vm _ _ t Hsent); by split_and!.
  - exists T, bal; split_and!; [by apply Hkept|intros t; rewrite (moved _ _ _ _ _ Hm (Hbal t)); f_equal; apply Z.add_0_r|].
    intros t; destruct (Hacc t) as (? & ? & ? & Heq); unfold circulation; rewrite Hp; (split_and!; [lia|lia|lia|intros Hv'; specialize (Heq Hv'); lia]).
Qed.

(** ** Histories *)

(** The account of the contract and what circulates, from a state on in which the tokens are accounted for. *)
Inductive asset_history : (TokenTypeId -> Z) -> vmDb -> Prop :=
| ah_start circ d T bal : uns d = NewUnsaved -> db_ready d -> tokens Hash256 (view_of d) T -> balances d bal -> accounted T bal circ ->
    asset_history circ d
| ah_block circ d block s err sends d' d2 : asset_history circ d -> asset_received circ d block s err sends d' ->
    persisted (fun _ => True) d' d2 -> asset_history (circulation circ s sends) d2.

(** C6 Tokens come into being and vanish only as the registry records.  In every
    state that blocks of the virtual machine can bring the asset contract to,
    whatever accounts called it with and whether the calls failed or succeeded,
    its storage holds a registry of well-formed tokens whose supply never exceeds the maximum,
    and for each token but VITE what the contract owns plus what it sent out less what came in
    is exactly the recorded supply.  For VITE, which the fees consume, it is at most the recorded supply. *)
Theorem supply_is_circulation circ d : asset_history circ d ->
  exists T, tokens Hash256 (view_of d) T /\
    forall t, exists bal, db_GetBalance d t = Ok bal /\ 0 <= bal /\ 0 <= circ t /\ bal + circ t <= recorded T t /\
      (t <> ViteTokenId -> bal + circ t = recorded T t).
Proof.
  intros H; enough (uns d = NewUnsaved /\ db_ready d /\ exists T bal, tokens Hash256 (view_of d) T /\ balances d bal /\ accounted T bal circ)
    as (_ & _ & T & bal & HT & Hb & Ha) by (exists T; split; [done|]; intros t; exists (bal t); split; [apply Hb|apply Ha]).
  induction H as [circ d T bal Hf Hd HT Hb Ha|circ d block s err sends d' d2 _ (Hf & Hd & T & bal & HT & Hb & Ha) Hr [Pf Pr Pv Pb]].
  - split_and!; [done..|]; by exists T, bal.
  - destruct (asset_received_keeps _ _ _ _ _ _ _ _ _ Hr Hf Hd HT Hb Ha) as (T' & bal' & HT' & Hb' & Ha').
    split_and!; [done..|]; exists T', bal'; split_and!; [|intros t; by rewrite Pb|done].
    by apply (tokens_ext _ (committed d')).
Qed.

End Machine.
