(* ===== verification/GovernanceVmSpec.v ===== *)
(** The governance contract in the virtual machine: through every history of its
    account it owns the stakes of all registrations. *)
From Stdlib Require Import ZifyBool Ascii String.
From stdpp Require Import strings.
From S2P Require Import Prelude Helper Types Upgrade VmDb IteratorSpec AccountQuota Builtin SbpStats AccountBlock Machine Vm Abi AbiSpec.
From S2P Require Import ContractUtil ContractSpec AssetContract TimeIndex GovernanceContract RewardSpec VmSpec BuiltinSpec ContractVmSpec AssetSpec AssetVmSpec.
From S2P Require Import GovernanceSpec GovernanceCallSpec GovernanceRefinement.
#[local] Open Scope Z_scope.
#[local] Opaque ABIGovernance ABIAsset UnpackMethod PackMethod.

(** The owner of a registration. *)
Section Owner.
Context (Hash256 : bytes -> bytes) (box : upgradeBox) (reader : ConsensusReader).

(** C26 A producer gets its stake back.  Once the lock-up has passed, a request by
    the owner to revoke an active registration never fails: the contract sends exactly
    the stake to the owner, and the register holds the registration as revoked with
    nothing staked. *)
Theorem expired_stake_repaid h db sb cur R V block s status name gid n r a :
  gov_calling Hash256 reader h db sb cur R V s status -> revoke_names Hash256 s name gid n ->
  R !! GetRegistrationInfoKey Hash256 n gid = Some r -> IsActive r = true -> rg_StakeAddress r = AccountAddress s ->
  rg_ExpirationHeight r <= sb_Height cur -> rg_Amount r = Some a -> 0 < a ->
  exists db' r', DoReceive (MethodRevoke Hash256 box reader name) db block s status =
      (Ok [sendLiteral block (AccountAddress s) BlockTypeSendCall (Some a) ViteTokenId []], db', block) /\
    governed Hash256 (h + 1) (view_of db') (<[GetRegistrationInfoKey Hash256 n gid := r']> R) V /\
    rg_Name r' = rg_Name r /\ rg_StakeAddress r' = rg_StakeAddress r /\ rg_Amount r' = Some 0 /\ rg_RevokeTime r' = sb_Timestamp cur /\
    (sb_Timestamp cur <> 0 -> IsActive r' = false).
Proof.
  intros Hc Hn Er Eact Eown Hexp Ea Ha.
  destruct (Revoke_succeeds Hash256 box reader h db sb cur R V block s status Hc name gid n r Hn Er Eact Eown Hexp) as (db' & b & a' & _ & Ea' & E & HG & _).
  rewrite Ea in Ea'; injection Ea' as <-; destruct (Z.ltb_spec 0 a); [|lia].
  eexists db', _; split; [cbn [DoReceive MethodRevoke]; unfold receive_with; rewrite E; reflexivity|]; split; [exact HG|].
  destruct (IsEarthUpgrade _ _); split_and!; try reflexivity; intros Ht; by apply Z.eqb_neq.
Qed.

(** C29 Withdrawing before the first cycle is over moves the reward time back.  In
    the cycle in which a producer has registered, the contract accepts a withdrawal of the reward, pays nothing, and
    stores the registration with a reward time that is the start of that cycle, or earlier.  The reward that the stored registration has
    at a later time is more than the one that the registration would have had: it has also the rewards of the cycles before the
    first one that starts after the registration.  The statistics are those of whole days. *)
Theorem early_withdrawal_moves_back g last stats h db db2 sb cur cur2 R V block s status name n to r leaf leaf2 tf :
  gov_calling Hash256 reader h db sb cur R V s status -> reward_names Hash256 s name n to ->
  R !! GetRegistrationInfoKey Hash256 n SNAPSHOT_GID = Some r -> IsActive r = true ->
  AccountAddress s = rg_StakeAddress r \/ AccountAddress s = rg_RewardWithdrawAddress r ->
  reads_days reader g last stats -> upgrade_known box g last db leaf tf -> upgrade_known box g last db2 leaf2 tf ->
  due_at g last r cur -> due_at g last r cur2 ->
  let middle := g + 86400 * cycles_before g (sb_Timestamp cur - 3600) in
  let from := first_cycle g middle in
  let first := first_cycle g (rg_RewardTime r) in
  middle < rg_RewardTime r -> first <= cycles_before g (sb_Timestamp cur2 - 3600) ->
  exists db' r', DoReceive (MethodWithdrawReward Hash256 box reader name) db block s status = (Ok [], db', block) /\
    governed Hash256 (h + 1) (view_of db') (<[GetRegistrationInfoKey Hash256 n SNAPSHOT_GID := r']> R) V /\
    rg_Name r' = rg_Name r /\ rg_StakeAddress r' = rg_StakeAddress r /\ rg_RewardTime r' = middle /\ from < first /\
    exists s2 r2 s1 r1 e, CalcReward box reader db2 r' (Some cur2) = Ok (s2, e, Some r2, false) /\ CalcReward box reader db2 r (Some cur2) = Ok (s1, e, Some r1, false) /\
      rw_TotalReward r2 = rw_TotalReward r1 + zsum (cycle_reward g stats leaf2 tf (rg_Name r)) (seqZ from (first - from)).
Proof.
  intros Hc Hn Er Ha Hown Hr Hu Hu2 Hd Hd2 middle from first Hm Hdue; set (r' := saved (IsEarthUpgrade box (sb_Height sb)) (set_RewardTime r middle)).
  destruct (early_reward box reader g last stats Hr db db2 leaf leaf2 tf r r' cur cur2) as (Hlt & s1 & r1 & s2 & r2 & s3 & r3 & e & E1 & Z1 & E2 & E3 & T); try assumption.
  { unfold r'; by destruct (IsEarthUpgrade _ _). }
  { unfold r'; by destruct (IsEarthUpgrade _ _). }
  { unfold r'; by destruct (IsEarthUpgrade _ _). }
  assert (0 <= g) by apply Hr; assert (0 <= middle) by (unfold middle, cycles_before; lia).
  destruct (reward_time_moves Hash256 box reader h db sb cur R V block s status Hc name n to r s1 middle r1) as (db' & E & HG); try assumption; [lia|lia|].
  exists db', r'; split; [cbn [DoReceive MethodWithdrawReward]; unfold receive_with; rewrite E; reflexivity|].
  split_and!; [exact HG|unfold r'; destruct (IsEarthUpgrade _ _); reflexivity..|exact Hlt|exists s2, r2, s3, r3, e; split_and!; assumption].
Qed.
End Owner.

Section Machine.
Context (Hash256 Hash10 : bytes -> bytes) (box : upgradeBox) (reader : ConsensusReader).
Context (Hsel : abi_selectors (ABIGovernance Hash256)) (Hselasset : abi_selectors (ABIAsset Hash256)).
Context (n : node) `{Laws : !BuiltinLaws n}.
Context (Hasset : forall g, n_contracts n g AddressAsset = Some (assetContract Hash256 Hash10 box g)).
Context (Hgov : forall g, n_contracts n g AddressGovernance = Some (governanceContract Hash256 box reader g)).
Abbreviation ABI := (ABIGovernance Hash256).
Abbreviation register := (gmap bytes Registration).
Abbreviation ballot := (gmap bytes bytes).

(** ** The methods *)

Lemma gov_method_known name p : is_gov_method Hash256 box reader name p -> assoc name (earthGovernance Hash256 box reader) = Some p.
Proof.
  intros [nm Hn|nm Hn|nm Hn|nm Hn| |nm Hn|nm Hn]; try reflexivity; rewrite ?elem_of_cons, elem_of_nil in Hn;
    repeat (destruct Hn as [->|Hn]; [reflexivity|]); destruct Hn.
Qed.

#[local] Instance governance_table : MethodTable ABI (governanceContract Hash256 box reader).
Proof.
  apply (Build_MethodTable _ _ (is_gov_method Hash256 box reader)).
  - intros g sel p; apply gov_method_cases.
  - intros name p p' Hp%gov_method_known Hp'%gov_method_known; rewrite Hp in Hp'; congruence.
  - intros name p s [nm Hn|nm Hn|nm Hn|nm Hn| |nm Hn|nm Hn] Hs.
    + apply send_data_accepted in Hs; by apply (Register_accepted _ Hsel).
    + apply send_data_accepted in Hs; by apply (Revoke_accepted _ Hsel).
    + apply send_data_accepted in Hs; by apply (WithdrawReward_accepted _ Hsel).
    + apply send_data_accepted in Hs; by apply (UpdateProducing_accepted _ Hsel).
    + apply send_data_accepted in Hs; by apply (UpdateWithdraw_accepted _ Hsel).
    + apply (send_data_accepted_in (Vote_send Hash256 box nm)) in Hs as (d & Hs); by eapply (Vote_accepted _ _ Hsel).
    + apply (send_data_accepted_in (CancelVote_send Hash256 box nm)) in Hs as (d & Hs); by eapply (CancelVote_accepted _ _ Hsel).
Defined.

(** ** The stakes *)

Definition staked (R : register) : Z := msum (fun _ r => default 0 (rg_Amount r)) R.

Lemma saved_amount earth r : rg_Amount (saved earth r) = rg_Amount r.
Proof. by destruct earth. Qed.

(** A change of the register stakes at most what the request brought, less what is repaid. *)
Lemma step_staked h view db sb cur block s R V q R' V' l : sbp_step Hash256 box reader db sb cur block s R V q R' V' l -> governed Hash256 h view R V ->
  0 <= default 0 (Amount s) -> staked R' + asked l ViteTokenId <= staked R + coins (TokenId s) (default 0 (Amount s)) ViteTokenId.
Proof.
  intros Hst HG Ha; assert (Hc : 0 <= coins (TokenId s) (default 0 (Amount s)) ViteTokenId) by (unfold coins; case_decide; lia).
  assert (Hput : forall k r r', R !! k = Some r -> rg_Amount r' = rg_Amount r -> staked (<[k := r']> R) = staked R).
  { intros k r r' E Er; unfold staked; rewrite msum_update, E, Er; simpl; lia. }
  destruct Hst as [gid nm bp wd group height Ea Et Hvac _ _ _|gid nm r a b Er _ _ _ Ea _|nm to r st e rew b l Er _ _ _ t _ Hl| |gid nm bp r Er _ _ _ _|nm wd r Er _ _ _|gid nm group r _ Er _|gid].
  - unfold staked; rewrite msum_update, saved_amount; cbn [rg_Amount]; change (asked [] ViteTokenId) with 0; rewrite Et; unfold coins; rewrite decide_True by reflexivity.
    destruct (R !! _) as [r|] eqn:Er; simpl; [|lia]; destruct (Hvac r eq_refl) as (Hact & _); rewrite (gv_idle _ _ _ _ _ HG _ _ Er Hact); simpl; lia.
  - unfold staked; rewrite msum_update, saved_amount, Er; cbn [revoked rg_Amount default from_option]; rewrite Ea.
    destruct (Z.ltb_spec 0 a); [|cbn; destruct (gv_reg _ _ _ _ _ HG _ _ Er) as (_ & [(a' & Ea' & ?) _ _ _ _ _ _ _ _] & _); rewrite Ea in Ea'; injection Ea' as <-; lia].
    unfold asked; rewrite zsum_cons; unfold asks, coins at 1; cbn; rewrite decide_True by reflexivity; lia.
  - rewrite (Hput _ r) by (done || by rewrite saved_amount); destruct Hl as [[-> _]|(rw & data & _ & _ & _ & ->)]; [change (asked [] ViteTokenId) with 0; lia|].
    unfold asked; rewrite zsum_cons; unfold asks; cbn; rewrite coins_zero; lia.
  - change (asked [] ViteTokenId) with 0; lia.
  - rewrite (Hput _ r) by (done || by rewrite saved_amount); change (asked [] ViteTokenId) with 0; lia.
  - rewrite (Hput _ r) by done; change (asked [] ViteTokenId) with 0; lia.
  - change (asked [] ViteTokenId) with 0; lia.
  - change (asked [] ViteTokenId) with 0; lia.
Qed.

(** To issue a reward costs nothing. *)
Lemma reissue_free data name vs : name ∈ asset_names MReIssue -> PackMethod (ABIAsset Hash256) name vs = Ok data -> free_call n AddressAsset data.
Proof.
  intros Hn Hp g f p b fee Hf Hfp Hfee; rewrite Hasset in Hf; injection Hf as <-; apply asset_method_cases in Hfp as (m & Hid & Hm).
  pose proof (PackMethod_selects _ _ _ _ _ (asset_abi_ok _ Hselasset) (asset_names_nonempty _ _ Hn) (asset_methods_defined Hash256 _ _ Hn) Hp) as Hid'.
  rewrite Hid in Hid'; injection Hid' as ->; cbn [newMethod md_Name] in Hm; apply asset_method_known in Hm.
  rewrite (asset_method_known Hash256 Hash10 box name (MethodReIssue Hash256 name)) in Hm by (by apply is_ReIssue); injection Hm as <-; by injection Hfee.
Qed.

Lemma gov_step_free vm db sb cur block s R V q R' V' l : sbp_step Hash256 box reader db sb cur block s R V q R' V' l -> vm_node vm = n ->
  free_calls n (AccountAddress s) -> Forall (free_request vm) l.
Proof.
  intros Hst En Hf; destruct Hst as [|gid nm r a b _ _ _ _ _ _|nm to r st e rew b l _ _ _ _ t _ Hl| | | | |]; try constructor.
  - destruct (0 <? a); repeat constructor; intros _; rewrite En; apply Hf.
  - destruct Hl as [[-> _]|(rw & data & _ & _ & Hp & ->)]; repeat constructor; intros _; rewrite En; eapply reissue_free; [|exact Hp].
    destruct (IsLeafUpgrade _ _); [apply list_elem_of_further|]; apply list_elem_of_here.
Qed.

(** ** A block of the contract *)

(** The block that receives request [s] in database [d], and its outcome [d'] with the sent blocks. *)
Record gov_received (d : vmDb) (block s : AccountBlock) (err : option vm_err) (sends : list AccountBlock) (d' : vmDb) : Prop := {
  gr_run : exists gs sb cur r c' b', db_LatestSnapshotBlock d = Ok sb /\ gs_SnapshotBlock gs = Some cur /\ is_i64 (sb_Timestamp cur) /\
    RunV2 n d block (Some s) (Some gs) = Done r c' /\ vr_block r = Some b' /\ vr_err r = err /\ SendBlockList b' = sends /\ vc_db c' = d';
  gr_block : IsReceiveBlock (BlockType block) = true /\ SendBlockList block = [] /\ AccountAddress block = AddressGovernance /\ db_address d = AddressGovernance;
  gr_call : BlockType s = BlockTypeSendCall /\ sent_request n AddressGovernance s /\ 0 <= default 0 (Amount s);
  gr_sender : length (AccountAddress s) = 21%nat /\ free_calls n (AccountAddress s);
  gr_data : len (Data s) < 2 ^ 63;
  gr_reads : reads_work reader d;
}.

(** The contract holds a register whose stakes it owns. *)
Definition covered (h : Z) (view : bytes -> bytes) (d : vmDb) : Prop := exists R V bal,
  governed Hash256 h view R V /\ db_GetBalance d ViteTokenId = Ok bal /\ staked R <= bal.

Lemma reads_rest d d1 : rest_same d d1 -> reads_work reader d -> reads_work reader d1.
Proof.
  intros [(Hc & _ & Hl & _) _ _ _] [H1 H2 H3 H4]; split; [|intros x|exact H3|]; unfold db_LatestSnapshotBlock, db_GetSnapshotBlockByHeight, db_GetGenesisSnapshotBlock in *; rewrite ?Hc, ?Hl; auto.
Qed.

(** The register and the balance after a block. *)
Lemma gov_received_keeps h d block s err sends d' : gov_received d block s err sends d' -> 0 <= h -> h + 1 < 2 ^ 50 ->
  uns d = NewUnsaved -> db_ready d -> covered h (view_of d) d -> covered (h + 1) (committed d') d'.
Proof.
  intros [(gs & sb & cur & r & c' & b' & Hsb & Hcur & Htime & HR & Hb & <- & <- & <-) (Hr & Hnil & Hac & Had) (Hbt & Hreq & Ha0) [Hls Hfree] Hdata Hreads] Hh Hh50 Hfresh Hdb (R & V & bal & HG & Hbal & Hcov).
  assert (Hcall : forall d1 a, rest_same d d1 -> db_ready d1 -> Amount s = Some a -> gov_calling Hash256 reader h d1 sb cur R V s (Some gs)).
  { intros d1 a Hr1 Hd1 Ea; destruct (rs_handle _ _ Hr1) as (Hc & Haddr & Hl & _); split; try assumption; [congruence| |by split|by exists a| |by exists gs|by eapply reads_rest].
    - apply (governed_later _ h h (view_of d)); [intros k; by apply rest_view|lia|exact HG].
    - unfold db_LatestSnapshotBlock in *; by rewrite Hc, Hl. }
  assert (Hkept : (forall k, committed (vc_db c') k = view_of d k) -> governed Hash256 (h + 1) (committed (vc_db c')) R V).
  { intros Hv; apply (governed_later _ h _ (view_of d)); [exact Hv|lia|exact HG]. }
  pose proof (block_ends n AddressGovernance Hgov d block s (Some gs) sb r c' b' Hsb HR Hb Hr Hnil Hac Hbt Hreq Hfree Hfresh Hdb) as Hend.
  destruct Hend as [a Ea Hv Hm _|vm g p a bs l d2 En Eq Hacp Ea Ebs Edr Hv Hsent Hm|e Hv Hm Hp].
  - intros g p d1 Eq Hacp Hr1 Hdb1 (a & b & Ea & _); unfold well_behaved.
    destruct (governance_call_refines _ _ _ Hsel _ _ _ _ _ _ _ _ _ (set_Data (Copy block) []) _ _ Eq (Hcall _ _ Hr1 Hdb1 Ea) Hacp) as (m & q & _ & _ & Hout).
    destruct (DoReceive p d1 _ s _) as [[[l|e|] d2] b2]; [destruct Hout as [(R' & V' & _ & _ & Hdb2 & Hso & _) ->]|destruct Hout as [[Hso _] ->]|exact Hout].
    + split_and!; [apply Hdb2|apply (storage_only_moves _ _ Hso)|reflexivity].
    + split; [apply (storage_only_moves _ _ Hso)|reflexivity].
  - exists R, V, (bal + coins (TokenId s) a ViteTokenId); split_and!; [by apply Hkept|by apply (moved d)|].
    unfold coins; case_decide; rewrite Ea in Ha0; simpl in Ha0; lia.
  - set (d1 := db_SetBalance d (TokenId s) (bs + a)) in *; assert (Hr1 : rest_same d d1) by apply rest_SetBalance.
    destruct (governance_call_refines _ _ _ Hsel _ _ _ _ _ _ _ _ _ (set_Data (Copy block) []) _ _ Eq (Hcall _ _ Hr1 (rest_ready _ _ Hr1 Hdb) Ea) Hacp) as (m & q & _ & _ & Hout).
    rewrite Edr in Hout; destruct Hout as [(R' & V' & Hst & HG' & _ & Hso & _) _]; cbn [fst snd] in *; destruct (storage_only_moves _ _ Hso) as [Hm2 _].
    pose proof (moves_trans _ _ _ _ _ _ (moves_SetBalance d (TokenId s) bs a Ebs) (moves_trans _ _ _ _ _ _ Hm2 Hm (fun t => eq_refl)) (fun t => eq_refl)) as Hall.
    eexists R', V', _; split_and!; [|exact (moved d _ _ _ _ Hall Hbal)|].
    + apply (governed_later _ (h + 1) _ (view_of d2)); [exact Hv|lia|exact HG'].
    + cbv beta; rewrite (sends_ask vm _ _ _ Hsent) by (by eapply gov_step_free); unfold nothing.
      pose proof (step_staked _ _ _ _ _ _ _ _ _ _ _ _ _ Hst HG Ha0) as Hle; rewrite Ea in Hle; cbn [default from_option id] in Hle; lia.
  - exists R, V, bal; split_and!; [by apply Hkept|rewrite (moved _ _ _ _ _ Hm Hbal); f_equal; apply Z.add_0_r|exact Hcov].
Qed.

(** ** Histories *)

(** The account of the contract, from a state on in which it owns the stakes: the database with which its
    block number [h] starts. *)
Inductive gov_history : Z -> vmDb -> Prop :=
| gh_start h d : 0 <= h -> uns d = NewUnsaved -> db_ready d -> covered h (view_of d) d -> gov_history h d
| gh_block h d block s err sends d' d2 : gov_history h d -> h + 1 < 2 ^ 50 -> gov_received d block s err sends d' ->
    persisted (eq ViteTokenId) d' d2 -> gov_history (h + 1) d2.

(** C7 The governance contract can always repay the stakes, and a producing address has
    one owner.  In every state that blocks of the virtual machine can bring its account
    to, whatever accounts called it with, whether the calls failed or succeeded and
    whatever upgrades happened between, the storage holds a register of well-formed
    registrations whose stakes sum to at most the VITE that the contract owns, and no
    address with which one registration of a consensus group has produced is that of another. *)
Theorem stakes_covered h d : gov_history h d ->
  exists R V bal, governed Hash256 h (view_of d) R V /\ db_GetBalance d ViteTokenId = Ok bal /\ staked R <= bal /\
    forall k1 r1 k2 r2 a, R !! k1 = Some r1 -> R !! k2 = Some r2 -> a ∈ rg_HisAddrList r1 -> a ∈ rg_HisAddrList r2 -> take 10 k1 = take 10 k2 -> k1 = k2.
Proof.
  intros H; enough (0 <= h /\ uns d = NewUnsaved /\ db_ready d /\ covered h (view_of d) d) as (_ & _ & _ & R & V & bal & HG & Hb & Hc).
  { exists R, V, bal; split_and!; [done..|]; intros k1 r1 k2 r2 a; by apply (producers_differ _ _ _ _ _ _ _ _ _ _ HG). }
  induction H as [h d Hh Hf Hd Hc|h d block s err sends d' d2 _ (Hh & Hf & Hd & Hc) H50 Hr [Pf Pr Pv Pb]]; [done|].
  destruct (gov_received_keeps _ _ _ _ _ _ _ Hr Hh H50 Hf Hd Hc) as (R & V & bal & HG & Hb & Hle).
  split_and!; [lia|done..|]; exists R, V, bal; split_and!; [|by rewrite Pb|done].
  by apply (governed_later _ (h + 1) (h + 1) (committed d')).
Qed.

End Machine.
