(* ===== verification/GovernanceWitness.v ===== *)
(** The theorems about the governance contract at work: the rewards of some days, a
    registration with its history, its revocation and the queries, on the concrete chain of [ContractWorld]. *)
From Stdlib Require Import ZifyBool Ascii String Sorted.
From stdpp Require Import strings sorting.
From S2P Require Import Prelude Helper Types Upgrade QuotaTable VmDb Iterator IteratorSpec AccountQuota Builtin AccountBlock TimeIndex SbpStats CreateData.
From S2P Require Import Machine Vm World Abi AbiSpec ContractUtil ContractSpec AssetContract GovernanceContract ContractWorld VmSpec BuiltinSpec ContractVmSpec AssetSpec ContractWorldSpec AssetVmSpec.
From S2P Require Import RewardSpec WithdrawNames GovernanceSpec GovernanceCallSpec GovernanceQueries GovernanceRefinement GovernanceVmSpec.
#[local] Open Scope Z_scope.

(** ** Rewards *)

Definition producer : bytes := list_byte_of_string "s1".

(** Two producers on each of the first four days. *)
Definition day_of (i : Z) : DayStats :=
  mkDayStats i (<[producer := mkSbpStats i 40 50 (Some 1000) producer]> {[list_byte_of_string "s2" := mkSbpStats i 50 50 (Some 3000) (list_byte_of_string "s2")]})
    (Some 4000) 90.
Definition days (i : Z) : option DayStats := if (0 <=? i) && (i <? 4) then Some (day_of i) else None.

Definition example_reader : ConsensusReader :=
  mkReader (mkTimeIndex 0 (86400 * Second)) (fun a b => Ok (omap days (seqZ a (b - a + 1)))).

Lemma day_of_ok i : day_ok (day_of i).
Proof.
  split; [|vm_compute; reflexivity|vm_compute; discriminate].
  intros name s; cbn [day_of ds_Stats]; intros [(<- & <-)|(_ & [<- <-]%lookup_singleton_Some)]%lookup_insert_Some;
    (split; [cbn; lia|by eexists]).
Qed.

Lemma example_reads : reads_days example_reader 0 10 days.
Proof.
  split; [split; reflexivity || (vm_compute; split; reflexivity) || (vm_compute; reflexivity)|lia|reflexivity|].
  intros i d; unfold days; destruct (_ && _); intros [= <-]; split; [reflexivity|apply day_of_ok].
Qed.

Definition governance_db (bal : TokenTypeId -> Z) (m : gmap bytes bytes) : vmDb := contract_storage AddressGovernance bal m.
Definition rewards_db : vmDb := governance_db (fun _ => 0) ∅.

Lemma example_upgrade bal m : upgrade_known example_box 0 10 (governance_db bal m) true 0.
Proof.
  split; [reflexivity|eexists; split; [reflexivity|vm_compute; reflexivity]|]; intros _; split; [lia|].
  assert (E : match getUpgradePoint example_box 5 with Some p => (1 <=? up_Height p) && (up_Height p <=? 100) | None => false end = true) by (vm_compute; reflexivity).
  destruct (getUpgradePoint example_box 5) as [p|]; [|discriminate E]; exists p, (mkSnapshotBlock ZERO_HASH (up_Height p) 0).
  split_and!; [reflexivity| |reflexivity]; cbv [db_GetSnapshotBlockByHeight governance_db contract_storage NewVmDb chain storage_chain ch_GetSnapshotBlockByHeight example_chain].
  by rewrite E.
Qed.

(** A registration in the second half of day one, and snapshot blocks on the same day, on day three and on day four. *)
Definition late : Registration :=
  mkRegistration producer (zero_bytes 21) (zero_bytes 21) (zero_bytes 21) (Some SbpStakeAmountMainnet) 100 130000 0 [zero_bytes 21].
Definition at_time (t : Z) : SnapshotBlock := mkSnapshotBlock ZERO_HASH 100 t.

Lemma late_due t : 0 <= t < 864000 -> due_at 0 10 late (at_time t).
Proof. intros Ht; split; cbn; lia. Qed.

Lemma rewards_exact_witness :
  exists rew drained, CalcReward example_box example_reader rewards_db late (Some (at_time 270000)) = Ok (172800, 259200, Some rew, drained) /\
    rw_TotalReward rew = zsum (cycle_reward 0 days true 0 producer) [2] /\
    (drained = true <-> IsActive late = false /\ 0 + 86400 * cycles_before 0 (rg_RevokeTime late) <= 270000 - 3600).
Proof.
  apply (rewards_exact example_box example_reader 0 10 days example_reads rewards_db true 0 late (at_time 270000) (example_upgrade _ _)); apply late_due; lia.
Defined.

Lemma withdrawals_add_up_witness :
  exists s1 r1 s2 r2 s r12 e drained,
    CalcReward example_box example_reader rewards_db late (Some (at_time 270000)) = Ok (s1, 259200, Some r1, false) /\
    CalcReward example_box example_reader rewards_db (timed late 259200 300000) (Some (at_time 400000)) = Ok (s2, e, Some r2, drained) /\
    CalcReward example_box example_reader rewards_db (timed late (rg_RewardTime late) 300000) (Some (at_time 400000)) = Ok (s, e, Some r12, drained) /\
    rw_TotalReward r1 + rw_TotalReward r2 = rw_TotalReward r12.
Proof.
  apply (withdrawals_add_up example_box example_reader 0 10 days example_reads rewards_db rewards_db true true 0 late (at_time 270000) (at_time 400000) 300000
    (example_upgrade _ _) (example_upgrade _ _) (or_introl eq_refl) eq_refl); [apply late_due; lia|split; cbn; lia|cbn; lia|right; cbn; lia|vm_compute; discriminate].
Defined.

(** The chain with a later snapshot block. *)
Definition later_db : vmDb :=
  let ch := storage_chain (fun _ => 0) ∅ in
  NewVmDb (mkChain (ch_GetBalance ch) (ch_GetContractCode ch) (ch_GetContractMeta ch)
    (ch_GetConfirmSnapshotHeaderByAbHash ch) (ch_GetContractMetaInSnapshot ch) (fun _ => Ok (Some (at_time 270000)))
    (ch_GetAccountBlockByHash ch) (ch_GetUnconfirmedBlocks ch) (ch_GetStakeBeneficialAmount ch) (ch_GetValue ch) (ch_GetCallDepth ch)
    (ch_GetQuotaUsedList ch) (ch_GetGlobalQuota ch) (ch_GetConfirmedTimes ch) (ch_GetLatestAccountBlock ch) (ch_GetStorageIterator ch)
    (ch_GetGenesisSnapshotBlock ch) (ch_GetSnapshotBlockByHeight ch)) AddressGovernance ZERO_HASH ZERO_HASH.
Definition first_rewards : gmap bytes Reward :=
  match CalcRewardByIndex example_box example_reader later_db 1 with Ok (Some m) => m | _ => ∅ end.

Lemma first_rewards_computed : CalcRewardByIndex example_box example_reader later_db 1 = Ok (Some first_rewards).
Proof.
  assert (E : match CalcRewardByIndex example_box example_reader later_db 1 with Ok (Some _) => true | _ => false end = true) by (vm_compute; reflexivity).
  unfold first_rewards; destruct (CalcRewardByIndex _ _ _ _) as [[m|]| |]; try discriminate E; reflexivity.
Qed.

Lemma cycle_rewards_bounded_witness :
  (exists stake f, getSnapshotGroupStakeAmount example_box example_reader later_db 0 1 0 = Ok (stake, f) /\
     forall name, first_rewards !! name = reward_of (day_of 1) stake <$> ds_Stats (day_of 1) !! name) /\
  (forall name r, first_rewards !! name = Some r -> 0 <= rw_TotalReward r) /\
  msum (fun _ r => rw_TotalReward r) first_rewards <= rewardPerBlock * 90.
Proof. exact (cycle_rewards_bounded example_box example_reader later_db 1 (day_of 1) [] first_rewards eq_refl (day_of_ok 1) first_rewards_computed). Defined.

(** ** The register with a producer *)

Abbreviation govABI := (ABIGovernance toyHash).
Definition packed {E} (r : outcome E bytes) : bytes := match r with Ok v => v | _ => [] end.

Definition group_value : bytes :=
  packed (PackVariable govABI VariableNameConsensusGroupInfo
    [vUint8 25; vInt64 1; vInt64 3; vUint8 2; vUint8 100; vUint16 1; vUint8 0; VArray ViteTokenId; vUint8 1;
     VBytes (packed (PackVariable govABI VariableNameRegisterStakeParam [vBig SbpStakeAmountMainnet; VArray ViteTokenId; vUint64 20]));
     vUint8 1; VBytes []; VArray someone; vBig 0; vUint64 1]).
Definition group_key : bytes := GetConsensusGroupInfoKey SNAPSHOT_GID.

(** The storage with the snapshot group only, and with a producer who has voted for itself. *)
Definition empty_storage : gmap bytes bytes := {[group_key := group_value]}.
Definition address_one : Address := zero_bytes 19 ++ [x01; x00].
Definition registered : Registration :=
  mkRegistration producer address_one someone someone (Some SbpStakeAmountMainnet) 90 130000 0 [address_one].
Definition registered_key : bytes := GetRegistrationInfoKey toyHash producer SNAPSHOT_GID.
Definition one_register : gmap bytes Registration := {[registered_key := registered]}.
Definition vote_key : bytes := GetVoteInfoKey someone SNAPSHOT_GID.
Definition one_ballot : gmap bytes bytes := {[vote_key := producer]}.
Definition name_key : bytes := GetHisNameKey address_one SNAPSHOT_GID.
Definition one_storage : gmap bytes bytes :=
  <[registered_key := packed (registerInfo toyHash true registered)]>
  (<[name_key := packed (PackVariable govABI VariableNameRegisteredHisName [VString producer])]>
  (<[vote_key := packed (PackVariable govABI VariableNameVoteInfo [VString producer])]> empty_storage)).

Lemma toy_gov_selectors : abi_selectors govABI.
Proof. apply (bool_decide_unpack _); vm_compute; exact I. Qed.

Lemma group_decodes : exists info height, parseConsensusGroup toyHash group_value SNAPSHOT_GID = Ok info /\
  GetRegisterStakeParamOfConsensusGroup toyHash (cg_RegisterConditionParam info) = Ok height.
Proof.
  assert (E : match parseConsensusGroup toyHash group_value SNAPSHOT_GID with
              | Ok info => match GetRegisterStakeParamOfConsensusGroup toyHash (cg_RegisterConditionParam info) with Ok 20 => true | _ => false end
              | _ => false end = true) by (vm_compute; reflexivity).
  destruct (parseConsensusGroup _ _ _) as [info| |]; [|discriminate E..]; exists info.
  destruct (GetRegisterStakeParamOfConsensusGroup _ _) as [height| |]; [|discriminate E..]; by exists height.
Qed.

Lemma group_view gid : length gid = 10%nat -> default [] (empty_storage !! GetConsensusGroupInfoKey gid) = [] \/
  exists info height, parseConsensusGroup toyHash (default [] (empty_storage !! GetConsensusGroupInfoKey gid)) gid = Ok info /\
    GetRegisterStakeParamOfConsensusGroup toyHash (cg_RegisterConditionParam info) = Ok height.
Proof.
  intros _; unfold empty_storage; rewrite lookup_singleton; destruct (decide (group_key = GetConsensusGroupInfoKey gid)) as [E|]; [right|left; reflexivity].
  assert (gid = SNAPSHOT_GID) as -> by (unfold group_key, GetConsensusGroupInfoKey in E; by apply app_inj_1 in E as [_ E]); exact group_decodes.
Qed.

Lemma view_at bal m k : view_of (governance_db bal m) k = default [] (m !! k).
Proof. reflexivity. Qed.

Lemma empty_view bal k : length k <> 11%nat -> view_of (governance_db bal empty_storage) k = [].
Proof.
  intros Hk; rewrite view_at; unfold empty_storage; rewrite lookup_singleton; destruct (decide (group_key = k)) as [<-|]; [exfalso; by apply Hk|reflexivity].
Qed.

Lemma empty_governed bal : governed toyHash 0 (view_of (governance_db bal empty_storage)) ∅ ∅.
Proof.
  pose proof (empty_view bal) as Hv; split; intros *; rewrite ?lookup_empty; try discriminate; [intros Hk _; apply Hv; lia| |intros Hk _; apply Hv; lia|apply group_view].
  intros Ha Hg; left; apply Hv; unfold GetHisNameKey; rewrite length_app; lia.
Qed.

Lemma one_view_at bal k : view_of (governance_db bal one_storage) k =
  if decide (k = registered_key) then packed (registerInfo toyHash true registered)
  else if decide (k = name_key) then packed (PackVariable govABI VariableNameRegisteredHisName [VString producer])
  else if decide (k = vote_key) then packed (PackVariable govABI VariableNameVoteInfo [VString producer])
  else view_of (governance_db bal empty_storage) k.
Proof.
  rewrite !view_at; unfold one_storage; rewrite !lookup_insert.
  destruct (decide (registered_key = k)), (decide (k = registered_key)); try congruence; [reflexivity|].
  destruct (decide (name_key = k)), (decide (k = name_key)); try congruence; [reflexivity|].
  destruct (decide (vote_key = k)), (decide (k = vote_key)); try congruence; reflexivity.
Qed.

Lemma registered_wf : registration_wf 1 registered.
Proof.
  split; [eexists; split; [reflexivity|vm_compute; split; [discriminate|reflexivity]]|vm_compute; discriminate|reflexivity|reflexivity|reflexivity
    |vm_compute; split; [discriminate|reflexivity]| |repeat constructor|vm_compute; discriminate].
  split; (split; [vm_compute; discriminate|vm_compute; reflexivity]).
Qed.

(** The register without the vote, then with it. *)
Lemma one_governed bal : governed toyHash 2 (view_of (governance_db bal one_storage)) one_register one_ballot.
Proof.
  set (v := fun k => if decide (k = vote_key) then [] else view_of (governance_db bal one_storage) k).
  assert (Hrk : length registered_key = 30%nat) by reflexivity; assert (Hnk : length name_key = 31%nat) by reflexivity; assert (Hvk : length vote_key = 32%nat) by reflexivity.
  assert (Hv : forall k, k <> registered_key -> k <> name_key -> length k <> 32%nat -> v k = view_of (governance_db bal empty_storage) k).
  { intros k H1 H2 H3; unfold v; rewrite decide_False, one_view_at, !decide_False by congruence; reflexivity. }
  assert (Hname : v name_key = packed (PackVariable govABI VariableNameRegisteredHisName [VString producer])).
  { unfold v; rewrite decide_False, one_view_at, decide_False, decide_True by (reflexivity || (intros E; apply (f_equal length) in E; discriminate E)); reflexivity. }
  assert (HG : governed toyHash (0 + 1) v (<[registered_key := registered]> ∅) ∅).
  { apply (governed_put toyHash 0 (view_of (governance_db bal empty_storage)) v ∅ ∅ registered_key registered (empty_governed bal)).
    - reflexivity.
    - exact registered_wf.
    - unfold v; rewrite decide_False, one_view_at, decide_True by (reflexivity || (intros E; apply (f_equal length) in E; discriminate E)).
      split; vm_compute; [discriminate|reflexivity].
    - vm_compute; reflexivity.
    - intros E; discriminate E.
    - apply list_elem_of_here.
    - intros r a; rewrite lookup_empty; discriminate.
    - intros a [->|[]%not_elem_of_nil]%elem_of_cons; change (GetHisNameKey address_one (take 10 registered_key)) with name_key; rewrite Hname.
      exists producer; split; [split; vm_compute; [discriminate|reflexivity]|vm_compute; reflexivity].
    - intros k Hk Hne; apply Hv; [exact Hne|intros ->; lia|lia].
    - intros k Hk; destruct Hk as [Hk|Hk]; [|apply Hv; [intros ->; lia|intros ->; lia|lia]]; unfold v; destruct (decide (k = vote_key)) as [->|Hne].
      + symmetry; apply (gv_novote _ _ _ _ _ (empty_governed bal)); [exact Hk|apply lookup_empty].
      + rewrite one_view_at, !decide_False; [reflexivity|exact Hne|intros ->; lia|intros ->; lia].
    - intros a gid Ha Hg; assert (length (GetHisNameKey a gid) = 31%nat) by (unfold GetHisNameKey; rewrite length_app; lia).
      destruct (decide (GetHisNameKey a gid = name_key)) as [E|Hne]; [right|left; apply Hv; [intros E; rewrite E in *; lia|exact Hne|lia]].
      apply app_inj_1 in E as [-> ->]; [|exact Ha]; split_and!; [vm_compute; reflexivity|reflexivity|apply list_elem_of_here]. }
  apply (governed_vote toyHash (0 + 1) v _ _ _ one_ballot vote_key HG Hvk).
  - intros k Hk; unfold v, one_ballot; rewrite decide_False by exact Hk; split; [reflexivity|]; rewrite lookup_singleton_ne, lookup_empty by congruence; reflexivity.
  - unfold one_ballot; rewrite lookup_singleton_eq, one_view_at, !decide_False, decide_True by (reflexivity || (intros E; apply (f_equal length) in E; discriminate E)).
    split; vm_compute; [discriminate|reflexivity].
Qed.
#[local] Opaque one_storage empty_storage.

Lemma example_works bal m : reads_work example_reader (governance_db bal m).
Proof. split; [by eexists|intros h; vm_compute; discriminate|discriminate|]; split; vm_compute; (split; [discriminate|reflexivity]). Qed.

(** ** Queries *)

Lemma election_reads_exact_witness :
  (exists ks, GetCandidateList toyHash (governance_db (fun _ => 0) one_storage) DELEGATE_GID = Ok ((fun k => one_register !! k) <$> ks) /\ StronglySorted blt ks /\
     forall k, k ∈ ks <-> exists r, one_register !! k = Some r /\ take 10 k = SNAPSHOT_GID /\ IsActive r = true) /\
  (exists ks, GetRegistrationList toyHash (governance_db (fun _ => 0) one_storage) DELEGATE_GID someone = Ok ((fun k => one_register !! k) <$> ks) /\ StronglySorted blt ks /\
     forall k, k ∈ ks <-> exists r, one_register !! k = Some r /\ take 10 k = SNAPSHOT_GID /\ rg_StakeAddress r = someone) /\
  exists ks, GetVoteList toyHash (governance_db (fun _ => 0) one_storage) DELEGATE_GID =
      Ok ((fun k => mkVoteInfo (drop 11 k) (default [] (one_ballot !! k))) <$> ks) /\ StronglySorted blt ks /\
     forall k, k ∈ ks <-> exists a n, length a = 21%nat /\ k = GetVoteInfoKey a SNAPSHOT_GID /\ one_ballot !! k = Some n.
Proof.
  exact (election_reads_exact toyHash (governance_db (fun _ => 0) one_storage) 2 one_register one_ballot DELEGATE_GID someone
    (storage_ready _ _ _) eq_refl (one_governed _) eq_refl).
Defined.

(** ** A registration revoked *)

Definition gov_status (t : Z) : option GlobalStatus := Some (mkGlobalStatus (Ok 0) (fun _ => Ok 0) (Some (at_time t))).
Definition revoke_call : AccountBlock :=
  contract_call AddressGovernance govABI (request_hash x01) 0 ViteTokenId 0 MethodNameRevokeV3 [VString producer].
Definition gov_receive : AccountBlock := contract_receive AddressGovernance 1.

Lemma one_calling s t : length (AccountAddress s) = 21%nat -> len (Data s) < 2 ^ 63 -> (exists a, Amount s = Some a) -> is_i64 t ->
  gov_calling toyHash example_reader 2 (governance_db (fun _ => 0) one_storage) (at_time 0) (at_time t) one_register one_ballot s (gov_status t).
Proof.
  intros Hs Hd Ha Ht; split; [apply storage_ready|reflexivity|apply one_governed|lia|exact Hs|exact Hd|exact Ha|reflexivity| |exact Ht|apply example_works].
  eexists; split; reflexivity.
Qed.

Lemma some_time t : 0 <= t < 864000 -> is_i64 t.
Proof. unfold is_i64; lia. Qed.

Lemma revoke_names_one : revoke_names toyHash revoke_call MethodNameRevokeV3 SNAPSHOT_GID producer.
Proof. exists [VString producer]; split_and!; vm_compute; reflexivity. Qed.

Lemma expired_stake_repaid_witness :
  exists db' r', DoReceive (MethodRevoke toyHash example_box example_reader MethodNameRevokeV3) (governance_db (fun _ => 0) one_storage) gov_receive revoke_call (gov_status 150000) =
      (Ok [sendLiteral gov_receive someone BlockTypeSendCall (Some SbpStakeAmountMainnet) ViteTokenId []], db', gov_receive) /\
    governed toyHash 3 (view_of db') (<[registered_key := r']> one_register) one_ballot /\
    rg_Name r' = producer /\ rg_StakeAddress r' = someone /\ rg_Amount r' = Some 0 /\ rg_RevokeTime r' = 150000 /\ (150000 <> 0 -> IsActive r' = false).
Proof.
  apply (expired_stake_repaid toyHash example_box example_reader 2 (governance_db (fun _ => 0) one_storage) (at_time 0) (at_time 150000) one_register one_ballot
    gov_receive revoke_call (gov_status 150000) MethodNameRevokeV3 SNAPSHOT_GID producer registered SbpStakeAmountMainnet).
  - apply one_calling; [reflexivity|vm_compute; reflexivity|by eexists|apply some_time; lia].
  - exact revoke_names_one.
  - apply lookup_singleton_eq.
  - reflexivity.
  - reflexivity.
  - vm_compute; discriminate.
  - reflexivity.
  - vm_compute; reflexivity.
Defined.

Abbreviation gov_contract := (governanceContract toyHash example_box example_reader).
Abbreviation revoke_method := (MethodRevoke toyHash example_box example_reader MethodNameRevokeV3).

Lemma revoke_found : gov_contract earthContracts (Data revoke_call) = Some revoke_method.
Proof.
  assert (E : match MethodById govABI (Data revoke_call) with Ok m => bool_decide (md_Name m = MethodNameRevokeV3) | _ => false end = true) by (vm_compute; reflexivity).
  unfold governanceContract; destruct (MethodById _ _) as [m| |]; [|discriminate..]; apply bool_decide_eq_true in E as ->; reflexivity.
Qed.

Lemma revoke_sent : sent_through revoke_method revoke_call.
Proof.
  assert (E : Revoke_send toyHash MethodNameRevokeV3 revoke_call = Ok (Data revoke_call)) by (vm_compute; reflexivity).
  exists (governance_db (fun _ => 0) ∅), revoke_call, (governance_db (fun _ => 0) ∅), (set_Data revoke_call (Data revoke_call)).
  split; [cbn [DoSend MethodRevoke]; rewrite E; reflexivity|split_and!; reflexivity].
Qed.

Lemma governance_refines_witness :
  exists m q, MethodById govABI (Data revoke_call) = Ok m /\ requests toyHash revoke_call (md_Name m) q /\
  match DoReceive revoke_method (governance_db (fun _ => 0) one_storage) gov_receive revoke_call (gov_status 150000) with
  | (Ok l, db', block') => block' = gov_receive /\ storage_only (governance_db (fun _ => 0) one_storage) db' /\
      exists R' V', sbp_step toyHash example_box example_reader (governance_db (fun _ => 0) one_storage) (at_time 0) (at_time 150000) gov_receive revoke_call one_register one_ballot q R' V' l /\
      governed toyHash 3 (view_of db') R' V' /\
      forall k1 r1 k2 r2 a, R' !! k1 = Some r1 -> R' !! k2 = Some r2 -> a ∈ rg_HisAddrList r1 -> a ∈ rg_HisAddrList r2 -> take 10 k1 = take 10 k2 -> k1 = k2
  | (Err _, db', block') => block' = gov_receive /\ storage_only (governance_db (fun _ => 0) one_storage) db' /\
      refused toyHash example_box example_reader (governance_db (fun _ => 0) one_storage) (at_time 0) (at_time 150000) gov_receive revoke_call one_register one_ballot q
  | (Panic _, _, _) => False
  end.
Proof.
  apply (governance_refines toyHash example_box example_reader toy_gov_selectors earthContracts (Data revoke_call) revoke_method 2 (governance_db (fun _ => 0) one_storage)
    (at_time 0) (at_time 150000) one_register one_ballot gov_receive revoke_call (gov_status 150000) revoke_found); [|exact revoke_sent].
  apply one_calling; [reflexivity|vm_compute; reflexivity|by eexists|apply some_time; lia].
Defined.

(** ** A reward withdrawn early *)

Definition reward_call : AccountBlock :=
  contract_call AddressGovernance govABI (request_hash x01) 0 ViteTokenId 0 MethodNameWithdrawRewardV3 [VString producer; VArray someone].

Lemma reward_names_one : reward_names toyHash reward_call MethodNameWithdrawRewardV3 producer someone.
Proof. exists [VString producer; VArray someone]; split_and!; vm_compute; reflexivity. Qed.

Lemma early_withdrawal_moves_back_witness :
  (exists db' r', DoReceive (MethodWithdrawReward toyHash example_box example_reader MethodNameWithdrawRewardV3) (governance_db (fun _ => 0) one_storage) gov_receive reward_call
      (gov_status 150000) = (Ok [], db', gov_receive) /\
    governed toyHash 3 (view_of db') (<[registered_key := r']> one_register) one_ballot /\
    rg_Name r' = producer /\ rg_StakeAddress r' = someone /\ rg_RewardTime r' = 86400 /\ 1 < 2 /\
    exists s2 r2 s1 r1 e, CalcReward example_box example_reader rewards_db r' (Some (at_time 270000)) = Ok (s2, e, Some r2, false) /\
      CalcReward example_box example_reader rewards_db registered (Some (at_time 270000)) = Ok (s1, e, Some r1, false) /\
      rw_TotalReward r2 = rw_TotalReward r1 + zsum (cycle_reward 0 days true 0 producer) [1]) /\
  0 < zsum (cycle_reward 0 days true 0 producer) [1].
Proof.
  split; [|vm_compute; reflexivity].
  assert (Hd : forall t, 0 <= t < 864000 -> due_at 0 10 registered (at_time t)) by (intros t Ht; split; cbn; lia).
  apply (early_withdrawal_moves_back toyHash example_box example_reader 0 10 days 2 (governance_db (fun _ => 0) one_storage) rewards_db (at_time 0) (at_time 150000) (at_time 270000)
    one_register one_ballot gov_receive reward_call (gov_status 150000) MethodNameWithdrawRewardV3 producer someone registered true true 0).
  - apply one_calling; [reflexivity|vm_compute; reflexivity|by eexists|apply some_time; lia].
  - exact reward_names_one.
  - apply lookup_singleton_eq.
  - reflexivity.
  - left; reflexivity.
  - exact example_reads.
  - apply example_upgrade.
  - apply example_upgrade.
  - apply Hd; lia.
  - apply Hd; lia.
  - vm_compute; reflexivity.
  - vm_compute; discriminate.
Defined.

(** ** A history *)

Definition governance_node : node :=
  mkNode example_box false (InitQuotaConfig false false)
    (fun g a => if bool_decide (a = AddressGovernance) then Some (gov_contract g)
                else if bool_decide (a = AddressAsset) then Some (assetContract toyHash toyHash10 example_box g) else None)
    (fun _ => ZERO_HASH) (fun _ => ZERO_HASH) (fun _ => zero_bytes 20) (fun _ n => n) (fun _ => false) 1000.

#[export] Instance governance_laws : BuiltinLaws governance_node.
Proof.
  split; [intros g a f sel p d b|intros g a f sel p d b d' b']; simpl; (case_bool_decide; [|case_bool_decide; [|done]]); intros [= <-].
  - intros (m & _ & Hm)%gov_method_cases; destruct Hm; apply send_data_db.
  - intros (m & _ & Hm)%asset_method_cases; destruct Hm; apply send_data_db.
  - intros (m & _ & Hm)%gov_method_cases; destruct Hm; apply send_data_block.
  - intros (m & _ & Hm)%asset_method_cases; destruct Hm; apply send_data_block.
Qed.

Definition register_call : AccountBlock :=
  contract_call AddressGovernance govABI (request_hash x01) SbpStakeAmountMainnet ViteTokenId 0 MethodNameRegisterV3
    [VString producer; VArray address_one; VArray someone].

Lemma register_request : sent_request governance_node AddressGovernance register_call.
Proof.
  set (run := sendCall (machineAt governance_node 100 None) register_call false 0 0 (mkContext (contract_storage someone (fun _ => 10 ^ 25) ∅) [])).
  assert (E : match run with
              | Done s _ => bool_decide (Data s = Data register_call /\ Amount s = Amount register_call /\ TokenId s = TokenId register_call)
              | _ => false end = true) by (vm_compute; reflexivity).
  destruct run as [s c'| | |] eqn:Er; try discriminate E; apply bool_decide_eq_true in E as (E1 & E2 & E3).
  exists (machineAt governance_node 100 None), register_call, false, 0, 0, (mkContext (contract_storage someone (fun _ => 10 ^ 25) ∅) []), s, c'.
  split_and!; first [assumption|reflexivity].
Qed.

#[local] Transparent empty_storage.
Definition register_run : exec vm_result := RunV2 governance_node (governance_db (fun _ => 0) empty_storage) gov_receive (Some register_call) (gov_status 0).
Definition register_run_db : vmDb := match register_run with Done _ c => vc_db c | _ => governance_db (fun _ => 0) ∅ end.
Definition register_sends : list AccountBlock :=
  match register_run with Done r _ => match vr_block r with Some b => SendBlockList b | None => [] end | _ => [] end.
Definition registered_db : vmDb :=
  governance_db (fun _ => SbpStakeAmountMainnet) (list_to_map (storageCache (uns register_run_db)) ∪ empty_storage).

Lemma register_gave : gave_block None register_run = true.
Proof. vm_compute; reflexivity. Qed.

Lemma register_received : gov_received example_reader governance_node (governance_db (fun _ => 0) empty_storage) gov_receive register_call None register_sends register_run_db.
Proof.
  destruct (gave_block_Done _ _ register_gave) as (r & c' & b' & E & Eb & Ee); split.
  - exists (mkGlobalStatus (Ok 0) (fun _ => Ok 0) (Some (at_time 0))), (at_time 0), (at_time 0), r, c', b'; unfold register_run_db, register_sends; rewrite E, Eb.
    do 2 (split; [reflexivity|]); split; [split; vm_compute; [discriminate|reflexivity]|]; split; [exact E|].
    split; [reflexivity|]; split; [exact Ee|split; reflexivity].
  - split_and!; reflexivity.
  - split_and!; [reflexivity|exact register_request|vm_compute; discriminate].
  - split; [reflexivity|]; intros data g f p b fee Hc; discriminate Hc.
  - vm_compute; reflexivity.
  - apply example_works.
Qed.

Lemma register_persisted : persisted (eq ViteTokenId) register_run_db registered_db.
Proof.
  assert (E : balanceMap (uns register_run_db) = {[ViteTokenId := SbpStakeAmountMainnet]}) by (apply (bool_decide_unpack _); vm_compute; exact I).
  split; [reflexivity|apply storage_ready|apply storage_next; intros k; vm_compute; reflexivity|].
  intros t <-; unfold db_GetBalance; rewrite E, lookup_singleton_eq; reflexivity.
Qed.

Lemma stakes_covered_witness :
  exists R V bal, governed toyHash 1 (view_of registered_db) R V /\ db_GetBalance registered_db ViteTokenId = Ok bal /\ staked R <= bal /\
    forall k1 r1 k2 r2 a, R !! k1 = Some r1 -> R !! k2 = Some r2 -> a ∈ rg_HisAddrList r1 -> a ∈ rg_HisAddrList r2 -> take 10 k1 = take 10 k2 -> k1 = k2.
Proof.
  apply (stakes_covered toyHash toyHash10 example_box example_reader toy_gov_selectors toy_asset_selectors governance_node); [reflexivity|reflexivity|].
  apply (gh_block toyHash example_reader governance_node 0 (governance_db (fun _ => 0) empty_storage) gov_receive register_call None register_sends register_run_db).
  - apply gh_start; [lia|reflexivity|apply storage_ready|]; exists ∅, ∅, 0; split_and!; [apply empty_governed|reflexivity|unfold staked; rewrite msum_empty; lia].
  - lia.
  - exact register_received.
  - exact register_persisted.
Defined.

(** ** Withdraw addresses *)

Definition withdraw_call : AccountBlock :=
  contract_call AddressGovernance govABI (request_hash x01) 0 ViteTokenId 0 MethodNameUpdateSBPRewardWithdrawAddress [VString producer; VArray address_one].
Abbreviation withdraw_method := (MethodUpdateRewardWithdrawAddress toyHash MethodNameUpdateSBPRewardWithdrawAddress).

Lemma withdraw_named m : MethodById govABI (Data withdraw_call) = Ok m -> md_Name m = MethodNameUpdateSBPRewardWithdrawAddress.
Proof.
  assert (E : match MethodById govABI (Data withdraw_call) with Ok m => bool_decide (md_Name m = MethodNameUpdateSBPRewardWithdrawAddress) | _ => false end = true) by (vm_compute; reflexivity).
  intros Em; rewrite Em in E; by apply bool_decide_eq_true in E.
Qed.

Lemma withdraw_found : gov_contract earthContracts (Data withdraw_call) = Some withdraw_method.
Proof.
  pose proof withdraw_named as E; unfold governanceContract; destruct (MethodById _ _) as [m| |] eqn:Em; [|vm_compute in Em; discriminate Em..].
  rewrite (E m eq_refl); reflexivity.
Qed.

Lemma withdraw_sent : sent_through withdraw_method withdraw_call.
Proof.
  assert (E : UpdateWithdraw_send toyHash MethodNameUpdateSBPRewardWithdrawAddress withdraw_call = Ok (Data withdraw_call)) by (vm_compute; reflexivity).
  exists (governance_db (fun _ => 0) ∅), withdraw_call, (governance_db (fun _ => 0) ∅), (set_Data withdraw_call (Data withdraw_call)).
  split; [cbn [DoSend MethodUpdateRewardWithdrawAddress]; rewrite E; reflexivity|split_and!; reflexivity].
Qed.

(** The producer withdraws for itself at first. *)
Lemma one_listed : listed (view_of (governance_db (fun _ => 0) one_storage)) one_register.
Proof.
  apply listed_none.
  - intros a Ha; rewrite one_view_at, !decide_False by (intros ->; discriminate Ha); by apply empty_view; rewrite Ha.
  - unfold one_register; intros k r [<- <-]%lookup_singleton_Some; split; [reflexivity|]; split; [discriminate|apply (bool_decide_unpack _); vm_compute; exact I].
Qed.

(** Its owner names another withdraw address, which lists it then. *)
Lemma withdraw_lists_exact_witness :
  match DoReceive withdraw_method (governance_db (fun _ => 0) one_storage) gov_receive withdraw_call (gov_status 150000) with
  | (Ok l, db', block') => (exists m q R' V', MethodById govABI (Data withdraw_call) = Ok m /\ requests toyHash withdraw_call (md_Name m) q /\
      sbp_step toyHash example_box example_reader (governance_db (fun _ => 0) one_storage) (at_time 0) (at_time 150000) gov_receive withdraw_call one_register one_ballot q R' V' l /\
      governed toyHash 3 (view_of db') R' V' /\ listed (view_of db') R') /\ names_at (view_of db') address_one = [producer]
  | _ => False
  end.
Proof.
  assert (E : match DoReceive withdraw_method (governance_db (fun _ => 0) one_storage) gov_receive withdraw_call (gov_status 150000) with
              | (Ok _, db', _) => bool_decide (names_at (view_of db') address_one = [producer]) | _ => false end = true) by (vm_compute; reflexivity).
  destruct (DoReceive _ _ _ _ _) as [[[l|e|pn] db'] block'] eqn:Er; try discriminate E; apply bool_decide_eq_true in E; split; [|exact E].
  apply (withdraw_lists_exact toyHash example_box example_reader toy_gov_selectors earthContracts (Data withdraw_call) withdraw_method 2 (governance_db (fun _ => 0) one_storage)
    (at_time 0) (at_time 150000) one_register one_ballot gov_receive withdraw_call (gov_status 150000) l db' block' withdraw_found).
  - apply one_calling; [reflexivity|vm_compute; reflexivity|by eexists|apply some_time; lia].
  - exact withdraw_sent.
  - vm_compute; reflexivity.
  - vm_compute; reflexivity.
  - intros m q Hm%withdraw_named Hq; rewrite Hm in Hq; inversion Hq as [? ? ? ? ? Hn| | | | | |]; subst; try exact I.
    rewrite !elem_of_cons, elem_of_nil in Hn; destruct Hn as [Hn|[Hn|[]]]; discriminate Hn.
  - exact one_listed.
  - exact Er.
Defined.
