(* ===== verification/AssetWitness.v ===== *)
(** The theorems about the asset contract at work: the issue of a token, the
    queries and a history, on the concrete chain of [ContractWorld]. *)
From Stdlib Require Import ZifyBool Ascii String.
From stdpp Require Import strings sorting.
From S2P Require Import Prelude Helper Types Upgrade QuotaTable VmDb Iterator IteratorSpec AccountQuota Builtin AccountBlock CreateData.
From S2P Require Import Machine Vm World Abi AbiSpec ContractUtil ContractSpec AssetContract ContractWorld VmSpec BuiltinSpec ContractVmSpec AssetSpec ContractWorldSpec AssetVmSpec.
#[local] Open Scope Z_scope.

(** ** The registry with VITE *)

Definition ascii_bytes (s : string) : bytes := list_byte_of_string s.
Definition vite_info : TokenInfo :=
  mkTokenInfo (ascii_bytes "Vite Token") (ascii_bytes "VITE") (Some (10 ^ 27)) 18 AddressAsset (Some Tt256m1) false true 0.
Definition vite_key : bytes := GetNextTokenIndexKey toyHash (ascii_bytes "VITE").
Definition packed_or_empty {E} (r : outcome E bytes) : bytes := match r with Ok v => v | _ => [] end.
Definition vite_storage : gmap bytes bytes :=
  <[ViteTokenId := packed_or_empty (packTokenInfo toyHash vite_info)]> (<[AddressAsset := concat ([] ++ [ViteTokenId])]>
    {[vite_key := packed_or_empty (PackVariable (ABIAsset toyHash) VariableNameTokenIndex [vUint16 1])]}).
Definition vite_registry : registry := {[ViteTokenId := vite_info]}.

Definition asset_db (bal : TokenTypeId -> Z) (m : gmap bytes bytes) : vmDb := contract_storage AddressAsset bal m.

Lemma vite_view bal k : view_of (asset_db bal vite_storage) k =
  if decide (k = ViteTokenId) then packed_or_empty (packTokenInfo toyHash vite_info)
  else if decide (k = AddressAsset) then concat ([] ++ [ViteTokenId])
  else if decide (k = vite_key) then packed_or_empty (PackVariable (ABIAsset toyHash) VariableNameTokenIndex [vUint16 1]) else [].
Proof.
  change (view_of (asset_db bal vite_storage) k) with (default [] (vite_storage !! k)); unfold vite_storage; rewrite !lookup_insert, lookup_singleton.
  destruct (decide (ViteTokenId = k)), (decide (k = ViteTokenId)); try congruence; [reflexivity|].
  destruct (decide (AddressAsset = k)), (decide (k = AddressAsset)); try congruence; [reflexivity|].
  destruct (decide (vite_key = k)), (decide (k = vite_key)); try congruence; reflexivity.
Qed.

Lemma vite_tokens bal : tokens toyHash (view_of (asset_db bal vite_storage)) vite_registry.
Proof.
  assert (Hkey : length vite_key = 32%nat) by reflexivity; assert (Hv : length ViteTokenId = 10%nat) by reflexivity.
  assert (Ha : length AddressAsset = 21%nat) by reflexivity; assert (Hne : forall k k' : bytes, length k <> length k' -> k <> k') by congruence.
  apply (issued toyHash (fun _ => []) _ ∅ ViteTokenId vite_info []).
  - by apply tokens_empty.
  - reflexivity.
  - reflexivity.
  - split; try (vm_compute; split; [discriminate|reflexivity]); try (vm_compute; reflexivity); try (vm_compute; split; [reflexivity|split; [discriminate|reflexivity]]).
    all: vm_compute; repeat split; discriminate.
  - reflexivity.
  - split; [constructor|]; intros t; split; [by intros ?%not_elem_of_nil|intros (i & E & _); rewrite lookup_empty in E; discriminate E].
  - reflexivity.
  - intros k Hk Hkt; rewrite vite_view, !decide_False by (assumption || (apply Hne; lia)); reflexivity.
  - rewrite vite_view, decide_True by reflexivity; split; vm_compute; [discriminate|reflexivity].
  - intros o Ho; rewrite vite_view, (decide_False (P := o = ViteTokenId)), (decide_False (P := o = vite_key)) by (apply Hne; lia); reflexivity.
  - intros k Hk Hkk; rewrite vite_view, !decide_False by (assumption || (apply Hne; lia)); reflexivity.
  - rewrite vite_view, !decide_False, decide_True by (reflexivity || (apply Hne; vm_compute; discriminate)); vm_compute; reflexivity.
Qed.
#[local] Opaque vite_storage.

(** ** The issue of a token *)

Definition issue_call : AccountBlock :=
  contract_call AddressAsset (ABIAsset toyHash) (request_hash x01) 0 ViteTokenId issueFee MethodNameIssueV2
    [VBool true; VString (ascii_bytes "Test Token"); VString (ascii_bytes "TEST"); vBig (10 ^ 20); vUint8 18; vBig (10 ^ 21); VBool false].
Definition asset_receive : AccountBlock := contract_receive AddressAsset 1.

Abbreviation issue_method := (MethodIssue toyHash toyHash10 example_box MethodNameIssueV2).

Lemma issue_found : assetContract toyHash toyHash10 example_box earthContracts (Data issue_call) = Some issue_method.
Proof.
  assert (E : match MethodById (ABIAsset toyHash) (Data issue_call) with Ok m => bool_decide (md_Name m = MethodNameIssueV2) | _ => false end = true)
    by (vm_compute; reflexivity).
  unfold assetContract; destruct (MethodById _ _) as [m| |]; [|discriminate..]; apply bool_decide_eq_true in E as ->; reflexivity.
Qed.

Lemma issue_sent : sent_through issue_method issue_call.
Proof.
  assert (E : Issue_send toyHash example_box MethodNameIssueV2 (asset_db (fun _ => 0) ∅) issue_call = Ok (Data issue_call)) by (vm_compute; reflexivity).
  exists (asset_db (fun _ => 0) ∅), issue_call, (asset_db (fun _ => 0) ∅), (set_Data issue_call (Data issue_call)).
  split; [cbn [DoSend MethodIssue]; rewrite E; reflexivity|split_and!; reflexivity].
Qed.

Lemma issue_calling : asset_calling toyHash (asset_db (fun _ => 0) vite_storage) vite_registry issue_call.
Proof.
  split; [apply storage_ready|reflexivity|apply vite_tokens|reflexivity|reflexivity|reflexivity|by eexists|by eexists|].
  intros i; unfold vite_registry; change (TokenId issue_call) with ViteTokenId; rewrite lookup_singleton_eq; intros [= <-]; vm_compute; discriminate.
Qed.

Lemma asset_refines_witness :
  match DoReceive issue_method (asset_db (fun _ => 0) vite_storage) asset_receive issue_call (at_height 100) with
  | (Ok l, db', block') => asset_called toyHash (asset_db (fun _ => 0) vite_storage) vite_registry asset_receive issue_call (db', l) /\ block' = asset_receive
  | (Err _, db', block') => db' = asset_db (fun _ => 0) vite_storage /\ block' = asset_receive
  | (Panic _, _, _) => False
  end.
Proof.
  exact (asset_refines toyHash toyHash10 example_box toy_asset_selectors earthContracts (Data issue_call) issue_method
    (asset_db (fun _ => 0) vite_storage) vite_registry asset_receive issue_call (at_height 100) issue_found issue_calling issue_sent).
Defined.

Lemma token_queries_exact_witness :
  GetTokenMap toyHash (asset_db (fun _ => 0) vite_storage) = Ok vite_registry /\
  GetTokenMapByOwner toyHash (asset_db (fun _ => 0) vite_storage) AddressAsset =
    Ok (Some <$> filter (fun ti => ti_Owner ti.2 = AddressAsset) vite_registry).
Proof.
  apply (token_queries_exact toyHash (asset_db (fun _ => 0) vite_storage) vite_registry AddressAsset);
    [apply storage_ready|reflexivity|apply vite_tokens|reflexivity].
Defined.

(** ** A history *)

Definition vite_circulation (t : TokenTypeId) : Z := if decide (t = ViteTokenId) then 10 ^ 27 else 0.

Lemma issue_request : sent_request contract_node AddressAsset issue_call.
Proof.
  set (run := sendCall (machineAt contract_node 100 None) issue_call false 0 0 (mkContext (contract_storage someone (fun _ => 10 ^ 22) ∅) [])).
  assert (E : match run with
              | Done s _ => bool_decide (Data s = Data issue_call /\ Amount s = Amount issue_call /\ TokenId s = TokenId issue_call)
              | _ => false end = true) by (vm_compute; reflexivity).
  destruct run as [s c'| | |] eqn:Er; try discriminate E; apply bool_decide_eq_true in E as (E1 & E2 & E3).
  exists (machineAt contract_node 100 None), issue_call, false, 0, 0, (mkContext (contract_storage someone (fun _ => 10 ^ 22) ∅) []), s, c'.
  split_and!; first [assumption|reflexivity].
Qed.

#[local] Transparent vite_storage.
Definition issue_run : exec vm_result := RunV2 contract_node (asset_db (fun _ => 0) vite_storage) asset_receive (Some issue_call) (at_height 100).
Definition issue_run_db : vmDb := match issue_run with Done _ c => vc_db c | _ => asset_db (fun _ => 0) ∅ end.
Definition issue_sends : list AccountBlock :=
  match issue_run with Done r _ => match vr_block r with Some b => SendBlockList b | None => [] end | _ => [] end.
Definition issued_db : vmDb := asset_db (fun _ => 0) (list_to_map (storageCache (uns issue_run_db)) ∪ vite_storage).

Lemma issue_gave : gave_block None issue_run = true.
Proof. vm_compute; reflexivity. Qed.

Lemma issue_received : asset_received contract_node vite_circulation (asset_db (fun _ => 0) vite_storage) asset_receive issue_call None issue_sends issue_run_db.
Proof.
  destruct (gave_block_Done _ _ issue_gave) as (r & c' & b' & E & Eb & Ee); split.
  - exists (at_height 100), (mkSnapshotBlock ZERO_HASH 100 0), r, c', b'; unfold issue_run_db, issue_sends; rewrite E, Eb.
    split_and!; first [assumption|reflexivity].
  - split_and!; reflexivity.
  - split_and!; [reflexivity|exact issue_request|vm_compute; discriminate].
  - split; [reflexivity|exact users_free].
  - split; reflexivity.
  - intros t; unfold refund_of, vite_circulation, coins; change (TokenId issue_call) with ViteTokenId.
    destruct (decide (t = ViteTokenId)); vm_compute; discriminate.
Qed.

Lemma issue_persisted : persisted (fun _ => True) issue_run_db issued_db.
Proof.
  assert (E : balanceMap (uns issue_run_db) = {[ViteTokenId := 0]}) by (apply (bool_decide_unpack _); vm_compute; exact I).
  assert (Ec : forall t, ch_GetBalance (chain issue_run_db) (db_address issue_run_db) t = Ok 0) by (intros ?; vm_compute; reflexivity).
  split; [reflexivity|apply storage_ready|apply storage_next; intros k; vm_compute; reflexivity|].
  intros t _; unfold db_GetBalance; rewrite E, Ec, lookup_singleton; destruct (decide (ViteTokenId = t)); reflexivity.
Qed.

Lemma supply_is_circulation_witness :
  (exists T, tokens toyHash (view_of issued_db) T /\
    forall t, exists bal, db_GetBalance issued_db t = Ok bal /\ 0 <= bal /\ 0 <= circulation vite_circulation issue_call issue_sends t /\
      bal + circulation vite_circulation issue_call issue_sends t <= recorded T t /\
      (t <> ViteTokenId -> bal + circulation vite_circulation issue_call issue_sends t = recorded T t)) /\
  paid issue_sends (newTokenID toyHash10 someone 1 (request_hash x01)) = 10 ^ 20.
Proof.
  split; [|vm_compute; reflexivity].
  apply (supply_is_circulation toyHash toyHash10 example_box toy_asset_selectors contract_node); [reflexivity|].
  apply (ah_block toyHash contract_node vite_circulation (asset_db (fun _ => 0) vite_storage) asset_receive issue_call None issue_sends issue_run_db).
  - apply (ah_start toyHash contract_node vite_circulation _ vite_registry (fun _ => 0)); [reflexivity|apply storage_ready|apply vite_tokens|intros t; reflexivity|].
    intros t; unfold recorded, vite_registry, vite_circulation; destruct (decide (t = ViteTokenId)) as [->|Hne].
    + rewrite lookup_singleton_eq; split_and!; [lia|vm_compute; discriminate|vm_compute; discriminate|done].
    + rewrite lookup_singleton_ne by congruence; lia.
  - exact issue_received.
  - exact issue_persisted.
Defined.
