(* ===== verification/VmTermination.v ===== *)
(** Every block is processed in a bounded number of interpreter rounds: of all
    that [RunV2] does, only the interpreter loop needs fuel, and the quota it
    gets is limited per block. *)
From S2P Require Import Prelude Helper Types Upgrade QuotaParams QuotaTable VmDb AccountQuota.
From S2P Require Import Builtin Opcodes AccountBlock CreateData Machine Instructions GasTable JumpTable.
From S2P Require Import Interpreter Vm World InstructionSafety GasSafety Safety Termination VmSpec.

(** ** Executions that need no fuel *)

Definition fuelless {A} (m : M A) : Prop := forall c, m c <> Starved.

Lemma fuelless_bind {A B} (m : M A) (k : A -> M B) :
  fuelless m -> (forall a, fuelless (k a)) -> fuelless (m ≫= k).
Proof. intros Hm Hk c; unfold mbind, M_bind; specialize (Hm c); destruct (m c); try done; apply Hk. Qed.

Lemma fuelless_or_return {A} rt (m : M A) (k : A -> M vm_result) :
  fuelless m -> (forall a, fuelless (k a)) -> fuelless (or_return rt m k).
Proof. intros Hm Hk c; unfold or_return; specialize (Hm c); destruct (m c); try done; apply Hk. Qed.

Lemma fuelless_try {A} (m : M A) : fuelless m -> fuelless (try m).
Proof. intros Hm c; unfold try; specialize (Hm c); by destruct (m c). Qed.

Lemma fuelless_reads {A} (f : vmDb -> result A) : fuelless (reads f).
Proof. intros c; unfold reads; by destruct (f (vc_db c)). Qed.

Lemma fuelless_doSend p b : fuelless (doSend p b).
Proof. intros c; unfold doSend; by destruct (DoSend p _ _) as [[[]]]. Qed.

Lemma fuelless_doReceive vm p b sb : fuelless (doReceive vm p b sb).
Proof. intros c; unfold doReceive; by destruct (DoReceive p _ _ _ _) as [[[]]]. Qed.

Lemma fuelless_receipt vm err : fuelless (getReceiveCallData vm err).
Proof. intros c; unfold getReceiveCallData; by destruct (db_GetReceiptHash _ _). Qed.

Create HintDb fuelless.
#[export] Hint Resolve fuelless_reads fuelless_doSend fuelless_doReceive fuelless_receipt : fuelless.

Ltac fuelless :=
  repeat match goal with
  | |- forall _, fuelless _ => intros ?
  | |- fuelless (if ?x then _ else _) => destruct x
  | |- fuelless (match ?x with _ => _ end) => destruct x
  | |- fuelless (mbind _ _) => apply fuelless_bind; [|intros ?]
  | |- fuelless (or_return _ _ _) => apply fuelless_or_return; [|intros ?]
  | |- fuelless (try _) => apply fuelless_try
  | |- fuelless (lift _) => apply fuelless_reads
  | |- fuelless _ => solve [auto with fuelless | intros ?; done]
  end.

Lemma fuelless_addBalance id o : fuelless (addBalance id o).
Proof. unfold addBalance; fuelless. Qed.

Lemma fuelless_subBalance id o : fuelless (subBalance id o).
Proof. unfold subBalance; fuelless. Qed.

Lemma fuelless_updateBlock vm b err qs qu : fuelless (updateBlock vm b err qs qu).
Proof. unfold updateBlock; fuelless. Qed.
#[export] Hint Resolve fuelless_addBalance fuelless_subBalance fuelless_updateBlock : fuelless.

Lemma fuelless_sendCall vm b uq qt qa : fuelless (sendCall vm b uq qt qa).
Proof. unfold sendCall; fuelless. Qed.
#[export] Hint Resolve fuelless_sendCall : fuelless.

Lemma fuelless_doSendBlockList vm : fuelless (doSendBlockList vm).
Proof.
  assert (Hl : forall l, fuelless (sendAll vm l)).
  { induction l; cbn [sendAll]; unfold sendOne, sendReward, sendRefund; fuelless. }
  unfold doSendBlockList; fuelless; apply Hl.
Qed.
#[export] Hint Resolve fuelless_doSendBlockList : fuelless.

Lemma fuelless_refundAndFinish vm b sb data need bt err qs qu :
  fuelless (refundAndFinish vm b sb data need bt err qs qu).
Proof. unfold refundAndFinish, doRefund, sendRefunds, withReceiptAndSends, withReceipt; fuelless. Qed.
#[export] Hint Resolve fuelless_refundAndFinish : fuelless.

Lemma fuelless_finishContract vm b sb err qt qa q : fuelless (finishContract vm b sb err qt qa q).
Proof. unfold finishContract, withReceiptAndSends; fuelless. Qed.
#[export] Hint Resolve fuelless_finishContract : fuelless.

Lemma fuelless_installCode vm b sb code err q : fuelless (installCode vm b sb code err q).
Proof. unfold installCode, withReceiptAndSends; fuelless. Qed.

Lemma fuelless_sendV2 vm b : fuelless (sendV2 vm b).
Proof. unfold sendV2, sendCreate; fuelless. Qed.
#[export] Hint Resolve fuelless_installCode : fuelless.

(** ** The run of the code *)

(** The most rounds a block can take. *)
Definition block_rounds : Z := 1025 * quotaLimitForBlock.

Lemma GetQuotaForBlock_limit box cfg d addr st diff h t a :
  GetQuotaForBlock box cfg d addr st diff h = Ok (t, a) -> t <= quotaLimitForBlock.
Proof.
  unfold GetQuotaForBlock; intros H; apply bind_OkE in H as (r & _ & H); destruct (qr_err r); [done|].
  destruct (Z.ltb_spec quotaLimitForBlock (qr_total r)); [destruct (_ <? _)|]; simplify_eq; lia.
Qed.

Lemma UseQuota_limit q cost r l : UseQuota q cost = Ok r -> 0 <= cost -> q <= l < 2 ^ 64 -> is_u64 r /\ r <= l.
Proof.
  intros H Hc Hq; split; [by eapply UseQuota_u64|]; unfold UseQuota in H.
  destruct (Z.ltb_spec q cost); simplify_eq; rewrite u64_small; unfold is_u64; lia.
Qed.

(** After the amount was added to a fresh database, the code ends. *)
Lemma runCode_ends n h st block sendBlock d data code q x c1 :
  let vm := machineAt n h st in
  receive_ok vm d block sendBlock -> block_rounds < Z.of_nat (n_fuel n) ->
  len data < 2 ^ 62 -> len code < 2 ^ 62 -> is_u64 q -> q <= quotaLimitForBlock ->
  addBalance (TokenId sendBlock) (Amount sendBlock) (mkContext d []) = Done x c1 ->
  runCode vm block sendBlock data code q c1 <> Starved.
Proof.
  intros vm Hok Hfuel Hd Hc Hq Hl H; apply addBalance_Done in H as (a & bal & Ea & Ebal & ->).
  destruct (ro_amount _ _ _ _ Hok _ _ Ea Ebal) as [_ Hword]; unfold runCode; cbn [vc_db vc_sends].
  pose proof (run_ends (contractEnv vm block sendBlock data code) (n_box n) h q
    (db_SetBalance d (TokenId sendBlock) (bal + a)) [] (n_fuel n)) as Hrun.
  change (vm_i vm) with (newInterpreter (n_box n) h false).
  destruct (runLoop _ _ _ _ _ _); try done; exfalso; apply Hrun; [| | | | |done].
  - by apply (ro_env _ _ _ _ Hok).
  - apply db_ok_SetBalance; [apply Hok|done].
  - simpl; by rewrite (ro_fresh _ _ _ _ Hok).
  - done.
  - unfold block_rounds in Hfuel; lia.
Qed.

Lemma block_cost_nonneg box h data base k c : BlockGasCost data base k (QuotaTableByHeight box h) = Ok c -> 0 <= c.
Proof.
  intros H; pose proof (tok_pos _ (QuotaTableByHeight_ok box h) TxDataQuota ltac:(in_fields)).
  pose proof (BlockGasCost_ok data base k (QuotaTableByHeight box h) ltac:(lia)) as Hc; rewrite H in Hc; apply Hc.
Qed.

Lemma bind_ends {A B} (m : M A) (k : A -> M B) c :
  m c <> Starved -> (forall a c1, m c = Done a c1 -> k a c1 <> Starved) -> (m ≫= k) c <> Starved.
Proof. unfold mbind, M_bind; intros Hm Hk; destruct (m c); try done; by apply Hk. Qed.

Lemma or_return_ends {A} rt (r : result A) k c :
  (forall a, r = Ok a -> k a c <> Starved) -> or_return rt (lift r) k c <> Starved.
Proof. unfold or_return, lift, reads; intros Hk; destruct r; try done; by apply Hk. Qed.

Section Receiving.
Context (n : node) (h : Z) (st : option GlobalStatus) (block sendBlock : AccountBlock) (d : vmDb).
Let vm := machineAt n h st.
Hypothesis Hok : receive_ok vm d block sendBlock.
Hypothesis Hfuel : block_rounds < Z.of_nat (n_fuel n).

Lemma receiveContract_ends meta : receiveContract vm block sendBlock meta (mkContext d []) <> Starved.
Proof.
  unfold receiveContract; apply bind_ends; [apply fuelless_reads|intros [qt qa] c1 E].
  apply reads_Done in E as [E ->]; apply or_return_ends; intros cost Ec.
  apply or_return_ends; intros ql Eq; apply bind_ends; [apply fuelless_addBalance|intros [] c1 Ea].
  destruct meta as [meta|]; [|destruct (CalcQuotaUsed _ _ _ _ _); apply fuelless_bind; fuelless].
  apply bind_ends; [apply fuelless_reads|intros [x code] c2 E2]; apply reads_Done in E2 as [Ecode ->].
  apply bind_ends; [|intros [[ret err] q'] c3 _; apply fuelless_finishContract].
  assert (Hlim : is_u64 ql /\ ql <= quotaLimitForBlock).
  { eapply UseQuota_limit; [exact Eq| |].
    - exact (block_cost_nonneg (n_box n) h _ _ _ _ Ec).
    - split; [|done]; unfold orPanic in E; destruct (blockQuota _ _ _) as [p| |] eqn:Eb; simplify_eq.
      unfold blockQuota in Eb; apply bind_OkE in Eb as (stk & _ & Eb); by eapply GetQuotaForBlock_limit. }
  eapply runCode_ends; [exact Hok|exact Hfuel|apply Hok| |apply Hlim|apply Hlim|exact Ea].
  apply addBalance_Done in Ea as (a & bal & _ & _ & ->).
  eapply GetContractCode_len; [exact Ecode|]; intros cd; apply (ro_code _ _ _ _ Hok).
Qed.

Lemma receiveCreate_ends meta : receiveCreate vm block sendBlock meta (mkContext d []) <> Starved.
Proof.
  unfold receiveCreate; apply bind_ends; [apply fuelless_reads|intros [?|] c1 E]; [done|].
  apply reads_Done in E as [_ ->]; apply or_return_ends; intros ql Eq.
  apply bind_OkE in Eq as (cost & Ec & Eq); apply bind_ends; [apply fuelless_addBalance|intros [] c1 Ea].
  apply bind_ends; [apply fuelless_reads|intros code c2 E2]; apply lift_Done in E2 as [Ecode ->].
  assert (Hcode : len code < 2 ^ 62).
  { pose proof (ro_data _ _ _ _ Hok); unfold GetCodeFromCreateContractData, data_from in Ecode.
    unfold len in *; destruct (negb _); destruct (_ <? _)%nat; simplify_eq; rewrite length_drop; lia. }
  apply bind_ends.
  2: { intros [[ret err] q'] c3 _; unfold sendRefunds, withReceiptAndSends, withReceipt; apply fuelless_bind; fuelless. }
  assert (Hlim : is_u64 ql /\ ql <= quotaLimitForBlock).
  { eapply UseQuota_limit; [exact Eq|exact (block_cost_nonneg (n_box n) h _ _ _ _ Ec)|done]. }
  eapply runCode_ends; [exact Hok|exact Hfuel|done|done|apply Hlim|apply Hlim|exact Ea].
Qed.

Lemma receiveCall_ends meta : receiveCall vm block sendBlock meta (mkContext d []) <> Starved.
Proof.
  unfold receiveCall; apply bind_ends; [apply fuelless_reads|intros deep c1 E]; apply reads_Done in E as [_ ->].
  destruct deep; [apply fuelless_bind; fuelless|].
  destruct (GetBuiltinContractMethod _ _ _ _ _); [|done|apply receiveContract_ends].
  unfold receiveBuiltin, withReceiptAndSends; apply fuelless_or_return; fuelless.
Qed.
End Receiving.

(** C18 Processing a block always ends: for every block, sent or received, on
    every chain, [RunV2] takes at most 1025 interpreter rounds for each unit of
    the quota limit of a block, whatever the code of the contract. *)
Theorem block_terminates n d block sendBlock st sb :
  db_LatestSnapshotBlock d = Ok sb ->
  (forall s, sendBlock = Some s ->
     receive_ok (machineAt n (sb_Height sb) st) d (set_Data (Copy block) []) s) ->
  block_rounds < Z.of_nat (n_fuel n) ->
  RunV2 n d block sendBlock st <> Starved.
Proof.
  intros Hsb Hok Hfuel; unfold RunV2; rewrite Hsb; cbn [DealWithErr].
  enough (Hr : forall x, x <> Starved -> finished x <> Starved).
  { destruct (IsSendBlock _); apply Hr; clear Hr; [apply fuelless_sendV2|]; unfold receiveV2.
    apply bind_ends; [apply fuelless_reads|intros meta c1 E]; apply reads_Done in E as [_ ->].
    apply bind_ends; [apply fuelless_reads|intros s c1 E]; apply lift_Done in E as [E ->].
    destruct sendBlock as [s'|]; [|done]; injection E as ->; specialize (Hok s eq_refl).
    unfold receiveReward, receiveRefund, receivePlain.
    destruct (_ =? BlockTypeSendCreate); [by apply receiveCreate_ends|].
    destruct (_ =? BlockTypeSendCall); [by apply receiveCall_ends|].
    destruct (_ =? BlockTypeSendReward); [destruct (negb _); [by apply receiveCall_ends|]|destruct (_ =? _); [|done]];
      apply fuelless_bind; fuelless. }
  intros [] Hx; done.
Qed.

(** The example node with enough fuel for any block. *)
Definition patient_node : node :=
  mkNode example_box false (InitQuotaConfig false false) example_contracts (fun _ => ZERO_HASH)
    (fun _ => ZERO_HASH) (fun _ => zero_bytes 20) (fun _ n => n) (fun _ => false)
    (Z.to_nat (block_rounds + 1)).

Lemma block_terminates_witness :
  RunV2 patient_node (contract_db pay_code) example_receive (Some example_call) None <> Starved.
Proof.
  apply (block_terminates patient_node (contract_db pay_code) example_receive (Some example_call) None
           (mkSnapshotBlock ZERO_HASH 100 0) eq_refl).
  - intros s [= <-]; destruct (contract_receive_ok pay_code) as [He H1 H2 H3 H4 H5]; [vm_compute; reflexivity|].
    split; [exact He|exact H1|exact H2|exact H3|exact H4|exact H5].
  - simpl; rewrite Z2Nat.id; [apply Z.lt_succ_diag_r|vm_compute; discriminate].
Defined.
